(* ===== verification/_CoqProject ===== *)
-Q . S2P
Prelude.v
Page.v
Bubble.v
Pfa.v
PfaSpec.v
PfaRun.v
Pmm.v
PmmSort.v
PmmSpec.v
PmmInit.v
PmmThms.v
PfaInit.v
PfaInitSpec.v
PfaBoot.v
Mmu.v
Registers.v
Paging.v
PagingSpec.v
PagingBoot.v
PagingThms.v
Dlist.v
Kmalloc.v
KmallocSpec.v
KmallocPages.v
KmallocOps.v
KmallocRun.v
KmallocThms.v
Libc.v
Atomic.v
Printf.v
PrintfSpec.v
Format.v
Io.v
Keys.v
World.v
Irq.v
Clock.v
Isr.v
Entry.v
Ps2driver.v
Ps2ctrl.v
Keyboard.v
IsrSpec.v
Ps2Spec.v
KeyboardSpec.v
Pc.v
EntrySpec.v
Ps2ctrlSpec.v
IrqThms.v
Ps2Start.v
Ps2Boot.v
DriverThms.v
Descriptors.v
Console.v
ConsoleSpec.v
Log.v
Frames.v
Symbols.v
SymbolSpec.v
CTypes.v
Startup.v
Panic.v
PanicSpec.v
Dumps.v
Stop.v
Boot.v
Kernel.v
KernelSpec.v
KernelThms.v
KernelDemo.v
