(* ===== verification/Prelude.v ===== *)
(** * The ahos verification development

    A model of the ahos kernel (a 32-bit x86 teaching kernel booted by multiboot)
    and of its small C library, with the theorems that make its parts correct.
    This file is the root: after this header come the machine integers, the error
    monad, the loops and the arrays that all the other files share.

    ** The program and the files

    The kernel starts in [kernel_main] (kernel/kernel/kernel.c): it sets up the
    segments, the serial line and the screen, builds the physical memory map from
    what the boot loader left, the page frame allocator on top of it and paging on
    top of both, then the interrupt table, the interrupt controllers and the
    clock, loads the symbols, starts the keyboard and runs the keyboard task for
    ever.

    Memory.
    - [Page]: the constants and masks of mem/memory.h, [page_align].
    - [Bubble]: the bubble sort with the last-swap optimisation, shared by the two
      sorts of phys_mem_map.c.
    - [Pfa], [PfaSpec], [PfaRun]: [pfa_alloc] and [pfa_free] of
      mem/page_frame_allocator.c on the page maps of the regions; the abstract
      state is the map from blocks to their sizes, which the two functions refine
      (C1 to C3), also over runs (C4, C5).
    - [Pmm], [PmmSort], [PmmSpec], [PmmInit], [PmmThms]: mem/phys_mem_map.c, from
      the multiboot entries to the map of the physical memory, in the storage the
      code computes for it (C6 to C9).
    - [PfaInit], [PfaInitSpec], [PfaBoot]: [pfa_init] and the layout of the
      metadata; from boot on no allocated frame holds a byte of the kernel, of the
      maps or of the module (C11, C12).
    - [Mmu]: registers.c and the walk of the page tables with its translation
      cache; [Registers]: the bit fields of registers.h as views of a word, and
      that [Mmu] writes the fields that the code assigns; [Paging], [PagingSpec], [PagingBoot], [PagingThms]:
      mem/paging.c before and after paging is enabled (C13 to C16).
    - [Boot]: [mem_init] of kernel/init.c, the three initialisations one on the
      result of the other; it stops the kernel only when no area of the map can hold
      a table (C30).
    - [Dlist]: kernel/list.h, intrusive lists by address (C17).
    - [Kmalloc] and the files of its name: mem/kmalloc.c.  It is proved against
      the interface [PageOps] with the laws [PageLaws], which [KmallocPages]
      discharges with the page frame allocator and paging.  A request is refused, or
      stops the kernel, only for a reason that the specification names ([refused],
      [stopped]); the runs are those of requests of at most 2 GB, above which the
      rounding of the size wraps (C19 to C22).

    C library.
    - [Libc]: string/*.c and atoh.c on byte memory (C23).
    - [Atomic]: the accesses and the locked instructions of atomic.h on byte memory;
      increments wrap, as those of the clock in [Clock] do.
    - [Printf], [PrintfSpec]: printf.c; numbers are printed as their digits, and
      atoh reads back what sprintf prints (C26, C27).
    - [Format]: abstract formats, what they are written as and the text they
      denote; [vsprintf] implements them (C25).

    Drivers.
    - [Io]: the monad of the drivers, a total-correctness [wp], and the interface
      [Hardware] with its laws [HardwareLaws].
    - [Keys], [World]: the tables of keyboard.c, and the state of the drivers.
    - [Irq], [Clock], [Isr], [Ps2driver], [Ps2ctrl], [Keyboard]: the functions of
      irq.c, interrupt.c, clock.c, timeout.c, scheduler.c, idt.c, ps2driver.c,
      ps2ctrl.c, keyboard.c and a round of the main loop.
    - [IsrSpec], [Ps2Spec], [KeyboardSpec], [Ps2ctrlSpec]: their specifications;
      [Ps2Start] and [Ps2Boot]: the start of the drivers from the state of the
      boot, whatever the devices answer, and the rounds of the main loop;
      [IrqThms] and [DriverThms]: their theorems (C28, C31 to C33, C35, C36).
    - [Entry], [EntrySpec]: boot.S and isr_wrapper.S, the instructions between an
      interrupt and [isr_handler], on the registers and the stack (C18).
    - [Startup]: the Multiboot header, the way from [_start] through the frame of
      [_init] (crti.S, crtn.S) to [kernel_main], the segment registers that
      [gdt_setup] of gdt.c reloads and the one that it does not (C24),
      [stack_alloc] and [stack_free] of memory.h.
    - [Pc]: a concrete machine with the laws, on which the instances run.

    Descriptors, structures, console and symbols.
    - [Descriptors]: gdt.c, tools/gdt_descriptor.c and the table of idt.c (C37,
      C38).
    - [Console], [ConsoleSpec]: vga.c, terminal.c, serial.c, putchar.c and
      [kernel_early_init]; [printf] on them shows the text of any abstract
      format (C39).
    - [Log]: [puts] and the messages of log.c and log.h (C29).
    - [Symbols], [SymbolSpec]: symbol.c, with the allocator as the interface
      [HeapOps] (C40); the messages that its two searches log are in [Panic].
    - [CTypes]: sizes, alignments and offsets of the C types, and the structures of
      the headers and of the memory files: the numbers that the other files use
      are those of the declarations.
    - [Panic], [PanicSpec]: panic.c on the console, the symbols and the stack, with
      what [symbol_find] and [symbol_lookup] log on the way: a message repaints the
      terminal even when its level is not printed, so a report is a list of parts,
      plain text and messages (C10); [Stop]: [abort] and the macros of types.h, which call it.
    - [Dumps]: the debugging dumps of the memory files and of ps2ctrl.c; they only
      print, and that of the memory map prints its entries.
    - [Frames]: the console leaves the interrupt controllers alone, and the drivers
      leave the devices of the console alone, on the hardware that they share
      ([SharedLaws]).

    The kernel as a whole.
    - [Kernel]: kernel.c and init.c on the state of all the components together.
      The console, the symbols and panic share a byte memory; the heap runs on the
      pages of the allocator; the drivers see the same hardware as the console.
    - [KernelSpec]: the messages and the drivers between two points of the boot;
      [KernelThms]: from the image that the linker and a conforming boot loader
      promise, [kernel_main] reaches the main loop and goes through any number of
      its rounds (C34); [KernelDemo]: a concrete machine that boots.

    ** How the code is modelled

    Unsigned words are [Z] with their wrap-around written out ([u8], [u16],
    [u32]); pointers are addresses, except those to an element of an array, which
    are indices.  A function that can fail returns [res]: [Panic] is a call of
    [panic()], [Oob] an access out of an array or of the mapped memory, [NoFuel]
    the fuel of a loop running out.  Theorems that say that a function returns
    exclude [NoFuel] and [Oob].

    Interrupts are taken at explicit points of the task code, between any two
    accesses to what a handler shares: the class [Hardware] decides which vector
    comes, if any, and the handler runs to its end, as the gates of the table
    disable interrupts.  The theorems on the drivers hold for every hardware with
    the laws of [HardwareLaws] (the 8259A as its data sheet describes it, a timer
    that fires within [patience] points while its line is open), so for every
    arrival of interrupts and every answer of the devices.
    [Clock] also has the pace of time ([pace]): a point counts at most one tick
    (the law [poll_counts]), and a wait ends at the first tick that completes it, so
    that a driver function lets a bounded number of ticks pass, and the overflow of
    the tick counter is excluded whenever it starts that far from its end.  The
    laws have one ghost observation of the hardware, the bytes that its data port
    has delivered so far ([data_read]): a read of the port adds the byte it returns
    to them, nothing else does, so that a theorem can tell which bytes came in.

    The console, the symbols and panic run on one byte memory, where the string
    literals, the buffers on the stack and the screen are: the classes [Layout]
    and [PanicLayout] say where the compiler and the linker put them, and the
    theorems hold for every layout that keeps them apart.

    ** Bounds and fuel

    - [for_loop], [for_ctl], [st_for]: the number of rounds is the bound of the C
      loop.
    - [wait_fuel]: an active wait of n ticks polls at most [polls_per_tick] times
      per tick, which [ClockedLaws] guarantee ([wp_wait]).
    - [walk_fuel]: a walk over a string is not longer than the memory; nor is the
      walk of [panic] over a chain of frames that ends, since the frames are at
      different addresses ([chain_fuel]).
    - [list_fuel]: a walk over a list is not longer than the nodes in use.
    - [mmap_fuel]: the entries of the boot loader's map are 24 bytes long, which an
      access through [mmap_index] requires.
    - the fuel of the loops of [pfa_alloc_multiple] and [pfa_free] is the length
      of the page map, that of [sort_phys_mmap] the length of the list.
    - [kmalloc_depth] and [kfree_depth] 2: the metadata of a big allocation is a
      small one.  [putchar_depth] 2: a tabulation prints three spaces.

    ** What is not modelled

    - outside of [Log], [Panic], [Dumps] and [Kernel] the calls of [printf], of the
      log macros and of the dumps are left out, so that what the serial line shows
      of a boot is stated only where nothing else prints.
    - the infinite loop at the end of [panic], which does nothing; everywhere but
      in [Panic] a panic is the fault [Panic], which ends the run.
    - the constructors that the compiler puts between crti.S and crtn.S, and the
      linker script: the former are a parameter of [Startup], the addresses of the
      latter (the stubs, the bounds of the kernel) parameters of the definitions.
    - the instructions behind the ports and the control registers are operations of
      the hardware; [Startup] and [Entry] have the other registers, each on a
      machine of its own.
    - the memory of the page tables, of the allocators' metadata and of the
      drivers is typed state; it is not carved out of the byte memory of the
      console, which the theorem on the boot only requires to hold the image, the
      module and the available frames.
    - In the world of the drivers a page fault is a panic; its handler is modelled
      in [Paging], where every path of it stops the kernel.
    - the branch of [abort] for a hosted library, which the build does not compile,
      and the code under [#if 0] of idt.c and ps2ctrl.c.
    - the constants that no code uses (registers of the serial line that the driver
      never touches, Multiboot flags, modes of the timer, commands of scan code
      set 3), the prototypes of the headers, the names [LOG_MODULE], which are
      arguments of the messages. *)
From stdpp Require Export base tactics numbers list gmap strings.
From Stdlib Require Export ZArith Lia.

#[global] Open Scope Z_scope.
#[export] Set Warnings "-clear-no-such-hyp".

(** ** Machine integers *)

(** An unsigned w-bit value is a [Z] in [0, 2^w); the wrap-around of C's
    unsigned arithmetic is written out as a reduction modulo 2^w. *)
Definition u8 (x : Z) : Z := x mod 2 ^ 8.
Definition u16 (x : Z) : Z := x mod 2 ^ 16.
Definition u32 (x : Z) : Z := x mod 2 ^ 32.

(** Two's complement reading of a 32-bit value ([int32_t], [int] and [long] on
    i386) and of a 16-bit one ([short]). *)
Definition s32 (x : Z) : Z := (x + 2 ^ 31) mod 2 ^ 32 - 2 ^ 31.
Definition s16 (x : Z) : Z := (x + 2 ^ 15) mod 2 ^ 16 - 2 ^ 15.

Definition is_u8 (x : Z) : Prop := 0 <= x < 2 ^ 8.
Definition is_u16 (x : Z) : Prop := 0 <= x < 2 ^ 16.
Definition is_u32 (x : Z) : Prop := 0 <= x < 2 ^ 32.

Declare Scope word_scope.
Delimit Scope word_scope with W.
Notation "x ⊕ y" := (u32 (x + y)) (at level 50, left associativity) : word_scope.
Notation "x ⊖ y" := (u32 (x - y)) (at level 50, left associativity) : word_scope.
Notation "x ⊗ y" := (u32 (x * y)) (at level 40, left associativity) : word_scope.
#[global] Open Scope word_scope.

(** ** Outcomes *)

(** What stops the kernel, or what the C standard leaves undefined:
    - [Panic]: the code calls [panic()], [NOT_IMPLEMENTED()] or [abort()];
    - [Oob]: an array or memory access outside of its object;
    - [NoFuel]: a loop of the model used up its fuel. *)
Inductive fault :=
  | Panic (why : string)
  | Oob
  | NoFuel.

Inductive res (A : Type) :=
  | Ok (a : A)
  | Err (f : fault).
Arguments Ok {A} _.
Arguments Err {A} _.

#[export] Instance fault_eq_dec : EqDecision fault.
Proof. solve_decision. Defined.

#[export] Instance res_eq_dec {A} `{EqDecision A} : EqDecision (res A).
Proof. solve_decision. Defined.

#[export] Instance res_ret : MRet res := fun A a => Ok a.
#[export] Instance res_bind : MBind res :=
  fun A B f m => match m with Ok a => f a | Err e => Err e end.

(** [is_Ok m]: the computation returns. *)
Definition is_Ok {A} (m : res A) : Prop := exists a, m = Ok a.

Definition okb {A} (m : res A) : bool := match m with Ok _ => true | Err _ => false end.

Lemma okb_Err {A} (m : res A) f : okb m = true -> m <> Err f.
Proof. by destruct m. Qed.

Lemma bind_Ok {A B} (m : res A) (f : A -> res B) b :
  (m ≫= f) = Ok b <-> exists a, m = Ok a /\ f a = Ok b.
Proof. destruct m; simpl; naive_solver. Qed.

Lemma bind_Err {A B} (m : res A) (f : A -> res B) e :
  (m ≫= f) = Err e <-> m = Err e \/ exists a, m = Ok a /\ f a = Err e.
Proof. destruct m; simpl; naive_solver. Qed.

Lemma bind_assoc {A B C} (m : res A) (f : A -> res B) (g : B -> res C) :
  ((m ≫= f) ≫= g) = (m ≫= fun a => f a ≫= g).
Proof. by destruct m. Qed.

(** Splits every [bind] that is known to return. *)
Ltac inv_res :=
  repeat match goal with
  | H : (_ ≫= _) = Ok _ |- _ => apply bind_Ok in H as (? & ? & H)
  | H : Ok _ = Ok _ |- _ => injection H as H; subst
  | H : mret _ = Ok _ |- _ => injection H as H; subst
  | H : Err _ = Ok _ |- _ => discriminate H
  | H : Ok _ = Err _ |- _ => discriminate H
  | H : is_Ok _ |- _ => destruct H as [? H]
  end; simplify_eq.

(** ** Loops *)

(** The body of a C loop either goes on with a new state or leaves the loop
    ([return], [goto], [break]) with a value. *)
Inductive ctl (R S : Type) :=
  | Next (s : S)
  | Leave (r : R).
Arguments Next {R S} _.
Arguments Leave {R S} _.

(** [for (i = i0; n more times; ++i) body]. *)
Fixpoint for_loop {S} (n : nat) (i : Z) (body : Z -> S -> res S) (s : S) : res S :=
  match n with
  | O => Ok s
  | S n' => s' ← body i s; for_loop n' (i + 1) body s'
  end.

(** The same with a body that can leave. *)
Fixpoint for_ctl {R S} (n : nat) (i : Z) (body : Z -> S -> res (ctl R S)) (s : S)
  : res (ctl R S) :=
  match n with
  | O => Ok (Next s)
  | S n' =>
      c ← body i s;
      match c with
      | Next s' => for_ctl n' (i + 1) body s'
      | Leave r => Ok (Leave r)
      end
  end.

(** [while (1) body]: only the body ends the loop. *)
Fixpoint loop_ctl {R S} (fuel : nat) (body : S -> res (ctl R S)) (s : S) : res R :=
  match fuel with
  | O => Err NoFuel
  | S fuel =>
      c ← body s;
      match c with
      | Next s' => loop_ctl fuel body s'
      | Leave r => mret r
      end
  end.

Lemma loop_ctl_S {R S} n (body : S -> res (ctl R S)) s :
  loop_ctl (Datatypes.S n) body s =
  (c ← body s; match c with Next s' => loop_ctl n body s' | Leave r => mret r end).
Proof. done. Qed.

(** A loop over the elements of a list. *)
Fixpoint list_ctl {A R S} (l : list A) (body : A -> S -> res (ctl R S)) (s : S)
  : res (ctl R S) :=
  match l with
  | [] => Ok (Next s)
  | x :: l =>
      c ← body x s;
      match c with
      | Next s' => list_ctl l body s'
      | Leave r => Ok (Leave r)
      end
  end.

Lemma for_loop_inv {S} (I : Z -> S -> Prop) (body : Z -> S -> res S) n i s :
  I i s ->
  (forall j t, i <= j < i + Z.of_nat n -> I j t ->
     exists t', body j t = Ok t' /\ I (j + 1) t') ->
  exists s', for_loop n i body s = Ok s' /\ I (i + Z.of_nat n) s'.
Proof.
  revert i s; induction n as [|n IH]; intros i s Hi Hb; simpl.
  - exists s; split; [done|]. by replace (i + Z.of_nat 0) with i by lia.
  - destruct (Hb i s ltac:(lia) Hi) as (t & -> & Ht); simpl.
    destruct (IH (i + 1) t Ht) as (t' & -> & Ht').
    { intros j u Hj. apply Hb. lia. }
    exists t'; split; [done|].
    by replace (i + Z.of_nat (Datatypes.S n)) with (i + 1 + Z.of_nat n) by lia.
Qed.

(** The same for a body that can stop the kernel. *)
Lemma for_loop_inv_err {S} (E : fault -> Prop) (I : Z -> S -> Prop) (body : Z -> S -> res S) n i s :
  I i s ->
  (forall j t, i <= j < i + Z.of_nat n -> I j t ->
     (exists t', body j t = Ok t' /\ I (j + 1) t') \/ exists e, body j t = Err e /\ E e) ->
  (exists s', for_loop n i body s = Ok s' /\ I (i + Z.of_nat n) s') \/
  exists e, for_loop n i body s = Err e /\ E e.
Proof.
  revert i s; induction n as [|n IH]; intros i s Hi Hb; simpl.
  - left. exists s; split; [done|]. by replace (i + Z.of_nat 0) with i by lia.
  - destruct (Hb i s ltac:(lia) Hi) as [(t & -> & Ht)|(e & -> & He)]; simpl; [|right; by eexists].
    replace (i + Z.of_nat (Datatypes.S n)) with (i + 1 + Z.of_nat n) by lia.
    apply IH; [done|]. intros j u Hj. apply Hb. lia.
Qed.

Lemma for_loop_ext {S} (body body' : Z -> S -> res S) n i i' s :
  (forall j t, 0 <= j < Z.of_nat n -> body (i + j) t = body' (i' + j) t) ->
  for_loop n i body s = for_loop n i' body' s.
Proof.
  revert i i' s; induction n as [|n IH]; intros i i' s H; simpl; [done|].
  pose proof (H 0 s ltac:(lia)) as H0. rewrite !Z.add_0_r in H0. rewrite H0.
  destruct (body' i' s) as [s'|f]; simpl; [|done].
  apply IH. intros j t Hj. rewrite <- !Z.add_assoc. apply H. lia.
Qed.

(** A loop that only its body ends: an invariant and a measure. *)
Lemma loop_ctl_measure {R S} (I : S -> Prop) (mu : S -> nat) (Q : R -> Prop)
    (body : S -> res (ctl R S)) fuel s :
  I s -> (mu s < fuel)%nat ->
  (forall t, I t -> (exists r, body t = Ok (Leave r) /\ Q r) \/
     (exists t', body t = Ok (Next t') /\ I t' /\ (mu t' < mu t)%nat)) ->
  exists r, loop_ctl fuel body s = Ok r /\ Q r.
Proof.
  intros Hs Hf Hb. revert s Hs Hf. induction fuel as [|fuel IH]; intros s Hs Hf; [lia|].
  simpl. destruct (Hb s Hs) as [(r & -> & Hr)|(t & -> & Ht & Hmu)]; simpl.
  - by exists r.
  - apply IH; [done|lia].
Qed.

(** A loop that searches: each iteration leaves or keeps the state. *)
Lemma for_ctl_search {R S} (Q : Z -> option R -> Prop)
    (body : Z -> S -> res (ctl R S)) n i s :
  (forall j, i <= j < i + Z.of_nat n ->
     (exists r, body j s = Ok (Leave r) /\ Q j (Some r)) \/
     (body j s = Ok (Next s) /\ Q j None)) ->
  (exists j r, i <= j < i + Z.of_nat n /\ for_ctl n i body s = Ok (Leave r) /\
     Q j (Some r) /\ forall k, i <= k < j -> Q k None) \/
  (for_ctl n i body s = Ok (Next s) /\ forall k, i <= k < i + Z.of_nat n -> Q k None).
Proof.
  revert i; induction n as [|n IH]; intros i Hb; simpl; [right; split; [done|lia]|].
  destruct (Hb i ltac:(lia)) as [(r & -> & Hr)|[-> HN]]; simpl.
  { left. exists i, r. split_and!; [lia|lia|done|done|lia]. }
  destruct (IH (i + 1)) as [(j & r & Hj & -> & HQ & Hk)|[-> Hk]].
  { intros j Hj. apply Hb. lia. }
  - left. exists j, r. split_and!; [lia|lia|done|done|]. intros k Hk'.
    destruct (decide (k = i)) as [->|]; [done|]. apply Hk. lia.
  - right. split; [done|]. intros k Hk'.
    destruct (decide (k = i)) as [->|]; [done|]. apply Hk. lia.
Qed.

(** A loop that keeps the state or fails. *)
Lemma for_ctl_scan {R S} (e : fault) (body : Z -> S -> res (ctl R S)) n i s :
  (forall j, i <= j < i + Z.of_nat n -> body j s = Ok (Next s) \/ body j s = Err e) ->
  for_ctl n i body s = Ok (Next s) \/ for_ctl n i body s = Err e.
Proof.
  revert i; induction n as [|n IH]; intros i Hb; simpl; [by left|].
  destruct (Hb i ltac:(lia)) as [-> | ->]; simpl; [|by right].
  apply IH. intros j Hj. apply Hb. lia.
Qed.

(** The same for a loop over a list; [N] holds of the elements passed over. *)
Lemma list_ctl_find {A R S} (Q : A -> R -> Prop) (N : A -> Prop) (body : A -> S -> res (ctl R S)) l s :
  (forall x, x ∈ l -> (exists r, body x s = Ok (Leave r) /\ Q x r) \/ (body x s = Ok (Next s) /\ N x)) ->
  (exists x r, x ∈ l /\ list_ctl l body s = Ok (Leave r) /\ Q x r) \/
  (list_ctl l body s = Ok (Next s) /\ forall x, x ∈ l -> N x).
Proof.
  induction l as [|y l IH]; intros Hb; simpl.
  { right. split; [done|]. by intros x ?%not_elem_of_nil. }
  destruct (Hb y) as [(r & -> & Hr)|[-> Hy]]; [apply list_elem_of_here| |]; simpl.
  - left. exists y, r. split_and!; [apply list_elem_of_here|done|done].
  - destruct IH as [(x & r & Hx & -> & Hr)|[-> HN]].
    + intros x Hx. apply Hb. by apply list_elem_of_further.
    + left. exists x, r. split_and!; [by apply list_elem_of_further|done|done].
    + right. split; [done|]. intros x [->|Hx]%elem_of_cons; [done|by apply HN].
Qed.

Lemma list_ctl_search {A R S} (Q : A -> R -> Prop) (body : A -> S -> res (ctl R S)) l s :
  (forall x, x ∈ l -> (exists r, body x s = Ok (Leave r) /\ Q x r) \/ body x s = Ok (Next s)) ->
  (exists x r, x ∈ l /\ list_ctl l body s = Ok (Leave r) /\ Q x r) \/
  list_ctl l body s = Ok (Next s).
Proof.
  intros Hb. destruct (list_ctl_find Q (fun _ => True) body l s) as [?|[? _]]; [|by left|by right].
  intros x Hx. destruct (Hb x Hx); [by left|by right].
Qed.

Tactic Notation "loop_search" uconstr(Q) "as" simple_intropattern(p) :=
  match goal with
  | |- context [for_ctl ?n ?i ?b ?s] => destruct (for_ctl_search Q b n i s) as p
  end.

(** ** Arrays *)

(** C arrays are lists; an access out of range is the fault [Oob]. *)
Definition aget {A} (l : list A) (i : Z) : res A :=
  if 0 <=? i then match l !! Z.to_nat i with Some x => Ok x | None => Err Oob end
  else Err Oob.

Definition aset {A} (l : list A) (i : Z) (x : A) : res (list A) :=
  if (0 <=? i) && (i <? Z.of_nat (length l)) then Ok (<[Z.to_nat i := x]> l)
  else Err Oob.

Lemma aget_Ok {A} (l : list A) i x :
  aget l i = Ok x <-> 0 <= i /\ l !! Z.to_nat i = Some x.
Proof.
  unfold aget. destruct (Z.leb_spec 0 i); [|naive_solver lia].
  destruct (l !! Z.to_nat i); naive_solver.
Qed.

Lemma aget_nat {A} (l : list A) (i : nat) :
  aget l (Z.of_nat i) = match l !! i with Some x => Ok x | None => Err Oob end.
Proof.
  unfold aget. rewrite Nat2Z.id. destruct (Z.leb_spec 0 (Z.of_nat i)); [done|lia].
Qed.

Lemma aget_in {A} (l : list A) i :
  0 <= i < Z.of_nat (length l) -> exists x, aget l i = Ok x.
Proof.
  intros Hi. destruct (lookup_lt_is_Some_2 l (Z.to_nat i)) as [x Hx]; [lia|].
  exists x. apply aget_Ok. split; [lia|done].
Qed.

Lemma aset_Ok {A} (l : list A) i x l' :
  aset l i x = Ok l' <->
  0 <= i < Z.of_nat (length l) /\ l' = <[Z.to_nat i := x]> l.
Proof.
  unfold aset.
  destruct (Z.leb_spec 0 i), (Z.ltb_spec i (Z.of_nat (length l)));
    simpl; naive_solver lia.
Qed.

Lemma aset_in {A} (l : list A) i x :
  0 <= i < Z.of_nat (length l) -> aset l i x = Ok (<[Z.to_nat i := x]> l).
Proof. intros Hi. by apply aset_Ok. Qed.

Lemma aset_nat {A} (l : list A) (i : nat) x :
  (i < length l)%nat -> aset l (Z.of_nat i) x = Ok (<[i := x]> l).
Proof. intros Hi. rewrite aset_in by lia. by rewrite Nat2Z.id. Qed.

Lemma aget_mid {A} (l1 : list A) x l2 i :
  i = Z.of_nat (length l1) -> aget (l1 ++ x :: l2) i = Ok x.
Proof. intros ->. by rewrite aget_nat, list_lookup_middle. Qed.

Lemma aset_mid {A} (l1 : list A) x y l2 i :
  i = Z.of_nat (length l1) -> aset (l1 ++ x :: l2) i y = Ok (l1 ++ y :: l2).
Proof.
  intros ->. rewrite aset_nat by (rewrite length_app; simpl; lia).
  by rewrite insert_app_r_alt, Nat.sub_diag by lia.
Qed.

(** [R] holds between each element and those after it. *)
Fixpoint pairwise {A} (R : A -> A -> Prop) (l : list A) : Prop :=
  match l with
  | [] => True
  | x :: l => (forall y, y ∈ l -> R x y) /\ pairwise R l
  end.

Lemma pairwise_app {A} (R : A -> A -> Prop) l1 l2 :
  pairwise R (l1 ++ l2) <->
  pairwise R l1 /\ pairwise R l2 /\ (forall x y, x ∈ l1 -> y ∈ l2 -> R x y).
Proof.
  induction l1 as [|x l1 IH]; cbn [pairwise app].
  - split; [intros H; split_and!; [done|done|intros ?? []%not_elem_of_nil]|tauto].
  - rewrite IH. setoid_rewrite elem_of_app. setoid_rewrite elem_of_cons. naive_solver.
Qed.

Lemma pairwise_perm {A} (R : A -> A -> Prop) l1 l2 :
  (forall x y, R x y -> R y x) -> l1 ≡ₚ l2 -> pairwise R l1 -> pairwise R l2.
Proof.
  intros Hsym. induction 1 as [|x l l' Hp IH|x y l|]; cbn [pairwise]; [done|..].
  - intros [H1 H2]. split; [|by apply IH]. intros z Hz. apply H1. by rewrite Hp.
  - setoid_rewrite elem_of_cons. naive_solver.
  - auto.
Qed.

Lemma pairwise_lookup {A} (R : A -> A -> Prop) l i j x y :
  (forall x y, R x y -> R y x) -> pairwise R l -> i <> j ->
  l !! i = Some x -> l !! j = Some y -> R x y.
Proof.
  intros Hsym. revert i j x y. induction l as [|a l IH]; intros i j x y Hp Hij Hx Hy; [done|].
  destruct Hp as [Ha Hp], i as [|i], j as [|j]; cbn in Hx, Hy; simplify_eq.
  - apply Ha. by eapply list_elem_of_lookup_2.
  - apply Hsym, Ha. by eapply list_elem_of_lookup_2.
  - apply (IH i j); [done|congruence|done|done].
Qed.

Lemma pairwise_fmap_filter {A B} (f : A -> B) (P : A -> Prop) `{forall x, Decision (P x)}
    (R : A -> A -> Prop) (R' : B -> B -> Prop) l :
  (forall x y, P x -> P y -> R x y -> R' (f x) (f y)) ->
  pairwise R l -> pairwise R' (f <$> filter P l).
Proof.
  intros Hf. induction l as [|x l IH]; cbn [pairwise]; [done|]. intros [Hx Hl].
  destruct (decide (P x)); [rewrite filter_cons_True by done|by rewrite filter_cons_False; auto].
  cbn [fmap list_fmap pairwise]. split; [|by apply IH].
  intros y (z & -> & [Hz Hzl]%list_elem_of_filter)%list_elem_of_fmap. auto.
Qed.

(** ** Facts on words *)

Lemma u32_small x : 0 <= x < 2 ^ 32 -> u32 x = x.
Proof. apply Z.mod_small. Qed.

Lemma u32_range x : 0 <= u32 x < 2 ^ 32.
Proof. apply Z.mod_pos_bound. lia. Qed.

Lemma u8_small x : 0 <= x < 2 ^ 8 -> u8 x = x.
Proof. apply Z.mod_small. Qed.

Lemma u8_range x : 0 <= u8 x < 2 ^ 8.
Proof. apply Z.mod_pos_bound. lia. Qed.

Lemma u16_small x : 0 <= x < 2 ^ 16 -> u16 x = x.
Proof. apply Z.mod_small. Qed.

Lemma s32_small x : - 2 ^ 31 <= x < 2 ^ 31 -> s32 x = x.
Proof. intros. unfold s32. rewrite Z.mod_small; lia. Qed.

Lemma s32_range x : - 2 ^ 31 <= s32 x < 2 ^ 31.
Proof.
  unfold s32. pose proof (Z.mod_pos_bound (x + 2 ^ 31) (2 ^ 32) ltac:(lia)). lia.
Qed.

(** The wrapped values of a goal are either small or off by one turn. *)
Ltac word :=
  unfold u32, u16, u8, is_u32, is_u16, is_u8 in *; Z.div_mod_to_equations; lia.

(** [x & ~(2^k - 1)] clears the low bits, [x & (2^k - 1)] keeps them. *)
Lemma land_low x k : 0 <= k -> Z.land x (2 ^ k - 1) = x mod 2 ^ k.
Proof.
  intros. rewrite <- Z.land_ones by done. f_equal. rewrite Z.ones_equiv. lia.
Qed.

Lemma land_high x k n :
  0 <= k <= n -> 0 <= x < 2 ^ n ->
  Z.land x (2 ^ n - 2 ^ k) = x - x mod 2 ^ k.
Proof.
  intros Hk Hx.
  replace (2 ^ n - 2 ^ k) with (Z.ldiff (Z.ones n) (Z.ones k)).
  - rewrite (Z.ldiff_land (Z.ones n)), Z.land_assoc, <- Z.ldiff_land.
    rewrite Z.land_ones, (Z.mod_small x) by lia.
    rewrite Z.ldiff_ones_r by lia.
    rewrite Z.shiftl_mul_pow2, Z.shiftr_div_pow2 by lia.
    pose proof (Z.div_mod x (2 ^ k)). lia.
  - rewrite Z.ldiff_ones_r, !Z.ones_equiv by lia.
    rewrite Z.shiftl_mul_pow2, Z.shiftr_div_pow2 by lia.
    pose proof (Z.pow_pos_nonneg 2 k ltac:(lia) ltac:(lia)).
    replace n with (n - k + k) by lia. rewrite Z.pow_add_r by lia.
    replace (Z.pred (2 ^ (n - k) * 2 ^ k))
      with ((2 ^ (n - k) - 1) * 2 ^ k + (2 ^ k - 1)) by lia.
    rewrite Z.div_add_l, (Z.div_small (2 ^ k - 1)) by lia. lia.
Qed.

(** Bits that do not overlap are added by [Z.lor]. *)
Lemma lor_disjoint_add a b k :
  0 <= k -> 0 <= b < 2 ^ k -> a mod 2 ^ k = 0 -> Z.lor a b = a + b.
Proof.
  intros Hk Hb Ha.
  assert (Z.land a b = 0) as Hz.
  { rewrite <- (Z.mod_small b (2 ^ k)), <- Z.land_ones by done.
    rewrite (Z.land_comm b), Z.land_assoc, Z.land_ones, Ha by done. done. }
  by rewrite <- Z.lxor_lor, <- Z.add_nocarry_lxor.
Qed.
