(* ===== verification/Page.v ===== *)
(** * Pages and page-table entry masks

    The constants and the inline function of [kernel/include/mem/memory.h],
    shared by the page frame allocator, the physical memory map, paging and
    [kmalloc()]. *)
From S2P Require Import Prelude.

Definition PAGE_SIZE : Z := 4096.

(** [~(PAGE_SIZE - 1)] converted to [uint32_t]. *)
Definition PAGE_MASK : Z := u32 (Z.lnot (PAGE_SIZE - 1)).

(** [((uint32_t)x) & (~PAGE_MASK)]. *)
Definition PAGE_OFFSET (x : Z) : Z := Z.land (u32 x) (u32 (Z.lnot PAGE_MASK)).

Definition BAD_PAGE : Z := 0.

Definition page_align (addr : Z) : Z :=
  if negb (PAGE_OFFSET addr =? 0) then
    let addr := addr ⊕ PAGE_SIZE in
    Z.land addr PAGE_MASK
  else addr.

(** Page-directory and page-table entry masks. *)
Definition PDE_MASK_PRESENT : Z := Z.shiftl 1 0.
Definition PDE_MASK_READWRITE : Z := Z.shiftl 1 1.
Definition PDE_MASK_SUPERVISOR : Z := Z.shiftl 1 2.
Definition PDE_MASK_WRITE_THROUGH : Z := Z.shiftl 1 3.
Definition PDE_MASK_CACHE_DISABLED : Z := Z.shiftl 1 4.
Definition PDE_MASK_ACCESSED : Z := Z.shiftl 1 5.
Definition PDE_MASK_PAGE_SIZE : Z := Z.shiftl 1 7.
Definition PDE_MASK_GLOBAL_PAGE : Z := Z.shiftl 1 8.
Definition PDE_MASK_ADDR : Z := 0xfffff000.

Definition PTE_MASK_PRESENT : Z := Z.shiftl 1 0.
Definition PTE_MASK_READWRITE : Z := Z.shiftl 1 1.
Definition PTE_MASK_SUPERVISOR : Z := Z.shiftl 1 2.
Definition PTE_MASK_WRITE_THROUGH : Z := Z.shiftl 1 3.
Definition PTE_MASK_CACHE_DISABLED : Z := Z.shiftl 1 4.
Definition PTE_MASK_ACCESSED : Z := Z.shiftl 1 5.
Definition PTE_MASK_DIRTY : Z := Z.shiftl 1 6.
Definition PTE_MASK_PT_ATTRIBUTE_INDEX : Z := Z.shiftl 1 7.
Definition PTE_MASK_GLOBAL_PAGE : Z := Z.shiftl 1 8.
Definition PTE_MASK_ADDR : Z := 0xfffff000.

Definition PDE_RW_KERNEL_NOCACHE : Z :=
  Z.lor (Z.lor PDE_MASK_READWRITE PDE_MASK_WRITE_THROUGH) PDE_MASK_CACHE_DISABLED.

Definition PTE_RW_KERNEL_NOCACHE : Z :=
  Z.lor (Z.lor PTE_MASK_READWRITE PTE_MASK_WRITE_THROUGH) PTE_MASK_CACHE_DISABLED.

Definition PG_CONSISTENT_MASK : Z :=
  Z.lor (Z.lor (Z.lor PTE_MASK_READWRITE PTE_MASK_SUPERVISOR)
           PTE_MASK_WRITE_THROUGH) PTE_MASK_CACHE_DISABLED.

(** ** Facts *)

Lemma PAGE_OFFSET_mod x : PAGE_OFFSET x = u32 x mod PAGE_SIZE.
Proof.
  unfold PAGE_OFFSET. change (u32 (Z.lnot PAGE_MASK)) with (2 ^ 12 - 1).
  by rewrite land_low by lia.
Qed.

Lemma PAGE_OFFSET_small x : is_u32 x -> PAGE_OFFSET x = x mod PAGE_SIZE.
Proof. intros. rewrite PAGE_OFFSET_mod. by rewrite u32_small. Qed.

Lemma land_PAGE_MASK x : is_u32 x -> Z.land x PAGE_MASK = x - x mod PAGE_SIZE.
Proof.
  intros. change PAGE_MASK with (2 ^ 32 - 2 ^ 12).
  rewrite land_high by (unfold is_u32 in *; lia). done.
Qed.

(** A page-aligned 32-bit address. *)
Definition aligned (a : Z) : Prop := a mod PAGE_SIZE = 0.

(** The first page boundary at or after [a], in unbounded arithmetic. *)
Definition page_up (a : Z) : Z := (a + 4095) / 4096 * 4096.

Lemma page_align_up a : is_u32 a -> page_align a = u32 (page_up a).
Proof.
  intros Ha. unfold page_align. rewrite PAGE_OFFSET_small by done.
  destruct (Z.eqb_spec (a mod PAGE_SIZE) 0) as [E|E]; simpl negb.
  - unfold page_up, PAGE_SIZE in *. word.
  - cbv zeta. rewrite land_PAGE_MASK by apply u32_range.
    unfold page_up, PAGE_SIZE in *. word.
Qed.

Lemma page_up_bounds a : a <= page_up a < a + 4096.
Proof. unfold page_up. Z.div_mod_to_equations. lia. Qed.

Lemma page_up_aligned a : aligned (page_up a).
Proof. unfold page_up, aligned, PAGE_SIZE. apply Z.mod_mul. lia. Qed.

Lemma page_up_id a : aligned a -> page_up a = a.
Proof. unfold page_up, aligned, PAGE_SIZE. intros. Z.div_mod_to_equations. lia. Qed.

Lemma page_align_small a : 0 <= a <= 2 ^ 32 - 4096 -> page_align a = page_up a.
Proof.
  intros Ha. rewrite page_align_up by (unfold is_u32; lia).
  apply u32_small. pose proof (page_up_bounds a).
  unfold page_up in *. Z.div_mod_to_equations. lia.
Qed.

Lemma aligned_add a b : aligned a -> aligned b -> aligned (a + b).
Proof. unfold aligned, PAGE_SIZE. intros. Z.div_mod_to_equations. lia. Qed.

Lemma aligned_mul k : aligned (k * PAGE_SIZE).
Proof. unfold aligned. by rewrite Z.mod_mul. Qed.

Create HintDb page.
#[export] Hint Resolve aligned_add aligned_mul page_up_aligned : page.
