(* ===== verification/Bubble.v ===== *)
(** * Bubble sort with the last-swap optimisation

    [sort_multiboot_mmap()] and [sort_phys_mmap()] are the same algorithm on two
    representations: a pass compares the neighbours of the first [n] elements,
    and the next pass stops at the position of the last swap.  The invariant of
    the passes is stated here once, on lists. *)
From S2P Require Import Prelude.

Section Bubble.
Context {A : Type} (key : A -> Z).

(** From position [n] on, an element is at least as large as all those
    before it. *)
Definition settled (l : list A) (n : nat) : Prop :=
  forall j k x y, (n <= j)%nat -> (k < j)%nat -> l !! k = Some x -> l !! j = Some y ->
    key x <= key y.

Definition sorted (l : list A) : Prop :=
  forall j k x y, (k <= j)%nat -> l !! k = Some x -> l !! j = Some y -> key x <= key y.

Lemma settled_0 l : settled l 0 -> sorted l.
Proof.
  intros H j k x y Hkj Hx Hy. destruct (decide (k = j)) as [->|].
  - simplify_eq. lia.
  - apply (H j k); [lia|lia|done|done].
Qed.

Lemma settled_length l : settled l (length l).
Proof. intros j k x y Hj _ _ Hy. apply lookup_lt_Some in Hy. lia. Qed.

(** Exchange of the neighbours at [i]. *)
Definition swap_at (i : nat) (a b : A) (l : list A) : list A :=
  <[i := b]> (<[S i := a]> l).

Lemma swap_at_split i a b l :
  l !! i = Some a -> l !! S i = Some b ->
  exists l1 l2, l = l1 ++ a :: b :: l2 /\ length l1 = i /\
    swap_at i a b l = l1 ++ b :: a :: l2.
Proof.
  intros Ha Hb. exists (take i l), (drop (S (S i)) l).
  assert (l = take i l ++ a :: b :: drop (S (S i)) l) as Hl.
  { rewrite <- (take_drop_middle _ _ _ Ha) at 1. do 2 f_equal.
    by rewrite (drop_S _ _ _ Hb). }
  assert (length (take i l) = i) as Hlen.
  { rewrite length_take. apply lookup_lt_Some in Ha. lia. }
  split_and!; [done|done|]. unfold swap_at. rewrite Hl at 1.
  rewrite (insert_app_r_alt (take i l)) by lia.
  rewrite (insert_app_r_alt (take i l)) by lia.
  by replace (S i - length (take i l))%nat with 1%nat by lia;
    replace (i - length (take i l))%nat with 0%nat by lia.
Qed.

Lemma swap_at_perm i a b l :
  l !! i = Some a -> l !! S i = Some b -> swap_at i a b l ≡ₚ l.
Proof.
  intros Ha Hb. destruct (swap_at_split i a b l Ha Hb) as (l1 & l2 & -> & _ & ->).
  apply Permutation_app_head. constructor.
Qed.

Lemma swap_at_lookup i a b l k x :
  l !! i = Some a -> l !! S i = Some b -> swap_at i a b l !! k = Some x ->
  (k = i /\ x = b) \/ (k = S i /\ x = a) \/ (k <> i /\ k <> S i /\ l !! k = Some x).
Proof.
  intros Ha Hb H. unfold swap_at in H. pose proof (lookup_lt_Some _ _ _ Hb).
  destruct (decide (k = i)) as [->|Hi].
  { rewrite list_lookup_insert_eq in H by (rewrite length_insert; lia). naive_solver. }
  rewrite list_lookup_insert_ne in H by done.
  destruct (decide (k = S i)) as [->|Hi'].
  { rewrite list_lookup_insert_eq in H by lia. naive_solver. }
  rewrite list_lookup_insert_ne in H by done. naive_solver.
Qed.

(** The state of a pass over the first [n] elements of [l0] before it
    compares the elements at [i] and [i + 1]; the last swap wrote [last]. *)
Record pass_inv (l0 : list A) (n i last : nat) (l : list A) : Prop := {
  pi_perm : l ≡ₚ l0;
  pi_n : (last <= i < n)%nat;
  pi_after : settled l n;
  pi_run : forall j k x y, (last <= j <= i)%nat -> (k < j)%nat ->
    l !! k = Some x -> l !! j = Some y -> key x <= key y;
}.

Lemma pass_start l n : (0 < n)%nat -> settled l n -> pass_inv l n 0 0 l.
Proof. intros Hn Hs. constructor; [done|lia|done|]. intros. lia. Qed.

Lemma pass_keep l0 n i last l a b :
  pass_inv l0 n i last l -> (S i < n)%nat ->
  l !! i = Some a -> l !! S i = Some b -> key a <= key b ->
  pass_inv l0 n (S i) last l.
Proof.
  intros [Hp Hn Hs Hr] Hi Ha Hb Hab. constructor; [done|lia|done|].
  intros j k x y Hj Hk Hx Hy. destruct (decide (j = S i)) as [->|].
  - simplify_eq. destruct (decide (k = i)) as [->|]; [simplify_eq; lia|].
    pose proof (Hr i k x a ltac:(lia) ltac:(lia) Hx Ha). lia.
  - apply (Hr j k); [lia|lia|done|done].
Qed.

Lemma pass_swap l0 n i last l a b :
  pass_inv l0 n i last l -> (S i < n)%nat ->
  l !! i = Some a -> l !! S i = Some b -> key b < key a ->
  pass_inv l0 n (S i) (S i) (swap_at i a b l).
Proof.
  intros [Hp Hn Hs Hr] Hi Ha Hb Hab. constructor.
  - rewrite <- Hp. by apply swap_at_perm.
  - lia.
  - intros j k x y Hj Hk Hx Hy.
    apply swap_at_lookup in Hx, Hy; [|done..].
    destruct Hy as [[??]|[[??]|(_ & _ & Hy)]]; [lia|lia|].
    destruct Hx as [[-> ->]|[[-> ->]|(_ & _ & Hx)]].
    + apply (Hs j (S i)); [lia|lia|done|done].
    + apply (Hs j i); [lia|lia|done|done].
    + apply (Hs j k); [lia|lia|done|done].
  - intros j k x y Hj Hk Hx Hy. assert (j = S i) as -> by lia.
    apply swap_at_lookup in Hx, Hy; [|done..].
    destruct Hy as [[??]|[[_ ->]|(? & ? & Hy)]]; [lia| |lia].
    destruct Hx as [[-> ->]|[[??]|(? & _ & Hx)]]; [lia|lia|].
    apply (Hr i k); [lia|lia|done|done].
Qed.

(** At the end of a pass, all is settled from the last swap on. *)
Lemma pass_end l0 n last l :
  pass_inv l0 n (n - 1) last l -> settled l last /\ l ≡ₚ l0 /\ (last < n)%nat.
Proof.
  intros [Hp Hn Hs Hr]. split_and!; [|done|lia].
  intros j k x y Hj Hk Hx Hy. destruct (decide (n <= j)%nat).
  - by apply (Hs j k).
  - apply (Hr j k); [lia|lia|done|done].
Qed.
End Bubble.
