(* ===== verification/Pfa.v ===== *)
(** * The page frame allocator

    [kernel/mem/page_frame_allocator.c]: the allocation and the release of page
    frames.  A region of physical memory is a run of page frames with one state
    byte per frame ([pagemap]); the metadata is the array of the regions.  A
    pointer to a region is its index in that array. *)
From S2P Require Import Prelude Page.

(** ** Data *)

(** [page_state_t] is an unsigned char. *)
Definition PAGE_FREE : Z := 0.
Definition PAGE_USED : Z := 1.
Definition PAGE_USED_HEAD : Z := 2.
Definition PAGE_USED_TAIL : Z := 3.
Definition PAGE_USED_PART : Z := 4.

Record pfa_region := mk_region {
  first_page : Z;
  nb_pages : Z;
  pagemap : list Z;
}.

Record pfa_meta := mk_meta {
  nb_regions : Z;
  region_ptrs : list pfa_region;
}.

Definition set_pagemap (pm : list Z) (r : pfa_region) : pfa_region :=
  mk_region (first_page r) (nb_pages r) pm.

(** The write through the pointer [region_ptrs[i]]. *)
Definition set_region (m : pfa_meta) (i : Z) (r : pfa_region) : res pfa_meta :=
  rs ← aset (region_ptrs m) i r;
  mret (mk_meta (nb_regions m) rs).

(** ** Operations *)

(** The region a page frame belongs to, [None] for NULL. *)
Definition find_region (m : pfa_meta) (pgf : Z) : res (option Z) :=
  c ← for_ctl (Z.to_nat (nb_regions m)) 0 (fun i _ =>
    region ← aget (region_ptrs m) i;
    let max_pgf := first_page region ⊕ (nb_pages region ⊗ PAGE_SIZE) in
    if (first_page region <=? pgf) && (pgf <? max_pgf) then mret (Leave i)
    else mret (Next tt)) tt;
  match c with
  | Leave i => mret (Some i)
  | Next _ => mret None
  end.

Definition pfa_alloc_single (region : pfa_region) : res (Z * pfa_region) :=
  c ← for_ctl (Z.to_nat (nb_pages region)) 0 (fun page _ =>
    st ← aget (pagemap region) page;
    if st =? PAGE_FREE then
      pm ← aset (pagemap region) page PAGE_USED;
      mret (Leave (first_page region ⊕ (page ⊗ PAGE_SIZE), set_pagemap pm region))
    else mret (Next tt)) tt;
  match c with
  | Leave r => mret r
  | Next _ => mret (BAD_PAGE, region)
  end.

(** The inner [while] of [pfa_alloc_multiple]: how far the free block goes. *)
Fixpoint extend_block (fuel : nat) (pm : list Z) (nb block_size page : Z)
  : res (Z * Z) :=
  match fuel with
  | O => Err NoFuel
  | S fuel =>
      if block_size <? nb then
        st ← aget pm page;
        if st =? PAGE_FREE then extend_block fuel pm nb (block_size ⊕ 1) (page ⊕ 1)
        else mret (block_size, page)
      else mret (block_size, page)
  end.

(** The outer [while]: [Some start_page] at the label [found]. *)
Fixpoint find_block (fuel : nat) (region : pfa_region) (nb start_page : Z)
  : res (option Z) :=
  match fuel with
  | O => Err NoFuel
  | S fuel =>
      if start_page <=? nb_pages region ⊖ nb then
        st ← aget (pagemap region) start_page;
        if st =? PAGE_FREE then
          '(block_size, page) ←
            extend_block (S (Z.to_nat nb)) (pagemap region) nb 0 start_page;
          if block_size =? nb then mret (Some start_page)
          else find_block fuel region nb (page ⊕ 1)
        else find_block fuel region nb (start_page ⊕ 1)
      else mret None
  end.

(** The last loop: head, tail and parts of the block. *)
Definition mark_block (pm : list Z) (start_page nb : Z) : res (list Z) :=
  for_loop (Z.to_nat nb) start_page (fun page pm =>
    if page =? start_page then aset pm page PAGE_USED_HEAD
    else if page =? start_page ⊕ nb ⊖ 1 then aset pm page PAGE_USED_TAIL
    else aset pm page PAGE_USED_PART) pm.

Definition pfa_alloc_multiple (region : pfa_region) (nb : Z) : res (Z * pfa_region) :=
  if nb_pages region <? nb then mret (BAD_PAGE, region)
  else
    found ← find_block (S (S (Z.to_nat (nb_pages region)))) region nb 0;
    match found with
    | None => mret (BAD_PAGE, region)
    | Some start_page =>
        pm ← mark_block (pagemap region) start_page nb;
        mret (first_page region ⊕ (start_page ⊗ PAGE_SIZE), set_pagemap pm region)
    end.

Definition pfa_alloc (m : pfa_meta) (nb : Z) : res (Z * pfa_meta) :=
  if nb =? 0 then mret (BAD_PAGE, m)
  else
    c ← for_ctl (Z.to_nat (nb_regions m)) 0 (fun i m =>
      region ← aget (region_ptrs m) i;
      '(page_frame, region') ←
        (if nb =? 1 then pfa_alloc_single region else pfa_alloc_multiple region nb);
      m' ← set_region m i region';
      if negb (page_frame =? BAD_PAGE) then mret (Leave (page_frame, m'))
      else mret (Next m')) m;
    match c with
    | Leave r => mret r
    | Next m => mret (BAD_PAGE, m)
    end.

(** The [while] of [pfa_free] that releases the frames of a block up to its
    tail; returns the index of the tail. *)
Fixpoint free_block (fuel : nat) (nb : Z) (pm : list Z) (index : Z)
  : res (Z * list Z) :=
  match fuel with
  | O => Err NoFuel
  | S fuel =>
      st ← aget pm index;
      if st =? PAGE_USED_TAIL then mret (index, pm)
      else if nb <=? index then Err (Panic "index out-of-bound")
      else if negb (st =? PAGE_USED_HEAD) && negb (st =? PAGE_USED_PART) then
        Err (Panic "unexpected page state")
      else
        pm ← aset pm index PAGE_FREE;
        free_block fuel nb pm (index ⊕ 1)
  end.

Definition pfa_free (m : pfa_meta) (pgf : Z) : res pfa_meta :=
  r ← find_region m pgf;
  match r with
  | None => Err (Panic "page frame does not belong to any region")
  | Some i =>
      if negb (PAGE_OFFSET pgf =? 0) then
        Err (Panic "pgf is not aligned on a page boundary")
      else
        region ← aget (region_ptrs m) i;
        let index := (pgf ⊖ first_page region) / PAGE_SIZE in
        st ← aget (pagemap region) index;
        pm ←
          (if st =? PAGE_FREE then Err (Panic "double-free detected!")
           else if st =? PAGE_USED then aset (pagemap region) index PAGE_FREE
           else if negb (st =? PAGE_USED_HEAD) then
             Err (Panic "freeing a non head page frame block")
           else
             '(index, pm) ←
               free_block (S (length (pagemap region))) (nb_pages region)
                 (pagemap region) index;
             aset pm index PAGE_FREE);
        set_region m i (set_pagemap pm region)
  end.
