(* ===== verification/PfaSpec.v ===== *)
(** * Specification of the page frame allocator

    The abstract state of the allocator is the map [A] from the address of each
    allocated block to its number of page frames.  [pfa_repr m A] relates it to
    the metadata; [pfa_alloc] and [pfa_free] refine the insertion of a free
    block and the deletion of a block. *)
From S2P Require Import Prelude Page Pfa.

(** ** Segments: the blocks a pagemap is made of *)

Inductive seg :=
  | SFree
  | SUsed
  | SMulti (k : nat).  (* head, k parts, tail *)

#[export] Instance seg_eq_dec : EqDecision seg.
Proof. solve_decision. Defined.

Definition seg_states (s : seg) : list Z :=
  match s with
  | SFree => [PAGE_FREE]
  | SUsed => [PAGE_USED]
  | SMulti k => PAGE_USED_HEAD :: replicate k PAGE_USED_PART ++ [PAGE_USED_TAIL]
  end.

Definition seg_count (s : seg) : nat :=
  match s with SFree | SUsed => 1 | SMulti k => k + 2 end.

Fixpoint flat (l : list seg) : list Z :=
  match l with [] => [] | s :: l => seg_states s ++ flat l end.

(** The allocated blocks of a run of segments that starts at address [a]. *)
Fixpoint seg_allocs (a : Z) (l : list seg) : gmap Z Z :=
  match l with
  | [] => ∅
  | SFree :: l => seg_allocs (a + PAGE_SIZE) l
  | s :: l =>
      <[a := Z.of_nat (seg_count s)]>
        (seg_allocs (a + PAGE_SIZE * Z.of_nat (seg_count s)) l)
  end.

(** [x] lies in an allocated block. *)
Definition covered (A : gmap Z Z) (x : Z) : Prop :=
  exists a k, A !! a = Some k /\ a <= x < a + k * PAGE_SIZE.

Lemma length_seg_states s : length (seg_states s) = seg_count s.
Proof. destruct s; simpl; rewrite ?length_app, ?length_replicate; simpl; lia. Qed.

Lemma flat_app l1 l2 : flat (l1 ++ l2) = flat l1 ++ flat l2.
Proof. induction l1 as [|s l1 IH]; simpl; [done|]. by rewrite IH, app_assoc. Qed.

Lemma flat_free n : flat (replicate n SFree) = replicate n PAGE_FREE.
Proof. induction n; simpl; congruence. Qed.

Lemma seg_count_pos s : (0 < seg_count s)%nat.
Proof. destruct s; simpl; lia. Qed.

Lemma seg_allocs_cons a s l :
  seg_allocs a (s :: l) =
  (if decide (s = SFree) then ∅ else {[ a := Z.of_nat (seg_count s) ]}) ∪
  seg_allocs (a + PAGE_SIZE * Z.of_nat (seg_count s)) l.
Proof.
  destruct s; simpl; rewrite ?insert_union_singleton_l;
    try (by rewrite (left_id_L ∅ (∪))); done.
Qed.

Definition seg_end (a : Z) (l : list seg) : Z := a + PAGE_SIZE * Z.of_nat (length (flat l)).

Lemma seg_end_cons a s l :
  seg_end a (s :: l) = seg_end (a + PAGE_SIZE * Z.of_nat (seg_count s)) l.
Proof. unfold seg_end; simpl. rewrite length_app, length_seg_states. lia. Qed.

Lemma seg_end_app a l1 l2 : seg_end a (l1 ++ l2) = seg_end (seg_end a l1) l2.
Proof. unfold seg_end. rewrite flat_app, length_app. lia. Qed.

Lemma seg_end_ge a l : a <= seg_end a l.
Proof. unfold seg_end, PAGE_SIZE. lia. Qed.

Lemma lookup_seg_allocs_cons a s l x k :
  seg_allocs a (s :: l) !! x = Some k ->
  (s <> SFree /\ x = a /\ k = Z.of_nat (seg_count s)) \/
  (seg_allocs (a + PAGE_SIZE * Z.of_nat (seg_count s)) l !! x = Some k).
Proof.
  rewrite seg_allocs_cons. intros H.
  apply lookup_union_Some_raw in H as [H|[_ H]]; [left|by right].
  case_decide; [by rewrite lookup_empty in H|].
  apply lookup_singleton_Some in H as [<- <-]. done.
Qed.

(** Allocated blocks lie inside of the region, at page boundaries. *)
Lemma seg_allocs_range a l x k :
  seg_allocs a l !! x = Some k ->
  a <= x /\ 1 <= k /\ x + k * PAGE_SIZE <= seg_end a l /\ aligned (x - a).
Proof.
  revert a; induction l as [|s l IH]; intros a H; [done|].
  rewrite seg_end_cons.
  pose proof (seg_count_pos s).
  pose proof (seg_end_ge (a + PAGE_SIZE * Z.of_nat (seg_count s)) l) as Hge.
  apply lookup_seg_allocs_cons in H as [(_ & -> & ->)|H].
  - unfold aligned, PAGE_SIZE in *. rewrite Z.sub_diag. split_and!; [lia|lia|lia|done].
  - apply IH in H as (H1 & H2 & H3 & H4). unfold aligned, PAGE_SIZE in *.
    split_and!; [lia|lia|lia|]. Z.div_mod_to_equations; lia.
Qed.

Lemma seg_allocs_app a l1 l2 :
  seg_allocs a (l1 ++ l2) = seg_allocs a l1 ∪ seg_allocs (seg_end a l1) l2.
Proof.
  revert a; induction l1 as [|s l1 IH]; intros a.
  - unfold seg_end; simpl. rewrite Z.mul_0_r, Z.add_0_r. by rewrite (left_id_L ∅ (∪)).
  - rewrite <- app_comm_cons, !seg_allocs_cons, IH, seg_end_cons.
    by rewrite (assoc_L (∪)).
Qed.

Lemma seg_allocs_free a n : seg_allocs a (replicate n SFree) = ∅.
Proof. revert a; induction n as [|n IH]; intros a; simpl; auto. Qed.

(** Nothing is allocated at an address below the segments or past their end. *)
Lemma seg_allocs_outside a l x :
  x < a \/ seg_end a l <= x -> seg_allocs a l !! x = None.
Proof.
  intros Hx. destruct (seg_allocs a l !! x) as [k|] eqn:E; [|done].
  apply seg_allocs_range in E. unfold PAGE_SIZE in *. lia.
Qed.

(** The state byte at the start of a segment. *)
Definition seg_head (s : seg) : Z :=
  match s with SFree => PAGE_FREE | SUsed => PAGE_USED | SMulti _ => PAGE_USED_HEAD end.

Lemma flat_lookup_mid l1 s l2 :
  flat (l1 ++ s :: l2) !! length (flat l1) = Some (seg_head s).
Proof.
  rewrite flat_app, lookup_app_r, Nat.sub_diag by lia. by destruct s.
Qed.

(** Splitting the segments at a frame that starts one of them. *)
Lemma flat_split l p st :
  flat l !! p = Some st ->
  st = PAGE_FREE \/ st = PAGE_USED \/ st = PAGE_USED_HEAD ->
  exists l1 s l2, l = l1 ++ s :: l2 /\ length (flat l1) = p /\ seg_head s = st.
Proof.
  revert p; induction l as [|s l IH]; intros p Hp Hst; [done|].
  simpl in Hp. destruct (decide (p < seg_count s)%nat) as [Hlt|Hge].
  - destruct p as [|p].
    { exists [], s, l. split_and!; [done|done|]. destruct s; simpl in *; congruence. }
    exfalso. destruct s as [| |k]; simpl in *; [lia|lia|].
    rewrite <- app_assoc in Hp.
    destruct (decide (p < k)%nat) as [Hk|Hk].
    + rewrite lookup_app_l, lookup_replicate_2 in Hp by (rewrite ?length_replicate; lia).
      injection Hp as <-. unfold PAGE_USED_PART, PAGE_FREE, PAGE_USED, PAGE_USED_HEAD in *. lia.
    + rewrite lookup_app_r in Hp by (rewrite length_replicate; lia).
      rewrite length_replicate in Hp. replace (p - k)%nat with 0%nat in Hp by lia.
      injection Hp as <-. unfold PAGE_USED_TAIL, PAGE_FREE, PAGE_USED, PAGE_USED_HEAD in *. lia.
  - rewrite lookup_app_r in Hp by (rewrite length_seg_states; lia).
    rewrite length_seg_states in Hp.
    apply IH in Hp as (l1 & s' & l2 & -> & Hl & Hs); [|done].
    exists (s :: l1), s', l2. split_and!; [done| |done].
    simpl. rewrite length_app, length_seg_states, Hl. lia.
Qed.

(** A run of free frames is a run of free segments. *)
Lemma flat_run l n p :
  (forall j, (j < n)%nat -> flat l !! (p + j)%nat = Some PAGE_FREE) -> (0 < n)%nat ->
  exists l1 l2, l = l1 ++ replicate n SFree ++ l2 /\ length (flat l1) = p.
Proof.
  intros Hrun Hn. destruct n as [|n]; [lia|]. clear Hn.
  revert p l Hrun; induction n as [|n IH]; intros p l Hrun.
  - pose proof (Hrun 0%nat ltac:(lia)) as H0. rewrite Nat.add_0_r in H0.
    apply flat_split in H0 as (l1 & s & l2 & -> & Hl & Hs); [|by left].
    destruct s; [|done|done]. by exists l1, l2.
  - destruct (IH p l) as (l1 & l2 & -> & Hl); [intros; apply Hrun; lia|].
    pose proof (Hrun (S n) ltac:(lia)) as H0.
    rewrite app_assoc, flat_app, lookup_app_r in H0
      by (rewrite flat_app, length_app, flat_free, length_replicate; lia).
    rewrite flat_app, length_app, flat_free, length_replicate in H0.
    replace (p + S n - (length (flat l1) + S n))%nat with 0%nat in H0 by lia.
    exists l1. destruct l2 as [|s l2]; [done|].
    destruct s; [|done|done]. exists l2. split; [|done].
    f_equal. rewrite (replicate_S_end (S n)). by rewrite <- app_assoc.
Qed.

(** The segment found at the address of a block. *)
Lemma seg_allocs_inv a l x k :
  seg_allocs a l !! x = Some k ->
  exists l1 s l2, l = l1 ++ s :: l2 /\ x = seg_end a l1 /\
    k = Z.of_nat (seg_count s) /\ s <> SFree.
Proof.
  revert a; induction l as [|s l IH]; intros a H; [done|].
  apply lookup_seg_allocs_cons in H as [(? & -> & ->)|H].
  - exists [], s, l. unfold seg_end; simpl. split_and!; [done|lia|done|done].
  - apply IH in H as (l1 & s' & l2 & -> & -> & -> & ?).
    exists (s :: l1), s', l2. rewrite seg_end_cons. by split_and!.
Qed.

Lemma seg_end_free a n : seg_end a (replicate n SFree) = a + PAGE_SIZE * Z.of_nat n.
Proof. unfold seg_end. by rewrite flat_free, length_replicate. Qed.

Lemma seg_end_one a s : seg_end a [s] = a + PAGE_SIZE * Z.of_nat (seg_count s).
Proof. unfold seg_end. simpl. by rewrite app_nil_r, length_seg_states. Qed.

(** Turning free frames into a block inserts the block. *)
Lemma seg_allocs_insert a l1 s l2 :
  s <> SFree ->
  seg_allocs a (l1 ++ s :: l2) =
  <[ seg_end a l1 := Z.of_nat (seg_count s) ]>
    (seg_allocs a (l1 ++ replicate (seg_count s) SFree ++ l2)).
Proof.
  intros Hs. rewrite !seg_allocs_app, seg_allocs_free, (left_id_L ∅ (∪)).
  rewrite seg_allocs_cons, decide_False, seg_end_free by done.
  rewrite insert_union_r by (apply seg_allocs_outside; lia).
  by rewrite <- insert_union_singleton_l.
Qed.

Lemma seg_allocs_start a l1 n l2 :
  (0 < n)%nat -> seg_allocs a (l1 ++ replicate n SFree ++ l2) !! seg_end a l1 = None.
Proof.
  intros Hn. rewrite !seg_allocs_app, seg_allocs_free, (left_id_L ∅ (∪)).
  apply lookup_union_None. split; apply seg_allocs_outside; [lia|left].
  rewrite seg_end_free. unfold PAGE_SIZE. lia.
Qed.

(** Releasing a block deletes it. *)
Lemma seg_allocs_delete a l1 s l2 :
  s <> SFree ->
  seg_allocs a (l1 ++ replicate (seg_count s) SFree ++ l2) =
  delete (seg_end a l1) (seg_allocs a (l1 ++ s :: l2)).
Proof.
  intros Hs. rewrite seg_allocs_insert by done.
  rewrite delete_insert_id; [done|]. apply seg_allocs_start, seg_count_pos.
Qed.

Lemma covered_seg_split a l1 l2 x :
  covered (seg_allocs a (l1 ++ l2)) x <->
  covered (seg_allocs a l1) x \/ covered (seg_allocs (seg_end a l1) l2) x.
Proof.
  rewrite seg_allocs_app. unfold covered. split.
  - intros (b & k & H & ?). apply lookup_union_Some_raw in H as [H|[_ H]]; [left|right]; eauto.
  - intros [(b & k & H & ?)|(b & k & H & ?)]; exists b, k; split; try done.
    + by apply lookup_union_Some_l.
    + rewrite lookup_union_r; [done|]. apply seg_allocs_outside.
      apply seg_allocs_range in H. lia.
Qed.

Lemma covered_seg_bounds a l x :
  covered (seg_allocs a l) x -> a <= x < seg_end a l.
Proof. intros (b & k & H%seg_allocs_range & ?). lia. Qed.

Lemma covered_seg_one a s x :
  covered (seg_allocs a [s]) x <-> s <> SFree /\ a <= x < seg_end a [s].
Proof.
  rewrite seg_allocs_cons, seg_end_one. cbn [seg_allocs]. rewrite (right_id_L ∅ (∪)).
  unfold covered. destruct (decide (s = SFree)) as [->|Hs].
  - split; [|naive_solver]. intros (b & k & H & _). done.
  - split.
    + intros (b & k & [<- <-]%lookup_singleton_Some & H).
      unfold PAGE_SIZE in *. split; [done|lia].
    + intros [_ H]. exists a, (Z.of_nat (seg_count s)).
      rewrite lookup_singleton_eq. unfold PAGE_SIZE in *. split; [done|lia].
Qed.

(** A frame is in state [PAGE_FREE] exactly when no block covers it. *)
Lemma flat_free_iff a l p :
  flat l !! p = Some PAGE_FREE <->
  (p < length (flat l))%nat /\ ~ covered (seg_allocs a l) (a + PAGE_SIZE * Z.of_nat p).
Proof.
  split.
  - intros Hp. split; [by apply lookup_lt_Some in Hp|].
    apply flat_split in Hp as (l1 & s & l2 & -> & <- & Hs); [|by left].
    destruct s; [|done|done].
    change (SFree :: l2) with ([SFree] ++ l2).
    rewrite !covered_seg_split, covered_seg_one. fold (seg_end a l1).
    intros [H%covered_seg_bounds|[[]|H%covered_seg_bounds]]; [lia|done|].
    rewrite seg_end_one in H. unfold PAGE_SIZE in H; simpl in H. lia.
  - intros [Hp Hc]. revert a p Hp Hc.
    induction l as [|s l IH]; intros a p Hp Hc; [simpl in Hp; lia|].
    change (s :: l) with ([s] ++ l) in Hc. rewrite covered_seg_split, covered_seg_one in Hc.
    cbn [flat app] in *. rewrite length_app, length_seg_states in Hp.
    rewrite seg_end_one in Hc.
    destruct (decide (p < seg_count s)%nat) as [Hlt|Hge].
    + destruct s; [simpl|
        exfalso; apply Hc; left; split; [done|unfold PAGE_SIZE in *; lia]..].
      cbn [seg_count] in *. by replace p with 0%nat by lia.
    + rewrite lookup_app_r by (rewrite length_seg_states; lia).
      rewrite length_seg_states.
      apply (IH (a + PAGE_SIZE * Z.of_nat (seg_count s))); [lia|].
      intros H. apply Hc. right.
      replace (a + PAGE_SIZE * Z.of_nat p)
        with (a + PAGE_SIZE * Z.of_nat (seg_count s)
              + PAGE_SIZE * Z.of_nat (p - seg_count s)) by (unfold PAGE_SIZE; lia).
      done.
Qed.

(** ** One region *)

(** The region [r] holds the segments [l]; its last frame ends below 4 GB (the
    C code computes that end in 32 bits). *)
Record region_repr (r : pfa_region) (l : list seg) : Prop := {
  rr_map : pagemap r = flat l;
  rr_nb : nb_pages r = Z.of_nat (length (flat l));
  rr_low : 0 < first_page r;
  rr_aligned : aligned (first_page r);
  rr_high : seg_end (first_page r) l < 2 ^ 32;
}.

Lemma region_repr_set r l l' :
  region_repr r l -> length (flat l') = length (flat l) ->
  region_repr (set_pagemap (flat l') r) l'.
Proof.
  intros [H1 H2 H3 H4 H5] Hl. constructor; cbn; [done|congruence|done|done|].
  unfold seg_end in *. by rewrite Hl.
Qed.

Lemma region_nb_small r l : region_repr r l -> 0 <= nb_pages r < 2 ^ 20.
Proof.
  intros [H1 H2 H3 H4 H5]. unfold seg_end, PAGE_SIZE in *. lia.
Qed.

(** The address the code computes for the frame at index [p]. *)
Lemma frame_addr r l1 l2 :
  region_repr r (l1 ++ l2) ->
  first_page r ⊕ (Z.of_nat (length (flat l1)) ⊗ PAGE_SIZE) = seg_end (first_page r) l1.
Proof.
  intros [H1 H2 H3 H4 H5]. rewrite seg_end_app in H5.
  pose proof (seg_end_ge (seg_end (first_page r) l1) l2).
  unfold seg_end, PAGE_SIZE in *. rewrite (u32_small (_ * _)) by lia.
  rewrite u32_small by lia. lia.
Qed.

Lemma insert_flat_mid l1 s s' l2 (st : Z) :
  seg_states s' = [st] -> seg_states s = [seg_head s] ->
  <[length (flat l1) := st]> (flat (l1 ++ s :: l2)) = flat (l1 ++ s' :: l2).
Proof.
  intros Hs' Hs. rewrite !flat_app. simpl. rewrite Hs', Hs. simpl.
  rewrite insert_app_r_alt, Nat.sub_diag by lia. done.
Qed.

(** [pfa_alloc_single] takes the first free frame. *)
Lemma pfa_alloc_single_spec r l :
  region_repr r l ->
  (exists l1 l2, l = l1 ++ SFree :: l2 /\
     pfa_alloc_single r =
       Ok (seg_end (first_page r) l1, set_pagemap (flat (l1 ++ SUsed :: l2)) r)) \/
  (pfa_alloc_single r = Ok (BAD_PAGE, r) /\ forall p, flat l !! p <> Some PAGE_FREE).
Proof.
  intros Hr. pose proof (rr_map r l Hr) as Hm. pose proof (rr_nb r l Hr) as Hn.
  unfold pfa_alloc_single.
  loop_search (fun j (o : option (Z * pfa_region)) =>
      match o with
      | None => flat l !! Z.to_nat j <> Some PAGE_FREE
      | Some res => flat l !! Z.to_nat j = Some PAGE_FREE /\
          res = (first_page r ⊕ (j ⊗ PAGE_SIZE),
                 set_pagemap (<[Z.to_nat j := PAGE_USED]> (flat l)) r)
      end) as [(j & res & Hj & -> & (Hf & ->) & Hk)|[-> Hk]].
  - intros j Hj. rewrite Hm. destruct (aget_in (flat l) j) as [st Hst]; [lia|].
    rewrite Hst. cbn. apply aget_Ok in Hst as [_ Hst].
    destruct (Z.eqb_spec st PAGE_FREE) as [->|Hne]; [left|right].
    + rewrite aset_in by lia. cbn. eauto.
    + split; [done|congruence].
  - left. apply flat_split in Hf as (l1 & s & l2 & -> & Hl & Hs); [|by left].
    destruct s; [|done|done]. exists l1, l2. split; [done|]. cbn.
    rewrite <- Hl, (insert_flat_mid l1 SFree SUsed) by done.
    rewrite <- (frame_addr r l1 (SFree :: l2)) by done.
    repeat f_equal. lia.
  - right. split; [done|]. intros p Hp.
    apply (Hk (Z.of_nat p)); [apply lookup_lt_Some in Hp; lia|].
    by rewrite Nat2Z.id.
Qed.

(** [n] free frames from index [p]. *)
Definition run (pm : list Z) (p n : nat) : Prop :=
  forall j, (j < n)%nat -> pm !! (p + j)%nat = Some PAGE_FREE.

Lemma extend_block_spec fuel pm (nb bs p : nat) :
  (bs <= nb)%nat -> (nb - bs < fuel)%nat -> (p + (nb - bs) <= length pm)%nat ->
  Z.of_nat (length pm) < 2 ^ 20 -> Z.of_nat nb < 2 ^ 20 ->
  exists c, (bs + c <= nb)%nat /\ run pm p c /\
    extend_block fuel pm (Z.of_nat nb) (Z.of_nat bs) (Z.of_nat p) =
      Ok (Z.of_nat (bs + c), Z.of_nat (p + c)) /\
    ((bs + c < nb)%nat -> pm !! (p + c)%nat <> Some PAGE_FREE).
Proof.
  revert bs p; induction fuel as [|fuel IH]; intros bs p Hbs Hf Hp Hlen Hnb; [lia|].
  simpl. destruct (Z.ltb_spec (Z.of_nat bs) (Z.of_nat nb)) as [Hlt|Hge].
  - rewrite aget_nat. destruct (lookup_lt_is_Some_2 pm p) as [st Hst]; [lia|].
    rewrite Hst. simpl. destruct (Z.eqb_spec st PAGE_FREE) as [->|Hne].
    + rewrite !u32_small by lia.
      destruct (IH (S bs) (S p)) as (c & Hc & Hr & He & Hn); [lia..|].
      exists (S c). split_and!; [lia| | |].
      * intros [|j] Hj; [by rewrite Nat.add_0_r|].
        replace (p + S j)%nat with (S p + j)%nat by lia. apply Hr. lia.
      * replace (Z.of_nat bs + 1) with (Z.of_nat (S bs)) by lia.
        replace (Z.of_nat p + 1) with (Z.of_nat (S p)) by lia. rewrite He.
        by rewrite !Nat.add_succ_r.
      * replace (p + S c)%nat with (S p + c)%nat by lia. intros. apply Hn. lia.
    + exists 0%nat. split_and!; [lia|intros j; lia| |].
      * by rewrite !Nat.add_0_r.
      * intros _. rewrite Nat.add_0_r. congruence.
  - exists 0%nat. split_and!; [lia|intros j; lia|by rewrite !Nat.add_0_r|lia].
Qed.

#[local] Arguments extend_block : simpl never.

(** The greedy search finds the first run of [nb] free frames, if any. *)
Lemma find_block_spec fuel r (nb sp : nat) :
  nb_pages r = Z.of_nat (length (pagemap r)) -> nb_pages r < 2 ^ 20 ->
  (0 < nb <= length (pagemap r))%nat ->
  (sp <= S (length (pagemap r)))%nat -> (S (length (pagemap r)) - sp < fuel)%nat ->
  (exists s, find_block fuel r (Z.of_nat nb) (Z.of_nat sp) = Ok (Some (Z.of_nat s)) /\
     (sp <= s)%nat /\ (s + nb <= length (pagemap r))%nat /\ run (pagemap r) s nb /\
     forall s', (sp <= s' < s)%nat -> ~ run (pagemap r) s' nb) \/
  (find_block fuel r (Z.of_nat nb) (Z.of_nat sp) = Ok None /\
     forall s', (sp <= s')%nat -> ~ run (pagemap r) s' nb).
Proof.
  intros Hlen Hsmall Hnb. revert sp.
  induction fuel as [|fuel IH]; intros sp Hsp Hfuel; [lia|]. simpl.
  rewrite (u32_small (nb_pages r - _)) by lia. rewrite Hlen.
  destruct (Z.leb_spec (Z.of_nat sp) (Z.of_nat (length (pagemap r)) - Z.of_nat nb)) as [Hle|Hgt].
  - rewrite aget_nat. destruct (lookup_lt_is_Some_2 (pagemap r) sp) as [st Hst]; [lia|].
    rewrite Hst. simpl. destruct (Z.eqb_spec st PAGE_FREE) as [->|Hne].
    + rewrite Nat2Z.id.
      destruct (extend_block_spec (S nb) (pagemap r) nb 0 sp) as (c & Hc & Hr & He & Hn);
        [lia..|].
      change (Z.of_nat 0) with 0 in He. rewrite He. simpl.
      destruct (Z.eqb_spec (Z.of_nat c) (Z.of_nat nb)) as [Heq|Hneq].
      { left. exists sp. assert (c = nb) as -> by lia.
        split_and!; [done|lia|lia|done|lia]. }
      assert (forall s', (sp <= s' <= sp + c)%nat -> ~ run (pagemap r) s' nb) as Hskip.
      { intros s' Hs' Hrun. apply Hn; [lia|].
        replace (sp + c)%nat with (s' + (sp + c - s'))%nat by lia. apply Hrun. lia. }
      rewrite u32_small by lia.
      replace (Z.of_nat (sp + c) + 1) with (Z.of_nat (S (sp + c))) by lia.
      destruct (IH (S (sp + c))) as [(s & -> & ? & ? & ? & Hm)|[-> Hm]]; [lia|lia|left|right].
      * exists s. split_and!; [done|lia|lia|done|]. intros s' Hs'.
        destruct (decide (s' <= sp + c)%nat); [apply Hskip; lia|apply Hm; lia].
      * split; [done|]. intros s' Hs'.
        destruct (decide (s' <= sp + c)%nat); [apply Hskip; lia|apply Hm; lia].
    + assert (~ run (pagemap r) sp nb) as Hskip.
      { intros Hrun. specialize (Hrun 0%nat ltac:(lia)).
        rewrite Nat.add_0_r in Hrun. congruence. }
      rewrite u32_small by lia.
      replace (Z.of_nat sp + 1) with (Z.of_nat (S sp)) by lia.
      destruct (IH (S sp)) as [(s & -> & ? & ? & ? & Hm)|[-> Hm]]; [lia|lia|left|right].
      * exists s. split_and!; [done|lia|lia|done|]. intros s' Hs'.
        destruct (decide (s' = sp)) as [->|]; [done|apply Hm; lia].
      * split; [done|]. intros s' Hs'.
        destruct (decide (s' = sp)) as [->|]; [done|apply Hm; lia].
  - right. split; [done|]. intros s' Hs' Hrun.
    specialize (Hrun (nb - 1)%nat ltac:(lia)). apply lookup_lt_Some in Hrun. lia.
Qed.

(** The state written at index [p] of a block of [n] frames from [s]. *)
Definition block_state (s n p : nat) : Z :=
  if decide (p = s) then PAGE_USED_HEAD
  else if decide (p = s + n - 1)%nat then PAGE_USED_TAIL else PAGE_USED_PART.

Lemma seg_multi_lookup k j :
  (j < k + 2)%nat -> seg_states (SMulti k) !! j = Some (block_state 0 (k + 2) j).
Proof.
  intros Hj. unfold block_state. simpl. destruct j as [|j]; [done|].
  rewrite decide_False by done. simpl. case_decide as Hd.
  - rewrite lookup_app_r by (rewrite length_replicate; lia).
    rewrite length_replicate. by replace (j - k)%nat with 0%nat by lia.
  - rewrite lookup_app_l by (rewrite length_replicate; lia).
    apply lookup_replicate_2. lia.
Qed.

Lemma mark_block_spec pm (s n : nat) :
  (2 <= n)%nat -> (s + n <= length pm)%nat -> Z.of_nat (length pm) < 2 ^ 20 ->
  exists pm', mark_block pm (Z.of_nat s) (Z.of_nat n) = Ok pm' /\
    length pm' = length pm /\
    forall p, pm' !! p =
      if decide (s <= p < s + n)%nat then Some (block_state s n p) else pm !! p.
Proof.
  intros Hn Hs Hl. unfold mark_block. rewrite Nat2Z.id.
  destruct (for_loop_inv (fun i q =>
     length q = length pm /\ forall p, q !! p =
       if decide (s <= p < Z.to_nat i)%nat then Some (block_state s n p) else pm !! p)
     (fun page pm =>
      if page =? Z.of_nat s then aset pm page PAGE_USED_HEAD
      else if page =? Z.of_nat s ⊕ Z.of_nat n ⊖ 1 then aset pm page PAGE_USED_TAIL
      else aset pm page PAGE_USED_PART) n (Z.of_nat s) pm) as (q & -> & Hq & Hqp).
  - split; [done|]. intros p. by rewrite decide_False by lia.
  - intros j q Hj [Hq Hqp].
    set (st := block_state s n (Z.to_nat j)).
    exists (<[Z.to_nat j := st]> q). split.
    + rewrite (u32_small (Z.of_nat s + Z.of_nat n)), (u32_small (_ - 1)) by lia.
      unfold st, block_state.
      destruct (Z.eqb_spec j (Z.of_nat s)); [rewrite decide_True by lia; by rewrite aset_in by lia|].
      rewrite (decide_False (P := Z.to_nat j = s)) by lia.
      destruct (Z.eqb_spec j (Z.of_nat s + Z.of_nat n - 1));
        [rewrite decide_True by lia|rewrite decide_False by lia]; by rewrite aset_in by lia.
    + rewrite length_insert. split; [done|]. intros p.
      destruct (decide (p = Z.to_nat j)) as [->|Hne].
      * rewrite list_lookup_insert_eq, decide_True by lia. done.
      * rewrite list_lookup_insert_ne, Hqp by done.
        do 2 case_decide; try done; lia.
  - exists q. split_and!; [done|done|]. intros p. rewrite Hqp.
    by replace (Z.to_nat (Z.of_nat s + Z.of_nat n)) with (s + n)%nat by lia.
Qed.

Lemma flat_multi_lookup l1 k l2 p :
  flat (l1 ++ SMulti k :: l2) !! p =
  if decide (length (flat l1) <= p < length (flat l1) + (k + 2))%nat
  then Some (block_state (length (flat l1)) (k + 2) p)
  else flat (l1 ++ replicate (k + 2) SFree ++ l2) !! p.
Proof.
  rewrite !flat_app. cbn [flat].
  case_decide as Hd.
  - rewrite lookup_app_r by lia.
    rewrite lookup_app_l by (rewrite length_seg_states; simpl; lia).
    rewrite seg_multi_lookup by lia. unfold block_state.
    repeat case_decide; try done; lia.
  - destruct (decide (p < length (flat l1))%nat).
    { by rewrite !lookup_app_l by lia. }
    rewrite !lookup_app_r by (rewrite ?length_seg_states, ?flat_free, ?length_replicate; simpl; lia).
    by rewrite length_seg_states, flat_free, length_replicate.
Qed.

Lemma length_flat_multi l1 k l2 :
  length (flat (l1 ++ SMulti k :: l2)) = length (flat (l1 ++ replicate (k + 2) SFree ++ l2)).
Proof.
  rewrite !flat_app, flat_free. cbn [flat].
  rewrite !length_app, length_seg_states, length_replicate. simpl. lia.
Qed.

(** [pfa_alloc_multiple] takes the first run of [n] free frames. *)
Lemma pfa_alloc_multiple_spec r l (n : nat) :
  region_repr r l -> (2 <= n)%nat ->
  (exists l1 l2, l = l1 ++ replicate n SFree ++ l2 /\
     (forall s', (s' < length (flat l1))%nat -> ~ run (flat l) s' n) /\
     pfa_alloc_multiple r (Z.of_nat n) =
       Ok (seg_end (first_page r) l1,
           set_pagemap (flat (l1 ++ SMulti (n - 2) :: l2)) r)) \/
  (pfa_alloc_multiple r (Z.of_nat n) = Ok (BAD_PAGE, r) /\ forall p, ~ run (flat l) p n).
Proof.
  intros Hr Hn. pose proof (rr_map r l Hr) as Hm. pose proof (rr_nb r l Hr) as Hnb.
  pose proof (region_nb_small r l Hr) as Hsm. unfold pfa_alloc_multiple.
  destruct (Z.ltb_spec (nb_pages r) (Z.of_nat n)) as [Hlt|Hge].
  { right. split; [done|]. intros p Hrun.
    specialize (Hrun (n - 1)%nat ltac:(lia)). apply lookup_lt_Some in Hrun. lia. }
  destruct (find_block_spec (S (S (Z.to_nat (nb_pages r)))) r n 0)
    as [(s & Hs & _ & Hsn & Hrun & Hmin)|[Hs Hnone]]; rewrite ?Hm; [lia..| |];
    change (Z.of_nat 0) with 0 in Hs; rewrite Hs; cbn [mbind res_bind].
  - rewrite Hm in *. destruct (flat_run l n s) as (l1 & l2 & -> & Hl); [done|lia|].
    left. exists l1, l2. split_and!; [done|intros; apply Hmin; lia|].
    destruct (mark_block_spec (flat (l1 ++ replicate n SFree ++ l2)) s n)
      as (pm & -> & Hpl & Hpm); [lia..|]. cbn [mbind res_bind].
    rewrite <- Hl, (frame_addr r l1 _ Hr). repeat f_equal.
    apply list_eq. intros p. rewrite Hpm, flat_multi_lookup, Hl.
    by replace (n - 2 + 2)%nat with n by lia.
  - right. split; [done|]. intros p. rewrite <- Hm. apply Hnone. lia.
Qed.

(** Releasing a block from its head: everything up to the tail becomes free. *)
Lemma free_block_spec fuel nb (P Q : list Z) st k :
  st = PAGE_USED_HEAD \/ st = PAGE_USED_PART ->
  Z.of_nat (length P) + Z.of_nat k + 1 < nb -> nb < 2 ^ 20 -> (k + 1 < fuel)%nat ->
  free_block fuel nb (P ++ st :: replicate k PAGE_USED_PART ++ PAGE_USED_TAIL :: Q)
    (Z.of_nat (length P)) =
  Ok (Z.of_nat (length P + S k),
      P ++ replicate (S k) PAGE_FREE ++ PAGE_USED_TAIL :: Q).
Proof.
  revert fuel P st; induction k as [|k IH]; intros fuel P st Hst Hnb Hnb2 Hf;
    (destruct fuel as [|fuel]; [lia|]); cbn [free_block];
    rewrite aget_nat, lookup_app_r, Nat.sub_diag by lia;
    cbn -[Z.add free_block replicate];
    replace (st =? PAGE_USED_TAIL) with false by (by destruct Hst as [-> | ->]);
    (destruct (Z.leb_spec nb (Z.of_nat (length P))); [lia|]);
    replace (negb (st =? PAGE_USED_HEAD) && negb (st =? PAGE_USED_PART)) with false
      by (by destruct Hst as [-> | ->]);
    rewrite aset_nat by (rewrite length_app; simpl; lia); cbn [mbind res_bind];
    rewrite insert_app_r_alt, Nat.sub_diag by lia; cbn [insert list_insert];
    rewrite u32_small by lia;
    replace (Z.of_nat (length P) + 1) with (Z.of_nat (length (P ++ [PAGE_FREE])))
      by (rewrite length_app; simpl; lia).
  - rewrite cons_middle, app_assoc. destruct fuel as [|fuel]; [lia|]. cbn [free_block].
    rewrite aget_nat, lookup_app_r, Nat.sub_diag by lia. cbn.
    rewrite length_app, <- app_assoc. simpl. do 2 f_equal; lia.
  - replace (P ++ PAGE_FREE :: replicate (S k) PAGE_USED_PART ++ PAGE_USED_TAIL :: Q)
      with ((P ++ [PAGE_FREE]) ++ PAGE_USED_PART :: replicate k PAGE_USED_PART ++
            PAGE_USED_TAIL :: Q) by (by rewrite <- app_assoc).
    rewrite IH; [|by right|rewrite length_app; simpl; lia|lia|lia].
    rewrite length_app, <- app_assoc. simpl. do 2 f_equal; lia.
Qed.

(** The part of [pfa_free] that works on the region found. *)
Definition free_in_region (region : pfa_region) (index : Z) : res (list Z) :=
  st ← aget (pagemap region) index;
  if st =? PAGE_FREE then Err (Panic "double-free detected!")
  else if st =? PAGE_USED then aset (pagemap region) index PAGE_FREE
  else if negb (st =? PAGE_USED_HEAD) then
    Err (Panic "freeing a non head page frame block")
  else
    '(index, pm) ←
      free_block (S (length (pagemap region))) (nb_pages region) (pagemap region) index;
    aset pm index PAGE_FREE.

Lemma free_in_region_Ok r l1 s l2 :
  region_repr r (l1 ++ s :: l2) -> s <> SFree ->
  free_in_region r (Z.of_nat (length (flat l1))) =
    Ok (flat (l1 ++ replicate (seg_count s) SFree ++ l2)).
Proof.
  intros Hr Hs. pose proof (region_nb_small _ _ Hr) as Hsm.
  destruct Hr as [Hm Hnb _ _ _]. unfold free_in_region.
  rewrite Hm, aget_nat, flat_lookup_mid. cbn [mbind res_bind].
  destruct s as [| |k]; [done| |]; cbn [seg_head].
  - change (PAGE_USED =? PAGE_FREE) with false. change (PAGE_USED =? PAGE_USED) with true.
    cbn iota. rewrite aset_nat by (rewrite flat_app, length_app; simpl; lia).
    f_equal. by apply insert_flat_mid.
  - change (PAGE_USED_HEAD =? PAGE_FREE) with false.
    change (PAGE_USED_HEAD =? PAGE_USED) with false.
    change (negb (PAGE_USED_HEAD =? PAGE_USED_HEAD)) with false. cbn iota.
    rewrite Hnb, length_flat_multi, !flat_app, flat_free, !length_app, length_replicate in *.
    cbn [flat seg_states seg_count]. rewrite <- app_comm_cons, <- app_assoc.
    change ([PAGE_USED_TAIL] ++ flat l2) with (PAGE_USED_TAIL :: flat l2).
    rewrite free_block_spec by (rewrite ?length_app; cbn [length];
      rewrite ?length_app, ?length_replicate; cbn [length]; (lia || by left)).
    cbn [mbind res_bind].
    rewrite aset_nat by (rewrite !length_app, length_replicate; cbn [length]; lia).
    f_equal. rewrite insert_app_r_alt by lia. f_equal.
    rewrite insert_app_r_alt by (rewrite length_replicate; lia). rewrite length_replicate.
    replace (length (flat l1) + S k - length (flat l1) - S k)%nat with 0%nat by lia.
    cbn [insert list_insert]. replace (k + 2)%nat with (S k + 1)%nat by lia.
    by rewrite flat_free, replicate_add, <- app_assoc.
Qed.

(** What [pfa_alloc] does in one region. *)
Definition alloc_in_region (nb : Z) (region : pfa_region) : res (Z * pfa_region) :=
  if nb =? 1 then pfa_alloc_single region else pfa_alloc_multiple region nb.

Lemma alloc_in_region_spec r l (n : nat) :
  region_repr r l -> (1 <= n)%nat ->
  (exists l1 s l2, l = l1 ++ replicate n SFree ++ l2 /\ s <> SFree /\ seg_count s = n /\
     alloc_in_region (Z.of_nat n) r =
       Ok (seg_end (first_page r) l1, set_pagemap (flat (l1 ++ s :: l2)) r)) \/
  (alloc_in_region (Z.of_nat n) r = Ok (BAD_PAGE, r) /\ forall p, ~ run (flat l) p n).
Proof.
  intros Hr Hn. unfold alloc_in_region.
  destruct (Z.eqb_spec (Z.of_nat n) 1) as [E|E].
  - assert (n = 1%nat) as -> by lia.
    destruct (pfa_alloc_single_spec r l Hr) as [(l1 & l2 & -> & ->)|[-> H]]; [left|right].
    + by exists l1, SUsed, l2.
    + split; [done|]. intros p Hrun. apply (H p). rewrite <- (Hrun 0%nat) by lia.
      f_equal. lia.
  - destruct (pfa_alloc_multiple_spec r l n Hr) as [(l1 & l2 & -> & _ & ->)|[-> H]];
      [lia|left|right; done].
    exists l1, (SMulti (n - 2)), l2. split_and!; [done|done|simpl; lia|done].
Qed.

(** ** The whole metadata *)

Definition region_end (r : pfa_region) : Z := first_page r + PAGE_SIZE * nb_pages r.

Lemma region_end_seg r l : region_repr r l -> region_end r = seg_end (first_page r) l.
Proof. intros [_ H _ _ _]. unfold region_end, seg_end. by rewrite H. Qed.

Fixpoint meta_allocs (rs : list pfa_region) (ls : list (list seg)) : gmap Z Z :=
  match rs, ls with
  | r :: rs, l :: ls => seg_allocs (first_page r) l ∪ meta_allocs rs ls
  | _, _ => ∅
  end.

Definition regions_disjoint (rs : list pfa_region) : Prop :=
  forall i j r1 r2, i <> j -> rs !! i = Some r1 -> rs !! j = Some r2 ->
    region_end r1 <= first_page r2 \/ region_end r2 <= first_page r1.

Record meta_repr (m : pfa_meta) (ls : list (list seg)) : Prop := {
  mr_nb : nb_regions m = Z.of_nat (length (region_ptrs m));
  mr_regions : Forall2 region_repr (region_ptrs m) ls;
  mr_disj : regions_disjoint (region_ptrs m);
}.

(** [A] maps the address of each allocated block to its number of frames. *)
Definition pfa_repr (m : pfa_meta) (A : gmap Z Z) : Prop :=
  exists ls, meta_repr m ls /\ A = meta_allocs (region_ptrs m) ls.

(** [n] frames from [b] lie in one region of the allocator. *)
Definition in_region (m : pfa_meta) (b n : Z) : Prop :=
  exists r, r ∈ region_ptrs m /\ first_page r <= b /\ b + n * PAGE_SIZE <= region_end r /\
    aligned b.

(** None of the [n] frames from [b] is in an allocated block. *)
Definition block_free (A : gmap Z Z) (b n : Z) : Prop :=
  forall j, 0 <= j < n -> ~ covered A (b + j * PAGE_SIZE).

(** The addresses the allocator manages never change. *)
Definition same_geometry (m m' : pfa_meta) : Prop :=
  first_page <$> region_ptrs m = first_page <$> region_ptrs m' /\
  nb_pages <$> region_ptrs m = nb_pages <$> region_ptrs m'.

Lemma meta_allocs_app rs1 rs2 ls1 ls2 :
  length rs1 = length ls1 ->
  meta_allocs (rs1 ++ rs2) (ls1 ++ ls2) = meta_allocs rs1 ls1 ∪ meta_allocs rs2 ls2.
Proof.
  revert ls1; induction rs1 as [|r rs1 IH]; intros [|l ls1] Hl; simplify_eq/=.
  - by rewrite (left_id_L ∅ (∪)).
  - rewrite IH by done. by rewrite (assoc_L (∪)).
Qed.

Lemma meta_allocs_inv rs ls x k :
  meta_allocs rs ls !! x = Some k ->
  exists i r l, rs !! i = Some r /\ ls !! i = Some l /\
    seg_allocs (first_page r) l !! x = Some k.
Proof.
  revert ls; induction rs as [|r rs IH]; intros [|l ls] H; simpl in H; [done..|].
  apply lookup_union_Some_raw in H as [H|[_ H]].
  - by exists 0%nat, r, l.
  - apply IH in H as (i & r' & l' & ? & ? & ?). by exists (S i), r', l'.
Qed.

Lemma meta_allocs_range m ls i r l x k :
  meta_repr m ls -> region_ptrs m !! i = Some r -> ls !! i = Some l ->
  seg_allocs (first_page r) l !! x = Some k ->
  first_page r <= x /\ x < x + k * PAGE_SIZE <= region_end r.
Proof.
  intros [_ Hf _] Hr Hl Hx. pose proof (Forall2_lookup_lr _ _ _ _ _ _ Hf Hr Hl) as Hrr.
  rewrite (region_end_seg r l Hrr).
  apply seg_allocs_range in Hx. unfold PAGE_SIZE in *. lia.
Qed.

Lemma meta_allocs_lookup m ls x k :
  meta_repr m ls ->
  meta_allocs (region_ptrs m) ls !! x = Some k <->
  exists i r l, region_ptrs m !! i = Some r /\ ls !! i = Some l /\
    seg_allocs (first_page r) l !! x = Some k.
Proof.
  intros Hm. split; [apply meta_allocs_inv|]. intros (i & r & l & Hr & Hl & H).
  rewrite <- (take_drop_middle _ _ _ Hr), <- (take_drop_middle _ _ _ Hl).
  pose proof (Forall2_length _ _ _ (mr_regions m ls Hm)) as Hlen.
  rewrite meta_allocs_app by (rewrite !length_take; lia).
  rewrite lookup_union_r; [cbn [meta_allocs]; by apply lookup_union_Some_l|].
  apply eq_None_not_Some. intros [k' H'].
  apply meta_allocs_inv in H' as (j & r' & l' & Hr' & Hl' & H').
  apply lookup_take_Some in Hr' as [Hr' Hj]. apply lookup_take_Some in Hl' as [Hl' _].
  pose proof (meta_allocs_range m ls j r' l' x k' Hm Hr' Hl' H').
  pose proof (meta_allocs_range m ls i r l x k Hm Hr Hl H).
  destruct (mr_disj m ls Hm i j r r' ltac:(lia) Hr Hr'); lia.
Qed.

(** In the range of the region at index [i], only its segments matter. *)
Lemma meta_allocs_in m ls i r l x :
  meta_repr m ls -> region_ptrs m !! i = Some r -> ls !! i = Some l ->
  first_page r <= x < region_end r ->
  meta_allocs (region_ptrs m) ls !! x = seg_allocs (first_page r) l !! x.
Proof.
  intros Hm Hr Hl Hx. apply option_eq. intros k. rewrite meta_allocs_lookup by done. split.
  - intros (j & r' & l' & Hr' & Hl' & H).
    destruct (decide (i = j)) as [->|Hne]; [by simplify_eq|].
    pose proof (meta_allocs_range m ls j r' l' x k Hm Hr' Hl' H).
    destruct (mr_disj m ls Hm i j r r' Hne Hr Hr'); lia.
  - intros H. by exists i, r, l.
Qed.

Lemma covered_meta m ls i r l x :
  meta_repr m ls -> region_ptrs m !! i = Some r -> ls !! i = Some l ->
  first_page r <= x < region_end r ->
  covered (meta_allocs (region_ptrs m) ls) x <-> covered (seg_allocs (first_page r) l) x.
Proof.
  intros Hm Hr Hl Hx. split.
  - intros (b & k & H & Hb). apply meta_allocs_inv in H as (j & r' & l' & Hr' & Hl' & H).
    destruct (decide (i = j)) as [->|Hne]; [simplify_eq; by exists b, k|].
    pose proof (meta_allocs_range m ls j r' l' b k Hm Hr' Hl' H).
    destruct (mr_disj m ls Hm i j r r' Hne Hr Hr'); lia.
  - intros (b & k & H & Hb). exists b, k. split; [|done].
    apply meta_allocs_lookup; [done|]. by exists i, r, l.
Qed.

(** The metadata after the pagemap of the region at index [i] has changed. *)
Definition update_region (m : pfa_meta) (i : nat) (r : pfa_region) (l : list seg) : pfa_meta :=
  mk_meta (nb_regions m) (<[i := set_pagemap (flat l) r]> (region_ptrs m)).

Lemma lookup_update_region m i r l j r' :
  region_ptrs m !! i = Some r ->
  region_ptrs (update_region m i r l) !! j = Some r' ->
  exists r0, region_ptrs m !! j = Some r0 /\ first_page r' = first_page r0 /\
    region_end r' = region_end r0.
Proof.
  intros Hr H. cbn in H. apply list_lookup_insert_Some in H as [(-> & <- & _)|[_ H]]; eauto.
Qed.

Lemma update_region_repr m ls i r l l' :
  meta_repr m ls -> region_ptrs m !! i = Some r -> ls !! i = Some l ->
  length (flat l') = length (flat l) ->
  meta_repr (update_region m i r l') (<[i := l']> ls).
Proof.
  intros Hm Hr Hl Hlen. constructor.
  - cbn. rewrite length_insert. apply Hm.
  - cbn. apply Forall2_insert; [apply Hm|]. apply region_repr_set with (l := l); [|done].
    apply (Forall2_lookup_lr _ _ _ _ _ _ (mr_regions m ls Hm) Hr Hl).
  - intros a b r1 r2 Hab H1 H2.
    apply lookup_update_region in H1 as (q1 & H1 & -> & ->); [|done].
    apply lookup_update_region in H2 as (q2 & H2 & -> & ->); [|done].
    by apply (mr_disj m ls Hm a b).
Qed.

Lemma update_region_allocs m ls i r l l' x0 o :
  meta_repr m ls -> region_ptrs m !! i = Some r -> ls !! i = Some l ->
  length (flat l') = length (flat l) ->
  first_page r <= x0 < region_end r ->
  (forall x, seg_allocs (first_page r) l' !! x =
     if decide (x = x0) then o else seg_allocs (first_page r) l !! x) ->
  forall x, meta_allocs (region_ptrs (update_region m i r l')) (<[i := l']> ls) !! x =
     if decide (x = x0) then o else meta_allocs (region_ptrs m) ls !! x.
Proof.
  intros Hm Hr Hl Hlen Hx0 Hseg x.
  pose proof (update_region_repr m ls i r l l' Hm Hr Hl Hlen) as Hm'.
  pose proof (lookup_lt_Some _ _ _ Hr). pose proof (lookup_lt_Some _ _ _ Hl).
  assert (region_ptrs (update_region m i r l') !! i = Some (set_pagemap (flat l') r)) as Hr'
    by (cbn; by rewrite list_lookup_insert_eq by done).
  assert (<[i := l']> ls !! i = Some l') as Hl' by (by rewrite list_lookup_insert_eq by done).
  destruct (decide (first_page r <= x < region_end r)) as [Hin|Hout].
  - rewrite (meta_allocs_in _ _ i _ l' x Hm' Hr' Hl' Hin).
    rewrite (meta_allocs_in _ _ i _ l x Hm Hr Hl Hin). apply Hseg.
  - rewrite decide_False by naive_solver. apply option_eq. intros k.
    rewrite !meta_allocs_lookup by done.
    split; intros (j & r1 & l1 & H1 & H2 & H3).
    + pose proof (meta_allocs_range _ _ j r1 l1 x k Hm' H1 H2 H3).
      destruct (decide (j = i)) as [->|Hj].
      { rewrite Hr' in H1. simplify_eq. cbn in *. unfold region_end in *; cbn in *. lia. }
      exists j, r1, l1. cbn in *. by rewrite !list_lookup_insert_ne in * by done.
    + pose proof (meta_allocs_range _ _ j r1 l1 x k Hm H1 H2 H3).
      destruct (decide (j = i)) as [->|Hj]; [simplify_eq; lia|].
      exists j, r1, l1. cbn in *. by rewrite !list_lookup_insert_ne by done.
Qed.

(** Free frames of the pagemap are the frames no block covers. *)
Lemma run_block_free m ls i r l p n :
  meta_repr m ls -> region_ptrs m !! i = Some r -> ls !! i = Some l ->
  (p + n <= length (flat l))%nat ->
  run (flat l) p n <->
  block_free (meta_allocs (region_ptrs m) ls)
    (first_page r + PAGE_SIZE * Z.of_nat p) (Z.of_nat n).
Proof.
  intros Hm Hr Hl Hp.
  pose proof (Forall2_lookup_lr _ _ _ _ _ _ (mr_regions m ls Hm) Hr Hl) as Hrr.
  pose proof (region_end_seg r l Hrr) as He. unfold seg_end in He.
  assert (forall j : nat, (j < n)%nat ->
    flat l !! (p + j)%nat = Some PAGE_FREE <->
    ~ covered (meta_allocs (region_ptrs m) ls)
        (first_page r + PAGE_SIZE * Z.of_nat p + Z.of_nat j * PAGE_SIZE)) as Hj.
  { intros j Hj. rewrite (covered_meta m ls i r l) by (done || unfold PAGE_SIZE in *; lia).
    rewrite (flat_free_iff (first_page r)).
    replace (first_page r + PAGE_SIZE * Z.of_nat p + Z.of_nat j * PAGE_SIZE)
      with (first_page r + PAGE_SIZE * Z.of_nat (p + j)) by (unfold PAGE_SIZE; lia).
    split; [by intros [_ ?]|]. split; [lia|done]. }
  split.
  - intros Hrun j Hjn. rewrite <- (Z2Nat.id j) by lia. apply Hj; [lia|]. apply Hrun. lia.
  - intros Hbf j Hjn. apply Hj; [done|]. apply Hbf. lia.
Qed.

(** A region in the list of regions, with its segments. *)
Lemma region_lookup m ls i :
  meta_repr m ls -> 0 <= i < nb_regions m ->
  exists r l, aget (region_ptrs m) i = Ok r /\ region_ptrs m !! Z.to_nat i = Some r /\
    ls !! Z.to_nat i = Some l /\ region_repr r l.
Proof.
  intros [Hnb Hf _] Hi. rewrite Hnb in Hi.
  destruct (aget_in (region_ptrs m) i Hi) as [r Hr]. pose proof Hr as [_ Hr']%aget_Ok.
  destruct (Forall2_lookup_l _ _ _ _ _ Hf Hr') as (l & Hl & Hrr). eauto 10.
Qed.

Lemma set_region_Ok m (i : nat) r :
  (i < length (region_ptrs m))%nat ->
  set_region m (Z.of_nat i) r = Ok (mk_meta (nb_regions m) (<[i := r]> (region_ptrs m))).
Proof. intros Hi. unfold set_region. by rewrite aset_nat. Qed.

Lemma update_same_geometry m i r l :
  region_ptrs m !! i = Some r -> same_geometry m (update_region m i r l).
Proof.
  intros Hr. split; cbn; rewrite list_fmap_insert; symmetry; apply list_insert_id;
    by rewrite list_lookup_fmap, Hr.
Qed.

Lemma length_flat_block l1 s l2 :
  length (flat (l1 ++ s :: l2)) =
  length (flat (l1 ++ replicate (seg_count s) SFree ++ l2)).
Proof.
  rewrite !flat_app, flat_free. cbn [flat].
  by rewrite !length_app, length_seg_states, length_replicate.
Qed.

Lemma block_in_region r l1 s l2 l :
  region_repr r l -> l = l1 ++ replicate (seg_count s) SFree ++ l2 \/ l = l1 ++ s :: l2 ->
  0 < first_page r <= seg_end (first_page r) l1 /\
  seg_end (first_page r) l1 + Z.of_nat (seg_count s) * PAGE_SIZE <= region_end r /\
  aligned (seg_end (first_page r) l1).
Proof.
  intros Hrr Hl. pose proof (rr_low _ _ Hrr). pose proof (seg_end_ge (first_page r) l1).
  split_and!; [lia|lia| |].
  - rewrite (region_end_seg r l Hrr).
    set (q := seg_end (first_page r) l1) in *.
    pose proof (seg_end_ge (q + PAGE_SIZE * Z.of_nat (seg_count s)) l2).
    destruct Hl as [-> | ->]; rewrite !seg_end_app; fold q;
      rewrite ?seg_end_cons, ?seg_end_free; lia.
  - apply aligned_add; [apply Hrr|]. rewrite Z.mul_comm. apply aligned_mul.
Qed.

(** Turning a run of free frames of one region into a block. *)
Lemma pfa_insert_block m ls (i : nat) r l1 s l2 :
  meta_repr m ls -> region_ptrs m !! i = Some r ->
  ls !! i = Some (l1 ++ replicate (seg_count s) SFree ++ l2) -> s <> SFree ->
  let A := meta_allocs (region_ptrs m) ls in
  let b := seg_end (first_page r) l1 in
  let n := Z.of_nat (seg_count s) in
  in_region m b n /\ block_free A b n /\
  pfa_repr (update_region m i r (l1 ++ s :: l2)) (<[b := n]> A).
Proof.
  intros Hm Hr Hl Hs A b n; subst A b n.
  pose proof (Forall2_lookup_lr _ _ _ _ _ _ (mr_regions m ls Hm) Hr Hl) as Hrr.
  pose proof (length_flat_block l1 s l2) as Hlen. pose proof (seg_count_pos s).
  destruct (block_in_region r l1 s l2 _ Hrr (or_introl eq_refl)) as (? & ? & ?).
  split_and!.
  - exists r. split_and!; [by eapply list_elem_of_lookup_2|lia|done|done].
  - unfold seg_end. eapply run_block_free; [done..| |].
    + rewrite !flat_app, flat_free, !length_app, length_replicate. lia.
    + intros j Hj. rewrite !flat_app, flat_free, lookup_app_r by lia.
      rewrite lookup_app_l by (rewrite length_replicate; lia).
      apply lookup_replicate_2. lia.
  - exists (<[i := l1 ++ s :: l2]> ls). split; [by eapply update_region_repr|].
    apply map_eq. intros x.
    rewrite (update_region_allocs m ls i r _ (l1 ++ s :: l2)
      (seg_end (first_page r) l1) (Some (Z.of_nat (seg_count s))) Hm Hr Hl Hlen);
      [|unfold PAGE_SIZE in *; lia|].
    + rewrite lookup_insert. repeat case_decide; congruence.
    + intros y. rewrite seg_allocs_insert, lookup_insert by done.
      repeat case_decide; congruence.
Qed.

(** Releasing a block of one region. *)
Lemma pfa_delete_block m ls (i : nat) r l1 s l2 :
  meta_repr m ls -> region_ptrs m !! i = Some r ->
  ls !! i = Some (l1 ++ s :: l2) -> s <> SFree ->
  let b := seg_end (first_page r) l1 in
  pfa_repr (update_region m i r (l1 ++ replicate (seg_count s) SFree ++ l2))
    (delete b (meta_allocs (region_ptrs m) ls)).
Proof.
  intros Hm Hr Hl Hs b; subst b.
  pose proof (Forall2_lookup_lr _ _ _ _ _ _ (mr_regions m ls Hm) Hr Hl) as Hrr.
  pose proof (length_flat_block l1 s l2) as Hlen. pose proof (seg_count_pos s).
  destruct (block_in_region r l1 s l2 _ Hrr (or_intror eq_refl)) as (? & ? & ?).
  exists (<[i := l1 ++ replicate (seg_count s) SFree ++ l2]> ls).
  split; [by eapply update_region_repr|].
  apply map_eq. intros x.
  rewrite (update_region_allocs m ls i r _ _
    (seg_end (first_page r) l1) None Hm Hr Hl (eq_sym Hlen)); [|unfold PAGE_SIZE in *; lia|].
  - rewrite lookup_delete. repeat case_decide; congruence.
  - intros y. rewrite seg_allocs_delete, lookup_delete by done.
    repeat case_decide; congruence.
Qed.

(** One iteration of the loop of [pfa_alloc]. *)
Definition alloc_step (nb : Z) (i : Z) (m : pfa_meta) : res (ctl (Z * pfa_meta) pfa_meta) :=
  region ← aget (region_ptrs m) i;
  '(page_frame, region') ← alloc_in_region nb region;
  m' ← set_region m i region';
  if negb (page_frame =? BAD_PAGE) then mret (Leave (page_frame, m'))
  else mret (Next m').

Lemma alloc_step_spec m ls i (n : nat) :
  meta_repr m ls -> 0 <= i < nb_regions m -> (1 <= n)%nat ->
  let A := meta_allocs (region_ptrs m) ls in
  (exists pgf m', alloc_step (Z.of_nat n) i m = Ok (Leave (pgf, m')) /\ pgf <> BAD_PAGE /\
     in_region m pgf (Z.of_nat n) /\ block_free A pgf (Z.of_nat n) /\
     same_geometry m m' /\ pfa_repr m' (<[pgf := Z.of_nat n]> A)) \/
  (alloc_step (Z.of_nat n) i m = Ok (Next m) /\
   exists r, region_ptrs m !! Z.to_nat i = Some r /\
     forall b, first_page r <= b -> b + Z.of_nat n * PAGE_SIZE <= region_end r ->
       aligned b -> ~ block_free A b (Z.of_nat n)).
Proof.
  intros Hm Hi Hn A; subst A. unfold alloc_step.
  destruct (region_lookup m ls i Hm Hi) as (r & l & -> & Hr & Hl & Hrr). cbn [mbind res_bind].
  pose proof (lookup_lt_Some _ _ _ Hr) as Hlt.
  rewrite <- (Z2Nat.id i) by lia. rewrite Nat2Z.id.
  destruct (alloc_in_region_spec r l n Hrr Hn) as [(l1 & s & l2 & -> & Hs & <- & ->)|[-> Hno]];
    cbn [mbind res_bind]; rewrite set_region_Ok by done; cbn [mbind res_bind].
  - left. exists (seg_end (first_page r) l1), (update_region m (Z.to_nat i) r (l1 ++ s :: l2)).
    destruct (block_in_region r l1 s l2 _ Hrr (or_introl eq_refl)) as (? & ? & ?).
    destruct (pfa_insert_block m ls (Z.to_nat i) r l1 s l2 Hm Hr Hl Hs) as (? & ? & ?).
    destruct (Z.eqb_spec (seg_end (first_page r) l1) BAD_PAGE); [unfold BAD_PAGE in *; lia|].
    split_and!; try done. by apply update_same_geometry.
  - right. cbn. rewrite list_insert_id by done. destruct m; split; [done|].
    exists r. split; [done|]. intros b Hb Hb2 Hal Hbf.
    pose proof (rr_aligned _ _ Hrr). rewrite (region_end_seg r l Hrr) in Hb2.
    assert (b = first_page r + PAGE_SIZE * Z.of_nat (Z.to_nat ((b - first_page r) / PAGE_SIZE)))
      as Hbeq by (unfold aligned, PAGE_SIZE in *; Z.div_mod_to_equations; lia).
    apply (Hno (Z.to_nat ((b - first_page r) / PAGE_SIZE))).
    rewrite Hbeq in Hbf. eapply run_block_free; [done..| |done].
    unfold seg_end, PAGE_SIZE in *. lia.
Qed.

(** [find_region]: the region whose frames include the address. *)
Lemma find_region_spec m ls pgf :
  meta_repr m ls ->
  (exists i r l, find_region m pgf = Ok (Some (Z.of_nat i)) /\
     region_ptrs m !! i = Some r /\ ls !! i = Some l /\ region_repr r l /\
     first_page r <= pgf < region_end r) \/
  (find_region m pgf = Ok None /\
     forall r, r ∈ region_ptrs m -> ~ first_page r <= pgf < region_end r).
Proof.
  intros Hm. unfold find_region.
  loop_search (fun j (o : option Z) =>
    exists r l, region_ptrs m !! Z.to_nat j = Some r /\ ls !! Z.to_nat j = Some l /\
      region_repr r l /\ (o = Some j /\ first_page r <= pgf < region_end r \/
      o = None /\ ~ first_page r <= pgf < region_end r))
    as [(j & res & Hj & -> & (r & l & Hr & Hl & Hrr & [[Ho Hin]|[? _]]) & _)|[-> Hk]].
  - intros j Hj. destruct (region_lookup m ls j Hm) as (r & l & -> & Hr & Hl & Hrr); [lia|].
    cbn [mbind res_bind].
    assert (first_page r ⊕ (nb_pages r ⊗ PAGE_SIZE) = region_end r) as ->.
    { pose proof (region_nb_small r l Hrr). pose proof (region_end_seg r l Hrr).
      destruct Hrr as [_ ? ? _ ?]. unfold region_end, PAGE_SIZE in *.
      rewrite (u32_small (nb_pages r * _)) by lia. rewrite u32_small by lia. lia. }
    destruct (Z.leb_spec (first_page r) pgf), (Z.ltb_spec pgf (region_end r));
      cbn; [left|right..].
    + exists j. split; [done|]. exists r, l. split_and!; auto.
    + split; [done|]. exists r, l. split_and!; [done..|right; split; [done|lia]].
    + split; [done|]. exists r, l. split_and!; [done..|right; split; [done|lia]].
    + split; [done|]. exists r, l. split_and!; [done..|right; split; [done|lia]].
  - left. exists (Z.to_nat j), r, l. simplify_eq. cbn. rewrite Z2Nat.id by lia. done.
  - done.
  - right. cbn. split; [done|]. intros r Hr.
    apply list_elem_of_lookup in Hr as [i Hi]. pose proof (mr_nb m ls Hm).
    pose proof (lookup_lt_Some _ _ _ Hi).
    destruct (Hk (Z.of_nat i)) as (r' & l' & Hr' & _ & _ & [[? _]|[_ ?]]); [lia|done|].
    rewrite Nat2Z.id in Hr'. by simplify_eq.
Qed.

(** The index computed for an address of the region. *)
Lemma frame_index r l pgf :
  region_repr r l -> first_page r <= pgf < region_end r -> aligned pgf ->
  exists p, (p < length (flat l))%nat /\ (pgf ⊖ first_page r) / PAGE_SIZE = Z.of_nat p /\
    pgf = first_page r + PAGE_SIZE * Z.of_nat p.
Proof.
  intros Hrr Hin Hal. rewrite (region_end_seg r l Hrr) in Hin.
  destruct Hrr as [_ _ Hlow Ha Hhigh].
  exists (Z.to_nat ((pgf - first_page r) / PAGE_SIZE)).
  rewrite u32_small by lia.
  unfold seg_end, aligned, PAGE_SIZE in *. Z.div_mod_to_equations. lia.
Qed.

(** The states of a pagemap. *)
Lemma flat_state l p st :
  flat l !! p = Some st ->
  (st = PAGE_FREE \/ st = PAGE_USED \/ st = PAGE_USED_HEAD) \/
  (st = PAGE_USED_PART \/ st = PAGE_USED_TAIL).
Proof.
  revert p; induction l as [|s l IH]; intros p Hp; [done|]. cbn [flat] in Hp.
  apply lookup_app_Some in Hp as [Hp|[_ Hp]]; [|by eapply IH].
  apply list_elem_of_lookup_2 in Hp. destruct s as [| |k]; cbn [seg_states] in Hp.
  - apply list_elem_of_singleton in Hp. tauto.
  - apply list_elem_of_singleton in Hp. tauto.
  - apply elem_of_cons in Hp as [->|Hp]; [tauto|].
    apply elem_of_app in Hp as [Hp|Hp%list_elem_of_singleton]; [|tauto].
    apply elem_of_replicate in Hp as [-> _]. tauto.
Qed.

(** ** The refinement of the two operations *)

(** [pfa_alloc] refines the insertion of a block: it always returns; when it
    returns a page frame, the [n] frames from there lie in one region, belonged
    to no block, and are exactly what is added to the allocated blocks; when it
    returns [BAD_PAGE], the state is unchanged and no region holds [n]
    contiguous free frames (the greedy first-fit search misses none). *)
Lemma pfa_alloc_spec m A n :
  pfa_repr m A -> 1 <= n < 2 ^ 32 ->
  exists pgf m', pfa_alloc m n = Ok (pgf, m') /\ same_geometry m m' /\
    ((pgf <> BAD_PAGE /\ in_region m pgf n /\ block_free A pgf n /\
      pfa_repr m' (<[pgf := n]> A)) \/
     (pgf = BAD_PAGE /\ m' = m /\ forall b, in_region m b n -> ~ block_free A b n)).
Proof.
  intros (ls & Hm & ->) Hn. unfold pfa_alloc.
  destruct (Z.eqb_spec n 0); [lia|].
  rewrite <- (Z2Nat.id n) by lia. set (k := Z.to_nat n).
  change (for_ctl (Z.to_nat (nb_regions m)) 0 _ m)
    with (for_ctl (Z.to_nat (nb_regions m)) 0 (alloc_step (Z.of_nat k)) m).
  set (A := meta_allocs (region_ptrs m) ls).
  loop_search (fun i (o : option (Z * pfa_meta)) =>
    match o with
    | Some (pgf, m') => pgf <> BAD_PAGE /\ in_region m pgf (Z.of_nat k) /\
        block_free A pgf (Z.of_nat k) /\ same_geometry m m' /\
        pfa_repr m' (<[pgf := Z.of_nat k]> A)
    | None => exists r, region_ptrs m !! Z.to_nat i = Some r /\
        forall b, first_page r <= b -> b + Z.of_nat k * PAGE_SIZE <= region_end r ->
          aligned b -> ~ block_free A b (Z.of_nat k)
    end) as [(i & [pgf m'] & _ & -> & (? & ? & ? & ? & ?) & _)|[-> Hk]].
  - intros i Hi. destruct (alloc_step_spec m ls i k Hm) as [(pgf & m' & -> & ?)|[-> ?]];
      [lia|lia|left|right; done]. by exists (pgf, m').
  - exists pgf, m'. split_and!; [done|done|]. left. by split_and!.
  - exists BAD_PAGE, m. split_and!; [done|split; done|]. right.
    split_and!; [done..|]. intros b (r & Hr & Hb1 & Hb2 & Hb3).
    apply list_elem_of_lookup in Hr as [i Hi]. pose proof (lookup_lt_Some _ _ _ Hi).
    pose proof (mr_nb m ls Hm). destruct (Hk (Z.of_nat i)) as (r' & Hr' & H'); [lia|].
    rewrite Nat2Z.id in Hr'. simplify_eq. by apply H'.
Qed.

(** [pfa_free] refines the deletion of a block: on the address of an
    allocated block it returns and removes exactly that block; on any other
    32-bit address it panics (never reading outside of the pagemaps). *)
Lemma pfa_free_spec m A pgf :
  pfa_repr m A -> is_u32 pgf ->
  match A !! pgf with
  | Some n => exists m', pfa_free m pgf = Ok m' /\ same_geometry m m' /\
                pfa_repr m' (delete pgf A)
  | None => exists why, pfa_free m pgf = Err (Panic why)
  end.
Proof.
  intros (ls & Hm & ->) Hu. unfold pfa_free.
  destruct (find_region_spec m ls pgf Hm) as [(i & r & l & -> & Hr & Hl & Hrr & Hin)|[-> Hno]];
    cbn [mbind res_bind].
  2:{ destruct (_ !! pgf) as [n|] eqn:E; [|by eexists]. exfalso.
      apply meta_allocs_inv in E as (i & r & l & Hr & Hl & E).
      eapply Hno; [by eapply list_elem_of_lookup_2|].
      pose proof (meta_allocs_range _ _ _ _ _ _ _ Hm Hr Hl E). lia. }
  rewrite (meta_allocs_in m ls i r l) by done. rewrite PAGE_OFFSET_small by done.
  destruct (seg_allocs (first_page r) l !! pgf) as [n|] eqn:E.
  - apply seg_allocs_inv in E as (l1 & s & l2 & -> & -> & -> & Hs).
    destruct (block_in_region r l1 s l2 _ Hrr (or_intror eq_refl)) as (_ & _ & Hal).
    rewrite Hal. cbn [negb Z.eqb]. rewrite aget_nat, Hr. cbn [mbind res_bind].
    destruct (frame_index r _ _ Hrr Hin Hal) as (p & Hp & -> & Heq).
    assert (p = length (flat l1)) as -> by (unfold seg_end, PAGE_SIZE in *; lia).
    pose proof (free_in_region_Ok r l1 s l2 Hrr Hs) as Hf. unfold free_in_region in Hf.
    rewrite <- bind_assoc, Hf. cbn [mbind res_bind].
    rewrite set_region_Ok by (by eapply lookup_lt_Some).
    exists (update_region m i r (l1 ++ replicate (seg_count s) SFree ++ l2)).
    split_and!; [done|by apply update_same_geometry|by apply pfa_delete_block].
  - destruct (Z.eqb_spec (pgf mod PAGE_SIZE) 0) as [Hal|]; [|by eexists]. cbn [negb].
    rewrite aget_nat, Hr. cbn [mbind res_bind].
    destruct (frame_index r _ _ Hrr Hin Hal) as (p & Hp & -> & ->).
    destruct (lookup_lt_is_Some_2 (flat l) p Hp) as [st Hst].
    rewrite (rr_map r l Hrr), aget_nat, Hst. cbn [mbind res_bind].
    destruct (flat_state l p st Hst) as [Hs|[-> | ->]]; [|by eexists..].
    apply flat_split in Hst as (l1 & s & l2 & -> & <- & Hsh); [|done].
    destruct s; [subst st; by eexists|exfalso..];
      fold (seg_end (first_page r) l1) in E;
      rewrite seg_allocs_insert, lookup_insert_eq in E by done; done.
Qed.
