(* ===== verification/PfaRun.v ===== *)
(** * Client-level theorems of the page frame allocator

    What the callers of [pfa_alloc()] and [pfa_free()] rely on: the refinement
    of the map of the allocated blocks, the round trip of an allocation and its
    release, and the blocks held in any run of the two operations. *)
From S2P Require Import Prelude Page Pfa PfaSpec.

(** ** The representation is unique *)

Lemma seg_allocs_head a s l :
  seg_allocs a (s :: l) !! a =
  if decide (s = SFree) then None else Some (Z.of_nat (seg_count s)).
Proof.
  rewrite seg_allocs_cons. pose proof (seg_count_pos s).
  case_decide.
  - rewrite (left_id_L ∅ (∪)). apply seg_allocs_outside. unfold PAGE_SIZE. lia.
  - apply lookup_union_Some_l. apply lookup_singleton_eq.
Qed.

Lemma seg_count_inj s s' :
  s <> SFree -> s' <> SFree -> seg_count s = seg_count s' -> s = s'.
Proof. destruct s, s'; simpl; intros; try done; f_equal; lia. Qed.

Lemma seg_head_eq a s l s' l' :
  seg_allocs a (s :: l) = seg_allocs a (s' :: l') -> s = s'.
Proof.
  intros H. pose proof (seg_allocs_head a s l) as H1. rewrite H, seg_allocs_head in H1.
  destruct (decide (s = SFree)), (decide (s' = SFree)); try congruence.
  apply seg_count_inj; [done..|]. injection H1. lia.
Qed.

Lemma seg_allocs_tail a s l l' :
  seg_allocs a (s :: l) = seg_allocs a (s :: l') ->
  seg_allocs (a + PAGE_SIZE * Z.of_nat (seg_count s)) l =
  seg_allocs (a + PAGE_SIZE * Z.of_nat (seg_count s)) l'.
Proof.
  intros H. apply map_eq. intros x.
  pose proof (seg_count_pos s). set (a' := a + PAGE_SIZE * Z.of_nat (seg_count s)).
  destruct (decide (x < a')) as [Hx|Hx].
  - by rewrite !seg_allocs_outside by lia.
  - assert (forall l0, seg_allocs a (s :: l0) !! x = seg_allocs a' l0 !! x) as He.
    { intros l0. rewrite seg_allocs_cons. apply lookup_union_r.
      case_decide; [done|]. apply lookup_singleton_ne. unfold a', PAGE_SIZE in *. lia. }
    by rewrite <- !He, H.
Qed.

Lemma seg_allocs_inj a l l' :
  length (flat l) = length (flat l') -> seg_allocs a l = seg_allocs a l' -> l = l'.
Proof.
  revert a l'; induction l as [|s l IH]; intros a [|s' l'] Hlen H; [done|..].
  - cbn in Hlen. rewrite length_app, length_seg_states in Hlen.
    pose proof (seg_count_pos s'). lia.
  - cbn in Hlen. rewrite length_app, length_seg_states in Hlen.
    pose proof (seg_count_pos s). lia.
  - pose proof (seg_head_eq _ _ _ _ _ H) as <-. f_equal.
    cbn [flat] in Hlen. rewrite !length_app in Hlen.
    apply (IH (a + PAGE_SIZE * Z.of_nat (seg_count s))); [lia|].
    by apply seg_allocs_tail.
Qed.

Lemma region_repr_eq r r' l :
  region_repr r l -> region_repr r' l -> first_page r = first_page r' -> r = r'.
Proof.
  intros [Hm Hn _ _ _] [Hm' Hn' _ _ _] Hf. destruct r, r'; cbn in *. congruence.
Qed.

Lemma fmap_lookup_eq {A B} (f : A -> B) (l l' : list A) (i : nat) a a' :
  f <$> l = f <$> l' -> l !! i = Some a -> l' !! i = Some a' -> f a = f a'.
Proof.
  intros H Ha Ha'. apply (f_equal (.!! i)) in H.
  rewrite !list_lookup_fmap, Ha, Ha' in H. by injection H.
Qed.

(** Two states of the same regions with the same blocks are equal. *)
Lemma pfa_repr_inj m m' A :
  pfa_repr m A -> pfa_repr m' A -> same_geometry m m' -> m = m'.
Proof.
  intros (ls & Hm & ->) (ls' & Hm' & HA) [Hf Hn].
  assert (length (region_ptrs m) = length (region_ptrs m')) as Hlen.
  { apply (f_equal length) in Hf. by rewrite !length_fmap in Hf. }
  assert (region_ptrs m = region_ptrs m') as Hptrs.
  { apply list_eq_same_length with (length (region_ptrs m)); [done..|].
    intros i r r' Hi Hr Hr'.
    destruct (Forall2_lookup_l _ _ _ _ _ (mr_regions _ _ Hm) Hr) as (l & Hl & Hrr).
    destruct (Forall2_lookup_l _ _ _ _ _ (mr_regions _ _ Hm') Hr') as (l' & Hl' & Hrr').
    pose proof (fmap_lookup_eq _ _ _ _ _ _ Hf Hr Hr') as Hfp.
    pose proof (fmap_lookup_eq _ _ _ _ _ _ Hn Hr Hr') as Hnp.
    pose proof (region_end_seg _ _ Hrr) as He. pose proof (region_end_seg _ _ Hrr') as He'.
    assert (l = l') as <-; [|by eapply region_repr_eq].
    apply (seg_allocs_inj (first_page r)).
    { pose proof (rr_nb _ _ Hrr). pose proof (rr_nb _ _ Hrr'). lia. }
    apply map_eq. intros x.
    destruct (decide (first_page r <= x < region_end r)) as [Hx|Hx].
    - rewrite <- (meta_allocs_in m ls i r l x) by done. rewrite HA.
      rewrite (meta_allocs_in m' ls' i r' l' x) by (unfold region_end in *; try done; lia).
      by rewrite Hfp.
    - rewrite He in Hx. unfold region_end in *.
      rewrite !seg_allocs_outside by (rewrite ?Hfp, <- ?He', <- ?Hnp, <- ?Hfp in *; lia).
      done. }
  destruct m as [n rs], m' as [n' rs']; cbn in *. subst rs'. f_equal.
  pose proof (mr_nb _ _ Hm). pose proof (mr_nb _ _ Hm'). cbn in *. lia.
Qed.

(** ** Geometry *)

Lemma same_geometry_refl m : same_geometry m m.
Proof. by split. Qed.

Lemma same_geometry_trans m1 m2 m3 :
  same_geometry m1 m2 -> same_geometry m2 m3 -> same_geometry m1 m3.
Proof. intros [] []. split; congruence. Qed.

Lemma same_geometry_sym m1 m2 : same_geometry m1 m2 -> same_geometry m2 m1.
Proof. intros []. by split. Qed.

Lemma in_region_geometry m m' b n :
  same_geometry m m' -> in_region m b n -> in_region m' b n.
Proof.
  intros [Hf Hn] (r & Hr & Hb & He & Ha).
  apply list_elem_of_lookup in Hr as [i Hi].
  assert (is_Some (region_ptrs m' !! i)) as [r' Hi'].
  { apply lookup_lt_is_Some. apply lookup_lt_Some in Hi.
    apply (f_equal length) in Hf. rewrite !length_fmap in Hf. lia. }
  pose proof (fmap_lookup_eq _ _ _ _ _ _ Hf Hi Hi').
  pose proof (fmap_lookup_eq _ _ _ _ _ _ Hn Hi Hi').
  exists r'. unfold region_end in *.
  split_and!; [by eapply list_elem_of_lookup_2|lia|lia|done].
Qed.

(** ** Runs of the allocator *)

(** All the frames of all the regions are free. *)
Definition all_free (m : pfa_meta) : Prop :=
  forall r, r ∈ region_ptrs m -> Forall (eq PAGE_FREE) (pagemap r).

(** [pfa_run m0 m L]: from the state [m0], some sequence of calls of
    [pfa_alloc] and [pfa_free] by clients that free what they hold leads to
    the state [m], with the blocks of the ledger [L] held by the clients. *)
Inductive pfa_run (m0 : pfa_meta) : pfa_meta -> gmap Z Z -> Prop :=
  | run_init : pfa_run m0 m0 ∅
  | run_alloc m L n p m' :
      pfa_run m0 m L -> 0 <= n < 2 ^ 32 ->
      pfa_alloc m n = Ok (p, m') -> p <> BAD_PAGE ->
      pfa_run m0 m' (<[p := n]> L)
  | run_alloc_fail m L n m' :
      pfa_run m0 m L -> 0 <= n < 2 ^ 32 ->
      pfa_alloc m n = Ok (BAD_PAGE, m') ->
      pfa_run m0 m' L
  | run_free m L n p m' :
      pfa_run m0 m L -> L !! p = Some n -> pfa_free m p = Ok m' ->
      pfa_run m0 m' (delete p L).

(** The blocks of a ledger: inside of a region, and pairwise disjoint. *)
Definition ledger_ok (m0 : pfa_meta) (L : gmap Z Z) : Prop :=
  (forall p n, L !! p = Some n -> 1 <= n /\ p <> BAD_PAGE /\ in_region m0 p n) /\
  (forall p n q k, L !! p = Some n -> L !! q = Some k -> p <> q ->
     p + n * PAGE_SIZE <= q \/ q + k * PAGE_SIZE <= p).

Lemma pfa_repr_u32 m A p n : pfa_repr m A -> A !! p = Some n -> is_u32 p /\ p <> BAD_PAGE.
Proof.
  intros (ls & Hm & ->) H. apply meta_allocs_inv in H as (i & r & l & Hr & Hl & H).
  pose proof (Forall2_lookup_lr _ _ _ _ _ _ (mr_regions m ls Hm) Hr Hl) as Hrr.
  pose proof (meta_allocs_range m ls i r l p n Hm Hr Hl H) as Hx.
  rewrite (region_end_seg r l Hrr) in Hx. destruct Hrr as [_ _ ? _ ?].
  unfold is_u32, BAD_PAGE. lia.
Qed.

(** The blocks of a representation. *)
Lemma pfa_repr_in_region m A p n :
  pfa_repr m A -> A !! p = Some n -> 1 <= n /\ 0 < p /\ in_region m p n.
Proof.
  intros (ls & Hm & ->) H. apply meta_allocs_inv in H as (i & r & l & Hr & Hl & H).
  pose proof (Forall2_lookup_lr _ _ _ _ _ _ (mr_regions m ls Hm) Hr Hl) as Hrr.
  apply seg_allocs_inv in H as (l1 & s & l2 & -> & -> & -> & _).
  destruct (block_in_region r l1 s l2 _ Hrr (or_intror eq_refl)) as (? & ? & ?).
  pose proof (seg_count_pos s). split_and!; [lia|lia|]. exists r.
  split_and!; [by eapply list_elem_of_lookup_2|lia|done|done].
Qed.

(** A free block whose frames no block of [A] covers is disjoint from each. *)
Lemma block_free_disjoint A b n p k :
  block_free A b n -> A !! p = Some k -> aligned b -> aligned p -> 1 <= k -> 1 <= n ->
  b + n * PAGE_SIZE <= p \/ p + k * PAGE_SIZE <= b.
Proof.
  intros Hf Hp Hab Hap Hk Hn.
  destruct (Z_le_gt_dec (b + n * PAGE_SIZE) p) as [|H1]; [by left|].
  destruct (Z_le_gt_dec (p + k * PAGE_SIZE) b) as [|H2]; [by right|]. exfalso.
  destruct (Z_le_gt_dec p b) as [H3|H3].
  - apply (Hf 0); [lia|]. exists p, k. split; [done|lia].
  - apply (Hf ((p - b) / PAGE_SIZE)); unfold aligned, PAGE_SIZE in *.
    { Z.div_mod_to_equations; lia. }
    exists p, k. split; [done|]. unfold PAGE_SIZE. Z.div_mod_to_equations; lia.
Qed.

Lemma ledger_insert m0 L p n :
  ledger_ok m0 L -> 1 <= n -> p <> BAD_PAGE -> in_region m0 p n -> block_free L p n ->
  ledger_ok m0 (<[p := n]> L).
Proof.
  intros [H1 H2] Hn Hp Hin Hf. split.
  - intros q k [[<- <-]|[_ H]]%lookup_insert_Some; [done|by apply H1].
  - assert (forall q k, L !! q = Some k ->
      p + n * PAGE_SIZE <= q \/ q + k * PAGE_SIZE <= p) as Hd.
    { intros q k Hq. destruct (H1 q k Hq) as (? & _ & r & _ & _ & _ & ?).
      destruct Hin as (_ & _ & _ & _ & ?).
      by apply (block_free_disjoint L). }
    intros q k q' k' [[<- <-]|[_ H]]%lookup_insert_Some
      [[<- <-]|[_ H']]%lookup_insert_Some Hne; [done|by apply Hd| |by apply (H2 q k q' k')].
    destruct (Hd q k H); [by right|by left].
Qed.

Lemma ledger_delete m0 L p : ledger_ok m0 L -> ledger_ok m0 (delete p L).
Proof.
  intros [H1 H2]. split.
  - intros q k [_ H]%lookup_delete_Some. by apply H1.
  - intros q k q' k' [_ H]%lookup_delete_Some [_ H']%lookup_delete_Some. by apply H2.
Qed.

Lemma pfa_repr_init m0 ls :
  meta_repr m0 ls -> all_free m0 -> pfa_repr m0 ∅.
Proof.
  intros Hm Hf. exists ls. split; [done|]. symmetry. apply map_eq. intros x.
  rewrite lookup_empty. apply eq_None_not_Some. intros [k Hk].
  apply meta_allocs_inv in Hk as (i & r & l & Hr & Hl & Hk).
  pose proof (Forall2_lookup_lr _ _ _ _ _ _ (mr_regions m0 ls Hm) Hr Hl) as Hrr.
  apply seg_allocs_inv in Hk as (l1 & s & l2 & -> & _ & _ & Hs).
  pose proof (Hf r ltac:(by eapply list_elem_of_lookup_2)) as Hall.
  rewrite (rr_map _ _ Hrr) in Hall.
  pose proof (Forall_lookup_1 _ _ _ _ Hall (flat_lookup_mid l1 s l2)).
  by destruct s.
Qed.

(** The invariant of a run. *)
Lemma pfa_run_inv m0 m L :
  pfa_repr m0 ∅ -> pfa_run m0 m L ->
  pfa_repr m L /\ same_geometry m0 m /\ ledger_ok m0 L.
Proof.
  intros H0. induction 1 as [|m L n p m' _ IH Hn Ha Hp|m L n m' _ IH Hn Ha|m L n p m' _ IH HL Hfr].
  - split_and!; [done|apply same_geometry_refl|]. split; intros *; by rewrite lookup_empty.
  - destruct IH as (Hr & Hg & Hl). destruct (decide (n = 0)) as [->|].
    { injection Ha. congruence. }
    destruct (pfa_alloc_spec m L n Hr ltac:(lia)) as (p' & m'' & Heq & Hg' & Hcase).
    rewrite Ha in Heq. simplify_eq.
    destruct Hcase as [(_ & Hin & Hbf & Hr')|[? _]]; [|done].
    split_and!; [done|by eapply same_geometry_trans|].
    apply ledger_insert; [done|lia|done| |done].
    eapply in_region_geometry; [by apply same_geometry_sym|done].
  - destruct IH as (Hr & Hg & Hl). destruct (decide (n = 0)) as [->|].
    { injection Ha as <-. done. }
    destruct (pfa_alloc_spec m L n Hr ltac:(lia)) as (p' & m'' & Heq & Hg' & Hcase).
    rewrite Ha in Heq. simplify_eq.
    destruct Hcase as [(? & _)|(_ & -> & _)]; [done|by split_and!].
  - destruct IH as (Hr & Hg & Hl).
    pose proof (pfa_repr_u32 m L p n Hr HL) as [Hu _].
    pose proof (pfa_free_spec m L p Hr Hu) as Hf. rewrite HL in Hf.
    destruct Hf as (m'' & Heq & Hg' & Hr'). rewrite Hfr in Heq. simplify_eq.
    split_and!; [done|by eapply same_geometry_trans|by apply ledger_delete].
Qed.

(** ** Theorems *)

(** C1. [pfa_alloc] refines the insertion of a block: it always returns; when it
    returns a page frame, the [n] frames from there lie in one region, belonged
    to no block, and are exactly what is added to the allocated blocks; when it
    returns [BAD_PAGE], the state is unchanged and no region holds [n]
    contiguous free frames (the greedy first-fit search misses none). *)
Theorem pfa_alloc_refines m A n :
  pfa_repr m A -> 1 <= n < 2 ^ 32 ->
  exists pgf m', pfa_alloc m n = Ok (pgf, m') /\ same_geometry m m' /\
    ((pgf <> BAD_PAGE /\ in_region m pgf n /\ block_free A pgf n /\
      pfa_repr m' (<[pgf := n]> A)) \/
     (pgf = BAD_PAGE /\ m' = m /\ forall b, in_region m b n -> ~ block_free A b n)).
Proof. apply pfa_alloc_spec. Qed.

(** C2. [pfa_free] refines the deletion of a block: on the address of an
    allocated block it returns and removes exactly that block; on any other
    32-bit address it panics (never reading outside of the pagemaps). *)
Theorem pfa_free_refines m A pgf :
  pfa_repr m A -> is_u32 pgf ->
  match A !! pgf with
  | Some n => exists m', pfa_free m pgf = Ok m' /\ same_geometry m m' /\
                pfa_repr m' (delete pgf A)
  | None => exists why, pfa_free m pgf = Err (Panic why)
  end.
Proof. apply pfa_free_spec. Qed.

(** C3. Round trip: releasing the block that [pfa_alloc] has just returned
    succeeds and restores the metadata bit for bit. *)
Theorem pfa_alloc_free_roundtrip m A n pgf m' :
  pfa_repr m A -> 1 <= n < 2 ^ 32 -> pfa_alloc m n = Ok (pgf, m') -> pgf <> BAD_PAGE ->
  pfa_free m' pgf = Ok m.
Proof.
  intros Hr Hn Ha Hp.
  destruct (pfa_alloc_spec m A n Hr Hn) as (p & m1 & Heq & Hg & Hc).
  rewrite Ha in Heq. simplify_eq.
  destruct Hc as [(_ & _ & Hbf & Hr')|[? _]]; [|done].
  pose proof (pfa_repr_u32 _ _ p n Hr' (lookup_insert_eq _ _ _)) as [Hu _].
  pose proof (pfa_free_spec m1 _ p Hr' Hu) as Hf. rewrite lookup_insert_eq in Hf.
  destruct Hf as (m2 & Heq & Hg2 & Hr2). rewrite Heq. f_equal.
  rewrite delete_insert_id in Hr2.
  - eapply pfa_repr_inj; [done..|]. apply same_geometry_sym.
    by eapply same_geometry_trans.
  - apply eq_None_not_Some. intros [k Hk]. apply (Hbf 0); [lia|]. exists p, k.
    split; [done|]. destruct Hr as (ls & Hm & ->).
    apply meta_allocs_inv in Hk as (i & r & l & Hi & Hl & Hk).
    pose proof (meta_allocs_range _ _ _ _ _ _ _ Hm Hi Hl Hk). lia.
Qed.

(** C4. In every run of the allocator from the initial state, the blocks the
    clients hold are page aligned, inside of a region, and pairwise disjoint;
    any of them can be released, and releasing anything else is detected. *)
Theorem pfa_run_safe m0 ls m L :
  meta_repr m0 ls -> all_free m0 -> pfa_run m0 m L ->
  ledger_ok m0 L /\
  forall p, is_u32 p ->
    if decide (is_Some (L !! p)) then exists m', pfa_free m p = Ok m'
    else exists why, pfa_free m p = Err (Panic why).
Proof.
  intros Hm Hf Hrun.
  destruct (pfa_run_inv m0 m L) as (Hr & _ & Hl); [by eapply pfa_repr_init|done|].
  split; [done|]. intros p Hp. pose proof (pfa_free_spec m L p Hr Hp) as H.
  destruct (L !! p) eqn:E; case_decide as Hd.
  - destruct H as (m' & H & _). by exists m'.
  - exfalso. apply Hd. by eexists.
  - by destruct Hd.
  - done.
Qed.

(** C5. Nothing leaks: when the clients have released all they were given, the
    metadata is the initial one again, whatever the order of the calls. *)
Theorem pfa_run_no_leak m0 ls m :
  meta_repr m0 ls -> all_free m0 -> pfa_run m0 m ∅ -> m = m0.
Proof.
  intros Hm Hf Hrun.
  destruct (pfa_run_inv m0 m ∅) as (Hr & Hg & _); [by eapply pfa_repr_init|done|].
  eapply pfa_repr_inj; [done|by eapply pfa_repr_init|by apply same_geometry_sym].
Qed.

(** ** Witnesses: two regions of four and three frames *)

Definition demo_meta : pfa_meta :=
  mk_meta 2 [mk_region 0x100000 4 [0; 0; 0; 0]; mk_region 0x200000 3 [0; 0; 0]].

(** The same after an allocation of two frames, and then of one frame. *)
Definition demo_meta1 : pfa_meta :=
  mk_meta 2 [mk_region 0x100000 4 [2; 3; 0; 0]; mk_region 0x200000 3 [0; 0; 0]].

Definition demo_meta2 : pfa_meta :=
  mk_meta 2 [mk_region 0x100000 4 [2; 3; 1; 0]; mk_region 0x200000 3 [0; 0; 0]].

Lemma demo_segs_repr l1 l2 :
  length (flat l1) = 4%nat -> length (flat l2) = 3%nat ->
  meta_repr (mk_meta 2 [mk_region 0x100000 4 (flat l1); mk_region 0x200000 3 (flat l2)])
    [l1; l2].
Proof.
  intros H1 H2. constructor.
  - done.
  - repeat constructor; cbn; unfold seg_end, PAGE_SIZE; rewrite ?H1, ?H2; done.
  - intros i j r1 r2 Hij Hi Hj.
    destruct i as [|[|i]], j as [|[|j]]; cbn in Hi, Hj; simplify_eq;
      vm_compute; (left; congruence) || (right; congruence).
Qed.

Lemma demo_meta_repr : meta_repr demo_meta [replicate 4 SFree; replicate 3 SFree].
Proof. by apply (demo_segs_repr (replicate 4 SFree) (replicate 3 SFree)). Qed.

Lemma demo_meta2_repr :
  pfa_repr demo_meta2 {[ 0x100000 := 2; 0x102000 := 1 ]}.
Proof.
  exists [[SMulti 0; SUsed; SFree]; replicate 3 SFree]. split; [by apply (demo_segs_repr [SMulti 0; SUsed; SFree] (replicate 3 SFree))|].
  by vm_compute.
Qed.

Lemma demo_all_free : all_free demo_meta.
Proof.
  intros r Hr. cbn in Hr. rewrite !elem_of_cons in Hr.
  destruct Hr as [->|[->|Hr]]; [repeat constructor..|by apply not_elem_of_nil in Hr].
Qed.

Lemma pfa_alloc_refines_witness :
  exists pgf m', pfa_alloc demo_meta2 2 = Ok (pgf, m') /\ pgf = 0x200000.
Proof.
  destruct (pfa_alloc_refines demo_meta2 _ 2 demo_meta2_repr ltac:(lia))
    as (pgf & m' & H & _). exists pgf, m'. split; [done|]. vm_compute in H. congruence.
Defined.

Lemma pfa_free_refines_witness :
  (exists m', pfa_free demo_meta2 0x100000 = Ok m' /\ pfa_repr m' {[ 0x102000 := 1 ]}) /\
  (exists why, pfa_free demo_meta2 0x101000 = Err (Panic why)).
Proof.
  split.
  - destruct (pfa_free_refines demo_meta2 _ 0x100000 demo_meta2_repr ltac:(unfold is_u32; lia))
      as (m' & H & _ & Hr). by exists m'.
  - exact (pfa_free_refines demo_meta2 _ 0x101000 demo_meta2_repr ltac:(unfold is_u32; lia)).
Defined.

Lemma pfa_alloc_free_roundtrip_witness :
  exists pgf m', pfa_alloc demo_meta2 2 = Ok (pgf, m') /\ pfa_free m' pgf = Ok demo_meta2.
Proof.
  eexists _, _. split; [by vm_compute|].
  eapply (pfa_alloc_free_roundtrip demo_meta2 _ 2 _ _ demo_meta2_repr); [lia|by vm_compute|done].
Defined.

Lemma demo_run : pfa_run demo_meta demo_meta2 (<[ 0x102000 := 1 ]> (<[ 0x100000 := 2 ]> ∅)).
Proof.
  apply (run_alloc _ demo_meta1); [|lia|by vm_compute|done].
  apply (run_alloc _ demo_meta); [apply run_init|lia|by vm_compute|done].
Qed.

Lemma pfa_run_safe_witness :
  ledger_ok demo_meta (<[ 0x102000 := 1 ]> (<[ 0x100000 := 2 ]> ∅)).
Proof. apply (pfa_run_safe _ _ _ _ demo_meta_repr demo_all_free demo_run). Defined.

Lemma demo_run_back :
  exists m, pfa_run demo_meta m ∅.
Proof.
  pose (m := mk_meta 2 [mk_region 0x100000 4 [0; 0; 1; 0]; mk_region 0x200000 3 [0; 0; 0]]).
  exists demo_meta. replace (∅ : gmap Z Z) with (delete 0x102000 (delete 0x100000
    (<[ 0x102000 := 1 ]> (<[ 0x100000 := 2 ]> ∅) : gmap Z Z))) by (by vm_compute).
  apply (run_free _ m _ 1); [apply (run_free _ demo_meta2 _ 2)|..];
    [apply demo_run|by vm_compute..].
Qed.

Lemma pfa_run_no_leak_witness : pfa_run demo_meta demo_meta ∅.
Proof.
  destruct demo_run_back as [m Hm].
  by rewrite (pfa_run_no_leak demo_meta _ m demo_meta_repr demo_all_free Hm) in Hm.
Defined.
