(* ===== verification/Pmm.v ===== *)
(** * The physical memory map

    [kernel/mem/phys_mem_map.c] with the structures of [kernel/include/mem/pmm.h]
    and [kernel/include/multiboot.h].  The memory map the boot loader leaves is
    the list [mmap_buf] of packed entries that starts at [mmap_addr]; a pointer
    into it is an address.  A [struct phys_mmap] is its length and the storage
    behind it, a list whose length is the number of entries there is room for,
    so that a write past the storage is the fault [Oob]. *)
From S2P Require Import Prelude Page.

(** ** Data *)

Definition MMAP_TYPE_AVAILABLE : Z := 1.
Definition MMAP_TYPE_RESERVED : Z := 2.
Definition MMAP_TYPE_ACPI : Z := 3.
Definition MMAP_TYPE_NVS : Z := 4.
Definition MMAP_TYPE_BADRAM : Z := 5.

Record phys_mmap_entry := mk_pmme {
  pe_addr : Z;
  pe_len : Z;
  pe_type : Z;
}.

Record phys_mmap := mk_pmm {
  pmm_len : Z;
  pmm_entries : list phys_mmap_entry;
}.

Definition sizeof_phys_mmap : Z := 4.
Definition sizeof_phys_mmap_entry : Z := 12.

Definition MULTIBOOT_INFO_MODS : Z := 0x8.
Definition MULTIBOOT_INFO_MEM_MAP : Z := 0x40.

(** [multiboot_memory_map_t], packed; [addr] and [len] have 64 bits. *)
Record multiboot_mmap_entry := mk_mme {
  mm_size : Z;
  mm_addr : Z;
  mm_len : Z;
  mm_type : Z;
}.

Record multiboot_module := mk_mod {
  mod_start : Z;
  mod_end : Z;
}.

Definition sizeof_multiboot_info : Z := 120.
Definition sizeof_multiboot_memory_map : Z := 24.
Definition sizeof_multiboot_module : Z := 16.

(** What the boot loader leaves: the address of the [multiboot_info], the fields
    the kernel reads, the memory map and the first module structure. *)
Record multiboot_info := mk_mbi {
  mbi_ptr : Z;
  mbi_flags : Z;
  mods_count : Z;
  mods_addr : Z;
  mmap_length : Z;
  mmap_addr : Z;
  mmap_buf : list multiboot_mmap_entry;
  mbi_mod : multiboot_module;
}.

Definition set_flags (f : Z) (mbi : multiboot_info) : multiboot_info :=
  mk_mbi (mbi_ptr mbi) f (mods_count mbi) (mods_addr mbi) (mmap_length mbi)
    (mmap_addr mbi) (mmap_buf mbi) (mbi_mod mbi).

Definition set_buf (b : list multiboot_mmap_entry) (mbi : multiboot_info)
  : multiboot_info :=
  mk_mbi (mbi_ptr mbi) (mbi_flags mbi) (mods_count mbi) (mods_addr mbi)
    (mmap_length mbi) (mmap_addr mbi) b (mbi_mod mbi).

Definition has_mods (mbi : multiboot_info) : bool :=
  negb (Z.land (mbi_flags mbi) MULTIBOOT_INFO_MODS =? 0).

Definition MAX_RESERVED : Z := 3.

(** The variables of the file: the map, the counter [nb_reserved] of
    [reserve_region] and the module. *)
Record pmm_state := mk_pmm_state {
  phys_mem_map : phys_mmap;
  nb_reserved : Z;
  module_addr : Z;
  module_len : Z;
}.

(** ** The multiboot memory map *)

(** The entry a pointer designates: reads that are not at an entry of the map
    are out of bounds. *)
Definition mmap_index (mbi : multiboot_info) (p : Z) : res Z :=
  let off := p ⊖ mmap_addr mbi in
  if off mod sizeof_multiboot_memory_map =? 0
  then mret (off / sizeof_multiboot_memory_map) else Err Oob.

Definition mmap_at (mbi : multiboot_info) (p : Z) : res multiboot_mmap_entry :=
  i ← mmap_index mbi p; aget (mmap_buf mbi) i.

Definition mmap_set (mbi : multiboot_info) (p : Z) (e : multiboot_mmap_entry)
  : res multiboot_info :=
  i ← mmap_index mbi p; b ← aset (mmap_buf mbi) i e; mret (set_buf b mbi).

Definition mmap_next (p : Z) (e : multiboot_mmap_entry) : Z := p ⊕ mm_size e ⊕ 4.

(** The number of turns of [mmap_for_each] on entries of 24 bytes. *)
Definition mmap_fuel (mbi : multiboot_info) : nat :=
  S (Z.to_nat (mmap_length mbi / sizeof_multiboot_memory_map)).

Definition mmap_for_each {R S} (mbi : multiboot_info)
    (body : multiboot_mmap_entry -> S -> res (ctl R S)) (s : S) : res (ctl R S) :=
  loop_ctl (mmap_fuel mbi) (fun '(p, s) =>
    if p <? mmap_addr mbi ⊕ mmap_length mbi then
      e ← mmap_at mbi p;
      c ← body e s;
      match c with
      | Next s' => mret (Next (mmap_next p e, s'))
      | Leave r => mret (Leave (Leave r))
      end
    else mret (Leave (Next s))) (mmap_addr mbi, s).

(** The inner loop of [sort_multiboot_mmap]: state, pointer and last swap. *)
Definition mmap_sort_pass (mbi : multiboot_info) (nb_elts : Z)
  : res (multiboot_info * Z * Z) :=
  for_loop (Z.to_nat (nb_elts - 1)) 0 (fun i '(mbi, mmap, last_swap) =>
    e ← mmap_at mbi mmap;
    let next := mmap_next mmap e in
    n ← mmap_at mbi next;
    if mm_addr n <? mm_addr e then
      mbi ← mmap_set mbi mmap n;
      mbi ← mmap_set mbi next e;
      e ← mmap_at mbi mmap;
      mret (mbi, mmap_next mmap e, i + 1)
    else mret (mbi, next, last_swap)) (mbi, mmap_addr mbi, 0).

Definition sort_multiboot_mmap (mbi : multiboot_info) : res multiboot_info :=
  let nb_elts := mmap_length mbi / sizeof_multiboot_memory_map in
  loop_ctl (S (Z.to_nat nb_elts)) (fun '(mbi, nb_elts) =>
    if 0 <? nb_elts then
      '(mbi, _, last_swap) ← mmap_sort_pass mbi nb_elts;
      mret (Next (mbi, last_swap))
    else mret (Leave mbi)) (mbi, nb_elts).

(** ** Regions *)

Definition collides (src_addr src_len dst_addr dst_len : Z) : bool :=
  (src_addr <? dst_addr ⊕ dst_len) && (dst_addr <? src_addr ⊕ src_len).

(** [memmove(&entries[entry+2], &entries[entry+1], n * sizeof)]: copied from
    the end since the ranges overlap upwards. *)
Definition shift_entries (es : list phys_mmap_entry) (from n : Z)
  : res (list phys_mmap_entry) :=
  for_loop (Z.to_nat n) 0 (fun k es =>
    e ← aget es (from + (n - 1 - k));
    aset es (from + 1 + (n - 1 - k)) e) es.

Definition split_region (pmm : phys_mmap) (entry addr : Z) : res (bool * phys_mmap) :=
  if pmm_len pmm <=? entry then mret (false, pmm)
  else
    pmme ← aget (pmm_entries pmm) entry;
    if (addr <=? pe_addr pmme) || (pe_addr pmme ⊕ pe_len pmme <=? addr) then
      mret (false, pmm)
    else
      es ← shift_entries (pmm_entries pmm) (entry + 1) (pmm_len pmm - (entry + 1));
      let next_len := pe_len pmme ⊖ (addr ⊖ pe_addr pmme) in
      es ← aset es (entry + 1) (mk_pmme addr next_len (pe_type pmme));
      es ← aset es entry (mk_pmme (pe_addr pmme) (pe_len pmme ⊖ next_len) (pe_type pmme));
      mret (true, mk_pmm (pmm_len pmm ⊕ 1) es).

(** The search loop of [reserve_region]: [Some entry] at the label [found]. *)
Definition find_available (pmm : phys_mmap) (addr len : Z) : res (option Z) :=
  c ← for_ctl (Z.to_nat (pmm_len pmm)) 0 (fun entry _ =>
    pmme ← aget (pmm_entries pmm) entry;
    if negb (pe_type pmme =? MMAP_TYPE_AVAILABLE) then mret (Next tt)
    else if (pe_addr pmme <=? addr) && (addr ⊕ len <=? pe_addr pmme ⊕ pe_len pmme)
    then mret (Leave entry)
    else mret (Next tt)) tt;
  match c with Leave i => mret (Some i) | Next _ => mret None end.

(** From the label [retry]; a region is split at most twice. *)
Fixpoint reserve_retry (fuel : nat) (pmm : phys_mmap) (nb addr len : Z)
  : res (bool * phys_mmap * Z) :=
  match fuel with
  | O => Err NoFuel
  | S fuel =>
      found ← find_available pmm addr len;
      match found with
      | None => mret (false, pmm, nb)
      | Some entry =>
          pmme ← aget (pmm_entries pmm) entry;
          if pe_len pmme =? len then
            es ← aset (pmm_entries pmm) entry
                   (mk_pmme (pe_addr pmme) (pe_len pmme) MMAP_TYPE_RESERVED);
            mret (true, mk_pmm (pmm_len pmm) es, nb ⊕ 1)
          else
            let split_addr := if pe_addr pmme <? addr then addr else addr ⊕ len in
            '(ok, pmm) ← split_region pmm entry split_addr;
            if ok : bool then reserve_retry fuel pmm nb addr len
            else mret (false, pmm, nb)
      end
  end.

Definition reserve_region (st : pmm_state) (addr len : Z) : res (bool * pmm_state) :=
  if nb_reserved st =? MAX_RESERVED then mret (false, st)
  else
    '(ok, pmm, nb) ← reserve_retry 3 (phys_mem_map st) (nb_reserved st) addr len;
    mret (ok, mk_pmm_state pmm nb (module_addr st) (module_len st)).

Definition phys_mem_map_size (mbi : multiboot_info) : Z :=
  let nb_entries := mmap_length mbi / sizeof_multiboot_memory_map in
  let nb_entries := nb_entries ⊕ 2 in
  let nb_entries := nb_entries ⊕ (if has_mods mbi then 1 else 0) in
  let nb_entries := nb_entries ⊗ 3 in
  sizeof_phys_mmap ⊕ (nb_entries ⊗ sizeof_phys_mmap_entry).

(** The 32-bit length of a segment, shrunk to what lies below 4 GB. *)
Definition seg_len_of (mmap : multiboot_mmap_entry) (seg_addr : Z) : Z :=
  if negb (Z.shiftr (mm_len mmap) 32 =? 0) then 0xffffffff ⊖ seg_addr ⊕ 1
  else Z.land (mm_len mmap) 0xffffffff.

(** The loop over the multiboot regions that moves the candidate location. *)
Definition skip_regions (mbr : phys_mmap) (pmm_size pmm_addr : Z) : res Z :=
  for_loop (Z.to_nat (pmm_len mbr)) 0 (fun i pmm_addr =>
    entry ← aget (pmm_entries mbr) i;
    if collides pmm_addr pmm_size (pe_addr entry) (pe_len entry)
    then mret (page_align (pe_addr entry ⊕ pe_len entry))
    else mret pmm_addr) pmm_addr.

(** [(uint32_t)-1], the error value of [find_pmm_location]. *)
Definition NO_LOCATION : Z := 0xffffffff.

Definition find_pmm_location (kernel_end : Z) (mbi : multiboot_info)
    (mbr : phys_mmap) (pmm_size : Z) : res (Z * multiboot_info) :=
  if pmm_size =? 0 then mret (NO_LOCATION, mbi)
  else
    mbi ← sort_multiboot_mmap mbi;
    c ← mmap_for_each mbi (fun mmap _ =>
      if negb (mm_type mmap =? MMAP_TYPE_AVAILABLE) then mret (Next tt)
      else if negb (Z.shiftr (mm_addr mmap) 32 =? 0) then mret (Next tt)
      else
        let seg_addr := Z.land (mm_addr mmap) 0xffffffff in
        let seg_len := seg_len_of mmap seg_addr in
        if seg_addr <? 0x100000 then mret (Next tt)
        else
          let pmm_addr := page_align (kernel_end ⊕ 1) in
          let pmm_addr := if pmm_addr <? seg_addr then seg_addr else pmm_addr in
          pmm_addr ← skip_regions mbr pmm_size pmm_addr;
          let seg_end := seg_addr ⊕ seg_len in
          let pmm_end := pmm_addr ⊕ pmm_size in
          if pmm_end <=? seg_end then mret (Leave pmm_addr) else mret (Next tt)) tt;
    match c with
    | Leave a => mret (a, mbi)
    | Next _ => mret (NO_LOCATION, mbi)
    end.

(** The inner loop of [sort_phys_mmap]. *)
Definition pmm_sort_pass (es : list phys_mmap_entry) (nb_unsorted : Z)
  : res (list phys_mmap_entry * Z) :=
  for_loop (Z.to_nat (nb_unsorted - 1)) 0 (fun i '(es, last_swap) =>
    entry ← aget es i;
    next ← aget es (i + 1);
    if pe_addr next <? pe_addr entry then
      es ← aset es (i + 1) entry;
      es ← aset es i next;
      mret (es, i + 1)
    else mret (es, last_swap)) (es, 0).

Definition sort_phys_mmap (pmm : phys_mmap) : res phys_mmap :=
  es ← loop_ctl (S (Z.to_nat (pmm_len pmm))) (fun '(es, nb_unsorted) =>
    if 0 <? nb_unsorted then
      '(es, last_swap) ← pmm_sort_pass es nb_unsorted;
      mret (Next (es, last_swap))
    else mret (Leave es)) (pmm_entries pmm, pmm_len pmm);
  mret (mk_pmm (pmm_len pmm) es).

(** [entry = &pmm->entries[pmm->len++]; entry->addr = addr; entry->len = len]. *)
Definition add_region (pmm : phys_mmap) (addr len : Z) : res phys_mmap :=
  e ← aget (pmm_entries pmm) (pmm_len pmm);
  es ← aset (pmm_entries pmm) (pmm_len pmm) (mk_pmme addr len (pe_type e));
  mret (mk_pmm (pmm_len pmm ⊕ 1) es).

Definition identify_multiboot_regions (mbi : multiboot_info) (mb_regions : phys_mmap)
  : res phys_mmap :=
  let mb_regions := mk_pmm 0 (pmm_entries mb_regions) in
  r ← add_region mb_regions (mbi_ptr mbi) sizeof_multiboot_info;
  r ← add_region r (mmap_addr mbi) (mmap_length mbi);
  r ← (if has_mods mbi then
         r ← add_region r (mods_addr mbi) sizeof_multiboot_module;
         add_region r (mod_start (mbi_mod mbi))
           (mod_end (mbi_mod mbi) ⊖ mod_start (mbi_mod mbi))
       else mret r);
  sort_phys_mmap r.

Definition fill_phys_mmap (mbi : multiboot_info) (pmm : phys_mmap) : res phys_mmap :=
  c ← mmap_for_each (R := Empty_set) mbi (fun mmap '(es, entry) =>
    if negb (Z.shiftr (mm_addr mmap) 32 =? 0) then mret (Next (es, entry))
    else
      let addr := Z.land (mm_addr mmap) 0xffffffff in
      es ← aset es entry (mk_pmme addr (seg_len_of mmap addr) (mm_type mmap));
      mret (Next (es, entry ⊕ 1))) (pmm_entries pmm, 0);
  match c : ctl Empty_set (list phys_mmap_entry * Z) with
  | Next (es, entry) => mret (mk_pmm entry es)
  | Leave r => match r with end
  end.

(** ** Initialisation *)

Section Init.
(** The image of the kernel, from the linker script, and what the memory at
    an address holds, read as [n] entries. *)
Variable kernel_start kernel_end : Z.
Variable ram : Z -> nat -> list phys_mmap_entry.

(** The tail of [phys_mem_map_init], from the location of the map on. *)
Definition build_phys_mem_map (mbi : multiboot_info) (st : pmm_state)
    (pmm_size pmm_addr : Z) : res (bool * pmm_state) :=
  let room := (pmm_size - sizeof_phys_mmap) / sizeof_phys_mmap_entry in
  pmm ← fill_phys_mmap mbi (mk_pmm 0 (ram (pmm_addr ⊕ 4) (Z.to_nat room)));
  let st := mk_pmm_state pmm (nb_reserved st) (module_addr st) (module_len st) in
  '(ok, st) ← reserve_region st kernel_start (kernel_end ⊖ kernel_start);
  if negb ok then mret (false, st)
  else
    '(ok, st) ← reserve_region st pmm_addr pmm_size;
    if negb ok then mret (false, st)
    else if has_mods mbi then
      let md := mbi_mod mbi in
      '(ok, st) ← reserve_region st (mod_start md) (mod_end md ⊖ mod_start md);
      if negb ok then mret (false, st)
      else
        mret (true, mk_pmm_state (phys_mem_map st) (nb_reserved st) (mod_start md)
                      (mod_end md ⊖ mod_start md))
    else mret (true, st).

Definition phys_mem_map_init (mbi : multiboot_info) (st : pmm_state)
  : res (bool * pmm_state) :=
  if Z.land (mbi_flags mbi) MULTIBOOT_INFO_MEM_MAP =? 0 then mret (false, st)
  else if has_mods mbi && (0 <? mods_count mbi) && negb (mods_count mbi =? 1)
  then mret (false, st)
  else
    let nb_multiboot_regions :=
      if has_mods mbi && (0 <? mods_count mbi) then 4 else 2 in
    let mbi :=
      if has_mods mbi && negb (0 <? mods_count mbi)
      then set_flags (Z.land (mbi_flags mbi) (u32 (Z.lnot MULTIBOOT_INFO_MODS))) mbi
      else mbi in
    mb_regions ← identify_multiboot_regions mbi
      (mk_pmm 0 (replicate (Z.to_nat nb_multiboot_regions) (mk_pmme 0 0 0)));
    let pmm_size := phys_mem_map_size mbi in
    '(pmm_addr, mbi) ← find_pmm_location kernel_end mbi mb_regions pmm_size;
    if pmm_addr =? NO_LOCATION then mret (false, st)
    else build_phys_mem_map mbi st pmm_size pmm_addr.
End Init.
