(* ===== verification/PmmSort.v ===== *)
(** * The two sorts of the physical memory map

    [sort_phys_mmap()] and [sort_multiboot_mmap()] return a sorted permutation
    of their entries; walking a well-formed multiboot memory map by pointers is
    walking the list of its entries. *)
From S2P Require Import Prelude Bubble Page Pmm.

(** A swap as the two array writes the code makes, in either order. *)
Lemma swap_writes {A} (l : list A) (i : nat) a b :
  l !! i = Some a -> l !! S i = Some b ->
  (es ← aset l (Z.of_nat i + 1) a; aset es (Z.of_nat i) b) = Ok (swap_at i a b l) /\
  (es ← aset l (Z.of_nat i) b; aset es (Z.of_nat i + 1) a) = Ok (swap_at i a b l).
Proof.
  intros Ha Hb. pose proof (lookup_lt_Some _ _ _ Hb).
  replace (Z.of_nat i + 1) with (Z.of_nat (S i)) by lia.
  rewrite !aset_nat by lia. cbn [mbind res_bind].
  rewrite !aset_nat by (rewrite length_insert; lia).
  split; [done|]. unfold swap_at. by rewrite list_insert_insert_ne by lia.
Qed.

(** ** [sort_phys_mmap] *)

Lemma pmm_sort_pass_spec es (n : nat) :
  (0 < n <= length es)%nat -> settled pe_addr es n ->
  exists es' (last : nat), pmm_sort_pass es (Z.of_nat n) = Ok (es', Z.of_nat last) /\
    settled pe_addr es' last /\ es' ≡ₚ es /\ (last < n)%nat.
Proof.
  intros Hn Hs. unfold pmm_sort_pass.
  destruct (for_loop_inv (fun i '(es', last) => exists i' last' : nat, i = Z.of_nat i' /\
      last = Z.of_nat last' /\ pass_inv pe_addr es n i' last' es') (fun i '(es, last_swap) =>
        entry ← aget es i; next ← aget es (i + 1);
        if pe_addr next <? pe_addr entry
        then es0 ← aset es (i + 1) entry; es1 ← aset es0 i next; mret (es1, i + 1)
        else mret (es, last_swap)) (Z.to_nat (Z.of_nat n - 1)) 0 (es, 0))
    as ([es' last] & -> & i' & last' & Hi & -> & Hp).
  - exists 0%nat, 0%nat. split_and!; [done|done|]. apply pass_start; [lia|done].
  - intros j [l last] Hj (i & last' & -> & -> & Hp).
    assert (S i < length l)%nat as Hlt.
    { rewrite (pi_perm _ _ _ _ _ _ Hp). lia. }
    destruct (lookup_lt_is_Some_2 l i ltac:(lia)) as [a Ha].
    destruct (lookup_lt_is_Some_2 l (S i) Hlt) as [b Hb].
    rewrite aget_nat, Ha. cbn [mbind res_bind].
    replace (Z.of_nat i + 1) with (Z.of_nat (S i)) by lia.
    rewrite aget_nat, Hb. cbn [mbind res_bind].
    destruct (Z.ltb_spec (pe_addr b) (pe_addr a)).
    + destruct (swap_writes l i a b Ha Hb) as [Hw _].
      replace (Z.of_nat i + 1) with (Z.of_nat (S i)) in Hw by lia.
      rewrite <- bind_assoc, Hw. eexists. split; [done|]. exists (S i), (S i).
      split_and!; [lia|done|]. by eapply pass_swap; [done|lia|..].
    + eexists. split; [done|]. exists (S i), last'.
      split_and!; [lia|done|]. by eapply pass_keep; [done|lia|..].
  - assert (i' = (n - 1)%nat) as -> by lia. apply pass_end in Hp as (? & ? & ?).
    by exists es', last'.
Qed.

Lemma sort_phys_mmap_spec pmm :
  0 <= pmm_len pmm -> pmm_len pmm = Z.of_nat (length (pmm_entries pmm)) ->
  exists es, sort_phys_mmap pmm = Ok (mk_pmm (pmm_len pmm) es) /\
    es ≡ₚ pmm_entries pmm /\ sorted pe_addr es.
Proof.
  intros H0 Hlen. unfold sort_phys_mmap.
  match goal with |- context [loop_ctl ?f ?b ?s] =>
    destruct (loop_ctl_measure (fun '(es, n) => exists k : nat, n = Z.of_nat k /\
        (k <= length es)%nat /\ settled pe_addr es k /\ es ≡ₚ pmm_entries pmm)
      (fun '(_, n) => Z.to_nat n)
      (fun es => es ≡ₚ pmm_entries pmm /\ sorted pe_addr es) b f s) as (es & -> & ? & ?)
  end; [| |..].
  - exists (length (pmm_entries pmm)). split_and!; [done|lia|apply settled_length|done].
  - cbn. lia.
  - intros [es n] (k & -> & Hk & Hset & Hp). destruct (Z.ltb_spec 0 (Z.of_nat k)).
    + right. destruct (pmm_sort_pass_spec es k) as (es' & last & -> & Hs' & Hp' & Hl);
        [lia|done|].
      eexists. split; [done|]. split; [|lia]. exists last.
      split_and!; [done|rewrite Hp'; lia|done|by rewrite Hp'].
    + left. exists es. split; [done|]. split; [done|]. apply settled_0.
      by replace 0%nat with k by lia.
  - by exists es.
Qed.

(** ** Walking the multiboot memory map *)

(** What the boot loader guarantees: 24-byte entries, contiguous, that do not
    reach the end of the address space. *)
Record mmap_wf (mbi : multiboot_info) : Prop := {
  mw_size : Forall (fun e => mm_size e = 20) (mmap_buf mbi);
  mw_len : mmap_length mbi = 24 * Z.of_nat (length (mmap_buf mbi));
  mw_addr : 0 <= mmap_addr mbi;
  mw_end : mmap_addr mbi + mmap_length mbi < 2 ^ 32;
}.

Definition mmap_ptr (mbi : multiboot_info) (i : nat) : Z := mmap_addr mbi + 24 * Z.of_nat i.

Lemma mmap_ptr_index mbi i :
  mmap_wf mbi -> (i <= length (mmap_buf mbi))%nat ->
  mmap_index mbi (mmap_ptr mbi i) = Ok (Z.of_nat i).
Proof.
  intros [_ Hl Ha He] Hi. unfold mmap_index, mmap_ptr, sizeof_multiboot_memory_map.
  rewrite u32_small by lia.
  replace (mmap_addr mbi + 24 * Z.of_nat i - mmap_addr mbi) with (Z.of_nat i * 24) by lia.
  rewrite Z.mod_mul, Z.div_mul by lia. done.
Qed.

Lemma mmap_ptr_at mbi i e :
  mmap_wf mbi -> mmap_buf mbi !! i = Some e ->
  mmap_at mbi (mmap_ptr mbi i) = Ok e /\ mmap_next (mmap_ptr mbi i) e = mmap_ptr mbi (S i).
Proof.
  intros Hw He. pose proof (lookup_lt_Some _ _ _ He).
  unfold mmap_at. rewrite mmap_ptr_index by (done || lia). cbn [mbind res_bind].
  rewrite aget_nat, He. split; [done|].
  pose proof (Forall_lookup_1 _ _ _ _ (mw_size _ Hw) He) as Hs. cbv beta in Hs.
  destruct Hw as [_ Hl Ha Hend]. unfold mmap_next, mmap_ptr. rewrite Hs.
  rewrite !u32_small by (rewrite ?u32_small; lia). lia.
Qed.

Lemma mmap_ptr_set mbi i e :
  mmap_wf mbi -> (i < length (mmap_buf mbi))%nat ->
  mmap_set mbi (mmap_ptr mbi i) e = Ok (set_buf (<[i := e]> (mmap_buf mbi)) mbi).
Proof.
  intros Hw Hi. unfold mmap_set. rewrite mmap_ptr_index by (done || lia).
  cbn [mbind res_bind]. by rewrite aset_nat.
Qed.

Lemma mmap_wf_perm mbi b :
  mmap_wf mbi -> b ≡ₚ mmap_buf mbi -> mmap_wf (set_buf b mbi).
Proof.
  intros [Hs Hl Ha He] Hp. constructor; cbn; [|by rewrite Hp|done..].
  by rewrite Hp.
Qed.

(** The walk by pointers visits the entries in order. *)
Lemma mmap_for_each_list {R S} mbi (body : multiboot_mmap_entry -> S -> res (ctl R S)) s :
  mmap_wf mbi -> mmap_for_each mbi body s = list_ctl (mmap_buf mbi) body s.
Proof.
  intros Hw. unfold mmap_for_each, mmap_fuel.
  assert (Z.to_nat (mmap_length mbi / sizeof_multiboot_memory_map)
          = length (mmap_buf mbi)) as ->.
  { rewrite (mw_len _ Hw), Z.mul_comm. unfold sizeof_multiboot_memory_map.
    rewrite Z.div_mul by lia. lia. }
  assert (forall n i t, (i + n = length (mmap_buf mbi))%nat ->
    loop_ctl (Datatypes.S n) (fun '(p, s) =>
      if p <? mmap_addr mbi ⊕ mmap_length mbi then
        e ← mmap_at mbi p;
        c ← body e s;
        match c with
        | Next s' => mret (Next (mmap_next p e, s'))
        | Leave r => mret (Leave (Leave r))
        end
      else mret (Leave (Next s))) (mmap_ptr mbi i, t) =
    list_ctl (drop i (mmap_buf mbi)) body t) as H.
  - pose proof (mw_len _ Hw) as Hlen. pose proof (mw_end _ Hw). pose proof (mw_addr _ Hw).
    induction n as [|n IH]; intros i t Hi; rewrite loop_ctl_S;
      rewrite (u32_small (_ + mmap_length mbi)) at 1 by lia;
      destruct (Z.ltb_spec (mmap_ptr mbi i) (mmap_addr mbi + mmap_length mbi)) as [Hc|Hc];
      unfold mmap_ptr in Hc; try lia.
    + by rewrite drop_ge by lia.
    + destruct (lookup_lt_is_Some_2 (mmap_buf mbi) i ltac:(lia)) as [e He].
      destruct (mmap_ptr_at mbi i e Hw He) as [-> Hnext]. cbn [mbind res_bind].
      rewrite (drop_S _ _ _ He). cbn [list_ctl].
      destruct (body e t) as [[t'|r]|f]; cbn [mbind res_bind mret res_ret]; [|done..].
      rewrite Hnext. apply IH. lia.
  - rewrite <- (drop_0 (mmap_buf mbi)). rewrite <- (H (length (mmap_buf mbi)) 0%nat) by lia.
    unfold mmap_ptr. by rewrite Z.mul_0_r, Z.add_0_r.
Qed.

(** ** [sort_multiboot_mmap] *)

Lemma mmap_ptr_buf b mbi i : mmap_ptr (set_buf b mbi) i = mmap_ptr mbi i.
Proof. done. Qed.

Lemma mmap_sort_step mbi (n i last : nat) l :
  mmap_wf mbi -> (n <= length (mmap_buf mbi))%nat -> (S i < n)%nat ->
  pass_inv mm_addr (mmap_buf mbi) n i last l ->
  exists l' last', 
    (e ← mmap_at (set_buf l mbi) (mmap_ptr mbi i);
     let next := mmap_next (mmap_ptr mbi i) e in
     n ← mmap_at (set_buf l mbi) next;
     if mm_addr n <? mm_addr e then
       mbi1 ← mmap_set (set_buf l mbi) (mmap_ptr mbi i) n;
       mbi2 ← mmap_set mbi1 next e;
       e ← mmap_at mbi2 (mmap_ptr mbi i);
       mret (mbi2, mmap_next (mmap_ptr mbi i) e, Z.of_nat i + 1)
     else mret (set_buf l mbi, next, Z.of_nat last)) =
    Ok (set_buf l' mbi, mmap_ptr mbi (S i), Z.of_nat last') /\
    pass_inv mm_addr (mmap_buf mbi) n (S i) last' l'.
Proof.
  intros Hw Hn Hi Hp. pose proof (mmap_wf_perm mbi l Hw (pi_perm _ _ _ _ _ _ Hp)) as Hwl.
  assert (S i < length l)%nat as Hlt by (rewrite (pi_perm _ _ _ _ _ _ Hp); lia).
  destruct (lookup_lt_is_Some_2 l i ltac:(lia)) as [a Ha].
  destruct (lookup_lt_is_Some_2 l (S i) Hlt) as [b Hb].
  destruct (mmap_ptr_at _ i a Hwl Ha) as [Hat Hnx].
  destruct (mmap_ptr_at _ (S i) b Hwl Hb) as [Hbt _].
  rewrite !mmap_ptr_buf in *. rewrite Hat. cbn [mbind res_bind]. cbv zeta.
  rewrite Hnx, Hbt. cbn [mbind res_bind].
  destruct (Z.ltb_spec (mm_addr b) (mm_addr a)).
  - exists (swap_at i a b l), (S i).
    rewrite <- (mmap_ptr_buf l), mmap_ptr_set by (done || (cbn; lia)). cbn [mbind res_bind].
    assert (forall x, mmap_wf x -> (S i < length (mmap_buf x))%nat -> 
      mmap_set x (mmap_ptr x (S i)) a = Ok (set_buf (<[S i := a]> (mmap_buf x)) x)) as Hset.
    { intros. by apply mmap_ptr_set. }
    assert (mmap_wf (set_buf (swap_at i a b l) mbi)) as Hws.
    { apply mmap_wf_perm; [done|]. rewrite (swap_at_perm i a b l Ha Hb). apply Hp. }
    assert (<[S i := a]> (<[i := b]> l) = swap_at i a b l) as Hsw.
    { unfold swap_at. by rewrite list_insert_insert_ne by lia. }
    assert (swap_at i a b l !! i = Some b) as Hb'.
    { unfold swap_at. apply list_lookup_insert_eq. rewrite length_insert. lia. }
    unfold mmap_set at 1.
    change (mmap_index (set_buf (<[i:=b]> (mmap_buf (set_buf l mbi))) (set_buf l mbi))
      (mmap_ptr mbi (S i))) with (mmap_index mbi (mmap_ptr mbi (S i))).
    rewrite mmap_ptr_index by (done || lia). cbn [mbind res_bind mmap_buf set_buf].
    rewrite aset_nat by (rewrite length_insert; lia). cbn [mbind res_bind mret res_ret].
    rewrite Hsw.
    change (set_buf (swap_at i a b l) (set_buf (<[i:=b]> l) (set_buf l mbi)))
      with (set_buf (swap_at i a b l) mbi).
    destruct (mmap_ptr_at _ i b Hws Hb') as [Hat' Hnx'].
    rewrite !mmap_ptr_buf in *. rewrite Hat'. cbn [mbind res_bind].
    rewrite Hnx'. split; [do 2 f_equal; lia|]. by eapply pass_swap; [done|lia|..].
  - exists l, last. split; [done|]. by eapply pass_keep; [done|lia|..].
Qed.

Lemma mmap_sort_pass_spec mbi (n : nat) l :
  mmap_wf mbi -> l ≡ₚ mmap_buf mbi -> (0 < n <= length (mmap_buf mbi))%nat ->
  settled mm_addr l n ->
  exists l' p (last : nat),
    mmap_sort_pass (set_buf l mbi) (Z.of_nat n) = Ok (set_buf l' mbi, p, Z.of_nat last) /\
    settled mm_addr l' last /\ l' ≡ₚ mmap_buf mbi /\ (last < n)%nat.
Proof.
  intros Hw Hl Hn Hs. unfold mmap_sort_pass.
  match goal with |- context [for_loop ?k ?i ?b ?s] =>
    destruct (for_loop_inv (fun j '(m, p, last) => exists (i' last' : nat) l', j = Z.of_nat i' /\
      p = mmap_ptr mbi i' /\ last = Z.of_nat last' /\ m = set_buf l' mbi /\
      pass_inv mm_addr l n i' last' l') b k i s)
    as ([[m p] last] & -> & i' & last' & l' & Hi & -> & -> & -> & Hp)
  end.
  - exists 0%nat, 0%nat, l. split_and!; [done| |done|done|].
    + unfold mmap_ptr. cbn [mmap_addr set_buf]. lia.
    + apply pass_start; [lia|done].
  - intros j [[m p] last] Hj (i & last' & l' & -> & -> & -> & -> & Hp).
    pose proof (mmap_sort_step mbi n i last' l' Hw ltac:(lia) ltac:(lia)) as Hstep.
    destruct Hstep as (l2 & last2 & He & Hp2).
    { destruct Hp. constructor; [by rewrite <- Hl|done..]. }
    eexists. split; [exact He|]. exists (S i), last2, l2. split_and!; [lia|done..|].
    destruct Hp2. constructor; [by rewrite Hl|done..].
  - assert (i' = (n - 1)%nat) as -> by lia. apply pass_end in Hp as (? & Hp & ?).
    eexists l', _, last'. split_and!; [done|done|by rewrite Hp|done].
Qed.

Lemma sort_multiboot_mmap_spec mbi :
  mmap_wf mbi ->
  exists l, sort_multiboot_mmap mbi = Ok (set_buf l mbi) /\
    l ≡ₚ mmap_buf mbi /\ sorted mm_addr l.
Proof.
  intros Hw. unfold sort_multiboot_mmap.
  assert (mmap_length mbi / sizeof_multiboot_memory_map
          = Z.of_nat (length (mmap_buf mbi))) as ->.
  { rewrite (mw_len _ Hw), Z.mul_comm. by apply Z.div_mul. }
  assert (mbi = set_buf (mmap_buf mbi) mbi) as Hid by (by destruct mbi).
  match goal with |- context [loop_ctl ?f ?b ?s] =>
    destruct (loop_ctl_measure (fun '(m, n) => exists (k : nat) l, n = Z.of_nat k /\
        m = set_buf l mbi /\ (k <= length (mmap_buf mbi))%nat /\ settled mm_addr l k /\
        l ≡ₚ mmap_buf mbi)
      (fun '(_, n) => Z.to_nat n)
      (fun m => exists l, m = set_buf l mbi /\ l ≡ₚ mmap_buf mbi /\ sorted mm_addr l) b f s)
      as (m & -> & l & -> & ? & ?)
  end.
  - exists (length (mmap_buf mbi)), (mmap_buf mbi).
    split_and!; [done|done|done|apply settled_length|done].
  - cbn. lia.
  - intros [m n] (k & l & -> & -> & Hk & Hset & Hp). destruct (Z.ltb_spec 0 (Z.of_nat k)).
    + right. destruct (mmap_sort_pass_spec mbi k l Hw Hp) as (l' & p & last & -> & Hs' & Hp' & Hl);
        [lia|done|].
      eexists. split; [done|]. split; [|lia]. exists last, l'.
      split_and!; [done|done|lia|done|done].
    + left. eexists. split; [done|]. exists l. split_and!; [done|done|]. apply settled_0.
      by replace 0%nat with k by lia.
  - by exists l.
Qed.
