(* ===== verification/PmmSpec.v ===== *)
(** * Specification of the physical memory map

    What the reservation of a region does to the list of entries and to the
    bytes they describe, and where [find_pmm_location()] puts the map. *)
From S2P Require Import Prelude Bubble Page Pmm PmmSort.

(** A map with the entries [es] and [room] more entries of storage. *)
Definition pmm_of (es room : list phys_mmap_entry) : phys_mmap :=
  mk_pmm (Z.of_nat (length es)) (es ++ room).

Lemma pmm_of_get l1 e l2 room :
  aget (pmm_entries (pmm_of (l1 ++ e :: l2) room)) (Z.of_nat (length l1)) = Ok e.
Proof. cbn. rewrite <- app_assoc. by apply aget_mid. Qed.

(** An entry as the code can handle it: an available one ends below 4 GB. *)
Record entry_wf (e : phys_mmap_entry) : Prop := {
  ew_addr : is_u32 (pe_addr e);
  ew_len : is_u32 (pe_len e);
  ew_end : pe_type e = MMAP_TYPE_AVAILABLE -> pe_addr e + pe_len e < 2 ^ 32;
}.

Definition pe_end (e : phys_mmap_entry) : Z := pe_addr e + pe_len e.

(** The entry is available and contains the region. *)
Definition holds (e : phys_mmap_entry) (addr len : Z) : Prop :=
  pe_type e = MMAP_TYPE_AVAILABLE /\ pe_addr e <= addr /\ addr + len <= pe_end e.

#[export] Instance holds_dec e addr len : Decision (holds e addr len).
Proof. unfold holds. apply _. Defined.

(** What the entry becomes once the region is reserved. *)
Definition pieces (e : phys_mmap_entry) (addr len : Z) : list phys_mmap_entry :=
  (if decide (pe_addr e = addr) then []
   else [mk_pmme (pe_addr e) (addr - pe_addr e) MMAP_TYPE_AVAILABLE]) ++
  mk_pmme addr len MMAP_TYPE_RESERVED ::
  (if decide (addr + len = pe_end e) then []
   else [mk_pmme (addr + len) (pe_end e - (addr + len)) MMAP_TYPE_AVAILABLE]).

(** ** The entries *)

Lemma shift_entries_spec l1 l2 x l3 :
  shift_entries (l1 ++ l2 ++ x :: l3) (Z.of_nat (length l1)) (Z.of_nat (length l2)) =
  Ok (l1 ++ (hd x l2) :: l2 ++ l3).
Proof.
  unfold shift_entries. rewrite Nat2Z.id.
  revert x l3. induction l2 as [|b l2 IH] using rev_ind; intros x l3; [done|].
  rewrite length_app. simpl length. rewrite Nat.add_1_r. cbn [for_loop].
  rewrite <- !app_assoc. cbn [app].
  rewrite (app_assoc l1), aget_mid by (rewrite length_app; lia). cbn [mbind res_bind].
  change (b :: x :: l3) with ([b] ++ x :: l3). rewrite app_assoc.
  rewrite aset_mid by (rewrite !length_app; simpl; lia). cbn [mbind res_bind].
  rewrite <- !app_assoc. cbn [app].
  specialize (IH b (b :: l3)).
  erewrite for_loop_ext with (i' := 0); [erewrite IH|].
  - do 2 f_equal. by destruct l2.
  - intros j t Hj. cbv beta.
    replace (Z.of_nat (S (length l2)) - 1 - (0 + 1 + j))
      with (Z.of_nat (length l2) - 1 - (0 + j)) by lia. done.
Qed.

(** The search finds the first entry that holds the region. *)
Lemma holds_test e addr len :
  entry_wf e -> 0 <= addr -> 0 <= len -> addr + len < 2 ^ 32 ->
  (if negb (pe_type e =? MMAP_TYPE_AVAILABLE) then false
   else (pe_addr e <=? addr) && (addr ⊕ len <=? pe_addr e ⊕ pe_len e)) =
  bool_decide (holds e addr len).
Proof.
  intros [Ha Hl He] H1 H2 H3. unfold is_u32 in *.
  destruct (Z.eqb_spec (pe_type e) MMAP_TYPE_AVAILABLE) as [Ht|Ht]; cbn [negb].
  - specialize (He Ht). rewrite (u32_small (addr + len)), (u32_small (pe_addr e + _)) by lia.
    destruct (Z.leb_spec (pe_addr e) addr), (Z.leb_spec (addr + len) (pe_addr e + pe_len e));
      symmetry; cbn [andb]; (apply bool_decide_eq_true || apply bool_decide_eq_false);
      unfold holds, pe_end; naive_solver lia.
  - symmetry. apply bool_decide_eq_false. unfold holds. naive_solver.
Qed.

Section Search.
Context (addr len : Z) (Ha : 0 <= addr) (Hl : 0 <= len) (He : addr + len < 2 ^ 32).

Lemma find_available_from es room l0 :
  Forall entry_wf es ->
  for_ctl (length es) (Z.of_nat (length l0)) (fun entry (_ : unit) =>
    pmme ← aget (l0 ++ es ++ room) entry;
    if negb (pe_type pmme =? MMAP_TYPE_AVAILABLE) then mret (Next tt)
    else if (pe_addr pmme <=? addr) && (addr ⊕ len <=? pe_addr pmme ⊕ pe_len pmme)
    then mret (Leave entry)
    else mret (Next tt)) tt =
  Ok (match list_find (fun e => holds e addr len) es with
      | Some (i, _) => Leave (Z.of_nat (length l0 + i))
      | None => Next tt
      end).
Proof.
  intros Hw. revert l0. induction Hw as [|e es Hw Hws IH]; intros l0; [done|].
  cbn [for_ctl length app list_find]. rewrite aget_mid by done. cbn [mbind res_bind].
  pose proof (holds_test e addr len Hw Ha Hl He) as Ht.
  destruct (negb (pe_type e =? MMAP_TYPE_AVAILABLE)),
    ((pe_addr e <=? addr) && (addr ⊕ len <=? pe_addr e ⊕ pe_len e));
    symmetry in Ht; (apply bool_decide_eq_true in Ht || apply bool_decide_eq_false in Ht);
    try (rewrite decide_True by done; cbn; by rewrite Nat.add_0_r);
    rewrite decide_False by done; cbn [mbind res_bind mret res_ret];
    specialize (IH (l0 ++ [e])); rewrite length_app in IH; cbn [length] in IH;
    rewrite <- app_assoc in IH; cbn [app] in IH;
    (replace (Z.of_nat (length l0) + 1) with (Z.of_nat (length l0 + 1)) by lia);
    rewrite IH; cbn [mbind option_bind fmap option_fmap option_map];
    destruct (list_find _ es) as [[i y]|]; cbn; do 2 f_equal; try done; lia.
Qed.

Lemma find_available_spec es room :
  Forall entry_wf es ->
  find_available (pmm_of es room) addr len =
  Ok ((fun p => Z.of_nat p.1) <$> list_find (fun e => holds e addr len) es).
Proof.
  intros Hw. unfold find_available. cbn [pmm_len pmm_of pmm_entries]. rewrite Nat2Z.id.
  pose proof (find_available_from es room [] Hw) as H. cbn [app length] in H.
  change (Z.of_nat 0) with 0 in H. rewrite H. cbn [mbind res_bind].
  by destruct (list_find _ es) as [[i y]|].
Qed.
End Search.

(** ** Splitting an entry *)

Lemma split_region_spec l1 e l2 x room addr :
  entry_wf e -> pe_type e = MMAP_TYPE_AVAILABLE -> pe_addr e < addr < pe_end e ->
  Z.of_nat (length (l1 ++ e :: l2)) + 1 < 2 ^ 32 ->
  split_region (pmm_of (l1 ++ e :: l2) (x :: room)) (Z.of_nat (length l1)) addr =
  Ok (true, pmm_of (l1 ++ mk_pmme (pe_addr e) (addr - pe_addr e) (pe_type e) ::
                    mk_pmme addr (pe_end e - addr) (pe_type e) :: l2) room).
Proof.
  intros [Ha Hlen Hend] Ht Hr Hsz. specialize (Hend Ht). unfold is_u32, pe_end in *.
  unfold split_region. cbn [pmm_len pmm_entries pmm_of].
  destruct (Z.leb_spec (Z.of_nat (length (l1 ++ e :: l2))) (Z.of_nat (length l1))) as [Hle|_].
  { rewrite length_app in Hle. simpl in Hle. lia. }
  rewrite <- app_assoc, <- app_comm_cons, aget_mid by done. cbn [mbind res_bind].
  rewrite (u32_small (pe_addr e + _)) by lia.
  destruct (Z.leb_spec addr (pe_addr e)), (Z.leb_spec (pe_addr e + pe_len e) addr);
    [lia..|]. cbn [orb].
  pose proof (shift_entries_spec (l1 ++ [e]) l2 x room) as Hs.
  rewrite <- !app_assoc in Hs. cbn [app] in Hs.
  replace (Z.of_nat (length (l1 ++ e :: l2)) - (Z.of_nat (length l1) + 1))
    with (Z.of_nat (length l2)) by (rewrite length_app; simpl; lia).
  replace (Z.of_nat (length l1) + 1) with (Z.of_nat (length (l1 ++ [e])))
    by (rewrite length_app; simpl; lia).
  rewrite Hs. cbn [mbind res_bind].
  pose proof (aset_mid (l1 ++ [e]) (hd x l2)
    (mk_pmme addr (pe_len e ⊖ (addr ⊖ pe_addr e)) (pe_type e)) (l2 ++ room) _ eq_refl) as Hset.
  rewrite <- !app_assoc in Hset. cbn [app] in Hset. rewrite Hset. cbn [mbind res_bind].
  rewrite aset_mid by done. cbn [mbind res_bind mret res_ret].
  rewrite (u32_small (addr - _)), (u32_small (pe_len e - (addr - _))) by lia.
  rewrite (u32_small (pe_len e - _)) by lia.
  rewrite u32_small by lia.
  unfold pmm_of. do 2 f_equal.
  replace (pe_len e - (pe_len e - (addr - pe_addr e))) with (addr - pe_addr e) by lia.
  replace (pe_len e - (addr - pe_addr e)) with (pe_addr e + pe_len e - addr) by lia.
  f_equal; [rewrite !length_app; simpl; lia|].
  by rewrite <- app_assoc.
Qed.

Lemma list_find_app_first {A} (P : A -> Prop) `{forall x, Decision (P x)} l1 e l2 :
  Forall (fun x => ~ P x) l1 -> P e ->
  list_find P (l1 ++ e :: l2) = Some (length l1, e).
Proof.
  intros H1 He. apply list_find_Some. split_and!; [by apply list_lookup_middle|done|].
  intros j y Hj Hlt. rewrite lookup_app_l in Hj by done.
  by eapply (Forall_lookup_1 _ _ _ _ H1).
Qed.

(** ** Reserving a region *)

Lemma reserve_retry_S fuel pmm nb addr len :
  reserve_retry (S fuel) pmm nb addr len =
  (found ← find_available pmm addr len;
   match found with
   | None => mret (false, pmm, nb)
   | Some entry =>
       pmme ← aget (pmm_entries pmm) entry;
       if pe_len pmme =? len then
         es ← aset (pmm_entries pmm) entry
                (mk_pmme (pe_addr pmme) (pe_len pmme) MMAP_TYPE_RESERVED);
         mret (true, mk_pmm (pmm_len pmm) es, nb ⊕ 1)
       else
         let split_addr := if pe_addr pmme <? addr then addr else addr ⊕ len in
         '(ok, pmm) ← split_region pmm entry split_addr;
         if ok : bool then reserve_retry fuel pmm nb addr len
         else mret (false, pmm, nb)
   end).
Proof. done. Qed.

Section Reserve.
Context (addr len nb : Z) (Ha : 0 <= addr) (Hl : 0 < len) (He : addr + len < 2 ^ 32).
Context (Hnb : 0 <= nb < 3).

Let ready (es : list phys_mmap_entry) (k : Z) : Prop :=
  Forall entry_wf es /\ Z.of_nat (length es) + k < 2 ^ 32.

Lemma reserve_exact fuel l1 e l2 room :
  ready (l1 ++ e :: l2) 0 -> Forall (fun x => ~ holds x addr len) l1 ->
  holds e addr len -> pe_len e = len ->
  reserve_retry (S fuel) (pmm_of (l1 ++ e :: l2) room) nb addr len =
  Ok (true, pmm_of (l1 ++ mk_pmme addr len MMAP_TYPE_RESERVED :: l2) room, nb + 1).
Proof.
  intros [Hw _] H1 H2 Hlen. rewrite reserve_retry_S.
  rewrite find_available_spec by (done || lia).
  rewrite list_find_app_first by done. cbn [mbind res_bind fmap option_fmap option_map fst].
  rewrite pmm_of_get. cbn [mbind res_bind]. rewrite Hlen, Z.eqb_refl.
  cbn [pmm_entries pmm_of pmm_len]. rewrite <- app_assoc, <- app_comm_cons.
  rewrite aset_mid by done. cbn [mbind res_bind mret res_ret].
  destruct H2 as (_ & ? & ?). unfold pe_end in *.
  assert (pe_addr e = addr) as -> by lia.
  rewrite u32_small by lia. unfold pmm_of. do 3 f_equal.
  f_equal; [by rewrite !length_app|]. by rewrite <- app_assoc.
Qed.

Lemma reserve_prefix fuel l1 e l2 x room :
  ready (l1 ++ e :: l2) 1 -> Forall (fun x => ~ holds x addr len) l1 ->
  holds e addr len -> pe_addr e = addr -> pe_len e <> len ->
  reserve_retry (S (S fuel)) (pmm_of (l1 ++ e :: l2) (x :: room)) nb addr len =
  Ok (true, pmm_of (l1 ++ mk_pmme addr len MMAP_TYPE_RESERVED ::
        mk_pmme (addr + len) (pe_end e - (addr + len)) MMAP_TYPE_AVAILABLE :: l2) room, nb + 1).
Proof.
  intros [Hw Hsz] H1 H2 Haddr Hlen. rewrite reserve_retry_S.
  rewrite find_available_spec by (done || lia).
  rewrite list_find_app_first by done. cbn [mbind res_bind fmap option_fmap option_map fst].
  rewrite pmm_of_get. cbn [mbind res_bind].
  destruct (Z.eqb_spec (pe_len e) len) as [|_]; [done|].
  destruct (Z.ltb_spec (pe_addr e) addr) as [|_]; [lia|].
  pose proof H2 as (Ht & Hb & Hend). rewrite (u32_small (addr + len)) by lia.
  assert (entry_wf e) as Hwe by (apply (Forall_elt _ _ _ Hw)).
  rewrite split_region_spec by (done || unfold pe_end in *; lia). cbn [mbind res_bind].
  rewrite Haddr, Ht. replace (addr + len - addr) with len by lia.
  apply reserve_exact; [|done| |done].
  - destruct Hwe as [? Hlu Hee]. specialize (Hee Ht). unfold is_u32, pe_end in *.
    apply Forall_app in Hw as [Hw1 Hw2]. apply Forall_cons in Hw2 as [_ Hw2].
    split; [|rewrite length_app in *; cbn [length] in *; lia].
    apply Forall_app; split; [done|]. apply Forall_cons. split.
    { constructor; cbn; unfold is_u32; lia. }
    apply Forall_cons. split; [|done]. constructor; cbn; unfold is_u32; lia.
  - unfold holds, pe_end. cbn. split_and!; [done|lia|lia].
Qed.

Lemma reserve_retry_found l1 e l2 x y room :
  ready (l1 ++ e :: l2) 2 -> Forall (fun x => ~ holds x addr len) l1 ->
  holds e addr len ->
  exists k, (k <= 2)%nat /\
    reserve_retry 3 (pmm_of (l1 ++ e :: l2) (x :: y :: room)) nb addr len =
    Ok (true, pmm_of (l1 ++ pieces e addr len ++ l2) (drop k (x :: y :: room)), nb + 1).
Proof.
  intros [Hw Hsz] H1 H2. pose proof H2 as (Ht & Hb & Hend). unfold pieces.
  assert (entry_wf e) as Hwe by (apply (Forall_elt _ _ _ Hw)).
  assert (ready (l1 ++ e :: l2) 1) as Hrd by (split; [done|lia]).
  pose proof (ew_end _ Hwe Ht) as Hee. pose proof (ew_addr _ Hwe) as Hau.
  unfold is_u32 in *.
  destruct (decide (pe_addr e = addr)) as [Haddr|Haddr].
  - destruct (decide (addr + len = pe_end e)) as [Hend'|Hend'].
    + exists 0%nat. split; [lia|]. apply reserve_exact; [split; [done|lia]|done..|].
      unfold pe_end in *; lia.
    + exists 1%nat. split; [lia|]. apply reserve_prefix; [done..|].
      unfold pe_end in *; lia.
  - rewrite reserve_retry_S, find_available_spec by (done || lia).
    rewrite list_find_app_first by done. cbn [mbind res_bind fmap option_fmap option_map fst].
    rewrite pmm_of_get. cbn [mbind res_bind].
    destruct (Z.eqb_spec (pe_len e) len) as [|_]; [unfold pe_end in *; lia|].
    destruct (Z.ltb_spec (pe_addr e) addr) as [_|]; [|lia].
    rewrite split_region_spec by (done || unfold pe_end in *; lia). cbn [mbind res_bind].
    rewrite Ht. set (b := mk_pmme (pe_addr e) (addr - pe_addr e) MMAP_TYPE_AVAILABLE).
    set (r := mk_pmme addr (pe_end e - addr) MMAP_TYPE_AVAILABLE).
    assert (Forall (fun x => ~ holds x addr len) (l1 ++ [b])) as H1'.
    { apply Forall_app. split; [done|]. constructor; [|done].
      unfold holds, pe_end. cbn. lia. }
    assert (holds r addr len) as Hr.
    { unfold holds, pe_end. cbn. split_and!; [done|lia|unfold pe_end in *; lia]. }
    assert (ready ((l1 ++ [b]) ++ r :: l2) 1) as Hrd'.
    { split; [|rewrite !length_app in *; cbn [length] in *; lia].
      apply Forall_app in Hw as [Hw1 Hw2]. apply Forall_cons in Hw2 as [_ Hw2].
      rewrite !Forall_app, !Forall_cons. unfold pe_end in *.
      split_and!; try done; constructor; cbn; unfold is_u32; lia. }
    replace (l1 ++ b :: r :: l2) with ((l1 ++ [b]) ++ r :: l2) by (by rewrite <- app_assoc).
    assert (pe_end r = pe_end e) as Hre by (unfold r, pe_end at 1; cbn; lia).
    destruct (decide (addr + len = pe_end e)) as [Hend'|Hend'].
    + exists 1%nat. split; [lia|].
      rewrite reserve_exact; [|split; [apply Hrd'|destruct Hrd'; lia]|done|done|cbn; lia].
      by rewrite <- !app_assoc.
    + exists 2%nat. split; [lia|].
      rewrite reserve_prefix by (done || (cbn; lia)).
      by rewrite Hre, <- !app_assoc.
Qed.

Lemma reserve_retry_none es room :
  Forall entry_wf es -> Forall (fun x => ~ holds x addr len) es ->
  reserve_retry 3 (pmm_of es room) nb addr len = Ok (false, pmm_of es room, nb).
Proof.
  intros Hw H. rewrite reserve_retry_S, find_available_spec by (done || lia).
  assert (list_find (fun e => holds e addr len) es = None) as ->; [|done].
  by apply list_find_None.
Qed.
End Reserve.

(** The search stops at some entry, or no entry holds the region. *)
Lemma holds_split es addr len :
  (exists l1 e l2, es = l1 ++ e :: l2 /\ Forall (fun x => ~ holds x addr len) l1 /\
     holds e addr len) \/
  Forall (fun x => ~ holds x addr len) es.
Proof.
  induction es as [|x es IH]; [by right|].
  destruct (decide (holds x addr len)) as [Hx|Hx]; [left; by exists [], x, es|].
  destruct IH as [(l1 & e & l2 & -> & H1 & He)|H]; [left|right; by constructor].
  exists (x :: l1), e, l2. split_and!; [done|by constructor|done].
Qed.

(** [reserve_region] on the entries of the map. *)
Lemma reserve_region_entries st es x y room addr len :
  phys_mem_map st = pmm_of es (x :: y :: room) -> Forall entry_wf es ->
  Z.of_nat (length es) + 2 < 2 ^ 32 -> 0 <= nb_reserved st < MAX_RESERVED ->
  0 <= addr -> 0 < len -> addr + len < 2 ^ 32 ->
  (exists l1 e l2 k, es = l1 ++ e :: l2 /\ holds e addr len /\ (k <= 2)%nat /\
     reserve_region st addr len =
       Ok (true, mk_pmm_state (pmm_of (l1 ++ pieces e addr len ++ l2) (drop k (x :: y :: room)))
                   (nb_reserved st + 1) (module_addr st) (module_len st))) \/
  (Forall (fun e => ~ holds e addr len) es /\ reserve_region st addr len = Ok (false, st)).
Proof.
  intros Hst Hw Hsz Hnb Ha Hl He. unfold reserve_region.
  destruct (Z.eqb_spec (nb_reserved st) MAX_RESERVED) as [|_]; [lia|].
  rewrite Hst. unfold MAX_RESERVED in *.
  destruct (holds_split es addr len) as [(l1 & e & l2 & -> & H1 & H2)|H]; [left|right].
  - destruct (reserve_retry_found addr len (nb_reserved st) Ha Hl He Hnb l1 e l2 x y room)
      as (k & Hk & ->); [by split|done|done|].
    exists l1, e, l2, k. split_and!; done.
  - split; [done|]. rewrite reserve_retry_none by done. cbn [mbind res_bind mret res_ret].
    destruct st; cbn in *; by subst.
Qed.

(** ** The bytes a map describes *)

Definition byte_in (e : phys_mmap_entry) (b : Z) : Prop := pe_addr e <= b < pe_end e.

(** Some entry of type [t] includes the byte at address [b]. *)
Definition byte_type (es : list phys_mmap_entry) (b t : Z) : Prop :=
  exists e, e ∈ es /\ pe_type e = t /\ byte_in e b.

Definition no_common (e1 e2 : phys_mmap_entry) : Prop :=
  forall b, ~ (byte_in e1 b /\ byte_in e2 b).

(** Entries the code can handle, and no byte in two of them. *)
Definition map_ok (es : list phys_mmap_entry) : Prop :=
  Forall entry_wf es /\ pairwise no_common es.

Lemma no_common_sym e1 e2 : no_common e1 e2 -> no_common e2 e1.
Proof. unfold no_common. naive_solver. Qed.

Lemma pieces_bytes e addr len p b :
  holds e addr len -> 0 < len -> p ∈ pieces e addr len -> byte_in p b -> byte_in e b.
Proof.
  unfold holds, pieces, byte_in, pe_end. intros (Ht & Hb & He) Hl Hp.
  rewrite elem_of_app, elem_of_cons in Hp.
  destruct Hp as [Hp|[->|Hp]]; [|cbn; lia|]; case_decide.
  - by apply not_elem_of_nil in Hp.
  - apply list_elem_of_singleton in Hp as ->. cbn. lia.
  - by apply not_elem_of_nil in Hp.
  - apply list_elem_of_singleton in Hp as ->. cbn. lia.
Qed.

Lemma pieces_type e addr len b t :
  holds e addr len -> 0 < len ->
  byte_type (pieces e addr len) b t <->
  byte_in e b /\ t = (if decide (addr <= b < addr + len) then MMAP_TYPE_RESERVED
                      else MMAP_TYPE_AVAILABLE).
Proof.
  intros (Ht & Hb & He) Hl. unfold byte_type, pieces. split.
  - intros (p & Hp & <- & Hin). unfold byte_in, pe_end in *.
    rewrite elem_of_app, elem_of_cons in Hp.
    destruct Hp as [Hp|[->|Hp]]; [|cbn in *; case_decide; [split; [lia|done]|lia]|];
      case_decide as H0; try (by apply not_elem_of_nil in Hp);
      apply list_elem_of_singleton in Hp as ->; cbn in *;
      case_decide; try lia; (split; [lia|done]).
  - intros [Hin ->]. unfold byte_in, pe_end in *.
    destruct (decide (addr <= b < addr + len)).
    { eexists. split; [|split; [|]]; [apply elem_of_app; right; apply list_elem_of_here|done|].
      cbn. lia. }
    destruct (decide (b < addr)).
    + rewrite decide_False by lia. eexists.
      split; [apply elem_of_app; left; by apply list_elem_of_singleton|]. cbn. split; [done|lia].
    + rewrite (decide_False (P := addr + len = _)) by lia. eexists.
      split; [apply elem_of_app; right; right; by apply list_elem_of_singleton|].
      cbn. split; [done|lia].
Qed.

Lemma pieces_ok e addr len :
  entry_wf e -> holds e addr len -> 0 <= addr -> 0 < len -> map_ok (pieces e addr len).
Proof.
  intros [Ha Hlu Hend] (Ht & Hb & He) Ha0 Hl. specialize (Hend Ht).
  unfold map_ok, pieces, pe_end, is_u32 in *.
  split.
  - apply Forall_forall. intros p Hp. rewrite elem_of_app, elem_of_cons in Hp.
    destruct Hp as [Hp|[->|Hp]]; [case_decide| |case_decide];
      try (by apply not_elem_of_nil in Hp);
      try (apply list_elem_of_singleton in Hp as ->);
      constructor; cbn; unfold is_u32; lia.
  - destruct (decide (pe_addr e = addr)), (decide (addr + len = _));
      cbn [app pairwise]; split_and!; try done; intros y Hy b [Hb1 Hb2];
      rewrite ?elem_of_cons, ?elem_of_nil in Hy; unfold byte_in, pe_end in *;
      destruct_or?; subst; cbn in *; try done; lia.
Qed.

Lemma byte_type_app l1 l2 b t :
  byte_type (l1 ++ l2) b t <-> byte_type l1 b t \/ byte_type l2 b t.
Proof. unfold byte_type. setoid_rewrite elem_of_app. naive_solver. Qed.

(** The effect of a reservation on the bytes: those of the region become
    reserved, the others keep their type. *)
Definition reserved_in (es : list phys_mmap_entry) (addr len : Z)
    (es' : list phys_mmap_entry) : Prop :=
  forall b t, byte_type es' b t <->
    if decide (addr <= b < addr + len) then t = MMAP_TYPE_RESERVED else byte_type es b t.

Lemma replace_pieces l1 e l2 addr len :
  map_ok (l1 ++ e :: l2) -> holds e addr len -> 0 <= addr -> 0 < len ->
  map_ok (l1 ++ pieces e addr len ++ l2) /\
  reserved_in (l1 ++ e :: l2) addr len (l1 ++ pieces e addr len ++ l2).
Proof.
  intros [Hw Hp] Hh Ha Hl. apply Forall_app in Hw as [Hw1 Hw2].
  apply Forall_cons in Hw2 as [Hwe Hw2].
  destruct (pieces_ok e addr len Hwe Hh Ha Hl) as [Hpw Hpp].
  apply pairwise_app in Hp as (Hp1 & [He2 Hp2] & H12).
  assert (forall p b, p ∈ pieces e addr len -> byte_in p b -> byte_in e b) as Hsub.
  { intros. by eapply pieces_bytes. }
  split; [split|].
  - by rewrite !Forall_app.
  - rewrite !pairwise_app. split_and!; try done.
    + intros p y Hpe Hy b [Hb1 Hb2]. apply (He2 y Hy b). by eauto.
    + intros y p Hy [Hpe|Hpe]%elem_of_app b [Hb1 Hb2].
      * apply (H12 y e Hy (list_elem_of_here _ _) b). by eauto.
      * by apply (H12 y p Hy (list_elem_of_further _ _ _ Hpe) b).
  - intros b t. rewrite !byte_type_app, pieces_type by done.
    assert (byte_type (l1 ++ e :: l2) b t <->
      byte_type l1 b t \/ byte_type [e] b t \/ byte_type l2 b t) as Hbt.
    { change (e :: l2) with ([e] ++ l2). by rewrite !byte_type_app. }
    case_decide as Hin; [|rewrite Hbt]; clear Hbt.
    2: assert (byte_type [e] b t <-> byte_in e b /\ t = MMAP_TYPE_AVAILABLE) as ->.
    2: { unfold byte_type. setoid_rewrite list_elem_of_singleton. destruct Hh. naive_solver. }
    2: tauto.
    assert (byte_in e b) as Hbe by (destruct Hh as (_ & ? & ?); unfold byte_in; lia).
    split; [|tauto]. intros [(y & Hy & _ & Hb)|[[_ ->]|(y & Hy & _ & Hb)]]; [|done|]; exfalso.
    + by apply (H12 y e Hy (list_elem_of_here _ _) b).
    + by apply (He2 y Hy b).
Qed.

(** A region an entry holds is still held once a region apart from it has been
    reserved. *)
Lemma holds_pieces e addr len a size :
  holds e addr len -> holds e a size -> 0 < size ->
  a + size <= addr \/ addr + len <= a ->
  exists p, p ∈ pieces e addr len /\ holds p a size.
Proof.
  unfold holds, pieces, pe_end. intros (Ht & Hb & He) (_ & Hb2 & He2) Hs [H|H].
  - rewrite decide_False by lia.
    eexists. split; [apply elem_of_app; left; apply list_elem_of_here|].
    cbn. split_and!; [done|lia|lia].
  - rewrite (decide_False (P := addr + len = _)) by lia. eexists.
    split; [apply elem_of_app; right; right; by apply list_elem_of_singleton|].
    cbn. split_and!; [done|lia|lia].
Qed.

Definition still_holds (es : list phys_mmap_entry) (addr len : Z)
    (es' : list phys_mmap_entry) : Prop :=
  forall a size, 0 < size -> a + size <= addr \/ addr + len <= a ->
    (exists e, e ∈ es /\ holds e a size) -> exists e, e ∈ es' /\ holds e a size.

Lemma replace_pieces_holds l1 e l2 addr len :
  holds e addr len -> still_holds (l1 ++ e :: l2) addr len (l1 ++ pieces e addr len ++ l2).
Proof.
  intros Hh a size Hs Hap (x & Hx & Hxh). setoid_rewrite elem_of_app.
  setoid_rewrite elem_of_app. rewrite elem_of_app, elem_of_cons in Hx.
  destruct Hx as [Hx|[->|Hx]]; [by eauto| |by eauto].
  destruct (holds_pieces e addr len a size) as (p & ? & ?); eauto.
Qed.

Lemma length_pieces e addr len : (1 <= length (pieces e addr len) <= 3)%nat.
Proof. unfold pieces. repeat case_decide; simpl; lia. Qed.

(** The state [st] describes [es] and has storage for [k] more entries. *)
Definition pmm_repr (st : pmm_state) (es : list phys_mmap_entry) (k : nat) : Prop :=
  map_ok es /\ Z.of_nat (length es + k) < 2 ^ 32 /\
  exists room, phys_mem_map st = pmm_of es room /\ (k <= length room)%nat.

Lemma reserve_region_repr st es k addr len :
  pmm_repr st es (2 + k) -> 0 <= nb_reserved st < MAX_RESERVED ->
  0 <= addr -> 0 < len -> addr + len < 2 ^ 32 ->
  (exists st' es', reserve_region st addr len = Ok (true, st') /\
     pmm_repr st' es' k /\ nb_reserved st' = nb_reserved st + 1 /\
     reserved_in es addr len es' /\ still_holds es addr len es' /\
     module_addr st' = module_addr st /\ module_len st' = module_len st) \/
  (Forall (fun e => ~ holds e addr len) es /\ reserve_region st addr len = Ok (false, st)).
Proof.
  intros (Hok & Hsz & room & Hst & Hroom) Hnb Ha Hl He.
  destruct room as [|x [|y room]]; [simpl in Hroom; lia..|]. simpl in Hroom.
  destruct (reserve_region_entries st es x y room addr len Hst (proj1 Hok)
    ltac:(lia) Hnb Ha Hl He) as [(l1 & e & l2 & j & -> & Hh & Hj & Heq)|?]; [left|by right].
  destruct (replace_pieces l1 e l2 addr len Hok Hh Ha Hl) as [Hok' Hr].
  eexists _, (l1 ++ pieces e addr len ++ l2).
  split_and!; [exact Heq| |done|done|by apply replace_pieces_holds|done|done].
  pose proof (length_pieces e addr len). rewrite !length_app in *. cbn [length] in *.
  split_and!; [done|rewrite !length_app; lia|].
  eexists. split; [done|]. rewrite length_drop. simpl. lia.
Qed.
