(* ===== verification/PmmInit.v ===== *)
(** * Initialisation of the physical memory map

    [find_pmm_location()], [fill_phys_mmap()] and [phys_mem_map_init()]: on a
    well-formed memory map from the boot loader they return, the map that is
    built fits in the storage computed for it, and it describes the memory of
    the machine less the reserved regions. *)
From S2P Require Import Prelude Bubble Page Pmm PmmSort PmmSpec.

(** ** Filling the map *)

(** The entry starts below 4 GB. *)
Definition mm_low (e : multiboot_mmap_entry) : Prop := mm_addr e < 2 ^ 32.

#[export] Instance mm_low_dec e : Decision (mm_low e).
Proof. unfold mm_low. apply _. Defined.

Definition mm_byte (e : multiboot_mmap_entry) (b : Z) : Prop :=
  mm_addr e <= b < mm_addr e + mm_len e.

(** An entry that starts below 4 GB ends there. *)
Record mme_wf (e : multiboot_mmap_entry) : Prop := {
  me_addr : 0 <= mm_addr e;
  me_len : 0 <= mm_len e;
  me_low : mm_low e -> mm_len e < 2 ^ 32 /\ mm_addr e + mm_len e <= 2 ^ 32;
  me_avail : mm_low e -> mm_type e = MMAP_TYPE_AVAILABLE -> mm_addr e + mm_len e < 2 ^ 32;
}.

(** The entry of the kernel's map it gives. *)
Definition mm_conv (e : multiboot_mmap_entry) : phys_mmap_entry :=
  mk_pmme (mm_addr e) (mm_len e) (mm_type e).

Definition mm_entries (mbi : multiboot_info) : list phys_mmap_entry :=
  mm_conv <$> filter mm_low (mmap_buf mbi).

Lemma shiftr_low x : 0 <= x -> (Z.shiftr x 32 =? 0) = bool_decide (x < 2 ^ 32).
Proof.
  intros Hx. rewrite Z.shiftr_div_pow2 by lia. case_bool_decide as H.
  - rewrite Z.div_small by lia. done.
  - apply Z.eqb_neq. Z.div_mod_to_equations. lia.
Qed.

Lemma land_32 x : Z.land x 0xffffffff = u32 x.
Proof. change 0xffffffff with (2 ^ 32 - 1). by apply land_low. Qed.

Lemma mm_conv_wf e : mme_wf e -> mm_low e ->
  Z.land (mm_addr e) 0xffffffff = mm_addr e /\ seg_len_of e (mm_addr e) = mm_len e /\
  entry_wf (mm_conv e).
Proof.
  intros [Ha Hl Hlow Hav] He. destruct (Hlow He) as [Hl' Hend].
  specialize (Hav He). unfold mm_low in *.
  rewrite land_32, u32_small by lia. unfold seg_len_of.
  rewrite shiftr_low, bool_decide_true by done. cbn [negb].
  rewrite land_32, u32_small by lia.
  split_and!; [done|done|]. constructor; cbn; unfold is_u32; [lia|lia|done].
Qed.

Lemma fill_list buf es room :
  Forall mme_wf buf -> (length buf <= length room)%nat ->
  Z.of_nat (length es + length room) < 2 ^ 32 ->
  list_ctl (R := Empty_set) buf (fun mmap '(es, entry) =>
    if negb (Z.shiftr (mm_addr mmap) 32 =? 0) then mret (Next (es, entry))
    else
      let addr := Z.land (mm_addr mmap) 0xffffffff in
      es ← aset es entry (mk_pmme addr (seg_len_of mmap addr) (mm_type mmap));
      mret (Next (es, entry ⊕ 1))) (es ++ room, Z.of_nat (length es)) =
  let added := mm_conv <$> filter mm_low buf in
  Ok (Next (es ++ added ++ drop (length added) room, Z.of_nat (length es + length added))).
Proof.
  intros Hw. revert es room. induction Hw as [|e buf He Hw IH]; intros es room Hlen Hsz.
  - cbn. by rewrite Nat.add_0_r, drop_0.
  - destruct room as [|x room]; [simpl in Hlen; lia|]. cbn [length] in Hlen, Hsz.
    cbn [list_ctl]. rewrite shiftr_low by apply He. cbn zeta.
    case_bool_decide as Hlow; cbn [negb].
    + destruct (mm_conv_wf e He Hlow) as (-> & -> & _).
      rewrite aset_mid by done. cbn [mbind res_bind mret res_ret].
      specialize (IH (es ++ [mm_conv e]) room).
      rewrite u32_small by lia.
      replace (Z.of_nat (length es) + 1) with (Z.of_nat (length (es ++ [mm_conv e])))
        by (rewrite length_app; simpl; lia).
      rewrite <- app_assoc in IH. cbn [app] in IH. cbn zeta in IH.
      fold (mm_conv e). rewrite IH by (rewrite ?length_app; cbn [length]; lia).
      rewrite filter_cons_True by done. cbn [fmap list_fmap]. rewrite length_app.
      cbn [length drop app]. rewrite <- app_assoc. do 3 f_equal. lia.
    + cbn [mbind res_bind mret res_ret]. rewrite IH by (cbn [length]; lia).
      by rewrite filter_cons_False.
Qed.

Lemma fill_phys_mmap_spec mbi room :
  mmap_wf mbi -> Forall mme_wf (mmap_buf mbi) ->
  (length (mmap_buf mbi) <= length room)%nat -> Z.of_nat (length room) < 2 ^ 32 ->
  fill_phys_mmap mbi (mk_pmm 0 room) =
  Ok (pmm_of (mm_entries mbi) (drop (length (mm_entries mbi)) room)).
Proof.
  intros Hw Hf Hlen Hsz. unfold fill_phys_mmap. rewrite mmap_for_each_list by done.
  cbn [pmm_entries].
  pose proof (fill_list (mmap_buf mbi) [] room Hf Hlen ltac:(simpl; lia)) as H.
  cbn [app length Nat.add] in H. cbn zeta in H. change (Z.of_nat 0) with 0 in H.
  by rewrite H.
Qed.

(** ** The location of the map *)

(** [size] bytes at [a] share none with [e]. *)
Definition apart (a size : Z) (e : phys_mmap_entry) : Prop :=
  a + size <= pe_addr e \/ pe_end e <= a.

Definition chained (es : list phys_mmap_entry) : Prop :=
  pairwise (fun e1 e2 => pe_end e1 <= pe_addr e2) es.

(** The bound under which the 32-bit sums of [find_pmm_location] do not wrap. *)
Definition lim (size : Z) : Z := 2 ^ 32 - 8192 - size.

Lemma collides_spec a size e :
  0 <= a -> 0 <= size -> a + size < 2 ^ 32 -> 0 <= pe_addr e -> 0 <= pe_end e < 2 ^ 32 ->
  collides a size (pe_addr e) (pe_len e) = bool_decide (~ apart a size e).
Proof.
  intros. unfold collides, apart, pe_end in *. rewrite !u32_small by lia.
  destruct (Z.ltb_spec a (pe_addr e + pe_len e)), (Z.ltb_spec (pe_addr e) (a + size));
    symmetry; cbn [andb]; (apply bool_decide_eq_true || apply bool_decide_eq_false); lia.
Qed.

Definition region_low (size : Z) (e : phys_mmap_entry) : Prop :=
  0 <= pe_addr e /\ 0 <= pe_len e /\ pe_end e <= lim size.

Lemma skip_regions_spec es room size a :
  chained es -> Forall (region_low size) es ->
  0 < size -> 0 <= a <= lim size + 4096 ->
  exists a', skip_regions (pmm_of es room) size a = Ok a' /\
    a <= a' <= lim size + 4096 /\ Forall (apart a' size) es /\
    forall x, aligned x -> a <= x -> Forall (apart x size) es -> a' <= x.
Proof.
  intros Hc Hb Hs Ha. unfold skip_regions. cbn [pmm_len pmm_of]. rewrite Nat2Z.id.
  match goal with |- context [for_loop ?n ?i0 ?b ?s] =>
    destruct (for_loop_inv (fun i a' => a <= a' <= lim size + 4096 /\
      Forall (apart a' size) (take (Z.to_nat i) es) /\
      forall x, aligned x -> a <= x -> Forall (apart x size) es -> a' <= x) b n i0 s)
      as (a' & -> & Hr & Hall & Hleast)
  end.
  - split; [lia|]. split; [constructor|done].
  - intros i t Hi (Ht & Hall & Hleast).
    destruct (lookup_lt_is_Some_2 es (Z.to_nat i)) as [e He]; [lia|].
    pose proof (Forall_lookup_1 _ _ _ _ Hb He) as (Hb1 & Hb2 & Hb3).
    assert (aget (pmm_entries (pmm_of es room)) i = Ok e) as ->.
    { apply aget_Ok. split; [lia|]. cbn. by rewrite lookup_app_l by lia. }
    cbn [mbind res_bind]. unfold lim in *.
    rewrite collides_spec by (unfold pe_end in *; lia).
    replace (Z.to_nat (i + 1)) with (S (Z.to_nat i)) by lia.
    rewrite (take_S_r _ _ _ He).
    case_bool_decide as Hap.
    + rewrite u32_small by (unfold pe_end in *; lia).
      rewrite page_align_small by (unfold pe_end in *; lia).
      pose proof (page_up_bounds (pe_addr e + pe_len e)).
      eexists. split; [done|]. unfold apart, pe_end in *.
      split; [lia|]. split.
      2:{ intros x Hx Hax Hapx. specialize (Hleast x Hx Hax Hapx).
          pose proof (Forall_lookup_1 _ _ _ _ Hapx He) as Hxe. unfold pe_end in Hxe.
          unfold page_up, aligned, PAGE_SIZE in *. Z.div_mod_to_equations; lia. }
      apply Forall_app. split; [|apply Forall_singleton; right; unfold pe_end; lia].
      apply Forall_forall. intros x Hx. right.
      unfold chained in Hc. rewrite <- (take_drop_middle _ _ _ He) in Hc.
      apply pairwise_app in Hc as (_ & _ & Hc).
      specialize (Hc x e Hx (list_elem_of_here _ _)). unfold pe_end in *. lia.
    + exists t. split; [done|]. split; [lia|]. split; [|done]. apply Forall_app. split; [done|].
      apply Forall_singleton. destruct (decide (apart t size e)) as [|Hn]; [done|]. tauto.
  - exists a'. split_and!; [done|lia|lia| |done]. by rewrite take_ge in Hall by lia.
Qed.

(** [a] is a safe location: past the kernel image, out of low memory, apart from
    the regions [es] the boot loader uses, inside of an available segment. *)
Definition safe_location (kernel_end : Z) (mbi : multiboot_info)
    (es : list phys_mmap_entry) (size a : Z) : Prop :=
  kernel_end < a /\ 0x100000 <= a /\ a <= 2 ^ 32 - 4096 - size /\ Forall (apart a size) es /\
  exists e, e ∈ mmap_buf mbi /\ mm_type e = MMAP_TYPE_AVAILABLE /\ mm_low e /\
    mm_addr e <= a /\ a + size <= mm_addr e + mm_len e.

(** The available segments the map can be put in start low enough. *)
Definition segs_low (mbi : multiboot_info) (size : Z) : Prop :=
  Forall (fun e => mm_type e = MMAP_TYPE_AVAILABLE -> mm_low e -> mm_addr e <= lim size)
    (mmap_buf mbi).

(** A page boundary past the kernel where [size] bytes fit in an available segment
    above 1 MB, apart from the regions [es]. *)
Definition fits_at (kernel_end : Z) (mbi : multiboot_info) (es : list phys_mmap_entry) (size x : Z) : Prop :=
  aligned x /\ kernel_end < x /\ Forall (apart x size) es /\
  exists e, e ∈ mmap_buf mbi /\ mm_type e = MMAP_TYPE_AVAILABLE /\ mm_low e /\ 0x100000 <= mm_addr e /\
    mm_addr e <= x /\ x + size <= mm_addr e + mm_len e.

Lemma find_pmm_location_spec kernel_end mbi es room size :
  mmap_wf mbi -> Forall mme_wf (mmap_buf mbi) -> segs_low mbi size ->
  chained es -> Forall (region_low size) es -> 0 < size ->
  0 <= kernel_end < lim size ->
  exists a l, find_pmm_location kernel_end mbi (pmm_of es room) size = Ok (a, set_buf l mbi) /\
    l ≡ₚ mmap_buf mbi /\ ((a = NO_LOCATION /\ forall x, ~ fits_at kernel_end mbi es size x) \/
     safe_location kernel_end mbi es size a).
Proof.
  intros Hw Hf Hsl Hc Hb Hs Hk. unfold find_pmm_location.
  destruct (Z.eqb_spec size 0) as [|_]; [lia|].
  destruct (sort_multiboot_mmap_spec mbi Hw) as (l & -> & Hp & _). cbn [mbind res_bind].
  rewrite mmap_for_each_list by (by apply mmap_wf_perm). cbn [mmap_buf set_buf].
  match goal with |- context [list_ctl l ?b ?s] =>
    destruct (list_ctl_find (fun e a => safe_location kernel_end mbi es size a)
        (fun e => forall x, aligned x -> kernel_end < x -> Forall (apart x size) es ->
          mm_type e = MMAP_TYPE_AVAILABLE -> mm_low e -> 0x100000 <= mm_addr e -> mm_addr e <= x ->
          ~ x + size <= mm_addr e + mm_len e) b l s)
      as [(e & a & _ & -> & Ha)|[-> Hno]] end.
  - intros e He. rewrite Hp in He. pose proof (proj1 (Forall_forall _ _) Hf e He) as Hwe.
    pose proof (proj1 (Forall_forall _ _) Hsl e He) as Hse. cbv beta in Hse.
    destruct (Z.eqb_spec (mm_type e) MMAP_TYPE_AVAILABLE) as [Ht|]; cbn [negb]; [|right; by split].
    rewrite shiftr_low by apply Hwe. case_bool_decide as Hlow; cbn [negb]; [|right; by split].
    destruct (mm_conv_wf e Hwe Hlow) as (-> & -> & _). cbv zeta.
    destruct (Z.ltb_spec (mm_addr e) 0x100000); [right; split; [done|intros; lia]|].
    specialize (Hse Ht Hlow). pose proof (me_avail e Hwe Hlow Ht). pose proof (me_len e Hwe).
    unfold lim in *. rewrite (u32_small (kernel_end + 1)) by lia.
    rewrite page_align_small by lia. pose proof (page_up_bounds (kernel_end + 1)).
    set (a0 := if page_up (kernel_end + 1) <? mm_addr e then mm_addr e
               else page_up (kernel_end + 1)).
    assert (kernel_end < a0 /\ mm_addr e <= a0 /\ a0 <= lim size + 4096) as (Ha1 & Ha2 & Ha3).
    { unfold a0, lim. destruct (Z.ltb_spec (page_up (kernel_end + 1)) (mm_addr e)); lia. }
    destruct (skip_regions_spec es room size a0) as (a & -> & Ha & Hap & Hleast); [done..|lia|].
    cbn [mbind res_bind]. unfold lim in *. rewrite !u32_small by lia.
    destruct (Z.leb_spec (a + size) (mm_addr e + mm_len e)).
    2:{ right. split; [done|]. intros x Hx Hkx Hapx _ _ _ Hex Hend.
        assert (page_up (kernel_end + 1) <= x) by (unfold page_up, aligned, PAGE_SIZE in *; Z.div_mod_to_equations; lia).
        assert (a <= x) by (apply Hleast; [done| |done]; unfold a0; case_match; lia). lia. }
    left. exists a. split; [done|]. unfold safe_location.
    split_and!; [lia|lia|lia|done|]. exists e. split_and!; [done..|lia|lia].
  - exists a, l. split_and!; [done|done|by right].
  - exists NO_LOCATION, l. split_and!; [done|done|left]. split; [done|].
    intros x (Hx & Hkx & Hapx & e & He & Ht & Hl & Hlow & Hex & Hend). rewrite <- Hp in He. by eapply Hno.
Qed.

(** ** The regions of the boot loader *)

Definition boot_regions (mbi : multiboot_info) : list phys_mmap_entry :=
  [mk_pmme (mbi_ptr mbi) sizeof_multiboot_info 0;
   mk_pmme (mmap_addr mbi) (mmap_length mbi) 0] ++
  (if has_mods mbi then
     [mk_pmme (mods_addr mbi) sizeof_multiboot_module 0;
      mk_pmme (mod_start (mbi_mod mbi)) (mod_end (mbi_mod mbi) - mod_start (mbi_mod mbi)) 0]
   else []).

Lemma identify_spec mbi n :
  n = length (boot_regions mbi) ->
  (has_mods mbi = true -> 0 <= mod_end (mbi_mod mbi) - mod_start (mbi_mod mbi) < 2 ^ 32) ->
  exists es, identify_multiboot_regions mbi (mk_pmm 0 (replicate n (mk_pmme 0 0 0))) =
    Ok (pmm_of es []) /\ es ≡ₚ boot_regions mbi /\ sorted pe_addr es.
Proof.
  intros -> Hm.
  destruct (sort_phys_mmap_spec (pmm_of (boot_regions mbi) [])) as (es & Hs & Hp & Hsort).
  { cbn. lia. }
  { cbn [pmm_of pmm_len pmm_entries]. by rewrite app_nil_r. }
  unfold pmm_of in *. cbn [pmm_entries pmm_len] in *. rewrite app_nil_r in *.
  exists es. split_and!; [|done|done]. rewrite app_nil_r, (Permutation_length Hp).
  unfold identify_multiboot_regions, boot_regions in *. destruct (has_mods mbi).
  - rewrite u32_small by auto. exact Hs.
  - exact Hs.
Qed.

Lemma chained_sorted es :
  sorted pe_addr es -> pairwise no_common es -> Forall (fun e => 0 < pe_len e) es ->
  chained es.
Proof.
  unfold chained. intros Hs Hp Hl. induction es as [|e es IH]; cbn [pairwise] in *; [done|].
  apply Forall_cons in Hl as [He Hl]. destruct Hp as [Hep Hp]. split.
  - intros y Hy. pose proof (proj1 (Forall_forall _ _) Hl y Hy) as Hly. cbv beta in Hly.
    apply list_elem_of_lookup in Hy as [i Hi].
    pose proof (Hs (S i) 0%nat e y ltac:(lia) eq_refl Hi).
    destruct (Z_le_gt_dec (pe_end e) (pe_addr y)) as [|Hgt]; [done|]. exfalso.
    apply (Hep y (list_elem_of_lookup_2 _ _ _ Hi) (pe_addr y)).
    unfold byte_in, pe_end in *. lia.
  - apply IH; [|done..]. intros j k x y Hkj Hx Hy. by apply (Hs (S j) (S k) x y); [lia|..].
Qed.

(** ** The whole initialisation *)

(** What the boot loader and the linker guarantee to the kernel. *)
Record boot_wf (kernel_start kernel_end : Z) (mbi : multiboot_info) : Prop := {
  bw_mmap : mmap_wf mbi;
  bw_entries : Forall mme_wf (mmap_buf mbi);
  bw_disjoint : pairwise (fun e1 e2 => forall b, ~ (mm_byte e1 b /\ mm_byte e2 b)) (mmap_buf mbi);
  bw_count : Z.of_nat (length (mmap_buf mbi)) < 2 ^ 16;
  bw_kernel : 0 <= kernel_start < kernel_end /\ kernel_end < lim (phys_mem_map_size mbi);
  bw_segs : segs_low mbi (phys_mem_map_size mbi);
  bw_regions : Forall (fun e => region_low (phys_mem_map_size mbi) e /\ 0 < pe_len e)
    (boot_regions mbi);
  bw_regions_disjoint : pairwise no_common (boot_regions mbi);
  bw_kernel_avail : exists e, e ∈ mm_entries mbi /\
    holds e kernel_start (kernel_end - kernel_start);
  bw_mod_avail : has_mods mbi = true ->
    (exists e, e ∈ mm_entries mbi /\
      holds e (mod_start (mbi_mod mbi)) (mod_end (mbi_mod mbi) - mod_start (mbi_mod mbi))) /\
    (mod_end (mbi_mod mbi) <= kernel_start \/ kernel_end <= mod_start (mbi_mod mbi));
}.

Lemma phys_mem_map_size_eq mbi :
  mmap_wf mbi -> Z.of_nat (length (mmap_buf mbi)) < 2 ^ 16 ->
  phys_mem_map_size mbi =
  4 + 12 * (3 * (Z.of_nat (length (mmap_buf mbi)) + 2 + (if has_mods mbi then 1 else 0))).
Proof.
  intros Hw Hc. unfold phys_mem_map_size, sizeof_phys_mmap, sizeof_phys_mmap_entry.
  rewrite (mw_len _ Hw), (Z.mul_comm 24). unfold sizeof_multiboot_memory_map.
  rewrite Z.div_mul by lia. set (k := if has_mods mbi then 1 else 0).
  assert (0 <= k <= 1) by (unfold k; destruct (has_mods mbi); lia).
  rewrite (u32_small (Z.of_nat _ + 2)), (u32_small (_ + k)) by lia.
  rewrite (u32_small (_ * 3)), (u32_small (_ * 12)), u32_small by lia. lia.
Qed.

Lemma mm_entries_ok mbi :
  Forall mme_wf (mmap_buf mbi) ->
  pairwise (fun e1 e2 => forall b, ~ (mm_byte e1 b /\ mm_byte e2 b)) (mmap_buf mbi) ->
  map_ok (mm_entries mbi).
Proof.
  intros Hf Hp. split.
  - apply Forall_fmap, Forall_forall. intros e [Hlow He]%list_elem_of_filter.
    apply mm_conv_wf; [|done]. by apply (proj1 (Forall_forall _ _) Hf).
  - eapply pairwise_fmap_filter; [|exact Hp]. intros x y _ _ H b [Hx Hy]. apply (H b).
    done.
Qed.

(** The bytes that must not be handed out: the kernel image, the map itself and
    the module. *)
Definition taken (kernel_start kernel_end : Z) (mbi : multiboot_info) (pmm_addr : Z) (b : Z)
  : Prop :=
  kernel_start <= b < kernel_end \/
  pmm_addr <= b < pmm_addr + phys_mem_map_size mbi \/
  (has_mods mbi = true /\ mod_start (mbi_mod mbi) <= b < mod_end (mbi_mod mbi)).

(** The state describes the machine's memory with the taken bytes reserved. *)
Definition describes (kernel_start kernel_end : Z) (mbi : multiboot_info) (pmm_addr : Z)
    (st : pmm_state) : Prop :=
  exists es, pmm_repr st es 0 /\
    forall b t, byte_type es b t <->
      (taken kernel_start kernel_end mbi pmm_addr b /\ t = MMAP_TYPE_RESERVED) \/
      (~ taken kernel_start kernel_end mbi pmm_addr b /\ byte_type (mm_entries mbi) b t).

Section BuildSpec.
Context (kernel_start kernel_end : Z) (mbi : multiboot_info).
Context (ram : Z -> nat -> list phys_mmap_entry).
Context (Hram : forall a n, length (ram a n) = n).
Context (Hb : boot_wf kernel_start kernel_end mbi).
Context (st : pmm_state) (Hst : nb_reserved st = 0).

Lemma fill_room a :
  let room := (phys_mem_map_size mbi - sizeof_phys_mmap) / sizeof_phys_mmap_entry in
  exists pmm, fill_phys_mmap mbi (mk_pmm 0 (ram a (Z.to_nat room))) = Ok pmm /\
    forall nb ma ml, pmm_repr (mk_pmm_state pmm nb ma ml) (mm_entries mbi) 6.
Proof.
  pose proof (bw_count _ _ _ Hb) as Hc. cbv zeta.
  rewrite (phys_mem_map_size_eq mbi (bw_mmap _ _ _ Hb) Hc).
  set (n := length (mmap_buf mbi)) in *. set (k := if has_mods mbi then 1 else 0).
  assert (0 <= k <= 1) by (unfold k; destruct (has_mods mbi); lia).
  assert ((4 + 12 * (3 * (Z.of_nat n + 2 + k)) - sizeof_phys_mmap) / sizeof_phys_mmap_entry
          = 3 * (Z.of_nat n + 2 + k)) as ->.
  { unfold sizeof_phys_mmap, sizeof_phys_mmap_entry. Z.div_mod_to_equations. lia. }
  rewrite fill_phys_mmap_spec; [|apply Hb..|rewrite Hram; lia|rewrite Hram; lia].
  eexists. split; [done|]. intros nb ma ml.
  assert (length (mm_entries mbi) <= n)%nat.
  { unfold mm_entries. rewrite length_fmap. apply length_filter. }
  split_and!; [apply mm_entries_ok; apply Hb|lia|].
  eexists. split; [done|]. rewrite length_drop, Hram. lia.
Qed.

Lemma build_spec mbr pmm_addr l :
  l ≡ₚ mmap_buf mbi -> mbr ≡ₚ boot_regions mbi ->
  safe_location kernel_end mbi mbr (phys_mem_map_size mbi) pmm_addr ->
  exists st', build_phys_mem_map kernel_start kernel_end ram mbi st
      (phys_mem_map_size mbi) pmm_addr = Ok (true, st') /\
    describes kernel_start kernel_end mbi pmm_addr st' /\
    (has_mods mbi = true -> module_addr st' = mod_start (mbi_mod mbi) /\
       module_len st' = mod_end (mbi_mod mbi) - mod_start (mbi_mod mbi)).
Proof.
  intros Hl Hmbr (Hk & _ & Hhi & Hap & e0 & He0 & Ht0 & Hlow0 & Hlo0 & Hend0).
  destruct (bw_kernel _ _ _ Hb) as [Hks Hke]. unfold lim in Hke.
  pose proof (bw_count _ _ _ Hb) as Hc.
  assert (0 < phys_mem_map_size mbi) as Hsz.
  { rewrite phys_mem_map_size_eq by (done || apply Hb). destruct (has_mods mbi); lia. }
  unfold build_phys_mem_map. cbv zeta.
  destruct (fill_room (pmm_addr ⊕ 4)) as (pmm & -> & Hr0). cbn [mbind res_bind].
  set (st0 := mk_pmm_state pmm _ _ _).
  assert (pmm_repr st0 (mm_entries mbi) 6) as Hr by apply Hr0. clear Hr0.
  rewrite (u32_small (kernel_end - kernel_start)) by lia.
  destruct (reserve_region_repr st0 (mm_entries mbi) 4 kernel_start
    (kernel_end - kernel_start) Hr) as [(st1 & es1 & -> & Hr1 & Hn1 & Hres1 & Hsh1 & _)|[Hno _]];
    [unfold st0, MAX_RESERVED; cbn; lia|lia..| |].
  2:{ exfalso. destruct (bw_kernel_avail _ _ _ Hb) as (e & He & Hh).
      by apply (proj1 (Forall_forall _ _) Hno e). }
  cbn [mbind res_bind negb].
  assert (exists e, e ∈ es1 /\ holds e pmm_addr (phys_mem_map_size mbi)) as Hp1.
  { apply Hsh1; [lia|lia|]. exists (mm_conv e0). split; [|split_and!; cbn; done].
    apply list_elem_of_fmap_2, list_elem_of_filter. done. }
  destruct (reserve_region_repr st1 es1 2 pmm_addr (phys_mem_map_size mbi) Hr1)
    as [(st2 & es2 & -> & Hr2 & Hn2 & Hres2 & Hsh2 & _)|[Hno _]];
    [unfold st0, MAX_RESERVED in *; cbn in *; lia|lia..| |].
  2:{ exfalso. destruct Hp1 as (e & He & Hh). by apply (proj1 (Forall_forall _ _) Hno e). }
  cbn [mbind res_bind negb].
  destruct (has_mods mbi) eqn:Hmods.
  - pose proof (bw_regions _ _ _ Hb) as Hreg. unfold boot_regions in Hreg, Hmbr.
    rewrite Hmods in Hreg, Hmbr. rewrite !Forall_app, !Forall_cons in Hreg.
    destruct Hreg as (_ & _ & [(Hm1 & Hm2 & Hm3) Hm4] & _). unfold pe_end in *.
    cbn [pe_addr pe_len] in *. unfold lim in *.
    destruct (bw_mod_avail _ _ _ Hb Hmods) as [Hmh Hmk].
    set (ms := mod_start (mbi_mod mbi)) in *. set (me := mod_end (mbi_mod mbi)) in *.
    rewrite (u32_small (me - ms)) by lia.
    assert (apart pmm_addr (phys_mem_map_size mbi) (mk_pmme ms (me - ms) 0)) as Hapm.
    { apply (proj1 (Forall_forall _ _) Hap). rewrite Hmbr. set_solver. }
    unfold apart, pe_end in Hapm. cbn in Hapm.
    assert (exists e, e ∈ es2 /\ holds e ms (me - ms)) as Hp2.
    { apply Hsh2; [lia|lia|]. apply Hsh1; [lia|lia|done]. }
    destruct (reserve_region_repr st2 es2 0 ms (me - ms) Hr2)
      as [(st3 & es3 & -> & Hr3 & Hn3 & Hres3 & _ & _)|[Hno _]];
      [unfold st0, MAX_RESERVED in *; cbn in *; lia|lia..| |].
    2:{ exfalso. destruct Hp2 as (e & He & Hh). by apply (proj1 (Forall_forall _ _) Hno e). }
    cbn [mbind res_bind negb]. eexists. split; [done|]. split; [|done].
    exists es3. split; [exact Hr3|]. intros b t.
    rewrite (Hres3 b t). unfold taken. rewrite Hmods. fold ms me.
    case_decide; [intuition lia|]. rewrite (Hres2 b t).
    case_decide; [intuition lia|]. rewrite (Hres1 b t).
    case_decide; intuition lia.
  - eexists. split; [done|]. split; [|done]. exists es2. split.
    { destruct Hr2 as (? & ? & room & ? & ?). split_and!; [done|lia|].
      exists room. split; [done|lia]. }
    intros b t. unfold taken. rewrite Hmods. rewrite (Hres2 b t).
    case_decide; [intuition lia|]. rewrite (Hres1 b t).
    case_decide; intuition (lia || done).
Qed.
End BuildSpec.

(** Without a module, the variables of the module are not written. *)
Lemma reserve_region_module st a l ok st' : reserve_region st a l = Ok (ok, st') ->
  module_addr st' = module_addr st /\ module_len st' = module_len st.
Proof.
  unfold reserve_region. case_match; [by intros [= _ <-]|].
  destruct (reserve_retry 3 _ _ a l) as [[[ok0 pmm] nb]|]; cbn; [|done]. by intros [= _ <-].
Qed.

Lemma build_no_module kernel_start kernel_end ram mbi st size a st' :
  build_phys_mem_map kernel_start kernel_end ram mbi st size a = Ok (true, st') -> has_mods mbi = false ->
  module_addr st' = module_addr st /\ module_len st' = module_len st.
Proof.
  unfold build_phys_mem_map. intros H Hm. cbv zeta in H. rewrite Hm in H.
  destruct (fill_phys_mmap _ _) as [pmm|]; cbn [mbind res_bind] in H; [|done].
  destruct (reserve_region _ kernel_start _) as [[ok1 st1]|] eqn:H1; cbn [mbind res_bind] in H; [|done].
  destruct ok1; cbn [negb] in H; [|done].
  destruct (reserve_region _ a _) as [[ok2 st2]|] eqn:H2; cbn [mbind res_bind] in H; [|done].
  destruct ok2; cbn [negb] in H; [|done]. injection H as <-.
  apply reserve_region_module in H1. apply reserve_region_module in H2. destruct H1 as [E1 E2], H2 as [E3 E4].
  rewrite E3, E4, E1, E2. done.
Qed.

(** The information as the kernel uses it: a module flag without a module is
    dropped. *)
Definition effective (mbi : multiboot_info) : multiboot_info :=
  if has_mods mbi && negb (0 <? mods_count mbi)
  then set_flags (Z.land (mbi_flags mbi) (u32 (Z.lnot MULTIBOOT_INFO_MODS))) mbi
  else mbi.

Lemma effective_has_mods mbi :
  has_mods (effective mbi) = has_mods mbi && (0 <? mods_count mbi).
Proof.
  unfold effective. destruct (has_mods mbi) eqn:Hm, (0 <? mods_count mbi); cbn [andb negb];
    try done.
  unfold has_mods. cbn [mbi_flags set_flags].
  rewrite <- Z.land_assoc.
  change (Z.land (u32 (Z.lnot MULTIBOOT_INFO_MODS)) MULTIBOOT_INFO_MODS) with 0.
  by rewrite Z.land_0_r.
Qed.

Lemma init_spec kernel_start kernel_end ram mbi st :
  (forall a n, length (ram a n) = n) ->
  Z.land (mbi_flags mbi) MULTIBOOT_INFO_MEM_MAP <> 0 ->
  0 <= mods_count mbi <= 1 ->
  boot_wf kernel_start kernel_end (effective mbi) -> nb_reserved st = 0 ->
  (phys_mem_map_init kernel_start kernel_end ram mbi st = Ok (false, st) /\
     forall x, ~ fits_at kernel_end (effective mbi) (boot_regions (effective mbi))
       (phys_mem_map_size (effective mbi)) x) \/
  exists pmm_addr st', phys_mem_map_init kernel_start kernel_end ram mbi st = Ok (true, st') /\
    safe_location kernel_end (effective mbi) (boot_regions (effective mbi))
      (phys_mem_map_size (effective mbi)) pmm_addr /\
    describes kernel_start kernel_end (effective mbi) pmm_addr st' /\
    (has_mods (effective mbi) = true -> module_addr st' = mod_start (mbi_mod mbi) /\
       module_len st' = mod_end (mbi_mod mbi) - mod_start (mbi_mod mbi)) /\
    (has_mods (effective mbi) = false -> module_addr st' = module_addr st /\ module_len st' = module_len st).
Proof.
  intros Hram Hmm Hmods Hb Hst. unfold phys_mem_map_init.
  destruct (Z.eqb_spec (Z.land (mbi_flags mbi) MULTIBOOT_INFO_MEM_MAP) 0) as [|_]; [done|].
  assert (has_mods mbi && (0 <? mods_count mbi) && negb (mods_count mbi =? 1) = false) as ->.
  { destruct (has_mods mbi), (Z.ltb_spec 0 (mods_count mbi)), (Z.eqb_spec (mods_count mbi) 1);
      try done; lia. }
  fold (effective mbi). cbv zeta.
  set (n := Z.to_nat (if has_mods mbi && (0 <? mods_count mbi) then 4 else 2)).
  assert (n = length (boot_regions (effective mbi))) as ->.
  { unfold n, boot_regions. rewrite effective_has_mods.
    by destruct (has_mods mbi && (0 <? mods_count mbi)). }
  assert (mbi_mod mbi = mbi_mod (effective mbi)) as ->.
  { unfold effective. by destruct (has_mods mbi && negb (0 <? mods_count mbi)). }
  clear Hmods Hmm. generalize dependent (effective mbi). clear mbi. intros mbi Hb.
  pose proof (bw_kernel _ _ _ Hb) as [Hks Hke]. pose proof (bw_regions _ _ _ Hb) as Hreg.
  pose proof (phys_mem_map_size_eq mbi (bw_mmap _ _ _ Hb) (bw_count _ _ _ Hb)) as Hsz.
  apply Forall_and in Hreg as [Hreg Hpos].
  destruct (identify_spec mbi _ eq_refl) as (mbr & -> & Hp & Hs).
  { intros Hm. unfold boot_regions in Hreg, Hpos. rewrite Hm in Hreg, Hpos.
    rewrite !Forall_app, !Forall_cons in *. destruct Hreg as (_ & _ & (H1 & H2 & H3) & _).
    unfold pe_end, lim in *. cbn in *. destruct (has_mods mbi); lia. }
  cbn [mbind res_bind].
  assert (chained mbr) as Hch.
  { apply chained_sorted; [done| |by rewrite Hp].
    apply (pairwise_perm _ (boot_regions mbi)); [apply no_common_sym|done|apply Hb]. }
  destruct (find_pmm_location_spec kernel_end mbi mbr [] (phys_mem_map_size mbi))
    as (a & l & -> & Hl & Ha); [apply Hb..|done|by rewrite Hp| |lia|].
  { destruct (has_mods mbi); lia. }
  cbn [mbind res_bind].
  destruct (Z.eqb_spec a NO_LOCATION) as [->|Hne].
  { left. split; [done|]. destruct Ha as [[_ Hno]|(_ & _ & Hhi & _)].
    - intros x (H1 & H2 & H3 & H4). apply (Hno x). split_and!; [done|done| |done]. by rewrite Hp.
    - exfalso. unfold NO_LOCATION in Hhi. destruct (has_mods mbi); lia. }
  right. destruct Ha as [[? _]|Ha]; [done|].
  assert (boot_wf kernel_start kernel_end (set_buf l mbi)) as Hbl.
  { destruct Hb as [Hb1 Hb2 Hb3 Hb4 Hb5 Hb6 Hb7 Hb8 Hb9 Hb10].
    assert (forall e, e ∈ mm_entries (set_buf l mbi) <-> e ∈ mm_entries mbi) as Hme.
    { intros e. unfold mm_entries. cbn [mmap_buf set_buf].
      setoid_rewrite list_elem_of_fmap. setoid_rewrite list_elem_of_filter.
      setoid_rewrite Hl. done. }
    constructor; try done; cbn [mmap_buf set_buf].
    - by apply mmap_wf_perm.
    - by rewrite Hl.
    - apply (pairwise_perm _ (mmap_buf mbi)); [naive_solver|done|done].
    - by rewrite Hl.
    - unfold segs_low. cbn [mmap_buf set_buf]. by rewrite Hl.
    - destruct Hb9 as (e & He & Hh). exists e. by rewrite Hme.
    - intros Hm. destruct (Hb10 Hm) as [(e & He & Hh) Hd]. split; [|done].
      exists e. by rewrite Hme. }
  destruct (build_spec kernel_start kernel_end (set_buf l mbi) ram Hram Hbl st Hst mbr a l)
    as (st' & Hbuild & Hdesc & Hmod); [done|done| |].
  { destruct Ha as (? & ? & ? & ? & e & He & ?). split_and!; try done.
    exists e. split; [cbn [mmap_buf set_buf]; by rewrite Hl|done]. }
  exists a, st'. split_and!; [exact Hbuild| | |exact Hmod|intros Hm0; exact (build_no_module _ _ _ _ _ _ _ _ Hbuild Hm0)].
  - destruct Ha as (? & ? & ? & ? & ?). split_and!; try done. by rewrite <- Hp.
  - destruct Hdesc as (es & Hr & Hbt). exists es. split; [done|]. intros b t.
    rewrite Hbt. assert (byte_type (mm_entries (set_buf l mbi)) b t <->
      byte_type (mm_entries mbi) b t) as ->; [|done].
    unfold byte_type, mm_entries. cbn [mmap_buf set_buf].
    setoid_rewrite list_elem_of_fmap. setoid_rewrite list_elem_of_filter.
    by setoid_rewrite Hl.
Qed.
