(* ===== verification/PmmThms.v ===== *)
(** * Theorems of the physical memory map

    The properties of [phys_mem_map.c] and their instances on the memory map of
    a machine with 128 MB and one module. *)
From S2P Require Import Prelude Bubble Page Pmm PmmSort PmmSpec PmmInit.

(** ** An instance *)

Definition demo_mbi : multiboot_info :=
  mk_mbi 0x9500 0x48 1 0x9600 72 0x9000
    [mk_mme 20 0x100000 0x7ee0000 1; mk_mme 20 0 0x9000 1; mk_mme 20 0xfffc0000 0x40000 2]
    (mk_mod 0x180000 0x190000).

Definition demo_ram (_ : Z) (n : nat) : list phys_mmap_entry :=
  replicate n (mk_pmme 0xdeadbeef 0xdeadbeef 0xdeadbeef).

Definition demo_st : pmm_state := mk_pmm_state (mk_pmm 0 []) 0 0 0.

Definition demo_pmm_st : pmm_state :=
  mk_pmm_state
    (mk_pmm 2 [mk_pmme 0x100000 0x100000 1; mk_pmme 0x300000 0x1000 2; mk_pmme 0 0 0;
               mk_pmme 0 0 0])
    0 0 0.

Lemma demo_mmap_wf : mmap_wf demo_mbi.
Proof. constructor; cbn; [by repeat constructor|done|done|done]. Qed.

Lemma demo_mme_wf : Forall mme_wf (mmap_buf demo_mbi).
Proof.
  repeat (apply Forall_cons; split); [..|by apply Forall_nil];
    constructor; unfold mm_low, MMAP_TYPE_AVAILABLE; cbn [mm_addr mm_len mm_type]; lia.
Qed.

(** Solves [pairwise] over a concrete list of intervals. *)
Ltac pairwise_concrete :=
  cbn [pairwise]; split_and!; try done; intros y Hy b; rewrite ?elem_of_cons in Hy;
  destruct_or?; subst;
  (try by apply not_elem_of_nil in Hy); unfold mm_byte, byte_in, pe_end; cbn; lia.

Lemma demo_boot_wf : boot_wf 0x100000 0x140000 demo_mbi.
Proof.
  constructor.
  - apply demo_mmap_wf.
  - apply demo_mme_wf.
  - unfold demo_mbi, mmap_buf. pairwise_concrete.
  - done.
  - by vm_compute.
  - unfold segs_low. repeat (apply Forall_cons; split); [..|by apply Forall_nil]; by vm_compute.
  - unfold boot_regions. change (has_mods demo_mbi) with true.
    repeat (apply Forall_cons; split); [..|by apply Forall_nil];
      unfold region_low; split_and!; by vm_compute.
  - let r := eval vm_compute in (boot_regions demo_mbi) in
    change (boot_regions demo_mbi) with r. pairwise_concrete.
  - exists (mk_pmme 0x100000 0x7ee0000 1).
    split; [apply list_elem_of_here|split_and!; by vm_compute].
  - intros _. split; [|right; by vm_compute]. exists (mk_pmme 0x100000 0x7ee0000 1).
    split; [apply list_elem_of_here|split_and!; by vm_compute].
Qed.

(** ** Theorems *)

(** C6. [phys_mem_map_init]: on the information of a conforming boot loader it
    returns without a fault; either it finds no place for the map and changes
    nothing, or it succeeds, the map lies past the kernel image in available
    memory and apart from the structures of the boot loader, and the entries
    describe every byte of the machine with its multiboot type, except that the
    bytes of the kernel, of the map and of the module, and only they, are
    turned into reserved ones. *)
Theorem phys_mem_map_init_correct kernel_start kernel_end ram mbi st :
  (forall a n, length (ram a n) = n) ->
  Z.land (mbi_flags mbi) MULTIBOOT_INFO_MEM_MAP <> 0 ->
  0 <= mods_count mbi <= 1 ->
  boot_wf kernel_start kernel_end (effective mbi) -> nb_reserved st = 0 ->
  phys_mem_map_init kernel_start kernel_end ram mbi st = Ok (false, st) \/
  exists pmm_addr st', phys_mem_map_init kernel_start kernel_end ram mbi st = Ok (true, st') /\
    safe_location kernel_end (effective mbi) (boot_regions (effective mbi))
      (phys_mem_map_size (effective mbi)) pmm_addr /\
    describes kernel_start kernel_end (effective mbi) pmm_addr st' /\
    (has_mods (effective mbi) = true -> module_addr st' = mod_start (mbi_mod mbi) /\
       module_len st' = mod_end (mbi_mod mbi) - mod_start (mbi_mod mbi)).
Proof.
  intros Hram Hmm Hmods Hb Hst.
  destruct (init_spec kernel_start kernel_end ram mbi st Hram Hmm Hmods Hb Hst)
    as [[H _]|(a & st' & H & Ha & Hd & Hm & _)]; [by left|right]. by exists a, st'.
Qed.

Lemma phys_mem_map_init_correct_witness :
  exists pmm_addr st',
    phys_mem_map_init 0x100000 0x140000 demo_ram demo_mbi demo_st = Ok (true, st') /\
    describes 0x100000 0x140000 demo_mbi pmm_addr st' /\ module_len st' = 0x10000.
Proof.
  destruct (phys_mem_map_init_correct 0x100000 0x140000 demo_ram demo_mbi demo_st)
    as [H|(a & st' & H & _ & Hd & Hm)].
  - intros. apply length_replicate.
  - by vm_compute.
  - by vm_compute.
  - apply demo_boot_wf.
  - done.
  - exfalso. vm_compute in H. discriminate H.
  - exists a, st'. split_and!; [done|done|]. by apply (Hm eq_refl).
Defined.

(** C7. [reserve_region] on a map with room for two more entries: if an
    available entry holds the region, the call succeeds, the bytes of the region
    become reserved, every other byte keeps its type, no two entries share a
    byte, and what was available apart from the region is still available;
    if none does, the call fails and changes nothing.  At most two splits are
    needed, and no write leaves the storage of the map. *)
Theorem reserve_region_correct st es k addr len :
  pmm_repr st es (2 + k) -> 0 <= nb_reserved st < MAX_RESERVED ->
  0 <= addr -> 0 < len -> addr + len < 2 ^ 32 ->
  (exists st' es', reserve_region st addr len = Ok (true, st') /\
     pmm_repr st' es' k /\ nb_reserved st' = nb_reserved st + 1 /\
     reserved_in es addr len es' /\ still_holds es addr len es' /\
     module_addr st' = module_addr st /\ module_len st' = module_len st) \/
  (Forall (fun e => ~ holds e addr len) es /\ reserve_region st addr len = Ok (false, st)).
Proof. apply reserve_region_repr. Qed.

Lemma demo_pmm_repr :
  pmm_repr demo_pmm_st [mk_pmme 0x100000 0x100000 1; mk_pmme 0x300000 0x1000 2] (2 + 0).
Proof.
  split_and!; [split| |].
  - repeat (apply Forall_cons; split); [..|by apply Forall_nil];
      constructor; cbn; unfold is_u32, MMAP_TYPE_AVAILABLE; lia.
  - pairwise_concrete.
  - done.
  - exists [mk_pmme 0 0 0; mk_pmme 0 0 0]. split; [done|]. simpl. lia.
Qed.

Lemma reserve_region_correct_witness :
  exists st', reserve_region demo_pmm_st 0x140000 0x1000 = Ok (true, st') /\
    pmm_len (phys_mem_map st') = 4.
Proof.
  destruct (reserve_region_correct demo_pmm_st _ 0 0x140000 0x1000 demo_pmm_repr)
    as [(st' & es' & H & _)|[_ H]]; [by vm_compute|lia|lia|lia| |].
  - exists st'. split; [done|]. vm_compute in H. injection H as <-. done.
  - exfalso. vm_compute in H. discriminate H.
Defined.

(** C8. [find_pmm_location] returns, and the location it returns is past the
    kernel image, out of low memory, inside of an available segment of the
    (sorted) multiboot map, and overlaps none of the boot loader's regions. *)
Theorem find_pmm_location_safe kernel_end mbi es room size :
  mmap_wf mbi -> Forall mme_wf (mmap_buf mbi) -> segs_low mbi size ->
  chained es -> Forall (region_low size) es -> 0 < size ->
  0 <= kernel_end < lim size ->
  exists a l, find_pmm_location kernel_end mbi (pmm_of es room) size = Ok (a, set_buf l mbi) /\
    l ≡ₚ mmap_buf mbi /\ (a = NO_LOCATION \/ safe_location kernel_end mbi es size a).
Proof.
  intros. destruct (find_pmm_location_spec kernel_end mbi es room size) as (a & l & ? & ? & Ha); [done..|].
  exists a, l. split_and!; [done..|]. destruct Ha as [[? _]|?]; [by left|by right].
Qed.

(** The map would start where the structures are, and is moved past them. *)
Lemma find_pmm_location_safe_witness :
  exists a l, find_pmm_location 0x140000 demo_mbi (pmm_of [mk_pmme 0x140800 0x1000 0] []) 220
    = Ok (a, set_buf l demo_mbi) /\ a = 0x142000 /\
    safe_location 0x140000 demo_mbi [mk_pmme 0x140800 0x1000 0] 220 a.
Proof.
  destruct (find_pmm_location_safe 0x140000 demo_mbi [mk_pmme 0x140800 0x1000 0] [] 220)
    as (a & l & H & Hl & Ha).
  - apply demo_mmap_wf.
  - apply demo_mme_wf.
  - repeat (apply Forall_cons; split); [..|by apply Forall_nil]; by vm_compute.
  - split; [|done]. by intros y Hy%not_elem_of_nil.
  - apply Forall_singleton. unfold region_low. split_and!; by vm_compute.
  - lia.
  - unfold lim. lia.
  - exists a, l. vm_compute in H. injection H as <- <-. split_and!; [by vm_compute|done|].
    destruct Ha as [Ha|Ha]; [by vm_compute in Ha|done].
Defined.

(** C9. [sort_multiboot_mmap] walks and swaps the packed entries in place
    through pointers; it terminates, stays inside of the map and leaves a
    permutation of the entries sorted by address. *)
Theorem sort_multiboot_mmap_sorts mbi :
  mmap_wf mbi ->
  exists l, sort_multiboot_mmap mbi = Ok (set_buf l mbi) /\
    l ≡ₚ mmap_buf mbi /\ sorted mm_addr l.
Proof. apply sort_multiboot_mmap_spec. Qed.

Lemma sort_multiboot_mmap_sorts_witness :
  exists l, sort_multiboot_mmap demo_mbi = Ok (set_buf l demo_mbi) /\
    mm_addr <$> l = [0; 0x100000; 0xfffc0000].
Proof.
  destruct (sort_multiboot_mmap_sorts demo_mbi demo_mmap_wf) as (l & H & _ & _).
  exists l. split; [done|]. vm_compute in H. injection H as <-. by vm_compute.
Defined.

(** [sort_phys_mmap] terminates, reads and writes inside of the entries, and
    leaves a permutation of them sorted by address. *)
Theorem sort_phys_mmap_sorts pmm :
  0 <= pmm_len pmm -> pmm_len pmm = Z.of_nat (length (pmm_entries pmm)) ->
  exists es, sort_phys_mmap pmm = Ok (mk_pmm (pmm_len pmm) es) /\
    es ≡ₚ pmm_entries pmm /\ sorted pe_addr es.
Proof. apply sort_phys_mmap_spec. Qed.

Lemma sort_phys_mmap_sorts_witness :
  exists es, sort_phys_mmap (mk_pmm 3 [mk_pmme 9 1 1; mk_pmme 4 1 1; mk_pmme 6 1 2])
    = Ok (mk_pmm 3 es) /\ sorted pe_addr es.
Proof.
  destruct (sort_phys_mmap_sorts (mk_pmm 3 [mk_pmme 9 1 1; mk_pmme 4 1 1; mk_pmme 6 1 2]))
    as (es & H & _ & Hs); [done|done|]. by exists es.
Defined.

(** ** A region that ends at 4 GB

    [pmme->addr + pmme->len] wraps to 0 there, so nothing can be reserved in an
    available region that [fill_phys_mmap] has shrunk to the 4 GB limit. *)
Example reserve_region_4gb :
  let e := mk_pmme 0xf0000000 (seg_len_of (mk_mme 20 0xf0000000 0x200000000 1) 0xf0000000) 1 in
  pe_addr e + pe_len e = 2 ^ 32 /\
  reserve_region (mk_pmm_state (mk_pmm 1 [e; mk_pmme 0 0 0; mk_pmme 0 0 0]) 0 0 0)
    0xf0000000 0x1000 =
  Ok (false, mk_pmm_state (mk_pmm 1 [e; mk_pmme 0 0 0; mk_pmme 0 0 0]) 0 0 0).
Proof. by vm_compute. Qed.
