(* ===== verification/PfaInit.v ===== *)
(** * Initialisation of the page frame allocator

    [kernel/mem/page_frame_allocator.c], from the physical memory map to the
    metadata.  The metadata is written at [pfa] in the hosting region: the count,
    the array [region_ptrs], then the regions with their pagemaps one after the
    other; [region_at] keeps the address each region is written at. *)
From S2P Require Import Prelude Page Pfa Pmm.

Definition sizeof_pfa_meta : Z := 4.
Definition sizeof_pfa_region_ptr : Z := 4.
Definition sizeof_pfa_region : Z := 8.
Definition sizeof_page_state : Z := 1.

(** The static variables of the file and the addresses of the regions. *)
Record pfa_state := mk_pfa_state {
  the_meta : pfa_meta;
  meta_ptr : Z;
  region_at : list Z;
  pfa_meta_reserved_pages : Z;
}.

Definition is_valid_region (pmme : phys_mmap_entry) : bool :=
  let len := pe_len pmme in
  if negb (pe_type pmme =? MMAP_TYPE_AVAILABLE) then false
  else if pe_addr pmme <? 0x100000 then false
  else if negb (PAGE_OFFSET (pe_addr pmme) =? 0) then
    let addr := page_align (pe_addr pmme) in
    if addr <? pe_addr pmme then false
    else if pe_addr pmme ⊕ pe_len pmme <=? addr then false
    else
      let len := len ⊖ (addr ⊖ pe_addr pmme) in
      0 <? len / PAGE_SIZE
  else 0 <? len / PAGE_SIZE.

(** The length from the first page boundary on, which [pfa_meta_size],
    [find_hosting_region] and [init_pfa_region] each compute. *)
Definition aligned_len (pmme : phys_mmap_entry) : Z :=
  if negb (PAGE_OFFSET (pe_addr pmme) =? 0)
  then pe_len pmme ⊖ (page_align (pe_addr pmme) ⊖ pe_addr pmme)
  else pe_len pmme.

Definition pfa_meta_size (pmm : phys_mmap) : res Z :=
  size ← for_loop (Z.to_nat (pmm_len pmm)) 0 (fun i size =>
    pmme ← aget (pmm_entries pmm) i;
    if is_valid_region pmme then
      let nb_pages := aligned_len pmme / PAGE_SIZE in
      mret (size ⊕ sizeof_pfa_region_ptr ⊕ sizeof_pfa_region
                 ⊕ (nb_pages ⊗ sizeof_page_state))
    else mret size) sizeof_pfa_meta;
  mret (page_align size).

(** The index of the region and the address of the metadata, [None] for -1. *)
Definition find_hosting_region (pmm : phys_mmap) (pfa_size : Z) : res (option (Z * Z)) :=
  c ← for_ctl (Z.to_nat (pmm_len pmm)) 0 (fun region _ =>
    pmme ← aget (pmm_entries pmm) region;
    if negb (is_valid_region pmme) then mret (Next tt)
    else if pfa_size <=? aligned_len pmme then
      mret (Leave (region, page_align (pe_addr pmme)))
    else mret (Next tt)) tt;
  match c with Leave r => mret (Some r) | Next _ => mret None end.

Definition init_pfa_region (pmme : phys_mmap_entry) : pfa_region :=
  let nb_pages := aligned_len pmme / PAGE_SIZE in
  mk_region (page_align (pe_addr pmme)) nb_pages (replicate (Z.to_nat nb_pages) PAGE_FREE).

(** The frames of the metadata are taken off the hosting region; the pagemap
    keeps the states of the frames that are left. *)
Definition shrink_region (pfa_size : Z) (r : pfa_region) : pfa_region :=
  let nb := nb_pages r ⊖ pfa_size / PAGE_SIZE in
  mk_region (first_page r ⊕ pfa_size) nb (take (Z.to_nat nb) (pagemap r)).

(** The first walk, that skips the room of [region_ptrs]. *)
Definition first_region (pmm : phys_mmap) (pfa : Z) : res Z :=
  for_loop (Z.to_nat (pmm_len pmm)) 0 (fun region new_region =>
    pmme ← aget (pmm_entries pmm) region;
    if is_valid_region pmme then mret (new_region ⊕ sizeof_pfa_region_ptr)
    else mret new_region) (pfa ⊕ sizeof_pfa_meta).

Definition reserve_regions (pmm : phys_mmap) (pfa_size pfa_region pfa : Z)
  : res (phys_mmap * pfa_meta * list Z) :=
  if negb (PAGE_OFFSET pfa_size =? 0) || (pmm_len pmm <=? pfa_region) then
    Err (Panic "invalid argument")
  else
    new_region ← first_region pmm pfa;
    '(es, regions, ptrs, _) ←
      for_loop (Z.to_nat (pmm_len pmm)) 0 (fun region '(es, regions, ptrs, new_region) =>
        pmme ← aget es region;
        if negb (is_valid_region pmme) then mret (es, regions, ptrs, new_region)
        else
          let r := init_pfa_region pmme in
          let r := if region =? pfa_region then shrink_region pfa_size r else r in
          es ← aset es region (mk_pmme (pe_addr pmme) (pe_len pmme) MMAP_TYPE_RESERVED);
          mret (es, regions ++ [r], ptrs ++ [new_region],
                new_region ⊕ (sizeof_pfa_region + nb_pages r * sizeof_page_state)))
        (pmm_entries pmm, [], [], new_region);
    mret (mk_pmm (pmm_len pmm) es, mk_meta (Z.of_nat (length regions)) regions, ptrs).

Definition pfa_init (pmm : phys_mmap) (st : pfa_state) : res (bool * phys_mmap * pfa_state) :=
  pfa_size ← pfa_meta_size pmm;
  host ← find_hosting_region pmm pfa_size;
  match host with
  | None => mret (false, pmm, st)
  | Some (pfa_region, pfa) =>
      '(pmm, meta, ptrs) ← reserve_regions pmm pfa_size pfa_region pfa;
      mret (true, pmm, mk_pfa_state meta pfa ptrs (pfa_size / PAGE_SIZE))
  end.
