(* ===== verification/PfaInitSpec.v ===== *)
(** * The page frame allocator starts in a correct state

    [pfa_init()] on a physical memory map without overlaps: the regions it hands
    to the allocator are available frames apart from each other and from the
    metadata, and the metadata fits in the frames set aside for it. *)
From S2P Require Import Prelude Page Pfa PfaSpec PfaRun Pmm PmmSpec PfaInit.

(** ** Valid entries *)

(** The page frames inside of an entry. *)
Definition frames_start (e : phys_mmap_entry) : Z := page_up (pe_addr e).
Definition frames_nb (e : phys_mmap_entry) : Z := (pe_end e - frames_start e) / 4096.

Definition valid (e : phys_mmap_entry) : Prop :=
  pe_type e = MMAP_TYPE_AVAILABLE /\ 0x100000 <= pe_addr e /\ 1 <= frames_nb e.

#[export] Instance valid_dec e : Decision (valid e).
Proof. unfold valid. apply _. Defined.

Lemma page_offset_0 a : is_u32 a -> (PAGE_OFFSET a =? 0) = bool_decide (page_up a = a).
Proof.
  intros Ha. rewrite PAGE_OFFSET_small by done. unfold page_up, PAGE_SIZE.
  symmetry. destruct (Z.eqb_spec (a mod 4096) 0);
    (apply bool_decide_eq_true || apply bool_decide_eq_false); Z.div_mod_to_equations; lia.
Qed.

Lemma is_valid_region_true e :
  entry_wf e -> is_valid_region e = true <-> valid e.
Proof.
  intros [Ha Hl He]. unfold is_valid_region, valid, frames_nb, frames_start, pe_end, is_u32 in *.
  destruct (Z.eqb_spec (pe_type e) MMAP_TYPE_AVAILABLE) as [Ht|Ht]; cbn [negb];
    [|split; [done|by intros (? & _)]].
  specialize (He Ht). pose proof (page_up_bounds (pe_addr e)) as Hb.
  destruct (Z.ltb_spec (pe_addr e) 0x100000) as [|Hlow]; [split; [done|lia]|].
  rewrite page_offset_0 by done. rewrite page_align_up by done.
  unfold PAGE_SIZE. rewrite (u32_small (pe_addr e + _)) by lia.
  case_bool_decide as Hal; cbn [negb].
  { rewrite Hal, Z.ltb_lt.
    replace (pe_addr e + pe_len e - pe_addr e) with (pe_len e) by lia.
    intuition lia. }
  cbv zeta. destruct (decide (page_up (pe_addr e) < 2 ^ 32)) as [Hup|Hup].
  - rewrite (u32_small (page_up _)) by lia. rewrite (u32_small (page_up _ - _)) by lia.
    destruct (Z.ltb_spec (page_up (pe_addr e)) (pe_addr e)); [lia|].
    destruct (Z.leb_spec (pe_addr e + pe_len e) (page_up (pe_addr e))).
    { split; [done|]. Z.div_mod_to_equations. lia. }
    rewrite u32_small, Z.ltb_lt by lia.
    replace (pe_len e - (page_up (pe_addr e) - pe_addr e))
      with (pe_addr e + pe_len e - page_up (pe_addr e)) by lia.
    intuition lia.
  - assert (u32 (page_up (pe_addr e)) = page_up (pe_addr e) - 2 ^ 32) as Hw.
    { symmetry. apply Z.mod_unique with 1; lia. }
    destruct (Z.ltb_spec (u32 (page_up (pe_addr e))) (pe_addr e)); [|lia].
    split; [done|]. Z.div_mod_to_equations. lia.
Qed.

Lemma is_valid_region_spec e :
  entry_wf e -> is_valid_region e = bool_decide (valid e).
Proof.
  intros He. apply is_valid_region_true in He.
  case_bool_decide as Hv; [by apply He|]. destruct (is_valid_region e); [|done].
  destruct Hv. by apply He.
Qed.

(** On a valid entry the code computes these frames without wrapping. *)
Lemma valid_frames e :
  entry_wf e -> valid e ->
  page_align (pe_addr e) = frames_start e /\
  aligned_len e / PAGE_SIZE = frames_nb e /\
  aligned_len e = pe_end e - frames_start e /\
  0x100000 <= frames_start e /\ aligned (frames_start e) /\
  pe_addr e <= frames_start e /\
  frames_start e + frames_nb e * 4096 <= pe_end e /\ pe_end e < 2 ^ 32 /\
  1 <= frames_nb e < 2 ^ 20.
Proof.
  intros [Ha Hl He] (Ht & Hlow & Hn). specialize (He Ht).
  unfold frames_nb, frames_start, pe_end, is_u32 in *.
  pose proof (page_up_bounds (pe_addr e)) as Hb.
  assert (page_up (pe_addr e) < 2 ^ 32) as Hup by (Z.div_mod_to_equations; lia).
  assert (page_align (pe_addr e) = page_up (pe_addr e)) as Hal.
  { rewrite page_align_up by done. apply u32_small. lia. }
  assert (aligned_len e = pe_addr e + pe_len e - page_up (pe_addr e)) as Hlen.
  { unfold aligned_len. rewrite page_offset_0, Hal by done.
    case_bool_decide; cbn [negb]; [lia|]. rewrite (u32_small (page_up _ - _)) by lia.
    rewrite u32_small; [lia|]. Z.div_mod_to_equations; lia. }
  split_and!; [done|by rewrite Hlen|done|lia|apply page_up_aligned|lia|..];
    Z.div_mod_to_equations; lia.
Qed.

(** ** The size of the metadata *)

(** The bytes the valid entries take in the metadata. *)
Fixpoint vsum (es : list phys_mmap_entry) : Z :=
  match es with
  | [] => 0
  | e :: es => (if decide (valid e) then 12 + frames_nb e else 0) + vsum es
  end.

Fixpoint nvalid (es : list phys_mmap_entry) : Z :=
  match es with
  | [] => 0
  | e :: es => (if decide (valid e) then 1 else 0) + nvalid es
  end.

Lemma vsum_app l1 l2 : vsum (l1 ++ l2) = vsum l1 + vsum l2.
Proof. induction l1; simpl; lia. Qed.

Lemma nvalid_app l1 l2 : nvalid (l1 ++ l2) = nvalid l1 + nvalid l2.
Proof. induction l1; simpl; lia. Qed.

Lemma vsum_bounds es :
  Forall entry_wf es -> 12 * nvalid es <= vsum es <= Z.of_nat (length es) * (2 ^ 20 + 12) /\
  0 <= nvalid es.
Proof.
  induction 1 as [|e es He Hes IH]; simpl; [lia|].
  case_decide as Hv; [|lia]. pose proof (valid_frames e He Hv). lia.
Qed.

Lemma take_entry (es : list phys_mmap_entry) (i : Z) :
  0 <= i < Z.of_nat (length es) ->
  exists e, es !! Z.to_nat i = Some e /\ e ∈ es /\
    take (Z.to_nat (i + 1)) es = take (Z.to_nat i) es ++ [e].
Proof.
  intros Hi. destruct (lookup_lt_is_Some_2 es (Z.to_nat i)) as [e He]; [lia|].
  exists e. split_and!; [done|by eapply list_elem_of_lookup_2|].
  replace (Z.to_nat (i + 1)) with (S (Z.to_nat i)) by lia. by apply take_S_r.
Qed.

Lemma pmm_get (es room : list phys_mmap_entry) (i : Z) e :
  0 <= i -> es !! Z.to_nat i = Some e -> aget (es ++ room) i = Ok e.
Proof.
  intros Hi He. apply aget_Ok. split; [done|].
  rewrite lookup_app_l; [done|]. by apply lookup_lt_Some in He.
Qed.

Section Sizes.
Context (es room : list phys_mmap_entry) (Hw : Forall entry_wf es).
Context (Hn : Z.of_nat (length es) < 2 ^ 11).

Lemma vsum_take i : 0 <= vsum (take i es) <= vsum es /\ vsum es <= 2 ^ 31 + 2 ^ 15 /\
  0 <= 4 * nvalid (take i es) <= vsum (take i es).
Proof.
  pose proof (vsum_bounds es Hw). pose proof Hw as Hw'.
  rewrite <- (take_drop i es) in Hw'. apply Forall_app in Hw' as [H1 H2].
  pose proof (vsum_bounds _ H1). pose proof (vsum_bounds _ H2).
  pose proof (vsum_app (take i es) (drop i es)) as Hs. rewrite take_drop in Hs. lia.
Qed.

Lemma entry_in e : e ∈ es -> entry_wf e.
Proof. apply Forall_forall, Hw. Qed.

Definition meta_size : Z := page_up (4 + vsum es).

Lemma meta_size_bounds :
  4 + vsum es <= meta_size /\ meta_size < 2 ^ 32 - 4096 /\ aligned meta_size /\ 0 < meta_size.
Proof.
  unfold meta_size. pose proof (page_up_bounds (4 + vsum es)). pose proof (vsum_take 0).
  split_and!; [lia|lia|apply page_up_aligned|lia].
Qed.

Lemma pfa_meta_size_spec : pfa_meta_size (pmm_of es room) = Ok meta_size.
Proof.
  unfold pfa_meta_size. cbn [pmm_len pmm_of pmm_entries]. rewrite Nat2Z.id.
  match goal with |- context [for_loop ?n ?i0 ?b ?s] =>
    destruct (for_loop_inv (fun i size => size = 4 + vsum (take (Z.to_nat i) es)) b n i0 s)
      as (size & -> & ->) end.
  - done.
  - intros i size Hi ->. destruct (take_entry es i ltac:(lia)) as (e & He & Hin & ->).
    rewrite (pmm_get es room i e) by (done || lia). cbn [mbind res_bind].
    rewrite is_valid_region_spec by (by apply entry_in). rewrite vsum_app. cbn [vsum].
    pose proof (vsum_take (Z.to_nat i)). case_bool_decide as Hv.
    + destruct (valid_frames e (entry_in e Hin) Hv) as (_ & -> & _ & _ & _ & _ & _ & _ & ?).
      rewrite decide_True by done. eexists. split; [done|].
      unfold sizeof_pfa_region_ptr, sizeof_pfa_region, sizeof_page_state.
      rewrite (u32_small (_ * 1)) by lia.
      rewrite (u32_small (_ + 4)), (u32_small (_ + 8)), u32_small by lia. lia.
    + rewrite decide_False by done. eexists. split; [done|]. lia.
  - cbn [mbind res_bind]. rewrite take_ge by lia. pose proof (vsum_take 0).
    rewrite page_align_small by lia. done.
Qed.

Lemma find_hosting_spec :
  (find_hosting_region (pmm_of es room) meta_size = Ok None /\
   forall e, e ∈ es -> valid e -> pe_end e - frames_start e < meta_size) \/
  exists (k : nat) e, es !! k = Some e /\ valid e /\
    meta_size <= pe_end e - frames_start e /\
    find_hosting_region (pmm_of es room) meta_size = Ok (Some (Z.of_nat k, frames_start e)).
Proof.
  unfold find_hosting_region. cbn [pmm_len pmm_of pmm_entries]. rewrite Nat2Z.id.
  loop_search (fun i (o : option (Z * Z)) => match o with
    | None => forall e, es !! Z.to_nat i = Some e -> valid e -> pe_end e - frames_start e < meta_size
    | Some r =>
    exists e, es !! Z.to_nat i = Some e /\ valid e /\ meta_size <= pe_end e - frames_start e /\
      r = (i, frames_start e) end)
    as [(i & r & Hi & -> & (e & He & Hv & Hs & ->) & _)|[-> Hno]].
  - intros i Hi. destruct (take_entry es i ltac:(lia)) as (e & He & Hin & _).
    rewrite (pmm_get es room i e) by (done || lia). cbn [mbind res_bind].
    rewrite is_valid_region_spec by (by apply entry_in).
    case_bool_decide as Hv; cbn [negb]; [|right; split; [done|congruence]].
    destruct (valid_frames e (entry_in e Hin) Hv) as (-> & _ & -> & _).
    destruct (Z.leb_spec meta_size (pe_end e - frames_start e)); [left|right; split; [done|congruence]].
    eexists. split; [done|]. by exists e.
  - right. exists (Z.to_nat i), e. rewrite Z2Nat.id by lia. done.
  - left. split; [done|]. intros e [i Hi]%list_elem_of_lookup. apply (Hno (Z.of_nat i)); [|by rewrite Nat2Z.id].
    apply lookup_lt_Some in Hi. lia.
Qed.

Lemma first_region_spec pfa :
  0 <= pfa -> pfa + meta_size < 2 ^ 32 ->
  first_region (pmm_of es room) pfa = Ok (pfa + 4 + 4 * nvalid es).
Proof.
  intros Hp Hs. pose proof meta_size_bounds. unfold first_region.
  cbn [pmm_len pmm_of pmm_entries]. rewrite Nat2Z.id.
  unfold sizeof_pfa_meta, sizeof_pfa_region_ptr. pose proof (vsum_take 0).
  match goal with |- context [for_loop ?n ?i0 ?b ?s] =>
    destruct (for_loop_inv (fun i p => p = pfa + 4 + 4 * nvalid (take (Z.to_nat i) es)) b n i0 s)
      as (size & -> & ->) end.
  - rewrite u32_small by lia. change (Z.to_nat 0) with 0%nat. rewrite take_0. cbn [nvalid]. lia.
  - intros i p Hi ->. destruct (take_entry es i ltac:(lia)) as (e & He & Hin & Htk).
    rewrite (pmm_get es room i e) by (done || lia). cbn [mbind res_bind].
    rewrite is_valid_region_spec by (by apply entry_in).
    pose proof (vsum_take (Z.to_nat (i + 1))) as Hv1. rewrite Htk in *.
    rewrite nvalid_app in *. rewrite vsum_app in Hv1. cbn [nvalid vsum] in *.
    destruct (decide (valid e)) as [Hv|Hv];
      [rewrite bool_decide_true by done|rewrite bool_decide_false by done];
      (eexists; split; [done|]); [|lia].
    pose proof (valid_frames e (entry_in e Hin) Hv). rewrite u32_small by lia. lia.
  - rewrite take_ge by lia. done.
Qed.
End Sizes.

(** ** The regions *)

Definition free_region (start nb : Z) : pfa_region :=
  mk_region start nb (replicate (Z.to_nat nb) PAGE_FREE).

(** The region of the entry at index [k]; the hosting entry gives the frames
    of the metadata away. *)
Definition region_of (host : nat) (size : Z) (k : nat) (e : phys_mmap_entry) : pfa_region :=
  if decide (k = host) then free_region (frames_start e + size) (frames_nb e - size / 4096)
  else free_region (frames_start e) (frames_nb e).

Fixpoint regions_of (host : nat) (size : Z) (k : nat) (es : list phys_mmap_entry)
  : list pfa_region :=
  match es with
  | [] => []
  | e :: es =>
      (if decide (valid e) then [region_of host size k e] else []) ++
      regions_of host size (S k) es
  end.

(** The addresses of consecutive regions from [p] on. *)
Fixpoint region_ptrs_from (p : Z) (rs : list pfa_region) : list Z :=
  match rs with
  | [] => []
  | r :: rs => p :: region_ptrs_from (p + 8 + nb_pages r) rs
  end.

Definition regions_bytes (rs : list pfa_region) : Z :=
  foldr (fun r n => 8 + nb_pages r + n) 0 rs.

Definition mark (e : phys_mmap_entry) : phys_mmap_entry :=
  if decide (valid e) then mk_pmme (pe_addr e) (pe_len e) MMAP_TYPE_RESERVED else e.

Lemma regions_of_app host size k l1 l2 :
  regions_of host size k (l1 ++ l2) =
  regions_of host size k l1 ++ regions_of host size (k + length l1) l2.
Proof.
  revert k; induction l1 as [|e l1 IH]; intros k; cbn [regions_of app length].
  - by rewrite Nat.add_0_r.
  - by rewrite IH, app_assoc, Nat.add_succ_comm.
Qed.

Lemma region_ptrs_app p l1 l2 :
  region_ptrs_from p (l1 ++ l2) =
  region_ptrs_from p l1 ++ region_ptrs_from (p + regions_bytes l1) l2.
Proof.
  revert p; induction l1 as [|r l1 IH]; intros p; cbn [region_ptrs_from app regions_bytes foldr].
  - by rewrite Z.add_0_r.
  - rewrite IH. fold (regions_bytes l1). by rewrite !Z.add_assoc.
Qed.

Lemma regions_bytes_app l1 l2 : regions_bytes (l1 ++ l2) = regions_bytes l1 + regions_bytes l2.
Proof. unfold regions_bytes. induction l1; simpl; lia. Qed.

Lemma elem_regions_of host size k es r :
  r ∈ regions_of host size k es <->
  exists j e, es !! j = Some e /\ valid e /\ r = region_of host size (k + j) e.
Proof.
  revert k; induction es as [|e es IH]; intros k; cbn [regions_of].
  - split; [by intros ?%not_elem_of_nil|by intros (j & e & ? & _)].
  - rewrite elem_of_app, IH. split.
    + intros [Hr|(j & e' & He & Hv & ->)].
      * case_decide; [|by apply not_elem_of_nil in Hr]. apply list_elem_of_singleton in Hr as ->.
        exists 0%nat, e. by rewrite Nat.add_0_r.
      * exists (S j), e'. by rewrite <- Nat.add_succ_comm.
    + intros ([|j] & e' & He & Hv & ->); cbn in He.
      * left. simplify_eq. rewrite decide_True, Nat.add_0_r by done.
        by apply list_elem_of_singleton.
      * right. exists j, e'. by rewrite Nat.add_succ_comm.
Qed.

Section Reserve.
Context (es room : list phys_mmap_entry) (Hw : Forall entry_wf es).
Context (Hn : Z.of_nat (length es) < 2 ^ 11).
Context (host : nat) (ehost : phys_mmap_entry).
Context (Hhost : es !! host = Some ehost) (Hhv : valid ehost).
Context (Hfit : meta_size es <= pe_end ehost - frames_start ehost).

Let size := meta_size es.
Let pfa := frames_start ehost.

Lemma size_pages : size / 4096 * 4096 = size /\ 1 <= size / 4096 <= frames_nb ehost.
Proof.
  destruct (meta_size_bounds es Hw Hn) as (H1 & H2 & H3 & H4).
  fold size in H1, H2, H3, H4, Hfit. unfold aligned, PAGE_SIZE in H3. unfold frames_nb.
  Z.div_mod_to_equations. lia.
Qed.

(** The region the code builds for an entry. *)
Lemma build_region k e :
  es !! k = Some e -> valid e ->
  (if Z.of_nat k =? Z.of_nat host then shrink_region size (init_pfa_region e)
   else init_pfa_region e) = region_of host size k e.
Proof.
  intros He Hv. destruct (valid_frames e (entry_in es Hw e
    ltac:(by eapply list_elem_of_lookup_2)) Hv) as (H1 & H2 & _ & H4 & _ & _ & H7 & H8 & H9).
  unfold region_of, init_pfa_region. rewrite H1, H2.
  destruct (Z.eqb_spec (Z.of_nat k) (Z.of_nat host)) as [Hk|Hk].
  - rewrite decide_True by lia. assert (k = host) as -> by lia. simplify_eq.
    destruct size_pages as [Hs1 Hs2].
    destruct (meta_size_bounds es Hw Hn) as (_ & Hs3 & _). fold size in Hs3.
    unfold shrink_region, free_region, PAGE_SIZE. cbn [first_page nb_pages pagemap].
    rewrite !u32_small by lia. f_equal. rewrite take_replicate. f_equal. lia.
  - rewrite decide_False by lia. done.
Qed.

Lemma region_nb k e :
  es !! k = Some e -> valid e ->
  0 <= nb_pages (region_of host size k e) <= frames_nb e.
Proof.
  intros He Hv. destruct (valid_frames e (entry_in es Hw e
    ltac:(by eapply list_elem_of_lookup_2)) Hv) as (_ & _ & _ & _ & _ & _ & _ & _ & H9).
  unfold region_of. case_decide as Hk; cbn; [|lia].
  subst. simplify_eq. pose proof size_pages. lia.
Qed.

(** The regions use at most the bytes computed for them. *)
Lemma regions_bytes_le k l :
  (forall j e, l !! j = Some e -> es !! (k + j)%nat = Some e) ->
  0 <= regions_bytes (regions_of host size k l) <= vsum l - 4 * nvalid l /\
  Z.of_nat (length (regions_of host size k l)) = nvalid l.
Proof.
  revert k; induction l as [|e l IH]; intros k Hl; cbn [regions_of vsum nvalid]; [done|].
  specialize (IH (S k)). rewrite regions_bytes_app, length_app.
  pose proof (Hl 0%nat e eq_refl) as He. rewrite Nat.add_0_r in He.
  destruct IH as [IH1 IH2].
  { intros j e' Hj. rewrite Nat.add_succ_comm. by apply Hl. }
  case_decide as Hv; cbn [regions_bytes foldr length]; [|lia].
  pose proof (region_nb k e He Hv). lia.
Qed.

Lemma pfa_bounds :
  0x100000 <= pfa /\ aligned pfa /\ pfa + size <= pe_end ehost /\ pe_end ehost < 2 ^ 32.
Proof.
  destruct (valid_frames ehost (entry_in es Hw ehost
    ltac:(by eapply list_elem_of_lookup_2)) Hhv) as (_ & _ & _ & H4 & H5 & _ & _ & H8 & _).
  unfold pfa, size. split_and!; [done|done|lia|done].
Qed.

Lemma regions_taken i :
  let rs := regions_of host size 0 (take i es) in
  0 <= regions_bytes rs /\
  regions_bytes rs <= vsum es - 4 * nvalid es /\
  regions_bytes rs <= vsum (take i es) - 4 * nvalid (take i es).
Proof.
  intros rs. destruct (regions_bytes_le 0 (take i es)) as [H1 _].
  { intros j e He. by apply lookup_take_Some in He as [He _]. }
  fold rs in H1. pose proof (vsum_app (take i es) (drop i es)) as Hs.
  pose proof (nvalid_app (take i es) (drop i es)) as Hv. rewrite take_drop in Hs, Hv.
  pose proof Hw as Hw'. rewrite <- (take_drop i es) in Hw'.
  apply Forall_app in Hw' as [_ Hwd]. pose proof (vsum_bounds _ Hwd). lia.
Qed.

Lemma reserve_regions_spec :
  let rs := regions_of host size 0 es in
  reserve_regions (pmm_of es room) size (Z.of_nat host) pfa =
  Ok (pmm_of (mark <$> es) room, mk_meta (Z.of_nat (length rs)) rs,
      region_ptrs_from (pfa + 4 + 4 * nvalid es) rs).
Proof.
  cbv zeta. unfold reserve_regions.
  destruct (meta_size_bounds es Hw Hn) as (Hs1 & Hs2 & Hs3 & Hs4).
  fold size in Hs1, Hs2, Hs3, Hs4. destruct pfa_bounds as (Hp1 & Hp2 & Hp3 & Hp4).
  rewrite PAGE_OFFSET_small by (unfold is_u32; lia). rewrite Hs3. cbn [Z.eqb negb].
  pose proof (lookup_lt_Some _ _ _ Hhost) as Hlt.
  destruct (Z.leb_spec (pmm_len (pmm_of es room)) (Z.of_nat host)) as [Hle|_];
    [cbn in Hle; lia|]. cbn [orb].
  rewrite first_region_spec by (done || lia || (fold size; lia)). cbn [mbind res_bind].
  set (p0 := pfa + 4 + 4 * nvalid es). cbn [pmm_len pmm_of pmm_entries]. rewrite Nat2Z.id.
  match goal with |- context [for_loop ?n ?i0 ?b ?s] =>
    destruct (for_loop_inv (fun i '(es', regions, ptrs, p) =>
      let rs := regions_of host size 0 (take (Z.to_nat i) es) in
      es' = (mark <$> take (Z.to_nat i) es) ++ drop (Z.to_nat i) es ++ room /\
      regions = rs /\ ptrs = region_ptrs_from p0 rs /\ p = p0 + regions_bytes rs) b n i0 s)
      as ([[[es' regions] ptrs] p] & -> & -> & -> & -> & ->) end.
  - change (Z.to_nat 0) with 0%nat. rewrite take_0. cbn. split_and!; [done..|lia].
  - intros i [[[es' regions] ptrs] p] Hi (-> & -> & -> & ->).
    destruct (take_entry es i ltac:(lia)) as (e & He & Hin & Htk).
    pose proof (regions_taken (Z.to_nat i)) as (Hb1 & Hb2 & _).
    pose proof (regions_taken (Z.to_nat (i + 1))) as (Hb3 & Hb4 & _).
    rewrite Htk, regions_of_app, length_take in *.
    replace (Z.to_nat i `min` length es)%nat with (Z.to_nat i) in * by lia.
    cbn [regions_of] in *. rewrite app_nil_r, regions_bytes_app in *.
    rewrite (drop_S _ _ _ He), <- app_comm_cons.
    replace (Z.to_nat (i + 1)) with (S (Z.to_nat i)) by lia.
    rewrite aget_mid by (rewrite length_fmap, length_take; lia). cbn [mbind res_bind].
    rewrite is_valid_region_spec by (by apply (entry_in es)).
    rewrite fmap_app, <- app_assoc. cbn [fmap list_fmap app]. unfold mark at 2 4.
    destruct (decide (valid e)) as [Hv|Hv];
      [rewrite bool_decide_true by done|rewrite bool_decide_false by done]; cbn [negb].
    + cbn [Nat.add] in Hb3, Hb4. pose proof (region_nb (Z.to_nat i) e He Hv). pose proof (vsum_bounds es Hw).
      rewrite aset_mid by (rewrite length_fmap, length_take; lia). cbn [mbind res_bind].
      pose proof (build_region (Z.to_nat i) e He Hv) as Hbr. rewrite Z2Nat.id in Hbr by lia.
      rewrite Hbr. eexists. split; [done|]. cbn [regions_bytes foldr] in *.
      unfold sizeof_pfa_region, sizeof_page_state.
      rewrite region_ptrs_app. cbn [region_ptrs_from Nat.add].
      split_and!; [done|done|done|]. rewrite Z.mul_1_r. unfold p0 in *.
      rewrite u32_small by lia. lia.
    + eexists. split; [done|]. rewrite !app_nil_r, Z.add_0_r. done.
  - cbn [mbind res_bind mret res_ret]. rewrite take_ge, drop_ge by lia. cbn [app].
    unfold pmm_of. by rewrite length_fmap.
Qed.
End Reserve.

(** ** The state of the allocator after [pfa_init] *)

Definition managed (m : pfa_meta) (b : Z) : Prop :=
  exists r, r ∈ region_ptrs m /\ first_page r <= b < region_end r.

Definition meta_area (st : pfa_state) (b : Z) : Prop :=
  meta_ptr st <= b < meta_ptr st + pfa_meta_reserved_pages st * 4096.

(** [b] is in a page frame of a valid entry. *)
Definition in_frames (es : list phys_mmap_entry) (b : Z) : Prop :=
  exists e, e ∈ es /\ valid e /\ frames_start e <= b < frames_start e + frames_nb e * 4096.

(** The layout of the metadata: behind the count and the pointers, a region after
    the other, also with the pagemap as it is first written, one byte for each
    frame of the entry. *)
Definition layout_ok (es : list phys_mmap_entry) (st : pfa_state) : Prop :=
  length (region_at st) = length (region_ptrs (the_meta st)) /\
  forall i p r, region_at st !! i = Some p -> region_ptrs (the_meta st) !! i = Some r ->
    meta_ptr st + 4 + 4 * nb_regions (the_meta st) <= p /\
    (forall q, region_at st !! S i = Some q -> p + 8 + nb_pages r <= q) /\
    exists e, e ∈ es /\ valid e /\ nb_pages r <= frames_nb e /\
      p + 8 + frames_nb e <= meta_ptr st + pfa_meta_reserved_pages st * 4096.

Definition pfa_started (es : list phys_mmap_entry) (st : pfa_state) : Prop :=
  (exists ls, meta_repr (the_meta st) ls) /\ all_free (the_meta st) /\
  (forall b, managed (the_meta st) b \/ meta_area st b <-> in_frames es b) /\
  (forall b, ~ (managed (the_meta st) b /\ meta_area st b)) /\
  layout_ok es st.

Lemma regions_of_split host size k es i r :
  regions_of host size k es !! i = Some r ->
  exists l1 e l2, es = l1 ++ e :: l2 /\ valid e /\ length (regions_of host size k l1) = i /\
    r = region_of host size (k + length l1) e.
Proof.
  revert k i; induction es as [|e es IH]; intros k i H; [done|]. cbn [regions_of] in H.
  destruct (decide (valid e)) as [Hv|Hv]; cbn [app] in H.
  - destruct i as [|i]; cbn in H.
    { simplify_eq. exists [], e, es. by rewrite Nat.add_0_r. }
    apply IH in H as (l1 & e' & l2 & -> & Hv' & Hl & ->).
    exists (e :: l1), e', l2. split_and!; [done|done | |cbn [length]; by rewrite <- Nat.add_succ_comm].
    cbn [regions_of]. rewrite decide_True by done. simpl. by rewrite Hl.
  - apply IH in H as (l1 & e' & l2 & -> & Hv' & Hl & ->).
    exists (e :: l1), e', l2. split_and!; [done|done | |cbn [length]; by rewrite <- Nat.add_succ_comm].
    cbn [regions_of]. by rewrite decide_False by done.
Qed.

Lemma region_ptrs_lookup p l1 r l2 :
  region_ptrs_from p (l1 ++ r :: l2) !! length l1 = Some (p + regions_bytes l1) /\
  (forall q, region_ptrs_from p (l1 ++ r :: l2) !! S (length l1) = Some q ->
     q = p + regions_bytes l1 + 8 + nb_pages r).
Proof.
  assert (forall p l, length (region_ptrs_from p l) = length l) as Hlen.
  { intros p' l. revert p'. induction l; intros p'; simpl; [done|]. by rewrite IHl. }
  rewrite region_ptrs_app. split.
  - by rewrite lookup_app_r, Hlen, Nat.sub_diag by (rewrite Hlen; lia).
  - intros q. rewrite lookup_app_r, Hlen by (rewrite Hlen; lia).
    replace (S (length l1) - length l1)%nat with 1%nat by lia. cbn.
    destruct l2; cbn; [done|]. by intros [= <-].
Qed.

Section Started.
Context (es room : list phys_mmap_entry) (Hok : map_ok es).
Context (Hn : Z.of_nat (length es) < 2 ^ 11).
Context (host : nat) (ehost : phys_mmap_entry).
Context (Hhost : es !! host = Some ehost) (Hhv : valid ehost).
Context (Hfit : meta_size es <= pe_end ehost - frames_start ehost).

Let Hw : Forall entry_wf es := proj1 Hok.
Let size := meta_size es.
Let rs := regions_of host size 0 es.
Let pfa := frames_start ehost.

(** The frames of the region of an entry are among those of the entry. *)
Lemma region_of_frames k e :
  es !! k = Some e -> valid e ->
  let r := region_of host size k e in
  frames_start e <= first_page r /\ 0 <= nb_pages r <= frames_nb e /\
  region_end r = frames_start e + frames_nb e * 4096 /\
  first_page r = frames_start e + (if decide (k = host) then size else 0) /\
  first_page r <= region_end r < 2 ^ 32 /\
  pe_addr e <= frames_start e /\ region_end r <= pe_end e /\
  aligned (first_page r) /\ 0 < first_page r.
Proof.
  intros He Hv r. pose proof (region_nb es Hw Hn host ehost Hhost Hfit k e He Hv) as Hnb.
  fold size r in Hnb.
  destruct (valid_frames e (entry_in es Hw e ltac:(by eapply list_elem_of_lookup_2)) Hv)
    as (_ & _ & _ & H4 & H5 & H6 & H7 & H8 & H9).
  destruct (meta_size_bounds es Hw Hn) as (_ & _ & Hal & Hpos). fold size in Hal, Hpos.
  destruct (size_pages es Hw Hn ehost Hfit) as [Hs1 Hs2]. fold size in Hs1, Hs2.
  unfold r, region_of, region_end, PAGE_SIZE in *. case_decide; cbn in *;
    split_and!; try lia; [by apply aligned_add|done].
Qed.

Lemma started_repr : exists ls, meta_repr (mk_meta (Z.of_nat (length rs)) rs) ls.
Proof.
  exists ((fun r => replicate (length (pagemap r)) SFree) <$> rs). constructor.
  - done.
  - cbn. apply Forall2_fmap_r, Forall_Forall2_diag, Forall_forall. intros r Hr.
    apply elem_regions_of in Hr as (k & e & He & Hv & ->). cbn [Nat.add].
    destruct (region_of_frames k e He Hv) as (_ & H1 & H2 & _ & H3 & _ & _ & H5 & H6).
    assert (pagemap (region_of host size k e) =
      replicate (Z.to_nat (nb_pages (region_of host size k e))) PAGE_FREE) as Hpm.
    { unfold region_of. by case_decide. }
    unfold compose. rewrite Hpm, length_replicate. constructor; [by rewrite flat_free| |done|done|].
    + rewrite flat_free, length_replicate. lia.
    + rewrite seg_end_free. unfold region_end, PAGE_SIZE in *. lia.
  - cbn. intros i j r1 r2 Hij Hi Hj.
    apply (pairwise_lookup (fun r1 r2 => region_end r1 <= first_page r2 \/
      region_end r2 <= first_page r1) rs i j); [tauto| |done..].
    assert (forall k l, (forall j e, l !! j = Some e -> es !! (k + j)%nat = Some e) ->
      pairwise no_common l -> pairwise (fun r1 r2 => region_end r1 <= first_page r2 \/
        region_end r2 <= first_page r1) (regions_of host size k l)) as H.
    2:{ apply H; [done|apply Hok]. }
    intros k l. revert k. induction l as [|e l IH]; intros k Hl Hp; cbn [regions_of]; [done|].
    destruct Hp as [Hp1 Hp2].
    specialize (IH (S k) ltac:(intros j' e' H'; rewrite Nat.add_succ_comm; by apply Hl) Hp2).
    pose proof (Hl 0%nat e eq_refl) as He. rewrite Nat.add_0_r in He.
    case_decide as Hv; cbn [app]; [|done]. split; [|done]. intros r Hr.
    apply elem_regions_of in Hr as (j' & e' & He' & Hv' & ->).
    pose proof (Hl (S j') e' He') as He2. rewrite <- Nat.add_succ_comm in He2.
    destruct (region_of_frames k e He Hv) as (A1 & A2 & A3 & A4 & A5 & A6 & A7 & _).
    destruct (region_of_frames _ e' He2 Hv') as (B1 & B2 & B3 & B4 & B5 & B6 & B7 & _).
    destruct Hv as (_ & _ & Hf). destruct Hv' as (_ & _ & Hf').
    pose proof (Hp1 e' (list_elem_of_lookup_2 _ _ _ He')) as Hno.
    destruct (Z_le_gt_dec (pe_end e) (pe_addr e')) as [|G1]; [lia|].
    destruct (Z_le_gt_dec (pe_end e') (pe_addr e)) as [|G2]; [lia|]. exfalso.
    apply (Hno (Z.max (pe_addr e) (pe_addr e'))). unfold byte_in. lia.
Qed.

Let meta := mk_meta (Z.of_nat (length rs)) rs.
Let st' := mk_pfa_state meta pfa (region_ptrs_from (pfa + 4 + 4 * nvalid es) rs) (size / 4096).

Lemma in_entry k e b :
  es !! k = Some e -> valid e ->
  frames_start e <= b < frames_start e + frames_nb e * 4096 -> byte_in e b.
Proof.
  intros He Hv Hb. destruct (region_of_frames k e He Hv) as (_ & _ & H1 & _ & _ & H2 & H3 & _).
  unfold byte_in. lia.
Qed.

(** Two entries with a common byte are the same. *)
Lemma same_entry k e k' e' b :
  es !! k = Some e -> es !! k' = Some e' -> byte_in e b -> byte_in e' b -> k = k'.
Proof.
  intros He He' Hb Hb'. destruct (decide (k = k')) as [|Hne]; [done|]. exfalso.
  by apply (pairwise_lookup no_common es k k' e e' no_common_sym (proj2 Hok) Hne He He' b).
Qed.

Lemma started_frames b :
  (managed meta b \/ meta_area st' b <-> in_frames es b) /\
  ~ (managed meta b /\ meta_area st' b).
Proof.
  destruct (size_pages es Hw Hn ehost Hfit) as [Hs1 Hs2]. fold size in Hs1, Hs2.
  unfold managed, meta_area, in_frames. cbn [region_ptrs meta meta_ptr st'
    pfa_meta_reserved_pages]. rewrite Hs1.
  pose proof (list_elem_of_lookup_2 _ _ _ Hhost) as Hhin.
  split; [split|].
  - intros [(r & Hr & Hb)|Hb].
    + apply elem_regions_of in Hr as (k & e & He & Hv & ->).
      exists e. split; [by eapply list_elem_of_lookup_2|]. split; [done|].
      destruct (region_of_frames k e He Hv) as (H1 & _ & H2 & _). cbn [Nat.add] in Hb. lia.
    + exists ehost. split_and!; [done|done|unfold pfa in *; lia..].
  - intros (e & He & Hv & Hb). apply list_elem_of_lookup in He as [k He].
    destruct (region_of_frames k e He Hv) as (A1 & A2 & A3 & A4 & A5 & _).
    destruct (decide (first_page (region_of host size k e) <= b)) as [Hlow|Hlow].
    + left. exists (region_of host size k e). split; [|lia].
      apply elem_regions_of. by exists k, e.
    + right. case_decide; [|lia]. subst k. simplify_eq. unfold pfa. lia.
  - intros [(r & Hr & Hb) Hb2].
    apply elem_regions_of in Hr as (k & e & He & Hv & ->). cbn [Nat.add] in Hb.
    destruct (region_of_frames k e He Hv) as (A1 & A2 & A3 & A4 & A5 & _).
    assert (k = host) as ->.
    { apply (same_entry k e host ehost b); [done..| |].
      - apply (in_entry k); [done..|lia].
      - apply (in_entry host); [done..|]. unfold pfa in *. lia. }
    rewrite decide_True in A4 by done. simplify_eq. unfold pfa in *. lia.
Qed.

Lemma started_layout : layout_ok es st'.
Proof.
  destruct (size_pages es Hw Hn ehost Hfit) as [Hs1 Hs2]. fold size in Hs1, Hs2.
  destruct (meta_size_bounds es Hw Hn) as (Hs3 & _). fold size in Hs3.
  assert (length rs = Z.to_nat (nvalid es) /\ 0 <= nvalid es) as [Hlen Hnv].
  { destruct (regions_bytes_le es Hw Hn host ehost Hhost Hfit 0 es) as [_ H]; [done|].
    fold size rs in H. lia. }
  unfold layout_ok. cbn [region_at st' the_meta region_ptrs meta nb_regions meta_ptr
    pfa_meta_reserved_pages]. split.
  { clear. generalize (pfa + 4 + 4 * nvalid es) as p. generalize rs as l.
    induction l; intros p; simpl; [done|]. by rewrite IHl. }
  intros i p r Hp Hr.
  destruct (regions_of_split _ _ _ _ _ _ Hr) as (l1 & e & l2 & Hes & Hv & <- & Hre).
  cbn [Nat.add] in Hre.
  assert (rs = regions_of host size 0 l1 ++ r :: regions_of host size (S (length l1)) l2) as Hrs.
  { unfold rs. rewrite Hes, regions_of_app. cbn [regions_of Nat.add].
    rewrite decide_True by done. by rewrite Hre. }
  destruct (region_ptrs_lookup (pfa + 4 + 4 * nvalid es) (regions_of host size 0 l1) r
    (regions_of host size (S (length l1)) l2)) as [Hp1 Hp2]. rewrite <- Hrs in Hp1, Hp2.
  rewrite Hp in Hp1. injection Hp1 as ->.
  assert (es !! length l1 = Some e) as He by (rewrite Hes; by apply list_lookup_middle).
  destruct (regions_taken es Hw Hn host ehost Hhost Hfit (length l1)) as (B1 & _ & B3).
  fold size in B1, B3. assert (take (length l1) es = l1) as Htk.
  { rewrite Hes. apply take_app_length. }
  rewrite Htk in B1, B3.
  destruct (region_of_frames (length l1) e He Hv) as (_ & C1 & _). rewrite <- Hre in C1.
  split_and!; [lia| |].
  - intros q Hq. rewrite (Hp2 q Hq). lia.
  - exists e. split_and!; [by eapply list_elem_of_lookup_2|done|lia|].
    rewrite Hs1. pose proof (vsum_app l1 (e :: l2)) as V1.
    pose proof (nvalid_app l1 (e :: l2)) as V2. rewrite <- Hes in V1, V2.
    cbn [vsum nvalid] in V1, V2. rewrite decide_True in V1, V2 by done.
    pose proof Hw as Hw'. rewrite Hes in Hw'. apply Forall_app in Hw' as [_ Hw'].
    apply Forall_cons in Hw' as [_ Hw']. pose proof (vsum_bounds _ Hw'). lia.
Qed.

Lemma started : pfa_started es st'.
Proof.
  split_and!; [exact started_repr| |apply started_frames..|exact started_layout].
  intros r Hr. apply elem_regions_of in Hr as (k & e & _ & _ & ->). cbn [Nat.add].
  assert (pagemap (region_of host size k e) =
    replicate (Z.to_nat (nb_pages (region_of host size k e))) PAGE_FREE) as ->.
  { unfold region_of. by case_decide. }
  apply Forall_replicate. done.
Qed.
End Started.

(** ** The whole initialisation *)

Lemma pfa_init_spec es room st :
  map_ok es -> Z.of_nat (length es) < 2 ^ 11 ->
  (pfa_init (pmm_of es room) st = Ok (false, pmm_of es room, st) /\
     exists size, pfa_meta_size (pmm_of es room) = Ok size /\
       forall e, e ∈ es -> valid e -> pe_end e - frames_start e < size) \/
  exists st', pfa_init (pmm_of es room) st = Ok (true, pmm_of (mark <$> es) room, st') /\
    pfa_started es st'.
Proof.
  intros Hok Hn. pose proof (proj1 Hok) as Hw. unfold pfa_init.
  rewrite pfa_meta_size_spec by done. cbn [mbind res_bind].
  destruct (find_hosting_spec es room Hw Hn) as [[-> Hno]|(k & e & He & Hv & Hfit & ->)];
    cbn [mbind res_bind]; [left; split; [done|by eexists]|right].
  rewrite (reserve_regions_spec es room Hw Hn k e He Hv Hfit). cbn [mbind res_bind mret res_ret].
  eexists. split; [done|]. by apply started.
Qed.
