(* ===== verification/PfaBoot.v ===== *)
(** * From the boot loader's memory map to the frames handed out

    The theorems on [pfa_init()] and the end-to-end property of the physical
    memory: no client of the allocator is ever given a byte of the kernel image,
    of the memory map, of the module or of the allocator's own metadata. *)
From S2P Require Import Prelude Page Pfa PfaSpec PfaRun Pmm PmmSort PmmSpec PmmInit PmmThms.
From S2P Require Import PfaInit PfaInitSpec.

(** C11. [pfa_init] on a map without overlaps returns; when it succeeds, the
    metadata satisfies the invariant of the allocator with all frames free, the
    frames managed and those of the metadata are disjoint and together exactly
    the page frames of the valid entries (which are all marked reserved), and
    the regions with their pagemaps, also as first written, fit one behind the
    other in the frames set aside. *)
Theorem pfa_init_correct es room st :
  map_ok es -> Z.of_nat (length es) < 2 ^ 11 ->
  pfa_init (pmm_of es room) st = Ok (false, pmm_of es room, st) \/
  exists st', pfa_init (pmm_of es room) st = Ok (true, pmm_of (mark <$> es) room, st') /\
    pfa_started es st'.
Proof. intros. destruct (pfa_init_spec es room st) as [[? _]|?]; [done..|by left|by right]. Qed.

Definition demo_entries : list phys_mmap_entry :=
  [mk_pmme 0 0x9000 1; mk_pmme 0x100000 0x8000 2; mk_pmme 0x108800 0x8000 1;
   mk_pmme 0x200000 0x4000 1].

Lemma demo_entries_ok : map_ok demo_entries.
Proof.
  split.
  - repeat (apply Forall_cons; split); [..|by apply Forall_nil];
      constructor; cbn; unfold is_u32, MMAP_TYPE_AVAILABLE; lia.
  - unfold demo_entries. pairwise_concrete.
Qed.

Definition demo_pfa_st : pfa_state := mk_pfa_state (mk_meta 0 []) 0 [] 0.

Lemma pfa_init_correct_witness :
  exists st', pfa_init (pmm_of demo_entries []) demo_pfa_st =
      Ok (true, pmm_of (mark <$> demo_entries) [], st') /\
    pfa_started demo_entries st' /\ meta_ptr st' = 0x109000 /\
    first_page <$> region_ptrs (the_meta st') = [0x10a000; 0x200000].
Proof.
  destruct (pfa_init_correct demo_entries [] demo_pfa_st demo_entries_ok)
    as [H|(st' & H & Hs)]; [done|exfalso; by vm_compute in H|].
  exists st'. split; [done|]. split; [done|]. vm_compute in H. injection H as <-. done.
Defined.

(** A byte of an available frame is available in the map. *)
Lemma in_frames_byte es b :
  Forall entry_wf es -> in_frames es b -> byte_type es b MMAP_TYPE_AVAILABLE /\ 0x100000 <= b.
Proof.
  intros Hw (e & He & Hv & Hb). pose proof (proj1 (Forall_forall _ _) Hw e He) as Hwe.
  destruct (valid_frames e Hwe Hv) as (_ & _ & _ & H1 & _ & H2 & H3 & _).
  split; [|lia]. exists e. destruct Hv as (Ht & _). unfold byte_in.
  split_and!; [done|done|lia|lia].
Qed.

(** C12. End to end: once [phys_mem_map_init] has described the memory and
    [pfa_init] has succeeded, every byte of every block held in any run of the
    allocator is available memory of the machine above 1 MB, outside of the
    kernel image, of the memory map, of the module and of the metadata. *)
Theorem allocated_memory_safe kernel_start kernel_end mbi pmm_addr pst st0 pmm' st m L p n b :
  describes kernel_start kernel_end mbi pmm_addr pst ->
  pmm_len (phys_mem_map pst) < 2 ^ 11 ->
  pfa_init (phys_mem_map pst) st0 = Ok (true, pmm', st) ->
  pfa_run (the_meta st) m L -> L !! p = Some n -> p <= b < p + n * PAGE_SIZE ->
  byte_type (mm_entries mbi) b MMAP_TYPE_AVAILABLE /\ 0x100000 <= b /\
  ~ taken kernel_start kernel_end mbi pmm_addr b /\ ~ meta_area st b.
Proof.
  intros (es & (Hok & _ & room & Hpst & _) & Hdesc) Hlen Hinit Hrun Hp Hb.
  rewrite Hpst in *. cbn [pmm_len pmm_of] in Hlen.
  destruct (pfa_init_spec es room st0 Hok Hlen) as [[H _]|(st' & H & Hs)];
    rewrite Hinit in H; [done|]. simplify_eq.
  destruct Hs as ((ls & Hm) & Hfree & Hfr & Hno & _).
  destruct (pfa_run_inv _ m L (pfa_repr_init _ ls Hm Hfree) Hrun) as (_ & _ & [Hin _]).
  destruct (Hin p n Hp) as (_ & _ & r & Hr & H1 & H2 & _).
  assert (managed (the_meta st') b) as Hman by (exists r; split; [done|lia]).
  destruct (in_frames_byte es b (proj1 Hok)) as [Hav Hlow]; [apply Hfr; by left|].
  apply Hdesc in Hav as [[_ ?]|[Hnt Hav]]; [done|].
  split_and!; [done|done|done|]. intros Hma. by apply (Hno b).
Qed.

(** A machine with 1 MB of memory above the first, and no module. *)
Definition demo_small : multiboot_info :=
  mk_mbi 0x9500 0x40 0 0 48 0x9000
    [mk_mme 20 0x100000 0x100000 1; mk_mme 20 0 0x9000 1] (mk_mod 0 0).

Lemma demo_small_wf : boot_wf 0x100000 0x140000 demo_small.
Proof.
  constructor.
  - constructor; cbn; [by repeat constructor|done|done|done].
  - repeat (apply Forall_cons; split); [..|by apply Forall_nil];
      constructor; unfold mm_low, MMAP_TYPE_AVAILABLE; cbn [mm_addr mm_len mm_type]; lia.
  - unfold demo_small, mmap_buf. pairwise_concrete.
  - done.
  - by vm_compute.
  - unfold segs_low. repeat (apply Forall_cons; split); [..|by apply Forall_nil]; by vm_compute.
  - unfold boot_regions. change (has_mods demo_small) with false.
    repeat (apply Forall_cons; split); [..|by apply Forall_nil];
      unfold region_low; split_and!; by vm_compute.
  - let r := eval vm_compute in (boot_regions demo_small) in
    change (boot_regions demo_small) with r. pairwise_concrete.
  - exists (mk_pmme 0x100000 0x100000 1).
    split; [apply list_elem_of_here|split_and!; by vm_compute].
  - done.
Qed.

(** The states of the witness, as the code computes them. *)
Definition demo_boot : res (pmm_state * pfa_state * (Z * pfa_meta)) :=
  '(_, pst) ← phys_mem_map_init 0x100000 0x140000 demo_ram demo_small demo_st;
  '(_, _, st) ← pfa_init (phys_mem_map pst) demo_pfa_st;
  r ← pfa_alloc (the_meta st) 3;
  mret (pst, st, r).

Lemma allocated_memory_safe_witness :
  exists pst st p m, demo_boot = Ok (pst, st, (p, m)) /\ p <> BAD_PAGE /\
    forall b, p <= b < p + 3 * PAGE_SIZE -> ~ meta_area st b.
Proof.
  destruct (init_spec 0x100000 0x140000 demo_ram demo_small demo_st) as [[H _]|(a & pst & H & _ & Hd & _ & _)];
    [intros; apply length_replicate|by vm_compute|by vm_compute|apply demo_small_wf|done| |].
  { exfalso. by vm_compute in H. }
  change (effective demo_small) with demo_small in Hd.
  assert (exists st pmm' p m, pfa_init (phys_mem_map pst) demo_pfa_st = Ok (true, pmm', st) /\
    pfa_alloc (the_meta st) 3 = Ok (p, m) /\ p <> BAD_PAGE /\
    pmm_len (phys_mem_map pst) < 2 ^ 11) as (st & pmm' & p & m & Hi & Ha & Hp & Hlen).
  { vm_compute in H. injection H as <-. do 4 eexists.
    split; [by vm_compute|]. split; [by vm_compute|]. split; by vm_compute. }
  exists pst, st, p, m. split; [|split; [done|]].
  { unfold demo_boot. rewrite H. cbn [mbind res_bind]. rewrite Hi. cbn [mbind res_bind].
    by rewrite Ha. }
  intros b Hb. apply (allocated_memory_safe 0x100000 0x140000 demo_small a pst demo_pfa_st pmm' st m
    (<[p := 3]> ∅) p 3 b Hd Hlen Hi); [|apply lookup_insert_eq|done].
  apply (run_alloc _ (the_meta st)); [apply run_init|lia|done|done].
Defined.
