(* ===== verification/Mmu.v ===== *)
(** * The i386 memory management unit

    What the kernel's paging code runs on: the physical memory as words, the
    control registers of [kernel/arch/i386/registers.h], the two-level walk of
    the processor with its translation lookaside buffer, and the instructions of
    [paging.c] and [registers.c] that act on them.  The walk fills the TLB, and
    nothing but [invlpg] and a write to CR3 empties it, as on the processor. *)
From S2P Require Import Prelude Page.

(** Words of physical memory by address (a multiple of 4); the TLB maps a
    virtual page number to the address of a page frame. *)
Record machine := mk_machine {
  mem : gmap Z Z;
  cr0 : Z;
  cr2 : Z;
  cr3 : Z;
  cr4 : Z;
  tlb : gmap Z Z;
}.

Definition set_mem (f : gmap Z Z -> gmap Z Z) (c : machine) : machine :=
  mk_machine (f (mem c)) (cr0 c) (cr2 c) (cr3 c) (cr4 c) (tlb c).
Definition set_tlb (f : gmap Z Z -> gmap Z Z) (c : machine) : machine :=
  mk_machine (mem c) (cr0 c) (cr2 c) (cr3 c) (cr4 c) (f (tlb c)).

(** ** Physical memory *)

Definition word (m : gmap Z Z) (a : Z) : Z := default 0 (m !! a).

(** ** Registers *)

(** [reg.cr3.pdb = x]: bits 12 to 31 of the register. *)
Definition set_cr3_pdb (reg x : Z) : Z := reg mod 2 ^ 12 + (x mod 2 ^ 20) * 2 ^ 12.

(** [reg.cr0.pg = 1]: bit 31. *)
Definition set_cr0_pg (reg : Z) : Z := Z.setbit reg 31.
Definition cr0_pg (reg : Z) : bool := Z.testbit reg 31.

Definition read_cr0 (c : machine) : Z := cr0 c.
Definition write_cr0 (reg : Z) (c : machine) : machine :=
  mk_machine (mem c) reg (cr2 c) (cr3 c) (cr4 c) (tlb c).
Definition read_cr3 (c : machine) : Z := cr3 c.
Definition write_cr3 (reg : Z) (c : machine) : machine :=
  mk_machine (mem c) (cr0 c) (cr2 c) reg (cr4 c) ∅.
Definition read_cr2 (c : machine) : Z := cr2 c.
Definition read_cr4 (c : machine) : Z := cr4 c.
Definition write_cr4 (reg : Z) (c : machine) : machine :=
  mk_machine (mem c) (cr0 c) (cr2 c) (cr3 c) reg (tlb c).

(** ** Translation *)

(** The frame the page number [vpn] is mapped to by the directory at [pd]. *)
Definition walk (m : gmap Z Z) (pd vpn : Z) : option Z :=
  let pde := word m (pd + 4 * (vpn / 1024)) in
  if Z.land pde PDE_MASK_PRESENT =? 0 then None
  else
    let pte := word m (Z.land pde PDE_MASK_ADDR + 4 * (vpn mod 1024)) in
    if Z.land pte PTE_MASK_PRESENT =? 0 then None
    else Some (Z.land pte PTE_MASK_ADDR).

Definition page_fault : fault := Panic "page fault".

(** The physical address behind a virtual one. *)
Definition translate (va : Z) (c : machine) : res (Z * machine) :=
  if cr0_pg (cr0 c) then
    let vpn := va / 4096 in
    match tlb c !! vpn with
    | Some frame => mret (frame + va mod 4096, c)
    | None =>
        match walk (mem c) (Z.land (cr3 c) 0xfffff000) vpn with
        | Some frame => mret (frame + va mod 4096, set_tlb (<[vpn := frame]>) c)
        | None => Err page_fault
        end
    end
  else mret (va, c).

Definition load32 (va : Z) (c : machine) : res (Z * machine) :=
  '(pa, c) ← translate va c; mret (word (mem c) pa, c).

Definition store32 (va v : Z) (c : machine) : res machine :=
  '(pa, c) ← translate va c; mret (set_mem (<[pa := v]>) c).

(** [invlpg] and the reload of CR3. *)
Definition invalidate_tlb_page (virt_addr : Z) (c : machine) : machine :=
  set_tlb (delete (virt_addr / 4096)) c.

Definition invalidate_tlb (c : machine) : machine := write_cr3 (read_cr3 c) c.

(** ** Facts *)

Lemma word_insert_eq m a v : word (<[a := v]> m) a = v.
Proof. unfold word. by rewrite lookup_insert_eq. Qed.

Lemma word_insert_ne m a b v : a <> b -> word (<[a := v]> m) b = word m b.
Proof. intros. unfold word. by rewrite lookup_insert_ne. Qed.

(** An entry is an aligned frame with flags in its low bits. *)
Lemma land_frame_flags f mk : aligned f -> 0 <= mk < 4096 -> Z.land f mk = 0.
Proof.
  intros Hf Hm. unfold aligned, PAGE_SIZE in Hf.
  rewrite <- (Z.mod_small mk (2 ^ 12)) by lia. rewrite <- Z.land_ones by lia.
  rewrite (Z.land_comm mk), Z.land_assoc, Z.land_ones by lia.
  change (2 ^ 12) with 4096. by rewrite Hf.
Qed.

Lemma land_addr x : is_u32 x -> Z.land x 0xfffff000 = x - x mod 4096.
Proof. apply land_PAGE_MASK. Qed.

Lemma land_addr_small fl : 0 <= fl < 4096 -> Z.land fl 0xfffff000 = 0.
Proof. intros. rewrite land_addr by (unfold is_u32; lia). rewrite Z.mod_small; lia. Qed.

Lemma land_addr_frame f : is_u32 f -> aligned f -> Z.land f 0xfffff000 = f.
Proof. intros Hu Hf. rewrite land_addr by done. unfold aligned, PAGE_SIZE in Hf. lia. Qed.

Lemma entry_addr f fl :
  is_u32 f -> aligned f -> 0 <= fl < 4096 -> Z.land (Z.lor f fl) 0xfffff000 = f.
Proof.
  intros. rewrite Z.land_lor_distr_l, land_addr_frame, land_addr_small by done.
  apply Z.lor_0_r.
Qed.

Lemma entry_flags f fl mk :
  aligned f -> 0 <= mk < 4096 -> Z.land (Z.lor f fl) mk = Z.land fl mk.
Proof. intros. by rewrite Z.land_lor_distr_l, land_frame_flags by done. Qed.

Lemma lor_small a b : 0 <= a < 4096 -> 0 <= b < 4096 -> 0 <= Z.lor a b < 4096.
Proof.
  intros Ha Hb. split; [apply Z.lor_nonneg; lia|].
  destruct (decide (Z.lor a b = 0)) as [->|Hne]; [lia|].
  assert (0 <= Z.lor a b) by (apply Z.lor_nonneg; lia).
  apply (Z.log2_lt_pow2 _ 12); [lia|]. rewrite Z.log2_lor by lia.
  destruct (Z.max_spec (Z.log2 a) (Z.log2 b)) as [[_ ->]|[_ ->]].
  - destruct (decide (b = 0)) as [->|]; [done|]. apply Z.log2_lt_pow2; lia.
  - destruct (decide (a = 0)) as [->|]; [done|]. apply Z.log2_lt_pow2; lia.
Qed.

Lemma land_1_cases x : Z.land x 1 = 0 \/ Z.land x 1 = 1.
Proof.
  pose proof (land_low x 1 ltac:(lia)) as H. change (2 ^ 1 - 1) with 1 in H. rewrite H.
  pose proof (Z.mod_pos_bound x (2 ^ 1) ltac:(lia)). lia.
Qed.

Lemma present_set x : Z.land (Z.lor x 1) 1 = 1.
Proof. rewrite Z.land_lor_distr_l. by destruct (land_1_cases x) as [-> | ->]. Qed.
