(* ===== verification/Registers.v ===== *)
(** * The control registers as bit fields (registers.h)

    The union [reg_t] views one word as the structure of any of the four control
    registers.  A structure of bit fields is an instance of [BitFields]: its
    widths, from the lowest bit, and its fields in order. *)
From S2P Require Import Prelude Page Mmu.

(** ** Bit fields *)

(** The fields of widths [ws] in a word, and the word of fields. *)
Fixpoint unpack (ws : list Z) (v : Z) : list Z :=
  match ws with [] => [] | w :: ws => v mod 2 ^ w :: unpack ws (v / 2 ^ w) end.

Fixpoint pack (ws fs : list Z) : Z :=
  match ws, fs with w :: ws, f :: fs => f mod 2 ^ w + 2 ^ w * pack ws fs | _, _ => 0 end.

Definition total (ws : list Z) : Z := foldr Z.add 0 ws.

(** Every field fits in its width. *)
Definition fits (ws fs : list Z) : Prop := Forall2 (fun w f => 0 <= f < 2 ^ w) ws fs.

Lemma total_nonneg ws : Forall (fun w => 0 <= w) ws -> 0 <= total ws.
Proof. induction 1; cbn [total foldr]; unfold total in *; lia. Qed.

Lemma unpack_fits ws v : Forall (fun w => 0 <= w) ws -> fits ws (unpack ws v).
Proof.
  intros Hw. revert v. induction Hw as [|w ws Hw _ IH]; intros v; [constructor|]. constructor; [|apply IH].
  apply Z.mod_pos_bound. by apply Z.pow_pos_nonneg.
Qed.

Lemma pack_unpack ws v : Forall (fun w => 0 <= w) ws -> 0 <= v < 2 ^ total ws -> pack ws (unpack ws v) = v.
Proof.
  intros Hw. revert v. induction Hw as [|w ws Hw Hws IH]; intros v Hv; [cbn in *; lia|].
  pose proof (total_nonneg ws Hws) as Ht. change (total (w :: ws)) with (w + total ws) in Hv. rewrite Z.pow_add_r in Hv by done.
  pose proof (Z.pow_pos_nonneg 2 w ltac:(lia) Hw) as Hp. cbn [unpack pack].
  rewrite Z.mod_mod, IH by (first [lia | split; [apply Z.div_pos; lia|apply Z.div_lt_upper_bound; lia]]).
  pose proof (Z.div_mod v (2 ^ w)). lia.
Qed.

Lemma unpack_pack ws fs : Forall (fun w => 0 <= w) ws -> fits ws fs -> unpack ws (pack ws fs) = fs /\ 0 <= pack ws fs < 2 ^ total ws.
Proof.
  intros Hw Hf. induction Hf as [|w f ws fs Hwf Hf IH]; [done|]. apply Forall_cons in Hw as [Hw Hws]. destruct (IH Hws) as [IH1 IH2].
  pose proof (Z.pow_pos_nonneg 2 w ltac:(lia) Hw) as Hp. pose proof (total_nonneg ws Hws) as Ht.
  change (total (w :: ws)) with (w + total ws). rewrite Z.pow_add_r by done. cbn [unpack pack]. rewrite (Z.mod_small f) by done. split; [|nia].
  rewrite (Z.add_comm f), (Z.mul_comm (2 ^ w)). f_equal; [|rewrite <- IH1 at 2; f_equal].
  - by rewrite Z.add_comm, Z.mod_add, Z.mod_small by lia.
  - rewrite Z.div_add_l, (Z.div_small f) by lia. lia.
Qed.

(** ** The registers *)

Class BitFields (R : Type) := { widths : list Z; to_fields : R -> list Z; of_fields : list Z -> R }.

(** The widths are those of a word, and the fields of a structure are a list. *)
Class BitFieldsLaws (R : Type) `{BitFields R} := {
  widths_word : Forall (fun w => 0 <= w) widths /\ total widths = 32;
  of_to r : of_fields (to_fields r) = r;
  to_of fs : length fs = length widths -> to_fields (of_fields fs) = fs;
}.

(** The views of [reg_t]: the structure of the word [val], and the word of a
    structure. *)
Definition reg_of (R : Type) `{BitFields R} (val : Z) : R := of_fields (unpack widths val).
Definition reg_val {R : Type} `{BitFields R} (r : R) : Z := pack widths (to_fields r).

Record reg_cr0 := mk_cr0 {
  pe : Z; mp : Z; em : Z; ts : Z; et : Z; ne : Z; cr0_pad0 : Z; wp : Z; cr0_pad1 : Z; am : Z; cr0_pad2 : Z; nw : Z; cd : Z; pg : Z }.
Record reg_cr2 := mk_cr2 { pf_addr : Z }.
Record reg_cr3 := mk_cr3 { cr3_pad0 : Z; pwt : Z; pcd : Z; cr3_pad1 : Z; pdb : Z }.
Record reg_cr4 := mk_cr4 {
  vme : Z; pvi : Z; tsd : Z; de : Z; pse : Z; pae : Z; mce : Z; pge : Z; pce : Z; osfxsr : Z; osxmmexcpt : Z; cr4_reserved : Z }.

#[export] Instance cr0_fields : BitFields reg_cr0 := {|
  widths := [1; 1; 1; 1; 1; 1; 10; 1; 1; 1; 10; 1; 1; 1];
  to_fields r := [pe r; mp r; em r; ts r; et r; ne r; cr0_pad0 r; wp r; cr0_pad1 r; am r; cr0_pad2 r; nw r; cd r; pg r];
  of_fields fs := let f i := nth i fs 0 in
    mk_cr0 (f 0%nat) (f 1%nat) (f 2%nat) (f 3%nat) (f 4%nat) (f 5%nat) (f 6%nat) (f 7%nat) (f 8%nat) (f 9%nat) (f 10%nat)
      (f 11%nat) (f 12%nat) (f 13%nat) |}.

#[export] Instance cr2_fields : BitFields reg_cr2 := {|
  widths := [32]; to_fields r := [pf_addr r]; of_fields fs := mk_cr2 (nth 0 fs 0) |}.

#[export] Instance cr3_fields : BitFields reg_cr3 := {|
  widths := [3; 1; 1; 7; 20];
  to_fields r := [cr3_pad0 r; pwt r; pcd r; cr3_pad1 r; pdb r];
  of_fields fs := let f i := nth i fs 0 in mk_cr3 (f 0%nat) (f 1%nat) (f 2%nat) (f 3%nat) (f 4%nat) |}.

#[export] Instance cr4_fields : BitFields reg_cr4 := {|
  widths := [1; 1; 1; 1; 1; 1; 1; 1; 1; 1; 1; 21];
  to_fields r := [vme r; pvi r; tsd r; de r; pse r; pae r; mce r; pge r; pce r; osfxsr r; osxmmexcpt r; cr4_reserved r];
  of_fields fs := let f i := nth i fs 0 in
    mk_cr4 (f 0%nat) (f 1%nat) (f 2%nat) (f 3%nat) (f 4%nat) (f 5%nat) (f 6%nat) (f 7%nat) (f 8%nat) (f 9%nat) (f 10%nat) (f 11%nat) |}.

(** A list of the right length is the list of its elements. *)
Ltac fields_laws := split; [split; [by repeat (constructor; [lia|])|done]|by intros []|
  intros fs; do 15 (destruct fs as [|? fs]; [try done|]); done].

#[export] Instance cr0_laws : BitFieldsLaws reg_cr0.
Proof. fields_laws. Qed.
#[export] Instance cr2_laws : BitFieldsLaws reg_cr2.
Proof. fields_laws. Qed.
#[export] Instance cr3_laws : BitFieldsLaws reg_cr3.
Proof. fields_laws. Qed.
#[export] Instance cr4_laws : BitFieldsLaws reg_cr4.
Proof. fields_laws. Qed.

(** The two views of [reg_t] are inverse of each other. *)
Theorem reg_t_roundtrip (R : Type) `{BitFieldsLaws R} :
  (forall v, is_u32 v -> reg_val (reg_of R v) = v) /\
  (forall r : R, fits widths (to_fields r) -> reg_of R (reg_val r) = r /\ is_u32 (reg_val r)) /\
  (forall v, fits widths (to_fields (reg_of R v))).
Proof.
  destruct widths_word as [Hw Ht]. assert (forall v, to_fields (reg_of R v) = unpack widths v) as Hto.
  { intros v. apply to_of. symmetry. eapply Forall2_length, unpack_fits, Hw. }
  unfold is_u32. rewrite <- Ht. split_and!.
  - intros v Hv. unfold reg_val. rewrite Hto. by apply pack_unpack.
  - intros r Hf. destruct (unpack_pack _ _ Hw Hf) as [E Hr]. split; [|done]. unfold reg_of, reg_val. by rewrite E, of_to.
  - intros v. rewrite Hto. by apply unpack_fits.
Qed.

(** The assignments to the fields of paging.c. *)
Definition set_pdb (x : Z) (r : reg_cr3) : reg_cr3 := mk_cr3 (cr3_pad0 r) (pwt r) (pcd r) (cr3_pad1 r) x.
Definition set_pg (r : reg_cr0) : reg_cr0 :=
  mk_cr0 (pe r) (mp r) (em r) (ts r) (et r) (ne r) (cr0_pad0 r) (wp r) (cr0_pad1 r) (am r) (cr0_pad2 r) (nw r) (cd r) 1.

(** What paging.c writes to CR3 and CR0 is what the assignments leave in the
    word. *)
Theorem set_pdb_word reg x : is_u32 reg -> set_cr3_pdb reg x = reg_val (set_pdb x (reg_of reg_cr3 reg)).
Proof.
  intros Hr. unfold is_u32 in Hr. unfold set_cr3_pdb, reg_val, reg_of, set_pdb. cbn -[Z.pow Z.modulo Z.div Z.mul Z.add].
  rewrite !Z.mod_mod by done. Z.div_mod_to_equations. lia.
Qed.

Lemma top_bit reg : is_u32 reg -> Z.testbit reg 31 = (2 ^ 31 <=? reg) /\ Z.setbit reg 31 = reg mod 2 ^ 31 + 2 ^ 31.
Proof.
  intros Hr. unfold is_u32 in Hr. assert (Z.testbit reg 31 = (2 ^ 31 <=? reg)) as E.
  { apply eq_true_iff_eq. rewrite Z.testbit_true, Z.leb_le by lia. Z.div_mod_to_equations. lia. }
  split; [done|]. unfold Z.setbit. rewrite Z.shiftl_1_l. destruct (Z.leb_spec (2 ^ 31) reg).
  - replace (reg mod 2 ^ 31 + 2 ^ 31) with reg by (Z.div_mod_to_equations; lia). apply Z.bits_inj'. intros n Hn.
    rewrite Z.lor_spec. destruct (decide (n = 31)) as [->|]; [by rewrite E|].
    rewrite Z.pow2_bits_false by done. by rewrite orb_false_r.
  - rewrite Z.lor_comm, (lor_disjoint_add (2 ^ 31) reg 31) by (try lia; done). Z.div_mod_to_equations. lia.
Qed.

Theorem set_pg_word reg : is_u32 reg ->
  set_cr0_pg reg = reg_val (set_pg (reg_of reg_cr0 reg)) /\ cr0_pg reg = negb (pg (reg_of reg_cr0 reg) =? 0).
Proof.
  intros Hr. destruct (top_bit reg Hr) as [Ht Hs]. unfold is_u32 in Hr. unfold set_cr0_pg, cr0_pg. rewrite Ht, Hs.
  unfold reg_val, reg_of, set_pg. cbn -[Z.pow Z.modulo Z.div Z.mul Z.add Z.leb Z.eqb]. split.
  - rewrite !Z.mod_mod by done. Z.div_mod_to_equations. lia.
  - apply eq_true_iff_eq. rewrite negb_true_iff, Z.leb_le, Z.eqb_neq. Z.div_mod_to_equations. lia.
Qed.
