(* ===== verification/Paging.v ===== *)
(** * Paging

    [kernel/mem/paging.c] on the memory management unit of [Mmu], with the
    callers of [map_page()] in [page_frame_allocator.c] and [phys_mem_map.c].
    Page tables are reached the way the code does: at their physical address
    before paging is enabled, through the last entry of the page directory, which
    points to the directory itself, afterwards. *)
From S2P Require Import Prelude Page Pfa Pmm PfaInit Mmu.

(** The machine, the page frame allocator and the static variables. *)
Record sys := mk_sys {
  cpu : machine;
  pfa : pfa_meta;
  page_directory : Z;
  paging_enabled : bool;
}.

Definition set_cpu (c : machine) (s : sys) : sys :=
  mk_sys c (pfa s) (page_directory s) (paging_enabled s).

Definition PD_INDEX (virt_addr : Z) : Z := Z.shiftr virt_addr 22.
Definition PT_INDEX (virt_addr : Z) : Z := Z.land (Z.shiftr virt_addr 12) 0x3ff.

(** [p[i]] for a pointer to words. *)
Definition word_at (p i : Z) : Z := p ⊕ 4 * i.

Definition read_word (p i : Z) (s : sys) : res (Z * sys) :=
  '(v, c) ← load32 (word_at p i) (cpu s); mret (v, set_cpu c s).

Definition write_word (p i v : Z) (s : sys) : res sys :=
  c ← store32 (word_at p i) v (cpu s); mret (set_cpu c s).

Definition PDE_PRESENT (pd_index : Z) (s : sys) : res (bool * sys) :=
  '(pde, s) ← read_word (page_directory s) pd_index s;
  mret (negb (Z.land pde PDE_MASK_PRESENT =? 0), s).

Definition flush (s : sys) : sys := set_cpu (invalidate_tlb (cpu s)) s.
Definition flush_page (virt_addr : Z) (s : sys) : sys :=
  set_cpu (invalidate_tlb_page virt_addr (cpu s)) s.

(** The virtual address of the page table at [pd_index]. *)
Definition self_map (pd_index : Z) : Z := 0xffc00000 ⊕ pd_index ⊗ PAGE_SIZE.

(** The loop that marks all the entries of a new table not present. *)
Definition clear_table (page_table flags : Z) (s : sys) : res sys :=
  for_loop 1024 0 (fun i s =>
    write_word page_table i (Z.land flags (u32 (Z.lnot PDE_MASK_PRESENT))) s) s.

(** The page table, 0 for NULL. *)
Definition new_page_table (pd_index flags : Z) (s : sys) : res (Z * sys) :=
  '(present, s) ← PDE_PRESENT pd_index s;
  if present : bool then mret (0, s)
  else
    '(new_pt_phys, m) ← pfa_alloc (pfa s) 1;
    let s := mk_sys (cpu s) m (page_directory s) (paging_enabled s) in
    if new_pt_phys =? 0 then mret (0, s)
    else
      let pde_flags := Z.lor (Z.land flags PG_CONSISTENT_MASK) PDE_MASK_PRESENT in
      s ← write_word (page_directory s) pd_index (Z.lor pde_flags new_pt_phys) s;
      let page_table := if paging_enabled s then self_map pd_index else new_pt_phys in
      let s := if paging_enabled s then flush s else s in
      s ← clear_table page_table flags s;
      let s := if paging_enabled s then flush s else s in
      mret (page_table, s).

(** The end of [map_page]. *)
Definition set_pte (page_table phys_addr virt_addr flags : Z) (s : sys) : res (bool * sys) :=
  s ← write_word page_table (PT_INDEX virt_addr)
        (Z.lor (Z.lor phys_addr flags) PTE_MASK_PRESENT) s;
  mret (true, flush_page virt_addr s).

Definition map_page (phys_addr virt_addr flags : Z) (s : sys) : res (bool * sys) :=
  if negb (PAGE_OFFSET phys_addr =? 0) || negb (PAGE_OFFSET virt_addr =? 0) ||
     negb (Z.land flags PTE_MASK_ADDR =? 0)
  then mret (false, s)
  else
    let pd_index := PD_INDEX virt_addr in
    let pt_index := PT_INDEX virt_addr in
    '(pde, s) ← read_word (page_directory s) pd_index s;
    if Z.land pde PDE_MASK_PRESENT =? 0 then
      '(page_table, s) ← new_page_table pd_index flags s;
      if page_table =? 0 then Err (Panic "failed to create new page table")
      else set_pte page_table phys_addr virt_addr flags s
    else
      '(pde, s) ← read_word (page_directory s) pd_index s;
      let pde_flags := Z.land pde PG_CONSISTENT_MASK in
      if negb (Z.land flags PG_CONSISTENT_MASK =? pde_flags) then mret (false, s)
      else
        '(page_table, s) ←
          (if paging_enabled s then mret (self_map pd_index, s)
           else
             '(pde, s) ← read_word (page_directory s) pd_index s;
             mret (Z.land pde PDE_MASK_ADDR, s));
        '(pte, s) ← read_word page_table pt_index s;
        if negb (Z.land pte PTE_MASK_PRESENT =? 0)
        then Err (Panic "overwriting an already present mapping!")
        else set_pte page_table phys_addr virt_addr flags s.

Definition unmap_page (virt_addr : Z) (s : sys) : res (bool * sys) :=
  let pd_index := PD_INDEX virt_addr in
  let pt_index := PT_INDEX virt_addr in
  if negb (PAGE_OFFSET virt_addr =? 0) then mret (false, s)
  else if pd_index =? 1023 then Err (Panic "cannot unmap page table/directory")
  else
    '(present, s) ← PDE_PRESENT pd_index s;
    if negb present then mret (false, s)
    else
      '(pg_table, s) ←
        (if paging_enabled s then mret (self_map pd_index, s)
         else
           '(pde, s) ← read_word (page_directory s) pd_index s;
           mret (Z.land pde PDE_MASK_ADDR, s));
      '(pte, s) ← read_word pg_table pt_index s;
      if Z.land pte PTE_MASK_PRESENT =? 0 then mret (false, s)
      else
        '(pte, s) ← read_word pg_table pt_index s;
        s ← write_word pg_table pt_index
              (Z.land pte (u32 (Z.lnot (Z.lor PTE_MASK_PRESENT PTE_MASK_ADDR)))) s;
        mret (true, flush_page virt_addr s).

Definition load_page_directory (pgd_phys_addr : Z) (s : sys) : bool * sys :=
  if negb (PAGE_OFFSET pgd_phys_addr =? 0) then (false, s)
  else
    let reg := read_cr3 (cpu s) in
    let reg := set_cr3_pdb reg (Z.shiftr pgd_phys_addr 12) in
    (true, set_cpu (write_cr3 reg (cpu s)) s).

(** [for (addr = start; addr < end; addr += PAGE_SIZE)] with an identity
    mapping of each page; the address is 32 bits wide. *)
Definition map_identity (why : string) (start end_ : Z) (s : sys) : res sys :=
  loop_ctl (S (Z.to_nat ((end_ - start) / PAGE_SIZE + 1))) (fun '(addr, s) =>
    if addr <? end_ then
      '(ok, s) ← map_page addr addr PTE_RW_KERNEL_NOCACHE s;
      if ok : bool then mret (Next (addr ⊕ PAGE_SIZE, s)) else Err (Panic why)
    else mret (Leave s)) (start, s).

(** [pfa_map_metadata] of [page_frame_allocator.c]. *)
Definition pfa_map_metadata (st : pfa_state) (s : sys) : res sys :=
  for_loop (Z.to_nat (pfa_meta_reserved_pages st)) 0 (fun i s =>
    let addr := meta_ptr st ⊕ (i ⊗ PAGE_SIZE) in
    '(ok, s) ← map_page addr addr PTE_RW_KERNEL_NOCACHE s;
    if ok : bool then mret s else Err (Panic "failed to map page")) s.

(** [phys_mem_map_map_module] of [phys_mem_map.c]. *)
Definition phys_mem_map_map_module (pst : pmm_state) (s : sys) : res (bool * sys) :=
  if module_len pst =? 0 then mret (false, s)
  else
    s ← map_identity "failed to map page" (Z.land (module_addr pst) PAGE_MASK)
          (module_addr pst ⊕ module_len pst) s;
    mret (true, s).

Definition map_range (start end_ : Z) (s : sys) : res sys :=
  if negb (PAGE_OFFSET start =? 0) then Err (Panic "starting range is not page-aligned")
  else map_identity "failed to map" start (page_align (end_ ⊕ 1)) s.

Definition bootstrap_mapping (kernel_start kernel_end : Z) (st : pfa_state)
    (pst : pmm_state) (s : sys) : res sys :=
  s ← map_range kernel_start kernel_end s;
  s ← map_range 0xa0000 0xfffff s;
  s ← pfa_map_metadata st s;
  '(_, s) ← phys_mem_map_map_module pst s;
  mret s.

Definition paging_setup (kernel_start kernel_end : Z) (st : pfa_state)
    (pst : pmm_state) (s : sys) : res sys :=
  '(pgd_phys_addr, m) ← pfa_alloc (pfa s) 1;
  if pgd_phys_addr =? 0 then Err (Panic "cannot allocate page_directory")
  else
    let s := mk_sys (cpu s) m (page_directory s) (paging_enabled s) in
    s ← for_loop 1024 0 (fun entry s =>
          write_word pgd_phys_addr entry PDE_RW_KERNEL_NOCACHE s) s;
    let last_pde_offset := (PAGE_SIZE / 4 - 1) * 4 in
    s ← write_word (pgd_phys_addr ⊕ last_pde_offset) 0
          (Z.lor (Z.lor pgd_phys_addr PDE_RW_KERNEL_NOCACHE) PDE_MASK_PRESENT) s;
    let s := mk_sys (cpu s) (pfa s) pgd_phys_addr (paging_enabled s) in
    s ← bootstrap_mapping kernel_start kernel_end st pst s;
    let '(ok, s) := load_page_directory pgd_phys_addr s in
    if negb ok then Err (Panic "failed to load the new page directory")
    else
      let reg := set_cr0_pg (read_cr0 (cpu s)) in
      mret (mk_sys (write_cr0 reg (cpu s)) (pfa s) 0xfffff000 true).

(** [page_fault_handler]: every path stops the kernel. *)
Definition page_fault_handler (error cr2 : Z) (s : sys) : fault :=
  if negb (Z.land error 1 =? 0) then Panic "NOT IMPLEMENTED"
  else
    let pd_index := PD_INDEX cr2 in
    let pt_index := PT_INDEX cr2 in
    match PDE_PRESENT pd_index s with
    | Err f => f
    | Ok (false, _) => Panic "page directory entry NOT PRESENT"
    | Ok (true, s) =>
        match read_word (self_map pd_index) pt_index s with
        | Err f => f
        | Ok (pte, _) =>
            if Z.land pte PTE_MASK_PRESENT =? 0 then Panic "page table entry NOT PRESENT"
            else Panic "NOT IMPLEMENTED"
        end
    end.
