(* ===== verification/PagingSpec.v ===== *)
(** * Specification of paging

    The page tables as a map [T] from a page-directory index to the frame of the
    table, the invariant [good] that ties the memory, the TLB and the self-mapping
    entry together, and the effect of each access of [paging.c] on the mapping
    the processor sees. *)
From S2P Require Import Prelude Page Pfa PfaSpec PfaRun Pmm PfaInit Mmu Paging.

(** ** Tables *)

Definition present (e : Z) : bool := negb (Z.land e 1 =? 0).
Definition frame_of (e : Z) : Z := Z.land e 0xfffff000.

(** [T] is what the page directory at [pd] holds; the directory is its own
    last table, and no frame serves twice. *)
Record tables_repr (m : gmap Z Z) (pd : Z) (T : gmap Z Z) : Prop := {
  tr_entry : forall i, 0 <= i < 1024 ->
    T !! i = if present (word m (pd + 4 * i)) then Some (frame_of (word m (pd + 4 * i)))
             else None;
  tr_dom : forall i f, T !! i = Some f -> 0 <= i < 1024 /\ aligned f /\ 0 < f /\ f < 2 ^ 32;
  tr_self : T !! 1023 = Some pd;
  tr_inj : forall i j f, T !! i = Some f -> T !! j = Some f -> i = j;
}.

(** The page number of the window through which the table at [i] is seen. *)
Definition window (i : Z) : Z := 1023 * 1024 + i.

Lemma walk_tables m pd T vpn :
  tables_repr m pd T -> 0 <= vpn < 2 ^ 20 ->
  walk m pd vpn =
  f ← T !! (vpn / 1024);
  let e := word m (f + 4 * (vpn mod 1024)) in
  if present e then Some (frame_of e) else None.
Proof.
  intros Ht Hv. rewrite (tr_entry _ _ _ Ht) by (Z.div_mod_to_equations; lia).
  unfold walk, present, frame_of, PDE_MASK_ADDR, PTE_MASK_ADDR.
  change PDE_MASK_PRESENT with 1. change PTE_MASK_PRESENT with 1.
  destruct (Z.land (word m (pd + 4 * (vpn / 1024))) 1 =? 0); [done|]. cbn.
  by destruct (Z.land _ 1 =? 0).
Qed.

(** Words of different frames, or at different indices, are different. *)
Lemma frame_word_ne f g k l :
  aligned f -> aligned g -> 0 <= k < 1024 -> 0 <= l < 1024 ->
  f <> g \/ k <> l -> f + 4 * k <> g + 4 * l.
Proof.
  unfold aligned, PAGE_SIZE. intros Hf Hg Hk Hl Hne Heq.
  assert (f = g) by (Z.div_mod_to_equations; lia). lia.
Qed.

Section Store.
Context (m : gmap Z Z) (pd : Z) (T : gmap Z Z) (Ht : tables_repr m pd T).

Lemma table_aligned i f : T !! i = Some f -> aligned f.
Proof. intros H. by apply (tr_dom _ _ _ Ht i f). Qed.

Lemma pd_aligned : aligned pd.
Proof. apply (table_aligned 1023), Ht. Qed.

(** A store into a table other than the directory leaves the directory, *)
Lemma store_pte_dir i f k v j :
  T !! i = Some f -> i <> 1023 -> 0 <= k < 1024 -> 0 <= j < 1024 ->
  word (<[f + 4 * k := v]> m) (pd + 4 * j) = word m (pd + 4 * j).
Proof.
  intros Hi Hne Hk Hj. apply word_insert_ne.
  apply frame_word_ne; [by eapply table_aligned|apply pd_aligned|done|done|left].
  intros ->. apply Hne. by apply (tr_inj _ _ _ Ht i 1023 pd), Ht.
Qed.

(** and changes one page. *)
Lemma store_pte i f k v :
  T !! i = Some f -> i <> 1023 -> 0 <= k < 1024 ->
  let m' := <[f + 4 * k := v]> m in
  tables_repr m' pd T /\
  forall vpn, 0 <= vpn < 2 ^ 20 ->
    walk m' pd vpn =
    if decide (vpn = 1024 * i + k) then (if present v then Some (frame_of v) else None)
    else walk m pd vpn.
Proof.
  intros Hi Hne Hk m'. pose proof (table_aligned i f Hi) as Hf. pose proof pd_aligned as Hp.
  assert (f <> pd) as Hfp.
  { intros ->. apply Hne. by apply (tr_inj _ _ _ Ht i 1023 pd), Ht. }
  assert (tables_repr m' pd T) as Ht'.
  { constructor; try apply Ht. intros j Hj. unfold m'. rewrite word_insert_ne.
    - by apply (tr_entry _ _ _ Ht).
    - apply frame_word_ne; auto. }
  split; [done|]. intros vpn Hv. rewrite (walk_tables m' pd T) by done.
  destruct (tr_dom _ _ _ Ht i f Hi) as (Hi' & _).
  case_decide as Hvpn.
  - subst vpn. replace ((1024 * i + k) / 1024) with i by (Z.div_mod_to_equations; lia).
    replace ((1024 * i + k) mod 1024) with k by (Z.div_mod_to_equations; lia).
    rewrite Hi. cbn. unfold m'. by rewrite word_insert_eq.
  - rewrite (walk_tables m pd T) by done.
    destruct (T !! (vpn / 1024)) as [g|] eqn:Hg; [|done]. cbn. unfold m'.
    rewrite word_insert_ne; [done|].
    apply frame_word_ne; [done|by eapply table_aligned|done|Z.div_mod_to_equations; lia|].
    destruct (decide (f = g)) as [<-|]; [right|by left]. intros Hkk.
    assert (i = vpn / 1024) as -> by (by apply (tr_inj _ _ _ Ht _ _ f)).
    apply Hvpn. rewrite Hkk. apply Z.div_mod. lia.
Qed.

(** Installing a fresh table. *)
Lemma store_pde i f v :
  0 <= i < 1023 -> T !! i = None -> present v = true -> frame_of v = f ->
  aligned f -> 0 < f < 2 ^ 32 -> (forall j, T !! j <> Some f) ->
  let m' := <[pd + 4 * i := v]> m in
  tables_repr m' pd (<[i := f]> T) /\
  walk m' pd (window i) = Some f /\ walk m pd (window i) = None /\
  (forall vpn, 0 <= vpn < 2 ^ 20 -> vpn / 1024 = i -> walk m pd vpn = None) /\
  forall vpn, 0 <= vpn < 2 ^ 20 -> vpn / 1024 <> i -> vpn <> window i ->
    walk m' pd vpn = walk m pd vpn.
Proof.
  intros Hi Hn Hpv Hfv Hf Hfr Hfresh m'. pose proof pd_aligned as Hp.
  assert (tables_repr m' pd (<[i := f]> T)) as Ht'.
  { constructor.
    - intros j Hj. unfold m'. destruct (decide (j = i)) as [->|Hji].
      + by rewrite lookup_insert_eq, word_insert_eq, Hpv, Hfv.
      + rewrite lookup_insert_ne, word_insert_ne by lia. by apply (tr_entry _ _ _ Ht).
    - intros j g [[<- <-]|[_ Hg]]%lookup_insert_Some; [split_and!; (done || lia)|].
      by apply (tr_dom _ _ _ Ht).
    - rewrite lookup_insert_ne by lia. apply Ht.
    - intros j l g [[<- <-]|[? Hg]]%lookup_insert_Some [[<- Hf']|[? Hg']]%lookup_insert_Some.
      + done.
      + by apply Hfresh in Hg'.
      + subst. by apply Hfresh in Hg.
      + by apply (tr_inj _ _ _ Ht _ _ g). }
  assert ((window i) / 1024 = 1023 /\ window i mod 1024 = i) as [Hw1 Hw2].
  { unfold window. Z.div_mod_to_equations; lia. }
  assert (0 <= window i < 2 ^ 20) as Hw by (unfold window; lia).
  split_and!; [done| | | |].
  - rewrite (walk_tables m' pd _ _ Ht' Hw), Hw1, Hw2.
    rewrite lookup_insert_ne, (tr_self _ _ _ Ht) by lia. cbn.
    unfold m'. by rewrite word_insert_eq, Hpv, Hfv.
  - rewrite (walk_tables m pd _ _ Ht Hw), Hw1, Hw2, (tr_self _ _ _ Ht). cbn.
    pose proof (tr_entry _ _ _ Ht i ltac:(lia)) as He. rewrite Hn in He.
    by destruct (present _).
  - intros vpn Hv <-. by rewrite (walk_tables m pd _ _ Ht Hv), Hn.
  - intros vpn Hv Hvi Hvw. rewrite (walk_tables m' pd _ _ Ht' Hv), (walk_tables m pd _ _ Ht Hv).
    rewrite lookup_insert_ne by done.
    destruct (T !! (vpn / 1024)) as [g|] eqn:Hg; [|done]. cbn. unfold m'.
    rewrite word_insert_ne; [done|].
    apply frame_word_ne; [done|by eapply table_aligned|lia|Z.div_mod_to_equations; lia|].
    destruct (decide (pd = g)) as [<-|]; [right|by left]. intros Hk. apply Hvw.
    assert (1023 = vpn / 1024) as He by (apply (tr_inj _ _ _ Ht _ _ pd); [apply Ht|done]).
    unfold window. rewrite Hk, He. rewrite Z.mul_comm. apply Z.div_mod. lia.
Qed.
End Store.

(** ** The processor's view *)

(** The TLB agrees with the tables, except on the pages of [X]. *)
Definition coherent (X : Z -> Prop) (pd : Z) (c : machine) : Prop :=
  forall vpn f, tlb c !! vpn = Some f -> ~ X vpn ->
    0 <= vpn < 2 ^ 20 /\ walk (mem c) pd vpn = Some f.

(** Where the code reaches the table at [i]. *)
Definition table_ptr (s : sys) (i f : Z) : Z :=
  if paging_enabled s then self_map i else f.

Record good (X : Z -> Prop) (s : sys) (pd : Z) (T : gmap Z Z) : Prop := {
  g_tables : tables_repr (mem (cpu s)) pd T;
  g_dir : page_directory s = table_ptr s 1023 pd;
  g_mode : if paging_enabled s
           then cr0_pg (cr0 (cpu s)) = true /\ Z.land (cr3 (cpu s)) 0xfffff000 = pd /\
                coherent X pd (cpu s)
           else cr0_pg (cr0 (cpu s)) = false;
}.

(** Only the memory and the TLB differ. *)
Definition same_config (s s' : sys) : Prop :=
  pfa s' = pfa s /\ page_directory s' = page_directory s /\
  paging_enabled s' = paging_enabled s.

Lemma same_config_refl s : same_config s s.
Proof. done. Qed.

Lemma same_config_trans s1 s2 s3 :
  same_config s1 s2 -> same_config s2 s3 -> same_config s1 s3.
Proof. unfold same_config. naive_solver congruence. Qed.

Lemma same_config_set c s : same_config s (set_cpu c s).
Proof. done. Qed.

Lemma good_weaken (X Y : Z -> Prop) s pd T :
  (forall v, X v -> Y v) -> good X s pd T -> good Y s pd T.
Proof.
  intros HXY [Ht Hd Hm]. constructor; [done|done|]. destruct (paging_enabled s); [|done].
  destruct Hm as (? & ? & Hc). split_and!; [done|done|]. intros v f Hv Hnv.
  apply Hc; auto.
Qed.

Lemma self_map_eq i : 0 <= i < 1024 -> self_map i = 4096 * window i.
Proof.
  intros. unfold self_map, window, PAGE_SIZE. rewrite !u32_small; rewrite ?u32_small; lia.
Qed.

Lemma word_at_table s i f k :
  aligned f -> 0 < f < 2 ^ 32 -> 0 <= i < 1024 -> 0 <= k < 1024 ->
  word_at (table_ptr s i f) k =
  if paging_enabled s then 4096 * window i + 4 * k else f + 4 * k.
Proof.
  intros Hf Hfr Hi Hk. unfold word_at, table_ptr. destruct (paging_enabled s).
  - rewrite self_map_eq by done. unfold window. rewrite u32_small; lia.
  - unfold aligned, PAGE_SIZE in Hf. rewrite u32_small; [done|].
    Z.div_mod_to_equations; lia.
Qed.

(** An access to the word [k] of a table reaches that word, in both modes. *)
Lemma access_table X s pd T i f k :
  good X s pd T -> T !! i = Some f -> 0 <= k < 1024 -> ~ X (window i) ->
  exists c, translate (word_at (table_ptr s i f) k) (cpu s) = Ok (f + 4 * k, c) /\
    mem c = mem (cpu s) /\ good X (set_cpu c s) pd T.
Proof.
  intros Hg Hi Hk HX. destruct Hg as [Ht Hd Hm].
  destruct (tr_dom _ _ _ Ht i f Hi) as (Hir & Hfa & Hf1 & Hf2).
  rewrite word_at_table by done. unfold translate.
  destruct (paging_enabled s) eqn:He.
  2:{ rewrite Hm. exists (cpu s). split_and!; [done|done|]. constructor; cbn; [done|done|].
      by rewrite He. }
  destruct Hm as (Hpg & Hcr3 & Hc). rewrite Hpg, Hcr3.
  assert ((4096 * window i + 4 * k) / 4096 = window i) as ->.
  { Z.div_mod_to_equations; lia. }
  assert ((4096 * window i + 4 * k) mod 4096 = 4 * k) as ->.
  { Z.div_mod_to_equations; lia. }
  assert (0 <= window i < 2 ^ 20) as Hw by (unfold window; lia).
  assert (walk (mem (cpu s)) pd (window i) = Some f) as Hwalk.
  { rewrite (walk_tables _ pd T) by done.
    replace (window i / 1024) with 1023 by (unfold window; Z.div_mod_to_equations; lia).
    replace (window i mod 1024) with i by (unfold window; Z.div_mod_to_equations; lia).
    rewrite (tr_self _ _ _ Ht). cbn. pose proof (tr_entry _ _ _ Ht i Hir) as Hte.
    rewrite Hi in Hte. destruct (present _); [by injection Hte as ->|done]. }
  destruct (tlb (cpu s) !! window i) as [g|] eqn:Htlb.
  - destruct (Hc _ _ Htlb HX) as [_ Hg]. rewrite Hwalk in Hg. simplify_eq.
    exists (cpu s). split_and!; [done|done|]. constructor; cbn; [done|done|].
    by rewrite He.
  - rewrite Hwalk. eexists. split; [done|]. split; [done|].
    constructor; cbn; [done|done|]. rewrite He. split_and!; [done|done|].
    intros v g Hg Hv. cbn in Hg.
    apply lookup_insert_Some in Hg as [[<- <-]|[_ Hg]]; [done|]. by apply Hc.
Qed.

Lemma read_table X s pd T i f k :
  good X s pd T -> T !! i = Some f -> 0 <= k < 1024 -> ~ X (window i) ->
  exists s', read_word (table_ptr s i f) k s = Ok (word (mem (cpu s)) (f + 4 * k), s') /\
    mem (cpu s') = mem (cpu s) /\ good X s' pd T /\ same_config s s'.
Proof.
  intros Hg Hi Hk HX. destruct (access_table X s pd T i f k Hg Hi Hk HX) as (c & Hc & Hm & Hg').
  unfold read_word, load32. rewrite Hc. cbn [mbind res_bind mret res_ret]. rewrite Hm.
  eexists. split_and!; [done|done|done|]. apply same_config_set.
Qed.

(** The directory is read as the table at 1023. *)
Lemma read_dir X s pd T i :
  good X s pd T -> 0 <= i < 1024 -> ~ X (window 1023) ->
  exists s', read_word (page_directory s) i s = Ok (word (mem (cpu s)) (pd + 4 * i), s') /\
    mem (cpu s') = mem (cpu s) /\ good X s' pd T /\ same_config s s'.
Proof.
  intros Hg Hi HX. rewrite (g_dir _ _ _ _ Hg).
  apply (read_table X s pd T); [done|apply Hg|done|done].
Qed.

(** A store to a page table: the page it maps may be stale in the TLB. *)
Lemma write_table X s pd T i f k v :
  good X s pd T -> T !! i = Some f -> i <> 1023 -> 0 <= k < 1024 -> ~ X (window i) ->
  exists s', write_word (table_ptr s i f) k v s = Ok s' /\
    mem (cpu s') = <[f + 4 * k := v]> (mem (cpu s)) /\
    good (fun p => X p \/ p = 1024 * i + k) s' pd T /\ same_config s s'.
Proof.
  intros Hg Hi Hne Hk HX.
  destruct (access_table X s pd T i f k Hg Hi Hk HX) as (c & Hc & Hm & [Ht Hd Hmode]).
  unfold write_word, store32. rewrite Hc. cbn [mbind res_bind mret res_ret].
  destruct (store_pte (mem (cpu s)) pd T (g_tables _ _ _ _ Hg) i f k v Hi Hne Hk) as [Ht' Hw].
  eexists. split; [done|]. cbn [cpu set_cpu set_mem mem]. rewrite Hm.
  split_and!; [done| |apply same_config_set].
  constructor; cbn; [by rewrite Hm|done|].
  cbn in Hmode. destruct (paging_enabled s); [|done]. destruct Hmode as (? & ? & Hcoh).
  split_and!; [done|done|]. intros p g Hp HnX. cbn in Hp |- *. rewrite Hm.
  destruct (Hcoh p g Hp) as [Hpr Hwk]; [tauto|]. split; [done|]. rewrite Hw by done.
  cbn in Hwk. rewrite Hm in Hwk. rewrite decide_False by tauto. done.
Qed.

(** A store that installs a table: nothing can be stale. *)
Lemma write_dir s pd T i f v :
  good (fun _ => False) s pd T -> 0 <= i < 1023 -> T !! i = None ->
  present v = true -> frame_of v = f -> aligned f -> 0 < f < 2 ^ 32 ->
  (forall j, T !! j <> Some f) ->
  exists s', write_word (page_directory s) i v s = Ok s' /\
    mem (cpu s') = <[pd + 4 * i := v]> (mem (cpu s)) /\
    good (fun _ => False) s' pd (<[i := f]> T) /\ same_config s s'.
Proof.
  intros Hg Hi Hn Hpv Hfv Hfa Hfr Hfresh.
  destruct (access_table _ s pd T 1023 pd i Hg (tr_self _ _ _ (g_tables _ _ _ _ Hg))
    ltac:(lia) ltac:(tauto)) as (c & Hc & Hm & [Ht Hd Hmode]).
  rewrite <- (g_dir _ _ _ _ Hg) in Hc.
  unfold write_word, store32. rewrite Hc. cbn [mbind res_bind mret res_ret].
  destruct (store_pde (mem (cpu s)) pd T (g_tables _ _ _ _ Hg) i f v Hi Hn Hpv Hfv Hfa Hfr Hfresh)
    as (Ht' & _ & Hw0 & Hw1 & Hw2).
  eexists. split; [done|]. cbn [cpu set_cpu set_mem mem]. rewrite Hm.
  split_and!; [done| |apply same_config_set].
  constructor; cbn; [by rewrite Hm|done|].
  cbn in Hmode. destruct (paging_enabled s); [|done]. destruct Hmode as (? & ? & Hcoh).
  split_and!; [done|done|]. intros p g Hp _. cbn in Hp |- *. rewrite Hm.
  destruct (Hcoh p g Hp) as [Hpr Hwk]; [tauto|]. split; [done|]. cbn in Hwk. rewrite Hm in Hwk.
  rewrite Hw2; [done|done| |].
  - intros Hpi. by rewrite Hw1 in Hwk.
  - intros ->. by rewrite Hw0 in Hwk.
Qed.

(** Reloading CR3 makes the TLB coherent; [invlpg] does so for one page. *)
Lemma flush_good X s pd T : good X s pd T -> good (fun _ => False) (flush s) pd T.
Proof.
  intros [Ht Hd Hm]. constructor; cbn; [done|done|]. destruct (paging_enabled s); [|done].
  destruct Hm as (? & ? & _). split_and!; [done|done|]. intros p g Hp. by cbn in Hp; rewrite lookup_empty in Hp.
Qed.

Lemma flush_page_good va s pd T :
  good (fun p => False \/ p = va / 4096) s pd T ->
  good (fun _ => False) (flush_page va s) pd T.
Proof.
  intros [Ht Hd Hm]. constructor; cbn; [done|done|]. destruct (paging_enabled s); [|done].
  destruct Hm as (? & ? & Hc). split_and!; [done|done|].
  intros p g Hp _. cbn in Hp. apply lookup_delete_Some in Hp as [Hne Hp]. apply Hc; [done|]. intuition congruence.
Qed.

(** ** Indices *)

Definition page_of (va : Z) : Z := va / 4096.

Lemma PD_INDEX_eq va : PD_INDEX va = page_of va / 1024.
Proof.
  unfold PD_INDEX, page_of. rewrite Z.shiftr_div_pow2 by lia.
  rewrite Z.div_div by lia. done.
Qed.

Lemma PT_INDEX_eq va : PT_INDEX va = page_of va mod 1024.
Proof.
  unfold PT_INDEX, page_of. rewrite Z.shiftr_div_pow2 by lia.
  change 0x3ff with (2 ^ 10 - 1). by rewrite land_low by lia.
Qed.

Lemma page_of_range va : is_u32 va -> 0 <= page_of va < 2 ^ 20.
Proof. unfold is_u32, page_of. intros. Z.div_mod_to_equations; lia. Qed.

Lemma page_split p : p = 1024 * (p / 1024) + p mod 1024.
Proof. apply Z.div_mod. lia. Qed.

(** ** The steps of [map_page] *)

(** The entries of the directory other than [i] are the same. *)
Definition same_dir (pd : Z) (i : Z) (s s' : sys) : Prop :=
  forall j, 0 <= j < 1024 -> j <> i ->
    word (mem (cpu s')) (pd + 4 * j) = word (mem (cpu s)) (pd + 4 * j).

Lemma same_dir_trans pd i s1 s2 s3 :
  same_dir pd i s1 s2 -> same_dir pd i s2 s3 -> same_dir pd i s1 s3.
Proof. intros H1 H2 j Hj Hji. by rewrite H2, H1. Qed.

Lemma same_dir_mem pd i s s' : mem (cpu s') = mem (cpu s) -> same_dir pd i s s'.
Proof. intros H j _ _. by rewrite H. Qed.

Definition mapping (s : sys) (pd vpn : Z) : option Z := walk (mem (cpu s)) pd vpn.

Lemma good_disabled X Y s pd T :
  paging_enabled s = false -> good X s pd T -> good Y s pd T.
Proof. intros He [Ht Hd Hm]. constructor; [done|done|]. by rewrite He in *. Qed.

Lemma table_ptr_config s s' i f : same_config s s' -> table_ptr s' i f = table_ptr s i f.
Proof. intros (_ & _ & He). unfold table_ptr. by rewrite He. Qed.

Lemma not_present_cleared flags : present (Z.land flags (u32 (Z.lnot PDE_MASK_PRESENT))) = false.
Proof.
  unfold present. rewrite <- Z.land_assoc.
  change (Z.land (u32 (Z.lnot PDE_MASK_PRESENT)) 1) with 0. by rewrite Z.land_0_r.
Qed.

Lemma set_pte_spec s pd T f phys va flags :
  good (fun _ => False) s pd T -> is_u32 va -> T !! PD_INDEX va = Some f ->
  PD_INDEX va <> 1023 -> is_u32 phys -> aligned phys -> 0 <= flags < 4096 ->
  exists s', set_pte (table_ptr s (PD_INDEX va) f) phys va flags s = Ok (true, s') /\
    good (fun _ => False) s' pd T /\ same_config s s' /\ same_dir pd (-1) s s' /\
    forall p, 0 <= p < 2 ^ 20 ->
      mapping s' pd p = if decide (p = page_of va) then Some phys else mapping s pd p.
Proof.
  intros Hg Hva HT Hne Hpu Hpa Hfl. unfold set_pte.
  assert (0 <= PT_INDEX va < 1024) as Hk.
  { rewrite PT_INDEX_eq. apply Z.mod_pos_bound. lia. }
  assert (page_of va = 1024 * PD_INDEX va + PT_INDEX va) as Hp.
  { rewrite PD_INDEX_eq, PT_INDEX_eq. apply page_split. }
  set (v := Z.lor (Z.lor phys flags) PTE_MASK_PRESENT).
  destruct (write_table (fun _ => False) s pd T (PD_INDEX va) f (PT_INDEX va) v Hg HT Hne Hk)
    as (s' & -> & Hm & Hg' & Hc); [tauto|]. cbn [mbind res_bind mret res_ret].
  destruct (store_pte (mem (cpu s)) pd T (g_tables _ _ _ _ Hg) _ f _ v HT Hne Hk) as [_ Hw].
  eexists. split; [done|]. split; [|split; [|split]].
  - apply flush_page_good. eapply good_weaken; [|exact Hg']. cbv beta. intros p [[]|Hpe].
    right. rewrite Hpe, <- Hp. done.
  - eapply same_config_trans; [exact Hc|apply same_config_set].
  - intros j Hj _. cbn [cpu flush_page set_cpu invalidate_tlb_page set_tlb mem]. rewrite Hm.
    by apply (store_pte_dir _ pd T (g_tables _ _ _ _ Hg) (PD_INDEX va)).
  - intros p Hpr. unfold mapping. cbn [cpu flush_page set_cpu invalidate_tlb_page set_tlb mem].
    rewrite Hm, Hw, Hp by done. case_decide; [|done].
    unfold v, present, frame_of, PTE_MASK_PRESENT. change (Z.shiftl 1 0) with 1.
    rewrite present_set. cbn [Z.eqb negb]. rewrite <- Z.lor_assoc.
    rewrite entry_addr by (done || (apply lor_small; lia)). done.
Qed.

(** A freshly installed table, once cleared, maps nothing. *)
Lemma clear_table_spec s pd T i f flags :
  good (fun _ => False) s pd T -> T !! i = Some f -> i <> 1023 ->
  exists s', clear_table (table_ptr s i f) flags s = Ok s' /\
    good (fun p => p / 1024 = i) s' pd T /\ same_config s s' /\ same_dir pd (-1) s s' /\
    forall p, 0 <= p < 2 ^ 20 ->
      mapping s' pd p = if decide (p / 1024 = i) then None else mapping s pd p.
Proof.
  intros Hg HT Hne. unfold clear_table.
  set (v := Z.land flags _). assert (present v = false) as Hv by apply not_present_cleared.
  destruct (tr_dom _ _ _ (g_tables _ _ _ _ Hg) i f HT) as (Hi & _).
  destruct (for_loop_inv (fun j t => good (fun p => p / 1024 = i) t pd T /\ same_config s t /\
    same_dir pd (-1) s t /\ forall p, 0 <= p < 2 ^ 20 ->
      (p / 1024 <> i -> mapping t pd p = mapping s pd p) /\
      (p / 1024 = i -> p mod 1024 < j -> mapping t pd p = None))
    (fun k t => write_word (table_ptr s i f) k v t) 1024 0 s) as (s' & -> & Hg' & Hc' & Hd' & Hm').
  - split_and!; [eapply good_weaken; [|exact Hg]; done|done|done|].
    intros p Hp. split; [done|]. pose proof (Z.mod_pos_bound p 1024). lia.
  - intros j t Hj (Hgt & Hct & Hdt & Hmt). rewrite <- (table_ptr_config s t) by done.
    assert (~ window i / 1024 = i) as Hwi.
    { unfold window. Z.div_mod_to_equations; lia. }
    destruct (write_table _ t pd T i f j v Hgt HT Hne ltac:(lia) Hwi) as (t' & -> & Hm & Hg' & Hc).
    destruct (store_pte (mem (cpu t)) pd T (g_tables _ _ _ _ Hgt) i f j v HT Hne ltac:(lia))
      as [_ Hw].
    exists t'. split; [done|]. split_and!.
    + eapply good_weaken; [|exact Hg']. cbv beta. intros p [Hp| ->]; [done|].
      Z.div_mod_to_equations; lia.
    + by eapply same_config_trans.
    + eapply same_dir_trans; [exact Hdt|]. intros l Hl _. rewrite Hm.
      apply (store_pte_dir _ pd T (g_tables _ _ _ _ Hgt) i); (done || lia).
    + intros p Hp. unfold mapping in *. rewrite Hm, Hw, Hv by done.
      destruct (Hmt p Hp) as [H1 H2]. pose proof (page_split p). split.
      * intros Hpi. rewrite decide_False by (intros ->; apply Hpi; Z.div_mod_to_equations; lia).
        by apply H1.
      * intros Hpi Hpj. case_decide; [done|]. apply H2; [done|]. lia.
  - exists s'. split_and!; [done|done|done|done|]. intros p Hp. destruct (Hm' p Hp) as [H1 H2].
    case_decide; [|by apply H1]. apply H2; [done|]. pose proof (Z.mod_pos_bound p 1024). lia.
Qed.

(** What the page frame allocator gives to a new table. *)
Record fresh_frame (T : gmap Z Z) (f : Z) : Prop := {
  ff_aligned : aligned f;
  ff_range : 0 < f < 2 ^ 32;
  ff_new : forall j, T !! j <> Some f;
}.

Lemma present_read m pd T i :
  tables_repr m pd T -> 0 <= i < 1024 ->
  negb (Z.land (word m (pd + 4 * i)) 1 =? 0) = bool_decide (is_Some (T !! i)).
Proof.
  intros Ht Hi. rewrite (tr_entry _ _ _ Ht i Hi). unfold present.
  by destruct (Z.land _ 1 =? 0).
Qed.

Lemma new_page_table_spec s pd T i flags f m' :
  good (fun _ => False) s pd T -> 0 <= i < 1023 -> T !! i = None ->
  pfa_alloc (pfa s) 1 = Ok (f, m') -> fresh_frame T f ->
  exists s', new_page_table i flags s = Ok (table_ptr s i f, s') /\
    good (fun _ => False) s' pd (<[i := f]> T) /\ pfa s' = m' /\
    paging_enabled s' = paging_enabled s /\ page_directory s' = page_directory s /\
    same_dir pd i s s' /\
    Z.land (word (mem (cpu s')) (pd + 4 * i)) PG_CONSISTENT_MASK =
      Z.land flags PG_CONSISTENT_MASK /\
    forall p, 0 <= p < 2 ^ 20 -> p <> window i -> mapping s' pd p = mapping s pd p.
Proof.
  intros Hg Hi HT Ha [Hfa Hfr Hfn]. unfold new_page_table, PDE_PRESENT.
  destruct (read_dir _ s pd T i Hg ltac:(lia) ltac:(tauto)) as (s1 & -> & Hm1 & Hg1 & Hc1).
  cbn [mbind res_bind mret res_ret]. change PDE_MASK_PRESENT with 1.
  rewrite (present_read _ pd T) by (apply Hg || lia). rewrite HT.
  rewrite bool_decide_false by (by intros [? ?]).
  destruct Hc1 as (Hp1 & Hd1 & He1). rewrite Hp1, Ha. cbn [mbind res_bind].
  destruct (Z.eqb_spec f 0) as [->|_]; [lia|].
  set (s2 := mk_sys (cpu s1) m' (page_directory s1) (paging_enabled s1)).
  assert (good (fun _ => False) s2 pd T) as Hg2 by (destruct Hg1; by constructor).
  set (v := Z.lor _ f).
  assert (v = Z.lor f (Z.lor (Z.land flags PG_CONSISTENT_MASK) 1)) as Hv by apply Z.lor_comm.
  assert (0 <= Z.land flags PG_CONSISTENT_MASK < 4096) as Hcm.
  { change PG_CONSISTENT_MASK with 30. rewrite <- (Z.mod_small 30 (2 ^ 5)) by lia.
    rewrite <- Z.land_ones, Z.land_assoc, Z.land_ones by lia.
    pose proof (Z.mod_pos_bound (Z.land flags 30) (2 ^ 5)). lia. }
  destruct (write_dir s2 pd T i f v Hg2 Hi HT) as (s3 & -> & Hm3 & Hg3 & Hc3); try done.
  { unfold present. rewrite Hv, Z.lor_assoc, present_set. done. }
  { unfold frame_of. rewrite Hv. apply entry_addr; [unfold is_u32; lia|done|].
    apply lor_small; lia. }
  cbn [mbind res_bind].
  destruct (store_pde (mem (cpu s2)) pd T (g_tables _ _ _ _ Hg2) i f v Hi HT)
    as (_ & _ & Hw0 & Hw1 & Hw2); try done.
  { unfold present. rewrite Hv, Z.lor_assoc, present_set. done. }
  { unfold frame_of. rewrite Hv. apply entry_addr; [unfold is_u32; lia|done|].
    apply lor_small; lia. }
  pose proof Hc3 as (Hp3 & Hd3 & He3).
  set (s4 := if paging_enabled s3 then flush s3 else s3).
  assert (good (fun _ => False) s4 pd (<[i := f]> T) /\ same_config s3 s4 /\
    mem (cpu s4) = mem (cpu s3)) as (Hg4 & Hc4 & Hm4).
  { unfold s4. destruct (paging_enabled s3); [|done].
    split_and!; [by eapply flush_good|apply same_config_set|done]. }
  assert ((if paging_enabled s3 then self_map i else f) = table_ptr s4 i f) as ->.
  { unfold table_ptr. destruct Hc4 as (_ & _ & ->). done. }
  destruct (clear_table_spec s4 pd _ i f flags Hg4 (lookup_insert_eq _ _ _) ltac:(lia))
    as (s5 & -> & Hg5 & Hc5 & Hdir5 & Hm5). cbn [mbind res_bind].
  assert (table_ptr s4 i f = table_ptr s i f) as ->.
  { unfold table_ptr. destruct Hc4 as (_ & _ & ->). rewrite He3. cbn. by rewrite He1. }
  assert (same_config s2 s5) as (Hp5 & Hd5 & He5).
  { eapply same_config_trans; [exact Hc3|]. by eapply same_config_trans. }
  set (s6 := if paging_enabled s5 then flush s5 else s5).
  assert (good (fun _ => False) s6 pd (<[i := f]> T) /\ same_config s5 s6 /\
    mem (cpu s6) = mem (cpu s5)) as (Hg6 & (Hp6 & Hd6 & He6) & Hm6).
  { unfold s6. destruct (paging_enabled s5) eqn:Hen.
    - split_and!; [by eapply flush_good|apply same_config_set|done].
    - split_and!; [by eapply good_disabled|done|done]. }
  assert (forall j, 0 <= j < 1024 -> word (mem (cpu s6)) (pd + 4 * j) =
    word (<[pd + 4 * i := v]> (mem (cpu s))) (pd + 4 * j)) as Hdir.
  { intros j Hj. rewrite Hm6, Hdir5, Hm4, Hm3 by lia. cbn [cpu s2]. by rewrite Hm1. }
  exists s6. split_and!;
    [done|done|by rewrite Hp6, Hp5|by rewrite He6, He5|by rewrite Hd6, Hd5| | |].
  { intros j Hj Hji. rewrite Hdir by done. apply word_insert_ne. lia. }
  { rewrite Hdir, word_insert_eq, Hv by lia. rewrite entry_flags by done.
    rewrite Z.land_lor_distr_l, <- Z.land_assoc. change (Z.land 1 PG_CONSISTENT_MASK) with 0.
    by rewrite Z.lor_0_r. }
  intros p Hp Hpw. unfold mapping at 1. rewrite Hm6. fold (mapping s5 pd p).
  rewrite Hm5 by done. unfold mapping. rewrite Hm4, Hm3. cbn [cpu s2] in *.
  rewrite Hm1 in *. case_decide; [by rewrite Hw1|by apply Hw2].
Qed.

(** ** The state of the kernel's paging *)

(** The tables are frames the page frame allocator has given out one by one. *)
Record pg_state (s : sys) (pd : Z) (T A : gmap Z Z) : Prop := {
  ps_good : good (fun _ => False) s pd T;
  ps_pfa : pfa_repr (pfa s) A;
  ps_owned : forall i f, T !! i = Some f -> A !! f = Some 1;
}.

(** No free frame is left. *)
Definition no_frame (s : sys) (A : gmap Z Z) : Prop :=
  forall b, in_region (pfa s) b 1 -> ~ block_free A b 1.

(** The mapping of [s'] is that of [s] with [p] changed, outside of the window
    of the page tables. *)
Definition remapped (pd : Z) (s s' : sys) (p : Z) (o : option Z) : Prop :=
  forall q, 0 <= q < 2 ^ 20 -> q / 1024 <> 1023 ->
    mapping s' pd q = if decide (q = p) then o else mapping s pd q.

Lemma alloc_frame s pd T A :
  pg_state s pd T A ->
  (exists f m', pfa_alloc (pfa s) 1 = Ok (f, m') /\ f <> 0 /\ fresh_frame T f /\
     block_free A f 1 /\ same_geometry (pfa s) m' /\ pfa_repr m' (<[f := 1]> A)) \/
  (pfa_alloc (pfa s) 1 = Ok (0, pfa s) /\ no_frame s A).
Proof.
  intros [_ Hr Ho]. destruct (pfa_alloc_spec (pfa s) A 1 Hr ltac:(lia))
    as (f & m' & -> & Hg & [(Hf & Hin & Hbf & Hr')|(-> & -> & Hno)]); [left|right; done].
  exists f, m'. split_and!; try done. constructor.
  - by destruct Hin as (r & _ & _ & _ & ?).
  - destruct (pfa_repr_u32 _ _ f 1 Hr' (lookup_insert_eq _ _ _)) as [Hu _].
    unfold is_u32, BAD_PAGE in *. lia.
  - intros j Hj. apply (Hbf 0); [lia|]. exists f, 1. split; [by eapply Ho|].
    unfold PAGE_SIZE. lia.
Qed.

Lemma pg_state_config s s' pd T A :
  good (fun _ => False) s' pd T -> pfa s' = pfa s -> pg_state s pd T A -> pg_state s' pd T A.
Proof. intros Hg Hp [_ Hr Ho]. constructor; [done|by rewrite Hp|done]. Qed.

Lemma bad_flags flags : is_u32 flags ->
  (negb (Z.land flags PTE_MASK_ADDR =? 0) = false <-> 0 <= flags < 4096).
Proof.
  intros Hf. unfold PTE_MASK_ADDR. rewrite land_addr by done. unfold is_u32 in Hf.
  destruct (Z.eqb_spec (flags - flags mod 4096) 0); cbn;
    (split; [intros; try done|intros; try done]); Z.div_mod_to_equations; lia.
Qed.

Lemma page_offset_zero x : is_u32 x -> (negb (PAGE_OFFSET x =? 0) = false <-> aligned x).
Proof.
  intros Hx. rewrite PAGE_OFFSET_small by done. unfold aligned.
  destruct (Z.eqb_spec (x mod PAGE_SIZE) 0); cbn; naive_solver.
Qed.

(** The arguments [map_page] accepts. *)
Definition map_args_ok (phys va flags : Z) : Prop :=
  aligned phys /\ aligned va /\ 0 <= flags < 4096.

Lemma map_page_bad_args phys va flags s :
  is_u32 phys -> is_u32 va -> is_u32 flags -> ~ map_args_ok phys va flags ->
  map_page phys va flags s = Ok (false, s).
Proof.
  intros Hp Hv Hf Hbad. unfold map_page.
  pose proof (page_offset_zero phys Hp). pose proof (page_offset_zero va Hv).
  pose proof (bad_flags flags Hf). unfold map_args_ok in Hbad.
  destruct (negb (PAGE_OFFSET phys =? 0)), (negb (PAGE_OFFSET va =? 0)),
    (negb (Z.land flags PTE_MASK_ADDR =? 0)); cbn; try done. intuition.
Qed.

Section MapPage.
Context (s : sys) (pd : Z) (T A : gmap Z Z) (Hs : pg_state s pd T A).
Context (phys va flags : Z) (Hpu : is_u32 phys) (Hvu : is_u32 va) (Hfu : is_u32 flags).
Context (Hargs : map_args_ok phys va flags) (Hwin : page_of va / 1024 <> 1023).

Let i := page_of va / 1024.

Lemma dir_index : 0 <= i < 1023.
Proof.
  pose proof (page_of_range va Hvu). unfold i in *. Z.div_mod_to_equations. lia.
Qed.

(** The guard and the first read of [map_page]. *)
Lemma map_page_start :
  exists s1, good (fun _ => False) s1 pd T /\ same_config s s1 /\
    mem (cpu s1) = mem (cpu s) /\
    map_page phys va flags s =
    (let pde := word (mem (cpu s)) (pd + 4 * i) in
     if Z.land pde 1 =? 0 then
      '(page_table, s) ← new_page_table i flags s1;
      if page_table =? 0 then Err (Panic "failed to create new page table")
      else set_pte page_table phys va flags s
    else
      '(pde, s) ← read_word (page_directory s1) i s1;
      let pde_flags := Z.land pde PG_CONSISTENT_MASK in
      if negb (Z.land flags PG_CONSISTENT_MASK =? pde_flags) then mret (false, s)
      else
        '(page_table, s) ←
          (if paging_enabled s then mret (self_map i, s)
           else
             '(pde, s) ← read_word (page_directory s) i s;
             mret (Z.land pde PDE_MASK_ADDR, s));
        '(pte, s) ← read_word page_table (PT_INDEX va) s;
        if negb (Z.land pte 1 =? 0)
        then Err (Panic "overwriting an already present mapping!")
        else set_pte page_table phys va flags s).
Proof.
  destruct Hargs as (H1 & H2 & H3). pose proof dir_index as Hi.
  destruct (read_dir _ s pd T i (ps_good _ _ _ _ Hs) ltac:(lia) ltac:(tauto))
    as (s1 & Hr & Hm & Hg & Hc).
  exists s1. split_and!; [done|done|done|].
  unfold map_page. rewrite (proj2 (page_offset_zero phys Hpu)) by done.
  rewrite (proj2 (page_offset_zero va Hvu)) by done.
  rewrite (proj2 (bad_flags flags Hfu)) by done. cbn [orb].
  rewrite PD_INDEX_eq. fold i. rewrite Hr. done.
Qed.

(** The page table is new. *)
Lemma map_page_new :
  T !! i = None ->
  (map_page phys va flags s = Err (Panic "failed to create new page table") /\ no_frame s A) \/
  exists s' f, map_page phys va flags s = Ok (true, s') /\
    pg_state s' pd (<[i := f]> T) (<[f := 1]> A) /\ block_free A f 1 /\
    same_geometry (pfa s) (pfa s') /\ paging_enabled s' = paging_enabled s /\
    same_dir pd i s s' /\
    Z.land (word (mem (cpu s')) (pd + 4 * i)) PG_CONSISTENT_MASK =
      Z.land flags PG_CONSISTENT_MASK /\
    remapped pd s s' (page_of va) (Some phys).
Proof.
  intros HT. pose proof dir_index as Hi. destruct map_page_start as (s1 & Hg1 & Hc1 & Hm1 & ->).
  pose proof (present_read (mem (cpu s)) pd T i (g_tables _ _ _ _ (ps_good _ _ _ _ Hs)) ltac:(lia))
    as Hpr. rewrite HT, bool_decide_false in Hpr by (by intros [? ?]).
  apply negb_false_iff in Hpr. cbv zeta. rewrite Hpr.
  pose proof (pg_state_config s s1 pd T A Hg1 (proj1 Hc1) Hs) as Hs1.
  destruct (alloc_frame s1 pd T A Hs1) as [(f & m' & Ha & Hf0 & Hff & Hbf & Hgeo & Hr')|[Ha Hno]].
  2:{ left. split; [|intros b; specialize (Hno b); by rewrite (proj1 Hc1) in Hno].
      unfold new_page_table, PDE_PRESENT.
      destruct (read_dir _ s1 pd T i Hg1 ltac:(lia) ltac:(tauto)) as (s2 & -> & Hm2 & Hg2 & Hc2).
      cbn [mbind res_bind mret res_ret]. rewrite Hm1. change PDE_MASK_PRESENT with 1.
      rewrite Hpr. cbn [negb]. rewrite (proj1 Hc2), Ha. done. }
  right. destruct (new_page_table_spec s1 pd T i flags f m' Hg1 Hi HT Ha Hff)
    as (s2 & -> & Hg2 & Hp2 & He2 & Hd2 & Hdir2 & Hfl2 & Hmap2). cbn [mbind res_bind].
  assert (table_ptr s1 i f = table_ptr s2 i f) as -> by (unfold table_ptr; by rewrite He2).
  assert (table_ptr s2 i f <> 0) as Hnz.
  { unfold table_ptr. destruct (paging_enabled s2); [|done].
    rewrite self_map_eq by lia. unfold window. lia. }
  destruct (Z.eqb_spec (table_ptr s2 i f) 0) as [|_]; [done|].
  destruct Hargs as (H1 & H2 & H3).
  destruct (set_pte_spec s2 pd (<[i := f]> T) f phys va flags) as (s3 & Hset & Hg3 & Hc3 & Hdir3 & Hmap3);
    [done|done|rewrite PD_INDEX_eq; apply lookup_insert_eq|by rewrite PD_INDEX_eq|done..|].
  rewrite PD_INDEX_eq in Hset. fold i in Hset.
  exists s3, f. split_and!; [done| |done| | | | |].
  - constructor; [done|by rewrite (proj1 Hc3), Hp2|].
    intros j g [[<- <-]|[Hne Hj]]%lookup_insert_Some; [apply lookup_insert_eq|].
    rewrite lookup_insert_ne by (intros ->; by apply (ff_new _ _ Hff j)).
    by apply (ps_owned _ _ _ _ Hs j).
  - rewrite (proj1 Hc3), Hp2. by rewrite (proj1 Hc1) in Hgeo.
  - destruct Hc3 as (_ & _ & ->). rewrite He2. apply Hc1.
  - intros j Hj Hji. rewrite Hdir3, Hdir2 by lia. by rewrite Hm1.
  - rewrite Hdir3 by lia. done.
  - intros q Hq Hqw. rewrite Hmap3 by done. case_decide; [done|].
    rewrite Hmap2 by (done || (unfold window; intros ->; apply Hqw; Z.div_mod_to_equations; lia)).
    unfold mapping. by rewrite Hm1.
Qed.

(** The page table is there. *)
Lemma map_page_old f :
  T !! i = Some f ->
  if decide (Z.land flags PG_CONSISTENT_MASK =
             Z.land (word (mem (cpu s)) (pd + 4 * i)) PG_CONSISTENT_MASK) then
    match mapping s pd (page_of va) with
    | Some _ => map_page phys va flags s =
                  Err (Panic "overwriting an already present mapping!")
    | None => exists s', map_page phys va flags s = Ok (true, s') /\ pg_state s' pd T A /\
                same_config s s' /\ same_dir pd (-1) s s' /\
                remapped pd s s' (page_of va) (Some phys)
    end
  else exists s', map_page phys va flags s = Ok (false, s') /\ pg_state s' pd T A /\
         same_config s s' /\ mem (cpu s') = mem (cpu s).
Proof.
  intros HT. pose proof dir_index as Hi. destruct map_page_start as (s1 & Hg1 & Hc1 & Hm1 & ->).
  pose proof (tr_entry _ _ _ (g_tables _ _ _ _ (ps_good _ _ _ _ Hs)) i ltac:(lia)) as Hent.
  rewrite HT in Hent. unfold present, frame_of in Hent. cbv zeta.
  destruct (Z.land (word (mem (cpu s)) (pd + 4 * i)) 1 =? 0) eqn:Hpr; [done|].
  cbn [negb] in Hent.
  destruct (read_dir _ s1 pd T i Hg1 ltac:(lia) ltac:(tauto)) as (s2 & -> & Hm2 & Hg2 & Hc2).
  cbn [mbind res_bind]. rewrite Hm1.
  assert (same_config s s2) as Hc02 by (by eapply same_config_trans).
  destruct (Z.eqb_spec (Z.land flags PG_CONSISTENT_MASK)
    (Z.land (word (mem (cpu s)) (pd + 4 * i)) PG_CONSISTENT_MASK)) as [Heq|Hneq]; cbn [negb].
  2:{ rewrite decide_False by done. exists s2. split_and!; [done| |done|by rewrite Hm2].
      apply (pg_state_config s); [done|apply Hc02|done]. }
  rewrite decide_True by done.
  assert (exists s3, (if paging_enabled s2 then mret (self_map i, s2)
       else '(pde, s) ← read_word (page_directory s2) i s2;
            mret (Z.land pde PDE_MASK_ADDR, s)) = Ok (table_ptr s3 i f, s3) /\
     good (fun _ => False) s3 pd T /\ same_config s s3 /\ mem (cpu s3) = mem (cpu s))
    as (s3 & -> & Hg3 & Hc3 & Hm3).
  { unfold table_ptr. destruct (paging_enabled s2) eqn:Hen.
    - exists s2. rewrite Hen. split_and!; [done|done|done|by rewrite Hm2].
    - destruct (read_dir _ s2 pd T i Hg2 ltac:(lia) ltac:(tauto)) as (s3 & -> & Hm3 & Hg3 & Hc3).
      exists s3. pose proof Hc3 as (_ & _ & He3). rewrite He3, Hen. cbn.
      rewrite Hm2, Hm1. injection Hent as Hent. unfold PDE_MASK_ADDR. rewrite <- Hent.
      split_and!; [done|done|by eapply same_config_trans|by rewrite Hm3, Hm2]. }
  cbn [mbind res_bind].
  assert (0 <= PT_INDEX va < 1024) as Hk.
  { rewrite PT_INDEX_eq. apply Z.mod_pos_bound. lia. }
  destruct (read_table _ s3 pd T i f (PT_INDEX va) Hg3 HT Hk ltac:(tauto))
    as (s4 & -> & Hm4 & Hg4 & Hc4). cbn [mbind res_bind]. rewrite Hm3.
  assert (same_config s s4) as Hc04 by (by eapply same_config_trans).
  unfold mapping. rewrite (walk_tables _ pd T) by (apply Hs || by apply page_of_range).
  fold i. rewrite HT. cbn. rewrite <- PT_INDEX_eq. unfold present.
  destruct (Z.land (word (mem (cpu s)) (f + 4 * PT_INDEX va)) 1 =? 0) eqn:Hpte; cbn [negb]; [|done].
  destruct Hargs as (H1 & H2 & H3).
  destruct (set_pte_spec s4 pd T f phys va flags) as (s5 & Hset & Hg5 & Hc5 & Hdir5 & Hmap5);
    [done|done|by rewrite PD_INDEX_eq|by rewrite PD_INDEX_eq|done..|].
  rewrite PD_INDEX_eq in Hset. fold i in Hset.
  rewrite <- (table_ptr_config s3 s4) by done. rewrite Hset.
  assert (same_config s s5) as Hc05 by (by eapply same_config_trans).
  exists s5. split_and!; [done|apply (pg_state_config s); [done|apply Hc05|done]|done| |].
  { intros j Hj Hji. by rewrite Hdir5, Hm4, Hm3. }
  intros q Hq Hqw. rewrite Hmap5 by done. case_decide; [done|].
  unfold mapping. by rewrite Hm4, Hm3.
Qed.
End MapPage.

(** ** [unmap_page] *)

Section UnmapPage.
Context (s : sys) (pd : Z) (T A : gmap Z Z) (Hs : pg_state s pd T A).
Context (va : Z) (Hvu : is_u32 va).

Let i := page_of va / 1024.

Lemma unmap_pte_cleared pte :
  present (Z.land pte (u32 (Z.lnot (Z.lor PTE_MASK_PRESENT PTE_MASK_ADDR)))) = false.
Proof.
  unfold present. rewrite <- Z.land_assoc.
  change (Z.land (u32 (Z.lnot (Z.lor PTE_MASK_PRESENT PTE_MASK_ADDR))) 1) with 0.
  by rewrite Z.land_0_r.
Qed.

Lemma unmap_page_spec :
  aligned va -> i <> 1023 ->
  match mapping s pd (page_of va) with
  | Some _ => exists s', unmap_page va s = Ok (true, s') /\ pg_state s' pd T A /\
                same_config s s' /\ same_dir pd (-1) s s' /\
                remapped pd s s' (page_of va) None
  | None => exists s', unmap_page va s = Ok (false, s') /\ pg_state s' pd T A /\
                same_config s s' /\ mem (cpu s') = mem (cpu s)
  end.
Proof.
  intros Hal Hne. pose proof (dir_index va Hvu Hne) as Hi. fold i in Hi.
  pose proof (page_of_range va Hvu) as Hpr.
  unfold mapping. rewrite (walk_tables _ pd T) by (apply Hs || done). fold i.
  unfold unmap_page. rewrite (proj2 (page_offset_zero va Hvu)) by done.
  rewrite PD_INDEX_eq. fold i. destruct (Z.eqb_spec i 1023) as [|_]; [done|].
  unfold PDE_PRESENT.
  destruct (read_dir _ s pd T i (ps_good _ _ _ _ Hs) ltac:(lia) ltac:(tauto))
    as (s1 & -> & Hm1 & Hg1 & Hc1).
  cbn [mbind res_bind mret res_ret]. change PDE_MASK_PRESENT with 1.
  rewrite (present_read _ pd T) by (apply Hs || lia).
  destruct (T !! i) as [f|] eqn:HT.
  2:{ cbn. exists s1. split_and!; [done| |done|done].
      apply (pg_state_config s); [done|apply Hc1|done]. }
  rewrite bool_decide_true by done. cbn [negb].
  assert (exists s2, (if paging_enabled s1 then mret (self_map i, s1)
       else '(pde, s) ← read_word (page_directory s1) i s1;
            mret (Z.land pde PDE_MASK_ADDR, s)) = Ok (table_ptr s2 i f, s2) /\
     good (fun _ => False) s2 pd T /\ same_config s s2 /\ mem (cpu s2) = mem (cpu s))
    as (s2 & -> & Hg2 & Hc2 & Hm2).
  { unfold table_ptr. destruct (paging_enabled s1) eqn:Hen.
    - exists s1. rewrite Hen. done.
    - destruct (read_dir _ s1 pd T i Hg1 ltac:(lia) ltac:(tauto)) as (s2 & -> & Hm2 & Hg2 & Hc2).
      exists s2. pose proof Hc2 as (_ & _ & He2). rewrite He2, Hen. cbn.
      pose proof (tr_entry _ _ _ (g_tables _ _ _ _ Hg1) i ltac:(lia)) as Hent.
      rewrite HT in Hent. destruct (present _); [|done]. injection Hent as Hent.
      unfold PDE_MASK_ADDR. fold (frame_of (word (mem (cpu s1)) (pd + 4 * i))).
      rewrite <- Hent.
      split_and!; [done|done|by eapply same_config_trans|by rewrite Hm2]. }
  cbn [mbind res_bind option_bind].
  assert (0 <= PT_INDEX va < 1024) as Hk.
  { rewrite PT_INDEX_eq. apply Z.mod_pos_bound. lia. }
  destruct (read_table _ s2 pd T i f (PT_INDEX va) Hg2 HT Hk ltac:(tauto))
    as (s3 & -> & Hm3 & Hg3 & Hc3). cbn [mbind res_bind]. rewrite Hm2.
  assert (same_config s s3) as Hc03 by (by eapply same_config_trans).
  rewrite <- PT_INDEX_eq. unfold present. change PTE_MASK_PRESENT with 1.
  destruct (Z.land (word (mem (cpu s)) (f + 4 * PT_INDEX va)) 1 =? 0) eqn:Hpte; cbn [negb].
  { exists s3. split_and!; [done| |done|by rewrite Hm3].
    apply (pg_state_config s); [done|apply Hc03|done]. }
  rewrite <- (table_ptr_config s2 s3) by done.
  destruct (read_table _ s3 pd T i f (PT_INDEX va) Hg3 HT Hk ltac:(tauto))
    as (s4 & -> & Hm4 & Hg4 & Hc4). cbn [mbind res_bind].
  rewrite <- (table_ptr_config s3 s4) by done.
  set (v := Z.land _ (u32 _)).
  destruct (write_table _ s4 pd T i f (PT_INDEX va) v Hg4 HT Hne Hk ltac:(tauto))
    as (s5 & -> & Hm5 & Hg5 & Hc5). cbn [mbind res_bind mret res_ret].
  destruct (store_pte (mem (cpu s4)) pd T (g_tables _ _ _ _ Hg4) i f (PT_INDEX va) v HT Hne Hk)
    as [_ Hw].
  assert (page_of va = 1024 * i + PT_INDEX va) as Hp.
  { rewrite PT_INDEX_eq. apply page_split. }
  assert (same_config s (flush_page va s5)) as Hc05.
  { eapply same_config_trans; [exact Hc03|]. eapply same_config_trans; [exact Hc4|].
    eapply same_config_trans; [exact Hc5|]. apply same_config_set. }
  exists (flush_page va s5). split_and!; [done| |done| |].
  - apply (pg_state_config s); [|apply Hc05|done]. apply flush_page_good.
    eapply good_weaken; [|exact Hg5]. cbv beta. intros p [[]|Hpe].
    right. rewrite Hpe, <- Hp. done.
  - intros j Hj _. cbn [cpu flush_page set_cpu invalidate_tlb_page set_tlb mem]. rewrite Hm5.
    rewrite (store_pte_dir _ pd T (g_tables _ _ _ _ Hg4) i) by done. by rewrite Hm4, Hm3, Hm2.
  - intros q Hq Hqw. unfold mapping. cbn [cpu flush_page set_cpu invalidate_tlb_page set_tlb mem].
    rewrite Hm5, Hw, Hm4, Hm3, Hm2, Hp by done. case_decide; [|done].
    assert (present v = false) as ->; [apply unmap_pte_cleared|done].
Qed.
End UnmapPage.

(** ** What the processor sees *)

(** With paging on, an access goes where the tables say, TLB or not. *)
Lemma translate_mapping s pd T va :
  good (fun _ => False) s pd T -> paging_enabled s = true -> is_u32 va ->
  match mapping s pd (page_of va) with
  | Some f => exists c, translate va (cpu s) = Ok (f + va mod 4096, c) /\
                good (fun _ => False) (set_cpu c s) pd T /\ mem c = mem (cpu s)
  | None => translate va (cpu s) = Err page_fault
  end.
Proof.
  intros [Ht Hd Hm] He Hva. rewrite He in Hm. destruct Hm as (Hpg & Hcr & Hc).
  unfold mapping, translate. rewrite Hpg, Hcr. fold (page_of va).
  pose proof (page_of_range va Hva) as Hp.
  destruct (tlb (cpu s) !! page_of va) as [g|] eqn:Htlb.
  - destruct (Hc _ _ Htlb ltac:(tauto)) as [_ ->]. exists (cpu s).
    split_and!; [done| |done]. constructor; cbn; [done|done|]. by rewrite He.
  - destruct (walk _ pd _) as [f|] eqn:Hw; [|done]. eexists. split; [done|].
    split; [|done]. constructor; cbn; [done|done|]. rewrite He.
    split_and!; [done|done|]. intros v g Hg Hv. cbn in Hg.
    apply lookup_insert_Some in Hg as [[<- <-]|[_ Hg]]; [done|]. by apply Hc.
Qed.
