(* ===== verification/PagingBoot.v ===== *)
(** * Enabling paging

    [paging_setup()]: with enough free frames and ranges that do not overlap, the
    kernel runs with paging enabled on exactly the identity mapping of its image,
    the video memory, the allocator's metadata and the module. *)
From S2P Require Import Prelude Page Pfa PfaSpec PfaRun Pmm PfaInit Mmu Paging PagingSpec.

(** ** Enough frames *)

(** At least [n] frames are free. *)
Definition enough (s : sys) (A : gmap Z Z) (n : nat) : Prop :=
  exists l, NoDup l /\ length l = n /\
    forall b, b ∈ l -> in_region (pfa s) b 1 /\ block_free A b 1.

Lemma enough_frame s A n : enough s A (S n) -> ~ no_frame s A.
Proof.
  intros (l & _ & Hlen & Hl) Hno. destruct l as [|b l]; [done|].
  destruct (Hl b (list_elem_of_here _ _)) as [H1 H2]. by apply (Hno b).
Qed.

Lemma block_free_insert A b f :
  aligned b -> aligned f -> b <> f -> block_free A b 1 -> block_free (<[f := 1]> A) b 1.
Proof.
  intros Hb Hf Hne Hbf j Hj (a & k & Ha & Hin). apply lookup_insert_Some in Ha as [[<- <-]|[_ Ha]].
  - unfold aligned, PAGE_SIZE in *. Z.div_mod_to_equations; lia.
  - apply (Hbf j Hj). by exists a, k.
Qed.

Lemma enough_alloc s s' A f n :
  enough s A (S n) -> aligned f -> same_geometry (pfa s) (pfa s') ->
  enough s' (<[f := 1]> A) n.
Proof.
  intros (l & Hnd & Hlen & Hl) Hf Hg.
  assert (exists l', NoDup l' /\ length l' = n /\ (forall b, b ∈ l' -> b ∈ l /\ b <> f))
    as (l' & Hnd' & Hlen' & Hl').
  { destruct (decide (f ∈ l)) as [Hin|Hin].
    - apply list_elem_of_split in Hin as (l1 & l2 & ->).
      apply NoDup_app in Hnd as (Hn1 & Hn12 & Hn2). apply NoDup_cons in Hn2 as [Hf2 Hn2].
      exists (l1 ++ l2). rewrite length_app in *. cbn in Hlen. split_and!; [|lia|].
      + apply NoDup_app. split_and!; [done| |done]. intros x Hx Hx2.
        apply (Hn12 x Hx). by apply list_elem_of_further.
      + intros b [Hb|Hb]%elem_of_app; (split; [apply elem_of_app|intros ->]).
        * by left.
        * apply (Hn12 f Hb). apply list_elem_of_here.
        * right. by apply list_elem_of_further.
        * done.
    - destruct l as [|b l]; [done|]. apply NoDup_cons in Hnd as [_ Hnd].
      exists l. split_and!; [done|by injection Hlen|]. intros x Hx.
      split; [by apply list_elem_of_further|]. intros ->. apply Hin.
      by apply list_elem_of_further. }
  exists l'. split_and!; [done|done|]. intros b Hb. destruct (Hl' b Hb) as [Hb' Hne].
  destruct (Hl b Hb') as [Hin Hbf]. split; [by eapply in_region_geometry|].
  apply block_free_insert; [|done|done|done]. by destruct Hin as (r & _ & _ & _ & ?).
Qed.

Lemma enough_less s A n k : (k <= n)%nat -> enough s A n -> enough s A k.
Proof.
  intros Hk (l & Hnd & Hlen & Hl). exists (take k l). split_and!.
  - rewrite <- (take_drop k l) in Hnd. by apply NoDup_app in Hnd as [? _].
  - rewrite length_take. lia.
  - intros b Hb. apply Hl. rewrite <- (take_drop k l). apply elem_of_app. by left.
Qed.

(** ** Identity mappings *)

(** All the tables have the flags of the identity mappings. *)
Definition all_rw (s : sys) (pd : Z) (T : gmap Z Z) : Prop :=
  forall i f, 0 <= i < 1023 -> T !! i = Some f ->
    Z.land (word (mem (cpu s)) (pd + 4 * i)) PG_CONSISTENT_MASK =
    Z.land PTE_RW_KERNEL_NOCACHE PG_CONSISTENT_MASK.

Section Tables.
Context (m0 : pfa_meta) (A0 : gmap Z Z).

(** A state of the bootstrap: some tables, [n] frames to go, and a ledger of the
    allocator that is as well formed as the first one, [A0]. *)
Record boot_state (s : sys) (pd : Z) (n : nat) (on : bool) (M : Z -> option Z) : Prop := {
  bs_state : exists T A, pg_state s pd T A /\ all_rw s pd T /\ enough s A n /\ same_geometry m0 (pfa s) /\
    (ledger_ok m0 A0 -> ledger_ok m0 A);
  bs_on : paging_enabled s = on;
  bs_map : forall q, 0 <= q < 2 ^ 20 -> q / 1024 <> 1023 -> mapping s pd q = M q;
}.

Definition update (M : Z -> option Z) (p : Z) (o : option Z) : Z -> option Z :=
  fun q => if decide (q = p) then o else M q.

(** The identity mapping of the [n] pages from [a]. *)
Definition identity_on (M : Z -> option Z) (a n : Z) : Z -> option Z :=
  fun q => if decide (a <= q < a + n) then Some (4096 * q) else M q.

Lemma boot_state_ext s pd n on M M' :
  (forall q, 0 <= q < 2 ^ 20 -> M q = M' q) ->
  boot_state s pd n on M -> boot_state s pd n on M'.
Proof.
  intros HM [H1 H2 H3]. constructor; [done|done|]. intros q Hq Hqw. rewrite <- HM by done. auto.
Qed.

Lemma map_one s pd n on M p :
  boot_state s pd (S n) on M -> 0 <= p < 1023 * 1024 -> M p = None ->
  exists s', map_page (4096 * p) (4096 * p) PTE_RW_KERNEL_NOCACHE s = Ok (true, s') /\
    boot_state s' pd n on (update M p (Some (4096 * p))).
Proof.
  intros [(T & A & Hs & Hrw & Hen & Hg & Hled) Hon HM] Hp HMp.
  assert (is_u32 (4096 * p)) as Hu by (unfold is_u32; lia).
  assert (page_of (4096 * p) = p) as Hpg.
  { unfold page_of. rewrite Z.mul_comm. by apply Z.div_mul. }
  assert (p / 1024 <> 1023) as Hwin by (Z.div_mod_to_equations; lia).
  assert (aligned (4096 * p)) as Hal.
  { unfold aligned, PAGE_SIZE. rewrite Z.mul_comm. by apply Z.mod_mul. }
  assert (map_args_ok (4096 * p) (4096 * p) PTE_RW_KERNEL_NOCACHE) as Hargs.
  { split_and!; [done|done|by vm_compute|by vm_compute]. }
  assert (forall s', remapped pd s s' p (Some (4096 * p)) ->
    forall q, 0 <= q < 2 ^ 20 -> q / 1024 <> 1023 ->
      mapping s' pd q = update M p (Some (4096 * p)) q) as Hupd.
  { intros s' Hr q Hq Hqw. rewrite Hr by done. unfold update. case_decide; [done|]. by apply HM. }
  assert (0 <= p / 1024 < 1023) as Hi by (Z.div_mod_to_equations; lia).
  destruct (T !! (p / 1024)) as [f|] eqn:HT.
  - pose proof (map_page_old s pd T A Hs (4096 * p) (4096 * p) PTE_RW_KERNEL_NOCACHE Hu Hu
      ltac:(unfold is_u32; by vm_compute) Hargs) as Hold.
    rewrite Hpg in Hold. specialize (Hold Hwin f HT).
    rewrite decide_True in Hold by (symmetry; by apply (Hrw _ f)).
    rewrite (HM p), HMp in Hold by lia.
    destruct Hold as (s' & -> & Hs' & Hc & Hd & Hr). exists s'. split; [done|].
    constructor; [|by destruct Hc as (_ & _ & ->)|by apply Hupd].
    exists T, A. split_and!; [done| | |by destruct Hc as (-> & _)|done].
    + intros j g Hj Hjg. rewrite Hd by lia. by eapply Hrw.
    + destruct (enough_less s A (S n) n ltac:(lia) Hen) as (l & ? & ? & Hl).
      exists l. split_and!; [done|done|]. destruct Hc as (-> & _). done.
  - pose proof (map_page_new s pd T A Hs (4096 * p) (4096 * p) PTE_RW_KERNEL_NOCACHE Hu Hu
      ltac:(unfold is_u32; by vm_compute) Hargs) as Hnew.
    rewrite Hpg in Hnew. specialize (Hnew Hwin HT).
    destruct Hnew as [[_ Hno]|(s' & f & -> & Hs' & Hbf & Hgeo & Hon' & Hd & Hfl & Hr)].
    { by apply enough_frame in Hen. }
    exists s'. split; [done|]. constructor; [|congruence|by apply Hupd].
    assert (aligned f) as Hfa.
    { apply (tr_dom _ _ _ (g_tables _ _ _ _ (ps_good _ _ _ _ Hs')) (p / 1024) f).
      apply lookup_insert_eq. }
    pose proof (same_geometry_trans _ _ _ Hg Hgeo) as Hg'.
    exists (<[p / 1024 := f]> T), (<[f := 1]> A). split_and!; [done| |by eapply enough_alloc|done|].
    + intros j g Hj [[<- <-]|[Hne Hjg]]%lookup_insert_Some; [done|].
      rewrite Hd by lia. by eapply Hrw.
    + destruct (pfa_repr_in_region _ _ f 1 (ps_pfa _ _ _ _ Hs') (lookup_insert_eq _ _ _)) as (_ & Hf0 & Hin).
      intros H0. apply ledger_insert; [by apply Hled|lia|unfold BAD_PAGE; lia| |done]. eapply in_region_geometry; [|done]. by apply same_geometry_sym.
Qed.

(** The loops over consecutive pages. *)
Lemma map_identity_spec why s pd m on M a n end_ :
  boot_state s pd (Z.to_nat n + m) on M -> 0 <= a -> 0 <= n -> a + n <= 1023 * 1024 ->
  4096 * (a + n - 1) < end_ <= 4096 * (a + n) ->
  (forall q, a <= q < a + n -> M q = None) ->
  exists s', map_identity why (4096 * a) end_ s = Ok s' /\
    boot_state s' pd m on (identity_on M a n).
Proof.
  intros Hs Ha Hn Hmax Hend HM. unfold map_identity.
  match goal with |- context [loop_ctl ?f ?b ?s0] =>
    destruct (loop_ctl_measure (fun '(addr, t) => exists j, 0 <= j <= n /\ addr = 4096 * (a + j) /\
        boot_state t pd (Z.to_nat (n - j) + m) on (identity_on M a j))
      (fun '(addr, _) => Z.to_nat (a + n - addr / 4096))
      (fun s' => boot_state s' pd m on (identity_on M a n)) b f s0)
      as (s' & Hl & Hs') end.
  - exists 0. split_and!; [lia|lia|lia|]. rewrite Z.sub_0_r.
    eapply boot_state_ext; [|exact Hs]. intros q Hq. unfold identity_on.
    by rewrite decide_False by lia.
  - cbn. unfold PAGE_SIZE. replace (4096 * a) with (a * 4096) by lia.
    rewrite Z.div_mul by lia. Z.div_mod_to_equations; lia.
  - intros [addr t] (j & Hj & -> & Ht).
    destruct (Z.ltb_spec (4096 * (a + j)) end_) as [Hlt|Hge].
    + right. replace (Z.to_nat (n - j) + m)%nat with (S (Z.to_nat (n - (j + 1)) + m)) in Ht by lia.
      destruct (map_one t pd _ on _ (a + j) Ht) as (t' & -> & Ht'); [lia| |].
      { unfold identity_on. rewrite decide_False by lia. apply HM. lia. }
      cbn [mbind res_bind]. eexists. split; [done|]. split.
      * exists (j + 1). split_and!; [lia|lia|unfold PAGE_SIZE; rewrite u32_small; lia|].
        eapply boot_state_ext; [|exact Ht']. intros q Hq. unfold update, identity_on.
        repeat case_decide; try lia; congruence.
      * unfold PAGE_SIZE. rewrite u32_small by lia. Z.div_mod_to_equations; lia.
    + left. exists t. split; [done|]. assert (j = n) as -> by lia.
      by rewrite Z.sub_diag in Ht.
  - exists s'. by split.
Qed.

Lemma pfa_map_metadata_spec st s pd m on M a :
  let n := pfa_meta_reserved_pages st in
  boot_state s pd (Z.to_nat n + m) on M -> meta_ptr st = 4096 * a ->
  0 <= a -> 0 <= n -> a + n <= 1023 * 1024 ->
  (forall q, a <= q < a + n -> M q = None) ->
  exists s', pfa_map_metadata st s = Ok s' /\ boot_state s' pd m on (identity_on M a n).
Proof.
  intros n Hs Hmp Ha Hn Hmax HM. unfold pfa_map_metadata. fold n.
  match goal with |- context [for_loop ?k ?i0 ?b ?s0] =>
    destruct (for_loop_inv (fun j t => boot_state t pd (Z.to_nat (n - j) + m) on
      (identity_on M a j)) b k i0 s0) as (s' & Hl & Hs') end.
  - rewrite Z.sub_0_r. eapply boot_state_ext; [|exact Hs]. intros q Hq. unfold identity_on.
    by rewrite decide_False by lia.
  - intros j t Hj Ht. rewrite Hmp. unfold PAGE_SIZE.
    rewrite (u32_small (j * 4096)), u32_small by lia.
    replace (4096 * a + j * 4096) with (4096 * (a + j)) by lia.
    replace (Z.to_nat (n - j) + m)%nat with (S (Z.to_nat (n - (j + 1)) + m)) in Ht by lia.
    destruct (map_one t pd _ on _ (a + j) Ht) as (t' & -> & Ht'); [lia| |].
    { unfold identity_on. rewrite decide_False by lia. apply HM. lia. }
    cbn [mbind res_bind]. eexists. split; [done|].
    eapply boot_state_ext; [|exact Ht']. intros q Hq. unfold update, identity_on.
    repeat case_decide; try lia; congruence.
  - exists s'. split; [done|]. rewrite Z2Nat.id, Z.add_0_l, Z.sub_diag in Hs' by lia. done.
Qed.

(** ** The ranges *)

(** A range of pages: the first and the number. *)
Definition range : Type := Z * Z.

Definition range_ok (r : range) : Prop := 0 <= r.1 /\ 0 <= r.2 /\ r.1 + r.2 <= 1023 * 1024.

Definition in_range (r : range) (q : Z) : Prop := r.1 <= q < r.1 + r.2.

#[export] Instance in_range_dec r q : Decision (in_range r q).
Proof. unfold in_range. apply _. Defined.

Definition ranges_apart (r1 r2 : range) : Prop :=
  r1.1 + r1.2 <= r2.1 \/ r2.1 + r2.2 <= r1.1.

Definition kernel_range (kernel_start kernel_end : Z) : range :=
  (kernel_start / 4096, page_up (kernel_end + 1) / 4096 - kernel_start / 4096).
Definition vram_range : range := (0xa0, 0x60).
Definition metadata_range (st : pfa_state) : range :=
  (meta_ptr st / 4096, pfa_meta_reserved_pages st).
Definition module_range (pst : pmm_state) : range :=
  if module_len pst =? 0 then (0, 0)
  else (module_addr pst / 4096,
        (module_addr pst + module_len pst + 4095) / 4096 - module_addr pst / 4096).

Definition boot_ranges (kernel_start kernel_end : Z) (st : pfa_state) (pst : pmm_state)
  : list range :=
  [kernel_range kernel_start kernel_end; vram_range; metadata_range st; module_range pst].

(** Identity on the pages of some range, nothing elsewhere. *)
Definition identity_of (rs : list range) (q : Z) : option Z :=
  if decide (Exists (fun r => in_range r q) rs) then Some (4096 * q) else None.

Definition pages_of (rs : list range) : nat := list_sum ((fun r : range => Z.to_nat r.2) <$> rs).

Lemma identity_of_snoc rs a n q :
  identity_on (identity_of rs) a n q = identity_of (rs ++ [(a, n)]) q.
Proof.
  assert (Exists (fun r => in_range r q) (rs ++ [(a, n)]) <->
    Exists (fun r => in_range r q) rs \/ a <= q < a + n) as Heq.
  { rewrite Exists_app, Exists_cons, Exists_nil. unfold in_range. cbn. tauto. }
  unfold identity_on, identity_of. repeat case_decide; (done || tauto).
Qed.

Lemma identity_of_free rs r q :
  (forall r', r' ∈ rs -> ranges_apart r' r) -> in_range r q -> identity_of rs q = None.
Proof.
  intros Hap Hq. unfold identity_of. rewrite decide_False; [done|].
  intros (r' & Hr' & Hq')%Exists_exists. specialize (Hap r' Hr').
  unfold ranges_apart, in_range in *. lia.
Qed.

(** What the boot parameters must satisfy. *)
Record setup_wf (kernel_start kernel_end : Z) (st : pfa_state) (pst : pmm_state) : Prop := {
  sw_kernel : aligned kernel_start /\ 0 <= kernel_start <= kernel_end /\
    kernel_end < 2 ^ 32 - 4096;
  sw_meta : aligned (meta_ptr st);
  sw_module : 0 <= module_addr pst /\ 0 <= module_len pst /\
    module_addr pst + module_len pst < 2 ^ 32;
  sw_ranges : Forall range_ok (boot_ranges kernel_start kernel_end st pst);
  sw_apart : pairwise ranges_apart (boot_ranges kernel_start kernel_end st pst);
}.

Section Bootstrap.
Context (kernel_start kernel_end : Z) (st : pfa_state) (pst : pmm_state).
Context (Hw : setup_wf kernel_start kernel_end st pst).

Let rs := boot_ranges kernel_start kernel_end st pst.

Lemma ranges_apart_sym r1 r2 : ranges_apart r1 r2 -> ranges_apart r2 r1.
Proof. unfold ranges_apart. tauto. Qed.

(** The range at [k] is free while the ones before it are mapped. *)
Lemma range_free k r q :
  rs !! k = Some r -> in_range r q -> identity_of (take k rs) q = None.
Proof.
  intros Hk Hq. apply (identity_of_free _ r); [|done]. intros r' Hr'.
  pose proof (sw_apart _ _ _ _ Hw) as Hp. fold rs in Hp.
  rewrite <- (take_drop_middle _ _ _ Hk) in Hp. apply pairwise_app in Hp as (_ & _ & H).
  apply H; [done|apply list_elem_of_here].
Qed.

Lemma range_at k r : rs !! k = Some r -> range_ok r.
Proof. intros Hk. eapply (Forall_lookup_1 _ _ _ _ (sw_ranges _ _ _ _ Hw) Hk). Qed.

Lemma aligned_div a : aligned a -> a = 4096 * (a / 4096).
Proof. unfold aligned, PAGE_SIZE. intros. Z.div_mod_to_equations; lia. Qed.

Lemma bootstrap_spec s pd m on :
  boot_state s pd (pages_of rs + m) on (fun _ => None) ->
  exists s', bootstrap_mapping kernel_start kernel_end st pst s = Ok s' /\
    boot_state s' pd m on (identity_of rs).
Proof.
  intros Hs. unfold bootstrap_mapping, map_range.
  destruct (sw_kernel _ _ _ _ Hw) as (Hka & Hk1 & Hk2).
  destruct (sw_module _ _ _ _ Hw) as (Hm1 & Hm2 & Hm3).
  pose proof (range_at 0 _ eq_refl) as (Hr01 & Hr02 & Hr03).
  pose proof (range_at 2 _ eq_refl) as (Hr21 & Hr22 & Hr23).
  pose proof (range_at 3 _ eq_refl) as (Hr31 & Hr32 & Hr33).
  unfold pages_of, rs, boot_ranges in Hs. cbn [fmap list_fmap list_sum foldr snd] in Hs.
  (* the kernel image *)
  rewrite (PAGE_OFFSET_small kernel_start) by (unfold is_u32; lia). rewrite Hka. cbn [Z.eqb negb].
  rewrite (u32_small (kernel_end + 1)), (page_align_small (kernel_end + 1)) by lia.
  pose proof (page_up_bounds (kernel_end + 1)) as Hup.
  pose proof (aligned_div _ (page_up_aligned (kernel_end + 1))) as Hupa.
  cbn [fst snd kernel_range] in Hr01, Hr02, Hr03, Hs.
  rewrite Nat.add_0_r, <- !Nat.add_assoc in Hs.
  assert (map_identity "failed to map" kernel_start =
    map_identity "failed to map" (4096 * (kernel_start / 4096))) as ->
    by (f_equal; by apply aligned_div).
  destruct (map_identity_spec "failed to map" s pd (Z.to_nat vram_range.2 +
    (Z.to_nat (metadata_range st).2 + (Z.to_nat (module_range pst).2 + m))) on
    (fun _ => None) (kernel_start / 4096)
    (page_up (kernel_end + 1) / 4096 - kernel_start / 4096) (page_up (kernel_end + 1)))
    as (s1 & -> & Hs1); [exact Hs|lia..|done|].
  cbn [mbind res_bind].
  assert (boot_state s1 pd (Z.to_nat vram_range.2 + (Z.to_nat (metadata_range st).2 +
    (Z.to_nat (module_range pst).2 + m))) on (identity_of (take 1 rs))) as H1.
  { eapply boot_state_ext; [|exact Hs1]. intros q _.
    change (fun _ : Z => @None Z) with (identity_of []). apply identity_of_snoc. }
  clear Hs Hs1.
  (* the video memory *)
  change (negb (PAGE_OFFSET 0xa0000 =? 0)) with false. cbn iota.
  change (page_align (0xfffff ⊕ 1)) with 0x100000. change 0xa0000 with (4096 * 0xa0).
  destruct (map_identity_spec "failed to map" s1 pd (Z.to_nat (metadata_range st).2 +
    (Z.to_nat (module_range pst).2 + m)) on _ 0xa0 0x60 0x100000 H1)
    as (s2 & -> & Hs2); [lia..|intros q Hq; by apply (range_free 1 vram_range)|].
  cbn [mbind res_bind].
  assert (boot_state s2 pd (Z.to_nat (metadata_range st).2 +
    (Z.to_nat (module_range pst).2 + m)) on (identity_of (take 2 rs))) as H2.
  { eapply boot_state_ext; [|exact Hs2]. intros q _. apply identity_of_snoc. }
  clear H1 Hs2.
  (* the metadata *)
  unfold metadata_range in Hr21, Hr22, Hr23. cbn [fst snd] in Hr21, Hr22, Hr23.
  destruct (pfa_map_metadata_spec st s2 pd (Z.to_nat (module_range pst).2 + m) on _
    (meta_ptr st / 4096) H2)
    as (s3 & -> & Hs3); [by apply aligned_div, Hw|lia..| |].
  { intros q Hq. by apply (range_free 2 (metadata_range st)). }
  cbn [mbind res_bind].
  assert (boot_state s3 pd (Z.to_nat (module_range pst).2 + m) on (identity_of (take 3 rs))) as H3.
  { eapply boot_state_ext; [|exact Hs3]. intros q _. apply identity_of_snoc. }
  clear H2 Hs3.
  (* the module *)
  unfold phys_mem_map_map_module. pose proof (fun q => range_free 3 (module_range pst) q eq_refl) as Hfree.
  unfold module_range in *. destruct (Z.eqb_spec (module_len pst) 0) as [Hl|Hl].
  - exists s3. split; [done|]. cbn [snd Z.to_nat Nat.add] in H3.
    eapply boot_state_ext; [|exact H3]. intros q _.
    transitivity (identity_of (take 3 rs ++ [(0, 0)]) q).
    + rewrite <- identity_of_snoc. unfold identity_on. by rewrite decide_False by lia.
    + unfold rs, boot_ranges, module_range. by rewrite Hl.
  - cbn [fst snd] in *. rewrite land_PAGE_MASK by (unfold is_u32; lia).
    rewrite (u32_small (module_addr pst + _)) by lia.
    replace (module_addr pst - module_addr pst mod PAGE_SIZE)
      with (4096 * (module_addr pst / 4096)) by (unfold PAGE_SIZE; Z.div_mod_to_equations; lia).
    destruct (map_identity_spec "failed to map page" s3 pd m on _ (module_addr pst / 4096) _
      (module_addr pst + module_len pst) H3) as (s4 & -> & Hs4);
      [lia|lia|lia|Z.div_mod_to_equations; lia|exact Hfree|].
    exists s4. split; [done|]. eapply boot_state_ext; [|exact Hs4]. intros q _.
    rewrite identity_of_snoc. unfold rs, boot_ranges, module_range.
    destruct (Z.eqb_spec (module_len pst) 0); [done|]. done.
Qed.
End Bootstrap.

End Tables.

(** ** [paging_setup] *)

(** A store before paging is enabled. *)
Lemma write_word_off p i v s :
  cr0_pg (cr0 (cpu s)) = false -> 0 <= p -> 0 <= i -> p + 4 * i < 2 ^ 32 ->
  write_word p i v s = Ok (set_cpu (set_mem (<[p + 4 * i := v]>) (cpu s)) s).
Proof.
  intros Hpg Hp Hi Hlt. unfold write_word, store32, translate, word_at.
  rewrite Hpg, u32_small by lia. done.
Qed.

(** The new page directory: nothing present but its own last entry. *)
Lemma new_directory s pd A :
  cr0_pg (cr0 (cpu s)) = false -> paging_enabled s = false ->
  pfa_repr (pfa s) A -> A !! pd = Some 1 -> aligned pd -> 0 < pd < 2 ^ 32 ->
  exists s1 s2,
    for_loop 1024 0 (fun entry s => write_word pd entry PDE_RW_KERNEL_NOCACHE s) s = Ok s1 /\
    write_word (pd ⊕ (PAGE_SIZE / 4 - 1) * 4) 0
      (Z.lor (Z.lor pd PDE_RW_KERNEL_NOCACHE) PDE_MASK_PRESENT) s1 = Ok s2 /\
    pg_state (mk_sys (cpu s2) (pfa s2) pd (paging_enabled s2)) pd {[1023 := pd]} A /\
    pfa s2 = pfa s /\ paging_enabled s2 = false.
Proof.
  intros Hpg Hen Hr HA Hal Hpd.
  assert (pd <= 2 ^ 32 - 4096) as Hpd' by (unfold aligned, PAGE_SIZE in Hal; Z.div_mod_to_equations; lia).
  destruct (for_loop_inv (fun j t => cr0_pg (cr0 (cpu t)) = false /\ same_config s t /\
    forall k, 0 <= k < j -> word (mem (cpu t)) (pd + 4 * k) = PDE_RW_KERNEL_NOCACHE)
    (fun entry s => write_word pd entry PDE_RW_KERNEL_NOCACHE s) 1024 0 s)
    as (s1 & Hs1 & Hpg1 & Hc1 & Hw1).
  - split_and!; [done|done|lia].
  - intros j t Hj (Hpgt & Hct & Hwt). rewrite write_word_off by (done || lia).
    eexists. split; [done|]. split_and!; [done|by eapply same_config_trans|].
    intros k Hk. cbn. destruct (decide (k = j)) as [->|]; [apply word_insert_eq|].
    rewrite word_insert_ne by lia. apply Hwt. lia.
  - exists s1. change ((PAGE_SIZE / 4 - 1) * 4) with 4092.
    rewrite (u32_small (pd + 4092)) by lia. rewrite write_word_off by (done || lia).
    eexists. split_and!; [done|done| |apply Hc1|cbn; destruct Hc1 as (_ & _ & ->); done].
    destruct Hc1 as (Hp1 & _ & He1). rewrite Z.mul_0_r, Z.add_0_r. cbn [cpu set_cpu pfa paging_enabled].
    set (v := Z.lor (Z.lor pd PDE_RW_KERNEL_NOCACHE) PDE_MASK_PRESENT).
    assert (present v = true /\ frame_of v = pd) as [Hv1 Hv2].
    { unfold v, present, frame_of. change PDE_MASK_PRESENT with 1. rewrite present_set.
      split; [done|]. rewrite <- Z.lor_assoc. apply entry_addr; [unfold is_u32; lia|done|].
      by vm_compute. }
    constructor; [constructor| |].
    + cbn. constructor.
      * intros i Hi. destruct (decide (i = 1023)) as [->|Hne].
        { rewrite lookup_singleton_eq. replace (pd + 4 * 1023) with (pd + 4092) by lia.
          by rewrite word_insert_eq, Hv1, Hv2. }
        rewrite lookup_singleton_ne, word_insert_ne, Hw1 by lia. by vm_compute.
      * intros i f [<- <-]%lookup_singleton_Some. split_and!; (done || lia).
      * apply lookup_singleton_eq.
      * intros i j f [<- _]%lookup_singleton_Some [<- _]%lookup_singleton_Some. done.
    + unfold table_ptr. cbn. by rewrite He1, Hen.
    + cbn. by rewrite He1, Hen.
    + cbn. by rewrite Hp1.
    + intros i f [<- <-]%lookup_singleton_Some. done.
Qed.

(** Switching paging on: the mapping stays, and the TLB starts empty. *)
Lemma enable_paging s pd T A :
  pg_state s pd T A -> paging_enabled s = false -> is_u32 pd -> aligned pd ->
  exists s1, load_page_directory pd s = (true, s1) /\
    let s2 := mk_sys (write_cr0 (set_cr0_pg (read_cr0 (cpu s1))) (cpu s1)) (pfa s1) 0xfffff000 true in
    pg_state s2 pd T A /\ mem (cpu s2) = mem (cpu s) /\ pfa s1 = pfa s.
Proof.
  intros [[Ht Hd Hm] Hr Ho] Hen Hu Hal. unfold load_page_directory.
  rewrite PAGE_OFFSET_small by done. rewrite Hal. cbn [Z.eqb negb].
  eexists. split; [done|]. cbv zeta. split; [|done]. constructor; [|done|done].
  constructor; [done|by vm_compute|]. cbn [paging_enabled cpu]. split_and!.
  - apply Z.setbit_eq. lia.
  - cbn [cr3 write_cr0 write_cr3 set_cpu cpu]. unfold set_cr3_pdb. unfold is_u32, aligned, PAGE_SIZE in *.
    rewrite Z.shiftr_div_pow2 by lia. change (2 ^ 12) with 4096.
    pose proof (Z.mod_pos_bound (read_cr3 (cpu s)) 4096 ltac:(lia)).
    rewrite (Z.mod_small (pd / 4096)) by (Z.div_mod_to_equations; lia).
    replace (pd / 4096 * 4096) with pd by (Z.div_mod_to_equations; lia).
    rewrite land_addr by (unfold is_u32; Z.div_mod_to_equations; lia).
    rewrite Z.add_mod, Hal, Z.add_0_r, !Z.mod_mod by lia. lia.
  - intros p f Hp. cbn in Hp. by rewrite lookup_empty in Hp.
Qed.

Lemma paging_setup_spec kernel_start kernel_end st pst s A m :
  setup_wf kernel_start kernel_end st pst ->
  cr0_pg (cr0 (cpu s)) = false -> paging_enabled s = false -> pfa_repr (pfa s) A ->
  enough s A (1 + (pages_of (boot_ranges kernel_start kernel_end st pst) + m)) ->
  exists s' pd, paging_setup kernel_start kernel_end st pst s = Ok s' /\
    boot_state (pfa s) A s' pd m true (identity_of (boot_ranges kernel_start kernel_end st pst)).
Proof.
  intros Hw Hpg Hen Hr Hfr. unfold paging_setup.
  destruct (pfa_alloc_spec (pfa s) A 1 Hr ltac:(lia))
    as (pd & m' & -> & Hg & [(Hf & Hin & Hbf & Hr')|(-> & -> & Hno)]); cbn [mbind res_bind].
  2:{ exfalso. by apply (enough_frame _ _ _ Hfr). }
  destruct (Z.eqb_spec pd 0) as [|_]; [done|].
  assert (aligned pd) as Hal by (by destruct Hin as (r & _ & _ & _ & ?)).
  destruct (pfa_repr_u32 _ _ pd 1 Hr' (lookup_insert_eq _ _ _)) as [Hu _].
  set (s0 := mk_sys (cpu s) m' (page_directory s) (paging_enabled s)).
  destruct (new_directory s0 pd (<[pd := 1]> A)) as (s1 & s2 & -> & Hs2 & Hst & Hp2 & He2);
    [done|done|done|apply lookup_insert_eq|done|unfold is_u32, BAD_PAGE in *; lia|].
  cbn [mbind res_bind]. cbv zeta. rewrite Hs2. cbn [mbind res_bind].
  set (s3 := mk_sys (cpu s2) (pfa s2) pd (paging_enabled s2)) in *.
  assert (boot_state (pfa s) A s3 pd (pages_of (boot_ranges kernel_start kernel_end st pst) + m) false
    (fun _ => None)) as Hb.
  { constructor; [|done|].
    - assert (same_geometry (pfa s) (pfa s3)) as Hg3 by (cbn; by rewrite Hp2).
      exists {[1023 := pd]}, (<[pd := 1]> A). split_and!; [done| | |done|].
      + intros i f Hi Hi'. apply lookup_singleton_Some in Hi' as [<- _]. lia.
      + by apply (enough_alloc s s3).
      + intros H0. by apply ledger_insert.
    - intros q Hq Hqw. unfold mapping. rewrite (walk_tables _ pd _ _ (g_tables _ _ _ _ (ps_good _ _ _ _ Hst)) Hq).
      by rewrite lookup_singleton_ne by congruence. }
  destruct (bootstrap_spec (pfa s) A kernel_start kernel_end st pst Hw s3 pd m false Hb)
    as (s4 & -> & [(T & A' & Hst4 & Hrw & Hen4 & Hg4 & Hled4) Hon4 Hmap4]). cbn [mbind res_bind].
  destruct (enable_paging s4 pd T A' Hst4 Hon4 Hu Hal) as (s5 & -> & Hst5 & Hm5 & Hp5). cbn [negb].
  eexists _, pd. split; [done|]. constructor; [|done|].
  - exists T, A'. split_and!; [done| | |cbn [pfa]; by rewrite Hp5|done].
    + intros i f Hi Hf'. rewrite Hm5. by eapply Hrw.
    + destruct Hen4 as (l & ? & ? & Hl). exists l. cbn [pfa]. by rewrite Hp5.
  - intros q Hq Hqw. unfold mapping. rewrite Hm5. by apply Hmap4.
Qed.
