(* ===== verification/PagingThms.v ===== *)
(** * Theorems of paging

    The effect of [map_page()] and [unmap_page()] on what the processor sees, in
    any interleaving with memory accesses, and the state [paging_setup()]
    establishes. *)
From S2P Require Import Prelude Page Pfa PfaSpec PfaRun Pmm PmmThms PfaInit Mmu Paging PagingSpec PagingBoot.

#[export] Instance map_args_ok_dec phys va flags : Decision (map_args_ok phys va flags).
Proof. unfold map_args_ok, aligned. apply _. Defined.

(** ** Runs *)

(** What the kernel does once paging is on: it maps and unmaps pages outside of
    the window of the page tables, and it accesses memory. *)
Inductive pg_run (s : sys) : sys -> Prop :=
  | pg_refl : pg_run s s
  | pg_map s1 phys va flags b s2 :
      pg_run s s1 -> is_u32 phys -> is_u32 va -> is_u32 flags -> page_of va / 1024 <> 1023 ->
      map_page phys va flags s1 = Ok (b, s2) -> pg_run s s2
  | pg_unmap s1 va b s2 :
      pg_run s s1 -> is_u32 va -> unmap_page va s1 = Ok (b, s2) -> pg_run s s2
  | pg_access s1 va pa c :
      pg_run s s1 -> is_u32 va -> translate va (cpu s1) = Ok (pa, c) -> pg_run s (set_cpu c s1).

Lemma map_page_state s pd T A phys va flags b s' :
  pg_state s pd T A -> is_u32 phys -> is_u32 va -> is_u32 flags -> page_of va / 1024 <> 1023 ->
  map_page phys va flags s = Ok (b, s') ->
  exists T' A', pg_state s' pd T' A' /\ paging_enabled s' = paging_enabled s.
Proof.
  intros Hs Hp Hv Hf Hw Hmap.
  destruct (decide (map_args_ok phys va flags)) as [Ha|Ha].
  2:{ rewrite map_page_bad_args in Hmap by done. simplify_eq. by exists T, A. }
  destruct (T !! (page_of va / 1024)) as [f|] eqn:HT.
  - pose proof (map_page_old s pd T A Hs phys va flags Hp Hv Hf Ha Hw f HT) as H.
    case_decide; [destruct (mapping s pd _)|].
    + by rewrite Hmap in H.
    + destruct H as (s1 & H & Hs1 & (_ & _ & Hen) & _). rewrite Hmap in H. simplify_eq.
      by exists T, A.
    + destruct H as (s1 & H & Hs1 & (_ & _ & Hen) & _). rewrite Hmap in H. simplify_eq.
      by exists T, A.
  - destruct (map_page_new s pd T A Hs phys va flags Hp Hv Hf Ha Hw HT)
      as [[H _]|(s1 & f & H & Hs1 & _ & _ & Hen & _)]; rewrite Hmap in H; [done|].
    simplify_eq. by eexists _, _.
Qed.

Lemma unmap_page_state s pd T A va b s' :
  pg_state s pd T A -> is_u32 va -> unmap_page va s = Ok (b, s') ->
  pg_state s' pd T A /\ paging_enabled s' = paging_enabled s.
Proof.
  intros Hs Hv Hun. destruct (decide (aligned va)) as [Hal|Hal].
  2:{ unfold unmap_page in Hun.
      destruct (negb (PAGE_OFFSET va =? 0)) eqn:E; [by injection Hun as <- <-|].
      by apply page_offset_zero in E. }
  destruct (decide (page_of va / 1024 = 1023)) as [Hw|Hw].
  { unfold unmap_page in Hun. rewrite (proj2 (page_offset_zero va Hv)) in Hun by done.
    by rewrite PD_INDEX_eq, Hw in Hun. }
  pose proof (unmap_page_spec s pd T A Hs va Hv Hal Hw) as H.
  destruct (mapping s pd _); destruct H as (s1 & H & Hs1 & (_ & _ & Hen) & _);
    rewrite Hun in H; by simplify_eq.
Qed.

Lemma pg_run_state s pd T A s' :
  pg_state s pd T A -> paging_enabled s = true -> pg_run s s' ->
  exists T' A', pg_state s' pd T' A' /\ paging_enabled s' = true.
Proof.
  intros Hs Hen. induction 1 as [|s1 phys va flags b s2 _ (T1 & A1 & H1 & He1) Hp Hv Hf Hw Hm
    |s1 va b s2 _ (T1 & A1 & H1 & He1) Hv Hm|s1 va pa c _ (T1 & A1 & H1 & He1) Hv Ht].
  - by exists T, A.
  - destruct (map_page_state s1 pd T1 A1 phys va flags b s2) as (T2 & A2 & H2 & He2);
      [done..|]. exists T2, A2. split; [done|congruence].
  - destruct (unmap_page_state s1 pd T1 A1 va b s2) as [H2 He2]; [done..|].
    exists T1, A1. split; [done|congruence].
  - pose proof (translate_mapping s1 pd T1 va (ps_good _ _ _ _ H1) He1 Hv) as H.
    destruct (mapping s1 pd _); [|by rewrite Ht in H].
    destruct H as (c' & H & Hg & _). rewrite Ht in H. simplify_eq.
    exists T1, A1. split; [|done]. by apply (pg_state_config s1).
Qed.

(** ** Theorems *)

(** C13. [map_page], before and after paging is enabled: bad arguments are
    refused; a missing page table is allocated (a panic when no frame is free),
    installed and cleared; an existing table is used if its flags agree, and a
    present page is never overwritten; on success exactly the page asked for is
    remapped, to the frame asked for, and the invariant of the tables holds. *)
Theorem map_page_correct s pd T A phys va flags :
  pg_state s pd T A -> is_u32 phys -> is_u32 va -> is_u32 flags ->
  page_of va / 1024 <> 1023 ->
  let i := page_of va / 1024 in
  if decide (map_args_ok phys va flags) then
    match T !! i with
    | None =>
        (map_page phys va flags s = Err (Panic "failed to create new page table") /\
         no_frame s A) \/
        exists s' f, map_page phys va flags s = Ok (true, s') /\ block_free A f 1 /\
          pg_state s' pd (<[i := f]> T) (<[f := 1]> A) /\
          remapped pd s s' (page_of va) (Some phys)
    | Some f =>
        if decide (Z.land flags PG_CONSISTENT_MASK =
                   Z.land (word (mem (cpu s)) (pd + 4 * i)) PG_CONSISTENT_MASK) then
          match mapping s pd (page_of va) with
          | Some _ => map_page phys va flags s =
                        Err (Panic "overwriting an already present mapping!")
          | None => exists s', map_page phys va flags s = Ok (true, s') /\
                      pg_state s' pd T A /\ remapped pd s s' (page_of va) (Some phys)
          end
        else exists s', map_page phys va flags s = Ok (false, s') /\ pg_state s' pd T A /\
               mem (cpu s') = mem (cpu s)
    end
  else map_page phys va flags s = Ok (false, s).
Proof.
  intros Hs Hp Hv Hf Hw i. case_decide as Ha; [|by apply map_page_bad_args].
  destruct (T !! i) as [f|] eqn:HT.
  - pose proof (map_page_old s pd T A Hs phys va flags Hp Hv Hf Ha Hw f HT) as H. fold i in H.
    case_decide; [destruct (mapping s pd _)|]; naive_solver.
  - destruct (map_page_new s pd T A Hs phys va flags Hp Hv Hf Ha Hw HT)
      as [H|(s1 & f & H & Hs1 & Hb & _ & _ & _ & _ & Hr)]; [by left|right].
    exists s1, f. by split_and!.
Qed.

(** C14. [unmap_page]: an unaligned address is refused, the window of the page
    tables is a panic, a page that is not mapped is an error without effect, and
    a mapped page, and no other, disappears from the mapping. *)
Theorem unmap_page_correct s pd T A va :
  pg_state s pd T A -> is_u32 va ->
  if decide (va mod PAGE_SIZE = 0) then
    if decide (page_of va / 1024 = 1023)
    then unmap_page va s = Err (Panic "cannot unmap page table/directory")
    else
      match mapping s pd (page_of va) with
      | Some _ => exists s', unmap_page va s = Ok (true, s') /\ pg_state s' pd T A /\
                    remapped pd s s' (page_of va) None
      | None => exists s', unmap_page va s = Ok (false, s') /\ pg_state s' pd T A /\
                    mem (cpu s') = mem (cpu s)
      end
  else unmap_page va s = Ok (false, s).
Proof.
  intros Hs Hv. case_decide as Hal; [case_decide as Hw|].
  - unfold unmap_page. rewrite (proj2 (page_offset_zero va Hv)) by done.
    by rewrite PD_INDEX_eq, Hw.
  - pose proof (unmap_page_spec s pd T A Hs va Hv Hal Hw) as H.
    destruct (mapping s pd _); naive_solver.
  - unfold unmap_page. destruct (negb (PAGE_OFFSET va =? 0)) eqn:E; [done|].
    by apply page_offset_zero in E.
Qed.

(** C15. The TLB is never stale: after any run of mappings, unmappings and
    accesses with paging on, a load reads the word of the frame the page tables
    in memory give at that point, and faults exactly when they give none. *)
Theorem no_stale_translation s pd T A s' va :
  pg_state s pd T A -> paging_enabled s = true -> pg_run s s' -> is_u32 va ->
  match mapping s' pd (page_of va) with
  | Some f => exists c, load32 va (cpu s') = Ok (word (mem (cpu s')) (f + va mod 4096), c)
  | None => load32 va (cpu s') = Err page_fault
  end.
Proof.
  intros Hs Hen Hrun Hv. destruct (pg_run_state s pd T A s' Hs Hen Hrun) as (T' & A' & Hs' & He').
  pose proof (translate_mapping s' pd T' va (ps_good _ _ _ _ Hs') He' Hv) as H. unfold load32.
  destruct (mapping s' pd _).
  - destruct H as (c & -> & _ & Hm). exists c. cbn. by rewrite Hm.
  - by rewrite H.
Qed.

(** C16. [paging_setup] with enough free frames and disjoint ranges returns with
    paging enabled on a correct set of page tables, whose mapping is the
    identity on the pages of the kernel image, the video memory, the allocator's
    metadata and the module, and nothing else. *)
Theorem paging_setup_correct kernel_start kernel_end st pst s A m :
  setup_wf kernel_start kernel_end st pst ->
  cr0_pg (cr0 (cpu s)) = false -> paging_enabled s = false -> pfa_repr (pfa s) A ->
  enough s A (1 + (pages_of (boot_ranges kernel_start kernel_end st pst) + m)) ->
  exists s' pd T A', paging_setup kernel_start kernel_end st pst s = Ok s' /\
    paging_enabled s' = true /\ pg_state s' pd T A' /\ enough s' A' m /\
    forall q, 0 <= q < 2 ^ 20 -> q / 1024 <> 1023 ->
      mapping s' pd q = identity_of (boot_ranges kernel_start kernel_end st pst) q.
Proof.
  intros Hw Hpg Hen Hr Hfr.
  destruct (paging_setup_spec kernel_start kernel_end st pst s A m Hw Hpg Hen Hr Hfr)
    as (s' & pd & H & [(T & A' & Hs & _ & Hm & _) Hon Hmap]).
  exists s', pd, T, A'. by split_and!.
Qed.

(** ** Instances *)

(** Paging is on; the directory at 0x100000 holds its own entry only. *)
Definition demo_pg : sys :=
  mk_sys (mk_machine {[ 0x100ffc := 0x10001b ]} 0x80000011 0 0x100000 0 ∅)
    (mk_meta 2 [mk_region 0x100000 4 [1; 0; 0; 0]; mk_region 0x200000 3 [0; 0; 0]])
    0xfffff000 true.

Lemma demo_pg_state : pg_state demo_pg 0x100000 {[ 1023 := 0x100000 ]} {[ 0x100000 := 1 ]}.
Proof.
  constructor; [constructor; [constructor| |]| |].
  - intros i Hi. destruct (decide (i = 1023)) as [->|Hne]; [by vm_compute|].
    rewrite lookup_singleton_ne by done. unfold word. cbn [demo_pg cpu mem].
    by rewrite lookup_singleton_ne by lia.
  - intros i f [<- <-]%lookup_singleton_Some. split_and!; [done|done|by vm_compute|done|done].
  - done.
  - intros i j f [<- _]%lookup_singleton_Some [<- _]%lookup_singleton_Some. done.
  - by vm_compute.
  - cbn [demo_pg paging_enabled]. split_and!; [done|done|]. intros p f Hp.
    cbn in Hp. by rewrite lookup_empty in Hp.
  - exists [[SUsed; SFree; SFree; SFree]; replicate 3 SFree]. split; [|by vm_compute].
    by apply (demo_segs_repr [SUsed; SFree; SFree; SFree] (replicate 3 SFree)).
  - intros i f [<- <-]%lookup_singleton_Some. apply lookup_singleton_eq.
Qed.

(** A page is mapped: its table is new. *)
Lemma demo_pg_mapped :
  exists s', map_page 0x5000 0x8000 2 demo_pg = Ok (true, s') /\
    (exists T A, pg_state s' 0x100000 T A) /\ mapping s' 0x100000 8 = Some 0x5000.
Proof.
  destruct (map_page_new demo_pg _ _ _ demo_pg_state 0x5000 0x8000 2)
    as [[H _]|(s' & f & H & Hs & _ & _ & _ & _ & _ & Hr)];
    [unfold is_u32; lia..|split_and!; by vm_compute|by vm_compute|by vm_compute| |].
  - exfalso. revert H. apply okb_Err. by vm_compute.
  - exists s'. split_and!; [done|by eexists _, _|].
    by rewrite (Hr 8) by (lia || by vm_compute).
Qed.

Lemma map_page_correct_witness :
  exists s', map_page 0x5000 0x8000 2 demo_pg = Ok (true, s') /\
    remapped 0x100000 demo_pg s' 8 (Some 0x5000).
Proof.
  pose proof (map_page_correct demo_pg _ _ _ 0x5000 0x8000 2 demo_pg_state
    ltac:(unfold is_u32; lia) ltac:(unfold is_u32; lia) ltac:(unfold is_u32; lia)
    ltac:(by vm_compute)) as H.
  cbv zeta in H. rewrite decide_True in H by (split_and!; by vm_compute).
  change ({[1023 := 0x100000]} !! (page_of 0x8000 / 1024)) with (@None Z) in H. cbn iota in H.
  destruct H as [[H _]|(s' & f & H & _ & _ & Hr)]; [exfalso; revert H; apply okb_Err; by vm_compute|].
  exists s'. by split.
Defined.

Lemma unmap_page_correct_witness :
  exists s s', unmap_page 0x8000 s = Ok (true, s') /\ mapping s' 0x100000 8 = None.
Proof.
  destruct demo_pg_mapped as (s & _ & (T & A & Hs) & Hm). exists s.
  pose proof (unmap_page_correct s 0x100000 T A 0x8000 Hs ltac:(unfold is_u32; lia)) as H.
  rewrite decide_True, decide_False in H by (by vm_compute).
  change (page_of 0x8000) with 8 in H. rewrite Hm in H. destruct H as (s' & H & _ & Hr).
  exists s'. split; [done|]. by rewrite (Hr 8) by (lia || by vm_compute).
Defined.

Lemma no_stale_translation_witness :
  exists s' c, pg_run demo_pg s' /\ load32 0x8004 (cpu s') = Ok (word (mem (cpu s')) 0x5004, c).
Proof.
  destruct demo_pg_mapped as (s & Hmap & _ & Hm).
  assert (pg_run demo_pg s) as Hrun.
  { eapply (pg_map _ demo_pg); [apply pg_refl| | | | |exact Hmap];
      [unfold is_u32; lia..|by vm_compute]. }
  pose proof (no_stale_translation demo_pg _ _ _ s 0x8004 demo_pg_state eq_refl Hrun
    ltac:(unfold is_u32; lia)) as H.
  change (page_of 0x8004) with 8 in H. rewrite Hm in H. destruct H as [c H].
  replace (0x5000 + 0x8004 mod 4096) with 0x5004 in H by (by vm_compute).
  exists s, c. exact (conj Hrun H).
Defined.

Definition demo_free : pfa_meta := mk_meta 1 [mk_region 0x201000 120 (replicate 120 PAGE_FREE)].
Definition demo_setup_st : pfa_state := mk_pfa_state demo_free 0x200000 [0x200008] 1.
Definition demo_setup : sys := mk_sys (mk_machine ∅ 0x11 0 0 0 ∅) demo_free 0 false.

Lemma demo_free_repr : pfa_repr demo_free ∅.
Proof.
  exists [replicate 120 SFree]. split; [|by vm_compute]. constructor.
  - done.
  - constructor; [|constructor]. constructor; by vm_compute.
  - intros [|i] [|j] r1 r2 Hij Hi Hj; cbn in *; done.
Qed.

Lemma demo_setup_enough : enough demo_setup ∅ 99.
Proof.
  exists ((fun i => 0x201000 + 4096 * i) <$> seqZ 0 99). split_and!.
  - apply NoDup_fmap_2; [intros i j; lia|apply NoDup_seqZ].
  - by rewrite length_fmap, length_seqZ.
  - intros b (i & -> & Hi%elem_of_seqZ)%list_elem_of_fmap. split.
    + eexists. split; [apply list_elem_of_here|]. unfold region_end, aligned, PAGE_SIZE. cbn.
      split_and!; [lia|lia|]. Z.div_mod_to_equations; lia.
    + intros j _ (a & k & H & _). by rewrite lookup_empty in H.
Qed.

Lemma paging_setup_correct_witness :
  exists s' pd, paging_setup 0x100000 0x100fff demo_setup_st demo_st demo_setup = Ok s' /\
    paging_enabled s' = true /\ mapping s' pd 0x100 = Some 0x100000 /\ mapping s' pd 0 = None.
Proof.
  destruct (paging_setup_correct 0x100000 0x100fff demo_setup_st demo_st demo_setup ∅ 0)
    as (s' & pd & T & A' & H & Hon & _ & _ & Hm).
  - constructor; [split_and!; by vm_compute|done|split_and!; by vm_compute| |].
    + repeat (apply Forall_cons; split); [..|by apply Forall_nil]; split_and!; by vm_compute.
    + let r := eval vm_compute in (boot_ranges 0x100000 0x100fff demo_setup_st demo_st) in
      change (boot_ranges 0x100000 0x100fff demo_setup_st demo_st) with r.
      cbn [pairwise]; split_and!; try done; intros y Hy; rewrite ?elem_of_cons in Hy;
        destruct_or?; subst; (try by apply not_elem_of_nil in Hy); unfold ranges_apart; cbn; lia.
  - done.
  - done.
  - apply demo_free_repr.
  - apply demo_setup_enough.
  - exists s', pd. split_and!; [done|done| |]; rewrite Hm by (lia || by vm_compute); by vm_compute.
Defined.
