(* ===== verification/Dlist.v ===== *)
(** * Circular doubly linked lists

    [kernel/include/kernel/list.h]: intrusive lists on a heap of [struct list]
    nodes, one map per field.  A node that was never written reads as [Oob].
    [lrep] says that a head represents a list of nodes; the operations refine
    the operations of [list Z]. *)
From S2P Require Import Prelude.

(** ** Operations *)

Record links := mk_links {
  prevs : gmap Z Z;
  nexts : gmap Z Z;
}.

Definition get_field (f : gmap Z Z) (p : Z) : res Z :=
  match f !! p with Some x => Ok x | None => Err Oob end.
Definition get_prev (h : links) (p : Z) : res Z := get_field (prevs h) p.
Definition get_next (h : links) (p : Z) : res Z := get_field (nexts h) p.
Definition set_prev (p x : Z) (h : links) : links := mk_links (<[p := x]> (prevs h)) (nexts h).
Definition set_next (p x : Z) (h : links) : links := mk_links (prevs h) (<[p := x]> (nexts h)).

Definition INIT_LIST_HEAD (list : Z) (h : links) : links :=
  set_prev list list (set_next list list h).

(** [container_of]: from the address of the member to that of the structure. *)
Definition container_of (ptr offset : Z) : Z := ptr ⊖ offset.

Definition list_add_between (new prev next : Z) (h : links) : links :=
  let h := set_prev next new h in
  let h := set_next new next h in
  let h := set_prev new prev h in
  set_next prev new h.

Definition list_add (new head : Z) (h : links) : res links :=
  next ← get_next h head; mret (list_add_between new head next h).

Definition list_add_tail (new head : Z) (h : links) : res links :=
  prev ← get_prev h head; mret (list_add_between new prev head h).

Definition list_del_between (prev next : Z) (h : links) : links :=
  set_next prev next (set_prev next prev h).

Definition list_del (entry : Z) (h : links) : res links :=
  prev ← get_prev h entry;
  next ← get_next h entry;
  mret (list_del_between prev next h).

Definition list_empty (h : links) (head : Z) : res bool :=
  next ← get_next h head; mret (next =? head).

(** The loops over a list; [lk] finds the nodes in the state of the loop, the
    body can leave. *)
Section loops.
Context {R S : Type} (lk : S -> links) (head : Z).

Fixpoint list_walk (fuel : nat) (body : Z -> S -> res (ctl R S)) (pos : Z) (s : S)
  : res (ctl R S) :=
  match fuel with
  | O => Err NoFuel
  | Datatypes.S fuel =>
      if pos =? head then mret (Next s)
      else
        c ← body pos s;
        match c with
        | Next s => pos ← get_next (lk s) pos; list_walk fuel body pos s
        | Leave r => mret (Leave r)
        end
  end.

Definition list_for_each (fuel : nat) (body : Z -> S -> res (ctl R S)) (s : S)
  : res (ctl R S) :=
  pos ← get_next (lk s) head; list_walk fuel body pos s.

Fixpoint list_walk_safe (fuel : nat) (body : Z -> S -> res (ctl R S)) (pos n : Z) (s : S)
  : res (ctl R S) :=
  match fuel with
  | O => Err NoFuel
  | Datatypes.S fuel =>
      if pos =? head then mret (Next s)
      else
        c ← body pos s;
        match c with
        | Next s => next ← get_next (lk s) n; list_walk_safe fuel body n next s
        | Leave r => mret (Leave r)
        end
  end.

Definition list_for_each_safe (fuel : nat) (body : Z -> S -> res (ctl R S)) (s : S)
  : res (ctl R S) :=
  pos ← get_next (lk s) head;
  n ← get_next (lk s) pos;
  list_walk_safe fuel body pos n s.

(** [list_for_each_entry]: the body is given the containing structure. *)
Definition list_for_each_entry (offset : Z) (fuel : nat) (body : Z -> S -> res (ctl R S))
    (s : S) : res (ctl R S) :=
  list_for_each fuel (fun pos s => body (container_of pos offset) s) s.

(** [list_for_each_entry_safe]: the same when the body may remove the element. *)
Definition list_for_each_entry_safe (offset : Z) (fuel : nat) (body : Z -> S -> res (ctl R S))
    (s : S) : res (ctl R S) :=
  list_for_each_safe fuel (fun pos s => body (container_of pos offset) s) s.
End loops.

(** ** The lists represented *)

(** The edges of the path that starts at [a], goes through [l] and ends at [e]. *)
Fixpoint edges (a : Z) (l : list Z) (e : Z) : list (Z * Z) :=
  match l with
  | [] => [(a, e)]
  | b :: l => (a, b) :: edges b l e
  end.

Definition edge_ok (h : links) (e : Z * Z) : Prop :=
  nexts h !! e.1 = Some e.2 /\ prevs h !! e.2 = Some e.1.

(** The nodes from [head] around to [head]. *)
Definition lrep (h : links) (head : Z) (l : list Z) : Prop :=
  NoDup (head :: l) /\ Forall (edge_ok h) (edges head l head).

Lemma edges_fst a l e : (edges a l e).*1 = a :: l.
Proof. revert a; induction l as [|b l IH]; intros a; [done|]. cbn. by rewrite IH. Qed.

Lemma edges_snd a l e : (edges a l e).*2 = l ++ [e].
Proof. revert a; induction l as [|b l IH]; intros a; [done|]. cbn. by rewrite IH. Qed.

Lemma edges_app a l1 x l2 e : edges a (l1 ++ x :: l2) e = edges a l1 x ++ edges x l2 e.
Proof. revert a; induction l1 as [|b l1 IH]; intros a; [done|]. cbn. by rewrite IH. Qed.

Definition last_of (a : Z) (l : list Z) : Z := default a (last l).
Definition first_of (l : list Z) (e : Z) : Z := match l with [] => e | x :: _ => x end.

Lemma last_of_in head l : last_of head l ∈ head :: l.
Proof.
  unfold last_of. destruct (last l) as [x|] eqn:E; [|apply list_elem_of_here].
  apply last_Some_elem_of in E. by apply list_elem_of_further.
Qed.

Lemma first_of_in head l : first_of l head ∈ head :: l.
Proof. destruct l; cbn; rewrite ?elem_of_cons; tauto. Qed.

(** The end of a path changes its last edge only, its start the first one. *)
Lemma edges_last a l : exists E, forall e, edges a l e = E ++ [(last_of a l, e)].
Proof.
  revert a; induction l as [|b l IH]; intros a; [by exists []|].
  destruct (IH b) as (E & H). exists ((a, b) :: E). intros e. cbn [edges]. rewrite H.
  unfold last_of. rewrite last_cons. by destruct (last l).
Qed.

Lemma edges_first l e : exists E, forall a, edges a l e = (a, first_of l e) :: E.
Proof. destruct l as [|b l]; [by exists []|]. by exists (edges b l e). Qed.

(** A circular path through [l1 ++ l2], and where [l1] meets [l2]. *)
Lemma edges_split head l1 l2 : exists E1 E2,
  let a := last_of head l1 in let b := first_of l2 head in
  edges head (l1 ++ l2) head = E1 ++ (a, b) :: E2 /\
  forall x, edges head (l1 ++ x :: l2) head = E1 ++ (a, x) :: (x, b) :: E2.
Proof.
  destruct (edges_last head l1) as (E1 & H1), (edges_first l2 head) as (E2 & H2).
  exists E1, E2. split.
  - destruct l2 as [|y l2].
    + rewrite app_nil_r, H1. pose proof (H2 head) as H. cbn in H. by simplify_eq.
    + rewrite edges_app, H1, <- app_assoc. pose proof (H2 head) as H. cbn in H. by simplify_eq.
  - intros x. by rewrite edges_app, H1, H2, <- app_assoc.
Qed.

Lemma lrep_edges h head l E1 a b E2 :
  lrep h head l -> edges head l head = E1 ++ (a, b) :: E2 ->
  get_next h a = Ok b /\ get_prev h b = Ok a /\
  Forall (fun e => edge_ok h e /\ e.1 <> a /\ e.2 <> b) (E1 ++ E2).
Proof.
  intros [Hnd Hf] HE. pose proof (edges_fst head l head) as H1.
  pose proof (edges_snd head l head) as H2. rewrite HE in Hf, H1, H2.
  assert (NoDup (l ++ [head])) as Hnd2 by (by rewrite Permutation_app_comm).
  rewrite <- H1 in Hnd. rewrite <- H2 in Hnd2. rewrite fmap_app, fmap_cons in Hnd, Hnd2.
  rewrite !Forall_app, Forall_cons in Hf. destruct Hf as (HE1 & [Hn Hp] & HE2).
  cbn in Hn, Hp. unfold get_next, get_prev, get_field. rewrite Hn, Hp. split_and!; [done|done|].
  apply NoDup_app in Hnd as (_ & Hd & (Ha & _)%NoDup_cons).
  apply NoDup_app in Hnd2 as (_ & Hd2 & (Hb & _)%NoDup_cons). cbn in *.
  apply Forall_forall. intros [x y] Hx. cbn.
  assert (edge_ok h (x, y)) as Hok.
  { apply elem_of_app in Hx as [Hx|Hx]; [by eapply Forall_forall in HE1|by eapply Forall_forall in HE2]. }
  split_and!; [done| |]; intros ->; apply elem_of_app in Hx as [Hx|Hx].
  - apply (Hd a); [by apply (list_elem_of_fmap_2 fst) in Hx|apply list_elem_of_here].
  - apply Ha. by apply (list_elem_of_fmap_2 fst) in Hx.
  - apply (Hd2 b); [by apply (list_elem_of_fmap_2 snd) in Hx|apply list_elem_of_here].
  - apply Hb. by apply (list_elem_of_fmap_2 snd) in Hx.
Qed.

Lemma edges_nodes a l e x y : (x, y) ∈ edges a l e -> x ∈ a :: l /\ y ∈ l ++ [e].
Proof.
  intros H. rewrite <- (edges_fst a l e), <- (edges_snd a l e).
  split; [by apply (list_elem_of_fmap_2 fst) in H|by apply (list_elem_of_fmap_2 snd) in H].
Qed.

Lemma elem_of_mid {A} (x y : A) l1 l2 : x ∈ l1 ++ l2 -> x ∈ l1 ++ y :: l2.
Proof. rewrite !elem_of_app, elem_of_cons. tauto. Qed.

(** [list_add] and [list_add_tail] between two neighbours. *)
Lemma lrep_insert h head l1 l2 new :
  lrep h head (l1 ++ l2) -> new ∉ head :: l1 ++ l2 ->
  let a := last_of head l1 in let b := first_of l2 head in
  get_next h a = Ok b /\ get_prev h b = Ok a /\
  lrep (list_add_between new a b h) head (l1 ++ new :: l2).
Proof.
  intros Hr Hnew a b. destruct (edges_split head l1 l2) as (E1 & E2 & H & Hx).
  fold a b in H, Hx. destruct (lrep_edges _ _ _ _ _ _ _ Hr H) as (Hn & Hp & Hf).
  assert (forall x y, (x, y) ∈ edges head (l1 ++ l2) head -> x <> new /\ y <> new) as Hne.
  { intros x y [Hu Hv]%edges_nodes. split; intros ->; apply Hnew; [done|].
    revert Hv. rewrite elem_of_app, !elem_of_cons. pose proof (not_elem_of_nil new). tauto. }
  split_and!; [done|done|]. destruct Hr as [Hnd _]. split.
  { rewrite <- Permutation_middle. rewrite Permutation_swap. by constructor. }
  assert (Forall (edge_ok (list_add_between new a b h)) (E1 ++ E2)) as Hok.
  { rewrite Forall_forall in Hf |- *. intros [x y] Hxy.
    destruct (Hf _ Hxy) as ([H1 H2] & H3 & H4).
    destruct (Hne x y) as [??]; [rewrite H; by apply elem_of_mid|].
    unfold edge_ok, list_add_between. cbn in *. by rewrite !lookup_insert_ne. }
  apply Forall_app in Hok as [Ho1 Ho2]. destruct (Hne a b) as [Ha Hb].
  { rewrite H. apply elem_of_app; right. apply list_elem_of_here. }
  rewrite Hx. apply Forall_app; split; [done|].
  apply Forall_cons; split; [|apply Forall_cons; split; [|done]]; split; cbn.
  - apply lookup_insert_eq.
  - apply lookup_insert_eq.
  - rewrite lookup_insert_ne by done. apply lookup_insert_eq.
  - rewrite lookup_insert_ne by done. apply lookup_insert_eq.
Qed.

(** [list_del] of a node. *)
Lemma lrep_delete h head l1 x l2 :
  lrep h head (l1 ++ x :: l2) ->
  exists a b, get_prev h x = Ok a /\ get_next h x = Ok b /\
    lrep (list_del_between a b h) head (l1 ++ l2) /\ a ∈ head :: l1 /\ b ∈ head :: l2.
Proof.
  intros Hr. destruct (edges_split head l1 l2) as (E1 & E2 & H & Hx). cbv zeta in H, Hx.
  exists (last_of head l1), (first_of l2 head).
  destruct (lrep_edges _ _ _ _ _ _ _ Hr (Hx x)) as (_ & Hp & Hf).
  pose proof (Hx x) as Hx2. rewrite (cons_middle (_, x)), app_assoc in Hx2.
  destruct (lrep_edges _ _ _ _ _ _ _ Hr Hx2) as (Hn & _ & Hf2).
  split_and!; [done|done| |apply last_of_in|apply first_of_in]. destruct Hr as [Hnd _]. split.
  { rewrite <- Permutation_middle, Permutation_swap in Hnd. by apply NoDup_cons in Hnd as [_ ?]. }
  rewrite H.
  assert (Forall (edge_ok (list_del_between (last_of head l1) (first_of l2 head) h)) (E1 ++ E2)) as Hok.
  { rewrite Forall_forall in Hf, Hf2 |- *. intros [u v] Huv.
    destruct (Hf (u, v)) as ([H1 H2] & H3 & _).
    { revert Huv. rewrite !elem_of_app, elem_of_cons. tauto. }
    destruct (Hf2 (u, v)) as (_ & _ & H4).
    { revert Huv. rewrite !elem_of_app. tauto. }
    unfold edge_ok, list_del_between. cbn in *. by rewrite !lookup_insert_ne. }
  apply Forall_app in Hok as [Ho1 Ho2]. apply Forall_app; split; [done|].
  constructor; [|done]. split; cbn; apply lookup_insert_eq.
Qed.

Lemma lrep_first h head l : lrep h head l -> get_next h head = Ok (first_of l head).
Proof.
  intros Hr. destruct (edges_first l head) as (E & H).
  by destruct (lrep_edges _ _ _ [] _ _ _ Hr (H head)) as (? & _).
Qed.

Lemma lrep_last h head l : lrep h head l -> get_prev h head = Ok (last_of head l).
Proof.
  intros Hr. destruct (edges_last head l) as (E & H).
  by destruct (lrep_edges _ _ _ E _ _ [] Hr (H head)) as (_ & ? & _).
Qed.

(** ** The operations *)

(** Only the nodes of the list change. *)
Definition links_frame (h h' : links) (P : Z -> Prop) : Prop :=
  forall p, ~ P p -> nexts h' !! p = nexts h !! p /\ prevs h' !! p = prevs h !! p.

Lemma add_frame new a b h (P : Z -> Prop) :
  P new -> P a -> P b -> links_frame h (list_add_between new a b h) P.
Proof.
  intros Hn Ha Hb p Hp. unfold list_add_between. cbn.
  by rewrite !lookup_insert_ne by (intros <-; done).
Qed.

Lemma del_frame a b h (P : Z -> Prop) :
  P a -> P b -> links_frame h (list_del_between a b h) P.
Proof.
  intros Ha Hb p Hp. unfold list_del_between. cbn.
  by rewrite !lookup_insert_ne by (intros <-; done).
Qed.

Lemma INIT_LIST_HEAD_spec h head : lrep (INIT_LIST_HEAD head h) head [].
Proof.
  split; [apply NoDup_singleton|]. constructor; [|done].
  split; cbn; apply lookup_insert_eq.
Qed.

Lemma list_empty_spec h head l :
  lrep h head l -> list_empty h head = Ok (bool_decide (l = [])).
Proof.
  intros Hr. unfold list_empty. rewrite (lrep_first _ _ _ Hr). cbn.
  destruct l as [|x l]; cbn; [by rewrite Z.eqb_refl|].
  destruct Hr as [[Hx _]%NoDup_cons _]. rewrite (proj2 (Z.eqb_neq x head)); [done|set_solver].
Qed.

Lemma list_add_spec h head l new :
  lrep h head l -> new ∉ head :: l ->
  exists h', list_add new head h = Ok h' /\ lrep h' head (new :: l) /\
    links_frame h h' (.∈ new :: head :: l).
Proof.
  intros Hr Hnew. destruct (lrep_insert h head [] l new Hr Hnew) as (Hn & _ & Hr').
  unfold list_add. cbn in Hn. rewrite Hn. eexists. split_and!; [done|done|].
  pose proof (first_of_in head l). apply add_frame; rewrite ?(elem_of_cons _ new); set_solver.
Qed.

Lemma list_add_tail_spec h head l new :
  lrep h head l -> new ∉ head :: l ->
  exists h', list_add_tail new head h = Ok h' /\ lrep h' head (l ++ [new]) /\
    links_frame h h' (.∈ new :: head :: l).
Proof.
  intros Hr Hnew.
  destruct (lrep_insert h head l [] new) as (_ & Hp & Hr'); [by rewrite app_nil_r..|].
  unfold list_add_tail. cbn in Hp. rewrite Hp. eexists. split_and!; [done|done|].
  pose proof (last_of_in head l). apply add_frame; rewrite ?(elem_of_cons _ new); set_solver.
Qed.

Lemma list_del_spec h head l1 x l2 :
  lrep h head (l1 ++ x :: l2) ->
  exists h', list_del x h = Ok h' /\ lrep h' head (l1 ++ l2) /\
    links_frame h h' (.∈ head :: l1 ++ l2).
Proof.
  intros (a & b & Ha & Hb & Hr & Hia & Hib)%lrep_delete. unfold list_del.
  rewrite Ha. cbn. rewrite Hb. eexists. split_and!; [done|done|]. apply del_frame; set_solver.
Qed.

Lemma lrep_frame h h' P head l :
  links_frame h h' P -> Forall (fun p => ~ P p) (head :: l) -> lrep h head l -> lrep h' head l.
Proof.
  intros Hf Hp [Hnd Hl]. split; [done|]. rewrite Forall_forall in Hp.
  apply Forall_forall. intros [x y] Hxy. rewrite Forall_forall in Hl.
  destruct (Hl _ Hxy) as [H1 H2]. apply edges_nodes in Hxy as [Hx Hy].
  cbn in H1, H2. split; cbn.
  - by rewrite (proj1 (Hf x (Hp x Hx))).
  - rewrite (proj2 (Hf y (Hp y ltac:(set_solver)))). done.
Qed.

Lemma lrep_next h head l1 x l2 :
  lrep h head (l1 ++ x :: l2) -> get_next h x = Ok (first_of l2 head).
Proof.
  intros Hr. destruct (edges_first l2 head) as (E & H).
  pose proof (edges_app head l1 x l2 head) as He. rewrite H in He.
  by destruct (lrep_edges _ _ _ _ _ _ _ Hr He) as (? & _).
Qed.

(** A loop that does not change the list runs its body on each node in turn. *)
Lemma list_for_each_spec {R S} (lk : S -> links) head l fuel (body : Z -> S -> res (ctl R S)) s :
  lrep (lk s) head l -> (length l < fuel)%nat ->
  (forall x t t', x ∈ l -> lk t = lk s -> body x t = Ok (Next t') -> lk t' = lk s) ->
  list_for_each lk head fuel body s = list_ctl l body s.
Proof.
  intros Hr Hf Hb. unfold list_for_each. rewrite (lrep_first _ _ _ Hr). cbn [mbind res_bind].
  assert (forall l2 l1 fuel t, l = l1 ++ l2 -> (length l2 < fuel)%nat -> lk t = lk s ->
    list_walk lk head fuel body (first_of l2 head) t = list_ctl l2 body t) as Hw.
  { clear fuel Hf. intros l2. induction l2 as [|x l2 IH]; intros l1 [|fuel] t Hl Hf Ht; cbn in Hf; [lia..| |lia|].
    - cbn. by rewrite Z.eqb_refl.
    - cbn. destruct (Z.eqb_spec x head) as [->|_].
      { destruct Hr as [[Hx _]%NoDup_cons _]. subst l. destruct Hx.
        apply elem_of_app. right. apply list_elem_of_here. }
      destruct (body x t) as [[t'|r]|f] eqn:E; cbn; [|done|done].
      assert (lk t' = lk s) as Ht'.
      { eapply Hb; [|exact Ht|exact E]. subst l. apply elem_of_app. right. apply list_elem_of_here. }
      subst l. rewrite Ht', (lrep_next _ _ _ _ _ Hr). cbn.
      apply (IH (l1 ++ [x])); [by rewrite <- app_assoc|lia|done]. }
  by apply (Hw l []).
Qed.

(** [list_for_each_safe]: the body may remove the node it is given. *)
Lemma list_for_each_safe_spec {R S} (lk : S -> links) head l fuel
    (body : Z -> S -> res (ctl R S)) s :
  lrep (lk s) head l -> (length l < fuel)%nat ->
  (forall l1 x l2 t t', lrep (lk t) head (l1 ++ x :: l2) -> body x t = Ok (Next t') ->
     lrep (lk t') head (l1 ++ x :: l2) \/ lrep (lk t') head (l1 ++ l2)) ->
  list_for_each_safe lk head fuel body s = list_ctl l body s.
Proof.
  intros Hr Hf Hb. unfold list_for_each_safe. rewrite (lrep_first _ _ _ Hr). cbn [mbind res_bind].
  assert (forall l2 l1 fuel t, (length l2 < fuel)%nat -> lrep (lk t) head (l1 ++ l2) ->
    exists n, get_next (lk t) (first_of l2 head) = Ok n /\
      list_walk_safe lk head fuel body (first_of l2 head) n t = list_ctl l2 body t) as Hw.
  { clear fuel Hf. intros l2. induction l2 as [|x l2 IH]; intros l1 [|fuel] t Hf Ht; cbn in Hf; [lia| |lia|].
    - eexists. split; [by apply lrep_first|]. cbn. by rewrite Z.eqb_refl.
    - eexists. split; [by eapply lrep_next|]. cbn. destruct (Z.eqb_spec x head) as [->|_].
      { destruct Ht as [[Hx _]%NoDup_cons _]. destruct Hx.
        apply elem_of_app. right. apply list_elem_of_here. }
      destruct (body x t) as [[t'|r]|f] eqn:E; cbn; [|done|done].
      assert (exists k, lrep (lk t') head (k ++ l2)) as [k Hk].
      { destruct (Hb _ _ _ _ _ Ht E) as [H|H]; [exists (l1 ++ [x])|by exists l1].
        by rewrite <- app_assoc. }
      destruct (IH k fuel t') as (n & -> & Hn); [lia|done|]. done. }
  destruct (Hw l [] fuel s Hf Hr) as (n & Hn & Hc). by rewrite Hn.
Qed.

(** ** Theorems *)

(** C17. Lists: on a head that represents [l], [list_empty] decides [l = []],
    [list_add] pushes at the front, [list_add_tail] at the back, [list_del]
    removes the node it is given, and none of them touches a node outside of the
    list. *)
Theorem list_ops_refine h head l :
  lrep h head l ->
  list_empty h head = Ok (bool_decide (l = [])) /\
  (forall new, new ∉ head :: l ->
    (exists h', list_add new head h = Ok h' /\ lrep h' head (new :: l) /\
       links_frame h h' (.∈ new :: head :: l)) /\
    (exists h', list_add_tail new head h = Ok h' /\ lrep h' head (l ++ [new]) /\
       links_frame h h' (.∈ new :: head :: l))) /\
  (forall l1 x l2, l = l1 ++ x :: l2 ->
    exists h', list_del x h = Ok h' /\ lrep h' head (l1 ++ l2) /\
      links_frame h h' (.∈ head :: l1 ++ l2)).
Proof.
  intros Hr. split_and!; [by apply list_empty_spec| |].
  - intros new Hnew. split; [by apply list_add_spec|by apply list_add_tail_spec].
  - intros l1 x l2 ->. by apply list_del_spec.
Qed.

(** [list_for_each_safe] visits each node of the list once, in order, even
    when the body removes the node it is given, and stops where the body leaves. *)
Theorem list_for_each_safe_visits {R S} (lk : S -> links) head l fuel
    (body : Z -> S -> res (ctl R S)) s :
  lrep (lk s) head l -> (length l < fuel)%nat ->
  (forall l1 x l2 t t', lrep (lk t) head (l1 ++ x :: l2) -> body x t = Ok (Next t') ->
     lrep (lk t') head (l1 ++ x :: l2) \/ lrep (lk t') head (l1 ++ l2)) ->
  list_for_each_safe lk head fuel body s = list_ctl l body s.
Proof. apply list_for_each_safe_spec. Qed.

(** ** Instances *)

Definition demo_list : links :=
  mk_links {[ 1 := 7; 5 := 1; 7 := 5 ]} {[ 1 := 5; 5 := 7; 7 := 1 ]}.

Lemma demo_lrep : lrep demo_list 1 [5; 7].
Proof.
  split; [by apply (bool_decide_unpack _); vm_compute|].
  repeat constructor; by vm_compute.
Qed.

Lemma list_ops_refine_witness :
  exists h', list_add 9 1 demo_list = Ok h' /\ lrep h' 1 [9; 5; 7].
Proof.
  destruct (list_ops_refine demo_list 1 [5; 7] demo_lrep) as (_ & Hadd & _).
  destruct (Hadd 9) as [(h' & H & Hr & _) _]; [by apply (bool_decide_unpack _); vm_compute|].
  by exists h'.
Defined.

(** All the nodes are removed while the loop runs. *)
Definition delete_all (x : Z) (h : links) : res (ctl unit links) :=
  h ← list_del x h; mret (Next h).

Lemma list_for_each_safe_visits_witness :
  list_for_each_safe id 1 3 delete_all demo_list = list_ctl [5; 7] delete_all demo_list.
Proof.
  apply (list_for_each_safe_visits id); [apply demo_lrep|cbn; lia|].
  intros l1 x l2 t t' Hr H. right. unfold delete_all in H. inv_res.
  destruct (list_del_spec t 1 l1 x l2 Hr) as (h & H1 & H2 & _). unfold id in *. congruence.
Defined.
