(* ===== verification/Kmalloc.v ===== *)
(** * The fine-grained allocator

    [kernel/mem/kmalloc.c].  The pages come from an implementation of [PageOps]
    (the page frame allocator and paging); [aha_block_list] and [aha_big_list]
    are the addresses of the two list heads.  The block headers and the metadata
    of the big allocations are kept by address, their list nodes in [links]. *)
From S2P Require Import Prelude Page Dlist.

(** ** What the allocator calls *)

Class PageOps (P : Type) := {
  pages_alloc : Z -> P -> res (Z * P);
  pages_free : Z -> P -> res P;
  pages_map : Z -> Z -> Z -> P -> res (bool * P);
  pages_unmap : Z -> P -> res (bool * P);
}.

(** ** Data *)

Definition CHUNK_FREE : Z := 0.
Definition CHUNK_USED : Z := 1.

Record aha_block := mk_block {
  elt_size : Z;
  tot_elts : Z;
  nb_frees : Z;
  first_ptr : Z;
  chunkmap : list Z;
}.

Record aha_big_meta := mk_big {
  big_size : Z;
  big_ptr : Z;
}.

(** Sizes and offsets on i386. *)
Definition sizeof_aha_block : Z := 24.
Definition offsetof_block_list : Z := 16.
Definition sizeof_aha_big_meta : Z := 16.
Definition offsetof_big_list : Z := 8.
Definition sizeof_ptr : Z := 4.
Definition sizeof_chunk_type : Z := 1.

Record km (P : Type) := mk_km {
  pages : P;
  nodes : links;
  blocks : gmap Z aha_block;
  bigs : gmap Z aha_big_meta;
}.
Arguments mk_km {P} _ _ _ _.
Arguments pages {P} _.
Arguments nodes {P} _.
Arguments blocks {P} _.
Arguments bigs {P} _.

Definition next_highest_power_of_two (size : Z) : Z :=
  let size := size ⊖ 1 in
  let size := Z.lor size (Z.shiftr size 1) in
  let size := Z.lor size (Z.shiftr size 2) in
  let size := Z.lor size (Z.shiftr size 4) in
  let size := Z.lor size (Z.shiftr size 8) in
  let size := Z.lor size (Z.shiftr size 16) in
  size ⊕ 1.

Definition set_counts (nb : Z) (cm : list Z) (b : aha_block) : aha_block :=
  mk_block (elt_size b) (tot_elts b) nb (first_ptr b) cm.

(** ** Operations *)

Section kmalloc.
Context {P : Type} {ops : PageOps P} (aha_block_list aha_big_list : Z).

Definition with_pages (p : P) (k : km P) : km P := mk_km p (nodes k) (blocks k) (bigs k).
Definition with_nodes (h : links) (k : km P) : km P := mk_km (pages k) h (blocks k) (bigs k).
Definition set_block (a : Z) (b : aha_block) (k : km P) : km P :=
  mk_km (pages k) (nodes k) (<[a := b]> (blocks k)) (bigs k).
Definition set_big (a : Z) (b : aha_big_meta) (k : km P) : km P :=
  mk_km (pages k) (nodes k) (blocks k) (<[a := b]> (bigs k)).

Definition get_block (k : km P) (a : Z) : res aha_block :=
  match blocks k !! a with Some b => Ok b | None => Err Oob end.
Definition get_big (k : km P) (a : Z) : res aha_big_meta :=
  match bigs k !! a with Some b => Ok b | None => Err Oob end.

(** No list has more nodes than the heap. *)
Definition list_fuel (k : km P) : nat := S (size (nexts (nodes k))).

(** The identity mapping of the [i]-th page of an area. *)
Definition map_identity_page (addr : Z) (k : km P) : res (km P) :=
  '(ok, p) ← pages_map addr addr PTE_RW_KERNEL_NOCACHE (pages k);
  if ok : bool then mret (with_pages p k) else Err (Panic "NOT IMPLEMENTED").

Definition big_alloc (kmalloc : Z -> km P -> res (Z * km P)) (size : Z) (k : km P)
  : res (Z * km P) :=
  let nb_pages := size / PAGE_SIZE in
  '(head_page, p) ← pages_alloc nb_pages (pages k);
  let k := with_pages p k in
  if head_page =? BAD_PAGE then mret (0, k)
  else
    '(meta, k) ← kmalloc sizeof_aha_big_meta k;
    if meta =? 0 then
      p ← pages_free head_page (pages k);
      mret (0, with_pages p k)
    else
      let k := set_big meta (mk_big size head_page) k in
      h ← list_add (meta ⊕ offsetof_big_list) aha_big_list (nodes k);
      let k := with_nodes h k in
      k ← for_loop (Z.to_nat nb_pages) 0 (fun i k =>
            map_identity_page (head_page ⊕ (i ⊗ PAGE_SIZE)) k) k;
      mret (head_page, k).

(** The address of the block, 0 for NULL. *)
Definition new_block (size : Z) (k : km P) : res (Z * km P) :=
  let remaining := PAGE_SIZE - sizeof_aha_block - sizeof_ptr in
  let nb_elts := remaining / (sizeof_chunk_type ⊕ size) in
  if nb_elts =? 0 then Err (Panic "block cannot even hold a single element")
  else
    '(block, p) ← pages_alloc 1 (pages k);
    let k := with_pages p k in
    if block =? 0 then mret (0, k)
    else
      k ← map_identity_page block k;
      let ptr := (block ⊕ sizeof_aha_block) ⊕ nb_elts in
      let ptr :=
        if negb (Z.land ptr (sizeof_ptr - 1) =? 0)
        then ptr ⊕ (sizeof_ptr ⊖ Z.land ptr (sizeof_ptr - 1)) else ptr in
      h ← list_add (block ⊕ offsetof_block_list) aha_block_list (nodes k);
      let k := with_nodes h k in
      let cm := replicate (Z.to_nat (nb_elts ⊗ sizeof_chunk_type)) CHUNK_FREE in
      mret (block, set_block block (mk_block size nb_elts nb_elts ptr cm) k).

(** The address of the block, 0 for NULL. *)
Definition find_non_full_block (size : Z) (k : km P) : res Z :=
  empty ← list_empty (nodes k) aha_block_list;
  if empty : bool then mret 0
  else
    c ← list_for_each_entry nodes aha_block_list offsetof_block_list (list_fuel k)
          (fun block k =>
             b ← get_block k block;
             if (elt_size b =? size) && (0 <? nb_frees b) then mret (Leave block)
             else mret (Next k)) k;
    match c with
    | Leave block => mret block
    | Next _ => mret 0
    end.

(** The last loop of [kmalloc]. *)
Definition alloc_chunk (block : Z) (k : km P) : res (Z * km P) :=
  b ← get_block k block;
  c ← for_ctl (Z.to_nat (tot_elts b)) 0 (fun chunk _ =>
        st ← aget (chunkmap b) chunk;
        if st =? CHUNK_FREE then
          cm ← aset (chunkmap b) chunk CHUNK_USED;
          mret (Leave (first_ptr b ⊕ (chunk ⊗ elt_size b),
                       set_block block (set_counts (nb_frees b ⊖ 1) cm b) k))
        else mret (Next tt)) tt;
  match c with
  | Leave r => mret r
  | Next _ => Err (Panic "found block does not have any free chunk!")
  end.

(** The metadata of a big allocation is a small one: [kmalloc] calls itself once. *)
Fixpoint kmalloc_depth (depth : nat) (size : Z) (k : km P) : res (Z * km P) :=
  match depth with
  | O => Err NoFuel
  | S depth =>
      if size =? 0 then mret (0, k)
      else
        let size := if size <? 8 then 8 else size in
        let size := next_highest_power_of_two size in
        if PAGE_SIZE <=? size then big_alloc (kmalloc_depth depth) size k
        else
          block ← find_non_full_block size k;
          '(block, k) ← (if block =? 0 then new_block size k else mret (block, k));
          if block =? 0 then mret (0, k) else alloc_chunk block k
  end.

Definition kmalloc : Z -> km P -> res (Z * km P) := kmalloc_depth 2.

Definition big_free (kfree : Z -> km P -> res (km P)) (meta : Z) (k : km P) : res (km P) :=
  if meta =? 0 then Err (Panic "invalid argument")
  else
    m ← get_big k meta;
    k ← for_loop (Z.to_nat (big_size m / PAGE_SIZE)) 0 (fun i k =>
          '(ok, p) ← pages_unmap (big_ptr m ⊕ (i ⊗ PAGE_SIZE)) (pages k);
          if ok : bool then mret (with_pages p k) else Err (Panic "failed to unmap")) k;
    p ← pages_free (big_ptr m) (pages k);
    let k := with_pages p k in
    h ← list_del (meta ⊕ offsetof_big_list) (nodes k);
    kfree meta (with_nodes h k).

(** What follows the label [found]. *)
Definition free_chunk (block ptr : Z) (k : km P) : res (km P) :=
  b ← get_block k block;
  c ← for_ctl (Z.to_nat (tot_elts b)) 0 (fun chunk _ =>
        let chunk_ptr := first_ptr b ⊕ (chunk ⊗ elt_size b) in
        if chunk_ptr =? ptr then
          st ← aget (chunkmap b) chunk;
          if st =? CHUNK_FREE then Err (Panic "double-free detected!")
          else
            cm ← aset (chunkmap b) chunk CHUNK_FREE;
            mret (Leave (set_block block (set_counts (nb_frees b ⊕ 1) cm b) k))
        else mret (Next tt)) tt;
  match c with
  | Leave k => mret k
  | Next _ => Err (Panic "ptr hasn't matching chunk in block")
  end.

(** The block [ptr] may belong to, and the metadata of the big allocation at
    [ptr]. *)
Definition find_hosting_block (ptr : Z) (k : km P) : res (option Z) :=
  empty ← list_empty (nodes k) aha_block_list;
  if empty : bool then mret None
  else
    c ← list_for_each_entry nodes aha_block_list offsetof_block_list (list_fuel k)
          (fun block k =>
             b ← get_block k block;
             if (first_ptr b <=? ptr) && (ptr <? block ⊕ PAGE_SIZE) then mret (Leave block)
             else mret (Next k)) k;
    match c with Leave block => mret (Some block) | Next _ => mret None end.

Definition find_big (ptr : Z) (k : km P) : res (option Z) :=
  empty ← list_empty (nodes k) aha_big_list;
  if empty : bool then mret None
  else
    c ← list_for_each_entry nodes aha_big_list offsetof_big_list (list_fuel k)
          (fun meta k =>
             m ← get_big k meta;
             if big_ptr m =? ptr then mret (Leave meta) else mret (Next k)) k;
    match c with Leave meta => mret (Some meta) | Next _ => mret None end.

Fixpoint kfree_depth (depth : nat) (ptr : Z) (k : km P) : res (km P) :=
  match depth with
  | O => Err NoFuel
  | S depth =>
      if ptr =? 0 then Err (Panic "freeing NULL pointer")
      else
        block ← find_hosting_block ptr k;
        match block with
        | Some block => free_chunk block ptr k
        | None =>
            meta ← find_big ptr k;
            match meta with
            | Some meta => big_free (kfree_depth depth) meta k
            | None => Err (Panic "ptr does not belong to any block or big alloc")
            end
        end
  end.

Definition kfree : Z -> km P -> res (km P) := kfree_depth 2.
End kmalloc.
