(* ===== verification/KmallocSpec.v ===== *)
(** * The fine-grained allocator: what it relies on and its invariant

    [PageLaws] is what the page frame allocator and paging promise to
    [kmalloc.c].  [core] is the invariant of the allocator: its two lists, the
    headers of its blocks and the metadata of its big allocations. *)
From S2P Require Import Prelude Page Dlist Kmalloc.

(** ** The next power of two *)

(** [y] has bit [i] when one of the bits [i .. i+w-1] of [n] is set. *)
Definition smeared (n w y : Z) : Prop :=
  forall i, 0 <= i -> Z.testbit y i = true <-> exists d, 0 <= d < w /\ Z.testbit n (i + d) = true.

Lemma smeared_start n : smeared n 1 n.
Proof.
  intros i Hi. split.
  - intros H. exists 0. by rewrite Z.add_0_r.
  - intros (d & Hd & H). by replace (i + d) with i in H by lia.
Qed.

Lemma smeared_step n w y s :
  0 <= s <= w -> smeared n w y -> smeared n (w + s) (Z.lor y (Z.shiftr y s)).
Proof.
  intros Hs Hy i Hi. rewrite Z.lor_spec, Z.shiftr_spec by lia.
  rewrite orb_true_iff. rewrite (Hy i), (Hy (i + s)) by lia. split.
  - intros [(d & Hd & H)|(d & Hd & H)]; [exists d|exists (s + d)]; (split; [lia|]).
    + done.
    + by replace (i + (s + d)) with (i + s + d) by lia.
  - intros (d & Hd & H). destruct (Z.lt_ge_cases d w); [left; exists d; split; [lia|done]|right].
    exists (d - s). split; [lia|]. by replace (i + s + (d - s)) with (i + d) by lia.
Qed.

Lemma smear_nonneg y s : 0 <= y -> 0 <= Z.lor y (Z.shiftr y s).
Proof. intros. apply Z.lor_nonneg. split; [done|]. by apply Z.shiftr_nonneg. Qed.

Lemma smeared_full n y :
  0 < n < 2 ^ 32 -> 0 <= y -> smeared n 32 y -> y = 2 ^ (Z.log2 n + 1) - 1.
Proof.
  intros Hn Hy0 Hy. pose proof (Z.log2_nonneg n) as Hl.
  assert (Z.log2 n < 32) by (apply Z.log2_lt_pow2; lia).
  replace (2 ^ (Z.log2 n + 1) - 1) with (Z.ones (Z.log2 n + 1)) by (rewrite Z.ones_equiv; lia).
  apply Z.bits_inj'. intros i Hi. apply eq_iff_eq_true. rewrite (Hy i Hi).
  destruct (Z.lt_ge_cases i (Z.log2 n + 1)).
  - rewrite Z.ones_spec_low by lia. split; [done|]. intros _. exists (Z.log2 n - i).
    split; [lia|]. replace (i + (Z.log2 n - i)) with (Z.log2 n) by lia. apply Z.bit_log2. lia.
  - rewrite Z.ones_spec_high by lia. split; [|done]. intros (d & Hd & H').
    by rewrite Z.bits_above_log2 in H' by lia.
Qed.

Lemma next_highest_power_of_two_log x :
  2 <= x < 2 ^ 32 -> next_highest_power_of_two x = u32 (2 ^ (Z.log2 (x - 1) + 1)).
Proof.
  intros Hx. unfold next_highest_power_of_two. rewrite (u32_small (x - 1)) by lia.
  set (n := x - 1). pose proof (smeared_start n) as H.
  apply (smeared_step _ _ _ 1) in H; [|lia]. set (y1 := Z.lor n (Z.shiftr n 1)) in *.
  apply (smeared_step _ _ _ 2) in H; [|lia]. set (y2 := Z.lor y1 (Z.shiftr y1 2)) in *.
  apply (smeared_step _ _ _ 4) in H; [|lia]. set (y3 := Z.lor y2 (Z.shiftr y2 4)) in *.
  apply (smeared_step _ _ _ 8) in H; [|lia]. set (y4 := Z.lor y3 (Z.shiftr y3 8)) in *.
  apply (smeared_step _ _ _ 16) in H; [|lia]. set (y5 := Z.lor y4 (Z.shiftr y4 16)) in *.
  assert (0 <= y5) as Hy5.
  { subst y5 y4 y3 y2 y1. repeat apply smear_nonneg. lia. }
  apply smeared_full in H; [|lia|done]. rewrite H. by rewrite Z.sub_add.
Qed.

Lemma next_highest_power_of_two_spec x :
  2 <= x <= 2 ^ 31 -> next_highest_power_of_two x = 2 ^ Z.log2_up x.
Proof.
  intros Hx. rewrite next_highest_power_of_two_log by lia.
  rewrite Z.log2_up_eqn, <- Z.sub_1_r by lia. pose proof (Z.log2_nonneg (x - 1)).
  assert (Z.log2 (x - 1) < 31) by (apply Z.log2_lt_pow2; lia).
  rewrite Z.add_1_r. apply u32_small. split; [lia|]. apply Z.pow_lt_mono_r; lia.
Qed.

(** Above 2 GB the next power of two is 2^32: it wraps to 0. *)
Lemma next_highest_power_of_two_wraps x :
  2 ^ 31 < x < 2 ^ 32 -> next_highest_power_of_two x = 0.
Proof.
  intros Hx. rewrite next_highest_power_of_two_log by lia.
  replace (Z.log2 (x - 1)) with 31; [done|]. symmetry. apply Z.log2_unique; lia.
Qed.

(** ** The pages *)

(** [page_state p L M]: the client holds the blocks of page frames [L] (address
    to number of frames) and the pages at the addresses [M] of them are
    identity mapped.  [kernel] holds of addresses that are never handed out. *)
Class PageLaws (P : Type) {ops : PageOps P} (kernel : Z -> Prop) := {
  page_state : P -> gmap Z Z -> gset Z -> Prop;
  page_state_block s L M a n : page_state s L M -> L !! a = Some n ->
    0 < n /\ 0 < a /\ aligned a /\ a + 4096 * n < 2 ^ 32 /\
    (forall x, kernel x -> x < a \/ a + 4096 * n <= x);
  page_state_disjoint s L M a n b m : page_state s L M ->
    L !! a = Some n -> L !! b = Some m -> a <> b -> a + 4096 * n <= b \/ b + 4096 * m <= a;
  page_state_mapped s L M p : page_state s L M -> p ∈ M ->
    exists a n i, L !! a = Some n /\ 0 <= i < n /\ p = a + 4096 * i;
  pages_alloc_law s L M n : page_state s L M -> 0 < n < 2 ^ 20 ->
    exists a s', pages_alloc n s = Ok (a, s') /\
      ((a = BAD_PAGE /\ page_state s' L M) \/
       (L !! a = None /\ page_state s' (<[a := n]> L) M));
  pages_free_law s L M a n : page_state s L M -> L !! a = Some n ->
    (forall p, p ∈ M -> p < a \/ a + 4096 * n <= p) ->
    exists s', pages_free a s = Ok s' /\ page_state s' (delete a L) M;
  pages_map_law s L M a n i : page_state s L M -> L !! a = Some n -> 0 <= i < n ->
    (a + 4096 * i) ∉ M ->
    (exists s', pages_map (a + 4096 * i) (a + 4096 * i) PTE_RW_KERNEL_NOCACHE s = Ok (true, s') /\
       page_state s' L ({[a + 4096 * i]} ∪ M)) \/
    (exists why, pages_map (a + 4096 * i) (a + 4096 * i) PTE_RW_KERNEL_NOCACHE s = Err (Panic why));
  pages_unmap_law s L M p : page_state s L M -> p ∈ M ->
    exists s', pages_unmap p s = Ok (true, s') /\ page_state s' L (M ∖ {[p]});
}.

(** ** The blocks *)

Definition sizes : list Z := [8; 16; 32; 64; 128; 256; 512; 1024; 2048].

Definition tot_of (e : Z) : Z := 4068 / (1 + e).
Definition off_of (e : Z) : Z := 24 + (tot_of e + 3) / 4 * 4.

Lemma sizes_geometry e :
  e ∈ sizes -> 8 <= e <= 2048 /\ 0 < tot_of e <= 452 /\ 24 + tot_of e <= off_of e <= 24 + tot_of e + 3 /\
    off_of e mod 4 = 0 /\ off_of e + tot_of e * e <= 4096.
Proof.
  unfold sizes. intros H. assert (Forall (fun e =>
    8 <= e <= 2048 /\ 0 < tot_of e <= 452 /\ 24 + tot_of e <= off_of e <= 24 + tot_of e + 3 /\
    off_of e mod 4 = 0 /\ off_of e + tot_of e * e <= 4096) sizes) as Hf.
  { repeat (apply Forall_cons; split); [..|by apply Forall_nil];
      (split_and!; vm_compute; congruence). }
  rewrite Forall_forall in Hf. by apply Hf.
Qed.

Lemma pow2_sizes k : 3 <= k -> 2 ^ k < 4096 -> 2 ^ k ∈ sizes.
Proof.
  intros Hk Hlt. change 4096 with (2 ^ 12) in Hlt. apply Z.pow_lt_mono_r_iff in Hlt; [|lia..].
  assert (k = 3 \/ k = 4 \/ k = 5 \/ k = 6 \/ k = 7 \/ k = 8 \/ k = 9 \/ k = 10 \/ k = 11) as H by lia.
  destruct_or! H; subst k; apply (bool_decide_unpack _); by vm_compute.
Qed.

Definition count_free (cm : list Z) : Z := Z.of_nat (length (filter (.= CHUNK_FREE) cm)).

Lemma count_free_cons c cm :
  count_free (c :: cm) = (if decide (c = CHUNK_FREE) then 1 else 0) + count_free cm.
Proof. unfold count_free. rewrite filter_cons. case_decide; cbn [length]; lia. Qed.

Lemma count_free_insert cm i c d : cm !! i = Some c ->
  count_free (<[i := d]> cm) + (if decide (c = CHUNK_FREE) then 1 else 0) =
  count_free cm + (if decide (d = CHUNK_FREE) then 1 else 0).
Proof.
  revert i; induction cm as [|c' cm IH]; intros [|i] Hi; cbn in Hi; [done|done| |]; simplify_eq.
  - cbn [insert list_insert]. rewrite !count_free_cons. lia.
  - change (<[S i := d]> (c' :: cm)) with (c' :: <[i := d]> cm). rewrite !count_free_cons.
    specialize (IH _ Hi). lia.
Qed.

Lemma count_free_pos cm : 0 < count_free cm <-> exists i, cm !! i = Some CHUNK_FREE.
Proof.
  unfold count_free. split.
  - intros H. destruct (filter (.= CHUNK_FREE) cm) as [|x l] eqn:E; [cbn in H; lia|].
    assert (x ∈ filter (.= CHUNK_FREE) cm) as [-> Hx]%list_elem_of_filter
      by (rewrite E; apply list_elem_of_here).
    by apply list_elem_of_lookup in Hx.
  - intros [i Hi%list_elem_of_lookup_2].
    assert (CHUNK_FREE ∈ filter (.= CHUNK_FREE) cm) as H by by apply list_elem_of_filter.
    destruct (filter _ cm); [by apply not_elem_of_nil in H|]. cbn. lia.
Qed.

Lemma count_free_le cm : 0 <= count_free cm <= Z.of_nat (length cm).
Proof. unfold count_free. pose proof (length_filter (.= CHUNK_FREE) cm). lia. Qed.

Lemma count_free_replicate n : count_free (replicate n CHUNK_FREE) = Z.of_nat n.
Proof.
  induction n as [|n IH]; [done|]. rewrite replicate_S, count_free_cons, IH.
  rewrite decide_True by done. lia.
Qed.

Record block_ok (a : Z) (b : aha_block) : Prop := {
  bo_size : elt_size b ∈ sizes;
  bo_tot : tot_elts b = tot_of (elt_size b);
  bo_ptr : first_ptr b = a + off_of (elt_size b);
  bo_len : Z.of_nat (length (chunkmap b)) = tot_of (elt_size b);
  bo_map : Forall (fun c => c = CHUNK_FREE \/ c = CHUNK_USED) (chunkmap b);
  bo_free : nb_frees b = count_free (chunkmap b);
}.

(** The address of a chunk. *)
Definition chunk_addr (b : aha_block) (i : nat) : Z := first_ptr b + Z.of_nat i * elt_size b.

Lemma chunk_addr_range a b i c :
  block_ok a b -> chunkmap b !! i = Some c ->
  a + 24 + tot_elts b <= chunk_addr b i /\ chunk_addr b i + elt_size b <= a + 4096.
Proof.
  intros Hb Hi%lookup_lt_Some. destruct (sizes_geometry _ (bo_size _ _ Hb)) as (He & Ht & Ho & _ & Hs).
  pose proof (bo_len _ _ Hb). unfold chunk_addr. rewrite (bo_ptr _ _ Hb), (bo_tot _ _ Hb). nia.
Qed.

Lemma chunk_addr_inj a b i j : block_ok a b -> chunk_addr b i = chunk_addr b j -> i = j.
Proof.
  intros Hb H. destruct (sizes_geometry _ (bo_size _ _ Hb)) as (He & _).
  unfold chunk_addr in H. nia.
Qed.

(** The address computed by the code does not wrap. *)
Lemma chunk_addr_word a b i c :
  block_ok a b -> 0 <= a -> a + 4096 < 2 ^ 32 -> chunkmap b !! i = Some c ->
  first_ptr b ⊕ (Z.of_nat i ⊗ elt_size b) = chunk_addr b i.
Proof.
  intros Hb Ha0 Ha Hi. destruct (chunk_addr_range a b i c Hb Hi) as [H1 H2].
  destruct (sizes_geometry _ (bo_size _ _ Hb)) as (He & Ht & Ho & _ & _).
  unfold chunk_addr in *. rewrite (bo_ptr _ _ Hb) in *. rewrite (bo_tot _ _ Hb) in *.
  rewrite (u32_small (Z.of_nat i * _)) by nia. apply u32_small. nia.
Qed.

(** The heads of the two lists are static variables of the kernel. *)
Class ListHeads (kernel : Z -> Prop) (hb hg : Z) : Prop := {
  heads_b : kernel hb;
  heads_g : kernel hg;
  heads_ne : hb <> hg;
}.

(** ** The invariant *)

Section core.
Context {P : Type} {ops : PageOps P} {kernel : Z -> Prop} {laws : PageLaws P kernel}.
Context {hb hg : Z}.

Definition block_node (a : Z) : Z := a + offsetof_block_list.
Definition big_node (a : Z) : Z := a + offsetof_big_list.

(** A chunk in use: its address and its size. *)
Definition live (k : km P) (bl : list Z) (p sz : Z) : Prop :=
  exists a b i, a ∈ bl /\ blocks k !! a = Some b /\ chunkmap b !! i = Some CHUNK_USED /\
    p = chunk_addr b i /\ sz = elt_size b.

Definition block_at (k : km P) (L : gmap Z Z) (M : gset Z) (a : Z) : Prop :=
  L !! a = Some 1 /\ a ∈ M /\ exists b, blocks k !! a = Some b /\ block_ok a b.

Definition big_at (k : km P) (L : gmap Z Z) (M : gset Z) (bl : list Z) (m : Z) : Prop :=
  live k bl m 16 /\
  exists g n, bigs k !! m = Some g /\ big_size g = 4096 * n /\ 0 < n < 2 ^ 20 /\
    L !! big_ptr g = Some n /\ (big_ptr g ∉ bl) /\
    forall i, 0 <= i < n -> (big_ptr g + 4096 * i) ∈ M.

(** [X]: blocks of page frames that are neither a block nor a big allocation. *)
Record core (k : km P) (L : gmap Z Z) (M : gset Z) (bl gl X : list Z) : Prop := {
  c_pages : page_state (pages k) L M;
  c_bl : lrep (nodes k) hb (block_node <$> bl);
  c_gl : lrep (nodes k) hg (big_node <$> gl);
  c_block : forall a, a ∈ bl -> block_at k L M a;
  c_big : forall m, m ∈ gl -> big_at k L M bl m;
  c_inj : forall m1 m2 g1 g2, m1 ∈ gl -> m2 ∈ gl -> bigs k !! m1 = Some g1 ->
    bigs k !! m2 = Some g2 -> big_ptr g1 = big_ptr g2 -> m1 = m2;
  c_owned : forall a n, L !! a = Some n ->
    a ∈ bl \/ (exists m g, m ∈ gl /\ bigs k !! m = Some g /\ big_ptr g = a) \/ a ∈ X;
  c_extra : forall a, a ∈ X -> is_Some (L !! a) /\ (a ∉ bl) /\
    forall m g, m ∈ gl -> bigs k !! m = Some g -> big_ptr g <> a;
}.

Lemma core_block {k L M bl gl X} a :
  core k L M bl gl X -> a ∈ bl ->
  exists b, blocks k !! a = Some b /\ block_ok a b /\ L !! a = Some 1 /\ a ∈ M /\
    0 < a /\ aligned a /\ a + 4096 < 2 ^ 32.
Proof.
  intros Hc Ha. destruct (c_block _ _ _ _ _ _ Hc a Ha) as (HL & HM & b & Hb & Hok).
  destruct (page_state_block _ _ _ _ _ (c_pages _ _ _ _ _ _ Hc) HL) as (_ & H0 & Hal & Hlt & _).
  exists b. split_and!; [done..|lia].
Qed.

Lemma core_block_ok {k L M bl gl X} a b :
  core k L M bl gl X -> a ∈ bl -> blocks k !! a = Some b ->
  block_ok a b /\ L !! a = Some 1 /\ a ∈ M /\ 0 < a /\ aligned a /\ a + 4096 < 2 ^ 32.
Proof. intros Hc Ha Hb. destruct (core_block _ Hc Ha) as (b' & Hb' & H). by simplify_eq. Qed.

(** The block of a chunk is its page. *)
Lemma chunk_page {k L M bl gl X} a b i c :
  core k L M bl gl X -> a ∈ bl -> blocks k !! a = Some b -> chunkmap b !! i = Some c ->
  a = chunk_addr b i - chunk_addr b i mod 4096.
Proof.
  intros Hc Ha Hb Hi. destruct (core_block_ok _ _ Hc Ha Hb) as (Hok & _ & _ & H0 & Hal & _).
  destruct (chunk_addr_range a b i c Hok Hi) as [H1 H2].
  destruct (sizes_geometry _ (bo_size _ _ Hok)) as (He & Ht & _).
  rewrite (bo_tot _ _ Hok) in H1. unfold aligned, PAGE_SIZE in Hal. Z.div_mod_to_equations; lia.
Qed.

Lemma live_block {k L M bl gl X} p sz :
  core k L M bl gl X -> live k bl p sz ->
  exists a b i, a ∈ bl /\ blocks k !! a = Some b /\ block_ok a b /\
    chunkmap b !! i = Some CHUNK_USED /\ p = chunk_addr b i /\ sz = elt_size b /\
    0 < a /\ a + 4096 < 2 ^ 32 /\ a + 24 <= p /\ p + sz <= a + 4096.
Proof.
  intros Hc (a & b & i & Ha & Hb & Hi & -> & ->).
  destruct (core_block_ok _ _ Hc Ha Hb) as (Hok & _ & _ & H0 & Hal & Hlt).
  destruct (chunk_addr_range a b i _ Hok Hi) as [H1 H2].
  destruct (sizes_geometry _ (bo_size _ _ Hok)) as (He & Ht & _). rewrite (bo_tot _ _ Hok) in H1.
  exists a, b, i. split_and!; try done; lia.
Qed.

(** Changing the map of a block changes the chunks in use of that block only. *)
Lemma live_set_block {k L M bl gl X} a b i c d nb :
  core k L M bl gl X -> a ∈ bl -> blocks k !! a = Some b -> chunkmap b !! i = Some c ->
  c <> d -> (c = CHUNK_USED \/ d = CHUNK_USED) ->
  let k' := set_block a (set_counts nb (<[i := d]> (chunkmap b)) b) k in
  forall p sz, live k' bl p sz <->
    if decide (p = chunk_addr b i) then d = CHUNK_USED /\ sz = elt_size b else live k bl p sz.
Proof.
  intros Hc Ha Hb Hi Hcd Hused k' p sz.
  destruct (core_block_ok _ _ Hc Ha Hb) as (Hok & _). split.
  - intros (a' & b' & j & Ha' & Hb' & Hj & -> & ->). cbn in Hb'.
    destruct (decide (a' = a)) as [->|Hna].
    + rewrite lookup_insert_eq in Hb'. simplify_eq. cbn in Hj.
      change (chunk_addr (set_counts nb (<[i:=d]> (chunkmap b)) b) j) with (chunk_addr b j).
      destruct (decide (j = i)) as [->|Hji].
      * rewrite decide_True by done. rewrite list_lookup_insert_eq in Hj by by eapply lookup_lt_Some.
        by simplify_eq.
      * rewrite decide_False by (intros ?%(chunk_addr_inj a); done).
        rewrite list_lookup_insert_ne in Hj by done. by exists a, b, j.
    + rewrite lookup_insert_ne in Hb' by done.
      rewrite decide_False; [by exists a', b', j|]. intros Heq. apply Hna.
      rewrite (chunk_page _ _ _ _ Hc Ha' Hb' Hj), Heq.
      symmetry. by apply (chunk_page _ _ _ _ Hc Ha Hb Hi).
  - case_decide as Hp.
    + intros [-> ->]. eexists a, _, i. cbn. rewrite lookup_insert_eq. split_and!; [done|done| |done|done].
      cbn. apply list_lookup_insert_eq. by eapply lookup_lt_Some.
    + intros (a' & b' & j & Ha' & Hb' & Hj & -> & ->). destruct (decide (a' = a)) as [->|Hna].
      * simplify_eq. exists a, (set_counts nb (<[i:=d]> (chunkmap b)) b), j. cbn.
        rewrite lookup_insert_eq, list_lookup_insert_ne by congruence. done.
      * exists a', b', j. cbn. by rewrite lookup_insert_ne.
Qed.
End core.
Arguments core {P ops kernel laws} hb hg k L M bl gl X.
Arguments c_pages {P ops kernel laws hb hg k L M bl gl X}.
Arguments c_bl {P ops kernel laws hb hg k L M bl gl X}.
Arguments c_gl {P ops kernel laws hb hg k L M bl gl X}.
Arguments c_block {P ops kernel laws hb hg k L M bl gl X}.
Arguments c_big {P ops kernel laws hb hg k L M bl gl X}.
Arguments c_inj {P ops kernel laws hb hg k L M bl gl X}.
Arguments c_owned {P ops kernel laws hb hg k L M bl gl X}.
Arguments c_extra {P ops kernel laws hb hg k L M bl gl X}.
