(* ===== verification/KmallocPages.v ===== *)
(** * The pages of the fine-grained allocator

    The page frame allocator and paging implement [PageOps]; the theorems on
    them give the laws [kmalloc.c] relies on. *)
From S2P Require Import Prelude Page Pfa PfaSpec PfaRun Mmu Paging PagingSpec PagingBoot.
From S2P Require Import Kmalloc KmallocSpec.

Definition set_pfa (m : pfa_meta) (s : sys) : sys :=
  mk_sys (cpu s) m (page_directory s) (paging_enabled s).

#[export] Instance sys_page_ops : PageOps sys := {
  pages_alloc n s := '(pgf, m) ← pfa_alloc (pfa s) n; mret (pgf, set_pfa m s);
  pages_free pgf s := m ← pfa_free (pfa s) pgf; mret (set_pfa m s);
  pages_map := map_page;
  pages_unmap := unmap_page;
}.

(** Where the frames of the allocator are: below the window of the page tables,
    and away from the kernel. *)
Class RamLayout (m0 : pfa_meta) (kernel : Z -> Prop) : Prop := {
  ram_low b n : 0 < n -> in_region m0 b n -> b + 4096 * n <= 0xffc00000;
  ram_kernel b n x : in_region m0 b n -> kernel x -> x < b \/ b + 4096 * n <= x;
}.

Lemma in_region_frame m b n i : in_region m b n -> 0 <= i < n -> in_region m (b + 4096 * i) 1.
Proof.
  intros (r & Hr & H1 & H2 & Hal) Hi. unfold PAGE_SIZE in *. exists r. unfold PAGE_SIZE.
  split_and!; [done|lia|lia|]. unfold aligned, PAGE_SIZE in *. Z.div_mod_to_equations; lia.
Qed.

Section laws.
Context {m0 : pfa_meta} {kernel : Z -> Prop} {layout : RamLayout m0 kernel}.

(** The client's blocks [L] are allocated, its pages [M] are identity mapped, and
    no other frame of the allocator is mapped (but through the window). *)
Record sys_pages (s : sys) (L : gmap Z Z) (M : gset Z) (pd : Z) (T A : gmap Z Z) : Prop := {
  sp_state : pg_state s pd T A;
  sp_on : paging_enabled s = true;
  sp_rw : all_rw s pd T;
  sp_geometry : same_geometry m0 (pfa s);
  sp_ledger : ledger_ok m0 A;
  sp_held : L ⊆ A;
  sp_tables : forall i f, T !! i = Some f -> L !! f = None;
  sp_mapped : forall p, p ∈ M -> exists a n i, L !! a = Some n /\ 0 <= i < n /\ p = a + 4096 * i;
  sp_identity : forall p, p ∈ M -> mapping s pd (page_of p) = Some p;
  sp_unmapped : forall p, in_region m0 p 1 -> p ∉ M -> mapping s pd (page_of p) = None;
}.

Definition sys_page_state (s : sys) (L : gmap Z Z) (M : gset Z) : Prop :=
  exists pd T A, sys_pages s L M pd T A.

Lemma sp_block s L M pd T A a n :
  sys_pages s L M pd T A -> L !! a = Some n ->
  A !! a = Some n /\ 1 <= n /\ 0 < a /\ in_region m0 a n /\ aligned a /\ a + 4096 * n <= 0xffc00000.
Proof.
  intros Hs Ha. assert (A !! a = Some n) as HA by (eapply lookup_weaken; [done|apply Hs]).
  destruct (pfa_repr_in_region _ _ _ _ (ps_pfa _ _ _ _ (sp_state _ _ _ _ _ _ Hs)) HA) as (Hn & H0 & Hin).
  eapply in_region_geometry in Hin; [|apply same_geometry_sym, Hs].
  split_and!; [done..| |apply ram_low; [lia|done]]. by destruct Hin as (r & _ & _ & _ & ?).
Qed.

Lemma frame_page s L M pd T A p :
  sys_pages s L M pd T A -> in_region m0 p 1 ->
  aligned p /\ p = 4096 * page_of p /\ p <= 0xffbff000.
Proof.
  intros Hs Hin. pose proof (ram_low p 1 eq_refl Hin). destruct Hin as (r & _ & _ & _ & Hal).
  unfold page_of, aligned, PAGE_SIZE in *. split_and!; [done|Z.div_mod_to_equations; lia|lia].
Qed.

Lemma held_frame s L M pd T A p :
  sys_pages s L M pd T A -> p ∈ M -> in_region m0 p 1.
Proof.
  intros Hs Hp. destruct (sp_mapped _ _ _ _ _ _ Hs _ Hp) as (a & n & i & Ha & Hi & ->).
  destruct (sp_block _ _ _ _ _ _ _ _ Hs Ha) as (_ & _ & _ & Hin & _). by eapply in_region_frame.
Qed.

(** Only the metadata of the allocator changes. *)
Lemma pg_state_pfa s pd T A m A' :
  pg_state s pd T A -> pfa_repr m A' -> (forall i f, T !! i = Some f -> A' !! f = Some 1) ->
  pg_state (set_pfa m s) pd T A'.
Proof. intros [[H1 H2 H3] _ _] Hm HT. constructor; [|done|done]. constructor; done. Qed.

Lemma block_free_None A a n : 1 <= n -> block_free A a n -> forall k, A !! a = Some k -> 1 <= k -> False.
Proof.
  intros Hn Hf k Ha Hk. apply (Hf 0); [lia|]. exists a, k. unfold PAGE_SIZE. split; [done|lia].
Qed.

Lemma sys_alloc s L M n :
  sys_page_state s L M -> 0 < n < 2 ^ 20 ->
  exists a s', pages_alloc n s = Ok (a, s') /\
    ((a = BAD_PAGE /\ sys_page_state s' L M) \/ (L !! a = None /\ sys_page_state s' (<[a := n]> L) M)).
Proof.
  intros (pd & T & A & Hs) Hn. pose proof (ps_pfa _ _ _ _ (sp_state _ _ _ _ _ _ Hs)) as Hr.
  destruct (pfa_alloc_spec (pfa s) A n Hr ltac:(lia)) as (a & m & Ha & Hg & Hcase).
  cbn [pages_alloc sys_page_ops]. rewrite Ha. cbn [mbind res_bind mret res_ret].
  exists a, (set_pfa m s). split; [done|].
  destruct Hcase as [(Hne & Hin & Hbf & Hr')|(-> & -> & _)].
  2:{ left. split; [done|]. exists pd, T, A. by destruct s. }
  right. assert (A !! a = None) as HA.
  { apply eq_None_not_Some. intros [k Hk]. eapply block_free_None; [|done|done|]; [lia|].
    by apply (pfa_repr_in_region _ _ _ _ Hr Hk). }
  assert (L !! a = None) as HL by (eapply lookup_weaken_None; [done|apply Hs]).
  split; [done|]. exists pd, T, (<[a := n]> A).
  pose proof (fun i f Hf => ps_owned _ _ _ _ (sp_state _ _ _ _ _ _ Hs) i f Hf) as HT.
  destruct Hs as [H1 H2 H3 H4 H5 H6 H7 H8 H9 H10]. constructor; try done.
  - apply (pg_state_pfa s pd T A); [done|done|]. intros i f Hf. pose proof (HT i f Hf).
    rewrite lookup_insert_ne; congruence.
  - by eapply same_geometry_trans.
  - apply ledger_insert; [done|lia|done| |done].
    eapply in_region_geometry; [by apply same_geometry_sym|done].
  - by apply insert_mono.
  - intros i f Hf. pose proof (HT i f Hf). rewrite lookup_insert_ne by congruence. by eapply H7.
  - intros p Hp. destruct (H8 p Hp) as (b & k & i & Hb & ?). exists b, k, i.
    rewrite lookup_insert_ne by congruence. done.
Qed.

Lemma sys_free s L M a n :
  sys_page_state s L M -> L !! a = Some n -> (forall p, p ∈ M -> p < a \/ a + 4096 * n <= p) ->
  exists s', pages_free a s = Ok s' /\ sys_page_state s' (delete a L) M.
Proof.
  intros (pd & T & A & Hs) Ha HM. pose proof (ps_pfa _ _ _ _ (sp_state _ _ _ _ _ _ Hs)) as Hr.
  destruct (sp_block _ _ _ _ _ _ _ _ Hs Ha) as (HA & Hn & H0 & Hin & Hal & Hlow).
  destruct (pfa_repr_u32 _ _ _ _ Hr HA) as [Hu _].
  pose proof (pfa_free_spec (pfa s) A a Hr Hu) as Hf. rewrite HA in Hf.
  destruct Hf as (m & Hf & Hg & Hr'). cbn [pages_free sys_page_ops]. rewrite Hf.
  cbn [mbind res_bind mret res_ret]. eexists. split; [done|]. exists pd, T, (delete a A).
  pose proof (fun i f Hf => ps_owned _ _ _ _ (sp_state _ _ _ _ _ _ Hs) i f Hf) as HT.
  destruct Hs as [H1 H2 H3 H4 H5 H6 H7 H8 H9 H10]. constructor; try done.
  - apply (pg_state_pfa s pd T A); [done|done|]. intros i f Hif. pose proof (HT i f Hif).
    pose proof (H7 i f Hif). rewrite lookup_delete_ne; congruence.
  - by eapply same_geometry_trans.
  - by apply ledger_delete.
  - by apply delete_mono.
  - intros i f Hif. apply lookup_delete_None. right. by eapply H7.
  - intros p Hp. destruct (H8 p Hp) as (b & k & i & Hb & Hi & ->). exists b, k, i.
    destruct (decide (b = a)) as [->|Hba]; [|by rewrite lookup_delete_ne].
    simplify_eq. destruct (HM _ Hp); lia.
Qed.

(** The pages of the frames of the allocator, by number. *)
Lemma frame_vpn s L M pd T A p :
  sys_pages s L M pd T A -> in_region m0 p 1 -> 0 < p ->
  is_u32 p /\ 0 <= page_of p < 2 ^ 20 /\ page_of p / 1024 <> 1023 /\ 0 <= page_of p / 1024 < 1023.
Proof.
  intros Hs Hin H0. destruct (frame_page _ _ _ _ _ _ _ Hs Hin) as (_ & Hp & Hlow).
  unfold is_u32, page_of in *. split_and!; Z.div_mod_to_equations; lia.
Qed.

Lemma region_pos s L M pd T A p :
  sys_pages s L M pd T A -> p ∈ M -> 0 < p.
Proof.
  intros Hs Hp. destruct (sp_mapped _ _ _ _ _ _ Hs _ Hp) as (a & n & i & Ha & Hi & ->).
  destruct (sp_block _ _ _ _ _ _ _ _ Hs Ha) as (_ & _ & H0 & _). lia.
Qed.

(** The mapping changes at the page [p] only. *)
Lemma sys_remap s s' L M M' pd T T' A A' p o :
  sys_pages s L M pd T A -> in_region m0 p 1 -> 0 < p ->
  pg_state s' pd T' A' -> paging_enabled s' = true -> all_rw s' pd T' ->
  same_geometry (pfa s) (pfa s') -> ledger_ok m0 A' -> L ⊆ A' ->
  (forall i f, T' !! i = Some f -> L !! f = None) ->
  remapped pd s s' (page_of p) o ->
  (forall q, q ∈ M' -> exists a n i, L !! a = Some n /\ 0 <= i < n /\ q = a + 4096 * i) ->
  (if decide (p ∈ M') then o = Some p else o = None) ->
  (forall q, q <> p -> q ∈ M' <-> q ∈ M) ->
  sys_pages s' L M' pd T' A'.
Proof.
  intros Hs Hin H0 Hst Hon Hrw Hg Hl HL HT Hr HM' Hp HMM'.
  assert (forall q, in_region m0 q 1 -> 0 < q ->
    mapping s' pd (page_of q) = if decide (q = p) then o else mapping s pd (page_of q)) as Hmap.
  { intros q Hq Hq0. destruct (frame_vpn _ _ _ _ _ _ _ Hs Hq Hq0) as (_ & H1 & H2 & _).
    rewrite Hr by done. destruct (frame_page _ _ _ _ _ _ _ Hs Hq) as (_ & Eq & _).
    destruct (frame_page _ _ _ _ _ _ _ Hs Hin) as (_ & Ep & _).
    destruct (decide (q = p)) as [->|Hne]; [by rewrite decide_True|].
    by rewrite decide_False by congruence. }
  assert (forall q, q ∈ M' -> in_region m0 q 1 /\ 0 < q) as Hheld.
  { intros q Hq. destruct (HM' q Hq) as (a & n & i & Ha & Hi & ->).
    destruct (sp_block _ _ _ _ _ _ _ _ Hs Ha) as (_ & _ & Ha0 & Hain & _).
    split; [by eapply in_region_frame|lia]. }
  constructor; try done.
  - eapply same_geometry_trans; [apply Hs|done].
  - intros q Hq. destruct (Hheld q Hq) as [Hqin Hq0]. rewrite Hmap by done.
    destruct (decide (q = p)) as [->|Hqp]; [by rewrite decide_True in Hp|].
    apply (sp_identity _ _ _ _ _ _ Hs). by apply HMM'.
  - intros q Hq HqM. assert (0 < q) as Hq0.
    { destruct (ps_pfa _ _ _ _ (sp_state _ _ _ _ _ _ Hs)) as (ls & Hm & _).
      eapply in_region_geometry in Hq; [|apply Hs]. destruct Hq as (r & Hrin & Hb & _).
      apply list_elem_of_lookup in Hrin as [j Hj].
      destruct (Forall2_lookup_l _ _ _ _ _ (mr_regions _ _ Hm) Hj) as (l & _ & Hrr).
      pose proof (rr_low _ _ Hrr). lia. }
    rewrite Hmap by done. destruct (decide (q = p)) as [->|Hqp]; [by rewrite decide_False in Hp|].
    apply (sp_unmapped _ _ _ _ _ _ Hs); [done|]. by rewrite <- HMM'.
Qed.

Lemma sys_map s L M a n i :
  sys_page_state s L M -> L !! a = Some n -> 0 <= i < n -> (a + 4096 * i) ∉ M ->
  (exists s', pages_map (a + 4096 * i) (a + 4096 * i) PTE_RW_KERNEL_NOCACHE s = Ok (true, s') /\
     sys_page_state s' L ({[a + 4096 * i]} ∪ M)) \/
  (exists why, pages_map (a + 4096 * i) (a + 4096 * i) PTE_RW_KERNEL_NOCACHE s = Err (Panic why)).
Proof.
  intros (pd & T & A & Hs) Ha Hi HM. cbn [pages_map sys_page_ops].
  destruct (sp_block _ _ _ _ _ _ _ _ Hs Ha) as (HA & Hn & H0 & Hin & _ & _).
  pose proof (in_region_frame _ _ _ i Hin Hi) as Hinp. set (p := a + 4096 * i) in *.
  assert (0 < p) as Hp0 by lia.
  destruct (frame_vpn _ _ _ _ _ _ _ Hs Hinp Hp0) as (Hu & Hpg & Hwin & Hpd).
  destruct (frame_page _ _ _ _ _ _ _ Hs Hinp) as (Hal & _ & _).
  assert (map_args_ok p p PTE_RW_KERNEL_NOCACHE) as Hargs by (split_and!; by vm_compute || done).
  assert (is_u32 PTE_RW_KERNEL_NOCACHE) as Hf by (unfold is_u32; by vm_compute).
  pose proof (sp_state _ _ _ _ _ _ Hs) as Hst.
  assert (forall q, q ∈ ({[p]} ∪ M : gset Z) -> exists a n i, L !! a = Some n /\ 0 <= i < n /\ q = a + 4096 * i) as HM'.
  { intros q [->%elem_of_singleton|Hq]%elem_of_union; [by exists a, n, i|by apply Hs]. }
  destruct (T !! (page_of p / 1024)) as [f|] eqn:HT.
  - pose proof (map_page_old s pd T A Hst p p _ Hu Hu Hf Hargs Hwin f HT) as Hold.
    rewrite decide_True in Hold by (symmetry; by apply (sp_rw _ _ _ _ _ _ Hs _ f)).
    rewrite (sp_unmapped _ _ _ _ _ _ Hs p Hinp HM) in Hold.
    destruct Hold as (s' & Hmap & Hs' & (Hpfa & _ & Hon) & Hdir & Hr). left.
    exists s'. split; [done|]. exists pd, T, A.
    eapply (sys_remap s s' L M _ pd T T A A p); try done; try apply Hs.
    + rewrite Hon. apply Hs.
    + intros j g Hj Hg. rewrite Hdir by lia. by eapply (sp_rw _ _ _ _ _ _ Hs).
    + rewrite Hpfa. apply same_geometry_refl.
    + rewrite decide_True by set_solver. done.
    + intros q Hq. set_solver.
  - destruct (map_page_new s pd T A Hst p p _ Hu Hu Hf Hargs Hwin HT)
      as [[Hmap _]|(s' & f & Hmap & Hs' & Hbf & Hg & Hon & Hdir & Hfl & Hr)].
    { right. by eexists. }
    left. exists s'. split; [done|]. exists pd. do 2 eexists.
    destruct (pfa_repr_in_region _ _ f 1 (ps_pfa _ _ _ _ Hs') (lookup_insert_eq _ _ _)) as (_ & Hf0 & Hinf).
    pose proof (same_geometry_trans _ _ _ (sp_geometry _ _ _ _ _ _ Hs) Hg) as Hg'.
    eapply in_region_geometry in Hinf; [|by apply same_geometry_sym].
    assert (A !! f = None) as HAf.
    { apply eq_None_not_Some. intros [k Hk]. eapply block_free_None; [|done|done|]; [lia|].
      by apply (pfa_repr_in_region _ _ _ _ (ps_pfa _ _ _ _ Hst) Hk). }
    eapply (sys_remap s s' L M _ pd T _ A _ p); try done.
    + rewrite Hon. apply Hs.
    + intros j g Hj [[<- <-]|[Hne Hjg]]%lookup_insert_Some; [done|].
      rewrite Hdir by lia. by eapply (sp_rw _ _ _ _ _ _ Hs).
    + apply ledger_insert; [apply Hs|lia|unfold BAD_PAGE; lia|done|done].
    + etrans; [apply Hs|]. by apply insert_subseteq.
    + intros j g [[<- <-]|[Hne Hjg]]%lookup_insert_Some; [|by eapply Hs].
      eapply lookup_weaken_None; [done|apply Hs].
    + rewrite decide_True by set_solver. done.
    + intros q Hq. set_solver.
Qed.

Lemma sys_unmap s L M p :
  sys_page_state s L M -> p ∈ M ->
  exists s', pages_unmap p s = Ok (true, s') /\ sys_page_state s' L (M ∖ {[p]}).
Proof.
  intros (pd & T & A & Hs) Hp. cbn [pages_unmap sys_page_ops].
  pose proof (held_frame _ _ _ _ _ _ _ Hs Hp) as Hin. pose proof (region_pos _ _ _ _ _ _ _ Hs Hp) as Hp0.
  destruct (frame_vpn _ _ _ _ _ _ _ Hs Hin Hp0) as (Hu & Hpg & Hwin & Hpd).
  destruct (frame_page _ _ _ _ _ _ _ Hs Hin) as (Hal & _ & _).
  pose proof (unmap_page_spec s pd T A (sp_state _ _ _ _ _ _ Hs) p Hu Hal Hwin) as Hun.
  rewrite (sp_identity _ _ _ _ _ _ Hs p Hp) in Hun.
  destruct Hun as (s' & Hun & Hs' & (Hpfa & _ & Hon) & Hdir & Hr). exists s'. split; [done|].
  exists pd, T, A. eapply (sys_remap s s' L M _ pd T T A A p); try done; try apply Hs.
  - rewrite Hon. apply Hs.
  - intros j g Hj Hg. rewrite Hdir by lia. by eapply (sp_rw _ _ _ _ _ _ Hs).
  - rewrite Hpfa. apply same_geometry_refl.
  - intros q [Hq _]%elem_of_difference. by apply Hs.
  - rewrite decide_False by set_solver. done.
  - intros q Hq. set_solver.
Qed.

Lemma sys_block s L M a n : sys_page_state s L M -> L !! a = Some n ->
  0 < n /\ 0 < a /\ aligned a /\ a + 4096 * n < 2 ^ 32 /\
  (forall x, kernel x -> x < a \/ a + 4096 * n <= x).
Proof.
  intros (pd & T & A & Hs) Ha.
  destruct (sp_block _ _ _ _ _ _ _ _ Hs Ha) as (_ & Hn & H0 & Hin & Hal & Hlow).
  split_and!; [lia|lia|done|lia|]. intros x Hx. by apply (ram_kernel a n).
Qed.

Lemma sys_disjoint s L M a n b m : sys_page_state s L M ->
  L !! a = Some n -> L !! b = Some m -> a <> b -> a + 4096 * n <= b \/ b + 4096 * m <= a.
Proof.
  intros (pd & T & A & Hs) Ha Hb Hne.
  destruct (sp_block _ _ _ _ _ _ _ _ Hs Ha) as (HAa & _), (sp_block _ _ _ _ _ _ _ _ Hs Hb) as (HAb & _).
  destruct (sp_ledger _ _ _ _ _ _ Hs) as [_ Hd]. unfold PAGE_SIZE in Hd.
  destruct (Hd _ _ _ _ HAa HAb Hne); lia.
Qed.

Lemma sys_mapped s L M p : sys_page_state s L M -> p ∈ M ->
  exists a n i, L !! a = Some n /\ 0 <= i < n /\ p = a + 4096 * i.
Proof. intros (pd & T & A & Hs) Hp. by apply (sp_mapped _ _ _ _ _ _ Hs). Qed.

#[export] Instance sys_page_laws : PageLaws sys kernel := {
  page_state := sys_page_state;
  page_state_block := sys_block;
  page_state_disjoint := sys_disjoint;
  page_state_mapped := sys_mapped;
  pages_alloc_law := sys_alloc;
  pages_free_law := sys_free;
  pages_map_law := sys_map;
  pages_unmap_law := sys_unmap;
}.
End laws.
