(* ===== verification/KmallocOps.v ===== *)
(** * The fine-grained allocator: its operations

    What each function of [kmalloc.c] does to the invariant [core]. *)
From S2P Require Import Prelude Page Dlist Kmalloc KmallocSpec.

(** ** Why a request is not served *)

Section refusals.
Context {P : Type} {ops : PageOps P} (hb : Z).

(** Every block of chunks of [e] bytes is full. *)
Definition full (e : Z) (k : km P) : Prop :=
  exists bl, lrep (nodes k) hb (block_node <$> bl) /\
    forall a b, a ∈ bl -> blocks k !! a = Some b -> elt_size b = e -> CHUNK_FREE ∉ chunkmap b.

Definition no_frame (n : Z) (p : P) : Prop := exists p', pages_alloc n p = Ok (BAD_PAGE, p').
Definition frame (n a : Z) (p p' : P) : Prop := pages_alloc n p = Ok (a, p') /\ a <> BAD_PAGE.
Definition map_stops (a : Z) (p : P) (why : string) : Prop :=
  pages_map a a PTE_RW_KERNEL_NOCACHE p = Err (Panic why).
Definition maps_page (a : Z) (p p' : P) : Prop := pages_map a a PTE_RW_KERNEL_NOCACHE p = Ok (true, p').

(** Requests below a page: no chunk is free, and there is no page frame for a new
    block, or mapping that frame stops the kernel. *)
Definition small_refused (e : Z) (k : km P) : Prop := full e k /\ no_frame 1 (pages k).
Definition small_stopped (e : Z) (k : km P) (why : string) : Prop :=
  full e k /\ exists a p, frame 1 a (pages k) p /\ map_stops a p why.

(** The others: no [n] page frames, or no room for their metadata; mapping the
    block of the metadata or one of the [n] pages stops the kernel. *)
Definition big_refused (n : Z) (k : km P) : Prop :=
  no_frame n (pages k) \/ exists a p, frame n a (pages k) p /\ small_refused 16 (with_pages p k).

Definition meta_pages (p p' : P) : Prop := p' = p \/ exists b q, frame 1 b p q /\ maps_page b q p'.

Fixpoint mapped (i : nat) (a : Z) (p p' : P) : Prop :=
  match i with
  | O => p' = p
  | S i => exists q, mapped i a p q /\ maps_page (a + 4096 * Z.of_nat i) q p'
  end.

Definition big_stopped (n : Z) (k : km P) (why : string) : Prop :=
  exists a p, frame n a (pages k) p /\
    (small_stopped 16 (with_pages p k) why \/
     exists p1 i p2, meta_pages p p1 /\ Z.of_nat i < n /\ mapped i a p1 p2 /\
       map_stops (a + 4096 * Z.of_nat i) p2 why).

End refusals.

Section ops.
Context {P : Type} {ops : PageOps P} {kernel : Z -> Prop} {laws : PageLaws P kernel}.
Context {hb hg : Z} {heads : ListHeads kernel hb hg}.

Notation core := (core hb hg).

(** ** Chunks *)

Lemma block_ok_set a b i c d :
  block_ok a b -> chunkmap b !! i = Some c -> d = CHUNK_FREE \/ d = CHUNK_USED ->
  block_ok a (set_counts (count_free (<[i := d]> (chunkmap b))) (<[i := d]> (chunkmap b)) b).
Proof.
  intros [H1 H2 H3 H4 H5 H6] Hi Hd. constructor; cbn; try done.
  - by rewrite length_insert.
  - apply Forall_insert; done.
Qed.

Lemma core_set_block {k L M bl gl X} a b i c d nb :
  core k L M bl gl X -> a ∈ bl -> blocks k !! a = Some b -> chunkmap b !! i = Some c ->
  c <> d -> (c = CHUNK_USED \/ d = CHUNK_USED) -> d = CHUNK_FREE \/ d = CHUNK_USED ->
  nb = count_free (<[i := d]> (chunkmap b)) -> chunk_addr b i ∉ gl ->
  core (set_block a (set_counts nb (<[i := d]> (chunkmap b)) b) k) L M bl gl X.
Proof.
  intros Hc Ha Hb Hi Hcd Hu Hd -> Hgl.
  pose proof (live_set_block a b i c d (count_free (<[i := d]> (chunkmap b))) Hc Ha Hb Hi Hcd Hu) as Hl.
  destruct (core_block_ok _ _ Hc Ha Hb) as (Hok & HL & HM & _).
  destruct Hc as [H1 H2 H3 H4 H5 H6 H7 H8]. constructor; try done.
  - intros a' Ha'. destruct (H4 a' Ha') as (? & ? & b' & Hb' & Hok'). split_and!; [done..|].
    destruct (decide (a' = a)) as [->|]; cbn.
    + rewrite lookup_insert_eq. eexists. split; [done|]. by eapply block_ok_set.
    + rewrite lookup_insert_ne by done. by exists b'.
  - intros m Hm. destruct (H5 m Hm) as [Hlive Hbig]. split; [|done].
    apply Hl. by rewrite decide_False by (intros ->; done).
Qed.

Lemma not_live_free {k L M bl gl X} a b i sz :
  core k L M bl gl X -> a ∈ bl -> blocks k !! a = Some b -> chunkmap b !! i = Some CHUNK_FREE ->
  ~ live k bl (chunk_addr b i) sz.
Proof.
  intros Hc Ha Hb Hi (a' & b' & j & Ha' & Hb' & Hj & Heq & _).
  assert (a' = a) as ->.
  { rewrite (chunk_page _ _ _ _ Hc Ha' Hb' Hj), <- Heq.
    symmetry. by apply (chunk_page _ _ _ _ Hc Ha Hb Hi). }
  simplify_eq. destruct (core_block_ok _ _ Hc Ha Hb) as (Hok & _).
  apply (chunk_addr_inj _ _ _ _ Hok) in Heq as ->. by simplify_eq.
Qed.

(** The chunk allocated in a block that is not full. *)
Lemma alloc_chunk_spec {k L M bl gl X} a b :
  core k L M bl gl X -> a ∈ bl -> blocks k !! a = Some b -> 0 < nb_frees b ->
  exists p k', alloc_chunk a k = Ok (p, k') /\ core k' L M bl gl X /\ 0 < p /\
    (forall sz, ~ live k bl p sz) /\ bigs k' = bigs k /\ pages k' = pages k /\
    forall q sz, live k' bl q sz <-> (q = p /\ sz = elt_size b) \/ live k bl q sz.
Proof.
  intros Hc Ha Hb Hnb.
  destruct (core_block_ok _ _ Hc Ha Hb) as (Hok & HL & HM & H0 & _ & Hlt).
  pose proof (bo_len _ _ Hok) as Hlen. pose proof (bo_tot _ _ Hok) as Htot.
  destruct (sizes_geometry _ (bo_size _ _ Hok)) as (He & Ht & Ho & _ & Hs).
  rewrite (bo_free _ _ Hok) in Hnb. destruct (proj1 (count_free_pos _) Hnb) as [i0 Hi0].
  unfold alloc_chunk, get_block. rewrite Hb. cbn [mbind res_bind].
  set (set_free := fun i => set_block a (set_counts (nb_frees b ⊖ 1) (<[i := CHUNK_USED]> (chunkmap b)) b) k).
  loop_search (fun j o => match o with
    | Some r => chunkmap b !! Z.to_nat j = Some CHUNK_FREE /\
        r = (chunk_addr b (Z.to_nat j), set_free (Z.to_nat j))
    | None => chunkmap b !! Z.to_nat j <> Some CHUNK_FREE end)
    as [(j & r & Hj & -> & [Hfree ->] & _)|[_ Hnone]].
  - intros j Hj. destruct (aget_in (chunkmap b) j) as [c Hget]; [lia|]. rewrite Hget.
    apply aget_Ok in Hget as [_ Hget]. cbn [mbind res_bind].
    destruct (Z.eqb_spec c CHUNK_FREE) as [->|Hc'].
    + left. rewrite aset_in by lia. cbn [mbind res_bind mret res_ret]. eexists. split; [done|].
      split; [done|]. pose proof (chunk_addr_word a b (Z.to_nat j) _ Hok ltac:(lia) Hlt Hget) as Hw.
      rewrite Z2Nat.id in Hw by lia. by rewrite Hw.
    + right. split; [done|congruence].
  - set (i := Z.to_nat j) in *. exists (chunk_addr b i), (set_free i).
    destruct (chunk_addr_range a b i _ Hok Hfree) as [Hr _].
    pose proof (not_live_free _ _ _ (elt_size b) Hc Ha Hb Hfree) as Hnl.
    pose proof (count_free_insert _ _ _ CHUNK_USED Hfree) as Hcnt.
    pose proof (count_free_le (chunkmap b)) as Hle.
    rewrite decide_True, decide_False in Hcnt by done.
    assert (nb_frees b ⊖ 1 = count_free (<[i := CHUNK_USED]> (chunkmap b))) as Hw.
    { rewrite (bo_free _ _ Hok), u32_small by lia. lia. }
    split_and!; [done| |lia|by intros sz; eapply not_live_free|done|done|].
    + eapply core_set_block; [done|done|done|exact Hfree|done|by right|by right|done|].
      intros Hg. destruct (c_big Hc _ Hg) as [Hl _].
      by eapply not_live_free in Hl.
    + intros q sz. unfold set_free.
      rewrite (live_set_block _ _ _ _ _ _ Hc Ha Hb Hfree) by (done || by right).
      case_decide as Hq; [|naive_solver]. split; [naive_solver|]. intros [[? ?]|Hl]; [done|].
      rewrite Hq in Hl. by eapply not_live_free in Hl.
  - exfalso. apply (Hnone (Z.of_nat i0)); [|by rewrite Nat2Z.id].
    apply lookup_lt_Some in Hi0. lia.
Qed.

(** The chunk released. *)
Definition chunk_freed (a : Z) (b : aha_block) (i : nat) (k : km P) : km P :=
  set_block a (set_counts (nb_frees b + 1) (<[i := CHUNK_FREE]> (chunkmap b)) b) k.

Lemma free_chunk_used {k L M bl gl X} a b i :
  core k L M bl gl X -> a ∈ bl -> blocks k !! a = Some b -> chunkmap b !! i = Some CHUNK_USED ->
  free_chunk a (chunk_addr b i) k = Ok (chunk_freed a b i k) /\
  nb_frees b + 1 = count_free (<[i := CHUNK_FREE]> (chunkmap b)).
Proof.
  intros Hc Ha Hb Hi. destruct (core_block_ok _ _ Hc Ha Hb) as (Hok & HL & HM & H0 & _ & Hlt).
  pose proof (bo_len _ _ Hok) as Hlen. pose proof (bo_tot _ _ Hok) as Htot.
  destruct (sizes_geometry _ (bo_size _ _ Hok)) as (_ & Ht & _).
  pose proof (lookup_lt_Some _ _ _ Hi) as Hilt.
  unfold free_chunk, get_block. rewrite Hb. cbn [mbind res_bind].
  pose proof (count_free_insert _ _ _ CHUNK_FREE Hi) as Hcnt.
  rewrite decide_False, decide_True in Hcnt by done.
  pose proof (count_free_le (<[i := CHUNK_FREE]> (chunkmap b))) as Hle. rewrite length_insert in Hle.
  assert (nb_frees b ⊕ 1 = nb_frees b + 1) as Hw by (rewrite (bo_free _ _ Hok), u32_small by lia; lia).
  split; [|rewrite (bo_free _ _ Hok); lia].
  rewrite Hw. loop_search (fun j o => match o with
    | Some r => r = chunk_freed a b i k | None => j <> Z.of_nat i end) as [(j & r & Hj & -> & -> & _)|[_ Hnone]].
  - intros j Hj. destruct (aget_in (chunkmap b) j) as [c Hget]; [lia|].
    pose proof Hget as [_ Hgetj]%aget_Ok.
    pose proof (chunk_addr_word a b _ _ Hok ltac:(lia) Hlt Hgetj) as Hadr.
    rewrite Z2Nat.id in Hadr by lia. rewrite Hadr. destruct (Z.eqb_spec (chunk_addr b (Z.to_nat j)) (chunk_addr b i)) as [Heq|Hneq].
    + left. apply (chunk_addr_inj _ _ _ _ Hok) in Heq. subst i. rewrite Hget. cbn [mbind res_bind].
      simplify_eq. rewrite aset_in by lia. by eexists.
    + right. split; [done|]. intros ->. by rewrite Nat2Z.id in Hneq.
  - done.
  - exfalso. apply (Hnone (Z.of_nat i)); [lia|done].
Qed.

Lemma free_chunk_live {k L M bl gl X} a b i :
  core k L M bl gl X -> a ∈ bl -> blocks k !! a = Some b ->
  chunkmap b !! i = Some CHUNK_USED -> chunk_addr b i ∉ gl ->
  exists k', free_chunk a (chunk_addr b i) k = Ok k' /\ core k' L M bl gl X /\ bigs k' = bigs k /\
    forall q sz, live k' bl q sz <-> live k bl q sz /\ q <> chunk_addr b i.
Proof.
  intros Hc Ha Hb Hi Hg. destruct (free_chunk_used a b i Hc Ha Hb Hi) as [Hfree Hnb].
  exists (chunk_freed a b i k). split_and!; [done| |done|].
  - eapply core_set_block; [done|done|done|exact Hi|done|by left|by left|done|done].
  - intros q sz. unfold chunk_freed. rewrite (live_set_block _ _ _ _ _ _ Hc Ha Hb Hi) by (done || by left).
    case_decide as Hq; naive_solver.
Qed.

(** Any other pointer into the block is detected. *)
Lemma free_chunk_dead {k L M bl gl X} a p :
  core k L M bl gl X -> a ∈ bl -> (forall sz, ~ live k bl p sz) ->
  exists why, free_chunk a p k = Err (Panic why).
Proof.
  intros Hc Ha Hd. destruct (core_block _ Hc Ha) as (b & Hb & Hok & HL & HM & H0 & _ & Hlt).
  pose proof (bo_len _ _ Hok) as Hlen. pose proof (bo_tot _ _ Hok) as Htot.
  destruct (sizes_geometry _ (bo_size _ _ Hok)) as (_ & Ht & _).
  unfold free_chunk, get_block. rewrite Hb. cbn [mbind res_bind].
  match goal with |- context [for_ctl ?n ?i ?bd ?s] =>
    destruct (for_ctl_scan (Panic "double-free detected!") bd n i s) as [-> | ->] end;
    [|by eexists..].
  intros i Hi. destruct (aget_in (chunkmap b) i) as [c Hget]; [lia|]. pose proof Hget as [_ Hgi]%aget_Ok.
  pose proof (chunk_addr_word a b _ _ Hok ltac:(lia) Hlt Hgi) as Hw.
  rewrite Z2Nat.id in Hw by lia. cbv zeta. rewrite Hw.
  destruct (Z.eqb_spec (chunk_addr b (Z.to_nat i)) p) as [Heq|Hneq]; [|by left].
  rewrite Hget. cbn [mbind res_bind]. pose proof (bo_map _ _ Hok) as Hm.
  rewrite Forall_lookup in Hm. destruct (Hm _ _ Hgi) as [->| ->]; [by right|].
  exfalso. apply (Hd (elt_size b)). by exists a, b, (Z.to_nat i).
Qed.

(** ** The searches *)

(** A search in a list of structures. *)
Lemma search_list (k : km P) h node off l (test : Z -> bool) fuel
    (body : Z -> km P -> res (ctl Z (km P))) :
  lrep (nodes k) h (node <$> l) -> (length l < fuel)%nat ->
  (forall a, a ∈ l -> container_of (node a) off = a) ->
  (forall a, a ∈ l -> body a k = Ok (if test a then Leave a else Next k)) ->
  (forall x t t', body x t = Ok (Next t') -> t' = t) ->
  list_for_each_entry nodes h off fuel body k =
    Ok (match find test l with Some a => Leave a | None => Next k end).
Proof.
  intros Hr Hf Hoff Hb Hn. unfold list_for_each_entry.
  rewrite (list_for_each_spec nodes h (node <$> l)); [|done|by rewrite length_fmap|].
  2:{ intros x t t' _ Ht ->%Hn. done. }
  clear Hr Hf. induction l as [|a l IH]; [done|]. cbn [fmap list_fmap list_ctl find].
  rewrite Hoff, Hb by apply list_elem_of_here. cbn [mbind res_bind].
  destruct (test a); [done|]. apply IH; intros; [apply Hoff|apply Hb]; by apply list_elem_of_further.
Qed.

Lemma list_fuel_bound (k : km P) h l : lrep (nodes k) h l -> (length l < list_fuel k)%nat.
Proof.
  intros [Hnd Hf]. unfold list_fuel. rewrite <- size_dom.
  assert (list_to_set l ⊆ dom (nexts (nodes k))) as Hs.
  { intros x Hx%elem_of_list_to_set.
    apply elem_of_dom. assert (x ∈ (edges h l h).*1) as Hin by (rewrite edges_fst; set_solver).
    apply list_elem_of_fmap in Hin as ([u v] & -> & Hin). rewrite Forall_forall in Hf.
    destruct (Hf _ Hin) as [Hnx _]. by eexists. }
  apply subseteq_size in Hs. rewrite size_list_to_set in Hs by (by apply NoDup_cons in Hnd as [_ ?]).
  lia.
Qed.

Definition block_test (f : aha_block -> bool) (k : km P) (a : Z) : bool :=
  match blocks k !! a with Some b => f b | None => false end.

Lemma container_block {k L M bl gl X} a :
  core k L M bl gl X -> a ∈ bl -> container_of (block_node a) offsetof_block_list = a.
Proof.
  intros Hc Ha. destruct (core_block _ Hc Ha) as (_ & _ & _ & _ & _ & H0 & _ & Hlt).
  unfold container_of, block_node. rewrite u32_small; lia.
Qed.

Lemma search_blocks {k L M bl gl X} f :
  core k L M bl gl X ->
  list_for_each_entry nodes hb offsetof_block_list (list_fuel k) (fun block k =>
    b ← get_block k block;
    if f block b : bool then mret (Leave block) else mret (Next k)) k =
  Ok (match find (fun a => block_test (f a) k a) bl with Some a => Leave a | None => Next k end).
Proof.
  intros Hc. eapply (search_list k hb block_node); [apply Hc| | | |].
  - rewrite <- (length_fmap block_node). eapply list_fuel_bound, Hc.
  - intros a Ha. by eapply container_block.
  - intros a Ha. destruct (core_block _ Hc Ha) as (b & Hb & _).
    unfold get_block, block_test. rewrite Hb. cbn. by destruct (f a b).
  - intros x t t' (b & _ & H)%bind_Ok. unfold mret, res_ret in H. destruct (f x b); congruence.
Qed.

Lemma empty_blocks {k L M bl gl X} :
  core k L M bl gl X -> list_empty (nodes k) hb = Ok (bool_decide (bl = [])).
Proof.
  intros Hc. rewrite (list_empty_spec _ _ _ (c_bl Hc)). f_equal. apply bool_decide_ext.
  by destruct bl.
Qed.

Lemma find_non_full_block_spec {k L M bl gl X} e :
  core k L M bl gl X ->
  exists r, find_non_full_block hb e k = Ok r /\
    ((r = 0 /\ full hb e k) \/ (r <> 0 /\ r ∈ bl /\ exists b, blocks k !! r = Some b /\ elt_size b = e /\ 0 < nb_frees b)).
Proof.
  intros Hc. unfold find_non_full_block. rewrite (empty_blocks Hc). cbn [mbind res_bind].
  case_bool_decide as Hbl.
  { subst bl. exists 0. split; [done|left]. split; [done|]. exists []. split; [apply (c_bl Hc)|].
    by intros a b ?%not_elem_of_nil. }
  rewrite (search_blocks (fun _ b => (elt_size b =? e) && (0 <? nb_frees b)) Hc). cbn [mbind res_bind].
  destruct (find _ bl) as [a|] eqn:Hf.
  2:{ exists 0. split; [done|left]. split; [done|]. exists bl. split; [apply (c_bl Hc)|].
      intros a b Ha Hb He Hfree. destruct (core_block_ok _ _ Hc Ha Hb) as (Hok & _).
      apply list_elem_of_lookup, count_free_pos in Hfree. rewrite <- (bo_free _ _ Hok) in Hfree.
      apply list_elem_of_In in Ha. pose proof (find_none _ _ Hf a Ha) as Ht. cbn in Ht.
      unfold block_test in Ht. rewrite Hb in Ht. lia. }
  apply find_some in Hf as [Ha%list_elem_of_In Ht]. exists a. split; [done|right].
  destruct (core_block _ Hc Ha) as (b & Hb & _ & _ & _ & H0 & _).
  unfold block_test in Ht. rewrite Hb in Ht. split_and!; [lia|done|exists b]. split_and!; [done|lia|lia].
Qed.

(** The block whose page holds [p]. *)
Lemma find_hosting_block_spec {k L M bl gl X} p :
  core k L M bl gl X ->
  (exists a b, find_hosting_block hb p k = Ok (Some a) /\ a ∈ bl /\ blocks k !! a = Some b /\
     first_ptr b <= p < a + 4096) \/
  (find_hosting_block hb p k = Ok None /\
   forall a b, a ∈ bl -> blocks k !! a = Some b -> ~ first_ptr b <= p < a + 4096).
Proof.
  intros Hc. unfold find_hosting_block. rewrite (empty_blocks Hc). cbn [mbind res_bind].
  case_bool_decide as Hbl.
  { subst bl. right. split; [done|]. by intros a b ?%not_elem_of_nil. }
  rewrite (search_blocks (fun a b => (first_ptr b <=? p) && (p <? a ⊕ PAGE_SIZE)) Hc).
  cbn [mbind res_bind]. destruct (find _ bl) as [a|] eqn:Hf.
  - apply find_some in Hf as [Ha%list_elem_of_In Ht]. left.
    destruct (core_block _ Hc Ha) as (b & Hb & _ & _ & _ & H0 & _ & Hlt).
    unfold block_test in Ht. rewrite Hb, u32_small in Ht by (unfold PAGE_SIZE; lia).
    exists a, b. split_and!; [done|done|done|lia|]. unfold PAGE_SIZE in Ht. lia.
  - right. split; [done|]. intros a b Ha Hb Hp.
    destruct (core_block_ok _ _ Hc Ha Hb) as (_ & _ & _ & H0 & _ & Hlt).
    apply list_elem_of_In in Ha. pose proof (find_none _ _ Hf a Ha) as Ht. cbn in Ht.
    unfold block_test in Ht. rewrite Hb, u32_small in Ht by (unfold PAGE_SIZE; lia).
    unfold PAGE_SIZE in Ht. lia.
Qed.

(** ** New page frames *)

Lemma fresh_pages s s' L M a n :
  page_state s L M -> page_state s' (<[a := n]> L) M -> L !! a = None ->
  (forall p, p ∈ M -> p < a \/ a + 4096 * n <= p) /\
  (forall b m, L !! b = Some m -> a + 4096 * n <= b \/ b + 4096 * m <= a).
Proof.
  intros Hs Hs' Ha.
  assert (forall b m, L !! b = Some m -> a + 4096 * n <= b \/ b + 4096 * m <= a) as Hd.
  { intros b m Hb. eapply (page_state_disjoint _ _ _ a n b m Hs').
    - apply lookup_insert_eq.
    - rewrite lookup_insert_ne by congruence. done.
    - congruence. }
  split; [|done]. intros p Hp. destruct (page_state_mapped _ _ _ _ Hs Hp) as (b & m & i & Hb & Hi & ->).
  destruct (Hd _ _ Hb); lia.
Qed.

(** The nodes of the two lists are apart. *)
Lemma big_node_place {k L M bl gl X} m :
  core k L M bl gl X -> m ∈ gl ->
  exists a, a ∈ bl /\ L !! a = Some 1 /\ aligned a /\ a + 32 <= big_node m < a + 4096 /\ 0 < a.
Proof.
  intros Hc Hm. destruct (c_big Hc _ Hm) as [Hl _].
  destruct (live_block _ _ Hc Hl) as (a & b & i & Ha & Hb & _ & _ & _ & _ & H0 & _ & H1 & H2).
  exists a. destruct (core_block_ok _ _ Hc Ha Hb) as (_ & HL & _ & _ & Hal & _).
  unfold big_node, offsetof_big_list. split_and!; [done|done|done|lia|lia|lia].
Qed.

Lemma kernel_outside {k L M bl gl X} a x :
  core k L M bl gl X -> a ∈ bl -> kernel x -> x < a \/ a + 4096 <= x.
Proof.
  intros Hc Ha Hx. destruct (c_block Hc a Ha) as (HL & _).
  destruct (page_state_block _ _ _ _ _ (c_pages Hc) HL) as (_ & _ & _ & _ & Hk).
  destruct (Hk x Hx); lia.
Qed.

Lemma block_apart {k L M bl gl X} a b :
  core k L M bl gl X -> a ∈ bl -> b ∈ bl -> a <> b -> a + 4096 <= b \/ b + 4096 <= a.
Proof.
  intros Hc Ha Hb Hab. destruct (c_block Hc a Ha) as (HLa & _), (c_block Hc b Hb) as (HLb & _).
  destruct (page_state_disjoint _ _ _ _ _ _ _ (c_pages Hc) HLa HLb Hab); lia.
Qed.

Lemma nodes_apart {k L M bl gl X} x :
  core k L M bl gl X -> x ∈ hg :: (big_node <$> gl) -> x ∉ hb :: (block_node <$> bl).
Proof.
  intros Hc Hx Hx'. rewrite elem_of_cons, list_elem_of_fmap in Hx, Hx'.
  unfold block_node, offsetof_block_list in Hx'.
  destruct Hx as [->|(m & -> & Hm)], Hx' as [Heq|(b & Heq & Hb)].
  - by apply heads_ne.
  - pose proof (kernel_outside b hg Hc Hb heads_g). lia.
  - destruct (big_node_place m Hc Hm) as (a & Ha & _ & _ & Hr & _).
    pose proof (kernel_outside a hb Hc Ha heads_b). lia.
  - destruct (big_node_place m Hc Hm) as (a & Ha & _ & _ & Hr & _).
    destruct (decide (a = b)) as [->|Hab]; [lia|]. destruct (block_apart a b Hc Ha Hb Hab); lia.
Qed.

Lemma block_at_mono (k : km P) L M L' M' a : L ⊆ L' -> M ⊆ M' -> block_at k L M a -> block_at k L' M' a.
Proof.
  intros HL HM (H1 & H2 & H3). split_and!; [by eapply lookup_weaken|set_solver|done].
Qed.

Lemma big_at_mono (k : km P) L M L' M' bl m : L ⊆ L' -> M ⊆ M' -> big_at k L M bl m -> big_at k L' M' bl m.
Proof.
  intros HL HM (H1 & g & n & H2 & H3 & H4 & H5 & H6 & H7). split; [done|].
  exists g, n. split_and!; try done; try lia; [by eapply lookup_weaken|].
  intros i Hi. apply HM, H7, Hi.
Qed.

(** The pages change: more of them, or more of them mapped. *)
Lemma core_pages {k L M bl gl X} p L' M' X' :
  core k L M bl gl X -> page_state p L' M' -> L ⊆ L' -> M ⊆ M' ->
  (forall a n, L' !! a = Some n -> L !! a = Some n \/ a ∈ X') -> (forall a, a ∈ X -> a ∈ X') ->
  (forall a, a ∈ X' -> is_Some (L' !! a) /\ (a ∉ bl) /\
     forall m g, m ∈ gl -> bigs k !! m = Some g -> big_ptr g <> a) ->
  core (with_pages p k) L' M' bl gl X'.
Proof.
  intros [H1 H2 H3 H4 H5 H6 H7 H8] Hp HL HM Hown HX HX'. constructor; try done.
  - intros a Ha. eapply (block_at_mono k); eauto.
  - intros m Hm. eapply (big_at_mono k); eauto.
  - intros a n Ha. destruct (Hown a n Ha) as [Ha'|Ha']; [|by right; right].
    destruct (H7 a n Ha') as [?|[?|?]]; [by left|by right; left|right; right; auto].
Qed.

Lemma core_alloc {k L M bl gl X} p a n :
  core k L M bl gl X -> page_state p (<[a := n]> L) M -> L !! a = None ->
  core (with_pages p k) (<[a := n]> L) M bl gl (a :: X).
Proof.
  intros Hc Hp Ha. eapply (core_pages _ _ M _ Hc); [done|by apply insert_subseteq|done| | |].
  - intros b m [[<- <-]|[_ Hb]]%lookup_insert_Some; [right; apply list_elem_of_here|by left].
  - intros b Hb. by apply list_elem_of_further.
  - intros b [->|Hb]%elem_of_cons; [rewrite lookup_insert_eq; split_and!; [done| |]|].
    + intros Hin. destruct (c_block Hc _ Hin) as (HL & _). congruence.
    + intros m g Hm Hg Heq. destruct (c_big Hc _ Hm) as (_ & g' & n' & Hg' & _ & _ & HL & _).
      congruence.
    + destruct (c_extra Hc _ Hb) as ([m Hm] & Hbl & Hbig). split_and!; [|done..].
      exists m. rewrite lookup_insert_ne by congruence. done.
Qed.

(** Mapping a page of a block. *)
Lemma map_identity_page_spec {k L M bl gl X} a n i :
  core k L M bl gl X -> L !! a = Some n -> 0 <= i < n -> (a + 4096 * i) ∉ M ->
  (exists p, map_identity_page (a + 4096 * i) k = Ok (with_pages p k) /\
     maps_page (a + 4096 * i) (pages k) p /\ core (with_pages p k) L ({[a + 4096 * i]} ∪ M) bl gl X) \/
  (exists why, map_identity_page (a + 4096 * i) k = Err (Panic why) /\ map_stops (a + 4096 * i) (pages k) why).
Proof.
  intros Hc Ha Hi Hm. unfold map_identity_page.
  destruct (pages_map_law _ _ _ _ _ _ (c_pages Hc) Ha Hi Hm) as [(s' & Hmap & Hs')|[why Hmap]]; rewrite Hmap;
    [left|right; by exists why].
  exists s'. split; [done|]. split; [done|]. eapply (core_pages _ L _ X Hc); try done.
  - set_solver.
  - intros b m Hb. by left.
  - intros b Hb. apply (c_extra Hc _ Hb).
Qed.

(** A page becomes an empty block. *)
Lemma core_add_block {k L M bl gl X} a b :
  core k L M bl gl (a :: X) -> a ∉ X -> L !! a = Some 1 -> a ∈ M -> block_ok a b ->
  (forall i c, chunkmap b !! i = Some c -> c = CHUNK_FREE) ->
  exists h, list_add (block_node a) hb (nodes k) = Ok h /\
    let k' := set_block a b (with_nodes h k) in
    core k' L M (a :: bl) gl X /\ forall p sz, live k' (a :: bl) p sz <-> live k bl p sz.
Proof.
  intros Hc HaX HL HM Hok Hfree.
  destruct (c_extra Hc a (list_elem_of_here _ _)) as (_ & Hnew & Hnb).
  destruct (page_state_block _ _ _ _ _ (c_pages Hc) HL) as (_ & H0 & Hal & Hlt & Hk).
  destruct (list_add_spec (nodes k) hb (block_node <$> bl) (block_node a)) as (h & Hh & Hr & Hf).
  { apply c_bl in Hc. done. }
  { rewrite elem_of_cons, list_elem_of_fmap. unfold block_node, offsetof_block_list.
    intros [Heq|(a' & Heq & Ha')]; [destruct (Hk hb heads_b); lia|].
    assert (a = a') by lia. by subst. }
  exists h. split; [done|]. intros k'.
  assert (forall p sz, live k' (a :: bl) p sz <-> live k bl p sz) as Hlive.
  { intros p sz. split.
    - intros (a' & b' & i & [->|Ha']%elem_of_cons & Hb & Hi & ? & ?).
      + cbn in Hb. rewrite lookup_insert_eq in Hb. simplify_eq. by apply Hfree in Hi.
      + cbn in Hb. rewrite lookup_insert_ne in Hb by congruence. by exists a', b', i.
    - intros (a' & b' & i & Ha' & Hb & Hi & ? & ?). exists a', b', i. cbn.
      rewrite lookup_insert_ne by congruence. split_and!; try done. by apply list_elem_of_further. }
  split; [|done]. constructor; cbn [set_block with_nodes pages nodes blocks bigs].
  - apply (c_pages Hc).
  - done.
  - eapply lrep_frame; [exact Hf| |apply (c_gl Hc)]. apply Forall_forall. intros x Hx Hin.
    apply elem_of_cons in Hin as [->|Hin]; [|by eapply nodes_apart].
    revert Hx. rewrite elem_of_cons, list_elem_of_fmap. unfold block_node, offsetof_block_list.
    intros [Heq|(m & Heq & Hm)]; [destruct (Hk hg heads_g); lia|].
    destruct (big_node_place m Hc Hm) as (a' & Ha' & HL' & Hal' & Hr' & _).
    assert (a <> a') as Haa by congruence.
    destruct (page_state_disjoint _ _ _ _ _ _ _ (c_pages Hc) HL HL' Haa); lia.
  - intros a' [->|Ha']%elem_of_cons.
    + split_and!; [done..|]. exists b. cbn. by rewrite lookup_insert_eq.
    + destruct (c_block Hc a' Ha') as (? & ? & b' & ? & ?). split_and!; [done..|]. exists b'.
      cbn. by rewrite lookup_insert_ne by congruence.
  - intros m Hm. destruct (c_big Hc m Hm) as (Hl & g & n & H1 & H2 & H3 & H4 & H5 & H6).
    split; [by apply Hlive|]. exists g, n. split_and!; try done; try lia.
    rewrite elem_of_cons. intros [Heq|?]; [|done]. by apply (Hnb m g Hm H1).
  - apply (c_inj Hc).
  - intros a' n Ha'. rewrite elem_of_cons. destruct (c_owned Hc a' n Ha') as [?|[?|[?|?]%elem_of_cons]];
      tauto.
  - intros a' Ha'. destruct (c_extra Hc a') as (? & ? & ?); [by apply list_elem_of_further|].
    split_and!; [done| |done]. rewrite elem_of_cons. intros [->|?]; done.
Qed.
End ops.
