(* ===== verification/KmallocRun.v ===== *)
(** * The fine-grained allocator: [kmalloc] and [kfree]

    The specifications of [kmalloc] and [kfree] on the invariant [core], by
    their small and big paths. *)
From S2P Require Import Prelude Page Dlist Kmalloc KmallocSpec KmallocOps.

Section run.
Context {P : Type} {ops : PageOps P} {kernel : Z -> Prop} {laws : PageLaws P kernel}.
Context {hb hg : Z} {heads : ListHeads kernel hb hg}.

Notation core := (core hb hg).

(** ** Small allocations *)

(** [first_ptr], rounded up to a word. *)
Lemma first_ptr_word a e :
  aligned a -> 0 < a -> a + 4096 < 2 ^ 32 -> e ∈ sizes ->
  let ptr := (a ⊕ sizeof_aha_block) ⊕ tot_of e in
  (if negb (Z.land ptr (sizeof_ptr - 1) =? 0)
   then ptr ⊕ (sizeof_ptr ⊖ Z.land ptr (sizeof_ptr - 1)) else ptr) = a + off_of e.
Proof.
  intros Hal H0 Hlt He ptr. destruct (sizes_geometry e He) as (Hr & Ht & Ho & Hm & _).
  assert (ptr = a + 24 + tot_of e) as ->.
  { unfold ptr, sizeof_aha_block. rewrite (u32_small (a + 24)) by lia. apply u32_small. lia. }
  unfold sizeof_ptr. change (4 - 1) with (2 ^ 2 - 1). rewrite land_low by lia.
  unfold aligned, PAGE_SIZE in Hal. change (2 ^ 2) with 4.
  assert ((a + 24 + tot_of e) mod 4 = tot_of e mod 4) as -> by (Z.div_mod_to_equations; lia).
  destruct (Z.eqb_spec (tot_of e mod 4) 0) as [Hz|Hz]; cbn [negb].
  - unfold off_of in *. Z.div_mod_to_equations; lia.
  - rewrite (u32_small (4 - _)) by (Z.div_mod_to_equations; lia).
    unfold off_of in *. rewrite u32_small; Z.div_mod_to_equations; lia.
Qed.

Lemma new_block_spec {k L M bl gl X} e :
  core k L M bl gl X -> e ∈ sizes ->
  (exists why, new_block hb e k = Err (Panic why) /\ exists a p, frame 1 a (pages k) p /\ map_stops a p why) \/
  (exists k', new_block hb e k = Ok (0, k') /\ core k' L M bl gl X /\
     blocks k' = blocks k /\ bigs k' = bigs k /\ no_frame 1 (pages k)) \/
  (exists a k' b, new_block hb e k = Ok (a, k') /\ a <> 0 /\ L !! a = None /\
     core k' (<[a := 1]> L) ({[a]} ∪ M) (a :: bl) gl X /\
     blocks k' !! a = Some b /\ elt_size b = e /\ 0 < nb_frees b /\ bigs k' = bigs k /\
     meta_pages (pages k) (pages k') /\
     forall p sz, live k' (a :: bl) p sz <-> live k bl p sz).
Proof.
  intros Hc He. destruct (sizes_geometry e He) as (Hr & Ht & Ho & _ & _).
  assert ((PAGE_SIZE - sizeof_aha_block - sizeof_ptr) / (sizeof_chunk_type ⊕ e) = tot_of e) as Hn.
  { unfold sizeof_chunk_type. by rewrite u32_small by lia. }
  unfold new_block. cbv zeta. rewrite Hn. clear Hn.
  rewrite (proj2 (Z.eqb_neq _ 0)) by lia.
  destruct (pages_alloc_law _ _ _ 1 (c_pages Hc) ltac:(lia)) as (a & p & Halloc & [[-> Hp]|[Ha Hp]]);
    rewrite Halloc; cbn [mbind res_bind].
  { right; left. eexists. split; [done|]. split_and!; [|done|done|by exists p].
    apply (core_pages _ L M X Hc); try done; [by left..|apply (c_extra Hc)]. }
  destruct (page_state_block _ _ _ a 1 Hp (lookup_insert_eq _ _ _)) as (_ & H0 & Hal & Hlt & _).
  assert (frame 1 a (pages k) p) as Hframe by (split; [done|unfold BAD_PAGE; lia]).
  rewrite (proj2 (Z.eqb_neq _ 0)) by lia.
  destruct (fresh_pages _ _ _ _ _ _ (c_pages Hc) Hp Ha) as [HaM _].
  pose proof (core_alloc _ _ _ Hc Hp Ha) as Hc1.
  destruct (map_identity_page_spec a 1 0 Hc1 (lookup_insert_eq _ _ _)) as [(p' & Hmap & Hmaps & Hc2)|(why & Hmap & Hstop)];
    [lia|intros Hin; destruct (HaM _ Hin); lia| |];
    rewrite Z.mul_0_r, Z.add_0_r in *; rewrite Hmap; cbn [mbind res_bind];
    [|left; exists why; split; [done|by exists a, p]].
  right; right. pose proof (first_ptr_word a e Hal H0 ltac:(lia) He) as Hfp. cbv zeta in Hfp.
  rewrite Hfp. unfold sizeof_chunk_type. rewrite Z.mul_1_r, u32_small by lia.
  set (b := mk_block _ _ _ _ _).
  assert (block_ok a b) as Hok.
  { constructor; cbn; try done.
    - rewrite length_replicate. lia.
    - apply Forall_replicate. by left.
    - rewrite count_free_replicate. lia. }
  destruct (core_add_block a b Hc2) as (h & Hh & Hc3 & Hlive); try done.
  { intros Hin. destruct (c_extra Hc _ Hin) as ([m Hm] & _). congruence. }
  { apply lookup_insert_eq. }
  { set_solver. }
  { intros i c [-> _]%lookup_replicate. done. }
  replace (a ⊕ offsetof_block_list) with (block_node a) by (rewrite u32_small; [done|]; unfold offsetof_block_list; lia).
  cbn [with_pages nodes] in Hh |- *. rewrite Hh. cbn [mbind res_bind].
  eexists a, _, b. split_and!; [done|lia|done|exact Hc3|cbn; apply lookup_insert_eq|done|cbn; lia|done| |].
  { right. by exists a, p. }
  exact Hlive.
Qed.

(** What [kmalloc] does below [PAGE_SIZE]. *)
Definition small_alloc (e : Z) (k : km P) : res (Z * km P) :=
  block ← find_non_full_block hb e k;
  '(block, k) ← (if block =? 0 then new_block hb e k else mret (block, k));
  if block =? 0 then mret (0, k) else alloc_chunk block k.

Lemma small_alloc_spec {k L M bl gl X} e :
  core k L M bl gl X -> e ∈ sizes ->
  (exists why, small_alloc e k = Err (Panic why) /\ small_stopped hb e k why) \/
  (exists k', small_alloc e k = Ok (0, k') /\ core k' L M bl gl X /\
     blocks k' = blocks k /\ bigs k' = bigs k /\ small_refused hb e k) \/
  (exists p k' L' M' bl', small_alloc e k = Ok (p, k') /\ 0 < p /\
     core k' L' M' bl' gl X /\ L ⊆ L' /\ M ⊆ M' /\ (forall a, a ∈ bl -> a ∈ bl') /\
     (forall p, p ∈ M' -> p ∈ M \/ p ∈ bl') /\ meta_pages (pages k) (pages k') /\
     bigs k' = bigs k /\ (forall sz, ~ live k bl p sz) /\
     forall q sz, live k' bl' q sz <-> (q = p /\ sz = e) \/ live k bl q sz).
Proof.
  intros Hc He. unfold small_alloc.
  destruct (find_non_full_block_spec e Hc) as (r & -> & [[-> Hfull]|(Hr & Hin & b & Hb & Heb & Hnb)]);
    cbn [mbind res_bind].
  - rewrite Z.eqb_refl. destruct (new_block_spec e Hc He)
      as [(why & -> & Hstop)|[(k' & -> & Hc' & Hb & Hg & Hno)|(a & k' & b & -> & Ha & HL & Hc' & Hb & Heb & Hnb & Hg & Hmp & Hl)]];
      cbn [mbind res_bind]; [left; exists why; by split; [|split]|right; left; exists k'|right; right].
    { split_and!; [done..|by split]. }
    rewrite (proj2 (Z.eqb_neq a 0)) by done.
    destruct (alloc_chunk_spec a b Hc' (list_elem_of_here _ _) Hb Hnb)
      as (p & k2 & -> & Hc2 & Hp & Hd & Hg2 & Hp2 & Hl2).
    exists p, k2. do 3 eexists. split_and!; [done|done|exact Hc2|by apply insert_subseteq|apply union_subseteq_r| | |by rewrite Hp2| | |].
    + intros a' Ha'. by apply list_elem_of_further.
    + intros q. rewrite elem_of_union, elem_of_singleton, elem_of_cons. tauto.
    + by rewrite Hg2.
    + intros sz Hsz. by apply (Hd sz), Hl.
    + intros q sz. rewrite Hl2, Hl. by subst e.
  - rewrite (proj2 (Z.eqb_neq r 0)) by done. cbn [mbind res_bind mret res_ret].
    rewrite (proj2 (Z.eqb_neq r 0)) by done. right; right.
    destruct (alloc_chunk_spec r b Hc Hin Hb Hnb) as (p & k2 & -> & Hc2 & Hp & Hd & Hg2 & Hp2 & Hl2).
    exists p, k2, L, M, bl. split_and!; try done; [by left|by left|by subst e].
Qed.

Lemma kmalloc_small depth size k :
  0 < size -> let e := next_highest_power_of_two (if size <? 8 then 8 else size) in
  e < 4096 -> kmalloc_depth hb hg (S depth) size k = small_alloc e k.
Proof.
  intros Hs e He. cbn [kmalloc_depth]. rewrite (proj2 (Z.eqb_neq _ 0)) by lia. fold e.
  destruct (Z.leb_spec PAGE_SIZE e); [unfold PAGE_SIZE in *; lia|done].
Qed.

(** ** Big allocations *)

(** The addresses of the pages of an area. *)
Definition page_addrs (a n : Z) : gset Z := list_to_set ((fun i => a + 4096 * i) <$> seqZ 0 n).

Lemma elem_of_page_addrs p a n : p ∈ page_addrs a n <-> exists i, 0 <= i < n /\ p = a + 4096 * i.
Proof.
  unfold page_addrs. rewrite elem_of_list_to_set, list_elem_of_fmap.
  setoid_rewrite elem_of_seqZ. naive_solver lia.
Qed.

Lemma page_addrs_0 a : page_addrs a 0 = ∅.
Proof. done. Qed.

Lemma page_addrs_snoc a n : 0 <= n -> page_addrs a (n + 1) = {[a + 4096 * n]} ∪ page_addrs a n.
Proof.
  intros Hn. apply set_eq. intros p. rewrite elem_of_union, elem_of_singleton, !elem_of_page_addrs.
  split.
  - intros (i & Hi & ->). destruct (decide (i = n)) as [->|]; [by left|right; exists i]. split; [lia|done].
  - intros [->|(i & Hi & ->)]; [exists n|exists i]; (split; [lia|done]).
Qed.

Lemma page_word a n i :
  0 < a -> a + 4096 * n < 2 ^ 32 -> 0 <= i < n -> a ⊕ (i ⊗ PAGE_SIZE) = a + 4096 * i.
Proof. intros. unfold PAGE_SIZE. rewrite (u32_small (i * _)) by lia. rewrite u32_small; lia. Qed.

Lemma map_pages_spec (k : km P) L M a n :
  page_state (pages k) L M -> L !! a = Some n -> (forall p, p ∈ M -> p < a \/ a + 4096 * n <= p) ->
  (exists p, for_loop (Z.to_nat n) 0 (fun i k => map_identity_page (a ⊕ (i ⊗ PAGE_SIZE)) k) k
       = Ok (with_pages p k) /\ page_state p L (page_addrs a n ∪ M)) \/
  (exists e, for_loop (Z.to_nat n) 0 (fun i k => map_identity_page (a ⊕ (i ⊗ PAGE_SIZE)) k) k = Err e /\
     exists why i p, e = Panic why /\ Z.of_nat i < n /\ mapped i a (pages k) p /\
       map_stops (a + 4096 * Z.of_nat i) p why).
Proof.
  intros Hs Ha HM. destruct (page_state_block _ _ _ _ _ Hs Ha) as (Hn & H0 & _ & Hlt & _).
  match goal with |- context [for_loop ?m ?i0 ?bd ?s] =>
    destruct (for_loop_inv_err (fun e => exists why i p, e = Panic why /\ Z.of_nat i < n /\
        mapped i a (pages k) p /\ map_stops (a + 4096 * Z.of_nat i) p why)
      (fun i t => exists p, t = with_pages p k /\ page_state p L (page_addrs a i ∪ M) /\
        mapped (Z.to_nat i) a (pages k) p) bd m i0 s)
      as [(k' & -> & p & -> & Hp & _)|(e & -> & He)] end.
  - exists (pages k). split; [by destruct k|]. by rewrite page_addrs_0, union_empty_l_L.
  - intros j t Hj (p & -> & Hp & Hrun). rewrite (page_word a n) by lia. unfold map_identity_page.
    destruct (pages_map_law _ _ _ a n j Hp Ha) as [(s' & Hmap & Hs')|[why Hmap]]; [lia| | |].
    + rewrite elem_of_union, elem_of_page_addrs. intros [(i & Hi & Heq)|Hin]; [lia|].
      destruct (HM _ Hin); lia.
    + left. cbn [with_pages pages nodes blocks bigs]. rewrite Hmap. cbn [mbind res_bind mret res_ret].
      eexists. split; [done|]. exists s'. split; [done|]. split; [by rewrite page_addrs_snoc, <- union_assoc_L by lia|].
      replace (Z.to_nat (j + 1)) with (S (Z.to_nat j)) by lia. exists p. split; [done|].
      unfold maps_page. by rewrite Z2Nat.id by lia.
    + right. cbn [with_pages pages nodes blocks bigs]. rewrite Hmap. eexists. split; [done|].
      exists why, (Z.to_nat j), p. unfold map_stops. rewrite Z2Nat.id by lia. split_and!; [done|lia|done|done].
  - left. exists p. split; [done|]. by rewrite Z.add_0_l, Z2Nat.id in Hp by lia.
  - right. by exists e.
Qed.

Lemma unmap_pages_spec (k : km P) L M a n :
  page_state (pages k) L M -> L !! a = Some n -> page_addrs a n ⊆ M ->
  exists p, for_loop (Z.to_nat n) 0 (fun i k =>
      '(ok, p) ← pages_unmap (a ⊕ (i ⊗ PAGE_SIZE)) (pages k);
      if ok : bool then mret (with_pages p k) else Err (Panic "failed to unmap")) k
    = Ok (with_pages p k) /\ page_state p L (M ∖ page_addrs a n).
Proof.
  intros Hs Ha HM. destruct (page_state_block _ _ _ _ _ Hs Ha) as (Hn & H0 & _ & Hlt & _).
  match goal with |- context [for_loop ?m ?i0 ?bd ?s] =>
    destruct (for_loop_inv (fun i t => exists p, t = with_pages p k /\
      page_state p L (M ∖ page_addrs a i)) bd m i0 s) as (k' & -> & p & -> & Hp) end.
  - exists (pages k). split; [by destruct k|]. by rewrite page_addrs_0, difference_empty_L.
  - intros j t Hj (p & -> & Hp). rewrite (page_word a n) by lia.
    destruct (pages_unmap_law _ _ _ (a + 4096 * j) Hp) as (s' & Hun & Hs').
    { apply elem_of_difference. split.
      - apply HM, elem_of_page_addrs. exists j. split; [lia|done].
      - rewrite elem_of_page_addrs. intros (i & Hi & Heq). lia. }
    cbn [with_pages pages nodes blocks bigs]. rewrite Hun. cbn [mbind res_bind mret res_ret].
    eexists. split; [done|]. exists s'. split; [done|]. rewrite page_addrs_snoc by lia.
    replace (M ∖ ({[a + 4096 * j]} ∪ page_addrs a j)) with (M ∖ page_addrs a j ∖ {[a + 4096 * j]}) by set_solver.
    done.
  - exists p. split; [done|]. by rewrite Z.add_0_l, Z2Nat.id in Hp by lia.
Qed.

(** The metadata of a new big allocation enters the list. *)
Lemma core_add_big {k L M bl gl X} a n m :
  core k L M bl gl (a :: X) -> a ∉ X -> L !! a = Some n -> 0 < n < 2 ^ 20 -> page_addrs a n ⊆ M ->
  live k bl m 16 -> m ∉ gl ->
  exists h, list_add (big_node m) hg (nodes k) = Ok h /\
    core (with_nodes h (set_big m (mk_big (4096 * n) a) k)) L M bl (m :: gl) X.
Proof.
  intros Hc HaX HL Hn HM Hl Hm.
  destruct (c_extra Hc a (list_elem_of_here _ _)) as (_ & Hbl & Hnb).
  destruct (live_block _ _ Hc Hl) as (b & blk & i & Hb & Hblk & _ & _ & _ & _ & Hb0 & _ & Hm1 & Hm2).
  assert (big_node m ∉ hg :: (big_node <$> gl)) as Hnode.
  { rewrite elem_of_cons, list_elem_of_fmap. unfold big_node, offsetof_big_list.
    intros [Heq|(m' & Heq & Hm')].
    - pose proof (kernel_outside b hg Hc Hb heads_g). lia.
    - apply Hm. by replace m with m' by lia. }
  destruct (list_add_spec _ _ _ _ (c_gl Hc) Hnode) as (h & Hh & Hr & Hf).
  exists h. split; [done|].
  constructor; cbn [set_big with_nodes pages nodes blocks bigs].
  - apply (c_pages Hc).
  - eapply lrep_frame; [exact Hf| |apply (c_bl Hc)]. apply Forall_forall. intros x Hx Hin.
    apply elem_of_cons in Hin as [->|Hin]; [|by eapply nodes_apart].
    revert Hx. rewrite elem_of_cons, list_elem_of_fmap. unfold big_node, offsetof_big_list, block_node, offsetof_block_list.
    intros [Heq|(b' & Heq & Hb')].
    + pose proof (kernel_outside b hb Hc Hb heads_b). lia.
    + destruct (decide (b = b')) as [->|Hbb]; [|destruct (block_apart b b' Hc Hb Hb' Hbb); lia].
      destruct (core_block_ok _ _ Hc Hb' Hblk) as (Hok & _). destruct Hl as (b2 & blk2 & j & Hb2 & Hblk2 & Hj & -> & _).
      destruct (core_block_ok _ _ Hc Hb2 Hblk2) as (Hok2 & _).
      pose proof (chunk_addr_range _ _ _ _ Hok2 Hj). destruct (sizes_geometry _ (bo_size _ _ Hok2)) as (_ & Ht & _).
      rewrite (bo_tot _ _ Hok2) in *. destruct (decide (b2 = b')) as [->|Hbb]; [lia|].
      destruct (block_apart b2 b' Hc Hb2 Hb' Hbb); lia.
  - done.
  - apply (c_block Hc).
  - intros m' [->|Hm']%elem_of_cons.
    + split; [done|]. exists (mk_big (4096 * n) a), n. cbn.
      rewrite lookup_insert_eq. split_and!; try done; try lia. intros j Hj. apply HM, elem_of_page_addrs. by exists j.
    + destruct (c_big Hc m' Hm') as (Hl' & g & n' & Hg & ?). split; [done|]. exists g, n'.
      cbn. rewrite lookup_insert_ne by (intros ->; done). done.
  - intros m1 m2 g1 g2 H1 H2.
    rewrite elem_of_cons in H1, H2. rewrite !lookup_insert_Some.
    intros [[<- <-]|[? Hg1]] [[<- <-]|[? Hg2]]; cbn; intros Heq; [done| | |].
    + destruct H2 as [?|H2]; [done|]. by destruct (Hnb m2 g2 H2 Hg2).
    + destruct H1 as [?|H1]; [done|]. by destruct (Hnb m1 g1 H1 Hg1).
    + destruct H1 as [?|H1], H2 as [?|H2]; try done. by eapply (c_inj Hc).
  - intros b' n' Hb'. destruct (c_owned Hc b' n' Hb') as [?|[(m' & g & Hm' & Hg & Hp)|[->|?]%elem_of_cons]].
    + by left.
    + right; left. exists m', g. split_and!; [by apply list_elem_of_further| |done].
      rewrite lookup_insert_ne by (intros ->; done). done.
    + right; left. exists m, (mk_big (4096 * n) a). rewrite lookup_insert_eq.
      split_and!; [apply list_elem_of_here|done|done].
    + by right; right.
  - intros b' Hb'. destruct (c_extra Hc b') as (? & ? & Hg'); [by apply list_elem_of_further|].
    split_and!; [done|done|]. intros m' g' [->|Hm']%elem_of_cons.
    + rewrite lookup_insert_eq. intros [= <-]. cbn. by intros ->.
    + rewrite lookup_insert_ne by (intros ->; done). by apply Hg'.
Qed.

(** A block of page frames that was of no use goes back. *)
Lemma core_forget {k L M bl gl X} a n p :
  core k (<[a := n]> L) M bl gl (a :: X) -> a ∉ X -> L !! a = None -> page_state p L M ->
  core (with_pages p k) L M bl gl X.
Proof.
  intros Hc HaX Ha Hp. destruct (c_extra Hc a (list_elem_of_here _ _)) as (_ & Hbl & Hnb).
  destruct Hc as [H1 H2 H3 H4 H5 H6 H7 H8]. constructor; try done.
  - intros b Hb. destruct (H4 b Hb) as (HL & ? & ?). split_and!; [|done..].
    by rewrite lookup_insert_ne in HL by (intros ->; done).
  - intros m Hm. destruct (H5 m Hm) as (? & g & n' & Hg & ? & ? & HL & ?). split; [done|].
    exists g, n'. rewrite lookup_insert_ne in HL by (intros ->; by eapply Hnb). done.
  - intros b n' Hb. destruct (H7 b n') as [?|[?|[->|?]%elem_of_cons]].
    + by rewrite lookup_insert_ne by congruence.
    + by left.
    + by right; left.
    + congruence.
    + by right; right.
  - intros b Hb. destruct (H8 b) as (HL & ?); [by apply list_elem_of_further|].
    rewrite lookup_insert_ne in HL by (intros ->; done). done.
Qed.

Lemma big_alloc_spec {k L M bl gl X} n :
  core k L M bl gl X -> 0 < n < 2 ^ 20 ->
  let r := big_alloc hg (kmalloc_depth hb hg 1) (4096 * n) k in
  (exists why, r = Err (Panic why) /\ big_stopped hb n k why) \/
  (exists k', r = Ok (0, k') /\ core k' L M bl gl X /\ blocks k' = blocks k /\ bigs k' = bigs k /\
     big_refused hb n k) \/
  (exists a m k' L' M' bl', r = Ok (a, k') /\ 0 < a /\ L !! a = None /\
     core k' L' M' bl' (m :: gl) X /\ L ⊆ L' /\ M ⊆ M' /\ (forall a, a ∈ bl -> a ∈ bl') /\
     L' !! a = Some n /\ (m ∉ gl) /\ (forall sz, ~ live k bl m sz) /\
     bigs k' = <[m := mk_big (4096 * n) a]> (bigs k) /\
     forall q sz, live k' bl' q sz <-> (q = m /\ sz = 16) \/ live k bl q sz).
Proof.
  intros Hc Hn r. subst r. unfold big_alloc.
  replace (4096 * n / PAGE_SIZE) with n by (unfold PAGE_SIZE; Z.div_mod_to_equations; lia).
  destruct (pages_alloc_law _ _ _ n (c_pages Hc) ltac:(lia)) as (a & p & Halloc & [[-> Hp]|[Ha Hp]]);
    rewrite Halloc; cbn [mbind res_bind].
  { right; left. eexists. split; [done|]. split_and!; [|done|done|left; by exists p].
    apply (core_pages _ L M X Hc); try done; [by left..|apply (c_extra Hc)]. }
  destruct (page_state_block _ _ _ a n Hp (lookup_insert_eq _ _ _)) as (_ & H0 & Hal & Hlt & _).
  assert (frame n a (pages k) p) as Hframe by (split; [done|unfold BAD_PAGE; lia]).
  unfold BAD_PAGE. rewrite (proj2 (Z.eqb_neq _ 0)) by lia.
  destruct (fresh_pages _ _ _ _ _ _ (c_pages Hc) Hp Ha) as [HaM _].
  pose proof (core_alloc _ _ _ Hc Hp Ha) as Hc1. assert (a ∉ X) as HaX.
  { intros Hin. destruct (c_extra Hc _ Hin) as ([m Hm] & _). congruence. }
  rewrite (kmalloc_small 0) by (by vm_compute). change (next_highest_power_of_two _) with 16.
  destruct (small_alloc_spec 16 Hc1) as [(why & -> & Hstop)|[(k1 & -> & Hc2 & Hb2 & Hg2 & Hno)|
    (m & k1 & L1 & M1 & bl1 & -> & Hm & Hc2 & HL1 & HM1 & Hbl1 & HMbl & Hmp & Hg2 & Hd & Hl)]].
  { by apply (bool_decide_unpack _). }
  - left. exists why. split; [done|]. exists a, p. split; [done|by left].
  - right; left. cbn [mbind res_bind]. rewrite Z.eqb_refl.
    destruct (pages_free_law _ _ _ a n (c_pages Hc2) (lookup_insert_eq _ _ _)) as (p' & Hfree & Hp').
    { apply HaM. }
    rewrite Hfree. cbn [mbind res_bind]. rewrite delete_insert_id in Hp' by done.
    eexists. split; [done|]. split_and!; [by apply (core_forget a n)|done|done|].
    right. by exists a, p.
  - cbn [mbind res_bind]. rewrite (proj2 (Z.eqb_neq m 0)) by lia.
    assert (m ∉ gl) as Hmgl.
    { intros Hin. destruct (c_big Hc _ Hin) as [Hlive _]. by eapply Hd. }
    assert (L1 !! a = Some n) as HL1a by (eapply lookup_weaken; [apply lookup_insert_eq|done]).
    assert (live k1 bl1 m 16) as Hlm by (apply Hl; by left).
    destruct (live_block _ _ Hc2 Hlm) as (b & _ & _ & _ & _ & _ & _ & _ & _ & Hb0 & Hblt & Hm1 & Hm2).
    replace (m ⊕ offsetof_big_list) with (big_node m)
      by (rewrite u32_small; [done|]; unfold offsetof_big_list; lia).
    assert (forall q, q ∈ M1 -> q < a \/ a + 4096 * n <= q) as HaM1.
    { intros q Hq. destruct (HMbl q Hq) as [Hq'|Hq']; [by apply HaM|].
      destruct (c_extra Hc2 a (list_elem_of_here _ _)) as (_ & Hna & _).
      destruct (c_block Hc2 q Hq') as (HLq & _). assert (a <> q) as Haq by congruence.
      destruct (page_state_disjoint _ _ _ _ _ _ _ (c_pages Hc2) HL1a HLq Haq); lia. }
    destruct (list_add (big_node m) hg (nodes k1)) as [h|f] eqn:Hh.
    2:{ unfold list_add in Hh. by rewrite (lrep_first _ _ _ (c_gl Hc2)) in Hh. }
    cbn [set_big nodes mbind res_bind]. rewrite Hh. cbn [mbind res_bind].
    set (k2 := with_nodes h (set_big m (mk_big (4096 * n) a) k1)).
    destruct (map_pages_spec k2 L1 M1 a n (c_pages Hc2) HL1a HaM1)
      as [(p2 & Hmap & Hp2)|(e & Hmap & why & i & q & -> & Hi & Hrun & Hstop)];
      rewrite Hmap; cbn [mbind res_bind]; [right; right|left; exists why; split; [done|]].
    2:{ exists a, p. split; [done|]. right. by exists (pages k1), i, q. }
    assert (core (with_pages p2 k1) L1 (page_addrs a n ∪ M1) bl1 gl (a :: X)) as Hc3.
    { apply (core_pages _ _ _ _ Hc2); try done; [set_solver|by left|]. apply (c_extra Hc2). }
    destruct (core_add_big a n m Hc3) as (h' & Hh' & Hc4); try done; [set_solver|].
    cbn [with_pages nodes] in Hh'. rewrite Hh in Hh'. injection Hh' as <-.
    exists a, m, (with_pages p2 k2), L1, (page_addrs a n ∪ M1), bl1.
    split_and!; try done.
    + etrans; [|exact HL1]. by apply insert_subseteq.
    + set_solver.
    + cbn. by rewrite Hg2.
Qed.

(** ** Release *)

(** The chunk [kfree] is given is searched for in its block. *)
Lemma hosting_chunk {k L M bl gl X} depth p sz :
  core k L M bl gl X -> live k bl p sz ->
  exists a b i, a ∈ bl /\ blocks k !! a = Some b /\ chunkmap b !! i = Some CHUNK_USED /\ p = chunk_addr b i /\
    kfree_depth hb hg (S depth) p k = free_chunk a p k.
Proof.
  intros Hc Hl.
  destruct (live_block _ _ Hc Hl) as (a & b & i & Ha & Hb & Hok & Hi & -> & -> & H0 & Hlt & H1 & H2).
  cbn [kfree_depth]. rewrite (proj2 (Z.eqb_neq _ 0)) by lia.
  destruct (sizes_geometry _ (bo_size _ _ Hok)) as (He & _).
  pose proof (chunk_addr_range _ _ _ _ Hok Hi) as Hr.
  assert (first_ptr b <= chunk_addr b i) by (unfold chunk_addr; lia).
  destruct (find_hosting_block_spec (chunk_addr b i) Hc) as [(a' & b' & -> & Ha' & Hb' & Hr')|[_ Hno]].
  2:{ exfalso. apply (Hno a b Ha Hb). lia. }
  cbn [mbind res_bind]. assert (a' = a) as ->.
  { destruct (core_block_ok _ _ Hc Ha' Hb') as (Hok' & _).
    destruct (sizes_geometry _ (bo_size _ _ Hok')) as (_ & Ht' & Ho' & _). rewrite (bo_ptr _ _ Hok') in Hr'.
    destruct (decide (a' = a)) as [|Hne]; [done|]. destruct (block_apart a' a Hc Ha' Ha Hne); lia. }
  by exists a, b, i.
Qed.

Lemma kfree_chunk {k L M bl gl X} depth p sz :
  core k L M bl gl X -> live k bl p sz -> p ∉ gl ->
  exists k', kfree_depth hb hg (S depth) p k = Ok k' /\ core k' L M bl gl X /\ bigs k' = bigs k /\
    forall q s, live k' bl q s <-> live k bl q s /\ q <> p.
Proof.
  intros Hc Hl Hg. destruct (hosting_chunk depth p sz Hc Hl) as (a & b & i & Ha & Hb & Hi & -> & ->).
  by apply free_chunk_live.
Qed.

Lemma core_del_big {k L M bl gl1 m gl2 X} g n p :
  core k L M bl (gl1 ++ m :: gl2) X -> bigs k !! m = Some g -> L !! big_ptr g = Some n ->
  page_state p (delete (big_ptr g) L) (M ∖ page_addrs (big_ptr g) n) ->
  exists h, list_del (big_node m) (nodes k) = Ok h /\
    core (with_nodes h (with_pages p k)) (delete (big_ptr g) L) (M ∖ page_addrs (big_ptr g) n)
      bl (gl1 ++ gl2) X /\ m ∉ gl1 ++ gl2.
Proof.
  intros Hc Hg HL Hp. set (a := big_ptr g) in *.
  assert (forall x, x ∈ gl1 ++ gl2 -> x ∈ gl1 ++ m :: gl2) as Hsub by (intros x; apply elem_of_mid).
  assert (m ∈ gl1 ++ m :: gl2) as Hmin by (apply elem_of_app; right; apply list_elem_of_here).
  pose proof (c_gl Hc) as Hr. rewrite fmap_app, fmap_cons in Hr.
  destruct (list_del_spec _ _ _ _ _ Hr) as (h & Hh & Hr' & Hf). rewrite <- fmap_app in Hr', Hf.
  assert (m ∉ gl1 ++ gl2) as Hm.
  { destruct Hr as [[_ Hnd]%NoDup_cons _]. rewrite <- Permutation_middle in Hnd.
    apply NoDup_cons in Hnd as [Hnd _]. rewrite <- fmap_app in Hnd.
    intros Hin. apply Hnd. by apply list_elem_of_fmap_2. }
  destruct (c_big Hc m Hmin) as (_ & g' & n' & Hg' & _ & _ & HL' & Hbl & _). simplify_eq. fold a in HL', Hbl.
  assert (forall b k, L !! b = Some k -> b <> a ->
    delete a L !! b = Some k /\ forall i, 0 <= i < k -> (b + 4096 * i) ∉ page_addrs a n) as Hother.
  { intros b k' Hb Hba. split; [by rewrite lookup_delete_ne|].
    intros i Hi. rewrite elem_of_page_addrs. intros (j & Hj & Heq).
    destruct (page_state_disjoint _ _ _ _ _ _ _ (c_pages Hc) Hb HL Hba); lia. }
  exists h. split; [done|]. split; [|done].
  constructor; cbn [with_pages with_nodes pages nodes blocks bigs].
  - done.
  - eapply lrep_frame; [exact Hf| |apply (c_bl Hc)]. apply Forall_forall. intros x Hx Hin.
    eapply nodes_apart; [exact Hc| |exact Hx]. apply elem_of_cons in Hin as [->|Hin]; [apply list_elem_of_here|].
    apply list_elem_of_further. apply list_elem_of_fmap in Hin as (y & -> & Hy).
    by apply list_elem_of_fmap_2, Hsub.
  - done.
  - intros b Hb. destruct (c_block Hc b Hb) as (HLb & HMb & ?).
    destruct (Hother _ _ HLb) as [? Hpg]; [by intros ->|]. split_and!; [done| |done].
    apply elem_of_difference. split; [done|]. specialize (Hpg 0). rewrite Z.mul_0_r, Z.add_0_r in Hpg.
    apply Hpg. lia.
  - intros m' Hm'. destruct (c_big Hc m' (Hsub _ Hm')) as (Hl & g2 & n2 & Hg2 & ? & ? & HL2 & Hbl2 & HM2).
    assert (big_ptr g2 <> a) as Hne.
    { intros Heq. apply Hm. rewrite <- (c_inj Hc m' m g2 g (Hsub _ Hm') Hmin Hg2 Hg Heq). done. }
    destruct (Hother _ _ HL2 Hne) as [? Hpg]. split; [done|]. exists g2, n2. split_and!; try done; try lia.
    intros i Hi. apply elem_of_difference. split; [by apply HM2|by apply Hpg].
  - intros m1 m2 g1 g2 H1 H2. apply (c_inj Hc); by apply Hsub.
  - intros b k' [Hne Hb]%lookup_delete_Some. destruct (c_owned Hc b k' Hb) as [?|[(m' & g2 & Hm' & Hg2 & Hp2)|?]].
    + by left.
    + right; left. exists m', g2. split_and!; [|done..].
      rewrite <- Permutation_middle in Hm'. apply elem_of_cons in Hm' as [->|?]; [|done].
      exfalso. apply Hne. unfold a. congruence.
    + by right; right.
  - intros b Hb. destruct (c_extra Hc b Hb) as (HLb & Hbl' & Hgl'). split_and!; [|done|].
    + rewrite lookup_delete_ne; [done|]. intros <-. by apply (Hgl' m g).
    + intros m' g2 Hm'. apply Hgl', Hsub, Hm'.
Qed.

Lemma find_big_spec {k L M bl gl X} p :
  core k L M bl gl X ->
  (exists m g, find_big hg p k = Ok (Some m) /\ m ∈ gl /\ bigs k !! m = Some g /\ big_ptr g = p) \/
  (find_big hg p k = Ok None /\
   forall m g, m ∈ gl -> bigs k !! m = Some g -> big_ptr g <> p).
Proof.
  intros Hc. unfold find_big. rewrite (list_empty_spec _ _ _ (c_gl Hc)). cbn [mbind res_bind].
  case_bool_decide as Hgl.
  { destruct gl; [|done]. right. split; [done|]. by intros m g ?%not_elem_of_nil. }
  set (test := fun m => match bigs k !! m with Some g => big_ptr g =? p | None => false end).
  rewrite (search_list k hg big_node offsetof_big_list gl test).
  - destruct (find test gl) as [m|] eqn:Hf; cbn [mbind res_bind].
    + apply find_some in Hf as [Hm%list_elem_of_In Ht]. left. exists m. unfold test in Ht.
      destruct (bigs k !! m) as [g|] eqn:Hg; [|done]. exists g. split_and!; [done|done|done|lia].
    + right. split; [done|]. intros m g Hm Hg Hp. apply list_elem_of_In in Hm.
      pose proof (find_none _ _ Hf m Hm) as Ht. unfold test in Ht. rewrite Hg in Ht. lia.
  - apply (c_gl Hc).
  - rewrite <- (length_fmap big_node). eapply list_fuel_bound, Hc.
  - intros m Hm. destruct (c_big Hc m Hm) as [Hl _].
    destruct (live_block _ _ Hc Hl) as (a & b & i & _ & _ & _ & _ & _ & _ & H0 & Hlt & H1 & H2).
    unfold container_of, big_node. rewrite u32_small; lia.
  - intros m Hm. destruct (c_big Hc m Hm) as (_ & g & n & Hg & _). unfold get_big, test. rewrite Hg.
    cbn. by destruct (big_ptr g =? p).
  - intros x t t' (g & _ & H)%bind_Ok. unfold mret, res_ret in H. destruct (big_ptr g =? p); congruence.
Qed.

Lemma kfree_depth_S d ptr (k : km P) :
  kfree_depth hb hg (S d) ptr k =
  (if ptr =? 0 then Err (Panic "freeing NULL pointer")
   else
     block ← find_hosting_block hb ptr k;
     match block with
     | Some block => free_chunk block ptr k
     | None =>
         meta ← find_big hg ptr k;
         match meta with
         | Some meta => big_free (kfree_depth hb hg d) meta k
         | None => Err (Panic "ptr does not belong to any block or big alloc")
         end
     end).
Proof. done. Qed.

(** The release of a big allocation. *)
Lemma kfree_big {k L M bl gl m g} :
  core k L M bl gl [] -> m ∈ gl -> bigs k !! m = Some g ->
  exists k' L' M' gl', kfree hb hg (big_ptr g) k = Ok k' /\ core k' L' M' bl gl' [] /\
    bigs k' = bigs k /\ (m ∉ gl') /\ (forall x, x ∈ gl <-> x = m \/ x ∈ gl') /\
    L' = delete (big_ptr g) L /\
    forall q s, live k' bl q s <-> live k bl q s /\ q <> m.
Proof.
  intros Hc Hm Hg. destruct (c_big Hc m Hm) as (Hl & g' & n & Hg' & Hsz & Hn & HL & Hbl & HM).
  rewrite Hg in Hg'. injection Hg' as <-.
  destruct (page_state_block _ _ _ _ _ (c_pages Hc) HL) as (_ & H0 & _ & Hlt & _).
  unfold kfree. rewrite kfree_depth_S. rewrite (proj2 (Z.eqb_neq (big_ptr g) 0)) by lia.
  destruct (find_hosting_block_spec (big_ptr g) Hc) as [(a & b & _ & Ha & Hb & Hr)|[-> _]].
  { exfalso. destruct (core_block_ok _ _ Hc Ha Hb) as (Hok & HLa & _ & Ha0 & _).
    destruct (sizes_geometry _ (bo_size _ _ Hok)) as (_ & Ht & Ho & _). rewrite (bo_ptr _ _ Hok) in Hr.
    assert (a <> big_ptr g) as Hne by (intros ->; done).
    destruct (page_state_disjoint _ _ _ _ _ _ _ (c_pages Hc) HLa HL Hne); lia. }
  cbn [mbind res_bind].
  destruct (find_big_spec (big_ptr g) Hc) as [(m' & g' & -> & Hm' & Hg' & Hp)|[_ Hno]];
    [|by destruct (Hno m g)].
  rewrite (c_inj Hc m' m g' g Hm' Hm Hg' Hg Hp). cbn [mbind res_bind]. clear m' g' Hm' Hg' Hp.
  destruct (live_block _ _ Hc Hl) as (a & b & i & _ & _ & _ & _ & _ & _ & Ha0 & Halt & Hm1 & Hm2).
  unfold big_free. rewrite (proj2 (Z.eqb_neq m 0)) by lia.
  unfold get_big. rewrite Hg. cbn [mbind res_bind].
  replace (big_size g / PAGE_SIZE) with n by (rewrite Hsz; unfold PAGE_SIZE; Z.div_mod_to_equations; lia).
  destruct (unmap_pages_spec k L M (big_ptr g) n (c_pages Hc) HL) as (p & Hun & Hp).
  { intros x (j & Hj & ->)%elem_of_page_addrs. by apply HM. }
  rewrite Hun. cbn [mbind res_bind with_pages pages].
  destruct (pages_free_law p L _ _ _ Hp HL) as (p' & Hfree & Hp').
  { intros x [Hx Hxn]%elem_of_difference.
    destruct (page_state_mapped _ _ _ _ (c_pages Hc) Hx) as (c & nc & j & HLc & Hj & ->).
    destruct (decide (c = big_ptr g)) as [->|Hne].
    - exfalso. apply Hxn, elem_of_page_addrs. exists j. rewrite HL in HLc. by injection HLc as ->.
    - destruct (page_state_disjoint _ _ _ _ _ _ _ (c_pages Hc) HLc HL Hne); lia. }
  rewrite Hfree. cbn [mbind res_bind with_pages nodes].
  pose proof Hm as Hsplit. apply list_elem_of_split in Hsplit as (gl1 & gl2 & ->).
  destruct (core_del_big g n p' Hc Hg HL Hp') as (h & Hh & Hc' & Hmn).
  replace (m ⊕ offsetof_big_list) with (big_node m)
    by (rewrite u32_small; [done|]; unfold offsetof_big_list; lia).
  rewrite Hh. cbn [mbind res_bind].
  destruct (kfree_chunk 0 m 16 Hc' Hl Hmn) as (k' & Hk & Hc2 & Hg2 & Hl2).
  change (with_nodes h (with_pages p' (with_pages p k))) with (with_nodes h (with_pages p' k)).
  exists k'. do 3 eexists. split_and!; [exact Hk|exact Hc2|by rewrite Hg2|done| |done|exact Hl2].
  intros x. rewrite !elem_of_app, elem_of_cons. tauto.
Qed.

Lemma kfree_dead {k L M bl gl X} p :
  core k L M bl gl X -> (forall sz, ~ live k bl p sz) ->
  (forall m g, m ∈ gl -> bigs k !! m = Some g -> big_ptr g <> p) ->
  exists why, kfree hb hg p k = Err (Panic why).
Proof.
  intros Hc Hd Hnb. unfold kfree. rewrite kfree_depth_S.
  destruct (p =? 0); [by eexists|].
  destruct (find_hosting_block_spec p Hc) as [(a & b & -> & Ha & Hb & _)|[-> _]]; cbn [mbind res_bind].
  - by eapply free_chunk_dead.
  - destruct (find_big_spec p Hc) as [(m & g & -> & Hm & Hg & Hp)|[-> _]]; cbn [mbind res_bind]; [|by eexists].
    by destruct (Hnb m g).
Qed.
End run.
