(* ===== verification/KmallocThms.v ===== *)
(** * Theorems of the fine-grained allocator

    What [kmalloc] and [kfree] promise to their callers, for any implementation
    of the pages that satisfies [PageLaws]; the instances run on the page frame
    allocator and paging. *)
From S2P Require Import Prelude Page Pfa PfaSpec PfaRun Mmu Paging PagingSpec PagingBoot PagingThms.
From S2P Require Import Dlist Kmalloc KmallocSpec KmallocPages KmallocOps KmallocRun.

(** The size of the area [kmalloc] returns for a request. *)
Definition rounded (size : Z) : Z := 2 ^ Z.log2_up (if size <? 8 then 8 else size).

Lemma rounded_spec size :
  0 < size <= 2 ^ 31 ->
  next_highest_power_of_two (if size <? 8 then 8 else size) = rounded size /\
  size <= rounded size <= 2 ^ 31 /\ 8 <= rounded size /\
  (rounded size < 4096 -> rounded size ∈ sizes) /\
  (4096 <= rounded size -> exists n, rounded size = 4096 * n /\ 0 < n < 2 ^ 20).
Proof.
  intros Hs. unfold rounded. set (x := if size <? 8 then 8 else size).
  assert (8 <= x <= 2 ^ 31 /\ size <= x) as [Hx Hsx] by (subst x; destruct (Z.ltb_spec size 8); lia).
  pose proof (Z.log2_up_spec x ltac:(lia)) as [_ Hup].
  assert (3 <= Z.log2_up x <= 31) as Hk.
  { split; [change 3 with (Z.log2_up 8)|change 31 with (Z.log2_up (2 ^ 31))]; apply Z.log2_up_le_mono; lia. }
  assert (2 ^ Z.log2_up x <= 2 ^ 31) as Hmax by (apply Z.pow_le_mono_r; lia).
  split_and!; [apply next_highest_power_of_two_spec; lia|lia|done|lia| |].
  - intros Hlt. apply pow2_sizes; [lia|done].
  - intros Hge. assert (12 <= Z.log2_up x) as H12.
    { apply (Z.pow_le_mono_r_iff 2); [lia..|]. exact Hge. }
    exists (2 ^ (Z.log2_up x - 12)). replace 4096 with (2 ^ 12) by done.
    rewrite <- Z.pow_add_r by lia. split; [f_equal; lia|].
    split; [lia|]. apply Z.pow_lt_mono_r; lia.
Qed.

Section theorems.
Context {P : Type} {ops : PageOps P} {kernel : Z -> Prop} {laws : PageLaws P kernel}.
Context {hb hg : Z} {heads : ListHeads kernel hb hg}.

(** ** The state as the callers see it *)

(** [A] maps the areas in the hands of the callers to their sizes; [G] are the
    chunks the allocator keeps for itself. *)
Record km_state (k : km P) (A : gmap Z Z) (G : list Z) : Prop := {
  ks_core : exists L M bl, core hb hg k L M bl G [] /\
    forall p sz, A !! p = Some sz <->
      (live k bl p sz /\ p ∉ G) \/
      (exists m g, m ∈ G /\ bigs k !! m = Some g /\ big_ptr g = p /\ big_size g = sz);
}.

(** Where the areas are. *)
Lemma area_place k L M bl gl p sz :
  core hb hg k L M bl gl [] ->
  ((live k bl p sz /\ p ∉ gl) \/
   (exists m g, m ∈ gl /\ bigs k !! m = Some g /\ big_ptr g = p /\ big_size g = sz)) ->
  exists a n, L !! a = Some n /\ a <= p /\ p + sz <= a + 4096 * n /\ 0 < p /\ 0 < sz /\
    ((n = 1 /\ a ∈ bl /\ live k bl p sz) \/ (p = a /\ sz = 4096 * n /\ a ∉ bl)).
Proof.
  intros Hc [[Hl _]|(m & g & Hm & Hg & <- & <-)].
  - destruct (live_block _ _ Hc Hl) as (a & b & i & Ha & Hb & Hok & Hi & Hp & Hsz & H0 & Hlt & H1 & H2).
    destruct (sizes_geometry _ (bo_size _ _ Hok)) as (He & _).
    destruct (c_block Hc a Ha) as (HL & _). exists a, 1. split_and!; [done|lia|lia|lia|lia|by left].
  - destruct (c_big Hc m Hm) as (_ & g' & n & Hg' & Hsz & Hn & HL & Hbl & _). simplify_eq.
    destruct (page_state_block _ _ _ _ _ (c_pages Hc) HL) as (_ & H0 & _).
    exists (big_ptr g), n. split_and!; [done|lia|lia|lia|lia|by right].
Qed.

(** Two chunks in use do not overlap. *)
Lemma live_disjoint {k L M bl gl X} p sz q tz :
  core hb hg k L M bl gl X -> live k bl p sz -> live k bl q tz -> p <> q ->
  p + sz <= q \/ q + tz <= p.
Proof.
  intros Hc Hp Hq Hne.
  destruct (live_block _ _ Hc Hp) as (a & b & i & Ha & Hb & Hok & Hi & -> & -> & H0 & Hlt & H1 & H2).
  destruct (live_block _ _ Hc Hq) as (a' & b' & j & Ha' & Hb' & Hok' & Hj & -> & -> & H0' & Hlt' & H1' & H2').
  destruct (decide (a = a')) as [->|Haa].
  - simplify_eq. destruct (sizes_geometry _ (bo_size _ _ Hok)) as (He & _).
    unfold chunk_addr in *. destruct (Nat.lt_trichotomy i j) as [?|[->|?]]; [left; nia|done|right; nia].
  - destruct (block_apart _ _ Hc Ha Ha' Haa); lia.
Qed.

(** The areas are disjoint, and away from the kernel's own data, from the headers
    of the blocks and from the metadata of the big allocations. *)
Record areas_ok (k : km P) (A : gmap Z Z) (G : list Z) : Prop := {
  ao_area p sz : A !! p = Some sz -> 0 < p /\ 0 < sz /\ p + sz < 2 ^ 32;
  ao_disjoint p sz q tz : A !! p = Some sz -> A !! q = Some tz -> p <> q ->
    p + sz <= q \/ q + tz <= p;
  ao_kernel p sz x : A !! p = Some sz -> kernel x -> x < p \/ p + sz <= x;
  ao_meta p sz m : A !! p = Some sz -> m ∈ G -> p + sz <= m \/ m + sizeof_aha_big_meta <= p;
  ao_header : exists bl, lrep (nodes k) hb (block_node <$> bl) /\
    forall p sz a b, A !! p = Some sz -> a ∈ bl -> blocks k !! a = Some b ->
      p + sz <= a \/ a + sizeof_aha_block + tot_elts b <= p;
}.

Lemma km_state_areas k A G : km_state k A G -> areas_ok k A G.
Proof.
  intros [(L & M & bl & Hc & HA)].
  assert (forall p sz, A !! p = Some sz -> exists a n, L !! a = Some n /\ a <= p /\
    p + sz <= a + 4096 * n /\ 0 < p /\ 0 < sz /\
    ((n = 1 /\ a ∈ bl /\ live k bl p sz) \/ (p = a /\ sz = 4096 * n /\ a ∉ bl))) as Hplace.
  { intros p sz Hp. apply HA in Hp. by eapply area_place. }
  assert (forall a n b m, L !! a = Some n -> L !! b = Some m -> a <> b ->
    a + 4096 * n <= b \/ b + 4096 * m <= a) as Hd.
  { intros a n b m Ha Hb. by apply (page_state_disjoint _ _ _ _ _ _ _ (c_pages Hc)). }
  constructor.
  - intros p sz Hp. destruct (Hplace p sz Hp) as (a & n & HL & ? & ? & ? & ? & _).
    destruct (page_state_block _ _ _ _ _ (c_pages Hc) HL) as (? & ? & ? & ? & _). lia.
  - intros p sz q tz Hp Hq Hne.
    destruct (Hplace p sz Hp) as (a & n & HLa & ? & ? & ? & ? & Hka).
    destruct (Hplace q tz Hq) as (b & m & HLb & ? & ? & ? & ? & Hkb).
    destruct (decide (a = b)) as [->|Hab]; [|destruct (Hd _ _ _ _ HLa HLb Hab); lia].
    destruct Hka as [(_ & Hbl & Hla)|(-> & _ & Hnb)], Hkb as [(_ & Hbl' & Hlb)|(-> & _ & Hnb')]; try done.
    by eapply live_disjoint.
  - intros p sz x Hp Hx. destruct (Hplace p sz Hp) as (a & n & HL & ? & ? & ? & ? & _).
    destruct (page_state_block _ _ _ _ _ (c_pages Hc) HL) as (_ & _ & _ & _ & Hk). destruct (Hk x Hx); lia.
  - intros p sz m Hp Hm. destruct (c_big Hc m Hm) as (Hl & _).
    assert (p <> m) as Hpm.
    { intros ->. apply HA in Hp as [[_ ?]|(m' & g & Hm' & Hg & Hbp & _)]; [done|].
      destruct (c_big Hc m' Hm') as (_ & g' & n' & Hg' & _ & Hn' & HL' & Hbl' & _).
      rewrite Hg in Hg'. injection Hg' as <-. rewrite Hbp in HL', Hbl'.
      destruct (live_block _ _ Hc Hl) as (a & b & i & Ha & Hb & Hok & _ & _ & _ & H0 & _ & H1 & H2).
      destruct (c_block Hc a Ha) as (HLa & _).
      assert (a <> m) as Ham by (intros ->; done).
      destruct (Hd _ _ _ _ HLa HL' Ham); lia. }
    destruct (Hplace p sz Hp) as (a & n & HLa & ? & ? & ? & ? & [(-> & Hbl & Hla)|(-> & -> & Hnb)]).
    + by eapply live_disjoint.
    + destruct (live_block _ _ Hc Hl) as (b & blk & i & Hb & Hblk & Hok & _ & _ & _ & Hb0 & _ & Hm1 & Hm2).
      destruct (c_block Hc b Hb) as (HLb & _). assert (a <> b) as Hab by (intros ->; done).
      unfold sizeof_aha_big_meta. destruct (Hd _ _ _ _ HLa HLb Hab); lia.
  - exists bl. split; [apply Hc|]. intros p sz a b Hp Ha Hb.
    destruct (core_block_ok _ _ Hc Ha Hb) as (Hok & HL & _ & H0 & _).
    destruct (Hplace p sz Hp) as (a' & n & HLa & ? & ? & ? & ? & Hk).
    destruct (sizes_geometry _ (bo_size _ _ Hok)) as (He & Ht & Ho & _ & Hs).
    unfold sizeof_aha_block. rewrite (bo_tot _ _ Hok). destruct (decide (a = a')) as [->|Hab].
    + destruct Hk as [(_ & _ & Hl)|(-> & _ & Hnb)]; [|done]. right.
      destruct Hl as (c & d & i & Hc' & Hd' & Hi & -> & ->).
      destruct (core_block_ok _ _ Hc Hc' Hd') as (Hok' & HL' & _ & _).
      pose proof (chunk_addr_range _ _ _ _ Hok' Hi) as Hr. destruct (sizes_geometry _ (bo_size _ _ Hok')) as (He' & Ht' & _).
      destruct (decide (c = a')) as [->|Hca]; [|].
      * simplify_eq. rewrite (bo_tot _ _ Hok) in Hr. lia.
      * rewrite (bo_tot _ _ Hok') in Hr. simplify_eq. destruct (block_apart _ _ Hc Hc' Ha Hca); lia.
    + destruct (Hd _ _ _ _ HL HLa Hab); lia.
Qed.

(** A chunk is not the start of a big allocation. *)
Lemma live_not_big {k L M bl gl X} p sz m g :
  core hb hg k L M bl gl X -> live k bl p sz -> m ∈ gl -> bigs k !! m = Some g -> big_ptr g <> p.
Proof.
  intros Hc Hl Hm Hg <-. destruct (c_big Hc m Hm) as (_ & g' & n & Hg' & _ & Hn & HL & Hbl & _).
  rewrite Hg in Hg'. injection Hg' as <-.
  destruct (live_block _ _ Hc Hl) as (a & b & i & Ha & Hb & Hok & _ & _ & -> & H0 & _ & H1 & H2).
  destruct (sizes_geometry _ (bo_size _ _ Hok)) as (He & _). destruct (c_block Hc a Ha) as (HLa & _).
  assert (a <> big_ptr g) as Hne by (intros ->; done).
  destruct (page_state_disjoint _ _ _ _ _ _ _ (c_pages Hc) HLa HL Hne); lia.
Qed.

Lemma meta_live {k L M bl gl X} m : core hb hg k L M bl gl X -> m ∈ gl -> live k bl m 16.
Proof. intros Hc Hm. by destruct (c_big Hc m Hm). Qed.

(** Why a request of [size] bytes is not served: too few page frames are left, or
    a page cannot be mapped. *)
Definition refused (size : Z) (k : km P) : Prop :=
  if rounded size <? PAGE_SIZE then small_refused hb (rounded size) k
  else big_refused hb (rounded size / PAGE_SIZE) k.
Definition stopped (size : Z) (k : km P) (why : string) : Prop :=
  if rounded size <? PAGE_SIZE then small_stopped hb (rounded size) k why
  else big_stopped hb (rounded size / PAGE_SIZE) k why.

Lemma kmalloc_spec k A G size :
  km_state k A G -> 0 < size <= 2 ^ 31 ->
  (exists why, kmalloc hb hg size k = Err (Panic why) /\ stopped size k why) \/
  (exists k', kmalloc hb hg size k = Ok (0, k') /\ km_state k' A G /\ refused size k) \/
  (exists p k' G', kmalloc hb hg size k = Ok (p, k') /\ 0 < p /\ A !! p = None /\
     km_state k' (<[p := rounded size]> A) G').
Proof.
  intros [(L & M & bl & Hc & HA)] Hs. destruct (rounded_spec size Hs) as (Hr & Hle & H8 & Hsmall & Hbig).
  unfold kmalloc, refused, stopped. destruct (Z.ltb_spec (rounded size) PAGE_SIZE) as [Hlt|Hge]; unfold PAGE_SIZE in Hlt || unfold PAGE_SIZE in Hge.
  - rewrite kmalloc_small by (lia || by rewrite Hr). rewrite Hr.
    destruct (small_alloc_spec (rounded size) Hc (Hsmall Hlt)) as [(why & -> & Hst)|[(k' & -> & Hc' & Hb & Hg & Hno)|
      (p & k' & L' & M' & bl' & -> & Hp & Hc' & HL & HM & Hbl & _ & _ & Hg & Hd & Hl)]].
    + left. by exists why.
    + right; left. exists k'. split; [done|]. split; [|done]. constructor. exists L, M, bl. split; [done|].
      intros p sz. rewrite HA, Hg. unfold live. by rewrite Hb.
    + right; right. exists p, k', G. assert (p ∉ G) as HpG.
      { intros Hin. by apply (Hd 16), (meta_live p Hc). }
      split_and!; [done|done| |].
      * apply eq_None_not_Some. intros [sz Hsz]. apply HA in Hsz as [[Hlive _]|(m & g & Hm & Hgm & Hptr & _)].
        -- by apply (Hd sz).
        -- rewrite <- Hg in Hgm. apply (live_not_big p (rounded size) m g Hc'); try done.
           apply Hl. by left.
      * constructor. exists L', M', bl'. split; [done|]. intros q sz.
        rewrite lookup_insert_Some, HA, Hl, Hg. split.
        -- intros [[<- <-]|[Hne [?|?]]]; [left; split; [by left|done]| |by right]. left. naive_solver.
        -- intros [[[[-> ->]|?] ?]|(m & g & Hm & Hgm & Hptr & Hsz)]; [by left| |].
           ++ right. split; [|by left]. intros ->. by apply (Hd sz).
           ++ right. split; [|right; by exists m, g]. intros <-. rewrite <- Hg in Hgm.
              apply (live_not_big p (rounded size) m g Hc'); try done. apply Hl. by left.
  - destruct (Hbig Hge) as (n & Hn & Hn0). cbn [kmalloc_depth].
    rewrite (proj2 (Z.eqb_neq size 0)) by lia. rewrite Hr, Hn.
    destruct (Z.leb_spec PAGE_SIZE (4096 * n)) as [_|]; [|unfold PAGE_SIZE in *; lia].
    assert (4096 * n / PAGE_SIZE = n) as Hdiv by (unfold PAGE_SIZE; Z.div_mod_to_equations; lia).
    rewrite Hdiv. destruct (big_alloc_spec n Hc Hn0) as [(why & Hw & Hst)|[(k' & Hw & Hc' & Hb & Hg & Hno)|
      (a & m & k' & L' & M' & bl' & Hw & Ha & HLa & Hc' & HL & HM & Hbl & HLa' & Hm & Hd & Hg & Hl)]];
      cbv zeta in Hw; fold (kmalloc_depth hb hg 1) in Hw |- * ; rewrite Hw.
    + left. by exists why.
    + right; left. exists k'. split; [done|]. split; [|done]. constructor. exists L, M, bl. split; [done|].
      intros p sz. rewrite HA, Hg. unfold live. by rewrite Hb.
    + right; right. exists a, k', (m :: G).
      assert (bigs k' !! m = Some (mk_big (4096 * n) a)) as Hgm by (rewrite Hg; apply lookup_insert_eq).
      assert (forall sz, ~ live k bl a sz) as Hna.
      { intros sz Hlv. apply (live_not_big a sz m _ Hc' ltac:(apply Hl; by right) (list_elem_of_here _ _) Hgm).
        done. }
      assert (forall m' g, m' ∈ G -> bigs k !! m' = Some g -> big_ptr g <> a) as Hnb.
      { intros m' g Hm' Hg' <-. destruct (c_big Hc m' Hm') as (_ & g2 & n2 & Hg2 & _ & _ & HL2 & _).
        rewrite Hg' in Hg2. injection Hg2 as <-. congruence. }
      assert (A !! a = None) as HAa.
      { apply eq_None_not_Some. intros [sz Hsz]. apply HA in Hsz as [[Hlive _]|(m' & g & Hm' & Hg' & Hptr & _)].
        - by apply (Hna sz).
        - by apply (Hnb m' g). }
      split_and!; [done|done|done|]. constructor. exists L', M', bl'. split; [done|]. intros q sz.
      rewrite lookup_insert_Some, HA, Hl. setoid_rewrite elem_of_cons. split.
      * intros [[<- <-]|[Hne [[Hlv Hq]|(m' & g & Hm' & Hg' & Hptr & Hsz)]]].
        -- right. exists m, (mk_big (4096 * n) a). split_and!; [by left|done|done|done].
        -- left. split; [by right|]. intros [->|?]; [|done]. by apply (Hd sz).
        -- right. exists m', g. split_and!; [by right| |done|done].
           rewrite Hg, lookup_insert_ne; [done|]. by intros ->.
      * intros [[[[-> ->]|Hlv] Hq]|(m' & g & [->|Hm'] & Hg' & Hptr & Hsz)].
        -- exfalso. apply Hq. by left.
        -- right. split; [intros ->; by apply (Hna sz)|]. left. split; [done|]. intros Hin. apply Hq. by right.
        -- left. rewrite Hgm in Hg'. by simplify_eq.
        -- right. rewrite Hg, lookup_insert_ne in Hg' by (intros ->; done).
           split; [intros ->; by eapply Hnb|]. right. by exists m', g.
Qed.

Lemma kfree_spec k A G p sz :
  km_state k A G -> A !! p = Some sz ->
  exists k' G', kfree hb hg p k = Ok k' /\ km_state k' (delete p A) G'.
Proof.
  intros [(L & M & bl & Hc & HA)] Hp. pose proof Hp as [[Hl HpG]|(m & g & Hm & Hg & <- & <-)]%HA.
  - destruct (kfree_chunk 1 p sz Hc Hl HpG) as (k' & Hk & Hc' & Hg' & Hl').
    exists k', G. split; [done|]. constructor. exists L, M, bl. split; [done|].
    intros q s. rewrite lookup_delete_Some, HA, Hl', Hg'. split; [naive_solver|].
    intros [?|(m & g & Hm & Hg & Hq & Hs)]; [naive_solver|]. split; [|right; by exists m, g].
    intros <-. by eapply (live_not_big p sz m g Hc).
  - destruct (kfree_big Hc Hm Hg) as (k' & L' & M' & G' & Hk & Hc' & Hg' & HmG' & HG & _ & Hl').
    exists k', G'. split; [done|]. constructor. exists L', M', bl. split; [done|].
    intros q s. rewrite lookup_delete_Some, HA, Hl', Hg'. split.
    + intros [Hne [[Hq HqG]|(m2 & g2 & Hm2 & Hg2 & <- & <-)]].
      * left. split; [split; [done|]|]; [intros ->; done|]. intros Hin. apply HqG, HG. by right.
      * right. exists m2, g2. split_and!; try done. apply HG in Hm2 as [->|?]; [|done].
        rewrite Hg in Hg2. by injection Hg2 as ->.
    + intros [[[Hq Hqm] HqG]|(m2 & g2 & Hm2 & Hg2 & <- & <-)].
      * split; [|left; split; [done|]; rewrite HG; tauto].
        intros Heq. by apply (live_not_big q s m g Hc Hq Hm Hg).
      * assert (m2 ∈ G) as Hm2G by (apply HG; by right). split; [|right; by exists m2, g2].
        intros Heq. rewrite (c_inj Hc m m2 g g2 Hm Hm2G Hg Hg2 Heq) in HmG'. done.
Qed.

Lemma kfree_bad k A G p :
  km_state k A G -> A !! p = None -> p ∉ G -> exists why, kfree hb hg p k = Err (Panic why).
Proof.
  intros [(L & M & bl & Hc & HA)] Hp HpG. apply (kfree_dead p Hc).
  - intros sz Hl. assert (A !! p = Some sz) by (apply HA; by left). congruence.
  - intros m g Hm Hg Heq. assert (A !! p = Some (big_size g)) by (apply HA; right; by exists m, g). congruence.
Qed.

(** Nothing tells the chunks of the allocator from those of its callers. *)
Lemma kfree_meta k A G p : km_state k A G -> p ∈ G ->
  A !! p = None /\
  exists a b i, blocks k !! a = Some b /\ chunkmap b !! i = Some CHUNK_USED /\ p = chunk_addr b i /\
    kfree hb hg p k = Ok (chunk_freed a b i k).
Proof.
  intros Hk Hp. split.
  - destruct (A !! p) as [sz|] eqn:HA; [|done].
    pose proof (ao_area _ _ _ (km_state_areas k A G Hk) p sz HA).
    pose proof (ao_meta _ _ _ (km_state_areas k A G Hk) p sz p HA Hp) as Hm. unfold sizeof_aha_big_meta in Hm. lia.
  - destruct Hk as [(L & M & bl & Hc & _)]. destruct (hosting_chunk 1 p 16 Hc (meta_live p Hc Hp)) as (a & b & i & Ha & Hb & Hi & -> & Hfree).
    exists a, b, i. split_and!; [done..|]. unfold kfree. rewrite Hfree. by eapply free_chunk_used.
Qed.

(** ** Runs *)

(** The static state: both lists are empty. *)
Definition km_init (p : P) : km P :=
  mk_km p (INIT_LIST_HEAD hg (INIT_LIST_HEAD hb (mk_links ∅ ∅))) ∅ ∅.

(** The callers allocate at most 2 GB at a time, and release what they hold. *)
Inductive km_run (p0 : P) : km P -> gmap Z Z -> Prop :=
  | km_start : km_run p0 (km_init p0) ∅
  | km_alloc k A size p k' :
      km_run p0 k A -> 0 <= size <= 2 ^ 31 -> kmalloc hb hg size k = Ok (p, k') -> p <> 0 ->
      km_run p0 k' (<[p := rounded size]> A)
  | km_alloc_fail k A size k' :
      km_run p0 k A -> 0 <= size <= 2 ^ 31 -> kmalloc hb hg size k = Ok (0, k') ->
      km_run p0 k' A
  | km_free k A p sz k' :
      km_run p0 k A -> A !! p = Some sz -> kfree hb hg p k = Ok k' ->
      km_run p0 k' (delete p A).

Lemma km_init_state p : page_state p ∅ ∅ -> km_state (km_init p) ∅ [].
Proof.
  intros Hp. constructor. exists ∅, ∅, []. split.
  - constructor; cbn [km_init pages nodes].
    + exact Hp.
    + eapply (lrep_frame (INIT_LIST_HEAD hb (mk_links ∅ ∅)) _ (fun x => x = hg)); [| |apply INIT_LIST_HEAD_spec].
      * intros x Hx. cbn. by rewrite !lookup_insert_ne by congruence.
      * apply Forall_singleton. apply heads_ne.
    + apply INIT_LIST_HEAD_spec.
    + intros a Ha. by apply not_elem_of_nil in Ha.
    + intros a Ha. by apply not_elem_of_nil in Ha.
    + intros a a2 g g2 Ha. by apply not_elem_of_nil in Ha.
    + intros a n. by rewrite lookup_empty.
    + intros a Ha. by apply not_elem_of_nil in Ha.
  - intros q sz. rewrite lookup_empty. split; [done|].
    intros [[(a & b & i & Ha & _) _]|(m & g & Hm & _)];
      [by apply not_elem_of_nil in Ha|by apply not_elem_of_nil in Hm].
Qed.

Lemma kmalloc_zero k : kmalloc hb hg 0 k = Ok (0, k).
Proof. done. Qed.

Lemma km_run_state p0 k A : page_state p0 ∅ ∅ -> km_run p0 k A -> exists G, km_state k A G.
Proof.
  intros Hp. induction 1 as [|k A size p k' _ [G HG] Hs Hk Hne|k A size k' _ [G HG] Hs Hk|k A p sz k' _ [G HG] HA Hk].
  - exists []. by apply km_init_state.
  - destruct (decide (size = 0)) as [->|]; [rewrite kmalloc_zero in Hk; by simplify_eq|].
    destruct (kmalloc_spec k A G size HG ltac:(lia)) as [(why & H & _)|[(k1 & H & _)|(p1 & k1 & G1 & H & _ & _ & H1)]];
      rewrite Hk in H; simplify_eq. by exists G1.
  - destruct (decide (size = 0)) as [->|]; [rewrite kmalloc_zero in Hk; simplify_eq; by exists G|].
    destruct (kmalloc_spec k A G size HG ltac:(lia)) as [(why & H & _)|[(k1 & H & H1 & _)|(p1 & k1 & G1 & H & Hpos & _)]];
      rewrite Hk in H; simplify_eq; by exists G.
  - destruct (kfree_spec k A G p sz HG HA) as (k1 & G1 & H & H1). rewrite Hk in H. simplify_eq. by exists G1.
Qed.

(** ** Requests above 2 GB *)

(** The block [kmalloc] makes for them: its chunks have no bytes. *)
Definition huge_block (a : Z) (cm : list Z) (nb : Z) : aha_block := mk_block 0 4068 nb (a + 4092) cm.

Lemma huge_chunk (k : km P) a nb m l1 l2 :
  blocks k !! a = Some (huge_block a (l1 ++ CHUNK_FREE :: l2) nb) -> 0 < a -> a + 4096 < 2 ^ 32 ->
  l1 = [] \/ l1 = [CHUNK_USED] -> Z.to_nat 4068 = S (S m) ->
  alloc_chunk a k = Ok (a + 4092, set_block a (huge_block a (l1 ++ CHUNK_USED :: l2) (nb ⊖ 1)) k).
Proof.
  intros Hb H0 Hlt Hl Hm. unfold alloc_chunk, get_block. rewrite Hb. cbn [mbind res_bind tot_elts huge_block].
  assert (forall j, (a + 4092) ⊕ (j ⊗ 0) = a + 4092) as Hp.
  { intros j. rewrite Z.mul_0_r, (u32_small 0), Z.add_0_r, u32_small; lia. }
  rewrite Hm. clear Hm. destruct Hl as [-> | ->]; cbn [for_ctl app chunkmap first_ptr elt_size huge_block];
    unfold CHUNK_FREE, CHUNK_USED.
  - rewrite (aget_mid [] 0 l2 0 eq_refl : aget (_ :: _) 0 = _). cbn [mbind res_bind Z.eqb].
    rewrite (aset_mid [] 0 1 l2 0 eq_refl : aset (_ :: _) 0 _ = _). cbn [mbind res_bind mret res_ret].
    by rewrite Hp.
  - rewrite (aget_mid [] 1 (0 :: l2) 0 eq_refl : aget (_ :: _) 0 = _).
    cbn [mbind res_bind Z.eqb mret res_ret]. rewrite Z.add_0_l.
    rewrite (aget_mid [1] 0 l2 1 eq_refl : aget (_ :: _ :: _) 1 = _). cbn [mbind res_bind Z.eqb].
    rewrite (aset_mid [1] 0 1 l2 1 eq_refl : aset (_ :: _ :: _) 1 _ = _). cbn [mbind res_bind mret res_ret].
    by rewrite Hp.
Qed.

Lemma kmalloc_huge_new k A G size a p p' :
  km_state k A G -> 2 ^ 31 < size < 2 ^ 32 ->
  pages_alloc 1 (pages k) = Ok (a, p) -> a <> 0 ->
  pages_map a a PTE_RW_KERNEL_NOCACHE p = Ok (true, p') ->
  exists h l, get_next h hb = Ok (block_node a) /\ hb <> block_node a /\ 0 < a /\ a + 4096 < 2 ^ 32 /\
    replicate (Z.to_nat 4068) CHUNK_FREE = CHUNK_FREE :: CHUNK_FREE :: l /\
    kmalloc hb hg size k = Ok (a + 4092,
      set_block a (huge_block a (CHUNK_USED :: CHUNK_FREE :: l) 4067)
        (mk_km p' h (<[a := huge_block a (CHUNK_FREE :: CHUNK_FREE :: l) 4068]> (blocks k)) (bigs k))).
Proof.
  intros [(L & M & bl & Hc & HA)] Hs Ha Ha0 Hmap.
  destruct (pages_alloc_law _ _ _ 1 (c_pages Hc) ltac:(lia)) as (a' & s' & Ha' & [[-> _]|[HL Hst]]);
    rewrite Ha in Ha'; [injection Ha' as -> _; by destruct Ha0|injection Ha' as <- <-].
  destruct (page_state_block _ _ _ a 1 Hst (lookup_insert_eq _ _ _)) as (_ & H0 & Hal & Hlt & Hk).
  assert (exists m, Z.to_nat 4068 = S (S m)) as [m Hm] by (exists (Z.to_nat 4066); lia).
  destruct (list_add (block_node a) hb (nodes k)) as [h|f] eqn:Hh.
  2:{ unfold list_add in Hh. by rewrite (lrep_first _ _ _ (c_bl Hc)) in Hh. }
  exists h, (replicate m CHUNK_FREE). split_and!.
  - unfold list_add in Hh. inv_res. unfold get_next, get_field, list_add_between. cbn.
    by rewrite lookup_insert_eq.
  - unfold block_node, offsetof_block_list. destruct (Hk hb heads_b); lia.
  - done.
  - lia.
  - by rewrite Hm.
  - unfold kmalloc. assert (next_highest_power_of_two (if size <? 8 then 8 else size) = 0) as He.
    { destruct (Z.ltb_spec size 8); [lia|]. by apply next_highest_power_of_two_wraps. }
    rewrite kmalloc_small by (lia || by rewrite He). rewrite He. unfold small_alloc.
    destruct (find_non_full_block_spec 0 Hc) as (r & -> & [[-> _]|(_ & Hin & b & Hb & Heb & _)]).
    2:{ destruct (core_block_ok _ _ Hc Hin Hb) as (Hok & _).
        destruct (sizes_geometry _ (bo_size _ _ Hok)). lia. }
    cbn [mbind res_bind]. rewrite Z.eqb_refl. unfold new_block.
    change ((PAGE_SIZE - sizeof_aha_block - sizeof_ptr) / (sizeof_chunk_type ⊕ 0)) with 4068.
    cbv zeta. cbn [Z.eqb]. rewrite Ha. cbn [mbind res_bind]. rewrite (proj2 (Z.eqb_neq a 0)) by done.
    unfold map_identity_page. cbn [with_pages pages]. rewrite Hmap. cbn [mbind res_bind mret res_ret].
    assert ((a ⊕ sizeof_aha_block) ⊕ 4068 = a + 4092) as ->.
    { unfold sizeof_aha_block. rewrite (u32_small (a + 24)) by lia. rewrite u32_small; lia. }
    assert (Z.land (a + 4092) (sizeof_ptr - 1) = 0) as ->.
    { unfold sizeof_ptr. change (4 - 1) with (2 ^ 2 - 1). rewrite land_low by lia.
      unfold aligned, PAGE_SIZE in Hal. Z.div_mod_to_equations; lia. }
    cbn [Z.eqb negb]. replace (a ⊕ offsetof_block_list) with (block_node a)
      by (rewrite u32_small; [done|]; unfold offsetof_block_list; lia).
    cbn [with_pages nodes]. rewrite Hh. cbn [mbind res_bind mret res_ret]. rewrite (proj2 (Z.eqb_neq a 0)) by done.
    change (4068 ⊗ sizeof_chunk_type) with 4068. rewrite Hm, !replicate_S.
    erewrite (huge_chunk _ a 4068 m [] (CHUNK_FREE :: replicate m CHUNK_FREE)); [done| |done|lia|by left|done].
    cbn. apply lookup_insert_eq.
Qed.

(** Two requests in a row get the same address. *)
Lemma kmalloc_huge_spec k A G size a p p' :
  km_state k A G -> 2 ^ 31 < size < 2 ^ 32 ->
  pages_alloc 1 (pages k) = Ok (a, p) -> a <> 0 ->
  pages_map a a PTE_RW_KERNEL_NOCACHE p = Ok (true, p') ->
  exists k1 k2, kmalloc hb hg size k = Ok (a + 4092, k1) /\ kmalloc hb hg size k1 = Ok (a + 4092, k2).
Proof.
  intros Hk Hs Ha Ha0 Hmap.
  destruct (kmalloc_huge_new k A G size a p p' Hk Hs Ha Ha0 Hmap) as (h & l & Hn & Hne & H0 & Hlt & Hl & Heq).
  do 2 eexists. split; [exact Heq|]. set (k1 := set_block _ _ _).
  assert (blocks k1 !! a = Some (huge_block a ([CHUNK_USED] ++ CHUNK_FREE :: l) 4067)) as Hb
    by (cbn; apply lookup_insert_eq).
  assert (exists m, Z.to_nat 4068 = S (S m)) as [m Hm] by (exists (Z.to_nat 4066); lia).
  unfold kmalloc. assert (next_highest_power_of_two (if size <? 8 then 8 else size) = 0) as He.
  { destruct (Z.ltb_spec size 8); [lia|]. by apply next_highest_power_of_two_wraps. }
  rewrite kmalloc_small by (lia || by rewrite He). rewrite He. unfold small_alloc, find_non_full_block.
  unfold list_empty, list_for_each_entry, list_for_each. cbn [nodes k1 set_block]. rewrite Hn.
  cbn [mbind res_bind mret res_ret]. rewrite (proj2 (Z.eqb_neq _ _)) by done.
  unfold list_fuel. cbn [list_walk]. rewrite (proj2 (Z.eqb_neq _ _)) by done.
  assert (container_of (block_node a) offsetof_block_list = a) as ->.
  { unfold container_of, block_node, offsetof_block_list. rewrite u32_small; lia. }
  unfold get_block. fold k1. rewrite Hb. cbn [mbind res_bind mret res_ret elt_size nb_frees huge_block].
  cbn [Z.eqb andb Z.ltb Z.compare mbind res_bind mret res_ret].
  rewrite (proj2 (Z.eqb_neq a 0)) by lia. cbn [mbind res_bind mret res_ret].
  rewrite (proj2 (Z.eqb_neq a 0)) by lia.
  apply (huge_chunk k1 a 4067 m [CHUNK_USED] l); [exact Hb|done|done|by right|done].
Qed.

(** ** Theorems *)

(** C19. A request of at most 2 GB to [kmalloc] returns an area of at least the
    size asked for, the next power of two, that was in nobody's hands, the
    metadata of big allocations included.  It returns NULL, with no effect its
    callers can see, only for a size of 0 or when the page frames it needs cannot
    be had: a frame for a new block of chunks, all those of the size being full,
    or the frames of a big allocation, or a block for the metadata of these.  It
    stops the kernel only when mapping one of these frames does, and with the
    message of [map_page]. *)
Theorem kmalloc_correct k A G size :
  km_state k A G -> 0 <= size <= 2 ^ 31 ->
  (exists why, kmalloc hb hg size k = Err (Panic why) /\ size <> 0 /\ stopped size k why) \/
  (exists k', kmalloc hb hg size k = Ok (0, k') /\ km_state k' A G /\ (size = 0 \/ refused size k)) \/
  (exists p k' G', kmalloc hb hg size k = Ok (p, k') /\ 0 < p /\ A !! p = None /\
     size <= rounded size /\ km_state k' (<[p := rounded size]> A) G').
Proof.
  intros Hk Hs. destruct (decide (size = 0)) as [->|].
  - right; left. exists k. by split_and!; [apply kmalloc_zero| |left].
  - destruct (rounded_spec size ltac:(lia)) as (_ & Hr & _).
    destruct (kmalloc_spec k A G size Hk ltac:(lia)) as [(why & ? & ?)|[(k' & ? & ? & ?)|(p & k' & G' & ? & ? & ? & ?)]];
      [left; by exists why|right; left; exists k'; by split_and!; [| |right]|right; right]. exists p, k', G'. split_and!; [done..|lia|done].
Qed.

(** C20. [kfree] of an area in the hands of the callers always returns and takes
    exactly this area away, with its pages unmapped and released if it is big.
    Of the other pointers it detects all but those to the chunks [G] that hold the
    metadata of big allocations: such a chunk is silently marked free, although
    it is still in the list of the big allocations. *)
Theorem kfree_correct k A G p :
  km_state k A G ->
  match A !! p with
  | Some _ => exists k' G', kfree hb hg p k = Ok k' /\ km_state k' (delete p A) G'
  | None =>
      if decide (p ∈ G) then
        exists a b i, blocks k !! a = Some b /\ chunkmap b !! i = Some CHUNK_USED /\ p = chunk_addr b i /\
          kfree hb hg p k = Ok (chunk_freed a b i k)
      else exists why, kfree hb hg p k = Err (Panic why)
  end.
Proof.
  intros Hk. destruct (A !! p) as [sz|] eqn:Hp; [by eapply kfree_spec|].
  destruct (decide (p ∈ G)) as [HG|HG]; [by eapply kfree_meta|by eapply kfree_bad].
Qed.

(** C21. In every run of [kmalloc] and [kfree] from the static state whose
    requests are of at most 2 GB (above, areas may overlap: C22), the areas in
    the hands of the callers are pairwise disjoint, and apart from the
    kernel's data, from the headers and chunk maps of the blocks and from the
    metadata of the big allocations; each of them can be released. *)
Theorem kmalloc_run_safe p0 k A :
  page_state p0 ∅ ∅ -> km_run p0 k A ->
  exists G, areas_ok k A G /\
    forall p, is_Some (A !! p) -> exists k', kfree hb hg p k = Ok k'.
Proof.
  intros Hp Hrun. destruct (km_run_state p0 k A Hp Hrun) as [G HG]. exists G.
  split; [by apply km_state_areas|]. intros p [sz Hsz].
  destruct (kfree_spec k A G p sz HG Hsz) as (k' & G' & Hk & _). by exists k'.
Qed.

(** C22. Above 2 GB the rounding wraps to 0 and [kmalloc] does not fail: as soon
    as a page is available, two requests in a row are both given the same
    pointer, to the last word of the page. *)
Theorem kmalloc_huge_wraps k A G size a p p' :
  km_state k A G -> 2 ^ 31 < size < 2 ^ 32 ->
  pages_alloc 1 (pages k) = Ok (a, p) -> a <> 0 ->
  pages_map a a PTE_RW_KERNEL_NOCACHE p = Ok (true, p') ->
  exists k1 k2, kmalloc hb hg size k = Ok (a + 4092, k1) /\ kmalloc hb hg size k1 = Ok (a + 4092, k2).
Proof. apply kmalloc_huge_spec. Qed.
End theorems.

(** ** Instances *)

(** The kernel's data is the page at 0x300000, which holds the two list heads;
    the frames are those of [demo_pg]. *)
Definition demo_kernel (x : Z) : Prop := 0x300000 <= x < 0x301000.
Definition demo_hb : Z := 0x300010.
Definition demo_hg : Z := 0x300020.

#[export] Instance demo_heads : ListHeads demo_kernel demo_hb demo_hg.
Proof. split; unfold demo_kernel, demo_hb, demo_hg; lia. Defined.

#[export] Instance demo_layout : RamLayout (pfa demo_pg) demo_kernel.
Proof.
  assert (forall b n, in_region (pfa demo_pg) b n -> b + 4096 * n <= 0x203000) as H.
  { intros b n (r & Hr & H1 & H2 & _). cbn in Hr. rewrite !elem_of_cons in Hr.
    unfold region_end, PAGE_SIZE in H2.
    destruct Hr as [->|[->|Hr%not_elem_of_nil]]; cbn in H1, H2; [lia|lia|done]. }
  split; intros b n.
  - intros _ Hb. specialize (H b n Hb). lia.
  - intros x Hb Hx. specialize (H b n Hb). unfold demo_kernel in Hx. lia.
Defined.

Lemma demo_page_state : page_state (kernel := demo_kernel) demo_pg ∅ ∅.
Proof.
  exists 0x100000, {[ 1023 := 0x100000 ]}, {[ 0x100000 := 1 ]}. constructor.
  - apply demo_pg_state.
  - done.
  - intros i f Hi [<- _]%lookup_singleton_Some. lia.
  - apply same_geometry_refl.
  - destruct (pfa_repr_in_region _ _ 0x100000 1 (ps_pfa _ _ _ _ demo_pg_state) (lookup_singleton_eq _ _))
      as (_ & _ & Hin).
    split.
    + intros p n [<- <-]%lookup_singleton_Some. done.
    + intros p n q k [<- <-]%lookup_singleton_Some [<- <-]%lookup_singleton_Some. done.
  - apply map_empty_subseteq.
  - intros i f _. apply lookup_empty.
  - intros p Hp. by apply not_elem_of_empty in Hp.
  - intros p Hp. by apply not_elem_of_empty in Hp.
  - intros p (r & Hr & H1 & H2 & Hal) _. unfold mapping.
    rewrite (walk_tables _ 0x100000 {[ 1023 := 0x100000 ]}).
    + cbn in Hr. rewrite !elem_of_cons in Hr. rewrite lookup_singleton_ne; [done|].
      unfold region_end, PAGE_SIZE, page_of in *.
      destruct Hr as [->|[->|Hr%not_elem_of_nil]]; cbn in H1, H2; [..|done]; Z.div_mod_to_equations; lia.
    + apply (g_tables _ _ _ _ (ps_good _ _ _ _ demo_pg_state)).
    + cbn in Hr. rewrite !elem_of_cons in Hr. unfold region_end, PAGE_SIZE, page_of in *.
      destruct Hr as [->|[->|Hr%not_elem_of_nil]]; cbn in H1, H2; [..|done]; Z.div_mod_to_equations; lia.
Qed.

Definition demo_km : km sys := km_init (hb := demo_hb) (hg := demo_hg) demo_pg.

Lemma demo_km_state : km_state (kernel := demo_kernel) (hb := demo_hb) (hg := demo_hg) demo_km ∅ [].
Proof. apply km_init_state, demo_page_state. Qed.

Notation demo_kmalloc := (kmalloc demo_hb demo_hg).
Notation demo_kfree := (kfree demo_hb demo_hg).

Definition returns_area (r : res (Z * km sys)) : bool :=
  match r with Ok (p, _) => negb (p =? 0) | Err _ => false end.

Lemma returns_area_cases r :
  returns_area r = true -> (forall why, r <> Err (Panic why)) /\ forall k', r <> Ok (0, k').
Proof. intros H. split; intros x ->; cbn in H; done. Qed.

Lemma demo_returns : returns_area (demo_kmalloc 100 demo_km) = true.
Proof. by vm_compute. Qed.

Lemma kmalloc_correct_witness :
  exists p k' G', demo_kmalloc 100 demo_km = Ok (p, k') /\ 0 < p /\
    km_state (kernel := demo_kernel) (hb := demo_hb) (hg := demo_hg) k' (<[p := 128]> ∅) G'.
Proof.
  destruct (returns_area_cases _ demo_returns) as [H1 H2].
  destruct (kmalloc_correct demo_km ∅ [] 100 demo_km_state ltac:(lia))
    as [(why & H & _)|[(k' & H & _)|(p & k' & G' & H & Hp & _ & _ & Hk)]].
  - by destruct (H1 why).
  - by destruct (H2 k').
  - exists p, k', G'. exact (conj H (conj Hp Hk)).
Defined.

Lemma demo_allocated :
  exists p k' G', demo_kmalloc 100 demo_km = Ok (p, k') /\ 0 < p /\
    km_state (kernel := demo_kernel) (hb := demo_hb) (hg := demo_hg) k' (<[p := 128]> ∅) G'.
Proof.
  destruct (returns_area_cases _ demo_returns) as [H1 H2].
  destruct (kmalloc_spec demo_km ∅ [] 100 demo_km_state ltac:(lia))
    as [(why & H & _)|[(k' & H & _)|(p & k' & G' & H & Hp & _ & Hk)]].
  - by destruct (H1 why).
  - by destruct (H2 k').
  - exists p, k', G'. exact (conj H (conj Hp Hk)).
Qed.

Lemma kfree_correct_witness :
  exists p k k', 0 < p /\ demo_kfree p k = Ok k' /\
    exists G, km_state (kernel := demo_kernel) (hb := demo_hb) (hg := demo_hg) k' ∅ G.
Proof.
  destruct demo_allocated as (p & k & G & _ & Hp & Hk).
  pose proof (kfree_correct k _ G p Hk) as H. rewrite lookup_insert_eq in H.
  destruct H as (k' & G' & H & Hk'). rewrite delete_insert_id in Hk' by apply lookup_empty.
  exists p, k, k'. exact (conj Hp (conj H (ex_intro _ G' Hk'))).
Defined.

Lemma kmalloc_run_safe_witness :
  exists p k, demo_kmalloc 100 demo_km = Ok (p, k) /\ exists k', demo_kfree p k = Ok k'.
Proof.
  destruct demo_allocated as (p & k & G & Hk & Hp & _). exists p, k. split; [exact Hk|].
  assert (km_run (hb := demo_hb) (hg := demo_hg) demo_pg k (<[p := rounded 100]> ∅)) as Hrun.
  { apply (km_alloc _ demo_km ∅ 100 p k (km_start demo_pg)); [lia|exact Hk|lia]. }
  destruct (kmalloc_run_safe demo_pg k _ demo_page_state Hrun) as (G' & _ & Hfree).
  apply Hfree. exists (rounded 100). apply lookup_insert_eq.
Defined.

Definition maps (r : res (bool * sys)) : bool :=
  match r with Ok (true, _) => true | _ => false end.

Lemma maps_Ok r : maps r = true -> exists s, r = Ok (true, s).
Proof. destruct r as [[[] s]|]; [by exists s|done|done]. Qed.

Definition demo_page : sys := match pages_alloc 1 demo_pg with Ok (_, s) => s | Err _ => demo_pg end.

Lemma demo_page_alloc : pages_alloc 1 demo_pg = Ok (0x101000, demo_page).
Proof. by vm_compute. Qed.

Lemma demo_page_maps : maps (pages_map 0x101000 0x101000 PTE_RW_KERNEL_NOCACHE demo_page) = true.
Proof. by vm_compute. Qed.

Lemma kmalloc_huge_wraps_witness :
  exists k1 k2, demo_kmalloc (2 ^ 31 + 1) demo_km = Ok (0x101ffc, k1) /\
    demo_kmalloc (2 ^ 31 + 1) k1 = Ok (0x101ffc, k2).
Proof.
  destruct (maps_Ok _ demo_page_maps) as [p' Hp'].
  apply (kmalloc_huge_wraps demo_km ∅ [] (2 ^ 31 + 1) 0x101000 demo_page p' demo_km_state).
  - lia.
  - exact demo_page_alloc.
  - discriminate.
  - exact Hp'.
Defined.
