(* ===== verification/Libc.v ===== *)
(** * The C library: memory and strings

    [libc/string/*.c] and [libc/stdlib/atoh.c].  Memory is a map from addresses
    to bytes; an access to an address that is not in the map is [Oob]. *)
From S2P Require Import Prelude.

Notation bytes := (gmap Z Z) (only parsing).

Definition rd (m : bytes) (a : Z) : res Z :=
  match m !! a with Some b => Ok b | None => Err Oob end.

Definition wr (a b : Z) (m : bytes) : res bytes :=
  match m !! a with Some _ => Ok (<[a := b]> m) | None => Err Oob end.

(** [char] is signed. *)
Definition s8 (b : Z) : Z := (b + 128) mod 256 - 128.

(** No walk over a string is longer than the memory. *)
Definition walk_fuel (m : bytes) : nat := S (size m).

(** ** Memory *)

Definition memcpy (dst src size : Z) (m : bytes) : res bytes :=
  for_loop (Z.to_nat size) 0 (fun i m => b ← rd m (src + i); wr (dst + i) b m) m.

Definition memmove (dst src size : Z) (m : bytes) : res bytes :=
  if dst <? src then
    for_loop (Z.to_nat size) 0 (fun i m => b ← rd m (src + i); wr (dst + i) b m) m
  else
    for_loop (Z.to_nat size) 0 (fun j m =>
      let i := size - j in b ← rd m (src + i - 1); wr (dst + i - 1) b m) m.

Definition memset (buf value size : Z) (m : bytes) : res bytes :=
  for_loop (Z.to_nat size) 0 (fun i m => wr (buf + i) (u8 value) m) m.

Definition memcmp (m : bytes) (a b size : Z) : res Z :=
  c ← for_ctl (Z.to_nat size) 0 (fun i _ =>
        x ← rd m (a + i);
        y ← rd m (b + i);
        if x <? y then mret (Leave (-1)) else if y <? x then mret (Leave 1)
        else mret (Next tt)) tt;
  match c with Leave r => mret r | Next _ => mret 0 end.

(** ** Strings *)

Definition strlen (m : bytes) (str : Z) : res Z :=
  loop_ctl (walk_fuel m) (fun len =>
    c ← rd m (str + len);
    if c =? 0 then mret (Leave len) else mret (Next (len + 1))) 0.

(** The byte is read before the length is tested. *)
Definition strnlen (m : bytes) (s maxlen : Z) : res Z :=
  loop_ctl (walk_fuel m) (fun len =>
    c ← rd m (s + len);
    if negb (c =? 0) && (len <? maxlen) then mret (Next (len + 1)) else mret (Leave len)) 0.

(** The address of the character, 0 for NULL. *)
Definition strchr (m : bytes) (s c : Z) : res Z :=
  loop_ctl (walk_fuel m) (fun p =>
    b ← rd m p;
    if b =? 0 then mret (Leave 0)
    else if s8 b =? s8 c then mret (Leave p)
    else mret (Next (p + 1))) s.

Definition strcmp (m : bytes) (s1 s2 : Z) : res Z :=
  i ← loop_ctl (walk_fuel m) (fun i =>
        a ← rd m (s1 + i);
        if a =? 0 then mret (Leave i)
        else
          b ← rd m (s2 + i);
          if a =? b then mret (Next (i + 1)) else mret (Leave i)) 0;
  a ← rd m (s1 + i);
  b ← rd m (s2 + i);
  if s8 a <? s8 b then mret (-1) else if s8 b <? s8 a then mret 1 else mret 0.

Definition strcpy (dest src : Z) (m : bytes) : res bytes :=
  '(ptr, m) ← loop_ctl (walk_fuel m) (fun '(i, m) =>
      c ← rd m (src + i);
      if c =? 0 then mret (Leave (dest + i, m))
      else m ← wr (dest + i) c m; mret (Next (i + 1, m))) (0, m);
  wr ptr 0 m.

Definition strncpy (dest src n : Z) (m : bytes) : res bytes :=
  '(i, m) ← loop_ctl (S (Z.to_nat n)) (fun '(i, m) =>
      if i <? n then
        c ← rd m (src + i);
        if c =? 0 then mret (Leave (i, m))
        else m ← wr (dest + i) c m; mret (Next (i + 1, m))
      else mret (Leave (i, m))) (0, m);
  for_loop (Z.to_nat (n - i)) i (fun i m => wr (dest + i) 0 m) m.

(** [abort()] of [libc/stdlib/abort.c] stops the kernel. *)
Definition atoh (m : bytes) (nptr : Z) : res Z :=
  loop_ctl (walk_fuel m) (fun '(p, r) =>
    c ← rd m p;
    if c =? 0 then mret (Leave r)
    else
      let r := u32 (Z.shiftl r 4) in
      let c := s8 c in
      r ← (if (48 <=? c) && (c <=? 57) then mret (r ⊕ (c - 48))
           else if (97 <=? c) && (c <=? 102) then mret (r ⊕ (c - 97 + 10))
           else if (65 <=? c) && (c <=? 70) then mret (r ⊕ (c - 65 + 10))
           else Err (Panic "abort"));
      mret (Next (p + 1, r))) (nptr, 0).

(** 32-bit accesses, low byte first. *)
Definition rd32 (m : bytes) (a : Z) : res Z :=
  b0 ← rd m a; b1 ← rd m (a + 1); b2 ← rd m (a + 2); b3 ← rd m (a + 3);
  mret (b0 + 2 ^ 8 * b1 + 2 ^ 16 * b2 + 2 ^ 24 * b3).

Definition wr32 (a v : Z) (m : bytes) : res bytes :=
  m ← wr a (u8 v) m; m ← wr (a + 1) (u8 (v / 2 ^ 8)) m; m ← wr (a + 2) (u8 (v / 2 ^ 16)) m;
  wr (a + 3) (u8 (v / 2 ^ 24)) m.

(** ** What memory holds *)

(** The bytes [l] from [a]. *)
Definition has (m : bytes) (a : Z) (l : list Z) : Prop :=
  forall i b, l !! i = Some b -> m !! (a + Z.of_nat i) = Some b.

(** The string [s], without its terminating zero. *)
Definition cstr (m : bytes) (a : Z) (s : list Z) : Prop :=
  has m a (s ++ [0]) /\ Forall (fun b => 0 < b < 256) s.

Definition mapped (m : bytes) (a n : Z) : Prop :=
  forall i, 0 <= i < n -> is_Some (m !! (a + i)).

(** Only the [n] bytes from [a] differ. *)
Definition same_outside (m m' : bytes) (a n : Z) : Prop :=
  forall x, ~ a <= x < a + n -> m' !! x = m !! x.

Lemma rd_Ok m a b : m !! a = Some b -> rd m a = Ok b.
Proof. unfold rd. by intros ->. Qed.

Lemma rd_None m a : m !! a = None -> rd m a = Err Oob.
Proof. unfold rd. by intros ->. Qed.

Lemma wr_Ok m a b : is_Some (m !! a) -> wr a b m = Ok (<[a := b]> m).
Proof. unfold wr. by intros [x ->]. Qed.

Lemma has_size m a l : has m a l -> (length l <= size m)%nat.
Proof.
  intros Hh. rewrite <- size_dom.
  assert (list_to_set ((fun i => a + Z.of_nat i) <$> seq 0 (length l)) ⊆ dom m) as Hs.
  { intros x (i & -> & Hi%elem_of_seq)%elem_of_list_to_set%list_elem_of_fmap.
    destruct (lookup_lt_is_Some_2 l i) as [b Hb]; [lia|].
    apply elem_of_dom. exists b. by apply Hh. }
  apply subseteq_size in Hs. rewrite size_list_to_set in Hs.
  - by rewrite length_fmap, length_seq in Hs.
  - apply NoDup_fmap_2; [intros i j; lia|apply NoDup_seq].
Qed.

Lemma cstr_fuel m a s : cstr m a s -> (length s < walk_fuel m)%nat.
Proof.
  intros [Hh _]. apply has_size in Hh. rewrite length_app in Hh. cbn in Hh. unfold walk_fuel. lia.
Qed.

Lemma cstr_char m a s i b :
  cstr m a s -> s !! i = Some b -> m !! (a + Z.of_nat i) = Some b /\ 0 < b < 256.
Proof.
  intros [Hh Hf] Hi. split; [apply Hh; by apply lookup_app_l_Some|].
  by eapply Forall_lookup_1 in Hf.
Qed.

Lemma cstr_end m a s : cstr m a s -> m !! (a + Z.of_nat (length s)) = Some 0.
Proof. intros [Hh _]. apply Hh. by rewrite lookup_app_r, Nat.sub_diag. Qed.

(** A walk of a string by index: the loop body is given each character, then 0. *)
Lemma cstr_walk {R} m a s (Q : R -> Prop) (body : Z -> res (ctl R Z)) i :
  cstr m a s -> (i <= length s)%nat ->
  (forall j b, (i <= j)%nat -> s !! j = Some b -> m !! (a + Z.of_nat j) = Some b -> 0 < b < 256 ->
     (exists r, body (Z.of_nat j) = Ok (Leave r) /\ Q r) \/
     body (Z.of_nat j) = Ok (Next (Z.of_nat j + 1))) ->
  (exists r, body (Z.of_nat (length s)) = Ok (Leave r) /\ Q r) ->
  exists r, loop_ctl (walk_fuel m) body (Z.of_nat i) = Ok r /\ Q r.
Proof.
  intros Hs Hi Hb He. pose proof (cstr_fuel m a s Hs) as Hf.
  apply (loop_ctl_measure (fun z => exists j, z = Z.of_nat j /\ (i <= j <= length s)%nat)
    (fun z => length s - Z.to_nat z)%nat Q).
  - exists i. split; [done|lia].
  - lia.
  - intros z (j & -> & Hj). destruct (decide (j = length s)) as [->|Hne]; [left; done|].
    destruct (lookup_lt_is_Some_2 s j) as [b Hjb]; [lia|].
    destruct (cstr_char m a s j b Hs Hjb) as [Hm Hr].
    destruct (Hb j b ltac:(lia) Hjb Hm Hr) as [?|Hn]; [by left|right].
    eexists. split; [exact Hn|]. split; [exists (S j); lia|lia].
Qed.

(** *** Parts of areas *)

Lemma has_app m a s t : has m a (s ++ t) <-> has m a s /\ has m (a + Z.of_nat (length s)) t.
Proof.
  split.
  - intros Hh. split; intros i b Hi.
    + apply Hh. by apply lookup_app_l_Some.
    + replace (a + Z.of_nat (length s) + Z.of_nat i) with (a + Z.of_nat (length s + i)) by lia. apply Hh.
      by rewrite lookup_app_r, Nat.add_comm, Nat.add_sub by lia.
  - intros [H1 H2] i b Hi. apply lookup_app_Some in Hi as [Hi|[Hge Hi]]; [by apply H1|].
    specialize (H2 _ _ Hi). by replace (a + Z.of_nat (length s) + Z.of_nat (i - length s)) with (a + Z.of_nat i) in H2 by lia.
Qed.

Lemma has_cons m a b s : has m a (b :: s) <-> m !! a = Some b /\ has m (a + 1) s.
Proof.
  change (b :: s) with ([b] ++ s). rewrite has_app. cbn [length]. split; (intros [H1 H2]; split; [|done]).
  - specialize (H1 0%nat b eq_refl). by rewrite Z.add_0_r in H1.
  - intros [|i] b' Hi; [|done]. injection Hi as <-. by rewrite Z.add_0_r.
Qed.

Lemma has_ext m m' a s : (forall x, a <= x < a + Z.of_nat (length s) -> m' !! x = m !! x) -> has m a s -> has m' a s.
Proof. intros He Hh i b Hi. rewrite He; [by apply Hh|]. apply lookup_lt_Some in Hi. lia. Qed.

Lemma cstr_ext m m' a s : (forall x, a <= x <= a + Z.of_nat (length s) -> m' !! x = m !! x) -> cstr m a s -> cstr m' a s.
Proof.
  intros He [Hh Hf]. split; [|done]. eapply has_ext; [|done]. intros x Hx. apply He.
  rewrite length_app in Hx. cbn in Hx. lia.
Qed.

Lemma mapped_outside m m' a n b k : mapped m a n -> mapped m b k -> same_outside m m' b k ->
  mapped m' b k -> mapped m' a n.
Proof.
  intros Ha Hb Hs Hb' i Hi. destruct (decide (b <= a + i < b + k)) as [Hin|Hout].
  - specialize (Hb' (a + i - b) ltac:(lia)). by replace (b + (a + i - b)) with (a + i) in Hb' by lia.
  - rewrite Hs by done. by apply Ha.
Qed.

(** *** Words *)

Lemma rd32_ext m m' a : (forall x, a <= x < a + 4 -> m' !! x = m !! x) -> rd32 m' a = rd32 m a.
Proof. intros He. unfold rd32, rd. by rewrite !He by lia. Qed.

Lemma wr32_spec a v m : mapped m a 4 -> is_u32 v ->
  exists m', wr32 a v m = Ok m' /\ rd32 m' a = Ok v /\ same_outside m m' a 4 /\
    (forall x, is_Some (m !! x) -> is_Some (m' !! x)).
Proof.
  intros Hm Hv. unfold wr32.
  pose proof (Hm 0 ltac:(lia)) as H0. pose proof (Hm 1 ltac:(lia)) as H1.
  pose proof (Hm 2 ltac:(lia)) as H2. pose proof (Hm 3 ltac:(lia)) as H3. rewrite Z.add_0_r in H0.
  assert (forall x b (m : bytes), is_Some (m !! x) -> is_Some (<[a := b]> m !! x) /\ is_Some (<[a + 1 := b]> m !! x) /\
    is_Some (<[a + 2 := b]> m !! x) /\ is_Some (<[a + 3 := b]> m !! x)) as Hi.
  { intros x b m0 Hx. split_and!; rewrite lookup_insert_is_Some'; by right. }
  rewrite wr_Ok by done. cbn [mbind res_bind]. rewrite wr_Ok by (by apply Hi). cbn [mbind res_bind].
  rewrite wr_Ok by (by apply Hi, Hi). cbn [mbind res_bind]. rewrite wr_Ok by (by apply Hi, Hi, Hi).
  eexists. split; [done|]. split_and!.
  - unfold rd32, rd. rewrite !(lookup_insert_ne _ (a + 3) a), !(lookup_insert_ne _ (a + 2) a),
      !(lookup_insert_ne _ (a + 1) a), lookup_insert_eq by lia. cbn [mbind res_bind].
    rewrite !(lookup_insert_ne _ (a + 3) (a + 1)), !(lookup_insert_ne _ (a + 2) (a + 1)), lookup_insert_eq by lia.
    cbn [mbind res_bind]. rewrite !(lookup_insert_ne _ (a + 3) (a + 2)), lookup_insert_eq by lia. cbn [mbind res_bind].
    rewrite lookup_insert_eq. cbn [mbind res_bind mret res_ret]. f_equal. unfold u8, is_u32 in *.
    Z.div_mod_to_equations. lia.
  - intros x Hx. by rewrite !lookup_insert_ne by lia.
  - intros x Hx. by apply Hi, Hi, Hi, Hi.
Qed.

Lemma rd32_shift m m' a b : (forall i, 0 <= i < 4 -> m' !! (b + i) = m !! (a + i)) -> rd32 m' b = rd32 m a.
Proof.
  intros He. unfold rd32, rd. pose proof (He 0 ltac:(lia)) as H0. rewrite !Z.add_0_r in H0.
  by rewrite H0, !He by lia.
Qed.

(** ** The memory functions *)

(** A loop that writes one byte per iteration. *)
Lemma write_loop m0 n dst (f : Z -> Z) (at_ : Z -> Z) body :
  mapped m0 dst n -> 0 <= n -> (forall j, 0 <= j < n -> 0 <= at_ j < n) ->
  (forall j k, 0 <= j < n -> 0 <= k < n -> at_ j = at_ k -> j = k) ->
  (forall j m, 0 <= j < n -> (forall x, is_Some (m0 !! x) -> is_Some (m !! x)) ->
     (forall x, (forall k, 0 <= k < j -> x <> dst + at_ k) -> m !! x = m0 !! x) ->
     body j m = wr (dst + at_ j) (f (at_ j)) m) ->
  exists m', for_loop (Z.to_nat n) 0 body m0 = Ok m' /\
    (forall j, 0 <= j < n -> m' !! (dst + at_ j) = Some (f (at_ j))) /\
    (forall x, (forall k, 0 <= k < n -> x <> dst + at_ k) -> m' !! x = m0 !! x) /\
    (forall x, is_Some (m0 !! x) -> is_Some (m' !! x)).
Proof.
  intros Hmap Hn Hat Hinj Hbody.
  match goal with |- context [for_loop ?cnt ?i0 ?bd ?st] =>
    destruct (for_loop_inv (fun i m =>
      (forall j, 0 <= j < i -> m !! (dst + at_ j) = Some (f (at_ j))) /\
      (forall x, (forall k, 0 <= k < i -> x <> dst + at_ k) -> m !! x = m0 !! x) /\
      (forall x, is_Some (m0 !! x) -> is_Some (m !! x))) bd cnt i0 st) as (m' & -> & H) end.
  - split_and!; [lia|done|done].
  - intros j m Hj (H1 & H2 & H3). rewrite Hbody by (lia || done).
    rewrite wr_Ok by (apply H3, Hmap, Hat; lia). eexists. split; [done|]. split_and!.
    + intros k Hk. destruct (decide (k = j)) as [->|Hne]; [apply lookup_insert_eq|].
      rewrite lookup_insert_ne; [apply H1; lia|]. intros Heq. apply Hne. apply Hinj; lia.
    + intros x Hx. rewrite lookup_insert_ne by (intros Heq; by apply (Hx j); [lia|]).
      apply H2. intros k Hk. apply Hx. lia.
    + intros x Hx. destruct (decide (x = dst + at_ j)) as [->|].
      * rewrite lookup_insert_eq. by eexists.
      * rewrite lookup_insert_ne by done. by apply H3.
  - exists m'. rewrite Z.add_0_l, Z2Nat.id in H by done. by split.
Qed.

(** What a copy does: [dst] holds what [src] held. *)
Definition copied (m m' : bytes) (dst src n : Z) : Prop :=
  (forall i, 0 <= i < n -> m' !! (dst + i) = m !! (src + i)) /\ same_outside m m' dst n.

Lemma copy_loop m dst src n (at_ : Z -> Z) body :
  mapped m dst n -> mapped m src n -> 0 <= n -> (forall j, 0 <= j < n -> 0 <= at_ j < n) ->
  (forall i, 0 <= i < n -> exists j, 0 <= j < n /\ at_ j = i) ->
  (forall j k, 0 <= j < n -> 0 <= k < n -> at_ j = at_ k -> j = k) ->
  (forall j k, 0 <= k < j -> j < n -> src + at_ j <> dst + at_ k) ->
  (forall j m, 0 <= j < n -> body j m = (b ← rd m (src + at_ j); wr (dst + at_ j) b m)) ->
  exists m', for_loop (Z.to_nat n) 0 body m = Ok m' /\ copied m m' dst src n.
Proof.
  intros Hd Hs Hn Hat Hsurj Hinj Hapart Hbody.
  destruct (write_loop m n dst (fun i => default 0 (m !! (src + i))) at_ body) as (m' & H & H1 & H2 & _);
    try done.
  - intros j mj Hj Hm Hsame. rewrite Hbody by done.
    destruct (Hs (at_ j)) as [b Hb]; [by apply Hat|].
    rewrite (rd_Ok mj _ b); [by rewrite Hb|]. rewrite Hsame; [done|].
    intros k Hk. apply Hapart; lia.
  - exists m'. split; [done|]. split.
    + intros i Hi. destruct (Hsurj i Hi) as (j & Hj & <-). rewrite H1 by done.
      destruct (Hs (at_ j)) as [b Hb]; [by apply Hat|]. by rewrite Hb.
    + intros x Hx. apply H2. intros k Hk ->. pose proof (Hat k Hk). lia.
Qed.

Lemma memmove_spec m dst src n :
  mapped m dst n -> mapped m src n -> 0 <= n ->
  exists m', memmove dst src n m = Ok m' /\ copied m m' dst src n.
Proof.
  intros Hd Hs Hn. unfold memmove. destruct (Z.ltb_spec dst src).
  - apply (copy_loop m dst src n id); unfold id; try done; [|lia].
    intros i Hi. by exists i.
  - apply (copy_loop m dst src n (fun j => n - 1 - j)); try done; try lia.
    + intros i Hi. exists (n - 1 - i). lia.
    + intros j mj Hj. cbv zeta. replace (src + (n - j) - 1) with (src + (n - 1 - j)) by lia.
      by replace (dst + (n - j) - 1) with (dst + (n - 1 - j)) by lia.
Qed.

Lemma memcpy_spec m dst src n :
  mapped m dst n -> mapped m src n -> 0 <= n -> dst + n <= src \/ src + n <= dst \/ dst <= src ->
  exists m', memcpy dst src n m = Ok m' /\ copied m m' dst src n.
Proof.
  intros Hd Hs Hn Hdis. apply (copy_loop m dst src n id); unfold id; try done; [|lia].
  intros i Hi. by exists i.
Qed.

Lemma memset_spec m buf v n :
  mapped m buf n -> 0 <= n ->
  exists m', memset buf v n m = Ok m' /\
    (forall i, 0 <= i < n -> m' !! (buf + i) = Some (u8 v)) /\ same_outside m m' buf n.
Proof.
  intros Hm Hn. destruct (write_loop m n buf (fun _ => u8 v) id (fun i m => wr (buf + i) (u8 v) m))
    as (m' & H & H1 & H2 & _); unfold id; try done.
  exists m'. split_and!; [done|exact H1|]. intros x Hx. apply H2. intros k Hk. unfold id. lia.
Qed.

(** [memcmp] is the lexicographic comparison of the bytes. *)
Fixpoint lex_compare (l1 l2 : list Z) : Z :=
  match l1, l2 with
  | x :: l1, y :: l2 => if x <? y then -1 else if y <? x then 1 else lex_compare l1 l2
  | _, _ => 0
  end.

Lemma memcmp_spec m a b l1 l2 :
  has m a l1 -> has m b l2 -> length l1 = length l2 ->
  memcmp m a b (Z.of_nat (length l1)) = Ok (lex_compare l1 l2).
Proof.
  intros H1 H2 Hlen. unfold memcmp. rewrite Nat2Z.id.
  assert (forall k1 k2 i, length k1 = length k2 -> has m (a + i) k1 -> has m (b + i) k2 ->
    (c ← for_ctl (length k1) i (fun i (_ : unit) =>
        x ← rd m (a + i);
        y ← rd m (b + i);
        if x <? y then mret (Leave (-1)) else if y <? x then mret (Leave 1)
        else mret (Next tt)) tt;
     match c with Leave r => mret r | Next _ => mret 0 end) = Ok (lex_compare k1 k2)) as Hg.
  { intros k1. induction k1 as [|x k1 IH]; intros [|y k2] i Hl Ha Hb; try done.
    cbn [length for_ctl lex_compare].
    pose proof (Ha 0%nat x eq_refl) as Hx. pose proof (Hb 0%nat y eq_refl) as Hy.
    rewrite Z.add_0_r in Hx, Hy. rewrite (rd_Ok _ _ _ Hx). cbn [mbind res_bind].
    rewrite (rd_Ok _ _ _ Hy). cbn [mbind res_bind].
    destruct (x <? y), (y <? x); try done. cbn [mbind res_bind mret res_ret].
    apply IH; [by injection Hl| |]; intros j c Hj.
    - replace (a + (i + 1) + Z.of_nat j) with (a + i + Z.of_nat (S j)) by lia. by apply Ha.
    - replace (b + (i + 1) + Z.of_nat j) with (b + i + Z.of_nat (S j)) by lia. by apply Hb. }
  apply (Hg l1 l2 0); [done|by rewrite Z.add_0_r..].
Qed.

(** ** The string functions *)

Lemma strlen_spec m a s : cstr m a s -> strlen m a = Ok (Z.of_nat (length s)).
Proof.
  intros Hs. unfold strlen.
  destruct (cstr_walk m a s (fun r => r = Z.of_nat (length s)) (fun len =>
    c ← rd m (a + len); if c =? 0 then mret (Leave len) else mret (Next (len + 1))) 0 Hs)
    as (r & Hr & ->); [lia| | |exact Hr].
  - intros j b _ _ Hb Hrange. right. rewrite (rd_Ok _ _ _ Hb). cbn.
    by rewrite (proj2 (Z.eqb_neq b 0)) by lia.
  - rewrite (rd_Ok _ _ _ (cstr_end _ _ _ Hs)). cbn. by eexists.
Qed.

Lemma strnlen_spec m a s n :
  cstr m a s -> 0 <= n -> strnlen m a n = Ok (Z.min (Z.of_nat (length s)) n).
Proof.
  intros Hs Hn. unfold strnlen. pose proof (cstr_fuel m a s Hs) as Hf.
  match goal with |- context [loop_ctl ?fuel ?bd ?st] =>
    destruct (loop_ctl_measure (fun z => exists j : nat, z = Z.of_nat j /\ (j <= length s)%nat /\ z <= n)
      (fun z => length s - Z.to_nat z)%nat (fun r => r = Z.min (Z.of_nat (length s)) n) bd fuel st)
      as (r & -> & ->) end; [by exists 0%nat; split_and!; lia|lia| |done].
  intros z (j & -> & Hj & Hjn). destruct (decide (j = length s)) as [->|Hne].
  - left. rewrite (rd_Ok _ _ _ (cstr_end _ _ _ Hs)). cbn. eexists. split; [done|lia].
  - destruct (lookup_lt_is_Some_2 s j) as [b Hjb]; [lia|].
    destruct (cstr_char m a s j b Hs Hjb) as [Hm Hr]. rewrite (rd_Ok _ _ _ Hm). cbn [mbind res_bind].
    rewrite (proj2 (Z.eqb_neq b 0)) by lia. cbn [negb andb].
    destruct (Z.ltb_spec (Z.of_nat j) n).
    + right. eexists. split; [done|]. split; [exists (S j); lia|lia].
    + left. eexists. split; [done|lia].
Qed.

(** It reads the byte after the [maxlen] first ones. *)
Lemma strnlen_overread m a l :
  has m a l -> Forall (fun b => b <> 0) l -> m !! (a + Z.of_nat (length l)) = None ->
  strnlen m a (Z.of_nat (length l)) = Err Oob.
Proof.
  intros Hh Hnz Hnone. unfold strnlen, walk_fuel. apply has_size in Hh as Hf.
  assert (forall k i fuel, l = i ++ k -> (length k <= fuel)%nat ->
    loop_ctl (S fuel) (fun len => c ← rd m (a + len);
      if negb (c =? 0) && (len <? Z.of_nat (length l)) then mret (Next (len + 1)) else mret (Leave len))
      (Z.of_nat (length i)) = (Err Oob : res Z)) as Hg.
  { intros k. induction k as [|b k IH]; intros i fuel Hl Hfu; rewrite loop_ctl_S.
    - rewrite app_nil_r in Hl. subst i. by rewrite (rd_None _ _ Hnone).
    - assert (l !! length i = Some b) as Hb by (rewrite Hl; by apply list_lookup_middle).
      rewrite (rd_Ok _ _ b) by (by apply Hh). cbn [mbind res_bind].
      rewrite (proj2 (Z.eqb_neq b 0)) by (by eapply Forall_lookup_1 in Hnz).
      apply lookup_lt_Some in Hb. cbn [negb andb].
      destruct (Z.ltb_spec (Z.of_nat (length i)) (Z.of_nat (length l))); [|lia].
      cbn [mbind res_bind mret res_ret]. cbn [length] in Hfu. destruct fuel as [|fuel]; [lia|].
      replace (Z.of_nat (length i) + 1) with (Z.of_nat (length (i ++ [b]))) by (rewrite length_app; cbn; lia).
      apply IH; [by rewrite <- app_assoc|lia]. }
  apply (Hg l [] (size m)); [done|lia].
Qed.

Lemma s8_inj b c : 0 <= b < 256 -> 0 <= c < 256 -> s8 b = s8 c -> b = c.
Proof. unfold s8. intros. Z.div_mod_to_equations; lia. Qed.

Lemma s8_u8 b : s8 (u8 b) = s8 b.
Proof. unfold s8, u8. Z.div_mod_to_equations; lia. Qed.

(** The first occurrence of the character, NULL without one; the terminating zero
    is never found. *)
Lemma strchr_spec m a s c :
  cstr m a s -> 0 <= c < 256 -> 0 < a ->
  strchr m a c = Ok (match list_find (fun b => b = c) s with
                     | Some (i, _) => a + Z.of_nat i | None => 0 end).
Proof.
  intros Hs Hc Ha. unfold strchr. pose proof (cstr_fuel m a s Hs) as Hf.
  assert (forall k i fuel, s = i ++ k -> (length k < fuel)%nat ->
    loop_ctl fuel (fun p => b ← rd m p;
      if b =? 0 then mret (Leave 0) else if s8 b =? s8 c then mret (Leave p) else mret (Next (p + 1)))
      (a + Z.of_nat (length i)) =
    Ok (match list_find (fun b => b = c) k with
        | Some (j, _) => a + Z.of_nat (length i) + Z.of_nat j | None => 0 end)) as Hg.
  { intros k. induction k as [|b k IH]; intros i fuel -> Hfu; (destruct fuel as [|fuel]; [lia|]); rewrite loop_ctl_S.
    - pose proof (cstr_end _ _ _ Hs) as He. rewrite app_nil_r in He. by rewrite (rd_Ok _ _ _ He).
    - destruct (cstr_char m a _ (length i) b Hs) as [Hm Hr]; [by apply list_lookup_middle|].
      rewrite (rd_Ok _ _ _ Hm). cbn [mbind res_bind list_find]. rewrite (proj2 (Z.eqb_neq b 0)) by lia.
      destruct (Z.eqb_spec (s8 b) (s8 c)) as [Heq|Hneq].
      + apply s8_inj in Heq; [|lia|lia]. rewrite decide_True by done. cbn. by rewrite Z.add_0_r.
      + rewrite decide_False by congruence. cbn [mbind res_bind mret res_ret].
        specialize (IH (i ++ [b]) fuel). rewrite <- app_assoc, length_app in IH. cbn [app length] in IH, Hfu.
        replace (a + Z.of_nat (length i) + 1) with (a + Z.of_nat (length i + 1)) by lia.
        rewrite IH by (done || lia). destruct (list_find _ k) as [[j ?]|]; cbn; [f_equal; lia|done]. }
  specialize (Hg s [] (walk_fuel m) eq_refl Hf). cbn [length] in Hg. rewrite Z.add_0_r in Hg. exact Hg.
Qed.

(** [strcmp] compares the first characters that differ, as signed. *)
Fixpoint str_compare (s t : list Z) : Z :=
  match s, t with
  | [], [] => 0
  | [], y :: _ => if 0 <? s8 y then -1 else 1
  | x :: _, [] => if s8 x <? 0 then -1 else 1
  | x :: s, y :: t => if x =? y then str_compare s t else if s8 x <? s8 y then -1 else 1
  end.

Lemma s8_zero b : 0 < b < 256 -> s8 b <> 0.
Proof. intros Hb H. change 0 with (s8 0) in H. apply s8_inj in H; lia. Qed.

Lemma strcmp_spec m a b s t :
  cstr m a s -> cstr m b t -> strcmp m a b = Ok (str_compare s t).
Proof.
  intros Hs Ht. unfold strcmp. pose proof (cstr_fuel m a s Hs) as Hf.
  assert (forall k l i fuel, s = i ++ k -> t = i ++ l -> (length k < fuel)%nat ->
    (i ← loop_ctl fuel (fun i =>
        x ← rd m (a + i);
        if x =? 0 then mret (Leave i)
        else y ← rd m (b + i); if x =? y then mret (Next (i + 1)) else mret (Leave i)) (Z.of_nat (length i));
     x ← rd m (a + i);
     y ← rd m (b + i);
     if s8 x <? s8 y then mret (-1) else if s8 y <? s8 x then mret 1 else mret 0) =
    Ok (str_compare k l)) as Hg.
  2:{ apply (Hg s t [] (walk_fuel m)); [done|done|done]. }
  intros k. induction k as [|x k IH]; intros l i fuel Hsk Htl Hfu; (destruct fuel as [|fuel]; [lia|]);
    rewrite loop_ctl_S.
  - pose proof (cstr_end _ _ _ Hs) as Hx. rewrite Hsk, app_nil_r in Hx.
    rewrite !(rd_Ok _ _ _ Hx). cbn [mbind res_bind mret res_ret Z.eqb]. rewrite (rd_Ok _ _ _ Hx). cbn [mbind res_bind].
    change (s8 0) with 0. destruct l as [|y l].
    + pose proof (cstr_end _ _ _ Ht) as Hy. rewrite Htl, app_nil_r in Hy. by rewrite (rd_Ok _ _ _ Hy).
    + destruct (cstr_char m b t (length i) y Ht) as [Hy Hr]; [by rewrite Htl, list_lookup_middle|].
      rewrite (rd_Ok _ _ _ Hy). cbn [mbind res_bind str_compare]. pose proof (s8_zero y Hr).
      destruct (Z.ltb_spec 0 (s8 y)); [done|]. destruct (Z.ltb_spec (s8 y) 0); [done|lia].
  - destruct (cstr_char m a s (length i) x Hs) as [Hx Hrx]; [by rewrite Hsk, list_lookup_middle|].
    rewrite (rd_Ok _ _ _ Hx). cbn [mbind res_bind]. rewrite (proj2 (Z.eqb_neq x 0)) by lia.
    destruct l as [|y l].
    + pose proof (cstr_end _ _ _ Ht) as Hy. rewrite Htl, app_nil_r in Hy. rewrite (rd_Ok _ _ _ Hy).
      cbn [mbind res_bind]. rewrite (proj2 (Z.eqb_neq x 0)) by lia. cbn [mbind res_bind mret res_ret].
      rewrite (rd_Ok _ _ _ Hx). cbn [mbind res_bind]. rewrite (rd_Ok _ _ _ Hy). cbn [mbind res_bind str_compare].
      change (s8 0) with 0. pose proof (s8_zero x Hrx).
      destruct (Z.ltb_spec (s8 x) 0); [done|]. destruct (Z.ltb_spec 0 (s8 x)); [done|lia].
    + destruct (cstr_char m b t (length i) y Ht) as [Hy Hry]; [by rewrite Htl, list_lookup_middle|].
      rewrite (rd_Ok _ _ _ Hy). cbn [mbind res_bind str_compare]. destruct (Z.eqb_spec x y) as [->|Hne].
      * cbn [mbind res_bind mret res_ret].
        replace (Z.of_nat (length i) + 1) with (Z.of_nat (length (i ++ [y]))) by (rewrite length_app; cbn; lia).
        cbn [length] in Hfu. apply IH; [by rewrite <- app_assoc..|lia].
      * cbn [mbind res_bind mret res_ret]. rewrite (rd_Ok _ _ _ Hx). cbn [mbind res_bind].
        rewrite (rd_Ok _ _ _ Hy). cbn [mbind res_bind].
        destruct (Z.ltb_spec (s8 x) (s8 y)); [done|]. destruct (Z.ltb_spec (s8 y) (s8 x)); [done|].
        exfalso. apply Hne, s8_inj; lia.
Qed.

Lemma str_compare_eq s t :
  Forall (fun b => 0 < b < 256) s -> Forall (fun b => 0 < b < 256) t ->
  str_compare s t = 0 <-> s = t.
Proof.
  intros Hs. revert t. induction Hs as [|x s Hx Hs IH]; intros [|y t] Ht; cbn; [done| | |].
  - by destruct (0 <? s8 y).
  - by destruct (s8 x <? 0).
  - apply Forall_cons in Ht as [Hy Ht]. destruct (Z.eqb_spec x y) as [->|Hne].
    + rewrite IH by done. naive_solver.
    + destruct (s8 x <? s8 y); naive_solver.
Qed.

Lemma str_compare_sym s t :
  Forall (fun b => 0 < b < 256) s -> Forall (fun b => 0 < b < 256) t ->
  str_compare t s = - str_compare s t.
Proof.
  intros Hs. revert t. induction Hs as [|x s Hx Hs IH]; intros [|y t] Ht; cbn; [done| | |].
  - apply Forall_cons in Ht as [Hy Ht]. pose proof (s8_zero y Hy). destruct (Z.ltb_spec (s8 y) 0), (Z.ltb_spec 0 (s8 y)); lia.
  - pose proof (s8_zero x Hx). destruct (Z.ltb_spec (s8 x) 0), (Z.ltb_spec 0 (s8 x)); lia.
  - apply Forall_cons in Ht as [Hy Ht]. destruct (Z.eqb_spec x y) as [->|Hne].
    + rewrite Z.eqb_refl. by apply IH.
    + rewrite (proj2 (Z.eqb_neq y x)) by done. assert (s8 x <> s8 y) by (intros ?%s8_inj; lia).
      destruct (Z.ltb_spec (s8 x) (s8 y)), (Z.ltb_spec (s8 y) (s8 x)); lia.
Qed.

(** The copies of strings write below [dest + n] only. *)
Lemma strcpy_spec m dest src s :
  cstr m src s -> mapped m dest (Z.of_nat (length s) + 1) ->
  (dest + Z.of_nat (length s) < src \/ src + Z.of_nat (length s) < dest) ->
  exists m', strcpy dest src m = Ok m' /\ cstr m' dest s /\
    same_outside m m' dest (Z.of_nat (length s) + 1).
Proof.
  intros Hs Hd Hap. unfold strcpy. pose proof (cstr_fuel m src s Hs) as Hf.
  match goal with |- context [loop_ctl ?fuel ?bd ?st] =>
    destruct (loop_ctl_measure (fun '(z, t) => exists j : nat, z = Z.of_nat j /\ (j <= length s)%nat /\
        has t dest (take j s) /\ same_outside m t dest (Z.of_nat j) /\
        (forall x, is_Some (m !! x) -> is_Some (t !! x)))
      (fun '(z, t) => length s - Z.to_nat z)%nat
      (fun '(p, t) => p = dest + Z.of_nat (length s) /\ has t dest s /\
        same_outside m t dest (Z.of_nat (length s)) /\ (forall x, is_Some (m !! x) -> is_Some (t !! x))) bd fuel st)
      as ([p t] & -> & -> & Hh & Hsame & Hmap) end.
  - exists 0%nat. split_and!; [done|lia| |done|done]. intros i b Hi. by rewrite take_0 in Hi.
  - lia.
  - intros [z t] (j & -> & Hj & Hh & Hsame & Hmap).
    destruct (decide (j = length s)) as [->|Hne].
    + left. pose proof (cstr_end _ _ _ Hs) as He. rewrite <- (Hsame (src + Z.of_nat (length s))) in He by lia.
      rewrite (rd_Ok _ _ _ He). cbn [mbind res_bind Z.eqb mret res_ret]. eexists. split; [done|].
      rewrite firstn_all in Hh. by split_and!.
    + right. destruct (lookup_lt_is_Some_2 s j) as [b Hjb]; [lia|].
      destruct (cstr_char m src s j b Hs Hjb) as [Hm Hr]. rewrite <- (Hsame (src + Z.of_nat j)) in Hm by lia.
      rewrite (rd_Ok _ _ _ Hm). cbn [mbind res_bind]. rewrite (proj2 (Z.eqb_neq b 0)) by lia.
      rewrite wr_Ok by (apply Hmap, Hd; lia). cbn [mbind res_bind mret res_ret]. eexists. split; [done|].
      split; [|lia]. exists (S j). split_and!; [lia|lia| | |].
      * intros i c Hi. rewrite (take_S_r _ _ _ Hjb) in Hi. apply lookup_app_Some in Hi as [Hi|[Hge Hi]].
        -- pose proof (lookup_lt_Some _ _ _ Hi) as Hlt. rewrite length_take in Hlt.
           rewrite lookup_insert_ne by lia. by apply Hh.
        -- rewrite length_take in Hge, Hi. apply list_lookup_singleton_Some in Hi as [Hi <-].
           replace i with j by lia. apply lookup_insert_eq.
      * intros x Hx. rewrite lookup_insert_ne by lia. apply Hsame. lia.
      * intros x Hx. rewrite lookup_insert_is_Some. destruct (decide (dest + Z.of_nat j = x)); [by left|right].
        split; [done|by apply Hmap].
  - cbn [mbind res_bind]. rewrite wr_Ok by (apply Hmap, Hd; lia). eexists. split; [done|]. split; [split|].
    + intros i b Hi. apply lookup_app_Some in Hi as [Hi|[Hge Hi]].
      * pose proof (lookup_lt_Some _ _ _ Hi). rewrite lookup_insert_ne by lia. by apply Hh.
      * apply list_lookup_singleton_Some in Hi as [Hi <-].
        replace i with (length s) by lia. apply lookup_insert_eq.
    + apply Hs.
    + intros x Hx. rewrite lookup_insert_ne by lia. apply Hsame. lia.
Qed.

(** The bytes [strncpy] writes: the string, cut or filled with zeros. *)
Definition padded (s : list Z) (i : Z) : Z := default 0 (s !! Z.to_nat i).

Lemma strncpy_spec m dest src s n :
  cstr m src s -> mapped m dest n -> 0 <= n ->
  (dest + n <= src \/ src + Z.of_nat (length s) < dest) ->
  exists m', strncpy dest src n m = Ok m' /\
    (forall i, 0 <= i < n -> m' !! (dest + i) = Some (padded s i)) /\ same_outside m m' dest n.
Proof.
  intros Hs Hd Hn Hap. unfold strncpy. set (c := Z.min (Z.of_nat (length s)) n).
  match goal with |- context [loop_ctl ?fuel ?bd ?st] =>
    destruct (loop_ctl_measure (fun '(z, t) => 0 <= z <= c /\
        (forall i, 0 <= i < z -> t !! (dest + i) = Some (padded s i)) /\ same_outside m t dest z /\
        (forall x, is_Some (m !! x) -> is_Some (t !! x)))
      (fun '(z, t) => Z.to_nat (n - z))
      (fun '(z, t) => z = c /\
        (forall i, 0 <= i < c -> t !! (dest + i) = Some (padded s i)) /\ same_outside m t dest c /\
        (forall x, is_Some (m !! x) -> is_Some (t !! x))) bd fuel st)
      as ([z t] & -> & -> & Hh & Hsame & Hmap) end.
  - split_and!; [lia|lia|lia|done|done].
  - lia.
  - intros [z t] (Hz & Hh & Hsame & Hmap). destruct (Z.ltb_spec z n) as [Hlt|Hge].
    2:{ left. eexists. split; [done|]. replace c with z by lia. done. }
    assert (forall b, m !! (src + z) = Some b -> rd t (src + z) = Ok b) as Hrd.
    { intros b Hb. apply rd_Ok. rewrite Hsame; [done|lia]. }
    destruct (decide (z = Z.of_nat (length s))) as [->|Hne].
    + left. rewrite (Hrd 0) by (by apply cstr_end). cbn [mbind res_bind Z.eqb mret res_ret].
      eexists. split; [done|]. replace c with (Z.of_nat (length s)) by lia. done.
    + right. destruct (lookup_lt_is_Some_2 s (Z.to_nat z)) as [b Hjb]; [lia|].
      destruct (cstr_char m src s _ b Hs Hjb) as [Hm Hr]. rewrite Z2Nat.id in Hm by lia.
      rewrite (Hrd b Hm). cbn [mbind res_bind]. rewrite (proj2 (Z.eqb_neq b 0)) by lia.
      rewrite wr_Ok by (apply Hmap, Hd; lia). cbn [mbind res_bind mret res_ret]. eexists. split; [done|].
      split; [|lia]. split_and!; [lia|lia| | |].
      * intros i Hi. destruct (decide (i = z)) as [->|]; [|rewrite lookup_insert_ne by lia; apply Hh; lia].
        rewrite lookup_insert_eq. unfold padded. by rewrite Hjb.
      * intros x Hx. rewrite lookup_insert_ne by lia. apply Hsame. lia.
      * intros x Hx. rewrite lookup_insert_is_Some. destruct (decide (dest + z = x)); [by left|right].
        split; [done|by apply Hmap].
  - cbn [mbind res_bind].
    match goal with |- context [for_loop ?cnt ?i0 ?bd ?st] =>
      destruct (for_loop_inv (fun z t => c <= z /\
        (forall i, 0 <= i < z -> t !! (dest + i) = Some (padded s i)) /\ same_outside m t dest z /\
        (forall x, is_Some (m !! x) -> is_Some (t !! x))) bd cnt i0 st) as (m' & -> & _ & Hh' & Hsame' & _) end.
    + by split_and!.
    + intros z u Hz (Hzc & Hhu & Hsu & Hmu). rewrite wr_Ok by (apply Hmu, Hd; lia). eexists. split; [done|].
      split_and!; [lia| | |].
      * intros i Hi. destruct (decide (i = z)) as [->|]; [|rewrite lookup_insert_ne by lia; apply Hhu; lia].
        rewrite lookup_insert_eq. unfold padded. rewrite lookup_ge_None_2; [done|lia].
      * intros x Hx. rewrite lookup_insert_ne by lia. apply Hsu. lia.
      * intros x Hx. rewrite lookup_insert_is_Some. destruct (decide (dest + z = x)); [by left|right].
        split; [done|by apply Hmu].
    + exists m'. split; [done|]. replace (c + Z.of_nat (Z.to_nat (n - c))) with n in * by lia. done.
Qed.

(** ** Hexadecimal numbers *)

(** The value of a digit. *)
Definition hex_digit (b : Z) : option Z :=
  if (48 <=? b) && (b <=? 57) then Some (b - 48)
  else if (97 <=? b) && (b <=? 102) then Some (b - 87)
  else if (65 <=? b) && (b <=? 70) then Some (b - 55)
  else None.

(** The value of a sequence of digits after those worth [v]. *)
Fixpoint hex_value (v : Z) (s : list Z) : option Z :=
  match s with
  | [] => Some v
  | b :: s => match hex_digit b with Some d => hex_value (16 * v + d) s | None => None end
  end.

Lemma atoh_spec m a s :
  cstr m a s ->
  atoh m a = match hex_value 0 s with Some v => Ok (u32 v) | None => Err (Panic "abort") end.
Proof.
  intros Hs. unfold atoh. pose proof (cstr_fuel m a s Hs) as Hf.
  assert (forall k i fuel v, s = i ++ k -> (length k < fuel)%nat ->
    loop_ctl fuel (fun '(p, r) =>
      c ← rd m p;
      if c =? 0 then mret (Leave r)
      else
        let r := u32 (Z.shiftl r 4) in
        let c := s8 c in
        r ← (if (48 <=? c) && (c <=? 57) then mret (r ⊕ (c - 48))
             else if (97 <=? c) && (c <=? 102) then mret (r ⊕ (c - 97 + 10))
             else if (65 <=? c) && (c <=? 70) then mret (r ⊕ (c - 65 + 10))
             else Err (Panic "abort"));
        mret (Next (p + 1, r))) (a + Z.of_nat (length i), u32 v) =
    match hex_value v k with Some v => Ok (u32 v) | None => Err (Panic "abort") end) as Hg.
  { intros k. induction k as [|b k IH]; intros i fuel v Hk Hfu; (destruct fuel as [|fuel]; [lia|]); rewrite loop_ctl_S.
    - pose proof (cstr_end _ _ _ Hs) as He. rewrite Hk, app_nil_r in He. by rewrite (rd_Ok _ _ _ He).
    - destruct (cstr_char m a s (length i) b Hs) as [Hm Hr]; [by rewrite Hk, list_lookup_middle|].
      rewrite (rd_Ok _ _ _ Hm). cbn [mbind res_bind hex_value]. rewrite (proj2 (Z.eqb_neq b 0)) by lia.
      assert (forall d, u32 (Z.shiftl (u32 v) 4) ⊕ d = u32 (16 * v + d)) as Hw.
      { intros d. rewrite Z.shiftl_mul_pow2 by lia. change (2 ^ 4) with 16. word. }
      specialize (IH (i ++ [b]) fuel). rewrite <- app_assoc, length_app in IH. cbn [app length] in IH, Hfu.
      replace (a + Z.of_nat (length i) + 1) with (a + Z.of_nat (length i + 1)) by lia.
      assert ((48 <= b <= 57 \/ 65 <= b <= 70 \/ 97 <= b <= 102) \/
        (hex_digit b = None /\ ((48 <=? s8 b) && (s8 b <=? 57) = false) /\
         ((97 <=? s8 b) && (s8 b <=? 102) = false) /\ ((65 <=? s8 b) && (s8 b <=? 70) = false))) as Hcase.
      { destruct (decide (48 <= b <= 57 \/ 65 <= b <= 70 \/ 97 <= b <= 102)) as [?|Hno]; [by left|right].
        assert (s8 b = b \/ s8 b < 0) as Hs8 by (unfold s8; Z.div_mod_to_equations; lia).
        assert (((48 <=? b) && (b <=? 57) = false) /\ ((97 <=? b) && (b <=? 102) = false) /\
          ((65 <=? b) && (b <=? 70) = false)) as (E1 & E2 & E3) by lia.
        unfold hex_digit. rewrite E1, E2, E3. split_and!; [done|lia..]. }
      destruct Hcase as [Hdig|(-> & -> & -> & ->)]; [|done].
      assert (s8 b = b) as -> by (unfold s8; Z.div_mod_to_equations; lia). cbv zeta. rewrite !Hw. unfold hex_digit.
      destruct ((48 <=? b) && (b <=? 57)) eqn:E1; [cbn [mbind res_bind mret res_ret]; by apply IH; [|lia]|].
      destruct ((97 <=? b) && (b <=? 102)) eqn:E2; cbn [mbind res_bind mret res_ret].
      + replace (b - 97 + 10) with (b - 87) by lia. by apply IH; [|lia].
      + destruct ((65 <=? b) && (b <=? 70)) eqn:E3; [|lia]. cbn [mbind res_bind mret res_ret].
        replace (b - 65 + 10) with (b - 55) by lia. by apply IH; [|lia]. }
  specialize (Hg s [] (walk_fuel m) 0 eq_refl Hf). cbn [length] in Hg. rewrite Z.add_0_r in Hg. exact Hg.
Qed.

(** ** Theorems *)

(** C23. [memmove] copies any two areas, overlapping or not: the destination holds
    what the source held, and nothing else changes. *)
Theorem memmove_correct m dst src n :
  mapped m dst n -> mapped m src n -> 0 <= n ->
  exists m', memmove dst src n m = Ok m' /\ copied m m' dst src n.
Proof. apply memmove_spec. Qed.

(** [strcmp] on two strings returns 0 exactly when they are equal, -1 or 1
    otherwise, the opposite when they are swapped: the order of their first
    characters that differ, taken as signed. *)
Theorem strcmp_correct m a b s t :
  cstr m a s -> cstr m b t ->
  strcmp m a b = Ok (str_compare s t) /\
  strcmp m b a = Ok (- str_compare s t) /\
  (str_compare s t = 0 <-> s = t).
Proof.
  intros Hs Ht. pose proof (proj2 Hs) as Hfs. pose proof (proj2 Ht) as Hft. split_and!.
  - by apply strcmp_spec.
  - rewrite (strcmp_spec m b a t s Ht Hs). f_equal. by apply str_compare_sym.
  - by apply str_compare_eq.
Qed.

(** [strncpy] writes exactly [n] bytes, the string cut at [n] or filled with
    zeros, and nothing else: the result is a string exactly when it was shorter
    than [n]. *)
Theorem strncpy_correct m dest src s n :
  cstr m src s -> mapped m dest n -> 0 <= n ->
  (dest + n <= src \/ src + Z.of_nat (length s) < dest) ->
  exists m', strncpy dest src n m = Ok m' /\ same_outside m m' dest n /\
    (forall i, 0 <= i < n -> m' !! (dest + i) = Some (padded s i)) /\
    (Z.of_nat (length s) < n -> cstr m' dest s).
Proof.
  intros Hs Hd Hn Hap. destruct (strncpy_spec m dest src s n Hs Hd Hn Hap) as (m' & H & Hb & Hsame).
  exists m'. split_and!; [done|done|done|]. intros Hlt. split; [|apply Hs].
  intros i b Hi. pose proof (lookup_lt_Some _ _ _ Hi) as Hil. rewrite length_app in Hil. cbn in Hil.
  rewrite Hb by lia. unfold padded. rewrite Nat2Z.id. apply lookup_app_Some in Hi as [Hi|[Hge Hi]].
  - by rewrite Hi.
  - apply list_lookup_singleton_Some in Hi as [Hi <-]. by rewrite lookup_ge_None_2 by lia.
Qed.

(** ** Instances *)

Lemma mapped_area (l : list (Z * Z)) a n : mapped (list_to_map (l ++ ((fun a => (a, 0)) <$> seqZ a n))) a n.
Proof.
  intros i Hi. assert (a + i ∈ seqZ a n) as Hin by (apply elem_of_seqZ; lia).
  destruct (list_to_map _ !! (a + i)) eqn:E; [by eexists|]. exfalso.
  apply not_elem_of_list_to_map in E. apply E. rewrite fmap_app. apply elem_of_app. right.
  rewrite <- list_fmap_compose. apply list_elem_of_fmap. by exists (a + i).
Qed.

(** "AZ" at 10, "Aa" at 20, ten bytes at 30. *)
Definition demo_mem : bytes :=
  list_to_map (zip (seqZ 10 3 ++ seqZ 20 3 ++ seqZ 30 10) ([65; 90; 0; 65; 97; 0] ++ replicate 10 7)).

Lemma demo_cstr1 : cstr demo_mem 10 [65; 90].
Proof. split; [|repeat constructor; lia]. intros [|[|[|i]]] b [= <-]; by vm_compute. Qed.

Lemma demo_mapped a : 30 <= a -> forall n, a + n <= 40 -> mapped demo_mem a n.
Proof.
  intros Ha n Hn i Hi. assert (exists k : nat, a + i = 30 + Z.of_nat k /\ (k < 10)%nat) as (k & -> & Hk).
  { exists (Z.to_nat (a + i - 30)). lia. }
  do 10 (destruct k as [|k]; [eexists; by vm_compute|]). lia.
Qed.

Lemma memmove_correct_witness :
  exists m', memmove 32 30 6 demo_mem = Ok m' /\ copied demo_mem m' 32 30 6.
Proof. apply (memmove_correct demo_mem 32 30 6); [apply demo_mapped; lia..|lia]. Defined.

Lemma strncpy_correct_witness : exists m', strncpy 30 10 5 demo_mem = Ok m' /\ cstr m' 30 [65; 90].
Proof.
  destruct (strncpy_correct demo_mem 30 10 [65; 90] 5 demo_cstr1) as (m' & H & _ & _ & Hs);
    [apply demo_mapped; lia|lia|cbn; lia|]. exists m'. exact (conj H (Hs ltac:(cbn; lia))).
Defined.
