(* ===== verification/Atomic.v ===== *)
(** * Atomic operations (atomic.h)

    Volatile accesses of any size and the locked instructions, on byte memory.
    [__u] is the union that the macros keep on the stack; its address is an
    argument.  Each access is one step: nothing comes between its bytes. *)
From S2P Require Import Prelude Libc.

(** ** Accesses of [n] bytes, low byte first *)

Fixpoint load (n : nat) (m : bytes) (a : Z) : res Z :=
  match n with O => mret 0 | S n => b ← rd m a; v ← load n m (a + 1); mret (b + 2 ^ 8 * v) end.

Fixpoint store (n : nat) (a v : Z) (m : bytes) : res bytes :=
  match n with O => mret m | S n => m ← wr a (u8 v) m; store n (a + 1) (v / 2 ^ 8) m end.

(** [*(uint<n>_t * )dst = *(uint<n>_t * )src] *)
Definition move (n : nat) (dst src : Z) (m : bytes) : res bytes := v ← load n m src; store n dst v m.

(** ** atomic.h *)

Definition __read_once_size_nocheck (p res size : Z) (m : bytes) : Prelude.res bytes :=
  if size =? 1 then move 1 res p m
  else if size =? 2 then move 2 res p m
  else if size =? 4 then move 4 res p m
  else if size =? 8 then move 8 res p m
  else memcpy res p size m.

Definition READ_ONCE (size __u x : Z) (m : bytes) : res (Z * bytes) :=
  m ← __read_once_size_nocheck x __u size m;
  v ← load (Z.to_nat size) m __u;
  mret (v, m).

Definition __write_once_size (p res size : Z) (m : bytes) : Prelude.res bytes :=
  if size =? 1 then move 1 p res m
  else if size =? 2 then move 2 p res m
  else if size =? 4 then move 4 p res m
  else if size =? 8 then move 8 p res m
  else memcpy p res size m.

Definition WRITE_ONCE (size __u x val : Z) (m : bytes) : res (Z * bytes) :=
  m ← store (Z.to_nat size) __u val m;
  m ← __write_once_size x __u size m;
  v ← load (Z.to_nat size) m __u;
  mret (v, m).

(** [v] is the address of an [atomic_t], whose only field is a signed word. *)
Definition atomic_read (__u v : Z) (m : bytes) : res (Z * bytes) :=
  '(x, m) ← READ_ONCE 4 __u v m; mret (s32 x, m).

Definition atomic_write (__u v new_val : Z) (m : bytes) : res bytes :=
  '(_, m) ← WRITE_ONCE 4 __u v new_val m; mret m.

(** [lock incl] and [lock decl]. *)
Definition atomic_inc (v : Z) (m : bytes) : res bytes := x ← load 4 m v; store 4 v (x + 1) m.
Definition atomic_dec (v : Z) (m : bytes) : res bytes := x ← load 4 m v; store 4 v (x - 1) m.

(** ** Facts *)

(** The [n] bytes from [a] hold the low bytes of [v]. *)
Definition little (n : nat) (v : Z) : list Z := (fun i => u8 (v / 2 ^ (8 * Z.of_nat i))) <$> seq 0 n.

Lemma little_S n v : little (S n) v = u8 v :: little n (v / 2 ^ 8).
Proof.
  unfold little. cbn [seq fmap list_fmap]. f_equal; [by rewrite Z.div_1_r|]. rewrite <- seq_shift, <- list_fmap_compose.
  apply list_fmap_ext. intros i x _. cbn [compose]. f_equal. rewrite Z.div_div by lia. f_equal. rewrite <- Z.pow_add_r by lia. f_equal. lia.
Qed.

Lemma length_little n v : length (little n v) = n.
Proof. unfold little. by rewrite length_fmap, length_seq. Qed.

Lemma load_little n m a v : has m a (little n v) -> load n m a = Ok (v mod 2 ^ (8 * Z.of_nat n)).
Proof.
  revert a v. induction n as [|n IH]; intros a v Hh; [cbn; by rewrite Z.mod_1_r|].
  rewrite little_S in Hh. apply has_cons in Hh as [Hb Hh]. cbn [load]. rewrite (rd_Ok _ _ _ Hb), (IH _ _ Hh).
  cbn [mbind res_bind mret res_ret]. f_equal. replace (8 * Z.of_nat (S n)) with (8 + 8 * Z.of_nat n) by lia.
  rewrite Z.pow_add_r by lia. unfold u8. rewrite Z.rem_mul_r by lia. lia.
Qed.

(** A store leaves the low bytes of the value, and nothing else changes. *)
Lemma store_little n a v m : mapped m a (Z.of_nat n) ->
  exists m', store n a v m = Ok m' /\ has m' a (little n v) /\ same_outside m m' a (Z.of_nat n) /\
    (forall x, is_Some (m !! x) -> is_Some (m' !! x)).
Proof.
  revert a v m. induction n as [|n IH]; intros a v m Hm.
  - exists m. split_and!; [done|by intros i b|by intros x|done].
  - assert (is_Some (m !! a)) as Ha by (specialize (Hm 0 ltac:(lia)); by rewrite Z.add_0_r in Hm).
    cbn [store]. rewrite wr_Ok by done. cbn [mbind res_bind].
    assert (forall x, is_Some (m !! x) -> is_Some (<[a := u8 v]> m !! x)) as Hins by (intros x Hx; rewrite lookup_insert_is_Some'; by right).
    destruct (IH (a + 1) (v / 2 ^ 8) (<[a := u8 v]> m)) as (m' & E & Hh & Hs & Hk).
    { intros i Hi. apply Hins. replace (a + 1 + i) with (a + (i + 1)) by lia. apply Hm. lia. }
    exists m'. split; [done|]. split_and!.
    + rewrite little_S, has_cons. split; [|done]. rewrite Hs by lia. apply lookup_insert_eq.
    + intros x Hx. rewrite Hs by lia. apply lookup_insert_ne. lia.
    + intros x Hx. by apply Hk, Hins.
Qed.

(** The value of an [atomic_t]. *)
Definition holds (m : bytes) (v x : Z) : Prop := has m v (little 4 x) /\ - 2 ^ 31 <= x < 2 ^ 31.
Definition separate (u v : Z) : Prop := u + 4 <= v \/ v + 4 <= u.

Lemma s32_u32 x : s32 (x mod 2 ^ (8 * Z.of_nat 4)) = s32 x.
Proof. unfold s32. change (2 ^ (8 * Z.of_nat 4)) with (2 ^ 32). rewrite Z.add_mod_idemp_l by lia. done. Qed.

Lemma little_mod n x : little n (x mod 2 ^ (8 * Z.of_nat n)) = little n x.
Proof.
  revert x. induction n as [|n IH]; intros x; [done|]. rewrite !little_S.
  replace (8 * Z.of_nat (S n)) with (8 + 8 * Z.of_nat n) by lia. rewrite Z.pow_add_r, Z.rem_mul_r by lia. f_equal.
  - unfold u8. rewrite Z.mul_comm, Z.mod_add by lia. by rewrite Z.mod_mod.
  - rewrite (Z.mul_comm (2 ^ 8)), Z.div_add, Z.div_small by (try apply Z.mod_pos_bound; lia). apply IH.
Qed.

(** Any bytes are those of a value. *)
Lemma little_bytes l : Forall is_u8 l -> exists v, l = little (length l) v.
Proof.
  induction 1 as [|b l Hb _ [v Hv]]; [by exists 0|]. exists (b + 2 ^ 8 * v). cbn [length]. rewrite little_S. unfold is_u8, u8 in *.
  rewrite (Z.mul_comm (2 ^ 8)), Z.mod_add, Z.div_add, (Z.div_small b), (Z.mod_small b) by lia. by f_equal.
Qed.

Lemma has_copied m m' dst src l : has m src l -> copied m m' dst src (Z.of_nat (length l)) -> has m' dst l.
Proof. intros Hh [Hc _] i b Hi. pose proof (lookup_lt_Some _ _ _ Hi). rewrite Hc by lia. by apply Hh. Qed.

(** The bytes [l] have been copied to [dst], and nothing else. *)
Definition placed_at (m m' : bytes) (dst : Z) (l : list Z) : Prop :=
  has m' dst l /\ same_outside m m' dst (Z.of_nat (length l)).

Lemma move_spec n dst src m l : has m src l -> Forall is_u8 l -> length l = n -> mapped m dst (Z.of_nat n) ->
  exists m', move n dst src m = Ok m' /\ placed_at m m' dst l.
Proof.
  intros Hh Hl Hn Hd. destruct (little_bytes l Hl) as [v Hv]. rewrite Hn in Hv. rewrite Hv in Hh. unfold move.
  rewrite (load_little _ _ _ _ Hh). cbn [mbind res_bind].
  destruct (store_little n dst (v mod 2 ^ (8 * Z.of_nat n)) m Hd) as (m' & E & Hm & Hs & _). rewrite little_mod, <- Hv in Hm.
  exists m'. split; [done|]. split; [done|by rewrite Hn].
Qed.

(** Both accesses copy as many bytes as they are told, whatever their number. *)
Theorem once_copies p u l m :
  has m p l -> Forall is_u8 l -> mapped m u (Z.of_nat (length l)) ->
  u + Z.of_nat (length l) <= p \/ p + Z.of_nat (length l) <= u ->
  (exists m', __read_once_size_nocheck p u (Z.of_nat (length l)) m = Ok m' /\ placed_at m m' u l) /\
  (exists m', __write_once_size u p (Z.of_nat (length l)) m = Ok m' /\ placed_at m m' u l).
Proof.
  intros Hh Hl Hu Hap.
  assert (forall n, (length l =? n)%nat = true -> exists m', move n u p m = Ok m' /\ placed_at m m' u l) as Hmove.
  { intros n Hn%Nat.eqb_eq. apply move_spec; [done..|by rewrite <- Hn]. }
  assert (exists m', memcpy u p (Z.of_nat (length l)) m = Ok m' /\ placed_at m m' u l) as Hcpy.
  { destruct (memcpy_spec m u p (Z.of_nat (length l))) as (m' & E & Hc); [done| |lia|tauto|].
    - intros i Hi. destruct (lookup_lt_is_Some_2 l (Z.to_nat i)) as [b Hb]; [lia|]. exists b.
      specialize (Hh _ _ Hb). by rewrite Z2Nat.id in Hh by lia.
    - exists m'. split; [done|]. split; [by eapply has_copied|apply Hc]. }
  unfold __read_once_size_nocheck, __write_once_size.
  repeat match goal with |- context [Z.of_nat (length l) =? ?k] =>
    destruct (Z.eqb_spec (Z.of_nat (length l)) k); [split; apply Hmove, Nat.eqb_eq; lia|] end. done.
Qed.

Lemma little_u8 n x : Forall is_u8 (little n x).
Proof. apply Forall_fmap, Forall_true. intros i. apply u8_range. Qed.

Lemma little_eq n x y : x mod 2 ^ (8 * Z.of_nat n) = y mod 2 ^ (8 * Z.of_nat n) -> little n x = little n y.
Proof. intros E. by rewrite <- (little_mod n x), E, little_mod. Qed.

Lemma has_mapped m a l : has m a l -> mapped m a (Z.of_nat (length l)).
Proof.
  intros Hh i Hi. destruct (lookup_lt_is_Some_2 l (Z.to_nat i)) as [b Hb]; [lia|]. exists b.
  specialize (Hh _ _ Hb). by rewrite Z2Nat.id in Hh by lia.
Qed.

Lemma holds_outside m m' u v x : holds m v x -> separate u v -> same_outside m m' u 4 -> holds m' v x.
Proof.
  intros [Hh Hx] Hsep Hs. split; [|done]. eapply has_ext; [|exact Hh]. rewrite length_little. intros a Ha. apply Hs.
  unfold separate in Hsep. lia.
Qed.

(** The locked instructions: any change of the word. *)
Lemma atomic_step d v x m : holds m v x ->
  exists m', (y ← load 4 m v; store 4 v (y + d) m) = Ok m' /\ holds m' v (s32 (x + d)) /\ same_outside m m' v 4.
Proof.
  intros [Hh Hx]. rewrite (load_little _ _ _ _ Hh). cbn [mbind res_bind]. pose proof (has_mapped _ _ _ Hh) as Hm.
  rewrite length_little in Hm. destruct (store_little 4 v (x mod 2 ^ (8 * Z.of_nat 4) + d) m Hm) as (m' & E & Hh' & Hs & _).
  exists m'. split; [done|]. split; [|done]. split; [|apply s32_range].
  rewrite (little_eq 4 _ (s32 (x + d))) in Hh'; [done|]. change (2 ^ (8 * Z.of_nat 4)) with (2 ^ 32). unfold s32.
  rewrite Z.add_mod_idemp_l, Zminus_mod_idemp_l by lia. f_equal. lia.
Qed.

Section Union.
Context (u v x : Z) (m : bytes) (Hv : holds m v x) (Hu : mapped m u 4) (Hsep : separate u v).

Lemma atomic_read_spec : exists m', atomic_read u v m = Ok (x, m') /\ holds m' v x /\ same_outside m m' u 4.
Proof.
  destruct (once_copies v u (little 4 x) m) as [(m' & E & Hh & Hs) _].
  - apply Hv.
  - apply little_u8.
  - by rewrite length_little.
  - by rewrite length_little.
  - rewrite length_little in E, Hs. change (Z.of_nat 4) with 4 in E. exists m'. unfold atomic_read, READ_ONCE. rewrite E. cbn [mbind res_bind].
    change (Z.to_nat 4) with 4%nat. rewrite (load_little 4 m' u x Hh). cbn [mbind res_bind mret res_ret]. rewrite s32_u32, s32_small by apply Hv.
    split_and!; [done| |done]. by apply (holds_outside m m' u).
Qed.

Lemma atomic_write_spec y : - 2 ^ 31 <= y < 2 ^ 31 -> exists m', atomic_write u v y m = Ok m' /\ holds m' v y /\
  forall a, ~ u <= a < u + 4 -> ~ v <= a < v + 4 -> m' !! a = m !! a.
Proof.
  intros Hy. destruct (store_little 4 u y m Hu) as (m1 & E1 & Hh1 & Hs1 & Hk1).
  pose proof (has_mapped _ _ _ (proj1 Hv)) as Hmv. rewrite length_little in Hmv. unfold separate in Hsep.
  destruct (once_copies u v (little 4 y) m1 Hh1) as [_ (m2 & E2 & Hh2 & Hs2)].
  - apply little_u8.
  - rewrite length_little. intros i Hi. by apply Hk1, Hmv.
  - rewrite length_little. lia.
  - rewrite length_little in E2, Hs2. exists m2. unfold atomic_write, WRITE_ONCE. change (Z.to_nat 4) with 4%nat.
    rewrite E1. cbn [mbind res_bind]. change (Z.of_nat 4) with 4 in E2. rewrite E2. cbn [mbind res_bind].
    rewrite (load_little 4 m2 u y).
    + split_and!; [done|by split|]. intros a Ha1 Ha2. by rewrite Hs2, Hs1.
    + eapply has_ext; [|exact Hh1]. rewrite length_little. intros a Ha. apply Hs2. lia.
Qed.

(** The values of the four operations; nothing but the [atomic_t] and the union
    changes, and increments wrap. *)
Theorem atomic_ops :
  (exists m', atomic_read u v m = Ok (x, m') /\ holds m' v x /\ same_outside m m' u 4) /\
  (forall y, - 2 ^ 31 <= y < 2 ^ 31 -> exists m', atomic_write u v y m = Ok m' /\ holds m' v y /\
     forall a, ~ u <= a < u + 4 -> ~ v <= a < v + 4 -> m' !! a = m !! a) /\
  (exists m', atomic_inc v m = Ok m' /\ holds m' v (s32 (x + 1)) /\ same_outside m m' v 4) /\
  (exists m', atomic_dec v m = Ok m' /\ holds m' v (s32 (x - 1)) /\ same_outside m m' v 4).
Proof.
  split_and!; [apply atomic_read_spec|apply atomic_write_spec|by apply (atomic_step 1)|by apply (atomic_step (-1))].
Qed.
End Union.
