(* ===== verification/Printf.v ===== *)
(** * Formatted output

    [libc/stdio/printf.c].  The text is written to memory byte by byte through
    the pointer [str]; the arguments are the words on the stack, which is how
    [va_arg] finds integers and pointers on i386. *)
From S2P Require Import Prelude Libc.

Definition ZEROPAD : Z := 1.
Definition SIGN : Z := 2.
Definition PLUS : Z := 4.
Definition SPACE : Z := 8.
Definition LEFT : Z := 16.
Definition SMALL : Z := 32.
Definition SPECIAL : Z := 64.

Definition has_flag (type f : Z) : bool := negb (Z.land type f =? 0).

(** The pointer [str] and the memory. *)
Definition buffer : Type := Z * gmap Z Z.

(** [*str++ = c] *)
Definition putc (c : Z) (b : buffer) : res buffer :=
  let '(str, m) := b in m ← wr str (u8 c) m; mret (str + 1, m).

(** [while (size-- > 0) *str++ = c]: [size] afterwards, and the buffer. *)
Fixpoint fill (fuel : nat) (c size : Z) (b : buffer) : res (Z * buffer) :=
  match fuel with
  | O => Err NoFuel
  | S fuel =>
      if 0 <? size then b ← putc c b; fill fuel c (size - 1) b
      else mret (size - 1, b)
  end.

Definition pad (c size : Z) (b : buffer) : res (Z * buffer) := fill (S (Z.to_nat size)) c size b.

(** "0123456789ABCDEF" *)
Definition digits : list Z :=
  [48; 49; 50; 51; 52; 53; 54; 55; 56; 57; 65; 66; 67; 68; 69; 70].

(** [while (num != 0) tmp[i++] = (digits[__do_div(num, base)] | locase)], in an
    array of 66 characters. *)
Fixpoint convert (fuel : nat) (num base locase : Z) (tmp : list Z) : res (list Z) :=
  match fuel with
  | O => Err NoFuel
  | S fuel =>
      if num =? 0 then mret tmp
      else if 66 <=? Z.of_nat (length tmp) then Err Oob
      else
        d ← aget digits (u32 num mod base);
        convert fuel (s32 (u32 num / base)) base locase (tmp ++ [Z.lor d locase])
  end.

(** The address after the text, [None] for NULL. *)
Definition number (num base size precision type : Z) (b : buffer) : res (option Z * gmap Z Z) :=
  let locase := Z.land type SMALL in
  let type := if has_flag type LEFT then Z.land type (Z.lnot ZEROPAD) else type in
  if (base <? 2) || (16 <? base) then mret (None, b.2)
  else
    let c := if has_flag type ZEROPAD then 48 else 32 in
    let '(sign, num, size) :=
      if has_flag type SIGN then
        if num <? 0 then (45, s32 (- num), size - 1)
        else if has_flag type PLUS then (43, num, size - 1)
        else if has_flag type SPACE then (32, num, size - 1)
        else (0, num, size)
      else (0, num, size) in
    let size :=
      if has_flag type SPECIAL then
        if base =? 16 then size - 2 else if base =? 8 then size - 1 else size
      else size in
    tmp ← (if num =? 0 then mret [48] else convert 67 num base locase []);
    let i := Z.of_nat (length tmp) in
    let precision := if precision <? i then i else precision in
    let size := size - precision in
    '(size, b) ← (if negb (has_flag type (ZEROPAD + LEFT)) then pad 32 size b else mret (size, b));
    b ← (if negb (sign =? 0) then putc sign b else mret b);
    b ← (if has_flag type SPECIAL then
           if base =? 8 then putc 48 b
           else if base =? 16 then b ← putc 48 b; putc (Z.lor 88 locase) b
           else mret b
         else mret b);
    '(size, b) ← (if negb (has_flag type LEFT) then pad c size b else mret (size, b));
    b ← for_loop (Z.to_nat (precision - i)) 0 (fun _ b => putc 48 b) b;
    b ← for_loop (Z.to_nat i) 0 (fun j b => d ← aget tmp (i - 1 - j); putc d b) b;
    '(_, b) ← pad 32 size b;
    mret (Some b.1, b.2).

(** ** Formats *)

Definition isdigit (c : Z) : bool := (48 <=? c) && (c <=? 57).

(** The character at the pointer. *)
Definition fetch (m : gmap Z Z) (p : Z) : res Z := b ← rd m p; mret (s8 b).

Definition skip_atoi (m : gmap Z Z) (s : Z) : res (Z * Z) :=
  loop_ctl (walk_fuel m) (fun '(i, s) =>
    c ← fetch m s;
    if isdigit c then mret (Next (s32 (i * 10 + c - 48), s + 1)) else mret (Leave (i, s))) (0, s).

(** The label [repeat]. *)
Definition parse_flags (m : gmap Z Z) (fmt : Z) : res (Z * Z) :=
  loop_ctl (walk_fuel m) (fun '(flags, fmt) =>
    let fmt := fmt + 1 in
    c ← fetch m fmt;
    if c =? 45 then mret (Next (Z.lor flags LEFT, fmt))
    else if c =? 43 then mret (Next (Z.lor flags PLUS, fmt))
    else if c =? 32 then mret (Next (Z.lor flags SPACE, fmt))
    else if c =? 35 then mret (Next (Z.lor flags SPECIAL, fmt))
    else if c =? 48 then mret (Next (Z.lor flags ZEROPAD, fmt))
    else mret (Leave (flags, fmt))) (0, fmt).

Definition va_arg (args : list Z) : res (Z * list Z) :=
  match args with w :: args => mret (w, args) | [] => Err Oob end.

(** [if (isdigit( *fmt)) ... else if ( *fmt == '*') ...] of the width:
    the value, the flags, the format and the arguments. *)
Definition parse_width (m : gmap Z Z) (flags fmt : Z) (args : list Z)
  : res (Z * Z * Z * list Z) :=
  c ← fetch m fmt;
  if isdigit c then '(w, fmt) ← skip_atoi m fmt; mret (w, flags, fmt, args)
  else if c =? 42 then
    '(w, args) ← va_arg args;
    let w := s32 w in
    if w <? 0 then mret (s32 (- w), Z.lor flags LEFT, fmt + 1, args)
    else mret (w, flags, fmt + 1, args)
  else mret (-1, flags, fmt, args).

Definition parse_precision (m : gmap Z Z) (fmt : Z) (args : list Z) : res (Z * Z * list Z) :=
  c ← fetch m fmt;
  if c =? 46 then
    let fmt := fmt + 1 in
    c ← fetch m fmt;
    '(p, fmt, args) ←
      (if isdigit c then '(p, fmt) ← skip_atoi m fmt; mret (p, fmt, args)
       else if c =? 42 then '(p, args) ← va_arg args; mret (s32 p, fmt + 1, args)
       else mret (-1, fmt, args));
    mret (if p <? 0 then 0 else p, fmt, args)
  else mret (-1, fmt, args).

(** [while (--width > 0) *str++ = ' ']: [width] afterwards. *)
Definition pad_char (width : Z) (b : buffer) : res (Z * buffer) :=
  '(w, b) ← pad 32 (width - 1) b; mret (w + 1, b).

(** [while (len < width--) *str++ = ' ']. *)
Definition pad_string (len width : Z) (b : buffer) : res (Z * buffer) :=
  '(w, b) ← pad 32 (width - len) b; mret (w + len, b).

Definition store_word (p w : Z) (m : gmap Z Z) : res (gmap Z Z) :=
  m ← wr p (w mod 256) m;
  m ← wr (p + 1) (w / 2 ^ 8 mod 256) m;
  m ← wr (p + 2) (w / 2 ^ 16 mod 256) m;
  wr (p + 3) (w / 2 ^ 24 mod 256) m.

(** [str = number(...)]. *)
Definition put_number (num base size precision flags : Z) (b : buffer) : res buffer :=
  '(o, m) ← number num base size precision flags b;
  match o with Some str => mret (str, m) | None => mret (0, m) end.

(** The argument of an integer conversion, as the [long] given to [number]. *)
Definition int_arg (qualifier flags w : Z) : Z :=
  if qualifier =? 108 then s32 w
  else if qualifier =? 104 then if has_flag flags SIGN then s16 w else u16 w
  else s32 w.

Definition hlL (c : Z) : bool := (c =? 104) || (c =? 108) || (c =? 76).

(** The [switch] on the conversion, with [fmt] at its character; the format, the
    arguments and the buffer afterwards. *)
Definition convert_arg (buf fmt flags width precision qualifier : Z) (args : list Z) (b : buffer)
  : res (Z * list Z * buffer) :=
  let integer base flags :=
    '(w, args) ← va_arg args;
    b ← put_number (int_arg qualifier flags w) base width precision flags b;
    mret (fmt, args, b) in
  c ← fetch b.2 fmt;
  if c =? 99 (* c *) then
    '(width, b) ← (if negb (has_flag flags LEFT) then pad_char width b else mret (width, b));
    '(w, args) ← va_arg args;
    b ← putc w b;
    '(_, b) ← pad_char width b;
    mret (fmt, args, b)
  else if c =? 115 (* s *) then
    '(s, args) ← va_arg args;
    len ← strnlen b.2 s (u32 precision);
    '(width, b) ← (if negb (has_flag flags LEFT) then pad_string len width b else mret (width, b));
    b ← for_loop (Z.to_nat len) 0 (fun i b => x ← rd b.2 (s + i); putc x b) b;
    '(_, b) ← pad_string len width b;
    mret (fmt, args, b)
  else if c =? 112 (* p *) then
    let '(width, flags) := if width =? -1 then (8, Z.lor flags ZEROPAD) else (width, flags) in
    '(w, args) ← va_arg args;
    b ← put_number (s32 w) 16 width precision flags b;
    mret (fmt, args, b)
  else if c =? 110 (* n *) then
    '(p, args) ← va_arg args;
    m ← store_word p (u32 (b.1 - buf)) b.2;
    mret (fmt, args, (b.1, m))
  else if c =? 37 (* % *) then b ← putc 37 b; mret (fmt, args, b)
  else if c =? 111 (* o *) then integer 8 flags
  else if c =? 120 (* x *) then integer 16 (Z.lor flags SMALL)
  else if c =? 88 (* X *) then integer 16 flags
  else if (c =? 100) || (c =? 105) (* d, i *) then integer 10 (Z.lor flags SIGN)
  else if c =? 117 (* u *) then integer 10 flags
  else
    b ← putc 37 b;
    if negb (c =? 0) then b ← putc c b; mret (fmt, args, b) else mret (fmt - 1, args, b).

(** A directive, with [fmt] at its '%'. *)
Definition directive (buf fmt : Z) (args : list Z) (b : buffer) : res (Z * list Z * buffer) :=
  '(flags, fmt) ← parse_flags b.2 fmt;
  '(width, flags, fmt, args) ← parse_width b.2 flags fmt args;
  '(precision, fmt, args) ← parse_precision b.2 fmt args;
  c ← fetch b.2 fmt;
  if hlL c then convert_arg buf (fmt + 1) flags width precision c args b
  else convert_arg buf fmt flags width precision (-1) args b.

(** The number of characters and the memory. *)
Definition vsprintf (buf fmt : Z) (args : list Z) (m : gmap Z Z) : res (Z * gmap Z Z) :=
  '(str, m) ← loop_ctl (walk_fuel m) (fun '(fmt, args, b) =>
    c ← fetch b.2 fmt;
    if c =? 0 then mret (Leave b)
    else if negb (c =? 37) then b ← putc c b; mret (Next (fmt + 1, args, b))
    else '(fmt, args, b) ← directive buf fmt args b; mret (Next (fmt + 1, args, b)))
    (fmt, args, (buf, m));
  m ← wr str 0 m;
  mret (str - buf, m).

Definition sprintf : Z -> Z -> list Z -> gmap Z Z -> res (Z * gmap Z Z) := vsprintf.

(** The characters given to [putchar()], through the array [printf_buf]. *)
Definition printf (printf_buf fmt : Z) (args : list Z) (m : gmap Z Z) : res (list Z * gmap Z Z) :=
  '(printed, m) ← vsprintf printf_buf fmt args m;
  out ← for_loop (Z.to_nat printed) 0 (fun i out => c ← rd m (printf_buf + i); mret (out ++ [c])) [];
  mret (out, m).

Example sprintf_demo :
  let m := list_to_map (zip (seqZ 100 9 ++ seqZ 200 20) ([37; 48; 56; 120; 124; 37; 100; 10; 0] ++ replicate 20 0)) in
  (r ← sprintf 200 100 [0xBEEF; u32 (-7)] m; mret r.1) = Ok 12 /\
  (r ← printf 200 100 [0xBEEF; u32 (-7)] m; mret r.1) =
    Ok [48; 48; 48; 48; 98; 101; 101; 102; 124; 45; 55; 10].
Proof. by vm_compute. Qed.
