(* ===== verification/PrintfSpec.v ===== *)
(** * Formatted output: specification

    The text [number] writes, described without loops, and the value of its
    digits; what [sprintf] prints with [%x] is read back by [atoh]. *)
From S2P Require Import Prelude Libc Printf.

(** ** Emitting a text *)

Fixpoint emit (l : list Z) (b : buffer) : res buffer :=
  match l with
  | [] => Ok b
  | c :: l => b ← putc c b; emit l b
  end.

Lemma emit_app l1 l2 b : emit (l1 ++ l2) b = (b ← emit l1 b; emit l2 b).
Proof.
  revert b; induction l1 as [|c l1 IH]; intros b; [done|]. cbn [emit app].
  rewrite bind_assoc. destruct (putc c b); [apply IH|done].
Qed.

Lemma emit_one c b : emit [c] b = putc c b.
Proof. cbn. by destruct (putc c b). Qed.

(** A text fits where the memory is mapped. *)
Lemma emit_spec l str m :
  mapped m str (Z.of_nat (length l)) ->
  exists m', emit l (str, m) = Ok (str + Z.of_nat (length l), m') /\
    has m' str (u8 <$> l) /\ same_outside m m' str (Z.of_nat (length l)) /\
    (forall x, is_Some (m !! x) -> is_Some (m' !! x)).
Proof.
  revert str m; induction l as [|c l IH]; intros str m Hm.
  - exists m. cbn. rewrite Z.add_0_r. by split_and!.
  - cbn [emit putc length] in *. rewrite wr_Ok.
    2:{ specialize (Hm 0). rewrite Z.add_0_r in Hm. apply Hm. lia. }
    cbn [mbind res_bind mret res_ret]. set (m1 := <[str := u8 c]> m).
    assert (forall x, is_Some (m !! x) -> is_Some (m1 !! x)) as Hmono.
    { intros x Hx. unfold m1. rewrite lookup_insert_is_Some.
      destruct (decide (str = x)); [by left|by right]. }
    destruct (IH (str + 1) m1) as (m' & -> & Hh & Hs & Hd).
    { intros i Hi. apply Hmono. replace (str + 1 + i) with (str + (1 + i)) by lia. apply Hm. lia. }
    exists m'. split_and!; [do 2 f_equal; lia| | |].
    + intros [|i] x Hx; cbn in Hx.
      * injection Hx as <-. rewrite Z.add_0_r, Hs by lia. apply lookup_insert_eq.
      * replace (str + Z.of_nat (S i)) with (str + 1 + Z.of_nat i) by lia. by apply Hh.
    + intros x Hx. rewrite Hs by lia. apply lookup_insert_ne. lia.
    + intros x Hx. by apply Hd, Hmono.
Qed.

Lemma fill_S n c size b :
  fill (S n) c size b = (if 0 <? size then b ← putc c b; fill n c (size - 1) b else mret (size - 1, b)).
Proof. done. Qed.

Lemma pad_emit c size b :
  pad c size b = (b ← emit (replicate (Z.to_nat size) c) b; mret (Z.min size 0 - 1, b)).
Proof.
  unfold pad. remember (Z.to_nat size) as n eqn:Hn. revert size b Hn.
  induction n as [|n IH]; intros size b Hn; rewrite fill_S; cbn [replicate emit].
  - destruct (Z.ltb_spec 0 size); [lia|]. cbn. do 2 f_equal. lia.
  - destruct (Z.ltb_spec 0 size); [|lia]. rewrite bind_assoc. destruct (putc c b) as [b'|]; [|done].
    cbn [mbind res_bind]. rewrite (IH (size - 1) b') by lia.
    by replace (Z.min (size - 1) 0) with (Z.min size 0) by lia.
Qed.

Lemma zeros_emit n i b : for_loop n i (fun _ b => putc 48 b) b = emit (replicate n 48) b.
Proof.
  revert i b; induction n as [|n IH]; intros i b; [done|]. cbn [for_loop replicate emit].
  destruct (putc 48 b); [apply IH|done].
Qed.

Lemma reverse_emit tmp b :
  for_loop (Z.to_nat (Z.of_nat (length tmp))) 0 (fun j b =>
    d ← aget tmp (Z.of_nat (length tmp) - 1 - j); putc d b) b = emit (reverse tmp) b.
Proof.
  rewrite Nat2Z.id.
  assert (forall k i b, (k + i = length tmp)%nat ->
    for_loop k (Z.of_nat i) (fun j b => d ← aget tmp (Z.of_nat (length tmp) - 1 - j); putc d b) b =
    emit (reverse (take k tmp)) b) as Hg.
  { intros k. induction k as [|k IH]; intros i b' Hk; [done|]. cbn [for_loop].
    destruct (lookup_lt_is_Some_2 tmp k) as [d Hd]; [lia|].
    replace (Z.of_nat (length tmp) - 1 - Z.of_nat i) with (Z.of_nat k) by lia.
    rewrite aget_nat, Hd. cbn [mbind res_bind]. rewrite (take_S_r _ _ _ Hd), reverse_app.
    cbn [reverse app]. change (reverse [d]) with [d]. cbn [app emit].
    destruct (putc d b') as [b1|]; [|done]. cbn [mbind res_bind].
    replace (Z.of_nat i + 1) with (Z.of_nat (S i)) by lia. apply IH. lia. }
  rewrite <- (firstn_all tmp) at 2. apply (Hg (length tmp) 0%nat). lia.
Qed.

(** ** Digits *)

(** The digits of [n], the least significant first. *)
Fixpoint lsd (fuel : nat) (base n : Z) : list Z :=
  match fuel with
  | O => []
  | S fuel => if n =? 0 then [] else n mod base :: lsd fuel base (n / base)
  end.

Definition digit_char (locase d : Z) : Z := Z.lor (nth (Z.to_nat d) digits 0) locase.

(** The digits [number] prints, the most significant first. *)
Definition digit_text (base locase n : Z) : list Z :=
  if n =? 0 then [48] else reverse (digit_char locase <$> lsd 32 base n).

(** The value of digits in a base. *)
Fixpoint base_value (base v : Z) (s : list Z) : option Z :=
  match s with
  | [] => Some v
  | b :: s =>
      match hex_digit b with
      | Some d => if d <? base then base_value base (base * v + d) s else None
      | None => None
      end
  end.

Lemma digits_get d : 0 <= d < 16 -> aget digits d = Ok (nth (Z.to_nat d) digits 0).
Proof.
  intros Hd. apply aget_Ok. split; [lia|].
  assert (d = 0 \/ d = 1 \/ d = 2 \/ d = 3 \/ d = 4 \/ d = 5 \/ d = 6 \/ d = 7 \/ d = 8 \/ d = 9 \/
    d = 10 \/ d = 11 \/ d = 12 \/ d = 13 \/ d = 14 \/ d = 15) as H by lia.
  by destruct_or! H; subst.
Qed.

Lemma digit_char_value locase d :
  0 <= d < 16 -> locase = 0 \/ locase = SMALL ->
  hex_digit (digit_char locase d) = Some d /\ 48 <= digit_char locase d < 128.
Proof.
  intros Hd Hl.
  assert (d = 0 \/ d = 1 \/ d = 2 \/ d = 3 \/ d = 4 \/ d = 5 \/ d = 6 \/ d = 7 \/ d = 8 \/ d = 9 \/
    d = 10 \/ d = 11 \/ d = 12 \/ d = 13 \/ d = 14 \/ d = 15) as H by lia.
  destruct Hl as [-> | ->]; destruct_or! H; subst; (split; [by vm_compute|]); split; by vm_compute.
Qed.

Lemma convert_lsd fuel k num base locase tmp :
  2 <= base <= 16 -> - 2 ^ 31 <= num < 2 ^ 31 -> u32 num < 2 ^ Z.of_nat k -> (k < fuel)%nat ->
  (length tmp + k <= 32)%nat ->
  convert fuel num base locase tmp = Ok (tmp ++ (digit_char locase <$> lsd k base (u32 num))).
Proof.
  intros Hb. revert k num tmp. induction fuel as [|fuel IH]; intros k num tmp Hn Hk Hf Hlen; [lia|].
  cbn [convert]. destruct (Z.eqb_spec num 0) as [->|Hnz].
  { destruct k; cbn; by rewrite app_nil_r. }
  assert (0 < u32 num < 2 ^ 32) as Hu by (unfold u32; Z.div_mod_to_equations; lia).
  destruct k as [|k]; [cbn in Hk; lia|].
  destruct (Z.leb_spec 66 (Z.of_nat (length tmp))); [lia|].
  assert (0 <= u32 num mod base < base) as Hm by (apply Z.mod_pos_bound; lia).
  rewrite digits_get by lia. cbn [mbind res_bind lsd fmap list_fmap].
  rewrite (proj2 (Z.eqb_neq (u32 num) 0)) by lia.
  assert (0 <= u32 num / base < 2 ^ 31 /\ u32 num / base < 2 ^ Z.of_nat k) as (Hd1 & Hd2).
  { rewrite Nat2Z.inj_succ, Z.pow_succ_r in Hk by lia.
    assert (u32 num / base <= u32 num / 2) by (apply Z.div_le_compat_l; lia).
    split; [split; [apply Z.div_pos; lia|]|]; Z.div_mod_to_equations; lia. }
  rewrite s32_small by lia. rewrite (IH k).
  - rewrite (u32_small (u32 num / base)) by lia. by rewrite <- app_assoc.
  - done || lia.
  - rewrite u32_small; lia.
  - lia.
  - rewrite length_app. cbn. lia.
Qed.

Lemma base_value_app base v s t :
  base_value base v (s ++ t) = match base_value base v s with Some w => base_value base w t | None => None end.
Proof.
  revert v; induction s as [|b s IH]; intros v; [done|]. cbn.
  destruct (hex_digit b) as [d|]; [|done]. destruct (d <? base); [apply IH|done].
Qed.

Lemma lsd_value k base locase n :
  2 <= base <= 16 -> locase = 0 \/ locase = SMALL -> 0 <= n < 2 ^ Z.of_nat k ->
  base_value base 0 (reverse (digit_char locase <$> lsd k base n)) = Some n.
Proof.
  intros Hb Hl. revert n. induction k as [|k IH]; intros n Hn; cbn [lsd].
  - cbn in Hn |- *. f_equal. lia.
  - destruct (Z.eqb_spec n 0) as [->|Hnz]; [done|]. cbn [fmap list_fmap]. rewrite reverse_cons, base_value_app.
    rewrite Nat2Z.inj_succ, Z.pow_succ_r in Hn by lia.
    assert (n / base <= n / 2) by (apply Z.div_le_compat_l; lia).
    rewrite IH by (split; [apply Z.div_pos|]; Z.div_mod_to_equations; lia).
    assert (0 <= n mod base < base) as Hm by (apply Z.mod_pos_bound; lia).
    cbn [base_value]. destruct (digit_char_value locase (n mod base)) as [-> _]; [lia|done|].
    rewrite (proj2 (Z.ltb_lt _ _)) by lia. f_equal. pose proof (Z.div_mod n base). lia.
Qed.

(** ** The text of a number *)

Definition magnitude (num type : Z) : Z :=
  u32 (if has_flag type SIGN && (num <? 0) then - num else num).

Definition number_sign (num type : Z) : list Z :=
  if has_flag type SIGN then
    if num <? 0 then [45] else if has_flag type PLUS then [43]
    else if has_flag type SPACE then [32] else []
  else [].

Definition number_prefix (base type : Z) : list Z :=
  if has_flag type SPECIAL then
    if base =? 8 then [48] else if base =? 16 then [48; Z.lor 88 (Z.land type SMALL)] else []
  else [].

Definition number_digits (num base type : Z) : list Z :=
  digit_text base (Z.land type SMALL) (magnitude num type).

(** Zeros up to the precision; blanks or zeros up to the size, on the left, or
    blanks on the right. *)
Definition number_text (num base size precision type : Z) : list Z :=
  let sg := number_sign num type in
  let pf := number_prefix base type in
  let ds := number_digits num base type in
  let zs := replicate (Z.to_nat (precision - Z.of_nat (length ds))) 48 in
  let rest := Z.to_nat (size - Z.of_nat (length (sg ++ pf ++ zs ++ ds))) in
  if has_flag type LEFT then sg ++ pf ++ zs ++ ds ++ replicate rest 32
  else if has_flag type ZEROPAD then sg ++ pf ++ replicate rest 48 ++ zs ++ ds
  else replicate rest 32 ++ sg ++ pf ++ zs ++ ds.

Lemma small_cases type : Z.land type SMALL = 0 \/ Z.land type SMALL = SMALL.
Proof.
  change SMALL with (2 ^ 5). rewrite Z.land_comm.
  assert (forall i, Z.testbit (Z.land (2 ^ 5) type) i = (i =? 5) && Z.testbit type 5) as H.
  { intros i. rewrite Z.land_spec, Z.pow2_bits_eqb, (Z.eqb_sym 5) by lia. by destruct (Z.eqb_spec i 5) as [->|]. }
  destruct (Z.testbit type 5); [right|left]; apply Z.bits_inj'; intros i Hi; rewrite H.
  - rewrite Z.pow2_bits_eqb, Z.eqb_sym by lia. apply andb_true_r.
  - rewrite Z.bits_0. apply andb_false_r.
Qed.

Lemma flags_or t f g : has_flag t (Z.lor f g) = has_flag t f || has_flag t g.
Proof.
  unfold has_flag. rewrite Z.land_lor_distr_r.
  destruct (Z.eqb_spec (Z.lor (Z.land t f) (Z.land t g)) 0) as [H|H].
  - apply Z.lor_eq_0_iff in H as [-> ->]. done.
  - destruct (Z.eqb_spec (Z.land t f) 0) as [H1|]; [|done].
    destruct (Z.eqb_spec (Z.land t g) 0) as [H2|]; [|done]. by rewrite H1, H2 in H.
Qed.

Lemma flag_cleared t f : Z.land (Z.lnot ZEROPAD) f = f ->
  has_flag (Z.land t (Z.lnot ZEROPAD)) f = has_flag t f.
Proof. intros Hf. unfold has_flag. by rewrite <- Z.land_assoc, Hf. Qed.

Lemma zeropad_cleared t : has_flag (Z.land t (Z.lnot ZEROPAD)) ZEROPAD = false.
Proof. unfold has_flag. rewrite <- Z.land_assoc. change (Z.land (Z.lnot ZEROPAD) ZEROPAD) with 0. by rewrite Z.land_0_r. Qed.

(** The digits in the array [tmp], in reverse. *)
Lemma tmp_digits num base locase :
  2 <= base <= 16 -> - 2 ^ 31 <= num < 2 ^ 31 ->
  exists tmp, (if num =? 0 then mret [48] else convert 67 num base locase []) = Ok tmp /\
    reverse tmp = digit_text base locase (u32 num).
Proof.
  intros Hb Hn. unfold digit_text. destruct (Z.eqb_spec num 0) as [->|Hnz]; [by exists [48]|].
  rewrite (convert_lsd 67 32) by (lia || apply u32_range || (cbn; lia)). eexists. split; [done|].
  rewrite (proj2 (Z.eqb_neq (u32 num) 0)); [done|]. unfold u32. Z.div_mod_to_equations; lia.
Qed.

(** Two computations that emit the same text in turn. *)
Ltac emit_step :=
  rewrite ?emit_app, ?bind_assoc;
  match goal with
  | |- context [emit ?l ?b] => destruct (emit l b) as [?b|?f]; [|done]; cbn [mbind res_bind mret res_ret]
  end.

Lemma number_spec num base size precision type b :
  2 <= base <= 16 -> - 2 ^ 31 <= num < 2 ^ 31 ->
  number num base size precision type b =
  (b' ← emit (number_text num base size precision type) b; mret (Some b'.1, b'.2)).
Proof.
  intros Hb Hn. unfold number, number_text. cbv zeta.
  set (locase := Z.land type SMALL).
  set (type' := if has_flag type LEFT then _ else type).
  assert ((base <? 2) || (16 <? base) = false) as -> by lia.
  assert (forall f, f = SIGN \/ f = PLUS \/ f = SPACE \/ f = LEFT \/ f = SPECIAL ->
    has_flag type' f = has_flag type f) as Hflag.
  { intros f Hf. unfold type'. destruct (has_flag type LEFT); [|done]. apply flag_cleared.
    by destruct_or! Hf; subst. }
  assert (has_flag type' ZEROPAD = has_flag type ZEROPAD && negb (has_flag type LEFT)) as Hzp.
  { unfold type'. destruct (has_flag type LEFT); [rewrite zeropad_cleared|]; by rewrite ?andb_false_r, ?andb_true_r. }
  change (ZEROPAD + LEFT) with (Z.lor ZEROPAD LEFT). rewrite flags_or, Hzp.
  rewrite !(Hflag SIGN), !(Hflag PLUS), !(Hflag SPACE), !(Hflag LEFT), !(Hflag SPECIAL) by tauto.
  clear Hflag Hzp type'.
  set (sg := number_sign num type). set (pf := number_prefix base type).
  assert (exists sign num', (if has_flag type SIGN then
      if num <? 0 then (45, s32 (- num), size - 1)
      else if has_flag type PLUS then (43, num, size - 1)
      else if has_flag type SPACE then (32, num, size - 1) else (0, num, size)
    else (0, num, size)) = (sign, num', size - Z.of_nat (length sg)) /\
    - 2 ^ 31 <= num' < 2 ^ 31 /\ u32 num' = magnitude num type /\
    forall b, (if negb (sign =? 0) then putc sign b else mret b) = emit sg b)
    as (sign & num' & -> & Hn' & Hmag & Hsg).
  { unfold sg, number_sign, magnitude. destruct (has_flag type SIGN); cbn [andb].
    - destruct (Z.ltb_spec num 0).
      + exists 45, (s32 (- num)). split_and!; [done|apply s32_range|apply s32_range| |intros; by rewrite emit_one].
        unfold s32, u32. Z.div_mod_to_equations; lia.
      + destruct (has_flag type PLUS); [|destruct (has_flag type SPACE)]; do 2 eexists;
          (split_and!; [by rewrite ?Z.sub_0_r|lia|lia|done|intros b0; rewrite ?emit_one; done]).
    - do 2 eexists. split_and!; [by rewrite Z.sub_0_r|lia|lia|done|done]. }
  assert ((if has_flag type SPECIAL then
      if base =? 16 then size - Z.of_nat (length sg) - 2
      else if base =? 8 then size - Z.of_nat (length sg) - 1 else size - Z.of_nat (length sg)
    else size - Z.of_nat (length sg)) = size - Z.of_nat (length sg) - Z.of_nat (length pf)) as ->.
  { unfold pf, number_prefix. destruct (has_flag type SPECIAL); [|cbn; lia].
    destruct (Z.eqb_spec base 16) as [->|]; [done|]. destruct (base =? 8); cbn; lia. }
  assert (forall b, (if has_flag type SPECIAL then
      if base =? 8 then putc 48 b
      else if base =? 16 then b ← putc 48 b; putc (Z.lor 88 locase) b else mret b
    else mret b) = emit pf b) as Hpf.
  { intros b0. unfold pf, number_prefix. destruct (has_flag type SPECIAL); [|done].
    destruct (base =? 8); [by rewrite emit_one|]. destruct (base =? 16); [|done].
    cbn [emit]. destruct (putc 48 b0) as [b1|]; [|done]. cbn [mbind res_bind]. symmetry. apply emit_one. }
  destruct (tmp_digits num' base locase Hb Hn') as (tmp & -> & Htmp). cbn [mbind res_bind].
  rewrite Hmag in Htmp. change (digit_text base locase _) with (number_digits num base type) in Htmp.
  set (ds := number_digits num base type) in *.
  assert (length tmp = length ds) as Hlen by (by rewrite <- Htmp, length_reverse).
  set (zs := replicate (Z.to_nat (precision - Z.of_nat (length ds))) 48).
  set (rest := Z.to_nat (size - Z.of_nat (length (sg ++ pf ++ zs ++ ds)))).
  set (prec := if precision <? Z.of_nat (length tmp) then Z.of_nat (length tmp) else precision).
  assert (Z.of_nat (length zs) + Z.of_nat (length ds) = prec /\
    Z.to_nat (prec - Z.of_nat (length tmp)) = Z.to_nat (precision - Z.of_nat (length ds))) as [Hprec Hzs].
  { unfold prec, zs. rewrite length_replicate, Hlen.
    destruct (Z.ltb_spec precision (Z.of_nat (length ds))); lia. }
  set (sz := size - Z.of_nat (length sg) - Z.of_nat (length pf) - prec).
  assert (rest = Z.to_nat sz) as Hrest by (unfold rest, sz; rewrite !length_app; lia).
  assert (forall b s, (b ← for_loop (Z.to_nat (prec - Z.of_nat (length tmp))) 0 (fun _ b => putc 48 b) b;
      b ← for_loop (Z.to_nat (Z.of_nat (length tmp))) 0
        (fun j b => d ← aget tmp (Z.of_nat (length tmp) - 1 - j); putc d b) b;
      '(_, b) ← pad 32 s b; mret (Some b.1, b.2)) =
    (b ← emit (zs ++ ds ++ replicate (Z.to_nat s) 32) b; mret (Some b.1, b.2))) as Htail.
  { intros b0 s. rewrite zeros_emit, Hzs. fold zs. emit_step.
    rewrite reverse_emit, Htmp. emit_step. rewrite pad_emit. by emit_step. }
  destruct (has_flag type LEFT); cbn [negb].
  - rewrite orb_true_r. cbn [mbind res_bind mret res_ret negb]. rewrite Hsg. emit_step.
    rewrite Hpf. emit_step. by rewrite Htail, Hrest.
  - rewrite orb_false_r, andb_true_r. destruct (has_flag type ZEROPAD); cbn [negb mbind res_bind mret res_ret].
    + rewrite Hsg. emit_step. rewrite Hpf. emit_step. rewrite pad_emit, Hrest. emit_step.
      rewrite Htail. replace (Z.to_nat (Z.min sz 0 - 1)) with 0%nat by lia. by rewrite app_nil_r.
    + rewrite pad_emit, Hrest. emit_step. rewrite Hsg. emit_step. rewrite Hpf. emit_step.
      rewrite pad_emit. replace (Z.to_nat (Z.min sz 0 - 1)) with 0%nat by lia. cbn [replicate emit mbind res_bind mret res_ret].
      rewrite Htail. replace (Z.to_nat (Z.min (Z.min sz 0 - 1) 0 - 1)) with 0%nat by lia.
      by rewrite app_nil_r.
Qed.

Lemma number_digits_value num base type :
  2 <= base <= 16 -> base_value base 0 (number_digits num base type) = Some (magnitude num type).
Proof.
  intros Hb. unfold number_digits, digit_text. pose proof (u32_range (if has_flag type SIGN && (num <? 0) then - num else num)) as Hm.
  fold (magnitude num type) in Hm. destruct (Z.eqb_spec (magnitude num type) 0) as [->|].
  - cbn [Z.eqb base_value]. change (hex_digit 48) with (Some 0). cbv iota.
    rewrite (proj2 (Z.ltb_lt 0 base)) by lia. f_equal. lia.
  - apply lsd_value; [done|apply small_cases|done].
Qed.

Lemma number_text_length num base size precision type :
  Z.of_nat (length (number_text num base size precision type)) =
  Z.max size (Z.of_nat (length (number_sign num type)) + Z.of_nat (length (number_prefix base type)) +
    Z.max precision (Z.of_nat (length (number_digits num base type)))).
Proof.
  unfold number_text. cbv zeta.
  destruct (has_flag type LEFT); [|destruct (has_flag type ZEROPAD)];
    rewrite !length_app, !length_replicate; lia.
Qed.

(** ** Hexadecimal output *)

Lemma lsd_length f base n (k : nat) :
  2 <= base -> 0 <= n < base ^ Z.of_nat k -> (length (lsd f base n) <= k)%nat.
Proof.
  intros Hb. revert n k. induction f as [|f IH]; intros n k Hn; cbn [lsd]; [cbn; lia|].
  destruct (Z.eqb_spec n 0); [cbn; lia|]. destruct k as [|k]; [cbn in Hn; lia|].
  rewrite Nat2Z.inj_succ, Z.pow_succ_r in Hn by lia. cbn [length]. apply le_n_S, IH.
  split; [apply Z.div_pos; lia|]. apply Z.div_lt_upper_bound; lia.
Qed.

Lemma number_digits_char num base type :
  2 <= base <= 16 -> Forall (fun c => 48 <= c < 128) (number_digits num base type).
Proof.
  intros Hb. unfold number_digits, digit_text. destruct (_ =? 0); [repeat constructor; lia|].
  apply Forall_reverse, Forall_fmap. generalize (magnitude num type). generalize 32%nat. intros f.
  induction f as [|f IH]; intros n; cbn [lsd]; [constructor|]. destruct (n =? 0); constructor; [|apply IH].
  apply digit_char_value; [|apply small_cases]. pose proof (Z.mod_pos_bound n base ltac:(lia)). lia.
Qed.

Lemma base_hex v s x : base_value 16 v s = Some x -> hex_value v s = Some x.
Proof.
  revert v; induction s as [|b s IH]; intros v; cbn; [done|]. destruct (hex_digit b); [|done].
  destruct (z <? 16); [apply IH|done].
Qed.

(** The text of [%x]. *)
Definition hex_text (w : Z) : list Z := number_digits (s32 w) 16 SMALL.

Lemma hex_text_facts w : is_u32 w ->
  number_text (s32 w) 16 (-1) (-1) SMALL = hex_text w /\ hex_value 0 (hex_text w) = Some w /\
  Forall (fun c => 48 <= c < 128) (hex_text w) /\ (1 <= length (hex_text w) <= 8)%nat.
Proof.
  intros Hw. assert (magnitude (s32 w) SMALL = w) as Hm.
  { unfold magnitude. change (has_flag SMALL SIGN) with false. cbn [andb]. unfold is_u32, s32 in *. word. }
  pose proof (number_digits_value (s32 w) 16 SMALL ltac:(lia)) as Hv. rewrite Hm in Hv.
  unfold hex_text. split; [|split; [|split]].
  - unfold number_text. cbv zeta. change (has_flag SMALL LEFT) with false. change (has_flag SMALL ZEROPAD) with false.
    change (number_sign (s32 w) SMALL) with (@nil Z). change (number_prefix 16 SMALL) with (@nil Z).
    cbn [app]. replace (Z.to_nat (-1 - Z.of_nat (length (number_digits (s32 w) 16 SMALL)))) with 0%nat by lia.
    cbn [replicate app]. by replace (Z.to_nat (-1 - Z.of_nat (length (number_digits (s32 w) 16 SMALL)))) with 0%nat by lia.
  - by apply base_hex.
  - by apply number_digits_char.
  - unfold number_digits, digit_text. rewrite Hm. destruct (Z.eqb_spec w 0); [cbn; lia|].
    rewrite length_reverse, length_fmap. split.
    + cbn [lsd]. rewrite (proj2 (Z.eqb_neq w 0)) by done. cbn. lia.
    + apply lsd_length; [lia|]. unfold is_u32 in Hw. change (16 ^ Z.of_nat 8) with (2 ^ 32). done.
Qed.

Lemma fetch_Ok m a b : m !! a = Some b -> 0 <= b < 128 -> fetch m a = Ok b.
Proof.
  intros Hm Hb. unfold fetch. rewrite (rd_Ok _ _ _ Hm). cbn. f_equal. unfold s8. Z.div_mod_to_equations; lia.
Qed.

(** The directive [%x] and its argument. *)
Lemma hex_directive buf fmt w str m :
  cstr m fmt [37; 120] ->
  directive buf fmt [w] (str, m) =
    (b ← put_number (s32 w) 16 (-1) (-1) SMALL (str, m); mret (fmt + 1, [], b)).
Proof.
  intros Hc. pose proof (cstr_fuel _ _ _ Hc) as Hf. cbn in Hf.
  destruct (cstr_char m fmt _ 1 120 Hc eq_refl) as [H1 _]. change (Z.of_nat 1) with 1 in H1.
  pose proof (fetch_Ok _ _ _ H1 ltac:(lia)) as Hx.
  unfold directive, parse_flags. cbn [snd]. destruct (walk_fuel m) as [|fuel]; [lia|]. rewrite loop_ctl_S, Hx.
  cbn [mbind res_bind mret res_ret Z.eqb Pos.eqb]. unfold parse_width. rewrite Hx.
  cbn [mbind res_bind mret res_ret Z.eqb Pos.eqb isdigit Z.leb Z.compare Pos.compare Pos.compare_cont andb].
  unfold parse_precision. rewrite Hx. cbn [mbind res_bind mret res_ret Z.eqb Pos.eqb]. rewrite Hx.
  cbn [mbind res_bind mret res_ret]. change (hlL 120) with false. cbn iota.
  unfold convert_arg. cbn [snd]. rewrite Hx. cbn [mbind res_bind mret res_ret Z.eqb Pos.eqb orb va_arg].
  reflexivity.
Qed.

Lemma sprintf_hex m buf fmt w :
  cstr m fmt [37; 120] -> is_u32 w -> mapped m buf 9 -> buf + 9 <= fmt \/ fmt + 3 <= buf ->
  exists m', sprintf buf fmt [w] m = Ok (Z.of_nat (length (hex_text w)), m') /\
    cstr m' buf (hex_text w) /\ same_outside m m' buf (Z.of_nat (length (hex_text w)) + 1).
Proof.
  intros Hc Hw Hm Hap. destruct (hex_text_facts w Hw) as (Ht & _ & Hch & Hlen).
  pose proof (cstr_fuel _ _ _ Hc) as Hf. cbn in Hf.
  destruct (cstr_char m fmt _ 0 37 Hc eq_refl) as [H0 _]. change (Z.of_nat 0) with 0 in H0. rewrite Z.add_0_r in H0.
  unfold sprintf, vsprintf. destruct (walk_fuel m) as [|[|fuel]]; [lia..|].
  rewrite loop_ctl_S. cbn [snd]. rewrite (fetch_Ok _ _ _ H0) by lia.
  cbn [mbind res_bind Z.eqb Pos.eqb negb]. rewrite hex_directive by done. unfold put_number.
  rewrite number_spec by (lia || apply s32_range). rewrite Ht.
  destruct (emit_spec (hex_text w) buf m) as (m1 & -> & Hh & Hs & Hd).
  { intros i Hi. apply Hm. lia. }
  cbn [mbind res_bind mret res_ret fst snd]. rewrite loop_ctl_S. cbn [snd].
  pose proof (cstr_end _ _ _ Hc) as He. cbn [length] in He. change (Z.of_nat 2) with 2 in He. rewrite <- Hs in He by lia.
  replace (fmt + 1 + 1) with (fmt + 2) by lia. rewrite (fetch_Ok _ _ _ He) by lia.
  cbn [mbind res_bind mret res_ret Z.eqb]. rewrite wr_Ok by (apply Hd, Hm; lia). cbn [mbind res_bind mret res_ret].
  eexists. split; [do 2 f_equal; lia|].
  assert (u8 <$> hex_text w = hex_text w) as Hu.
  { rewrite <- (list_fmap_id (hex_text w)) at 2. apply list_fmap_ext. intros i x Hx.
    eapply Forall_lookup_1 in Hch; [|done]. cbn beta in Hch. unfold id. apply u8_small. lia. }
  rewrite Hu in Hh. split; [split|].
  - intros i b Hi. apply lookup_app_Some in Hi as [Hi|[Hge Hi]].
    + pose proof (lookup_lt_Some _ _ _ Hi). rewrite lookup_insert_ne by lia. by apply Hh.
    + apply list_lookup_singleton_Some in Hi as [Hi <-].
      replace i with (length (hex_text w)) by lia. apply lookup_insert_eq.
  - eapply Forall_impl; [exact Hch|]. cbn. lia.
  - intros x Hx. rewrite lookup_insert_ne by lia. apply Hs. lia.
Qed.

(** ** Theorems *)

Lemma hex_digits_length v type : (length (number_digits v 16 type) <= 8)%nat.
Proof.
  unfold number_digits, digit_text. destruct (Z.eqb_spec (magnitude v type) 0); [cbn; lia|]. rewrite length_reverse, length_fmap.
  apply lsd_length; [lia|]. unfold magnitude. change (16 ^ Z.of_nat 8) with (2 ^ 32). apply u32_range.
Qed.

(** C26. [number] writes exactly the text described by [number_text]: sign, prefix,
    zeros up to the precision, digits whose value in the base is the magnitude
    of the number, and blanks or zeros so that the text fills the field width. *)
Theorem number_correct num base size precision type b :
  2 <= base <= 16 -> - 2 ^ 31 <= num < 2 ^ 31 ->
  number num base size precision type b =
    (b' ← emit (number_text num base size precision type) b; mret (Some b'.1, b'.2)) /\
  base_value base 0 (number_digits num base type) = Some (magnitude num type) /\
  Z.of_nat (length (number_text num base size precision type)) =
    Z.max size (Z.of_nat (length (number_sign num type)) + Z.of_nat (length (number_prefix base type)) +
      Z.max precision (Z.of_nat (length (number_digits num base type)))).
Proof.
  intros Hb Hn. split_and!; [by apply number_spec|by apply number_digits_value|apply number_text_length].
Qed.

(** C27. Round trip: what [sprintf] prints for a word with [%x] is a string of at
    most eight characters, inside of the buffer, that [atoh] reads back as the
    same word. *)
Theorem sprintf_atoh_roundtrip m buf fmt w :
  cstr m fmt [37; 120] -> is_u32 w -> mapped m buf 9 -> buf + 9 <= fmt \/ fmt + 3 <= buf ->
  exists n m', sprintf buf fmt [w] m = Ok (n, m') /\ 1 <= n <= 8 /\
    strlen m' buf = Ok n /\ atoh m' buf = Ok w /\ same_outside m m' buf (n + 1).
Proof.
  intros Hc Hw Hm Hap. destruct (hex_text_facts w Hw) as (_ & Hv & _ & Hlen).
  destruct (sprintf_hex m buf fmt w Hc Hw Hm Hap) as (m' & H & Hs & Hsame).
  eexists _, m'. split_and!; [exact H|lia|lia|by apply strlen_spec| |done].
  rewrite (atoh_spec _ _ _ Hs), Hv. f_equal. by apply u32_small.
Qed.

(** ** Instances *)

Lemma number_correct_witness :
  number (-42) 10 6 (-1) (SIGN + ZEROPAD) (30, demo_mem) =
    (b' ← emit [45; 48; 48; 48; 52; 50] (30, demo_mem); mret (Some b'.1, b'.2)).
Proof. apply (number_correct (-42) 10 6 (-1) (SIGN + ZEROPAD)); lia. Defined.

(** "%x" at 10, room at 30. *)
Definition demo_fmt : gmap Z Z := <[10 := 37]> (<[11 := 120]> (<[12 := 0]> demo_mem)).

Lemma sprintf_atoh_roundtrip_witness :
  exists n m', sprintf 30 10 [0xdeadbeef] demo_fmt = Ok (n, m') /\ atoh m' 30 = Ok 0xdeadbeef.
Proof.
  destruct (sprintf_atoh_roundtrip demo_fmt 30 10 0xdeadbeef) as (n & m' & H & _ & _ & Ha & _).
  - split; [|repeat constructor; lia]. intros [|[|[|i]]] b [= <-]; by vm_compute.
  - unfold is_u32. lia.
  - intros i Hi. destruct (demo_mapped 30 ltac:(lia) 9 ltac:(lia) i Hi) as [x Hx]. exists x.
    unfold demo_fmt. by rewrite !lookup_insert_ne by lia.
  - right. lia.
  - exists n, m'. exact (conj H Ha).
Defined.
