(* ===== verification/Format.v ===== *)
(** * Formats: the text that [vsprintf] writes

    A format is described by its pieces, each with its argument: the string that
    the programmer wrote, the words on the stack and the text to expect are
    computed from them, and [vsprintf] on the first two writes the third. *)
From S2P Require Import Prelude Libc Printf PrintfSpec.

(** ** Pieces *)

Inductive flag := Minus | Plus | Blank | Hash | Zero.

#[export] Instance flag_eq_dec : EqDecision flag.
Proof. solve_decision. Defined.

Definition flag_char (f : flag) : Z :=
  match f with Minus => 45 | Plus => 43 | Blank => 32 | Hash => 35 | Zero => 48 end.
Definition flag_bit (f : flag) : Z :=
  match f with Minus => LEFT | Plus => PLUS | Blank => SPACE | Hash => SPECIAL | Zero => ZEROPAD end.

Inductive qualifier := Short | Long | LongLong.
Definition qualifier_char (q : qualifier) : Z :=
  match q with Short => 104 | Long => 108 | LongLong => 76 end.

(** What stands between the percent sign and the conversion; digits are
    characters. *)
Record conv_field := mk_field {
  f_flags : list flag; f_width : list Z; f_precision : option (list Z); f_qualifier : option qualifier }.

Inductive number_conv := Dec | Int | Uns | Oct | Hex | HEX | Ptr.
Definition number_char (k : number_conv) : Z :=
  match k with Dec => 100 | Int => 105 | Uns => 117 | Oct => 111 | Hex => 120 | HEX => 88 | Ptr => 112 end.

(** A piece with its argument: a word, or a string at an address. *)
Inductive piece :=
  | Lit (b : Z)
  | Percent
  | Num (f : conv_field) (k : number_conv) (w : Z)
  | Str (f : conv_field) (a : Z) (s : list Z)
  | Chr (f : conv_field) (w : Z).

(** *** The format and the arguments *)

Definition precision_text (o : option (list Z)) : list Z := match o with None => [] | Some ds => 46 :: ds end.
Definition qualifier_text (o : option qualifier) : list Z := match o with None => [] | Some q => [qualifier_char q] end.

Definition field_body (f : conv_field) (conv : Z) : list Z :=
  f_width f ++ precision_text (f_precision f) ++ qualifier_text (f_qualifier f) ++ [conv].
Definition field_text (f : conv_field) (conv : Z) : list Z := 37 :: (flag_char <$> f_flags f) ++ field_body f conv.

Definition piece_format (p : piece) : list Z :=
  match p with
  | Lit b => [b]
  | Percent => [37; 37]
  | Num f k _ => field_text f (number_char k)
  | Str f _ _ => field_text f 115
  | Chr f _ => field_text f 99
  end.
Definition piece_args (p : piece) : list Z :=
  match p with Num _ _ w | Chr _ w => [w] | Str _ a _ => [a] | _ => [] end.

(** *** The text *)

Definition decimal (ds : list Z) : Z := foldl (fun v d => 10 * v + (d - 48)) 0 ds.
Definition field_flags (f : conv_field) : Z := foldl (fun v g => Z.lor v (flag_bit g)) 0 (f_flags f).
Definition field_width (f : conv_field) : Z := match f_width f with [] => -1 | _ => decimal (f_width f) end.
Definition field_precision (f : conv_field) : Z := match f_precision f with None => -1 | Some ds => decimal ds end.
Definition left_aligned (f : conv_field) : bool := bool_decide (Minus ∈ f_flags f).

(** The argument at its size: signed for the signed conversions, and 16 bits wide
    after an [h]. *)
Definition number_value (f : conv_field) (k : number_conv) (w : Z) : Z :=
  match k, f_qualifier f with
  | (Dec | Int), Some Short => s16 w
  | (Uns | Oct | Hex | HEX), Some Short => u16 w
  | _, _ => s32 w
  end.

Definition number_base (k : number_conv) : Z :=
  match k with Dec | Int | Uns => 10 | Oct => 8 | Hex | HEX | Ptr => 16 end.
Definition number_flags (k : number_conv) : Z :=
  match k with Dec | Int => SIGN | Hex => SMALL | _ => 0 end.

(** A pointer without a width has eight digits. *)
Definition pointer_field (f : conv_field) : bool := field_width f =? -1.

Definition in_field (f : conv_field) (s : list Z) : list Z :=
  let blanks := replicate (Z.to_nat (field_width f - Z.of_nat (length s))) 32 in
  if left_aligned f then s ++ blanks else blanks ++ s.

Definition string_shown (f : conv_field) (s : list Z) : list Z :=
  match f_precision f with None => s | Some ds => take (Z.to_nat (decimal ds)) s end.

Definition piece_text (p : piece) : list Z :=
  match p with
  | Lit b => [b]
  | Percent => [37]
  | Num f k w =>
      let short := match k with Ptr => pointer_field f | _ => false end in
      number_text (number_value f k w) (number_base k) (if short then 8 else field_width f) (field_precision f)
        (Z.lor (field_flags f) (if short then ZEROPAD else number_flags k))
  | Str f _ s => in_field f (string_shown f s)
  | Chr f w => in_field f [u8 w]
  end.

Definition format_of (ps : list piece) : list Z := ps ≫= piece_format.
Definition args_of (ps : list piece) : list Z := ps ≫= piece_args.
Definition text_of (ps : list piece) : list Z := ps ≫= piece_text.

(** *** Well-formed pieces *)

Definition decimal_char (d : Z) : Prop := 48 <= d <= 57.

(** Numbers of at most nine digits; a width does not start with a zero, which
    would be a flag. *)
Definition field_ok (f : conv_field) : Prop :=
  Forall decimal_char (f_width f) /\ (length (f_width f) <= 9)%nat /\ head (f_width f) <> Some 48 /\
  from_option (fun ds => Forall decimal_char ds /\ (length ds <= 9)%nat) True (f_precision f).

(** The string of an argument is in memory, out of the [n] bytes from [buf]. *)
Definition piece_ok (m : bytes) (buf n : Z) (p : piece) : Prop :=
  match p with
  | Lit b => 0 < b < 256 /\ b <> 37
  | Percent => True
  | Num f _ _ | Chr f _ => field_ok f
  | Str f a s => field_ok f /\ cstr m a s /\ Z.of_nat (length s) < 2 ^ 32 - 1 /\
      (a + Z.of_nat (length s) < buf \/ buf + n <= a)
  end.

(** ** Characters *)

Lemma decimal_app ds d : decimal (ds ++ [d]) = 10 * decimal ds + (d - 48).
Proof. unfold decimal. by rewrite foldl_app. Qed.

Lemma decimal_range ds : Forall decimal_char ds -> 0 <= decimal ds < 10 ^ Z.of_nat (length ds).
Proof.
  induction ds as [|d ds IH] using rev_ind; intros Hd; [done|].
  apply Forall_app in Hd as [Hds Hd]. inversion_clear Hd as [|? ? H1 _]. unfold decimal_char in H1. specialize (IH Hds).
  rewrite decimal_app, length_app. cbn [length]. rewrite Nat2Z.inj_add, Z.pow_add_r by lia. change (10 ^ Z.of_nat 1) with 10. lia.
Qed.

Lemma decimal_small ds : Forall decimal_char ds -> (length ds <= 9)%nat -> 0 <= decimal ds < 10 ^ 9.
Proof.
  intros Hd Hl. pose proof (decimal_range ds Hd). pose proof (Z.pow_le_mono_r 10 (Z.of_nat (length ds)) 9 ltac:(lia) ltac:(lia)). lia.
Qed.

Lemma field_width_range f : field_ok f -> -1 <= field_width f < 10 ^ 9.
Proof.
  intros (Hd & Hl & _). unfold field_width. destruct (f_width f) as [|d ds]; [lia|].
  pose proof (decimal_small _ Hd Hl). lia.
Qed.

Lemma fetch_head m p c t : has m p (c :: t) -> 0 <= c < 128 -> fetch m p = Ok c.
Proof. intros [H _]%has_cons. by apply fetch_Ok. Qed.

Lemma isdigit_true d : isdigit d = true <-> decimal_char d.
Proof. unfold isdigit, decimal_char. rewrite andb_true_iff, !Z.leb_le. done. Qed.

(** A number in the format is read to its end. *)
Lemma skip_atoi_loop m ds c t p v fuel :
  has m p (ds ++ c :: t) -> Forall decimal_char ds -> 0 <= c < 128 -> isdigit c = false ->
  0 <= v -> foldl (fun v d => 10 * v + (d - 48)) v ds < 2 ^ 31 -> (length ds < fuel)%nat ->
  loop_ctl fuel (fun '(i, s) =>
    c ← fetch m s;
    if isdigit c then mret (Next (s32 (i * 10 + c - 48), s + 1)) else mret (Leave (i, s))) (v, p) =
  Ok (foldl (fun v d => 10 * v + (d - 48)) v ds, p + Z.of_nat (length ds)).
Proof.
  revert p v fuel; induction ds as [|d ds IH]; intros p v [|fuel] Hh Hd Hc Hn Hv Hsmall Hf; try (cbn in Hf; lia);
    rewrite loop_ctl_S.
  - rewrite (fetch_head _ _ _ _ Hh Hc). cbn [mbind res_bind]. rewrite Hn. cbn. do 2 f_equal. lia.
  - inversion_clear Hd as [|? ? H1 H2]. unfold decimal_char in H1.
    rewrite (fetch_head _ _ _ _ Hh) by lia. cbn [mbind res_bind]. rewrite (proj2 (isdigit_true d)) by done.
    cbn [mret res_ret mbind res_bind].
    apply has_cons in Hh as [_ Hh]. cbn [foldl] in Hsmall.
    assert (forall w l, 0 <= w -> Forall decimal_char l -> w <= foldl (fun v d => 10 * v + (d - 48)) w l) as Hmono.
    { intros w l. revert w. induction l as [|e l IHl]; intros w Hw Hl; [done|]. cbn [foldl].
      inversion_clear Hl as [|? ? He Hl']. unfold decimal_char in He. specialize (IHl (10 * w + (e - 48)) ltac:(lia) Hl'). lia. }
    pose proof (Hmono (10 * v + (d - 48)) ds ltac:(lia) H2).
    replace (s32 (v * 10 + d - 48)) with (10 * v + (d - 48)) by (rewrite s32_small; lia).
    rewrite (IH (p + 1)) by (done || lia || (cbn in Hf; lia)). cbn [length foldl]. do 2 f_equal. lia.
Qed.

Lemma skip_atoi_spec m p ds c t :
  has m p (ds ++ c :: t) -> Forall decimal_char ds -> (length ds <= 9)%nat -> 0 <= c < 128 -> isdigit c = false ->
  skip_atoi m p = Ok (decimal ds, p + Z.of_nat (length ds)).
Proof.
  intros Hh Hd Hl Hc Hn. unfold skip_atoi. apply (skip_atoi_loop _ _ c t); try done.
  - pose proof (decimal_small ds Hd Hl). unfold decimal in *. lia.
  - pose proof (has_size _ _ _ Hh) as Hs. rewrite length_app in Hs. unfold walk_fuel. lia.
Qed.

Definition flag_letter (c : Z) : bool := existsb (Z.eqb c) [45; 43; 32; 35; 48].

Lemma flags_loop m fs c t p v fuel :
  has m (p + 1) ((flag_char <$> fs) ++ c :: t) -> 0 <= c < 128 -> flag_letter c = false -> (length fs < fuel)%nat ->
  loop_ctl fuel (fun '(flags, fmt) =>
    let fmt := fmt + 1 in
    c ← fetch m fmt;
    if c =? 45 then mret (Next (Z.lor flags LEFT, fmt))
    else if c =? 43 then mret (Next (Z.lor flags PLUS, fmt))
    else if c =? 32 then mret (Next (Z.lor flags SPACE, fmt))
    else if c =? 35 then mret (Next (Z.lor flags SPECIAL, fmt))
    else if c =? 48 then mret (Next (Z.lor flags ZEROPAD, fmt))
    else mret (Leave (flags, fmt))) (v, p) =
  Ok (foldl (fun v g => Z.lor v (flag_bit g)) v fs, p + 1 + Z.of_nat (length fs)).
Proof.
  revert p v fuel; induction fs as [|g fs IH]; intros p v [|fuel] Hh Hc Hn Hf; try (cbn in Hf; lia);
    rewrite loop_ctl_S; cbv zeta.
  - cbn [fmap list_fmap app] in Hh. rewrite (fetch_head _ _ _ _ Hh Hc). cbn [mbind res_bind]. unfold flag_letter in Hn. cbn [existsb] in Hn.
    repeat (apply orb_false_iff in Hn as [? Hn]).
    repeat match goal with H : (c =? _) = false |- _ => rewrite H; clear H end. cbn. do 2 f_equal. lia.
  - cbn [fmap list_fmap app] in Hh. rewrite (fetch_head _ _ _ _ Hh) by (destruct g; cbn; lia). cbn [mbind res_bind].
    apply has_cons in Hh as [_ Hh].
    destruct g; cbn [flag_char Z.eqb Pos.eqb mret res_ret mbind res_bind foldl flag_bit];
      rewrite (IH (p + 1)) by (done || (cbn in Hf; lia)); cbn [length]; do 2 f_equal; lia.
Qed.

Lemma parse_flags_spec m p fs c t :
  has m p (37 :: (flag_char <$> fs) ++ c :: t) -> 0 <= c < 128 -> flag_letter c = false ->
  parse_flags m p = Ok (foldl (fun v g => Z.lor v (flag_bit g)) 0 fs, p + 1 + Z.of_nat (length fs)).
Proof.
  intros Hh Hc Hn. unfold parse_flags. pose proof (has_size _ _ _ Hh) as Hs. apply has_cons in Hh as [_ Hh].
  apply (flags_loop _ _ c t); try done. cbn [length] in Hs. rewrite length_app, length_fmap in Hs. unfold walk_fuel. lia.
Qed.

(** ** A directive *)

(** A character that ends flags and numbers. *)
Definition stops (c : Z) : Prop := 0 <= c < 128 /\ isdigit c = false /\ flag_letter c = false /\ c <> 42.
Definition conversion (c : Z) : Prop := stops c /\ c <> 46 /\ hlL c = false.

Lemma after_precision o conv : conversion conv ->
  exists c t, qualifier_text o ++ [conv] = c :: t /\ stops c /\ c <> 46.
Proof. intros (Hc & H46 & _). destruct o as [[]|]; cbn; by eexists _, _. Qed.

Lemma after_width p o conv : conversion conv ->
  exists c t, precision_text p ++ qualifier_text o ++ [conv] = c :: t /\ stops c.
Proof.
  intros Hc. destruct p as [ds|]; [by eexists _, _|].
  destruct (after_precision o conv Hc) as (c & t & H & Hs & _). by eexists _, _.
Qed.

Lemma after_flags f conv : field_ok f -> conversion conv ->
  exists c t, field_body f conv = c :: t /\ 0 <= c < 128 /\ flag_letter c = false.
Proof.
  intros (Hd & _ & Hz & _) Hc. unfold field_body. destruct (f_width f) as [|d ds].
  - destruct (after_width (f_precision f) (f_qualifier f) conv Hc) as (c & t & -> & (? & _ & ? & _)). by eexists _, _.
  - inversion_clear Hd as [|? ? H1 _]. unfold decimal_char in H1. exists d. eexists. split_and!; [done|lia|lia|].
    unfold flag_letter. cbn [existsb head] in *. rewrite !orb_false_iff, !Z.eqb_neq.
    assert (d <> 48) by (by intros ->). lia.
Qed.

Lemma parse_width_spec m p fl ds c t args :
  has m p (ds ++ c :: t) -> Forall decimal_char ds -> (length ds <= 9)%nat -> stops c ->
  parse_width m fl p args = Ok (match ds with [] => -1 | _ => decimal ds end, fl, p + Z.of_nat (length ds), args).
Proof.
  intros Hh Hd Hl (Hc & Hdc & _ & H42). unfold parse_width. destruct ds as [|d ds].
  - rewrite (fetch_head _ _ _ _ Hh Hc). cbn [mbind res_bind]. rewrite Hdc, (proj2 (Z.eqb_neq c 42)) by done.
    cbn. by rewrite Z.add_0_r.
  - inversion Hd as [|? ? H1 _]; subst. rewrite (fetch_head _ _ _ _ Hh) by (unfold decimal_char in H1; lia). cbn [mbind res_bind].
    rewrite (proj2 (isdigit_true d)) by done. by rewrite (skip_atoi_spec _ _ _ _ _ Hh).
Qed.

Lemma parse_precision_spec m p o c t args :
  has m p (precision_text o ++ c :: t) -> from_option (fun ds => Forall decimal_char ds /\ (length ds <= 9)%nat) True o ->
  stops c -> c <> 46 ->
  parse_precision m p args =
    Ok (match o with None => -1 | Some ds => decimal ds end, p + Z.of_nat (length (precision_text o)), args).
Proof.
  intros Hh Ho (Hc & Hdc & _ & H42) H46. unfold parse_precision. destruct o as [ds|]; cbn [precision_text app] in *.
  - rewrite (fetch_head _ _ _ _ Hh) by lia. apply has_cons in Hh as [_ Hh]. cbn [mbind res_bind Z.eqb Pos.eqb].
    destruct Ho as [Hd Hl]. cbv zeta. destruct ds as [|d ds].
    + rewrite (fetch_head _ _ _ _ Hh Hc). cbn [mbind res_bind]. rewrite Hdc, (proj2 (Z.eqb_neq c 42)) by done. by cbn.
    + inversion Hd as [|? ? H1 _]; subst. rewrite (fetch_head _ _ _ _ Hh) by (unfold decimal_char in H1; lia).
      cbn [mbind res_bind]. rewrite (proj2 (isdigit_true d)), (skip_atoi_spec _ _ _ _ _ Hh) by done.
      cbn [mbind res_bind mret res_ret]. pose proof (decimal_small _ Hd Hl).
      rewrite (proj2 (Z.ltb_ge _ 0)) by lia. cbn [length]. do 3 f_equal. lia.
  - cbn [app] in Hh. rewrite (fetch_head _ _ _ _ Hh Hc). cbn [mbind res_bind]. rewrite (proj2 (Z.eqb_neq c 46)) by done.
    cbn. by rewrite Z.add_0_r.
Qed.

Definition qualifier_value (o : option qualifier) : Z := match o with None => -1 | Some q => qualifier_char q end.

(** The address of the conversion character. *)
Definition field_end (fmt : Z) (f : conv_field) (conv : Z) : Z := fmt + Z.of_nat (length (field_text f conv)) - 1.

Lemma field_conv m fmt f conv : has m fmt (field_text f conv) -> m !! field_end fmt f conv = Some conv.
Proof.
  intros Hh. unfold field_end.
  assert (exists l, field_text f conv = l ++ [conv]) as [l Hl]
    by (unfold field_text, field_body; eexists; rewrite !app_assoc, app_comm_cons; done).
  rewrite Hl in *. apply has_app in Hh as [_ [Hh _]%has_cons]. rewrite length_app. cbn [length].
  by replace (fmt + Z.of_nat (length l + 1) - 1) with (fmt + Z.of_nat (length l)) by lia.
Qed.

Lemma directive_parse buf fmt args str m f conv :
  field_ok f -> conversion conv -> has m fmt (field_text f conv) ->
  directive buf fmt args (str, m) =
    convert_arg buf (field_end fmt f conv) (field_flags f) (field_width f) (field_precision f)
      (qualifier_value (f_qualifier f)) args (str, m).
Proof.
  intros Hf Hc Hh. pose proof Hh as Hh0. unfold field_end, field_text in *. unfold directive. cbn [snd].
  destruct (after_flags f conv Hf Hc) as (c1 & t1 & E1 & Hc1 & Hn1). rewrite E1 in Hh.
  rewrite (parse_flags_spec _ _ _ _ _ Hh Hc1 Hn1). cbn [mbind res_bind]. rewrite <- E1 in Hh.
  apply has_cons in Hh as [_ Hh]. apply has_app in Hh as [_ Hh]. rewrite length_fmap in Hh.
  destruct Hf as (Hd & Hl & _ & Hp). unfold field_body in *.
  destruct (after_width (f_precision f) (f_qualifier f) conv Hc) as (c2 & t2 & E2 & Hc2). rewrite E2 in Hh.
  rewrite (parse_width_spec _ _ _ _ _ _ _ Hh Hd Hl Hc2). cbn [mbind res_bind]. rewrite <- E2 in Hh.
  apply has_app in Hh as [_ Hh].
  destruct (after_precision (f_qualifier f) conv Hc) as (c3 & t3 & E3 & Hc3 & H46). rewrite E3 in Hh.
  rewrite (parse_precision_spec _ _ _ _ _ _ Hh Hp Hc3 H46). cbn [mbind res_bind]. rewrite <- E3 in Hh.
  apply has_app in Hh as [_ Hh]. cbn [length] in *. rewrite !length_app, length_fmap. cbn [length].
  destruct Hc as ((Hr & _) & _ & Hnq). destruct (f_qualifier f) as [q|]; cbn [qualifier_text app length qualifier_value] in *.
  - rewrite (fetch_head _ _ _ _ Hh) by (destruct q; cbn; lia). cbn [mbind res_bind].
    replace (hlL (qualifier_char q)) with true by (by destruct q). unfold field_flags, field_width, field_precision. f_equal. lia.
  - rewrite (fetch_head _ _ _ _ Hh Hr). cbn [mbind res_bind]. rewrite Hnq.
    unfold field_flags, field_width, field_precision. f_equal. lia.
Qed.

(** ** Conversions *)

Lemma has_flag_lor t u f : has_flag (Z.lor t u) f = has_flag t f || has_flag u f.
Proof.
  unfold has_flag. rewrite Z.land_lor_distr_l.
  destruct (Z.eqb_spec (Z.land t f) 0) as [H1|H1], (Z.eqb_spec (Z.land u f) 0) as [H2|H2];
    cbn [negb orb]; rewrite ?negb_true_iff, ?negb_false_iff, ?Z.eqb_neq, ?Z.eqb_eq, ?Z.lor_eq_0_iff; tauto.
Qed.

Lemma field_flags_bit f b : has_flag (field_flags f) b = existsb (fun g => has_flag (flag_bit g) b) (f_flags f).
Proof.
  unfold field_flags. change (existsb _ (f_flags f)) with (has_flag 0 b || existsb (fun g => has_flag (flag_bit g) b) (f_flags f)).
  generalize 0 as v. induction (f_flags f) as [|g fs IH]; intros v; cbn [foldl existsb]; [by rewrite orb_false_r|].
  by rewrite IH, has_flag_lor, orb_assoc.
Qed.

Lemma field_flags_left f : has_flag (field_flags f) LEFT = left_aligned f.
Proof.
  rewrite field_flags_bit. unfold left_aligned.
  assert (forall fs, existsb (fun g => has_flag (flag_bit g) LEFT) fs = bool_decide (Minus ∈ fs)) as H; [|apply H].
  intros fs. induction fs as [|g fs IH]; [done|]. cbn [existsb]. rewrite IH.
  destruct g; (rewrite (bool_decide_eq_true_2 (Minus ∈ Minus :: fs)) by apply list_elem_of_here; done) ||
    (change (has_flag _ LEFT) with false; cbn [orb]; apply bool_decide_ext; rewrite elem_of_cons; naive_solver).
Qed.

Lemma field_flags_sign f : has_flag (field_flags f) SIGN = false.
Proof. rewrite field_flags_bit. induction (f_flags f) as [|[] fs IH]; [done|..]; by cbn [existsb]. Qed.

Lemma put_number_text num base size precision flags b :
  2 <= base <= 16 -> - 2 ^ 31 <= num < 2 ^ 31 ->
  put_number num base size precision flags b = emit (number_text num base size precision flags) b.
Proof.
  intros Hb Hn. unfold put_number. rewrite number_spec by done.
  by destruct (emit _ b) as [[]|].
Qed.

Lemma int_arg_value f k w : k <> Ptr ->
  int_arg (qualifier_value (f_qualifier f)) (Z.lor (field_flags f) (number_flags k)) w = number_value f k w.
Proof.
  intros Hk. unfold int_arg, number_value. rewrite has_flag_lor, field_flags_sign.
  by destruct (f_qualifier f) as [[]|], k.
Qed.

Lemma number_value_range f k w : - 2 ^ 31 <= number_value f k w < 2 ^ 31.
Proof.
  pose proof (s32_range w). assert (- 2 ^ 31 <= s16 w < 2 ^ 31) by (unfold s16; Z.div_mod_to_equations; lia).
  assert (- 2 ^ 31 <= u16 w < 2 ^ 31) by (unfold u16; Z.div_mod_to_equations; lia).
  unfold number_value. by destruct k, (f_qualifier f) as [[]|].
Qed.

Lemma number_conversion k : conversion (number_char k).
Proof. by destruct k; repeat split. Qed.

Lemma convert_number buf fmt args b f k w :
  fetch b.2 fmt = Ok (number_char k) ->
  convert_arg buf fmt (field_flags f) (field_width f) (field_precision f) (qualifier_value (f_qualifier f)) (w :: args) b =
    (b ← emit (piece_text (Num f k w)) b; mret (fmt, args, b)).
Proof.
  intros Hc. unfold convert_arg. rewrite Hc. pose proof (number_value_range f k w) as Hr.
  pose proof (fun H => int_arg_value f k w H) as Hi. unfold piece_text. cbv zeta.
  destruct k; cbn [mbind res_bind mret res_ret number_char Z.eqb Pos.eqb orb va_arg number_flags number_base] in *;
    rewrite ?Z.lor_0_r in *; try rewrite (Hi ltac:(done)); try (by rewrite put_number_text by done).
  unfold pointer_field. change (number_value f Ptr w) with (s32 w) in *.
  destruct (field_width f =? -1); cbn [mbind res_bind]; rewrite put_number_text by done; by rewrite ?Z.lor_0_r.
Qed.

(** *** Characters and strings *)

(** Blanks before or after, according to the flag; the second loop has nothing
    left to do when the first one ran. *)
Lemma pad_around {A} (put : buffer -> res buffer) (s : list Z) width left_ (b : buffer) (k : buffer -> res A) :
  (r ← (if negb left_ then pad_string (Z.of_nat (length s)) width b else mret (width, b));
   b' ← put r.2; r' ← pad_string (Z.of_nat (length s)) r.1 b'; k r'.2) =
  (let blanks := replicate (Z.to_nat (width - Z.of_nat (length s))) 32 in
   if left_ : bool then b ← put b; b ← emit blanks b; k b
   else b ← emit blanks b; b ← put b; k b).
Proof.
  cbv zeta. unfold pad_string. destruct left_; cbn [negb].
  - cbn [mbind res_bind mret res_ret fst snd]. destruct (put b) as [b'|]; [|done]. cbn [mbind res_bind].
    rewrite pad_emit. by destruct (emit _ b').
  - rewrite pad_emit. destruct (emit _ b) as [b'|]; [|done]. cbn [mbind res_bind mret res_ret fst snd].
    destruct (put b') as [b2|]; [|done]. cbn [mbind res_bind]. rewrite pad_emit.
    replace (Z.to_nat (Z.min (width - Z.of_nat (length s)) 0 - 1 + Z.of_nat (length s) - Z.of_nat (length s))) with 0%nat by lia. done.
Qed.

Lemma convert_char buf fmt args b f w :
  fetch b.2 fmt = Ok 99 ->
  convert_arg buf fmt (field_flags f) (field_width f) (field_precision f) (qualifier_value (f_qualifier f)) (w :: args) b =
    (b ← emit (piece_text (Chr f w)) b; mret (fmt, args, b)).
Proof.
  intros Hc. unfold convert_arg. rewrite Hc. cbn [mbind res_bind Z.eqb Pos.eqb].
  pose proof (pad_around (putc w) [u8 w] (field_width f) (left_aligned f) b (fun b => mret (fmt, args, b))) as Hp.
  cbn [length] in Hp. change (Z.of_nat 1) with 1 in Hp. change (pad_string 1) with pad_char in Hp.
  rewrite field_flags_left. cbn [piece_text]. unfold in_field. cbv zeta in *. cbn [length] in *. change (Z.of_nat 1) with 1 in *.
  assert (forall b, putc w b = putc (u8 w) b) as Hu8.
  { intros [str m]. unfold putc. by rewrite (u8_small (u8 w)) by apply u8_range. }
  transitivity (if left_aligned f then b ← putc w b; b ← emit (replicate (Z.to_nat (field_width f - 1)) 32) b; mret (fmt, args, b)
    else b ← emit (replicate (Z.to_nat (field_width f - 1)) 32) b; b ← putc w b; mret (fmt, args, b)).
  - rewrite <- Hp. destruct (if negb _ then _ else _) as [[w' b']|]; [|done]. cbn [mbind res_bind mret res_ret va_arg fst snd].
    destruct (putc w b') as [b''|]; [|done]. cbn [mbind res_bind]. by destruct (pad_char w' b'') as [[? ?]|].
  - destruct (left_aligned f).
    + cbn [app emit]. rewrite Hu8. destruct (putc (u8 w) b); [|done]. by cbn [mbind res_bind].
    + rewrite emit_app, bind_assoc. destruct (emit _ b); [|done]. cbn [mbind res_bind]. by rewrite Hu8, emit_one.
Qed.

Lemma copy_string a s i str m :
  has m (a + i) s -> mapped m str (Z.of_nat (length s)) ->
  (a + i + Z.of_nat (length s) <= str \/ str + Z.of_nat (length s) <= a + i) ->
  for_loop (length s) i (fun i b => x ← rd b.2 (a + i); putc x b) (str, m) = emit s (str, m).
Proof.
  revert i str m; induction s as [|c s IH]; intros i str m Hh Hm Hap; [done|]. cbn [length for_loop emit] in *.
  apply has_cons in Hh as [Hc Hh]. cbn [snd]. rewrite (rd_Ok _ _ _ Hc). cbn [mbind res_bind]. unfold putc.
  pose proof (Hm 0 ltac:(lia)) as Hm0. rewrite Z.add_0_r in Hm0. rewrite wr_Ok by done. cbn [mbind res_bind mret res_ret].
  apply IH.
  - eapply has_ext; [|by rewrite Z.add_assoc]. intros x Hx. apply lookup_insert_ne. lia.
  - intros j Hj. rewrite lookup_insert_is_Some. destruct (decide (str = str + 1 + j)); [lia|right].
    split; [done|]. replace (str + 1 + j) with (str + (1 + j)) by lia. apply Hm. lia.
  - lia.
Qed.

Lemma cstr_prefix m a s k : cstr m a s -> has m a (take k s).
Proof. intros [H _]. apply has_app in H as [H _]. rewrite <- (take_drop k s) in H. by apply has_app in H as [? _]. Qed.

Lemma in_field_length f s : Z.of_nat (length (in_field f s)) = Z.max (field_width f) (Z.of_nat (length s)).
Proof. unfold in_field. destruct (left_aligned f); rewrite length_app, length_replicate; lia. Qed.

Lemma string_shown_prefix f s : exists k, string_shown f s = take k s.
Proof. unfold string_shown. destruct (f_precision f) as [ds|]; [by eexists|]. exists (length s). by rewrite take_ge. Qed.

(** The length that [strnlen] computes with the precision as bound. *)
Lemma strnlen_shown f m a s : field_ok f -> cstr m a s -> Z.of_nat (length s) < 2 ^ 32 - 1 ->
  strnlen m a (u32 (field_precision f)) = Ok (Z.of_nat (length (string_shown f s))).
Proof.
  intros (_ & _ & _ & Hp) Hs Hl. pose proof (u32_range (field_precision f)). rewrite (strnlen_spec _ _ _ _ Hs) by lia.
  unfold field_precision, string_shown in *. destruct (f_precision f) as [ds|].
  - destruct Hp as [Hd Hlen]. pose proof (decimal_small ds Hd Hlen). rewrite u32_small, length_take by lia. f_equal. lia.
  - change (u32 (-1)) with (2 ^ 32 - 1) in *. f_equal. lia.
Qed.

Lemma convert_string buf fmt args str m f a s :
  fetch m fmt = Ok 115 -> field_ok f -> cstr m a s -> Z.of_nat (length s) < 2 ^ 32 - 1 ->
  let n := Z.of_nat (length (piece_text (Str f a s))) in
  mapped m str n -> (a + Z.of_nat (length s) < str \/ str + n <= a) ->
  convert_arg buf fmt (field_flags f) (field_width f) (field_precision f) (qualifier_value (f_qualifier f)) (a :: args) (str, m) =
    (b ← emit (piece_text (Str f a s)) (str, m); mret (fmt, args, b)).
Proof.
  intros Hc Hf Hs Hl n Hm Hap. unfold convert_arg. cbn [snd]. rewrite Hc.
  cbn [mbind res_bind Z.eqb Pos.eqb va_arg mret res_ret]. rewrite (strnlen_shown f m a s Hf Hs Hl). cbn [mbind res_bind].
  rewrite field_flags_left. unfold n in *. cbn [piece_text] in *.
  destruct (string_shown_prefix f s) as [k Hk]. pose proof (cstr_prefix m a s k Hs) as Hh. rewrite <- Hk in Hh.
  assert (length (string_shown f s) <= length s)%nat as Hle by (rewrite Hk, length_take; lia).
  pose proof (in_field_length f (string_shown f s)) as Hlen. rewrite Hlen in Hm, Hap.
  set (sh := string_shown f s) in *. set (put := fun b : buffer => for_loop (length sh) 0 (fun i b => x ← rd b.2 (a + i); putc x b) b).
  transitivity (if left_aligned f then b ← put (str, m); b ← emit (replicate (Z.to_nat (field_width f - Z.of_nat (length sh))) 32) b; mret (fmt, args, b)
    else b ← emit (replicate (Z.to_nat (field_width f - Z.of_nat (length sh))) 32) (str, m); b ← put b; mret (fmt, args, b)).
  - rewrite <- (pad_around put sh (field_width f) (left_aligned f) (str, m) (fun b => mret (fmt, args, b))).
    unfold put. rewrite Nat2Z.id.
    destruct (if negb _ then _ else _) as [[w' b']|]; [|done]. cbn [mbind res_bind fst snd].
    destruct (for_loop _ _ _ b') as [b''|]; [|done]. cbn [mbind res_bind]. by destruct (pad_string _ w' b'') as [[? ?]|].
  - unfold in_field, put. destruct (left_aligned f).
    + rewrite emit_app, bind_assoc, copy_string by (rewrite ?Z.add_0_r; try done; (intros i Hi; apply Hm; lia) || lia). done.
    + rewrite emit_app, bind_assoc. set (bl := replicate _ 32).
      assert (Z.of_nat (length bl) + Z.of_nat (length sh) = Z.max (field_width f) (Z.of_nat (length sh))) as Hbl
        by (unfold bl; rewrite length_replicate; lia).
      destruct (emit_spec bl str m) as (m' & -> & _ & Hsame & Hd); [intros i Hi; apply Hm; lia|].
      cbn [mbind res_bind]. rewrite copy_string; [done| | |]; rewrite ?Z.add_0_r.
      * eapply has_ext; [|exact Hh]. intros x Hx. apply Hsame. lia.
      * intros i Hi. apply Hd. rewrite <- Z.add_assoc. apply Hm. lia.
      * lia.
Qed.

(** ** The whole format *)

Definition format_round (buf : Z) (s : Z * list Z * buffer) : res (ctl buffer (Z * list Z * buffer)) :=
  let '(fmt, args, b) := s in
  c ← fetch b.2 fmt;
  if c =? 0 then mret (Leave b)
  else if negb (c =? 37) then b ← putc c b; mret (Next (fmt + 1, args, b))
  else '(fmt, args, b) ← directive buf fmt args b; mret (Next (fmt + 1, args, b)).

Lemma vsprintf_rounds buf fmt args m :
  vsprintf buf fmt args m =
    (b ← loop_ctl (walk_fuel m) (format_round buf) (fmt, args, (buf, m));
     m ← wr b.1 0 b.2; mret (b.1 - buf, m)).
Proof. unfold vsprintf, format_round. by destruct (loop_ctl _ _ _) as [[str m']|]. Qed.

Lemma piece_ok_ext m m' buf n p : same_outside m m' buf n -> piece_ok m buf n p -> piece_ok m' buf n p.
Proof.
  intros Hs. destruct p; cbn [piece_ok]; try done. intros (Hf & Hc & Hl & Hap). split_and!; try done.
  eapply cstr_ext; [|exact Hc]. intros x Hx. apply Hs. lia.
Qed.

Lemma piece_length p : (1 <= length (piece_format p))%nat.
Proof. destruct p; cbn; lia. Qed.

Lemma putc_s8 b buf : is_u8 b -> putc (s8 b) buf = putc b buf.
Proof.
  intros Hb. unfold putc. destruct buf as [str m]. do 2 f_equal. unfold s8, u8, is_u8 in *. Z.div_mod_to_equations. lia.
Qed.

(** One piece. *)
Lemma round_piece buf n p fmt args str m :
  has m fmt (piece_format p) -> piece_ok m buf n p ->
  buf <= str -> str + Z.of_nat (length (piece_text p)) <= buf + n -> mapped m str (Z.of_nat (length (piece_text p))) ->
  format_round buf (fmt, piece_args p ++ args, (str, m)) =
    (b ← emit (piece_text p) (str, m); mret (Next (fmt + Z.of_nat (length (piece_format p)), args, b))).
Proof.
  intros Hh Hok Hlow Hhigh Hm. unfold format_round. cbn [snd].
  assert (forall f conv, has m fmt (field_text f conv) -> fetch m fmt = Ok 37) as Hpct.
  { intros f conv H. unfold field_text in H. by apply (fetch_head _ _ _ _ H). }
  assert (forall f conv, field_end fmt f conv + 1 = fmt + Z.of_nat (length (field_text f conv))) as Hend
    by (intros; unfold field_end; lia).
  destruct p as [b| |f k w|f a s|f w]; cbn [piece_format piece_args piece_ok app] in *.
  - apply has_cons in Hh as [Hb _]. destruct Hok as [Hr H37]. unfold fetch. rewrite (rd_Ok _ _ _ Hb). cbn [mbind res_bind mret res_ret].
    assert (s8 b <> 0 /\ s8 b <> 37) as [H1 H2] by (unfold s8; Z.div_mod_to_equations; lia).
    rewrite (proj2 (Z.eqb_neq _ 0)), (proj2 (Z.eqb_neq _ 37)) by done. cbn [negb piece_text].
    by rewrite putc_s8, emit_one by (unfold is_u8; lia).
  - rewrite (fetch_head _ _ _ _ Hh) by lia. cbn [mbind res_bind Z.eqb Pos.eqb negb].
    unfold directive. cbn [snd]. rewrite (parse_flags_spec m fmt [] 37 [] Hh) by done. cbn [mbind res_bind length].
    rewrite Z.add_0_r. apply has_cons in Hh as [_ Hh]. unfold parse_width, parse_precision, convert_arg.
    repeat (rewrite (fetch_head _ _ _ _ Hh) by lia; cbn [mbind res_bind mret res_ret Z.eqb Pos.eqb isdigit Z.leb Z.compare Pos.compare Pos.compare_cont andb hlL orb snd]).
    cbn [piece_text]. rewrite emit_one. destruct (putc 37 (str, m)) as [b|]; [|done]. cbn. do 4 f_equal. lia.
  - pose proof (Hpct _ _ Hh) as Hp. rewrite Hp. cbn [mbind res_bind Z.eqb Pos.eqb negb].
    rewrite (directive_parse _ _ _ _ _ f (number_char k)) by (done || apply number_conversion). rewrite (convert_number _ _ _ _ f k)
      by (apply fetch_Ok; [by apply field_conv|destruct k; cbn; lia]).
    destruct (emit _ _); [|done]. cbn [mbind res_bind mret res_ret]. by rewrite Hend.
  - destruct Hok as (Hf & Hs & Hl & Hap). pose proof (Hpct _ _ Hh) as Hp. rewrite Hp. cbn [mbind res_bind Z.eqb Pos.eqb negb].
    rewrite (directive_parse _ _ _ _ _ f 115) by (done || (repeat split)). rewrite (convert_string _ _ _ _ _ f a s); try done.
    + destruct (emit _ _); [|done]. cbn [mbind res_bind mret res_ret]. by rewrite Hend.
    + apply fetch_Ok; [by apply field_conv|lia].
    + lia.
  - pose proof (Hpct _ _ Hh) as Hp. rewrite Hp. cbn [mbind res_bind Z.eqb Pos.eqb negb].
    rewrite (directive_parse _ _ _ _ _ f 99) by (done || (repeat split)). rewrite convert_char by (apply fetch_Ok; [by apply field_conv|lia]).
    destruct (emit _ _); [|done]. cbn [mbind res_bind mret res_ret]. by rewrite Hend.
Qed.

Lemma rounds_text buf n ps fuel fmt args str m :
  has m fmt (format_of ps ++ [0]) -> Forall (piece_ok m buf n) ps ->
  fmt + Z.of_nat (length (format_of ps)) < buf \/ buf + n <= fmt ->
  buf <= str -> str + Z.of_nat (length (text_of ps)) <= buf + n -> mapped m str (Z.of_nat (length (text_of ps))) ->
  (length ps < fuel)%nat ->
  loop_ctl fuel (format_round buf) (fmt, args_of ps ++ args, (str, m)) = emit (text_of ps) (str, m).
Proof.
  revert fuel fmt str m; induction ps as [|p ps IH]; intros [|fuel] fmt str m Hh Hok Hap Hlow Hhigh Hm Hf;
    try (cbn in Hf; lia); rewrite loop_ctl_S.
  - unfold format_round. cbn [snd format_of mbind list_bind app] in *. by rewrite (fetch_head _ _ _ _ Hh) by lia.
  - change (format_of (p :: ps)) with (piece_format p ++ format_of ps) in *.
    change (args_of (p :: ps)) with (piece_args p ++ args_of ps). change (text_of (p :: ps)) with (piece_text p ++ text_of ps) in *.
    rewrite <- app_assoc in *. rewrite !length_app in *. apply has_app in Hh as [Hp Hh].
    apply Forall_cons in Hok as [Hokp Hok]. rewrite emit_app.
    rewrite (round_piece buf n) by (done || lia || (intros i Hi; apply Hm; lia)).
    destruct (emit_spec (piece_text p) str m) as (m1 & -> & _ & Hs & Hd); [intros i Hi; apply Hm; lia|].
    cbn [mbind res_bind mret res_ret]. pose proof (piece_length p).
    assert (same_outside m m1 buf n) as Hs1 by (intros x Hx; apply Hs; lia).
    apply IH; try lia.
    + eapply has_ext; [|exact Hh]. intros x Hx. rewrite length_app in Hx. cbn in Hx. apply Hs1. lia.
    + eapply Forall_impl; [exact Hok|]. intros q. by apply piece_ok_ext.
    + intros i Hi. apply Hd. rewrite <- Z.add_assoc. apply Hm. lia.
    + cbn in Hf. lia.
Qed.

Lemma format_length ps : (length ps <= length (format_of ps))%nat.
Proof.
  induction ps as [|p ps IH]; [done|]. change (format_of (p :: ps)) with (piece_format p ++ format_of ps).
  rewrite length_app. pose proof (piece_length p). cbn [length]. lia.
Qed.

(** *** The text is made of bytes *)

Lemma number_text_bytes num base size precision type : 2 <= base <= 16 -> Forall is_u8 (number_text num base size precision type).
Proof.
  intros Hb. assert (forall n c, is_u8 c -> Forall is_u8 (replicate n c)) as Hrep
    by (intros n c Hc; apply Forall_forall; intros x [-> _]%elem_of_replicate; done).
  assert (Forall is_u8 (number_sign num type)) by (unfold number_sign; repeat case_match; repeat constructor; done).
  assert (Forall is_u8 (number_prefix base type)).
  { unfold number_prefix. destruct (small_cases type) as [-> | ->]; repeat case_match; repeat constructor; done. }
  assert (Forall is_u8 (number_digits num base type)).
  { eapply Forall_impl; [by apply number_digits_char|]. cbn. unfold is_u8. lia. }
  unfold number_text. cbv zeta. destruct (has_flag type LEFT), (has_flag type ZEROPAD);
    rewrite !Forall_app; split_and!; try done; by apply Hrep.
Qed.

Lemma number_base_range k : 2 <= number_base k <= 16.
Proof. destruct k; cbn; lia. Qed.

Lemma in_field_bytes f s : Forall is_u8 s -> Forall is_u8 (in_field f s).
Proof.
  intros Hs. assert (forall n, Forall is_u8 (replicate n 32)) as Hrep
    by (intros n; apply Forall_forall; intros x [-> _]%elem_of_replicate; done).
  unfold in_field. destruct (left_aligned f); apply Forall_app; by split.
Qed.

Lemma text_bytes m buf n ps : Forall (piece_ok m buf n) ps -> Forall is_u8 (text_of ps).
Proof.
  induction 1 as [|p ps Hp _ IH]; [constructor|]. change (text_of (p :: ps)) with (piece_text p ++ text_of ps).
  apply Forall_app. split; [|done]. destruct p as [b| |f k w|f a s|f w]; cbn [piece_text piece_ok] in *.
  - repeat constructor; unfold is_u8; lia.
  - by repeat constructor.
  - apply number_text_bytes, number_base_range.
  - apply in_field_bytes. destruct Hp as (_ & [_ Hs] & _). destruct (string_shown_prefix f s) as [k ->].
    apply Forall_take. eapply Forall_impl; [exact Hs|]. cbn. unfold is_u8. lia.
  - apply in_field_bytes. repeat constructor; apply u8_range.
Qed.

Lemma bytes_u8 s : Forall is_u8 s -> u8 <$> s = s.
Proof. induction 1 as [|b s Hb _ IH]; [done|]. cbn. by rewrite u8_small, IH. Qed.

(** ** The theorem *)

Lemma vsprintf_spec ps extra buf fmt m :
  let n := Z.of_nat (length (text_of ps)) + 1 in
  has m fmt (format_of ps ++ [0]) -> Forall (piece_ok m buf n) ps ->
  fmt + Z.of_nat (length (format_of ps)) < buf \/ buf + n <= fmt -> mapped m buf n ->
  exists m', vsprintf buf fmt (args_of ps ++ extra) m = Ok (Z.of_nat (length (text_of ps)), m') /\
    has m' buf (text_of ps ++ [0]) /\ same_outside m m' buf n /\ (forall x, is_Some (m !! x) -> is_Some (m' !! x)).
Proof.
  intros n Hh Hok Hap Hm. unfold n in *. rewrite vsprintf_rounds.
  rewrite (rounds_text buf (Z.of_nat (length (text_of ps)) + 1)); try done; try lia.
  2:{ intros i Hi. apply Hm. lia. }
  2:{ apply has_size in Hh. rewrite length_app in Hh. pose proof (format_length ps). unfold walk_fuel. cbn [length] in Hh. lia. }
  destruct (emit_spec (text_of ps) buf m) as (m1 & -> & Ht & Hs & Hd); [intros i Hi; apply Hm; lia|].
  rewrite bytes_u8 in Ht by by eapply text_bytes. cbn [mbind res_bind fst snd].
  rewrite wr_Ok by (apply Hd, Hm; lia). cbn [mbind res_bind mret res_ret].
  eexists. split; [do 2 f_equal; lia|]. split_and!.
  - apply has_app. split.
    + eapply has_ext; [|exact Ht]. intros x Hx. apply lookup_insert_ne. lia.
    + apply has_cons. split; [apply lookup_insert_eq|]. by intros i b Hi.
  - intros x Hx. rewrite lookup_insert_ne by lia. apply Hs. lia.
  - intros x Hx. rewrite lookup_insert_is_Some. destruct (decide (buf + Z.of_nat (length (text_of ps)) = x)); [by left|right; split; [done|by apply Hd]].
Qed.

(** C25. [vsprintf] implements formats: on any format made of plain characters,
    percent signs and conversions (integers in every base and size, pointers,
    strings and characters, with their flags, widths and precisions), it returns
    and writes exactly the text that the pieces stand for, terminated, in order,
    and returns its length; nothing else in memory changes. *)
Theorem vsprintf_formats ps extra buf fmt m :
  let n := Z.of_nat (length (text_of ps)) + 1 in
  has m fmt (format_of ps ++ [0]) -> Forall (piece_ok m buf n) ps ->
  fmt + Z.of_nat (length (format_of ps)) < buf \/ buf + n <= fmt -> mapped m buf n ->
  exists m', vsprintf buf fmt (args_of ps ++ extra) m = Ok (n - 1, m') /\
    has m' buf (text_of ps ++ [0]) /\ same_outside m m' buf n.
Proof.
  intros n Hh Hok Hap Hm. destruct (vsprintf_spec ps extra buf fmt m Hh Hok Hap Hm) as (m' & H & Ht & Hs & _).
  exists m'. split_and!; [|done|done]. rewrite H. do 2 f_equal. unfold n. lia.
Qed.

(** "[%-4s] %05d 0x%.4x%%": "ab", -42 and 0xbeef. *)
Definition demo_pieces : list piece :=
  [Lit 91; Str (mk_field [Minus] [52] None None) 300 [97; 98]; Lit 93; Lit 32;
   Num (mk_field [Zero] [53] None None) Dec (2 ^ 32 - 42); Lit 32; Lit 48; Lit 120;
   Num (mk_field [] [] (Some [52]) None) Hex 0xbeef; Percent].

Definition demo_format_mem : bytes :=
  list_to_map (zip (seqZ 100 (1 + Z.of_nat (length (format_of demo_pieces)))) (format_of demo_pieces ++ [0]) ++
    [(300, 97); (301, 98); (302, 0)] ++ ((fun a => (a, 0)) <$> seqZ 400 24)).

Lemma demo_format_has : has demo_format_mem 100 (format_of demo_pieces ++ [0]).
Proof.
  intros i b Hi. pose proof (lookup_lt_Some _ _ _ Hi) as Hl. change (length (format_of demo_pieces ++ [0])) with 21%nat in Hl.
  do 21 (destruct i as [|i]; [injection Hi as <-; by vm_compute|]). lia.
Qed.

Lemma demo_format_room : mapped demo_format_mem 400 21.
Proof.
  assert (Forall (fun i => is_Some (demo_format_mem !! (400 + i))) (seqZ 0 21)) as H
    by (apply (bool_decide_unpack _); by vm_compute).
  intros i Hi. rewrite Forall_forall in H. apply H, elem_of_seqZ. lia.
Qed.

(** "[ab  ] -0042 0xbeef%" *)
Lemma vsprintf_formats_witness : exists m',
  vsprintf 400 100 [300; 2 ^ 32 - 42; 0xbeef] demo_format_mem = Ok (20, m') /\
  has m' 400 ([91; 97; 98; 32; 32; 93; 32; 45; 48; 48; 52; 50; 32; 48; 120; 98; 101; 101; 102; 37] ++ [0]).
Proof.
  destruct (vsprintf_formats demo_pieces [] 400 100 demo_format_mem demo_format_has) as (m' & H & Hh & _).
  - repeat (apply Forall_cons; split); [..|by apply Forall_nil]; cbn; unfold field_ok, decimal_char; cbn;
      try split_and!; try done; try lia; repeat constructor; try lia; try done.
    intros [|[|[|i]]] b [= <-]; by vm_compute.
  - left. by vm_compute.
  - exact demo_format_room.
  - exists m'. exact (conj H Hh).
Defined.
