(* ===== verification/Io.v ===== *)
(** * Stateful computations and the hardware

    The drivers run in a monad of their own, state passing with faults, and are
    reasoned about with a total-correctness predicate transformer.  The hardware
    (ports, interrupt controllers, timer, keyboard controller) is not code of
    the repository: it is a parameter, the class [Hardware], and what the drivers
    rely on is stated by [HardwareLaws], where the two 8259A interrupt controllers
    are described by the commands of their data sheet. *)
From S2P Require Import Prelude.

(** ** State and faults *)

Definition ST (W A : Type) : Type := W -> res (A * W).

#[export] Instance ST_ret W : MRet (ST W) := fun A a w => Ok (a, w).
#[export] Instance ST_bind W : MBind (ST W) := fun A B f m w =>
  match m w with Ok (a, w') => f a w' | Err e => Err e end.

Definition gets {W A} (f : W -> A) : ST W A := fun w => Ok (f w, w).
Definition modify {W} (f : W -> W) : ST W unit := fun w => Ok (tt, f w).
Definition panic {W A} (why : string) : ST W A := fun _ => Err (Panic why).
Definition lift {W A} (r : res A) : ST W A := fun w =>
  match r with Ok a => Ok (a, w) | Err e => Err e end.

(** [while (1) body] and [do body while]. *)
Fixpoint st_loop {W R S} (fuel : nat) (body : S -> ST W (ctl R S)) (s : S) : ST W R :=
  match fuel with
  | O => fun _ => Err NoFuel
  | S fuel => c ← body s; match c with Next s' => st_loop fuel body s' | Leave r => mret r end
  end.

(** [for (i = i0; n more times; ++i) body]. *)
Fixpoint st_for {W} (n : nat) (i : Z) (body : Z -> ST W unit) : ST W unit :=
  match n with
  | O => mret tt
  | S n => body i;; st_for n (i + 1) body
  end.

(** [wp E m Q w]: from [w], [m] returns a result and a state that satisfy [Q],
    or stops the kernel with one of the faults of [E].  It never runs out of
    fuel unless [E] says so. *)
Definition wp {W A} (E : fault -> Prop) (m : ST W A) (Q : A -> W -> Prop) (w : W) : Prop :=
  match m w with Ok (a, w') => Q a w' | Err f => E f end.

(** No fault at all. *)
Definition never : fault -> Prop := fun _ => False.

Section Wp.
Context {W : Type} (E : fault -> Prop).

Lemma wp_ret {A} (a : A) (Q : A -> W -> Prop) w : Q a w -> wp E (mret a) Q w.
Proof. done. Qed.

Lemma wp_bind {A B} (m : ST W A) (f : A -> ST W B) Q w :
  wp E m (fun a => wp E (f a) Q) w -> wp E (m ≫= f) Q w.
Proof. unfold wp, mbind, ST_bind. by destruct (m w) as [[a w']|]. Qed.

Lemma wp_gets {A} (f : W -> A) (Q : A -> W -> Prop) w : Q (f w) w -> wp E (gets f) Q w.
Proof. done. Qed.

Lemma wp_modify f (Q : unit -> W -> Prop) w : Q tt (f w) -> wp E (modify f) Q w.
Proof. done. Qed.

Lemma wp_panic {A} s (Q : A -> W -> Prop) w : E (Panic s) -> wp E (panic s) Q w.
Proof. done. Qed.

Lemma wp_mono {A} (m : ST W A) (Q Q' : A -> W -> Prop) w :
  wp E m Q w -> (forall a w', Q a w' -> Q' a w') -> wp E m Q' w.
Proof. unfold wp. destruct (m w) as [[a w']|]; auto. Qed.

Lemma wp_and {A} (m : ST W A) (Q Q' : A -> W -> Prop) w :
  wp E m Q w -> wp E m Q' w -> wp E m (fun a w' => Q a w' /\ Q' a w') w.
Proof. unfold wp. destruct (m w) as [[a w']|]; auto. Qed.

Lemma wp_lift {A} (r : res A) (Q : A -> W -> Prop) a w : r = Ok a -> Q a w -> wp E (lift r) Q w.
Proof. by intros ->. Qed.

(** A loop that only its body ends. *)
Lemma wp_loop {R S} (I : S -> W -> Prop) (mu : S -> W -> nat) (body : S -> ST W (ctl R S)) Q fuel s w :
  I s w -> (mu s w < fuel)%nat ->
  (forall s w, I s w -> wp E (body s) (fun c w' =>
     match c with Leave r => Q r w' | Next s' => I s' w' /\ (mu s' w' < mu s w)%nat end) w) ->
  wp E (st_loop fuel body s) Q w.
Proof.
  intros Hi Hf Hb. revert s w Hi Hf. induction fuel as [|fuel IH]; intros s w Hi Hf; [lia|].
  cbn [st_loop]. apply wp_bind. eapply wp_mono; [by apply Hb|].
  intros [s'|r] w' H; [|by apply wp_ret]. apply IH; [apply H|lia].
Qed.

End Wp.

Lemma wp_weaken {W A} (E E' : fault -> Prop) (m : ST W A) Q w :
  (forall f, E f -> E' f) -> wp E m Q w -> wp E' m Q w.
Proof. unfold wp. destruct (m w) as [[a w']|]; auto. Qed.

Lemma wp_run {W A} (m : ST W A) (Q : A -> W -> Prop) w :
  wp never m Q w -> exists a w', m w = Ok (a, w') /\ Q a w'.
Proof. unfold wp. destruct (m w) as [[a w']|]; [by exists a, w'|done]. Qed.

Lemma wp_both {W A} (E E' : fault -> Prop) (m : ST W A) Q Q' w :
  wp E m Q w -> wp E' m Q' w -> wp E m (fun a w' => Q a w' /\ Q' a w') w.
Proof. unfold wp. destruct (m w) as [[a w']|]; [by split|done]. Qed.

(** Nothing is known of a step but that it returns. *)
Lemma wp_any {W A} (m : ST W A) (Q : A -> W -> Prop) w : (forall a w', Q a w') -> wp (fun _ => True) m Q w.
Proof. unfold wp. by destruct (m w) as [[a w']|]. Qed.

(** Groups the first two steps of a sequence. *)
Lemma wp_group {W A B C} E (m : ST W A) (f : A -> ST W B) (g : B -> ST W C) Q w :
  wp E (m ≫= f) (fun b => wp E (g b) Q) w -> wp E (m ≫= fun a => f a ≫= g) Q w.
Proof. unfold wp, mbind, ST_bind. destruct (m w) as [[a w']|]; [|done]. by destruct (f a w') as [[]|]. Qed.

(** The next steps up to a branch or a call. *)
Ltac wp_line :=
  repeat (cbv beta; lazymatch goal with
  | |- wp _ (let _ := _ in _) _ _ => cbv zeta
  | |- wp _ (_ ≫= _) _ _ => apply wp_bind
  | |- wp _ (mret _) _ _ => apply wp_ret
  | |- wp _ (gets _) _ _ => apply wp_gets
  | |- wp _ (modify _) _ _ => apply wp_modify
  end).

Ltac wp_step :=
  lazymatch goal with
  | |- wp _ (_ ≫= _) _ _ => apply wp_bind
  | |- wp _ (mret _) _ _ => apply wp_ret
  | |- wp _ (gets _) _ _ => apply wp_gets
  | |- wp _ (modify _) _ _ => apply wp_modify
  | |- wp _ (match ?x with _ => _ end) _ _ => destruct x eqn:?
  end.

(** *** What a computation does to the state *)

(** Whenever [m] returns, the states before and after it are related by [R]: a
    frame, for the part of the state that is none of its business. *)
Definition pres {W A} (R : W -> W -> Prop) (m : ST W A) : Prop :=
  forall w a w', m w = Ok (a, w') -> R w w'.

Section Pres.
Context {W : Type} (R : W -> W -> Prop) `{!PreOrder R}.

Lemma pres_ret {A} (a : A) : pres R (mret a).
Proof. by intros w b w' [= _ <-]. Qed.

Lemma pres_bind {A B} (m : ST W A) (f : A -> ST W B) : pres R m -> (forall a, pres R (f a)) -> pres R (m ≫= f).
Proof.
  intros Hm Hf w b w'. unfold mbind, ST_bind. destruct (m w) as [[a w1]|] eqn:E; [|done]. intros E2.
  etrans; [by eapply Hm|by eapply Hf].
Qed.

Lemma pres_gets {A} (f : W -> A) : pres R (gets f).
Proof. by intros w a w' [= _ <-]. Qed.

Lemma pres_lift {A} (r : res A) : pres R (lift r).
Proof. intros w a w'. unfold lift. destruct r; [by intros [= _ <-]|done]. Qed.

Lemma pres_err {A} f : pres R (fun _ : W => Err f : res (A * W)).
Proof. by intros w a w'. Qed.

Lemma pres_panic {A} why : pres R (panic (A := A) why).
Proof. by intros w a w'. Qed.

Lemma pres_modify f : (forall w, R w (f w)) -> pres R (modify f).
Proof. by intros Hf w a w' [= _ <-]. Qed.

Lemma pres_loop {S B} n (body : S -> ST W (ctl B S)) s : (forall s, pres R (body s)) -> pres R (st_loop n body s).
Proof.
  intros Hb. revert s. induction n as [|n IH]; intros s; [apply pres_err|]. cbn [st_loop].
  apply pres_bind; [done|]. intros [s'|r]; [done|apply pres_ret].
Qed.

Lemma pres_for n i body : (forall i, pres R (body i)) -> pres R (st_for n i body).
Proof.
  intros Hb. revert i. induction n as [|n IH]; intros i; [apply pres_ret|]. cbn [st_for].
  apply pres_bind; [done|]. intros _. apply IH.
Qed.

Lemma wp_pres {A} E (m : ST W A) (Q : A -> W -> Prop) w : pres R m -> wp E m Q w -> wp E m (fun a w' => Q a w' /\ R w w') w.
Proof. intros Hp. unfold wp. destruct (m w) as [[a w']|] eqn:E1; [|done]. intros HQ. split; [done|by eapply Hp]. Qed.

End Pres.

Create HintDb pres discriminated.
#[export] Hint Constants Opaque : pres.
#[export] Hint Resolve pres_panic pres_err : pres.
#[export] Hint Extern 1 (pres _ (mret _)) => refine (pres_ret _ _) : pres.
#[export] Hint Extern 1 (pres _ (gets _)) => refine (pres_gets _ _) : pres.
#[export] Hint Extern 1 (pres _ (lift _)) => refine (pres_lift _ _) : pres.

(** Decomposes a computation into steps that respect the frame. *)
Ltac pres_steps :=
  repeat first
    [ solve [auto with pres]
    | refine (pres_bind _ _ _ _ _); [|intros ?]
    | refine (pres_loop _ _ _ _ _); intros ?
    | refine (pres_for _ _ _ _ _); intros ?
    | progress cbv beta zeta
    | case_match ].

(** ** The 8259A interrupt controller *)

(** The interrupt mask register, the in-service register, the number of the next
    initialisation word (0 once initialised), the base vector, the cascade byte
    and the mode of ICW4. *)
Record pic := mk_pic { imr : Z; isr : Z; icw : Z; base : Z; cascade : Z; mode : Z }.

(** A write with A0=0: ICW1 (bit 4) starts the initialisation sequence and clears
    the mask; a non-specific EOI clears the in-service bit of highest priority,
    which is the lowest bit set. *)
Definition pic_cmd (v : Z) (p : pic) : pic :=
  if Z.testbit v 4 then mk_pic 0 0 2 (base p) (cascade p) (mode p)
  else if v =? 0x20 then mk_pic (imr p) (Z.land (isr p) (isr p - 1)) (icw p) (base p) (cascade p) (mode p)
  else p.

(** A write with A0=1: ICW2, ICW3 and ICW4, then the mask. *)
Definition pic_data (v : Z) (p : pic) : pic :=
  if icw p =? 2 then mk_pic (imr p) (isr p) 3 (Z.land v 0xf8) (cascade p) (mode p)
  else if icw p =? 3 then mk_pic (imr p) (isr p) 4 (base p) v (mode p)
  else if icw p =? 4 then mk_pic (imr p) (isr p) 0 (base p) (cascade p) v
  else mk_pic v (isr p) (icw p) (base p) (cascade p) (mode p).

(** The CPU takes the interrupt of a line. *)
Definition pic_ack (line : Z) (p : pic) : pic :=
  mk_pic (imr p) (Z.setbit (isr p) line) (icw p) (base p) (cascade p) (mode p).

(** ** The hardware *)

(** [int_req] lets time pass up to the next instruction boundary at which the
    CPU accepts interrupts, and gives the vector that it takes there, if any.
    [patience] bounds the number of such boundaries between two interrupts of
    the timer. *)
Class Hardware (HW : Type) := {
  in_port : Z -> HW -> Z * HW;
  out_port : Z -> Z -> HW -> HW;
  int_req : HW -> option Z * HW;
  patience : nat;
}.

Class HardwareLaws (HW : Type) `{Hardware HW} := {
  master : HW -> pic;
  slave : HW -> pic;
  (** instruction boundaries left before the next interrupt of the timer, were
      it to be accepted *)
  pit_wait : HW -> nat;
  pit_wait_bound h : (pit_wait h < patience)%nat;
  in_keeps p h : master (in_port p h).2 = master h /\
    slave (in_port p h).2 = slave h /\ (pit_wait (in_port p h).2 <= pit_wait h)%nat;
  in_master h : icw (master h) = 0 -> (in_port 0x21 h).1 = imr (master h);
  in_slave h : icw (slave h) = 0 -> (in_port 0xa1 h).1 = imr (slave h);
  out_master p v h : master (out_port p v h) =
    if p =? 0x20 then pic_cmd v (master h) else if p =? 0x21 then pic_data v (master h) else master h;
  out_slave p v h : slave (out_port p v h) =
    if p =? 0xa0 then pic_cmd v (slave h) else if p =? 0xa1 then pic_data v (slave h) else slave h;
  (** ports 0x40 to 0x43 are those of the timer *)
  out_wait p v h : ~ 0x40 <= p <= 0x43 -> (pit_wait (out_port p v h) <= pit_wait h)%nat;
  (** lines are accepted when they are not masked and nothing is in service; the
      timer's line has the highest priority *)
  req_none h h' : int_req h = (None, h') ->
    master h' = master h /\ slave h' = slave h /\ (pit_wait h' <= pit_wait h)%nat /\
    (icw (master h) = 0 -> isr (master h) = 0 -> Z.testbit (imr (master h)) 0 = false ->
     (pit_wait h' < pit_wait h)%nat);
  req_some h v h' : int_req h = (Some v, h') ->
    (exists line, 0 <= line < 8 /\ line <> 2 /\ v = base (master h) + line /\
       Z.testbit (imr (master h)) line = false /\
       master h' = pic_ack line (master h) /\ slave h' = slave h /\
       (line <> 0 -> Z.testbit (imr (master h)) 0 = false -> (pit_wait h' < pit_wait h)%nat)) \/
    (exists line, 0 <= line < 8 /\ v = base (slave h) + line /\
       Z.testbit (imr (master h)) 2 = false /\ Z.testbit (imr (slave h)) line = false /\
       master h' = pic_ack 2 (master h) /\ slave h' = pic_ack line (slave h) /\
       (Z.testbit (imr (master h)) 0 = false -> (pit_wait h' < pit_wait h)%nat));
  (** an observation, for the specifications only: the bytes that have been read
      from the data port of the keyboard's controller so far, oldest first *)
  data_read : HW -> list Z;
  data_read_in p h : data_read (in_port p h).2 = data_read h ++ (if p =? 0x60 then [(in_port p h).1] else []);
  data_read_out p v h : data_read (out_port p v h) = data_read h;
  data_read_req h : data_read (int_req h).2 = data_read h;
}.

(** Ports of neither the timer nor the interrupt controllers. *)
Definition quiet_port (port : Z) : bool :=
  negb ((0x40 <=? port) && (port <=? 0x43)) && negb (port =? 0x20) && negb (port =? 0x21) &&
  negb (port =? 0xa0) && negb (port =? 0xa1).

Section Quiet.
Context {HW : Type} `{HardwareLaws HW}.

(** The interrupt controllers are the same, and time has not gone back. *)
Definition same_pics (h h' : HW) : Prop :=
  master h' = master h /\ slave h' = slave h /\ (pit_wait h' <= pit_wait h)%nat.

#[export] Instance same_pics_preorder : PreOrder same_pics.
Proof.
  split; [by intros h|]. intros h1 h2 h3 (H1 & H2 & H3) (H4 & H5 & H6). split_and!; [congruence|congruence|lia].
Qed.

Lemma quiet_out port v h : quiet_port port = true -> same_pics h (out_port port v h).
Proof.
  unfold quiet_port. rewrite !andb_true_iff, !negb_true_iff, andb_false_iff, !Z.leb_gt. intros [[[[Ht H1] H2] H3] H4].
  split_and!; [by rewrite out_master, H1, H2|by rewrite out_slave, H3, H4|apply out_wait; lia].
Qed.

End Quiet.
