(* ===== verification/Keys.v ===== *)
(** * Key codes and scan codes (keyboard.c)

    The key codes, the tables of scan code set 2 that map scan codes to them and
    the names under which they are printed. *)
From S2P Require Import Prelude.

(** ** Key codes *)

Inductive keycode :=
  | KEY_UNK | KEY_A | KEY_B | KEY_C | KEY_D | KEY_E | KEY_F | KEY_G | KEY_H | KEY_I | KEY_J | KEY_K | KEY_L
  | KEY_M | KEY_N | KEY_O | KEY_P | KEY_Q | KEY_R | KEY_S | KEY_T | KEY_U | KEY_V | KEY_W | KEY_X | KEY_Y |
  KEY_Z | KEY_0 | KEY_1 | KEY_2 | KEY_3 | KEY_4 | KEY_5 | KEY_6 | KEY_7 | KEY_8 | KEY_9 | KEY_BKQUOTE |
  KEY_HYPEN | KEY_EQUAL | KEY_BKSLASH | KEY_LBRACKET | KEY_RBRACKET | KEY_SEMICOLON | KEY_SQUOTE | KEY_COMMA
  | KEY_DOT | KEY_SLASH | KEY_BKSP | KEY_SPACE | KEY_TAB | KEY_CAPS | KEY_LSHIFT | KEY_LCTRL | KEY_LALT |
  KEY_ENTER | KEY_ESC | KEY_SCROLL | KEY_NUM | KEY_LT | KEY_RSHIFT | KEY_F1 | KEY_F2 | KEY_F3 | KEY_F4 |
  KEY_F5 | KEY_F6 | KEY_F7 | KEY_F8 | KEY_F9 | KEY_F10 | KEY_F11 | KEY_F12 | KEY_KP_STAR | KEY_KP_HYPHEN |
  KEY_KP_MINUS | KEY_KP_PLUS | KEY_KP_DOT | KEY_KP_0 | KEY_KP_1 | KEY_KP_2 | KEY_KP_3 | KEY_KP_4 | KEY_KP_5
  | KEY_KP_6 | KEY_KP_7 | KEY_KP_8 | KEY_KP_9 | KEY_LGUI | KEY_RCTRL | KEY_RGUI | KEY_RALT | KEY_APPS |
  KEY_INSERT | KEY_HOME | KEY_PGUP | KEY_DEL | KEY_END | KEY_PGDOWN | KEY_UP | KEY_LEFT | KEY_DOWN |
  KEY_RIGHT | KEY_KP_DIV | KEY_KP_EN | KEY_PRNT_SCRN | KEY_PAUSE.

(** Enumerators are consecutive integers. *)
Definition keycode_index (kc : keycode) : Z :=
  match kc with
  | KEY_UNK => 0 | KEY_A => 1 | KEY_B => 2 | KEY_C => 3 | KEY_D => 4 | KEY_E => 5 | KEY_F => 6 | KEY_G => 7
  | KEY_H => 8 | KEY_I => 9 | KEY_J => 10 | KEY_K => 11 | KEY_L => 12 | KEY_M => 13 | KEY_N => 14 | KEY_O =>
  15 | KEY_P => 16 | KEY_Q => 17 | KEY_R => 18 | KEY_S => 19 | KEY_T => 20 | KEY_U => 21 | KEY_V => 22 |
  KEY_W => 23 | KEY_X => 24 | KEY_Y => 25 | KEY_Z => 26 | KEY_0 => 27 | KEY_1 => 28 | KEY_2 => 29 | KEY_3 =>
  30 | KEY_4 => 31 | KEY_5 => 32 | KEY_6 => 33 | KEY_7 => 34 | KEY_8 => 35 | KEY_9 => 36 | KEY_BKQUOTE => 37
  | KEY_HYPEN => 38 | KEY_EQUAL => 39 | KEY_BKSLASH => 40 | KEY_LBRACKET => 41 | KEY_RBRACKET => 42 |
  KEY_SEMICOLON => 43 | KEY_SQUOTE => 44 | KEY_COMMA => 45 | KEY_DOT => 46 | KEY_SLASH => 47 | KEY_BKSP =>
  48 | KEY_SPACE => 49 | KEY_TAB => 50 | KEY_CAPS => 51 | KEY_LSHIFT => 52 | KEY_LCTRL => 53 | KEY_LALT =>
  54 | KEY_ENTER => 55 | KEY_ESC => 56 | KEY_SCROLL => 57 | KEY_NUM => 58 | KEY_LT => 59 | KEY_RSHIFT => 60
  | KEY_F1 => 61 | KEY_F2 => 62 | KEY_F3 => 63 | KEY_F4 => 64 | KEY_F5 => 65 | KEY_F6 => 66 | KEY_F7 => 67 |
  KEY_F8 => 68 | KEY_F9 => 69 | KEY_F10 => 70 | KEY_F11 => 71 | KEY_F12 => 72 | KEY_KP_STAR => 73 |
  KEY_KP_HYPHEN => 74 | KEY_KP_MINUS => 75 | KEY_KP_PLUS => 76 | KEY_KP_DOT => 77 | KEY_KP_0 => 78 |
  KEY_KP_1 => 79 | KEY_KP_2 => 80 | KEY_KP_3 => 81 | KEY_KP_4 => 82 | KEY_KP_5 => 83 | KEY_KP_6 => 84 |
  KEY_KP_7 => 85 | KEY_KP_8 => 86 | KEY_KP_9 => 87 | KEY_LGUI => 88 | KEY_RCTRL => 89 | KEY_RGUI => 90 |
  KEY_RALT => 91 | KEY_APPS => 92 | KEY_INSERT => 93 | KEY_HOME => 94 | KEY_PGUP => 95 | KEY_DEL => 96 |
  KEY_END => 97 | KEY_PGDOWN => 98 | KEY_UP => 99 | KEY_LEFT => 100 | KEY_DOWN => 101 | KEY_RIGHT => 102 |
  KEY_KP_DIV => 103 | KEY_KP_EN => 104 | KEY_PRNT_SCRN => 105 | KEY_PAUSE => 106
  end.

Definition keycodes : list keycode :=
  [KEY_UNK; KEY_A; KEY_B; KEY_C; KEY_D; KEY_E; KEY_F; KEY_G; KEY_H; KEY_I; KEY_J; KEY_K; KEY_L; KEY_M;
   KEY_N; KEY_O; KEY_P; KEY_Q; KEY_R; KEY_S; KEY_T; KEY_U; KEY_V; KEY_W; KEY_X; KEY_Y; KEY_Z; KEY_0; KEY_1;
   KEY_2; KEY_3; KEY_4; KEY_5; KEY_6; KEY_7; KEY_8; KEY_9; KEY_BKQUOTE; KEY_HYPEN; KEY_EQUAL; KEY_BKSLASH;
   KEY_LBRACKET; KEY_RBRACKET; KEY_SEMICOLON; KEY_SQUOTE; KEY_COMMA; KEY_DOT; KEY_SLASH; KEY_BKSP;
   KEY_SPACE; KEY_TAB; KEY_CAPS; KEY_LSHIFT; KEY_LCTRL; KEY_LALT; KEY_ENTER; KEY_ESC; KEY_SCROLL; KEY_NUM;
   KEY_LT; KEY_RSHIFT; KEY_F1; KEY_F2; KEY_F3; KEY_F4; KEY_F5; KEY_F6; KEY_F7; KEY_F8; KEY_F9; KEY_F10;
   KEY_F11; KEY_F12; KEY_KP_STAR; KEY_KP_HYPHEN; KEY_KP_MINUS; KEY_KP_PLUS; KEY_KP_DOT; KEY_KP_0; KEY_KP_1;
   KEY_KP_2; KEY_KP_3; KEY_KP_4; KEY_KP_5; KEY_KP_6; KEY_KP_7; KEY_KP_8; KEY_KP_9; KEY_LGUI; KEY_RCTRL;
   KEY_RGUI; KEY_RALT; KEY_APPS; KEY_INSERT; KEY_HOME; KEY_PGUP; KEY_DEL; KEY_END; KEY_PGDOWN; KEY_UP;
   KEY_LEFT; KEY_DOWN; KEY_RIGHT; KEY_KP_DIV; KEY_KP_EN; KEY_PRNT_SCRN; KEY_PAUSE].

Lemma keycodes_index kc : keycodes !! Z.to_nat (keycode_index kc) = Some kc.
Proof. by destruct kc. Qed.

Lemma keycode_index_inj kc kc' : keycode_index kc = keycode_index kc' -> kc = kc'.
Proof.
  intros H. pose proof (keycodes_index kc) as H1. rewrite H, keycodes_index in H1. by injection H1.
Qed.

#[export] Instance keycode_eq_dec : EqDecision keycode.
Proof.
  refine (fun kc kc' => match Z.eq_dec (keycode_index kc) (keycode_index kc') with
    left H => left (keycode_index_inj _ _ H) | right H => right (fun H' => H (f_equal _ H')) end).
Defined.

Inductive keycode_type := KBD_KEYTYPE_MAKE | KBD_KEYTYPE_BREAK.

#[export] Instance keycode_type_eq_dec : EqDecision keycode_type.
Proof. solve_decision. Defined.

Record keycode_res := mk_res { kc : keycode; type : keycode_type }.

(** ** Scan code set 2 *)

Definition scan_to_key : list keycode :=
  [KEY_UNK; KEY_F9; KEY_UNK; KEY_F5; KEY_F3; KEY_F1; KEY_F2; KEY_F12;
   KEY_UNK; KEY_F10; KEY_F8; KEY_F6; KEY_F4; KEY_TAB; KEY_BKQUOTE; KEY_UNK;
   KEY_UNK; KEY_LALT; KEY_LSHIFT; KEY_UNK; KEY_LCTRL; KEY_Q; KEY_1; KEY_UNK;
   KEY_UNK; KEY_UNK; KEY_Z; KEY_S; KEY_A; KEY_W; KEY_2; KEY_UNK;
   KEY_UNK; KEY_C; KEY_X; KEY_D; KEY_E; KEY_4; KEY_3; KEY_UNK;
   KEY_UNK; KEY_SPACE; KEY_V; KEY_F; KEY_T; KEY_R; KEY_5; KEY_UNK;
   KEY_UNK; KEY_N; KEY_B; KEY_H; KEY_G; KEY_Y; KEY_6; KEY_UNK;
   KEY_UNK; KEY_UNK; KEY_M; KEY_J; KEY_U; KEY_7; KEY_8; KEY_UNK;
   KEY_UNK; KEY_COMMA; KEY_K; KEY_I; KEY_O; KEY_0; KEY_9; KEY_UNK;
   KEY_UNK; KEY_DOT; KEY_SLASH; KEY_L; KEY_SEMICOLON; KEY_P; KEY_HYPEN; KEY_UNK;
   KEY_UNK; KEY_UNK; KEY_SQUOTE; KEY_UNK; KEY_LBRACKET; KEY_EQUAL; KEY_UNK; KEY_UNK;
   KEY_CAPS; KEY_RSHIFT; KEY_ENTER; KEY_RBRACKET; KEY_UNK; KEY_BKSLASH; KEY_UNK; KEY_UNK;
   KEY_UNK; KEY_LT; KEY_UNK; KEY_UNK; KEY_UNK; KEY_UNK; KEY_BKSP; KEY_UNK;
   KEY_UNK; KEY_KP_1; KEY_UNK; KEY_KP_4; KEY_KP_7; KEY_UNK; KEY_UNK; KEY_UNK;
   KEY_KP_0; KEY_KP_DOT; KEY_KP_2; KEY_KP_5; KEY_KP_6; KEY_KP_8; KEY_ESC; KEY_NUM;
   KEY_F11; KEY_KP_PLUS; KEY_KP_3; KEY_KP_HYPHEN; KEY_KP_STAR; KEY_KP_9; KEY_SCROLL; KEY_UNK;
   KEY_UNK; KEY_UNK; KEY_UNK; KEY_F7; KEY_UNK; KEY_UNK; KEY_UNK; KEY_UNK].

Definition scan_2bytes_to_key (scan : Z) : keycode :=
  match scan with
  | 0x1f => KEY_LGUI
  | 0x14 => KEY_RCTRL
  | 0x27 => KEY_RGUI
  | 0x11 => KEY_RALT
  | 0x2f => KEY_APPS
  | 0x70 => KEY_INSERT
  | 0x6c => KEY_HOME
  | 0x7d => KEY_PGUP
  | 0x71 => KEY_DEL
  | 0x69 => KEY_END
  | 0x7a => KEY_PGDOWN
  | 0x75 => KEY_UP
  | 0x6b => KEY_LEFT
  | 0x72 => KEY_DOWN
  | 0x74 => KEY_RIGHT
  | 0x4a => KEY_KP_DIV
  | 0x5a => KEY_KP_EN
  | _ => KEY_UNK
  end.

(** ** Names *)

(** The bytes of a string literal. *)
Fixpoint chars (s : string) : list Z :=
  match s with
  | EmptyString => []
  | String c s => Z.of_N (Ascii.N_of_ascii c) :: chars s
  end.

(** [buf[i..] = bytes], one write per byte. *)
Fixpoint put_bytes (i : Z) (bytes : list Z) (buf : list Z) : res (list Z) :=
  match bytes with
  | [] => Ok buf
  | b :: bytes => buf ← aset buf i b; put_bytes (i + 1) bytes buf
  end.

(** [strcpy(buf, "...")] *)
Definition copy_literal (s : string) (buf : list Z) : res (list Z) := put_bytes 0 (chars s ++ [0]) buf.

(** The [switch] of [keycode2str]: one character, or a name to copy. *)
Definition key_name (kc : keycode) : Z + string :=
  match kc with
  | KEY_BKQUOTE => inl 96
  | KEY_HYPEN => inl 45
  | KEY_EQUAL => inl 61
  | KEY_BKSLASH => inl 92
  | KEY_LBRACKET => inl 91
  | KEY_RBRACKET => inl 93
  | KEY_SEMICOLON => inl 59
  | KEY_SQUOTE => inl 39
  | KEY_COMMA => inl 44
  | KEY_DOT => inl 46
  | KEY_SLASH => inl 47
  | KEY_SPACE => inl 32
  | KEY_LT => inl 60
  | KEY_BKSP => inr "<BKSP>"%string
  | KEY_TAB => inr "<TAB>"%string
  | KEY_CAPS => inr "<CAPS>"%string
  | KEY_LSHIFT => inr "<LSHIFT>"%string
  | KEY_RSHIFT => inr "<RSHIFT>"%string
  | KEY_LCTRL => inr "<LCTRL>"%string
  | KEY_LALT => inr "<LALT>"%string
  | KEY_ENTER => inr "<ENTER>"%string
  | KEY_ESC => inr "<ESC>"%string
  | KEY_F1 => inr "<F1>"%string
  | KEY_F2 => inr "<F2>"%string
  | KEY_F3 => inr "<F3>"%string
  | KEY_F4 => inr "<F4>"%string
  | KEY_F5 => inr "<F5>"%string
  | KEY_F6 => inr "<F6>"%string
  | KEY_F7 => inr "<F7>"%string
  | KEY_F8 => inr "<F8>"%string
  | KEY_F9 => inr "<F9>"%string
  | KEY_F10 => inr "<F10>"%string
  | KEY_F11 => inr "<F11>"%string
  | KEY_F12 => inr "<F12>"%string
  | KEY_SCROLL => inr "<SCROLL>"%string
  | KEY_NUM => inr "<NUM>"%string
  | KEY_KP_STAR => inr "<KP_STAR>"%string
  | KEY_KP_HYPHEN => inr "<KP_HYPHEN>"%string
  | KEY_KP_MINUS => inr "<KP_MINUS>"%string
  | KEY_KP_PLUS => inr "<KP_PLUS>"%string
  | KEY_KP_DOT => inr "<KP_DOT>"%string
  | KEY_KP_0 => inr "<KP_0>"%string
  | KEY_KP_1 => inr "<KP_1>"%string
  | KEY_KP_2 => inr "<KP_2>"%string
  | KEY_KP_3 => inr "<KP_3>"%string
  | KEY_KP_4 => inr "<KP_4>"%string
  | KEY_KP_5 => inr "<KP_5>"%string
  | KEY_KP_6 => inr "<KP_6>"%string
  | KEY_KP_7 => inr "<KP_7>"%string
  | KEY_KP_8 => inr "<KP_8>"%string
  | KEY_KP_9 => inr "<KP_9>"%string
  | KEY_LGUI => inr "<LGUI>"%string
  | KEY_RCTRL => inr "<RCTRL>"%string
  | KEY_RGUI => inr "<RGUI>"%string
  | KEY_RALT => inr "<RALT>"%string
  | KEY_APPS => inr "<APPS>"%string
  | KEY_INSERT => inr "<INSERT>"%string
  | KEY_HOME => inr "<HOME>"%string
  | KEY_PGUP => inr "<PGUP>"%string
  | KEY_DEL => inr "<DEL>"%string
  | KEY_END => inr "<END>"%string
  | KEY_PGDOWN => inr "<PGDOWN>"%string
  | KEY_UP => inr "<UP>"%string
  | KEY_LEFT => inr "<LEFT>"%string
  | KEY_DOWN => inr "<DOWN>"%string
  | KEY_RIGHT => inr "<RIGHT>"%string
  | KEY_KP_DIV => inr "<KP_DIV>"%string
  | KEY_KP_EN => inr "<KP_EN>"%string
  | KEY_PRNT_SCRN => inr "<PRNT_SCRN>"%string
  | KEY_PAUSE => inr "<PAUSE>"%string
  | _ => inr "<UNKNOWN>"%string
  end.

Definition keycode2str (kc : keycode) (buf : list Z) : res (list Z) :=
  let buf := replicate (length buf) 0 in
  let k := keycode_index kc in
  if (keycode_index KEY_A <=? k) && (k <=? keycode_index KEY_Z) then
    aset buf 0 (65 + (k - keycode_index KEY_A))
  else if (keycode_index KEY_0 <=? k) && (k <=? keycode_index KEY_9) then
    aset buf 0 (48 + (k - keycode_index KEY_0))
  else
    match key_name kc with
    | inl c => aset buf 0 c
    | inr s => copy_literal s buf
    end.

Definition keyboard_validate_sequence (expect seq : list Z) (len : Z) : res bool :=
  c ← for_ctl (Z.to_nat len) 0 (fun i _ =>
        e ← aget expect i; s ← aget seq i;
        if e =? s then mret (Next tt) else mret (Leave false)) tt;
  match c with Leave b => mret b | Next _ => mret true end.
