(* ===== verification/World.v ===== *)
(** * The state of the drivers

    The data of ps2driver.h, ps2ctrl.c and keyboard.c, and the world the kernel
    runs in: the hardware, the clock's counter and the state of the drivers. *)
From S2P Require Import Prelude Io Keys.

(** ** PS/2 drivers (ps2driver.h) *)

Inductive ps2_device_type :=
  | PS2_DEVICE_KEYBOARD_AT_WITH_TRANSLATION
  | PS2_DEVICE_KEYBOARD_MF2
  | PS2_DEVICE_KEYBOARD_MF2_WITH_TRANSLATION
  | PS2_DEVICE_MOUSE_STD
  | PS2_DEVICE_MOUSE_WITH_SCROLL_WHEEL
  | PS2_DEVICE_MOUSE_5BUTTON
  | PS2_DEVICE_UNKNOWN.

#[export] Instance ps2_device_type_eq_dec : EqDecision ps2_device_type.
Proof. solve_decision. Defined.

Definition PS2_DRIVER_MAX_RECV : Z := 255.

(** The function pointers of a driver: those of the keyboard, the only driver of
    the kernel, and the two functions of the controller that send a byte. *)
Inductive start_fn := keyboard_start_fn.
Inductive recv_fn := keyboard_recv_fn.
Inductive send_fn := ps2ctrl_send_data_first_port_fn | ps2ctrl_send_data_second_port_fn.

Record ps2driver := mk_driver {
  name : string;
  dev_type : ps2_device_type;
  irq_line : Z;
  recv_queue : list Z;
  recv_queue_head : Z;
  recv_queue_last : Z;
  recv_queue_size : Z;
  start : option start_fn;
  recv : option recv_fn;
  send : option send_fn;
}.

Definition set_queue (q : list Z) (head last size : Z) (d : ps2driver) : ps2driver :=
  mk_driver (name d) (dev_type d) (irq_line d) q head last size (start d) (recv d) (send d).
Definition set_irq_line (l : Z) (d : ps2driver) : ps2driver :=
  mk_driver (name d) (dev_type d) l (recv_queue d) (recv_queue_head d) (recv_queue_last d)
    (recv_queue_size d) (start d) (recv d) (send d).
Definition set_send (f : option send_fn) (d : ps2driver) : ps2driver :=
  mk_driver (name d) (dev_type d) (irq_line d) (recv_queue d) (recv_queue_head d) (recv_queue_last d)
    (recv_queue_size d) (start d) (recv d) f.

(** ** The controller's variables (ps2ctrl.c) *)

(** Pointers to drivers are addresses, 0 is NULL. *)
Record ps2ctrl := mk_ctrl {
  registered_drivers : list bool;
  drivers : list Z;
  ps2ctrl_initialized : bool;
  ps2ctrl_single_channel : bool;
  ps2_drivers : list Z;
  ps2_irq_handlers : list (option recv_fn);
}.

Definition ctrl_boot : ps2ctrl := mk_ctrl (replicate 4 false) (replicate 4 0) false true [0; 0] [None; None].

(** ** The keyboard's variables (keyboard.c) *)

Inductive keyboard_scs := KBD_SCS_1 | KBD_SCS_2 | KBD_SCS_3 | KBD_SCS_UNKNOWN.

#[export] Instance keyboard_scs_eq_dec : EqDecision keyboard_scs.
Proof. solve_decision. Defined.

Definition scs_value (s : keyboard_scs) : Z :=
  match s with KBD_SCS_1 => 1 | KBD_SCS_2 => 2 | KBD_SCS_3 => 3 | KBD_SCS_UNKNOWN => 4 end.

Inductive keyboard_state :=
  | KBD_STATE_RESET
  | KBD_STATE_WAIT_SCAN
  | KBD_STATE_READ_MORE
  | KBD_STATE_TRANSLATE.

#[export] Instance keyboard_state_eq_dec : EqDecision keyboard_state.
Proof. solve_decision. Defined.

Record scancode_seq := mk_seq { scancodes : list Z; len : Z; need : Z }.

(** [reported] is the sequence of the keys printed by [keyboard_task], the last
    one first. *)
Record keyboard := mk_kbd {
  keyboard_led_state : Z;
  keyboard_scanset : keyboard_scs;
  kbd_state : keyboard_state;
  kbd_seq : scancode_seq;
  reported : list (list Z * keycode_type);
}.

Definition kbd_boot : keyboard := mk_kbd 0 KBD_SCS_UNKNOWN KBD_STATE_RESET (mk_seq (replicate 8 0) 0 0) [].

(** The address of [keyboard_driver], the driver it is at boot. *)
Definition keyboard_driver : Z := 1.

Definition keyboard_driver_boot : ps2driver :=
  mk_driver "KEYBOARD_MF2" PS2_DEVICE_KEYBOARD_MF2 0 (replicate 255 0) 0 0 0
    (Some keyboard_start_fn) (Some keyboard_recv_fn) None.

(** ** The world *)

Record world (HW : Type) := mk_world {
  hw : HW;
  clock_tick : Z;
  driver_at : gmap Z ps2driver;
  ctrl : ps2ctrl;
  kbd : keyboard;
}.
Arguments mk_world {HW}.
Arguments hw {HW}.
Arguments clock_tick {HW}.
Arguments driver_at {HW}.
Arguments ctrl {HW}.
Arguments kbd {HW}.

Section World.
Context {HW : Type}.
Implicit Types w : world HW.

Definition set_hw (h : HW) w : world HW := mk_world h (clock_tick w) (driver_at w) (ctrl w) (kbd w).
Definition set_tick (t : Z) w : world HW := mk_world (hw w) t (driver_at w) (ctrl w) (kbd w).
Definition set_driver (p : Z) (d : ps2driver) w : world HW :=
  mk_world (hw w) (clock_tick w) (<[p := d]> (driver_at w)) (ctrl w) (kbd w).
Definition set_ctrl (c : ps2ctrl) w : world HW := mk_world (hw w) (clock_tick w) (driver_at w) c (kbd w).
Definition set_kbd (k : keyboard) w : world HW := mk_world (hw w) (clock_tick w) (driver_at w) (ctrl w) k.

(** [*driver], and an assignment to its fields; both fault on a wild pointer. *)
Definition get_driver (p : Z) : ST (world HW) ps2driver := fun w =>
  match driver_at w !! p with Some d => Ok (d, w) | None => Err Oob end.

Definition update_driver (p : Z) (f : ps2driver -> ps2driver) : ST (world HW) unit :=
  d ← get_driver p; modify (set_driver p (f d)).

Definition update_ctrl (f : ps2ctrl -> ps2ctrl) : ST (world HW) unit := fun w => Ok (tt, set_ctrl (f (ctrl w)) w).
Definition update_kbd (f : keyboard -> keyboard) : ST (world HW) unit := fun w => Ok (tt, set_kbd (f (kbd w)) w).

(** [inb] and [outb] (io.h). *)
Context `{Hardware HW}.

Definition inb (port : Z) : ST (world HW) Z := fun w =>
  let '(v, h) := in_port port (hw w) in Ok (v, set_hw h w).
Definition outb (port v : Z) : ST (world HW) unit := fun w => Ok (tt, set_hw (out_port port v (hw w)) w).
Definition io_wait : ST (world HW) unit := outb 0x80 0.

(** ** Rules *)

Lemma wp_get_driver E p d (Q : ps2driver -> world HW -> Prop) w :
  driver_at w !! p = Some d -> Q d w -> wp E (get_driver p) Q w.
Proof. unfold wp, get_driver. by intros ->. Qed.

Lemma wp_update_driver E p d f (Q : unit -> world HW -> Prop) w :
  driver_at w !! p = Some d -> Q tt (set_driver p (f d) w) -> wp E (update_driver p f) Q w.
Proof. intros Hd Hq. unfold update_driver. apply wp_bind. by apply (wp_get_driver _ _ d). Qed.

Lemma wp_inb E port (Q : Z -> world HW -> Prop) w :
  Q (in_port port (hw w)).1 (set_hw (in_port port (hw w)).2 w) -> wp E (inb port) Q w.
Proof. unfold wp, inb. by destruct (in_port port (hw w)). Qed.

Lemma wp_outb E port v (Q : unit -> world HW -> Prop) w :
  Q tt (set_hw (out_port port v (hw w)) w) -> wp E (outb port v) Q w.
Proof. done. Qed.

Lemma set_driver_same p d w : driver_at w !! p = Some d -> set_driver p d w = w.
Proof. intros Hd. unfold set_driver. rewrite insert_id by done. by destruct w. Qed.

End World.
