(* ===== verification/Irq.v ===== *)
(** * The interrupt controllers (irq.c, interrupt.c) *)
From S2P Require Import Prelude Io World.

Definition MPIC_CMD : Z := 0x20.
Definition MPIC_DATA : Z := 0x21.
Definition SPIC_CMD : Z := 0xa0.
Definition SPIC_DATA : Z := 0xa1.
Definition IRQ_MAX_VALUE : Z := 15.

Definition IRQ0_CLOCK : Z := 0.
Definition IRQ1_KEYBOARD : Z := 1.
Definition IRQ12_PS2_MOUSE : Z := 12.
Definition IRQ0_INT : Z := 0x20.
Definition IRQ7_INT : Z := 0x28.

Section Irq.
Context {HW : Type} `{Hardware HW}.

(** The port and the bit of a line. *)
Definition irq_port (irq : Z) : Z * Z := if irq <? 8 then (MPIC_DATA, irq) else (SPIC_DATA, irq - 8).

(** [1 << irq] is out of range for lines of 32 and more, which are not lines. *)
Definition irq_set_mask (irq : Z) : ST (world HW) unit :=
  let '(port, irq) := irq_port irq in
  v ← inb port;
  outb port (u8 (Z.lor v (Z.shiftl 1 irq)));;
  io_wait.

Definition irq_clear_mask (irq : Z) : ST (world HW) unit :=
  let '(port, irq) := irq_port irq in
  v ← inb port;
  outb port (u8 (Z.land v (Z.lnot (Z.shiftl 1 irq))));;
  io_wait.

Definition irq_send_eoi (irq : Z) : ST (world HW) unit :=
  if IRQ_MAX_VALUE <? irq then mret tt
  else
    (if 8 <? irq then outb SPIC_CMD 0x20 else mret tt);;
    outb MPIC_CMD 0x20.

Definition irq_init (master_offset slave_offset : Z) : ST (world HW) unit :=
  if (master_offset <? 32) || (slave_offset <? 32) then panic "invalid master/slave offset"
  else
    outb MPIC_CMD 0x11;; io_wait;;
    outb SPIC_CMD 0x11;; io_wait;;
    outb MPIC_DATA master_offset;; io_wait;;
    outb SPIC_DATA slave_offset;; io_wait;;
    outb MPIC_DATA (Z.shiftl 1 2);; io_wait;;
    outb SPIC_DATA 2;; io_wait;;
    outb MPIC_DATA 1;;
    outb SPIC_DATA 1;;
    st_for 16 0 irq_set_mask.

Definition enable_nmi : ST (world HW) unit := v ← inb 0x70; outb 0x70 (Z.land v 0x7f).
Definition disable_nmi : ST (world HW) unit := v ← inb 0x70; outb 0x70 (u8 (Z.lor v (Z.shiftl 1 7))).

End Irq.
