(* ===== verification/Clock.v ===== *)
(** * The clock, timeouts and the scheduler (clock.c, timeout.c, scheduler.c)

    The clients of the clock wait actively for its interrupt.  What they need of
    the rest of the kernel is the interface [Clocked]: a counter, and a point
    where pending interrupts are taken, which makes the counter advance before
    long.  [Isr] gives the instance. *)
From S2P Require Import Prelude Io World Irq.

Definition CLOCK_FREQ : Z := 100.
Definition CLOCK_CHANNEL0 : Z := 0x40.
Definition CLOCK_CTRL : Z := 0x43.
Definition BINARY_MODE : Z := Z.shiftl 0 0.
Definition OP_MODE2 : Z := Z.shiftl 2 1.
Definition ACCESS_MODE_LOHI : Z := Z.shiftl 3 4.
Definition SELECT_CHAN0 : Z := Z.shiftl 0 6.
Definition INTERNAL_FREQ_HZ : Z := 1193182.

(** ** Programming the timer, and its interrupt *)

Section Driver.
Context {HW : Type} `{Hardware HW}.

(** The divider of channel 0, a 16-bit value. *)
Definition clock_divider (freq : Z) : Z :=
  let freq := if INTERNAL_FREQ_HZ <? freq then INTERNAL_FREQ_HZ else if freq <? 1 then 1 else freq in
  u16 (INTERNAL_FREQ_HZ / freq).

Definition clock_init (freq : Z) : ST (world HW) unit :=
  outb CLOCK_CTRL (Z.lor (Z.lor (Z.lor BINARY_MODE OP_MODE2) ACCESS_MODE_LOHI) SELECT_CHAN0);;
  outb CLOCK_CHANNEL0 (u8 (clock_divider freq));;
  outb CLOCK_CHANNEL0 (u8 (Z.shiftr (clock_divider freq) 8));;
  modify (set_tick 0);;
  irq_clear_mask IRQ0_CLOCK.

Definition clock_irq_handler : ST (world HW) unit :=
  modify (fun w => set_tick (s32 (clock_tick w + 1)) w);;
  t ← gets clock_tick;
  (if t <? 0 then panic "clock tick overflow detected!!!" else mret tt);;
  irq_send_eoi IRQ0_CLOCK.

End Driver.

(** ** The interface to the clients *)

Class Clocked (W : Type) := {
  poll : ST W unit;        (* the interrupts that are pending are taken *)
  tick : W -> Z;           (* clock_tick *)
  polls_per_tick : nat;    (* polls within which the counter advances *)
}.

Section Clients.
Context {W : Type} `{Clocked W}.

Definition clock_gettick : ST W Z := poll;; gets tick.

(** Polls until the counter has advanced by [ticks]. *)
Definition wait_fuel (ticks : Z) : nat := S (polls_per_tick * S (Z.to_nat ticks)).

Definition clock_sleep (msec : Z) : ST W unit :=
  now ← clock_gettick;
  let target_tick := s32 (now + Z.quot msec (1000 / CLOCK_FREQ)) in
  if target_tick <? 0 then panic "tick INT overflow detected!!!"
  else
    st_loop (wait_fuel (target_tick - now)) (fun _ =>
      t ← clock_gettick;
      mret (if t <? target_tick then Next tt else Leave tt)) tt.

(** *** Timeouts *)

Record timeout := mk_timeout { t_length : Z; t_target : Z }.

Definition timeout_init (len : Z) : timeout :=
  mk_timeout (Z.quot (s32 (len * CLOCK_FREQ)) 1000) (-1).

Definition timeout_start (timeo : timeout) : ST W timeout :=
  now ← clock_gettick; mret (mk_timeout (t_length timeo) (s32 (now + t_length timeo))).

Definition timeout_expired (timeo : timeout) : ST W bool :=
  now ← clock_gettick; mret (t_target timeo <=? now).

(** *** The scheduler *)

Definition sched_run_task (quantum : Z) (task : ST W unit) : ST W unit :=
  now ← clock_gettick;
  let end_tick := s32 (now + quantum) in
  st_loop (wait_fuel (end_tick - now)) (fun _ =>
    t ← clock_gettick;
    if t <? end_tick then task;; mret (Next tt) else mret (Leave tt)) tt.

End Clients.

(** ** Laws of the interface *)

(** The only faults of the clock: 2^31 ticks have passed. *)
Definition clock_overflow (f : fault) : Prop :=
  f = Panic "clock tick overflow detected!!!" \/ f = Panic "tick INT overflow detected!!!".

(** [ahead w]: how many polls can pass before the counter advances. *)
Class ClockedLaws (W : Type) `{Clocked W} := {
  ahead : W -> nat;
  ahead_bound w : (ahead w < polls_per_tick)%nat;
  (** a poll counts at most one tick, and overflows the counter at its end only *)
  poll_counts w : 0 <= tick w < 2 ^ 31 ->
    wp (fun f => clock_overflow f -> 2 ^ 31 <= tick w + 1) poll (fun _ w' =>
      tick w <= tick w' <= tick w + 1 /\ tick w' < 2 ^ 31) w;
}.

Section Laws.
Context {W : Type} `{ClockedLaws W}.

(** Time does not go back between two states. *)
Definition later (w w' : W) : Prop :=
  tick w < tick w' \/ (tick w' = tick w /\ (ahead w' <= ahead w)%nat).

(** The same, with a poll in between. *)
Definition polled (w w' : W) : Prop :=
  tick w < tick w' \/ (tick w' = tick w /\ (ahead w' < ahead w)%nat).

(** [I] is kept by the interrupts, under which the clock runs. *)
Definition ticks (I : W -> Prop) : Prop :=
  (forall w, I w -> 0 <= tick w < 2 ^ 31) /\
  (forall w, I w -> wp clock_overflow poll (fun _ w' => I w' /\ polled w w') w).

#[export] Instance later_refl : Reflexive later.
Proof. intros w. right. split; [done|lia]. Qed.

#[export] Instance later_trans : Transitive later.
Proof. unfold later. intros w1 w2 w3. lia. Qed.

Lemma polled_later w w' : polled w w' -> later w w'.
Proof. unfold later, polled. lia. Qed.

Lemma later_polled w1 w2 w3 : later w1 w2 -> polled w2 w3 -> polled w1 w3.
Proof. unfold later, polled. lia. Qed.

Lemma polled_trans_later w1 w2 w3 : polled w1 w2 -> later w2 w3 -> polled w1 w3.
Proof. unfold later, polled. lia. Qed.

(** The measure of an active wait. *)
Definition left_to (target : Z) (w : W) : nat :=
  (polls_per_tick * Z.to_nat (target - tick w) + ahead w)%nat.

Lemma left_to_polled target w w' : tick w < target -> polled w w' -> (left_to target w' < left_to target w)%nat.
Proof.
  unfold left_to. intros Ht [Hp|[-> Hp]]; [|lia]. pose proof (ahead_bound w').
  assert (Z.to_nat (target - tick w') < Z.to_nat (target - tick w))%nat by lia. nia.
Qed.

Lemma left_to_fuel target n w : target - tick w <= n -> (left_to target w < wait_fuel n)%nat.
Proof.
  unfold left_to, wait_fuel. intros Ht. pose proof (ahead_bound w).
  assert (Z.to_nat (target - tick w) <= Z.to_nat n)%nat by lia. nia.
Qed.

(** An active wait: each round polls, and goes on only before the target. *)
Lemma wp_wait {R S} E (I : S -> W -> Prop) (body : S -> ST W (ctl R S)) Q target n s w :
  I s w -> target - tick w <= n ->
  (forall s w, I s w -> wp E (body s) (fun c w' => match c with
     Next s' => I s' w' /\ polled w w' /\ tick w < target | Leave r => Q r w' end) w) ->
  wp E (st_loop (wait_fuel n) body s) Q w.
Proof.
  intros Hi Hn Hb. apply (wp_loop E I (fun _ => left_to target)); [done|by apply left_to_fuel|].
  intros t v Hv. eapply wp_mono; [by apply Hb|]. intros [t'|r] v'; [|done].
  intros (Hi' & Hp & Ht). split; [done|]. by apply left_to_polled.
Qed.

Lemma gettick_spec I w : ticks I -> I w ->
  wp clock_overflow clock_gettick (fun t w' => t = tick w' /\ I w' /\ polled w w') w.
Proof.
  intros [_ Ht] Hw. unfold clock_gettick. wp_step. eapply wp_mono; [by apply Ht|].
  intros _ w' [Hi Hp]. by wp_step.
Qed.

(** A round of a wait that reads the counter and stops at the target. *)
Lemma sleep_round I target w : ticks I -> I w ->
  wp clock_overflow (t ← clock_gettick; mret (if t <? target then Next tt else Leave tt)) (fun c w' =>
    match c with Next _ => I w' /\ polled w w' /\ tick w < target
               | Leave _ => I w' /\ polled w w' /\ target <= tick w' end) w.
Proof.
  intros HI Hw. wp_step. eapply wp_mono; [by apply (gettick_spec I)|]. intros t w' (-> & Hi & Hp).
  assert (tick w <= tick w') by (unfold polled in Hp; lia).
  wp_step. destruct (Z.ltb_spec (tick w') target); split_and!; done || lia.
Qed.

Lemma clock_sleep_spec I msec w : ticks I -> I w -> 0 <= msec < 2 ^ 31 ->
  wp clock_overflow (clock_sleep msec) (fun _ w' =>
    I w' /\ polled w w' /\ tick w + msec / 10 <= tick w') w.
Proof.
  intros HI Hw Hm. unfold clock_sleep. wp_step. eapply wp_mono; [by apply (gettick_spec I)|].
  intros now w' (-> & Hw' & Hp). cbv zeta. change (1000 / CLOCK_FREQ) with 10.
  rewrite Z.quot_div_nonneg by lia. pose proof (proj1 HI _ Hw') as Hr.
  destruct (Z.ltb_spec (s32 (tick w' + msec / 10)) 0) as [|Ht]; [apply wp_panic; by right|].
  assert (s32 (tick w' + msec / 10) = tick w' + msec / 10) as Hs.
  { unfold s32 in *. revert Ht. Z.div_mod_to_equations; lia. }
  rewrite Hs. apply (wp_wait _ (fun _ v => I v /\ later w' v) _ _ (tick w' + msec / 10)); [by split|lia|].
  intros [] v [Hv Hl]. eapply wp_mono; [by apply sleep_round|]. intros [[]|[]] v' (Hi & Hp' & Ht').
  - split_and!; [done| |done|done]. etrans; [exact Hl|]. by apply polled_later.
  - assert (polled w v') as Hpv.
    { eapply polled_trans_later; [exact Hp|]. etrans; [exact Hl|]. by apply polled_later. }
    split_and!; [done|done|]. unfold polled in Hp. lia.
Qed.

(** The scheduler gives the task its quantum, whatever the task does between two
    polls as long as it returns and time does not go back. *)
Lemma sched_run_task_spec (E : fault -> Prop) I task quantum w : ticks I -> I w -> 0 <= quantum < 2 ^ 31 ->
  (forall f, clock_overflow f -> E f) ->
  (forall v, I v -> wp E task (fun _ v' => I v' /\ later v v') v) ->
  wp E (sched_run_task quantum task) (fun _ w' =>
    I w' /\ polled w w' /\ (tick w + quantum <= tick w' \/ 2 ^ 31 <= tick w' + quantum)) w.
Proof.
  intros HI Hw Hq HE Ht. unfold sched_run_task. wp_step.
  eapply wp_mono; [eapply wp_weaken; [exact HE|by apply (gettick_spec I)]|].
  intros now w1 (-> & Hw1 & Hp1). cbv beta zeta. set (end_tick := s32 (tick w1 + quantum)).
  pose proof (proj1 HI _ Hw1) as Hr1.
  apply (wp_wait _ (fun _ v => I v /\ later w1 v) _ _ end_tick); [by split|lia|].
  intros [] v [Hv Hl]. wp_step. eapply wp_mono; [eapply wp_weaken; [exact HE|by apply (gettick_spec I)]|].
  intros t v1 (-> & Hv1 & Hp). destruct (Z.ltb_spec (tick v1) end_tick) as [Hlt|Hge].
  - wp_step. eapply wp_mono; [by apply Ht|]. intros _ v2 [Hv2 Hl2]. wp_step.
    assert (polled v v2) as Hpv by (by eapply polled_trans_later).
    split_and!; [done| |done|unfold polled in Hp; lia]. etrans; [exact Hl|by apply polled_later].
  - wp_step. split_and!; [done| |].
    + eapply polled_trans_later; [exact Hp1|]. etrans; [exact Hl|by apply polled_later].
    + pose proof (proj1 HI _ Hv1). unfold polled, later in *. unfold end_tick, s32 in Hge.
      Z.div_mod_to_equations; lia.
Qed.

End Laws.

(** ** How long a computation takes *)

Section Pace.
Context {W : Type} `{ClockedLaws W}.

(** From [w] at most [n] ticks are counted, and the clock overflows only when so
    few are left. *)
Definition within {A} (n : Z) (m : ST W A) (w : W) : Prop :=
  wp (fun f => clock_overflow f -> 2 ^ 31 <= tick w + n) m (fun _ w' =>
    tick w <= tick w' <= tick w + n /\ tick w' < 2 ^ 31) w.

Definition pace {A} (n : nat) (m : ST W A) : Prop :=
  forall w, 0 <= tick w < 2 ^ 31 -> within (Z.of_nat n) m w.

Lemma pace_use {A} E n (m : ST W A) Q w : pace n m -> 0 <= tick w < 2 ^ 31 -> wp E m Q w ->
  wp (fun f => E f /\ (clock_overflow f -> 2 ^ 31 <= tick w + Z.of_nat n)) m
    (fun a w' => Q a w' /\ tick w' <= tick w + Z.of_nat n) w.
Proof. intros Hp Hw. specialize (Hp w Hw). unfold within, wp in *. destruct (m w) as [[a w']|]; naive_solver. Qed.

Lemma within_le {A} n n' (m : ST W A) w : within n m w -> n <= n' -> within n' m w.
Proof.
  unfold within, wp. intros Hp Hn. destruct (m w) as [[a w']|]; [lia|]. intros Hf. specialize (Hp Hf). lia.
Qed.

Lemma within_bind {A B} n k (m : ST W A) (f : A -> ST W B) w : 0 <= k -> 0 <= tick w ->
  within n m w -> (forall a w', m w = Ok (a, w') -> 0 <= tick w' < 2 ^ 31 -> within (tick w - tick w' + n + k) (f a) w') ->
  within (n + k) (m ≫= f) w.
Proof.
  unfold within, wp, mbind, ST_bind. intros Hk Hw Hm Hf. destruct (m w) as [[a w']|e]; [|intros Hc; specialize (Hm Hc); lia].
  specialize (Hf a w' eq_refl ltac:(lia)). destruct (f a w') as [[b w2]|e]; [lia|]. intros Hc. specialize (Hf Hc). lia.
Qed.

Lemma pace_le {A} n n' (m : ST W A) : pace n m -> (n <=? n')%nat = true -> pace n' m.
Proof. intros Hp Hn%Nat.leb_le w Hw. eapply within_le; [by apply Hp|lia]. Qed.

Lemma pace_bind {A B} n k (m : ST W A) (f : A -> ST W B) : pace n m -> (forall a, pace k (f a)) -> pace (n + k) (m ≫= f).
Proof.
  intros Hm Hf w Hw. rewrite Nat2Z.inj_add. apply within_bind; [lia|lia|by apply Hm|].
  intros a w' Ha Hw'. specialize (Hm w Hw). unfold within, wp in Hm. rewrite Ha in Hm.
  eapply within_le; [by apply Hf|lia].
Qed.

Lemma pace_group {A B C} n k (m : ST W A) (f : A -> ST W B) (g : B -> ST W C) :
  pace n (m ≫= f) -> (forall b, pace k (g b)) -> pace (n + k) (m ≫= fun a => f a ≫= g).
Proof.
  intros Hm Hg w Hw. pose proof (pace_bind n k (m ≫= f) g Hm Hg w Hw) as Hp.
  unfold within, wp, mbind, ST_bind in *. by destruct (m w) as [[a w']|].
Qed.

(** Steps that do not poll. *)
Definition still {A} (m : ST W A) : Prop := forall w,
  match m w with Ok (_, w') => tick w' = tick w | Err f => ~ clock_overflow f end.

Lemma pace_still {A} (m : ST W A) : still m -> pace 0 m.
Proof. intros Hm w Hw. specialize (Hm w). unfold within, wp. destruct (m w) as [[a w']|]; [lia|done]. Qed.

Lemma still_ret {A} (a : A) : still (mret a).
Proof. done. Qed.
Lemma still_gets {A} (f : W -> A) : still (gets f).
Proof. done. Qed.
Lemma still_lift {A} (r : res A) : (forall why, r <> Err (Panic why)) -> still (lift r).
Proof. intros Hr w. unfold lift. destruct r as [a|f]; [done|]. intros [-> | ->]; by eapply Hr. Qed.
Lemma still_bind {A B} (m : ST W A) (f : A -> ST W B) : still m -> (forall a, still (f a)) -> still (m ≫= f).
Proof.
  intros Hm Hf w. specialize (Hm w). unfold mbind, ST_bind. destruct (m w) as [[a w1]|]; [|done].
  specialize (Hf a w1). destruct (f a w1) as [[b w2]|]; [congruence|done].
Qed.
Lemma still_panic {A} why : ~ clock_overflow (Panic why) -> still (panic (A := A) why).
Proof. by intros Hp w. Qed.

Lemma pace_if {A} (b : bool) n k (m1 m2 : ST W A) : pace n m1 -> pace k m2 -> pace (n `max` k) (if b then m1 else m2).
Proof. intros H1 H2 w Hw. destruct b; (eapply within_le; [by (apply H1 || apply H2)|lia]). Qed.

Lemma pace_option {A B} (o : option A) n k (f : A -> ST W B) m :
  (forall a, pace n (f a)) -> pace k m -> pace (n `max` k) (match o with Some a => f a | None => m end).
Proof. intros H1 H2 w Hw. destruct o; (eapply within_le; [by (apply H1 || apply H2)|lia]). Qed.

Lemma pace_poll : pace 1 poll.
Proof. intros w Hw. by apply poll_counts. Qed.

Lemma pace_gettick : pace 1 clock_gettick.
Proof. apply (pace_bind 1 0 _ _ pace_poll). intros _. by apply pace_still, still_gets. Qed.

(** *** Active waits *)

(** The body goes on only before the target. *)
Definition stops_at {R S} (target : Z) (body : S -> ST W (ctl R S)) : Prop :=
  forall s v, wp (fun _ => True) (body s) (fun c v' => match c with Next _ => tick v' < target | Leave _ => True end) v.

Lemma within_loop {R S} k target (body : S -> ST W (ctl R S)) fuel s w : 0 <= tick w < 2 ^ 31 ->
  (forall s, pace k (body s)) -> stops_at target body ->
  within (Z.max (tick w) target - tick w + Z.of_nat k) (st_loop fuel body s) w.
Proof.
  intros Hw Hb Ht. revert s w Hw. induction fuel as [|fuel IH]; intros s w Hw.
  { unfold within, wp. cbn [st_loop]. by intros [|]. }
  cbn [st_loop]. specialize (Hb s w Hw). specialize (Ht s w). unfold within, wp in *. unfold mbind, ST_bind.
  destruct (body s w) as [[[s'|r] w']|e]; [|unfold mret, ST_ret; lia|intros Hc; specialize (Hb Hc); lia].
  specialize (IH s' w' ltac:(lia)). destruct (st_loop fuel body s' w') as [[r w2]|e]; [lia|].
  intros Hc. specialize (IH Hc). lia.
Qed.

(** The rounds of a timeout, however long one of them takes. *)
Lemma pace_timeout {R S} msec k (fuel : timeout -> nat) (body : timeout -> S -> ST W (ctl R S)) s :
  0 <= msec < 21474836 -> (forall t s, pace k (body t s)) -> (forall t, stops_at (t_target t) (body t)) ->
  pace (Z.to_nat (msec / 10) + 1 + k) (t ← timeout_start (timeout_init msec); st_loop (fuel t) (body t) s).
Proof.
  intros Hm Hb Ht w Hw. pose proof (Z.div_pos msec 10 ltac:(lia) ltac:(lia)).
  replace (Z.of_nat _) with (1 + (msec / 10 + Z.of_nat k)) by lia.
  apply within_bind; [lia|lia| |].
  { unfold timeout_start. apply (pace_bind 1 0 _ _ pace_gettick); [|done]. intros now. by apply pace_still, still_ret. }
  intros t w' Hstart Hw'.
  assert (tick w <= tick w' <= tick w + 1) as Hle.
  { pose proof (pace_gettick w Hw) as Hp. unfold timeout_start, mbind, ST_bind in Hstart. unfold within, wp in Hp.
    destruct (clock_gettick w) as [[now w1]|]; [|done]. injection Hstart as _ <-. lia. }
  assert (t_target t <= tick w' + msec / 10) as Htg.
  { unfold timeout_start, clock_gettick, mbind, ST_bind, gets in Hstart. destruct (poll w) as [[[] w1]|]; [|done].
    injection Hstart as <- <-. cbn [t_target]. unfold timeout_init. cbn [t_length]. unfold CLOCK_FREQ.
    rewrite (s32_small (msec * 100)) by lia. rewrite Z.quot_div_nonneg by lia.
    replace (msec * 100 / 1000) with (msec / 10) by (Z.div_mod_to_equations; lia).
    unfold s32. Z.div_mod_to_equations; lia. }
  eapply within_le; [by apply within_loop|lia].
Qed.

(** [clock_sleep] takes two ticks more than its duration at most. *)
Lemma pace_clock_sleep msec : 0 <= msec < 2 ^ 31 -> pace (Z.to_nat (msec / 10) + 2) (clock_sleep msec).
Proof.
  intros Hm w Hw. pose proof (Z.div_pos msec 10 ltac:(lia) ltac:(lia)).
  replace (Z.of_nat _) with (1 + (msec / 10 + 1)) by lia. unfold clock_sleep.
  apply within_bind; [lia|lia|by apply pace_gettick|]. intros now w' Hnow Hw'.
  assert (now = tick w' /\ tick w <= tick w' <= tick w + 1) as [-> Hle].
  { pose proof (pace_poll w Hw) as Hp. unfold clock_gettick, mbind, ST_bind, gets in Hnow. unfold within, wp in Hp.
    destruct (poll w) as [[[] w1]|]; [|done]. injection Hnow as <- <-. lia. }
  change (1000 / CLOCK_FREQ) with 10. rewrite Z.quot_div_nonneg by lia. cbv zeta.
  destruct (Z.ltb_spec (s32 (tick w' + msec / 10)) 0) as [Hneg|Hpos].
  - unfold within, wp, panic. intros _. unfold s32 in Hneg. Z.div_mod_to_equations; lia.
  - assert (s32 (tick w' + msec / 10) = tick w' + msec / 10) as ->.
    { unfold s32 in *. revert Hpos. Z.div_mod_to_equations; lia. }
    eapply within_le; [apply (within_loop 1 (tick w' + msec / 10)); [done| |]|lia].
    + intros s. apply (pace_bind 1 0 _ _ pace_gettick). intros t. by apply pace_still, still_ret.
    + intros s v. unfold wp, clock_gettick, mbind, ST_bind, gets. destruct (poll v) as [[[] v']|]; [|done].
      unfold mret, ST_ret. by destruct (Z.ltb_spec (tick v') (tick w' + msec / 10)).
Qed.

(** A duration below the period of the clock is none: the interrupts that are
    pending are taken, twice, and nothing is waited for. *)
Lemma clock_sleep_short msec w : 0 <= msec < 10 -> 0 <= tick w < 2 ^ 31 -> clock_sleep msec w = (poll;; poll) w.
Proof.
  intros Hm Hw. unfold clock_sleep. change (1000 / CLOCK_FREQ) with 10. rewrite Z.quot_small by lia.
  pose proof (poll_counts w Hw) as Hp. unfold wp in Hp. unfold clock_gettick, mbind, ST_bind, gets.
  destruct (poll w) as [[[] w1]|]; [|done]. rewrite Z.add_0_r, s32_small by lia.
  destruct (Z.ltb_spec (tick w1) 0); [lia|]. unfold wait_fuel. cbn [st_loop]. unfold mbind, ST_bind.
  assert (0 <= tick w1 < 2 ^ 31) as Hw1 by lia. pose proof (poll_counts w1 Hw1) as Hp1. unfold wp in Hp1. destruct (poll w1) as [[[] w2]|]; [|done].
  destruct (Z.ltb_spec (tick w2) (tick w1)); [lia|done].
Qed.

End Pace.

Create HintDb pace.
#[export] Hint Resolve still_ret still_gets pace_poll pace_gettick : pace.

(** The ticks of a sequence of steps, counted. *)
Ltac pace_steps :=
  repeat first
    [ solve [eauto with pace]
    | apply pace_still; solve [eauto with pace]
    | apply pace_bind; [|intros ?]
    | apply pace_if
    | apply pace_option; [intros ?|]
    | progress cbv beta zeta ].

Ltac pace_count := eapply pace_le; [pace_steps|vm_compute; reflexivity].
