(* ===== verification/Isr.v ===== *)
(** * Interrupt handlers (idt.c, ps2driver.c, ps2ctrl.c)

    What the interrupts of the three devices do to the world, their dispatch by
    vector, and the point where the kernel takes them.  Handlers run with
    interrupts disabled (the gates of the table are interrupt gates), so that
    they do not nest. *)
From S2P Require Import Prelude Io World Irq Clock.

Section Isr.
Context {HW : Type} `{Hardware HW}.

(** ** The receive queue, filled in interrupt context *)

Definition ps2driver_recv (driver : Z) (data : Z) : ST (world HW) bool :=
  if driver =? 0 then mret false
  else
    d ← get_driver driver;
    if recv_queue_size d =? PS2_DRIVER_MAX_RECV then mret false
    else
      q ← lift (aset (recv_queue d) (recv_queue_last d) data);
      let last := recv_queue_last d + 1 in
      let last := if last =? PS2_DRIVER_MAX_RECV then 0 else last in
      update_driver driver (set_queue q (recv_queue_head d) last (recv_queue_size d + 1));;
      mret true.

Definition keyboard_recv (data : Z) : ST (world HW) unit :=
  _ ← ps2driver_recv keyboard_driver data; mret tt.

(** ** The controller's interrupts *)

Definition DATA_PORT : Z := 0x60.

(** A call through a pointer of [ps2_irq_handlers]. *)
Definition call_recv (f : recv_fn) (data : Z) : ST (world HW) unit :=
  match f with keyboard_recv_fn => keyboard_recv data end.

Definition irq_dispatch (port data : Z) : ST (world HW) unit :=
  hs ← gets (fun w => ps2_irq_handlers (ctrl w));
  h ← lift (aget hs port);
  match h with None => mret tt | Some f => call_recv f data end.

Definition ps2ctrl_irq1_handler : ST (world HW) unit :=
  init ← gets (fun w => ps2ctrl_initialized (ctrl w));
  if negb init then panic "PS/2 controller not initialized!"
  else
    data ← inb DATA_PORT;
    irq_dispatch 0 data;;
    irq_send_eoi IRQ1_KEYBOARD.

Definition ps2ctrl_irq12_handler : ST (world HW) unit :=
  init ← gets (fun w => ps2ctrl_initialized (ctrl w));
  if negb init then panic "PS/2 controller not initialized!"
  else
    single ← gets (fun w => ps2ctrl_single_channel (ctrl w));
    if negb single then panic "PS/2 controller has a single channel!"
    else
      data ← inb DATA_PORT;
      irq_dispatch 1 data;;
      irq_send_eoi IRQ12_PS2_MOUSE.

(** ** Dispatch *)

Definition unhandled_exception : ST (world HW) unit := panic "unhandled exception!".
Definition unhandled_interrupt : ST (world HW) unit := panic "unhandled interrupt!".
Definition divide_error_handler := unhandled_exception.
Definition invalid_opcode_handler := unhandled_exception.
Definition double_fault_handler := unhandled_exception.
Definition general_protection_fault_handler := unhandled_exception.
Definition user_defined_interrupt_handler := unhandled_interrupt.

(** Page faults are modelled with paging; every path of their handler stops the
    kernel. *)
Definition isr_handler (isr_num : Z) : ST (world HW) unit :=
  if isr_num =? 0 then divide_error_handler
  else if isr_num =? 6 then invalid_opcode_handler
  else if isr_num =? 8 then double_fault_handler
  else if isr_num =? 13 then general_protection_fault_handler
  else if isr_num =? 14 then panic "page fault"
  else if isr_num =? 32 then clock_irq_handler
  else if isr_num =? 33 then ps2ctrl_irq1_handler
  else if isr_num =? 34 then user_defined_interrupt_handler
  else if isr_num =? 44 then ps2ctrl_irq12_handler
  else unhandled_interrupt.

(** An instruction boundary: time passes, and the CPU runs the handler of the
    interrupt it takes, if any. *)
Definition interrupts : ST (world HW) unit := fun w =>
  let '(v, h) := int_req (hw w) in
  match v with
  | None => Ok (tt, set_hw h w)
  | Some v => isr_handler v (set_hw h w)
  end.

#[export] Instance world_clocked : Clocked (world HW) := {
  poll := interrupts; tick := clock_tick; polls_per_tick := patience }.

(** *** What a poll counts: only the handler of the clock changes the counter *)

Lemma still_inb port : still (inb (HW := HW) port).
Proof. intros w. unfold inb. by destruct (in_port port (hw w)). Qed.
Lemma still_outb port v : still (outb (HW := HW) port v).
Proof. done. Qed.
Lemma still_get_driver p : still (get_driver (HW := HW) p).
Proof. intros w. unfold get_driver. destruct (driver_at w !! p); [done|]. by intros [|]. Qed.
Lemma still_update_driver p f : still (update_driver (HW := HW) p f).
Proof. apply still_bind; [apply still_get_driver|]. by intros d w. Qed.
Lemma still_aget {A} (l : list A) i : still (W := world HW) (lift (aget l i)).
Proof. apply still_lift. intros why. unfold aget. by repeat case_match. Qed.
Lemma still_aset {A} (l : list A) i x : still (W := world HW) (lift (aset l i x)).
Proof. apply still_lift. intros why. unfold aset. by repeat case_match. Qed.

Lemma still_eoi irq : still (irq_send_eoi (HW := HW) irq).
Proof. unfold irq_send_eoi. case_match; [done|]. apply still_bind; [by case_match|]. intros _. apply still_outb. Qed.

Lemma still_recv data : still (keyboard_recv data).
Proof.
  unfold keyboard_recv, ps2driver_recv. apply still_bind; [|done]. case_match; [done|].
  apply still_bind; [apply still_get_driver|]. intros d. case_match; [done|].
  apply still_bind; [apply still_aset|]. intros q. apply still_bind; [apply still_update_driver|done].
Qed.

Lemma still_dispatch port data : still (irq_dispatch port data).
Proof.
  unfold irq_dispatch. apply still_bind; [done|]. intros hs. apply still_bind; [apply still_aget|].
  intros [[]|]; [apply still_recv|done].
Qed.

Lemma other_panic {A} why : why <> "clock tick overflow detected!!!"%string -> why <> "tick INT overflow detected!!!"%string ->
  still (W := world HW) (panic (A := A) why).
Proof. intros H1 H2. apply still_panic. intros [[= E]|[= E]]; done. Qed.

Lemma still_irq1 : still ps2ctrl_irq1_handler.
Proof.
  unfold ps2ctrl_irq1_handler. apply still_bind; [done|]. intros i. case_match; [by apply other_panic|].
  apply still_bind; [apply still_inb|]. intros data. apply still_bind; [apply still_dispatch|]. intros _. apply still_eoi.
Qed.

Lemma still_irq12 : still ps2ctrl_irq12_handler.
Proof.
  unfold ps2ctrl_irq12_handler. apply still_bind; [done|]. intros i. case_match; [by apply other_panic|].
  apply still_bind; [done|]. intros s. case_match; [by apply other_panic|].
  apply still_bind; [apply still_inb|]. intros data. apply still_bind; [apply still_dispatch|]. intros _. apply still_eoi.
Qed.

Lemma interrupts_count (w : world HW) : 0 <= clock_tick w < 2 ^ 31 ->
  wp (fun f => clock_overflow f -> 2 ^ 31 <= clock_tick w + 1) interrupts (fun _ w' =>
    clock_tick w <= clock_tick w' <= clock_tick w + 1 /\ clock_tick w' < 2 ^ 31) w.
Proof.
  intros Hw. unfold wp, interrupts. destruct (int_req (hw w)) as [[v|] h]; [|cbn [set_hw clock_tick]; lia].
  assert (forall m : ST (world HW) unit, still m ->
    match m (set_hw h w) with
    | Ok (_, w') => clock_tick w <= clock_tick w' <= clock_tick w + 1 /\ clock_tick w' < 2 ^ 31
    | Err f => clock_overflow f -> 2 ^ 31 <= clock_tick w + 1
    end) as Hstill.
  { intros m Hm. specialize (Hm (set_hw h w)). destruct (m (set_hw h w)) as [[a w']|]; [|done].
    change (clock_tick w' = clock_tick w) in Hm. lia. }
  assert (match clock_irq_handler (set_hw h w) with
    | Ok (_, w') => clock_tick w <= clock_tick w' <= clock_tick w + 1 /\ clock_tick w' < 2 ^ 31
    | Err f => clock_overflow f -> 2 ^ 31 <= clock_tick w + 1
    end) as Hclock.
  { unfold clock_irq_handler, mbind, ST_bind, modify, gets. cbn [set_tick set_hw clock_tick].
    destruct (Z.ltb_spec (s32 (clock_tick w + 1)) 0) as [Hneg|Hpos]; cbn [panic mret ST_ret].
    - intros _. unfold s32 in Hneg. Z.div_mod_to_equations; lia.
    - pose proof (still_eoi IRQ0_CLOCK (set_tick (s32 (clock_tick w + 1)) (set_hw h w))) as He.
      destruct (irq_send_eoi _ _) as [[a w']|]; [|done]. change (clock_tick w' = s32 (clock_tick w + 1)) in He.
      rewrite He. unfold s32 in *. Z.div_mod_to_equations; lia. }
  unfold isr_handler, divide_error_handler, invalid_opcode_handler, double_fault_handler,
    general_protection_fault_handler, user_defined_interrupt_handler.
  repeat match goal with |- context [if ?b then _ else _] =>
    destruct b; [solve [exact Hclock|by apply Hstill, other_panic|apply Hstill, still_irq1|apply Hstill, still_irq12]|] end.
  by apply Hstill, other_panic.
Qed.

#[export] Instance world_clocked_laws `{!HardwareLaws HW} : ClockedLaws (world HW) := {
  ahead w := pit_wait (hw w); ahead_bound w := pit_wait_bound (hw w); poll_counts := interrupts_count }.

Lemma pace_interrupts `{!HardwareLaws HW} : pace 1 interrupts.
Proof. exact pace_poll. Qed.

Lemma still_update_ctrl f : still (update_ctrl (HW := HW) f).
Proof. done. Qed.

Lemma still_mask irq : still (irq_set_mask (HW := HW) irq).
Proof. unfold irq_set_mask. destruct (irq_port irq). repeat (apply still_bind; [first [apply still_inb|apply still_outb]|intros ?]). apply still_outb. Qed.
Lemma still_unmask irq : still (irq_clear_mask (HW := HW) irq).
Proof. unfold irq_clear_mask. destruct (irq_port irq). repeat (apply still_bind; [first [apply still_inb|apply still_outb]|intros ?]). apply still_outb. Qed.

End Isr.

#[export] Hint Resolve still_inb still_outb still_get_driver still_update_driver still_update_ctrl still_aget still_aset
  still_mask still_unmask pace_interrupts : pace.
