(* ===== verification/Entry.v ===== *)
(** * Interrupt entry (isr_wrapper.S, boot.S, idt.c)

    The instructions between an interrupt and its handler, on the registers and
    the stack: what the processor pushes, the wrappers [isr0] to [isr47],
    [isr_common_stub], and the structure on the stack that [isr_handler] is given;
    and the first instructions of the kernel. *)
From S2P Require Import Prelude Libc Io World Irq Clock Isr.

(** ** The processor *)

Record x86 := mk_x86 {
  eax : Z; ecx : Z; edx : Z; ebx : Z; esp : Z; ebp : Z; esi : Z; edi : Z;
  eip : Z; cs : Z; eflags : Z; ram : bytes }.

Definition set_eax v x := mk_x86 v (ecx x) (edx x) (ebx x) (esp x) (ebp x) (esi x) (edi x) (eip x) (cs x) (eflags x) (ram x).
Definition set_ecx v x := mk_x86 (eax x) v (edx x) (ebx x) (esp x) (ebp x) (esi x) (edi x) (eip x) (cs x) (eflags x) (ram x).
Definition set_edx v x := mk_x86 (eax x) (ecx x) v (ebx x) (esp x) (ebp x) (esi x) (edi x) (eip x) (cs x) (eflags x) (ram x).
Definition set_ebx v x := mk_x86 (eax x) (ecx x) (edx x) v (esp x) (ebp x) (esi x) (edi x) (eip x) (cs x) (eflags x) (ram x).
Definition set_esp v x := mk_x86 (eax x) (ecx x) (edx x) (ebx x) v (ebp x) (esi x) (edi x) (eip x) (cs x) (eflags x) (ram x).
Definition set_ebp v x := mk_x86 (eax x) (ecx x) (edx x) (ebx x) (esp x) v (esi x) (edi x) (eip x) (cs x) (eflags x) (ram x).
Definition set_esi v x := mk_x86 (eax x) (ecx x) (edx x) (ebx x) (esp x) (ebp x) v (edi x) (eip x) (cs x) (eflags x) (ram x).
Definition set_edi v x := mk_x86 (eax x) (ecx x) (edx x) (ebx x) (esp x) (ebp x) (esi x) v (eip x) (cs x) (eflags x) (ram x).
Definition set_eip v x := mk_x86 (eax x) (ecx x) (edx x) (ebx x) (esp x) (ebp x) (esi x) (edi x) v (cs x) (eflags x) (ram x).
Definition set_cs v x := mk_x86 (eax x) (ecx x) (edx x) (ebx x) (esp x) (ebp x) (esi x) (edi x) (eip x) v (eflags x) (ram x).
Definition set_eflags v x := mk_x86 (eax x) (ecx x) (edx x) (ebx x) (esp x) (ebp x) (esi x) (edi x) (eip x) (cs x) v (ram x).
Definition set_ram m x := mk_x86 (eax x) (ecx x) (edx x) (ebx x) (esp x) (ebp x) (esi x) (edi x) (eip x) (cs x) (eflags x) m.

(** The processor and the rest of the kernel. *)
Record mach (W : Type) := mk_mach { proc : x86; kernel : W }.
Arguments mk_mach {W}.
Arguments proc {W}.
Arguments kernel {W}.

Section Instructions.
Context {W : Type}.

Definition on_proc (f : x86 -> x86) : ST (mach W) unit := modify (fun s => mk_mach (f (proc s)) (kernel s)).
Definition reg (f : x86 -> Z) : ST (mach W) Z := gets (fun s => f (proc s)).

Definition push (v : Z) : ST (mach W) unit :=
  on_proc (fun x => set_esp (esp x ⊖ 4) x);;
  x ← gets proc;
  m ← lift (wr32 (esp x) v (ram x));
  on_proc (set_ram m).

Definition pop : ST (mach W) Z :=
  x ← gets proc;
  v ← lift (rd32 (ram x) (esp x));
  on_proc (fun x => set_esp (esp x ⊕ 4) x);;
  mret v.

Definition push_reg (f : x86 -> Z) : ST (mach W) unit := v ← reg f; push v.
Definition pop_to (f : Z -> x86 -> x86) : ST (mach W) unit := v ← pop; on_proc (f v).

(** [pushal] pushes the value that ESP has before it. *)
Definition pushal : ST (mach W) unit :=
  sp ← reg esp;
  push_reg eax;; push_reg ecx;; push_reg edx;; push_reg ebx;; push sp;; push_reg ebp;; push_reg esi;; push_reg edi.

(** [popal] discards it. *)
Definition popal : ST (mach W) unit :=
  pop_to set_edi;; pop_to set_esi;; pop_to set_ebp;; pop;; pop_to set_ebx;; pop_to set_edx;; pop_to set_ecx;; pop_to set_eax.

Definition add_esp (n : Z) : ST (mach W) unit := on_proc (fun x => set_esp (esp x ⊕ n) x).

(** The interrupt, trap and direction flags are bits 9, 8 and 10. *)
Definition clear_bits (mask : Z) : ST (mach W) unit := on_proc (fun x => set_eflags (Z.land (eflags x) (Z.lnot mask)) x).
Definition cld : ST (mach W) unit := clear_bits 0x400.
Definition iret : ST (mach W) unit := pop_to set_eip;; pop_to set_cs;; pop_to set_eflags.

(** [call]: the return address is pushed, and popped by the [ret] of the callee;
    with another value there the code that follows would not run. *)
Definition call (ret : Z) (f : ST (mach W) unit) : ST (mach W) unit :=
  push ret;; f;;
  v ← pop;
  lift (if v =? ret then Ok tt else Err Oob).

(** Through an interrupt gate, without a change of privilege. *)
Definition cpu_interrupt (selector : Z) (error_code : option Z) : ST (mach W) unit :=
  push_reg eflags;; push_reg cs;; push_reg eip;;
  clear_bits 0x300;; on_proc (set_cs selector);;
  match error_code with Some e => push e | None => mret tt end.

(** ** isr_wrapper.S *)

(** [ret] is the address of the instruction after the call. *)
Definition isr_common_stub (ret : Z) (isr_handler : ST (mach W) unit) : ST (mach W) unit :=
  pushal;;
  on_proc (fun x => set_eax (esp x ⊕ 0x20) x);;
  push_reg eax;;
  cld;;
  call ret isr_handler;;
  add_esp 4;;
  popal;;
  add_esp 8;;
  iret.

Definition isr_noerr (isr_num ret : Z) (isr_handler : ST (mach W) unit) : ST (mach W) unit :=
  push 0;; push isr_num;; isr_common_stub ret isr_handler.

Definition isr_err (isr_num ret : Z) (isr_handler : ST (mach W) unit) : ST (mach W) unit :=
  push isr_num;; isr_common_stub ret isr_handler.

(** The wrappers defined at the end of the file, by number. *)
Definition isr_wrapper (n : Z) : option (Z -> ST (mach W) unit -> ST (mach W) unit) :=
  if (n =? 8) || (n =? 10) || (n =? 11) || (n =? 12) || (n =? 13) || (n =? 14) || (n =? 17) then Some (isr_err n)
  else if (0 <=? n) && (n <=? 47) then Some (isr_noerr n)
  else None.

(** ** boot.S

    EBX and EAX are the boot loader's; [_init] and [kernel_main] are called with
    them on the stack. *)
Definition _start (stack_top ret_init ret_main : Z) (_init kernel_main : ST (mach W) unit) : ST (mach W) unit :=
  on_proc (set_esp stack_top);;
  push_reg ebx;; push_reg eax;;
  push 0;; pop_to set_eflags;;
  call ret_init _init;;
  call ret_main kernel_main;;
  clear_bits 0x200.

End Instructions.

(** Offset of [error_code] in [struct interrupt_stack]. *)
Definition offsetof_error_code : Z := 4.
