(* ===== verification/Ps2driver.v ===== *)
(** * The generic PS/2 driver (ps2driver.c)

    Task context: pending interrupts are taken between any two accesses to the
    shared receive queue, even in the middle of [recv_queue_size--], which is a
    load and a store. *)
From S2P Require Import Prelude Io World Irq Clock Isr.

Section Driver.
Context {HW : Type} `{Hardware HW}.

Definition ps2driver_lock (driver : Z) : ST (world HW) unit :=
  if driver =? 0 then mret tt else d ← get_driver driver; irq_set_mask (irq_line d).

Definition ps2driver_unlock (driver : Z) : ST (world HW) unit :=
  if driver =? 0 then mret tt else d ← get_driver driver; irq_clear_mask (irq_line d).

(** Assignments to one field of the queue. *)
Definition set_head (h : Z) (d : ps2driver) : ps2driver :=
  set_queue (recv_queue d) h (recv_queue_last d) (recv_queue_size d) d.
Definition set_last (l : Z) (d : ps2driver) : ps2driver :=
  set_queue (recv_queue d) (recv_queue_head d) l (recv_queue_size d) d.
Definition set_size (n : Z) (d : ps2driver) : ps2driver :=
  set_queue (recv_queue d) (recv_queue_head d) (recv_queue_last d) n d.

Definition ps2driver_flush_recv_queue (driver : Z) : ST (world HW) unit :=
  if driver =? 0 then mret tt
  else
    interrupts;; ps2driver_lock driver;;
    interrupts;; update_driver driver (set_head 0);;
    interrupts;; update_driver driver (set_last 0);;
    interrupts;; update_driver driver (set_size 0);;
    interrupts;; ps2driver_unlock driver.

(** The size of the queue, read with the interrupt of the driver masked. *)
Definition read_size (driver : Z) : ST (world HW) Z :=
  interrupts;; ps2driver_lock driver;;
  interrupts;; d ← get_driver driver;
  interrupts;; ps2driver_unlock driver;;
  mret (recv_queue_size d).

(** The rounds of [do ... while ((size == 0) && !timeout_expired(&timeo))]; the
    state is [nb_tries]. *)
Definition wait_data (driver : Z) (timeo : timeout) (nb_tries : Z) : ST (world HW) (ctl Z Z) :=
  (if 0 <? nb_tries then clock_sleep 20 else mret tt);;
  size ← read_size driver;
  if size =? 0 then
    expired ← timeout_expired timeo;
    mret (if expired : bool then Leave size else Next (nb_tries + 1))
  else mret (Leave size).

(** Takes the first byte out, with the interrupt of the driver masked. *)
Definition take_byte (driver : Z) : ST (world HW) Z :=
  interrupts;; ps2driver_lock driver;;
  interrupts;; d ← get_driver driver; data ← lift (aget (recv_queue d) (recv_queue_head d));
  interrupts;; update_driver driver (fun d => set_head (recv_queue_head d + 1) d);;
  interrupts;; update_driver driver (fun d =>
    if recv_queue_head d =? PS2_DRIVER_MAX_RECV then set_head 0 d else d);;
  interrupts;; d ← get_driver driver;
  interrupts;; update_driver driver (set_size (recv_queue_size d - 1));;
  interrupts;; ps2driver_unlock driver;;
  mret data.

(** [Some data] when the function returns true; [*data] is left untouched when
    it returns false.  Callers pass the address of a variable. *)
Definition ps2driver_read (driver : Z) (timeout : Z) : ST (world HW) (option Z) :=
  if driver =? 0 then mret None
  else
    timeo ← timeout_start (timeout_init timeout);
    size ← st_loop (wait_fuel (t_length timeo)) (wait_data driver timeo) 0;
    if size =? 0 then mret None
    else data ← take_byte driver; mret (Some data).

End Driver.
