(* ===== verification/Ps2ctrl.v ===== *)
(** * The PS/2 controller (ps2ctrl.c)

    The commands of the controller, its initialisation, the identification of
    the device and the registration of drivers.  This code runs in task context:
    interrupts are taken before every access to a port. *)
From S2P Require Import Prelude Io World Irq Clock Isr.

Definition STATUS_PORT : Z := 0x64.
Definition CMD_PORT : Z := 0x64.
Definition SR_OUTPUT_BUFFER_STATUS : Z := Z.shiftl 1 0.
Definition SR_INPUT_BUFFER_STATUS : Z := Z.shiftl 1 1.

Inductive ctrl_command :=
  | READ_BYTE_0
  | READ_BYTE_N
  | WRITE_BYTE_0
  | WRITE_BYTE_1
  | DISABLE_SECOND_PS2_PORT
  | ENABLE_SECOND_PS2_PORT
  | TEST_SECOND_PS2_PORT
  | TEST_PS2_CONTROLLER
  | TEST_FIRST_PS2_PORT
  | DIAGNOSTIC_DUMP
  | DISABLE_FIRST_PS2_PORT
  | ENABLE_FIRST_PS2_PORT
  | READ_CTRL_INPUT_PORT
  | COPY_BITS03_to_47
  | COPY_BITS47_to_47
  | READ_CTRL_OUTPUT_PORT
  | WRITE_BYTE_CTRL_OUTPUT_PORT
  | WRITE_BYTE_FIRST_PS2_OUTPUT_PORT
  | WRITE_BYTE_SECOND_PS2_OUTPUT_PORT
  | WRITE_BYTE_SECOND_PS2_INPUT_PORT
  | PULSE_OUTPUT_LINE.

Definition command_byte (c : ctrl_command) : Z :=
  match c with
  | READ_BYTE_0 => 0x20
  | READ_BYTE_N => 0x21
  | WRITE_BYTE_0 => 0x60
  | WRITE_BYTE_1 => 0x61
  | DISABLE_SECOND_PS2_PORT => 0xa7
  | ENABLE_SECOND_PS2_PORT => 0xa8
  | TEST_SECOND_PS2_PORT => 0xa9
  | TEST_PS2_CONTROLLER => 0xaa
  | TEST_FIRST_PS2_PORT => 0xab
  | DIAGNOSTIC_DUMP => 0xac
  | DISABLE_FIRST_PS2_PORT => 0xad
  | ENABLE_FIRST_PS2_PORT => 0xae
  | READ_CTRL_INPUT_PORT => 0xc0
  | COPY_BITS03_to_47 => 0xc1
  | COPY_BITS47_to_47 => 0xc2
  | READ_CTRL_OUTPUT_PORT => 0xd0
  | WRITE_BYTE_CTRL_OUTPUT_PORT => 0xd1
  | WRITE_BYTE_FIRST_PS2_OUTPUT_PORT => 0xd2
  | WRITE_BYTE_SECOND_PS2_OUTPUT_PORT => 0xd3
  | WRITE_BYTE_SECOND_PS2_INPUT_PORT => 0xd4
  | PULSE_OUTPUT_LINE => 0xf0
  end.

Definition CTRL_CONF_FIRST_PS2_PORT_INTERRUPT : Z := Z.shiftl 1 0.
Definition CTRL_CONF_SECOND_PS2_PORT_INTERRUPT : Z := Z.shiftl 1 1.
Definition CTRL_CONF_SYSTEM_FLAG : Z := Z.shiftl 1 2.
Definition CTRL_CONF_ZERO1 : Z := Z.shiftl 1 3.
Definition CTRL_CONF_FIRST_PS2_PORT_CLOCK : Z := Z.shiftl 1 4.
Definition CTRL_CONF_SECOND_PS2_PORT_CLOCK : Z := Z.shiftl 1 5.
Definition CTRL_CONF_FIRST_PS2_PORT_TRANSLATION : Z := Z.shiftl 1 6.
Definition CTRL_CONF_ZERO2 : Z := Z.shiftl 1 7.

Definition PS2CTRL_MAX_DRIVERS : Z := 4.

Definition bit_set (v b : Z) : bool := negb (Z.land v b =? 0).

Definition NOT_IMPLEMENTED {W A} : ST W A := panic "not implemented".

Section Ctrl.
Context {HW : Type} `{Hardware HW}.
Notation M := (ST (world HW)).

Definition task_inb (port : Z) : M Z := interrupts;; inb port.
Definition task_outb (port v : Z) : M unit := interrupts;; outb port v.

(** ** Waiting for the buffers *)

(** [do status = inb(STATUS_PORT); while (busy && !timeout_expired(&timeo));]
    with a timeout of 200 ms: the last status read. *)
Definition poll_status (busy : Z -> bool) : M Z :=
  timeo ← timeout_start (timeout_init 200);
  st_loop (wait_fuel (t_length timeo)) (fun _ =>
    status ← task_inb STATUS_PORT;
    if busy status then
      expired ← timeout_expired timeo;
      mret (if expired : bool then Leave status else Next tt)
    else mret (Leave status)) tt.

Definition input_full (status : Z) : bool := bit_set status SR_INPUT_BUFFER_STATUS.
Definition output_empty (status : Z) : bool := negb (bit_set status SR_OUTPUT_BUFFER_STATUS).

Definition wait_ctrl_input_buffer_ready : M bool :=
  status ← poll_status input_full; mret (negb (input_full status)).

Definition wait_ctrl_output_buffer_ready : M bool :=
  status ← poll_status output_empty; mret (negb (output_empty status)).

(** ** Commands *)

(** [None] when the function returns false, else the response (0 when none is
    asked for). *)
Definition __send_ctrl_cmd (cmd : Z) (data : option Z) (response : bool) : M (option Z) :=
  if match data with Some _ => response | None => false end then mret None
  else
    ok ← wait_ctrl_input_buffer_ready;
    if negb ok then mret None
    else
      task_outb CMD_PORT cmd;;
      match data with
      | Some d =>
          ok ← wait_ctrl_input_buffer_ready;
          if negb ok then mret None else task_outb DATA_PORT d;; mret (Some 0)
      | None =>
          if response then
            ok ← wait_ctrl_output_buffer_ready;
            if negb ok then mret None else r ← task_inb DATA_PORT; mret (Some r)
          else mret (Some 0)
      end.

Definition send_ctrl_cmd (cmd : ctrl_command) : M bool :=
  r ← __send_ctrl_cmd (command_byte cmd) None false; mret (bool_decide (is_Some r)).
Definition send_ctrl_cmd_with_data (cmd : ctrl_command) (data : Z) : M bool :=
  r ← __send_ctrl_cmd (command_byte cmd) (Some data) false; mret (bool_decide (is_Some r)).
Definition send_ctrl_cmd_with_response (cmd : ctrl_command) : M (option Z) :=
  __send_ctrl_cmd (command_byte cmd) None true.

(** ** Steps of the initialisation *)

Definition disable_usb_legacy_support : M bool := mret true.
Definition ps2ctrl_exists : M bool := mret true.

Definition disable_devices : M bool :=
  ok ← send_ctrl_cmd DISABLE_FIRST_PS2_PORT;
  if negb ok then mret false
  else
    ok ← send_ctrl_cmd DISABLE_SECOND_PS2_PORT;
    if negb ok then mret false else mret true.

Definition flush_controller_output_buffer : M unit :=
  status ← task_inb STATUS_PORT;
  if Z.land status SR_OUTPUT_BUFFER_STATUS =? 0 then mret tt
  else _ ← task_inb DATA_PORT; mret tt.

(** The configuration with interrupts and translation off. *)
Definition clear_conf (conf_byte : Z) : Z :=
  let conf_byte := Z.land conf_byte (Z.lnot CTRL_CONF_FIRST_PS2_PORT_INTERRUPT) in
  let conf_byte := Z.land conf_byte (Z.lnot CTRL_CONF_SECOND_PS2_PORT_INTERRUPT) in
  Z.land conf_byte (Z.lnot CTRL_CONF_FIRST_PS2_PORT_TRANSLATION).

Definition set_controller_configuration_byte : M Z :=
  r ← send_ctrl_cmd_with_response READ_BYTE_0;
  match r with
  | None => mret (u8 (-1))
  | Some conf_byte =>
      ok ← send_ctrl_cmd_with_data WRITE_BYTE_0 (clear_conf conf_byte);
      if negb ok then mret (u8 (-1)) else mret (clear_conf conf_byte)
  end.

(** A failure of the command does not return: [result] is then read without
    having been set; [uninit] is what its storage held. *)
Definition check_controller_selt_test (uninit : Z) : M bool :=
  r ← send_ctrl_cmd_with_response TEST_PS2_CONTROLLER;
  let result := default uninit r in
  if negb (result =? 0x55) && negb (result =? 0xfc) then mret false
  else mret (result =? 0x55).

Definition has_two_channels : M Z :=
  ok ← send_ctrl_cmd ENABLE_SECOND_PS2_PORT;
  if negb ok then mret (-1)
  else
    r ← send_ctrl_cmd_with_response READ_BYTE_0;
    match r with
    | None => mret (-1)
    | Some conf_byte =>
        if bit_set conf_byte CTRL_CONF_SECOND_PS2_PORT_CLOCK then mret 0
        else
          ok ← send_ctrl_cmd DISABLE_SECOND_PS2_PORT;
          if negb ok then mret (-1) else mret 1
    end.

Definition check_single_interface_test (first_interface : bool) : M bool :=
  r ← send_ctrl_cmd_with_response (if first_interface then TEST_FIRST_PS2_PORT else TEST_SECOND_PS2_PORT);
  match r with
  | None => mret false
  | Some result => if 4 <? result then mret false else if result =? 0 then mret true else mret false
  end.

Definition check_interface_test (single_channel : bool) : M bool :=
  ok ← check_single_interface_test true;
  if negb ok then mret false
  else if single_channel then mret true
  else check_single_interface_test false.

(** The labels [disable_first_interface] and [disable_second_interface]. *)
Definition disable_first_interface : M bool :=
  _ ← send_ctrl_cmd DISABLE_FIRST_PS2_PORT; mret false.
Definition disable_second_interface (single_channel : bool) : M bool :=
  (if single_channel then mret true else send_ctrl_cmd DISABLE_SECOND_PS2_PORT);;
  disable_first_interface.

Definition enable_devices (single_channel enable_irq : bool) : M bool :=
  ok ← send_ctrl_cmd ENABLE_FIRST_PS2_PORT;
  if negb ok then mret false
  else
    ok ← (if single_channel then mret true else send_ctrl_cmd ENABLE_SECOND_PS2_PORT);
    if negb ok then disable_first_interface
    else if negb enable_irq then mret true
    else
      r ← send_ctrl_cmd_with_response READ_BYTE_0;
      match r with
      | None => disable_second_interface single_channel
      | Some conf_byte =>
          let conf_byte := Z.lor conf_byte CTRL_CONF_FIRST_PS2_PORT_INTERRUPT in
          let conf_byte := if single_channel then conf_byte
            else Z.lor conf_byte CTRL_CONF_SECOND_PS2_PORT_INTERRUPT in
          ok ← send_ctrl_cmd_with_data WRITE_BYTE_0 conf_byte;
          if negb ok then disable_second_interface single_channel else mret true
      end.

(** ** The device of the first port *)

Definition send_byte_to_first_port (data : Z) : M bool :=
  status ← poll_status input_full;
  if input_full status then mret false else task_outb DATA_PORT data;; mret true.

Definition send_byte_to_second_port (data : Z) : M bool := NOT_IMPLEMENTED.

(** [Some data] when a byte has been received. *)
Definition recv_byte_from_first_port_sync : M (option Z) :=
  status ← poll_status output_empty;
  if output_empty status then mret None else data ← task_inb DATA_PORT; mret (Some data).

(** One attempt of the reset: [Next] is [goto retry], [Leave] is
    [next_device]. *)
Definition reset_attempt : M (ctl unit unit) :=
  sent ← send_byte_to_first_port 0xff;
  if negb sent then mret (Next tt)
  else
    response ← recv_byte_from_first_port_sync;
    match response with
    | None => mret (Next tt)
    | Some response =>
        if response =? 0xfc then mret (Next tt)
        else if negb (response =? 0xfa) then mret (Leave tt)
        else
          result ← recv_byte_from_first_port_sync;
          match result with
          | None => mret (Next tt)
          | Some result => if result =? 0xaa then mret (Leave tt) else mret (Next tt)
          end
    end.

(** The state of the loop is [max_try]. *)
Definition reset_devices (single_channel : bool) : M bool :=
  ok ← st_loop 6 (fun max_try : Z =>
    if max_try <? 0 then mret (Leave false)
    else
      c ← reset_attempt;
      match c with Next _ => mret (Next (max_try - 1)) | Leave _ => mret (Leave true) end) 3;
  if negb ok then mret false
  else if negb single_channel then NOT_IMPLEMENTED
  else mret true.

Definition device_type_from_id_bytes (bytes : list Z) (nbytes : Z) : M ps2_device_type :=
  if 2 <? nbytes then panic "invalid argument"
  else if nbytes =? 0 then mret PS2_DEVICE_KEYBOARD_AT_WITH_TRANSLATION
  else
    b0 ← lift (aget bytes 0);
    if nbytes =? 1 then
      mret (if b0 =? 0 then PS2_DEVICE_MOUSE_STD
            else if b0 =? 3 then PS2_DEVICE_MOUSE_WITH_SCROLL_WHEEL
            else if b0 =? 4 then PS2_DEVICE_MOUSE_5BUTTON else PS2_DEVICE_UNKNOWN)
    else if negb (b0 =? 0xab) then mret PS2_DEVICE_UNKNOWN
    else
      b1 ← lift (aget bytes 1);
      mret (if (b1 =? 0x41) || (b1 =? 0xc1) then PS2_DEVICE_KEYBOARD_MF2_WITH_TRANSLATION
            else if b1 =? 0x83 then PS2_DEVICE_KEYBOARD_MF2 else PS2_DEVICE_UNKNOWN).

(** ** Drivers *)

(** A loop over the slots, without effects on the world. *)
Definition slots_loop {R S} (body : Z -> S -> world HW -> res (ctl R S)) (s : S) : M (ctl R S) := fun w =>
  match for_ctl 4 0 (fun slot s => body slot s w) s with Ok c => Ok (c, w) | Err e => Err e end.

(** The driver of a slot. *)
Definition slot_driver (slot : Z) (w : world HW) : res ps2driver :=
  p ← aget (drivers (ctrl w)) slot;
  match driver_at w !! p with Some d => Ok d | None => Err Oob end.

Definition find_driver (type : ps2_device_type) : M Z :=
  if decide (type = PS2_DEVICE_UNKNOWN) then mret 0
  else
    c ← slots_loop (R := unit) (fun slot (driver : Z) w =>
      r ← aget (registered_drivers (ctrl w)) slot;
      if r : bool then
        d ← slot_driver slot w;
        if decide (dev_type d = type) then
          if negb (driver =? 0) then mret (Next driver)
          else p ← aget (drivers (ctrl w)) slot; mret (Next p)
        else mret (Next driver)
      else mret (Next driver)) 0;
    match c with Next driver => mret driver | Leave _ => mret 0 end.

Definition set_ps2_drivers (l : list Z) (c : ps2ctrl) : ps2ctrl :=
  mk_ctrl (registered_drivers c) (drivers c) (ps2ctrl_initialized c) (ps2ctrl_single_channel c) l (ps2_irq_handlers c).
Definition set_irq_handlers (l : list (option recv_fn)) (c : ps2ctrl) : ps2ctrl :=
  mk_ctrl (registered_drivers c) (drivers c) (ps2ctrl_initialized c) (ps2ctrl_single_channel c) (ps2_drivers c) l.
Definition set_registered (r : list bool) (d : list Z) (c : ps2ctrl) : ps2ctrl :=
  mk_ctrl r d (ps2ctrl_initialized c) (ps2ctrl_single_channel c) (ps2_drivers c) (ps2_irq_handlers c).
Definition set_initialized (single : bool) (c : ps2ctrl) : ps2ctrl :=
  mk_ctrl (registered_drivers c) (drivers c) true single (ps2_drivers c) (ps2_irq_handlers c).

Definition install_driver (driver port : Z) : M bool :=
  if (driver =? 0) || (1 <? port) then mret false
  else
    l ← gets (fun w => ps2_drivers (ctrl w));
    p ← lift (aget l port);
    if negb (p =? 0) then mret false
    else
      l ← lift (aset l port driver);
      update_ctrl (set_ps2_drivers l);;
      mret true.

(** The loops of [ps2ctrl_register_driver]: is the driver, or one of its name,
    registered; the first free slot. *)
Definition is_registered (driver : Z) : M bool :=
  me ← get_driver driver;
  c ← slots_loop (fun slot (_ : unit) w =>
    r ← aget (registered_drivers (ctrl w)) slot;
    if negb r then mret (Next tt)
    else
      p ← aget (drivers (ctrl w)) slot;
      if driver =? p then mret (Leave tt)
      else d ← slot_driver slot w; if (name me =? name d)%string then mret (Leave tt) else mret (Next tt)) tt;
  mret (match c with Leave _ => true | Next _ => false end).

Definition free_slot : M Z :=
  c ← slots_loop (fun slot (_ : unit) w =>
    r ← aget (registered_drivers (ctrl w)) slot;
    mret (if negb r then Leave slot else Next tt)) tt;
  mret (match c with Leave slot => slot | Next _ => PS2CTRL_MAX_DRIVERS end).

Definition ps2ctrl_register_driver (driver : Z) : M bool :=
  if driver =? 0 then mret false
  else
    init ← gets (fun w => ps2ctrl_initialized (ctrl w));
    if negb init then mret false
    else
      known ← is_registered driver;
      if known : bool then mret false
      else
        slot ← free_slot;
        if slot =? PS2CTRL_MAX_DRIVERS then mret false
        else
          c ← gets ctrl;
          ds ← lift (aset (drivers c) slot driver);
          rs ← lift (aset (registered_drivers c) slot true);
          update_ctrl (set_registered rs ds);;
          mret true.

(** ** Sending *)

Definition ps2ctrl_input_buffer_empty (status : Z) : bool := Z.land status SR_INPUT_BUFFER_STATUS =? 0.

(** The state of the loop is [nb_tries]; it leaves with the last status. *)
Definition ps2ctrl_send_data (data timeout : Z) : M bool :=
  timeo ← timeout_start (timeout_init timeout);
  status ← st_loop (wait_fuel (t_length timeo)) (fun nb_tries : Z =>
    (if 0 <? nb_tries then clock_sleep 20 else mret tt);;
    status ← task_inb STATUS_PORT;
    if negb (ps2ctrl_input_buffer_empty status) then
      expired ← timeout_expired timeo;
      mret (if expired : bool then Leave status else Next (nb_tries + 1))
    else mret (Leave status)) 0;
  if negb (ps2ctrl_input_buffer_empty status) then mret false
  else task_outb DATA_PORT data;; mret true.

Definition ps2ctrl_send_data_first_port (data timeout : Z) : M bool :=
  ok ← ps2ctrl_send_data data timeout; if negb ok then mret false else mret true.

Definition ps2ctrl_send_data_second_port (data timeout : Z) : M bool :=
  single ← gets (fun w => ps2ctrl_single_channel (ctrl w));
  if single : bool then mret false
  else
    ok ← send_ctrl_cmd WRITE_BYTE_SECOND_PS2_INPUT_PORT;
    if negb ok then mret false
    else
      ok ← ps2ctrl_send_data data timeout; if negb ok then mret false else mret true.

(** ** Initialisation and identification *)

Definition ps2ctrl_init (uninit : Z) : M Z :=
  init ← gets (fun w => ps2ctrl_initialized (ctrl w));
  if init : bool then mret (-1)
  else
    update_ctrl (set_registered (replicate 4 false) (replicate 4 0));;
    ok ← disable_usb_legacy_support;
    if negb ok then mret (-1)
    else
    ok ← ps2ctrl_exists;
    if negb ok then mret (-1)
    else
    ok ← disable_devices;
    if negb ok then mret (-1)
    else
    flush_controller_output_buffer;;
    configuration_byte ← set_controller_configuration_byte;
    if configuration_byte =? u8 (-1) then mret (-1)
    else
    let single_channel := bit_set configuration_byte CTRL_CONF_SECOND_PS2_PORT_CLOCK in
    ok ← check_controller_selt_test uninit;
    if negb ok then mret (-1)
    else
    configuration_byte ← set_controller_configuration_byte;
    if configuration_byte =? u8 (-1) then mret (-1)
    else
    ret ← (if single_channel then mret 0 else has_two_channels);
    if ret <? 0 then mret (-1)
    else
    let single_channel := if single_channel then true else ret =? 0 in
    ok ← check_interface_test single_channel;
    if negb ok then mret (-1)
    else
    ok ← enable_devices single_channel true;
    if negb ok then mret (-1)
    else
    ok ← reset_devices single_channel;
    if negb ok then mret (-1)
    else
    update_ctrl (set_initialized single_channel);;
    mret 0.

(** Sends a command and waits for its acknowledgement. *)
Definition send_and_ack (cmd : Z) : M bool :=
  sent ← send_byte_to_first_port cmd;
  if negb sent then mret false
  else
    r ← recv_byte_from_first_port_sync;
    mret (match r with Some data => data =? 0xfa | None => false end).

(** The loop that receives the identification; its state is the bytes and their
    number. *)
Definition recv_identity (timeo : timeout) : M (list Z * Z) :=
  st_loop (wait_fuel (t_length timeo)) (fun '(bytes, n) =>
    r ← recv_byte_from_first_port_sync;
    '(bytes, n) ← match r with
      | Some b => bytes ← lift (aset bytes n b); mret (bytes, n + 1)
      | None => mret (bytes, n)
      end;
    if n <? 2 then
      expired ← timeout_expired timeo;
      mret (if expired : bool then Leave (bytes, n) else Next (bytes, n))
    else mret (Leave (bytes, n))) ([0; 0], 0).

Definition ps2ctrl_identify_devices : M bool :=
  init ← gets (fun w => ps2ctrl_initialized (ctrl w));
  if negb init then mret false
  else
    ok ← send_and_ack 0xf5;
    if negb ok then mret false
    else
    ok ← send_and_ack 0xf2;
    if negb ok then mret false
    else
    timeo ← timeout_start (timeout_init 1000);
    '(identify_bytes, identify_nbytes) ← recv_identity timeo;
    device_type ← device_type_from_id_bytes identify_bytes identify_nbytes;
    if decide (device_type = PS2_DEVICE_UNKNOWN) then mret false
    else
    driver ← find_driver device_type;
    if driver =? 0 then mret false
    else
    ok ← install_driver driver 0;
    if negb ok then mret false
    else
    single ← gets (fun w => ps2ctrl_single_channel (ctrl w));
    if negb single then NOT_IMPLEMENTED else mret true.

Definition ps2ctrl_cpu_reset : M bool :=
  ok ← wait_ctrl_input_buffer_ready;
  if negb ok then mret false else task_outb CMD_PORT 0xfe;; mret true.

End Ctrl.
