(* ===== verification/Keyboard.v ===== *)
(** * The keyboard driver (keyboard.c)

    The commands sent to the keyboard, the state machine that assembles scan
    codes into keys, and the driver's entry points. *)
From S2P Require Import Prelude Io Keys World Irq Clock Isr Ps2driver Ps2ctrl.

Definition KBD_TIMEOUT : Z := 200.

(** The commands of [enum keyboard_command] that are sent. *)
Definition KBD_CMD_SET_LED : Z := 0xed.
Definition KBD_CMD_ECHO : Z := 0xee.
Definition KBD_CMD_SCAN_CODE_SET : Z := 0xf0.
Definition KBD_CMD_SET_TYPEMATIC : Z := 0xf3.
Definition KBD_CMD_ENABLE_SCANNING : Z := 0xf4.
Definition KBD_CMD_DISABLE_SCANNING : Z := 0xf5.
Definition KBD_CMD_SET_DEFAULT_PARAMS : Z := 0xf6.
Definition KBD_CMD_RESEND_LAST_BYTE : Z := 0xfe.
Definition KBD_CMD_RESET_AND_SELF_TEST : Z := 0xff.

(** [enum keyboard_response] *)
Definition KBD_RES_SELF_TEST_PASSED : Z := 0xaa.
Definition KBD_RES_ECHO : Z := 0xee.
Definition KBD_RES_ACK : Z := 0xfa.
Definition KBD_RES_SELF_TEST_FAILED0 : Z := 0xfc.
Definition KBD_RES_SELF_TEST_FAILED1 : Z := 0xfd.
Definition KBD_RES_RESEND : Z := 0xfe.

(** [enum keyboard_led] *)
Definition KBD_LED_OFF : Z := 0.
Definition KBD_LED_SCROLL : Z := Z.shiftl 1 0.
Definition KBD_LED_NUMBER : Z := Z.shiftl 1 1.
Definition KBD_LED_CAPSLOCK : Z := Z.shiftl 1 2.

Definition set_led_state (v : Z) (k : keyboard) : keyboard :=
  mk_kbd v (keyboard_scanset k) (kbd_state k) (kbd_seq k) (reported k).
Definition set_scanset (s : keyboard_scs) (k : keyboard) : keyboard :=
  mk_kbd (keyboard_led_state k) s (kbd_state k) (kbd_seq k) (reported k).
Definition set_state (s : keyboard_state) (k : keyboard) : keyboard :=
  mk_kbd (keyboard_led_state k) (keyboard_scanset k) s (kbd_seq k) (reported k).
Definition set_seq (q : scancode_seq) (k : keyboard) : keyboard :=
  mk_kbd (keyboard_led_state k) (keyboard_scanset k) (kbd_state k) q (reported k).
Definition report (text : list Z) (t : keycode_type) (k : keyboard) : keyboard :=
  mk_kbd (keyboard_led_state k) (keyboard_scanset k) (kbd_state k) (kbd_seq k) ((text, t) :: reported k).

Section Keyboard.
Context {HW : Type} `{Hardware HW}.
Notation M := (ST (world HW)).

(** ** Talking to the keyboard *)

(** A call through [driver->send]. *)
Definition call_send (f : send_fn) (data timeout : Z) : M bool :=
  match f with
  | ps2ctrl_send_data_first_port_fn => ps2ctrl_send_data_first_port data timeout
  | ps2ctrl_send_data_second_port_fn => ps2ctrl_send_data_second_port data timeout
  end.

(** [Some response] when the function returns true; the state of the loop is
    [max_try]. *)
Definition keyboard_send_and_recv (data : Z) : M (option Z) :=
  d ← get_driver keyboard_driver;
  match send d with
  | None => mret None
  | Some f =>
      st_loop 4 (fun max_try : Z =>
        if max_try =? 0 then mret (Leave None)
        else
          sent ← call_send f data KBD_TIMEOUT;
          if negb sent then mret (Next (max_try - 1))
          else
            r ← ps2driver_read keyboard_driver KBD_TIMEOUT;
            match r with
            | None => mret (Next (max_try - 1))
            | Some res => mret (Leave (Some res))
            end) 3
  end.

(** Sends until the keyboard stops asking for it again, three times at most;
    the answer must be [expected]. *)
Definition send_expecting (expected data : Z) : M bool :=
  st_loop 4 (fun max_try : Z =>
    if max_try =? 0 then mret (Leave false)
    else
      r ← keyboard_send_and_recv data;
      match r with
      | None => mret (Leave false)
      | Some response =>
          if response =? KBD_RES_RESEND then mret (Next (max_try - 1))
          else if negb (response =? expected) then mret (Leave false)
          else mret (Leave true)
      end) 3.

Definition keyboard_send (data : Z) : M bool := send_expecting KBD_RES_ACK data.
Definition keyboard_echo : M bool := send_expecting KBD_RES_ECHO KBD_CMD_ECHO.

(** ** Commands *)

Definition keyboard_set_led (led_state : Z) : M bool :=
  if Z.lor (Z.lor KBD_LED_SCROLL KBD_LED_NUMBER) KBD_LED_CAPSLOCK <? led_state then mret false
  else
    ok ← keyboard_send KBD_CMD_SET_LED;
    if negb ok then mret false
    else
      ok ← keyboard_send led_state;
      if negb ok then mret false
      else update_kbd (set_led_state led_state);; mret true.

(** [Some scs] when the function returns true. *)
Definition keyboard_get_scan_code_set : M (option keyboard_scs) :=
  ok ← keyboard_send KBD_CMD_SCAN_CODE_SET;
  if negb ok then mret None
  else
    ok ← keyboard_send 0;
    if negb ok then mret None
    else
      r ← ps2driver_read keyboard_driver KBD_TIMEOUT;
      mret (match r with
        | None => None
        | Some s => if s =? 1 then Some KBD_SCS_1 else if s =? 2 then Some KBD_SCS_2
                    else if s =? 3 then Some KBD_SCS_3 else None
        end).

Definition keyboard_set_scan_code_set (scs : keyboard_scs) : M bool :=
  if decide (scs = KBD_SCS_UNKNOWN) then mret false
  else if decide (scs <> KBD_SCS_2) then NOT_IMPLEMENTED
  else
    ok ← keyboard_send KBD_CMD_SCAN_CODE_SET;
    if negb ok then mret false
    else ok ← keyboard_send (scs_value scs); if negb ok then mret false else mret true.

Definition keyboard_identify : M bool := NOT_IMPLEMENTED.

(** The values of [enum keyboard_typematic_repeat] and [keyboard_typematic_delay]. *)
Definition keyboard_set_typematic (repeat delay : Z) : M bool :=
  ok ← keyboard_send KBD_CMD_SET_TYPEMATIC;
  if negb ok then mret false
  else
    ok ← keyboard_send (u8 (Z.lor (u8 repeat) (Z.shiftl (u8 delay) 5)));
    if negb ok then mret false else mret true.

(** A command without argument. *)
Definition simple_command (cmd : Z) : M bool :=
  ok ← keyboard_send cmd; if negb ok then mret false else mret true.

Definition keyboard_enable_scanning : M bool := simple_command KBD_CMD_ENABLE_SCANNING.
Definition keyboard_disable_scanning : M bool := simple_command KBD_CMD_DISABLE_SCANNING.
Definition keyboard_set_default_parameter : M bool := simple_command KBD_CMD_SET_DEFAULT_PARAMS.

Definition keyboard_resend_last_byte : M (option Z) := keyboard_send_and_recv KBD_CMD_RESEND_LAST_BYTE.

Definition keyboard_reset_and_self_test : M bool :=
  ok ← keyboard_send KBD_CMD_RESET_AND_SELF_TEST;
  if negb ok then mret false
  else
    r ← ps2driver_read keyboard_driver KBD_TIMEOUT;
    mret (match r with
      | None => false
      | Some result =>
          if (result =? KBD_RES_SELF_TEST_FAILED0) || (result =? KBD_RES_SELF_TEST_FAILED1) then false
          else result =? KBD_RES_SELF_TEST_PASSED
      end).

(** ** The state machine *)

(** The key of a complete sequence. *)
Definition translate_seq (q : scancode_seq) : res keycode_res :=
  let s := scancodes q in
  if len q =? 1 then
    c ← aget s 0; k ← aget scan_to_key c; mret (mk_res k KBD_KEYTYPE_MAKE)
  else if len q =? 2 then
    c ← aget s 0; d ← aget s 1;
    if c =? 0xe0 then mret (mk_res (scan_2bytes_to_key d) KBD_KEYTYPE_MAKE)
    else k ← aget scan_to_key d; mret (mk_res k KBD_KEYTYPE_BREAK)
  else if len q =? 3 then
    d ← aget s 2; mret (mk_res (scan_2bytes_to_key d) KBD_KEYTYPE_BREAK)
  else if len q =? 4 then
    _ ← keyboard_validate_sequence [0xe0; 0x12; 0xe0; 0x7c] s (len q);
    mret (mk_res KEY_PRNT_SCRN KBD_KEYTYPE_MAKE)
  else if len q =? 6 then
    _ ← keyboard_validate_sequence [0xe0; 0xf0; 0x7c; 0xe0; 0xf0; 0x12] s (len q);
    mret (mk_res KEY_PRNT_SCRN KBD_KEYTYPE_BREAK)
  else if len q =? 8 then
    _ ← keyboard_validate_sequence [0xe1; 0x14; 0x77; 0xe1; 0xf0; 0x14; 0xf0; 0x77] s (len q);
    mret (mk_res KEY_PAUSE KBD_KEYTYPE_MAKE)
  else mret (mk_res KEY_UNK KBD_KEYTYPE_MAKE).

Definition keyboard_state_translate : M keycode_res :=
  q ← gets (fun w => kbd_seq (kbd w));
  r ← lift (translate_seq q);
  update_kbd (set_state KBD_STATE_WAIT_SCAN);;
  mret r.

(** A further byte of a sequence; [need] is a [size_t]. *)
Definition read_more (q : scancode_seq) (scancode : Z) : res scancode_seq :=
  s ← aset (scancodes q) (len q) scancode;
  let len := len q + 1 in
  let need := u32 (need q - 1) in
  s0 ← aget s 0; s1 ← aget s 1; s2 ← aget s 2;
  mret (mk_seq s len
    (if (len =? 2) && (s0 =? 0xe0) then
       if s1 =? 0x12 then 2 else if s1 =? 0xf0 then 1 else need
     else if (len =? 3) && (s2 =? 0x7c) then 3
     else need)).

Definition keyboard_state_read_more : M unit :=
  r ← ps2driver_read keyboard_driver 0;
  match r with
  | None => mret tt
  | Some scancode =>
      q ← gets (fun w => kbd_seq (kbd w));
      q ← lift (read_more q scancode);
      update_kbd (set_seq q);;
      if need q =? 0 then update_kbd (set_state KBD_STATE_TRANSLATE) else mret tt
  end.

(** The first byte of a sequence, and the state it leads to. *)
Definition first_scan (q : scancode_seq) (scancode : Z) : res (scancode_seq * keyboard_state) :=
  s ← aset (scancodes q) 0 scancode;
  mret (if (scancode =? 0xe0) || (scancode =? 0xf0) then (mk_seq s 1 1, KBD_STATE_READ_MORE)
        else if scancode =? 0xe1 then (mk_seq s 1 7, KBD_STATE_READ_MORE)
        else (mk_seq s 1 (need q), KBD_STATE_TRANSLATE)).

Definition keyboard_state_wait_scan : M unit :=
  r ← ps2driver_read keyboard_driver 0;
  match r with
  | None => mret tt
  | Some scancode =>
      q ← gets (fun w => kbd_seq (kbd w));
      '(q, st) ← lift (first_scan q scancode);
      update_kbd (set_seq q);;
      update_kbd (set_state st)
  end.

Definition keyboard_state_reset : M unit :=
  ps2driver_flush_recv_queue keyboard_driver;;
  update_kbd (fun k => set_seq (mk_seq (scancodes (kbd_seq k)) 0 0) k);;
  update_kbd (set_state KBD_STATE_WAIT_SCAN).

(** The string in a buffer. *)
Fixpoint buf_string (buf : list Z) : list Z :=
  match buf with
  | [] => []
  | b :: buf => if b =? 0 then [] else b :: buf_string buf
  end.

(** The key is reported on the console. *)
Definition keyboard_task : M unit :=
  st ← gets (fun w => kbd_state (kbd w));
  match st with
  | KBD_STATE_RESET => keyboard_state_reset
  | KBD_STATE_WAIT_SCAN => keyboard_state_wait_scan
  | KBD_STATE_READ_MORE => keyboard_state_read_more
  | KBD_STATE_TRANSLATE =>
      kc_res ← keyboard_state_translate;
      buf ← lift (keycode2str (kc kc_res) (replicate 16 0));
      update_kbd (report (buf_string buf) (type kc_res))
  end.

(** ** The driver *)

Definition keyboard_start (irq_line : Z) : M bool :=
  update_driver keyboard_driver (set_irq_line irq_line);;
  ps2driver_flush_recv_queue keyboard_driver;;
  _ ← keyboard_set_led KBD_LED_OFF;
  r ← keyboard_get_scan_code_set;
  match r with
  | None => mret false
  | Some scs =>
      update_kbd (set_scanset scs);;
      ok ← (if decide (scs = KBD_SCS_2) then mret true else keyboard_set_scan_code_set KBD_SCS_2);
      if negb ok then mret false
      else
        ok ← keyboard_enable_scanning;
        if negb ok then mret true
        else update_kbd (set_state KBD_STATE_RESET);; mret true
  end.

Definition keyboard_init : M bool := ps2ctrl_register_driver keyboard_driver.

(** ** Starting the drivers (ps2ctrl.c), the subsystem and the main loop *)

(** A call through [driver->start]. *)
Definition call_start (f : start_fn) (irq_line : Z) : M bool :=
  match f with keyboard_start_fn => keyboard_start irq_line end.

(** One round of the loop over the ports: false stops it. *)
Definition start_port (port : Z) : M bool :=
  let irq_line := if port =? 0 then IRQ1_KEYBOARD else IRQ12_PS2_MOUSE in
  ps ← gets (fun w => ps2_drivers (ctrl w));
  driver ← lift (aget ps port);
  if driver =? 0 then mret true
  else
    d ← get_driver driver;
    match recv d with
    | None => mret tt
    | Some f =>
        hs ← gets (fun w => ps2_irq_handlers (ctrl w));
        hs ← lift (aset hs port (Some f));
        update_ctrl (set_irq_handlers hs)
    end;;
    irq_clear_mask irq_line;;
    interrupts;;
    update_driver driver (set_send (Some (if port =? 0 then ps2ctrl_send_data_first_port_fn
                                          else ps2ctrl_send_data_second_port_fn)));;
    match start d with
    | None => mret true
    | Some f => call_start f irq_line
    end.

Definition ps2ctrl_start_drivers : M bool :=
  init ← gets (fun w => ps2ctrl_initialized (ctrl w));
  if negb init then mret false
  else
    ok ← start_port 0;
    if negb ok then mret false
    else
      ok ← start_port 1;
      if negb ok then mret false else mret true.

(** The quanta of the main loop (kernel.c). *)
Definition kernel_main_loop_round : M unit := sched_run_task 100 keyboard_task.

End Keyboard.
