(* ===== verification/IsrSpec.v ===== *)
(** * Interrupts: specification

    The receive queue as a list, the invariant under which the kernel takes
    interrupts, and what they may change: time passes, and bytes are appended to
    the queue of the keyboard while its line is open. *)
From S2P Require Import Prelude Io World Irq Clock Isr.

(** ** The ring buffer *)

(** [d]'s queue holds the list [l], oldest byte first. *)
Record holds (d : ps2driver) (l : list Z) : Prop := {
  h_length : Z.of_nat (length (recv_queue d)) = PS2_DRIVER_MAX_RECV;
  h_head : 0 <= recv_queue_head d < PS2_DRIVER_MAX_RECV;
  h_last : recv_queue_last d = (recv_queue_head d + recv_queue_size d) mod PS2_DRIVER_MAX_RECV;
  h_size : recv_queue_size d = Z.of_nat (length l);
  h_room : Z.of_nat (length l) <= PS2_DRIVER_MAX_RECV;
  h_data i b : l !! i = Some b ->
    recv_queue d !! Z.to_nat ((recv_queue_head d + Z.of_nat i) mod PS2_DRIVER_MAX_RECV) = Some b;
}.

(** The list is determined by the queue. *)
Lemma holds_inj d l l' : holds d l -> holds d l' -> l = l'.
Proof.
  intros [_ _ _ Hs _ Hd] [_ _ _ Hs' _ Hd']. apply list_eq_same_length with (length l); [lia|done|].
  intros i x y Hi Hx Hy. apply Hd in Hx. apply Hd' in Hy. congruence.
Qed.

(** What does not change. *)
Definition same_driver (d d' : ps2driver) : Prop :=
  name d' = name d /\ dev_type d' = dev_type d /\ irq_line d' = irq_line d /\
  start d' = start d /\ recv d' = recv d /\ send d' = send d.

#[export] Instance same_driver_refl : Reflexive same_driver.
Proof. by intros d. Qed.
#[export] Instance same_driver_trans : Transitive same_driver.
Proof. unfold same_driver. intros d1 d2 d3. intuition congruence. Qed.

Ltac ring_unfold := unfold PS2_DRIVER_MAX_RECV in *.

(** Indices of the ring. *)
Lemma ring_next x : 0 <= x < 255 -> (x + 1) mod 255 = if x + 1 =? 255 then 0 else x + 1.
Proof. intros. destruct (Z.eqb_spec (x + 1) 255) as [->|]; [done|]. apply Z.mod_small. lia. Qed.

Lemma ring_distinct h i j : 0 <= h < 255 -> 0 <= i < 255 -> 0 <= j < 255 -> i <> j ->
  (h + i) mod 255 <> (h + j) mod 255.
Proof. intros. Z.div_mod_to_equations. lia. Qed.

Lemma holds_enqueue d l b q :
  holds d l -> recv_queue_size d <> PS2_DRIVER_MAX_RECV ->
  aset (recv_queue d) (recv_queue_last d) b = Ok q ->
  let last := if recv_queue_last d + 1 =? PS2_DRIVER_MAX_RECV then 0 else recv_queue_last d + 1 in
  holds (set_queue q (recv_queue_head d) last (recv_queue_size d + 1) d) (l ++ [b]).
Proof.
  intros [Hl Hh Hla Hs Hr Hd] Hfull Hq last. ring_unfold. apply aset_Ok in Hq as [Hin ->].
  pose proof (Z.mod_pos_bound (recv_queue_head d + recv_queue_size d) 255 ltac:(lia)).
  split; cbn [set_queue recv_queue recv_queue_head recv_queue_last recv_queue_size]; ring_unfold.
  - by rewrite length_insert.
  - done.
  - unfold last. rewrite <- ring_next, Hla by lia. rewrite Z.add_assoc. by rewrite Z.add_mod_idemp_l by lia.
  - rewrite length_app. cbn [length]. lia.
  - rewrite length_app. cbn [length]. lia.
  - intros i x Hi. apply lookup_app_Some in Hi as [Hi|[Hi Hx]].
    + pose proof (lookup_lt_Some _ _ _ Hi). rewrite list_lookup_insert_ne; [by apply Hd|].
      intros Heq. apply Z2Nat.inj in Heq; [|lia|apply Z.mod_pos_bound; lia].
      rewrite Hla in Heq. revert Heq. apply ring_distinct; lia.
    + apply list_lookup_singleton_Some in Hx as [Hx <-].
      replace (Z.of_nat i) with (recv_queue_size d) by lia. rewrite <- Hla.
      apply list_lookup_insert_eq. lia.
Qed.

Lemma holds_empty d : Z.of_nat (length (recv_queue d)) = PS2_DRIVER_MAX_RECV ->
  holds (set_queue (recv_queue d) 0 0 0 d) [].
Proof. intros Hl. split; cbn; ring_unfold; done || lia. Qed.

Lemma holds_first d b l : holds d (b :: l) -> aget (recv_queue d) (recv_queue_head d) = Ok b.
Proof.
  intros H. pose proof (h_head _ _ H). apply aget_Ok. split; [lia|].
  pose proof (h_data _ _ H 0%nat b eq_refl) as Hb. ring_unfold.
  by rewrite Z.add_0_r, Z.mod_small in Hb.
Qed.

Lemma holds_dequeue d b l :
  holds d (b :: l) ->
  let head := if recv_queue_head d + 1 =? PS2_DRIVER_MAX_RECV then 0 else recv_queue_head d + 1 in
  holds (set_queue (recv_queue d) head (recv_queue_last d) (recv_queue_size d - 1) d) l.
Proof.
  intros [Hl Hh Hla Hs Hr Hd] head. ring_unfold. cbn [length] in Hs, Hr.
  assert (head = (recv_queue_head d + 1) mod 255) as Heq by (unfold head; by rewrite ring_next).
  split; cbn [set_queue recv_queue recv_queue_head recv_queue_last recv_queue_size]; ring_unfold.
  - done.
  - rewrite Heq. apply Z.mod_pos_bound. lia.
  - rewrite Hla, Heq, Z.add_mod_idemp_l by lia. f_equal. lia.
  - lia.
  - lia.
  - intros i x Hi. rewrite Heq, Z.add_mod_idemp_l by lia.
    replace (recv_queue_head d + 1 + Z.of_nat i) with (recv_queue_head d + Z.of_nat (S i)) by lia. by apply Hd.
Qed.

(** ** The invariant of the interrupts *)

Section Interrupts.
Context {HW : Type} `{HardwareLaws HW}.
Implicit Types (w : world HW) (h : HW).

(** Both controllers are programmed as [irq_init] does, and nothing is in
    service. *)
Definition pics_ok h : Prop :=
  icw (master h) = 0 /\ isr (master h) = 0 /\ base (master h) = IRQ0_INT /\
  icw (slave h) = 0 /\ isr (slave h) = 0 /\ base (slave h) = IRQ7_INT.

(** The lines that are open: the clock, and that of the keyboard or not. *)
Definition KBD_OPEN : Z := 0xfc.
Definition KBD_MASKED : Z := 0xfe.

Record ints_ok (mask : Z) w : Prop := {
  i_pics : pics_ok (hw w);
  i_mask : imr (master (hw w)) = mask;
  i_lines : mask = KBD_MASKED \/ (mask = KBD_OPEN /\ ps2ctrl_initialized (ctrl w) = true);
  i_tick : 0 <= clock_tick w < 2 ^ 31;
  i_handlers : length (ps2_irq_handlers (ctrl w)) = 2%nat;
}.

(** The keyboard's driver is [d] and its queue holds [l]. *)
Definition kbd_queue w d l : Prop := driver_at w !! keyboard_driver = Some d /\ holds d l.

(** What is kept by the interrupts. *)
Definition same_software w w' : Prop :=
  ctrl w' = ctrl w /\ kbd w' = kbd w /\ forall p, p <> keyboard_driver -> driver_at w' !! p = driver_at w !! p.

#[export] Instance same_software_refl : Reflexive same_software.
Proof. by intros w. Qed.
#[export] Instance same_software_trans : Transitive same_software.
Proof.
  intros w1 w2 w3 (Hc & Hk & Hd) (Hc' & Hk' & Hd'). split_and!; [congruence|congruence|].
  intros p Hp. by rewrite Hd', Hd.
Qed.

(** Bytes that arrive are appended while there is room. *)
Definition arrived (l bytes : list Z) : list Z := take 255 (l ++ bytes).

Lemma arrived_app l b1 b2 : arrived (arrived l b1) b2 = arrived l (b1 ++ b2).
Proof.
  unfold arrived. destruct (decide (255 <= length (l ++ b1))%nat).
  - rewrite take_app_le by (rewrite length_take; lia). rewrite take_take, Nat.min_id, (app_assoc l).
    by rewrite (take_app_le (l ++ b1)) by done.
  - rewrite (take_ge (l ++ b1)) by lia. by rewrite app_assoc.
Qed.

Lemma arrived_nil l : (length l <= 255)%nat -> arrived l [] = l.
Proof. intros. unfold arrived. rewrite app_nil_r. by apply take_ge. Qed.

(** *** The bytes of the controller *)

(** The handler of the keyboard receives what comes from the first port. *)
Definition installed w : Prop := ps2_irq_handlers (ctrl w) !! 0%nat = Some (Some keyboard_recv_fn).

(** From [w] to [w'], [bytes] have been read from the controller. *)
Definition got w w' (bytes : list Z) : Prop := installed w -> data_read (hw w') = data_read (hw w) ++ bytes.

(** Nothing has been read. *)
Definition same_reads w w' : Prop := data_read (hw w') = data_read (hw w).

#[export] Instance same_reads_preorder : PreOrder same_reads.
Proof. split; [by intros w|]. intros w1 w2 w3. unfold same_reads. congruence. Qed.

Lemma got_nil w w' : same_reads w w' -> got w w' [].
Proof. intros Hs _. by rewrite app_nil_r. Qed.

Lemma got_app w1 w2 w3 b1 b2 : got w1 w2 b1 -> same_software w1 w2 -> got w2 w3 b2 -> got w1 w3 (b1 ++ b2).
Proof.
  intros H12 [Hc _] H23 Hi. assert (installed w2) as Hi2 by (unfold installed; by rewrite Hc).
  rewrite (H23 Hi2), (H12 Hi). by rewrite app_assoc.
Qed.

Lemma got_reads w1 w2 w3 b : got w1 w2 b -> same_reads w2 w3 -> got w1 w3 b.
Proof. intros Hg Hs Hi. rewrite Hs. by apply Hg. Qed.

Lemma reads_inb port : (port =? 0x60) = false -> pres same_reads (inb (HW := HW) port).
Proof.
  intros Hp w v w'. unfold inb. pose proof (data_read_in port (hw w)) as Hr. rewrite Hp, app_nil_r in Hr.
  destruct (in_port port (hw w)) as [v1 h]. by intros [= _ <-].
Qed.

Lemma reads_outb port v : pres same_reads (outb (HW := HW) port v).
Proof. intros w a w' [= _ <-]. apply data_read_out. Qed.

Lemma reads_get p : pres same_reads (get_driver (HW := HW) p).
Proof. intros w a w'. unfold get_driver. destruct (driver_at w !! p); [by intros [= _ <-]|done]. Qed.

Hint Resolve reads_outb reads_get : pres.
Hint Extern 1 (pres _ (inb _)) => apply reads_inb; reflexivity : pres.

Lemma reads_mask irq : pres same_reads (irq_set_mask (HW := HW) irq).
Proof. unfold irq_set_mask, irq_port, io_wait. destruct (irq <? 8); pres_steps. Qed.
Lemma reads_unmask irq : pres same_reads (irq_clear_mask (HW := HW) irq).
Proof. unfold irq_clear_mask, irq_port, io_wait. destruct (irq <? 8); pres_steps. Qed.
Lemma reads_eoi irq : pres same_reads (irq_send_eoi (HW := HW) irq).
Proof. unfold irq_send_eoi. pres_steps. Qed.
Hint Resolve reads_mask reads_unmask reads_eoi : pres.

Lemma reads_clock : pres same_reads (clock_irq_handler (HW := HW)).
Proof.
  unfold clock_irq_handler. refine (pres_bind _ _ _ _ _); [by apply pres_modify|intros _]. pres_steps.
Qed.

(** The queue grows by the bytes read, while the line of the keyboard is open. *)
Definition queue_grows (mask : Z) w w' : Prop := forall d l, kbd_queue w d l ->
  exists d' bytes, kbd_queue w' d' (arrived l bytes) /\ same_driver d d' /\ (mask <> KBD_MASKED -> got w w' bytes).

(** The handler of the keyboard's bytes. *)
Lemma keyboard_recv_spec E data w d l : kbd_queue w d l ->
  wp E (keyboard_recv data) (fun _ w' => exists d', w' = set_driver keyboard_driver d' w /\
    holds d' (arrived l [data]) /\ same_driver d d') w.
Proof.
  intros [Hd Hl]. pose proof (h_size _ _ Hl) as Hs. pose proof (h_room _ _ Hl) as Hr. ring_unfold.
  unfold keyboard_recv, ps2driver_recv. change (keyboard_driver =? 0) with false. cbn iota.
  apply wp_bind, wp_bind. apply (wp_get_driver _ _ d); [done|].
  destruct (Z.eqb_spec (recv_queue_size d) PS2_DRIVER_MAX_RECV) as [Hf|Hf].
  - apply wp_ret, wp_ret. exists d. rewrite set_driver_same by done. split_and!; [done| |done].
    ring_unfold. unfold arrived. rewrite take_app_le by lia. by rewrite take_ge by lia.
  - assert (is_Ok (aset (recv_queue d) (recv_queue_last d) data)) as [q Hq].
    { pose proof (h_last _ _ Hl) as ->. pose proof (h_length _ _ Hl). ring_unfold. eexists. apply aset_in.
      pose proof (Z.mod_pos_bound (recv_queue_head d + recv_queue_size d) 255). lia. }
    pose proof (holds_enqueue _ _ _ _ Hl Hf Hq) as He. cbv zeta in He.
    apply wp_bind. apply (wp_lift _ _ _ q); [done|]. cbv zeta.
    apply wp_bind. apply (wp_update_driver _ _ d); [done|]. apply wp_ret, wp_ret.
    eexists. split_and!; [reflexivity| |done].
    unfold arrived. rewrite take_ge by (rewrite length_app; cbn [length]; ring_unfold; lia). exact He.
Qed.

(** *** The interrupt controllers *)

(** Only the hardware has changed, and time has not gone back. *)
Definition hw_only w w' : Prop :=
  w' = set_hw (hw w') w /\ (pit_wait (hw w') <= pit_wait (hw w))%nat.

Lemma in_port_keeps port w :
  let w' := set_hw (in_port port (hw w)).2 w in
  hw_only w w' /\ master (hw w') = master (hw w) /\ slave (hw w') = slave (hw w).
Proof. cbn. destruct (in_keeps port (hw w)) as (Hm & Hs & Hp). done. Qed.

Lemma out_port_wait port v w : ~ 0x40 <= port <= 0x43 -> hw_only w (set_hw (out_port port v (hw w)) w).
Proof. intros Hp. split; [done|]. by apply out_wait. Qed.

#[export] Instance hw_only_refl : Reflexive hw_only.
Proof. intros []. by split. Qed.
#[export] Instance hw_only_trans : Transitive hw_only.
Proof. intros w1 w2 w3 [H1 H2] [H3 H4]. split; [|lia]. rewrite H3, H1. done. Qed.

Lemma hw_only_later w w' : hw_only w w' -> later w w'.
Proof. intros [Hw Hp]. right. rewrite Hw. cbn in *. rewrite Hw in Hp. done. Qed.

(** A line of the master: its mask bit, and nothing else. *)
Lemma irq_mask_spec E (f : Z -> Z) irq w : 0 <= irq < 8 -> icw (master (hw w)) = 0 ->
  wp E (let '(port, irq) := irq_port irq in v ← inb port; outb port (u8 (f v));; io_wait)
    (fun _ w' => hw_only w w' /\ slave (hw w') = slave (hw w) /\
       master (hw w') = let p := master (hw w) in mk_pic (u8 (f (imr p))) (isr p) (icw p) (base p) (cascade p) (mode p)) w.
Proof.
  intros Hi Hicw. unfold irq_port. rewrite (proj2 (Z.ltb_lt irq 8)) by lia. unfold MPIC_DATA, io_wait.
  apply wp_bind, wp_inb. rewrite in_master by done.
  destruct (in_port_keeps 0x21 w) as (Hw & Hm & Hs). cbv zeta in *.
  set (w1 := set_hw _ w) in *. apply wp_bind, wp_outb, wp_outb.
  split_and!.
  - etrans; [exact Hw|]. etrans; apply out_port_wait; lia.
  - cbn [hw set_hw]. by rewrite !out_slave.
  - cbn [hw set_hw]. rewrite !out_master. cbn [Z.eqb Pos.eqb]. rewrite Hm. unfold pic_data. by rewrite Hicw.
Qed.

(** The same for a line of the slave. *)
Lemma irq_mask_spec_slave E (f : Z -> Z) irq w : 8 <= irq < 16 -> icw (slave (hw w)) = 0 ->
  wp E (let '(port, irq) := irq_port irq in v ← inb port; outb port (u8 (f v));; io_wait)
    (fun _ w' => hw_only w w' /\ master (hw w') = master (hw w) /\
       slave (hw w') = let p := slave (hw w) in mk_pic (u8 (f (imr p))) (isr p) (icw p) (base p) (cascade p) (mode p)) w.
Proof.
  intros Hi Hicw. unfold irq_port. rewrite (proj2 (Z.ltb_ge irq 8)) by lia. unfold SPIC_DATA, io_wait.
  apply wp_bind, wp_inb. rewrite in_slave by done.
  destruct (in_port_keeps 0xa1 w) as (Hw & Hm & Hs). cbv zeta in *.
  set (w1 := set_hw _ w) in *. apply wp_bind, wp_outb, wp_outb.
  split_and!.
  - etrans; [exact Hw|]. etrans; apply out_port_wait; lia.
  - cbn [hw set_hw]. by rewrite !out_master.
  - cbn [hw set_hw]. rewrite !out_slave. cbn [Z.eqb Pos.eqb]. rewrite Hs. unfold pic_data. by rewrite Hicw.
Qed.

Lemma eoi_master line p : isr p = 0 -> line = 0 \/ line = 1 -> icw p = 0 ->
  pic_cmd 0x20 (pic_ack line p) = p.
Proof. intros Hi Hl Hc. destruct p. cbn in Hi, Hc. subst. by destruct Hl as [-> | ->]. Qed.

(** The end of interrupt of a line of the master. *)
Lemma irq_send_eoi_spec E irq w : irq = 0 \/ irq = 1 ->
  wp E (irq_send_eoi irq) (fun _ w' => hw_only w w' /\ slave (hw w') = slave (hw w) /\
    master (hw w') = pic_cmd 0x20 (master (hw w))) w.
Proof.
  intros Hi. unfold irq_send_eoi. replace (IRQ_MAX_VALUE <? irq) with false by (by destruct Hi as [-> | ->]).
  replace (8 <? irq) with false by (by destruct Hi as [-> | ->]). unfold MPIC_CMD.
  apply wp_bind, wp_ret, wp_outb. split_and!.
  - apply out_port_wait. lia.
  - cbn. by rewrite out_slave.
  - cbn. by rewrite out_master.
Qed.

(** *** What the interrupts do *)

(** From [w] to [w'] interrupts have been taken, under the mask [mask]. *)
Record env (mask : Z) w w' : Prop := {
  e_ok : ints_ok mask w';
  e_later : later w w';
  e_soft : same_software w w';
  e_masked : mask = KBD_MASKED -> driver_at w' = driver_at w;
  e_queue : queue_grows mask w w';
}.

Lemma queue_grows_same mask w w' :
  driver_at w' = driver_at w -> (mask <> KBD_MASKED -> same_reads w w') -> queue_grows mask w w'.
Proof.
  unfold queue_grows, kbd_queue. intros -> Hs d l [Hd Hl]. exists d, []. pose proof (h_room _ _ Hl). ring_unfold.
  rewrite arrived_nil by lia. split_and!; [done..|]. intros Hm. by apply got_nil, Hs.
Qed.

Lemma queue_grows_trans mask w1 w2 w3 : same_software w1 w2 ->
  queue_grows mask w1 w2 -> queue_grows mask w2 w3 -> queue_grows mask w1 w3.
Proof.
  intros Hsw H12 H23 d l Hq. destruct (H12 _ _ Hq) as (d2 & b1 & Hq2 & Hs2 & Hg2).
  destruct (H23 _ _ Hq2) as (d3 & b2 & Hq3 & Hs3 & Hg3). exists d3, (b1 ++ b2).
  rewrite <- arrived_app. split_and!; [done|by etrans|]. intros Hm. by eapply got_app; [apply Hg2|..|apply Hg3].
Qed.

Lemma env_refl mask w : ints_ok mask w -> env mask w w.
Proof. intros Hw. split; [done|reflexivity|reflexivity|done|by apply queue_grows_same]. Qed.

Lemma env_trans mask w1 w2 w3 : env mask w1 w2 -> env mask w2 w3 -> env mask w1 w3.
Proof.
  intros [? ? ? Hm ?] [? ? ? Hm' ?]. split; [done|by etrans|by etrans| |by eapply queue_grows_trans].
  intros Hk. by rewrite Hm', Hm.
Qed.

(** The world after a handler that ends with the acknowledgement of its line. *)
Lemma eoi_restores E mask line w (wi : world HW) (Q : unit -> world HW -> Prop) :
  ints_ok mask w -> line = 0 \/ line = 1 ->
  master (hw wi) = pic_ack line (master (hw w)) -> slave (hw wi) = slave (hw w) ->
  (forall w', w' = set_hw (hw w') wi -> (pit_wait (hw w') <= pit_wait (hw wi))%nat ->
     pics_ok (hw w') -> imr (master (hw w')) = mask -> same_reads wi w' -> Q tt w') ->
  wp E (irq_send_eoi line) Q wi.
Proof.
  intros Hw Hl Hm Hs HQ. destruct (i_pics _ _ Hw) as (H1 & H2 & H3 & H4 & H5 & H6).
  eapply wp_mono; [refine (wp_pres _ _ _ _ _ (reads_eoi line) _); by apply irq_send_eoi_spec|].
  intros [] w' [([Hw' Hp] & Hs' & Hm') Hr].
  rewrite Hm, eoi_master in Hm' by done. rewrite Hs in Hs'.
  apply HQ; [done|done| |by rewrite Hm'; apply i_mask|done]. unfold pics_ok. by rewrite Hm', Hs'.
Qed.

(** The interrupt of the clock. *)
Lemma clock_irq_spec mask w h : ints_ok mask w ->
  master h = pic_ack 0 (master (hw w)) -> slave h = slave (hw w) -> data_read h = data_read (hw w) ->
  wp clock_overflow clock_irq_handler (fun _ w' => env mask w w' /\ tick w < tick w') (set_hw h w).
Proof.
  intros Hw Hm Hs Hr. unfold clock_irq_handler. pose proof (i_tick _ _ Hw) as Ht.
  apply wp_bind, wp_modify, wp_bind, wp_gets. cbn [set_tick set_hw clock_tick hw].
  apply wp_bind. destruct (Z.ltb_spec (s32 (clock_tick w + 1)) 0) as [|Hp]; [apply wp_panic; by left|].
  assert (s32 (clock_tick w + 1) = clock_tick w + 1) as ->.
  { revert Hp. unfold s32. Z.div_mod_to_equations; lia. }
  apply wp_ret, (eoi_restores _ mask 0 w); [done|by left|done|done|].
  intros w' Hw' Hwait Hpics Hmask Hre. unfold same_reads in Hre. rewrite Hw' in *. cbn in *.
  assert (clock_tick w + 1 < 2 ^ 31). { revert Hp. unfold s32. Z.div_mod_to_equations; lia. }
  split; [|cbn; lia]. split; cbn.
  - destruct Hw as [? ? ? ? ?]. split; cbn; done || lia.
  - left. cbn. lia.
  - done.
  - done.
  - apply queue_grows_same; [done|]. intros _. unfold same_reads. cbn. congruence.
Qed.

(** The interrupt of the keyboard. *)
Lemma keyboard_irq_spec mask w h d l : ints_ok mask w -> mask <> KBD_MASKED -> kbd_queue w d l ->
  master h = pic_ack 1 (master (hw w)) -> slave h = slave (hw w) -> (pit_wait h < pit_wait (hw w))%nat ->
  data_read h = data_read (hw w) ->
  wp clock_overflow ps2ctrl_irq1_handler (fun _ w' => env mask w w' /\ polled w w') (set_hw h w).
Proof.
  intros Hw Hmask Hq Hm Hs Hp Hr. unfold ps2ctrl_irq1_handler. apply wp_bind, wp_gets. cbn [set_hw ctrl].
  destruct (i_lines _ _ Hw) as [|[_ ->]]; [done|]. cbn [negb].
  apply wp_bind, wp_inb. cbn [hw set_hw]. destruct (in_keeps DATA_PORT h) as (Hm1 & Hs1 & Hp1).
  pose proof (data_read_in DATA_PORT h) as Hr1. change (DATA_PORT =? 0x60) with true in Hr1. cbn iota in Hr1.
  set (h1 := (in_port DATA_PORT h).2) in *. set (data := (in_port DATA_PORT h).1).
  apply wp_bind. unfold irq_dispatch. apply wp_bind, wp_gets. cbn [set_hw ctrl].
  destruct (aget_in (ps2_irq_handlers (ctrl w)) 0) as [f Hf].
  { rewrite (i_handlers _ _ Hw). lia. }
  apply wp_bind. apply (wp_lift _ _ _ f); [done|].
  fold h1 data in Hr1. rewrite Hr in Hr1.
  assert (forall w1, clock_tick w1 = clock_tick w -> ctrl w1 = ctrl w -> hw w1 = h1 -> same_software w w1 ->
    (forall h2, data_read h2 = data_read h1 -> queue_grows mask w (set_hw h2 w1)) ->
    wp clock_overflow (irq_send_eoi IRQ1_KEYBOARD) (fun _ w' => env mask w w' /\ polled w w') w1) as Hend.
  { intros w1 Ht Hc Hh Hsw Hg. apply (eoi_restores _ mask 1 w); [done|by right|congruence|congruence|].
    intros w' Hw' Hwait Hpics Hmask' Hre. unfold same_reads in Hre. rewrite Hw' in *. cbn in *.
    assert (polled w (set_hw (hw w') w1)) as Hpo by (right; cbn; rewrite Hh in Hwait; split; [done|lia]).
    split; [|done]. split; [|by apply polled_later|done|done|apply Hg; congruence].
    destruct Hw as [? ? Hli ? ?]. split; cbn; rewrite ?Ht, ?Hc; done. }
  destruct f as [[]|]; cbn [call_recv].
  - eapply wp_mono; [apply (keyboard_recv_spec _ _ _ d l); exact Hq|]. intros [] w1 (d' & -> & Hd' & Hsd).
    apply Hend; [done..| |].
    + split_and!; [done|done|]. intros p Hne. cbn. by rewrite lookup_insert_ne.
    + intros h2 Hh2 d0 l0 [Hd0 Hl0]. destruct Hq as [Hd Hl]. rewrite Hd in Hd0. injection Hd0 as <-.
      rewrite (holds_inj _ _ _ Hl0 Hl). exists d', [data]. split_and!; [split; [apply lookup_insert_eq|done]|done|].
      intros _ _. cbn. congruence.
  - apply wp_ret, Hend; [done..|]. intros h2 Hh2 d0 l0 Hq0. exists d0, [].
    pose proof (h_room _ _ (proj2 Hq0)). ring_unfold. rewrite arrived_nil by lia. split_and!; [done..|].
    intros _ Hin. unfold installed in Hin. apply aget_Ok in Hf as [_ Hf]. change (Z.to_nat 0) with 0%nat in Hf. congruence.
Qed.

(** An instruction boundary. *)
Lemma interrupts_spec mask w d l : ints_ok mask w -> (mask <> KBD_MASKED -> kbd_queue w d l) ->
  wp clock_overflow interrupts (fun _ w' => env mask w w' /\ polled w w') w.
Proof.
  intros Hw Hq. destruct (i_pics _ _ Hw) as (H1 & H2 & H3 & H4 & H5 & H6).
  pose proof (data_read_req (hw w)) as Hrd.
  unfold wp, interrupts. destruct (int_req (hw w)) as [[v|] h] eqn:Hreq; cbn [snd] in Hrd.
  - assert (Z.testbit mask 2 = true /\ forall line, 0 <= line < 8 -> line <> 2 -> Z.testbit mask line = false ->
      line = 0 \/ (line = 1 /\ mask <> KBD_MASKED)) as [Hcas Hlines].
    { destruct (i_lines _ _ Hw) as [-> |[-> _]]; (split; [done|]); intros line Hl Hne Hb;
        assert (line = 0 \/ line = 1 \/ line = 3 \/ line = 4 \/ line = 5 \/ line = 6 \/ line = 7) as Hc by lia;
        destruct Hc as [-> |[-> |[-> |[-> |[-> |[-> | ->]]]]]]; first [vm_compute in Hb; discriminate Hb|by left|right; split; [done|unfold KBD_OPEN, KBD_MASKED; lia]]. }
    destruct (req_some _ _ _ Hreq) as [(line & Hl & Hne & -> & Hb & Hm & Hs & Hp)|(line & _ & _ & Hb & _)];
      rewrite (i_mask _ _ Hw) in Hb; [|by rewrite Hcas in Hb].
    destruct (Hlines line Hl Hne Hb) as [-> |[-> Hmask]]; rewrite H3.
    + change (wp clock_overflow clock_irq_handler (fun _ w' => env mask w w' /\ polled w w') (set_hw h w)).
      eapply wp_mono; [by apply clock_irq_spec|]. intros _ w' [He Ht]. split; [done|by left].
    + apply (keyboard_irq_spec _ _ _ d l); auto. apply Hp; [done|].
      rewrite (i_mask _ _ Hw). by destruct (i_lines _ _ Hw) as [-> |[-> _]].
  - destruct (req_none _ _ Hreq) as (Hm & Hs & Hp & Hlt).
    assert (polled w (set_hw h w)) as Hpo.
    { right. split; [done|]. apply Hlt; [done|done|].
      rewrite (i_mask _ _ Hw). by destruct (i_lines _ _ Hw) as [-> |[-> _]]. }
    split; [|done]. split; [|by apply polled_later|done|done|by apply queue_grows_same; [|intros _]].
    destruct Hw as [Hpi Hma ? ? ?]. split; cbn; [|congruence|done..]. unfold pics_ok. by rewrite Hm, Hs.
Qed.

(** With the keyboard's line masked nothing but the clock changes. *)
Lemma interrupts_masked w : ints_ok KBD_MASKED w ->
  wp clock_overflow interrupts (fun _ w' => env KBD_MASKED w w' /\ polled w w') w.
Proof. intros Hw. by apply (interrupts_spec _ _ keyboard_driver_boot []). Qed.

(** Nor is anything read from the controller. *)
Lemma interrupts_masked_reads w : ints_ok KBD_MASKED w -> wp (fun _ => True) interrupts (fun _ w' => same_reads w w') w.
Proof.
  intros Hw. destruct (i_pics _ _ Hw) as (_ & _ & H3 & _). pose proof (data_read_req (hw w)) as Hrd.
  unfold wp, interrupts. destruct (int_req (hw w)) as [[v|] h] eqn:Hreq; cbn [snd] in Hrd; [|done].
  destruct (req_some _ _ _ Hreq) as [(line & Hl & Hne & -> & Hb & _)|(line & _ & _ & Hb & _)];
    rewrite (i_mask _ _ Hw) in Hb; [|done].
  assert (line = 0) as ->.
  { assert (line = 0 \/ line = 1 \/ line = 3 \/ line = 4 \/ line = 5 \/ line = 6 \/ line = 7) as Hc by lia.
    destruct_or! Hc; subst line; first [done|vm_compute in Hb; discriminate Hb]. }
  rewrite H3. change (isr_handler (IRQ0_INT + 0)) with (clock_irq_handler (HW := HW)).
  destruct (clock_irq_handler (set_hw h w)) as [[a w']|] eqn:Hrun; [|done].
  apply reads_clock in Hrun. unfold same_reads in *. cbn in Hrun. congruence.
Qed.

Lemma env_got w w' d l : env KBD_OPEN w w' -> kbd_queue w d l ->
  exists d' bytes, kbd_queue w' d' (arrived l bytes) /\ same_driver d d' /\ got w w' bytes.
Proof.
  intros He Hq. destruct (e_queue _ _ _ He d l Hq) as (d' & bytes & ? & ? & Hg). exists d', bytes.
  split_and!; [done..|]. by apply Hg.
Qed.

Lemma env_queue mask w w' d l : env mask w w' -> kbd_queue w d l ->
  exists d' bytes, kbd_queue w' d' (arrived l bytes) /\ same_driver d d'.
Proof. intros He Hq. destruct (e_queue _ _ _ He d l Hq) as (d' & bytes & ? & ? & _). by exists d', bytes. Qed.

(** The clock runs while the keyboard's line is open. *)
Lemma env_ticks w d l : kbd_queue w d l -> ticks (env KBD_OPEN w).
Proof.
  intros Hq. split; [intros v Hv; apply (i_tick _ _ (e_ok _ _ _ Hv))|].
  intros v Hv. destruct (env_queue _ _ _ _ _ Hv Hq) as (d' & bytes & Hq' & _).
  eapply wp_mono; [apply (interrupts_spec KBD_OPEN _ d' (arrived l bytes)); [by apply (e_ok _ _ _ Hv)|done]|].
  intros _ v' [He Hp]. split; [|done]. by eapply env_trans.
Qed.

End Interrupts.
