(* ===== verification/Ps2Spec.v ===== *)
(** * The generic PS/2 driver: specification

    Reading and flushing the receive queue are correct whatever interrupts come,
    since the line of the driver is masked while the queue is changed. *)
From S2P Require Import Prelude Io World Irq Clock Isr Ps2driver IsrSpec.

Section Spec.
Context {HW : Type} `{HardwareLaws HW}.
Implicit Types (w : world HW) (d : ps2driver) (l : list Z).

(** The driver has been started on line 1, which is open. *)
Record running w d l : Prop := {
  r_ints : ints_ok KBD_OPEN w;
  r_queue : kbd_queue w d l;
  r_line : irq_line d = IRQ1_KEYBOARD;
}.

(** ** Critical sections *)

Lemma ints_mask_line E (f : Z -> Z) mask mask' w : ints_ok mask w -> u8 (f mask) = mask' ->
  mask' = KBD_MASKED \/ (mask' = KBD_OPEN /\ ps2ctrl_initialized (ctrl w) = true) ->
  wp E (let '(port, irq) := irq_port IRQ1_KEYBOARD in v ← inb port; outb port (u8 (f v));; io_wait)
    (fun _ w' => ints_ok mask' w' /\ hw_only w w') w.
Proof.
  intros [(H1 & H2 & H3 & H4 & H5 & H6) Hm Hl Ht Hh] Hf Hl'. eapply wp_mono; [apply (irq_mask_spec E f 1); [lia|done]|].
  intros [] w' (Hw & Hs & Hma). split; [|done]. cbv zeta in Hma. destruct Hw as [Hw _]. rewrite Hw. cbn.
  split; cbn; rewrite ?Hma; cbn; [|by rewrite Hm, Hf|done..].
  unfold pics_ok. rewrite Hma, Hs. cbn. done.
Qed.

Lemma lock_spec E mask w d : ints_ok mask w -> driver_at w !! keyboard_driver = Some d -> irq_line d = IRQ1_KEYBOARD ->
  wp E (ps2driver_lock keyboard_driver) (fun _ w' => ints_ok KBD_MASKED w' /\ hw_only w w') w.
Proof.
  intros Hw Hd Hl. unfold ps2driver_lock. change (keyboard_driver =? 0) with false. cbn iota.
  apply wp_bind, (wp_get_driver _ _ d); [done|]. rewrite Hl.
  apply (ints_mask_line E (fun v => Z.lor v (Z.shiftl 1 1)) mask); [done| |by left].
  by destruct (i_lines _ _ Hw) as [-> |[-> _]].
Qed.

Lemma unlock_spec E mask w d : ints_ok mask w -> ps2ctrl_initialized (ctrl w) = true ->
  driver_at w !! keyboard_driver = Some d -> irq_line d = IRQ1_KEYBOARD ->
  wp E (ps2driver_unlock keyboard_driver) (fun _ w' => ints_ok KBD_OPEN w' /\ hw_only w w') w.
Proof.
  intros Hw Hi Hd Hl. unfold ps2driver_unlock. change (keyboard_driver =? 0) with false. cbn iota.
  apply wp_bind, (wp_get_driver _ _ d); [done|]. rewrite Hl.
  apply (ints_mask_line E (fun v => Z.land v (Z.lnot (Z.shiftl 1 1))) mask); [done| |by right].
  by destruct (i_lines _ _ Hw) as [-> |[-> _]].
Qed.

Lemma reads_lock driver : pres same_reads (ps2driver_lock (HW := HW) driver).
Proof.
  unfold ps2driver_lock. destruct (driver =? 0); [refine (pres_ret _ _)|].
  refine (pres_bind _ _ _ (reads_get _) _). intros d. apply reads_mask.
Qed.
Lemma reads_unlock driver : pres same_reads (ps2driver_unlock (HW := HW) driver).
Proof.
  unfold ps2driver_unlock. destruct (driver =? 0); [refine (pres_ret _ _)|].
  refine (pres_bind _ _ _ (reads_get _) _). intros d. apply reads_unmask.
Qed.

(** From [w], inside a critical section, the driver being [d]; [bytes] have been
    read from the controller. *)
Record crit (bytes : list Z) (d : ps2driver) w w' : Prop := {
  c_ints : ints_ok KBD_MASKED w';
  c_polled : polled w w';
  c_soft : same_software w w';
  c_driver : driver_at w' !! keyboard_driver = Some d;
  c_got : got w w' bytes;
}.

Lemma crit_poll bs d w w1 : crit bs d w w1 -> wp clock_overflow interrupts (fun _ w2 => crit bs d w w2) w1.
Proof.
  intros [Hi Hp Hs Hd Hg].
  eapply wp_mono; [eapply wp_both; [by apply interrupts_masked|by apply interrupts_masked_reads]|].
  intros _ w2 [[[Hi2 Hl Hs2 Hm _] _] Hr]. split; [done| |by etrans|by rewrite Hm|by eapply got_reads].
  by eapply polled_trans_later.
Qed.

Lemma crit_get E bs d w w1 : crit bs d w w1 ->
  wp E (get_driver keyboard_driver) (fun d' w2 => d' = d /\ w2 = w1) w1.
Proof. intros Hc. by apply (wp_get_driver _ _ d); [apply (c_driver _ _ _ _ Hc)|]. Qed.

Lemma crit_update E f bs d w w1 : crit bs d w w1 ->
  wp E (update_driver keyboard_driver f) (fun _ w2 => crit bs (f d) w w2) w1.
Proof.
  intros Hc. apply (wp_update_driver _ _ d); [apply (c_driver _ _ _ _ Hc)|].
  destruct Hc as [[? ? ? ? ?] Hp (Hs1 & Hs2 & Hs3) Hd Hg]. split; [by split|done| |apply lookup_insert_eq|done].
  split_and!; [done|done|]. intros p Hne. cbn. rewrite lookup_insert_ne by done. by apply Hs3.
Qed.

Lemma crit_enter w d l : running w d l ->
  wp clock_overflow (interrupts;; ps2driver_lock keyboard_driver) (fun _ w' =>
    exists d' bytes, crit bytes d' w w' /\ holds d' (arrived l bytes) /\ same_driver d d') w.
Proof.
  intros [Hi Hq Hl]. apply wp_bind. eapply wp_mono; [by apply (interrupts_spec KBD_OPEN _ d l)|].
  intros _ w1 [He Hp]. destruct (env_got _ _ _ _ He Hq) as (d' & bytes & [Hd' Hh] & Hs & Hg).
  assert (irq_line d' = IRQ1_KEYBOARD) as Hl' by (destruct Hs as (_ & _ & -> & _); done).
  eapply wp_mono; [refine (wp_pres _ _ _ _ _ (reads_lock _) _); eapply lock_spec; [apply (e_ok _ _ _ He)|done|done]|].
  intros _ w2 [[Hi2 Hw2] Hr]. exists d', bytes. split; [|done].
  split; [done| | |by rewrite (proj1 Hw2)|by eapply got_reads].
  - eapply polled_trans_later; [done|]. by apply hw_only_later.
  - etrans; [apply (e_soft _ _ _ He)|]. by rewrite (proj1 Hw2).
Qed.

Lemma crit_leave E bs d w w1 : ints_ok KBD_OPEN w -> crit bs d w w1 -> irq_line d = IRQ1_KEYBOARD ->
  wp E (ps2driver_unlock keyboard_driver) (fun _ w' =>
    ints_ok KBD_OPEN w' /\ polled w w' /\ same_software w w' /\ driver_at w' !! keyboard_driver = Some d /\
    got w w' bs) w1.
Proof.
  intros Hw [Hi Hp Hs Hd Hg] Hl.
  eapply wp_mono; [refine (wp_pres _ _ _ _ _ (reads_unlock _) _); eapply unlock_spec; [done| |done|done]|].
  - destruct Hs as [-> _]. by destruct (i_lines _ _ Hw) as [|[_ ?]].
  - intros _ w2 [[Hi2 Hw2] Hr]. assert (got w w2 bs) as Hg2 by (by eapply got_reads).
    rewrite (proj1 Hw2) in *. split_and!; [done| |by etrans|done|done].
    eapply polled_trans_later; [done|]. apply hw_only_later. split; [done|]. by destruct Hw2.
Qed.

(** Steps of a critical section. *)
Ltac crit_step H :=
  apply wp_bind;
  first
    [ eapply wp_mono; [exact (crit_poll _ _ _ _ H)|]; clear H; intros [] ? H; cbv beta in H
    | eapply wp_mono; [exact (crit_update _ _ _ _ _ _ H)|]; clear H; intros [] ? H; cbv beta in H
    | eapply wp_mono; [exact (crit_get _ _ _ _ _ H)|]; intros ? ? [-> ->] ].

(** ** The operations *)

Lemma read_size_spec w d l : running w d l ->
  wp clock_overflow (read_size keyboard_driver) (fun n w' =>
    exists d' bytes, running w' d' (arrived l bytes) /\ n = Z.of_nat (length (arrived l bytes)) /\
      polled w w' /\ same_software w w' /\ same_driver d d' /\ got w w' bytes) w.
Proof.
  intros Hr. unfold read_size. apply wp_group. eapply wp_mono; [by apply crit_enter|].
  intros _ w1 (d' & bytes & Hc & Hh & Hs).
  assert (irq_line d' = IRQ1_KEYBOARD) as Hl by (destruct Hs as (_ & _ & -> & _); apply (r_line _ _ _ Hr)).
  do 3 crit_step Hc. apply wp_bind. eapply wp_mono; [eapply crit_leave; [apply (r_ints _ _ _ Hr)|done|done]|].
  intros _ w4 (Hi & Hp & Hsoft & Hd & Hg). apply wp_ret. exists d', bytes.
  split_and!; [by split|by apply h_size|done|done|done|done].
Qed.

Lemma take_byte_spec w d b l : running w d (b :: l) ->
  wp clock_overflow (take_byte keyboard_driver) (fun r w' =>
    r = b /\ exists d' bytes l', arrived (b :: l) bytes = b :: l' /\ running w' d' l' /\
      polled w w' /\ same_software w w' /\ same_driver d d' /\ got w w' bytes) w.
Proof.
  intros Hr. unfold take_byte. apply wp_group. eapply wp_mono; [by apply crit_enter|].
  intros _ w1 (d' & bytes & Hc & Hh & Hs). set (l' := take 254 (l ++ bytes)).
  change (arrived (b :: l) bytes) with (b :: l') in Hh.
  assert (irq_line d' = IRQ1_KEYBOARD) as Hl by (destruct Hs as (_ & _ & -> & _); apply (r_line _ _ _ Hr)).
  do 2 crit_step Hc. apply wp_bind, (wp_lift _ _ _ b); [by eapply holds_first|].
  do 9 crit_step Hc. pose proof (holds_dequeue _ _ _ Hh) as Hh'. cbv zeta in Hh'.
  match type of Hc with crit _ ?dd _ _ => assert (dd =
    set_queue (recv_queue d') (if recv_queue_head d' + 1 =? PS2_DRIVER_MAX_RECV then 0 else recv_queue_head d' + 1)
      (recv_queue_last d') (recv_queue_size d' - 1) d') as Heq end.
  { cbn [set_head recv_queue_head set_queue]. by destruct (recv_queue_head d' + 1 =? PS2_DRIVER_MAX_RECV). }
  rewrite Heq in Hc. apply wp_bind.
  eapply wp_mono; [eapply crit_leave; [apply (r_ints _ _ _ Hr)|done|done]|].
  intros _ w4 (Hi & Hp & Hsoft & Hd & Hg). apply wp_ret. split; [done|].
  eexists _, bytes, l'. split; [reflexivity|].
  split; [split; [done|by split; [exact Hd|]|exact Hl]|]. done.
Qed.

(** Flushing leaves only what arrived afterwards: nothing, as the queue is empty
    when the line is opened again. *)
Lemma flush_spec w d l : running w d l ->
  wp clock_overflow (ps2driver_flush_recv_queue keyboard_driver) (fun _ w' =>
    exists d', running w' d' [] /\ polled w w' /\ same_software w w' /\ same_driver d d') w.
Proof.
  intros Hr. unfold ps2driver_flush_recv_queue. change (keyboard_driver =? 0) with false. cbn iota.
  apply wp_group. eapply wp_mono; [by apply crit_enter|].
  intros _ w1 (d' & bytes & Hc & Hh & Hs).
  assert (irq_line d' = IRQ1_KEYBOARD) as Hl by (destruct Hs as (_ & _ & -> & _); apply (r_line _ _ _ Hr)).
  do 7 crit_step Hc. eapply wp_mono; [eapply crit_leave; [apply (r_ints _ _ _ Hr)|done|done]|].
  intros _ w2 (Hi & Hp & Hsoft & Hd & _). eexists.
  split; [split; [done|split; [exact Hd|]|exact Hl]|done]. apply holds_empty. apply (h_length _ _ Hh).
Qed.

(** The world a wait of [ps2driver_read] goes through, from [w]. *)
Definition waiting w d l w' : Prop :=
  env KBD_OPEN w w' /\ exists d' bytes, running w' d' (arrived l bytes) /\ same_driver d d' /\ got w w' bytes.

Lemma waiting_ticks w d l : running w d l -> ticks (waiting w d l).
Proof.
  intros Hr. destruct (env_ticks w d l (r_queue _ _ _ Hr)) as [Ht Hp]. split.
  - intros v [Hv _]. by apply Ht.
  - intros v [Hv (d1 & b1 & Hr1 & Hs1)]. eapply wp_mono; [by apply Hp|]. intros _ v' [Hv' Hpo].
    split; [split; [done|]|done]. destruct (env_got _ _ _ _ Hv' (r_queue _ _ _ Hr)) as (d' & b & Hq & Hs & Hg).
    exists d', b. split; [|done]. split; [apply (e_ok _ _ _ Hv')|done|].
    destruct Hs as (_ & _ & -> & _). apply (r_line _ _ _ Hr).
Qed.

Lemma waiting_refl w d l : running w d l -> waiting w d l w.
Proof.
  intros Hr. split; [apply env_refl, (r_ints _ _ _ Hr)|]. exists d, [].
  pose proof (h_room _ _ (proj2 (r_queue _ _ _ Hr))). ring_unfold. rewrite arrived_nil by lia.
  split_and!; [done..|by apply got_nil].
Qed.

Lemma waiting_more w d l v d1 b1 v' d' b : running w d l ->
  waiting w d l v -> running v d1 (arrived l b1) -> same_driver d d1 -> got w v b1 ->
  running v' d' (arrived (arrived l b1) b) -> later v v' -> same_software v v' -> same_driver d1 d' -> got v v' b ->
  waiting w d l v' /\ got w v' (b1 ++ b).
Proof.
  intros Hr [Hv _] Hr1 Hs1 Hg1 Hr' Hl Hs Hs' Hg. rewrite arrived_app in Hr'.
  assert (got w v' (b1 ++ b)) as Hgot by (eapply got_app; [exact Hg1|apply (e_soft _ _ _ Hv)|done]).
  assert (same_driver d d') as Hsd by (by etrans). split; [|done]. split; [|by exists d', (b1 ++ b)].
  split; [apply (r_ints _ _ _ Hr')| | |done|].
  - etrans; [apply (e_later _ _ _ Hv)|done].
  - etrans; [apply (e_soft _ _ _ Hv)|done].
  - intros d0 l0 [Hd0 Hl0]. destruct (r_queue _ _ _ Hr) as [Hd Hh]. rewrite Hd in Hd0. injection Hd0 as <-.
    rewrite (holds_inj _ _ _ Hl0 Hh). exists d', (b1 ++ b). split_and!; [apply (r_queue _ _ _ Hr')|done|done].
Qed.

(** What a reader waits for: a byte, or the end of the timeout with an empty
    queue. *)
Definition waited w d l target (size : Z) v w' : Prop :=
  exists d' bytes b2, waiting w d l w' /\ polled v w' /\ running w' d' (arrived (arrived l bytes) b2) /\
    same_driver d d' /\ size = Z.of_nat (length (arrived l bytes)) /\ (size = 0 -> target <= tick w') /\
    got w w' (bytes ++ b2).

(** One round. *)
Lemma wait_data_spec w d l timeo nb v : running w d l -> waiting w d l v ->
  wp clock_overflow (wait_data keyboard_driver timeo nb) (fun c v' => match c with
    | Next nb' => waiting w d l v' /\ polled v v' /\ tick v < t_target timeo
    | Leave size => waited w d l (t_target timeo) size v v' end) v.
Proof.
  intros Hr Hv. unfold wait_data. apply wp_bind.
  apply (wp_mono _ _ (fun _ v1 => waiting w d l v1 /\ later v v1)).
  { destruct (0 <? nb); [|apply wp_ret; by split].
    eapply wp_mono; [apply (clock_sleep_spec (waiting w d l)); [by apply waiting_ticks|done|lia]|].
    intros _ v1 (H1 & H2 & _). split; [done|]. by apply polled_later. }
  intros _ v1 [Hv1 Hl1]. pose proof Hv1 as [He1 (d1 & b1 & Hr1 & Hs1 & Hg1)].
  apply wp_bind. eapply wp_mono; [by apply (read_size_spec _ d1 (arrived l b1))|].
  intros n v2 (d2 & b2 & Hr2 & Hn & Hp2 & Hsoft2 & Hsd2 & Hg2).
  assert (waiting w d l v2 /\ got w v2 (b1 ++ b2)) as [Hv2 Hg12].
  { eapply (waiting_more _ _ _ v1 d1 b1 _ d2 b2); try done. by apply polled_later. }
  assert (same_driver d d2) as Hs2 by (by etrans). rewrite arrived_app in Hr2, Hn.
  destruct (Z.eqb_spec n 0) as [Hz|Hz].
  - unfold timeout_expired. apply wp_bind, wp_bind.
    eapply wp_mono; [apply (gettick_spec (waiting v2 d2 (arrived l (b1 ++ b2)))); [by apply waiting_ticks|by apply waiting_refl]|].
    intros now v3 (-> & [He3 (d3 & b3 & Hr3 & Hs3 & Hg3)] & Hp3). cbv beta. apply wp_ret, wp_ret.
    assert (waiting w d l v3 /\ got w v3 ((b1 ++ b2) ++ b3)) as [Hv3 Hg13].
    { eapply (waiting_more _ _ _ v2 d2 (b1 ++ b2) _ d3 b3); try done; [apply (e_later _ _ _ He3)|apply (e_soft _ _ _ He3)]. }
    assert (polled v1 v3) as Hp13 by (eapply polled_trans_later; [exact Hp2|by apply polled_later]).
    destruct (Z.leb_spec (t_target timeo) (tick v3)).
    + exists d3, (b1 ++ b2), b3. split_and!; [done| |done|by etrans|done|done|done]. by eapply later_polled.
    + split_and!; [done|by eapply later_polled|unfold polled, later in *; lia].
  - apply wp_ret. exists d2, (b1 ++ b2), []. rewrite app_nil_r. split_and!; [done| | |done|done|done|done].
    + by eapply later_polled.
    + pose proof (h_room _ _ (proj2 (r_queue _ _ _ Hr2))). ring_unfold. rewrite arrived_nil by lia. done.
Qed.

(** [ps2driver_read]: the oldest byte, or nothing once the timeout is over. *)
Lemma read_spec w d l msec : running w d l -> 0 <= msec < 21474836 ->
  wp clock_overflow (ps2driver_read keyboard_driver msec) (fun r w' =>
    exists d' l' bytes, running w' d' l' /\ polled w w' /\ same_software w w' /\ same_driver d d' /\
      got w w' bytes /\
      match r with
      | Some b => arrived l bytes = b :: l'
      | None => l = [] /\ l' = arrived [] bytes /\
          (tick w + msec / 10 <= tick w' \/ 2 ^ 31 <= tick w' + msec / 10)
      end) w.
Proof.
  intros Hr Hm. unfold ps2driver_read. change (keyboard_driver =? 0) with false. cbn iota.
  set (timeo := timeout_init msec).
  assert (t_length timeo = msec / 10) as Hlen.
  { unfold timeo, timeout_init. cbn [t_length]. unfold CLOCK_FREQ. rewrite s32_small by lia.
    rewrite Z.quot_div_nonneg by lia. Z.div_mod_to_equations. lia. }
  unfold timeout_start. apply wp_bind, wp_bind.
  eapply wp_mono; [apply (gettick_spec (waiting w d l)); [by apply waiting_ticks|by apply waiting_refl]|].
  intros now w1 (-> & Hw1 & Hp1). apply wp_ret. cbv beta. cbn [t_length]. rewrite Hlen.
  set (target := s32 (tick w1 + msec / 10)).
  pose proof (proj1 (waiting_ticks _ _ _ Hr) _ Hw1) as Ht1.
  assert (target - tick w1 <= msec / 10) as Hfuel.
  { unfold target, s32. pose proof (Z.div_pos msec 10 ltac:(lia) ltac:(lia)). Z.div_mod_to_equations; lia. }
  apply wp_bind. apply (wp_wait _ (fun _ v => waiting w d l v /\ later w1 v) _ _ target); [by split|done|].
  intros nb v [Hv Hl1]. eapply wp_mono; [by apply wait_data_spec|]. cbn [t_target].
  intros [nb'|size] v'.
  { intros (Hv' & Hp & Ht). split_and!; [done| |done|done]. etrans; [exact Hl1|by apply polled_later]. }
  intros (d' & bytes & b2 & Hv' & Hp & Hr' & Hs' & Hsize & Ht & Hg).
  assert (polled w1 v') as Hp1v by (by eapply later_polled).
  assert (polled w v') as Hpw by (eapply polled_trans_later; [exact Hp1|by apply polled_later]).
  destruct (Z.eqb_spec size 0) as [Hz|Hz].
  - apply wp_ret. rewrite Hsize in Hz. destruct (arrived l bytes) as [|] eqn:Ha; [|cbn in Hz; lia].
    assert (bytes = []) as ->.
    { destruct l; [|discriminate Ha]. by destruct bytes. }
    exists d', (arrived [] b2), b2. split_and!; [done|done|apply (e_soft _ _ _ (proj1 Hv'))|done|exact Hg| |done|].
    + destruct l; [done|]. unfold arrived in Ha. discriminate Ha.
    + specialize (Ht ltac:(lia)). unfold polled, later in *. unfold target, s32 in Ht.
      pose proof (Z.div_pos msec 10 ltac:(lia) ltac:(lia)).
      pose proof (proj1 (waiting_ticks _ _ _ Hr) _ Hv'). Z.div_mod_to_equations; lia.
  - destruct (arrived l bytes) as [|b rest] eqn:Ha; [cbn in Hsize; lia|].
    apply wp_bind.
    assert (exists b3, arrived (b :: rest) b2 = b :: b3) as [b3 Hb3] by (by eexists). rewrite Hb3 in Hr'.
    eapply wp_mono; [by apply take_byte_spec|].
    intros r v2 (-> & d2 & b4 & l2 & Hl2 & Hr2 & Hp2 & Hsoft2 & Hs2 & Hg2). apply wp_ret.
    exists d2, l2, (bytes ++ b2 ++ b4). split_and!; [done| | |by etrans| |].
    + eapply polled_trans_later; [exact Hpw|by apply polled_later].
    + etrans; [apply (e_soft _ _ _ (proj1 Hv'))|done].
    + rewrite app_assoc. by eapply got_app; [exact Hg|apply (e_soft _ _ _ (proj1 Hv'))|].
    + rewrite <- !arrived_app, Ha, Hb3. exact Hl2.
Qed.

(** *** How long they take *)

Lemma still_lock driver : still (ps2driver_lock (HW := HW) driver).
Proof. unfold ps2driver_lock. case_match; [done|]. apply still_bind; eauto with pace. Qed.
Lemma still_unlock driver : still (ps2driver_unlock (HW := HW) driver).
Proof. unfold ps2driver_unlock. case_match; [done|]. apply still_bind; eauto with pace. Qed.
Hint Resolve still_lock still_unlock : pace.

Lemma pace_read_size driver : pace 3 (read_size (HW := HW) driver).
Proof. unfold read_size. pace_count. Qed.
Lemma pace_take_byte driver : pace 7 (take_byte (HW := HW) driver).
Proof. unfold take_byte. pace_count. Qed.
Hint Resolve pace_read_size pace_take_byte : pace.

Lemma pace_wait_data driver t nb : pace 8 (wait_data (HW := HW) driver t nb).
Proof.
  unfold wait_data, timeout_expired. assert (pace 4 (clock_sleep (W := world HW) 20)) as Hs by (by apply (pace_clock_sleep 20)).
  pace_count.
Qed.

Lemma wait_data_stops driver t : stops_at (t_target t) (wait_data (HW := HW) driver t).
Proof.
  intros nb v. unfold wait_data. apply wp_bind, wp_any. intros _ v1. apply wp_bind, wp_any. intros n v2.
  destruct (n =? 0); [|by apply wp_ret]. unfold timeout_expired, clock_gettick.
  apply wp_bind, wp_bind, wp_bind, wp_any. intros _ v3. apply wp_gets, wp_ret, wp_ret.
  by destruct (Z.leb_spec (t_target t) (tick v3)).
Qed.

(** Reading takes 16 ticks more than its timeout at most. *)
Lemma pace_read driver msec : 0 <= msec < 21474836 -> pace (Z.to_nat (msec / 10) + 16) (ps2driver_read (HW := HW) driver msec).
Proof.
  intros Hm. unfold ps2driver_read. destruct (driver =? 0).
  - eapply pace_le; [by apply pace_still, still_ret|]. apply Nat.leb_le. lia.
  - eapply (pace_le (Z.to_nat (msec / 10) + 1 + 8 + 7)).
    + apply pace_group; [|intros size; apply (pace_le (0 `max` (7 + 0))); [pace_steps|done]].
      apply pace_timeout; [done|intros; apply pace_wait_data|apply wait_data_stops].
    + apply Nat.leb_le. lia.
Qed.

End Spec.
