(* ===== verification/KeyboardSpec.v ===== *)
(** * The keyboard driver: specification

    Scan code set 2 as an encoder of key events, the state machine as its
    decoder, and the keyboard task on a queue of scan codes. *)
From S2P Require Import Prelude Io Keys World Irq Clock Isr Ps2driver Ps2ctrl Keyboard IsrSpec Ps2Spec.

(** ** The reference encoder *)

(** The one-byte code of a key: its place in the table. *)
Definition code1 (k : keycode) : option Z :=
  if decide (k = KEY_UNK) then None else Z.of_nat ∘ fst <$> list_find (fun k' => k' = k) scan_to_key.

(** The second byte of the two-byte code of a key. *)
Definition code2 (k : keycode) : option Z :=
  if decide (k = KEY_UNK) then None
  else list_find (fun b => scan_2bytes_to_key (Z.of_nat b) = k) (seq 0 256) ≫= fun x => Some (Z.of_nat (snd x)).

(** The bytes sent when a key is pressed or released; the pause key sends
    nothing on release. *)
Definition encode (k : keycode) (t : keycode_type) : option (list Z) :=
  match k, t with
  | KEY_PRNT_SCRN, KBD_KEYTYPE_MAKE => Some [0xe0; 0x12; 0xe0; 0x7c]
  | KEY_PRNT_SCRN, KBD_KEYTYPE_BREAK => Some [0xe0; 0xf0; 0x7c; 0xe0; 0xf0; 0x12]
  | KEY_PAUSE, KBD_KEYTYPE_MAKE => Some [0xe1; 0x14; 0x77; 0xe1; 0xf0; 0x14; 0xf0; 0x77]
  | _, KBD_KEYTYPE_MAKE =>
      match code1 k with Some c => Some [c] | None => (fun c => [0xe0; c]) <$> code2 k end
  | _, KBD_KEYTYPE_BREAK =>
      match code1 k with Some c => Some [0xf0; c] | None => (fun c => [0xe0; 0xf0; c]) <$> code2 k end
  end.

(** ** The state machine on bytes *)

Definition kbd_byte (st : keyboard_state) (q : scancode_seq) (b : Z) : res (keyboard_state * scancode_seq) :=
  match st with
  | KBD_STATE_WAIT_SCAN => '(q, st) ← first_scan q b; mret (st, q)
  | KBD_STATE_READ_MORE =>
      q ← read_more q b; mret (if need q =? 0 then KBD_STATE_TRANSLATE else KBD_STATE_READ_MORE, q)
  | _ => Err Oob
  end.

Fixpoint kbd_bytes (st : keyboard_state) (q : scancode_seq) (bs : list Z) : res (keyboard_state * scancode_seq) :=
  match bs with
  | [] => Ok (st, q)
  | b :: bs => '(st, q) ← kbd_byte st q b; kbd_bytes st q bs
  end.

(** The bytes of an event, whatever sequence came before. *)
Lemma decode_encode k t bs q : encode k t = Some bs -> length (scancodes q) = 8%nat ->
  exists q', kbd_bytes KBD_STATE_WAIT_SCAN q bs = Ok (KBD_STATE_TRANSLATE, q') /\
    translate_seq q' = Ok (mk_res k t) /\ length (scancodes q') = 8%nat.
Proof.
  intros He Hl. destruct q as [s ln nd]. cbn in Hl.
  do 8 (destruct s as [|? s]; [discriminate Hl|]). destruct s; [|discriminate Hl].
  destruct k, t; vm_compute in He; (discriminate He || (injection He as <-; eexists;
    split; [vm_compute; reflexivity|split; vm_compute; reflexivity])).
Qed.

(** Only the state [TRANSLATE] ends the sequence. *)
Lemma encode_nonempty k t bs : encode k t = Some bs -> bs <> [].
Proof. intros H ->. destruct k, t; vm_compute in H; discriminate H. Qed.

(** The text under which a key is reported. *)
Definition key_text (k : keycode) : list Z :=
  match keycode2str k (replicate 16 0) with Ok buf => buf_string buf | Err _ => [] end.

(** The names fit in the buffer of the task. *)
Lemma keycode2str_fits k : exists buf, keycode2str k (replicate 16 0) = Ok buf /\
  length buf = 16%nat /\ 0 ∈ buf.
Proof.
  destruct k; vm_compute; (eexists; split; [reflexivity|split; [reflexivity|]]);
    repeat (apply list_elem_of_here || apply list_elem_of_further).
Qed.

(** The end of the queue is untouched by a read. *)
Lemma arrived_cons b l bytes l' : (length (b :: l) <= 255)%nat -> arrived (b :: l) bytes = b :: l' ->
  exists more, l' = l ++ more.
Proof.
  intros Hl [= <-]. cbn in Hl. exists (take (254 - length l) bytes).
  rewrite take_app. by rewrite (take_ge l) by lia.
Qed.

Section Task.
Context {HW : Type} `{HardwareLaws HW}.
Implicit Types (w : world HW) (d : ps2driver) (l : list Z).

(** A world whose keyboard is in state [st], with the sequence [q] and the keys
    [rep] reported, and whose queue starts with [l]. *)
Record at_state w (st : keyboard_state) (q : scancode_seq) (rep : list (list Z * keycode_type)) l : Prop := {
  a_running : exists d more, running w d (l ++ more);
  a_state : kbd_state (kbd w) = st;
  a_seq : kbd_seq (kbd w) = q;
  a_reported : reported (kbd w) = rep;
}.

Lemma running_update w d l k : running w d l -> running (set_kbd k w) d l.
Proof. by intros [[? ? ? ? ?] [? ?] ?]. Qed.

(** One call of the task takes one byte. *)
Lemma task_byte w st q rep b l st' q' :
  at_state w st q rep (b :: l) -> kbd_byte st q b = Ok (st', q') ->
  wp clock_overflow keyboard_task (fun _ w' => at_state w' st' q' rep l /\ later w w') w.
Proof.
  intros [(d & more & Hr) Hst Hq Hrep] Hb. cbn in Hr.
  assert (wp clock_overflow (ps2driver_read keyboard_driver 0) (fun r w' => r = Some b /\
    (exists d' more', running w' d' (l ++ more')) /\ kbd w' = kbd w /\ later w w') w) as Hread.
  { eapply wp_mono; [by apply (read_spec _ d (b :: l ++ more)); [|lia]|].
    intros r w' (d' & l' & bytes & Hr' & Hp & (_ & Hk & _) & _ & _ & Hx).
    destruct r as [b'|]; [|by destruct Hx]. injection Hx as <- Hl'.
    destruct (arrived_cons b (l ++ more) bytes l') as [more' ->].
    - pose proof (h_room _ _ (proj2 (r_queue _ _ _ Hr))). ring_unfold. lia.
    - unfold arrived. cbn. by rewrite Hl'.
    - split_and!; [done| |done|by apply polled_later]. exists d', (more ++ more'). by rewrite app_assoc. }
  unfold keyboard_task. apply wp_bind, wp_gets. rewrite Hst.
  destruct st; try discriminate Hb; cbn in Hb.
  - unfold keyboard_state_wait_scan. apply wp_bind. eapply wp_mono; [exact Hread|].
    intros r w1 (-> & (d1 & m1 & Hr1) & Hk & Hl). apply wp_bind, wp_gets, wp_bind.
    rewrite Hk, Hq. destruct (first_scan q b) as [[q1 st1]|] eqn:Hf; [|discriminate Hb].
    injection Hb as <- <-. apply (wp_lift _ _ _ (q1, st1)); [done|].
    apply wp_bind. cbv beta. unfold wp, update_kbd. cbn. split; [|exact Hl].
    split; cbn; [|done|done|by rewrite Hk]. exists d1, m1. by do 2 apply running_update.
  - unfold keyboard_state_read_more. apply wp_bind. eapply wp_mono; [exact Hread|].
    intros r w1 (-> & (d1 & m1 & Hr1) & Hk & Hl). apply wp_bind, wp_gets, wp_bind.
    rewrite Hk, Hq. destruct (read_more q b) as [q1|] eqn:Hf; [|discriminate Hb].
    injection Hb as <- <-. apply (wp_lift _ _ _ q1); [done|].
    apply wp_bind. unfold wp at 1, update_kbd. destruct (need q1 =? 0).
    + unfold wp. cbn. split; [|exact Hl]. split; cbn; [|done|done|by rewrite Hk].
      exists d1, m1. by do 2 apply running_update.
    + apply wp_ret. split; [|exact Hl]. split; cbn; [|by rewrite Hk|done|by rewrite Hk].
      exists d1, m1. by apply running_update.
Qed.

(** The call that translates a sequence. *)
Lemma task_translate w q rep l k t :
  at_state w KBD_STATE_TRANSLATE q rep l -> translate_seq q = Ok (mk_res k t) ->
  wp clock_overflow keyboard_task (fun _ w' =>
    at_state w' KBD_STATE_WAIT_SCAN q ((key_text k, t) :: rep) l /\ later w w') w.
Proof.
  intros [(d & more & Hr) Hst Hq Hrep] Ht. unfold keyboard_task. apply wp_bind, wp_gets. rewrite Hst.
  unfold keyboard_state_translate. apply wp_bind, wp_bind, wp_gets, wp_bind.
  rewrite Hq. apply (wp_lift _ _ _ (mk_res k t)); [done|]. apply wp_bind. unfold wp at 1, update_kbd.
  apply wp_ret, wp_bind. destruct (keycode2str_fits k) as (buf & Hbuf & _).
  apply (wp_lift _ _ _ buf); [done|]. unfold wp, update_kbd. cbn. split; [|by right].
  split; cbn; [|done|done|].
  - exists d, more. exact (running_update _ _ _ _ Hr).
  - unfold key_text. by rewrite Hbuf, Hrep.
Qed.

(** [n] calls of the task. *)
Fixpoint tasks (n : nat) : ST (world HW) unit :=
  match n with O => mret tt | S n => keyboard_task;; tasks n end.

Lemma tasks_bytes w st q rep bs l st' q' :
  at_state w st q rep (bs ++ l) -> kbd_bytes st q bs = Ok (st', q') ->
  wp clock_overflow (tasks (length bs)) (fun _ w' => at_state w' st' q' rep l /\ later w w') w.
Proof.
  revert w st q. induction bs as [|b bs IH]; intros w st q Ha Hb; cbn in Hb.
  - injection Hb as <- <-. by apply wp_ret.
  - destruct (kbd_byte st q b) as [[st1 q1]|] eqn:Hb1; [|discriminate Hb]. cbn in Hb.
    cbn [length tasks]. apply wp_bind. eapply wp_mono; [by eapply task_byte|].
    intros _ w1 [Ha1 Hl1]. eapply wp_mono; [by eapply IH|]. intros _ w2 [Ha2 Hl2].
    split; [done|]. by etrans.
Qed.

Lemma tasks_add E n m (Q : unit -> world HW -> Prop) w :
  wp E (tasks n) (fun _ => wp E (tasks m) Q) w -> wp E (tasks (n + m)) Q w.
Proof.
  revert w; induction n as [|n IH]; intros w Hw; [exact Hw|]. cbn [tasks Nat.add] in *.
  unfold wp, mbind, ST_bind in *. destruct (keyboard_task w) as [[a w']|]; [|done]. by apply IH.
Qed.

(** Events, their bytes, the calls that decode them and what is reported. *)

Fixpoint encode_all (evs : list (keycode * keycode_type)) : option (list Z) :=
  match evs with
  | [] => Some []
  | (k, t) :: evs => bs ← encode k t; rest ← encode_all evs; Some (bs ++ rest)
  end.

Definition report_of (ev : keycode * keycode_type) : list Z * keycode_type := (key_text ev.1, ev.2).

Lemma tasks_events w q rep evs bytes l :
  at_state w KBD_STATE_WAIT_SCAN q rep (bytes ++ l) -> length (scancodes q) = 8%nat ->
  encode_all evs = Some bytes ->
  wp clock_overflow (tasks (length bytes + length evs)) (fun _ w' =>
    (exists q', at_state w' KBD_STATE_WAIT_SCAN q' (reverse (report_of <$> evs) ++ rep) l /\
       length (scancodes q') = 8%nat) /\ later w w') w.
Proof.
  revert w q rep bytes. induction evs as [|[k t] evs IH]; intros w q rep bytes Ha Hq He; cbn in He.
  - injection He as <-. apply wp_ret. split; [by exists q|reflexivity].
  - destruct (encode k t) as [bs|] eqn:Hk; [|discriminate He].
    destruct (encode_all evs) as [rest|]; [|discriminate He]. cbn in He. injection He as <-.
    destruct (decode_encode k t bs q Hk Hq) as (q1 & Hb & Ht & Hq1). rewrite <- app_assoc in Ha.
    replace (length (bs ++ rest) + length ((k, t) :: evs))%nat
      with (length bs + (1 + (length rest + length evs)))%nat by (rewrite length_app; cbn [length]; lia).
    apply tasks_add. eapply wp_mono; [by eapply tasks_bytes|]. intros _ w1 [Ha1 Hl1].
    cbn [tasks Nat.add]. apply wp_bind. eapply wp_mono; [by eapply task_translate|].
    intros _ w2 [Ha2 Hl2]. eapply wp_mono; [by eapply (IH _ q1)|]. intros _ w3 [(q3 & Ha3 & Hq3) Hl3].
    split; [|etrans; [done|by etrans]]. exists q3. split; [|done].
    rewrite fmap_cons, reverse_cons, <- app_assoc. exact Ha3.
Qed.

(** ** The state machine on any bytes *)

(** The sequence stays inside of its array, and knows how many bytes it needs. *)
Definition seq_wf (st : keyboard_state) (q : scancode_seq) : Prop :=
  length (scancodes q) = 8%nat /\
  (st = KBD_STATE_READ_MORE -> 1 <= len q /\ 1 <= need q /\ len q + need q <= 8).

Lemma first_scan_wf q b : length (scancodes q) = 8%nat ->
  exists q' st, first_scan q b = Ok (q', st) /\ seq_wf st q'.
Proof.
  intros Hl. unfold first_scan. rewrite aset_in by lia. cbn [mbind res_bind].
  destruct (_ || _); [|destruct (b =? 0xe1)]; eexists _, _; (split; [reflexivity|]);
    (split; [by cbn; rewrite length_insert|]); cbn; intros; done || lia.
Qed.

Lemma read_more_wf q b : seq_wf KBD_STATE_READ_MORE q ->
  exists q', read_more q b = Ok q' /\ seq_wf (if need q' =? 0 then KBD_STATE_TRANSLATE else KBD_STATE_READ_MORE) q'.
Proof.
  intros [Hl Hn]. destruct (Hn eq_refl) as (H1 & H2 & H3). unfold read_more. rewrite aset_in by lia.
  cbn [mbind res_bind]. set (s := <[_:=b]> (scancodes q)).
  assert (length s = 8%nat) as Hs by (unfold s; by rewrite length_insert).
  destruct (aget_in s 0) as [s0 ->]; [lia|]. destruct (aget_in s 1) as [s1 ->]; [lia|].
  destruct (aget_in s 2) as [s2 ->]; [lia|]. cbn [mbind res_bind mret res_ret].
  rewrite (u32_small (need q - 1)) by lia.
  eexists. split; [reflexivity|]. split; [exact Hs|].
  intros Hst. cbn [need len] in *.
  assert (forall n, (if n =? 0 then KBD_STATE_TRANSLATE else KBD_STATE_READ_MORE) = KBD_STATE_READ_MORE -> n <> 0) as Hz.
  { intros n. by destruct (Z.eqb_spec n 0). }
  apply Hz in Hst. repeat case_match; lia.
Qed.

Lemma translate_seq_cases q : length (scancodes q) = 8%nat ->
  (exists r, translate_seq q = Ok r) \/ translate_seq q = Err Oob.
Proof.
  intros Hl. unfold translate_seq.
  assert (forall k : Z, (exists x, aget scan_to_key k = Ok x) \/ aget scan_to_key k = Err Oob) as Ht.
  { intros k. unfold aget. destruct (0 <=? k); [|by right]. destruct (scan_to_key !! _); [left; by eexists|by right]. }
  assert (forall e n, (n <= 8)%nat -> (n <= length e)%nat ->
    exists b, keyboard_validate_sequence e (scancodes q) (Z.of_nat n) = Ok b) as Hv.
  { intros e n Hn He. unfold keyboard_validate_sequence. rewrite Nat2Z.id.
    match goal with |- context [for_ctl ?n ?i ?b ?s] =>
      destruct (for_ctl_search (fun _ _ => True) b n i s) as [(j & r & _ & -> & _)|[-> _]] end; [|by eexists..].
    intros j Hj. destruct (aget_in e j) as [x ->]; [lia|]. destruct (aget_in (scancodes q) j) as [y ->]; [lia|].
    cbn. destruct (x =? y); [by right|left; by eexists]. }
  destruct (aget_in (scancodes q) 0) as [s0 ->]; [lia|]. destruct (aget_in (scancodes q) 1) as [s1 ->]; [lia|].
  destruct (aget_in (scancodes q) 2) as [s2 ->]; [lia|]. cbn [mbind res_bind].
  destruct (len q =? 1).
  { destruct (Ht s0) as [[x ->]| ->]; [left; by eexists|by right]. }
  destruct (len q =? 2).
  { destruct (s0 =? 0xe0); [left; by eexists|]. destruct (Ht s1) as [[x ->]| ->]; [left; by eexists|by right]. }
  destruct (len q =? 3); [left; by eexists|].
  destruct (Z.eqb_spec (len q) 4) as [->|].
  { destruct (Hv [0xe0; 0x12; 0xe0; 0x7c] 4%nat) as [x Hx]; [lia|cbn; lia|]. change (Z.of_nat 4) with 4 in Hx.
    rewrite Hx. left. by eexists. }
  destruct (Z.eqb_spec (len q) 6) as [->|].
  { destruct (Hv [0xe0; 0xf0; 0x7c; 0xe0; 0xf0; 0x12] 6%nat) as [x Hx]; [lia|cbn; lia|].
    change (Z.of_nat 6) with 6 in Hx. rewrite Hx. left. by eexists. }
  destruct (Z.eqb_spec (len q) 8) as [->|]; [|left; by eexists].
  destruct (Hv [0xe1; 0x14; 0x77; 0xe1; 0xf0; 0x14; 0xf0; 0x77] 8%nat) as [x Hx]; [lia|cbn; lia|].
  change (Z.of_nat 8) with 8 in Hx. rewrite Hx. left. by eexists.
Qed.

(** The driver runs and the sequence is well formed. *)
Definition task_ok w : Prop :=
  (exists d l, running w d l) /\ seq_wf (kbd_state (kbd w)) (kbd_seq (kbd w)).

(** A scan code outside of the table is looked up all the same. *)
Definition task_fault (f : fault) : Prop := clock_overflow f \/ f = Oob.

Lemma task_ok_kbd w k : task_ok w -> seq_wf (kbd_state k) (kbd_seq k) -> task_ok (set_kbd k w).
Proof. intros [(d & l & Hr) _] Hk. split; [|done]. exists d, l. by apply running_update. Qed.

Lemma task_read w msec : task_ok w -> 0 <= msec < 21474836 ->
  wp task_fault (ps2driver_read keyboard_driver msec) (fun _ w' => task_ok w' /\ later w w' /\ kbd w' = kbd w) w.
Proof.
  intros [(d & l & Hr) Hk] Hm. eapply (wp_weaken clock_overflow); [by left|].
  eapply wp_mono; [by apply (read_spec _ d l)|].
  intros r w' (d' & l' & bytes & Hr' & Hp & (_ & Hkb & _) & _).
  split_and!; [|by apply polled_later|done]. split; [by exists d', l'|by rewrite Hkb].
Qed.

Lemma keyboard_task_spec w : task_ok w -> wp task_fault keyboard_task (fun _ w' => task_ok w' /\ later w w') w.
Proof.
  intros Hw. pose proof Hw as [(d & l & Hr) Hk]. unfold keyboard_task. apply wp_bind, wp_gets.
  destruct (kbd_state (kbd w)) eqn:Hst.
  - unfold keyboard_state_reset. apply wp_bind. eapply (wp_weaken clock_overflow); [by left|].
    eapply wp_mono; [by apply (flush_spec _ d l)|].
    intros _ w1 (d1 & Hr1 & Hp & (_ & Hkb & _) & _). unfold wp, update_kbd, mbind, ST_bind. cbn.
    split; [|by apply polled_later]. split; [exists d1, []; exact (running_update _ _ _ _ Hr1)|].
    cbn. rewrite Hkb. split; [apply Hk|done].
  - unfold keyboard_state_wait_scan. apply wp_bind. eapply wp_mono; [by apply task_read; [|lia]|].
    intros [b|] w1 (Hw1 & Hl1 & Hkb); [|by apply wp_ret].
    apply wp_bind, wp_gets, wp_bind. rewrite Hkb.
    destruct (first_scan_wf (kbd_seq (kbd w)) b (proj1 Hk)) as (q & st & Hq & Hwf).
    apply (wp_lift _ _ _ (q, st)); [done|]. unfold wp, update_kbd, mbind, ST_bind. cbn.
    split; [|exact Hl1]. exact (task_ok_kbd w1 (set_state st (set_seq q (kbd w1))) Hw1 Hwf).
  - unfold keyboard_state_read_more. apply wp_bind. eapply wp_mono; [by apply task_read; [|lia]|].
    intros [b|] w1 (Hw1 & Hl1 & Hkb); [|by apply wp_ret].
    apply wp_bind, wp_gets, wp_bind. rewrite Hkb.
    destruct (read_more_wf (kbd_seq (kbd w)) b Hk) as (q & Hq & Hwf).
    apply (wp_lift _ _ _ q); [done|]. unfold wp, update_kbd, mbind, ST_bind. destruct (need q =? 0); cbn.
    + split; [|exact Hl1]. exact (task_ok_kbd w1 (set_state KBD_STATE_TRANSLATE (set_seq q (kbd w1))) Hw1 Hwf).
    + split; [|exact Hl1]. apply task_ok_kbd; [done|]. cbn. by rewrite Hkb, Hst.
  - unfold keyboard_state_translate. apply wp_bind, wp_bind, wp_gets, wp_bind.
    destruct (translate_seq_cases _ (proj1 Hk)) as [[r Ht]|Ht]; [|unfold wp, lift; rewrite Ht; by right].
    apply (wp_lift _ _ _ r); [done|]. apply wp_bind. unfold wp at 1, update_kbd. apply wp_ret, wp_bind.
    destruct (keycode2str_fits (kc r)) as (buf & Hbuf & _). apply (wp_lift _ _ _ buf); [done|].
    unfold wp, update_kbd. cbn. split; [|by right].
    refine (task_ok_kbd w (report (buf_string buf) (type r) (set_state KBD_STATE_WAIT_SCAN (kbd w))) Hw _).
    split; [apply Hk|done].
Qed.

(** The clock runs in these worlds. *)
Lemma task_ticks : ticks task_ok.
Proof.
  split; [intros w [(d & l & Hr) _]; apply (i_tick _ _ (r_ints _ _ _ Hr))|].
  intros w [(d & l & Hr) Hk]. eapply wp_mono; [by apply (proj2 (waiting_ticks w d l Hr)), waiting_refl|].
  intros _ w' [[He (d' & b & Hr' & _)] Hp]. split; [|done]. split; [by eexists _, _|].
  by rewrite (proj1 (proj2 (e_soft _ _ _ He))).
Qed.

End Task.
