(* ===== verification/Pc.v ===== *)
(** * A concrete machine

    A small PC that satisfies [HardwareLaws]: two interrupt controllers, a timer
    that fires every [PERIOD] instruction boundaries, and a PS/2 controller with
    one keyboard, which acknowledges commands and sends the scan codes of
    [p_keys] one by one.  The instances of the theorems run on it. *)
From S2P Require Import Prelude Io Keys World Irq Clock Isr Ps2driver Ps2ctrl Keyboard IsrSpec.

Definition PERIOD : nat := 3.

(** [p_out]: bytes the controller has for the CPU; [p_conf]: its configuration;
    [p_cmd]: the controller command whose data byte is awaited; [p_dev]: the
    keyboard command whose argument is awaited; [p_read]: the bytes read so far. *)
Record pc := mk_pc {
  p_master : pic; p_slave : pic; p_wait : nat;
  p_out : list Z; p_keys : list Z; p_conf : Z; p_cmd : Z; p_dev : Z;
  p_read : list Z;
}.

Definition set_pics (m s : pic) (h : pc) : pc :=
  mk_pc m s (p_wait h) (p_out h) (p_keys h) (p_conf h) (p_cmd h) (p_dev h) (p_read h).
Definition set_wait (n : nat) (h : pc) : pc :=
  mk_pc (p_master h) (p_slave h) n (p_out h) (p_keys h) (p_conf h) (p_cmd h) (p_dev h) (p_read h).
Definition set_ps2 (out keys : list Z) (conf cmd dev : Z) (h : pc) : pc :=
  mk_pc (p_master h) (p_slave h) (p_wait h) out keys conf cmd dev (p_read h).
Definition set_read (l : list Z) (h : pc) : pc :=
  mk_pc (p_master h) (p_slave h) (p_wait h) (p_out h) (p_keys h) (p_conf h) (p_cmd h) (p_dev h) l.

(** The keyboard's answer to a byte, and the command whose argument it awaits. *)
Definition kbd_answer (dev v : Z) : list Z * Z :=
  if dev =? 0xf0 then ((if v =? 0 then [0xfa; 2] else [0xfa]), 0)
  else if dev =? 0xed then ([0xfa], 0)
  else if v =? 0xff then ([0xfa; 0xaa], 0)
  else if v =? 0xf2 then ([0xfa; 0xab; 0x83], 0)
  else if (v =? 0xf0) || (v =? 0xed) then ([0xfa], v)
  else ([0xfa], 0).

Definition pc_in (p : Z) (h : pc) : Z * pc :=
  if p =? 0x21 then (imr (p_master h), h)
  else if p =? 0xa1 then (imr (p_slave h), h)
  else if p =? 0x64 then ((if decide (p_out h = []) then 0 else 1), h)
  else if p =? 0x60 then
    match p_out h with
    | [] => (0, set_read (p_read h ++ [0]) h)
    | b :: out => (b, set_read (p_read h ++ [b]) (set_ps2 out (p_keys h) (p_conf h) (p_cmd h) (p_dev h) h))
    end
  else (0, h).

Definition ps2_out (p v : Z) (h : pc) : pc :=
  if p =? 0x64 then
    let ans := if v =? 0x20 then [p_conf h] else if v =? 0xaa then [0x55] else if v =? 0xab then [0] else [] in
    set_ps2 (p_out h ++ ans) (p_keys h) (p_conf h) (if v =? 0x60 then v else 0) (p_dev h) h
  else if p =? 0x60 then
    if p_cmd h =? 0x60 then set_ps2 (p_out h) (p_keys h) v 0 (p_dev h) h
    else
      let '(ans, dev) := kbd_answer (p_dev h) v in
      set_ps2 (p_out h ++ ans) (p_keys h) (p_conf h) 0 dev h
  else h.

Definition pc_out (p v : Z) (h : pc) : pc :=
  if (p =? 0x20) || (p =? 0x21) || (p =? 0xa0) || (p =? 0xa1) then
    set_pics
      (if p =? 0x20 then pic_cmd v (p_master h) else if p =? 0x21 then pic_data v (p_master h) else p_master h)
      (if p =? 0xa0 then pic_cmd v (p_slave h) else if p =? 0xa1 then pic_data v (p_slave h) else p_slave h) h
  else ps2_out p v h.

(** The line is open and the controller can accept it. *)
Definition line_open (line : Z) (p : pic) : bool :=
  (icw p =? 0) && (isr p =? 0) && negb (Z.testbit (imr p) line).

(** The keyboard sends its next scan code when the controller is idle. *)
Definition next_key (h : pc) : pc :=
  match p_out h, p_keys h with
  | [], b :: keys => set_ps2 [b] keys (p_conf h) (p_cmd h) (p_dev h) h
  | _, _ => h
  end.

Definition pc_req (h : pc) : option Z * pc :=
  match (p_wait h `min` 2)%nat with
  | O =>
      if line_open 0 (p_master h) then
        (Some (base (p_master h)), set_wait 2 (set_pics (pic_ack 0 (p_master h)) (p_slave h) h))
      else (None, h)
  | S n =>
      let h := next_key (set_wait n h) in
      if negb (bool_decide (p_out h = [])) && Z.testbit (p_conf h) 0 && line_open 1 (p_master h) then
        (Some (base (p_master h) + 1), set_pics (pic_ack 1 (p_master h)) (p_slave h) h)
      else (None, h)
  end.

#[export] Instance pc_hardware : Hardware pc := {
  in_port := pc_in; out_port := pc_out; int_req := pc_req; patience := PERIOD }.

Lemma next_key_keeps h : p_master (next_key h) = p_master h /\ p_slave (next_key h) = p_slave h /\
  p_wait (next_key h) = p_wait h.
Proof. unfold next_key. destruct (p_out h), (p_keys h); done. Qed.

(** The timer's count, which is below its period. *)
Definition pc_wait (h : pc) : nat := (p_wait h `min` 2)%nat.

Lemma pc_in_keeps p h : p_master (pc_in p h).2 = p_master h /\ p_slave (pc_in p h).2 = p_slave h /\
  p_wait (pc_in p h).2 = p_wait h.
Proof. unfold pc_in. repeat case_match; done. Qed.

Lemma ps2_out_keeps p v h : p_master (ps2_out p v h) = p_master h /\ p_slave (ps2_out p v h) = p_slave h /\
  p_wait (ps2_out p v h) = p_wait h.
Proof. unfold ps2_out. repeat case_match; done. Qed.

Lemma pc_req_none h h' : pc_req h = (None, h') ->
  p_master h' = p_master h /\ p_slave h' = p_slave h /\ (pc_wait h' <= pc_wait h)%nat /\
  (icw (p_master h) = 0 -> isr (p_master h) = 0 -> Z.testbit (imr (p_master h)) 0 = false ->
   (pc_wait h' < pc_wait h)%nat).
Proof.
  unfold pc_req, pc_wait. destruct (p_wait h `min` 2)%nat as [|n] eqn:Hn.
  - destruct (line_open 0 (p_master h)) eqn:Hl; [done|]. intros [= <-]. rewrite Hn.
    split_and!; [done|done|lia|]. intros H1 H2 H3. unfold line_open in Hl. by rewrite H1, H2, H3 in Hl.
  - destruct (next_key_keeps (set_wait n h)) as (Hm & Hs & Hw). cbn in Hw.
    destruct (_ && _); [done|]. intros [= <-]. rewrite Hw. split_and!; [done|done|lia|lia].
Qed.

Lemma pc_req_some h v h' : pc_req h = (Some v, h') -> exists line, 0 <= line < 8 /\ line <> 2 /\
  v = base (p_master h) + line /\ Z.testbit (imr (p_master h)) line = false /\
  p_master h' = pic_ack line (p_master h) /\ p_slave h' = p_slave h /\
  (line <> 0 -> Z.testbit (imr (p_master h)) 0 = false -> (pc_wait h' < pc_wait h)%nat).
Proof.
  unfold pc_req, pc_wait, line_open. destruct (p_wait h `min` 2)%nat as [|n] eqn:Hn.
  - destruct (icw (p_master h) =? 0), (isr (p_master h) =? 0), (Z.testbit (imr (p_master h)) 0) eqn:Hl; try done.
    intros [= <- <-]. exists 0. split_and!; try done; lia.
  - destruct (next_key_keeps (set_wait n h)) as (Hm & Hs & Hw). cbn in Hw, Hm, Hs. rewrite Hm.
    destruct (negb _ && _), (icw (p_master h) =? 0), (isr (p_master h) =? 0),
      (Z.testbit (imr (p_master h)) 1) eqn:Hl; try done.
    intros [= <- <-]. exists 1. split_and!; try done. cbn. rewrite Hw. lia.
Qed.

#[export, refine] Instance pc_laws : HardwareLaws pc := {
  master := p_master; slave := p_slave; pit_wait := pc_wait; data_read := p_read }.
Proof.
  - intros h. unfold pc_wait. cbn. unfold PERIOD. lia.
  - intros p h. cbn. destruct (pc_in_keeps p h) as (-> & -> & Hw). unfold pc_wait. rewrite Hw. done.
  - done.
  - done.
  - intros p v h. cbn. unfold pc_out. destruct (Z.eqb_spec p 0x20), (Z.eqb_spec p 0x21); subst; try done.
    destruct (_ || _); [done|]. apply ps2_out_keeps.
  - intros p v h. cbn. unfold pc_out. destruct (Z.eqb_spec p 0xa0), (Z.eqb_spec p 0xa1); subst; try done.
    destruct (_ || _); [done|]. apply ps2_out_keeps.
  - intros p v h _. cbn. unfold pc_wait, pc_out. destruct (_ || _); cbn; [lia|].
    destruct (ps2_out_keeps p v h) as (_ & _ & ->). lia.
  - exact pc_req_none.
  - intros h v h' Hr. left. exact (pc_req_some h v h' Hr).
  - intros p h. cbn. unfold pc_in. destruct (Z.eqb_spec p 0x60) as [->|Hp].
    + cbn. by destruct (p_out h).
    + rewrite app_nil_r. by destruct (p =? 0x21), (p =? 0xa1), (p =? 0x64).
  - intros p v h. cbn. unfold pc_out. destruct (_ || _); [done|]. unfold ps2_out. by repeat case_match.
  - intros h. cbn. unfold pc_req. destruct (_ `min` _)%nat; [by case_match|].
    assert (p_read (next_key (set_wait n h)) = p_read h) as Hn by (unfold next_key; by repeat case_match).
    by case_match.
Defined.

(** The machine after the start of the kernel: no interrupts taken yet, the
    keyboard about to send [keys]. *)
Definition pc_ready (keys : list Z) : pc :=
  mk_pc (mk_pic KBD_OPEN 0 0 IRQ0_INT 4 1) (mk_pic 0xff 0 0 IRQ7_INT 2 1) 2 [] keys 0x45 0 0 [].

(** The drivers started: the keyboard installed on the first port. *)
Definition ctrl_started : ps2ctrl :=
  mk_ctrl [true; false; false; false] [keyboard_driver; 0; 0; 0] true true [keyboard_driver; 0]
    [Some keyboard_recv_fn; None].

(** Its driver, with [l] in the queue. *)
Definition driver_started (l : list Z) : ps2driver :=
  mk_driver "KEYBOARD_MF2" PS2_DEVICE_KEYBOARD_MF2 IRQ1_KEYBOARD (l ++ replicate (255 - length l) 0) 0
    (Z.of_nat (length l)) (Z.of_nat (length l))
    (Some keyboard_start_fn) (Some keyboard_recv_fn) (Some ps2ctrl_send_data_first_port_fn).

Definition demo_kbd (st : keyboard_state) : keyboard := mk_kbd 0 KBD_SCS_2 st (mk_seq (replicate 8 0) 0 0) [].

Definition demo_world (keys l : list Z) (st : keyboard_state) : world pc :=
  mk_world (pc_ready keys) 100 {[ keyboard_driver := driver_started l ]} ctrl_started (demo_kbd st).
