(* ===== verification/EntrySpec.v ===== *)
(** * Interrupt entry: the interrupted program does not notice *)
From S2P Require Import Prelude Libc Io World Irq Clock Isr Pc Entry.

(** ** Words on the stack *)

Definition words (m : bytes) (a : Z) (l : list Z) : Prop :=
  forall i w, l !! i = Some w -> rd32 m (a + 4 * Z.of_nat i) = Ok w.

Lemma words_cons m a w l : words m a (w :: l) <-> rd32 m a = Ok w /\ words m (a + 4) l.
Proof.
  split.
  - intros Hw. split; [by rewrite <- (Hw 0%nat w) by done; f_equal; lia|]. intros i v Hi.
    specialize (Hw (S i) v Hi). rewrite <- Hw. f_equal. lia.
  - intros [Hw Hl] [|i] v Hi; [injection Hi as <-; by rewrite Z.add_0_r|].
    rewrite <- (Hl i v Hi). f_equal. lia.
Qed.

Lemma words_ext m m' a l : (forall x, a <= x < a + 4 * Z.of_nat (length l) -> m' !! x = m !! x) -> words m a l -> words m' a l.
Proof.
  intros He Hw i w Hi. rewrite <- (Hw i w Hi). apply rd32_ext. intros x Hx. apply He. apply lookup_lt_Some in Hi. lia.
Qed.

(** What has been pushed since [x0], the last word first; the sixteen words below
    its stack pointer are mapped. *)
Record pushed (x0 : x86) (l : list Z) (x : x86) : Prop := {
  pushed_esp : esp x = esp x0 - 4 * Z.of_nat (length l);
  pushed_words : words (ram x) (esp x) l;
  pushed_same : same_outside (ram x0) (ram x) (esp x) (4 * Z.of_nat (length l));
  pushed_mapped : mapped (ram x) (esp x0 - 64) 64;
  pushed_room : 64 <= esp x0 < 2 ^ 32;
}.

Section Stack.
Context {W : Type} (E : fault -> Prop).
Implicit Types s : mach W.

Lemma wp_on_proc f (Q : unit -> mach W -> Prop) s :
  Q tt (mk_mach (f (proc s)) (kernel s)) -> wp E (on_proc f) Q s.
Proof. done. Qed.

Lemma wp_reg f (Q : Z -> mach W -> Prop) s : Q (f (proc s)) s -> wp E (reg f) Q s.
Proof. done. Qed.

Lemma wp_push x0 l v (Q : unit -> mach W -> Prop) x k :
  pushed x0 l x -> (length l < 16)%nat -> is_u32 v ->
  (forall m, pushed x0 (v :: l) (set_ram m (set_esp (esp x - 4) x)) -> Q tt (mk_mach (set_ram m (set_esp (esp x - 4) x)) k)) ->
  wp E (push v) Q (mk_mach x k).
Proof.
  intros [He Hw Hs Hm Hr] Hl Hv HQ.
  assert (esp x ⊖ 4 = esp x - 4) as Hsub by (apply u32_small; lia).
  destruct (wr32_spec (esp x - 4) v (ram x)) as (m & Hwr & Hrd & Hsame & Hd); [|done|].
  { intros i Hi. replace (esp x - 4 + i) with (esp x0 - 64 + (esp x - 4 + i - (esp x0 - 64))) by lia. apply Hm. lia. }
  specialize (HQ m). unfold wp, push, on_proc, modify, gets, lift, mbind, ST_bind. cbn [proc kernel].
  cbn [esp set_esp ram]. rewrite Hsub, Hwr. apply HQ. split; cbn [esp set_esp set_ram ram length].
  - lia.
  - apply words_cons. split; [done|]. replace (esp x - 4 + 4) with (esp x) by lia. eapply words_ext; [|exact Hw].
    intros y Hy. apply Hsame. lia.
  - intros y Hy. rewrite Hsame by lia. apply Hs. lia.
  - intros i Hi. by apply Hd, Hm.
  - done.
Qed.

Lemma wp_pop w l (Q : Z -> mach W -> Prop) x k :
  words (ram x) (esp x) (w :: l) -> 0 <= esp x < 2 ^ 32 - 4 ->
  Q w (mk_mach (set_esp (esp x + 4) x) k) -> wp E pop Q (mk_mach x k).
Proof.
  intros [Hw _]%words_cons He HQ. unfold wp, pop, on_proc, modify, gets, lift, mbind, mret, ST_bind, ST_ret. cbn [proc kernel].
  rewrite Hw. cbn [proc kernel]. by rewrite (u32_small (esp x + 4)) by lia.
Qed.

End Stack.

(** ** The frame of an interrupt *)

(** What the handler finds: on top of its stack the return address and the pointer
    to the structure, then the registers of [pushal], the structure and what the
    processor pushed. *)
Definition interrupt_frame (n err ret : Z) (x : x86) : list Z :=
  [ret; esp x - 20; edi x; esi x; ebp x; esp x - 20; ebx x; edx x; ecx x; eax x; n; err; eip x; cs x; eflags x].

Record entered (n err ret : Z) (x xe : x86) : Prop := {
  entered_esp : esp xe = esp x - 60;
  entered_frame : words (ram xe) (esp xe) (interrupt_frame n err ret x);
  entered_ebp : ebp xe = ebp x;
  entered_flags : Z.testbit (eflags xe) 9 = false /\ Z.testbit (eflags xe) 10 = false;
  entered_same : same_outside (ram x) (ram xe) (esp x - 60) 60;
  entered_mapped : mapped (ram xe) (esp x - 64) 64;
}.

(** The calling convention: the callee leaves the stack pointer and, its
    argument apart, the frame of its caller. *)
Record returned (xe x' : x86) : Prop := {
  returned_esp : esp x' = esp xe;
  returned_frame : forall a, esp xe <= a < esp xe + 4 \/ esp xe + 8 <= a < esp xe + 60 -> ram x' !! a = ram xe !! a;
}.

Definition well_sized (x : x86) : Prop :=
  is_u32 (eax x) /\ is_u32 (ecx x) /\ is_u32 (edx x) /\ is_u32 (ebx x) /\ is_u32 (ebp x) /\ is_u32 (esi x) /\ is_u32 (edi x) /\
  is_u32 (eip x) /\ is_u32 (cs x) /\ is_u32 (eflags x).

(** The registers that the program sees are the same. *)
Definition same_registers (x x' : x86) : Prop :=
  eax x' = eax x /\ ecx x' = ecx x /\ edx x' = edx x /\ ebx x' = ebx x /\ esp x' = esp x /\ ebp x' = ebp x /\
  esi x' = esi x /\ edi x' = edi x /\ eip x' = eip x /\ cs x' = cs x /\ eflags x' = eflags x.

Lemma cleared_bit v mask i : 0 <= i -> Z.testbit mask i = true -> Z.testbit (Z.land v (Z.lnot mask)) i = false.
Proof. intros Hi Hm. rewrite Z.land_spec, Z.lnot_spec, Hm by done. apply andb_false_r. Qed.

Lemma kept_bit v mask i : Z.testbit v i = false -> Z.testbit (Z.land v mask) i = false.
Proof. intros Hv. by rewrite Z.land_spec, Hv. Qed.

Ltac cpu_simpl := cbn [proc kernel eax ecx edx ebx esp ebp esi edi eip cs eflags ram set_eax set_ecx set_edx set_ebx
  set_esp set_ebp set_esi set_edi set_eip set_cs set_eflags set_ram].
Tactic Notation "cpu_simpl" "in" "*" := cbn [proc kernel eax ecx edx ebx esp ebp esi edi eip cs eflags ram
  set_eax set_ecx set_edx set_ebx set_esp set_ebp set_esi set_edi set_eip set_cs set_eflags set_ram] in *.

(** The next word of the stack, known in [Hw], goes to a register or away. *)
Ltac pop_word :=
  wp_line; match goal with Hw : words _ _ (_ :: _) |- _ =>
    eapply wp_pop; [cpu_simpl; exact Hw|cpu_simpl; lia|]; apply words_cons in Hw as [_ Hw] end;
  wp_line; try (apply wp_on_proc); cpu_simpl.

(** A word pushed on a known stack. *)
Ltac push_word :=
  wp_line; lazymatch goal with
  | |- wp _ (gets _) _ _ => apply wp_gets
  | _ => idtac end; cbv beta; cpu_simpl;
  match goal with Hp : pushed _ _ _ |- _ =>
    eapply wp_push; [exact Hp|cbn [length]; lia|congruence || done|clear Hp; intros ? Hp; cpu_simpl] end.

Lemma pushed_set_eax x0 l x v : pushed x0 l x -> pushed x0 l (set_eax v x).
Proof. intros []. by split. Qed.
Lemma pushed_set_eflags x0 l x v : pushed x0 l x -> pushed x0 l (set_eflags v x).
Proof. intros []. by split. Qed.

Lemma pushed_set_cs x0 l x v : pushed x0 l x -> pushed x0 l (set_cs v x).
Proof. intros []. by split. Qed.

(** The exceptions for which the processor pushes an error code (Intel's manual,
    table 6-1, processors without control-flow enforcement). *)
Definition pushes_error (n : Z) : bool :=
  (n =? 8) || (n =? 10) || (n =? 11) || (n =? 12) || (n =? 13) || (n =? 14) || (n =? 17).

Section Entry.
Context {W : Type} (E : fault -> Prop).
Variables (sel n err ret : Z) (h : ST (mach W) unit) (x : x86) (k : W) (R : bytes -> W -> Prop).
Hypothesis x_sized : well_sized x.
Hypothesis x_room : 64 <= esp x < 2 ^ 32.
Hypothesis x_mapped : mapped (ram x) (esp x - 64) 64.
Hypothesis sizes : is_u32 n /\ is_u32 err /\ is_u32 ret.
Hypothesis handler : forall xe, entered n err ret x xe ->
  wp E h (fun _ s => returned xe (proc s) /\ R (ram (proc s)) (kernel s)) (mk_mach xe k).

(** The processor has pushed its words, and the wrapper the missing ones. *)
Definition at_stub (xs : x86) : Prop :=
  pushed x [n; err; eip x; cs x; eflags x] xs /\ eax xs = eax x /\ ecx xs = ecx x /\ edx xs = edx x /\ ebx xs = ebx x /\
  ebp xs = ebp x /\ esi xs = esi x /\ edi xs = edi x /\ Z.testbit (eflags xs) 9 = false.

(** After the handler, the frame is taken off the stack. *)
Lemma stub_exit xe x' kk (Q : unit -> mach W -> Prop) :
  entered n err ret x xe -> returned xe x' ->
  (forall xr, same_registers x xr -> ram xr = ram x' -> Q tt (mk_mach xr kk)) ->
  wp E pop (fun v => wp E (lift (if v =? ret then Ok tt else Err Oob))
    (fun _ => wp E (add_esp 4;; popal;; add_esp 8;; iret) Q)) (mk_mach x' kk).
Proof.
  intros [He Hf _ _ _ _] [He' Hk] HQ. unfold interrupt_frame in Hf.
  apply words_cons in Hf as [Hret Hf]. apply words_cons in Hf as [_ Hf].
  assert (words (ram x') (esp x') [ret]) as Hret'.
  { apply words_cons. split; [|by intros i w Hi]. rewrite He', <- Hret. apply rd32_ext. intros a Ha. apply Hk. lia. }
  assert (words (ram x') (esp x' + 8) [edi x; esi x; ebp x; esp x - 20; ebx x; edx x; ecx x; eax x; n; err; eip x; cs x; eflags x]) as Hw.
  { replace (esp x' + 8) with (esp xe + 4 + 4) by lia. eapply words_ext; [|exact Hf]. cbn [length]. intros a Ha. apply Hk. lia. }
  eapply wp_pop; [exact Hret'|lia|]. rewrite Z.eqb_refl. eapply wp_lift; [done|].
  unfold add_esp, popal, iret, pop_to. wp_line. apply wp_on_proc. cbn [proc kernel esp set_esp ram].
  rewrite (u32_small (esp x' + 4 + 4)) by lia. replace (esp x' + 4 + 4) with (esp x' + 8) by lia.
  do 8 pop_word. wp_line. apply wp_on_proc. cpu_simpl.
  rewrite (u32_small (_ + 8)) by lia. do 2 apply words_cons in Hw as [_ Hw].
  rewrite <- (Z.add_assoc _ 4 4) in Hw. change (4 + 4) with 8 in Hw.
  do 3 pop_word.
  apply HQ; [|done]. split_and!; try done. cbn [esp set_esp set_eip set_cs set_eflags set_edi set_esi set_ebp set_ebx set_edx set_ecx set_eax ram]. lia.
Qed.

(** [isr_common_stub] from the state that a wrapper leaves. *)
Lemma stub_spec xs (Q : unit -> mach W -> Prop) :
  at_stub xs ->
  (forall x' kk, same_registers x x' -> R (ram x') kk -> Q tt (mk_mach x' kk)) ->
  wp E (isr_common_stub ret h) Q (mk_mach xs k).
Proof.
  intros (Hp & Ha & Hc & Hd & Hb & Hbp & Hsi & Hdi & Hif) HQ.
  destruct x_sized as (? & ? & ? & ? & ? & ? & ? & _), sizes as (? & ? & ?).
  pose proof (pushed_esp _ _ _ Hp) as He. cbn [length] in He.
  assert (is_u32 (esp x - 20) /\ is_u32 (esp xs)) as [? ?] by (unfold is_u32; lia).
  unfold isr_common_stub, pushal, push_reg, reg, cld, clear_bits, call.
  push_word. push_word. push_word. push_word. push_word. push_word. push_word. push_word.
  wp_line. apply wp_on_proc. cpu_simpl. wp_line.
  replace ((esp xs - 4 - 4 - 4 - 4 - 4 - 4 - 4 - 4) ⊕ 32) with (esp x - 20) by (symmetry; unfold u32; rewrite Z.mod_small; lia).
  eapply pushed_set_eax in Hp. push_word. wp_line. apply wp_on_proc. cpu_simpl. eapply pushed_set_eflags in Hp. push_word.
  match goal with Hx : pushed _ _ ?y |- _ => assert (entered n err ret x y) as Hentered;
    [|set (xe := y) in *] end.
  { destruct Hp as [He' Hw Hs Hm Hr]. cpu_simpl in *. cbn [length] in *. split; cpu_simpl.
    - lia.
    - unfold interrupt_frame. assert (esp xs = esp x - 20) as E20 by lia. rewrite E20 in *.
      by rewrite Hdi, Hsi, Hbp, Hb, Hd, Hc, Ha in Hw.
    - done.
    - split; [by apply kept_bit|by apply cleared_bit].
    - replace (esp x - 60) with (esp xs - 4 - 4 - 4 - 4 - 4 - 4 - 4 - 4 - 4 - 4) by lia. exact Hs.
    - exact Hm. }
  wp_line. eapply wp_mono; [by apply handler|]. intros [] [x' kk] [Hret HR]. cbn [proc kernel] in *. cbv beta. wp_line.
  apply (stub_exit xe x' kk Q Hentered Hret). intros xr Hxr Hram. apply HQ; [done|by rewrite Hram].
Qed.

(** The processor and the wrapper. *)
Lemma entry_spec wrapper (Q : unit -> mach W -> Prop) (code : option Z) :
  isr_wrapper n = Some wrapper -> code = (if pushes_error n then Some err else None) -> (pushes_error n = false -> err = 0) ->
  (forall x' kk, same_registers x x' -> R (ram x') kk -> Q tt (mk_mach x' kk)) ->
  wp E (cpu_interrupt sel code;; wrapper ret h) Q (mk_mach x k).
Proof.
  intros Hwr -> Herr HQ. destruct x_sized as (? & ? & ? & ? & ? & ? & ? & ? & ? & ?), sizes as (? & ? & ?).
  assert (pushed x [] x) as Hp.
  { split; cbn [length]; [lia|by intros i w Hi|by intros a Ha|done|done]. }
  unfold cpu_interrupt, push_reg, reg, clear_bits. push_word. push_word. push_word.
  wp_line. apply wp_on_proc. wp_line. apply wp_on_proc. cpu_simpl.
  eapply pushed_set_eflags in Hp. eapply pushed_set_cs in Hp.
  unfold isr_wrapper, pushes_error in *. destruct (_ || _).
  - injection Hwr as <-. push_word. unfold isr_err. push_word. apply stub_spec; [|done].
    split; [exact Hp|]. cpu_simpl. split_and!; try done. by apply cleared_bit.
  - destruct (_ && _); [|done]. injection Hwr as <-. specialize (Herr eq_refl). wp_line. unfold isr_noerr. push_word. push_word.
    rewrite <- Herr in Hp. apply stub_spec; [|done]. split; [exact Hp|]. cpu_simpl. split_and!; try done. by apply cleared_bit.
Qed.

End Entry.

(** ** The theorem *)

Section Handler.
Context {HW : Type} `{Hardware HW}.

(** The compiled [isr_handler]: its argument is on the stack, over the return
    address; what its body does to the kernel is [Isr.isr_handler], and [body] is
    what the compiler makes of the registers and of the memory meanwhile. *)
Definition isr_handler_code (body : x86 -> x86) : ST (mach (world HW)) unit := fun s =>
  let x := proc s in
  stack ← rd32 (ram x) (esp x ⊕ 4);
  isr_num ← rd32 (ram x) stack;
  '(_, w) ← isr_handler (s32 isr_num) (kernel s);
  mret (tt, mk_mach (body x) w).

Lemma handler_code_spec body n err ret x xe w :
  entered n err ret x xe -> 64 <= esp x < 2 ^ 32 -> 0 <= n < 48 ->
  isr_handler_code body (mk_mach xe w) =
    match isr_handler n w with Ok (_, w') => Ok (tt, mk_mach (body xe) w') | Err f => Err f end.
Proof.
  intros [He Hf _ _ _ _] Hr Hn. unfold interrupt_frame in Hf. unfold isr_handler_code. cbn [proc kernel]. cbv zeta.
  rewrite (u32_small (esp xe + 4)) by lia. pose proof (Hf 1%nat _ eq_refl) as Hp. pose proof (Hf 10%nat _ eq_refl) as Hnum.
  replace (esp xe + 4 * Z.of_nat 1) with (esp xe + 4) in Hp by lia. rewrite Hp. cbn [mbind res_bind].
  replace (esp xe + 4 * Z.of_nat 10) with (esp x - 20) in Hnum by lia. rewrite Hnum. cbn [mbind res_bind].
  rewrite s32_small by lia. by destruct (isr_handler n w) as [[[] ?]|].
Qed.

End Handler.

(** C18. The entry code of interrupts is transparent: for each of the 48 vectors
    with a stub, from the words that the processor pushes (an error code or none)
    through the wrapper and [isr_common_stub], [isr_handler] runs for this vector
    on the kernel, with interrupts disabled and the direction flag clear, and the
    structure on the stack holds the number and the error code; if it returns, the
    interrupted program finds all of its registers, its flags and its stack as
    they were.  At the handler's frame pointer plus 13 words lies the address of
    the interrupted instruction, where [panic] looks for it. *)
Theorem interrupt_transparent {HW} `{Hardware HW} body sel n err ret wrapper x (w : world HW) :
  (forall xe, returned xe (body xe)) -> well_sized x -> 64 <= esp x < 2 ^ 32 -> mapped (ram x) (esp x - 64) 64 ->
  is_u32 err -> is_u32 ret -> isr_wrapper n = Some wrapper -> (pushes_error n = false -> err = 0) ->
  let run := (cpu_interrupt sel (if pushes_error n then Some err else None);; wrapper ret (isr_handler_code body)) (mk_mach x w) in
  match isr_handler n w with
  | Err f => run = Err f
  | Ok (_, w') => exists xe x', run = Ok (tt, mk_mach x' w') /\ same_registers x x' /\
      entered n err ret x xe /\ ram x' = ram (body xe) /\
      rd32 (ram xe) (esp x - 20) = Ok n /\ rd32 (ram xe) (esp x - 20 + offsetof_error_code) = Ok err /\
      rd32 (ram xe) (esp xe - 4 + 4 * 13) = Ok (eip x)
  end.
Proof.
  intros Hbody Hx Hr Hm He Hret Hwr Herr run.
  assert (0 <= n < 48) as Hn.
  { unfold isr_wrapper in Hwr. destruct (_ || _) eqn:E in Hwr; [lia|]. destruct (_ && _) eqn:E2 in Hwr; [lia|done]. }
  pose (R := fun (m : bytes) (w' : world HW) => exists xe, entered n err ret x xe /\ m = ram (body xe) /\ isr_handler n w = Ok (tt, w')).
  assert (wp (fun f => isr_handler n w = Err f) (cpu_interrupt sel (if pushes_error n then Some err else None);;
    wrapper ret (isr_handler_code body)) (fun _ s => same_registers x (proc s) /\ R (ram (proc s)) (kernel s)) (mk_mach x w)) as Hwp.
  { apply (entry_spec _ sel n err ret (isr_handler_code body) x w R); try done.
    - split_and!; [unfold is_u32; lia|done..].
    - intros xe Hxe. unfold wp. rewrite (handler_code_spec body n err ret x xe w) by done.
      destruct (isr_handler n w) as [[[] w']|] eqn:Ei; [|done]. split; [apply Hbody|]. by exists xe. }
  unfold wp in Hwp. fold run in Hwp. destruct run as [[[] [x' w1]]|f].
  - destruct Hwp as [Hs (xe & Hxe & Hram & Hi)]. rewrite Hi. cbn [proc kernel] in *. exists xe, x'. split_and!; try done; apply Hs || idtac.
    + pose proof (entered_frame _ _ _ _ _ Hxe 10%nat _ eq_refl) as Hf. rewrite (entered_esp _ _ _ _ _ Hxe) in Hf.
      rewrite <- Hf. f_equal. lia.
    + pose proof (entered_frame _ _ _ _ _ Hxe 11%nat _ eq_refl) as Hf. rewrite (entered_esp _ _ _ _ _ Hxe) in Hf.
      rewrite <- Hf. f_equal. unfold offsetof_error_code. lia.
    + pose proof (entered_frame _ _ _ _ _ Hxe 12%nat _ eq_refl) as Hf. rewrite <- Hf. f_equal. lia.
  - by rewrite Hwp.
Qed.

(** An interrupt of the clock at 0x100234, with interrupts enabled, on a stack of
    a page; the handler leaves garbage in EAX, in the flags and below its stack. *)
Definition demo_stack : bytes := list_to_map ((fun a => (a, 0)) <$> seqZ 0x7000 0x100).

Definition demo_x86 : x86 := mk_x86 1 2 3 4 0x7100 6 7 8 0x100234 8 0x202 demo_stack.

Definition demo_body (x : x86) : x86 :=
  mk_x86 99 98 97 (ebx x) (esp x) (ebp x) (esi x) (edi x) (eip x) (cs x) 0x46 (<[esp x - 8 := 0xff]> (ram x)).

Lemma demo_body_returns xe : returned xe (demo_body xe).
Proof. split; [done|]. intros a Ha. cbn. apply lookup_insert_ne. lia. Qed.

Lemma demo_stack_mapped : mapped demo_stack (0x7100 - 64) 64.
Proof.
  intros i Hi. pose proof (mapped_area [] 0x7000 0x100 (0xc0 + i) ltac:(lia)) as Hm. cbn [app] in Hm.
  by replace (0x7000 + (0xc0 + i)) with (0x7100 - 64 + i) in Hm by lia.
Qed.

Lemma demo_clock_irq : exists w', isr_handler 32 (demo_world [] [] KBD_STATE_RESET) = Ok (tt, w') /\
  clock_tick w' = clock_tick (demo_world [] [] KBD_STATE_RESET) + 1.
Proof. eexists. split; [by vm_compute|done]. Qed.

Lemma interrupt_transparent_witness : exists x' w',
  (cpu_interrupt 8 None;; isr_noerr 32 0x1003a0 (isr_handler_code demo_body)) (mk_mach demo_x86 (demo_world [] [] KBD_STATE_RESET)) =
    Ok (tt, mk_mach x' w') /\ same_registers demo_x86 x' /\ clock_tick w' = clock_tick (demo_world [] [] KBD_STATE_RESET) + 1.
Proof.
  destruct demo_clock_irq as (w' & Hw & Ht).
  pose proof (interrupt_transparent demo_body 8 32 0 0x1003a0 (isr_noerr 32) demo_x86 (demo_world [] [] KBD_STATE_RESET) demo_body_returns) as Hi.
  rewrite Hw in Hi. edestruct Hi as (xe & x' & Hrun & Hregs & _).
  - unfold well_sized, is_u32, demo_x86. cbn. lia.
  - cbn. lia.
  - exact demo_stack_mapped.
  - unfold is_u32. lia.
  - unfold is_u32. lia.
  - reflexivity.
  - done.
  - exists x', w'. exact (conj Hrun (conj Hregs Ht)).
Defined.
