(* ===== verification/Ps2ctrlSpec.v ===== *)
(** * The PS/2 controller: specification

    While the keyboard's line is masked, the code that talks to the controller
    touches nothing but the hardware, and every wait ends. *)
From S2P Require Import Prelude Io World Irq Clock Isr Ps2ctrl IsrSpec.

Section Spec.
Context {HW : Type} `{HardwareLaws HW}.
Implicit Types w : world HW.

(** [m] ends, and keeps the state of the drivers and the masks. *)
Definition keeps {A} (m : ST (world HW) A) : Prop :=
  forall w, ints_ok KBD_MASKED w -> wp clock_overflow m (fun _ w' => env KBD_MASKED w w') w.

Lemma keeps_ret {A} (a : A) : keeps (mret a).
Proof. intros w Hw. by apply wp_ret, env_refl. Qed.

Lemma keeps_bind {A B} (m : ST (world HW) A) (f : A -> ST (world HW) B) :
  keeps m -> (forall a, keeps (f a)) -> keeps (m ≫= f).
Proof.
  intros Hm Hf w Hw. apply wp_bind. eapply wp_mono; [by apply Hm|]. intros a w1 He.
  eapply wp_mono; [apply Hf, (e_ok _ _ _ He)|]. intros b w2 He2. exact (env_trans _ _ _ _ He He2).
Qed.

Lemma keeps_gets {A} (f : world HW -> A) : keeps (gets f).
Proof. intros w Hw. by apply wp_gets, env_refl. Qed.

Lemma keeps_if {A} (b : bool) (m1 m2 : ST (world HW) A) : keeps m1 -> keeps m2 -> keeps (if b then m1 else m2).
Proof. by destruct b. Qed.

Lemma keeps_option {A B} (o : option A) (f : A -> ST (world HW) B) m :
  (forall a, keeps (f a)) -> keeps m -> keeps (match o with Some a => f a | None => m end).
Proof. by destruct o. Qed.

Lemma keeps_interrupts : keeps interrupts.
Proof. intros w Hw. eapply wp_mono; [by apply interrupts_masked|]. by intros _ w' [He _]. Qed.

Lemma keeps_hw w (w' : world HW) :
  ints_ok KBD_MASKED w -> hw_only w w' -> master (hw w') = master (hw w) -> slave (hw w') = slave (hw w) ->
  env KBD_MASKED w w'.
Proof.
  intros Hw [Hs Hp] Hm Hsl. assert (ints_ok KBD_MASKED w') as Hw'.
  { rewrite Hs. destruct Hw as [Hpi Hma ? ? ?]. split; cbn; try done; [|congruence].
    unfold pics_ok. by rewrite Hm, Hsl. }
  split; [done|by apply hw_only_later, conj|rewrite Hs; by split_and!|by rewrite Hs|].
  apply queue_grows_same; [by rewrite Hs|by intros []].
Qed.

Lemma keeps_inb port : keeps (inb port).
Proof.
  intros w Hw. apply wp_inb. destruct (in_port_keeps port w) as (Hh & Hm & Hs). by apply keeps_hw.
Qed.

Lemma keeps_outb port v : port = DATA_PORT \/ port = CMD_PORT -> keeps (outb port v).
Proof.
  intros Hport w Hw. apply wp_outb.
  assert (~ 0x40 <= port <= 0x43 /\ (port =? 0x20) = false /\ (port =? 0x21) = false /\
    (port =? 0xa0) = false /\ (port =? 0xa1) = false) as (H1 & H2 & H3 & H4 & H5).
  { unfold DATA_PORT, CMD_PORT in Hport. by destruct Hport as [-> | ->]; split_and!; try lia. }
  apply keeps_hw; [done|by apply out_port_wait| |]; cbn; by rewrite ?out_master, ?out_slave, ?H2, ?H3, ?H4, ?H5.
Qed.

Lemma masked_ticks w : ticks (env KBD_MASKED w).
Proof.
  split; [intros v Hv; apply (i_tick _ _ (e_ok _ _ _ Hv))|]. intros v Hv.
  eapply wp_mono; [by apply interrupts_masked, (e_ok _ _ _ Hv)|]. intros _ v' [He Hp].
  split; [by eapply env_trans|done].
Qed.

Lemma keeps_gettick : keeps clock_gettick.
Proof. apply keeps_bind; [exact keeps_interrupts|intros; apply keeps_gets]. Qed.

Lemma keeps_sleep msec : 0 <= msec < 2 ^ 31 -> keeps (clock_sleep msec).
Proof.
  intros Hm w Hw. eapply wp_mono; [apply (clock_sleep_spec (env KBD_MASKED w)); [apply masked_ticks|by apply env_refl|done]|].
  by intros _ w' [He _].
Qed.

(** ** Polling *)

(** A timeout of [msec] started at [w] is over at [w']. *)
Definition timed_out (msec : Z) w w' : Prop :=
  tick w + msec / 10 <= tick w' \/ 2 ^ 31 <= tick w' + msec / 10.

Lemma timeout_start_spec msec w : ints_ok KBD_MASKED w -> 0 <= msec < 21474836 ->
  wp clock_overflow (timeout_start (timeout_init msec)) (fun t w' =>
    env KBD_MASKED w w' /\ t_length t = msec / 10 /\ t_target t - tick w' <= msec / 10 /\
    forall v, later w' v -> ints_ok KBD_MASKED v -> t_target t <= tick v -> timed_out msec w v) w.
Proof.
  intros Hw Hm. unfold timeout_start. apply wp_bind.
  eapply wp_mono; [apply (gettick_spec (env KBD_MASKED w)); [apply masked_ticks|by apply env_refl]|].
  intros t w1 (-> & He & Hp). apply wp_ret. cbn [t_length t_target].
  assert (t_length (timeout_init msec) = msec / 10) as ->.
  { unfold timeout_init. cbn [t_length]. unfold CLOCK_FREQ. rewrite s32_small by lia.
    rewrite Z.quot_div_nonneg by lia. Z.div_mod_to_equations. lia. }
  pose proof (i_tick _ _ (e_ok _ _ _ He)) as Ht. change (clock_tick w1) with (tick w1) in Ht.
  pose proof (Z.div_pos msec 10 ltac:(lia) ltac:(lia)).
  split_and!; [done|done|unfold s32; Z.div_mod_to_equations; lia|].
  intros v Hl Hv Htg. unfold timed_out. unfold later, polled in *. unfold s32 in Htg.
  pose proof (i_tick _ _ Hv) as Htv. change (clock_tick v) with (tick v) in Htv.
  Z.div_mod_to_equations; lia.
Qed.

(** The last status read is not busy, or the timeout is over. *)
Lemma poll_status_spec busy w : ints_ok KBD_MASKED w ->
  wp clock_overflow (poll_status busy) (fun status w' =>
    env KBD_MASKED w w' /\ (busy status = true -> timed_out 200 w w')) w.
Proof.
  intros Hw. unfold poll_status. apply wp_bind. eapply wp_mono; [by apply timeout_start_spec; [|lia]|].
  intros t w1 (He & Hlen & Hf & Ho). rewrite Hlen. change (200 / 10) with 20 in *.
  apply (wp_wait _ (fun _ v => env KBD_MASKED w1 v) _ _ (t_target t)); [apply env_refl, (e_ok _ _ _ He)|lia|].
  intros [] v Hv. apply wp_bind.
  eapply wp_mono; [apply (keeps_bind interrupts (fun _ => inb STATUS_PORT));
    [exact keeps_interrupts|intros; apply keeps_inb|apply (e_ok _ _ _ Hv)]|].
  intros status v1 Hv1. destruct (busy status) eqn:Hb.
  - unfold timeout_expired. apply wp_bind, wp_bind.
    eapply wp_mono; [apply (gettick_spec (env KBD_MASKED v1)); [apply masked_ticks|apply env_refl, (e_ok _ _ _ Hv1)]|].
    intros now v2 (-> & Hv2 & Hp2). apply wp_ret, wp_ret.
    assert (env KBD_MASKED w1 v2) as Hw2 by exact (env_trans _ _ _ _ Hv (env_trans _ _ _ _ Hv1 Hv2)).
    destruct (Z.leb_spec (t_target t) (tick v2)) as [Hle|Hlt].
    + split; [exact (env_trans _ _ _ _ He Hw2)|]. intros _. apply Ho; [apply (e_later _ _ _ Hw2)|apply (e_ok _ _ _ Hv2)|done].
    + pose proof (e_later _ _ _ Hv1). split_and!; [done|by eapply later_polled|unfold later, polled in *; lia].
  - apply wp_ret. split; [|by rewrite Hb]. exact (env_trans _ _ _ _ He (env_trans _ _ _ _ Hv Hv1)).
Qed.

Lemma keeps_poll_status busy : keeps (poll_status busy).
Proof. intros w Hw. eapply wp_mono; [by apply poll_status_spec|]. by intros ? ? [? _]. Qed.

End Spec.

(** Decomposes a computation into steps that keep the state. *)
Create HintDb keeps.
#[export] Hint Resolve keeps_ret keeps_gets keeps_interrupts keeps_inb keeps_gettick keeps_poll_status : keeps.
#[export] Hint Extern 1 (keeps (outb _ _)) => apply keeps_outb; by (left + right) : keeps.

Ltac keeps_steps :=
  repeat first
    [ solve [auto with keeps]
    | apply keeps_bind; [|intros ?]
    | apply keeps_if
    | apply keeps_option; [intros ?|]
    | case_match ].

Section Commands.
Context {HW : Type} `{HardwareLaws HW}.
Implicit Types w : world HW.

(** ** Commands *)

Lemma keeps_task_inb port : keeps (task_inb (HW := HW) port).
Proof. unfold task_inb. keeps_steps. Qed.

Lemma keeps_task_outb port v : port = DATA_PORT \/ port = CMD_PORT -> keeps (task_outb (HW := HW) port v).
Proof. intros Hp. unfold task_outb. apply keeps_bind; [auto with keeps|]. intros. by apply keeps_outb. Qed.

Lemma keeps_wait_input : keeps (wait_ctrl_input_buffer_ready (HW := HW)).
Proof. unfold wait_ctrl_input_buffer_ready. keeps_steps. Qed.

Lemma keeps_wait_output : keeps (wait_ctrl_output_buffer_ready (HW := HW)).
Proof. unfold wait_ctrl_output_buffer_ready. keeps_steps. Qed.

Hint Resolve keeps_task_inb keeps_wait_input keeps_wait_output : keeps.
Hint Extern 1 (keeps (task_outb _ _)) => apply keeps_task_outb; by (left + right) : keeps.

Lemma keeps_send_cmd cmd data response : keeps (__send_ctrl_cmd (HW := HW) cmd data response).
Proof. unfold __send_ctrl_cmd. keeps_steps. Qed.
Hint Resolve keeps_send_cmd : keeps.

Lemma keeps_send_ctrl_cmd cmd : keeps (send_ctrl_cmd (HW := HW) cmd).
Proof. unfold send_ctrl_cmd. keeps_steps. Qed.
Lemma keeps_send_with_data cmd data : keeps (send_ctrl_cmd_with_data (HW := HW) cmd data).
Proof. unfold send_ctrl_cmd_with_data. keeps_steps. Qed.
Lemma keeps_send_with_response cmd : keeps (send_ctrl_cmd_with_response (HW := HW) cmd).
Proof. unfold send_ctrl_cmd_with_response. keeps_steps. Qed.
Hint Resolve keeps_send_ctrl_cmd keeps_send_with_data keeps_send_with_response : keeps.

Lemma keeps_disable_devices : keeps (disable_devices (HW := HW)).
Proof. unfold disable_devices. keeps_steps. Qed.
Lemma keeps_flush : keeps (flush_controller_output_buffer (HW := HW)).
Proof. unfold flush_controller_output_buffer. keeps_steps. Qed.
Lemma keeps_set_conf : keeps (set_controller_configuration_byte (HW := HW)).
Proof. unfold set_controller_configuration_byte. keeps_steps. Qed.
Lemma keeps_self_test uninit : keeps (check_controller_selt_test (HW := HW) uninit).
Proof. unfold check_controller_selt_test. keeps_steps. Qed.
Lemma keeps_two_channels : keeps (has_two_channels (HW := HW)).
Proof. unfold has_two_channels. keeps_steps. Qed.
Lemma keeps_single_test first : keeps (check_single_interface_test (HW := HW) first).
Proof. unfold check_single_interface_test. keeps_steps. Qed.
Hint Resolve keeps_single_test : keeps.
Lemma keeps_interface_test single : keeps (check_interface_test (HW := HW) single).
Proof. unfold check_interface_test. keeps_steps. Qed.
Lemma keeps_disable_first : keeps (disable_first_interface (HW := HW)).
Proof. unfold disable_first_interface. keeps_steps. Qed.
Hint Resolve keeps_disable_first : keeps.
Lemma keeps_disable_second single : keeps (disable_second_interface (HW := HW) single).
Proof. unfold disable_second_interface. keeps_steps. Qed.
Hint Resolve keeps_disable_second : keeps.
Lemma keeps_enable_devices single irq : keeps (enable_devices (HW := HW) single irq).
Proof. unfold enable_devices. keeps_steps. Qed.
Lemma keeps_send_first data : keeps (send_byte_to_first_port (HW := HW) data).
Proof. unfold send_byte_to_first_port. keeps_steps. Qed.
Lemma keeps_recv_first : keeps (recv_byte_from_first_port_sync (HW := HW)).
Proof. unfold recv_byte_from_first_port_sync. keeps_steps. Qed.
Hint Resolve keeps_send_first keeps_recv_first : keeps.
Lemma keeps_reset_attempt : keeps (reset_attempt (HW := HW)).
Proof. unfold reset_attempt. keeps_steps. Qed.
Lemma keeps_send_and_ack cmd : keeps (send_and_ack (HW := HW) cmd).
Proof. unfold send_and_ack. keeps_steps. Qed.

(** Four attempts at most. *)
Lemma keeps_reset_loop :
  keeps (st_loop 6 (fun max_try : Z =>
    if max_try <? 0 then mret (Leave false)
    else
      c ← reset_attempt (HW := HW);
      match c with Next _ => mret (Next (max_try - 1)) | Leave _ => mret (Leave true) end) 3).
Proof.
  intros w Hw. apply (wp_loop _ (fun n v => -1 <= n <= 3 /\ env KBD_MASKED w v) (fun n _ => Z.to_nat (n + 1))).
  - split; [lia|by apply env_refl].
  - cbn. lia.
  - intros n v [Hn Hv]. destruct (Z.ltb_spec n 0) as [|Hp]; [by apply wp_ret|].
    apply wp_bind. eapply wp_mono; [apply keeps_reset_attempt, (e_ok _ _ _ Hv)|].
    intros [[]|[]] v1 Hv1; apply wp_ret; [|exact (env_trans _ _ _ _ Hv Hv1)].
    split; [split; [lia|exact (env_trans _ _ _ _ Hv Hv1)]|lia].
Qed.

(** ** Initialisation *)

(** Only the first channel is supported. *)
Definition ctrl_fault (f : fault) : Prop := clock_overflow f \/ f = Panic "not implemented".

Lemma reset_devices_spec single w : ints_ok KBD_MASKED w ->
  wp (fun f => clock_overflow f \/ (f = Panic "not implemented" /\ single = false)) (reset_devices single)
    (fun r w' => env KBD_MASKED w w' /\ (r = true -> single = true)) w.
Proof.
  intros Hw. unfold reset_devices. apply wp_bind.
  eapply wp_mono; [eapply wp_weaken; [by left|by apply keeps_reset_loop]|].
  intros [] w1 He; cbn [negb]; [|by apply wp_ret].
  destruct single; cbn [negb]; [by apply wp_ret|by apply wp_panic; right].
Qed.

Lemma has_two_channels_values w :
  wp (fun _ => True) (has_two_channels (HW := HW)) (fun n _ => n = -1 \/ n = 0 \/ n = 1) w.
Proof.
  unfold has_two_channels. apply wp_bind, wp_any. intros [] w1; cbn [negb]; [|apply wp_ret; by left].
  apply wp_bind, wp_any. intros [c|] w2; [|apply wp_ret; by left].
  destruct (bit_set c _); [apply wp_ret; by right; left|].
  apply wp_bind, wp_any. intros [] w3; apply wp_ret; cbn [negb]; [by right; right|by left].
Qed.

(** The world in which a driver can be registered, once the list is cleared. *)
Definition cleared w : world HW := set_ctrl (set_registered (replicate 4 false) (replicate 4 0) (ctrl w)) w.

Lemma cleared_ok w : ints_ok KBD_MASKED w -> ints_ok KBD_MASKED (cleared w).
Proof. intros [? ? ? ? ?]. by split. Qed.

(** What [ps2ctrl_init] leaves when it succeeds. *)
Definition initialized (w : world HW) : world HW := set_ctrl (set_initialized true (ctrl w)) w.

(** What the controller says of its second channel: the clock of the second port
    is off in the configuration byte, or stays so once the port is enabled. *)
Definition no_second_clock (c : Z) : bool := bit_set c CTRL_CONF_SECOND_PS2_PORT_CLOCK.

Definition one_channel (v0 : world HW) : Prop := exists v c v', env KBD_MASKED v0 v /\
  set_controller_configuration_byte v = Ok (c, v') /\
  (no_second_clock c = true \/ exists v1 v2, env KBD_MASKED v' v1 /\ has_two_channels v1 = Ok (0, v2)).

Definition two_channels (v0 : world HW) : Prop := exists v c v' v1 v2, env KBD_MASKED v0 v /\
  set_controller_configuration_byte v = Ok (c, v') /\ no_second_clock c = false /\
  env KBD_MASKED v' v1 /\ has_two_channels v1 = Ok (1, v2).

(** The steps that can fail. *)
Inductive step_fails (uninit : Z) : world HW -> world HW -> Prop :=
  | fails_disable v v' : disable_devices v = Ok (false, v') -> step_fails uninit v v'
  | fails_configuration v v' : set_controller_configuration_byte v = Ok (u8 (-1), v') -> step_fails uninit v v'
  | fails_self_test v v' : check_controller_selt_test uninit v = Ok (false, v') -> step_fails uninit v v'
  | fails_channels v v' : has_two_channels v = Ok (-1, v') -> step_fails uninit v v'
  | fails_interface single v v' : check_interface_test single v = Ok (false, v') -> step_fails uninit v v'
  | fails_enable single v v' : enable_devices single true v = Ok (false, v') -> step_fails uninit v v'
  | fails_reset single v v' : reset_devices single v = Ok (false, v') -> step_fails uninit v v'.

(** The outcomes: a controller with one channel is initialised; a step fails; the
    second channel is not implemented. *)
Definition init_fault (v0 : world HW) (f : fault) : Prop :=
  clock_overflow f \/ (f = Panic "not implemented" /\ two_channels v0).

Definition init_outcome (uninit : Z) (v0 : world HW) (r : Z) (w' : world HW) : Prop :=
  exists w1, env KBD_MASKED v0 w1 /\
    ((r = 0 /\ w' = initialized w1 /\ one_channel v0) \/
     (r = -1 /\ w' = w1 /\ exists v, env KBD_MASKED v0 v /\ step_fails uninit v w1)).

(** A step of the initialisation that keeps the state. *)
Lemma init_step {A B} E (m : ST (world HW) A) (k : A -> ST (world HW) B) v0 v Q :
  keeps m -> env KBD_MASKED v0 v -> (forall f, clock_overflow f -> E f) ->
  (forall a v', m v = Ok (a, v') -> env KBD_MASKED v v' -> env KBD_MASKED v0 v' -> wp E (k a) Q v') ->
  wp E (m ≫= k) Q v.
Proof.
  intros Hm He HE Hk. apply wp_bind. pose proof (Hm v (e_ok _ _ _ He)) as Hv. unfold wp in Hv |- *.
  destruct (m v) as [[a v']|f]; [|by apply HE]. apply (Hk a v' eq_refl Hv). exact (env_trans _ _ _ _ He Hv).
Qed.

Hint Resolve keeps_disable_devices keeps_flush keeps_set_conf keeps_self_test keeps_two_channels
  keeps_interface_test keeps_enable_devices : keeps.

Ltac next_step He :=
  eapply init_step; [first [solve [auto with keeps]|apply keeps_ret]|exact He|by left|].

(** Once the channels are known. *)
Lemma init_finish uninit v0 v single :
  env KBD_MASKED v0 v -> (if single : bool then one_channel v0 else two_channels v0) ->
  wp (init_fault v0) (
    ok ← check_interface_test single;
    if negb ok then mret (-1)
    else
    ok ← enable_devices single true;
    if negb ok then mret (-1)
    else
    ok ← reset_devices single;
    if negb ok then mret (-1)
    else
    update_ctrl (set_initialized single);;
    mret 0) (init_outcome uninit v0) v.
Proof.
  intros He Hch.
  next_step He. intros [] v1 Hrun _ He1; cbn [negb].
  2:{ apply wp_ret. exists v1. split; [done|right]. split_and!; [done..|]. exists v. split; [done|by eapply fails_interface]. }
  next_step He1. intros [] v2 Hrun2 _ He2; cbn [negb].
  2:{ apply wp_ret. exists v2. split; [done|right]. split_and!; [done..|]. exists v1. split; [done|by eapply fails_enable]. }
  apply wp_bind. pose proof (reset_devices_spec single v2 (e_ok _ _ _ He2)) as Hr. unfold wp at 1 in Hr. unfold wp at 1.
  destruct (reset_devices single v2) as [[r v3]|f] eqn:Hrun3.
  - destruct Hr as [He3 Hs]. pose proof (env_trans _ _ _ _ He2 He3) as He03. destruct r; cbn [negb].
    + rewrite (Hs eq_refl) in *. exists v3. split; [done|by left].
    + apply wp_ret. exists v3. split; [done|right]. split_and!; [done..|]. exists v2. split; [done|by eapply fails_reset].
  - destruct Hr as [Hr|[-> ->]]; [by left|by right].
Qed.

Lemma ps2ctrl_init_run uninit w : ints_ok KBD_MASKED w -> ps2ctrl_initialized (ctrl w) = false ->
  wp (init_fault (cleared w)) (ps2ctrl_init uninit) (init_outcome uninit (cleared w)) w.
Proof.
  intros Hw Hi. unfold ps2ctrl_init. apply wp_bind, wp_gets. rewrite Hi.
  apply wp_bind. unfold wp at 1, update_ctrl. change (set_ctrl _ w) with (cleared w). set (v0 := cleared w).
  assert (forall v v', env KBD_MASKED v0 v -> env KBD_MASKED v0 v' -> step_fails uninit v v' ->
    wp (init_fault v0) (mret (-1)) (init_outcome uninit v0) v') as Hfail.
  { intros v v' He He' Hs. apply wp_ret. exists v'. split; [done|right]. split_and!; [done..|by exists v]. }
  pose proof (env_refl _ _ (cleared_ok w Hw)) as He. fold v0 in He.
  unfold disable_usb_legacy_support, ps2ctrl_exists. do 2 (apply wp_bind, wp_ret; cbn [negb]).
  next_step He. intros [] v1 Hrun _ He1; cbn [negb]; [|eapply Hfail; [exact He|done|by apply fails_disable]].
  next_step He1. intros [] v2 _ _ He2.
  next_step He2. intros c1 v3 Hc1 _ He3. destruct (Z.eqb_spec c1 (u8 (-1))) as [->|_].
  { eapply Hfail; [exact He2|done|by apply fails_configuration]. }
  cbv zeta. fold (no_second_clock c1).
  next_step He3. intros [] v4 Hrun4 He34 He4; cbn [negb]; [|eapply Hfail; [exact He3|done|by apply fails_self_test]].
  next_step He4. intros c2 v5 Hc2 He45 He5. destruct (Z.eqb_spec c2 (u8 (-1))) as [->|_].
  { eapply Hfail; [exact He4|done|by apply fails_configuration]. }
  pose proof (env_trans _ _ _ _ He34 He45) as He35. destruct (no_second_clock c1) eqn:Hsc.
  - apply wp_bind, wp_ret. change (0 <? 0) with false. cbn iota. apply init_finish; [done|].
    exists v2, c1, v3. split_and!; [done|done|by left].
  - next_step He5. intros n v6 Hn _ He6.
    pose proof (has_two_channels_values v5) as Hval. unfold wp in Hval. rewrite Hn in Hval.
    destruct Hval as [->|[->| ->]].
    + change (-1 <? 0) with true. cbn iota. eapply Hfail; [exact He5|done|by apply fails_channels].
    + change (0 <? 0) with false. change (0 =? 0) with true. cbn iota. apply init_finish; [done|].
      exists v2, c1, v3. split_and!; [done|done|right]. by exists v5, v6.
    + change (1 <? 0) with false. change (1 =? 0) with false. cbn iota. apply init_finish; [done|].
      by exists v2, c1, v3, v5, v6.
Qed.

Lemma ps2ctrl_init_spec uninit w : ints_ok KBD_MASKED w -> ps2ctrl_initialized (ctrl w) = false ->
  wp ctrl_fault (ps2ctrl_init uninit) (fun r w' => exists w1, env KBD_MASKED (cleared w) w1 /\
    ((r = 0 /\ w' = initialized w1) \/ (r = -1 /\ w' = w1))) w.
Proof.
  intros Hw Hi. eapply wp_mono; [eapply wp_weaken; [|by apply ps2ctrl_init_run]|].
  - intros f [Hf|[-> _]]; [by left|by right].
  - intros r w' (w1 & He & [(-> & -> & _)|(-> & -> & _)]); exists w1; (split; [done|]); [by left|by right].
Qed.

(** *** How long it takes *)

Lemma pace_loop_fuel {R S} k n (body : S -> ST (world HW) (ctl R S)) s :
  (forall s, pace k (body s)) -> pace (n * k) (st_loop n body s).
Proof.
  intros Hb. revert s. induction n as [|n IH]; intros s; cbn [st_loop].
  - intros w Hw. unfold within, wp. by intros [|].
  - eapply pace_le; [apply (pace_bind k (0 `max` (n * k))); [done|]|apply Nat.leb_le; rewrite Nat.mul_succ_l; lia].
    intros [s'|r]; [apply (pace_le (n * k)); [apply IH|]|apply (pace_le 0); [by apply pace_still, still_ret|]];
      apply Nat.leb_le; lia.
Qed.

Lemma pace_poll_status busy : pace 23 (poll_status (HW := HW) busy).
Proof.
  unfold poll_status. apply (pace_timeout 200 2); [lia|intros t s; unfold task_inb, timeout_expired; pace_count|].
  intros t s v. unfold task_inb. apply wp_bind, wp_any. intros st v1. destruct (busy st); [|by apply wp_ret].
  unfold timeout_expired, clock_gettick. apply wp_bind, wp_bind, wp_bind, wp_any. intros _ v2. apply wp_gets, wp_ret, wp_ret.
  by destruct (Z.leb_spec (t_target t) (tick v2)).
Qed.
Hint Resolve pace_poll_status : pace.

Lemma pace_send_cmd cmd data response : pace 48 (__send_ctrl_cmd (HW := HW) cmd data response).
Proof.
  unfold __send_ctrl_cmd, wait_ctrl_input_buffer_ready, wait_ctrl_output_buffer_ready, task_inb, task_outb.
  pace_count.
Qed.
Hint Resolve pace_send_cmd : pace.

Lemma pace_send_ctrl_cmd cmd : pace 48 (send_ctrl_cmd (HW := HW) cmd).
Proof. unfold send_ctrl_cmd. pace_count. Qed.
Lemma pace_send_with_data cmd data : pace 48 (send_ctrl_cmd_with_data (HW := HW) cmd data).
Proof. unfold send_ctrl_cmd_with_data. pace_count. Qed.
Lemma pace_send_with_response cmd : pace 48 (send_ctrl_cmd_with_response (HW := HW) cmd).
Proof. unfold send_ctrl_cmd_with_response. pace_count. Qed.
Hint Resolve pace_send_ctrl_cmd pace_send_with_data pace_send_with_response : pace.

Lemma still_not_implemented {A} : still (W := world HW) (NOT_IMPLEMENTED (A := A)).
Proof. by apply other_panic. Qed.
Hint Resolve still_not_implemented : pace.

Lemma pace_reset_devices single : pace 432 (reset_devices (HW := HW) single).
Proof.
  assert (pace 72 (reset_attempt (HW := HW))) as Ha.
  { unfold reset_attempt, send_byte_to_first_port, recv_byte_from_first_port_sync, task_inb, task_outb. pace_count. }
  unfold reset_devices. apply (pace_bind (6 * 72) 0); [apply pace_loop_fuel|].
  - intros n. apply (pace_le (0 `max` (72 + 0))); [|done]. apply pace_if; [by apply pace_still, still_ret|].
    apply pace_bind; [done|]. intros c. apply pace_still. by destruct c.
  - intros ok. apply pace_still. destruct ok, single; cbn [negb]; eauto with pace.
Qed.

Lemma pace_init uninit : pace 1500 (ps2ctrl_init (HW := HW) uninit).
Proof.
  pose proof pace_reset_devices.
  unfold ps2ctrl_init, disable_usb_legacy_support, ps2ctrl_exists, disable_devices, flush_controller_output_buffer,
    set_controller_configuration_byte, check_controller_selt_test, has_two_channels, check_interface_test,
    check_single_interface_test, enable_devices, disable_second_interface, disable_first_interface, task_inb.
  pace_count.
Qed.

(** ** Errors *)

Lemma timed_out_earlier msec w1 w2 w3 w4 :
  later w1 w2 -> timed_out msec w2 w3 -> later w3 w4 -> timed_out msec w1 w4.
Proof. unfold later, timed_out. lia. Qed.

Lemma wait_input_spec w : ints_ok KBD_MASKED w ->
  wp clock_overflow wait_ctrl_input_buffer_ready (fun ok w' =>
    env KBD_MASKED w w' /\ (ok = false -> timed_out 200 w w')) w.
Proof.
  intros Hw. unfold wait_ctrl_input_buffer_ready. apply wp_bind. eapply wp_mono; [by apply poll_status_spec|].
  intros st w1 [He Ht]. apply wp_ret. split; [done|]. intros Hn. apply Ht. by destruct (input_full st).
Qed.

Lemma wait_output_spec w : ints_ok KBD_MASKED w ->
  wp clock_overflow wait_ctrl_output_buffer_ready (fun ok w' =>
    env KBD_MASKED w w' /\ (ok = false -> timed_out 200 w w')) w.
Proof.
  intros Hw. unfold wait_ctrl_output_buffer_ready. apply wp_bind. eapply wp_mono; [by apply poll_status_spec|].
  intros st w1 [He Ht]. apply wp_ret. split; [done|]. intros Hn. apply Ht. by destruct (output_empty st).
Qed.

(** A command fails only when the controller does not answer in time. *)
Lemma send_cmd_spec cmd data response w : ints_ok KBD_MASKED w ->
  wp clock_overflow (__send_ctrl_cmd cmd data response) (fun r w' => env KBD_MASKED w w' /\
    (r = None -> (is_Some data /\ response = true) \/ timed_out 200 w w')) w.
Proof.
  intros Hw. unfold __send_ctrl_cmd.
  destruct (match data with Some _ => response | None => false end) eqn:Hbad.
  { apply wp_ret. split; [by apply env_refl|]. intros _. left. destruct data; [by split|done]. }
  apply wp_bind. eapply wp_mono; [by apply wait_input_spec|]. intros ok w1 [He Ht].
  destruct ok; cbn [negb]; [|apply wp_ret; split; [done|by right; apply Ht]].
  apply wp_bind. eapply wp_mono; [apply keeps_task_outb; [by right|apply (e_ok _ _ _ He)]|].
  intros [] w2 He2. pose proof (env_trans _ _ _ _ He He2) as He02.
  destruct data as [d|].
  - apply wp_bind. eapply wp_mono; [apply wait_input_spec, (e_ok _ _ _ He2)|]. intros ok w3 [He3 Ht3].
    pose proof (env_trans _ _ _ _ He02 He3) as He03.
    destruct ok; cbn [negb].
    + apply wp_bind. eapply wp_mono; [apply keeps_task_outb; [by left|apply (e_ok _ _ _ He3)]|].
      intros [] w4 He4. apply wp_ret. split; [exact (env_trans _ _ _ _ He03 He4)|done].
    + apply wp_ret. split; [done|]. intros _. right.
      eapply timed_out_earlier; [apply (e_later _ _ _ He02)|by apply Ht3|reflexivity].
  - destruct response; [|by apply wp_ret].
    apply wp_bind. eapply wp_mono; [apply wait_output_spec, (e_ok _ _ _ He2)|]. intros ok w3 [He3 Ht3].
    pose proof (env_trans _ _ _ _ He02 He3) as He03.
    destruct ok; cbn [negb].
    + apply wp_bind. eapply wp_mono; [apply keeps_task_inb, (e_ok _ _ _ He3)|].
      intros r w4 He4; cbv beta in He4; apply wp_ret. split; [exact (env_trans _ _ _ _ He03 He4)|done].
    + apply wp_ret. split; [done|]. intros _. right.
      eapply timed_out_earlier; [apply (e_later _ _ _ He02)|by apply Ht3|reflexivity].
Qed.

End Commands.
