(* ===== verification/IrqThms.v ===== *)
(** * The interrupt controllers: theorems *)
From S2P Require Import Prelude Io World Irq Clock Isr IsrSpec Pc.

Section Irq.
Context {HW : Type} `{HardwareLaws HW}.
Implicit Types w : world HW.

(** Line [l] of the two controllers is masked. *)
Definition masked w (l : Z) : bool :=
  if l <? 8 then Z.testbit (imr (master (hw w))) l else Z.testbit (imr (slave (hw w))) (l - 8).

Definition pics_ready w : Prop := icw (master (hw w)) = 0 /\ icw (slave (hw w)) = 0.

(** The two operations on masks are one, with a function of the old mask. *)
Definition change_mask (f : Z -> Z) (irq : Z) : ST (world HW) unit :=
  let '(port, irq) := irq_port irq in v ← inb port; outb port (u8 (f v));; io_wait.

(** The bit of a line in its controller. *)
Definition line_bit (irq : Z) : Z := if irq <? 8 then irq else irq - 8.

Lemma irq_set_mask_change irq : irq_set_mask irq = change_mask (fun v => Z.lor v (Z.shiftl 1 (line_bit irq))) irq.
Proof. unfold irq_set_mask, change_mask, irq_port, line_bit. by destruct (irq <? 8). Qed.

Lemma irq_clear_mask_change irq :
  irq_clear_mask irq = change_mask (fun v => Z.land v (Z.lnot (Z.shiftl 1 (line_bit irq)))) irq.
Proof. unfold irq_clear_mask, change_mask, irq_port, line_bit. by destruct (irq <? 8). Qed.

(** The controller of a line, with another mask. *)
Definition with_imr (p : pic) (v : Z) : pic := mk_pic v (isr p) (icw p) (base p) (cascade p) (mode p).

Lemma change_mask_spec E f irq w : 0 <= irq < 16 -> pics_ready w ->
  wp E (change_mask f irq) (fun _ w' => hw_only w w' /\
    master (hw w') = (if irq <? 8 then with_imr (master (hw w)) (u8 (f (imr (master (hw w))))) else master (hw w)) /\
    slave (hw w') = (if irq <? 8 then slave (hw w) else with_imr (slave (hw w)) (u8 (f (imr (slave (hw w))))))) w.
Proof.
  intros Hi [Hm Hs]. destruct (Z.ltb_spec irq 8).
  - eapply wp_mono; [apply (irq_mask_spec E f irq); [lia|done]|]. by intros _ w' (? & -> & ->).
  - eapply wp_mono; [apply (irq_mask_spec_slave E f irq); [lia|done]|]. by intros _ w' (? & -> & ->).
Qed.

Lemma change_mask_ready E f irq w : 0 <= irq < 16 -> pics_ready w ->
  wp E (change_mask f irq) (fun _ w' => hw_only w w' /\ pics_ready w' /\ forall l, 0 <= l < 16 ->
    masked w' l = if bool_decide ((irq < 8) <-> (l < 8)) then
      Z.testbit (f (if irq <? 8 then imr (master (hw w)) else imr (slave (hw w)))) (line_bit l) else masked w l) w.
Proof.
  intros Hi Hr. eapply wp_mono; [by apply change_mask_spec|]. intros _ w' (Hh & Hm & Hs).
  split; [done|]. split.
  - unfold pics_ready. rewrite Hm, Hs. by destruct (irq <? 8), Hr.
  - intros l Hl. unfold masked, line_bit. rewrite Hm, Hs.
    assert (forall v n, 0 <= n < 8 -> Z.testbit (u8 v) n = Z.testbit v n) as Hu.
    { intros v n Hn. unfold u8. by rewrite Z.mod_pow2_bits_low by lia. }
    case_bool_decide; destruct (Z.ltb_spec irq 8), (Z.ltb_spec l 8); try lia; cbn [with_imr imr]; done || (apply Hu; lia).
Qed.

Lemma testbit_shift1 n l : 0 <= n -> Z.testbit (Z.shiftl 1 n) l = (l =? n).
Proof.
  intros Hn. rewrite Z.shiftl_1_l. destruct (Z.eqb_spec l n) as [->|Hne].
  - by apply Z.pow2_bits_true.
  - apply Z.pow2_bits_false. lia.
Qed.

Lemma set_mask_lines E irq w : 0 <= irq < 16 -> pics_ready w ->
  wp E (irq_set_mask irq) (fun _ w' => hw_only w w' /\ pics_ready w' /\
    forall l, 0 <= l < 16 -> masked w' l = masked w l || (l =? irq)) w.
Proof.
  intros Hi Hr. rewrite irq_set_mask_change. eapply wp_mono; [by apply change_mask_ready|].
  intros _ w' (Hh & Hr' & Hb). split; [done|]. split; [done|]. intros l Hl. rewrite Hb by done.
  unfold masked, line_bit. case_bool_decide; destruct (Z.ltb_spec irq 8), (Z.ltb_spec l 8); try lia;
    rewrite ?Z.lor_spec, ?testbit_shift1 by lia; try (f_equal; destruct (Z.eqb_spec l irq); lia).
  all: destruct (Z.eqb_spec l irq); [lia|by rewrite orb_false_r].
Qed.

Lemma clear_mask_lines E irq w : 0 <= irq < 16 -> pics_ready w ->
  wp E (irq_clear_mask irq) (fun _ w' => hw_only w w' /\ pics_ready w' /\
    forall l, 0 <= l < 16 -> masked w' l = masked w l && negb (l =? irq)) w.
Proof.
  intros Hi Hr. rewrite irq_clear_mask_change. eapply wp_mono; [by apply change_mask_ready|].
  intros _ w' (Hh & Hr' & Hb). split; [done|]. split; [done|]. intros l Hl. rewrite Hb by done.
  unfold masked, line_bit. case_bool_decide; destruct (Z.ltb_spec irq 8), (Z.ltb_spec l 8); try lia;
    rewrite ?Z.land_spec, ?Z.lnot_spec, ?testbit_shift1 by lia; try (f_equal; f_equal; destruct (Z.eqb_spec l irq); lia).
  all: destruct (Z.eqb_spec l irq); [lia|by rewrite andb_true_r].
Qed.
(** A write, as a function of the two controllers. *)
Lemma outb_pics E port v (Q : unit -> world HW -> Prop) w :
  (forall w', hw_only w w' ->
     master (hw w') = (if port =? 0x20 then pic_cmd v (master (hw w)) else if port =? 0x21 then pic_data v (master (hw w))
       else master (hw w)) ->
     slave (hw w') = (if port =? 0xa0 then pic_cmd v (slave (hw w)) else if port =? 0xa1 then pic_data v (slave (hw w))
       else slave (hw w)) -> Q tt w') ->
  ~ 0x40 <= port <= 0x43 -> wp E (outb port v) Q w.
Proof.
  intros HQ Hp. apply wp_outb, HQ; [by apply out_port_wait|apply out_master|apply out_slave].
Qed.

(** The lines masked by the first rounds of a loop. *)
Lemma mask_loop E n i w : 0 <= i -> i + Z.of_nat n <= 16 -> pics_ready w ->
  wp E (st_for n i irq_set_mask) (fun _ w' => hw_only w w' /\ exists fm fs,
    master (hw w') = with_imr (master (hw w)) fm /\ slave (hw w') = with_imr (slave (hw w)) fs /\
    fm = fold_left (fun v l => if l <? 8 then u8 (Z.lor v (Z.shiftl 1 l)) else v) (seqZ i (Z.of_nat n)) (imr (master (hw w))) /\
    fs = fold_left (fun v l => if l <? 8 then v else u8 (Z.lor v (Z.shiftl 1 (l - 8)))) (seqZ i (Z.of_nat n)) (imr (slave (hw w)))) w.
Proof.
  revert i w. induction n as [|n IH]; intros i w Hi Hn Hr.
  - apply wp_ret. split; [done|]. eexists _, _. split_and!; [..|reflexivity|reflexivity].
    + by destruct (master (hw w)).
    + by destruct (slave (hw w)).
  - cbn [st_for]. apply wp_bind. rewrite irq_set_mask_change.
    eapply wp_mono; [apply change_mask_spec; [lia|done]|]. intros _ w1 (Hh & Hm & Hs).
    assert (pics_ready w1) as Hr1.
    { unfold pics_ready. rewrite Hm, Hs. by destruct (i <? 8), Hr. }
    eapply wp_mono; [apply IH; [lia|lia|done]|]. intros _ w2 (Hh2 & fm & fs & Hm2 & Hs2 & Hfm & Hfs).
    split; [by etrans|]. eexists _, _. split_and!; [..|reflexivity|reflexivity].
    + rewrite Hm2, Hfm, Hm, (seqZ_cons i) by lia. replace (Z.pred (Z.of_nat (S n))) with (Z.of_nat n) by lia.
      cbn [fold_left]. unfold line_bit. rewrite Z.add_1_r. by destruct (i <? 8).
    + rewrite Hs2, Hfs, Hs, (seqZ_cons i) by lia. replace (Z.pred (Z.of_nat (S n))) with (Z.of_nat n) by lia.
      cbn [fold_left]. unfold line_bit. rewrite Z.add_1_r. by destruct (i <? 8).
Qed.

Lemma irq_init_spec E mo so w v m0 s0 : 32 <= mo -> 32 <= so ->
  hw_only w v -> master (hw v) = m0 -> slave (hw v) = s0 ->
  wp E (irq_init mo so) (fun _ w' => hw_only w w' /\
    master (hw w') = mk_pic 0xff 0 0 (Z.land mo 0xf8) 4 1 /\
    slave (hw w') = mk_pic 0xff 0 0 (Z.land so 0xf8) 2 1) v.
Proof.
  intros Hmo Hso Hh Hm Hs. unfold irq_init. rewrite (proj2 (Z.ltb_ge mo 32)), (proj2 (Z.ltb_ge so 32)) by done.
  cbn [orb]. unfold io_wait, MPIC_CMD, SPIC_CMD, MPIC_DATA, SPIC_DATA.
  do 14 (apply wp_bind; apply outb_pics; [|lia]; cbn [Z.eqb Pos.eqb];
    intros v1 Hh1 Hm1 Hs1; rewrite Hm in Hm1; rewrite Hs in Hs1;
    pose proof (transitivity Hh Hh1) as Hh'; clear Hh Hh1 Hm Hs v; rename v1 into v, Hm1 into Hm, Hs1 into Hs, Hh' into Hh).
  eapply wp_mono; [apply mask_loop; [lia|cbn; lia|by unfold pics_ready; rewrite Hm, Hs]|].
  intros _ v1 (Hh1 & fm & fs & Hm1 & Hs1 & Hfm & Hfs). split; [by etrans|].
  rewrite Hm in Hm1, Hfm. rewrite Hs in Hs1, Hfs.
  cbn [pic_data pic_cmd imr isr icw base cascade mode Z.eqb Pos.eqb with_imr] in *.
  rewrite Hm1, Hs1, Hfm, Hfs. split; reflexivity.
Qed.

(** ** Theorems *)

(** C28. [irq_init] programs both controllers whatever state they are in: it
    returns with their vectors at the offsets (rounded down to a multiple of 8),
    the cascade on line 2, nothing in service and the sixteen lines masked; and
    it changes nothing but the hardware. *)
Theorem irq_init_correct mo so w : 32 <= mo -> 32 <= so ->
  wp never (irq_init mo so) (fun _ w' => hw_only w w' /\
    master (hw w') = mk_pic 0xff 0 0 (Z.land mo 0xf8) 4 1 /\
    slave (hw w') = mk_pic 0xff 0 0 (Z.land so 0xf8) 2 1) w.
Proof. intros Hmo Hso. by eapply irq_init_spec. Qed.

(** [irq_set_mask] and [irq_clear_mask] change the mask of their line, on
    either controller, and of no other. *)
Theorem irq_masks_correct irq w : 0 <= irq < 16 -> pics_ready w ->
  wp never (irq_set_mask irq) (fun _ w' => hw_only w w' /\ pics_ready w' /\
    forall l, 0 <= l < 16 -> masked w' l = masked w l || (l =? irq)) w /\
  wp never (irq_clear_mask irq) (fun _ w' => hw_only w w' /\ pics_ready w' /\
    forall l, 0 <= l < 16 -> masked w' l = masked w l && negb (l =? irq)) w.
Proof. split; [by apply set_mask_lines|by apply clear_mask_lines]. Qed.

(** While a line of the slave is in service, [irq_send_eoi] ends it on both
    controllers, except for line 8: the test is [irq > 8], so that the slave
    is not told and keeps line 8 in service, which blocks all of its lines. *)
Theorem irq_send_eoi_slave irq w : 8 <= irq < 16 ->
  isr (master (hw w)) = 2 ^ 2 -> isr (slave (hw w)) = 2 ^ (irq - 8) ->
  wp never (irq_send_eoi irq) (fun _ w' => hw_only w w' /\ isr (master (hw w')) = 0 /\
    isr (slave (hw w')) = if irq =? 8 then 1 else 0) w.
Proof.
  intros Hi Hm Hs. unfold irq_send_eoi, IRQ_MAX_VALUE, SPIC_CMD, MPIC_CMD.
  rewrite (proj2 (Z.ltb_ge 15 irq)) by lia. apply wp_bind.
  destruct (Z.ltb_spec 8 irq) as [Hlt|Hge].
  - apply outb_pics; [|lia]. cbn [Z.eqb Pos.eqb]. intros w1 Hh1 Hm1 Hs1.
    apply outb_pics; [|lia]. cbn [Z.eqb Pos.eqb]. intros w2 Hh2 Hm2 Hs2.
    split; [by etrans|]. rewrite Hm2, Hs2, Hm1, Hs1. unfold pic_cmd. cbn [Z.testbit isr Z.eqb Pos.eqb].
    change (Z.testbit 32 4) with false. cbn [isr]. rewrite Hm, Hs. split; [done|].
    rewrite (proj2 (Z.eqb_neq irq 8)) by lia.
    assert (irq = 9 \/ irq = 10 \/ irq = 11 \/ irq = 12 \/ irq = 13 \/ irq = 14 \/ irq = 15) as Hc by lia.
    by destruct Hc as [-> |[-> |[-> |[-> |[-> |[-> | ->]]]]]].
  - assert (irq = 8) as -> by lia. apply wp_ret. apply outb_pics; [|lia].
    cbn [Z.eqb Pos.eqb]. intros w2 Hh2 Hm2 Hs2. split; [done|].
    rewrite Hm2, Hs2, Hs. unfold pic_cmd. change (Z.testbit 32 4) with false. cbn [isr]. by rewrite Hm.
Qed.

End Irq.

(** ** Instances *)

(** A machine just switched on. *)
Definition pc_cold : pc := mk_pc (mk_pic 0 0 0 0 0 0) (mk_pic 0 0 0 0 0 0) 2 [] [] 0x65 0 0 [].
Definition cold_world : world pc :=
  mk_world pc_cold 0 {[ keyboard_driver := keyboard_driver_boot ]} ctrl_boot kbd_boot.

Lemma irq_init_correct_witness : exists w', irq_init IRQ0_INT IRQ7_INT cold_world = Ok (tt, w') /\
  p_master (hw w') = mk_pic 0xff 0 0 0x20 4 1.
Proof.
  destruct (wp_run _ _ _ (irq_init_correct IRQ0_INT IRQ7_INT cold_world ltac:(done) ltac:(done)))
    as ([] & w' & H & _ & Hm & _).
  exists w'. exact (conj H Hm).
Defined.

Lemma irq_masks_correct_witness : exists w', irq_set_mask 12 (demo_world [] [] KBD_STATE_WAIT_SCAN) = Ok (tt, w') /\
  masked w' 1 = false.
Proof.
  destruct (irq_masks_correct 12 (demo_world [] [] KBD_STATE_WAIT_SCAN) ltac:(lia) ltac:(split; reflexivity)) as [H _].
  destruct (wp_run _ _ _ H) as ([] & w' & Hw & _ & _ & Hb). exists w'. split; [exact Hw|].
  rewrite (Hb 1) by lia. reflexivity.
Defined.

(** Line 8 in service. *)
Definition irq8_world : world pc :=
  mk_world (set_pics (mk_pic 0 4 0 0x20 4 1) (mk_pic 0 1 0 0x28 2 1) pc_cold) 0 ∅ ctrl_boot kbd_boot.

Lemma irq_send_eoi_slave_witness : exists w', irq_send_eoi 8 irq8_world = Ok (tt, w') /\
  isr (p_master (hw w')) = 0 /\ isr (p_slave (hw w')) = 1.
Proof.
  assert (isr (master (hw irq8_world)) = 2 ^ 2) as H1 by (vm_compute; reflexivity).
  assert (isr (slave (hw irq8_world)) = 2 ^ (8 - 8)) as H2 by (vm_compute; reflexivity).
  destruct (wp_run _ _ _ (irq_send_eoi_slave 8 irq8_world ltac:(lia) H1 H2))
    as ([] & w' & H & _ & Hm & Hs).
  exists w'. exact (conj H (conj Hm Hs)).
Defined.
