(* ===== verification/Ps2Start.v ===== *)
(** * The start of the PS/2 subsystem and the main loop

    [ps2_init] of init.c from the state of the boot, whatever the devices answer,
    and the rounds of [kernel_main_loop] after it: with the driver of the keyboard
    started, or with no keyboard found, in which case its receive queue stays
    empty and the line that the driver masks is that of the clock. *)
From S2P Require Import Prelude Io Keys World Irq Clock Isr Ps2driver Ps2ctrl Keyboard IsrSpec Ps2Spec KeyboardSpec Ps2ctrlSpec.

Section Start.
Context {HW : Type} `{HardwareLaws HW}.
Implicit Types w : world HW.
Notation M := (ST (world HW)).

(** ** With the driver started *)

(** The driver runs, sends through the first port, and the machine of the scan
    codes is in a well-formed state. *)
Definition live w : Prop :=
  (exists d l, running w d l /\ send d = Some ps2ctrl_send_data_first_port_fn) /\
  seq_wf (kbd_state (kbd w)) (kbd_seq (kbd w)).

Lemma live_task w : live w -> task_ok w.
Proof. intros [(d & l & Hr & _) Hk]. split; [by exists d, l|done]. Qed.

Lemma live_env w w' : live w -> env KBD_OPEN w w' -> live w'.
Proof.
  intros [(d & l & Hr & Hs) Hk] He. destruct (env_queue _ _ _ _ _ He (r_queue _ _ _ Hr)) as (d' & b & Hq & Hsd).
  split; [|by rewrite (proj1 (proj2 (e_soft _ _ _ He)))]. exists d', (arrived l b).
  destruct Hsd as (_ & _ & Hline & _ & _ & Hsend). split; [|by rewrite Hsend].
  split; [apply (e_ok _ _ _ He)|done|]. rewrite Hline. apply (r_line _ _ _ Hr).
Qed.

(** The driver goes on running, under the same controller. *)
Definition goes w w' : Prop := live w' /\ later w w' /\ ctrl w' = ctrl w.

Lemma goes_refl w : live w -> goes w w.
Proof. by split. Qed.
Lemma goes_trans w1 w2 w3 : goes w1 w2 -> goes w2 w3 -> goes w1 w3.
Proof. intros (_ & Hl & Hc) (Hw & Hl' & Hc'). split_and!; [done|by etrans|congruence]. Qed.

Lemma goes_env w w' : live w -> env KBD_OPEN w w' -> goes w w'.
Proof. intros Hw He. split_and!; [by eapply live_env|apply (e_later _ _ _ He)|apply (e_soft _ _ _ He)]. Qed.

(** [m] returns a result that satisfies [P] and keeps the driver running. *)
Definition lives {A} (P : A -> Prop) (m : M A) : Prop :=
  forall w, live w -> wp clock_overflow m (fun a w' => P a /\ goes w w') w.
Notation any := (fun _ => True).

Lemma lives_ret {A} (P : A -> Prop) a : P a -> lives P (mret a).
Proof. intros Ha w Hw. apply wp_ret. split; [done|by apply goes_refl]. Qed.

Lemma lives_bind {A B} (P : A -> Prop) (R : B -> Prop) (m : M A) (f : A -> M B) :
  lives P m -> (forall a, P a -> lives R (f a)) -> lives R (m ≫= f).
Proof.
  intros Hm Hf w Hw. apply wp_bind. eapply wp_mono; [by apply Hm|]. intros a w1 [Ha Hg].
  eapply wp_mono; [apply Hf; [done|apply Hg]|]. intros b w2 [Hb Hg2]. split; [done|by eapply goes_trans].
Qed.

Lemma lives_interrupts : lives any interrupts.
Proof.
  intros w Hw. pose proof Hw as [(d & l & Hr & _) _].
  eapply wp_mono; [apply (interrupts_spec KBD_OPEN w d l); [apply (r_ints _ _ _ Hr)|intros _; apply (r_queue _ _ _ Hr)]|].
  intros _ w' [He _]. split; [done|by apply goes_env].
Qed.

Lemma goes_ticks w : ticks (goes w).
Proof.
  split; [intros v ([(d & l & Hr & _) _] & _); apply (i_tick _ _ (r_ints _ _ _ Hr))|].
  intros v Hv. pose proof (proj1 Hv) as [(d & l & Hr & _) _].
  eapply wp_mono; [apply (interrupts_spec KBD_OPEN v d l); [apply (r_ints _ _ _ Hr)|intros _; apply (r_queue _ _ _ Hr)]|].
  intros _ v' [He Hp]. split; [|done]. eapply goes_trans; [exact Hv|]. apply goes_env; [apply Hv|done].
Qed.

Lemma lives_hw w w' : live w -> hw_only w w' -> master (hw w') = master (hw w) -> slave (hw w') = slave (hw w) ->
  goes w w'.
Proof.
  intros [(d & l & Hr & Hs) Hk] Hh Hm Hsl. split; [|split; [by apply hw_only_later|by rewrite (proj1 Hh)]].
  destruct Hh as [Heq _]. rewrite Heq. split; [|done]. exists d, l. split; [|done].
  destruct Hr as [[Hp Hma ? ? ?] Hq Hli]. split; [|done|done]. split; cbn; try done; [|congruence].
  unfold pics_ok. by rewrite Hm, Hsl.
Qed.

Lemma lives_inb port : lives any (inb port).
Proof.
  intros w Hw. apply wp_inb. destruct (in_port_keeps port w) as (Hh & Hm & Hs). split; [done|]. by apply lives_hw.
Qed.

Lemma quiet_world port v w : quiet_port port = true ->
  let w' := set_hw (out_port port v (hw w)) w in
  hw_only w w' /\ master (hw w') = master (hw w) /\ slave (hw w') = slave (hw w).
Proof. intros Hp. destruct (quiet_out port v (hw w) Hp) as (H1 & H2 & H3). split; [by split|done]. Qed.

Lemma lives_outb port v : quiet_port port = true -> lives any (outb port v).
Proof.
  intros Hport w Hw. apply wp_outb. destruct (quiet_world port v w Hport) as (Hh & Hm & Hs). split; [done|]. by apply lives_hw.
Qed.

Lemma lives_task_inb port : lives any (task_inb port).
Proof. eapply lives_bind; [exact lives_interrupts|]. intros _ _. apply lives_inb. Qed.

Lemma lives_task_outb port v : quiet_port port = true -> lives any (task_outb port v).
Proof. intros Hp. eapply lives_bind; [exact lives_interrupts|]. intros _ _. by apply lives_outb. Qed.

Lemma lives_sleep msec : 0 <= msec < 2 ^ 31 -> lives any (clock_sleep msec).
Proof.
  intros Hm w Hw. eapply wp_mono; [apply (clock_sleep_spec (goes w) _ _ (goes_ticks w) (goes_refl w Hw) Hm)|].
  by intros _ w' [Hg _].
Qed.

Lemma lives_read msec : 0 <= msec < 21474836 -> lives any (ps2driver_read keyboard_driver msec).
Proof.
  intros Hm w [(d & l & Hr & Hs) Hk]. eapply wp_mono; [by apply (read_spec _ d l)|].
  intros r w' (d' & l' & bytes & Hr' & Hp & (Hc & Hkb & _) & (_ & _ & _ & _ & _ & Hsd) & _).
  split; [done|]. split; [|split; [by apply polled_later|done]]. split; [exists d', l'; by rewrite Hsd|by rewrite Hkb].
Qed.

Lemma lives_flush : lives any (ps2driver_flush_recv_queue keyboard_driver).
Proof.
  intros w [(d & l & Hr & Hs) Hk]. eapply wp_mono; [by apply (flush_spec _ d l)|].
  intros r w' (d' & Hr' & Hp & (Hc & Hkb & _) & (_ & _ & _ & _ & _ & Hsd)).
  split; [done|]. split; [|split; [by apply polled_later|done]]. split; [exists d', []; by rewrite Hsd|by rewrite Hkb].
Qed.

Lemma lives_update_kbd f :
  (forall k, seq_wf (kbd_state k) (kbd_seq k) -> seq_wf (kbd_state (f k)) (kbd_seq (f k))) -> lives any (update_kbd f).
Proof.
  intros Hf w [(d & l & Hr & Hs) Hk]. unfold wp, update_kbd. split; [done|]. split; [|split; [by right|done]].
  split; [exists d, l; split; [by apply running_update|done]|by apply Hf].
Qed.

(** A loop with a number of tries, which are at most three. *)
Lemma lives_countdown {R} (P : R -> Prop) (body : Z -> M (ctl R Z)) :
  (forall n, lives (fun c => match c with Next m => m = n - 1 /\ n <> 0 | Leave r => P r end) (body n)) ->
  lives P (st_loop 4 body 3).
Proof.
  intros Hb w Hw. apply (wp_loop _ (fun n v => 0 <= n <= 3 /\ goes w v) (fun n _ => Z.to_nat n)).
  - split; [lia|by apply goes_refl].
  - cbn. lia.
  - intros n v [Hn Hv]. eapply wp_mono; [apply Hb, Hv|].
    intros [m|r] v' [Hc Hv']; [|split; [done|by eapply goes_trans]].
    destruct Hc as [-> Hne]. split; [split; [lia|by eapply goes_trans]|lia].
Qed.

(** ** Sending *)

Lemma s32_below x : - 2 ^ 31 <= x -> s32 x <= x.
Proof.
  intros Hx. unfold s32. pose proof (Z.mod_le (x + 2 ^ 31) (2 ^ 32) ltac:(lia) ltac:(lia)). lia.
Qed.

Lemma timeout_length msec : 0 <= msec < 21474836 -> t_length (timeout_init msec) = msec / 10.
Proof.
  intros Hm. unfold timeout_init. cbn [t_length]. unfold CLOCK_FREQ. rewrite s32_small by lia.
  rewrite Z.quot_div_nonneg by lia. Z.div_mod_to_equations. lia.
Qed.

Lemma send_data_lives data msec : 0 <= msec < 21474836 -> lives any (ps2ctrl_send_data data msec).
Proof.
  intros Hm w Hw. unfold ps2ctrl_send_data, timeout_start. apply wp_bind, wp_bind.
  eapply wp_mono; [by apply (gettick_spec (goes w) _ (goes_ticks w)), goes_refl|]. intros now w1 (-> & Hw1 & Hp1). cbv beta.
  apply wp_ret. cbn [t_length t_target]. rewrite timeout_length by done.
  pose proof (proj1 (goes_ticks w) _ Hw1) as Ht1. pose proof (Z.div_pos msec 10 ltac:(lia) ltac:(lia)).
  set (target := s32 (tick w1 + msec / 10)).
  assert (target - tick w1 <= msec / 10) as Hfuel.
  { assert (- 2 ^ 31 <= tick w1 + msec / 10) as Hpos by lia. apply s32_below in Hpos. unfold target. lia. }
  apply wp_bind.
  apply (wp_wait _ (fun _ v => goes w v) _ _ target); [done|done|]. intros nb v Hv.
  assert (lives any ((if 0 <? nb then clock_sleep 20 else mret tt);; task_inb STATUS_PORT : M Z)) as Hpre.
  { eapply lives_bind; [|intros _ _; apply lives_task_inb]. destruct (0 <? nb); [apply lives_sleep; lia|by apply lives_ret]. }
  apply wp_group. eapply wp_mono; [apply Hpre, Hv|]. intros status v1 [_ Hv1]. cbv beta.
  pose proof (goes_trans _ _ _ Hv Hv1) as Hw1'.
  destruct (negb (ps2ctrl_input_buffer_empty status)) eqn:Hb.
  - unfold timeout_expired. apply wp_bind, wp_bind.
    eapply wp_mono; [apply (gettick_spec (goes v1) _ (goes_ticks v1)), goes_refl, Hv1|]. intros n2 v2 (-> & Hv2 & Hp2). cbv beta.
    apply wp_ret, wp_ret. cbn [t_target]. pose proof (goes_trans _ _ _ Hw1' Hv2).
    destruct (Z.leb_spec target (tick v2)) as [|Ht].
    + rewrite Hb. by apply wp_ret.
    + assert (polled v v2) as Hpv by (eapply later_polled; [apply Hv1|done]).
      split_and!; [done|done|unfold polled in Hpv; lia].
  - apply wp_ret. rewrite Hb. apply wp_bind. eapply wp_mono; [by apply lives_task_outb; [|apply Hw1']|].
    intros [] v2 [_ Hv2]. apply wp_ret. split; [done|by eapply goes_trans].
Qed.

(** ** Commands to the keyboard *)

Lemma lives_first_port data : lives any (ps2ctrl_send_data_first_port data KBD_TIMEOUT).
Proof.
  unfold ps2ctrl_send_data_first_port.
  eapply (lives_bind any); [apply send_data_lives; unfold KBD_TIMEOUT; lia|]. intros [] _; by apply lives_ret.
Qed.

Lemma lives_answer : lives any (ps2driver_read keyboard_driver KBD_TIMEOUT).
Proof. apply lives_read. unfold KBD_TIMEOUT. lia. Qed.

End Start.

(** Decomposes a computation into steps that keep the driver running. *)
Create HintDb lives discriminated.
#[export] Hint Constants Opaque : lives.
#[export] Hint Resolve lives_first_port lives_answer lives_flush : lives.
#[export] Hint Extern 1 (lives _ (mret _)) => by apply lives_ret : lives.

Ltac lives_steps :=
  repeat first
    [ solve [auto with lives]
    | eapply (lives_bind (fun _ => True)); [|intros ? _]
    | case_match ].

Section Commands.
Context {HW : Type} `{HardwareLaws HW}.
Implicit Types w : world HW.
Notation M := (ST (world HW)).
Notation any := (fun _ => True).

Lemma lives_send_and_recv data : lives any (keyboard_send_and_recv (HW := HW) data).
Proof.
  intros w Hw. unfold keyboard_send_and_recv. pose proof Hw as [(d & l & Hr & Hs) _].
  apply wp_bind, (wp_get_driver _ _ d); [apply (proj1 (r_queue _ _ _ Hr))|]. rewrite Hs. clear d l Hr Hs.
  revert w Hw. apply (lives_countdown any). intros n. cbn [call_send].
  destruct (Z.eqb_spec n 0); [by apply lives_ret|lives_steps].
Qed.

Lemma lives_expecting expected data : lives any (send_expecting (HW := HW) expected data).
Proof.
  unfold send_expecting. apply lives_countdown. intros n. destruct (Z.eqb_spec n 0); [by apply lives_ret|].
  eapply (lives_bind any); [apply lives_send_and_recv|]. intros; lives_steps.
Qed.
Hint Resolve lives_expecting : lives.

Lemma lives_command data : lives any (keyboard_send (HW := HW) data).
Proof. unfold keyboard_send. lives_steps. Qed.
Hint Resolve lives_command : lives.

(** The state of the machine is kept, or is the one of the reset. *)
Lemma lives_update_led led : lives any (update_kbd (HW := HW) (set_led_state led)).
Proof. by apply lives_update_kbd. Qed.
Lemma lives_update_scanset s : lives any (update_kbd (HW := HW) (set_scanset s)).
Proof. by apply lives_update_kbd. Qed.
Lemma lives_reset_state : lives any (update_kbd (HW := HW) (set_state KBD_STATE_RESET)).
Proof. apply lives_update_kbd. intros k [Hl _]. by split. Qed.
Hint Resolve lives_update_led lives_update_scanset lives_reset_state : lives.

Lemma lives_set_led led : lives any (keyboard_set_led (HW := HW) led).
Proof. unfold keyboard_set_led. lives_steps. Qed.

Lemma lives_get_scan_code_set : lives any (keyboard_get_scan_code_set (HW := HW)).
Proof. unfold keyboard_get_scan_code_set. lives_steps. Qed.

Lemma lives_set_scan_code_set : lives any (keyboard_set_scan_code_set (HW := HW) KBD_SCS_2).
Proof.
  unfold keyboard_set_scan_code_set. rewrite decide_False, decide_False by (intros [=] || (intros Hne; by apply Hne)).
  lives_steps.
Qed.

Lemma lives_enable_scanning : lives any (keyboard_enable_scanning (HW := HW)).
Proof. unfold keyboard_enable_scanning, simple_command. lives_steps. Qed.
Hint Resolve lives_set_led lives_get_scan_code_set lives_set_scan_code_set lives_enable_scanning : lives.

(** What [keyboard_start] does once the line of the driver is set. *)
Lemma keyboard_start_spec irq w v :
  live v -> wp clock_overflow (update_driver keyboard_driver (set_irq_line irq)) (fun _ v' => v' = v) w ->
  wp clock_overflow (keyboard_start irq) (fun _ w' => goes v w') w.
Proof.
  intros Hv Hw. unfold keyboard_start. apply wp_bind. eapply wp_mono; [exact Hw|]. intros [] v' ->.
  apply (wp_mono _ _ (fun _ w' => True /\ goes v w')); [|by intros ? ? []]. revert v Hv Hw. intros v Hv _. revert v Hv.
  match goal with |- forall v, _ -> wp _ ?m _ _ => change (lives any m) end. lives_steps.
Qed.

End Commands.
