(* ===== verification/Ps2Boot.v ===== *)
(** * From the start of the PS/2 subsystem to the main loop

    The keyboard task when no keyboard has been found, the steps of [ps2_init] of
    init.c, each from what the one before has left, and the rounds of
    [kernel_main_loop] of kernel.c after them. *)
From S2P Require Import Prelude Io Keys World Irq Clock Isr Ps2driver Ps2ctrl Keyboard IsrSpec Ps2Spec KeyboardSpec Ps2ctrlSpec Ps2Start.

(** ** Without a keyboard *)

Section Idle.
Context {HW : Type} `{HardwareLaws HW}.
Implicit Types w : world HW.

(** Nothing fills the receive queue, and the line of the driver is still 0, that
    of the clock. *)
Record idle w : Prop := {
  id_ints : ints_ok KBD_MASKED w;
  id_driver : exists d, kbd_queue w d [] /\ irq_line d = 0;
  id_state : kbd_state (kbd w) = KBD_STATE_RESET \/ kbd_state (kbd w) = KBD_STATE_WAIT_SCAN;
}.

Lemma idle_env w w' : idle w -> env KBD_MASKED w w' -> idle w'.
Proof.
  intros [Hi (d & [Hd Hh] & Hl) Hs] He. split; [apply (e_ok _ _ _ He)| |by rewrite (proj1 (proj2 (e_soft _ _ _ He)))].
  exists d. split; [|done]. split; [|done]. by rewrite (e_masked _ _ _ He).
Qed.

(** From [w] to [v], inside a critical section: every line is masked, and only
    the driver has changed. *)
Record shut (d : ps2driver) w v : Prop := {
  s_master : master (hw v) = mk_pic 0xff 0 0 IRQ0_INT (cascade (master (hw w))) (mode (master (hw w)));
  s_slave : slave (hw v) = slave (hw w);
  s_wait : (pit_wait (hw v) <= pit_wait (hw w))%nat;
  s_world : v = set_driver keyboard_driver d (set_hw (hw v) w);
}.

Lemma shut_set E f d w v : shut d w v ->
  wp E (update_driver keyboard_driver f) (fun _ v' => shut (f d) w v') v.
Proof.
  intros [Hm Hs Hp Hw]. apply (wp_update_driver _ _ d); [rewrite Hw; apply lookup_insert_eq|].
  split; [done..|]. rewrite Hw. unfold set_driver, set_hw. cbn. by rewrite insert_insert_eq.
Qed.

Lemma shut_get E d w v : shut d w v -> wp E (get_driver keyboard_driver) (fun d' v' => d' = d /\ v' = v) v.
Proof. intros Hs. apply (wp_get_driver _ _ d); [rewrite (s_world _ _ _ Hs); apply lookup_insert_eq|done]. Qed.

(** No interrupt can come. *)
Lemma shut_poll E d w v : shut d w v -> wp E interrupts (fun _ v' => shut d w v') v.
Proof.
  intros [Hm Hs Hp Hw]. unfold wp, interrupts. destruct (int_req (hw v)) as [[n|] h] eqn:Hreq.
  - exfalso. assert (forall i, 0 <= i < 8 -> Z.testbit (imr (master (hw v))) i = true) as Hall.
    { intros i Hi. rewrite Hm. cbn [imr]. assert (i = 0 \/ i = 1 \/ i = 2 \/ i = 3 \/ i = 4 \/ i = 5 \/ i = 6 \/ i = 7) as Hc by lia.
      by destruct_or! Hc; subst i. }
    destruct (req_some _ _ _ Hreq) as [(line & Hl & _ & _ & Hb & _)|(line & _ & _ & Hb & _)].
    + by rewrite Hall in Hb.
    + by rewrite Hall in Hb.
  - destruct (req_none _ _ Hreq) as (Hm' & Hs' & Hp' & _). split; cbn [hw set_hw]; [congruence|congruence|lia|].
    rewrite Hw. unfold set_driver, set_hw. by cbn.
Qed.

Lemma shut_lock E d w : ints_ok KBD_MASKED w -> driver_at w !! keyboard_driver = Some d -> irq_line d = 0 ->
  wp E (ps2driver_lock keyboard_driver) (fun _ v => shut d w v) w.
Proof.
  intros Hi Hd Hl. destruct (i_pics _ _ Hi) as (H1 & H2 & H3 & _ & _ & _).
  unfold ps2driver_lock. change (keyboard_driver =? 0) with false. cbn iota.
  apply wp_bind, (wp_get_driver _ _ d); [done|]. rewrite Hl.
  eapply wp_mono; [apply (irq_mask_spec E (fun v => Z.lor v (Z.shiftl 1 0)) 0); [lia|done]|].
  intros [] v (Hh & Hs & Hm). cbv zeta in Hm. rewrite (i_mask _ _ Hi), H1, H2, H3 in Hm.
  split; [exact Hm|done|apply Hh|]. rewrite set_driver_same; [apply (proj1 Hh)|]. by rewrite (proj1 Hh).
Qed.

Lemma shut_unlock E d w v : ints_ok KBD_MASKED w -> shut d w v -> irq_line d = 0 ->
  wp E (ps2driver_unlock keyboard_driver) (fun _ v' =>
    ints_ok KBD_MASKED v' /\ later w v' /\ kbd v' = kbd w /\ ctrl v' = ctrl w /\ driver_at v' !! keyboard_driver = Some d) v.
Proof.
  intros Hi [Hm Hs Hp Hw] Hl. unfold ps2driver_unlock. change (keyboard_driver =? 0) with false. cbn iota.
  apply wp_bind, (wp_get_driver _ _ d); [rewrite Hw; apply lookup_insert_eq|]. rewrite Hl.
  eapply wp_mono; [apply (irq_mask_spec E (fun v => Z.land v (Z.lnot (Z.shiftl 1 0))) 0); [lia|by rewrite Hm]|].
  intros [] v' ([Hh Hp'] & Hs' & Hm'). cbv zeta in Hm'. rewrite Hm in Hm'. cbn in Hm'.
  destruct Hi as [(H1 & H2 & H3 & H4 & H5 & H6) _ Hli Ht Hha].
  assert (v' = set_driver keyboard_driver d (set_hw (hw v') w)) as Hv.
  { rewrite Hh at 1. rewrite Hw. unfold set_driver, set_hw. by cbn. }
  rewrite Hv. cbn. split_and!; [|right; cbn; split; [done|lia]|done|done|apply lookup_insert_eq].
  split; cbn; [|by rewrite Hm'|done..]. unfold pics_ok. by rewrite Hs', Hs, Hm'.
Qed.

End Idle.

(** The steps of a critical section. *)
Ltac shut_step H :=
  apply wp_bind;
  first
    [ eapply wp_mono; [exact (shut_poll _ _ _ _ H)|]; clear H; intros [] ? H; cbv beta in H
    | eapply wp_mono; [exact (shut_set _ _ _ _ _ H)|]; clear H; intros [] ? H; cbv beta in H
    | eapply wp_mono; [exact (shut_get _ _ _ _ H)|]; intros ? ? [-> ->] ].

Section Task.
Context {HW : Type} `{HardwareLaws HW}.
Implicit Types w : world HW.

(** The state stays idle, and that of the keyboard the same. *)
Definition rests w w' : Prop := idle w' /\ later w w' /\ kbd w' = kbd w.

Lemma rests_trans w1 w2 w3 : rests w1 w2 -> rests w2 w3 -> rests w1 w3.
Proof. intros (_ & Hl & Hk) (Hw & Hl' & Hk'). split_and!; [done|by etrans|congruence]. Qed.

Lemma rests_env w w' : idle w -> env KBD_MASKED w w' -> rests w w'.
Proof. intros Hw He. split_and!; [by eapply idle_env|apply (e_later _ _ _ He)|apply (e_soft _ _ _ He)]. Qed.

Lemma rests_ticks w : ticks (rests w).
Proof.
  split; [intros v Hv; apply (i_tick _ _ (id_ints _ (proj1 Hv)))|]. intros v Hv.
  eapply wp_mono; [apply interrupts_masked, (id_ints _ (proj1 Hv))|]. intros _ v' [He Hp].
  split; [|done]. eapply rests_trans; [exact Hv|]. apply rests_env; [apply Hv|done].
Qed.

(** The queue is empty when its size is read. *)
Lemma idle_size w : idle w -> wp clock_overflow (read_size keyboard_driver) (fun n w' => n = 0 /\ rests w w') w.
Proof.
  intros Hw. unfold read_size. apply wp_bind.
  eapply wp_mono; [apply interrupts_masked, (id_ints _ Hw)|]. intros [] w1 [He _]. cbv beta.
  pose proof (rests_env _ _ Hw He) as Hr. pose proof (proj1 Hr) as Hw1. destruct (id_driver _ Hw1) as (d & [Hd Hh] & Hl).
  apply wp_bind. eapply wp_mono; [by apply (shut_lock _ d), Hl; [apply (id_ints _ Hw1)|]|]. intros [] v Hs.
  do 3 shut_step Hs. apply wp_bind.
  eapply wp_mono; [by apply (shut_unlock _ d w1); [apply (id_ints _ Hw1)| |]|].
  intros [] v' (Hi & Hla & Hk & _ & Hd'). apply wp_ret. split; [exact (h_size _ _ Hh)|].
  eapply rests_trans; [exact Hr|]. split_and!; [|done|done].
  split; [done|by exists d|]. rewrite Hk. apply (id_state _ Hw1).
Qed.

(** Nothing is read, once the timeout is over. *)
Lemma idle_read msec w : idle w -> 0 <= msec < 21474836 ->
  wp clock_overflow (ps2driver_read keyboard_driver msec) (fun r w' => r = None /\ rests w w') w.
Proof.
  intros Hw Hm. unfold ps2driver_read. change (keyboard_driver =? 0) with false. cbn iota.
  unfold timeout_start. apply wp_bind, wp_bind.
  assert (rests w w) as Hrefl by (split_and!; done).
  eapply wp_mono; [by apply (gettick_spec (rests w) _ (rests_ticks w))|]. intros now w1 (-> & Hw1 & Hp1).
  apply wp_ret. cbv beta. cbn [t_length]. rewrite timeout_length by done.
  pose proof (proj1 (rests_ticks w) _ Hw1) as Ht1. pose proof (Z.div_pos msec 10 ltac:(lia) ltac:(lia)).
  set (target := s32 (tick w1 + msec / 10)).
  assert (target - tick w1 <= msec / 10) as Hfuel.
  { assert (- 2 ^ 31 <= tick w1 + msec / 10) as Hpos by lia. apply s32_below in Hpos. unfold target. lia. }
  apply wp_bind. apply (wp_wait _ (fun _ v => rests w v) _ _ target); [done|done|].
  intros nb v Hv. unfold wait_data. apply wp_bind.
  apply (wp_mono _ _ (fun _ v1 => rests v v1)).
  { destruct (0 <? nb); [|apply wp_ret; split_and!; [apply Hv|done|done]].
    eapply wp_mono; [apply (clock_sleep_spec (rests v) _ _ (rests_ticks v)); [split_and!; [apply Hv|done|done]|lia]|].
    by intros _ v1 [? _]. }
  intros _ v1 Hv1. apply wp_bind. eapply wp_mono; [apply idle_size, Hv1|]. intros n v2 [-> Hv2].
  cbn [Z.eqb]. pose proof (rests_trans _ _ _ Hv1 Hv2) as Hv12. pose proof (rests_trans _ _ _ Hv Hv12) as Hw2.
  unfold timeout_expired. apply wp_bind, wp_bind.
  eapply wp_mono; [apply (gettick_spec (rests v2) _ (rests_ticks v2)); split_and!; [apply Hv2|done|done]|].
  intros now v3 (-> & Hv3 & Hp3). cbv beta. apply wp_ret, wp_ret. cbn [t_target].
  pose proof (rests_trans _ _ _ Hw2 Hv3) as Hw3. destruct (Z.leb_spec target (tick v3)).
  - cbn [Z.eqb]. by apply wp_ret.
  - assert (polled v v3) as Hp by (eapply later_polled; [apply Hv12|done]).
    split_and!; [done|done|unfold polled in Hp; lia].
Qed.

Lemma idle_flush w : idle w ->
  wp clock_overflow (ps2driver_flush_recv_queue keyboard_driver) (fun _ w' => rests w w') w.
Proof.
  intros Hw. unfold ps2driver_flush_recv_queue. change (keyboard_driver =? 0) with false. cbn iota. apply wp_bind.
  eapply wp_mono; [apply interrupts_masked, (id_ints _ Hw)|]. intros [] w1 [He _]. cbv beta.
  pose proof (rests_env _ _ Hw He) as Hr. pose proof (proj1 Hr) as Hw1. destruct (id_driver _ Hw1) as (d & [Hd Hh] & Hl).
  apply wp_bind. eapply wp_mono; [by apply (shut_lock _ d), Hl; [apply (id_ints _ Hw1)|]|]. intros [] v Hs.
  do 7 shut_step Hs. eapply wp_mono; [by apply (shut_unlock _ _ w1 _ (id_ints _ Hw1) Hs)|].
  intros [] v' (Hi & Hla & Hk & _ & Hd'). eapply rests_trans; [exact Hr|]. split_and!; [|done|done].
  split; [done| |rewrite Hk; apply (id_state _ Hw1)]. eexists. split; [split; [exact Hd'|]|done].
  apply holds_empty. apply (h_length _ _ Hh).
Qed.

Lemma idle_kbd w k : idle w -> kbd_state k = KBD_STATE_RESET \/ kbd_state k = KBD_STATE_WAIT_SCAN -> idle (set_kbd k w).
Proof. intros [Hi Hd _] Hk. split; [|done|done]. destruct Hi as [? ? ? ? ?]. by split. Qed.

(** The task does nothing. *)
Lemma idle_task w : idle w -> wp clock_overflow keyboard_task (fun _ w' => idle w' /\ later w w') w.
Proof.
  intros Hw. unfold keyboard_task. apply wp_bind, wp_gets. destruct (id_state _ Hw) as [-> | ->].
  - unfold keyboard_state_reset. apply wp_bind. eapply wp_mono; [by apply idle_flush|]. intros [] w1 (Hw1 & Hl & Hk).
    unfold wp, update_kbd, mbind, ST_bind. cbn. split; [|exact Hl].
    apply (idle_kbd w1 (set_state KBD_STATE_WAIT_SCAN (set_seq _ (kbd w1)))); [done|by right].
  - unfold keyboard_state_wait_scan. apply wp_bind. eapply wp_mono; [by apply idle_read; [|lia]|].
    intros r w1 (-> & Hw1 & Hl & _). by apply wp_ret.
Qed.

End Task.

(** ** The initialisation *)

Section Init.
Context {HW : Type} `{HardwareLaws HW}.
Implicit Types w : world HW.

(** The variables of the drivers as the kernel is loaded, and the lines but the
    clock's masked. *)
Record at_boot w : Prop := {
  b_ints : ints_ok KBD_MASKED w;
  b_driver : driver_at w !! keyboard_driver = Some keyboard_driver_boot;
  b_ctrl : ctrl w = ctrl_boot;
  b_kbd : kbd w = kbd_boot;
}.

(** The controller initialised, the keyboard registered, then installed on the
    first port. *)
Definition ctrl_registered : ps2ctrl :=
  mk_ctrl [true; false; false; false] [keyboard_driver; 0; 0; 0] true true [0; 0] [None; None].
Definition ctrl_installed : ps2ctrl := set_ps2_drivers [keyboard_driver; 0] ctrl_registered.

(** The driver has not been started, and the controller's variables are [c]. *)
Record waits (c : ps2ctrl) w w' : Prop := {
  w_ints : ints_ok KBD_MASKED w';
  w_driver : driver_at w' !! keyboard_driver = Some keyboard_driver_boot;
  w_ctrl : ctrl w' = c;
  w_kbd : kbd w' = kbd_boot;
  w_later : later w w';
}.

Lemma boot_holds : holds keyboard_driver_boot [].
Proof. by apply (holds_empty keyboard_driver_boot). Qed.

Lemma waits_idle c w w' : waits c w w' -> idle w' /\ later w w'.
Proof.
  intros [Hi Hd _ Hk Hl]. split; [|done]. split; [done| |left; by rewrite Hk].
  exists keyboard_driver_boot. split; [by split; [|apply boot_holds]|done].
Qed.

Lemma waits_env c w v v' : waits c w v -> env KBD_MASKED v v' -> waits c w v'.
Proof.
  intros [Hi Hd Hc Hk Hl] He. destruct (e_soft _ _ _ He) as (Hc' & Hk' & _).
  split; [apply (e_ok _ _ _ He)|by rewrite (e_masked _ _ _ He)|congruence|congruence|].
  etrans; [done|apply (e_later _ _ _ He)].
Qed.

Lemma waits_set c c' w v : waits c w v -> length (ps2_irq_handlers c') = 2%nat -> waits c' w (set_ctrl c' v).
Proof. intros [[? ? ? ? ?] Hd Hc Hk Hl] Hh. split; cbn; try done. split; cbn; try done. by left. Qed.

Lemma keeps_waits {A B} (m : ST (world HW) A) (k : A -> ST (world HW) B) c w v Q :
  keeps m -> waits c w v -> (forall a v', waits c w v' -> wp ctrl_fault (k a) Q v') -> wp ctrl_fault (m ≫= k) Q v.
Proof.
  intros Hm Hv Hk. apply wp_bind. eapply wp_mono; [eapply wp_weaken; [by left|apply Hm, (w_ints _ _ _ Hv)]|].
  intros a v' He. apply Hk. by eapply waits_env.
Qed.

(** *** The controller, and registration *)

(** The controller's variables once it is initialised, if it is there, and once the
    keyboard is registered. *)
Definition ctrl_begun (there : bool) : ps2ctrl := if there then set_initialized true ctrl_boot else ctrl_boot.
Definition ctrl_after (there : bool) : ps2ctrl := if there then ctrl_registered else ctrl_boot.

Lemma ctrl_init_spec uninit w : at_boot w ->
  wp ctrl_fault (ps2ctrl_init uninit) (fun _ w' => exists there, waits (ctrl_begun there) w w') w.
Proof.
  intros [Hi Hd Hc Hk]. eapply wp_mono; [apply ps2ctrl_init_spec; [done|by rewrite Hc]|]. intros r w' (w1 & He & Hr).
  assert (waits ctrl_boot w w1) as Hw1.
  { apply (waits_env _ _ (cleared w)); [|done]. split; cbn; try done; [by apply cleared_ok|by rewrite Hc|by right]. }
  destruct Hr as [[-> ->]|[-> ->]]; [exists true|by exists false].
  unfold initialized. rewrite (w_ctrl _ _ _ Hw1). by apply (waits_set ctrl_boot).
Qed.

Lemma register_spec E there w v : waits (ctrl_begun there) w v ->
  wp E keyboard_init (fun r v' => waits (ctrl_after there) w v') v.
Proof.
  intros Hv. unfold keyboard_init, ps2ctrl_register_driver. change (keyboard_driver =? 0) with false. cbn iota.
  apply wp_bind, wp_gets. rewrite (w_ctrl _ _ _ Hv).
  destruct there; cbn [ctrl_begun ctrl_boot ps2ctrl_initialized set_initialized negb]; [|by apply wp_ret].
  cbn [ctrl_begun] in Hv.
  assert (is_registered keyboard_driver v = Ok (false, v)) as Hreg.
  { unfold is_registered, slots_loop, get_driver, mbind, ST_bind. rewrite (w_driver _ _ _ Hv), (w_ctrl _ _ _ Hv). reflexivity. }
  assert (free_slot v = Ok (0, v)) as Hfree.
  { unfold free_slot, slots_loop, mbind, ST_bind. rewrite (w_ctrl _ _ _ Hv). reflexivity. }
  apply wp_bind. unfold wp at 1. rewrite Hreg. apply wp_bind. unfold wp at 1. rewrite Hfree.
  change (0 =? PS2CTRL_MAX_DRIVERS) with false. cbn iota. apply wp_bind, wp_gets. rewrite (w_ctrl _ _ _ Hv).
  apply wp_bind, (wp_lift _ _ _ [keyboard_driver; 0; 0; 0]); [done|].
  apply wp_bind, (wp_lift _ _ _ [true; false; false; false]); [done|].
  unfold wp, mbind, ST_bind, update_ctrl, mret, ST_ret. rewrite (w_ctrl _ _ _ Hv).
  by apply (waits_set (set_initialized true ctrl_boot)).
Qed.

(** *** Identification *)

Lemma recv_identity_spec msec w : ints_ok KBD_MASKED w -> 0 <= msec < 21474836 ->
  wp clock_overflow (timeo ← timeout_start (timeout_init msec); recv_identity timeo) (fun r w' =>
    env KBD_MASKED w w' /\ length r.1 = 2%nat /\ 0 <= r.2 <= 2) w.
Proof.
  intros Hw Hm. apply wp_bind. eapply wp_mono; [by apply timeout_start_spec|].
  intros t w1 (He1 & Hlen & Htg & _). unfold recv_identity. rewrite Hlen.
  apply (wp_wait _ (fun s v => env KBD_MASKED w v /\ length s.1 = 2%nat /\ 0 <= s.2 < 2) _ _ (t_target t)); [done|done|].
  intros [bytes n] v (Hv & Hb & Hn). cbn [fst snd] in *. apply wp_bind.
  eapply wp_mono; [apply keeps_recv_first, (e_ok _ _ _ Hv)|]. intros r v1 He. cbv beta.
  pose proof (env_trans _ _ _ _ Hv He) as Hv1.
  apply wp_bind. apply (wp_mono _ _ (fun s v2 => v2 = v1 /\ length s.1 = 2%nat /\ 0 <= s.2 <= 2)).
  { destruct r as [b|]; [|apply wp_ret; cbn; split_and!; done || lia].
    apply wp_bind, (wp_lift _ _ _ (<[Z.to_nat n := b]> bytes)); [by apply aset_in; lia|]. apply wp_ret. cbn.
    rewrite length_insert. split_and!; done || lia. }
  intros [bytes' n'] v2 (-> & Hb' & Hn'). cbn [fst snd] in *. destruct (Z.ltb_spec n' 2) as [Hlt|]; [|by apply wp_ret].
  unfold timeout_expired. apply wp_bind, wp_bind.
  eapply wp_mono; [apply (gettick_spec (env KBD_MASKED v1)); [apply masked_ticks|apply env_refl, (e_ok _ _ _ Hv1)]|].
  intros now v3 (-> & He3 & Hp3). cbv beta. apply wp_ret, wp_ret.
  pose proof (env_trans _ _ _ _ Hv1 He3) as Hv3. destruct (Z.leb_spec (t_target t) (tick v3)); [by cbn|].
  assert (polled v v3) as Hp by (eapply later_polled; [apply (e_later _ _ _ He)|done]).
  cbn [fst snd]. split_and!; [done..|lia|lia|done|unfold polled in Hp; lia].
Qed.

Lemma device_type_spec E bytes n w : length bytes = 2%nat -> 0 <= n <= 2 ->
  wp E (device_type_from_id_bytes bytes n) (fun _ w' => w' = w) w.
Proof.
  intros Hb Hn. unfold device_type_from_id_bytes. rewrite (proj2 (Z.ltb_ge 2 n)) by lia.
  destruct (n =? 0); [by apply wp_ret|]. destruct (aget_in bytes 0) as [b0 Hb0]; [lia|].
  apply wp_bind, (wp_lift _ _ _ b0); [done|]. destruct (n =? 1); [by apply wp_ret|].
  destruct (negb _); [by apply wp_ret|]. destruct (aget_in bytes 1) as [b1 Hb1]; [lia|].
  apply wp_bind, (wp_lift _ _ _ b1); [done|]. by apply wp_ret.
Qed.

(** The only driver there is, or none. *)
Lemma find_driver_spec E type w v : waits ctrl_registered w v ->
  wp E (find_driver type) (fun p v' => v' = v /\ (p = 0 \/ p = keyboard_driver)) v.
Proof.
  intros Hv. unfold find_driver. case_decide; [apply wp_ret; by split; [|left]|].
  apply wp_bind. unfold wp at 1, slots_loop, slot_driver. rewrite (w_ctrl _ _ _ Hv). cbn [for_ctl].
  repeat match goal with |- context [aget ?l ?i] => let r := eval vm_compute in (aget l i) in change (aget l i) with r end.
  cbn [mbind res_bind mret res_ret]. change 1 with keyboard_driver.
  rewrite (w_driver _ _ _ Hv). cbn [mbind res_bind mret res_ret].
  destruct (decide _); cbn [mbind res_bind mret res_ret]; apply wp_ret; (split; [done|]); [by right|by left].
Qed.

Lemma install_spec E w v : waits ctrl_registered w v ->
  wp E (install_driver keyboard_driver 0) (fun r v' => r = true /\ waits ctrl_installed w v') v.
Proof.
  intros Hv. unfold install_driver. change ((keyboard_driver =? 0) || (1 <? 0)) with false. cbn iota.
  apply wp_bind, wp_gets. rewrite (w_ctrl _ _ _ Hv).
  apply wp_bind, (wp_lift _ _ _ 0); [done|]. change (negb (0 =? 0)) with false. cbn iota.
  apply wp_bind, (wp_lift _ _ _ [keyboard_driver; 0]); [done|].
  unfold wp, mbind, ST_bind, update_ctrl, mret, ST_ret. rewrite (w_ctrl _ _ _ Hv). split; [done|].
  by apply (waits_set ctrl_registered).
Qed.

Lemma identify_devices_spec there w v : waits (ctrl_after there) w v ->
  wp ctrl_fault ps2ctrl_identify_devices (fun r v' =>
    if r : bool then waits ctrl_installed w v' else exists c, waits c w v') v.
Proof.
  intros Hv. unfold ps2ctrl_identify_devices. apply wp_bind, wp_gets. rewrite (w_ctrl _ _ _ Hv).
  destruct there; [|apply wp_ret; by eexists]. cbn [ctrl_after] in *.
  change (negb (ps2ctrl_initialized ctrl_registered)) with false. cbn iota.
  eapply keeps_waits; [apply keeps_send_and_ack|exact Hv|]. intros [] v1 Hv1; cbn [negb]; [|apply wp_ret; by eexists].
  eapply keeps_waits; [apply keeps_send_and_ack|exact Hv1|]. intros [] v2 Hv2; cbn [negb]; [|apply wp_ret; by eexists].
  apply wp_group. eapply wp_mono; [eapply wp_weaken; [by left|apply recv_identity_spec; [apply (w_ints _ _ _ Hv2)|lia]]|].
  intros [bytes n] v3 (He & Hb & Hn). cbn [fst snd] in *. pose proof (waits_env _ _ _ _ Hv2 He) as Hv3.
  apply wp_bind. eapply wp_mono; [by apply device_type_spec|]. intros type v4 ->. cbv beta.
  case_decide; [apply wp_ret; by eexists|]. apply wp_bind. eapply wp_mono; [by apply (find_driver_spec _ _ w)|].
  intros p v4 (-> & Hp). cbv beta. destruct Hp as [-> | ->]; [apply wp_ret; by eexists|].
  change (keyboard_driver =? 0) with false. cbn iota. apply wp_bind. eapply wp_mono; [by apply install_spec|].
  intros r v4 [-> Hv4]. cbn [negb]. apply wp_bind, wp_gets. rewrite (w_ctrl _ _ _ Hv4). by apply wp_ret.
Qed.

(** *** The driver is started *)

(** The first port: whatever the keyboard answers, its driver runs. *)
Lemma start_first w v : waits ctrl_installed w v ->
  wp clock_overflow (start_port 0) (fun _ v' => live v' /\ later w v' /\ ps2_drivers (ctrl v') = [keyboard_driver; 0]) v.
Proof.
  intros Hv. unfold start_port. change (0 =? 0) with true. cbn iota. apply wp_bind, wp_gets. rewrite (w_ctrl _ _ _ Hv).
  apply wp_bind, (wp_lift _ _ _ keyboard_driver); [done|]. change (keyboard_driver =? 0) with false. cbn iota.
  apply wp_bind, (wp_get_driver _ _ keyboard_driver_boot); [apply (w_driver _ _ _ Hv)|].
  cbn [recv start keyboard_driver_boot]. set (c := set_irq_handlers [Some keyboard_recv_fn; None] ctrl_installed).
  apply wp_bind. apply (wp_mono _ _ (fun _ v' => waits c w v')).
  { apply wp_bind, wp_gets. rewrite (w_ctrl _ _ _ Hv). apply wp_bind, (wp_lift _ _ _ [Some keyboard_recv_fn; None]); [done|].
    unfold wp, update_ctrl. rewrite (w_ctrl _ _ _ Hv). by apply (waits_set ctrl_installed). }
  clear Hv v. intros _ v Hv. apply wp_bind.
  eapply wp_mono; [apply (ints_mask_line _ (fun v => Z.land v (Z.lnot (Z.shiftl 1 1))) KBD_MASKED KBD_OPEN);
    [apply (w_ints _ _ _ Hv)|done|right; by rewrite (w_ctrl _ _ _ Hv)]|].
  intros _ v1 [Hi1 Hh1]. apply wp_bind.
  assert (kbd_queue v1 keyboard_driver_boot []) as Hq1.
  { split; [rewrite (proj1 Hh1); apply (w_driver _ _ _ Hv)|apply boot_holds]. }
  eapply wp_mono; [by apply (interrupts_spec KBD_OPEN v1 keyboard_driver_boot [])|]. intros _ v2 [He2 _]. cbv beta.
  destruct (env_queue _ _ _ _ _ He2 Hq1) as (d & bytes & [Hd Hh] & Hsame).
  destruct (e_soft _ _ _ He2) as (Hc2 & Hk2 & _).
  assert (ctrl v2 = c /\ kbd v2 = kbd_boot) as [Hc Hk].
  { rewrite Hc2, Hk2, (proj1 Hh1). split; [apply (w_ctrl _ _ _ Hv)|apply (w_kbd _ _ _ Hv)]. }
  apply wp_bind, (wp_update_driver _ _ d); [done|].
  set (d1 := set_send (Some ps2ctrl_send_data_first_port_fn) d). set (d2 := set_irq_line IRQ1_KEYBOARD d1).
  set (v3 := set_driver keyboard_driver d1 v2). cbn [call_start].
  assert (live (set_driver keyboard_driver d2 v3)) as Hlive.
  { split; [|by cbn; rewrite Hk]. exists d2, (arrived [] bytes). split; [|done].
    split; [|split; [apply lookup_insert_eq|]|done].
    - destruct (e_ok _ _ _ He2) as [? ? ? ? ?]. by split.
    - by destruct Hh as [? ? ? ? ? ?]. }
  eapply wp_mono; [apply (keyboard_start_spec IRQ1_KEYBOARD v3 (set_driver keyboard_driver d2 v3) Hlive)|].
  - by apply (wp_update_driver _ _ d1); [apply lookup_insert_eq|].
  - intros r w' (Hw' & Hl & Hcw). split; [done|]. split; [|rewrite Hcw; cbn; by rewrite Hc].
    etrans; [apply (w_later _ _ _ Hv)|]. etrans; [by apply hw_only_later|]. etrans; [apply (e_later _ _ _ He2)|]. exact Hl.
Qed.

Lemma start_drivers_spec w v : waits ctrl_installed w v ->
  wp clock_overflow ps2ctrl_start_drivers (fun _ v' => live v' /\ later w v') v.
Proof.
  intros Hv. unfold ps2ctrl_start_drivers. apply wp_bind, wp_gets. rewrite (w_ctrl _ _ _ Hv).
  change (negb (ps2ctrl_initialized ctrl_installed)) with false. cbn iota. apply wp_bind.
  eapply wp_mono; [by apply (start_first w)|]. intros r v1 (Hl & Hla & Hp). destruct r; cbn [negb]; [|by apply wp_ret].
  apply wp_bind. unfold start_port. change (1 =? 0) with false. cbn iota. apply wp_bind, wp_gets. rewrite Hp.
  apply wp_bind, (wp_lift _ _ _ 0); [done|]. change (0 =? 0) with true. cbn iota. apply wp_ret. cbn [negb]. by apply wp_ret.
Qed.

(** *** What the interrupts and the console keep *)

(** The main loop can run: with the driver of the keyboard, or with nothing to
    read. *)
Definition ready w : Prop := task_ok w \/ idle w.

(** [P] is kept by the interrupts, and by what leaves the interrupt controllers
    alone. *)
Record restful (P : world HW -> Prop) : Prop := {
  rest_hw : forall w h, P w -> same_pics (hw w) h -> P (set_hw h w);
  rest_ints : forall w, P w -> wp clock_overflow interrupts (fun _ w' => P w') w;
}.

Lemma ints_hw mask w h : ints_ok mask w -> same_pics (hw w) h -> ints_ok mask (set_hw h w).
Proof.
  intros [Hp Hm Hl Ht Hh] (E1 & E2 & _). split; cbn; try done; [|congruence]. unfold pics_ok. by rewrite E1, E2.
Qed.

Lemma waits_restful c w : restful (waits c w).
Proof.
  split.
  - intros v h [Hi Hd Hc Hk Hl] Hs. split; cbn; try done; [by apply ints_hw|].
    etrans; [done|]. apply hw_only_later. split; [done|apply Hs].
  - intros v Hv. eapply wp_mono; [apply keeps_interrupts, (w_ints _ _ _ Hv)|]. intros ? v' He. cbv beta in He. by eapply waits_env.
Qed.

Lemma ready_hw w h : ready w -> same_pics (hw w) h -> ready (set_hw h w).
Proof.
  intros [[(d & l & [Hi Hq Hl]) Hk]|[Hi (d & Hq & Hl) Hs]] Hp; [left|right].
  - split; [|done]. exists d, l. split; [by apply ints_hw|done..].
  - split; [by apply ints_hw| |done]. by exists d.
Qed.

(** ** The main loop *)

Lemma ready_ticks : ticks ready.
Proof.
  split.
  - intros w [Hw|Hw]; [by apply task_ticks|apply (i_tick _ _ (id_ints _ Hw))].
  - intros w [Hw|Hw].
    + eapply wp_mono; [by apply task_ticks|]. intros _ w' [? ?]. split; [by left|done].
    + eapply wp_mono; [apply (proj2 (rests_ticks w)); split_and!; done|]. intros _ w' [[? _] ?]. split; [by right|done].
Qed.

Lemma ready_restful : restful ready.
Proof.
  split; [apply ready_hw|]. intros w Hw. eapply wp_mono; [by apply ready_ticks|]. by intros _ w' [? _].
Qed.

Lemma ready_task w : ready w -> wp task_fault keyboard_task (fun _ w' => ready w' /\ later w w') w.
Proof.
  intros [Hw|Hw].
  - eapply wp_mono; [by apply keyboard_task_spec|]. intros _ w' [? ?]. split; [by left|done].
  - eapply wp_weaken; [by left|]. eapply wp_mono; [by apply idle_task|]. intros _ w' [? ?]. split; [by right|done].
Qed.

Lemma round_spec w : ready w -> wp task_fault kernel_main_loop_round (fun _ w' => ready w' /\ timed_out 1000 w w') w.
Proof.
  intros Hw. eapply wp_mono; [apply (sched_run_task_spec _ ready _ 100 _ ready_ticks Hw); [lia|by left|apply ready_task]|].
  intros _ w' (Hw' & _ & Ht). split; [done|]. exact Ht.
Qed.

(** [n] quanta have passed, or the clock is about to overflow. *)
Definition quanta (n : nat) w w' : Prop :=
  tick w + 100 * Z.of_nat n <= tick w' \/ 2 ^ 31 <= tick w' + 100.

Lemma rounds_spec n i w : ready w ->
  wp task_fault (st_for n i (fun _ => kernel_main_loop_round)) (fun _ w' => ready w' /\ quanta n w w') w.
Proof.
  revert i w. induction n as [|n IH]; intros i w Hw; [apply wp_ret; split; [done|left; lia]|]. cbn [st_for].
  apply wp_bind. eapply wp_mono; [by apply round_spec|]. intros _ w1 [Hw1 Ht].
  eapply wp_mono; [by apply IH|]. intros _ w2 [Hw2 Hq]. split; [done|]. unfold quanta, timed_out in *.
  change (1000 / 10) with 100 in Ht. pose proof (proj1 ready_ticks _ Hw2). lia.
Qed.

End Init.
