(* ===== verification/DriverThms.v ===== *)
(** * The drivers: theorems *)
From S2P Require Import Prelude Io Keys World Irq Clock Isr Ps2driver Ps2ctrl Keyboard IsrSpec Ps2Spec KeyboardSpec Pc Ps2ctrlSpec.

(** ** The clock *)

(** C31. Liveness: whatever interrupts come, [clock_sleep] returns once [msec / 10]
    interrupts of the clock, rounded down, have been counted since it was called,
    and at most two more; it stops the kernel only when the tick counter has no
    room for so many.  The first of these interrupts may come at any moment, so
    that less time than asked for may pass, and for less than 10 ms it does not
    wait at all: it only takes the interrupts that are pending.  [I] is any
    invariant under which the clock runs. *)
Theorem clock_sleep_wakes {W} `{ClockedLaws W} (I : W -> Prop) msec w :
  ticks I -> I w -> 0 <= msec < 2 ^ 31 ->
  wp (fun f => clock_overflow f /\ 2 ^ 31 <= tick w + msec / 10 + 2) (clock_sleep msec) (fun _ w' =>
    I w' /\ tick w + msec / 10 <= tick w' <= tick w + msec / 10 + 2) w /\
  (msec < 10 -> clock_sleep msec w = (poll;; poll) w).
Proof.
  intros HI Hw Hm. pose proof (proj1 HI w Hw) as Ht. split; [|intros; apply clock_sleep_short; lia].
  pose proof (pace_use _ _ _ _ w (pace_clock_sleep msec Hm) Ht (clock_sleep_spec I msec w HI Hw Hm)) as Hp.
  pose proof (Z.div_pos msec 10 ltac:(lia) ltac:(lia)).
  eapply wp_mono; [eapply wp_weaken; [|exact Hp]|].
  - intros f [Hf Hn]. split; [done|]. specialize (Hn Hf). lia.
  - intros _ w' [(Hi & _ & Hle) Hn]. split; [done|lia].
Qed.

Section Drivers.
Context {HW : Type} `{HardwareLaws HW}.
Implicit Types w : world HW.

(** ** The PS/2 driver *)

(** C32. [ps2driver_read] returns, whatever interrupts come meanwhile.  Let [l]
    be the receive queue before the call and [bytes] what the interrupts read
    from the controller during the call: true is returned with the first byte of
    [l ++ bytes] and the queue then holds the rest, so that no byte is lost,
    repeated or out of order as long as there is room for 255; or false when the
    queue was empty and stayed so for the whole timeout, [bytes] being in the
    queue.  Only the overflow of the tick counter stops it, when it has no room
    for the timeout and 16 ticks more. *)
Theorem ps2driver_read_correct w d l msec : running w d l -> installed w -> 0 <= msec < 21474836 ->
  wp (fun f => clock_overflow f /\ 2 ^ 31 <= tick w + msec / 10 + 16) (ps2driver_read keyboard_driver msec) (fun r w' =>
    exists d' l' bytes, running w' d' l' /\ same_software w w' /\
      data_read (hw w') = data_read (hw w) ++ bytes /\
      match r with
      | Some b => take 255 (l ++ bytes) = b :: l'
      | None => l = [] /\ l' = take 255 bytes /\ timed_out msec w w'
      end) w.
Proof.
  intros Hr Hi Hm. pose proof (Z.div_pos msec 10 ltac:(lia) ltac:(lia)).
  pose proof (pace_use _ _ _ _ w (pace_read keyboard_driver msec Hm) (i_tick _ _ (r_ints _ _ _ Hr)) (read_spec w d l msec Hr Hm)) as Hp.
  eapply wp_mono; [eapply wp_weaken; [|exact Hp]|].
  - intros f [Hf Hn]. split; [done|]. specialize (Hn Hf). lia.
  - intros r w' [(d' & l' & bytes & Hr' & _ & Hs & _ & Hg & Hx) _]. exists d', l', bytes.
    split_and!; [done|done|by apply Hg|done].
Qed.

(** ** The keyboard *)

(** C33. Round trip: whatever interrupts come meanwhile, when the receive queue
    starts with the scan codes (set 2) of a sequence of key events, as many calls
    of [keyboard_task] as there are bytes and events report these events, in
    order, and consume exactly their bytes. *)
Theorem keyboard_task_decodes w q rep evs bytes l :
  at_state w KBD_STATE_WAIT_SCAN q rep (bytes ++ l) -> length (scancodes q) = 8%nat ->
  encode_all evs = Some bytes ->
  wp clock_overflow (tasks (length bytes + length evs)) (fun _ w' =>
    exists q', at_state w' KBD_STATE_WAIT_SCAN q' (reverse (report_of <$> evs) ++ rep) l) w.
Proof.
  intros Ha Hq He. eapply wp_mono; [by eapply tasks_events|]. intros _ w' [(q' & Ha' & _) _]. by exists q'.
Qed.

(** Termination: on any bytes and interrupts, a round of the kernel's main
    loop (the keyboard task for a quantum of 100 ticks) ends, once its time is
    over; only a scan code outside of the 136 entries of the table, which the
    code looks up all the same, or the overflow of the clock stops it. *)
Theorem kernel_main_loop_round_ends w : task_ok w ->
  wp (fun f => clock_overflow f \/ f = Oob) kernel_main_loop_round (fun _ w' =>
    task_ok w' /\ timed_out 1000 w w') w.
Proof.
  intros Hw. eapply wp_mono;
    [by apply (sched_run_task_spec _ task_ok); [apply task_ticks| |lia|by left|apply keyboard_task_spec]|].
  intros _ w' (Hw' & _ & Ht). split; [done|]. exact Ht.
Qed.

(** ** The PS/2 controller *)

(** C35. Termination: with the lines of the devices masked, [ps2ctrl_init] ends
    whatever the controller answers, in one of four ways.  The list of drivers is
    cleared, and then: it returns 0 with the controller initialised, only if the
    controller has said that it has a single channel; it returns -1 with nothing
    else changed, only if one of its steps has failed; it stops with "not
    implemented", only if the controller has said that it has two channels; or
    the tick counter overflows, only if fewer than 1500 ticks (15 s) were left. *)
Theorem ps2ctrl_init_ends uninit w : ints_ok KBD_MASKED w -> ps2ctrl_initialized (ctrl w) = false ->
  wp (fun f => (clock_overflow f /\ 2 ^ 31 <= tick w + 1500) \/
       (f = Panic "not implemented" /\ two_channels (cleared w)))
    (ps2ctrl_init uninit) (fun r w' =>
    exists w1, env KBD_MASKED (cleared w) w1 /\ tick w' <= tick w + 1500 /\
      ((r = 0 /\ w' = initialized w1 /\ one_channel (cleared w)) \/
       (r = -1 /\ w' = w1 /\ exists v, env KBD_MASKED (cleared w) v /\ step_fails uninit v w1))) w.
Proof.
  intros Hw Hi.
  pose proof (pace_use _ _ _ _ w (pace_init uninit) (i_tick _ _ Hw) (ps2ctrl_init_run uninit w Hw Hi)) as Hp.
  eapply wp_mono; [eapply wp_weaken; [|exact Hp]|].
  - intros f [[Hf|Hf] Hn]; [left; split; [done|by apply Hn]|by right].
  - intros r w' [(w1 & He & Hr) Ht]. by exists w1.
Qed.

(** C36. Errors: a command to the controller fails only when it is called with
    both data and response, or when the controller's buffer was not ready within
    200 ms; it keeps the state of the drivers in any case. *)
Theorem send_ctrl_cmd_fails_on_timeout cmd data response w : ints_ok KBD_MASKED w ->
  wp clock_overflow (__send_ctrl_cmd cmd data response) (fun r w' => env KBD_MASKED w w' /\
    (r = None -> (is_Some data /\ response = true) \/ timed_out 200 w w')) w.
Proof. apply send_cmd_spec. Qed.

End Drivers.

(** ** Instances *)

Lemma started_holds l : (length l < 255)%nat -> holds (driver_started l) l.
Proof.
  intros Hl. split; cbn; ring_unfold.
  - rewrite length_app, length_replicate. lia.
  - lia.
  - rewrite Z.mod_small; lia.
  - done.
  - lia.
  - intros i b Hi. pose proof (lookup_lt_Some _ _ _ Hi). rewrite Z.mod_small by lia.
    rewrite Z.add_0_l, Nat2Z.id. by apply lookup_app_l_Some.
Qed.

Lemma demo_running keys l st : (length l < 255)%nat -> running (demo_world keys l st) (driver_started l) l.
Proof.
  intros Hl. split; [|split; [done|by apply started_holds]|done].
  split; try done. by right.
Qed.

(** A wait of 50 ms takes 5 ticks. *)
Lemma clock_sleep_wakes_witness :
  wp (fun _ => False) (clock_sleep 50) (fun _ w' => 105 <= clock_tick w' <= 107) (demo_world [] [] KBD_STATE_WAIT_SCAN).
Proof.
  pose proof (demo_running [] [] KBD_STATE_WAIT_SCAN ltac:(cbn; lia)) as Hr.
  assert (0 <= 50 < 2 ^ 31) as Hm by lia.
  destruct (clock_sleep_wakes (env KBD_OPEN (demo_world [] [] KBD_STATE_WAIT_SCAN)) 50 _
    (env_ticks _ _ _ (r_queue _ _ _ Hr)) (env_refl _ _ (r_ints _ _ _ Hr)) Hm) as [Hwake _].
  eapply wp_mono; [eapply wp_weaken; [|exact Hwake]|].
  - intros f [_ Hf]. change (2 ^ 31 <= 107) in Hf. lia.
  - intros a w' [_ Ht]. exact Ht.
Defined.

Lemma ps2driver_read_correct_witness :
  wp (fun _ => False) (ps2driver_read keyboard_driver 0) (fun r w' => r = Some 0x1c)
    (demo_world [0xf0; 0x1c] [0x1c; 0x32] KBD_STATE_WAIT_SCAN).
Proof.
  assert (0 <= 0 < 21474836) as Hm by lia.
  eapply wp_mono; [eapply wp_weaken; [|exact (ps2driver_read_correct _ _ _ 0
    (demo_running [0xf0; 0x1c] [0x1c; 0x32] KBD_STATE_WAIT_SCAN ltac:(cbn; lia)) eq_refl Hm)]|].
  - intros f [_ Hf]. change (2 ^ 31 <= 116) in Hf. lia.
  - intros [b|] w' (d' & l' & bytes & _ & _ & _ & Hx); [|by destruct Hx]. cbn in Hx. by injection Hx as <- _.
Defined.

Definition demo_events : list (keycode * keycode_type) :=
  [(KEY_A, KBD_KEYTYPE_MAKE); (KEY_UP, KBD_KEYTYPE_MAKE); (KEY_A, KBD_KEYTYPE_BREAK); (KEY_PAUSE, KBD_KEYTYPE_MAKE);
   (KEY_PRNT_SCRN, KBD_KEYTYPE_BREAK)].
Definition demo_bytes : list Z := default [] (encode_all demo_events).

Lemma keyboard_task_decodes_witness :
  wp clock_overflow (tasks (length demo_bytes + 5)) (fun _ w' =>
    reported (kbd w') = reverse (report_of <$> demo_events)) (demo_world [0x29] demo_bytes KBD_STATE_WAIT_SCAN).
Proof.
  eapply wp_mono.
  - apply (keyboard_task_decodes _ (mk_seq (replicate 8 0) 0 0) [] demo_events demo_bytes []); [|done|vm_compute; reflexivity].
    split; try done. exists (driver_started demo_bytes), []. rewrite !app_nil_r.
    apply demo_running. vm_compute. lia.
  - intros a w' [q' Ha]. rewrite (a_reported _ _ _ _ _ Ha). apply app_nil_r.
Defined.

Lemma kernel_main_loop_round_ends_witness :
  wp (fun f => clock_overflow f \/ f = Oob) kernel_main_loop_round (fun _ w' => task_ok w')
    (demo_world [0x1c; 0xf0; 0x1c] [] KBD_STATE_RESET).
Proof.
  eapply wp_mono.
  - apply kernel_main_loop_round_ends. split; [|done].
    exact (ex_intro _ _ (ex_intro _ _ (demo_running [0x1c; 0xf0; 0x1c] [] KBD_STATE_RESET ltac:(cbn; lia)))).
  - intros a w' [H _]. exact H.
Defined.

(** A machine whose interrupts run, before the drivers do. *)
Definition boot_world : world pc :=
  mk_world (mk_pc (mk_pic KBD_MASKED 0 0 IRQ0_INT 4 1) (mk_pic 0xff 0 0 IRQ7_INT 2 1) 2 [7] [] 0x65 0 0 []) 0
    {[ keyboard_driver := keyboard_driver_boot ]} ctrl_boot kbd_boot.

Lemma boot_ints : ints_ok KBD_MASKED boot_world.
Proof. split; try done. by left. Qed.

Lemma ps2ctrl_init_ends_witness :
  wp (fun f => f = Panic "not implemented") (ps2ctrl_init 0) (fun r _ => r = 0 \/ r = -1) boot_world /\
  ps2ctrl_initialized (ctrl boot_world) = false.
Proof.
  split; [|reflexivity].
  eapply wp_mono; [eapply wp_weaken; [|exact (ps2ctrl_init_ends 0 boot_world boot_ints eq_refl)]|].
  - intros f [[_ Hf]|[Hf _]]; [|exact Hf]. change (2 ^ 31 <= 1500) in Hf. lia.
  - intros r w' (w1 & _ & _ & [[-> _]|[-> _]]); [by left|by right].
Defined.

Lemma send_ctrl_cmd_fails_on_timeout_witness :
  wp clock_overflow (__send_ctrl_cmd 0xaa None true) (fun r w' => r = None -> timed_out 200 boot_world w') boot_world.
Proof.
  eapply wp_mono; [exact (send_ctrl_cmd_fails_on_timeout 0xaa None true boot_world boot_ints)|].
  intros r w' [_ Hr] Hn. by destruct (Hr Hn) as [[[x Hx] _]|Ht].
Defined.

(** The whole subsystem starts on this machine: the keyboard is found and its
    driver runs. *)
Example ps2_boot :
  match (ps2ctrl_init 0;; keyboard_init;; found ← ps2ctrl_identify_devices; started ← ps2ctrl_start_drivers;
         mret (found && started)) boot_world with
  | Ok (ok, w) => ok && ps2ctrl_initialized (ctrl w) && bool_decide (ps2_drivers (ctrl w) = [keyboard_driver; 0]) &&
      bool_decide (keyboard_scanset (kbd w) = KBD_SCS_2) && (imr (p_master (hw w)) =? KBD_OPEN)
  | Err _ => false
  end = true.
Proof. vm_compute. reflexivity. Qed.
