(* ===== verification/Descriptors.v ===== *)
(** * Segment and interrupt descriptors (gdt.c, tools/gdt_descriptor.c, idt.c)

    The encoder of segment descriptors, the table of the kernel that it computed,
    and the interrupt table, with decoders that read the fields back the way the
    CPU does. *)
From S2P Require Import Prelude.

(** ** Segment descriptors *)

Definition SEG_DESCTYPE (x : Z) : Z := Z.shiftl x 0x04.
Definition SEG_PRES (x : Z) : Z := Z.shiftl x 0x07.
Definition SEG_SAVL (x : Z) : Z := Z.shiftl x 0x0c.
Definition SEG_LONG (x : Z) : Z := Z.shiftl x 0x0d.
Definition SEG_SIZE (x : Z) : Z := Z.shiftl x 0x0e.
Definition SEG_GRAN (x : Z) : Z := Z.shiftl x 0x0f.
Definition SEG_PRIV (x : Z) : Z := Z.shiftl (Z.land x 0x03) 0x05.
Definition SEG_DATA_RDWR : Z := 0x02.
Definition SEG_CODE_EXRD : Z := 0x0a.

(** The four flags of the tool, which differ in privilege level and type. *)
Definition gdt_flag (priv type : Z) : Z :=
  Z.lor (Z.lor (Z.lor (Z.lor (Z.lor (Z.lor (Z.lor (SEG_DESCTYPE 1) (SEG_PRES 1)) (SEG_SAVL 0)) (SEG_LONG 0))
    (SEG_SIZE 1)) (SEG_GRAN 1)) (SEG_PRIV priv)) type.
Definition GDT_CODE_PL0 : Z := gdt_flag 0 SEG_CODE_EXRD.
Definition GDT_DATA_PL0 : Z := gdt_flag 0 SEG_DATA_RDWR.
Definition GDT_CODE_PL3 : Z := gdt_flag 3 SEG_CODE_EXRD.
Definition GDT_DATA_PL3 : Z := gdt_flag 3 SEG_DATA_RDWR.

(** The value that the tool prints; [base << 16] is computed on 32 bits. *)
Definition create_descriptor (base limit flag : Z) : Z :=
  let descriptor := Z.land limit 0x000f0000 in
  let descriptor := Z.lor descriptor (Z.land (Z.shiftl flag 8) 0x00f0ff00) in
  let descriptor := Z.lor descriptor (Z.land (Z.shiftr base 16) 0x000000ff) in
  let descriptor := Z.lor descriptor (Z.land base 0xff000000) in
  let descriptor := Z.shiftl descriptor 32 in
  let descriptor := Z.lor descriptor (u32 (Z.shiftl base 16)) in
  Z.lor descriptor (Z.land limit 0x0000ffff).

Definition gdt : list Z :=
  [0x0000000000000000; 0x00cf9a000000ffff; 0x00cf92000000ffff; 0x00cffa000000ffff; 0x00cff2000000ffff].

(** The operand of [lgdt], for a table at [gdt_addr]. *)
Record gdtr_reg := mk_gdtr { gdtr_limit : Z; gdtr_base : Z }.
Definition gdt_setup (gdt_addr : Z) : gdtr_reg := mk_gdtr (8 * Z.of_nat (length gdt) - 1) gdt_addr.

(** *** The reading of the CPU *)

(** [w] bits of [d] from bit [i]. *)
Definition field (d i w : Z) : Z := Z.land (Z.shiftr d i) (Z.ones w).

Definition desc_base (d : Z) : Z := Z.lor (field d 16 24) (Z.shiftl (field d 56 8) 24).
Definition desc_limit (d : Z) : Z := Z.lor (field d 0 16) (Z.shiftl (field d 48 4) 16).
Definition desc_access (d : Z) : Z := field d 40 8.
Definition desc_flags (d : Z) : Z := field d 52 4.

(** ** Interrupt gates *)

Record idt_entry := mk_entry { offset_lo : Z; segment_selector : Z; flags : Z; offset_hi : Z }.

Definition int_gate (isr_ptr : Z) : idt_entry :=
  mk_entry (Z.land isr_ptr 0xffff) 0x08 0x8e00 (Z.land (Z.shiftr isr_ptr 16) 0xffff).
Definition trap_gate (isr_ptr : Z) : idt_entry :=
  mk_entry (Z.land isr_ptr 0xffff) 0x08 0x8f00 (Z.land (Z.shiftr isr_ptr 16) 0xffff).
Definition empty_gate : idt_entry := mk_entry 0 0 0 0.

Section Idt.
(** The addresses of [isr0] to [isr47], assembly stubs, and of the table. *)
Context (isr_stub : Z -> Z) (idt_addr : Z).

(** The 256 entries are cleared, then the first 48 are set one after the other;
    the result is the table and the operand of [lidt]. *)
Definition setup_idt (idt : list idt_entry) : res (list idt_entry * (Z * Z)) :=
  idt ← for_loop 256 0 (fun i idt => aset idt i empty_gate) idt;
  idt ← for_loop 48 0 (fun i idt => aset idt i (int_gate (isr_stub i))) idt;
  mret (idt, (8 * Z.of_nat (length idt) - 1, idt_addr)).
End Idt.

(** The handler of a gate, and the present bit and the type of its flags. *)
Definition gate_offset (e : idt_entry) : Z := Z.lor (offset_lo e) (Z.shiftl (offset_hi e) 16).
Definition gate_present (e : idt_entry) : bool := Z.testbit (flags e) 15.
Definition gate_type (e : idt_entry) : Z := field (flags e) 8 4.

(** ** Facts *)

Lemma testbit_ones_if w i : 0 <= w -> Z.testbit (Z.ones w) i = (0 <=? i) && (i <? w).
Proof.
  intros Hw. destruct (Z.ltb_spec i w), (Z.leb_spec 0 i); cbn [andb].
  - by apply Z.ones_spec_low.
  - by apply Z.testbit_neg_r.
  - apply Z.ones_spec_high. lia.
  - by apply Z.testbit_neg_r.
Qed.

Lemma testbit_high x w i : 0 <= x < 2 ^ w -> 0 <= w <= i -> Z.testbit x i = false.
Proof.
  intros Hx Hi. rewrite <- (Z.mod_small x (2 ^ w)) by done. apply Z.mod_pow2_bits_high. lia.
Qed.

Lemma field_range d i w : 0 <= w -> 0 <= field d i w < 2 ^ w.
Proof. intros. unfold field. rewrite Z.land_ones by done. apply Z.mod_pos_bound. lia. Qed.

Lemma testbit_field d i w n : 0 <= i -> 0 <= w -> 0 <= n ->
  Z.testbit (field d i w) n = if n <? w then Z.testbit d (n + i) else false.
Proof.
  intros. unfold field. rewrite Z.land_spec, Z.shiftr_spec, testbit_ones_if by lia.
  rewrite (proj2 (Z.leb_le 0 n)) by done. destruct (n <? w); by rewrite ?andb_true_r, ?andb_false_r.
Qed.

(** A bit under a mask of [w] ones from [lo]. *)
Definition ones_at (lo w : Z) : Z := Z.shiftl (Z.ones w) lo.

Lemma testbit_mask x lo w n : 0 <= n -> 0 <= w ->
  Z.testbit (Z.land x (ones_at lo w)) n = if (lo <=? n) && (n <? lo + w) then Z.testbit x n else false.
Proof.
  intros Hn Hw. unfold ones_at. rewrite Z.land_spec, Z.shiftl_spec, testbit_ones_if by done.
  replace (0 <=? n - lo) with (lo <=? n) by (destruct (Z.leb_spec lo n), (Z.leb_spec 0 (n - lo)); lia || done).
  replace (n - lo <? w) with (n <? lo + w)
    by (destruct (Z.ltb_spec n (lo + w)), (Z.ltb_spec (n - lo) w); lia || done).
  destruct ((lo <=? n) && (n <? lo + w)); [apply andb_true_r | apply andb_false_r].
Qed.

Lemma testbit_u32 x n : 0 <= n -> Z.testbit (u32 x) n = if n <? 32 then Z.testbit x n else false.
Proof.
  intros Hn. unfold u32. destruct (Z.ltb_spec n 32).
  - apply Z.mod_pow2_bits_low. lia.
  - apply Z.mod_pow2_bits_high. lia.
Qed.

(** Decide the comparisons of the goal with [lia]. *)
Ltac decide_cmp :=
  repeat match goal with
  | |- context [?a <? ?b] => first [ rewrite (proj2 (Z.ltb_lt a b)) by lia | rewrite (proj2 (Z.ltb_ge a b)) by lia ]
  | |- context [?a <=? ?b] => first [ rewrite (proj2 (Z.leb_le a b)) by lia | rewrite (proj2 (Z.leb_gt a b)) by lia ]
  end; cbn [andb orb].

(** Case analysis on the comparisons of the right-hand side. *)
Ltac case_cmp :=
  repeat match goal with
  | |- context [if ?a <? ?b then _ else _] => destruct (Z.ltb_spec a b)
  end.

(** The bits of a descriptor. *)
Lemma testbit_descriptor base limit flag n : 0 <= n < 64 ->
  Z.testbit (create_descriptor base limit flag) n =
    if n <? 16 then Z.testbit limit n
    else if n <? 40 then Z.testbit base (n - 16)
    else if n <? 48 then Z.testbit flag (n - 40)
    else if n <? 52 then Z.testbit limit (n - 32)
    else if n <? 56 then Z.testbit flag (n - 40)
    else Z.testbit base (n - 32).
Proof.
  intros Hn. unfold create_descriptor. cbv zeta.
  change 0x000f0000 with (ones_at 16 4). change 0x00f0ff00 with (Z.lor (ones_at 8 8) (ones_at 20 4)).
  change 0x000000ff with (ones_at 0 8). change 0xff000000 with (ones_at 24 8).
  change 0x0000ffff with (ones_at 0 16).
  rewrite Z.land_lor_distr_r, !Z.lor_spec, Z.shiftl_spec, testbit_u32, testbit_mask by lia.
  destruct (Z.ltb_spec n 32).
  - rewrite (Z.testbit_neg_r _ (n - 32)), Z.shiftl_spec by lia. case_cmp; decide_cmp; try lia.
    + by rewrite (Z.testbit_neg_r _ (n - 16)) by lia.
    + apply orb_false_r.
  - rewrite !Z.lor_spec, !testbit_mask by lia. rewrite !Z.shiftl_spec, !Z.shiftr_spec by lia.
    case_cmp; decide_cmp; try lia; rewrite ?orb_false_r; f_equal; lia.
Qed.

Lemma testbit_field_descriptor base limit flag i w n : 0 <= i -> 0 <= w -> i + w <= 64 -> 0 <= n ->
  Z.testbit (field (create_descriptor base limit flag) i w) n =
    if n <? w then Z.testbit (create_descriptor base limit flag) (n + i) else false.
Proof. intros. by apply testbit_field. Qed.

Lemma desc_base_create base limit flag : 0 <= base < 2 ^ 32 -> desc_base (create_descriptor base limit flag) = base.
Proof.
  intros Hb. apply Z.bits_inj'. intros n Hn. unfold desc_base.
  rewrite Z.lor_spec, Z.shiftl_spec, testbit_field by lia.
  destruct (Z.ltb_spec n 24).
  - rewrite (Z.testbit_neg_r _ (n - 24)), orb_false_r, testbit_descriptor by lia.
    case_cmp; try lia; f_equal; lia.
  - rewrite testbit_field by lia. destruct (Z.ltb_spec (n - 24) 8).
    + rewrite testbit_descriptor by lia. decide_cmp. f_equal. lia.
    + symmetry. apply (testbit_high _ 32); lia.
Qed.

Lemma desc_limit_create base limit flag : desc_limit (create_descriptor base limit flag) = limit mod 2 ^ 20.
Proof.
  apply Z.bits_inj'. intros n Hn. unfold desc_limit.
  rewrite Z.lor_spec, Z.shiftl_spec, testbit_field by lia.
  destruct (Z.ltb_spec n 16).
  - rewrite (Z.testbit_neg_r _ (n - 16)), orb_false_r, testbit_descriptor, Z.mod_pow2_bits_low by lia.
    decide_cmp. f_equal. lia.
  - rewrite testbit_field by lia. destruct (Z.ltb_spec (n - 16) 4).
    + rewrite testbit_descriptor, Z.mod_pow2_bits_low by lia. decide_cmp. f_equal. lia.
    + rewrite Z.mod_pow2_bits_high by lia. done.
Qed.

Lemma desc_access_create base limit flag : desc_access (create_descriptor base limit flag) = flag mod 2 ^ 8.
Proof.
  apply Z.bits_inj'. intros n Hn. unfold desc_access. rewrite testbit_field by lia.
  destruct (Z.ltb_spec n 8).
  - rewrite testbit_descriptor, Z.mod_pow2_bits_low by lia. decide_cmp. f_equal. lia.
  - by rewrite Z.mod_pow2_bits_high by lia.
Qed.

Lemma desc_flags_create base limit flag : 0 <= flag < 2 ^ 16 ->
  desc_flags (create_descriptor base limit flag) = Z.shiftr flag 12.
Proof.
  intros Hf. apply Z.bits_inj'. intros n Hn. unfold desc_flags. rewrite testbit_field, Z.shiftr_spec by lia.
  destruct (Z.ltb_spec n 4).
  - rewrite testbit_descriptor by lia. decide_cmp. f_equal. lia.
  - symmetry. apply (testbit_high _ 16); lia.
Qed.

(** The five calls of the tool's [main]. *)
Definition gdt_tool : list Z :=
  [create_descriptor 0 0 0;
   create_descriptor 0 0x000fffff GDT_CODE_PL0; create_descriptor 0 0x000fffff GDT_DATA_PL0;
   create_descriptor 0 0x000fffff GDT_CODE_PL3; create_descriptor 0 0x000fffff GDT_DATA_PL3].

(** C37. the descriptor built for a base, a limit and the flags is read back by
    the CPU's own layout as that base, the limit's low 20 bits, the access byte
    and the four flags; and the table of the kernel is what the tool computes for
    the flat segments of the two privilege levels. *)
Theorem create_descriptor_roundtrip base limit flag :
  0 <= base < 2 ^ 32 -> 0 <= limit < 2 ^ 32 -> 0 <= flag < 2 ^ 16 ->
  let d := create_descriptor base limit flag in
  desc_base d = base /\ desc_limit d = limit mod 2 ^ 20 /\ desc_access d = flag mod 2 ^ 8 /\
  desc_flags d = Z.shiftr flag 12 /\ gdt = gdt_tool.
Proof.
  intros Hb Hl Hf d. split_and!.
  - by apply desc_base_create.
  - apply desc_limit_create.
  - apply desc_access_create.
  - by apply desc_flags_create.
  - reflexivity.
Qed.

(** ** The interrupt table *)

(** A loop that writes [f i] at [n] indices from [a] on. *)
Lemma aset_loop {A} (f : Z -> A) n a (l : list A) : 0 <= a -> a + Z.of_nat n <= Z.of_nat (length l) ->
  exists l', for_loop n a (fun i l => aset l i (f i)) l = Ok l' /\ length l' = length l /\
    forall v : nat, l' !! v = if (a <=? Z.of_nat v) && (Z.of_nat v <? a + Z.of_nat n)
                              then Some (f (Z.of_nat v)) else l !! v.
Proof.
  intros Ha Hn.
  destruct (for_loop_inv (fun i l' => a <= i /\ length l' = length l /\
    forall v : nat, l' !! v = if (a <=? Z.of_nat v) && (Z.of_nat v <? i) then Some (f (Z.of_nat v)) else l !! v)
    (fun i l => aset l i (f i)) n a l) as (l' & Hl & _ & Hlen & Hv).
  - split_and!; [lia | done |]. intros v. by destruct (Z.leb_spec a (Z.of_nat v)); decide_cmp.
  - intros j l0 Hj (Haj & Hlen & Hl0). rewrite aset_in by lia. eexists. split; [done|].
    split_and!; [lia | by rewrite length_insert |]. intros v.
    destruct (decide (v = Z.to_nat j)) as [->|Hne].
    + rewrite list_lookup_insert_eq by lia. rewrite Z2Nat.id by lia. by decide_cmp.
    + rewrite list_lookup_insert_ne, Hl0 by done.
      destruct (Z.leb_spec a (Z.of_nat v)), (Z.ltb_spec (Z.of_nat v) j); decide_cmp; done.
  - exists l'. done.
Qed.

(** The two halves of a gate's offset make up the address of its handler. *)
Lemma gate_offset_int_gate p : 0 <= p < 2 ^ 32 -> gate_offset (int_gate p) = p.
Proof.
  intros Hp. apply Z.bits_inj'. intros n Hn. unfold gate_offset, int_gate, offset_lo, offset_hi.
  change 0xffff with (ones_at 0 16). rewrite Z.lor_spec, Z.shiftl_spec, testbit_mask by lia.
  destruct (Z.ltb_spec n 16).
  - rewrite (Z.testbit_neg_r _ (n - 16)) by lia. decide_cmp. apply orb_false_r.
  - rewrite testbit_mask, Z.shiftr_spec by lia. destruct (Z.ltb_spec n 32); decide_cmp.
    + f_equal. lia.
    + symmetry. apply (testbit_high _ 32); lia.
Qed.

(** The segment a selector names: bits 3 to 15 are the index into the table. *)
Definition selected (sel : Z) : option Z := gdt !! Z.to_nat (Z.shiftr sel 3).

(** The table that [setup_idt] builds. *)
Lemma setup_idt_spec (isr_stub : Z -> Z) (idt_addr : Z) (idt : list idt_entry) : length idt = 256%nat ->
  exists idt', setup_idt isr_stub idt_addr idt = Ok (idt', (2047, idt_addr)) /\ length idt' = 256%nat /\
    forall v : nat, (v < 256)%nat -> idt' !! v = Some (if decide (v < 48)%nat then int_gate (isr_stub (Z.of_nat v)) else empty_gate).
Proof.
  intros Hlen. unfold setup_idt.
  destruct (aset_loop (fun _ => empty_gate) 256 0 idt) as (l1 & -> & Hlen1 & Hv1); [lia..|].
  cbn [mbind res_bind].
  destruct (aset_loop (fun i => int_gate (isr_stub i)) 48 0 l1) as (l2 & -> & Hlen2 & Hv2); [lia..|].
  cbn [mbind res_bind]. exists l2. rewrite Hlen2, Hlen1, Hlen. split_and!; [done | done |].
  intros v Hv. rewrite Hv2, Hv1. case_decide; decide_cmp; done.
Qed.

(** C38. the interrupt table that [setup_idt] builds has, at each of the 48
    vectors of the exceptions and of the two interrupt controllers, a present
    32-bit interrupt gate to the stub of that vector in the kernel's code segment
    (the second descriptor of the GDT: base 0, present, privilege level 0, code);
    no other vector has a gate. *)
Theorem setup_idt_gates (isr_stub : Z -> Z) (idt_addr : Z) (idt : list idt_entry) :
  length idt = 256%nat -> (forall v, 0 <= isr_stub v < 2 ^ 32) ->
  exists idt', setup_idt isr_stub idt_addr idt = Ok (idt', (2047, idt_addr)) /\ length idt' = 256%nat /\
    forall v : nat, (v < 256)%nat -> exists e, idt' !! v = Some e /\ gate_present e = (Z.of_nat v <? 48) /\
      ((v < 48)%nat ->
        gate_type e = 0xe /\ gate_offset e = isr_stub (Z.of_nat v) /\
    exists d, selected (segment_selector e) = Some d /\ desc_base d = 0 /\ desc_access d = 0x9a).
Proof.
  intros Hlen Hstub. destruct (setup_idt_spec isr_stub idt_addr idt Hlen) as (idt' & Hi & Hlen' & Hv).
  exists idt'. split_and!; [done | done |]. intros v Hlt. rewrite (Hv v Hlt). eexists. split; [done|].
  destruct (Z.ltb_spec (Z.of_nat v) 48); case_decide; [|lia|lia|].
  - split; [done|]. intros _. split_and!; [done | by apply gate_offset_int_gate |]. by exists 0x00cf9a000000ffff.
  - split; [done|]. lia.
Qed.

Lemma create_descriptor_roundtrip_witness :
  desc_base (create_descriptor 0x12345678 0xabcdef 0xc092) = 0x12345678 /\
  desc_limit (create_descriptor 0x12345678 0xabcdef 0xc092) = 0xbcdef.
Proof.
  destruct (create_descriptor_roundtrip 0x12345678 0xabcdef 0xc092) as (H1 & H2 & _); [lia..|].
  split; [exact H1 | exact H2].
Defined.

Lemma setup_idt_gates_witness : exists idt',
  setup_idt (fun v => 0x100000 + 16 * (v mod 256)) 0x200000 (replicate 256 empty_gate) = Ok (idt', (2047, 0x200000)).
Proof.
  destruct (setup_idt_gates (fun v => 0x100000 + 16 * (v mod 256)) 0x200000 (replicate 256 empty_gate))
    as (idt' & H & _).
  - reflexivity.
  - intros v. pose proof (Z.mod_pos_bound v 256). lia.
  - by exists idt'.
Defined.
