(* ===== verification/Console.v ===== *)
(** * The console: text screen, serial line and [putchar]

    [vga.c], [vga.h], [terminal.c], [serial.c], [putchar.c], and the early
    initialisation of [init.c] that starts them.  The screen's memory is byte
    memory, moved by the [memmove] of the C library; the cursor registers of the
    video card and the serial controller are behind the ports. *)
From S2P Require Import Prelude Libc Printf Io Descriptors.

(** ** The devices *)

(** The registers of the cathode ray tube controller: the selected one and all of
    them. *)
Record crtc := mk_crtc { crtc_index : Z; crtc_regs : gmap Z Z }.

Definition crtc_reg (i : Z) (c : crtc) : Z := default 0 (crtc_regs c !! i).
Definition crtc_out (p v : Z) (c : crtc) : crtc :=
  if p =? 0x3d4 then mk_crtc v (crtc_regs c)
  else if p =? 0x3d5 then mk_crtc (crtc_index c) (<[crtc_index c := v]> (crtc_regs c))
  else c.

(** The 16550: divisor latch, interrupt enable, fifo control and line control
    registers, and the bytes given to the transmitter.  Bit 7 of the line control
    register turns the first two registers into the divisor latch. *)
Record uart := mk_uart { u_dll : Z; u_dlh : Z; u_ier : Z; u_fcr : Z; u_lcr : Z; u_sent : list Z }.

Definition dlab (u : uart) : bool := Z.testbit (u_lcr u) 7.
Definition uart_out (p v : Z) (u : uart) : uart :=
  if p =? 0x3f8 then
    if dlab u then mk_uart v (u_dlh u) (u_ier u) (u_fcr u) (u_lcr u) (u_sent u)
    else mk_uart (u_dll u) (u_dlh u) (u_ier u) (u_fcr u) (u_lcr u) (u_sent u ++ [v])
  else if p =? 0x3f9 then
    if dlab u then mk_uart (u_dll u) v (u_ier u) (u_fcr u) (u_lcr u) (u_sent u)
    else mk_uart (u_dll u) (u_dlh u) v (u_fcr u) (u_lcr u) (u_sent u)
  else if p =? 0x3fa then mk_uart (u_dll u) (u_dlh u) (u_ier u) v (u_lcr u) (u_sent u)
  else if p =? 0x3fb then mk_uart (u_dll u) (u_dlh u) (u_ier u) (u_fcr u) v (u_sent u)
  else u.

(** What the console relies on: writes to the ports reach the two devices, the
    line control register is read back, and reading it or the data register of
    the controller changes nothing. *)
Class ConsoleLaws (HW : Type) `{Hardware HW} := {
  crtc_of : HW -> crtc;
  uart_of : HW -> uart;
  out_crtc p v h : crtc_of (out_port p v h) = crtc_out p v (crtc_of h);
  out_uart p v h : uart_of (out_port p v h) = uart_out p v (uart_of h);
  in_lcr h : (in_port 0x3fb h).1 = u_lcr (uart_of h);
  in_same p h : p = 0x3fb \/ p = 0x3d5 ->
    crtc_of (in_port p h).2 = crtc_of h /\ uart_of (in_port p h).2 = uart_of h;
}.

(** ** The state *)

Record terminal (HW : Type) := mk_term {
  term_hw : HW;
  terminal_row : Z;
  terminal_column : Z;
  terminal_color : Z;
  terminal_default_color : Z;
  terminal_buffer : Z;
  memory : bytes;
}.
Arguments mk_term {HW}.
Arguments term_hw {HW}.
Arguments terminal_row {HW}.
Arguments terminal_column {HW}.
Arguments terminal_color {HW}.
Arguments terminal_default_color {HW}.
Arguments terminal_buffer {HW}.
Arguments memory {HW}.

Inductive vga_color :=
  | VGA_COLOR_BLACK | VGA_COLOR_BLUE | VGA_COLOR_GREEN | VGA_COLOR_CYAN
  | VGA_COLOR_RED | VGA_COLOR_MAGENTA | VGA_COLOR_BROWN | VGA_COLOR_LIGHT_GREY
  | VGA_COLOR_DARK_GREY | VGA_COLOR_LIGHT_BLUE | VGA_COLOR_LIGHT_GREEN | VGA_COLOR_LIGHT_CYAN
  | VGA_COLOR_LIGHT_RED | VGA_COLOR_LIGHT_MAGENTA | VGA_COLOR_LIGHT_BROWN | VGA_COLOR_WHITE.

Definition color_value (c : vga_color) : Z :=
  match c with
  | VGA_COLOR_BLACK => 0 | VGA_COLOR_BLUE => 1 | VGA_COLOR_GREEN => 2 | VGA_COLOR_CYAN => 3
  | VGA_COLOR_RED => 4 | VGA_COLOR_MAGENTA => 5 | VGA_COLOR_BROWN => 6 | VGA_COLOR_LIGHT_GREY => 7
  | VGA_COLOR_DARK_GREY => 8 | VGA_COLOR_LIGHT_BLUE => 9 | VGA_COLOR_LIGHT_GREEN => 10
  | VGA_COLOR_LIGHT_CYAN => 11 | VGA_COLOR_LIGHT_RED => 12 | VGA_COLOR_LIGHT_MAGENTA => 13
  | VGA_COLOR_LIGHT_BROWN => 14 | VGA_COLOR_WHITE => 15
  end.

Inductive vga_cursor_style := VGA_CURSOR_UNDERSCORE | VGA_CURSOR_BOX.

Definition VGA_WIDTH : Z := 80.
Definition VGA_HEIGHT : Z := 25.
Definition VGA_MEMORY : Z := 0xb8000.
Definition VGA_ELT_SIZE : Z := 2.

Definition vga_entry_color (fg bg : vga_color) : Z := u8 (Z.lor (color_value fg) (Z.shiftl (color_value bg) 4)).
Definition vga_entry (uc color : Z) : Z := u16 (Z.lor uc (Z.shiftl color 8)).

(** A 16-bit store, low byte first. *)
Definition store16 (a v : Z) (m : bytes) : res bytes :=
  m ← wr a (Z.land v 0xff) m; wr (a + 1) (Z.land (Z.shiftr v 8) 0xff) m.

Section Console.
Context {HW : Type} `{Hardware HW}.
Implicit Types t : terminal HW.

(** *** Assignments and ports *)

Definition set_term_hw (h : HW) t := mk_term h (terminal_row t) (terminal_column t) (terminal_color t)
  (terminal_default_color t) (terminal_buffer t) (memory t).
Definition set_row (r : Z) t := mk_term (term_hw t) r (terminal_column t) (terminal_color t)
  (terminal_default_color t) (terminal_buffer t) (memory t).
Definition set_column (c : Z) t := mk_term (term_hw t) (terminal_row t) c (terminal_color t)
  (terminal_default_color t) (terminal_buffer t) (memory t).
Definition set_color (c : Z) t := mk_term (term_hw t) (terminal_row t) (terminal_column t) c
  (terminal_default_color t) (terminal_buffer t) (memory t).
Definition set_default (c : Z) t := mk_term (term_hw t) (terminal_row t) (terminal_column t) (terminal_color t)
  c (terminal_buffer t) (memory t).
Definition set_buffer (b : Z) t := mk_term (term_hw t) (terminal_row t) (terminal_column t) (terminal_color t)
  (terminal_default_color t) b (memory t).
Definition set_memory (m : bytes) t := mk_term (term_hw t) (terminal_row t) (terminal_column t) (terminal_color t)
  (terminal_default_color t) (terminal_buffer t) m.

Definition term_inb (p : Z) : ST (terminal HW) Z := fun t =>
  let '(v, h) := in_port p (term_hw t) in Ok (v, set_term_hw h t).
Definition term_outb (p v : Z) : ST (terminal HW) unit := fun t => Ok (tt, set_term_hw (out_port p v (term_hw t)) t).
Definition update_memory (f : bytes -> res bytes) : ST (terminal HW) unit := fun t =>
  m ← f (memory t); Ok (tt, set_memory m t).

(** *** vga.c *)

Definition vga_enable_cursor (style : vga_cursor_style) : ST (terminal HW) unit :=
  let cursor_start := 0 in
  let cursor_end := match style with VGA_CURSOR_BOX => 15 | VGA_CURSOR_UNDERSCORE => 1 end in
  term_outb 0x3d4 0x0a;;
  v ← term_inb 0x3d5;
  term_outb 0x3d5 (u8 (Z.lor (Z.land v 0xc0) cursor_start));;
  term_outb 0x3d4 0x0b;;
  v ← term_inb 0x3d5;
  term_outb 0x3d5 (u8 (Z.lor (Z.land v 0xe0) cursor_end)).

Definition vga_disable_cursor : ST (terminal HW) unit := term_outb 0x3d4 0x0a;; term_outb 0x3d5 0x20.

Definition vga_update_cursor (x y : Z) : ST (terminal HW) unit :=
  let pos := u16 (y * VGA_WIDTH + x) in
  term_outb 0x3d4 0x0f;;
  term_outb 0x3d5 (u8 (Z.land pos 0xff));;
  term_outb 0x3d4 0x0e;;
  term_outb 0x3d5 (u8 (Z.land (Z.shiftr pos 8) 0xff)).

(** *** terminal.c *)

Definition terminal_setcolor (color : Z) : ST (terminal HW) unit := modify (set_color color).
Definition terminal_reset_color : ST (terminal HW) unit := d ← gets terminal_default_color; terminal_setcolor d.

Definition terminal_putentryat (c color x y : Z) : ST (terminal HW) unit :=
  let index := u32 (y * VGA_WIDTH + x) in
  buf ← gets terminal_buffer;
  update_memory (store16 (buf + VGA_ELT_SIZE * index) (vga_entry c color)).

(** The loop of [scroll_up] that fills the last line. *)
Definition clear_line (buf color : Z) (m : bytes) : res bytes :=
  for_loop (Z.to_nat VGA_WIDTH) 0 (fun x m =>
    let index := (VGA_HEIGHT - 1) * VGA_WIDTH + x in
    store16 (buf + VGA_ELT_SIZE * index) (vga_entry 32 color) m) m.

Definition scroll_up : ST (terminal HW) unit :=
  modify (set_column 0);;
  r ← gets terminal_row;
  let r := r ⊕ 1 in
  modify (set_row r);;
  if r =? VGA_HEIGHT then
    buf ← gets terminal_buffer;
    d ← gets terminal_default_color;
    update_memory (memmove buf (buf + VGA_ELT_SIZE * VGA_WIDTH) (VGA_ELT_SIZE * (VGA_WIDTH * (VGA_HEIGHT - 1))));;
    update_memory (clear_line buf d);;
    modify (set_row (VGA_HEIGHT - 1))
  else mret tt.

(** The calls of [__terminal_putchar] by itself go one level deep; [c] is a
    signed [char]. *)
Fixpoint __terminal_putchar (depth : nat) (c : Z) : ST (terminal HW) unit :=
  match depth with
  | O => fun _ => Err NoFuel
  | S depth =>
      let uc := u8 c in
      if c =? 10 then scroll_up
      else if c =? 13 then modify (set_column 0)
      else if c =? 9 then
        __terminal_putchar depth 32;; __terminal_putchar depth 32;; __terminal_putchar depth 32
      else
        color ← gets terminal_color;
        x ← gets terminal_column;
        y ← gets terminal_row;
        terminal_putentryat uc color x y;;
        let x := x ⊕ 1 in
        modify (set_column x);;
        if x =? VGA_WIDTH then scroll_up else mret tt
  end.
Definition putchar_depth : nat := 2.

Definition update_cursor : ST (terminal HW) unit :=
  x ← gets terminal_column; y ← gets terminal_row; vga_update_cursor x y.

(** The two nested loops of [terminal_initialize]. *)
Definition clear_screen (buf color : Z) (m : bytes) : res bytes :=
  for_loop (Z.to_nat VGA_HEIGHT) 0 (fun y m =>
    for_loop (Z.to_nat VGA_WIDTH) 0 (fun x m =>
      let index := y * VGA_WIDTH + x in
      store16 (buf + VGA_ELT_SIZE * index) (vga_entry 32 color) m) m) m.

Definition terminal_initialize : ST (terminal HW) unit :=
  modify (set_row 0);;
  modify (set_column 0);;
  modify (set_default (vga_entry_color VGA_COLOR_WHITE VGA_COLOR_BLACK));;
  d ← gets terminal_default_color;
  terminal_setcolor d;;
  modify (set_buffer VGA_MEMORY);;
  buf ← gets terminal_buffer;
  color ← gets terminal_color;
  update_memory (clear_screen buf color);;
  vga_enable_cursor VGA_CURSOR_BOX;;
  update_cursor.

Definition terminal_putchar (c : Z) : ST (terminal HW) unit := __terminal_putchar putchar_depth c;; update_cursor.

Definition terminal_write (data size : Z) : ST (terminal HW) unit :=
  st_for (Z.to_nat size) 0 (fun i =>
    m ← gets memory; b ← lift (rd m (data + i)); __terminal_putchar putchar_depth (s8 b));;
  update_cursor.

Definition terminal_writestring (data : Z) : ST (terminal HW) unit :=
  m ← gets memory; n ← lift (strlen m data); terminal_write data n.

(** *** serial.c *)

Definition COM1 : Z := 0x3f8.
Definition THR : Z := 0x0.
Definition DLL : Z := 0x0.
Definition IER : Z := 0x1.
Definition DLH : Z := 0x1.
Definition FCR : Z := 0x2.
Definition LCR : Z := 0x3.
Definition IER_RECEIVED_DATA_AVAILABLE_INT_MASK : Z := Z.shiftl 1 0.
Definition IER_TRANSMITTER_HOLDING_REGISTER_EMPTY_INT_MASK : Z := Z.shiftl 1 1.
Definition FCR_ENABLE_FIFOS_MASK : Z := Z.shiftl 1 0.
Definition FCR_CLEAR_RECEIVE_FIFO_MASK : Z := Z.shiftl 1 1.
Definition FCR_CLEAR_TRANSMIT_FIFO_MASK : Z := Z.shiftl 1 2.
Definition FCR_INT16_14BYTES : Z := Z.shiftl 3 6.
Definition LCR_BREAK_ENABLE_MASK : Z := Z.shiftl 1 6.
Definition LCR_DLAB_MASK : Z := Z.shiftl 1 7.
Definition LCR_WORD_LEN_8BITS : Z := Z.shiftl 3 0.
Definition LCR_STOPBIT_ONE : Z := Z.shiftl 0 2.
Definition LCR_PARITY_NO : Z := Z.shiftl 0 3.
Definition LCR_PROTO_8N1 : Z := Z.lor (Z.lor LCR_WORD_LEN_8BITS LCR_PARITY_NO) LCR_STOPBIT_ONE.

Definition serial_set_baud_rate (rate : Z) : ST (terminal HW) unit :=
  if (rate =? 0) || (115200 <? rate) then panic "invalid argument"
  else
    lcr ← term_inb (COM1 + LCR);
    let lcr := u8 (Z.lor lcr LCR_DLAB_MASK) in
    term_outb (COM1 + LCR) lcr;;
    let divisor_latch_value := u16 (115200 / rate) in
    term_outb (COM1 + DLL) (Z.land divisor_latch_value 0xff);;
    term_outb (COM1 + DLH) (Z.land (Z.shiftr divisor_latch_value 8) 0xff);;
    term_outb (COM1 + LCR) (u8 (Z.land lcr (Z.lnot LCR_DLAB_MASK))).

Definition serial_disable_irqs : ST (terminal HW) unit := term_outb (COM1 + IER) 0.
Definition serial_enable_irqs : ST (terminal HW) unit :=
  let ier := Z.lor 0 IER_RECEIVED_DATA_AVAILABLE_INT_MASK in
  let ier := Z.lor ier IER_TRANSMITTER_HOLDING_REGISTER_EMPTY_INT_MASK in
  term_outb (COM1 + IER) ier.

Definition serial_set_protocol (protocol : Z) : ST (terminal HW) unit :=
  lcr ← term_inb (COM1 + LCR);
  term_outb (COM1 + LCR) (u8 (Z.lor protocol (Z.land lcr (Z.lor LCR_DLAB_MASK LCR_BREAK_ENABLE_MASK)))).

Definition serial_enable_fifo : ST (terminal HW) unit :=
  let fcr := Z.lor 0 FCR_ENABLE_FIFOS_MASK in
  let fcr := Z.lor fcr (Z.lor FCR_CLEAR_RECEIVE_FIFO_MASK FCR_CLEAR_TRANSMIT_FIFO_MASK) in
  let fcr := Z.lor fcr FCR_INT16_14BYTES in
  term_outb (COM1 + FCR) fcr.

Definition serial_init : ST (terminal HW) unit :=
  serial_disable_irqs;;
  serial_set_baud_rate 38400;;
  serial_set_protocol LCR_PROTO_8N1;;
  serial_enable_fifo;;
  serial_enable_irqs.

Definition serial_write (data size : Z) : ST (terminal HW) unit :=
  st_for (Z.to_nat size) 0 (fun i => m ← gets memory; b ← lift (rd m (data + i)); term_outb (COM1 + THR) b).

(** *** putchar.c and the loop of [printf] *)

(** [c] is the address of the local variable [c]. *)
Definition putchar (c ic : Z) : ST (terminal HW) Z :=
  update_memory (wr c (u8 ic));;
  terminal_write c 1;;
  serial_write c 1;;
  mret ic.

(** The loop of [printf] over the characters that it formatted; [c] is the local
    variable of [putchar]. *)
Definition put_printf_buf (c printf_buf printed : Z) : ST (terminal HW) unit :=
  st_for (Z.to_nat printed) 0 (fun i =>
    m ← gets memory; b ← lift (rd m (printf_buf + i)); putchar c (s8 b);; mret tt).

Definition kprintf (c printf_buf fmt : Z) (args : list Z) : ST (terminal HW) Z :=
  m ← gets memory;
  '(printed, m) ← lift (vsprintf printf_buf fmt args m);
  modify (set_memory m);;
  put_printf_buf c printf_buf printed;;
  mret printed.

(** *** init.c *)

(** The segment table register is loaded with the result of [gdt_setup]. *)
Definition kernel_early_init (gdt_addr : Z) : ST (terminal HW) gdtr_reg :=
  let gdtr := gdt_setup gdt_addr in
  serial_init;;
  terminal_initialize;;
  mret gdtr.

End Console.
