(* ===== verification/ConsoleSpec.v ===== *)
(** * What the console shows

    The screen as a grid of 25 lines of 80 characters with a cursor, and the proof
    that the code of the terminal, on the bytes of the video memory, implements
    it; the serial line receives the same characters. *)
From S2P Require Import Prelude Libc Printf PrintfSpec Format Io Descriptors Console.

(** ** The screen *)

(** [cells y x] is the character and the colour shown on line [y], column [x]. *)
Record screen := mk_screen {
  cells : Z -> Z -> Z; line : Z; column : Z; color : Z; default_color : Z }.

Definition newline (k : screen) : screen :=
  if line k =? 24 then
    mk_screen (fun y x => if y =? 24 then vga_entry 32 (default_color k) else cells k (y + 1) x)
      24 0 (color k) (default_color k)
  else mk_screen (cells k) (line k + 1) 0 (color k) (default_color k).

Definition put_cell (g : Z -> Z -> Z) (y0 x0 w : Z) : Z -> Z -> Z :=
  fun y x => if (y =? y0) && (x =? x0) then w else g y x.

Definition put (b : Z) (k : screen) : screen :=
  let k := mk_screen (put_cell (cells k) (line k) (column k) (vga_entry b (color k)))
             (line k) (column k + 1) (color k) (default_color k) in
  if column k =? 80 then newline k else k.

Definition show_char (k : screen) (b : Z) : screen :=
  if b =? 10 then newline k
  else if b =? 13 then mk_screen (cells k) (line k) 0 (color k) (default_color k)
  else if b =? 9 then put 32 (put 32 (put 32 k))
  else put b k.

Definition show_text (s : list Z) (k : screen) : screen := foldl show_char k s.

(** The screen at boot: white spaces on black. *)
Definition boot_screen : screen := mk_screen (fun _ _ => vga_entry 32 15) 0 0 15 15.

(** ** The video memory *)

Definition holds_word (m : bytes) (a w : Z) : Prop :=
  m !! a = Some (Z.land w 0xff) /\ m !! (a + 1) = Some (Z.land (Z.shiftr w 8) 0xff).

Definition cell_addr (y x : Z) : Z := VGA_MEMORY + 2 * (y * 80 + x).

Definition displays (m : bytes) (g : Z -> Z -> Z) : Prop :=
  forall y x, 0 <= y < 25 -> 0 <= x < 80 -> holds_word m (cell_addr y x) (g y x).

(** Only the video memory differs. *)
Definition same_elsewhere (m m' : bytes) : Prop := same_outside m m' VGA_MEMORY 4000.

#[export] Instance same_elsewhere_preorder : PreOrder same_elsewhere.
Proof. split; [by intros m x|]. intros m1 m2 m3 H1 H2 x Hx. by rewrite H2, H1. Qed.

Lemma displays_ext m g g' : displays m g ->
  (forall y x, 0 <= y < 25 -> 0 <= x < 80 -> g y x = g' y x) -> displays m g'.
Proof. intros Hd Hg y x Hy Hx. rewrite <- Hg by done. by apply Hd. Qed.

Lemma displays_mapped m g : displays m g -> mapped m VGA_MEMORY 4000.
Proof.
  intros Hd i Hi. destruct (Hd (i / 160) (i mod 160 / 2)) as [H0 H1]; [Z.div_mod_to_equations; lia..|].
  unfold cell_addr in *. destruct (decide (i mod 2 = 0)).
  - eexists. rewrite <- H0. f_equal. Z.div_mod_to_equations. lia.
  - eexists. rewrite <- H1. f_equal. Z.div_mod_to_equations. lia.
Qed.

Lemma store16_spec m a w : is_Some (m !! a) -> is_Some (m !! (a + 1)) ->
  exists m', store16 a w m = Ok m' /\ holds_word m' a w /\ same_outside m m' a 2 /\
    (forall x, is_Some (m !! x) -> is_Some (m' !! x)).
Proof.
  intros H0 H1. unfold store16. rewrite wr_Ok by done. cbn [mbind res_bind].
  rewrite wr_Ok by (rewrite lookup_insert_ne by lia; done). eexists. split; [done|]. split_and!.
  - split; [|by rewrite lookup_insert_eq]. by rewrite lookup_insert_ne, lookup_insert_eq by lia.
  - intros x Hx. by rewrite !lookup_insert_ne by lia.
  - intros x Hx. destruct (decide (x = a + 1)) as [->|]; [by rewrite lookup_insert_eq|].
    rewrite lookup_insert_ne by done. destruct (decide (x = a)) as [->|]; [by rewrite lookup_insert_eq|].
    by rewrite lookup_insert_ne.
Qed.

Lemma store_cell m y x w : mapped m VGA_MEMORY 4000 -> 0 <= y < 25 -> 0 <= x < 80 ->
  exists m', store16 (cell_addr y x) w m = Ok m' /\ holds_word m' (cell_addr y x) w /\
    (forall y' x', 0 <= x' < 80 -> (y', x') <> (y, x) ->
       forall v, holds_word m (cell_addr y' x') v -> holds_word m' (cell_addr y' x') v) /\
    mapped m' VGA_MEMORY 4000 /\ same_elsewhere m m'.
Proof.
  intros Hm Hy Hx. destruct (store16_spec m (cell_addr y x) w) as (m' & Hs & Hw & Hsame & Hmap).
  { replace (cell_addr y x) with (VGA_MEMORY + 2 * (y * 80 + x)) by done. apply Hm. lia. }
  { replace (cell_addr y x + 1) with (VGA_MEMORY + (2 * (y * 80 + x) + 1)) by (unfold cell_addr; lia).
    apply Hm. lia. }
  exists m'. split_and!; [done | done | | |].
  - intros y' x' Hx' Hne v [H0 H1].
    assert (y' * 80 + x' <> y * 80 + x) by (intros Heq; apply Hne; f_equal; lia).
    unfold cell_addr in *. split; (rewrite Hsame; [done|lia]).
  - intros i Hi. by apply Hmap, Hm.
  - intros a Ha. apply Hsame. unfold cell_addr. lia.
Qed.

Lemma displays_store m g y x w : displays m g -> 0 <= y < 25 -> 0 <= x < 80 ->
  exists m', store16 (cell_addr y x) w m = Ok m' /\ displays m' (put_cell g y x w) /\ same_elsewhere m m'.
Proof.
  intros Hd Hy Hx. destruct (store_cell m y x w) as (m' & Hs & Hw & Hrest & _ & Hsame);
    [by eapply displays_mapped|done..|].
  exists m'. split_and!; [done | | done]. intros y' x' Hy' Hx'. unfold put_cell.
  destruct (Z.eqb_spec y' y) as [->|]; [destruct (Z.eqb_spec x' x) as [->|]|]; cbn [andb]; [done|..];
    (apply Hrest; [done | congruence | by apply Hd]).
Qed.

(** A line written from its first column to its last. *)
Lemma fill_line m c y : mapped m VGA_MEMORY 4000 -> 0 <= y < 25 ->
  exists m', for_loop 80 0 (fun x m => store16 (VGA_MEMORY + VGA_ELT_SIZE * (y * VGA_WIDTH + x)) c m) m = Ok m' /\
    (forall x, 0 <= x < 80 -> holds_word m' (cell_addr y x) c) /\
    (forall y' x v, y' <> y -> 0 <= x < 80 -> holds_word m (cell_addr y' x) v -> holds_word m' (cell_addr y' x) v) /\
    mapped m' VGA_MEMORY 4000 /\ same_elsewhere m m'.
Proof.
  intros Hm Hy.
  edestruct (for_loop_inv (fun x0 m' =>
    (forall x, 0 <= x < x0 -> holds_word m' (cell_addr y x) c) /\
    (forall y' x v, y' <> y -> 0 <= x < 80 -> holds_word m (cell_addr y' x) v -> holds_word m' (cell_addr y' x) v) /\
    mapped m' VGA_MEMORY 4000 /\ same_elsewhere m m')) as (m' & Hl & Hrest).
  3: { exists m'. split; [exact Hl|]. exact Hrest. }
  - split_and!; [intros; lia | done..].
  - intros x m0 Hx (Hdone & Hother & Hm0 & Hsame0).
    destruct (store_cell m0 y x c) as (m1 & Hs & Hw & Hrest & Hm1 & Hsame); [done..|lia|].
    exists m1. split; [exact Hs|]. split_and!.
    + intros x' Hx'. destruct (decide (x' = x)) as [->|]; [done|]. apply Hrest; [lia|congruence|]. apply Hdone. lia.
    + intros y' x' v Hne Hx' Hv. apply Hrest; [done|congruence|]. by apply Hother.
    + done.
    + by etrans.
Qed.

Lemma clear_line_spec m g d : displays m g ->
  exists m', clear_line VGA_MEMORY d m = Ok m' /\
    displays m' (fun y x => if y =? 24 then vga_entry 32 d else g y x) /\ same_elsewhere m m'.
Proof.
  intros Hd. destruct (fill_line m (vga_entry 32 d) 24) as (m' & Hl & Hline & Hother & _ & Hsame);
    [by eapply displays_mapped | done |].
  exists m'. split_and!; [exact Hl | | done]. intros y x Hy Hx.
  destruct (Z.eqb_spec y 24) as [->|]; [by apply Hline|]. apply Hother; [done..|]. by apply Hd.
Qed.

Lemma clear_screen_spec m c : mapped m VGA_MEMORY 4000 ->
  exists m', clear_screen VGA_MEMORY c m = Ok m' /\ displays m' (fun _ _ => vga_entry 32 c) /\ same_elsewhere m m'.
Proof.
  intros Hm. unfold clear_screen.
  edestruct (for_loop_inv (fun y0 m' =>
    (forall y x, 0 <= y < y0 -> 0 <= x < 80 -> holds_word m' (cell_addr y x) (vga_entry 32 c)) /\
    mapped m' VGA_MEMORY 4000 /\ same_elsewhere m m')) as (m' & Hl & Hd & _ & Hsame).
  3: { exists m'. split_and!; [exact Hl | exact Hd | exact Hsame]. }
  - split_and!; [intros; lia | done..].
  - intros y m0 Hy (Hdone & Hm0 & Hsame0).
    destruct (fill_line m0 (vga_entry 32 c) y) as (m1 & Hl & Hline & Hother & Hm1 & Hsame); [done..|].
    exists m1. split; [exact Hl|]. split_and!; [|done|by etrans].
    intros y' x Hy' Hx. destruct (decide (y' = y)) as [->|]; [by apply Hline|].
    apply Hother; [done..|]. apply Hdone; [lia|done].
Qed.

Lemma scroll_memmove m g : displays m g ->
  exists m', memmove VGA_MEMORY (VGA_MEMORY + VGA_ELT_SIZE * VGA_WIDTH) (VGA_ELT_SIZE * (VGA_WIDTH * (VGA_HEIGHT - 1))) m
      = Ok m' /\
    displays m' (fun y x => if y =? 24 then g 24 x else g (y + 1) x) /\ same_elsewhere m m'.
Proof.
  intros Hd. pose proof (displays_mapped _ _ Hd) as Hm.
  change (VGA_ELT_SIZE * VGA_WIDTH) with 160. change (VGA_ELT_SIZE * (VGA_WIDTH * (VGA_HEIGHT - 1))) with 3840.
  destruct (memmove_spec m VGA_MEMORY (VGA_MEMORY + 160) 3840) as (m' & Hmv & Hcopy & Hsame); [| |lia|].
  { intros i Hi. apply Hm. lia. }
  { intros i Hi. replace (VGA_MEMORY + 160 + i) with (VGA_MEMORY + (160 + i)) by lia. apply Hm. lia. }
  exists m'. split_and!; [done | | intros a Ha; apply Hsame; lia].
  intros y x Hy Hx. unfold holds_word, cell_addr. destruct (Z.eqb_spec y 24) as [->|].
  - rewrite !Hsame by lia. by apply Hd.
  - rewrite <- Z.add_assoc, !Hcopy by lia.
    destruct (Hd (y + 1) x) as [H0 H1]; [lia|done|]. unfold cell_addr in *.
    split; [rewrite <- H0 | rewrite <- H1]; f_equal; lia.
Qed.

(** ** The terminal shows the screen *)

Section Shows.
Context {HW : Type} `{HL : ConsoleLaws HW}.
Implicit Types t : terminal HW.

Record shows (t : terminal HW) (k : screen) : Prop := {
  shows_row : terminal_row t = line k;
  shows_column : terminal_column t = column k;
  shows_color : terminal_color t = color k;
  shows_default : terminal_default_color t = default_color k;
  shows_buffer : terminal_buffer t = VGA_MEMORY;
  shows_line : 0 <= line k < 25;
  shows_col : 0 <= column k < 80;
  shows_cells : displays (memory t) (cells k);
}.

(** The devices are left alone, and so is the memory but the screen's. *)
Definition quiet t t' : Prop := term_hw t' = term_hw t /\ same_elsewhere (memory t) (memory t').

#[export] Instance quiet_preorder : PreOrder quiet.
Proof.
  split; [by intros t; split|]. intros t1 t2 t3 [H1 H2] [H3 H4].
  split; [by rewrite H3|by etrans].
Qed.

Lemma wp_update_memory E f m' (Q : unit -> terminal HW -> Prop) t :
  f (memory t) = Ok m' -> Q tt (set_memory m' t) -> wp E (update_memory f) Q t.
Proof. unfold wp, update_memory. by intros ->. Qed.

(** One more character or line: [scroll_up] on a screen whose column may be the
    one past the last. *)
Lemma scroll_up_spec t k (x : Z) :
  shows (set_column (column k) t) k -> terminal_column t = x ->
  wp never scroll_up (fun _ t' => shows t' (newline k) /\ quiet t t') t.
Proof.
  intros [Hr _ Hc Hd Hb Hl Hcol Hcells] _. cbn in *. unfold scroll_up, newline.
  wp_line. cbn. rewrite Hr.
  replace (line k ⊕ 1) with (line k + 1) by (symmetry; apply u32_small; unfold is_u32; lia).
  replace (line k + 1 =? VGA_HEIGHT) with (line k =? 24)
    by (unfold VGA_HEIGHT; destruct (Z.eqb_spec (line k) 24), (Z.eqb_spec (line k + 1) 25); lia || done).
  destruct (Z.eqb_spec (line k) 24) as [Hl24|Hl24].
  - wp_line. cbn. rewrite Hb, Hd.
    destruct (scroll_memmove _ _ Hcells) as (m1 & Hm1 & Hd1 & Hs1).
    destruct (clear_line_spec _ _ (default_color k) Hd1) as (m2 & Hm2 & Hd2 & Hs2).
    eapply wp_update_memory; [exact Hm1|]. wp_line. eapply wp_update_memory; [exact Hm2|]. wp_line. split; [|split; [done|cbn; by etrans]].
    split; cbn; try done; try lia. eapply displays_ext; [exact Hd2|]. intros y x' Hy Hx. cbn.
    by destruct (Z.eqb_spec y 24).
  - wp_line. split; [|by split]. split; cbn; try done; try lia.
Qed.

Lemma shows_same_column t k : shows t k -> shows (set_column (column k) t) k.
Proof. intros []. by split. Qed.

Lemma put_spec n c b t k : shows t k -> b = u8 c -> c <> 10 -> c <> 13 -> c <> 9 ->
  wp never (__terminal_putchar (S n) c) (fun _ t' => shows t' (put b k) /\ quiet t t') t.
Proof.
  intros Hk -> H10 H13 H9. destruct (Hk) as [Hr Hx Hc Hd Hb Hl Hcol Hcells]. cbn [__terminal_putchar].
  rewrite (proj2 (Z.eqb_neq c 10)), (proj2 (Z.eqb_neq c 13)), (proj2 (Z.eqb_neq c 9)) by done.
  wp_line. cbn. unfold terminal_putentryat. rewrite Hr, Hx, Hc.
  replace (u32 (line k * VGA_WIDTH + column k)) with (line k * 80 + column k)
    by (unfold VGA_WIDTH; symmetry; apply u32_small; unfold is_u32; lia).
  replace (column k ⊕ 1) with (column k + 1) by (symmetry; apply u32_small; unfold is_u32; lia).
  wp_line. rewrite Hb.
  destruct (displays_store _ _ (line k) (column k) (vga_entry (u8 c) (color k)) Hcells) as (m' & Hm & Hd' & Hs);
    [done..|].
  eapply wp_update_memory; [exact Hm|]. wp_line. unfold put, VGA_WIDTH. cbn [column].
  destruct (Z.eqb_spec (column k + 1) 80) as [H80|H80].
  - set (k' := mk_screen _ _ _ _ _).
    eapply wp_mono; [apply (scroll_up_spec _ (mk_screen (cells k') (line k) 0 (color k) (default_color k)) (column k + 1))|].
    + by split; cbn; try done; try lia.
    + done.
    + intros _ t' [Hs' Hq]. split; [|by etrans; [|exact Hq]; split].
      unfold newline in *. cbn in *. by destruct (line k =? 24).
  - wp_line. split; [|by split]. by split; cbn; try done; try lia.
Qed.

Lemma u8_s8 b : is_u8 b -> u8 (s8 b) = b.
Proof. unfold s8, u8, is_u8. intros. Z.div_mod_to_equations. lia. Qed.

Lemma putchar_char_spec b t k : shows t k -> is_u8 b ->
  wp never (__terminal_putchar putchar_depth (s8 b)) (fun _ t' => shows t' (show_char k b) /\ quiet t t') t.
Proof.
  intros Hk Hb. unfold show_char.
  assert (forall n, 0 <= n < 128 -> (s8 b = n <-> b = n)) as Hs8
    by (intros n Hn; unfold s8, is_u8 in *; Z.div_mod_to_equations; lia).
  destruct (Z.eqb_spec b 10) as [->|H10].
  - change (s8 10) with 10. cbn [putchar_depth __terminal_putchar Z.eqb Pos.eqb].
    apply (scroll_up_spec t k (terminal_column t)); [|done]. by apply shows_same_column.
  - destruct (Z.eqb_spec b 13) as [->|H13].
    + change (s8 13) with 13. cbn [putchar_depth __terminal_putchar Z.eqb Pos.eqb]. wp_line.
      destruct Hk. split; [|by split]. split; cbn; done || lia.
    + destruct (Z.eqb_spec b 9) as [->|H9].
      * change (s8 9) with 9. unfold putchar_depth.
        change (__terminal_putchar 2 9) with
          (__terminal_putchar (HW := HW) 1 32;; __terminal_putchar 1 32;; __terminal_putchar 1 32).
        wp_line. eapply wp_mono; [by apply (put_spec 0 32 32)|]. intros [] t1 [Hk1 Hq1]. cbv beta.
        wp_line. eapply wp_mono; [by apply (put_spec 0 32 32)|]. intros [] t2 [Hk2 Hq2]. cbv beta.
        eapply wp_mono; [by apply (put_spec 0 32 32)|]. intros [] t3 [Hk3 Hq3].
        split; [done|]. etrans; [exact Hq1|]. by etrans.
      * unfold putchar_depth. apply put_spec; [done | | rewrite Hs8; lia | rewrite Hs8; lia | rewrite Hs8; lia].
        by rewrite u8_s8.
Qed.

(** *** The cursor and the serial line *)

Definition cursor_pos (c : crtc) : Z := crtc_reg 0x0e c * 256 + crtc_reg 0x0f c.

Lemma wp_term_outb E p v (Q : unit -> terminal HW -> Prop) t :
  Q tt (set_term_hw (out_port p v (term_hw t)) t) -> wp E (term_outb p v) Q t.
Proof. done. Qed.

Lemma wp_term_inb E p (Q : Z -> terminal HW -> Prop) t :
  Q (in_port p (term_hw t)).1 (set_term_hw (in_port p (term_hw t)).2 t) -> wp E (term_inb p) Q t.
Proof. unfold wp, term_inb. by destruct (in_port p (term_hw t)). Qed.

(** Only the registers of the devices differ. *)
Definition on_devices t t' : Prop := t' = set_term_hw (term_hw t') t.

Lemma on_devices_shows t t' k : on_devices t t' -> shows t k -> shows t' k.
Proof. intros -> []. by split. Qed.

Lemma on_devices_memory t t' : on_devices t t' -> memory t' = memory t.
Proof. by intros ->. Qed.

Lemma on_devices_out p v t : on_devices t (set_term_hw (out_port p v (term_hw t)) t).
Proof. by destruct t. Qed.

#[export] Instance on_devices_preorder : PreOrder on_devices.
Proof. split; [by intros []|]. intros t1 t2 t3 H1 H2. rewrite H2, H1. done. Qed.

Lemma uart_out_other p v u : ~ 0x3f8 <= p <= 0x3fb -> uart_out p v u = u.
Proof.
  intros Hp. unfold uart_out. rewrite (proj2 (Z.eqb_neq p 0x3f8)), (proj2 (Z.eqb_neq p 0x3f9)),
    (proj2 (Z.eqb_neq p 0x3fa)), (proj2 (Z.eqb_neq p 0x3fb)) by lia. done.
Qed.

Lemma vga_update_cursor_spec x y t : 0 <= y < 25 -> 0 <= x < 80 ->
  wp never (vga_update_cursor x y) (fun _ t' => on_devices t t' /\
    uart_of (term_hw t') = uart_of (term_hw t) /\ cursor_pos (crtc_of (term_hw t')) = y * 80 + x) t.
Proof.
  intros Hy Hx. unfold vga_update_cursor, VGA_WIDTH.
  rewrite u16_small by lia. wp_line. do 4 (apply wp_term_outb; wp_line). cbn [term_hw set_term_hw]. split_and!.
  - done.
  - rewrite !out_uart. by rewrite !uart_out_other by lia.
  - rewrite !out_crtc. unfold crtc_out, cursor_pos, crtc_reg. cbn [Z.eqb Pos.eqb crtc_index crtc_regs].
    rewrite lookup_insert_eq, lookup_insert_ne, lookup_insert_eq by done. cbn [default from_option].
    rewrite (Z.land_ones _ 8), (Z.land_ones _ 8), Z.shiftr_div_pow2 by lia. unfold id, u8.
    Z.div_mod_to_equations. lia.
Qed.

Lemma update_cursor_spec t k : shows t k ->
  wp never update_cursor (fun _ t' => on_devices t t' /\ uart_of (term_hw t') = uart_of (term_hw t) /\
    cursor_pos (crtc_of (term_hw t')) = line k * 80 + column k) t.
Proof.
  intros [Hr Hc _ _ _ Hl Hcol _]. unfold update_cursor. wp_line. rewrite Hr, Hc. by apply vga_update_cursor_spec.
Qed.

Lemma serial_write_spec data b t : memory t !! data = Some b -> dlab (uart_of (term_hw t)) = false ->
  wp never (serial_write data 1) (fun _ t' => on_devices t t' /\
    crtc_of (term_hw t') = crtc_of (term_hw t) /\
    dlab (uart_of (term_hw t')) = false /\ u_sent (uart_of (term_hw t')) = u_sent (uart_of (term_hw t)) ++ [b]) t.
Proof.
  intros Hb Hd. unfold serial_write. change (Z.to_nat 1) with 1%nat. cbn [st_for]. wp_line.
  eapply wp_lift; [by rewrite Z.add_0_r; apply rd_Ok|]. wp_line. apply wp_term_outb. wp_line. cbn [term_hw set_term_hw].
  rewrite out_crtc, out_uart. unfold uart_out. cbn [COM1 THR Z.add Z.eqb Pos.eqb]. rewrite Hd.
  split_and!; [done | done | done | done].
Qed.

(** *** [putchar] and the printing loop *)

(** The console works: it shows [k] and the cursor after it, the serial line is set up, and the local
    variable of [putchar] is at [c]. *)
Definition cursor_shown t (k : screen) : Prop := cursor_pos (crtc_of (term_hw t)) = line k * 80 + column k.

Definition ready (c : Z) t (k : screen) : Prop :=
  shows t k /\ cursor_shown t k /\ dlab (uart_of (term_hw t)) = false /\ is_Some (memory t !! c).

Definition off_screen (c : Z) : Prop := ~ VGA_MEMORY <= c < VGA_MEMORY + 4000.

(** The memory outside of the screen and of the local variable. *)
Definition same_but (c : Z) (m m' : bytes) : Prop :=
  forall x, off_screen x -> x <> c -> m' !! x = m !! x.

#[export] Instance same_but_preorder c : PreOrder (same_but c).
Proof. split; [by intros m x|]. intros m1 m2 m3 H1 H2 x Hx Hc. by rewrite H2, H1. Qed.

Definition printed (c : Z) (s : list Z) (k : screen) t t' : Prop :=
  ready c t' (show_text s k) /\ u_sent (uart_of (term_hw t')) = u_sent (uart_of (term_hw t)) ++ s /\
  same_but c (memory t) (memory t').

Lemma displays_off m m' g : displays m g -> (forall x, ~ off_screen x -> m' !! x = m !! x) -> displays m' g.
Proof.
  intros Hd Hsame y x Hy Hx. unfold holds_word. rewrite !Hsame; [by apply Hd|..];
    unfold off_screen, cell_addr; lia.
Qed.

Lemma terminal_write_1 data b t k : shows t k -> is_u8 b -> memory t !! data = Some b ->
  wp never (terminal_write data 1) (fun _ t' => shows t' (show_char k b) /\
    same_elsewhere (memory t) (memory t') /\ uart_of (term_hw t') = uart_of (term_hw t) /\
    cursor_shown t' (show_char k b)) t.
Proof.
  intros Hk Hb Hm. unfold terminal_write. change (Z.to_nat 1) with 1%nat. cbn [st_for]. wp_line.
  eapply wp_lift; [by rewrite Z.add_0_r; apply rd_Ok|]. wp_line.
  eapply wp_mono; [by apply putchar_char_spec|]. intros [] t1 [Hk1 [Hq1 Hs1]]. wp_line.
  eapply wp_mono; [by apply update_cursor_spec|]. intros [] t2 (Hon & Hu & Hc).
  rewrite (on_devices_memory _ _ Hon). split_and!; [by eapply on_devices_shows | done | by rewrite Hu, Hq1 | done].
Qed.

Lemma putchar_spec c b t k : ready c t k -> off_screen c -> is_u8 b ->
  wp never (putchar c (s8 b)) (fun _ t' => printed c [b] k t t') t.
Proof.
  intros (Hk & _ & Hd & Hc) Hoff Hb. unfold putchar. wp_line.
  eapply wp_update_memory; [by apply wr_Ok|]. wp_line. rewrite u8_s8 by done.
  set (t0 := set_memory _ t).
  assert (shows t0 k) as Hk0.
  { destruct Hk. split; try done. eapply displays_off; [done|]. intros x Hx.
    apply lookup_insert_ne. by intros ->. }
  assert (memory t0 !! c = Some b) as Hm0 by apply lookup_insert_eq.
  eapply wp_mono; [by apply (terminal_write_1 c b)|]. intros [] t1 (Hk1 & Hs1 & Hu1 & Hc1). wp_line.
  assert (memory t1 !! c = Some b) as Hm1 by (rewrite Hs1; done).
  eapply wp_mono; [apply (serial_write_spec c b); [done|by rewrite Hu1]|].
  intros [] t2 (Hon & Hcr & Hdl & Hsent). wp_line. pose proof (on_devices_memory _ _ Hon) as Hm2.
  split_and!.
  - split_and!; [by eapply on_devices_shows | unfold cursor_shown in *; by rewrite Hcr | done | rewrite Hm2, Hm1; by eexists].
  - by rewrite Hsent, Hu1.
  - intros x Hx Hne. rewrite Hm2, Hs1 by done. cbn. by apply lookup_insert_ne.
Qed.

Lemma put_printf_buf_loop c buf s i t k : ready c t k -> off_screen c -> Forall is_u8 s ->
  has (memory t) (buf + i) s ->
  (forall j, i <= j < i + Z.of_nat (length s) -> off_screen (buf + j) /\ buf + j <> c) ->
  wp never (st_for (length s) i (fun i =>
      m ← gets memory; b ← lift (rd m (buf + i)); putchar c (s8 b);; mret tt))
    (fun _ t' => printed c s k t t') t.
Proof.
  revert i t k. induction s as [|b s IH]; intros i t k Hr Hc Hs Hh Hoff; cbn [length st_for].
  { wp_line. split_and!; [exact Hr | by rewrite app_nil_r | done]. }
  inversion_clear Hs as [|? ? Hb Hs']. wp_line.
  eapply wp_lift; [apply rd_Ok; by rewrite <- (Hh 0%nat b) by done; f_equal; lia|]. wp_line.
  eapply wp_mono; [by apply putchar_spec|]. intros _ t1 (Hr1 & Hsent1 & Hsame1). wp_line.
  eapply wp_mono; [apply (IH (i + 1) t1 (show_char k b)); try done|].
  - intros n b' Hn. pose proof (lookup_lt_Some _ _ _ Hn). cbn [length] in Hoff.
    replace (buf + (i + 1) + Z.of_nat n) with (buf + (i + 1 + Z.of_nat n)) by lia.
    rewrite Hsame1 by (apply Hoff; lia).
    replace (buf + (i + 1 + Z.of_nat n)) with (buf + i + Z.of_nat (S n)) by lia. by apply Hh.
  - intros j Hj. apply Hoff. cbn [length]. lia.
  - intros _ t2 (Hr2 & Hsent2 & Hsame2). split_and!; [exact Hr2 | | by etrans].
    by rewrite Hsent2, Hsent1, <- app_assoc.
Qed.

Lemma put_printf_buf_spec c buf s t k : ready c t k -> off_screen c -> Forall is_u8 s -> has (memory t) buf s ->
  (forall j, 0 <= j < Z.of_nat (length s) -> off_screen (buf + j) /\ buf + j <> c) ->
  wp never (put_printf_buf c buf (Z.of_nat (length s))) (fun _ t' => printed c s k t t') t.
Proof.
  intros Hr Hc Hs Hh Hoff. unfold put_printf_buf. rewrite Nat2Z.id.
  apply put_printf_buf_loop; try done. by rewrite Z.add_0_r.
Qed.

(** *** [printf] *)

(** Outside of the screen, of the local variable of [putchar] and of the buffer of
    [printf], the memory is the same, and none of it goes away. *)
Definition kept (c buf : Z) (m m' : bytes) : Prop :=
  (forall x, off_screen x -> x <> c -> ~ buf <= x < buf + 1024 -> m' !! x = m !! x) /\
  forall x, is_Some (m !! x) -> is_Some (m' !! x).

#[export] Instance kept_preorder c buf : PreOrder (kept c buf).
Proof.
  split; [by intros m; split|]. intros m1 m2 m3 [H1 D1] [H2 D2]. split; [|by intros x Hx; apply D2, D1].
  intros x Hx Hc Hb. by rewrite H2, H1.
Qed.

(** The console shows [k], [printf] can run, and its two areas are apart. *)
Definition can_print (c buf : Z) t (k : screen) : Prop :=
  ready c t k /\ mapped (memory t) buf 1024 /\ off_screen c /\
  forall j, 0 <= j < 1024 -> off_screen (buf + j) /\ buf + j <> c.

(** The text [s] has been printed. *)
Definition wrote (c buf : Z) (s : list Z) (k : screen) t t' : Prop :=
  can_print c buf t' (show_text s k) /\
  u_sent (uart_of (term_hw t')) = u_sent (uart_of (term_hw t)) ++ s /\
  kept c buf (memory t) (memory t').

Lemma wrote_app c buf s1 s2 k t1 t2 t3 :
  wrote c buf s1 k t1 t2 -> wrote c buf s2 (show_text s1 k) t2 t3 -> wrote c buf (s1 ++ s2) k t1 t3.
Proof.
  intros (_ & H1 & K1) (C2 & H2 & K2). unfold wrote, show_text in *. rewrite foldl_app. split_and!; [done| |by etrans].
  by rewrite H2, H1, app_assoc.
Qed.

Lemma wrote_nil c buf k t : can_print c buf t k -> wrote c buf [] k t t.
Proof. intros Hc. split_and!; [done|by rewrite app_nil_r|done]. Qed.

(** What [printf] can be called with. *)
Definition printable (c buf : Z) (m : bytes) (fmt : Z) (ps : list piece) : Prop :=
  let n := Z.of_nat (length (text_of ps)) + 1 in
  has m fmt (format_of ps ++ [0]) /\ Forall (piece_ok m buf n) ps /\
  (fmt + Z.of_nat (length (format_of ps)) < buf \/ buf + n <= fmt) /\ n <= 1024.

Lemma kprintf_spec c buf fmt ps extra t k :
  can_print c buf t k -> printable c buf (memory t) fmt ps ->
  wp never (kprintf c buf fmt (args_of ps ++ extra)) (fun r t' => r = Z.of_nat (length (text_of ps)) /\
    wrote c buf (text_of ps) k t t') t.
Proof.
  intros (Hr & Hm & Hc & Hbuf) (Hfmt & Hps & Hap & Hn).
  destruct (vsprintf_spec ps extra buf fmt (memory t) Hfmt Hps Hap) as (m1 & Hv & Ht & Hs & Hd);
    [intros i Hi; apply Hm; lia|]. unfold kprintf. wp_line. eapply wp_lift; [exact Hv|]. cbv beta iota. wp_line.
  set (t1 := set_memory m1 t). destruct Hr as (Hk & Hcur & Hdl & Hcs).
  assert (ready c t1 k) as Hr1.
  { split_and!; [|done|done|by apply Hd]. destruct Hk. split; try done. eapply displays_off; [done|].
    intros x Hx. apply Hs. intros Hin. apply Hx. destruct (Hbuf (x - buf) ltac:(lia)) as [Ho _].
    by replace (buf + (x - buf)) with x in Ho by lia. }
  apply has_app in Ht as [Ht _].
  eapply wp_mono; [apply (put_printf_buf_spec c buf (text_of ps)); try done|].
  - by eapply text_bytes.
  - intros j Hj. apply Hbuf. lia.
  - intros [] t2 (Hr2 & Hsent & Hsame). wp_line. split; [done|]. split_and!; [|done|].
    + split_and!; [done| |done|done]. intros i Hi. destruct (Hbuf i Hi) as [Ho Hne].
      rewrite Hsame by done. apply Hd. by apply Hm.
    + split; [intros x Hx Hxc Hxb; rewrite Hsame by done; apply Hs; lia|]. intros x Hx.
      destruct (decide (x = c)) as [->|Hne]; [apply Hr2|].
      destruct (decide (VGA_MEMORY <= x < VGA_MEMORY + 4000)) as [Hin|Hout].
      * destruct Hr2 as (Hk2 & _). pose proof (displays_mapped _ _ (shows_cells _ _ Hk2) (x - VGA_MEMORY) ltac:(lia)) as H2.
        by replace (VGA_MEMORY + (x - VGA_MEMORY)) with x in H2 by lia.
      * rewrite Hsame by done. by apply Hd.
Qed.

(** *** The early initialisation *)

(** 38400 bauds, 8 bits, no parity, one stop bit; the fifos are enabled and the
    two interrupts too. *)
Definition serial_set (u : uart) : Prop :=
  u_dlh u * 256 + u_dll u = 115200 / 38400 /\ Z.land (u_lcr u) 0x3f = 3 /\ dlab u = false /\
  u_fcr u = 0xc7 /\ u_ier u = 3.

(** The values the line control register goes through. *)
Lemma lcr_values l :
  let l1 := u8 (Z.lor l LCR_DLAB_MASK) in
  let l2 := u8 (Z.land l1 (Z.lnot LCR_DLAB_MASK)) in
  let l3 := u8 (Z.lor LCR_PROTO_8N1 (Z.land l2 (Z.lor LCR_DLAB_MASK LCR_BREAK_ENABLE_MASK))) in
  Z.testbit l1 7 = true /\ Z.testbit l2 7 = false /\ Z.testbit l3 7 = false /\ Z.land l3 0x3f = 3.
Proof.
  intros l1 l2 l3.
  assert (Z.testbit l1 7 = true) as H1.
  { unfold l1, u8. rewrite Z.mod_pow2_bits_low, Z.lor_spec by lia. apply orb_true_r. }
  assert (Z.testbit l2 7 = false) as H2.
  { unfold l2, u8. rewrite Z.mod_pow2_bits_low, Z.land_spec by lia. apply andb_false_r. }
  split_and!; [done | done | |].
  - unfold l3, u8. rewrite Z.mod_pow2_bits_low, Z.lor_spec, Z.land_spec, H2 by lia. done.
  - unfold l3, u8. rewrite <- Z.land_ones, <- Z.land_assoc, Z.land_lor_distr_l, <- Z.land_assoc by lia.
    change (Z.land (Z.lor LCR_DLAB_MASK LCR_BREAK_ENABLE_MASK) (Z.land (Z.ones 8) 0x3f)) with 0.
    by rewrite Z.land_0_r.
Qed.

Lemma in_lcr_uart (h : HW) :
  (in_port (COM1 + LCR) h).1 = u_lcr (uart_of h) /\ uart_of (in_port (COM1 + LCR) h).2 = uart_of h.
Proof. split; [apply in_lcr | by apply in_same; left]. Qed.

(** One write to each register. *)
Lemma uart_out_latch p v u : p = COM1 + DLL \/ p = COM1 + DLH -> dlab u = true ->
  uart_out p v u = mk_uart (if p =? COM1 + DLL then v else u_dll u) (if p =? COM1 + DLL then u_dlh u else v)
    (u_ier u) (u_fcr u) (u_lcr u) (u_sent u).
Proof. intros Hp Hd. unfold uart_out. by destruct Hp as [-> | ->]; rewrite Hd. Qed.

Lemma uart_out_ier v u : u_lcr (uart_out (COM1 + IER) v u) = u_lcr u /\
  u_sent (uart_out (COM1 + IER) v u) = u_sent u /\
  (dlab u = false -> uart_out (COM1 + IER) v u = mk_uart (u_dll u) (u_dlh u) v (u_fcr u) (u_lcr u) (u_sent u)).
Proof.
  change (uart_out (COM1 + IER) v u) with
    (if dlab u then mk_uart (u_dll u) v (u_ier u) (u_fcr u) (u_lcr u) (u_sent u)
     else mk_uart (u_dll u) (u_dlh u) v (u_fcr u) (u_lcr u) (u_sent u)).
  by destruct (dlab u).
Qed.

Lemma uart_out_lcr v u : uart_out (COM1 + LCR) v u = mk_uart (u_dll u) (u_dlh u) (u_ier u) (u_fcr u) v (u_sent u).
Proof. done. Qed.

Lemma uart_out_fcr v u : uart_out (COM1 + FCR) v u = mk_uart (u_dll u) (u_dlh u) (u_ier u) v (u_lcr u) (u_sent u).
Proof. done. Qed.

(** The whole sequence on the registers alone. *)
Lemma uart_serial_init u l1 l2 l3 :
  Z.testbit l1 7 = true -> Z.testbit l2 7 = false -> Z.testbit l3 7 = false -> Z.land l3 0x3f = 3 ->
  let u' := uart_out (COM1 + IER) 3 (uart_out (COM1 + FCR) 0xc7 (uart_out (COM1 + LCR) l3
    (uart_out (COM1 + LCR) l2 (uart_out (COM1 + DLH) 0 (uart_out (COM1 + DLL) 3 (uart_out (COM1 + LCR) l1
    (uart_out (COM1 + IER) 0 u))))))) in
  serial_set u' /\ u_sent u' = u_sent u.
Proof.
  intros H1 H2 H3 H4. rewrite <- (proj1 (proj2 (uart_out_ier 0 u))).
  generalize (uart_out (COM1 + IER) 0 u). intros [dll dlh ier fcr lcr sent].
  rewrite (uart_out_lcr l1), (uart_out_latch (COM1 + DLL) 3) by (done || by left).
  rewrite (uart_out_latch (COM1 + DLH) 0) by (done || by right).
  rewrite (uart_out_lcr l2), (uart_out_lcr l3), uart_out_fcr, (proj2 (proj2 (uart_out_ier _ _))) by done.
  unfold serial_set, dlab. cbn [u_dll u_dlh u_ier u_fcr u_lcr u_sent]. split_and!; done || by vm_compute.
Qed.

Lemma serial_init_spec t :
  wp never serial_init (fun _ t' => on_devices t t' /\ serial_set (uart_of (term_hw t')) /\
    u_sent (uart_of (term_hw t')) = u_sent (uart_of (term_hw t))) t.
Proof.
  unfold serial_init, serial_disable_irqs, serial_set_baud_rate, serial_set_protocol, serial_enable_fifo,
    serial_enable_irqs. wp_line. apply wp_term_outb. cbn [Z.eqb Z.ltb Z.compare Pos.compare Pos.compare_cont orb]. wp_line.
  apply wp_term_inb. wp_line. do 4 (apply wp_term_outb; wp_line). apply wp_term_inb. wp_line. do 3 (apply wp_term_outb; wp_line).
  cbn [term_hw set_term_hw]. split; [done|].
  rewrite !out_uart, !(proj2 (in_lcr_uart _)), !(proj1 (in_lcr_uart _)), !out_uart, !(proj2 (in_lcr_uart _)), !out_uart.
  set (u := uart_of (term_hw t)).
  rewrite (proj1 (uart_out_ier 0 u)).
  destruct (lcr_values (u_lcr u)) as (H1 & H2 & H3 & H4). exact (uart_serial_init u _ _ _ H1 H2 H3 H4).
Qed.

Lemma vga_enable_cursor_spec style t :
  wp never (vga_enable_cursor style) (fun _ t' => on_devices t t' /\ uart_of (term_hw t') = uart_of (term_hw t)) t.
Proof.
  unfold vga_enable_cursor. wp_line. apply wp_term_outb. wp_line. apply wp_term_inb. wp_line.
  do 2 (apply wp_term_outb; wp_line). apply wp_term_inb. wp_line. apply wp_term_outb. cbn [term_hw set_term_hw]. split; [done|].
  rewrite !out_uart, !(proj2 (in_same 0x3d5 _ (or_intror eq_refl))), !out_uart,
    !(proj2 (in_same 0x3d5 _ (or_intror eq_refl))), !out_uart.
  by rewrite !uart_out_other by lia.
Qed.

Lemma terminal_initialize_spec t : mapped (memory t) VGA_MEMORY 4000 ->
  wp never terminal_initialize (fun _ t' => shows t' boot_screen /\ cursor_shown t' boot_screen /\
    uart_of (term_hw t') = uart_of (term_hw t) /\ same_elsewhere (memory t) (memory t')) t.
Proof.
  intros Hm. unfold terminal_initialize, terminal_setcolor. wp_line.
  cbn [terminal_buffer terminal_color terminal_default_color set_buffer set_color set_default set_column set_row memory].
  change (vga_entry_color VGA_COLOR_WHITE VGA_COLOR_BLACK) with 15.
  destruct (clear_screen_spec (memory t) 15 Hm) as (m' & Hcl & Hd & Hs).
  eapply wp_update_memory; [exact Hcl|]. wp_line.
  eapply wp_mono; [apply vga_enable_cursor_spec|]. intros _ t1 [Hon1 Hu1].
  assert (shows t1 boot_screen) as Hk1.
  { eapply on_devices_shows; [exact Hon1|]. split; try done; cbn; lia. }
  eapply wp_mono; [by apply update_cursor_spec|]. intros _ t2 (Hon2 & Hu2 & Hc2).
  split_and!; [by eapply on_devices_shows | done | by rewrite Hu2, Hu1 |].
  by rewrite (on_devices_memory _ _ Hon2), (on_devices_memory _ _ Hon1).
Qed.

Lemma kernel_early_init_spec gdt_addr c t :
  mapped (memory t) VGA_MEMORY 4000 -> off_screen c -> is_Some (memory t !! c) ->
  wp never (kernel_early_init gdt_addr) (fun gdtr t' => gdtr = mk_gdtr 39 gdt_addr /\ ready c t' boot_screen /\
    serial_set (uart_of (term_hw t')) /\ u_sent (uart_of (term_hw t')) = u_sent (uart_of (term_hw t)) /\
    same_elsewhere (memory t) (memory t')) t.
Proof.
  intros Hm Hoff Hc. unfold kernel_early_init. wp_line.
  eapply wp_mono; [apply serial_init_spec|]. intros _ t1 (Hon1 & Hset & Hsent). wp_line.
  pose proof (on_devices_memory _ _ Hon1) as Hm1.
  eapply wp_mono; [apply terminal_initialize_spec; by rewrite Hm1|]. intros _ t2 (Hk & Hcur & Hu & Hs). wp_line.
  rewrite Hm1 in Hs. split_and!; [done | | by rewrite Hu | by rewrite Hu | done].
  split_and!; [done | done | rewrite Hu; apply Hset | by rewrite Hs].
Qed.


End Shows.

(** ** The theorem *)

(** C39. The early initialisation clears the screen, puts the cursor in its corner
    and sets the serial line to 38400 bauds, 8N1; from then on, [printf] prints:
    for every format and its arguments, it returns the length of their text, and
    the screen shows this text, scrolls and wraps as an ideal terminal of 25 lines
    of 80 columns does, with the cursor after it, the serial line gets the same
    bytes in order, and no memory but the screen, the buffer of [printf] and the
    variable of [putchar] changes. *)
Theorem console_shows_text {HW} `{ConsoleLaws HW} (gdt_addr c buf : Z) (t : terminal HW) :
  mapped (memory t) VGA_MEMORY 4000 -> off_screen c -> is_Some (memory t !! c) -> mapped (memory t) buf 1024 ->
  (forall j, 0 <= j < 1024 -> off_screen (buf + j) /\ buf + j <> c) ->
  (exists t1, kernel_early_init gdt_addr t = Ok (mk_gdtr 39 gdt_addr, t1) /\ can_print c buf t1 boot_screen /\
    serial_set (uart_of (term_hw t1)) /\ u_sent (uart_of (term_hw t1)) = u_sent (uart_of (term_hw t)) /\
    same_elsewhere (memory t) (memory t1)) /\
  forall t2 k fmt ps extra, can_print c buf t2 k -> printable c buf (memory t2) fmt ps ->
    exists t3, kprintf c buf fmt (args_of ps ++ extra) t2 = Ok (Z.of_nat (length (text_of ps)), t3) /\
      wrote c buf (text_of ps) k t2 t3.
Proof.
  intros Hm Hoff Hc Hb Hbuf. split.
  - destruct (wp_run _ _ _ (kernel_early_init_spec gdt_addr c t Hm Hoff Hc)) as (r & t1 & Hr & -> & Hrd & Hset & Hsent & Hs).
    exists t1. split_and!; try done. split_and!; try done. intros i Hi. rewrite Hs; [by apply Hb|]. apply (Hbuf i Hi).
  - intros t2 k fmt ps extra Hr Hp.
    destruct (wp_run _ _ _ (kprintf_spec c buf fmt ps extra t2 k Hr Hp)) as (r & t3 & Ht3 & -> & Hq). by exists t3.
Qed.

(** A machine with the two devices only. *)
Record demo_hw := mk_demo { demo_crtc : crtc; demo_uart : uart }.

#[export] Instance demo_hardware : Hardware demo_hw := {
  in_port p h := (if p =? 0x3fb then u_lcr (demo_uart h) else 0, h);
  out_port p v h := mk_demo (crtc_out p v (demo_crtc h)) (uart_out p v (demo_uart h));
  int_req h := (None, h);
  patience := 1 }.

#[export] Instance demo_laws : ConsoleLaws demo_hw.
Proof. by refine {| crtc_of := demo_crtc; uart_of := demo_uart |}. Defined.

(** The video memory, a local variable at 100, the format "A\t%d\n" at 200 and a
    buffer at 4096. *)
Definition demo_print : list piece := [Lit 65; Lit 9; Num (mk_field [] [] None None) Dec 7; Lit 10].

Definition demo_console : terminal demo_hw :=
  mk_term (mk_demo (mk_crtc 0 ∅) (mk_uart 0 0 0 0 0 [])) 0 0 0 0 0
    (list_to_map [(100, 0); (200, 65); (201, 9); (202, 37); (203, 100); (204, 10); (205, 0)] ∪
      (list_to_map ((fun a => (a, 0)) <$> seqZ VGA_MEMORY 4000) ∪ list_to_map ((fun a => (a, 0)) <$> seqZ 4096 1024))).

Lemma mapped_union (m1 m2 : bytes) a n : mapped m1 a n \/ mapped m2 a n -> mapped (m1 ∪ m2) a n.
Proof. intros [H|H] i Hi; apply lookup_union_is_Some; [left|right]; by apply H. Qed.

Lemma has_union_l (m1 m2 : bytes) a l : has m1 a l -> has (m1 ∪ m2) a l.
Proof. intros Hh i b Hi. by apply lookup_union_Some_l, Hh. Qed.

Lemma demo_console_mapped : mapped (memory demo_console) VGA_MEMORY 4000.
Proof. apply mapped_union. right. apply mapped_union. left. apply (mapped_area []). Qed.

Lemma demo_console_buffer : mapped (memory demo_console) 4096 1024.
Proof. do 2 (apply mapped_union; right). apply (mapped_area []). Qed.

Lemma demo_console_text : has (memory demo_console) 200 (format_of demo_print ++ [0]).
Proof. apply has_union_l. intros [|[|[|[|[|[|i]]]]]] b [= <-]; by vm_compute. Qed.

Lemma demo_print_ok m buf n : Forall (piece_ok m buf n) demo_print.
Proof.
  repeat (constructor || split); cbn; lia || done.
Qed.

Lemma console_shows_text_witness : exists t1 t3,
  kernel_early_init 0x200000 demo_console = Ok (mk_gdtr 39 0x200000, t1) /\
  kprintf 100 4096 200 [7] t1 = Ok (4, t3) /\ wrote 100 4096 [65; 9; 55; 10] boot_screen t1 t3.
Proof.
  destruct (console_shows_text 0x200000 100 4096 demo_console demo_console_mapped) as [(t1 & H1 & Hr & _ & _ & Hs) Hprint].
  - unfold off_screen, VGA_MEMORY. lia.
  - apply lookup_union_is_Some. left. by eexists.
  - exact demo_console_buffer.
  - unfold off_screen, VGA_MEMORY. lia.
  - destruct (Hprint t1 boot_screen 200 demo_print [] Hr) as (t3 & H3 & Hp).
    + split_and!.
      * eapply has_ext; [|exact demo_console_text]. intros x Hx. apply Hs. change (length (format_of demo_print ++ [0])) with 6%nat in Hx.
        unfold VGA_MEMORY. lia.
      * apply demo_print_ok.
      * left. exact eq_refl.
      * discriminate.
    + exists t1, t3. exact (conj H1 (conj H3 Hp)).
Defined.
