(* ===== verification/Log.v ===== *)
(** * Messages: [printf], [puts] and log.h

    The callers of [printf] in the kernel.  Where the compiler and the linker put
    the string literals and the local variables of [printf] and [putchar] is a
    parameter, the class [Layout]. *)
From S2P Require Import Prelude Libc Printf PrintfSpec Format Io Descriptors Console ConsoleSpec.

(** ** Literals and the state *)

Class Layout := { lit : string -> Z; putchar_var : Z; printf_area : Z }.

Definition codes (s : string) : list Z := (fun a => Z.of_N (Ascii.N_of_ascii a)) <$> String.list_ascii_of_string s.

(** The line feed and the tabulation of the literals. *)
Definition nl : string := String (Ascii.ascii_of_nat 10) EmptyString.
Definition tab : string := String (Ascii.ascii_of_nat 9) EmptyString.

Inductive log_level := LOG_ERROR | LOG_WARN | LOG_INFO | LOG_DEBUG.
Definition level_value (l : log_level) : Z :=
  match l with LOG_ERROR => 0 | LOG_WARN => 1 | LOG_INFO => 2 | LOG_DEBUG => 3 end.
Definition LOG_MAX_LEVEL : Z := level_value LOG_DEBUG + 1.

(** The terminal and the variable of log.c. *)
Record con (HW : Type) := mk_con { con_term : terminal HW; g_log_level : Z }.
Arguments mk_con {HW}.
Arguments con_term {HW}.
Arguments g_log_level {HW}.

Definition set_con_term {HW} (t : terminal HW) (w : con HW) : con HW := mk_con t (g_log_level w).

Section Log.
Context {HW : Type} `{Hardware HW, Layout}.

Definition on_term {A} (f : ST (terminal HW) A) : ST (con HW) A := fun w =>
  '(a, t) ← f (con_term w); mret (a, set_con_term t w).

(** [printf(fmt, ...)] with a format at an address, and with a literal. *)
Definition printf_at (fmt : Z) (args : list Z) : ST (con HW) Z := on_term (kprintf putchar_var printf_area fmt args).
Definition say (fmt : string) (args : list Z) : ST (con HW) unit := printf_at (lit fmt) args;; mret tt.

Definition puts (string : Z) : ST (con HW) Z := printf_at (lit ("%s" +:+ nl)) [string].

(** *** log.c and log.h *)

Definition log_set_level (level : Z) : ST (con HW) unit := modify (fun w => mk_con (con_term w) level).
Definition log_get_level : ST (con HW) Z := gets g_log_level.

(** [LOG_MODULE] is [md]; the prefix and the format are literals joined at compile
    time. *)
Definition log_macro_def (level : log_level) (md prefixe fmt : string) (args : list Z) : ST (con HW) unit :=
  g ← gets g_log_level;
  if level_value level <=? g then say ("[%s] " +:+ prefixe +:+ fmt +:+ nl) (lit md :: args) else mret tt.

Definition dbg (md fmt : string) (args : list Z) : ST (con HW) unit :=
  on_term (terminal_setcolor (vga_entry_color VGA_COLOR_LIGHT_GREY VGA_COLOR_BLACK));;
  log_macro_def LOG_DEBUG md "DBG: " fmt args;;
  on_term terminal_reset_color.

Definition info (md fmt : string) (args : list Z) : ST (con HW) unit :=
  on_term (terminal_setcolor (vga_entry_color VGA_COLOR_WHITE VGA_COLOR_BLACK));;
  log_macro_def LOG_INFO md "" fmt args;;
  on_term terminal_reset_color.

Definition success (md fmt : string) (args : list Z) : ST (con HW) unit :=
  on_term (terminal_setcolor (vga_entry_color VGA_COLOR_GREEN VGA_COLOR_BLACK));;
  log_macro_def LOG_INFO md "" fmt args;;
  on_term terminal_reset_color.

Definition warn (md fmt : string) (args : list Z) : ST (con HW) unit :=
  on_term (terminal_setcolor (vga_entry_color VGA_COLOR_BROWN VGA_COLOR_BLACK));;
  log_macro_def LOG_WARN md "WARN: " fmt args;;
  on_term terminal_reset_color.

Definition error (md fmt : string) (args : list Z) : ST (con HW) unit :=
  on_term (terminal_setcolor (vga_entry_color VGA_COLOR_RED VGA_COLOR_BLACK));;
  log_macro_def LOG_ERROR md "ERROR: " fmt args;;
  on_term terminal_reset_color.

End Log.

(** ** What a message shows *)

Definition paint (col : Z) (k : screen) : screen := mk_screen (cells k) (line k) (column k) col (default_color k).

(** Text does not change the colours. *)
Definition same_colors (k k' : screen) : Prop := color k' = color k /\ default_color k' = default_color k.

Lemma newline_colors k : same_colors k (newline k).
Proof. unfold newline. by destruct (line k =? 24). Qed.

Lemma put_colors b k : same_colors k (put b k).
Proof. unfold put. cbv zeta. destruct (_ =? 80); [|done]. exact (newline_colors (mk_screen _ _ _ _ _)). Qed.

Lemma show_char_colors k b : same_colors k (show_char k b).
Proof.
  unfold show_char. destruct (b =? 10); [apply newline_colors|]. destruct (b =? 13); [done|].
  destruct (b =? 9); [|apply put_colors].
  destruct (put_colors 32 k) as [E1 E2], (put_colors 32 (put 32 k)) as [E3 E4], (put_colors 32 (put 32 (put 32 k))) as [E5 E6].
  split; congruence.
Qed.

Lemma show_text_colors s k : same_colors k (show_text s k).
Proof.
  revert k. induction s as [|b s IH]; intros k; [done|]. change (show_text (b :: s) k) with (show_text s (show_char k b)).
  destruct (IH (show_char k b)), (show_char_colors k b). split; congruence.
Qed.

Lemma show_text_app s t k : show_text (s ++ t) k = show_text t (show_text s k).
Proof. apply foldl_app. Qed.

Definition lits (s : string) : list piece := Lit <$> codes s.
Definition no_field : conv_field := mk_field [] [] None None.

Lemma format_lits s : format_of (lits s) = codes s.
Proof. unfold lits, format_of. induction (codes s) as [|b l IH]; [done|]. cbn in *. by rewrite IH. Qed.
Lemma text_lits s : text_of (lits s) = codes s.
Proof. unfold lits, text_of. induction (codes s) as [|b l IH]; [done|]. cbn in *. by rewrite IH. Qed.
Lemma args_lits s : args_of (lits s) = [].
Proof. unfold lits, args_of. induction (codes s) as [|b l IH]; [done|]. cbn in *. by rewrite IH. Qed.

Lemma format_app p q : format_of (p ++ q) = format_of p ++ format_of q.
Proof. apply bind_app. Qed.
Lemma text_app p q : text_of (p ++ q) = text_of p ++ text_of q.
Proof. apply bind_app. Qed.
Lemma args_app p q : args_of (p ++ q) = args_of p ++ args_of q.
Proof. apply bind_app. Qed.

Lemma codes_app s t : codes (s +:+ t) = codes s ++ codes t.
Proof.
  induction s as [|a s IH]; [done|].
  change (codes (String a (s +:+ t)) = codes (String a s) ++ codes t).
  change (codes (String a (s +:+ t))) with (Z.of_N (Ascii.N_of_ascii a) :: codes (s +:+ t)). by rewrite IH.
Qed.

Lemma codes_range s : Forall (fun b => 0 <= b < 256) (codes s).
Proof.
  apply Forall_fmap, Forall_forall. intros a _. unfold compose. pose proof (Ascii.N_ascii_bounded a). lia.
Qed.

(** Literals that hold no terminator, and no directive. *)
Definition no_nul (s : string) : bool := forallb (fun b => negb (b =? 0)) (codes s).
Definition plain_text (s : string) : bool := forallb (fun b => negb (b =? 0) && negb (b =? 37)) (codes s).

Lemma no_nul_spec s : no_nul s = true -> Forall (fun b => 0 < b < 256) (codes s).
Proof.
  unfold no_nul. pose proof (codes_range s) as Hr. induction Hr as [|b l Hb _ IH]; [constructor|]. cbn [forallb].
  intros [H1 H2]%andb_true_iff. constructor; [|by apply IH]. rewrite negb_true_iff, Z.eqb_neq in H1. lia.
Qed.

Section Clear.
Context `{Layout}.

(** The [n] bytes from [a] are not used by the console. *)
Definition clear (a n : Z) : Prop :=
  forall x, a <= x < a + n -> off_screen x /\ x <> putchar_var /\ ~ printf_area <= x < printf_area + 1024.

Lemma clear_kept m m' a n : clear a n -> kept putchar_var printf_area m m' -> forall x, a <= x < a + n -> m' !! x = m !! x.
Proof. intros Hc [Hk _] x Hx. apply Hk; apply (Hc x Hx). Qed.

Definition literal (m : bytes) (s : string) : Prop :=
  has m (lit s) (codes s ++ [0]) /\ clear (lit s) (Z.of_nat (length (codes s)) + 1).

(** The arguments of a piece are in memory that the console leaves alone. *)
Definition arg_ok (m : bytes) (p : piece) : Prop :=
  piece_ok m printf_area 1024 p /\
  match p with Str _ a s => clear a (Z.of_nat (length s) + 1) | _ => True end.

Lemma literal_kept m m' s : kept putchar_var printf_area m m' -> literal m s -> literal m' s.
Proof.
  intros Hk [Hh Hc]. split; [|done]. eapply has_ext; [|exact Hh]. intros x Hx. eapply clear_kept; [exact Hc|done|].
  rewrite length_app in Hx. cbn in Hx. lia.
Qed.

Lemma arg_kept m m' p : kept putchar_var printf_area m m' -> arg_ok m p -> arg_ok m' p.
Proof.
  intros Hk [Hp Hc]. split; [|done]. destruct p; try done. destruct Hp as (Hf & Hs & Hl & Hap). split_and!; try done.
  eapply cstr_ext; [|exact Hs]. intros x Hx. eapply clear_kept; [exact Hc|done|lia].
Qed.

Lemma piece_ok_le m buf n n' p : n' <= n -> piece_ok m buf n p -> piece_ok m buf n' p.
Proof. intros Hn. destruct p; try done. intros (Hf & Hs & Hl & Hap). split_and!; try done. lia. Qed.

Lemma clear_apart a n : clear a n -> 0 < n -> a + n <= printf_area \/ printf_area + 1024 <= a.
Proof.
  intros Hc Hn. destruct (decide (a + n <= printf_area)); [by left|]. destruct (decide (printf_area + 1024 <= a)); [by right|].
  exfalso. apply (Hc (Z.max a printf_area)); lia.
Qed.

Lemma lits_ok m s : plain_text s = true -> Forall (arg_ok m) (lits s).
Proof.
  unfold plain_text, lits. pose proof (codes_range s) as Hr. induction Hr as [|b l Hb _ IH]; [constructor|].
  cbn [forallb fmap list_fmap]. intros [H1 H2]%andb_true_iff. constructor; [|by apply IH].
  rewrite andb_true_iff, !negb_true_iff, !Z.eqb_neq in H1. split; [cbn; lia|done].
Qed.

(** A literal as the argument of [%s]. *)
Lemma literal_arg m s : literal m s -> no_nul s = true -> Z.of_nat (length (codes s)) < 2 ^ 32 - 1 ->
  arg_ok m (Str no_field (lit s) (codes s)).
Proof.
  intros [Hh Hc] Hn Hl. split; [|done]. pose proof (clear_apart _ _ Hc ltac:(lia)).
  split; [by repeat constructor|]. split; [split; [done|by apply no_nul_spec]|]. lia.
Qed.

Lemma printable_say m fmt ps :
  literal m fmt -> codes fmt = format_of ps -> Forall (arg_ok m) ps -> Z.of_nat (length (text_of ps)) < 1024 ->
  printable putchar_var printf_area m (lit fmt) ps.
Proof.
  intros [Hh Hc] Hf Hp Hl. split_and!; [by rewrite <- Hf| | |lia].
  - eapply Forall_impl; [exact Hp|]. intros p [Hok _]. eapply piece_ok_le; [|exact Hok]. lia.
  - pose proof (clear_apart _ _ Hc ltac:(lia)). rewrite <- Hf. lia.
Qed.

End Clear.

(** ** Messages *)

Section Messages.
Context {HW : Type} `{HL : ConsoleLaws HW, Layout}.
Implicit Types w : con HW.

(** The text [s] has been printed and the level is the same. *)
Definition said (s : list Z) (k : screen) w w' : Prop :=
  g_log_level w' = g_log_level w /\ wrote putchar_var printf_area s k (con_term w) (con_term w').

Definition shows_screen w (k : screen) : Prop := can_print putchar_var printf_area (con_term w) k.
Definition con_memory w : bytes := memory (con_term w).

Lemma said_app s1 s2 k w1 w2 w3 : said s1 k w1 w2 -> said s2 (show_text s1 k) w2 w3 -> said (s1 ++ s2) k w1 w3.
Proof. intros [E1 W1] [E2 W2]. split; [congruence|by eapply wrote_app]. Qed.

Lemma said_kept s k w w' : said s k w w' -> kept putchar_var printf_area (con_memory w) (con_memory w').
Proof. by intros (_ & _ & _ & Hk). Qed.

Lemma said_screen s k w w' : said s k w w' -> shows_screen w' (show_text s k).
Proof. by intros (_ & Hs & _). Qed.

Lemma wp_on_term {A} E (f : ST (terminal HW) A) (Q : A -> con HW -> Prop) w :
  wp E f (fun a t => Q a (set_con_term t w)) (con_term w) -> wp E (on_term f) Q w.
Proof. unfold wp, on_term. by destruct (f (con_term w)) as [[a t]|]. Qed.

Lemma printf_at_spec fmt ps extra w k :
  shows_screen w k -> printable putchar_var printf_area (con_memory w) fmt ps ->
  wp never (printf_at fmt (args_of ps ++ extra)) (fun r w' => r = Z.of_nat (length (text_of ps)) /\ said (text_of ps) k w w') w.
Proof.
  intros Hk Hp. apply wp_on_term. eapply wp_mono; [by apply (kprintf_spec _ _ _ ps extra _ k)|].
  intros r t [-> Ht]. by split.
Qed.

Lemma say_spec fmt ps w k :
  shows_screen w k -> literal (con_memory w) fmt -> codes fmt = format_of ps -> Forall (arg_ok (con_memory w)) ps ->
  Z.of_nat (length (text_of ps)) < 1024 ->
  wp never (say fmt (args_of ps)) (fun _ w' => said (text_of ps) k w w') w.
Proof.
  intros Hk Hl Hf Hp Hn. unfold say. rewrite <- (app_nil_r (args_of ps)). wp_line.
  eapply wp_mono; [apply (printf_at_spec _ ps [] w k Hk)|].
  - by apply printable_say.
  - intros r w' [_ Hs]. wp_line. done.
Qed.

(** A change of colour leaves the console as it is. *)
Lemma shows_paint (t : terminal HW) k col : shows t k -> shows (set_color col t) (paint col k).
Proof. intros []. by split. Qed.

Lemma set_color_spec col w k : shows_screen w k ->
  wp never (on_term (terminal_setcolor col)) (fun _ w' => shows_screen w' (paint col k) /\
    w' = set_con_term (set_color col (con_term w)) w) w.
Proof.
  intros ((Hk & Hcur & Hd & Hc) & Hrest). apply wp_on_term. unfold terminal_setcolor. apply wp_modify.
  split; [|done]. split; [|done]. split_and!; try done. by apply shows_paint.
Qed.

Lemma reset_color_spec w k : shows_screen w k ->
  wp never (on_term terminal_reset_color) (fun _ w' => shows_screen w' (paint (default_color k) k) /\
    w' = set_con_term (set_color (terminal_default_color (con_term w)) (con_term w)) w) w.
Proof.
  intros ((Hk & Hcur & Hd & Hc) & Hrest). apply wp_on_term. unfold terminal_reset_color, terminal_setcolor. wp_line.
  split; [|done]. split; [|done]. split_and!; try done. rewrite (shows_default _ _ Hk). by apply shows_paint.
Qed.

(** The text of a message: the module, the prefix and what was said. *)
Definition message_pieces (md prefixe : string) (ps : list piece) : list piece :=
  lits "[" ++ Str no_field (lit md) (codes md) :: lits "] " ++ lits prefixe ++ ps ++ lits nl.

Definition message_text (md prefixe : string) (text : list Z) : list Z :=
  codes "[" ++ codes md ++ codes "] " ++ codes prefixe ++ text ++ codes nl.

Lemma message_pieces_format md prefixe fmt ps : codes fmt = format_of ps ->
  codes ("[%s] " +:+ prefixe +:+ fmt +:+ nl) = format_of (message_pieces md prefixe ps).
Proof.
  intros Hf. unfold message_pieces. rewrite !codes_app, !format_app, !format_lits.
  change (format_of (Str no_field (lit md) (codes md) :: ?l)) with ([37; 115] ++ format_of l).
  rewrite !format_app, !format_lits, Hf. done.
Qed.

Lemma in_no_field s : in_field no_field s = s.
Proof.
  unfold in_field. change (left_aligned no_field) with false. change (field_width no_field) with (-1).
  by replace (Z.to_nat (-1 - Z.of_nat (length s))) with 0%nat by lia.
Qed.

Lemma message_pieces_text md prefixe ps : text_of (message_pieces md prefixe ps) = message_text md prefixe (text_of ps).
Proof.
  unfold message_pieces, message_text. rewrite !text_app, !text_lits.
  change (text_of (Str no_field (lit md) (codes md) :: ?l)) with (in_field no_field (codes md) ++ text_of l).
  by rewrite in_no_field, !text_app, !text_lits.
Qed.

Lemma message_pieces_args md prefixe ps : args_of (message_pieces md prefixe ps) = lit md :: args_of ps.
Proof.
  unfold message_pieces. rewrite args_app, args_lits.
  change (args_of (Str no_field (lit md) (codes md) :: ?l)) with (lit md :: args_of l).
  by rewrite !args_app, !args_lits, app_nil_r.
Qed.

Lemma message_pieces_ok m md prefixe ps : literal m md -> no_nul md = true -> Z.of_nat (length (codes md)) < 2 ^ 32 - 1 ->
  plain_text prefixe = true -> Forall (arg_ok m) ps -> Forall (arg_ok m) (message_pieces md prefixe ps).
Proof.
  intros Hl Hn Hlen Hpl Hps. unfold message_pieces. rewrite !Forall_app, Forall_cons, !Forall_app.
  split_and!; try done; try (by apply lits_ok); by apply literal_arg.
Qed.

(** [log_macro_def] prints the message or nothing. *)
Lemma log_macro_spec lvl md prefixe fmt ps w k :
  shows_screen w k -> literal (con_memory w) md -> no_nul md = true -> plain_text prefixe = true ->
  literal (con_memory w) ("[%s] " +:+ prefixe +:+ fmt +:+ nl) -> codes fmt = format_of ps ->
  Forall (arg_ok (con_memory w)) ps -> Z.of_nat (length (message_text md prefixe (text_of ps))) < 1024 ->
  wp never (log_macro_def lvl md prefixe fmt (args_of ps)) (fun _ w' =>
    said (if level_value lvl <=? g_log_level w then message_text md prefixe (text_of ps) else []) k w w') w.
Proof.
  intros Hk Hmd Hn Hpl Hl Hf Hps Hlen. unfold log_macro_def. wp_line.
  destruct (level_value lvl <=? g_log_level w).
  - rewrite <- message_pieces_text, <- (message_pieces_args md prefixe). apply say_spec; try done.
    + by apply message_pieces_format.
    + apply message_pieces_ok; try done. unfold message_text in Hlen. rewrite !length_app in Hlen. lia.
    + by rewrite message_pieces_text.
  - wp_line. split; [done|by apply wrote_nil].
Qed.

(** One of the five macros. *)
Lemma message_spec col lvl md prefixe fmt ps w k :
  shows_screen w k -> literal (con_memory w) md -> no_nul md = true -> plain_text prefixe = true ->
  literal (con_memory w) ("[%s] " +:+ prefixe +:+ fmt +:+ nl) -> codes fmt = format_of ps ->
  Forall (arg_ok (con_memory w)) ps -> Z.of_nat (length (message_text md prefixe (text_of ps))) < 1024 ->
  let s := if level_value lvl <=? g_log_level w then message_text md prefixe (text_of ps) else [] in
  wp never (on_term (terminal_setcolor col);; log_macro_def lvl md prefixe fmt (args_of ps);; on_term terminal_reset_color)
    (fun _ w' => g_log_level w' = g_log_level w /\
      shows_screen w' (paint (default_color k) (show_text s (paint col k))) /\
      u_sent (uart_of (term_hw (con_term w'))) = u_sent (uart_of (term_hw (con_term w))) ++ s /\
      kept putchar_var printf_area (con_memory w) (con_memory w')) w.
Proof.
  intros Hk Hmd Hn Hpl Hl Hf Hps Hlen s. wp_line. eapply wp_mono; [by apply set_color_spec|].
  intros [] w1 [Hk1 ->]. wp_line. eapply wp_mono; [by apply (log_macro_spec lvl md prefixe fmt ps _ _ Hk1)|].
  intros [] w2 Hw. cbv beta in *. change (said s (paint col k) (set_con_term (set_color col (con_term w)) w) w2) in Hw.
  destruct Hw as (Hg & Hk2 & Hsent & Hkept).
  eapply wp_mono; [by apply (reset_color_spec w2 _ Hk2)|]. intros [] w3 [Hk3 ->].
  destruct (show_text_colors s (paint col k)) as [_ Hd]. cbn [default_color paint] in Hd. rewrite Hd in Hk3.
  split_and!; done.
Qed.

End Messages.

(** ** The theorem *)

Inductive severity := Dbg | Info | Success | Warn | Error.

Definition log_at {HW} `{Hardware HW, Layout} (sv : severity) : string -> string -> list Z -> ST (con HW) unit :=
  match sv with Dbg => dbg | Info => info | Success => success | Warn => warn | Error => error end.

(** The colour, the level and the prefix of a severity. *)
Definition severity_color (sv : severity) : Z := match sv with Dbg => 7 | Info => 15 | Success => 2 | Warn => 6 | Error => 4 end.
Definition severity_level (sv : severity) : Z := match sv with Dbg => 3 | Info | Success => 2 | Warn => 1 | Error => 0 end.
Definition severity_prefix (sv : severity) : string :=
  match sv with Dbg => "DBG: " | Info | Success => "" | Warn => "WARN: " | Error => "ERROR: " end.

(** The literal that a message is printed with. *)
Definition message_literal (sv : severity) (fmt : string) : string := "[%s] " +:+ severity_prefix sv +:+ fmt +:+ nl.

Lemma log_at_spec {HW} `{HL : ConsoleLaws HW, L : Layout} sv md fmt ps (w : con HW) k :
  shows_screen w k -> literal (con_memory w) md -> no_nul md = true ->
  literal (con_memory w) ("[%s] " +:+ severity_prefix sv +:+ fmt +:+ nl) -> codes fmt = format_of ps ->
  Forall (arg_ok (con_memory w)) ps -> Z.of_nat (length (message_text md (severity_prefix sv) (text_of ps))) < 1024 ->
  let s := if severity_level sv <=? g_log_level w then message_text md (severity_prefix sv) (text_of ps) else [] in
  wp never (log_at sv md fmt (args_of ps)) (fun _ w' => g_log_level w' = g_log_level w /\
    shows_screen w' (paint (default_color k) (show_text s (paint (severity_color sv) k))) /\
    u_sent (uart_of (term_hw (con_term w'))) = u_sent (uart_of (term_hw (con_term w))) ++ s /\
    kept putchar_var printf_area (con_memory w) (con_memory w')) w.
Proof.
  intros Hk Hmd Hn Hl Hf Hps Hlen s.
  destruct sv; [exact (message_spec 7 LOG_DEBUG md "DBG: " fmt ps w k Hk Hmd Hn eq_refl Hl Hf Hps Hlen)
    |exact (message_spec 15 LOG_INFO md "" fmt ps w k Hk Hmd Hn eq_refl Hl Hf Hps Hlen)
    |exact (message_spec 2 LOG_INFO md "" fmt ps w k Hk Hmd Hn eq_refl Hl Hf Hps Hlen)
    |exact (message_spec 6 LOG_WARN md "WARN: " fmt ps w k Hk Hmd Hn eq_refl Hl Hf Hps Hlen)
    |exact (message_spec 4 LOG_ERROR md "ERROR: " fmt ps w k Hk Hmd Hn eq_refl Hl Hf Hps Hlen)].
Qed.

(** C29. Messages: each of the five macros prints its message exactly when the
    level set with [log_set_level] admits its severity; the message is the module
    in brackets, the prefix and the formatted text, on the screen in the colour
    of the severity and on the serial line; the default colour is back
    afterwards, the level is kept, and only the console's memory changes. *)
Theorem log_messages {HW} `{HL : ConsoleLaws HW, L : Layout} sv md fmt ps level (w : con HW) k :
  shows_screen w k -> literal (con_memory w) md -> no_nul md = true ->
  literal (con_memory w) ("[%s] " +:+ severity_prefix sv +:+ fmt +:+ nl) -> codes fmt = format_of ps ->
  Forall (arg_ok (con_memory w)) ps -> Z.of_nat (length (message_text md (severity_prefix sv) (text_of ps))) < 1024 ->
  let s := if severity_level sv <=? level then message_text md (severity_prefix sv) (text_of ps) else [] in
  exists w', (log_set_level level;; log_at sv md fmt (args_of ps)) w = Ok (tt, w') /\
    log_get_level w' = Ok (level, w') /\
    shows_screen w' (paint (default_color k) (show_text s (paint (severity_color sv) k))) /\
    u_sent (uart_of (term_hw (con_term w'))) = u_sent (uart_of (term_hw (con_term w))) ++ s /\
    kept putchar_var printf_area (con_memory w) (con_memory w').
Proof.
  intros Hk Hmd Hn Hl Hf Hps Hlen s.
  destruct (wp_run _ _ _ (log_at_spec sv md fmt ps (mk_con (con_term w) level) k Hk Hmd Hn Hl Hf Hps Hlen))
    as ([] & w' & Hw & Hg & Hrest). exists w'. split; [exact Hw|]. split; [|exact Hrest].
  unfold log_get_level, gets. by rewrite Hg.
Qed.

(** ** A layout for the instances

    Literals one after the other from 512, the variable of [putchar] at 100, the
    buffer of [printf] at 4096, and more memory. *)
Fixpoint place (a : Z) (ls : list string) : list (string * Z) :=
  match ls with [] => [] | s :: ls => (s, a) :: place (a + Z.of_nat (length (codes s)) + 1) ls end.

Definition placed (ls : list string) (s : string) : Z :=
  default 0 (snd <$> List.find (fun p => String.eqb p.1 s) (place 512 ls)).

Definition demo_layout (ls : list string) : Layout :=
  {| lit := placed ls; putchar_var := 100; printf_area := 4096 |}.

Definition area (a : Z) (l : list Z) : bytes := list_to_map (zip (seqZ a (Z.of_nat (length l))) l).

(** The part that an instance fills, apart from the screen and the buffer: what is
    in the whole memory is evaluated on it. *)
Definition demo_bytes (ls : list string) (more : bytes) : bytes :=
  area 100 [0] ∪ (area 512 (ls ≫= (fun s => codes s ++ [0])) ∪ more).

Definition demo_memory (ls : list string) (more : bytes) : bytes :=
  demo_bytes ls more ∪
    (list_to_map ((fun a => (a, 0)) <$> seqZ VGA_MEMORY 4000) ∪ list_to_map ((fun a => (a, 0)) <$> seqZ 4096 1024)).

Definition demo_start (ls : list string) (more : bytes) : terminal demo_hw :=
  mk_term (mk_demo (mk_crtc 0 ∅) (mk_uart 0 0 0 0 0 [])) 0 0 0 0 0 (demo_memory ls more).

Lemma demo_screen ls more : mapped (demo_memory ls more) VGA_MEMORY 4000.
Proof. apply mapped_union. right. apply mapped_union. left. apply (mapped_area []). Qed.

Lemma demo_buffer ls more : mapped (demo_memory ls more) 4096 1024.
Proof. do 2 (apply mapped_union; right). apply (mapped_area []). Qed.

Lemma demo_variable ls more : is_Some (demo_memory ls more !! 100).
Proof.
  assert (mapped (demo_memory ls more) 100 1) as Hm; [|exact (Hm 0 ltac:(lia))].
  do 2 (apply mapped_union; left). intros i Hi. replace i with 0 by lia. by eexists.
Qed.

Lemma demo_apart j : 0 <= j < 1024 -> off_screen (4096 + j) /\ 4096 + j <> 100.
Proof. unfold off_screen, VGA_MEMORY. lia. Qed.

Lemma demo_started ls more : exists t, kernel_early_init 0x200000 (demo_start ls more) = Ok (mk_gdtr 39 0x200000, t) /\
  can_print 100 4096 t boot_screen /\ same_elsewhere (demo_memory ls more) (memory t).
Proof.
  assert (off_screen 100) as Hoff by (unfold off_screen, VGA_MEMORY; lia).
  destruct (wp_run _ _ _ (kernel_early_init_spec 0x200000 100 (demo_start ls more)
    (demo_screen ls more) Hoff (demo_variable ls more))) as (r & t & Hr & -> & Hrd & _ & _ & Hs).
  exists t. split; [exact Hr|]. split; [|exact Hs]. split; [exact Hrd|]. split; [|split; [exact Hoff|exact demo_apart]].
  intros i Hi. rewrite Hs by apply (demo_apart i Hi). by apply demo_buffer.
Qed.

(** What is in the memory of an instance, by evaluation. *)
Definition hasb (m : bytes) (a : Z) (l : list Z) : bool :=
  forallb (fun p => bool_decide (m !! p.1 = Some p.2)) (zip (seqZ a (Z.of_nat (length l))) l).

Lemma hasb_has m a l : hasb m a l = true -> has m a l.
Proof.
  unfold hasb. rewrite List.forallb_forall. intros Hf i b Hi.
  assert ((a + Z.of_nat i, b) ∈ zip (seqZ a (Z.of_nat (length l))) l) as Hin.
  { apply list_elem_of_lookup. exists i. apply lookup_zip_Some. split; [|done]. apply lookup_seqZ.
    apply lookup_lt_Some in Hi. lia. }
  apply list_elem_of_In in Hin. apply Hf in Hin. by apply bool_decide_eq_true in Hin.
Qed.

(** An area below the buffer of [printf] or between it and the screen. *)
Definition demo_clear (a n : Z) : bool :=
  ((100 <? a) && (a + n <=? 4096)) || ((5120 <=? a) && (a + n <=? VGA_MEMORY)).

Lemma demo_clear_spec ls a n : demo_clear a n = true -> @clear (demo_layout ls) a n.
Proof. unfold demo_clear, clear, off_screen. cbn [putchar_var printf_area demo_layout]. intros H x Hx. unfold VGA_MEMORY in *. lia. Qed.

Definition literalb (ls : list string) (more : bytes) (s : string) : bool :=
  hasb (demo_bytes ls more) (placed ls s) (codes s ++ [0]) && demo_clear (placed ls s) (Z.of_nat (length (codes s)) + 1).

Lemma literalb_spec ls more s : literalb ls more s = true -> @literal (demo_layout ls) (demo_memory ls more) s.
Proof. intros [H1 H2]%andb_true_iff. split; [by apply has_union_l, hasb_has|by apply demo_clear_spec]. Qed.

(** From the start of an instance to a state after the initialisation. *)
Lemma literal_started {L : Layout} m m' s : same_elsewhere m m' -> literal m s -> literal m' s.
Proof.
  intros Hs [Hh Hc]. split; [|done]. eapply has_ext; [|exact Hh]. intros x Hx. apply Hs.
  rewrite length_app in Hx. cbn [length] in Hx. destruct (Hc x ltac:(lia)) as [Ho _]. exact Ho.
Qed.

Definition demo_log : list string := ["main"; "[%s] WARN: %d ticks" +:+ nl].

Lemma demo_log_literals s : s ∈ demo_log -> @literal (demo_layout demo_log) (demo_memory demo_log ∅) s.
Proof.
  intros Hs%list_elem_of_In. apply literalb_spec. revert s Hs. apply List.forallb_forall. by vm_compute.
Qed.

Lemma demo_log_args L m : Forall (@arg_ok L m) (Num no_field Dec 7 :: lits " ticks").
Proof. apply Forall_cons. split; [|by apply lits_ok]. repeat (constructor || split); cbn; lia || done. Qed.

(** "[main] WARN: 7 ticks" *)
Lemma log_messages_witness : exists t w', kernel_early_init 0x200000 (demo_start demo_log ∅) = Ok (mk_gdtr 39 0x200000, t) /\
  (log_set_level 1;; @warn _ _ (demo_layout demo_log) "main" "%d ticks" [7]) (mk_con t 2) = Ok (tt, w') /\
  u_sent (uart_of (term_hw (con_term w'))) = u_sent (uart_of (term_hw t)) ++ codes ("[main] WARN: 7 ticks" +:+ nl).
Proof.
  destruct (demo_started demo_log ∅) as (t & Ht & Hcan & Hs).
  destruct (log_messages (L := demo_layout demo_log) Warn "main" "%d ticks" (Num no_field Dec 7 :: lits " ticks") 1 (mk_con t 2) boot_screen)
    as (w' & Hw & _ & _ & Hsent & _).
  - exact Hcan.
  - eapply literal_started; [exact Hs|apply demo_log_literals; apply list_elem_of_here].
  - reflexivity.
  - eapply literal_started; [exact Hs|apply demo_log_literals; apply list_elem_of_further, list_elem_of_here].
  - reflexivity.
  - apply demo_log_args.
  - reflexivity.
  - exists t, w'. exact (conj Ht (conj Hw Hsent)).
Defined.
