(* ===== verification/Frames.v ===== *)
(** * The devices the console and the drivers share

    The console and the drivers run on one machine.  The ports of the console are
    neither those of the interrupt controllers nor those of the timer, and the
    drivers leave the video card and the serial controller alone: each part is
    framed from the other. *)
From S2P Require Import Prelude Libc Printf Io Keys World Irq Clock Isr Ps2driver Ps2ctrl Keyboard Descriptors Console Log.

(** What the two parts rely on together: reading the ports of the drivers and
    taking an interrupt leave the devices of the console alone. *)
Class SharedLaws (HW : Type) `{Hd : Hardware HW, !HardwareLaws HW, !ConsoleLaws HW} := {
  in_devices p h : p < 0x3c0 -> crtc_of (in_port p h).2 = crtc_of h /\ uart_of (in_port p h).2 = uart_of h;
  req_devices h : crtc_of (int_req h).2 = crtc_of h /\ uart_of (int_req h).2 = uart_of h;
}.

(** ** The console does not touch the interrupts *)

Section ConsoleFrame.
Context {HW : Type} `{HardwareLaws HW}.

Definition on_devices (t t' : terminal HW) : Prop := same_pics (term_hw t) (term_hw t').

#[export] Instance on_devices_preorder : PreOrder on_devices.
Proof. split; [by intros t|]. intros t1 t2 t3. unfold on_devices. by etrans. Qed.

Lemma frame_inb port : pres on_devices (term_inb port).
Proof.
  intros t a t'. unfold term_inb. destruct (in_port port (term_hw t)) as [v h] eqn:E. intros [= _ <-].
  unfold on_devices. cbn. pose proof (in_keeps port (term_hw t)) as Hk. by rewrite E in Hk.
Qed.

Lemma frame_outb port v : quiet_port port = true -> pres on_devices (term_outb port v).
Proof. intros Hp t a t' [= _ <-]. by apply quiet_out. Qed.

Lemma frame_memory f : pres on_devices (update_memory f).
Proof.
  intros t a t'. unfold update_memory. destruct (f (memory t)); [|done]. by intros [= _ <-].
Qed.

Lemma frame_modify (f : terminal HW -> terminal HW) : (forall t, term_hw (f t) = term_hw t) -> pres on_devices (modify f).
Proof. intros Hf. apply pres_modify. intros t. unfold on_devices. by rewrite Hf. Qed.

End ConsoleFrame.

#[export] Hint Resolve frame_inb frame_memory : pres.
#[export] Hint Extern 1 (pres on_devices (term_outb _ _)) => by apply frame_outb : pres.
#[export] Hint Extern 1 (pres on_devices (modify _)) => by apply frame_modify : pres.

Section Printing.
Context {HW : Type} `{HardwareLaws HW}.

Lemma frame_scroll_up : pres on_devices (scroll_up (HW := HW)).
Proof. unfold scroll_up. pres_steps. Qed.
Hint Resolve frame_scroll_up : pres.

Lemma frame_terminal_putchar depth c : pres on_devices (__terminal_putchar (HW := HW) depth c).
Proof.
  revert c. induction depth as [|depth IH]; intros c; [apply pres_err|]. cbn [__terminal_putchar].
  unfold terminal_putentryat. pres_steps.
Qed.
Hint Resolve frame_terminal_putchar : pres.

Lemma frame_update_cursor : pres on_devices (update_cursor (HW := HW)).
Proof. unfold update_cursor, vga_update_cursor. pres_steps. Qed.
Hint Resolve frame_update_cursor : pres.

Lemma frame_putchar c ic : pres on_devices (putchar (HW := HW) c ic).
Proof. unfold putchar, terminal_write, serial_write. pres_steps. Qed.
Hint Resolve frame_putchar : pres.

Lemma frame_kprintf c buf fmt args : pres on_devices (kprintf (HW := HW) c buf fmt args).
Proof. unfold kprintf, put_printf_buf. pres_steps. Qed.

Lemma frame_early_init gdt_addr : pres on_devices (kernel_early_init (HW := HW) gdt_addr).
Proof.
  unfold kernel_early_init, serial_init, serial_disable_irqs, serial_set_baud_rate, serial_set_protocol, serial_enable_fifo,
    serial_enable_irqs, terminal_initialize, terminal_setcolor, vga_enable_cursor. pres_steps.
Qed.

End Printing.

(** ** What the drivers do to the world

    The drivers change the world only by accesses to their ports, by taking
    interrupts and by assignments to their own variables.  A relation that these
    respect is respected by every function of the drivers. *)

Class DriverFrame {HW : Type} `{Hardware HW} (R : world HW -> world HW -> Prop) := {
  df_preorder :: PreOrder R;
  df_in port w : port < 0x3c0 -> R w (set_hw (in_port port (hw w)).2 w);
  df_out port v w : port < 0x3c0 -> R w (set_hw (out_port port v (hw w)) w);
  df_req w : R w (set_hw (int_req (hw w)).2 w);
  df_tick t w : - 2 ^ 31 <= t < 2 ^ 31 -> R w (set_tick t w);
  df_driver p d w : R w (set_driver p d w);
  df_ctrl c w : R w (set_ctrl c w);
  df_kbd c w : R w (set_kbd c w);
}.

Section DriverFrame.
Context {HW : Type} `{Hardware HW} (R : world HW -> world HW -> Prop) `{!DriverFrame R}.

Lemma off_inb port : port < 0x3c0 -> pres R (inb port).
Proof.
  intros Hp w a w'. unfold inb. pose proof (df_in port w Hp) as Hin.
  destruct (in_port port (hw w)) as [v h]. by intros [= _ <-].
Qed.

Lemma off_outb port v : port < 0x3c0 -> pres R (outb port v).
Proof. intros Hp w a w' [= _ <-]. by apply df_out. Qed.

Lemma off_get_driver p : pres R (get_driver p).
Proof. intros w a w'. unfold get_driver. destruct (driver_at w !! p); [by intros [= _ <-]|done]. Qed.

Lemma off_update_driver p f : pres R (update_driver p f).
Proof. unfold update_driver. refine (pres_bind _ _ _ (off_get_driver p) _). intros d. apply pres_modify. intros w. apply df_driver. Qed.

Lemma off_update_ctrl f : pres R (update_ctrl f).
Proof. intros w a w' [= _ <-]. apply df_ctrl. Qed.

Lemma off_update_kbd f : pres R (update_kbd f).
Proof. intros w a w' [= _ <-]. apply df_kbd. Qed.

Lemma off_slots {A S} (body : Z -> S -> world HW -> res (ctl A S)) s : pres R (slots_loop body s).
Proof. intros w a w'. unfold slots_loop. destruct (for_ctl _ _ _ _); [by intros [= _ <-]|done]. Qed.

Lemma off_tick t : - 2 ^ 31 <= t < 2 ^ 31 -> pres R (modify (set_tick t)).
Proof. intros Ht. apply pres_modify. intros w. by apply df_tick. Qed.

Lemma off_next_tick (f : world HW -> Z) : pres R (modify (fun w => set_tick (s32 (f w)) w)).
Proof. apply pres_modify. intros w. apply df_tick, s32_range. Qed.

End DriverFrame.

#[export] Hint Extern 1 (pres _ (get_driver _)) => refine (off_get_driver _ _) : pres.
#[export] Hint Extern 1 (pres _ (update_driver _ _)) => refine (off_update_driver _ _ _) : pres.
#[export] Hint Extern 1 (pres _ (update_ctrl _)) => refine (off_update_ctrl _ _) : pres.
#[export] Hint Extern 1 (pres _ (update_kbd _)) => refine (off_update_kbd _ _) : pres.
#[export] Hint Extern 1 (pres _ (slots_loop _ _)) => refine (off_slots _ _ _) : pres.
#[export] Hint Extern 1 (pres _ (inb _)) => by apply off_inb : pres.
#[export] Hint Extern 1 (pres _ (outb _ _)) => by apply off_outb : pres.
#[export] Hint Extern 1 (pres _ (modify (set_tick _))) => by apply off_tick : pres.
#[export] Hint Extern 1 (pres _ (modify (fun w => set_tick (s32 _) w))) => refine (off_next_tick _ _) : pres.

(** *** Interrupts and the clock *)

Section DriverFrames.
Context {HW : Type} `{Hardware HW} (R : world HW -> world HW -> Prop) `{!DriverFrame R}.
Notation M := (ST (world HW)).

Lemma off_irq_set_mask irq : pres R (irq_set_mask (HW := HW) irq).
Proof. unfold irq_set_mask, irq_port, io_wait. destruct (irq <? 8); pres_steps. Qed.
Lemma off_irq_clear_mask irq : pres R (irq_clear_mask (HW := HW) irq).
Proof. unfold irq_clear_mask, irq_port, io_wait. destruct (irq <? 8); pres_steps. Qed.
Lemma off_irq_send_eoi irq : pres R (irq_send_eoi (HW := HW) irq).
Proof. unfold irq_send_eoi. pres_steps. Qed.
Hint Resolve off_irq_set_mask off_irq_clear_mask off_irq_send_eoi : pres.

Lemma off_irq_init mo so : pres R (irq_init (HW := HW) mo so).
Proof. unfold irq_init, io_wait. pres_steps. Qed.
Lemma off_enable_nmi : pres R (enable_nmi (HW := HW)).
Proof. unfold enable_nmi. pres_steps. Qed.
Lemma off_clock_init freq : pres R (clock_init (HW := HW) freq).
Proof. unfold clock_init. pres_steps. Qed.

Lemma off_recv driver data : pres R (ps2driver_recv (HW := HW) driver data).
Proof. unfold ps2driver_recv. pres_steps. Qed.
Hint Resolve off_recv : pres.

Lemma off_dispatch port data : pres R (irq_dispatch (HW := HW) port data).
Proof. unfold irq_dispatch, call_recv, keyboard_recv. pres_steps. Qed.
Hint Resolve off_dispatch : pres.

Lemma off_isr n : pres R (isr_handler (HW := HW) n).
Proof.
  unfold isr_handler, divide_error_handler, invalid_opcode_handler, double_fault_handler, general_protection_fault_handler,
    user_defined_interrupt_handler, unhandled_exception, unhandled_interrupt, clock_irq_handler, ps2ctrl_irq1_handler,
    ps2ctrl_irq12_handler.
  pres_steps.
Qed.

Lemma off_interrupts : pres R (interrupts (HW := HW)).
Proof.
  intros w a w'. unfold interrupts. pose proof (df_req w) as Hr. destruct (int_req (hw w)) as [[v|] h].
  - intros E. etrans; [exact Hr|]. by eapply off_isr.
  - by intros [= _ <-].
Qed.
Hint Resolve off_interrupts : pres.

Lemma off_gettick : pres R (clock_gettick (W := world HW)).
Proof. unfold clock_gettick. cbn [poll world_clocked]. pres_steps. Qed.
Hint Resolve off_gettick : pres.
Lemma off_sleep msec : pres R (clock_sleep (W := world HW) msec).
Proof. unfold clock_sleep. pres_steps. Qed.
Lemma off_timeout_start t : pres R (timeout_start (W := world HW) t).
Proof. unfold timeout_start. pres_steps. Qed.
Lemma off_timeout_expired t : pres R (timeout_expired (W := world HW) t).
Proof. unfold timeout_expired. pres_steps. Qed.

End DriverFrames.

#[export] Hint Extern 1 (pres _ (irq_set_mask _)) => refine (off_irq_set_mask _ _) : pres.
#[export] Hint Extern 1 (pres _ (irq_clear_mask _)) => refine (off_irq_clear_mask _ _) : pres.
#[export] Hint Extern 1 (pres _ (interrupts)) => refine (off_interrupts _) : pres.
#[export] Hint Extern 1 (pres _ (clock_gettick)) => refine (off_gettick _) : pres.
#[export] Hint Extern 1 (pres _ (clock_sleep _)) => refine (off_sleep _ _) : pres.
#[export] Hint Extern 1 (pres _ (timeout_start _)) => refine (off_timeout_start _ _) : pres.
#[export] Hint Extern 1 (pres _ (timeout_expired _)) => refine (off_timeout_expired _ _) : pres.

(** *** The generic driver and the controller *)

Section ControllerFrames.
Context {HW : Type} `{Hardware HW} (R : world HW -> world HW -> Prop) `{!DriverFrame R}.
Notation M := (ST (world HW)).

Lemma off_lock driver : pres R (ps2driver_lock (HW := HW) driver).
Proof. unfold ps2driver_lock. pres_steps. Qed.
Lemma off_unlock driver : pres R (ps2driver_unlock (HW := HW) driver).
Proof. unfold ps2driver_unlock. pres_steps. Qed.
Hint Resolve off_lock off_unlock : pres.

Lemma off_flush driver : pres R (ps2driver_flush_recv_queue (HW := HW) driver).
Proof. unfold ps2driver_flush_recv_queue. pres_steps. Qed.
Lemma off_read driver timeout : pres R (ps2driver_read (HW := HW) driver timeout).
Proof. unfold ps2driver_read, wait_data, read_size, take_byte. pres_steps. Qed.

Lemma off_task_inb port : port < 0x3c0 -> pres R (task_inb (HW := HW) port).
Proof. intros Hp. unfold task_inb. pres_steps. Qed.
Lemma off_task_outb port v : port < 0x3c0 -> pres R (task_outb (HW := HW) port v).
Proof. intros Hp. unfold task_outb. pres_steps. Qed.
Hint Extern 1 (pres _ (task_inb _)) => by apply off_task_inb : pres.
Hint Extern 1 (pres _ (task_outb _ _)) => by apply off_task_outb : pres.

Lemma off_poll_status busy : pres R (poll_status (HW := HW) busy).
Proof. unfold poll_status. pres_steps. Qed.
Hint Resolve off_poll_status : pres.

Lemma off_send_cmd cmd data response : pres R (__send_ctrl_cmd (HW := HW) cmd data response).
Proof. unfold __send_ctrl_cmd, wait_ctrl_input_buffer_ready, wait_ctrl_output_buffer_ready. pres_steps. Qed.
Hint Resolve off_send_cmd : pres.

Lemma off_conf : pres R (set_controller_configuration_byte (HW := HW)).
Proof. unfold set_controller_configuration_byte, send_ctrl_cmd_with_response, send_ctrl_cmd_with_data. pres_steps. Qed.
Lemma off_first_interface : pres R (disable_first_interface (HW := HW)).
Proof. unfold disable_first_interface, send_ctrl_cmd. pres_steps. Qed.
Hint Resolve off_conf off_first_interface : pres.
Lemma off_recv_first : pres R (recv_byte_from_first_port_sync (HW := HW)).
Proof. unfold recv_byte_from_first_port_sync. pres_steps. Qed.
Lemma off_send_first data : pres R (send_byte_to_first_port (HW := HW) data).
Proof. unfold send_byte_to_first_port. pres_steps. Qed.
Hint Resolve off_recv_first off_send_first : pres.

Lemma off_ps2ctrl_init uninit : pres R (ps2ctrl_init (HW := HW) uninit).
Proof.
  unfold ps2ctrl_init, disable_usb_legacy_support, ps2ctrl_exists, disable_devices, flush_controller_output_buffer,
    check_controller_selt_test, has_two_channels, check_interface_test, check_single_interface_test, enable_devices,
    disable_second_interface, reset_devices, reset_attempt, send_ctrl_cmd, send_ctrl_cmd_with_response, send_ctrl_cmd_with_data,
    NOT_IMPLEMENTED.
  pres_steps.
Qed.

Lemma off_register : pres R (keyboard_init (HW := HW)).
Proof. unfold keyboard_init, ps2ctrl_register_driver, is_registered, free_slot. pres_steps. Qed.

Lemma off_identify : pres R (ps2ctrl_identify_devices (HW := HW)).
Proof.
  unfold ps2ctrl_identify_devices, send_and_ack, recv_identity, device_type_from_id_bytes, find_driver, install_driver,
    NOT_IMPLEMENTED.
  pres_steps.
Qed.

Lemma off_send_data data timeout : pres R (ps2ctrl_send_data (HW := HW) data timeout).
Proof. unfold ps2ctrl_send_data. pres_steps. Qed.

End ControllerFrames.

#[export] Hint Extern 1 (pres _ (ps2driver_flush_recv_queue _)) => refine (off_flush _ _) : pres.
#[export] Hint Extern 1 (pres _ (ps2driver_read _ _)) => refine (off_read _ _ _) : pres.
#[export] Hint Extern 1 (pres _ (ps2ctrl_send_data _ _)) => refine (off_send_data _ _ _) : pres.
#[export] Hint Extern 1 (pres _ (__send_ctrl_cmd _ _ _)) => refine (off_send_cmd _ _ _ _) : pres.

(** *** The keyboard *)

Section KeyboardFrames.
Context {HW : Type} `{Hardware HW} (R : world HW -> world HW -> Prop) `{!DriverFrame R}.

Lemma off_send_and_recv data : pres R (keyboard_send_and_recv (HW := HW) data).
Proof.
  unfold keyboard_send_and_recv, call_send, ps2ctrl_send_data_first_port, ps2ctrl_send_data_second_port, send_ctrl_cmd.
  pres_steps.
Qed.
Hint Resolve off_send_and_recv : pres.

Lemma off_command data : pres R (keyboard_send (HW := HW) data).
Proof. unfold keyboard_send, send_expecting. pres_steps. Qed.
Hint Resolve off_command : pres.

Lemma off_keyboard_start irq : pres R (keyboard_start (HW := HW) irq).
Proof.
  unfold keyboard_start, keyboard_set_led, keyboard_get_scan_code_set, keyboard_set_scan_code_set, keyboard_enable_scanning,
    simple_command, NOT_IMPLEMENTED.
  pres_steps.
Qed.
Hint Resolve off_keyboard_start : pres.

Lemma off_start_drivers : pres R (ps2ctrl_start_drivers (HW := HW)).
Proof. unfold ps2ctrl_start_drivers, start_port, call_start. pres_steps. Qed.

Lemma off_keyboard_task : pres R (keyboard_task (HW := HW)).
Proof.
  unfold keyboard_task, keyboard_state_reset, keyboard_state_wait_scan, keyboard_state_read_more, keyboard_state_translate.
  pres_steps.
Qed.
Hint Resolve off_keyboard_task : pres.

Lemma off_round : pres R (kernel_main_loop_round (HW := HW)).
Proof. unfold kernel_main_loop_round, sched_run_task. pres_steps. Qed.

End KeyboardFrames.

(** ** The drivers do not touch the console *)

Section Console.
Context {HW : Type} `{SharedLaws HW}.

(** The video card and the serial controller are the same. *)
Definition same_console (h h' : HW) : Prop := crtc_of h' = crtc_of h /\ uart_of h' = uart_of h.
Definition off_console (w w' : world HW) : Prop := same_console (hw w) (hw w').

#[export] Instance off_console_preorder : PreOrder off_console.
Proof. split; [by intros w|]. intros w1 w2 w3 [E1 E2] [E3 E4]. split; congruence. Qed.

#[export] Instance off_console_frame : DriverFrame off_console.
Proof.
  split; try done.
  - apply off_console_preorder.
  - intros port w Hp. by apply in_devices.
  - intros port v w Hp. split; cbn [hw set_hw]; rewrite ?out_crtc, ?out_uart; unfold crtc_out, uart_out;
      repeat match goal with |- context [port =? ?n] => destruct (Z.eqb_spec port n); [lia|] end; done.
  - intros w. apply req_devices.
Qed.

End Console.
