(* ===== verification/Symbols.v ===== *)
(** * Kernel symbols (symbol.c)

    The parser of the symbol map, which cuts the lines of the file in place and
    restores them, and the searches in the table that it fills.  The table is
    memory given by the allocator, through an interface that [kmalloc]
    implements.  The messages that [symbol_find] and [symbol_lookup] log are in
    [Panic], where the memory is that of the console too; those of [symbol_init] are
    not modelled. *)
From S2P Require Import Prelude Libc Kmalloc.

(** ** The interface of the allocator *)

Class HeapOps (K : Type) := {
  heap_alloc : Z -> K -> res (Z * K);
  heap_free : Z -> K -> res K;
}.

(** The fine-grained allocator, with the addresses of its two list heads. *)
Definition kmalloc_heap {P} `{PageOps P} (aha_block_list aha_big_list : Z) : HeapOps (km P) := {|
  heap_alloc := kmalloc aha_block_list aha_big_list;
  heap_free := kfree aha_block_list aha_big_list |}.

(** ** The data *)

Definition SYMBOL_MAX_LEN : Z := 96.

(** Offsets in [struct symbol] on i386, and its size. *)
Definition offsetof_len : Z := 4.
Definition offsetof_name : Z := 8.
Definition sizeof_symbol : Z := 104.

(** ** The parser *)

(** [line] is the address of the rest of the line; the next rest, or None when the
    function returns false. *)
Definition parse_name (line sym : Z) (m : bytes) : res (option Z * bytes) :=
  sep ← strchr m line 32;
  if sep =? 0 then mret (None, m)
  else
    m ← wr sep 0 m;
    name_len ← strlen m line;
    if (name_len =? 0) || (SYMBOL_MAX_LEN <=? name_len) then
      m ← wr sep 32 m; mret (None, m)
    else
      m ← strncpy (sym + offsetof_name) line (SYMBOL_MAX_LEN - 1) m;
      m ← wr (sym + offsetof_name + (SYMBOL_MAX_LEN - 1)) 0 m;
      m ← wr sep 32 m;
      mret (Some (sep + 1), m).

Definition skip_type (line : Z) (m : bytes) : res (option Z) :=
  sep ← strchr m line 32;
  if sep =? 0 then mret None else mret (Some (sep + 1)).

Definition parse_addr (line sym : Z) (m : bytes) : res (option Z * bytes) :=
  sep ← strchr m line 32;
  if sep =? 0 then mret (None, m)
  else
    m ← wr sep 0 m;
    n ← strlen m line;
    if 2 * 4 <? n then m ← wr sep 32 m; mret (None, m)
    else
      a ← atoh m line;
      m ← wr32 sym a m;
      m ← wr sep 32 m;
      mret (Some (sep + 1), m).

Definition parse_len (line sym : Z) (m : bytes) : res (bool * bytes) :=
  c ← rd m line;
  if c =? 0 then m ← wr32 (sym + offsetof_len) 0 m; mret (true, m)
  else
    n ← strlen m line;
    if 2 * 4 <? n then mret (false, m)
    else
      l ← atoh m line;
      m ← wr32 (sym + offsetof_len) l m;
      mret (true, m).

Definition parse_line (line sym : Z) (m : bytes) : res (bool * bytes) :=
  c ← (if line =? 0 then mret 0 else rd m line);
  if (line =? 0) || (c =? 0) || (sym =? 0) then mret (false, m)
  else
    '(r, m) ← parse_name line sym m;
    match r with None => mret (false, m) | Some line =>
    r ← skip_type line m;
    match r with None => mret (false, m) | Some line =>
    '(r, m) ← parse_addr line sym m;
    match r with None => mret (false, m) | Some line => parse_len line sym m
    end end end.

(** The loop of [parse_symbol_map] leaves with the number of symbols, or with
    None when a line is wrong. *)
Definition parse_round (symbol_map_end symbols : Z) (s : Z * Z * Z * bytes)
  : res (ctl (option Z * bytes) (Z * Z * Z * bytes)) :=
  let '(ptr, sym_index, last, m) := s in
  let sym := symbols + sizeof_symbol * sym_index in
  eol ← strchr m ptr 10;
  if (eol =? 0) && (u32 (symbol_map_end - ptr) =? 0) then mret (Leave (Some sym_index, m))
  else
    m ← wr eol 0 m;
    '(ret, m) ← parse_line ptr sym m;
    m ← wr eol 10 m;
    if negb ret then mret (Leave (None, m))
    else
      m ← (if last =? 0 then mret m
           else a ← rd32 m sym; b ← rd32 m last; wr32 (last + offsetof_len) (a ⊖ b) m);
      let ptr := eol + 1 in
      let sym_index := sym_index ⊕ 1 in
      if ptr <? symbol_map_end then mret (Next (ptr, sym_index, sym, m))
      else mret (Leave (Some sym_index, m)).

Definition parse_symbol_map (symbol_map_start symbol_map_end nb_syms symbols : Z) (m : bytes) : res (bool * bytes) :=
  if (symbol_map_start =? symbol_map_end) || (nb_syms =? 0) then mret (false, m)
  else
    '(r, m) ← loop_ctl (walk_fuel m) (parse_round symbol_map_end symbols) (symbol_map_start, 0, 0, m);
    match r with None => mret (false, m) | Some n => mret (n =? nb_syms, m) end.

(** The first walk of [symbol_init]: the number of lines, or None without a last
    line feed. *)
Definition count_lines (symbol_map_start symbol_map_end : Z) (m : bytes) : res (option Z) :=
  loop_ctl (walk_fuel m) (fun '(ptr, n) =>
    eol ← strchr m ptr 10;
    if (eol =? 0) && (0 <? u32 (symbol_map_end - ptr)) then mret (Leave None)
    else
      let n := n ⊕ 1 in
      let ptr := eol + 1 in
      if ptr <? symbol_map_end then mret (Next (ptr, n)) else mret (Leave (Some n)))
    (symbol_map_start, 0).

(** [sym_map], the memory and the allocator. *)
Record sym_state (K : Type) := mk_sym { mem : bytes; heap : K; nb_syms : Z; symbols : Z }.
Arguments mk_sym {K}.
Arguments mem {K}.
Arguments heap {K}.
Arguments nb_syms {K}.
Arguments symbols {K}.

Section Symbol.
Context {K : Type} `{HeapOps K}.

Definition symbol_init (symbol_map_start symbol_map_len : Z) (st : sym_state K) : res (bool * sym_state K) :=
  let symbol_map_end := symbol_map_start ⊕ symbol_map_len in
  if (symbol_map_start =? 0) || (symbol_map_len =? 0) then mret (false, st)
  else
    n ← count_lines symbol_map_start symbol_map_end (mem st);
    match n with
    | None => mret (false, mk_sym (mem st) (heap st) 0 (symbols st))
    | Some n =>
        '(p, h) ← heap_alloc (n ⊗ sizeof_symbol) (heap st);
        if p =? 0 then Err (Panic "not implemented")
        else
          '(ok, m) ← parse_symbol_map symbol_map_start symbol_map_end n p (mem st);
          if negb ok then h ← heap_free p h; mret (false, mk_sym m h 0 p)
          else mret (true, mk_sym m h n p)
    end.

(** The loop of [symbol_find]: the last symbol before the first one above. *)
Definition find_round (symbols addr : Z) (m : bytes) (i last : Z) : res (ctl Z Z) :=
  let sym := symbols + sizeof_symbol * i in
  a ← rd32 m sym;
  if addr <? a then mret (Leave last) else mret (Next sym).

(** The function but for what it logs, which [Panic.find_symbol] adds. *)
Definition symbol_find (addr sym : Z) (st : sym_state K) : res (bool * sym_state K) :=
  if (addr =? 0) || (sym =? 0) then mret (false, st)
  else if nb_syms st =? 0 then mret (false, st)
  else
    c ← for_ctl (Z.to_nat (nb_syms st)) 0 (find_round (symbols st) addr (mem st)) 0;
    let last_sym := match c with Leave l => l | Next l => l end in
    if last_sym =? 0 then mret (false, st)
    else
      len ← rd32 (mem st) (last_sym + offsetof_len);
      a ← rd32 (mem st) last_sym;
      if (0 <? len) && ((addr <? a) || (a ⊕ len <=? addr)) then mret (false, st)
      else
        m ← memcpy sym last_sym sizeof_symbol (mem st);
        mret (true, mk_sym m (heap st) (nb_syms st) (symbols st)).

Definition lookup_round (symbols name : Z) (m : bytes) (i : Z) (_ : unit) : res (ctl Z unit) :=
  let cur_sym := symbols + sizeof_symbol * i in
  d ← strcmp m name (cur_sym + offsetof_name);
  if d =? 0 then mret (Leave cur_sym) else mret (Next tt).

(** The function but for what it logs, which [Panic.lookup_symbol] adds. *)
Definition symbol_lookup (name sym : Z) (st : sym_state K) : res (bool * sym_state K) :=
  c ← (if name =? 0 then mret 0 else rd (mem st) name);
  if (name =? 0) || (c =? 0) || (sym =? 0) then mret (false, st)
  else if nb_syms st =? 0 then mret (false, st)
  else
    r ← for_ctl (Z.to_nat (nb_syms st)) 0 (lookup_round (symbols st) name (mem st)) tt;
    match r with
    | Leave cur_sym =>
        m ← memcpy sym cur_sym sizeof_symbol (mem st);
        mret (true, mk_sym m (heap st) (nb_syms st) (symbols st))
    | Next _ => mret (false, st)
    end.

End Symbol.
