(* ===== verification/SymbolSpec.v ===== *)
(** * Kernel symbols: specification *)
From S2P Require Import Prelude Libc Kmalloc Symbols.

(** ** Strings in memory *)

(** Cutting a string with a zero, and what is left of it after a prefix. *)
Lemma cstr_cut m a s c t : cstr m a (s ++ c :: t) -> cstr (<[a + Z.of_nat (length s) := 0]> m) a s.
Proof.
  intros [Hh Hf]. split; [|by apply Forall_app in Hf as [? _]]. apply has_app. split.
  - rewrite <- app_assoc in Hh. apply has_app in Hh as [Hs _]. eapply has_ext; [|exact Hs].
    intros x Hx. apply lookup_insert_ne. lia.
  - apply has_cons. split; [apply lookup_insert_eq|]. by intros i b Hi.
Qed.

Lemma cstr_drop m a s c t : cstr m a (s ++ c :: t) -> cstr m (a + Z.of_nat (length s) + 1) t.
Proof.
  intros [Hh Hf]. split.
  - rewrite <- app_assoc in Hh. apply has_app in Hh as [_ Hh]. by apply has_cons in Hh as [_ Hh].
  - apply Forall_app in Hf as [_ Hf]. by apply Forall_cons in Hf as [_ Hf].
Qed.

Lemma cstr_sep m a s c t : cstr m a (s ++ c :: t) -> m !! (a + Z.of_nat (length s)) = Some c.
Proof. intros Hc. apply (cstr_char m a _ (length s) c) in Hc; [apply Hc|]. by apply list_lookup_middle. Qed.

Definition plain (c : Z) (s : list Z) : Prop := Forall (fun b => b <> c) s.

Lemma strchr_sep m a s c t : cstr m a (s ++ c :: t) -> plain c s -> 0 < a -> strchr m a c = Ok (a + Z.of_nat (length s)).
Proof.
  intros Hc Hp Ha. destruct (cstr_char m a _ (length s) c Hc) as [_ Hr]; [by apply list_lookup_middle|].
  rewrite (strchr_spec m a (s ++ c :: t)) by (done || lia).
  rewrite list_find_app_r by (apply list_find_None; exact Hp). cbn [list_find].
  rewrite decide_True by done. done.
Qed.

(** The same without the end of the string. *)
Lemma strchr_found m a s c : has m a (s ++ [c]) -> Forall (fun b => 0 < b < 256) s -> plain c s -> 0 < c < 256 ->
  strchr m a c = Ok (a + Z.of_nat (length s)).
Proof.
  intros Hh Hf Hp Hc. unfold strchr. assert (length s < walk_fuel m)%nat as Hfuel.
  { apply has_size in Hh. rewrite length_app in Hh. cbn in Hh. unfold walk_fuel. lia. }
  revert a Hh Hfuel. generalize (walk_fuel m) as fuel. induction s as [|b s IH]; intros fuel a Hh Hfuel;
    (destruct fuel as [|fuel]; [lia|]); rewrite loop_ctl_S; cbn [app length] in *; apply has_cons in Hh as [Hb Hh];
    rewrite (rd_Ok _ _ _ Hb); cbn [mbind res_bind].
  - rewrite (proj2 (Z.eqb_neq c 0)), Z.eqb_refl by lia. cbn. f_equal. lia.
  - inversion_clear Hf as [|? ? Hb0 Hf']. inversion_clear Hp as [|? ? Hne Hp'].
    rewrite (proj2 (Z.eqb_neq b 0)) by lia.
    rewrite (proj2 (Z.eqb_neq (s8 b) (s8 c))) by (intros Heq; by apply s8_inj in Heq; lia).
    cbn [mbind res_bind mret res_ret]. rewrite IH by (done || lia). f_equal. lia.
Qed.

(** ** The lines of the file *)

(** The four fields of a line. *)
Record entry := mk_entry { e_name : list Z; e_type : list Z; e_addr : list Z; e_len : list Z }.

Definition line_of (e : entry) : list Z := e_name e ++ 32 :: e_type e ++ 32 :: e_addr e ++ 32 :: e_len e.

(** A character of a field: neither zero, nor a space, nor a line feed. *)
Definition field_char (b : Z) : Prop := 0 < b < 256 /\ b <> 32 /\ b <> 10.

Definition wf_entry (e : entry) : Prop :=
  Forall field_char (e_name e) /\ (0 < length (e_name e) < 96)%nat /\ Forall field_char (e_type e) /\
  is_Some (hex_value 0 (e_addr e)) /\ (length (e_addr e) <= 8)%nat /\
  is_Some (hex_value 0 (e_len e)) /\ (length (e_len e) <= 8)%nat.

(** The value of a hexadecimal field, 0 for an empty one. *)
Definition hex (s : list Z) : Z := u32 (default 0 (hex_value 0 s)).

(** What the table holds for a symbol. *)
Record symbol := mk_symbol { s_addr : Z; s_len : Z; s_name : list Z }.

Definition symbol_at (m : bytes) (p : Z) (s : symbol) : Prop :=
  rd32 m p = Ok (s_addr s) /\ rd32 m (p + 4) = Ok (s_len s) /\ cstr m (p + 8) (s_name s) /\
  (length (s_name s) < 96)%nat.

Lemma symbol_at_ext m m' p s : (forall x, p <= x < p + 104 -> m' !! x = m !! x) -> symbol_at m p s -> symbol_at m' p s.
Proof.
  intros He (Ha & Hl & Hn & Hlen). split_and!; [| | | done].
  - by rewrite (rd32_ext m m') by (intros; apply He; lia).
  - by rewrite (rd32_ext m m') by (intros; apply He; lia).
  - eapply cstr_ext; [|done]. intros x Hx. apply He. lia.
Qed.

Lemma hex_digit_char b d : hex_digit b = Some d -> 48 <= b < 103.
Proof. unfold hex_digit. repeat case_match; naive_solver lia. Qed.

Lemma hex_chars s v x : hex_value v s = Some x -> Forall field_char s.
Proof.
  revert v. induction s as [|b s IH]; intros v Hs; [done|]. cbn in Hs.
  destruct (hex_digit b) as [d|] eqn:Hd; [|done]. apply hex_digit_char in Hd.
  constructor; [unfold field_char; lia | by eapply IH].
Qed.

Lemma field_plain c s : c = 32 \/ c = 10 -> Forall field_char s -> plain c s.
Proof. intros Hc Hf. eapply Forall_impl; [exact Hf|]. unfold field_char. intros b Hb. lia. Qed.

(** ** The fields, one at a time *)

Lemma parse_name_spec line sym m name rest :
  cstr m line (name ++ 32 :: rest) -> Forall field_char name -> (0 < length name < 96)%nat -> 0 < line ->
  mapped m sym 104 ->
  (forall x, line <= x <= line + Z.of_nat (length (name ++ 32 :: rest)) -> ~ sym <= x < sym + 104) ->
  exists m', parse_name line sym m = Ok (Some (line + Z.of_nat (length name) + 1), m') /\
    cstr m' (sym + 8) name /\ same_outside m m' (sym + 8) 96 /\ mapped m' sym 104.
Proof.
  intros Hc Hf Hlen Hpos Hsym Hapart. unfold parse_name.
  rewrite (strchr_sep _ _ _ _ _ Hc) by (done || by apply field_plain; [left|]). cbn [mbind res_bind].
  rewrite (proj2 (Z.eqb_neq _ 0)) by lia. set (sep := line + Z.of_nat (length name)).
  pose proof (cstr_sep _ _ _ _ _ Hc) as Hsep. rewrite length_app in Hapart. cbn [length] in Hapart.
  rewrite wr_Ok by (eexists; exact Hsep). cbn [mbind res_bind].
  pose proof (cstr_cut _ _ _ _ _ Hc) as Hcut. fold sep in Hcut, Hsep. set (m1 := <[sep := 0]> m) in *.
  rewrite (strlen_spec _ _ _ Hcut). cbn [mbind res_bind].
  rewrite (proj2 (Z.eqb_neq _ 0)) by lia. unfold SYMBOL_MAX_LEN. rewrite (proj2 (Z.leb_gt _ _)) by lia. cbn [orb].
  assert (mapped m1 sym 104) as Hsym1.
  { intros i Hi. unfold m1. rewrite lookup_insert_ne; [by apply Hsym|]. intros Heq. apply (Hapart sep); lia. }
  destruct (strncpy_spec m1 (sym + offsetof_name) line name (96 - 1) Hcut) as (m2 & Hm2 & Hpad & Hs2); [|lia|..].
  { intros i Hi. unfold offsetof_name. rewrite <- Z.add_assoc. apply Hsym1. lia. }
  { unfold offsetof_name. destruct (decide (sym <= line)); [left|right].
    - destruct (decide (sym + 8 + 95 <= line)); [done|]. exfalso. apply (Hapart line); lia.
    - destruct (decide (line + Z.of_nat (length name) < sym + 8)); [done|]. exfalso. apply (Hapart sym); lia. }
  rewrite Hm2. cbn [mbind res_bind]. unfold offsetof_name in *.
  assert (mapped m2 sym 104) as Hsym2.
  { eapply (mapped_outside m1 m2 sym 104 (sym + 8) 95); [done | | done |].
    - intros i Hi. rewrite <- Z.add_assoc. apply Hsym1. lia.
    - intros i Hi. rewrite Hpad by lia. by eexists. }
  rewrite wr_Ok by (rewrite <- Z.add_assoc; apply Hsym2; lia). cbn [mbind res_bind].
  set (m3 := <[sym + 8 + (96 - 1) := 0]> m2).
  assert (is_Some (m3 !! sep)) as Hsep3.
  { unfold m3. rewrite lookup_insert_is_Some'. right. rewrite Hs2 by (intros ?; apply (Hapart sep); lia).
    unfold m1. rewrite lookup_insert_eq. by eexists. }
  rewrite wr_Ok by done. cbn [mbind res_bind mret res_ret]. eexists. split; [done|].
  assert (forall x, sym <= x < sym + 104 -> <[sep := 32]> m3 !! x = m3 !! x) as Hin.
  { intros x Hx. apply lookup_insert_ne. intros Heq. apply (Hapart sep); lia. }
  split_and!.
  - split; [|eapply Forall_impl; [exact Hf|]; unfold field_char; tauto].
    intros i b Hi. pose proof (lookup_lt_Some _ _ _ Hi) as Hil. rewrite length_app in Hil. cbn in Hil.
    rewrite Hin by lia. unfold m3. destruct (decide (i = 95%nat)) as [->|].
    + rewrite lookup_app_r in Hi by lia. replace (95 - length name)%nat with 0%nat in Hi by lia.
      injection Hi as <-. apply lookup_insert_eq.
    + rewrite lookup_insert_ne by lia. rewrite Hpad by lia. f_equal. unfold padded. rewrite Nat2Z.id.
      apply lookup_app_Some in Hi as [Hi|[Hge Hi]]; [by rewrite Hi|].
      rewrite lookup_ge_None_2 by lia. apply list_lookup_singleton_Some in Hi as [_ <-]. done.
  - intros x Hx. destruct (decide (x = sep)) as [->|Hne]; [by rewrite lookup_insert_eq|].
    rewrite lookup_insert_ne by done. unfold m3. rewrite lookup_insert_ne by lia. rewrite Hs2 by lia.
    unfold m1. by rewrite lookup_insert_ne.
  - intros i Hi. rewrite Hin by lia. unfold m3. rewrite lookup_insert_is_Some'. right. by apply Hsym2.
Qed.

Lemma skip_type_spec line m type rest : cstr m line (type ++ 32 :: rest) -> Forall field_char type -> 0 < line ->
  skip_type line m = Ok (Some (line + Z.of_nat (length type) + 1)).
Proof.
  intros Hc Hf Hpos. unfold skip_type.
  rewrite (strchr_sep _ _ _ _ _ Hc) by (done || by apply field_plain; [left|]). cbn [mbind res_bind].
  by rewrite (proj2 (Z.eqb_neq _ 0)) by lia.
Qed.

Lemma hex_atoh m a s : cstr m a s -> is_Some (hex_value 0 s) -> atoh m a = Ok (hex s).
Proof. intros Hc [v Hv]. rewrite (atoh_spec _ _ _ Hc), Hv. unfold hex. by rewrite Hv. Qed.

Lemma parse_addr_spec line sym m ad rest :
  cstr m line (ad ++ 32 :: rest) -> is_Some (hex_value 0 ad) -> (length ad <= 8)%nat -> 0 < line ->
  mapped m sym 104 ->
  (forall x, line <= x <= line + Z.of_nat (length (ad ++ 32 :: rest)) -> ~ sym <= x < sym + 104) ->
  exists m', parse_addr line sym m = Ok (Some (line + Z.of_nat (length ad) + 1), m') /\
    rd32 m' sym = Ok (hex ad) /\ same_outside m m' sym 4 /\ mapped m' sym 104.
Proof.
  intros Hc Hv Hlen Hpos Hsym Hapart. unfold parse_addr. destruct (Hv) as [v Hv'].
  rewrite (strchr_sep _ _ _ _ _ Hc) by (done || by apply field_plain, (hex_chars _ _ _ Hv'); left).
  cbn [mbind res_bind]. rewrite (proj2 (Z.eqb_neq _ 0)) by lia. set (sep := line + Z.of_nat (length ad)).
  pose proof (cstr_sep _ _ _ _ _ Hc) as Hsep. rewrite length_app in Hapart. cbn [length] in Hapart.
  rewrite wr_Ok by (eexists; exact Hsep). cbn [mbind res_bind].
  pose proof (cstr_cut _ _ _ _ _ Hc) as Hcut. fold sep in Hcut, Hsep. set (m1 := <[sep := 0]> m) in *.
  rewrite (strlen_spec _ _ _ Hcut). cbn [mbind res_bind]. rewrite (proj2 (Z.ltb_ge _ _)) by lia.
  rewrite (hex_atoh _ _ _ Hcut Hv). cbn [mbind res_bind].
  assert (forall x, sym <= x < sym + 104 -> x <> sep) as Hne by (intros x Hx Heq; apply (Hapart sep); lia).
  assert (mapped m1 sym 104) as Hsym1.
  { intros i Hi. unfold m1. rewrite lookup_insert_ne; [by apply Hsym|]. apply not_eq_sym, Hne. lia. }
  destruct (wr32_spec sym (hex ad) m1) as (m2 & Hm2 & Hrd & Hs2 & Hdom).
  { intros i Hi. apply Hsym1. lia. } { apply Z.mod_pos_bound. lia. }
  rewrite Hm2. cbn [mbind res_bind].
  rewrite wr_Ok by (apply Hdom; unfold m1; rewrite lookup_insert_eq; by eexists).
  cbn [mbind res_bind mret res_ret]. eexists. split; [done|]. split_and!.
  - rewrite (rd32_ext m2); [done|]. intros x Hx. apply lookup_insert_ne, not_eq_sym, Hne. lia.
  - intros x Hx. destruct (decide (x = sep)) as [->|]; [by rewrite lookup_insert_eq|].
    rewrite lookup_insert_ne by done. rewrite Hs2 by done. unfold m1. by rewrite lookup_insert_ne.
  - intros i Hi. rewrite lookup_insert_is_Some'. right. by apply Hdom, Hsym1.
Qed.

Lemma parse_len_spec line sym m ln :
  cstr m line ln -> is_Some (hex_value 0 ln) -> (length ln <= 8)%nat -> mapped m sym 104 ->
  exists m', parse_len line sym m = Ok (true, m') /\ rd32 m' (sym + 4) = Ok (hex ln) /\
    same_outside m m' (sym + 4) 4 /\ mapped m' sym 104.
Proof.
  intros Hc Hv Hlen Hsym. unfold parse_len, offsetof_len.
  destruct (wr32_spec (sym + 4) (hex ln) m) as (m2 & Hm2 & Hrd & Hs2 & Hdom).
  { intros i Hi. rewrite <- Z.add_assoc. apply Hsym. lia. } { apply Z.mod_pos_bound. lia. }
  assert (mapped m2 sym 104) as Hsym2 by (intros i Hi; by apply Hdom, Hsym).
  destruct ln as [|b ln].
  - pose proof (cstr_end _ _ _ Hc) as He. rewrite Z.add_0_r in He. rewrite (rd_Ok _ _ _ He). cbn [mbind res_bind Z.eqb].
    change (wr32 (sym + 4) 0 m) with (wr32 (sym + 4) (hex []) m). rewrite Hm2. cbn [mbind res_bind mret res_ret]. by exists m2.
  - destruct (cstr_char m line (b :: ln) 0 b Hc eq_refl) as [Hb Hr]. rewrite Z.add_0_r in Hb.
    rewrite (rd_Ok _ _ _ Hb). cbn [mbind res_bind]. rewrite (proj2 (Z.eqb_neq b 0)) by lia.
    rewrite (strlen_spec _ _ _ Hc). cbn [mbind res_bind]. rewrite (proj2 (Z.ltb_ge _ _)) by lia.
    rewrite (hex_atoh _ _ _ Hc Hv). cbn [mbind res_bind]. rewrite Hm2. cbn [mbind res_bind mret res_ret]. by exists m2.
Qed.

Lemma parse_line_spec line sym m e :
  cstr m line (line_of e) -> wf_entry e -> 0 < line -> 0 < sym -> mapped m sym 104 ->
  (forall x, line <= x <= line + Z.of_nat (length (line_of e)) -> ~ sym <= x < sym + 104) ->
  exists m', parse_line line sym m = Ok (true, m') /\
    symbol_at m' sym (mk_symbol (hex (e_addr e)) (hex (e_len e)) (e_name e)) /\
    same_outside m m' sym 104 /\ mapped m' sym 104.
Proof.
  intros Hc (Hname & Hnl & Htype & Haddr & Hal & Hlen & Hll) Hpos Hspos Hsym Hapart. unfold parse_line.
  assert (exists b, m !! line = Some b /\ 0 < b < 256) as (b & Hb & Hbr).
  { destruct (cstr_char m line (line_of e) 0 (default 0 (line_of e !! 0%nat)) Hc) as [H0 H1].
    - unfold line_of. by destruct (e_name e).
    - rewrite Z.add_0_r in H0. by eexists. }
  rewrite (proj2 (Z.eqb_neq line 0)), (proj2 (Z.eqb_neq sym 0)) by lia. rewrite (rd_Ok _ _ _ Hb). cbn [mbind res_bind].
  rewrite (proj2 (Z.eqb_neq b 0)) by lia. cbn [orb]. unfold line_of in Hc, Hapart.
  destruct (parse_name_spec _ _ _ _ _ Hc Hname Hnl Hpos Hsym Hapart) as (m1 & -> & Hn1 & Hs1 & Hsym1).
  cbn [mbind res_bind]. rewrite length_app in Hapart. cbn [length] in Hapart.
  set (line1 := line + Z.of_nat (length (e_name e)) + 1).
  assert (cstr m1 line1 (e_type e ++ 32 :: e_addr e ++ 32 :: e_len e)) as Hc1.
  { eapply cstr_ext; [|exact (cstr_drop _ _ _ _ _ Hc)]. intros x Hx. apply Hs1.
    intros Hx'. apply (Hapart x); [|lia]. unfold line1 in *. lia. }
  rewrite (skip_type_spec _ _ _ _ Hc1 Htype) by lia. cbn [mbind res_bind].
  set (line2 := line1 + Z.of_nat (length (e_type e)) + 1).
  pose proof (cstr_drop _ _ _ _ _ Hc1) as Hc2. fold line2 in Hc2. rewrite length_app in Hapart. cbn [length] in Hapart.
  destruct (parse_addr_spec _ sym _ _ _ Hc2 Haddr Hal) as (m2 & -> & Ha2 & Hs2 & Hsym2); [lia|done| |].
  { intros x Hx. apply Hapart. lia. }
  cbn [mbind res_bind]. rewrite length_app in Hapart. cbn [length] in Hapart.
  set (line3 := line2 + Z.of_nat (length (e_addr e)) + 1).
  assert (cstr m2 line3 (e_len e)) as Hc3.
  { eapply cstr_ext; [|exact (cstr_drop _ _ _ _ _ Hc2)]. intros x Hx. apply Hs2.
    intros Hx'. apply (Hapart x); [|lia]. unfold line3 in *. lia. }
  destruct (parse_len_spec _ sym _ _ Hc3 Hlen Hll Hsym2) as (m3 & -> & Hl3 & Hs3 & Hsym3).
  exists m3. split_and!; [done | | | done].
  - split_and!; cbn [s_addr s_len s_name]; [| done | | lia].
    + rewrite (rd32_ext m2); [done|]. intros x Hx. apply Hs3. lia.
    + eapply cstr_ext; [|exact Hn1]. intros x Hx. rewrite Hs3, Hs2 by lia. done.
  - intros x Hx. rewrite Hs3, Hs2, Hs1 by lia. done.
Qed.

(** ** The file and the table *)

Definition file_of (es : list entry) : list Z := concat ((fun e => line_of e ++ [10]) <$> es).

(** The length of a symbol is the distance to the next one; the last symbol keeps
    the length of its line. *)
Definition symbol_of (es : list entry) (i : nat) (e : entry) : symbol :=
  mk_symbol (hex (e_addr e))
    (match es !! S i with Some e' => hex (e_addr e') ⊖ hex (e_addr e) | None => hex (e_len e) end) (e_name e).

Definition slot (base : Z) (i : nat) : Z := base + 104 * Z.of_nat i.

Definition table (m : bytes) (base : Z) (es : list entry) : Prop :=
  forall i e, es !! i = Some e -> symbol_at m (slot base i) (symbol_of es i e).

Lemma file_cons e es : file_of (e :: es) = line_of e ++ 10 :: file_of es.
Proof. unfold file_of. cbn. by rewrite <- app_assoc. Qed.

Lemma line_chars e : wf_entry e -> Forall (fun b => 0 < b < 256) (line_of e) /\ plain 10 (line_of e).
Proof.
  intros (Hn & _ & Ht & [va Ha] & _ & [vl Hl] & _). apply hex_chars in Ha. apply hex_chars in Hl.
  unfold line_of, plain. split; rewrite !Forall_app, !Forall_cons, !Forall_app, !Forall_cons, !Forall_app, !Forall_cons;
    (split_and!; try lia; eapply Forall_impl; try eassumption; unfold field_char; tauto).
Qed.

Lemma line_first e : wf_entry e -> (0 < length (line_of e))%nat.
Proof. intros (_ & Hn & _). unfold line_of. rewrite length_app. lia. Qed.

(** Appending a symbol gives its length to the one before. *)
Lemma symbol_of_app es e i e0 : es !! i = Some e0 ->
  symbol_of (es ++ [e]) i e0 =
    if decide (S i = length es) then mk_symbol (hex (e_addr e0)) (hex (e_addr e) ⊖ hex (e_addr e0)) (e_name e0)
    else symbol_of es i e0.
Proof.
  intros Hi. apply lookup_lt_Some in Hi. unfold symbol_of. case_decide as Hs.
  - by rewrite Hs, list_lookup_middle.
  - by rewrite lookup_app_l by lia.
Qed.

Lemma symbol_at_relink m m' p a l l' name :
  symbol_at m p (mk_symbol a l name) -> rd32 m' (p + 4) = Ok l' -> same_outside m m' (p + 4) 4 ->
  symbol_at m' p (mk_symbol a l' name).
Proof.
  intros (Ha & _ & Hn & Hlen) Hl Hs. split_and!; cbn [s_addr s_len s_name] in *; [|done| |done].
  - rewrite (rd32_ext m m'); [done|]. intros x Hx. apply Hs. lia.
  - eapply cstr_ext; [|exact Hn]. intros x Hx. apply Hs. lia.
Qed.

Section Table.
Context (start base n : Z).
Hypothesis base_pos : 0 < base.
Hypothesis start_pos : 0 < start.

(** The file, of [len] bytes, is apart from the table. *)
Definition apart (len : Z) : Prop := start + len <= base \/ base + 104 * n <= start.

(** The pointer to the last symbol. *)
Definition last_slot (i : nat) : Z := match i with O => 0 | S i => slot base i end.

(** A line cut, parsed and restored. *)
Lemma parse_cut_line e m ptr p tl :
  has m ptr (line_of e ++ 10 :: tl) -> wf_entry e -> 0 < ptr -> 0 < p -> mapped m p 104 ->
  (forall x, ptr <= x <= ptr + Z.of_nat (length (line_of e)) -> ~ p <= x < p + 104) ->
  let eol := ptr + Z.of_nat (length (line_of e)) in
  exists m1 m2 m3, strchr m ptr 10 = Ok eol /\ wr eol 0 m = Ok m1 /\ parse_line ptr p m1 = Ok (true, m2) /\
    wr eol 10 m2 = Ok m3 /\ symbol_at m3 p (mk_symbol (hex (e_addr e)) (hex (e_len e)) (e_name e)) /\
    same_outside m m3 p 104 /\ mapped m3 p 104.
Proof.
  intros Hh He Hpos Hppos Hmp Hap eol. destruct (line_chars e He) as [Hchars Hplain].
  pose proof Hh as Hh0. apply has_app in Hh0 as [Hline Heol]. apply has_cons in Heol as [Heol _]. fold eol in Heol.
  assert (cstr (<[eol := 0]> m) ptr (line_of e)) as Hc1.
  { split; [|done]. apply has_app. split; [|apply has_cons; split; [apply lookup_insert_eq|by intros ??]].
    eapply has_ext; [|exact Hline]. intros x Hx. apply lookup_insert_ne. lia. }
  assert (forall x, p <= x < p + 104 -> eol <> x) as Hpe by (intros x Hx Heq; apply (Hap x); lia).
  destruct (parse_line_spec ptr p (<[eol := 0]> m) e Hc1 He Hpos Hppos) as (m2 & Hl & Hs2 & Hsame2 & Hmp2); [|done|].
  { intros i Hi. rewrite lookup_insert_ne; [by apply Hmp|]. apply Hpe. lia. }
  exists (<[eol := 0]> m), m2, (<[eol := 10]> m2). split_and!.
  - apply strchr_found; [|done..|lia]. apply has_app. split; [done|]. apply has_cons. split; [done|by intros ??].
  - apply wr_Ok. by eexists.
  - done.
  - apply wr_Ok. rewrite Hsame2 by (intros Hx; by apply (Hpe eol)). rewrite lookup_insert_eq. by eexists.
  - eapply symbol_at_ext; [|exact Hs2]. intros x Hx. apply lookup_insert_ne. by apply Hpe.
  - intros x Hx. destruct (decide (x = eol)) as [->|]; [by rewrite lookup_insert_eq|].
    rewrite lookup_insert_ne by done. rewrite Hsame2 by done. by rewrite lookup_insert_ne.
  - intros i Hi. rewrite lookup_insert_ne; [by apply Hmp2|]. apply Hpe. lia.
Qed.

(** The length of the symbol before is set. *)
Lemma link_last es e m :
  table m base es -> Z.of_nat (length es) < n -> mapped m base (104 * n) ->
  symbol_at m (slot base (length es)) (mk_symbol (hex (e_addr e)) (hex (e_len e)) (e_name e)) ->
  exists m', (if last_slot (length es) =? 0 then mret m
     else a ← rd32 m (slot base (length es)); b ← rd32 m (last_slot (length es));
          wr32 (last_slot (length es) + offsetof_len) (a ⊖ b) m) = Ok m' /\
    table m' base (es ++ [e]) /\ same_outside m m' base (104 * n) /\ mapped m' base (104 * n).
Proof.
  intros Ht Hn Hm Hs.
  assert (forall es' e', symbol_of (es' ++ [e']) (length es') e' = mk_symbol (hex (e_addr e')) (hex (e_len e')) (e_name e'))
    as Hlast. { intros es' e'. unfold symbol_of. rewrite (lookup_ge_None_2 _ (S _)); [done|]. rewrite length_app. cbn. lia. }
  destruct es as [|e0 es _] using rev_ind.
  { exists m. split_and!; [done | | done..]. intros [|i] e' [= <-]. change (symbol_at m (slot base 0) (symbol_of ([] ++ [e]) (length (@nil entry)) e)). by rewrite Hlast. }
  rewrite length_app, Nat.add_1_r in *. cbn [last_slot]. rewrite (proj2 (Z.eqb_neq _ 0)) by (unfold slot; lia).
  destruct (Ht (length es) e0) as (Ha0 & Hrest0); [by apply list_lookup_middle|]. rewrite Hlast in Ha0, Hrest0.
  cbn [s_addr] in Ha0. destruct Hs as (Ha & Hrest). cbn [s_addr] in Ha. rewrite Ha, Ha0. cbn [mbind res_bind].
  set (l := hex (e_addr e) ⊖ hex (e_addr e0)). unfold offsetof_len.
  destruct (wr32_spec (slot base (length es) + 4) l m) as (m' & Hw & Hrd & Hsame & Hdom).
  { intros i Hi. replace (slot base (length es) + 4 + i) with (base + (104 * Z.of_nat (length es) + 4 + i))
      by (unfold slot; lia). apply Hm. lia. }
  { apply Z.mod_pos_bound. lia. }
  exists m'. split_and!; [done | | |].
  - intros i e' Hi. destruct (decide (i = S (length es))) as [->|Hne].
    + rewrite lookup_app_r in Hi by (rewrite length_app; cbn; lia).
      rewrite length_app, Nat.add_1_r, Nat.sub_diag in Hi. injection Hi as <-.
      pose proof (Hlast (es ++ [e0]) e) as Hl'. rewrite length_app, Nat.add_1_r in Hl'. rewrite Hl'.
      eapply symbol_at_ext; [|split; [exact Ha | exact Hrest]]. intros x Hx. apply Hsame. unfold slot in *. lia.
    + assert ((es ++ [e0]) !! i = Some e') as Hi'.
      { apply lookup_app_Some in Hi as [Hi|[Hge Hi]]; [done|]. rewrite length_app in *. cbn in *.
        apply list_lookup_singleton_Some in Hi as [Hi _]. lia. }
      rewrite (symbol_of_app _ _ _ _ Hi'), length_app, Nat.add_1_r. case_decide as Hd.
      * injection Hd as ->. rewrite list_lookup_middle in Hi' by done. injection Hi' as <-.
        eapply symbol_at_relink; [|exact Hrd|exact Hsame]. split; [exact Ha0 | exact Hrest0].
      * eapply symbol_at_ext; [|by apply Ht]. intros x Hx. apply Hsame. apply lookup_lt_Some in Hi'.
        rewrite length_app in Hi'. cbn in Hi'. unfold slot in *. lia.
  - intros x Hx. apply Hsame. unfold slot. lia.
  - intros i Hi. by apply Hdom, Hm.
Qed.

(** A round on a line: the file is as before, and the table has one more symbol. *)
Lemma parse_line_round es e m ptr tl len :
  table m base es -> has m ptr (line_of e ++ 10 :: tl) -> wf_entry e ->
  start <= ptr -> ptr + Z.of_nat (length (line_of e ++ 10 :: tl)) <= start + len -> apart len ->
  mapped m base (104 * n) -> Z.of_nat (length es) < n ->
  exists m', parse_round (start + len) base (ptr, Z.of_nat (length es), last_slot (length es), m) =
      mret (let ptr := ptr + Z.of_nat (length (line_of e)) + 1 in
            let i := Z.of_nat (length es) ⊕ 1 in
            if ptr <? start + len then Next (ptr, i, slot base (length es), m') else Leave (Some i, m')) /\
    table m' base (es ++ [e]) /\ same_outside m m' base (104 * n) /\ mapped m' base (104 * n).
Proof.
  intros Ht Hh He Hst Hend Hap Hm Hn. pose proof (line_first e He) as Hfirst.
  rewrite length_app in Hend. cbn [length] in Hend. unfold apart in Hap.
  unfold parse_round, sizeof_symbol. fold (slot base (length es)). set (p := slot base (length es)).
  assert (base <= p /\ p + 104 <= base + 104 * n) as Hp by (unfold p, slot; lia).
  assert (mapped m p 104) as Hmp.
  { intros i Hi. replace (p + i) with (base + (p - base + i)) by lia. apply Hm. lia. }
  destruct (parse_cut_line e m ptr p tl) as (m1 & m2 & m3 & Hchr & Hw0 & Hpl & Hw1 & Hs & Hsame & Hmp3);
    [done|done|lia|lia|done|lia|].
  rewrite Hchr. cbn [mbind res_bind]. rewrite (proj2 (Z.eqb_neq _ 0)) by lia. cbn [andb].
  rewrite Hw0. cbn [mbind res_bind]. rewrite Hpl. cbn [mbind res_bind]. rewrite Hw1. cbn [mbind res_bind negb].
  destruct (link_last es e m3) as (m4 & Hl & Ht4 & Hs4 & Hm4); [|done| |done|].
  { intros i e0 Hi. eapply symbol_at_ext; [|by apply Ht]. intros x Hx. apply Hsame.
    apply lookup_lt_Some in Hi. unfold p, slot in *. lia. }
  { by eapply (mapped_outside m m3 base _ p 104). }
  fold p in Hl. rewrite Hl. cbn [mbind res_bind]. exists m4. split_and!; [|done| |done].
  - by destruct (_ <? start + len).
  - intros x Hx. rewrite Hs4, Hsame by lia. done.
Qed.

Lemma file_nil_end e es : (0 <? Z.of_nat (length (file_of (e :: es)))) = true.
Proof. rewrite file_cons, length_app. cbn [length]. apply Z.ltb_lt. lia. Qed.

(** Past a line: the end of the file when it was the last one. *)
Lemma past_line e es ptr len : ptr + Z.of_nat (length (file_of (e :: es))) = start + len ->
  let ptr' := ptr + Z.of_nat (length (line_of e)) + 1 in
  ptr' + Z.of_nat (length (file_of es)) = start + len /\
  (ptr' <? start + len) = match es with [] => false | _ => true end.
Proof.
  intros Hend ptr'. rewrite file_cons, length_app in Hend. cbn [length] in Hend. unfold ptr'. split; [lia|].
  destruct es as [|e' es]; [apply Z.ltb_ge; cbn in Hend; lia|].
  pose proof (file_nil_end e' es) as Hpos. apply Z.ltb_lt in Hpos. apply Z.ltb_lt. lia.
Qed.

Lemma has_past e es m ptr : has m ptr (file_of (e :: es)) -> has m (ptr + Z.of_nat (length (line_of e)) + 1) (file_of es).
Proof.
  intros Hh. rewrite file_cons in Hh. apply has_app in Hh as [_ Hh]. apply has_cons in Hh as [_ Hh]. exact Hh.
Qed.

Lemma parse_map_loop es2 fuel es1 m ptr len :
  es2 <> [] -> (length es2 <= fuel)%nat -> Forall wf_entry es2 -> has m ptr (file_of es2) ->
  ptr + Z.of_nat (length (file_of es2)) = start + len -> start <= ptr -> apart len -> n < 2 ^ 32 ->
  n = Z.of_nat (length (es1 ++ es2)) -> table m base es1 -> mapped m base (104 * n) ->
  exists m', loop_ctl fuel (parse_round (start + len) base) (ptr, Z.of_nat (length es1), last_slot (length es1), m)
      = Ok (Some n, m') /\ table m' base (es1 ++ es2) /\ same_outside m m' base (104 * n) /\ mapped m' base (104 * n).
Proof.
  revert fuel es1 m ptr. induction es2 as [|e es2 IH]; [done|].
  intros fuel es1 m ptr _ Hfuel Hwf Hh Hend Hst Hap Hn32 Hn Ht Hm.
  inversion_clear Hwf as [|? ? He Hwf']. destruct fuel as [|fuel]; [cbn in Hfuel; lia|]. cbn [length] in Hfuel.
  rewrite length_app in Hn. cbn [length] in Hn. pose proof Hh as Hh0. pose proof Hend as Hend0.
  rewrite file_cons in Hh0, Hend0. destruct (past_line _ _ _ _ Hend) as [Hend' Hlt].
  destruct (parse_line_round es1 e m ptr (file_of es2) len) as (m1 & Hr & Ht1 & Hs1 & Hm1); try done; [lia..|].
  rewrite loop_ctl_S, Hr. cbn [mbind res_bind mret res_ret]. cbv zeta. rewrite Hlt.
  replace (Z.of_nat (length es1) ⊕ 1) with (Z.of_nat (length (es1 ++ [e])))
    by (rewrite length_app; cbn [length]; symmetry; rewrite u32_small; [lia|unfold is_u32; lia]).
  destruct es2 as [|e' es2].
  - exists m1. split_and!; [|done..]. cbn [mret res_ret]. do 3 f_equal. rewrite length_app. cbn [length] in *. lia.
  - destruct (IH fuel (es1 ++ [e]) m1 (ptr + Z.of_nat (length (line_of e)) + 1)) as (m2 & Hl & Ht2 & Hs2 & Hm2);
      try done; [lia| |lia|rewrite !length_app; cbn [length] in *; lia|].
    + eapply has_ext; [|by apply has_past]. intros x Hx. apply Hs1. unfold apart in Hap. lia.
    + exists m2. rewrite <- app_assoc in Ht2. split_and!; [|exact Ht2| |done].
      * rewrite length_app, Nat.add_1_r in Hl |- *. exact Hl.
      * intros x Hx. rewrite Hs2, Hs1 by done. done.
Qed.

End Table.

(** The first walk counts the lines. *)
Lemma count_lines_loop es fuel m ptr end_ k :
  es <> [] -> (length es <= fuel)%nat -> Forall wf_entry es -> has m ptr (file_of es) -> 0 < ptr ->
  ptr + Z.of_nat (length (file_of es)) = end_ -> 0 <= k -> k + Z.of_nat (length es) < 2 ^ 32 ->
  loop_ctl fuel (fun '(ptr, n) =>
    eol ← strchr m ptr 10;
    if (eol =? 0) && (0 <? u32 (end_ - ptr)) then mret (Leave None)
    else
      let n := n ⊕ 1 in
      let ptr := eol + 1 in
      if ptr <? end_ then mret (Next (ptr, n)) else mret (Leave (Some n))) (ptr, k) =
  Ok (Some (k + Z.of_nat (length es))).
Proof.
  revert fuel ptr k. induction es as [|e es IH]; [done|]. intros fuel ptr k _ Hfuel Hwf Hh Hpos Hend Hk Hn.
  inversion_clear Hwf as [|? ? He Hwf']. destruct fuel as [|fuel]; [cbn in Hfuel; lia|]. cbn [length] in *.
  destruct (line_chars e He) as [Hchars Hplain]. rewrite loop_ctl_S.
  rewrite (strchr_found m ptr (line_of e) 10); [|pose proof Hh as Hh0; rewrite file_cons in Hh0|done..|lia].
  2:{ change (10 :: file_of es) with ([10] ++ file_of es) in Hh0. rewrite app_assoc in Hh0. by apply has_app in Hh0 as [? _]. }
  cbn [mbind res_bind]. rewrite (proj2 (Z.eqb_neq _ 0)) by lia. cbn [andb]. cbv zeta.
  pose proof (past_line 0 e es ptr end_ ltac:(lia)) as [Hend' Hlt]. rewrite Z.add_0_l in Hlt, Hend'. rewrite Hlt.
  rewrite (u32_small (k + 1)) by (unfold is_u32; lia). destruct es as [|e' es].
  - done.
  - cbn [mbind res_bind mret res_ret]. rewrite IH; [|done|lia|done|by apply has_past|lia|done|lia|lia].
    do 2 f_equal. lia.
Qed.

(** ** The searches *)

Lemma symbol_at_copied m m' p q s : copied m m' q p 104 -> symbol_at m p s -> symbol_at m' q s.
Proof.
  intros [Hc _] (Ha & Hl & [Hn Hf] & Hlen). split_and!; [| | |done].
  - rewrite (rd32_shift m m' p q); [done|]. intros i Hi. apply Hc. lia.
  - rewrite (rd32_shift m m' (p + 4) (q + 4)); [done|]. intros i Hi. rewrite <- !Z.add_assoc. apply Hc. lia.
  - split; [|done]. intros i b Hi. pose proof (lookup_lt_Some _ _ _ Hi) as Hil. rewrite length_app in Hil. cbn in Hil.
    rewrite <- Z.add_assoc, Hc by lia. rewrite Z.add_assoc. by apply Hn.
Qed.

(** The addresses grow along the file. *)
Definition sorted (es : list entry) : Prop :=
  forall i e e', es !! i = Some e -> es !! S i = Some e' -> hex (e_addr e) < hex (e_addr e').

Lemma sorted_le es i j e e' : sorted es -> (i <= j)%nat -> es !! i = Some e -> es !! j = Some e' ->
  hex (e_addr e) <= hex (e_addr e').
Proof.
  intros Hs Hij. revert e'. induction Hij as [|j Hij IH]; intros e' Hi Hj; [by simplify_eq|].
  destruct (lookup_lt_is_Some_2 es j) as [e0 H0]; [apply lookup_lt_Some in Hj; lia|].
  pose proof (Hs j e0 e' H0 Hj). specialize (IH e0 Hi H0). lia.
Qed.

Definition loop_value (c : ctl Z Z) : Z := match c with Leave l => l | Next l => l end.

Lemma find_round_at m base es addr i e last : table m base es -> es !! i = Some e ->
  find_round base addr m (Z.of_nat i) last =
    if addr <? hex (e_addr e) then Ok (Leave last) else Ok (Next (slot base i)).
Proof.
  intros Ht Hi. unfold find_round, sizeof_symbol. cbv zeta. fold (slot base i).
  destruct (Ht _ _ Hi) as (-> & _). done.
Qed.

Lemma find_loop m base es addr i e :
  table m base es -> sorted es -> es !! i = Some e -> hex (e_addr e) <= addr ->
  (forall e', es !! S i = Some e' -> addr < hex (e_addr e')) ->
  exists c, for_ctl (length es) 0 (find_round base addr m) 0 = Ok c /\ loop_value c = slot base i.
Proof.
  intros Ht Hs Hi Ha Hnext. pose proof (lookup_lt_Some _ _ _ Hi) as Hil.
  assert (forall d j, (j + d = S i)%nat -> exists c,
    for_ctl (length es - j) (Z.of_nat j) (find_round base addr m) (last_slot base j) = Ok c /\
    loop_value c = slot base i) as Hg; [|destruct (Hg (S i) 0%nat eq_refl) as (c & Hc & Hv); exists c;
      by rewrite Nat.sub_0_r in Hc].
  intros d. induction d as [|d IH]; intros j Hj.
  - replace j with (S i) by lia. destruct (decide (S i = length es)) as [He|Hne].
    + rewrite He, Nat.sub_diag. cbn [for_ctl]. rewrite <- He. by exists (Next (slot base i)).
    + destruct (lookup_lt_is_Some_2 es (S i)) as [e' He']; [lia|].
      replace (length es - S i)%nat with (S (length es - S (S i))) by lia. cbn [for_ctl].
      rewrite (find_round_at _ _ _ _ _ _ _ Ht He'), (proj2 (Z.ltb_lt _ _)) by (by apply Hnext). by exists (Leave (slot base i)).
  - destruct (lookup_lt_is_Some_2 es j) as [e' He']; [lia|].
    replace (length es - j)%nat with (S (length es - S j)) by lia. cbn [for_ctl].
    rewrite (find_round_at _ _ _ _ _ _ _ Ht He'), (proj2 (Z.ltb_ge _ _)) by (pose proof (sorted_le es j i e' e Hs ltac:(lia) He' Hi); lia).
    cbn [mbind res_bind mret res_ret]. replace (Z.of_nat j + 1) with (Z.of_nat (S j)) by lia.
    apply (IH (S j)). lia.
Qed.

(** The symbol at [i] covers [addr]: up to the next one, or as far as its length
    goes for the last symbol of the file. *)
Definition covers (es : list entry) (i : nat) (e : entry) (addr : Z) : Prop :=
  hex (e_addr e) <= addr /\
  match es !! S i with
  | Some e' => addr < hex (e_addr e')
  | None => hex (e_len e) = 0 \/ addr < hex (e_addr e) + hex (e_len e) < 2 ^ 32
  end.

Lemma hex_range s : 0 <= hex s < 2 ^ 32.
Proof. apply Z.mod_pos_bound. lia. Qed.

(** The test on the length accepts an address that is covered. *)
Lemma covers_length es i e addr : sorted es -> es !! i = Some e -> covers es i e addr ->
  let s := symbol_of es i e in
  (0 <? s_len s) && ((addr <? s_addr s) || (s_addr s ⊕ s_len s <=? addr)) = false.
Proof.
  intros Hs Hi [Ha Hc]. unfold symbol_of. cbn [s_len s_addr]. cbv zeta.
  pose proof (hex_range (e_addr e)). rewrite (proj2 (Z.ltb_ge addr _)) by done. cbn [orb].
  destruct (es !! S i) as [e'|] eqn:He'.
  - pose proof (Hs _ _ _ Hi He'). pose proof (hex_range (e_addr e')).
    rewrite (u32_small (hex (e_addr e') - _)) by (unfold is_u32; lia).
    rewrite u32_small by (unfold is_u32; lia). rewrite (proj2 (Z.leb_gt _ addr)) by lia. apply andb_false_r.
  - pose proof (hex_range (e_len e)). destruct Hc as [-> |Hc]; [done|].
    rewrite u32_small by (unfold is_u32; lia). rewrite (proj2 (Z.leb_gt _ addr)) by lia. apply andb_false_r.
Qed.

Section Search.
Context {K : Type} `{HeapOps K} (es : list entry) (st : sym_state K).
Hypothesis es_sorted : sorted es.
Hypothesis st_table : table (mem st) (symbols st) es.
Hypothesis st_count : nb_syms st = Z.of_nat (length es).
Hypothesis st_mapped : mapped (mem st) (symbols st) (104 * nb_syms st).
Hypothesis st_base : 0 < symbols st.

(** A record out of the table is copied out. *)
Lemma copy_out i e out : es !! i = Some e -> mapped (mem st) out 104 ->
  out + 104 <= symbols st \/ symbols st + 104 * nb_syms st <= out ->
  exists m', memcpy out (slot (symbols st) i) sizeof_symbol (mem st) = Ok m' /\
    symbol_at m' out (symbol_of es i e) /\ same_outside (mem st) m' out 104 /\ mapped m' out 104.
Proof.
  intros Hi Hout Hap. pose proof (lookup_lt_Some _ _ _ Hi) as Hil.
  assert (forall j, 0 <= j < 104 -> is_Some (mem st !! (slot (symbols st) i + j))) as Hslot.
  { intros j Hj. unfold slot. rewrite <- Z.add_assoc. apply st_mapped. lia. }
  destruct (memcpy_spec (mem st) out (slot (symbols st) i) 104) as (m' & Hm' & Hc); [done|done|lia|unfold slot; lia|].
  exists m'. split_and!; [exact Hm' | | apply Hc |].
  - eapply symbol_at_copied; [exact Hc|]. by apply st_table.
  - intros j Hj. rewrite (proj1 Hc) by done. by apply Hslot.
Qed.

Lemma symbol_find_spec i e addr out : es !! i = Some e -> covers es i e addr -> 0 < addr -> 0 < out ->
  mapped (mem st) out 104 -> out + 104 <= symbols st \/ symbols st + 104 * nb_syms st <= out ->
  exists m', symbol_find addr out st = Ok (true, mk_sym m' (heap st) (nb_syms st) (symbols st)) /\
    symbol_at m' out (symbol_of es i e) /\ same_outside (mem st) m' out 104 /\ mapped m' out 104.
Proof.
  intros Hi Hc Haddr Hout Hmap Hap. pose proof (lookup_lt_Some _ _ _ Hi) as Hil. unfold symbol_find.
  rewrite (proj2 (Z.eqb_neq addr 0)), (proj2 (Z.eqb_neq out 0)), (proj2 (Z.eqb_neq (nb_syms st) 0)) by lia. cbn [orb].
  destruct (find_loop (mem st) (symbols st) es addr i e) as (c & Hl & Hv); [done..|apply Hc| |].
  { intros e' He'. destruct Hc as [_ Hc]. by rewrite He' in Hc. }
  replace (Z.to_nat (nb_syms st)) with (length es) by lia. rewrite Hl. cbn [mbind res_bind].
  fold (loop_value c). rewrite Hv. cbv zeta.
  rewrite (proj2 (Z.eqb_neq _ 0)) by (unfold slot; lia).
  destruct (st_table _ _ Hi) as (Ha & Hlen & _). unfold offsetof_len. rewrite Hlen, Ha. cbn [mbind res_bind].
  rewrite (covers_length es i e addr) by done.
  destruct (copy_out i e out Hi Hmap Hap) as (m' & -> & Hs & Hsame & Hmo). by exists m'.
Qed.

Lemma symbol_find_below addr out : (forall e, es !! 0%nat = Some e -> addr < hex (e_addr e)) ->
  symbol_find addr out st = Ok (false, st).
Proof.
  intros Hlt. unfold symbol_find. destruct (_ || _); [done|]. destruct (Z.eqb_spec (nb_syms st) 0) as [|Hn]; [done|].
  destruct es as [|e es'] eqn:Hes; [cbn in st_count; lia|].
  replace (Z.to_nat (nb_syms st)) with (S (length es')) by (rewrite st_count; cbn [length]; lia). cbn [for_ctl].
  rewrite (find_round_at _ _ _ _ 0 _ _ st_table eq_refl), (proj2 (Z.ltb_lt _ _)) by (by apply Hlt). done.
Qed.

(** The loop of [symbol_lookup]. *)
Lemma lookup_round_at nm s i e : cstr (mem st) nm s -> es !! i = Some e ->
  lookup_round (symbols st) nm (mem st) (Z.of_nat i) tt =
    if decide (s = e_name e) then Ok (Leave (slot (symbols st) i)) else Ok (Next tt).
Proof.
  intros Hnm Hi. destruct (st_table _ _ Hi) as (_ & _ & Hn & _). cbn [s_name symbol_of] in Hn.
  unfold lookup_round, sizeof_symbol, offsetof_name. cbv zeta. fold (slot (symbols st) i).
  rewrite (strcmp_spec _ _ _ _ _ Hnm Hn). cbn [mbind res_bind].
  pose proof (str_compare_eq s (e_name e) (proj2 Hnm) (proj2 Hn)) as Heq.
  case_decide as Hd; [by rewrite (proj2 Heq Hd)|].
  rewrite (proj2 (Z.eqb_neq _ 0)); [done|]. by intros H0%Heq.
Qed.

Lemma symbol_lookup_spec nm s i e out : cstr (mem st) nm s -> s <> [] -> 0 < nm -> 0 < out ->
  es !! i = Some e -> e_name e = s -> (forall j e', (j < i)%nat -> es !! j = Some e' -> e_name e' <> s) ->
  mapped (mem st) out 104 -> out + 104 <= symbols st \/ symbols st + 104 * nb_syms st <= out ->
  exists m', symbol_lookup nm out st = Ok (true, mk_sym m' (heap st) (nb_syms st) (symbols st)) /\
    symbol_at m' out (symbol_of es i e) /\ same_outside (mem st) m' out 104 /\ mapped m' out 104.
Proof.
  intros Hnm Hs Hpos Hout Hi He Hfirst Hmap Hap. pose proof (lookup_lt_Some _ _ _ Hi) as Hil.
  destruct s as [|b s']; [done|]. destruct (cstr_char _ nm _ 0 b Hnm eq_refl) as [Hb Hbr]. rewrite Z.add_0_r in Hb.
  unfold symbol_lookup. rewrite (proj2 (Z.eqb_neq nm 0)), (rd_Ok _ _ _ Hb) by lia. cbn [mbind res_bind].
  rewrite (proj2 (Z.eqb_neq b 0)), (proj2 (Z.eqb_neq out 0)), (proj2 (Z.eqb_neq (nb_syms st) 0)) by lia. cbn [orb].
  replace (Z.to_nat (nb_syms st)) with (length es) by lia.
  assert (forall d j, (j + d = i)%nat ->
    for_ctl (length es - j) (Z.of_nat j) (lookup_round (symbols st) nm (mem st)) tt = Ok (Leave (slot (symbols st) i))) as Hg.
  { intros d. induction d as [|d IH]; intros j Hj.
    - replace j with i by lia. replace (length es - i)%nat with (S (length es - S i)) by lia. cbn [for_ctl].
      rewrite (lookup_round_at nm (b :: s') i e Hnm Hi), decide_True by done. done.
    - destruct (lookup_lt_is_Some_2 es j) as [e' He']; [lia|].
      replace (length es - j)%nat with (S (length es - S j)) by lia. cbn [for_ctl].
      rewrite (lookup_round_at nm (b :: s') j e' Hnm He'), decide_False
        by (apply not_eq_sym, (Hfirst j); [lia|done]).
      cbn [mbind res_bind]. replace (Z.of_nat j + 1) with (Z.of_nat (S j)) by lia. apply IH. lia. }
  specialize (Hg i 0%nat eq_refl). rewrite Nat.sub_0_r in Hg. change (Z.of_nat 0) with 0 in Hg. rewrite Hg. cbn [mbind res_bind].
  destruct (copy_out i e out Hi Hmap Hap) as (m' & -> & Hso & Hsame & Hmo). by exists m'.
Qed.

End Search.

(** ** The initialisation *)

Lemma file_length es : (length es <= length (file_of es))%nat.
Proof. induction es as [|e es IH]; [done|]. rewrite file_cons, length_app. cbn [length]. lia. Qed.

Section Init.
Context {K : Type} `{HeapOps K} (es : list entry) (start : Z) (st : sym_state K) (p : Z) (h' : K).
Let len := Z.of_nat (length (file_of es)).
Let n := Z.of_nat (length es).

(** A well-formed file that is not empty, and an area for the table that the
    allocator gives and that is apart from the file. *)
Record loaded : Prop := {
  loaded_some : es <> [];
  loaded_wf : Forall wf_entry es;
  loaded_file : has (mem st) start (file_of es);
  loaded_start : 0 < start;
  loaded_end : start + len < 2 ^ 32;
  loaded_alloc : heap_alloc (104 * n) (heap st) = Ok (p, h');
  loaded_table : 0 < p /\ p + 104 * n <= 2 ^ 32;
  loaded_mapped : mapped (mem st) p (104 * n);
  loaded_apart : apart start p n len;
}.

(** Up to the allocation: the lines are counted. *)
Lemma symbol_init_counts : es <> [] -> Forall wf_entry es -> has (mem st) start (file_of es) -> 0 < start -> start + len < 2 ^ 32 ->
  104 * n < 2 ^ 32 ->
  symbol_init start len st =
    ('(p, h) ← heap_alloc (104 * n) (heap st);
     if p =? 0 then Err (Panic "not implemented")
     else
       '(ok, m) ← parse_symbol_map start (start + len) n p (mem st);
       if negb ok then h ← heap_free p h; mret (false, mk_sym m h 0 p) else mret (true, mk_sym m h n p)).
Proof.
  intros Hes Hwf Hfile Hstart Hend Hn32. unfold symbol_init.
  pose proof (file_length es) as Hfl. pose proof (has_size _ _ _ Hfile) as Hsize.
  assert (0 < n) as Hn by (unfold n; destruct es; [done|cbn; lia]).
  rewrite (u32_small (start + len)) by (unfold is_u32; lia).
  rewrite (proj2 (Z.eqb_neq start 0)), (proj2 (Z.eqb_neq len 0)) by (unfold len, n in *; lia). cbn [orb]. cbv zeta.
  unfold count_lines. rewrite (count_lines_loop es) by (done || unfold n, walk_fuel in *; lia). cbn [mbind res_bind].
  rewrite Z.add_0_l. fold n. rewrite (u32_small (n * sizeof_symbol)) by (unfold is_u32, sizeof_symbol; lia).
  unfold sizeof_symbol. by rewrite (Z.mul_comm n 104).
Qed.

Lemma symbol_init_spec : loaded -> exists m', symbol_init start len st = Ok (true, mk_sym m' h' n p) /\
  table m' p es /\ same_outside (mem st) m' p (104 * n) /\ mapped m' p (104 * n).
Proof.
  intros [Hes Hwf Hfile Hstart Hend Halloc [Hp Hp32] Hmap Hap].
  pose proof (file_length es) as Hfl. pose proof (has_size _ _ _ Hfile) as Hsize.
  assert (0 < n) as Hn by (unfold n; destruct es; [done|cbn; lia]).
  assert ((length es <= walk_fuel (mem st))%nat) as Hfuel by (unfold walk_fuel; lia).
  rewrite symbol_init_counts, Halloc by (done || lia). cbn [mbind res_bind].
  rewrite (proj2 (Z.eqb_neq p 0)) by lia. unfold parse_symbol_map.
  rewrite (proj2 (Z.eqb_neq start (start + len))), (proj2 (Z.eqb_neq n 0)) by (unfold len, n in *; lia). cbn [orb].
  destruct (parse_map_loop start p n Hp Hstart es (walk_fuel (mem st)) [] (mem st) start len)
    as (m' & Hl & Ht & Hs & Hm); try done; try lia.
  cbn [length last_slot] in Hl. change (Z.of_nat 0) with 0 in Hl. rewrite Hl. cbn [mbind res_bind mret res_ret].
  rewrite Z.eqb_refl. cbn [negb]. by exists m'.
Qed.

End Init.

(** ** The theorem *)

(** C40. Once a well-formed symbol map, sorted by address, has been loaded, the
    table holds its symbols, with the distance to the next symbol as length, and
    the file is as it was before, in spite of the cuts of its lines; then any
    address that a symbol covers is found to belong to it, an address below the
    first symbol to none, and any name to the first symbol that bears it. *)
Theorem symbol_map_correct {K} `{HeapOps K} es start (st : sym_state K) p h' :
  loaded es start st p h' -> sorted es ->
  let n := Z.of_nat (length es) in
  exists st', symbol_init start (Z.of_nat (length (file_of es))) st = Ok (true, st') /\
    table (mem st') p es /\ same_outside (mem st) (mem st') p (104 * n) /\ has (mem st') start (file_of es) /\
    forall out, 0 < out -> mapped (mem st') out 104 -> out + 104 <= p \/ p + 104 * n <= out ->
      (forall i e addr, es !! i = Some e -> covers es i e addr -> 0 < addr ->
         exists m', symbol_find addr out st' = Ok (true, mk_sym m' h' n p) /\ symbol_at m' out (symbol_of es i e)) /\
      (forall addr, (forall e, es !! 0%nat = Some e -> addr < hex (e_addr e)) ->
         symbol_find addr out st' = Ok (false, st')) /\
      (forall nm i e, cstr (mem st') nm (e_name e) -> 0 < nm -> es !! i = Some e ->
         (forall j e', (j < i)%nat -> es !! j = Some e' -> e_name e' <> e_name e) ->
         exists m', symbol_lookup nm out st' = Ok (true, mk_sym m' h' n p) /\ symbol_at m' out (symbol_of es i e)).
Proof.
  intros Hld Hs n. destruct (symbol_init_spec es start st p h' Hld) as (m1 & Hinit & Ht & Hsame & Hmap).
  destruct Hld as [_ Hwf Hfile _ _ _ [Hp _] _ Hap]. exists (mk_sym m1 h' n p). split_and!; [done..| |].
  - eapply has_ext; [|exact Hfile]. intros x Hx. apply Hsame. unfold apart in Hap. lia.
  - intros out Hout Hmo Hao. split_and!.
    + intros i e addr Hi Hc Ha.
      destruct (symbol_find_spec es (mk_sym m1 h' n p) Hs Ht eq_refl Hmap Hp i e addr out Hi Hc Ha Hout Hmo Hao)
        as (m' & Hf & Hsy & _). by exists m'.
    + intros addr Hlt. by apply (symbol_find_below es (mk_sym m1 h' n p) Hs Ht eq_refl).
    + intros nm i e Hc Hnm Hi Hfirst. rewrite Forall_lookup in Hwf. destruct (Hwf _ _ Hi) as (_ & [Hl _] & _).
      destruct (symbol_lookup_spec es (mk_sym m1 h' n p) Ht eq_refl Hmap nm (e_name e) i e out)
        as (m' & Hf & Hsy & _); try done; [by destruct (e_name e); [cbn in Hl; lia|]|]. by exists m'.
Qed.

(** ** An instance *)

(** "a T 10 " and "b t 20 8", an allocator that gives the addresses one after the
    other, and room for the table and a copy from 0x5000. *)
Definition demo_es : list entry :=
  [mk_entry [97] [84] [49; 48] []; mk_entry [98] [116] [50; 48] [56]].

Instance demo_heap : HeapOps Z := {
  heap_alloc size next := Ok (next, next + size);
  heap_free _ next := Ok next }.

Definition demo_file : list (Z * Z) := zip (seqZ 0x1000 17) (file_of demo_es).

Definition demo_sym : sym_state Z :=
  mk_sym (list_to_map (demo_file ++ ((fun a => (a, 0)) <$> seqZ 0x5000 512))) 0x5000 0 0.

Lemma demo_room : mapped (mem demo_sym) 0x5000 512.
Proof. exact (mapped_area demo_file 0x5000 512). Qed.

Lemma demo_loaded : loaded demo_es 0x1000 demo_sym 0x5000 (0x5000 + 208).
Proof.
  split.
  - done.
  - repeat constructor; cbn; try lia; unfold field_char; try lia; by eexists.
  - intros i b Hi. pose proof (lookup_lt_Some _ _ _ Hi) as Hl. change (length (file_of demo_es)) with 17%nat in Hl.
    do 17 (destruct i as [|i]; [injection Hi as <-; by vm_compute|]). lia.
  - lia.
  - by vm_compute.
  - done.
  - by vm_compute.
  - intros i Hi. apply demo_room. cbn in Hi. lia.
  - left. by vm_compute.
Qed.

Lemma demo_sorted : sorted demo_es.
Proof. intros [|[|i]] e e' H1 H2; cbn in *; simplify_eq; by vm_compute. Qed.

Lemma demo_covers : covers demo_es 0 (mk_entry [97] [84] [49; 48] []) 0x15.
Proof. by vm_compute. Qed.

Lemma symbol_map_correct_witness : exists st' m',
  symbol_init 0x1000 17 demo_sym = Ok (true, st') /\
  symbol_find 0x15 0x5100 st' = Ok (true, mk_sym m' (0x5000 + 208) 2 0x5000) /\
  symbol_at m' 0x5100 (mk_symbol 0x10 0x10 [97]).
Proof.
  destruct (symbol_map_correct demo_es 0x1000 demo_sym 0x5000 (0x5000 + 208) demo_loaded demo_sorted)
    as (st' & Hi & _ & Hs & _ & Hfind).
  assert (mapped (mem st') 0x5100 104) as Hm.
  { intros i Hi'. rewrite Hs by (cbn; lia). replace (0x5100 + i) with (0x5000 + (0x100 + i)) by lia.
    apply demo_room. lia. }
  destruct (Hfind 0x5100 ltac:(lia) Hm ltac:(right; by vm_compute)) as (Hf & _).
  destruct (Hf 0%nat (mk_entry [97] [84] [49; 48] []) 0x15 eq_refl demo_covers eq_refl) as (m' & Hf' & Hsy).
  exists st', m'. exact (conj Hi (conj Hf' Hsy)).
Defined.
