(* ===== verification/CTypes.v ===== *)
(** * The layout of the structures

    Sizes, alignments and offsets of C types under the i386 ABI (no scalar is
    aligned on more than 4 bytes), for the structures that the kernel shares with
    the boot loader and the processor or places itself in memory.  The sizes and
    offsets that the other models use are those of the declarations. *)
From S2P Require Import Prelude Pmm PfaInit Kmalloc Libc Symbols.

(** ** Types *)

Inductive ctype :=
  | Scalar (size : Z)
  | Array (n : Z) (t : ctype)
  | Struct (packed : bool) (fs : list (string * ctype))
  | Union (fs : list (string * ctype)).

Definition char : ctype := Scalar 1.
Definition uint8_t : ctype := Scalar 1.
Definition uint16_t : ctype := Scalar 2.
Definition uint32_t : ctype := Scalar 4.
Definition uint64_t : ctype := Scalar 8.
Definition size_t : ctype := Scalar 4.
Definition int : ctype := Scalar 4.
Definition pointer : ctype := Scalar 4.
Definition enum : ctype := Scalar 4.

Definition align_up (x a : Z) : Z := (x + a - 1) / a * a.

Fixpoint alignof (t : ctype) : Z :=
  let fix fields (fs : list (string * ctype)) : Z :=
    match fs with [] => 1 | (_, t) :: fs => Z.max (alignof t) (fields fs) end in
  match t with
  | Scalar size => Z.min size 4
  | Array _ t => alignof t
  | Struct packed fs => if packed then 1 else fields fs
  | Union fs => fields fs
  end.

(** The end of the last field, and the size of the greatest one, rounded up to the
    alignment. *)
Fixpoint sizeof (t : ctype) : Z :=
  let fix last (packed : bool) (off : Z) (fs : list (string * ctype)) : Z :=
    match fs with
    | [] => off
    | (_, t) :: fs => last packed (align_up off (if packed then 1 else alignof t) + sizeof t) fs
    end in
  let fix greatest (fs : list (string * ctype)) : Z :=
    match fs with [] => 0 | (_, t) :: fs => Z.max (sizeof t) (greatest fs) end in
  match t with
  | Scalar size => size
  | Array n t => n * sizeof t
  | Struct packed fs => align_up (last packed 0 fs) (alignof (Struct packed fs))
  | Union fs => align_up (greatest fs) (alignof (Union fs))
  end.

(** The fields of a structure with their offsets. *)
Fixpoint layout (packed : bool) (off : Z) (fs : list (string * ctype)) : list (string * Z * ctype) :=
  match fs with
  | [] => []
  | (f, t) :: fs =>
      let o := align_up off (if packed then 1 else alignof t) in
      (f, o, t) :: layout packed (o + sizeof t) fs
  end.

Definition offsetof (t : ctype) (f : string) : option Z :=
  match t with
  | Struct packed fs => (fun x => x.2.1.2) <$> list_find (fun x => x.1.1 = f) (layout packed 0 fs)
  | _ => None
  end.

(** ** The structures of the kernel *)

(** *** multiboot.h *)

Definition multiboot_header_t : ctype := Struct false
  [("magic", uint32_t); ("flags", uint32_t); ("checksum", uint32_t);
   ("header_addr", uint32_t); ("load_addr", uint32_t); ("load_end_addr", uint32_t); ("bss_end_addr", uint32_t); ("entry_addr", uint32_t);
   ("mode_type", uint32_t); ("width", uint32_t); ("height", uint32_t); ("depth", uint32_t)].

Definition multiboot_aout_symbol_table_t : ctype := Struct false
  [("tabsize", uint32_t); ("strsize", uint32_t); ("addr", uint32_t); ("reserved", uint32_t)].

Definition multiboot_elf_section_header_table_t : ctype := Struct false
  [("num", uint32_t); ("size", uint32_t); ("addr", uint32_t); ("shndx", uint32_t)].

Definition multiboot_info_t : ctype := Struct false
  [("flags", uint32_t); ("mem_lower", uint32_t); ("mem_upper", uint32_t); ("boot_device", uint32_t); ("cmdline", uint32_t);
   ("mods_count", uint32_t); ("mods_addr", uint32_t);
   ("u", Union [("aout_sym", multiboot_aout_symbol_table_t); ("elf_sec", multiboot_elf_section_header_table_t)]);
   ("mmap_length", uint32_t); ("mmap_addr", uint32_t); ("drives_length", uint32_t); ("drives_addr", uint32_t);
   ("config_table", uint32_t); ("boot_loader_name", uint32_t); ("apm_table", uint32_t);
   ("vbe_control_info", uint32_t); ("vbe_mode_info", uint32_t); ("vbe_mode", uint16_t);
   ("vbe_interface_seg", uint16_t); ("vbe_interface_off", uint16_t); ("vbe_interface_len", uint16_t);
   ("framebuffer_addr", uint64_t); ("framebuffer_pitch", uint32_t); ("framebuffer_width", uint32_t); ("framebuffer_height", uint32_t);
   ("framebuffer_bpp", uint8_t); ("framebuffer_type", uint8_t);
   ("palette", Union
     [("indexed", Struct false [("framebuffer_palette_addr", uint32_t); ("framebuffer_palette_num_colors", uint16_t)]);
      ("rgb", Struct false
        [("framebuffer_red_field_position", uint8_t); ("framebuffer_red_mask_size", uint8_t);
         ("framebuffer_green_field_position", uint8_t); ("framebuffer_green_mask_size", uint8_t);
         ("framebuffer_blue_field_position", uint8_t); ("framebuffer_blue_mask_size", uint8_t)])])].

Definition multiboot_color_t : ctype := Struct false [("red", uint8_t); ("green", uint8_t); ("blue", uint8_t)].

Definition multiboot_memory_map_t : ctype := Struct true
  [("size", uint32_t); ("addr", uint64_t); ("len", uint64_t); ("type", uint32_t)].

Definition multiboot_module_t : ctype := Struct false
  [("mod_start", uint32_t); ("mod_end", uint32_t); ("cmdline", uint32_t); ("pad", uint32_t)].

Definition multiboot_apm_info_t : ctype := Struct false
  [("version", uint16_t); ("cseg", uint16_t); ("offset", uint32_t); ("cseg_16", uint16_t); ("dseg", uint16_t);
   ("flags", uint16_t); ("cseg_len", uint16_t); ("cseg_16_len", uint16_t); ("dseg_len", uint16_t)].

(** *** Descriptor tables and interrupts *)

Definition gdtr_reg_t : ctype := Struct true [("limit", uint16_t); ("base", uint32_t)].
Definition idtr_reg_t : ctype := Struct true [("limit", uint16_t); ("base", uint32_t)].
Definition idt_entry_t : ctype := Struct true
  [("offset_lo", uint16_t); ("segment_selector", uint16_t); ("flags", uint16_t); ("offset_hi", uint16_t)].
Definition interrupt_stack_t : ctype := Struct false [("isr_num", int); ("error_code", int)].

(** *** Memory *)

Definition phys_mmap_entry_t : ctype := Struct false [("addr", uint32_t); ("len", size_t); ("type", enum)].
Definition phys_mmap_t : ctype := Struct false [("len", size_t); ("entries", Array 0 phys_mmap_entry_t)].

Definition page_state_t : ctype := char.
Definition pfa_region_t : ctype := Struct false [("first_page", uint32_t); ("nb_pages", size_t); ("pagemap", Array 0 page_state_t)].
Definition pfa_meta_t : ctype := Struct false
  [("nb_regions", size_t); ("region_ptrs", Array 0 pointer); ("regions", Array 0 pfa_region_t)].

Definition list_t : ctype := Struct false [("prev", pointer); ("next", pointer)].
Definition chunk_type_t : ctype := char.
Definition aha_block_t : ctype := Struct false
  [("elt_size", size_t); ("tot_elts", size_t); ("nb_frees", size_t); ("first_ptr", uint32_t); ("list", list_t);
   ("chunkmap", Array 0 chunk_type_t)].
Definition aha_big_meta_t : ctype := Struct false [("size", size_t); ("ptr", uint32_t); ("list", list_t)].

(** *** Symbols *)

Definition symbol_t : ctype := Struct false [("addr", pointer); ("len", size_t); ("name", Array SYMBOL_MAX_LEN char)].

(** ** Facts *)

(** No field of a structure overlaps the next one or ends after the structure, and
    each is aligned; so are the structures of an array. *)
Lemma align_up_spec x a : 1 <= a -> x <= align_up x a < x + a /\ align_up x a mod a = 0.
Proof. intros Ha. unfold align_up. split; [Z.div_mod_to_equations; nia|by apply Z.mod_mul; lia]. Qed.

Definition field_wf (f : string * ctype) : Prop := 0 <= sizeof f.2 /\ 1 <= alignof f.2.

(** The end of the last field. *)
Fixpoint last_end (packed : bool) (off : Z) (fs : list (string * ctype)) : Z :=
  match fs with
  | [] => off
  | (_, t) :: fs => last_end packed (align_up off (if packed then 1 else alignof t) + sizeof t) fs
  end.

Lemma sizeof_struct packed fs : sizeof (Struct packed fs) = align_up (last_end packed 0 fs) (alignof (Struct packed fs)).
Proof. reflexivity. Qed.

Lemma alignof_struct packed fs : Forall field_wf fs -> 1 <= alignof (Struct packed fs).
Proof. destruct packed; cbn; [lia|]. intros Hw. destruct fs as [|[f t] fs]; [lia|]. apply Forall_cons in Hw as [[_ Hw] _]. cbn in *. lia. Qed.

Lemma layout_spec packed off fs : Forall field_wf fs ->
  off <= last_end packed off fs /\
  Forall (fun x => off <= x.1.2 /\ x.1.2 + sizeof x.2 <= last_end packed off fs /\ (packed = false -> x.1.2 mod alignof x.2 = 0))
    (layout packed off fs) /\
  pairwise (fun x y => x.1.2 + sizeof x.2 <= y.1.2) (layout packed off fs).
Proof.
  intros Hw. revert off. induction Hw as [|[f t] fs [Hs Ha] _ IH]; intros off; [cbn; split_and!; [lia|constructor|done]|].
  cbn [layout last_end snd] in *. cbv zeta. set (a := if packed then 1 else alignof t). assert (1 <= a) as H1 by (subst a; destruct packed; lia).
  destruct (align_up_spec off a H1) as [Ho Hm]. set (o := align_up off a) in *. destruct (IH (o + sizeof t)) as (E1 & E2 & E3). split_and!.
  - lia.
  - apply Forall_cons. split; cbn [fst snd].
    + split_and!; [lia|lia|]. intros Hp. by destruct packed.
    + eapply Forall_impl; [exact E2|]. intros [[g o'] t'] (? & ? & ?). split_and!; try done. lia.
  - cbn [pairwise]. split; [|done]. intros y Hy. destruct (proj1 (Forall_forall _ _) E2 y Hy) as (? & _ & _). cbn [fst snd] in *. lia.
Qed.

Theorem struct_layout packed fs : Forall field_wf fs ->
  pairwise (fun x y => x.1.2 + sizeof x.2 <= y.1.2) (layout packed 0 fs) /\
  Forall (fun x => 0 <= x.1.2 /\ x.1.2 + sizeof x.2 <= sizeof (Struct packed fs) /\ (packed = false -> x.1.2 mod alignof x.2 = 0))
    (layout packed 0 fs) /\
  sizeof (Struct packed fs) mod alignof (Struct packed fs) = 0.
Proof.
  intros Hw. destruct (layout_spec packed 0 fs Hw) as (_ & Hin & Hpair). rewrite sizeof_struct.
  destruct (align_up_spec (last_end packed 0 fs) _ (alignof_struct packed fs Hw)) as [Ho Hm]. split_and!; [done| |done].
  eapply Forall_impl; [exact Hin|]. intros x (? & ? & ?). split_and!; try done. lia.
Qed.

(** The sizes and the offsets of the other files. *)
Theorem sizes_agree :
  sizeof multiboot_info_t = sizeof_multiboot_info /\ sizeof multiboot_memory_map_t = sizeof_multiboot_memory_map /\
  sizeof multiboot_module_t = sizeof_multiboot_module /\
  sizeof phys_mmap_t = sizeof_phys_mmap /\ sizeof phys_mmap_entry_t = sizeof_phys_mmap_entry /\
  sizeof pfa_meta_t = sizeof_pfa_meta /\ sizeof pfa_region_t = sizeof_pfa_region /\ sizeof page_state_t = sizeof_page_state /\
  sizeof pointer = sizeof_pfa_region_ptr /\ sizeof pointer = sizeof_ptr /\ sizeof chunk_type_t = sizeof_chunk_type /\
  sizeof aha_block_t = sizeof_aha_block /\ offsetof aha_block_t "list" = Some offsetof_block_list /\
  sizeof aha_big_meta_t = sizeof_aha_big_meta /\ offsetof aha_big_meta_t "list" = Some offsetof_big_list /\
  sizeof symbol_t = sizeof_symbol /\ offsetof symbol_t "len" = Some offsetof_len /\ offsetof symbol_t "name" = Some offsetof_name /\
  sizeof idt_entry_t = 8 /\ sizeof idtr_reg_t = 6 /\ sizeof gdtr_reg_t = 6 /\
  offsetof multiboot_memory_map_t "addr" = Some 4 /\ offsetof multiboot_info_t "mmap_addr" = Some 48.
Proof. by vm_compute. Qed.
