(* ===== verification/Startup.v ===== *)
(** * The first instructions of the kernel (boot.S, crti.S, crtn.S, gdt.c, memory.h)

    The header that the boot loader looks for, the way from [_start] to
    [kernel_main], the segment registers, which cache the descriptor that their
    selector had when it was loaded, and the macros of memory.h that take their
    memory from the stack. *)
From S2P Require Import Prelude Libc Symbols Io World Irq Clock Isr Entry EntrySpec Descriptors CTypes.

(** ** The Multiboot header *)

Definition MULTIBOOT_HEADER_MAGIC : Z := 0x1BADB002.
Definition MULTIBOOT_PAGE_ALIGN : Z := 0x00000001.
Definition MULTIBOOT_MEMORY_INFO : Z := 0x00000002.
Definition MULTIBOOT_VIDEO_MODE : Z := 0x00000004.
Definition MULTIBOOT_AOUT_KLUDGE : Z := 0x00010000.

(** The words that boot.S puts at the start of the section .multiboot. *)
Definition ALIGN : Z := Z.shiftl 1 0.
Definition MEMINFO : Z := Z.shiftl 1 1.
Definition FLAGS : Z := Z.lor ALIGN MEMINFO.
Definition MAGIC : Z := 0x1BADB002.
Definition CHECKSUM : Z := u32 (- (MAGIC + FLAGS)).
Definition multiboot_header : list Z := [MAGIC; FLAGS; CHECKSUM].

(** A field of a [multiboot_header_t] of which the first words are these. *)
Definition header_field (f : string) : option Z :=
  o ← offsetof multiboot_header_t f; multiboot_header !! Z.to_nat (o / 4).

(** The boot loader accepts the header, and takes from it that modules are to be
    aligned and the memory map to be passed; nothing else is asked for. *)
Theorem multiboot_header_accepted : exists magic flags checksum,
  header_field "magic" = Some magic /\ header_field "flags" = Some flags /\ header_field "checksum" = Some checksum /\
  magic = MULTIBOOT_HEADER_MAGIC /\ flags = Z.lor MULTIBOOT_PAGE_ALIGN MULTIBOOT_MEMORY_INFO /\
  Z.land flags (Z.lor MULTIBOOT_VIDEO_MODE MULTIBOOT_AOUT_KLUDGE) = 0 /\
  (magic + flags + checksum) mod 2 ^ 32 = 0 /\ is_u32 checksum.
Proof. exists MAGIC, FLAGS, CHECKSUM. by vm_compute. Qed.

(** ** The code around [_init] and [_fini]

    crti.S opens the two functions and crtn.S closes them; the linker puts the
    constructors and the destructors in between. *)
Section Crt.
Context {W : Type}.

Definition enter_frame : ST (mach W) unit := push_reg ebp;; on_proc (fun x => set_ebp (esp x) x).
Definition leave_frame : ST (mach W) unit := pop_to set_ebp.

Definition _init (constructors : ST (mach W) unit) : ST (mach W) unit := enter_frame;; constructors;; leave_frame.
Definition _fini (destructors : ST (mach W) unit) : ST (mach W) unit := enter_frame;; destructors;; leave_frame.

(** *** memory.h *)

Definition stack_alloc (size : Z) : ST (mach W) Z := on_proc (fun x => set_esp (esp x ⊖ size) x);; reg esp.
Definition stack_free (size : Z) : ST (mach W) unit := on_proc (fun x => set_esp (esp x ⊕ size) x).

End Crt.

(** ** The segment registers *)

(** The selector, and the descriptor that the processor keeps with it. *)
Record segment := mk_segment { selector : Z; cached : Z }.

Record segments := mk_segments {
  seg_cs : segment; seg_ds : segment; seg_es : segment; seg_fs : segment; seg_gs : segment; seg_ss : segment;
  gdtr : gdtr_reg }.

Section Gdt.
Variable gdt_addr : Z.

(** The descriptor of a selector in the table of the register GDTR, as long as
    this is the one of gdt.c. *)
Definition fetch (g : gdtr_reg) (sel : Z) : res Z :=
  if (gdtr_base g =? gdt_addr) && (Z.lor sel 7 <=? gdtr_limit g) then aget gdt (Z.shiftr sel 3) else Err Oob.

(** Present, of privilege level 0, and code, or data that can be written. *)
Definition kernel_code (d : Z) : bool := (Z.land (desc_access d) 0xf8 =? 0x98).
Definition kernel_data (d : Z) : bool := (Z.land (desc_access d) 0xfa =? 0x92).

(** The processor refuses any other one. *)
Definition load_segment (ok : Z -> bool) (sel : Z) (g : gdtr_reg) : res segment :=
  d ← fetch g sel; if ok d then Ok (mk_segment sel d) else Err Oob.

Notation M := (ST (mach segments)).

Definition on_segments (f : segments -> res segments) : M unit := fun s =>
  t ← f (kernel s); Ok (tt, mk_mach (proc s) t).

Definition lgdt (g : gdtr_reg) : M unit := on_segments (fun t =>
  Ok (mk_segments (seg_cs t) (seg_ds t) (seg_es t) (seg_fs t) (seg_gs t) (seg_ss t) g)).

(** [ljmp $sel, $reset_cs]: to the next instruction, [base] being the one of the new
    segment. *)
Definition ljmp (sel : Z) : M unit :=
  on_segments (fun t => r ← load_segment kernel_code sel (gdtr t);
    Ok (mk_segments r (seg_ds t) (seg_es t) (seg_fs t) (seg_gs t) (seg_ss t) (gdtr t)));;
  on_proc (set_cs sel).

(** [mov %eax, %ds] and the like. *)
Definition mov_ds : M unit := v ← reg eax; on_segments (fun t => r ← load_segment kernel_data v (gdtr t);
  Ok (mk_segments (seg_cs t) r (seg_es t) (seg_fs t) (seg_gs t) (seg_ss t) (gdtr t))).
Definition mov_fs : M unit := v ← reg eax; on_segments (fun t => r ← load_segment kernel_data v (gdtr t);
  Ok (mk_segments (seg_cs t) (seg_ds t) (seg_es t) r (seg_gs t) (seg_ss t) (gdtr t))).
Definition mov_gs : M unit := v ← reg eax; on_segments (fun t => r ← load_segment kernel_data v (gdtr t);
  Ok (mk_segments (seg_cs t) (seg_ds t) (seg_es t) (seg_fs t) r (seg_ss t) (gdtr t))).
Definition mov_ss : M unit := v ← reg eax; on_segments (fun t => r ← load_segment kernel_data v (gdtr t);
  Ok (mk_segments (seg_cs t) (seg_ds t) (seg_es t) (seg_fs t) (seg_gs t) r (gdtr t))).

Definition asm_reset_segment_selectors : M unit :=
  ljmp 0x8;;
  on_proc (set_eax 0x10);;
  mov_ds;; mov_fs;; mov_gs;; mov_ss.

(** gdt.c; [ret] is the return address of the call. *)
Definition gdt_setup_code (ret : Z) : M unit :=
  lgdt (gdt_setup gdt_addr);;
  call ret asm_reset_segment_selectors.

End Gdt.

(** ** The stack *)

(** The words [l] are on the stack that ends at [top], of which the memory is
    mapped from [lo]. *)
Record on_stack (lo top : Z) (l : list Z) (x : x86) : Prop := {
  stack_esp : esp x = top - 4 * Z.of_nat (length l);
  stack_words : words (ram x) (esp x) l;
  stack_mapped : mapped (ram x) lo (top - lo);
  stack_range : 0 <= lo /\ top < 2 ^ 32 }.

Lemma on_stack_regs lo top l x x' : on_stack lo top l x -> esp x' = esp x -> ram x' = ram x -> on_stack lo top l x'.
Proof. intros [] E1 E2. split; rewrite ?E1, ?E2; done. Qed.

Section Rules.
Context {W : Type} (E : fault -> Prop).

Lemma wp_push_word lo top l v (Q : unit -> mach W -> Prop) x k :
  on_stack lo top l x -> lo + 4 * Z.of_nat (length l) + 4 <= top -> is_u32 v ->
  (forall m, on_stack lo top (v :: l) (set_ram m (set_esp (esp x - 4) x)) ->
     same_outside (ram x) m (esp x - 4) 4 -> Q tt (mk_mach (set_ram m (set_esp (esp x - 4) x)) k)) ->
  wp E (push v) Q (mk_mach x k).
Proof.
  intros [He Hw Hm Hr] Hl Hv HQ.
  assert (esp x ⊖ 4 = esp x - 4) as Hsub by (apply u32_small; lia).
  destruct (wr32_spec (esp x - 4) v (ram x)) as (m & Hwr & Hrd & Hsame & Hd); [|done|].
  { intros i Hi. replace (esp x - 4 + i) with (lo + (esp x - 4 + i - lo)) by lia. apply Hm. lia. }
  unfold wp, push, on_proc, modify, gets, lift, mbind, ST_bind. cbn [proc kernel]. cbn [esp set_esp ram]. rewrite Hsub, Hwr.
  apply HQ; [|done]. split; cbn [esp set_esp set_ram ram length].
  - lia.
  - apply words_cons. split; [done|]. replace (esp x - 4 + 4) with (esp x) by lia. eapply words_ext; [|exact Hw].
    intros y Hy. apply Hsame. lia.
  - intros i Hi. by apply Hd, Hm.
  - done.
Qed.

Lemma wp_pop_word lo top w l (Q : Z -> mach W -> Prop) x k :
  on_stack lo top (w :: l) x -> lo + 4 * Z.of_nat (length (w :: l)) <= top ->
  (on_stack lo top l (set_esp (esp x + 4) x) -> Q w (mk_mach (set_esp (esp x + 4) x) k)) -> wp E pop Q (mk_mach x k).
Proof.
  intros [He Hw Hm Hr] Hl HQ. cbn [length] in *. eapply wp_pop; [exact Hw|lia|]. apply HQ.
  split; cbn [esp set_esp ram]; [lia|by apply words_cons in Hw as [_ Hw]|done|done].
Qed.

(** *** Calls *)

(** What a callee does: the stack pointer, the frame pointer and the [n] words on
    top of the stack are what they were, and no memory disappears. *)
Record callee (n : nat) (x x' : x86) : Prop := {
  callee_esp : esp x' = esp x;
  callee_ebp : ebp x' = ebp x;
  callee_frame : forall a, esp x <= a < esp x + 4 * Z.of_nat n -> ram x' !! a = ram x !! a;
  callee_mapped : forall a, is_Some (ram x !! a) -> is_Some (ram x' !! a) }.

(** Only the words on top. *)
Lemma on_stack_take lo top n l x : (n <= length l)%nat -> on_stack lo top l x ->
  on_stack lo (top - 4 * Z.of_nat (length l - n)) (take n l) x.
Proof.
  intros Hn [He Hw Hm Hr]. split.
  - rewrite length_take. lia.
  - intros i w Hi. apply Hw. by eapply lookup_take_Some in Hi as [? _].
  - intros i Hi. apply Hm. lia.
  - lia.
Qed.

Lemma callee_stack lo top l x x' : callee (length l) x x' -> on_stack lo top l x -> on_stack lo top l x'.
Proof.
  intros [E1 _ Hf Hd] [He Hw Hm Hr]. split; rewrite ?E1; [done| | |done].
  - eapply words_ext; [|exact Hw]. intros y Hy. by apply Hf.
  - intros i Hi. by apply Hd, Hm.
Qed.

(** [call] of a function that leaves [n] of the words on the stack. *)
Lemma wp_call lo top n l ret f (P : W -> W -> Prop) (Q : unit -> mach W -> Prop) x k :
  on_stack lo top l x -> lo + 4 * Z.of_nat (length l) + 4 <= top -> is_u32 ret -> (n <= length l)%nat ->
  (forall x1, on_stack lo top (ret :: l) x1 -> ebp x1 = ebp x -> eflags x1 = eflags x ->
     wp E f (fun _ s => callee (S n) x1 (proc s) /\ P k (kernel s)) (mk_mach x1 k)) ->
  (forall x2 k2, on_stack lo (top - 4 * Z.of_nat (length l - n)) (take n l) x2 -> ebp x2 = ebp x -> P k k2 -> Q tt (mk_mach x2 k2)) ->
  wp E (call ret f) Q (mk_mach x k).
Proof.
  intros Hs Hl Hret Hn Hf HQ. unfold call. apply wp_bind. eapply wp_push_word; [done..|]. intros m Hs1 _. apply wp_bind.
  eapply wp_mono; [by apply Hf|]. intros [] [x2 k2] [Hc HP]. cbn [proc kernel] in *.
  apply (on_stack_take _ _ (S n)) in Hs1; [|cbn [length]; lia]. cbn [length take] in Hs1.
  apply (callee_stack _ _ _ _ x2) in Hs1; [|cbn [length]; by rewrite length_take_le]. apply wp_bind. 
  eapply wp_pop_word; [exact Hs1|cbn [length]; rewrite length_take; lia|]. intros Hs3. rewrite Z.eqb_refl.
  apply (wp_lift _ _ _ tt); [done|]. apply HQ; [exact Hs3| |done]. apply (callee_ebp _ _ _ Hc).
Qed.

End Rules.

(** ** From the boot loader to [kernel_main] *)

Section Start.
Context {W : Type} (E : fault -> Prop) (lo stack_top ret_init ret_main : Z).
Variables (constructors kernel_main : ST (mach W) unit) (P1 P2 : W -> W -> Prop) (x : x86) (k : W).
Hypothesis stack_ok : mapped (ram x) lo (stack_top - lo) /\ 0 <= lo /\ lo + 20 <= stack_top < 2 ^ 32.
Hypothesis words_ok : is_u32 (eax x) /\ is_u32 (ebx x) /\ is_u32 (ebp x) /\ is_u32 ret_init /\ is_u32 ret_main.

(** The constructors run in the frame of [_init], with the flags clear. *)
Hypothesis constructors_run : forall x1,
  on_stack lo stack_top [ebp x; ret_init; eax x; ebx x] x1 -> ebp x1 = esp x1 -> eflags x1 = 0 ->
  wp E constructors (fun _ s => callee 4 x1 (proc s) /\ P1 k (kernel s)) (mk_mach x1 k).

(** [kernel_main] is called with the values of EAX and EBX that the boot loader has
    left, in its frame. *)
Hypothesis kernel_main_runs : forall x1 k1,
  on_stack lo stack_top [ret_main; eax x; ebx x] x1 -> ebp x1 = ebp x -> P1 k k1 ->
  wp E kernel_main (fun _ s => callee 1 x1 (proc s) /\ P2 k1 (kernel s)) (mk_mach x1 k1).

Lemma init_callee x1 : on_stack lo stack_top [ret_init; eax x; ebx x] x1 -> ebp x1 = ebp x -> eflags x1 = 0 ->
  wp E (_init constructors) (fun _ s => callee 3 x1 (proc s) /\ P1 k (kernel s)) (mk_mach x1 k).
Proof.
  intros Hs Hb Hf. unfold _init, enter_frame, leave_frame, push_reg, pop_to. apply wp_bind, wp_bind, wp_bind, wp_reg. cbn [proc].
  eapply wp_push_word; [exact Hs|cbn [length]; lia|rewrite Hb; tauto|]. intros m Hs1 Hsame. apply wp_on_proc. cbn [proc kernel].
  set (xe := set_ebp _ _). rewrite Hb in Hs1.
  assert (on_stack lo stack_top [ebp x; ret_init; eax x; ebx x] xe) as Hse by (by eapply on_stack_regs).
  apply wp_bind. eapply wp_mono; [by apply constructors_run|]. intros [] [x2 k2] [Hc HP]. cbn [proc kernel] in *.
  pose proof (callee_stack _ _ [ebp x; ret_init; eax x; ebx x] _ _ Hc Hse) as Hs2. apply wp_bind.
  eapply wp_pop_word; [exact Hs2|cbn [length]; lia|]. intros _. apply wp_on_proc. cbn [proc kernel]. split; [|done].
  pose proof (stack_esp _ _ _ _ Hs) as E0. pose proof (stack_esp _ _ _ _ Hs2) as E2. cbn [length] in E0, E2. split.
  - cbn [esp set_ebp set_esp]. lia.
  - cbn [ebp set_ebp]. by rewrite Hb.
  - intros a Ha. cbn [ram set_ebp set_esp]. rewrite (callee_frame _ _ _ Hc); [|cbn [esp xe set_ebp set_esp set_ram]; lia].
    cbn [ram xe set_ebp set_esp set_ram]. apply Hsame. lia.
  - intros a Ha. cbn [ram set_ebp set_esp]. apply (callee_mapped _ _ _ Hc). cbn [ram xe set_ebp set_esp set_ram].
    destruct (decide (esp x1 - 4 <= a < esp x1 - 4 + 4)) as [Hin|Hout]; [|by rewrite Hsame].
    pose proof (stack_mapped _ _ _ _ Hs1 (a - lo)) as Hm. cbn [ram set_ram set_esp] in Hm.
    replace (lo + (a - lo)) with a in Hm by lia. apply Hm. lia.
Qed.

(** [_start] gives [kernel_main] what the boot loader has left in the registers; the
    frame pointer is the boot loader's too, the constructors having restored it.
    If [kernel_main] ever returns the processor stops with interrupts masked. *)
Theorem start_enters_main :
  wp E (_start stack_top ret_init ret_main (_init constructors) kernel_main)
    (fun _ s => Z.testbit (eflags (proc s)) 9 = false /\ exists k1, P1 k k1 /\ P2 k1 (kernel s)) (mk_mach x k).
Proof.
  destruct stack_ok as (Hm & Hlo & Htop). destruct words_ok as (Ha & Hb & Hp & Hri & Hrm).
  unfold _start, push_reg, pop_to. apply wp_bind, wp_on_proc. cbn [proc kernel].
  assert (on_stack lo stack_top [] (set_esp stack_top x)) as H0.
  { split; cbn [esp ram set_esp length]; [lia|by intros i w|done|lia]. }
  apply wp_bind, wp_bind, wp_reg. eapply wp_push_word; [exact H0|cbn [length]; lia|done|]. intros m1 H1 _.
  apply wp_bind, wp_bind, wp_reg. eapply wp_push_word; [exact H1|cbn [length]; lia|done|]. intros m2 H2 _.
  apply wp_bind. eapply wp_push_word; [exact H2|cbn [length]; lia|done|]. intros m3 H3 _.
  apply wp_bind, wp_bind. eapply wp_pop_word; [exact H3|cbn [length]; lia|]. intros H4. apply wp_on_proc. cbn [proc kernel].
  set (x4 := set_eflags 0 _).
  assert (on_stack lo stack_top [eax x; ebx x] x4) as H4' by (by eapply on_stack_regs).
  apply wp_bind. eapply (wp_call E lo stack_top 2 [eax x; ebx x] ret_init _ P1);
    [exact H4'|cbn [length]; lia|done|cbn [length]; lia|intros x5 H5 Eb Ef; by apply init_callee|].
  intros x6 k6 H6 Eb HP. cbn [length take] in H6. apply wp_bind.
  eapply (wp_call E lo stack_top 0 [eax x; ebx x] ret_main _ P2);
    [|cbn [length]; lia|done|lia|intros x7 H7 Eb7 _; apply kernel_main_runs; [exact H7|by rewrite Eb7, Eb|done]|].
  { by replace (stack_top - 4 * Z.of_nat (2 - 2)) with stack_top in H6 by lia. }
  intros x8 k8 _ _ HP2. unfold clear_bits. apply wp_on_proc. cbn [proc kernel eflags set_eflags]. split; [|by exists k6].
  by apply cleared_bit.
Qed.

End Start.

(** On the stack of [EntrySpec], with functions that return at once: both values
    are on the stack when [kernel_main] is called. *)
Lemma callee_refl n x : callee n x x.
Proof. by split. Qed.

Example start_on_demo :
  wp never (_start 0x7100 0x100060 0x100065 (_init (mret tt))
      (m ← gets (fun s => (rd32 (ram (proc s)) (esp (proc s) + 4), rd32 (ram (proc s)) (esp (proc s) + 8), ebp (proc s)));
       modify (fun s => mk_mach (proc s) [m])))
    (fun _ s => Z.testbit (eflags (proc s)) 9 = false /\ kernel s = [(Ok (eax demo_x86), Ok (ebx demo_x86), ebp demo_x86)])
    (mk_mach demo_x86 []).
Proof.
  eapply wp_mono.
  - apply (start_enters_main never 0x7000 0x7100 _ _ _ _ (fun k k' => k = k')
      (fun _ k' => k' = [(Ok (eax demo_x86), Ok (ebx demo_x86), ebp demo_x86)]) demo_x86 []).
    + split_and!; [|done..]. intros i Hi. pose proof (mapped_area [] 0x7000 0x100 i Hi) as Hm. by cbn [app] in Hm.
    + unfold is_u32, demo_x86. cbn. lia.
    + intros x1 _ _ _. apply wp_ret. split; [apply callee_refl|done].
    + intros x1 k1 [He Hw _ _] Hb _. wp_line. cbn [proc kernel]. split; [apply callee_refl|].
      apply words_cons in Hw as [_ [Ha [Hc _]%words_cons]%words_cons].
      replace (esp x1 + 8) with (esp x1 + 4 + 4) by lia. by rewrite Ha, Hc, Hb.
  - intros [] s (Hf & k1 & _ & Hk). done.
Qed.

(** ** Memory from the stack *)

(** The block lies under the words of the stack, is mapped, and is given back:
    whatever is done in between, as long as it leaves the stack pointer and these
    words alone, the stack is what it was. *)
Theorem stack_alloc_block {W A} (E : fault -> Prop) lo top l size (f : Z -> ST (mach W) A) (Q : A -> W -> Prop) x (k : W) :
  on_stack lo top l x -> 0 <= size -> lo + 4 * Z.of_nat (length l) + size <= top ->
  (forall ptr x1, ptr + size = esp x -> esp x1 = ptr -> mapped (ram x1) ptr size -> ram x1 = ram x ->
     wp E (f ptr) (fun a s => esp (proc s) = ptr /\ mapped (ram (proc s)) lo (top - lo) /\
       (forall y, ptr + size <= y < ptr + size + 4 * Z.of_nat (length l) -> ram (proc s) !! y = ram x !! y) /\ Q a (kernel s))
       (mk_mach x1 k)) ->
  wp E (ptr ← stack_alloc size; a ← f ptr; stack_free size;; mret a)
    (fun a s => on_stack lo top l (proc s) /\ Q a (kernel s)) (mk_mach x k).
Proof.
  intros [He Hw Hm Hr] Hs Hroom Hf. unfold stack_alloc, stack_free. apply wp_bind, wp_bind, wp_on_proc. cbn [proc kernel]. apply wp_reg.
  cbn [proc esp set_esp]. assert (esp x ⊖ size = esp x - size) as -> by (apply u32_small; lia). apply wp_bind.
  eapply wp_mono; [apply Hf|].
  - lia.
  - done.
  - intros i Hi. cbn [ram set_esp]. replace (esp x - size + i) with (lo + (esp x - size + i - lo)) by lia. apply Hm. lia.
  - done.
  - intros a [x2 k2] (E2 & Hm2 & Hk & HQ). cbn [proc kernel] in *. apply wp_bind, wp_on_proc. cbn [proc kernel]. apply wp_ret.
    cbn [proc kernel]. split; [|done].
    assert (esp x2 ⊕ size = esp x) as Hadd by (rewrite E2; unfold u32; rewrite Z.mod_small by lia; lia).
    split; cbn [esp ram set_esp]; rewrite ?Hadd; [done| |done|done].
    eapply words_ext; [|exact Hw]. intros y Hy. apply Hk. lia.
Qed.

(** ** The segments after [gdt_setup] *)

(** A segment of 4 GB from 0, in pages, of 32-bit code or data: the access byte
    tells which, and the privilege. *)
Definition flat (access d : Z) : Prop :=
  desc_base d = 0 /\ desc_limit d = 0xfffff /\ desc_flags d = 0xc /\ desc_access d = access.

Lemma fetch_gdt gdt_addr sel : Z.lor sel 7 <= 39 -> fetch gdt_addr (mk_gdtr 39 gdt_addr) sel = aget gdt (Z.shiftr sel 3).
Proof. intros Hs. unfold fetch. cbn [gdtr_base gdtr_limit]. rewrite Z.eqb_refl. apply Z.leb_le in Hs. by rewrite Hs. Qed.

Lemma load_gdt gdt_addr ok sel d : Z.lor sel 7 <= 39 -> aget gdt (Z.shiftr sel 3) = Ok d -> ok d = true ->
  load_segment gdt_addr ok sel (mk_gdtr 39 gdt_addr) = Ok (mk_segment sel d).
Proof. intros Hs Hd Hok. unfold load_segment. rewrite fetch_gdt, Hd by done. cbn [mbind res_bind]. by rewrite Hok. Qed.

Lemma reset_spec gdt_addr x t c d :
  load_segment gdt_addr kernel_code 0x8 (gdtr t) = Ok c -> load_segment gdt_addr kernel_data 0x10 (gdtr t) = Ok d ->
  asm_reset_segment_selectors gdt_addr (mk_mach x t) =
    Ok (tt, mk_mach (set_eax 0x10 (set_cs 0x8 x)) (mk_segments c d (seg_es t) d d d (gdtr t))).
Proof.
  intros Hc Hd.
  unfold asm_reset_segment_selectors, ljmp, mov_ds, mov_fs, mov_gs, mov_ss, on_segments, on_proc, modify, reg, gets, mbind, ST_bind.
  repeat (cbn [mbind res_bind proc kernel gdtr seg_cs seg_ds seg_es seg_fs seg_gs seg_ss eax set_eax]; rewrite ?Hc, ?Hd).
  done.
Qed.

(** C24. [gdt_setup] returns, with the stack as it was and the table of gdt.c in
    GDTR: CS then holds the flat code segment of privilege 0 and DS, FS, GS and SS
    the flat data segment of privilege 0, whatever they held before; ES alone keeps
    the selector and the cached descriptor that the boot loader has left, since
    nothing reloads it.  The processor would refuse a selector out of the table or
    of the wrong type: none is. *)
Theorem gdt_setup_loads gdt_addr lo top l ret x t :
  on_stack lo top l x -> lo + 4 * Z.of_nat (length l) + 4 <= top -> is_u32 ret ->
  exists x' code data, flat 0x9a code /\ flat 0x92 data /\
    gdt_setup_code gdt_addr ret (mk_mach x t) = Ok (tt, mk_mach x'
      (mk_segments (mk_segment 0x8 code) (mk_segment 0x10 data) (seg_es t) (mk_segment 0x10 data) (mk_segment 0x10 data)
         (mk_segment 0x10 data) (mk_gdtr 39 gdt_addr))) /\
    on_stack lo top l x' /\ cs x' = 0x8 /\ ebp x' = ebp x.
Proof.
  intros Hs Hl Hret.
  destruct (aget gdt (Z.shiftr 0x8 3)) as [code|] eqn:Hc; [|discriminate Hc].
  destruct (aget gdt (Z.shiftr 0x10 3)) as [data|] eqn:Hd; [|discriminate Hd].
  assert (flat 0x9a code /\ kernel_code code = true) as [Fc Kc] by (by vm_compute in Hc; injection Hc as <-).
  assert (flat 0x92 data /\ kernel_data data = true) as [Fd Kd] by (by vm_compute in Hd; injection Hd as <-).
  pose proof (load_gdt gdt_addr kernel_code 0x8 code ltac:(by vm_compute) Hc Kc) as Lc.
  pose proof (load_gdt gdt_addr kernel_data 0x10 data ltac:(by vm_compute) Hd Kd) as Ld.
  assert (wp never (gdt_setup_code gdt_addr ret) (fun _ s => on_stack lo top l (proc s) /\ cs (proc s) = 0x8 /\ ebp (proc s) = ebp x /\
    kernel s = mk_segments (mk_segment 0x8 code) (mk_segment 0x10 data) (seg_es t) (mk_segment 0x10 data) (mk_segment 0x10 data)
      (mk_segment 0x10 data) (mk_gdtr 39 gdt_addr)) (mk_mach x t)) as Hwp.
  { unfold gdt_setup_code, call. apply wp_bind. unfold lgdt, on_segments, wp at 1. cbn [mbind res_bind kernel proc].
    change (gdt_setup gdt_addr) with (mk_gdtr 39 gdt_addr). apply wp_bind. eapply wp_push_word; [done..|]. intros m Hs1 _. apply wp_bind.
    unfold wp at 1. erewrite reset_spec by first [reflexivity|exact Lc|exact Ld]. cbn [seg_es gdtr]. apply wp_bind.
    eapply wp_pop_word; [by eapply on_stack_regs|cbn [length]; lia|]. intros Hs2. rewrite Z.eqb_refl.
    apply (wp_lift _ _ _ tt); [done|]. by split_and!. }
  destruct (wp_run _ _ _ Hwp) as ([] & [x' t'] & E & Hs' & Hcs & Hb & Hk). cbn [proc kernel] in *. subst t'.
  by exists x', code, data.
Qed.

(** On the stack of [EntrySpec], from segments that another table had filled. *)
Definition demo_segments : segments :=
  let s := mk_segment 0x18 0 in mk_segments s s s s s s (mk_gdtr 31 0x9000).

Lemma gdt_setup_loads_witness : exists x' t', gdt_setup_code 0x104000 0x100050 (mk_mach demo_x86 demo_segments) = Ok (tt, mk_mach x' t') /\
  selector (seg_ss t') = 0x10 /\ selector (seg_es t') = 0x18 /\ flat 0x9a (cached (seg_cs t')) /\ esp x' = 0x7100.
Proof.
  destruct (gdt_setup_loads 0x104000 0x7000 0x7100 [] 0x100050 demo_x86 demo_segments) as (x' & code & data & Fc & Fd & E & Hs & _).
  - split; [done|by intros i w| |cbn; lia]. intros i Hi. pose proof (mapped_area [] 0x7000 0x100 i Hi) as Hm. by cbn [app] in Hm.
  - cbn. lia.
  - unfold is_u32. lia.
  - eexists x', _. split; [exact E|]. split_and!; [done|done|exact Fc|]. by rewrite (stack_esp _ _ _ _ Hs).
Defined.
