(* ===== verification/Panic.v ===== *)
(** * The panic handler (panic.c)

    What the kernel prints before it stops for ever: the message and the calls
    that led there, read from the chain of frame pointers and named with the
    symbols.  The addresses of the local variables are a parameter, as those of
    [printf]'s are. *)
From S2P Require Import Prelude Libc Printf PrintfSpec Format Io Descriptors Console ConsoleSpec Log Symbols.

Class PanicLayout := { isr_handler_sym : Z; error_buf : Z; sym : Z }.

Definition sizeof_error_buf : Z := 256.

(** The console, the symbols and the interrupt flag. *)
Record kern (HW K : Type) := mk_kern {
  k_con : con HW; k_heap : K; k_nb_syms : Z; k_symbols : Z; interrupt_flag : bool }.
Arguments mk_kern {HW K}.
Arguments k_con {HW K}.
Arguments k_heap {HW K}.
Arguments k_nb_syms {HW K}.
Arguments k_symbols {HW K}.
Arguments interrupt_flag {HW K}.

Section Panic.
Context {HW K : Type} `{Hardware HW, HeapOps K, Layout, PanicLayout}.
Implicit Types w : kern HW K.

Definition set_con (s : con HW) w : kern HW K := mk_kern s (k_heap w) (k_nb_syms w) (k_symbols w) (interrupt_flag w).
Definition kmem w : bytes := memory (con_term (k_con w)).
Definition set_kmem (m : bytes) w : kern HW K := set_con (set_con_term (set_memory m (con_term (k_con w))) (k_con w)) w.

Definition on_con {A} (f : ST (con HW) A) : ST (kern HW K) A := fun w =>
  '(a, s) ← f (k_con w); mret (a, set_con s w).

(** A function of symbol.c, on the memory that all share. *)
Definition on_symbols {A} (f : sym_state K -> res (A * sym_state K)) : ST (kern HW K) A := fun w =>
  '(a, s) ← f (mk_sym (kmem w) (k_heap w) (k_nb_syms w) (k_symbols w));
  mret (a, mk_kern (k_con (set_kmem (mem s) w)) (heap s) (nb_syms s) (symbols s) (interrupt_flag w)).

Definition on_memory (f : bytes -> res bytes) : ST (kern HW K) unit := fun w => m ← f (kmem w); mret (tt, set_kmem m w).
Definition read32 (a : Z) : ST (kern HW K) Z := fun w => v ← rd32 (kmem w) a; mret (v, w).
Definition read8 (a : Z) : ST (kern HW K) Z := fun w => v ← rd (kmem w) a; mret (v, w).

(** *** symbol.c, with its messages

    The searches of [Symbols] with the lines that the functions log: every message
    repaints the terminal, whether its level is printed or not. *)
Definition find_symbol (addr out : Z) : ST (kern HW K) bool :=
  on_con (dbg "symbol" "searching symbol at 0x%p" [addr]);;
  nb ← gets k_nb_syms;
  (if (addr =? 0) || (out =? 0) then on_con (error "symbol" "invalid argument" [])
   else if nb =? 0 then on_con (dbg "symbol" "no symbols loaded" [])
   else mret tt);;
  on_symbols (symbol_find addr out).

Definition lookup_symbol (name out : Z) : ST (kern HW K) bool :=
  c ← (if name =? 0 then mret 0 else read8 name);
  nb ← gets k_nb_syms;
  (if (name =? 0) || (c =? 0) || (out =? 0) then on_con (error "symbol" "invalid argument" [])
   else if nb =? 0 then on_con (dbg "symbol" "no symbols loaded" [])
   else on_con (dbg "symbol" "searching symbol '%s'" [name]));;
  on_symbols (symbol_lookup name out).

(** [cli] and [sti]. *)
Definition disable_interrupts : ST (kern HW K) unit :=
  modify (fun w => mk_kern (k_con w) (k_heap w) (k_nb_syms w) (k_symbols w) false).
Definition enable_interrupts : ST (kern HW K) unit :=
  modify (fun w => mk_kern (k_con w) (k_heap w) (k_nb_syms w) (k_symbols w) true).

(** One line of the trace, for the frame at [ebp]. *)
Definition print_caller (ebp eip : Z) : ST (kern HW K) unit :=
  found ← find_symbol eip sym;
  saved ← read32 ebp;
  if (found : bool) then
    addr ← read32 sym;
    len ← read32 (sym + offsetof_len);
    on_con (say ("- (ebp=0x%.8x) %s() + 0x%x/0x%x" +:+ nl) [saved; sym + offsetof_name; eip ⊖ addr; len])
  else
    on_con (say ("- (ebp=0x%.8x) ????? / 0x%x" +:+ nl) [saved; eip]).

(** A round of the loop over the frames: [ebp[1]] is the return address, [ebp[0]]
    the frame of the caller. *)
Definition trace_round (ebp : Z) : ST (kern HW K) (ctl unit Z) :=
  eip ← read32 (ebp + 4 * 1);
  last ← (if eip =? 0 then mret true else saved ← read32 ebp; mret (saved =? 0));
  if (last : bool) then mret (Leave tt)
  else
    print_caller ebp eip;;
    stub ← read32 isr_handler_sym;
    len ← read32 (isr_handler_sym + offsetof_len);
    (if (stub <=? eip) && (eip <? stub ⊕ len) then
       eip ← read32 (ebp + 4 * 13);
       print_caller ebp eip
     else mret tt);;
    next ← read32 ebp;
    mret (Next next).

(** [msg] is the address of the first argument on the stack, [args] the words
    after it.  The function returns here when it enters its last loop, which does
    nothing for ever. *)
Definition panic (msg : Z) (args : list Z) : ST (kern HW K) unit :=
  disable_interrupts;;
  let ebp := msg - 4 * 2 in
  on_memory (memset isr_handler_sym 0 sizeof_symbol);;
  found ← lookup_symbol (lit "isr_common_stub") isr_handler_sym;
  (if negb found then on_con (warn "panic" "failed to retrieve isr_handler address" []) else mret tt);;
  on_con (say (nl +:+ "=============" +:+ nl) []);;
  on_con (say ("=== PANIC ===" +:+ nl) []);;
  on_con (say ("=============" +:+ nl +:+ nl) []);;
  fmt ← read32 msg;
  on_memory (fun m => '(_, m) ← vsprintf error_buf fmt args m; mret m);;
  on_memory (wr (error_buf + (sizeof_error_buf - 1)) 0);;
  on_con (say ("error: %s" +:+ nl +:+ nl) [error_buf]);;
  on_con (say ("Call trace:" +:+ nl) []);;
  fuel ← gets (fun w => walk_fuel (kmem w));
  st_loop fuel trace_round ebp.

End Panic.
