(* ===== verification/PanicSpec.v ===== *)
(** * The panic handler: what is printed *)
From S2P Require Import Prelude Libc Printf PrintfSpec Format Io Descriptors Console ConsoleSpec Log Symbols SymbolSpec Panic.

(** ** Writes outside of the console *)

Section Areas.
Context {HW : Type} `{HL : ConsoleLaws HW, L : Layout}.

(** The console does not depend on an area that is clear. *)
Lemma can_print_area (t : terminal HW) k m a n :
  can_print putchar_var printf_area t k -> clear a n -> same_outside (memory t) m a n ->
  can_print putchar_var printf_area (set_memory m t) k.
Proof.
  intros ((Hk & Hcur & Hd & Hc) & Hb & Hoff & Hap) Hcl Hs.
  assert (forall x, ~ off_screen x \/ x = putchar_var \/ printf_area <= x < printf_area + 1024 -> m !! x = memory t !! x) as Hsame.
  { intros x Hx. apply Hs. intros Hin. destruct (Hcl x Hin) as (H1 & H2 & H3). tauto. }
  split; [split_and!|split_and!]; try done.
  - destruct Hk. split; try done. cbn [memory set_memory]. eapply displays_off; [done|]. intros x Hx. apply Hsame. by left.
  - cbn [memory set_memory]. by rewrite Hsame by (right; by left).
  - intros i Hi. cbn [memory set_memory]. rewrite Hsame by (right; right; lia). by apply Hb.
Qed.

End Areas.

(** ** The symbol of an address *)

(** No symbol covers the address: it is zero, before the first symbol, or after
    the end of the last one. *)
Definition uncovered (es : list entry) (addr : Z) : Prop :=
  addr = 0 \/ (forall e, es !! 0%nat = Some e -> addr < hex (e_addr e)) \/
  exists i e, es !! i = Some e /\ es !! S i = None /\ 0 < hex (e_len e) /\ hex (e_addr e) + hex (e_len e) <= addr /\
    hex (e_addr e) + hex (e_len e) < 2 ^ 32.

Definition resolved (es : list entry) (addr : Z) (r : option (nat * entry)) : Prop :=
  match r with
  | Some (i, e) => es !! i = Some e /\ covers es i e addr /\ 0 < addr
  | None => uncovered es addr
  end.

Section Find.
Context {K : Type} `{HeapOps K} (es : list entry) (st : sym_state K).
Hypothesis es_sorted : sorted es.
Hypothesis st_table : table (mem st) (symbols st) es.
Hypothesis st_count : nb_syms st = Z.of_nat (length es).
Hypothesis st_base : 0 < symbols st.

(** After the end of the last symbol. *)
Lemma symbol_find_above i e addr out : es !! i = Some e -> es !! S i = None -> 0 < hex (e_len e) ->
  hex (e_addr e) + hex (e_len e) <= addr -> hex (e_addr e) + hex (e_len e) < 2 ^ 32 ->
  symbol_find addr out st = Ok (false, st).
Proof.
  intros Hi Hlast Hpos Ha Hmax. unfold symbol_find. destruct (_ || _); [done|].
  destruct (Z.eqb_spec (nb_syms st) 0) as [|Hn]; [done|]. pose proof (hex_range (e_addr e)). pose proof (hex_range (e_len e)).
  destruct (find_loop (mem st) (symbols st) es addr i e) as (c & Hl & Hv); [done..|lia|by rewrite Hlast|].
  replace (Z.to_nat (nb_syms st)) with (length es) by lia. rewrite Hl. cbn [mbind res_bind].
  fold (loop_value c). rewrite Hv. cbv zeta. rewrite (proj2 (Z.eqb_neq _ 0)) by (unfold slot; lia).
  destruct (st_table _ _ Hi) as (Haddr & Hlen & _). unfold symbol_of in *. rewrite Hlast in *. cbn [s_addr s_len] in *.
  unfold offsetof_len. rewrite Hlen, Haddr. cbn [mbind res_bind]. rewrite u32_small by lia.
  rewrite (proj2 (Z.ltb_lt 0 _)), (proj2 (Z.leb_le _ addr)), orb_true_r by lia. done.
Qed.

Lemma symbol_find_uncovered addr out : uncovered es addr -> symbol_find addr out st = Ok (false, st).
Proof.
  intros [-> |[Hlt|(i & e & Hi & Hlast & Hpos & Ha & Hmax)]].
  - by unfold symbol_find.
  - by apply (symbol_find_below es).
  - by eapply symbol_find_above.
Qed.

(** A name that no symbol bears. *)
Lemma symbol_lookup_absent nm s out : cstr (mem st) nm s -> (forall i e, es !! i = Some e -> e_name e <> s) ->
  symbol_lookup nm out st = Ok (false, st).
Proof.
  intros Hnm Hno. unfold symbol_lookup.
  assert (exists c, (if nm =? 0 then mret 0 else rd (mem st) nm) = Ok c) as [c ->].
  { destruct (nm =? 0); [by eexists|]. destruct s as [|b s'].
    - pose proof (cstr_end _ _ _ Hnm) as He. rewrite Z.add_0_r in He. eexists. by apply rd_Ok.
    - destruct (cstr_char _ nm _ 0 b Hnm eq_refl) as [Hb _]. rewrite Z.add_0_r in Hb. eexists. by apply rd_Ok. }
  cbn [mbind res_bind]. destruct (_ || _); [done|]. destruct (nb_syms st =? 0); [done|].
  replace (Z.to_nat (nb_syms st)) with (length es) by lia.
  assert (forall d j, (j + d = length es)%nat ->
    for_ctl d (Z.of_nat j) (lookup_round (symbols st) nm (mem st)) tt = Ok (Next tt)) as Hg.
  { intros d. induction d as [|d IH]; intros j Hj; [done|]. cbn [for_ctl].
    destruct (lookup_lt_is_Some_2 es j) as [e He]; [lia|].
    rewrite (lookup_round_at es st st_table nm s j e Hnm He), decide_False by (by apply not_eq_sym, (Hno j)).
    cbn [mbind res_bind]. replace (Z.of_nat j + 1) with (Z.of_nat (S j)) by lia. apply IH. lia. }
  change 0 with (Z.of_nat 0) at 1. rewrite (Hg (length es) 0%nat) by lia. done.
Qed.

End Find.

(** ** The text of a call *)

Definition hex8_field : conv_field := mk_field [] [] (Some [56]) None.

(** Both forms of a line, with their arguments: [saved] is the saved frame
    pointer. *)
Definition known_pieces (saved name_addr : Z) (name : list Z) (offset len : Z) : list piece :=
  lits "- (ebp=0x" ++ Num hex8_field Hex saved :: lits ") " ++ Str no_field name_addr name :: lits "() + 0x" ++
  Num no_field Hex offset :: lits "/0x" ++ Num no_field Hex len :: lits nl.
Definition unknown_pieces (saved addr : Z) : list piece :=
  lits "- (ebp=0x" ++ Num hex8_field Hex saved :: lits ") ????? / 0x" ++ Num no_field Hex addr :: lits nl.

Definition hex8_text (w : Z) : list Z := piece_text (Num hex8_field Hex w).
Definition hex_word (w : Z) : list Z := piece_text (Num no_field Hex w).

(** The line for the address [addr]: the symbol, the offset in it and its length. *)
Definition call_text (es : list entry) (saved addr : Z) (r : option (nat * entry)) : list Z :=
  codes "- (ebp=0x" ++ hex8_text saved ++ codes ") " ++
  match r with
  | Some (i, e) =>
      e_name e ++ codes "() + 0x" ++ hex_word (addr - hex (e_addr e)) ++ codes "/0x" ++ hex_word (s_len (symbol_of es i e))
  | None => codes "????? / 0x" ++ hex_word addr
  end ++ codes nl.

(** "%x" prints the hexadecimal digits of a word, "%.8x" at least eight. *)
Lemma hex_word_text w : is_u32 w -> hex_word w = hex_text w.
Proof. intros Hw. apply (hex_text_facts w Hw). Qed.

Lemma hex_word_length w : is_u32 w -> (length (hex_word w) <= 8)%nat.
Proof. intros Hw. rewrite hex_word_text by done. apply (hex_text_facts w Hw). Qed.

Lemma hex8_length w : is_u32 w -> length (hex8_text w) = 8%nat.
Proof.
  intros Hw. apply Nat2Z.inj. unfold hex8_text, piece_text. cbv zeta. rewrite number_text_length.
  destruct (hex_text_facts w Hw) as (_ & _ & _ & Hl).
  change (number_flags Hex) with SMALL. change (Z.lor (field_flags hex8_field) SMALL) with SMALL.
  change (number_value hex8_field Hex w) with (s32 w). change (number_base Hex) with 16.
  change (number_sign (s32 w) SMALL) with (@nil Z). change (number_prefix 16 SMALL) with (@nil Z).
  change (field_width hex8_field) with (-1). change (field_precision hex8_field) with 8.
  fold (hex_text w). cbn [length]. lia.
Qed.

Lemma known_pieces_text es saved name_addr i e addr :
  text_of (known_pieces saved name_addr (e_name e) (addr - hex (e_addr e)) (s_len (symbol_of es i e))) =
    call_text es saved addr (Some (i, e)).
Proof.
  unfold known_pieces, call_text.
  rewrite text_app, text_lits.
  change (text_of (Num hex8_field Hex saved :: ?l)) with (hex8_text saved ++ text_of l). rewrite !text_app, text_lits.
  change (text_of (Str no_field name_addr (e_name e) :: ?l)) with (in_field no_field (e_name e) ++ text_of l).
  rewrite in_no_field, text_app, text_lits.
  change (text_of (Num no_field Hex (addr - hex (e_addr e)) :: ?l)) with (hex_word (addr - hex (e_addr e)) ++ text_of l).
  rewrite text_app, text_lits.
  change (text_of (Num no_field Hex (s_len (symbol_of es i e)) :: ?l)) with (hex_word (s_len (symbol_of es i e)) ++ text_of l).
  rewrite text_lits. by rewrite <- !app_assoc.
Qed.

Lemma unknown_pieces_text es saved addr : text_of (unknown_pieces saved addr) = call_text es saved addr None.
Proof.
  unfold unknown_pieces, call_text. rewrite text_app, text_lits.
  change (text_of (Num hex8_field Hex saved :: ?l)) with (hex8_text saved ++ text_of l). rewrite text_app, text_lits.
  change (text_of (Num no_field Hex addr :: ?l)) with (hex_word addr ++ text_of l). rewrite text_lits.
  change (codes ") ????? / 0x") with (codes ") " ++ codes "????? / 0x"). by rewrite <- !app_assoc.
Qed.

Lemma known_pieces_format saved a name o l :
  codes ("- (ebp=0x%.8x) %s() + 0x%x/0x%x" +:+ nl) = format_of (known_pieces saved a name o l).
Proof. unfold known_pieces. rewrite !format_app, !format_lits. by vm_compute. Qed.

Lemma unknown_pieces_format saved a : codes ("- (ebp=0x%.8x) ????? / 0x%x" +:+ nl) = format_of (unknown_pieces saved a).
Proof. unfold unknown_pieces. rewrite !format_app, !format_lits. by vm_compute. Qed.

Lemma known_pieces_args saved a name o l : args_of (known_pieces saved a name o l) = [saved; a; o; l].
Proof. by vm_compute. Qed.
Lemma unknown_pieces_args saved a : args_of (unknown_pieces saved a) = [saved; a].
Proof. by vm_compute. Qed.

Lemma num_ok `{Layout} m f c w : f = hex8_field \/ f = no_field -> arg_ok m (Num f c w).
Proof.
  intros [-> | ->]; (split; [|done]); split_and!; try done; repeat (constructor || split); unfold decimal_char; cbn; lia || done.
Qed.

Lemma known_pieces_ok `{Layout} m saved a name o l : arg_ok m (Str no_field a name) ->
  Forall (arg_ok m) (known_pieces saved a name o l).
Proof.
  intros Hs. unfold known_pieces.
  repeat (apply Forall_app; split; [by apply lits_ok|]; apply Forall_cons; split; [done || (apply num_ok; tauto)|]). by apply lits_ok.
Qed.

Lemma unknown_pieces_ok `{Layout} m saved a : Forall (arg_ok m) (unknown_pieces saved a).
Proof.
  unfold unknown_pieces.
  repeat (apply Forall_app; split; [by apply lits_ok|]; apply Forall_cons; split; [apply num_ok; tauto|]). by apply lits_ok.
Qed.

Lemma call_text_length es saved addr r :
  is_u32 saved -> match r with Some (i, e) => wf_entry e /\ is_u32 (addr - hex (e_addr e)) /\ is_u32 (s_len (symbol_of es i e)) | None => is_u32 addr end ->
  (length (call_text es saved addr r) < 256)%nat.
Proof.
  intros Hs Hr. pose proof (hex8_length saved Hs). unfold call_text. rewrite !length_app.
  change (length (codes "- (ebp=0x")) with 9%nat. change (length (codes ") ")) with 2%nat. change (length (codes nl)) with 1%nat.
  destruct r as [[i e]|].
  - destruct Hr as ((_ & Hn & _) & Ho & Hl). pose proof (hex_word_length _ Ho). pose proof (hex_word_length _ Hl).
    rewrite !length_app. change (length (codes "() + 0x")) with 7%nat. change (length (codes "/0x")) with 3%nat. lia.
  - pose proof (hex_word_length _ Hr). rewrite length_app. change (length (codes "????? / 0x")) with 10%nat. lia.
Qed.

Lemma table_ext m m' base es : (forall x, base <= x < base + 104 * Z.of_nat (length es) -> m' !! x = m !! x) ->
  table m base es -> table m' base es.
Proof.
  intros He Ht i e Hi. eapply symbol_at_ext; [|by apply Ht]. intros x Hx. apply He. unfold slot in Hx.
  apply lookup_lt_Some in Hi. lia.
Qed.

(** ** Plain text and messages

    What the handler prints: text in the colour of the moment, and messages of
    log.h, which have a colour of their own, are printed when the level admits
    them, and leave the default colour in every case. *)
Inductive part := Plain (s : list Z) | Message (sv : severity) (md : string) (s : list Z).

Definition part_text (level : Z) (p : part) : list Z :=
  match p with
  | Plain s => s
  | Message sv md s => if severity_level sv <=? level then message_text md (severity_prefix sv) s else []
  end.

Definition show_part (level : Z) (k : screen) (p : part) : screen :=
  match p with
  | Plain s => show_text s k
  | Message sv _ _ => paint (default_color k) (show_text (part_text level p) (paint (severity_color sv) k))
  end.

Definition parts_text (level : Z) (ps : list part) : list Z := ps ≫= part_text level.
Definition show_parts (level : Z) (ps : list part) (k : screen) : screen := foldl (show_part level) k ps.

Lemma parts_text_app level p q : parts_text level (p ++ q) = parts_text level p ++ parts_text level q.
Proof. apply bind_app. Qed.
Lemma show_parts_app level p q k : show_parts level (p ++ q) k = show_parts level q (show_parts level p k).
Proof. apply foldl_app. Qed.
Lemma parts_text_one level p : parts_text level [p] = part_text level p.
Proof. apply app_nil_r. Qed.

(** *** The messages of symbol.c *)

Definition pointer_text (w : Z) : list Z := piece_text (Num no_field Ptr w).
Definition stub_name : string := "isr_common_stub".
Definition warning : string := "failed to retrieve isr_handler address".

Definition searching_at (addr : Z) : list piece := lits "searching symbol at 0x" ++ [Num no_field Ptr addr].
Definition searching_name `{Layout} (s : string) : list piece :=
  lits "searching symbol '" ++ Str no_field (lit s) (codes s) :: lits "'".

(** [symbol_find] for an address, and [symbol_lookup] for a name. *)
Definition find_parts (es : list entry) (addr : Z) : list part :=
  Message Dbg "symbol" (codes "searching symbol at 0x" ++ pointer_text addr) ::
  (if addr =? 0 then [Message Error "symbol" (codes "invalid argument")]
   else match es with [] => [Message Dbg "symbol" (codes "no symbols loaded")] | _ => [] end).

Definition lookup_parts (es : list entry) (s : string) : list part :=
  [match es with
   | [] => Message Dbg "symbol" (codes "no symbols loaded")
   | _ => Message Dbg "symbol" (codes "searching symbol '" ++ codes s ++ codes "'")
   end].

(** A call of the trace. *)
Definition call_parts (es : list entry) (saved addr : Z) (r : option (nat * entry)) : list part :=
  find_parts es addr ++ [Plain (call_text es saved addr r)].

Lemma pointer_text_length w : (length (pointer_text w) <= 8)%nat.
Proof.
  apply Nat2Z.inj_le. unfold pointer_text, piece_text. cbv zeta. change (pointer_field no_field) with true. cbv iota.
  rewrite number_text_length. change (Z.lor (field_flags no_field) ZEROPAD) with ZEROPAD. change (number_base Ptr) with 16.
  change (number_sign (number_value no_field Ptr w) ZEROPAD) with (@nil Z). change (number_prefix 16 ZEROPAD) with (@nil Z).
  change (field_precision no_field) with (-1). pose proof (hex_digits_length (number_value no_field Ptr w) ZEROPAD). cbn [length]. lia.
Qed.

Lemma searching_at_text addr : text_of (searching_at addr) = codes "searching symbol at 0x" ++ pointer_text addr.
Proof. unfold searching_at. rewrite text_app, text_lits. f_equal. apply app_nil_r. Qed.

Lemma searching_name_text `{Layout} s : text_of (searching_name s) = codes "searching symbol '" ++ codes s ++ codes "'".
Proof.
  unfold searching_name. rewrite text_app, text_lits.
  change (text_of (Str no_field (lit s) (codes s) :: ?l)) with (in_field no_field (codes s) ++ text_of l).
  by rewrite in_no_field, text_lits.
Qed.

Definition trace_known : string := "- (ebp=0x%.8x) %s() + 0x%x/0x%x" +:+ nl.
Definition trace_unknown : string := "- (ebp=0x%.8x) ????? / 0x%x" +:+ nl.

(** The literals of [panic] and of the functions of symbol.c that it calls. *)
Definition panic_literals : list string :=
  [stub_name; nl +:+ "=============" +:+ nl; "=== PANIC ===" +:+ nl; "=============" +:+ nl +:+ nl;
   "error: %s" +:+ nl +:+ nl; "Call trace:" +:+ nl; trace_known; trace_unknown; "panic"; message_literal Warn warning;
   "symbol"; message_literal Dbg "searching symbol at 0x%p"; message_literal Error "invalid argument";
   message_literal Dbg "no symbols loaded"; message_literal Dbg "searching symbol '%s'"].

(** A literal of [panic]. *)
Ltac in_literals := lazymatch goal with |- _ ∈ panic_literals => apply (bool_decide_unpack _); vm_compute; exact I end.

(** ** The walk over the frames *)

Section Walk.
Context {HW K : Type} `{HL : ConsoleLaws HW, !HeapOps K, L : Layout, PL : PanicLayout} (es : list entry).
Implicit Types w : kern HW K.

(** The areas that neither the console nor [panic] writes. *)
Definition local (x : Z) : Prop :=
  sym <= x < sym + 104 \/ isr_handler_sym <= x < isr_handler_sym + 104 \/ error_buf <= x < error_buf + 256.

Definition calm (a n : Z) : Prop := clear a n /\ forall x, a <= x < a + n -> ~ local x.

(** What [panic] as a whole may do to memory, and what the walk may do. *)
Definition settled (m m' : bytes) : Prop :=
  (forall x, off_screen x -> x <> putchar_var -> ~ printf_area <= x < printf_area + 1024 -> ~ local x -> m' !! x = m !! x) /\
  forall x, is_Some (m !! x) -> is_Some (m' !! x).

#[export] Instance settled_preorder : PreOrder settled.
Proof.
  split; [by intros m; split|]. intros m1 m2 m3 [H1 D1] [H2 D2]. split; [|by intros x Hx; apply D2, D1].
  intros x Hx Hc Hb Hs. by rewrite H2, H1.
Qed.

Definition walked (m m' : bytes) : Prop :=
  (forall x, off_screen x -> x <> putchar_var -> ~ printf_area <= x < printf_area + 1024 -> ~ sym <= x < sym + 104 -> m' !! x = m !! x) /\
  forall x, is_Some (m !! x) -> is_Some (m' !! x).

#[export] Instance walked_preorder : PreOrder walked.
Proof.
  split; [by intros m; split|]. intros m1 m2 m3 [H1 D1] [H2 D2]. split; [|by intros x Hx; apply D2, D1].
  intros x Hx Hc Hb Hs. by rewrite H2, H1.
Qed.

Lemma settled_calm m m' a n : calm a n -> settled m m' -> forall x, a <= x < a + n -> m' !! x = m !! x.
Proof. intros [Hc Hs] [Hw _] x Hx. destruct (Hc x Hx) as (H1 & H2 & H3). by apply Hw, Hs. Qed.

Lemma walked_settled m m' : walked m m' -> settled m m'.
Proof. intros [Hw Hd]. split; [|done]. intros x H1 H2 H3 H4. apply Hw; try done. intros Hs. apply H4. by left. Qed.

Lemma kept_walked m m' : kept putchar_var printf_area m m' -> walked m m'.
Proof. intros [Hk Hd]. split; [|done]. intros x Hx Hc Hb _. by apply Hk. Qed.

Definition level_of w : Z := g_log_level (k_con w).

(** Something has been printed and nothing else has happened to the kernel. *)
Record traced (ps : list part) (k : screen) w w' : Prop := {
  traced_rest : k_heap w' = k_heap w /\ k_nb_syms w' = k_nb_syms w /\ k_symbols w' = k_symbols w /\
    interrupt_flag w' = interrupt_flag w /\ level_of w' = level_of w;
  traced_screen : shows_screen (k_con w') (show_parts (level_of w) ps k);
  traced_sent : u_sent (uart_of (term_hw (con_term (k_con w')))) =
    u_sent (uart_of (term_hw (con_term (k_con w)))) ++ parts_text (level_of w) ps;
  traced_memory : walked (kmem w) (kmem w');
}.

Lemma traced_app p q k w1 w2 w3 : traced p k w1 w2 -> traced q (show_parts (level_of w1) p k) w2 w3 -> traced (p ++ q) k w1 w3.
Proof.
  intros [(?&?&?&?&El) _ Hs1 Hm1] [(?&?&?&?&?) Hk2 Hs2 Hm2]. rewrite El in Hk2, Hs2. split.
  - split_and!; congruence.
  - by rewrite show_parts_app.
  - by rewrite Hs2, Hs1, parts_text_app, app_assoc.
  - by etrans.
Qed.

Lemma traced_nil k w : shows_screen (k_con w) k -> traced [] k w w.
Proof. intros Hk. split; [done|done|by rewrite app_nil_r|done]. Qed.

Lemma wp_on_con {A} E (f : ST (con HW) A) (Q : A -> kern HW K -> Prop) w :
  wp E f (fun a s => Q a (set_con s w)) (k_con w) -> wp E (on_con f) Q w.
Proof. unfold wp, on_con. by destruct (f (k_con w)) as [[a s]|]. Qed.

Lemma wp_read32 E a v (Q : Z -> kern HW K -> Prop) w : rd32 (kmem w) a = Ok v -> Q v w -> wp E (read32 a) Q w.
Proof. unfold wp, read32. by intros ->. Qed.

Lemma wp_read8 E a v (Q : Z -> kern HW K -> Prop) w : rd (kmem w) a = Ok v -> Q v w -> wp E (read8 a) Q w.
Proof. unfold wp, read8. by intros ->. Qed.

Lemma wp_on_memory E f m (Q : unit -> kern HW K -> Prop) w : f (kmem w) = Ok m -> Q tt (set_kmem m w) -> wp E (on_memory f) Q w.
Proof. unfold wp, on_memory. by intros ->. Qed.

Lemma say_traced fmt ps k w :
  shows_screen (k_con w) k -> literal (kmem w) fmt -> codes fmt = format_of ps -> Forall (arg_ok (kmem w)) ps ->
  Z.of_nat (length (text_of ps)) < 1024 ->
  wp never (on_con (say fmt (args_of ps))) (fun _ w' => traced [Plain (text_of ps)] k w w') w.
Proof.
  intros Hk Hl Hf Hp Hn. apply wp_on_con. eapply wp_mono; [by apply (say_spec fmt ps (k_con w) k)|].
  intros [] s (Hg & Hs & Hsent & Hkept). split; [by split_and!|done| |by apply kept_walked].
  by rewrite parts_text_one.
Qed.

(** The literals are where the handler does not write. *)
Definition literals_ok (m : bytes) : Prop :=
  forall s, s ∈ panic_literals -> literal m s /\ calm (lit s) (Z.of_nat (length (codes s)) + 1).

Lemma log_traced sv md fmt ps k w :
  shows_screen (k_con w) k -> literals_ok (kmem w) -> md ∈ panic_literals -> no_nul md = true ->
  message_literal sv fmt ∈ panic_literals -> codes fmt = format_of ps -> Forall (arg_ok (kmem w)) ps ->
  Z.of_nat (length (message_text md (severity_prefix sv) (text_of ps))) < 1024 ->
  wp never (on_con (log_at sv md fmt (args_of ps))) (fun _ w' => traced [Message sv md (text_of ps)] k w w') w.
Proof.
  intros Hk Hl Hmd Hn Hfm Hf Hp Hlen. destruct (Hl _ Hmd) as [L1 _], (Hl _ Hfm) as [L2 _].
  apply wp_on_con. eapply wp_mono; [by apply (log_at_spec sv md fmt ps (k_con w) k)|].
  intros [] s (Hg & Hs & Hsent & Hkept). split; [by split_and!|done| |by apply kept_walked].
  by rewrite parts_text_one.
Qed.

(** A message without arguments. *)
Lemma log_plain_traced sv md s k w :
  shows_screen (k_con w) k -> literals_ok (kmem w) -> md ∈ panic_literals -> no_nul md = true ->
  message_literal sv s ∈ panic_literals -> plain_text s = true ->
  Z.of_nat (length (message_text md (severity_prefix sv) (codes s))) < 1024 ->
  wp never (on_con (log_at sv md s [])) (fun _ w' => traced [Message sv md (codes s)] k w w') w.
Proof.
  intros Hk Hl Hmd Hn Hs Hpl Hlen. rewrite <- (args_lits s), <- (text_lits s) in *.
  apply log_traced; try done; [by rewrite format_lits|by apply lits_ok].
Qed.

(** What the walk relies on: the symbols, the literals, and the record of the
    entry code of interrupts. *)
Record walking (stub stub_len : Z) w : Prop := {
  walking_table : table (kmem w) (k_symbols w) es;
  walking_mapped : mapped (kmem w) (k_symbols w) (104 * k_nb_syms w);
  walking_count : k_nb_syms w = Z.of_nat (length es);
  walking_base : 0 < k_symbols w;
  walking_calm : calm (k_symbols w) (104 * k_nb_syms w);
  walking_literals : literals_ok (kmem w);
  walking_sym : clear sym 104 /\ mapped (kmem w) sym 104 /\ 0 < sym;
  walking_stub : rd32 (kmem w) isr_handler_sym = Ok stub /\ rd32 (kmem w) (isr_handler_sym + 4) = Ok stub_len /\
    clear isr_handler_sym 104 /\ (sym + 104 <= isr_handler_sym \/ isr_handler_sym + 104 <= sym);
}.

Lemma settled_literal m m' s n : settled m m' -> literal m s -> calm (lit s) n -> n = Z.of_nat (length (codes s)) + 1 -> literal m' s.
Proof.
  intros Hw [Hh Hc] Hcalm Hn. split; [|done]. eapply has_ext; [|exact Hh]. intros x Hx.
  eapply settled_calm; [exact Hcalm|done|]. rewrite length_app in Hx. cbn in Hx. lia.
Qed.

Lemma literals_settled m m' : settled m m' -> literals_ok m -> literals_ok m'.
Proof. intros Hs Hl s Hin. destruct (Hl s Hin) as [H1 H2]. split; [|done]. by eapply settled_literal. Qed.

Lemma walking_traced stub stub_len s k w w' : walking stub stub_len w -> traced s k w w' -> walking stub stub_len w'.
Proof.
  intros [Ht Hm Hn Hb Hc Hl (Hs & Hsm & Hs0) (H1 & H2 & H3 & H4)] [(_ & En & Es & _) _ _ Hw].
  pose proof (walked_settled _ _ Hw) as Hst. split; rewrite ?En, ?Es; try done.
  - eapply table_ext; [|exact Ht]. intros x Hx. eapply settled_calm; [exact Hc|done|lia].
  - intros i Hi. by apply Hw, Hm.
  - by eapply literals_settled.
  - split_and!; try done. intros i Hi. by apply Hw, Hsm.
  - assert (forall x, isr_handler_sym <= x < isr_handler_sym + 104 -> kmem w' !! x = kmem w !! x) as Hisr.
    { intros x Hx. destruct (H3 x Hx) as (? & ? & ?). apply Hw; try done. lia. }
    split_and!; [| |done|done]; erewrite rd32_ext; try eassumption; intros x Hx; apply Hisr; lia.
Qed.

(** Writing to the local variable [sym]. *)
Lemma sym_written m k w : shows_screen (k_con w) k -> clear sym 104 -> mapped (kmem w) sym 104 ->
  same_outside (kmem w) m sym 104 -> mapped m sym 104 -> traced [] k w (set_kmem m w).
Proof.
  intros Hk Hc Hm Hs Hm'. split; [done| |by rewrite app_nil_r|].
  - by apply (can_print_area _ k m sym 104).
  - split; [intros x _ _ _ Hx; by apply Hs|]. intros x Hx. destruct (decide (sym <= x < sym + 104)) as [Hin|Hout].
    + replace x with (sym + (x - sym)) by lia. apply Hm'. lia.
    + change (kmem (set_kmem m w)) with m. by rewrite Hs.
Qed.

Hypothesis es_wf : Forall wf_entry es.
Hypothesis es_sorted : sorted es.

Lemma symbol_len_range i e : is_u32 (s_len (symbol_of es i e)).
Proof. unfold symbol_of. cbn [s_len]. destruct (es !! S i); [apply u32_range|apply hex_range]. Qed.

(** The messages of [symbol_find], after the first. *)
Lemma find_outcome_messages stub stub_len addr k w : walking stub stub_len w -> shows_screen (k_con w) k ->
  wp never (if (addr =? 0) || (sym =? 0) then on_con (error "symbol" "invalid argument" [])
    else if k_nb_syms w =? 0 then on_con (dbg "symbol" "no symbols loaded" []) else mret tt)
    (fun _ w' => traced (tail (find_parts es addr)) k w w') w.
Proof.
  intros Hw Hk. rewrite (proj2 (Z.eqb_neq sym 0)), orb_false_r by (pose proof (walking_sym _ _ _ Hw); lia).
  rewrite (walking_count _ _ _ Hw). cbn [tail find_parts]. destruct (addr =? 0).
  - apply (log_plain_traced Error "symbol" "invalid argument"); try done; first [apply Hw|in_literals].
  - destruct es as [|e l]; cbn [length].
    + apply (log_plain_traced Dbg "symbol" "no symbols loaded"); try done; first [apply Hw|in_literals].
    + rewrite (proj2 (Z.eqb_neq _ 0)) by lia. wp_line. by apply traced_nil.
Qed.

Definition found_at (r : option (nat * entry)) (m : bytes) : Prop :=
  match r with Some (i, e) => symbol_at m sym (symbol_of es i e) | None => True end.
Definition is_found (r : option (nat * entry)) : bool := match r with Some _ => true | None => false end.

(** The search itself. *)
Lemma find_search stub stub_len addr r k w : walking stub stub_len w -> shows_screen (k_con w) k -> resolved es addr r ->
  wp never (on_symbols (symbol_find addr sym)) (fun found w' => found = is_found r /\ traced [] k w w' /\ found_at r (kmem w')) w.
Proof.
  intros [Ht Hm Hn Hb Hc _ (Hs & Hsm & Hs0) _] Hk Hr. pose (st := mk_sym (kmem w) (k_heap w) (k_nb_syms w) (k_symbols w)).
  unfold wp, on_symbols. fold st. destruct r as [[i e]|].
  - destruct Hr as (Hi & Hcov & Hpos). pose proof (lookup_lt_Some _ _ _ Hi) as Hil.
    assert (sym + 104 <= k_symbols w \/ k_symbols w + 104 * k_nb_syms w <= sym) as Hap.
    { destruct (decide (sym + 104 <= k_symbols w)); [by left|]. destruct (decide (k_symbols w + 104 * k_nb_syms w <= sym)); [by right|].
      exfalso. apply (proj2 Hc (Z.max sym (k_symbols w))); [lia|left; lia]. }
    destruct (symbol_find_spec es st es_sorted Ht Hn Hm Hb i e addr sym Hi Hcov Hpos Hs0 Hsm Hap)
      as (m' & Hf & Hat & Hsame & Hm'). rewrite Hf. cbn [mbind res_bind mret res_ret mem heap nb_syms symbols].
    split; [done|]. split; [|exact Hat]. by apply (sym_written m').
  - rewrite (symbol_find_uncovered es st es_sorted Ht Hn Hb addr sym Hr). cbn [mbind res_bind mret res_ret mem heap nb_syms symbols st].
    split; [done|]. split; [|done]. by apply (sym_written (kmem w)).
Qed.

Lemma find_symbol_spec stub stub_len addr r k w : walking stub stub_len w -> shows_screen (k_con w) k -> resolved es addr r ->
  wp never (find_symbol addr sym)
    (fun found w' => found = is_found r /\ traced (find_parts es addr) k w w' /\ found_at r (kmem w')) w.
Proof.
  intros Hw Hk Hr. unfold find_symbol. wp_line.
  eapply wp_mono.
  { change [addr] with (args_of (searching_at addr)).
    apply (log_traced Dbg "symbol" "searching symbol at 0x%p" (searching_at addr) k w Hk); try done; try (by apply Hw); try in_literals.
    - unfold searching_at. apply Forall_app. split; [by apply lits_ok|]. apply Forall_singleton, num_ok. by right.
    - rewrite searching_at_text. unfold message_text. rewrite !length_app. pose proof (pointer_text_length addr).
      change (length (codes "searching symbol at 0x")) with 22%nat. change (length (codes "symbol")) with 6%nat.
      cbn [severity_prefix]. change (length (codes "DBG: ")) with 5%nat. change (length (codes "[")) with 1%nat.
      change (length (codes "] ")) with 2%nat. change (length (codes nl)) with 1%nat. lia. }
  intros [] w1 H1. cbv beta. rewrite searching_at_text in H1. pose proof (walking_traced _ _ _ _ _ _ Hw H1) as Hw1.
  wp_line. eapply wp_mono; [exact (find_outcome_messages stub stub_len addr _ w1 Hw1 (traced_screen _ _ _ _ H1))|].
  intros [] w2 H2. cbv beta. pose proof (traced_app _ _ _ _ _ _ H1 H2) as H12. pose proof (walking_traced _ _ _ _ _ _ Hw H12) as Hw2.
  eapply wp_mono; [exact (find_search stub stub_len addr r _ w2 Hw2 (traced_screen _ _ _ _ H12) Hr)|].
  intros found w3 (-> & H3 & Hat). split; [done|]. split; [|done].
  pose proof (traced_app _ _ _ _ _ _ H12 H3) as H13. by rewrite app_nil_r in H13.
Qed.

(** The line of a call. *)
Lemma print_caller_spec stub stub_len ebp saved addr r k w :
  walking stub stub_len w -> shows_screen (k_con w) k -> resolved es addr r -> is_u32 addr -> is_u32 saved ->
  rd32 (kmem w) ebp = Ok saved -> calm ebp 4 ->
  wp never (print_caller ebp addr) (fun _ w' => traced (call_parts es saved addr r) k w w') w.
Proof.
  intros Hw Hk Hr Ha Hsv Hrd Hcalm. unfold print_caller. wp_line.
  eapply wp_mono; [by apply (find_symbol_spec stub stub_len addr r k w)|]. intros found w1 (-> & H1 & Hat). cbv beta.
  pose proof (walking_traced _ _ _ _ _ _ Hw H1) as Hw1. destruct (walking_sym _ _ _ Hw1) as (Hs & _ & Hs0).
  assert (rd32 (kmem w1) ebp = Ok saved) as Hrd1.
  { rewrite <- Hrd. apply rd32_ext. intros x Hx. apply (settled_calm _ _ ebp 4 Hcalm (walked_settled _ _ (traced_memory _ _ _ _ H1))). lia. }
  wp_line. eapply wp_read32; [exact Hrd1|]. unfold call_parts. destruct r as [[i e]|]; cbn [is_found].
  - destruct Hat as (Haddr & Hlen & Hname & Hnl). destruct Hr as (Hi & [Hle _] & Hpos).
    wp_line. eapply wp_read32; [exact Haddr|]. wp_line. eapply wp_read32; [exact Hlen|].
    cbn [symbol_of s_addr s_name] in *. pose proof (hex_range (e_addr e)) as Hrange.
    rewrite (u32_small (addr - hex (e_addr e))) by (unfold is_u32 in *; lia).
    rewrite <- (known_pieces_args saved (sym + offsetof_name) (e_name e)).
    assert (arg_ok (kmem w1) (Str no_field (sym + offsetof_name) (e_name e))) as Harg.
    { assert (clear (sym + offsetof_name) (Z.of_nat (length (e_name e)) + 1)) as Hcl
        by (intros x Hx; apply Hs; unfold offsetof_name in *; lia).
      split; [|exact Hcl]. pose proof (clear_apart _ _ Hcl ltac:(lia)). unfold offsetof_name in *.
      split; [by repeat constructor|]. split; [exact Hname|]. lia. }
    pose proof (Forall_lookup_1 _ _ _ _ es_wf Hi) as Hwf.
    eapply wp_mono; [eapply say_traced|].
    + apply H1.
    + apply (walking_literals _ _ _ Hw1). in_literals.
    + apply known_pieces_format.
    + by apply known_pieces_ok.
    + rewrite known_pieces_text. pose proof (call_text_length es saved addr (Some (i, e)) Hsv) as Hl. cbn beta iota in Hl.
      assert (length (call_text es saved addr (Some (i, e))) < 256)%nat; [|lia]. apply Hl.
      split_and!; [done|unfold is_u32 in *; lia|apply symbol_len_range].
    + intros [] w2 Ht2. rewrite known_pieces_text in Ht2. exact (traced_app _ _ k w w1 w2 H1 Ht2).
  - rewrite <- (unknown_pieces_args saved addr). eapply wp_mono; [eapply say_traced|].
    + apply H1.
    + apply (walking_literals _ _ _ Hw1). in_literals.
    + apply unknown_pieces_format.
    + apply unknown_pieces_ok.
    + rewrite (unknown_pieces_text es). pose proof (call_text_length es saved addr None Hsv Ha). lia.
    + intros [] w2 Ht2. rewrite (unknown_pieces_text es) in Ht2. exact (traced_app _ _ k w w1 w2 H1 Ht2).
Qed.

End Walk.

(** ** The chain of frames *)

(** A frame that is printed: the saved frame pointer, the return address and its
    symbol; after the entry code of interrupts, the interrupted address too. *)
Record frame := mk_frame {
  f_saved : Z; f_addr : Z; f_symbol : option (nat * entry); f_interrupted : option (Z * option (nat * entry)) }.

Definition in_stub (stub len addr : Z) : bool := (stub <=? addr) && (addr <? stub ⊕ len).

Definition frame_parts (es : list entry) (f : frame) : list part :=
  call_parts es (f_saved f) (f_addr f) (f_symbol f) ++
  match f_interrupted f with Some (a, r) => call_parts es (f_saved f) a r | None => [] end.
Definition trace_parts (es : list entry) (fs : list frame) : list part := fs ≫= frame_parts es.

Section Chain.
Context `{L : Layout, PL : PanicLayout} (es : list entry) (stub len : Z).

Definition frame_at (m : bytes) (ebp : Z) (f : frame) : Prop :=
  rd32 m ebp = Ok (f_saved f) /\ rd32 m (ebp + 4) = Ok (f_addr f) /\ calm ebp 8 /\
  f_saved f <> 0 /\ f_addr f <> 0 /\ is_u32 (f_saved f) /\ is_u32 (f_addr f) /\ resolved es (f_addr f) (f_symbol f) /\
  match f_interrupted f with
  | Some (a, r) => in_stub stub len (f_addr f) = true /\ rd32 m (ebp + 52) = Ok a /\ calm (ebp + 52) 4 /\ is_u32 a /\ resolved es a r
  | None => in_stub stub len (f_addr f) = false
  end.

(** The last frame has no return address or no saved frame pointer. *)
Definition last_frame (m : bytes) (ebp : Z) : Prop :=
  calm ebp 8 /\ exists saved addr, rd32 m ebp = Ok saved /\ rd32 m (ebp + 4) = Ok addr /\ (addr = 0 \/ saved = 0).

Fixpoint chain (m : bytes) (ebp : Z) (fs : list frame) : Prop :=
  match fs with
  | [] => last_frame m ebp
  | f :: fs => frame_at m ebp f /\ chain m (f_saved f) fs
  end.

Lemma calm_rd32 m m' a b n : settled m m' -> calm b n -> b <= a -> a + 4 <= b + n -> rd32 m' a = rd32 m a.
Proof. intros Hw Hc H1 H2. apply rd32_ext. intros x Hx. apply (settled_calm _ _ b n Hc Hw). lia. Qed.

Lemma frame_settled m m' ebp f : settled m m' -> frame_at m ebp f -> frame_at m' ebp f.
Proof.
  intros Hw (H1 & H2 & Hc & H3 & H4 & H5 & H6 & H7 & H8). split_and!; try done.
  - rewrite <- H1. apply (calm_rd32 _ _ _ ebp 8 Hw Hc); lia.
  - rewrite <- H2. apply (calm_rd32 _ _ _ ebp 8 Hw Hc); lia.
  - destruct (f_interrupted f) as [[a r]|]; [|done]. destruct H8 as (H8 & H9 & H10 & H11 & H12). split_and!; try done.
    rewrite <- H9. apply (calm_rd32 _ _ _ (ebp + 52) 4 Hw H10); lia.
Qed.

Lemma chain_settled m m' ebp fs : settled m m' -> chain m ebp fs -> chain m' ebp fs.
Proof.
  intros Hw. revert ebp. induction fs as [|f fs IH]; intros ebp; cbn [chain].
  - intros (Hc & saved & addr & H1 & H2 & H3). split; [done|]. exists saved, addr. split_and!; [| |done].
    + rewrite <- H1. apply (calm_rd32 _ _ _ ebp 8 Hw Hc); lia.
    + rewrite <- H2. apply (calm_rd32 _ _ _ ebp 8 Hw Hc); lia.
  - intros [Hf Hfs]. split; [by eapply frame_settled|by apply IH].
Qed.

(** A chain that ends has no cycle, so it is not longer than the memory. *)
Lemma chain_length m ebp fs fs' : chain m ebp fs -> chain m ebp fs' -> length fs = length fs'.
Proof.
  revert ebp fs'. induction fs as [|f fs IH]; intros ebp [|f' fs'] H1 H2; [done|..]; cbn [chain] in *.
  - destruct H1 as (_ & s & a & E1 & E2 & Hz), H2 as ((E3 & E4 & _ & ? & ? & _) & _). destruct Hz; congruence.
  - destruct H2 as (_ & s & a & E1 & E2 & Hz), H1 as ((E3 & E4 & _ & ? & ? & _) & _). destruct Hz; congruence.
  - destruct H1 as ((E1 & _) & H1), H2 as ((E2 & _) & H2). cbn [length]. f_equal.
    rewrite E1 in E2. injection E2 as E2. rewrite <- E2 in H2. by apply (IH (f_saved f)).
Qed.

Fixpoint ebps (ebp : Z) (fs : list frame) : list Z :=
  ebp :: match fs with [] => [] | f :: fs => ebps (f_saved f) fs end.

Lemma ebps_chain m ebp fs a : chain m ebp fs -> a ∈ ebps ebp fs -> exists fs', chain m a fs' /\ (length fs' <= length fs)%nat.
Proof.
  revert ebp. induction fs as [|f fs IH]; intros ebp Hc; cbn [ebps]; intros [-> |Ha]%elem_of_cons.
  - by exists [].
  - by apply elem_of_nil in Ha.
  - by exists (f :: fs).
  - destruct Hc as [_ Hc]. destruct (IH _ Hc Ha) as (fs' & H' & Hl). exists fs'. split; [done|]. cbn. lia.
Qed.

Lemma ebps_NoDup m ebp fs : chain m ebp fs -> NoDup (ebps ebp fs).
Proof.
  revert ebp. induction fs as [|f fs IH]; intros ebp Hc; cbn [ebps]; (constructor; [|]).
  - by intros Ha%elem_of_nil.
  - constructor.
  - intros Ha. destruct Hc as [Hf Hc]. destruct (ebps_chain _ _ _ _ Hc Ha) as (fs' & H' & Hl).
    pose proof (chain_length m ebp (f :: fs) fs' (conj Hf Hc) H') as E. cbn [length] in E. lia.
  - destruct Hc as [_ Hc]. by eapply IH.
Qed.

Lemma rd32_mapped m a v : rd32 m a = Ok v -> a ∈ dom m.
Proof. unfold rd32, rd. destruct (m !! a) eqn:E; [|done]. intros _. apply elem_of_dom. by eexists. Qed.

Lemma chain_fuel m ebp fs : chain m ebp fs -> (length fs < walk_fuel m)%nat.
Proof.
  intros Hc. assert (list_to_set (ebps ebp fs) ⊆ dom m) as Hsub.
  { intros a Ha%elem_of_list_to_set. destruct (ebps_chain _ _ _ _ Hc Ha) as ([|f fs'] & H' & _).
    - destruct H' as (_ & s & b & E & _). by eapply rd32_mapped.
    - destruct H' as ((E & _) & _). by eapply rd32_mapped. }
  apply subseteq_size in Hsub. rewrite size_list_to_set in Hsub by (by eapply ebps_NoDup). rewrite size_dom in Hsub.
  assert (forall fs e, length (ebps e fs) = S (length fs)) as Hl
    by (intros l; induction l as [|g l IHl]; intros e; cbn [ebps length]; [done|by rewrite IHl]).
  rewrite Hl in Hsub. unfold walk_fuel. lia.
Qed.

End Chain.

Section Trace.
Context {HW K : Type} `{HL : ConsoleLaws HW, !HeapOps K, L : Layout, PL : PanicLayout} (es : list entry).
Implicit Types w : kern HW K.
Hypothesis es_wf : Forall wf_entry es.
Hypothesis es_sorted : sorted es.
Variables stub len : Z.

Lemma calm_shrink a n b k : calm a n -> a <= b -> b + k <= a + n -> calm b k.
Proof.
  intros [Hc Hs] H1 H2. split; [intros x Hx; apply Hc|intros x Hx; apply Hs]; lia.
Qed.

(** A round prints a frame and goes to the next. *)
Lemma trace_round_frame ebp f k w : walking es stub len w -> shows_screen (k_con w) k -> frame_at es stub len (kmem w) ebp f ->
  wp never (trace_round ebp) (fun c w' => c = Next (f_saved f) /\ traced (frame_parts es f) k w w') w.
Proof.
  intros Hw Hk Hf. pose proof Hf as (H1 & H2 & Hc & Hs0 & Ha0 & Hsv & Hav & Hr & Hirq). unfold trace_round.
  change (ebp + 4 * 1) with (ebp + 4). wp_line. eapply wp_read32; [exact H2|].
  rewrite (proj2 (Z.eqb_neq (f_addr f) 0)) by done. wp_line. eapply wp_read32; [exact H1|]. wp_line.
  rewrite (proj2 (Z.eqb_neq (f_saved f) 0)) by done. wp_line.
  eapply wp_mono; [apply (print_caller_spec es es_wf es_sorted stub len ebp (f_saved f) (f_addr f) (f_symbol f) k w); try done|].
  { apply (calm_shrink ebp 8); [done|lia|lia]. }
  intros [] w1 Ht1. cbv beta. pose proof (walking_traced _ _ _ _ _ _ _ Hw Ht1) as Hw1.
  destruct (frame_settled _ _ _ _ _ _ _ (walked_settled _ _ (traced_memory _ _ _ _ Ht1)) Hf) as (H1' & _ & _ & _ & _ & _ & _ & _ & Hirq').
  pose proof (walking_stub _ _ _ _ Hw1) as (S1 & S2 & _).
  wp_line. eapply wp_read32; [exact S1|]. wp_line. eapply wp_read32; [exact S2|]. fold (in_stub stub len (f_addr f)).
  unfold frame_parts. destruct (f_interrupted f) as [[a r]|].
  - destruct Hirq' as (Hin & Hrd & Hcalm & Ha & Hres). rewrite Hin. wp_line. change (4 * 13) with 52. eapply wp_read32; [exact Hrd|].
    cbv beta. eapply wp_mono; [apply (print_caller_spec es es_wf es_sorted stub len ebp (f_saved f) a r (show_parts (level_of w) (call_parts es (f_saved f) (f_addr f) (f_symbol f)) k) w1); try done|].
    + apply Ht1.
    + apply (calm_shrink ebp 8); [done|lia|lia].
    + intros [] w2 Ht2. cbv beta. wp_line. eapply wp_read32; [|wp_line; split; [done|by eapply traced_app]].
      rewrite <- H1'. apply (calm_rd32 _ _ _ ebp 8 (walked_settled _ _ (traced_memory _ _ _ _ Ht2)) Hc); lia.
  - rewrite Hirq'. wp_line. eapply wp_read32; [exact H1'|]. wp_line. split; [done|]. by rewrite app_nil_r.
Qed.

(** The last frame ends the loop. *)
Lemma trace_round_last ebp k w : last_frame (kmem w) ebp -> shows_screen (k_con w) k ->
  wp never (trace_round ebp) (fun c w' => c = Leave tt /\ traced [] k w w') w.
Proof.
  intros (_ & saved & addr & H1 & H2 & Hz) Hk. unfold trace_round. change (ebp + 4 * 1) with (ebp + 4). wp_line.
  eapply wp_read32; [exact H2|]. destruct (Z.eqb_spec addr 0) as [|Ha]; wp_line.
  - split; [done|by apply traced_nil].
  - eapply wp_read32; [exact H1|]. wp_line. destruct Hz as [|Hz]; [done|]. rewrite (proj2 (Z.eqb_eq saved 0) Hz). wp_line.
    split; [done|by apply traced_nil].
Qed.

Lemma trace_loop fs fuel ebp k w : walking es stub len w -> shows_screen (k_con w) k -> chain es stub len (kmem w) ebp fs ->
  (length fs < fuel)%nat ->
  wp never (st_loop fuel trace_round ebp) (fun _ w' => traced (trace_parts es fs) k w w') w.
Proof.
  revert fuel ebp k w. induction fs as [|f fs IH]; intros [|fuel] ebp k w Hw Hk Hc Hf; try (cbn in Hf; lia); cbn [st_loop chain] in *.
  - wp_line. eapply wp_mono; [by apply trace_round_last|]. intros c w1 [-> Ht]. wp_line. exact Ht.
  - destruct Hc as [Hfr Hc]. wp_line. eapply wp_mono; [by apply (trace_round_frame ebp f k w)|].
    intros c w1 [-> Ht1]. cbv beta iota.
    eapply wp_mono; [apply (IH fuel (f_saved f) (show_parts (level_of w) (frame_parts es f) k) w1)|].
    + by eapply walking_traced.
    + apply Ht1.
    + eapply chain_settled; [apply walked_settled, Ht1|done].
    + cbn in Hf. lia.
    + intros [] w2 Ht2. by apply (traced_app _ _ k w w1 w2).
Qed.

End Trace.

(** ** The whole report *)

(** The symbol of the entry code of interrupts, if there is one. *)
Definition stub_symbol (es : list entry) (o : option (nat * entry)) : Prop :=
  match o with
  | Some (i, e) => es !! i = Some e /\ e_name e = codes stub_name /\
      forall j e', (j < i)%nat -> es !! j = Some e' -> e_name e' <> codes stub_name
  | None => forall i e, es !! i = Some e -> e_name e <> codes stub_name
  end.
Definition stub_found (o : option (nat * entry)) : bool := match o with Some _ => true | None => false end.
Definition stub_addr (o : option (nat * entry)) : Z := match o with Some (i, e) => hex (e_addr e) | None => 0 end.
Definition stub_len (es : list entry) (o : option (nat * entry)) : Z :=
  match o with Some (i, e) => s_len (symbol_of es i e) | None => 0 end.

(** The search for it, with the warning when it is not found. *)
Definition stub_parts (es : list entry) (o : option (nat * entry)) : list part :=
  lookup_parts es stub_name ++ match o with Some _ => [] | None => [Message Warn "panic" (codes warning)] end.

Definition error_text (message : list Z) : list Z := codes "error: " ++ message ++ codes (nl +:+ nl).

Definition banner_parts (message : list Z) : list part :=
  [Plain (codes (nl +:+ "=============" +:+ nl)); Plain (codes ("=== PANIC ===" +:+ nl));
   Plain (codes ("=============" +:+ nl +:+ nl)); Plain (error_text message); Plain (codes ("Call trace:" +:+ nl))].

(** The whole report. *)
Definition panic_parts (es : list entry) (o : option (nat * entry)) (message : list Z) (fs : list frame) : list part :=
  stub_parts es o ++ banner_parts message ++ trace_parts es fs.

Section Report.
Context {HW K : Type} `{HL : ConsoleLaws HW, !HeapOps K, L : Layout, PL : PanicLayout} (es : list entry).
Implicit Types w : kern HW K.

(** [ps] has been printed from the screen [k], and the memory out of the locals
    is the same. *)
Record moved (ps : list part) (k : screen) w w' : Prop := {
  moved_rest : k_nb_syms w' = k_nb_syms w /\ k_symbols w' = k_symbols w /\
    interrupt_flag w' = interrupt_flag w /\ level_of w' = level_of w;
  moved_screen : shows_screen (k_con w') (show_parts (level_of w) ps k);
  moved_sent : u_sent (uart_of (term_hw (con_term (k_con w')))) =
    u_sent (uart_of (term_hw (con_term (k_con w)))) ++ parts_text (level_of w) ps;
  moved_memory : settled (kmem w) (kmem w');
}.

Lemma moved_trans p q k w1 w2 w3 : moved p k w1 w2 -> moved q (show_parts (level_of w1) p k) w2 w3 -> moved (p ++ q) k w1 w3.
Proof.
  intros [(?&?&?&El) _ Hs1 Hm1] [(?&?&?&?) Hk2 Hs2 Hm2]. rewrite El in Hk2, Hs2.
  split; [split_and!; congruence|by rewrite show_parts_app| |by etrans].
  by rewrite Hs2, Hs1, parts_text_app, app_assoc.
Qed.

Lemma moved_nil k w : shows_screen (k_con w) k -> moved [] k w w.
Proof. intros Hk. split; [done|done|by rewrite app_nil_r|done]. Qed.

Lemma traced_moved ps k w w' : traced ps k w w' -> moved ps k w w'.
Proof. intros [(?&?&?&?&?) Hk Hs Hm]. split; [done|done|done|by apply walked_settled]. Qed.

(** A write to a local variable. *)
Lemma local_written a n m k w : shows_screen (k_con w) k -> clear a n -> (forall x, a <= x < a + n -> local x) ->
  mapped (kmem w) a n -> same_outside (kmem w) m a n -> mapped m a n -> moved [] k w (set_kmem m w).
Proof.
  intros Hk Hc Hloc Hm Hs Hm'. split; [done| |by rewrite app_nil_r|].
  - by apply (can_print_area _ k m a n).
  - split; [intros x _ _ _ Hx; apply Hs; intros Hin; by apply Hx, Hloc|].
    intros x Hx. destruct (decide (a <= x < a + n)) as [Hin|Hout].
    + replace x with (a + (x - a)) by lia. apply Hm'. lia.
    + change (kmem (set_kmem m w)) with m. by rewrite Hs.
Qed.

(** The places of the local variables. *)
Record locals_ok (m : bytes) : Prop := {
  locals_positive : 0 < sym /\ 0 < isr_handler_sym;
  locals_clear : clear sym 104 /\ clear isr_handler_sym 104 /\ clear error_buf 256;
  locals_mapped : mapped m sym 104 /\ mapped m isr_handler_sym 104 /\ mapped m error_buf 256;
  locals_apart : (sym + 104 <= isr_handler_sym \/ isr_handler_sym + 104 <= sym) /\
    (sym + 104 <= error_buf \/ error_buf + 256 <= sym) /\
    (isr_handler_sym + 104 <= error_buf \/ error_buf + 256 <= isr_handler_sym);
}.

Lemma settled_mapped m m' a n : settled m m' -> mapped m a n -> mapped m' a n.
Proof. intros [_ Hd] Hm i Hi. by apply Hd, Hm. Qed.

Lemma locals_settled m m' : settled m m' -> locals_ok m -> locals_ok m'.
Proof. intros Hs [H1 H2 (M1 & M2 & M3) H4]. split; try done. split_and!; by eapply settled_mapped. Qed.

(** What [panic] finds in memory, apart from its argument. *)
Record prepared w : Prop := {
  prepared_locals : locals_ok (kmem w);
  prepared_literals : literals_ok (kmem w);
  prepared_stub_name : 0 < lit stub_name;
  prepared_table : table (kmem w) (k_symbols w) es;
  prepared_mapped : mapped (kmem w) (k_symbols w) (104 * k_nb_syms w);
  prepared_count : k_nb_syms w = Z.of_nat (length es);
  prepared_base : 0 < k_symbols w;
  prepared_calm : calm (k_symbols w) (104 * k_nb_syms w);
}.

Lemma prepared_settled w w' : prepared w -> k_nb_syms w' = k_nb_syms w -> k_symbols w' = k_symbols w ->
  settled (kmem w) (kmem w') -> prepared w'.
Proof.
  intros [Hl Hlit Hpos Ht Hm Hn Hb Hc] En Es Hs. split; rewrite ?En, ?Es; try done.
  - by eapply locals_settled.
  - by eapply literals_settled.
  - eapply table_ext; [|exact Ht]. intros x Hx. eapply settled_calm; [exact Hc|done|lia].
  - by eapply settled_mapped.
Qed.

Lemma prepared_moved ps k w w' : prepared w -> moved ps k w w' -> prepared w'.
Proof. intros Hp [(En & Es & _) _ _ Hs]. by eapply prepared_settled. Qed.

(** The same, and the record of the entry code too. *)
Definition advanced (ps : list part) (k : screen) w w' : Prop :=
  moved ps k w w' /\ forall x, isr_handler_sym <= x < isr_handler_sym + 104 -> kmem w' !! x = kmem w !! x.

Lemma advanced_trans p q k w1 w2 w3 : advanced p k w1 w2 -> advanced q (show_parts (level_of w1) p k) w2 w3 -> advanced (p ++ q) k w1 w3.
Proof. intros [M1 S1] [M2 S2]. split; [by eapply moved_trans|]. intros x Hx. by rewrite S2, S1. Qed.

Lemma traced_advanced ps k w w' : locals_ok (kmem w) -> traced ps k w w' -> advanced ps k w w'.
Proof.
  intros [_ (_ & Hic & _) _ (Hap & _)] Ht. split; [by apply traced_moved|]. intros x Hx. destruct (Hic x Hx) as (? & ? & ?).
  apply Ht; try done. lia.
Qed.

Lemma advanced_stub ps k w w' a : advanced ps k w w' -> isr_handler_sym <= a <= isr_handler_sym + 100 ->
  rd32 (kmem w') a = rd32 (kmem w) a.
Proof. intros [_ Hs] Ha. apply rd32_ext. intros x Hx. apply Hs. lia. Qed.

(** A literal without directives. *)
Lemma say_literal s k w : prepared w -> shows_screen (k_con w) k -> s ∈ panic_literals -> plain_text s = true ->
  (length (codes s) < 1024)%nat ->
  wp never (on_con (say s [])) (fun _ w' => advanced [Plain (codes s)] k w w') w.
Proof.
  intros Hp Hk Hs Hpl Hn. rewrite <- (args_lits s), <- (text_lits s) in *.
  eapply wp_mono; [apply (say_traced s (lits s) k w Hk)|].
  - by apply (prepared_literals w Hp).
  - by rewrite format_lits.
  - by apply lits_ok.
  - lia.
  - intros [] w' Ht. apply traced_advanced; [apply Hp|done].
Qed.

Lemma rd32_zero m a : (forall i, 0 <= i < 4 -> m !! (a + i) = Some 0) -> rd32 m a = Ok 0.
Proof.
  intros Hz. unfold rd32, rd. pose proof (Hz 0 ltac:(lia)) as H0. rewrite Z.add_0_r in H0.
  by rewrite H0, !Hz by lia.
Qed.

(** The name of the entry code. *)
Lemma stub_cstr m : literals_ok m -> cstr m (lit stub_name) (codes stub_name).
Proof. intros Hl. destruct (Hl stub_name) as [[Hh _] _]; [in_literals|]. split; [exact Hh|by apply no_nul_spec]. Qed.

(** The message of [symbol_lookup]. *)
Lemma lookup_message k w : prepared w -> shows_screen (k_con w) k ->
  wp never (if k_nb_syms w =? 0 then on_con (dbg "symbol" "no symbols loaded" [])
    else on_con (dbg "symbol" "searching symbol '%s'" [lit stub_name])) (fun _ w' => traced (lookup_parts es stub_name) k w w') w.
Proof.
  intros Hp Hk. rewrite (prepared_count _ Hp). unfold lookup_parts. destruct es as [|e l]; cbn [length].
  - apply (log_plain_traced Dbg "symbol" "no symbols loaded"); try done; first [apply Hp|in_literals].
  - rewrite (proj2 (Z.eqb_neq _ 0)) by lia. rewrite <- searching_name_text.
    change [lit stub_name] with (args_of (searching_name stub_name)).
    apply (log_traced Dbg "symbol" "searching symbol '%s'" (searching_name stub_name) k w Hk); try done; first [apply Hp|in_literals|idtac].
    unfold searching_name. rewrite Forall_app, Forall_cons. split_and!; try (by apply lits_ok).
    destruct (prepared_literals _ Hp stub_name) as [Hl _]; [in_literals|]. by apply literal_arg.
Qed.

(** The search for the name, in a cleared record. *)
Lemma stub_search o k w : prepared w -> shows_screen (k_con w) k -> stub_symbol es o ->
  (forall i, 0 <= i < 104 -> kmem w !! (isr_handler_sym + i) = Some 0) ->
  wp never (on_symbols (symbol_lookup (lit stub_name) isr_handler_sym)) (fun found w' =>
    found = stub_found o /\ moved [] k w w' /\ rd32 (kmem w') isr_handler_sym = Ok (stub_addr o) /\
    rd32 (kmem w') (isr_handler_sym + 4) = Ok (stub_len es o)) w.
Proof.
  intros Hp Hk Ho Hz. destruct (prepared_locals _ Hp) as [(Hs0 & Hi0) (_ & Hic & _) (_ & Him & _) _].
  pose (st := mk_sym (kmem w) (k_heap w) (k_nb_syms w) (k_symbols w)).
  pose proof (stub_cstr _ (prepared_literals _ Hp)) as Hname.
  unfold wp, on_symbols. fold st. destruct o as [[i e]|].
  - destruct Ho as (Hi & He & Hfirst). pose proof (lookup_lt_Some _ _ _ Hi) as Hil.
    pose proof (prepared_calm _ Hp) as Hc. pose proof (prepared_count _ Hp) as Hn.
    assert (isr_handler_sym + 104 <= k_symbols w \/ k_symbols w + 104 * k_nb_syms w <= isr_handler_sym) as Hap.
    { destruct (decide (isr_handler_sym + 104 <= k_symbols w)); [by left|].
      destruct (decide (k_symbols w + 104 * k_nb_syms w <= isr_handler_sym)); [by right|].
      exfalso. apply (proj2 Hc (Z.max isr_handler_sym (k_symbols w))); [lia|right; left; lia]. }
    destruct (symbol_lookup_spec es st (prepared_table _ Hp) Hn (prepared_mapped _ Hp) (lit stub_name) (codes stub_name) i e isr_handler_sym)
      as (m' & Hf & (Haddr & Hlen & _) & Hsame & Hm'); try done.
    { apply Hp. }
    rewrite Hf. cbn [mbind res_bind mret res_ret mem heap nb_syms symbols st]. split; [done|]. split; [|by split].
    eapply local_written; [exact Hk|exact Hic| |exact Him|exact Hsame|exact Hm']. intros x Hx. right. by left.
  - rewrite (symbol_lookup_absent es st (prepared_table _ Hp) (prepared_count _ Hp) _ _ _ Hname Ho).
    cbn [mbind res_bind mret res_ret mem heap nb_syms symbols st]. split; [done|].
    change (moved [] k w (set_kmem (kmem w) w) /\ rd32 (kmem w) isr_handler_sym = Ok 0 /\ rd32 (kmem w) (isr_handler_sym + 4) = Ok 0).
    split; [|split; apply rd32_zero; intros i Hi; rewrite <- ?Z.add_assoc; by rewrite Hz by lia].
    eapply local_written; [exact Hk|exact Hic| |exact Him|done|exact Him]. intros x Hx. right. by left.
Qed.

(** The record of the entry code: cleared, then found or not. *)
Lemma find_stub o k w : prepared w -> shows_screen (k_con w) k -> stub_symbol es o ->
  wp never (on_memory (memset isr_handler_sym 0 sizeof_symbol);;
    lookup_symbol (lit stub_name) isr_handler_sym) (fun found w' =>
    found = stub_found o /\ moved (lookup_parts es stub_name) k w w' /\ rd32 (kmem w') isr_handler_sym = Ok (stub_addr o) /\
    rd32 (kmem w') (isr_handler_sym + 4) = Ok (stub_len es o)) w.
Proof.
  intros Hp Hk Ho. destruct (prepared_locals _ Hp) as [(Hs0 & Hi0) (_ & Hic & _) (_ & Him & _) _].
  destruct (memset_spec (kmem w) isr_handler_sym 0 104 Him ltac:(lia)) as (m1 & Hm1 & Hz & Hs1).
  assert (moved [] k w (set_kmem m1 w)) as M1.
  { eapply local_written; [done|exact Hic| |done|exact Hs1|]; [intros x Hx; right; by left|].
    intros i Hi. rewrite Hz by done. by eexists. }
  wp_line. eapply wp_on_memory; [exact Hm1|]. set (w1 := set_kmem m1 w) in *. pose proof (prepared_moved _ _ _ _ Hp M1) as Hp1.
  pose proof (prepared_stub_name _ Hp1) as Hn0. unfold lookup_symbol. rewrite !(proj2 (Z.eqb_neq (lit stub_name) 0)) by lia.
  destruct (cstr_char _ _ _ 0 105 (stub_cstr _ (prepared_literals _ Hp1)) eq_refl) as [Hb _]. rewrite Z.add_0_r in Hb.
  wp_line. eapply wp_read8; [by apply rd_Ok|]. wp_line. rewrite (proj2 (Z.eqb_neq isr_handler_sym 0)) by lia. cbn [orb Z.eqb].
  eapply wp_mono; [apply (lookup_message k w1 Hp1), M1|]. intros [] w2 T2. cbv beta.
  pose proof (traced_advanced _ _ _ _ (prepared_locals _ Hp1) T2) as [M2 S2]. pose proof (prepared_moved _ _ _ _ Hp1 M2) as Hp2.
  eapply wp_mono; [eapply (stub_search o _ w2 Hp2); [apply M2|done|]|].
  { intros i Hi. rewrite S2 by lia. by apply Hz. }
  intros found w3 (-> & M3 & R). split; [done|]. split; [|exact R].
  pose proof (moved_trans _ _ _ _ _ _ (moved_trans _ _ _ _ _ _ M1 M2) M3) as M. by rewrite app_nil_r in M.
Qed.

(** The warning. *)
Lemma warn_stub o k w : prepared w -> shows_screen (k_con w) k ->
  wp never (if negb (stub_found o) then on_con (warn "panic" warning []) else mret tt)
    (fun _ w' => advanced (match o with Some _ => [] | None => [Message Warn "panic" (codes warning)] end) k w w') w.
Proof.
  intros Hp Hk. destruct o as [e|]; cbn [stub_found negb].
  - wp_line. split; [by apply moved_nil|done].
  - eapply wp_mono; [by apply (log_plain_traced Warn "panic" warning k w Hk); first [apply Hp|in_literals|done]|].
    intros [] w1 H1. apply traced_advanced; [apply Hp|done].
Qed.

(** *** The message *)

(** The argument of [panic]: a format and its arguments that the handler does not
    overwrite, and whose text fits in [error_buf]. *)
Record message_ok (msg fmt : Z) (ps : list piece) (m : bytes) : Prop := {
  message_arg : rd32 m msg = Ok fmt /\ calm msg 4;
  message_format : has m fmt (format_of ps ++ [0]) /\ calm fmt (Z.of_nat (length (format_of ps)) + 1);
  message_pieces : Forall (piece_ok m error_buf 256) ps;
  message_strings : Forall (fun p => match p with Str _ a s => calm a (Z.of_nat (length s) + 1) | _ => True end) ps;
  message_fits : (length (text_of ps) < 256)%nat /\ Forall (fun b => b <> 0) (text_of ps);
}.

Lemma message_settled msg fmt ps m m' : settled m m' -> message_ok msg fmt ps m -> message_ok msg fmt ps m'.
Proof.
  intros Hs [[Ha Hac] [Hf Hfc] Hp Hst Hn]. split; try done.
  - split; [|done]. rewrite <- Ha. apply (calm_rd32 _ _ _ msg 4 Hs Hac); lia.
  - split; [|done]. eapply has_ext; [|exact Hf]. intros x Hx. eapply settled_calm; [exact Hfc|done|].
    rewrite length_app in Hx. cbn in Hx. lia.
  - apply Forall_forall. intros p Hin. rewrite Forall_forall in Hp, Hst. specialize (Hp p Hin). specialize (Hst p Hin).
    destruct p; try done. destruct Hp as (H1 & Hc & H3 & H4). split_and!; try done.
    eapply cstr_ext; [|exact Hc]. intros x Hx. eapply settled_calm; [exact Hst|done|lia].
Qed.

(** An area that is calm is apart from the buffer. *)
Lemma calm_error_buf a n : calm a n -> 0 < n -> a + n <= error_buf \/ error_buf + 256 <= a.
Proof.
  intros [_ Hl] Hn. destruct (decide (a + n <= error_buf)); [by left|]. destruct (decide (error_buf + 256 <= a)); [by right|].
  exfalso. apply (Hl (Z.max a error_buf)); [lia|]. right. right. lia.
Qed.

(** The message is formatted and terminated. *)
Lemma format_message msg fmt ps k w : prepared w -> shows_screen (k_con w) k -> message_ok msg fmt ps (kmem w) ->
  wp never (on_memory (fun m => '(_, m) ← vsprintf error_buf fmt (args_of ps) m; mret m);;
    on_memory (wr (error_buf + (sizeof_error_buf - 1)) 0))
    (fun _ w' => advanced [] k w w' /\ cstr (kmem w') error_buf (text_of ps)) w.
Proof.
  intros Hp Hk [_ [Hf Hfc] Hps _ [Hn Hnz]]. destruct (prepared_locals _ Hp) as [_ (_ & _ & Hec) (_ & _ & Hem) (_ & _ & Hie)].
  pose proof (calm_error_buf _ _ Hfc ltac:(lia)) as Hap.
  assert (Forall (piece_ok (kmem w) error_buf (Z.of_nat (length (text_of ps)) + 1)) ps) as Hps'.
  { eapply Forall_impl; [exact Hps|]. intros p. apply piece_ok_le. lia. }
  destruct (vsprintf_spec ps [] error_buf fmt (kmem w) Hf Hps') as (m1 & Hv & Ht & Hs & Hd); [lia|intros i Hi; apply Hem; lia|].
  rewrite app_nil_r in Hv. wp_line. eapply wp_on_memory; [rewrite Hv; reflexivity|].
  eapply wp_on_memory; [apply wr_Ok; apply Hd, Hem; unfold sizeof_error_buf; lia|].
  unfold sizeof_error_buf. change (256 - 1) with 255.
  change (kmem (set_kmem m1 w)) with m1. set (m2 := <[error_buf + 255 := 0]> m1).
  change (advanced [] k w (set_kmem m2 w) /\ cstr m2 error_buf (text_of ps)).
  assert (forall x, is_Some (m1 !! x) -> is_Some (m2 !! x)) as Hd2.
  { intros x Hx. unfold m2. rewrite lookup_insert_is_Some'. by right. }
  assert (same_outside (kmem w) m2 error_buf 256) as Hs2.
  { intros x Hx. unfold m2. rewrite lookup_insert_ne by lia. apply Hs. lia. }
  split.
  - split; [|intros x Hx; apply Hs2; lia]. eapply local_written; [done|exact Hec| |exact Hem|exact Hs2|].
    + intros x Hx. right. by right.
    + intros i Hi. by apply Hd2, Hd, Hem.
  - split.
    + intros i b Hi. pose proof (lookup_lt_Some _ _ _ Hi) as Hil. rewrite length_app in Hil. cbn [length] in Hil.
      unfold m2. destruct (decide (i = 255%nat)) as [->|Hne].
      * apply lookup_app_Some in Hi as [Hi|[_ Hi]]; [apply lookup_lt_Some in Hi; lia|].
        apply list_lookup_singleton_Some in Hi as [_ <-]. apply lookup_insert_eq.
      * rewrite lookup_insert_ne by lia. by apply Ht.
    + pose proof (text_bytes _ _ _ _ Hps) as Hb. rewrite Forall_forall in Hb, Hnz |- *. intros b Hin.
      specialize (Hb b Hin). specialize (Hnz b Hin). unfold is_u8 in Hb. lia.
Qed.

(** "error: ..." *)
Lemma say_error text k w : prepared w -> shows_screen (k_con w) k -> cstr (kmem w) error_buf text -> (length text < 256)%nat ->
  let s := error_text text in
  wp never (on_con (say ("error: %s" +:+ nl +:+ nl) [error_buf])) (fun _ w' => advanced [Plain s] k w w') w.
Proof.
  intros Hp Hk Hc Hn s. pose (ps := lits "error: " ++ Str no_field error_buf text :: lits (nl +:+ nl)).
  assert (text_of ps = s) as Ht.
  { unfold ps, s, error_text. rewrite text_app, text_lits.
    change (text_of (Str no_field error_buf text :: ?l)) with (in_field no_field text ++ text_of l).
    by rewrite in_no_field, text_lits. }
  change [error_buf] with (args_of ps).
  destruct (prepared_locals _ Hp) as [_ (_ & _ & Hec) _ _].
  assert (clear error_buf (Z.of_nat (length text) + 1)) as Hcl by (intros x Hx; apply Hec; lia).
  assert (plain_text "error: " = true /\ plain_text (nl +:+ nl) = true) as [P1 P2] by done.
  assert (length s < 1024)%nat as Hs.
  { unfold s, error_text. rewrite !length_app. change (length (codes "error: ")) with 7%nat. change (length (codes (nl +:+ nl))) with 2%nat. lia. }
  eapply wp_mono; [apply (say_traced _ ps k w Hk)|].
  - apply (prepared_literals _ Hp). in_literals.
  - reflexivity.
  - unfold ps. apply Forall_app. split; [by apply lits_ok|]. apply Forall_cons. split; [|by apply lits_ok].
    split; [|exact Hcl]. pose proof (clear_apart _ _ Hcl ltac:(lia)).
    split; [by repeat constructor|]. split; [exact Hc|]. lia.
  - rewrite Ht. lia.
  - rewrite Ht. intros [] w' Htr. apply traced_advanced; [apply Hp|done].
Qed.

End Report.

Section Conclusion.
Context {HW K : Type} `{HL : ConsoleLaws HW, !HeapOps K, L : Layout, PL : PanicLayout} (es : list entry).
Implicit Types w : kern HW K.
Hypothesis es_wf : Forall wf_entry es.
Hypothesis es_sorted : sorted es.

(** The walk, from a state where everything is in place. *)
Lemma walk_spec o ebp fs k w : prepared es w -> shows_screen (k_con w) k ->
  rd32 (kmem w) isr_handler_sym = Ok (stub_addr o) -> rd32 (kmem w) (isr_handler_sym + 4) = Ok (stub_len es o) ->
  chain es (stub_addr o) (stub_len es o) (kmem w) ebp fs ->
  wp never (fuel ← gets (fun w => walk_fuel (kmem w)); st_loop fuel trace_round ebp)
    (fun _ w' => moved (trace_parts es fs) k w w') w.
Proof.
  intros Hp Hk H1 H2 Hc. destruct (prepared_locals _ _ Hp) as [(Hs0 & _) (Hsc & Hic & _) (Hsm & _) (Hap & _)].
  wp_line. eapply wp_mono; [apply (trace_loop es es_wf es_sorted (stub_addr o) (stub_len es o) fs _ ebp k w); try done|].
  - split; try apply Hp; try done.
  - by eapply chain_fuel.
  - intros [] w' Ht. by apply traced_moved.
Qed.

(** The state between two steps of the report. *)
Record reporting (o : option (nat * entry)) (msg fmt : Z) (ps : list piece) (fs : list frame) (k : screen) w : Prop := {
  reporting_prepared : prepared es w;
  reporting_screen : shows_screen (k_con w) k;
  reporting_message : message_ok msg fmt ps (kmem w);
  reporting_stub : rd32 (kmem w) isr_handler_sym = Ok (stub_addr o) /\ rd32 (kmem w) (isr_handler_sym + 4) = Ok (stub_len es o);
  reporting_chain : chain es (stub_addr o) (stub_len es o) (kmem w) (msg - 8) fs;
}.

Lemma reporting_advanced o msg fmt ps fs p k w w' :
  reporting o msg fmt ps fs k w -> advanced p k w w' -> reporting o msg fmt ps fs (show_parts (level_of w) p k) w'.
Proof.
  intros [Hp Hk Hm [S1 S2] Hc] Ha. pose proof (proj1 Ha) as Hmv. pose proof (moved_memory _ _ _ _ Hmv) as Hs. split.
  - by eapply prepared_moved.
  - apply Hmv.
  - by eapply message_settled.
  - rewrite !(advanced_stub _ _ _ _ _ Ha) by lia. done.
  - by eapply chain_settled.
Qed.

(** A line without directives. *)
Lemma report_literal o msg fmt ps fs s k w (Q : unit -> kern HW K -> Prop) :
  reporting o msg fmt ps fs k w -> s ∈ panic_literals -> plain_text s = true -> (length (codes s) < 1024)%nat ->
  (forall w', reporting o msg fmt ps fs (show_parts (level_of w) [Plain (codes s)] k) w' -> advanced [Plain (codes s)] k w w' ->
    Q tt w') ->
  wp never (on_con (say s [])) Q w.
Proof.
  intros Hr Hs Hpl Hn HQ. eapply wp_mono; [by apply (say_literal es s k w (reporting_prepared _ _ _ _ _ _ _ Hr)); [apply Hr|..]|].
  intros [] w' Ha. apply HQ; [exact (reporting_advanced _ _ _ _ _ _ _ _ _ Hr Ha)|done].
Qed.

(** All the lines. *)
Lemma report_spec o msg fmt ps fs k w : reporting o msg fmt ps fs k w ->
  wp never (on_con (say (nl +:+ "=============" +:+ nl) []);;
    on_con (say ("=== PANIC ===" +:+ nl) []);;
    on_con (say ("=============" +:+ nl +:+ nl) []);;
    fmt ← read32 msg;
    on_memory (fun m => '(_, m) ← vsprintf error_buf fmt (args_of ps) m; mret m);;
    on_memory (wr (error_buf + (sizeof_error_buf - 1)) 0);;
    on_con (say ("error: %s" +:+ nl +:+ nl) [error_buf]);;
    on_con (say ("Call trace:" +:+ nl) []);;
    fuel ← gets (fun w => walk_fuel (kmem w));
    st_loop fuel trace_round (msg - 8))
    (fun _ w' => moved (banner_parts (text_of ps) ++ trace_parts es fs) k w w') w.
Proof.
  intros Hr. wp_line. eapply report_literal; [exact Hr|in_literals|done|by apply Nat.ltb_lt|]. intros w1 Hr1 A1. cbv beta.
  wp_line. eapply report_literal; [exact Hr1|in_literals|done|by apply Nat.ltb_lt|]. intros w2 Hr2 A2. cbv beta.
  wp_line. eapply report_literal; [exact Hr2|in_literals|done|by apply Nat.ltb_lt|]. intros w3 Hr3 A3. cbv beta.
  wp_line. eapply wp_read32; [apply (reporting_message _ _ _ _ _ _ _ Hr3)|].
  eapply (wp_group _ (on_memory _) (fun _ => on_memory _)).
  eapply wp_mono; [eapply (format_message es msg fmt ps); apply Hr3|]. intros [] w4 [A4 Hbuf]. cbv beta.
  pose proof (reporting_advanced _ _ _ _ _ _ _ _ _ Hr3 A4) as Hr4.
  wp_line. eapply wp_mono; [eapply (say_error es (text_of ps)); [apply Hr4|apply Hr4|exact Hbuf|apply Hr4]|].
  intros [] w5 A5. cbv beta. pose proof (reporting_advanced _ _ _ _ _ _ _ _ _ Hr4 A5) as Hr5.
  wp_line. eapply report_literal; [exact Hr5|in_literals|done|by apply Nat.ltb_lt|]. intros w6 Hr6 A6. cbv beta.
  eapply wp_mono; [eapply (walk_spec o (msg - 8) fs); apply Hr6|]. intros [] w7 M7.
  exact (moved_trans _ _ _ _ _ _ (proj1 A1) (moved_trans _ _ _ _ _ _ (proj1 A2) (moved_trans _ _ _ _ _ _ (proj1 A3)
    (moved_trans _ _ _ _ _ _ (proj1 A4) (moved_trans _ _ _ _ _ _ (proj1 A5) (moved_trans _ _ _ _ _ _ (proj1 A6) M7)))))).
Qed.

End Conclusion.

(** ** The theorem *)

Lemma panic_spec {HW K} `{HL : ConsoleLaws HW, !HeapOps K, L : Layout, PL : PanicLayout} es o msg fmt ps fs
    (w : kern HW K) k :
  Forall wf_entry es -> sorted es -> stub_symbol es o -> prepared es w -> shows_screen (k_con w) k ->
  message_ok msg fmt ps (kmem w) -> chain es (stub_addr o) (stub_len es o) (kmem w) (msg - 8) fs ->
  let level := g_log_level (k_con w) in
  let report := panic_parts es o (text_of ps) fs in
  exists w', panic msg (args_of ps) w = Ok (tt, w') /\ interrupt_flag w' = false /\
    shows_screen (k_con w') (show_parts level report k) /\
    u_sent (uart_of (term_hw (con_term (k_con w')))) =
      u_sent (uart_of (term_hw (con_term (k_con w)))) ++ parts_text level report /\
    settled (kmem w) (kmem w').
Proof.
  intros Hwf Hsorted Ho Hp Hk Hm Hc level report.
  set (w0 := mk_kern (k_con w) (k_heap w) (k_nb_syms w) (k_symbols w) false).
  assert (prepared es w0) as Hp0 by (destruct Hp; by split).
  assert (wp never (panic msg (args_of ps)) (fun _ w' => moved report k w0 w') w) as Hwp.
  { unfold panic, disable_interrupts. apply wp_bind, wp_modify. cbv zeta. change (4 * 2) with 8. fold w0.
    eapply (wp_group _ (on_memory _) (fun _ => lookup_symbol _ _)).
    eapply wp_mono; [by apply (find_stub es o k w0 Hp0 Hk Ho)|]. intros found w1 (-> & M1 & S1 & S2). cbv beta.
    pose proof (prepared_moved _ _ _ _ _ Hp0 M1) as Hp1. wp_line.
    eapply wp_mono; [eapply (warn_stub es o _ w1 Hp1); apply M1|]. intros [] w2 A2. cbv beta.
    assert (reporting es o msg fmt ps fs (show_parts level (lookup_parts es stub_name) k) w1) as R1.
    { split; [done|apply M1| |by split|]; [eapply message_settled; [apply M1|exact Hm]|].
      eapply chain_settled; [apply M1|exact Hc]. }
    pose proof (reporting_advanced es o msg fmt ps fs _ _ _ _ R1 A2) as R2.
    eapply wp_mono; [by apply (report_spec es Hwf Hsorted o msg fmt ps fs _ w2 R2)|]. intros [] w3 M3.
    pose proof (moved_trans _ _ _ _ _ _ M1 (moved_trans _ _ _ _ _ _ (proj1 A2) M3)) as Mall.
    unfold report, panic_parts, stub_parts. by rewrite <- app_assoc. }
  destruct (wp_run _ _ _ Hwp) as ([] & w' & Hw' & [(_ & _ & Hfl & _) Hsc Hsent Hmem]).
  exists w'. split_and!; [exact Hw'|exact Hfl|exact Hsc|exact Hsent|exact Hmem].
Qed.

(** C10. [panic] always reaches its last loop, with interrupts disabled, and has
    printed, on the screen and on the serial line, the whole report: what the
    search for the entry code of interrupts logs, with a warning when that code has
    no symbol; the banner and the formatted message; and the call trace, which has
    for each frame of the chain up to the last one the messages of the search for
    its symbol, then the symbol that covers the return address with the offset in
    it and its length, or the bare address when none does, and, for the entry code
    of interrupts, the same for the interrupted instruction.  Messages are printed
    when the level admits them, in the colour of their severity, and bring the
    default colour back whether they are printed or not, so that the rest of the
    report is in it.  Memory out of the console and of the local variables is as it
    was.  The walk ends because a chain that ends has no cycle. *)
Theorem panic_reports {HW K} `{HL : ConsoleLaws HW, !HeapOps K, L : Layout, PL : PanicLayout} es o msg fmt ps fs
    (w : kern HW K) k :
  Forall wf_entry es -> sorted es -> stub_symbol es o -> prepared es w -> shows_screen (k_con w) k ->
  message_ok msg fmt ps (kmem w) -> chain es (stub_addr o) (stub_len es o) (kmem w) (msg - 8) fs ->
  let level := g_log_level (k_con w) in
  let report := panic_parts es o (text_of ps) fs in
  exists w', panic msg (args_of ps) w = Ok (tt, w') /\ interrupt_flag w' = false /\
    shows_screen (k_con w') (show_parts level report k) /\
    u_sent (uart_of (term_hw (con_term (k_con w')))) =
      u_sent (uart_of (term_hw (con_term (k_con w)))) ++ parts_text level report /\
    settled (kmem w) (kmem w').
Proof. apply panic_spec. Qed.

(** ** An instance

    "f" at 0x1000 and the entry code of interrupts at 0x1100; "f" was interrupted
    at 0x1015 and the handler, at 0x1010, calls [panic("oops %d", 7)].  The frames
    are at 0x2d00, 0x2d10 and 0x2d80, the table of symbols at 0x2000. *)
Definition demo_f : entry := mk_entry [102] [84] (codes "1000") [].
Definition demo_isr : entry := mk_entry (codes "isr_common_stub") [116] (codes "1100") (codes "20").
Definition demo_symbols : list entry := [demo_f; demo_isr].

Definition le32 (v : Z) : list Z := [v mod 256; v / 2 ^ 8 mod 256; v / 2 ^ 16 mod 256; v / 2 ^ 24 mod 256].
Definition record_bytes (addr len : Z) (name : list Z) : list Z :=
  le32 addr ++ le32 len ++ name ++ replicate (96 - length name) 0.

Definition demo_crash : bytes :=
  area 0x2000 (record_bytes 0x1000 0x100 [102] ++ record_bytes 0x1100 0x20 (codes "isr_common_stub")) ∪
  (area 0x2800 (replicate 104 0) ∪ (area 0x2900 (replicate 104 0) ∪ (area 0x2a00 (replicate 256 0) ∪
  (area 0x2c00 (codes "oops %d" ++ [0]) ∪
  (area 0x2d00 (le32 0x2d10 ++ le32 0x1010 ++ le32 0x2c00 ++ le32 7) ∪
  (area 0x2d10 (le32 0x2d80 ++ le32 0x1105) ∪ (area 0x2d44 (le32 0x1015) ∪ area 0x2d80 (le32 0 ++ le32 0x1020)))))))).

Definition demo_frames : list frame :=
  [mk_frame 0x2d10 0x1010 (Some (0%nat, demo_f)) None;
   mk_frame 0x2d80 0x1105 (Some (1%nat, demo_isr)) (Some (0x1015, Some (0%nat, demo_f)))].

Definition demo_oops : list piece := lits "oops " ++ [Num no_field Dec 7].
Definition demo_stub : option (nat * entry) := Some (1%nat, demo_isr).

Definition demo_mem : bytes := demo_memory panic_literals demo_crash.

#[local] Instance demo_places : Layout := demo_layout panic_literals.
#[local] Instance demo_locals : PanicLayout := {| sym := 0x2800; isr_handler_sym := 0x2900; error_buf := 0x2a00 |}.

Lemma area_mapped a l : mapped (area a l) a (Z.of_nat (length l)).
Proof.
  intros i Hi. destruct (area a l !! (a + i)) eqn:E; [by eexists|]. exfalso. unfold area in E.
  apply not_elem_of_list_to_map in E. apply E. rewrite fst_zip by (rewrite length_seqZ; lia). apply elem_of_seqZ. lia.
Qed.

(** What is read in the part that the instance fills. *)
Lemma rd_union_l (m1 m2 : bytes) a b : rd m1 a = Ok b -> rd (m1 ∪ m2) a = Ok b.
Proof. unfold rd. destruct (m1 !! a) eqn:E; [|done]. by rewrite (lookup_union_Some_l _ _ _ _ E). Qed.

Lemma rd32_union_l (m1 m2 : bytes) a v : rd32 m1 a = Ok v -> rd32 (m1 ∪ m2) a = Ok v.
Proof.
  unfold rd32. intros (b0 & H0 & (b1 & H1 & (b2 & H2 & (b3 & H3 & Hv)%bind_Ok)%bind_Ok)%bind_Ok)%bind_Ok.
  by rewrite (rd_union_l _ _ _ _ H0), (rd_union_l _ _ _ _ H1), (rd_union_l _ _ _ _ H2), (rd_union_l _ _ _ _ H3).
Qed.

Ltac demo_word := unfold demo_mem, demo_memory; apply rd32_union_l; vm_compute; reflexivity.
Ltac demo_has := unfold demo_mem, demo_memory; apply has_union_l, hasb_has; vm_compute; reflexivity.

Lemma demo_calm a n : (100 <? a) && (a + n <=? 4096) || (0x2000 <=? a) && (a + n <=? 0x2800) || (0x2b00 <=? a) && (a + n <=? 0x4000) = true ->
  calm a n.
Proof.
  intros Ha. unfold calm, clear, local, off_screen, VGA_MEMORY. cbn [putchar_var printf_area sym isr_handler_sym error_buf
    demo_places demo_locals demo_layout].
  rewrite !orb_true_iff, !andb_true_iff, !Z.ltb_lt, !Z.leb_le in Ha. split; intros x Hx; lia.
Qed.

Lemma demo_mem_mapped : mapped demo_mem 0x2000 208 /\ mapped demo_mem 0x2800 104 /\ mapped demo_mem 0x2900 104 /\ mapped demo_mem 0x2a00 256.
Proof.
  split_and!; apply mapped_union; left; do 2 (apply mapped_union; right);
    repeat (apply mapped_union; first [by left; refine (area_mapped _ _)|right]).
Qed.

Lemma demo_panic_literals s : s ∈ panic_literals -> literal demo_mem s /\ calm (lit s) (Z.of_nat (length (codes s)) + 1).
Proof.
  assert (forallb (fun s => literalb panic_literals demo_crash s &&
    ((100 <? placed panic_literals s) && (placed panic_literals s + (Z.of_nat (length (codes s)) + 1) <=? 4096))) panic_literals = true)
    as Hall by (by vm_compute).
  rewrite List.forallb_forall in Hall. intros Hs%list_elem_of_In. apply Hall, andb_true_iff in Hs as [H1 H2]. split; [by apply literalb_spec|].
  apply demo_calm. cbn [lit demo_places demo_layout]. by rewrite H2.
Qed.

Lemma demo_table : table demo_mem 0x2000 demo_symbols.
Proof.
  intros [|[|i]] e He; cbn in He; [injection He as <-|injection He as <-|done];
    (split; [demo_word|]; split; [demo_word|]; split; [|cbn; lia]; split; [demo_has|]).
  - repeat constructor; lia.
  - by apply (no_nul_spec "isr_common_stub").
Qed.

Lemma demo_locals_ok : locals_ok demo_mem.
Proof.
  destruct demo_mem_mapped as (_ & H1 & H2 & H3). split; [done| |exact (conj H1 (conj H2 H3))|].
  - split_and!; apply demo_clear_spec; by vm_compute.
  - cbn [sym isr_handler_sym error_buf demo_locals]. lia.
Qed.

Ltac demo_goal := lazymatch goal with
  | |- rd32 _ _ = _ => demo_word
  | |- calm _ _ => apply demo_calm; vm_compute; reflexivity
  | |- in_stub _ _ _ = _ => reflexivity
  | |- is_u32 _ => unfold is_u32; cbn; lia
  | |- resolved _ _ _ => (split; [reflexivity|split; [split; [by vm_compute|first [by vm_compute|right; by vm_compute]]|reflexivity]])
  | |- _ <> _ => discriminate
  end.

Lemma demo_frame_0 : frame_at demo_symbols 0x1100 0x20 demo_mem 0x2d00 (mk_frame 0x2d10 0x1010 (Some (0%nat, demo_f)) None).
Proof. unfold frame_at. cbn [f_saved f_addr f_symbol f_interrupted]. split_and!; demo_goal. Qed.

Lemma demo_frame_1 : frame_at demo_symbols 0x1100 0x20 demo_mem 0x2d10
  (mk_frame 0x2d80 0x1105 (Some (1%nat, demo_isr)) (Some (0x1015, Some (0%nat, demo_f)))).
Proof. unfold frame_at. cbn [f_saved f_addr f_symbol f_interrupted]. split_and!; demo_goal. Qed.

Lemma demo_chain : chain demo_symbols 0x1100 0x20 demo_mem 0x2d00 demo_frames.
Proof.
  split; [exact demo_frame_0|]. split; [exact demo_frame_1|].
  split; [demo_goal|]. exists 0, 0x1020. split_and!; [demo_goal..|by right].
Qed.

Lemma demo_symbols_wf : Forall wf_entry demo_symbols.
Proof.
  repeat (apply Forall_cons; split); [..|by apply Forall_nil];
    (split; [repeat constructor; unfold field_char; cbn; lia|]; split; [cbn; lia|];
     split; [repeat constructor; unfold field_char; cbn; lia|]; split; [by eexists|]; split; [cbn; lia|]; split; [by eexists|cbn; lia]).
Qed.

Lemma demo_symbols_sorted : sorted demo_symbols.
Proof. intros [|[|i]] e e' H1 H2; cbn [lookup list_lookup demo_symbols] in *; simplify_eq; by vm_compute. Qed.

Lemma demo_stub_symbol : stub_symbol demo_symbols demo_stub.
Proof.
  split; [done|split; [done|]]. intros [|j] e Hj He; [injection He as <-; done|lia].
Qed.

(** The machine after the initialisation of the console, at the level of debug
    messages. *)
Definition demo_kern (t : terminal demo_hw) : kern demo_hw Z := mk_kern (mk_con t 3) 0 2 0x2000 true.

Lemma demo_table_calm : calm 0x2000 208.
Proof. by apply demo_calm. Qed.

Definition demo_crashed : kern demo_hw Z := demo_kern (demo_start panic_literals demo_crash).

Lemma demo_crashed_memory : kmem demo_crashed = demo_mem.
Proof. unfold kmem, demo_crashed, demo_kern, demo_start, demo_mem. cbn [k_con con_term memory]. reflexivity. Qed.

Lemma demo_prepared : prepared demo_symbols demo_crashed.
Proof.
  apply Build_prepared; rewrite ?demo_crashed_memory.
  - exact demo_locals_ok.
  - exact demo_panic_literals.
  - reflexivity.
  - exact demo_table.
  - exact (proj1 demo_mem_mapped).
  - reflexivity.
  - reflexivity.
  - exact demo_table_calm.
Qed.

(** The initialisation of the console changes nothing of this. *)
Lemma demo_ready t : can_print 100 4096 t boot_screen -> settled demo_mem (memory t) -> prepared demo_symbols (demo_kern t).
Proof.
  intros Hcan Hset. apply (prepared_settled demo_symbols _ _ demo_prepared); [done..|]. by rewrite demo_crashed_memory.
Qed.

Lemma demo_message : message_ok 0x2d08 0x2c00 demo_oops demo_mem.
Proof.
  split.
  - split; demo_goal.
  - split; [demo_has|demo_goal].
  - repeat (apply Forall_cons; split); [..|by apply Forall_nil]; repeat (constructor || split); cbn; lia || done.
  - repeat (apply Forall_cons; split); [..|by apply Forall_nil]; done.
  - split; [by apply Nat.ltb_lt|]. repeat (apply Forall_cons; split); [done..|by apply Forall_nil].
Qed.

Lemma demo_settled t : can_print 100 4096 t boot_screen -> same_elsewhere demo_mem (memory t) -> settled demo_mem (memory t).
Proof.
  intros ((Hk & _) & _) Hs. split; [intros x Hx _ _ _; by apply Hs|]. intros x Hx.
  destruct (decide (VGA_MEMORY <= x < VGA_MEMORY + 4000)) as [Hin|Hout]; [|by rewrite Hs].
  pose proof (displays_mapped _ _ (shows_cells _ _ Hk) (x - VGA_MEMORY) ltac:(lia)) as H2.
  by replace (VGA_MEMORY + (x - VGA_MEMORY)) with x in H2 by lia.
Qed.

Lemma panic_reports_witness : exists t w', kernel_early_init 0x200000 (demo_start panic_literals demo_crash) = Ok (mk_gdtr 39 0x200000, t) /\
  panic 0x2d08 [7] (demo_kern t) = Ok (tt, w') /\
  u_sent (uart_of (term_hw (con_term (k_con w')))) = u_sent (uart_of (term_hw t)) ++
    codes ("[symbol] DBG: searching symbol 'isr_common_stub'" +:+ nl +:+
      nl +:+ "=============" +:+ nl +:+ "=== PANIC ===" +:+ nl +:+ "=============" +:+ nl +:+ nl +:+
      "error: oops 7" +:+ nl +:+ nl +:+ "Call trace:" +:+ nl +:+
      "[symbol] DBG: searching symbol at 0x00001010" +:+ nl +:+
      "- (ebp=0x00002d10) f() + 0x10/0x100" +:+ nl +:+
      "[symbol] DBG: searching symbol at 0x00001105" +:+ nl +:+
      "- (ebp=0x00002d80) isr_common_stub() + 0x5/0x20" +:+ nl +:+
      "[symbol] DBG: searching symbol at 0x00001015" +:+ nl +:+
      "- (ebp=0x00002d80) f() + 0x15/0x100" +:+ nl).
Proof.
  destruct (demo_started panic_literals demo_crash) as (t & Ht & Hcan & Hs).
  pose proof (demo_settled t Hcan Hs) as Hset.
  destruct (panic_reports demo_symbols demo_stub 0x2d08 0x2c00 demo_oops demo_frames (demo_kern t) boot_screen)
    as (w' & Hw & _ & _ & Hsent & _).
  - exact demo_symbols_wf.
  - exact demo_symbols_sorted.
  - exact demo_stub_symbol.
  - exact (demo_ready t Hcan Hset).
  - exact Hcan.
  - exact (message_settled _ _ _ _ _ Hset demo_message).
  - exact (chain_settled _ _ _ _ _ _ _ Hset demo_chain).
  - exists t, w'. split; [exact Ht|]. split; [exact Hw|]. rewrite Hsent. apply f_equal. vm_compute. reflexivity.
Defined.
