(* ===== verification/Dumps.v ===== *)
(** * The dumps of the log

    The functions that print the tables of the kernel, for debugging: the memory
    maps of phys_mem_map.c, the entries and the tables of paging.c, the metadata
    of page_frame_allocator.c and the configuration byte of ps2ctrl.c.  The models
    of these files leave their calls out: they print, and do nothing else. *)
From S2P Require Import Prelude Page Pfa Pmm Mmu Libc Printf PrintfSpec Format Io World Irq Clock Isr Ps2ctrl.
From S2P Require Import Descriptors Console ConsoleSpec Log.

Section Dumps.
Context {HW : Type} `{Hardware HW, Layout}.
Notation M := (ST (con HW)).

(** [for (i = 0; i < n; ++i) body]. *)
Definition each (n : Z) (body : Z -> M unit) : M unit := st_for (Z.to_nat n) 0 body.

(** *** phys_mem_map.c *)

Definition mmap_dump (mmap : multiboot_mmap_entry) : M unit :=
  dbg "physmm" "base_addr = 0x%x%08x length = 0x%x%08x, type = 0x%x"
    [Z.shiftr (mm_addr mmap) 32; Z.land (mm_addr mmap) 0xffffffff;
     Z.shiftr (mm_len mmap) 32; Z.land (mm_len mmap) 0xffffffff; mm_type mmap].

Definition type_name (type : Z) : string :=
  if type =? MMAP_TYPE_AVAILABLE then "AVAILABLE"
  else if type =? MMAP_TYPE_RESERVED then "RESERVED"
  else if type =? MMAP_TYPE_ACPI then "ACPI"
  else if type =? MMAP_TYPE_NVS then "NVS"
  else if type =? MMAP_TYPE_BADRAM then "BADRAM"
  else "UNKNOWN".

Definition dump_entry (pmme : phys_mmap_entry) : M unit :=
  dbg "physmm" "[0x%08x - 0x%08x] %s"
    [pe_addr pmme; pe_addr pmme ⊕ pe_len pmme ⊖ 1; lit (type_name (pe_type pmme))].

Definition dump_phys_mem_map (pmm : phys_mmap) : M unit :=
  dbg "physmm" "-----[ dumping phys_mem_map ]-----" [];;
  each (pmm_len pmm) (fun entry => pmme ← lift (aget (pmm_entries pmm) entry); dump_entry pmme);;
  dbg "physmm" "----------------------------------" [].

Definition dump_range (start end_ : Z) (name : string) : M unit :=
  dbg "physmm" "[0x%08x - 0x%08x] %s" [start; end_ ⊖ 1; lit name].

(** The module structures are the one of the model: its callers have refused any
    other number. *)
Definition module_at (mbi : multiboot_info) (i : Z) : res multiboot_module :=
  if i =? 0 then mret (mbi_mod mbi) else Err Oob.

Definition dump_multitboot (kernel_start kernel_end : Z) (mbi : multiboot_info) : M unit :=
  dbg "physmm" "-------[ dump multiboot" [];;
  dump_range kernel_start kernel_end "kernel";;
  dump_range (mbi_ptr mbi) (mbi_ptr mbi ⊕ sizeof_multiboot_info) "mbi";;
  (if has_mods mbi && negb (mods_count mbi =? 0) then
     each (mods_count mbi) (fun i =>
       let module := mods_addr mbi ⊕ i ⊗ sizeof_multiboot_module in
       dump_range module (module ⊕ sizeof_multiboot_module) "mod_header";;
       m ← lift (module_at mbi i);
       dump_range (mod_start m) (mod_end m) "mod")
   else mret tt);;
  (if negb (Z.land (mbi_flags mbi) MULTIBOOT_INFO_MEM_MAP =? 0) then
     dump_range (mmap_addr mbi) (mmap_addr mbi ⊕ mmap_length mbi) "mem map";;
     st_loop (mmap_fuel mbi) (fun p =>
       if p <? mmap_addr mbi ⊕ mmap_length mbi then
         mmap ← lift (mmap_at mbi p);
         (if mm_type mmap =? MMAP_TYPE_AVAILABLE then
            dbg "physmm" "base_addr = 0x%x%08x,length = 0x%x%08x, type = 0x%x"
              [Z.shiftr (mm_addr mmap) 32; Z.land (mm_addr mmap) 0xffffffff;
               Z.shiftr (mm_len mmap) 32; Z.land (mm_len mmap) 0xffffffff; mm_type mmap]
          else mret tt);;
         mret (Next (mmap_next p mmap))
       else mret (Leave tt)) (mmap_addr mbi)
   else mret tt);;
  dbg "physmm" "-------[ end-of-dump multiboot" [].

(** *** paging.c *)

Definition choose (b : bool) (s t : string) : Z := lit (if b then s else t).
Definition set_in (v mask : Z) : bool := negb (Z.land v mask =? 0).

Definition dump_pde (pde : Z) : M unit :=
  dbg "paging" "---[ dumping PDE: 0x%x ]---" [pde];;
  dbg "paging" "page table addr (phys) = 0x%p" [Z.land pde PDE_MASK_ADDR];;
  dbg "paging" "flags = 0x%x" [Z.land pde (u32 (Z.lnot PDE_MASK_ADDR))];;
  dbg "paging" "- present: %s" [choose (set_in pde PDE_MASK_PRESENT) "yes" "no"];;
  dbg "paging" "- ro/rw: %s" [choose (set_in pde PDE_MASK_READWRITE) "read/write" "read-only"];;
  dbg "paging" "- user/supervisor: %s" [choose (set_in pde PDE_MASK_SUPERVISOR) "user" "supervisor"];;
  dbg "paging" "- wt/wb: %s" [choose (set_in pde PDE_MASK_WRITE_THROUGH) "write-through" "write-back"];;
  dbg "paging" "- cache: %s" [choose (set_in pde PDE_MASK_CACHE_DISABLED) "disabled" "enabled"];;
  dbg "paging" "- accessed: %s" [choose (set_in pde PDE_MASK_ACCESSED) "yes" "no"];;
  dbg "paging" "- page size: %s" [choose (set_in pde PDE_MASK_PAGE_SIZE) "4MB" "4KB"];;
  dbg "paging" "- global: %s" [choose (set_in pde PDE_MASK_GLOBAL_PAGE) "yes" "no"];;
  dbg "paging" "---[ end of dump ]---" [].

Definition dump_pte (pte : Z) : M unit :=
  dbg "paging" "---[ dumping PTE: 0x%x ]---" [pte];;
  dbg "paging" "page addr (phys) = 0x%p" [Z.land pte PTE_MASK_ADDR];;
  dbg "paging" "flags = 0x%x" [Z.land pte (u32 (Z.lnot PTE_MASK_ADDR))];;
  dbg "paging" "- present: %s" [choose (set_in pte PTE_MASK_PRESENT) "yes" "no"];;
  dbg "paging" "- ro/rw: %s" [choose (set_in pte PTE_MASK_READWRITE) "read/write" "read-only"];;
  dbg "paging" "- user/supervisor: %s" [choose (set_in pte PTE_MASK_SUPERVISOR) "user" "supervisor"];;
  dbg "paging" "- wt/wb: %s" [choose (set_in pte PTE_MASK_WRITE_THROUGH) "write-through" "write-back"];;
  dbg "paging" "- cache: %s" [choose (set_in pte PTE_MASK_CACHE_DISABLED) "disabled" "enabled"];;
  dbg "paging" "- accessed: %s" [choose (set_in pte PTE_MASK_ACCESSED) "yes" "no"];;
  dbg "paging" "- dirty: %s" [choose (set_in pte PTE_MASK_DIRTY) "yes" "no"];;
  dbg "paging" "- PAT: %s" [choose (set_in pte PTE_MASK_PT_ATTRIBUTE_INDEX) "enabled" "disabled"];;
  dbg "paging" "- global: %sTLB invalidation" [choose (set_in pte PTE_MASK_GLOBAL_PAGE) "no " ""];;
  dbg "paging" "---[ end of dump ]---" [].

(** The table is at [pg_table] in the memory of words [m]. *)
Definition dump_page_table (m : gmap Z Z) (pg_table : Z) (only_present : bool) : M unit :=
  dbg "paging" "---[ dumping page table 0x%p ]---" [pg_table];;
  if pg_table =? 0 then error "paging" "invalid argument" []
  else
    nb_presents ← st_loop 1025 (fun '(i, nb_presents) =>
      if i <? 1024 then
        let pte := word m (pg_table + 4 * i) in
        if negb only_present || set_in pte PTE_MASK_PRESENT then
          dbg "paging" "  pt[%d] = 0x%x" [i; pte];; mret (Next (i + 1, nb_presents + 1))
        else mret (Next (i + 1, nb_presents))
      else mret (Leave nb_presents)) (0, 0);
    (if nb_presents =? 0 then dbg "paging" "page table is empty" [] else mret tt);;
    dbg "paging" "---[ end of dumping ]---" [].

(** *** page_frame_allocator.c *)

(** [ptrs] are the addresses in [region_ptrs]. *)
Definition dump_pfa_meta (pm : pfa_meta) (ptrs : list Z) : M unit :=
  dbg "pfa" "---[ dump pfa_meta ]---" [];;
  dbg "pfa" "- nb_regions = %u" [nb_regions pm];;
  each (nb_regions pm) (fun region =>
    pr ← lift (aget (region_ptrs pm) region);
    ptr ← lift (aget ptrs region);
    dbg "pfa" "- region_ptrs[%u] = 0x%p" [region; ptr];;
    dbg "pfa" (tab +:+ "[region #%u] nb_pages = %u") [region; nb_pages pr];;
    dbg "pfa" (tab +:+ "[region #%u] first_page = 0x%p") [region; first_page pr]);;
  dbg "pfa" "-----------------------" [].

(** *** ps2ctrl.c *)

Definition dump_configuration_byte (conf_byte : Z) : M unit :=
  dbg "ps2ctrl" "dumping configuration byte:" [];;
  dbg "ps2ctrl" "- first PS/2 port interrupt: %s"
    [choose (set_in conf_byte CTRL_CONF_FIRST_PS2_PORT_INTERRUPT) "enabled" "disabled"];;
  dbg "ps2ctrl" "- first PS/2 port clock: %s"
    [choose (set_in conf_byte CTRL_CONF_FIRST_PS2_PORT_CLOCK) "disabled" "enabled"];;
  dbg "ps2ctrl" "- first PS/2 port translation: %s"
    [choose (set_in conf_byte CTRL_CONF_FIRST_PS2_PORT_TRANSLATION) "enabled" "disabled"];;
  dbg "ps2ctrl" "- second PS/2 port interrupt: %s"
    [choose (set_in conf_byte CTRL_CONF_SECOND_PS2_PORT_INTERRUPT) "enabled" "disabled"];;
  dbg "ps2ctrl" "- second PS/2 port clock: %s"
    [choose (set_in conf_byte CTRL_CONF_SECOND_PS2_PORT_CLOCK) "disabled" "enabled"];;
  dbg "ps2ctrl" "- system flag: %s"
    [choose (set_in conf_byte CTRL_CONF_SYSTEM_FLAG) "system passed POST" "ERROR"];;
  dbg "ps2ctrl" "- zero0: %d" [if set_in conf_byte CTRL_CONF_ZERO1 then 1 else 0];;
  dbg "ps2ctrl" "- zero1: %d" [if set_in conf_byte CTRL_CONF_ZERO2 then 1 else 0].

End Dumps.

(** ** They only print *)

Section OnlyPrint.
Context {HW : Type} `{Hardware HW, Layout} (R : con HW -> con HW -> Prop) `{!PreOrder R}.
Context (Hmsg : forall sv md fmt args, pres R (log_at sv md fmt args)).

Lemma dbg_only_prints md fmt args : pres R (dbg md fmt args).
Proof. apply (Hmsg Dbg). Qed.
Lemma error_only_prints md fmt args : pres R (error md fmt args).
Proof. apply (Hmsg Error). Qed.

Ltac only_messages := repeat (cbv beta zeta; lazymatch goal with
  | |- pres _ (dbg _ _ _) => apply dbg_only_prints
  | |- pres _ (error _ _ _) => apply error_only_prints
  | |- pres _ (mret _) => refine (pres_ret _ _)
  | |- pres _ (lift _) => refine (pres_lift _ _)
  | |- pres _ (_ ≫= _) => refine (pres_bind _ _ _ _ _); [|intros ?]
  | |- pres _ (st_for _ _ _) => refine (pres_for _ _ _ _ _); intros ?
  | |- pres _ (st_loop _ _ _) => refine (pres_loop _ _ _ _ _); intros ?
  | |- pres _ (match ?x with _ => _ end) => destruct x
  end).

(** Whatever the messages do not change, the dumps do not change. *)
Theorem dumps_only_print :
  (forall pmm, pres R (dump_phys_mem_map pmm)) /\
  (forall kernel_start kernel_end mbi, pres R (dump_multitboot kernel_start kernel_end mbi)) /\
  (forall mmap, pres R (mmap_dump mmap)) /\
  (forall pde, pres R (dump_pde pde)) /\ (forall pte, pres R (dump_pte pte)) /\
  (forall m pg_table only_present, pres R (dump_page_table m pg_table only_present)) /\
  (forall pm ptrs, pres R (dump_pfa_meta pm ptrs)) /\
  (forall conf_byte, pres R (dump_configuration_byte conf_byte)).
Proof.
  split_and!; intros; unfold dump_phys_mem_map, dump_multitboot, mmap_dump, dump_pde, dump_pte, dump_page_table, dump_pfa_meta,
    dump_configuration_byte, each, dump_entry, dump_range; only_messages.
Qed.

End OnlyPrint.

(** ** What two of them print *)

(** The name of a literal of a message of level DEBUG. *)
Definition dbg_literal (fmt : string) : string := "[%s] " +:+ "DBG: " +:+ fmt +:+ nl.

Section Texts.
Context {HW : Type} `{HL : ConsoleLaws HW, L : Layout} (ls : list string).
Implicit Types w : con HW.

(** Messages of every level are printed, and the literals [ls] are in memory. *)
Definition verbose w : Prop :=
  (exists scr, shows_screen w scr) /\ g_log_level w = level_value LOG_DEBUG /\
  forall s, s ∈ ls -> literal (con_memory w) s.

Definition sent w : list Z := u_sent (uart_of (term_hw (con_term w))).

(** [f] returns after having printed [t]. *)
Definition prints {A} (f : ST (con HW) A) (a : A) (t : list Z) : Prop :=
  forall w, verbose w -> wp never f (fun b w' => b = a /\ verbose w' /\ sent w' = sent w ++ t /\
    kept putchar_var printf_area (con_memory w) (con_memory w')) w.

Lemma prints_ret {A} (a : A) : prints (mret a) a [].
Proof. intros w Hw. apply wp_ret. split_and!; [done|done|by rewrite app_nil_r|done]. Qed.

Lemma prints_bind {A B} (f : ST (con HW) A) (g : A -> ST (con HW) B) a b t u :
  prints f a t -> prints (g a) b u -> prints (f ≫= g) b (t ++ u).
Proof.
  intros Hf Hg w Hw. apply wp_bind. eapply wp_mono; [by apply Hf|]. intros a' w1 (-> & Hw1 & E1 & K1).
  eapply wp_mono; [by apply Hg|]. intros b' w2 (-> & Hw2 & E2 & K2). split_and!; [done|done| |by etrans].
  by rewrite E2, E1, app_assoc.
Qed.

Lemma prints_lift {A} (r : res A) a : r = Ok a -> prints (lift r) a [].
Proof. intros ->. apply prints_ret. Qed.

(** A message of which the literals are among [ls]. *)
Lemma prints_dbg md fmt ps :
  bool_decide (md ∈ ls) && bool_decide (dbg_literal fmt ∈ ls) && no_nul md = true -> codes fmt = format_of ps ->
  (forall w, verbose w -> Forall (arg_ok (con_memory w)) ps) ->
  Z.of_nat (length (message_text md "DBG: " (text_of ps))) < 1024 ->
  prints (dbg md fmt (args_of ps)) tt (message_text md "DBG: " (text_of ps)).
Proof.
  intros [[Hmd%bool_decide_eq_true Hl%bool_decide_eq_true]%andb_true_iff Hn]%andb_true_iff Hf Hps Hlen w Hw.
  pose proof Hw as ([scr Hscr] & Hlev & Hlit).
  eapply wp_mono; [by apply (log_at_spec Dbg md fmt ps w scr Hscr (Hlit _ Hmd) Hn (Hlit _ Hl) Hf (Hps _ Hw) Hlen)|].
  intros [] w' (Hg & Hs & Hsent & Hk). rewrite Hlev in Hsent. split_and!; [done| |done|done].
  split; [by eexists|]. split; [by rewrite Hg|]. intros s Hin. by eapply literal_kept, Hlit.
Qed.

Lemma prints_plain md fmt :
  bool_decide (md ∈ ls) && bool_decide (dbg_literal fmt ∈ ls) && no_nul md && plain_text fmt &&
    (Z.of_nat (length (message_text md "DBG: " (codes fmt))) <? 1024) = true ->
  prints (dbg md fmt []) tt (message_text md "DBG: " (codes fmt)).
Proof.
  intros [[Hb Hpl]%andb_true_iff Hlen%Z.ltb_lt]%andb_true_iff. rewrite <- (args_lits fmt), <- (text_lits fmt).
  apply prints_dbg; [done|by rewrite format_lits|intros w Hw; by apply lits_ok|by rewrite text_lits].
Qed.

(** A loop over an array. *)
Lemma prints_each {A} (l : list A) (body : Z -> A -> ST (con HW) unit) (t : Z -> A -> list Z) :
  (forall i x, l !! i = Some x -> prints (body (Z.of_nat i) x) tt (t (Z.of_nat i) x)) ->
  prints (each (Z.of_nat (length l)) (fun i => x ← lift (aget l i); body i x)) tt (concat (imap (fun i => t (Z.of_nat i)) l)).
Proof.
  intros Hb. unfold each. rewrite Nat2Z.id.
  assert (forall l2 l1, l = l1 ++ l2 -> prints (st_for (length l2) (Z.of_nat (length l1)) (fun i => x ← lift (aget l i); body i x)) tt
    (concat (imap (fun i => t (Z.of_nat (length l1 + i))) l2))) as Hl; [|by apply (Hl l [])].
  induction l2 as [|x l2 IH]; intros l1 E; [apply prints_ret|]. cbn [length st_for imap concat].
  assert (l !! length l1 = Some x) as Hx by (rewrite E; by apply list_lookup_middle). rewrite Nat.add_0_r.
  eapply prints_bind.
  - eapply (prints_bind _ _ _ _ []); [apply prints_lift; by rewrite aget_nat, Hx|by apply Hb].
  - specialize (IH (l1 ++ [x])). rewrite length_app, Nat2Z.inj_add in IH. cbn [length] in IH.
    erewrite imap_ext; [apply IH; by rewrite <- app_assoc|]. intros i y _. cbn [compose]. f_equal. lia.
Qed.

End Texts.

Section Listings.
Context {HW : Type} `{HL : ConsoleLaws HW, L : Layout}.

(** *** The memory map *)

(** "%08x" *)
Definition hex8 : conv_field := mk_field [Zero] [56] None None.

Definition entry_pieces (e : phys_mmap_entry) : list piece :=
  let type := type_name (pe_type e) in
  lits "[0x" ++ Num hex8 Hex (pe_addr e) :: lits " - 0x" ++ Num hex8 Hex (pe_addr e ⊕ pe_len e ⊖ 1) :: lits "] " ++
  [Str no_field (lit type) (codes type)].

Definition listing (pmm : phys_mmap) : list Z :=
  message_text "physmm" "DBG: " (codes "-----[ dumping phys_mem_map ]-----") ++
  concat ((fun e => message_text "physmm" "DBG: " (text_of (entry_pieces e))) <$> pmm_entries pmm) ++
  message_text "physmm" "DBG: " (codes "----------------------------------").

Definition pmm_literals : list string :=
  ["physmm"; dbg_literal "-----[ dumping phys_mem_map ]-----"; dbg_literal "[0x%08x - 0x%08x] %s";
   dbg_literal "----------------------------------";
   "AVAILABLE"; "RESERVED"; "ACPI"; "NVS"; "BADRAM"; "UNKNOWN"].

Lemma hex_text_length f w : f = hex8 \/ f = no_field -> (length (piece_text (Num f Hex w)) <= 8)%nat.
Proof.
  intros Hf. apply Nat2Z.inj_le. unfold piece_text. cbv zeta. rewrite number_text_length. change (number_base Hex) with 16.
  pose proof (hex_digits_length (number_value f Hex w) (Z.lor (field_flags f) (number_flags Hex))) as Hd.
  destruct Hf as [-> | ->].
  - change (length (number_sign _ _)) with 0%nat. change (length (number_prefix _ _)) with 0%nat.
    change (field_width hex8) with 8. change (field_precision hex8) with (-1). lia.
  - change (length (number_sign _ _)) with 0%nat. change (length (number_prefix _ _)) with 0%nat.
    change (field_width no_field) with (-1). change (field_precision no_field) with (-1). lia.
Qed.

Lemma hex_ok m f w : f = hex8 \/ f = no_field -> arg_ok m (Num f Hex w).
Proof. intros [-> | ->]; (split; [|done]); split_and!; try done; repeat (constructor || split); unfold decimal_char; cbn; lia || done. Qed.

Lemma type_name_literal type : type_name type ∈ pmm_literals /\ no_nul (type_name type) = true /\ (length (codes (type_name type)) <= 9)%nat.
Proof. unfold type_name. repeat case_match; (split; [by apply (bool_decide_unpack _)|split; [done|cbn; lia]]). Qed.

Ltac text_lengths := repeat match goal with |- context [length (codes (String ?a ?s))] =>
  let n := eval vm_compute in (length (codes (String a s))) in change (length (codes (String a s))) with n end;
  change (length (codes nl)) with 1%nat; cbn [length].

Lemma prints_entry e : prints pmm_literals (dump_entry e) tt (message_text "physmm" "DBG: " (text_of (entry_pieces e))).
Proof.
  destruct (type_name_literal (pe_type e)) as (Hin & Hnul & Hlen). unfold dump_entry.
  apply (prints_dbg pmm_literals "physmm" "[0x%08x - 0x%08x] %s" (entry_pieces e)); [by vm_compute|by vm_compute| |].
  - intros w (_ & _ & Hlit). unfold entry_pieces. cbv zeta. rewrite Forall_app, Forall_cons, Forall_app, Forall_cons, Forall_app.
    split_and!; try (by apply lits_ok); try (apply hex_ok; by left). apply Forall_singleton, literal_arg; [by apply Hlit|done|lia].
  - unfold entry_pieces. cbv zeta. set (ty := type_name (pe_type e)) in *.
    rewrite text_app, text_lits. change (text_of (?p :: ?l)) with (piece_text p ++ text_of l).
    rewrite text_app, text_lits. change (text_of (?p :: ?l)) with (piece_text p ++ text_of l).
    rewrite text_app, text_lits. change (text_of [Str no_field (lit ty) (codes ty)]) with (in_field no_field (codes ty) ++ []).
    rewrite in_no_field. unfold message_text. rewrite !length_app.
    pose proof (hex_text_length hex8 (pe_addr e) ltac:(by left)). pose proof (hex_text_length hex8 (pe_addr e ⊕ pe_len e ⊖ 1) ltac:(by left)).
    text_lengths. lia.
Qed.

(** [dump_phys_mem_map] prints the header, one line for each entry in order with
    its bounds and the name of its type, and the footer. *)
Theorem dump_phys_mem_map_lists pmm : pmm_len pmm = Z.of_nat (length (pmm_entries pmm)) ->
  prints pmm_literals (dump_phys_mem_map pmm) tt (listing pmm).
Proof.
  intros Hlen. unfold dump_phys_mem_map, listing. eapply prints_bind; [apply prints_plain; by vm_compute|].
  eapply prints_bind; [|apply prints_plain; by vm_compute].
  rewrite Hlen.
  replace ((fun e => message_text "physmm" "DBG: " (text_of (entry_pieces e))) <$> pmm_entries pmm)
    with (imap (fun _ e => message_text "physmm" "DBG: " (text_of (entry_pieces e))) (pmm_entries pmm)).
  - apply (prints_each _ _ (fun _ => dump_entry) (fun _ e => message_text "physmm" "DBG: " (text_of (entry_pieces e)))).
    intros i e _. apply prints_entry.
  - generalize (pmm_entries pmm). intros l. induction l as [|e l IH]; [done|]. cbn [imap fmap list_fmap]. by rewrite <- IH.
Qed.

End Listings.
