(* ===== verification/Stop.v ===== *)
(** * How the code stops on purpose (abort.c, types.h)

    The calls of the panic handler of panic.c by [abort] and by the macros of
    types.h.  A call leaves its first argument, the return address and the frame
    of the caller on the stack, where the handler finds them: [slot] is the
    address of the argument. *)
From S2P Require Import Prelude Libc Printf PrintfSpec Format Io Descriptors Console ConsoleSpec Log Symbols SymbolSpec Panic PanicSpec.

Section Stop.
Context {HW K : Type} `{Hardware HW, HeapOps K, Layout, PanicLayout}.

(** [panic(fmt, args)], called in the frame [ebp] and returning to [ret]. *)
Definition call_panic (slot ret ebp fmt : Z) (args : list Z) : ST (kern HW K) unit :=
  on_memory (wr32 slot fmt);;
  on_memory (wr32 (slot - 4) ret);;
  on_memory (wr32 (slot - 8) ebp);;
  Panic.panic slot args.

(** *** abort.c

    The loop after the call is never reached. *)
Definition abort (slot ret ebp : Z) : ST (kern HW K) unit := call_panic slot ret ebp (lit "abort") [].

(** *** types.h

    [__FILE__] is a literal, [__LINE__] a number. *)
Definition NOT_IMPLEMENTED (slot ret ebp : Z) (file : string) (line : Z) : ST (kern HW K) unit :=
  call_panic slot ret ebp (lit "NOT IMPLEMENTED [%s:%d]") [lit file; line].

Definition UNTESTED_CODE (md : string) : ST (kern HW K) unit :=
  on_con (warn md "UNTESTED CODE!" []);;
  on_con (warn md "UNTESTED CODE!" []);;
  on_con (warn md "UNTESTED CODE!" []).

End Stop.

(** ** What they report *)

Section Reports.
Context {HW K : Type} `{HL : ConsoleLaws HW, !HeapOps K, L : Layout, PL : PanicLayout}.
Implicit Types w : kern HW K.

(** The stack after the call. *)
Definition pushed (slot ret ebp fmt : Z) (m : bytes) : res bytes :=
  m ← wr32 slot fmt m; m ← wr32 (slot - 4) ret m; wr32 (slot - 8) ebp m.

Lemma call_panic_pushed slot ret ebp fmt args w m : pushed slot ret ebp fmt (kmem w) = Ok m ->
  call_panic slot ret ebp fmt args w = Panic.panic slot args (set_kmem m w).
Proof.
  unfold pushed. intros (m1 & E1 & (m2 & E2 & E3)%bind_Ok)%bind_Ok. unfold call_panic, mbind, ST_bind, on_memory.
  rewrite E1. cbn [mbind res_bind mret res_ret]. change (kmem (set_kmem m1 w)) with m1. rewrite E2. cbn [mbind res_bind mret res_ret].
  change (kmem (set_kmem m2 (set_kmem m1 w))) with m2. rewrite E3. done.
Qed.

(** It holds the argument, the return address and the frame. *)
Lemma pushed_spec slot ret ebp fmt m : mapped m (slot - 8) 12 -> is_u32 fmt -> is_u32 ret -> is_u32 ebp ->
  exists m', pushed slot ret ebp fmt m = Ok m' /\ rd32 m' slot = Ok fmt /\ rd32 m' (slot - 4) = Ok ret /\ rd32 m' (slot - 8) = Ok ebp /\
    same_outside m m' (slot - 8) 12 /\ forall x, is_Some (m !! x) -> is_Some (m' !! x).
Proof.
  intros Hm Hf Hr He. unfold pushed.
  assert (forall a (m1 : bytes), (forall x, is_Some (m !! x) -> is_Some (m1 !! x)) -> slot - 8 <= a <= slot -> mapped m1 a 4) as Hsub.
  { intros a m1 H1 Ha i Hi. apply H1. replace (a + i) with (slot - 8 + (a + i - (slot - 8))) by lia. apply Hm. lia. }
  destruct (wr32_spec slot fmt m) as (m1 & -> & R1 & S1 & D1); [apply Hsub; [done|lia]|done|]. cbn [mbind res_bind].
  destruct (wr32_spec (slot - 4) ret m1) as (m2 & -> & R2 & S2 & D2); [apply Hsub; [done|lia]|done|]. cbn [mbind res_bind].
  destruct (wr32_spec (slot - 8) ebp m2) as (m3 & -> & R3 & S3 & D3); [apply Hsub; [intros x Hx; by apply D2, D1|lia]|done|].
  exists m3. split; [done|]. split_and!; [| |done| |intros x Hx; by apply D3, D2, D1].
  - rewrite (rd32_ext m2) by (intros x Hx; apply S3; lia). rewrite (rd32_ext m1) by (intros x Hx; apply S2; lia). done.
  - rewrite (rd32_ext m2) by (intros x Hx; apply S3; lia). done.
  - intros x Hx. rewrite S3, S2, S1 by lia. done.
Qed.

(** A call of [panic] prints the report of [panic_parts], of which the first call is
    the one of the caller. *)
Theorem stop_reports es o slot ret ebp fmt ps fs r w k :
  Forall wf_entry es -> sorted es -> stub_symbol es o ->
  mapped (kmem w) (slot - 8) 12 -> calm (slot - 8) 12 -> is_u32 fmt -> is_u32 ret -> is_u32 ebp -> ret <> 0 -> ebp <> 0 ->
  resolved es ret r -> in_stub (stub_addr o) (stub_len es o) ret = false ->
  shows_screen (k_con w) k ->
  (forall m, pushed slot ret ebp fmt (kmem w) = Ok m -> prepared es (set_kmem m w) /\ message_ok slot fmt ps m /\
     chain es (stub_addr o) (stub_len es o) m ebp fs) ->
  exists w', call_panic slot ret ebp fmt (args_of ps) w = Ok (tt, w') /\ interrupt_flag w' = false /\
    u_sent (uart_of (term_hw (con_term (k_con w')))) = u_sent (uart_of (term_hw (con_term (k_con w)))) ++
      parts_text (g_log_level (k_con w)) (panic_parts es o (text_of ps) (mk_frame ebp ret r None :: fs)).
Proof.
  intros Hwf Hsorted Ho Hmap Hcalm Hf Hr He Hr0 He0 Hres Hstub Hk Hm.
  destruct (pushed_spec slot ret ebp fmt (kmem w) Hmap Hf Hr He) as (m & Hp & _ & R2 & R3 & Hs & _).
  destruct (Hm m Hp) as (Hprep & Hmsg & Hchain). rewrite (call_panic_pushed _ _ _ _ _ _ m Hp).
  assert (shows_screen (k_con (set_kmem m w)) k) as Hk'.
  { by apply (can_print_area (con_term (k_con w)) k m (slot - 8) 12 Hk (proj1 Hcalm)). }
  destruct (panic_spec es o slot fmt ps (mk_frame ebp ret r None :: fs) (set_kmem m w) k Hwf Hsorted Ho Hprep Hk' Hmsg)
    as (w' & E & Hfl & _ & Hsent & _); [|by exists w'].
  split; [|done]. split_and!; try done.
  - by replace (slot - 8 + 4) with (slot - 4) by lia.
  - split; [intros x Hx|intros x Hx; apply Hcalm; lia]. apply (proj1 Hcalm). lia.
Qed.

(** [abort] reports "abort". *)
Corollary abort_reports es o slot ret ebp fs r w k :
  Forall wf_entry es -> sorted es -> stub_symbol es o ->
  mapped (kmem w) (slot - 8) 12 -> calm (slot - 8) 12 -> is_u32 (lit "abort") -> is_u32 ret -> is_u32 ebp -> ret <> 0 -> ebp <> 0 ->
  resolved es ret r -> in_stub (stub_addr o) (stub_len es o) ret = false ->
  shows_screen (k_con w) k ->
  (forall m, pushed slot ret ebp (lit "abort") (kmem w) = Ok m -> prepared es (set_kmem m w) /\
     message_ok slot (lit "abort") (lits "abort") m /\ chain es (stub_addr o) (stub_len es o) m ebp fs) ->
  exists w', abort slot ret ebp w = Ok (tt, w') /\ interrupt_flag w' = false /\
    u_sent (uart_of (term_hw (con_term (k_con w')))) = u_sent (uart_of (term_hw (con_term (k_con w)))) ++
      parts_text (g_log_level (k_con w)) (panic_parts es o (codes "abort") (mk_frame ebp ret r None :: fs)).
Proof.
  intros A1 A2 A3 A4 A5 A6 A7 A8 A9 A10 A11 A12 A13 A14.
  destruct (stop_reports es o slot ret ebp _ (lits "abort") fs r w k A1 A2 A3 A4 A5 A6 A7 A8 A9 A10 A11 A12 A13 A14)
    as (w' & E & Hrest). rewrite args_lits in E. rewrite text_lits in Hrest. by exists w'.
Qed.

End Reports.
