(* ===== verification/Boot.v ===== *)
(** * From the boot loader to paging ([mem_init] of init.c)

    The initialisation of the memory as a whole: the physical memory map, the page
    frame allocator and paging, each on what the one before has left. *)
From S2P Require Import Prelude Page Pfa PfaSpec PfaRun Pmm PmmSort PmmSpec PmmInit PmmThms.
From S2P Require Import PfaInit PfaInitSpec PfaBoot Mmu Paging PagingSpec PagingBoot Kmalloc KmallocSpec KmallocPages.

(** [module_addr] and [module_len] are kept, the map is the one [pfa_init] has
    marked. *)
Definition with_map (pmm : phys_mmap) (pst : pmm_state) : pmm_state :=
  mk_pmm_state pmm (nb_reserved pst) (module_addr pst) (module_len pst).
Definition with_meta (m : pfa_meta) (s : sys) : sys := mk_sys (cpu s) m (page_directory s) (paging_enabled s).

Definition mem_init (kernel_start kernel_end : Z) (ram : Z -> nat -> list phys_mmap_entry) (mbi : multiboot_info)
    (pst : pmm_state) (st : pfa_state) (s : sys) : res (pmm_state * pfa_state * sys) :=
  if Z.land (mbi_flags mbi) MULTIBOOT_INFO_MEM_MAP =? 0 then
    Err (Panic "no memory map from multiboot info, cannot initialize memory")
  else
    '(ok, pst) ← phys_mem_map_init kernel_start kernel_end ram mbi pst;
    if negb ok then Err (Panic "failed to initialize memory map")
    else
      '(ok, pmm, st) ← pfa_init (phys_mem_map pst) st;
      let pst := with_map pmm pst in
      if negb ok then Err (Panic "failed to init the page frame allocator")
      else
        s ← paging_setup kernel_start kernel_end st pst (with_meta (the_meta st) s);
        mret (pst, st, s).

(** ** What is left by each part to the next one *)

(** The metadata starts on a page and is not empty. *)
Lemma pfa_init_meta es room st pmm st' :
  map_ok es -> Z.of_nat (length es) < 2 ^ 11 -> pfa_init (pmm_of es room) st = Ok (true, pmm, st') ->
  aligned (meta_ptr st') /\ 0 < pfa_meta_reserved_pages st' /\ 0x100000 <= meta_ptr st'.
Proof.
  intros Hok Hn. pose proof (proj1 Hok) as Hw. unfold pfa_init.
  rewrite pfa_meta_size_spec by done. cbn [mbind res_bind].
  destruct (find_hosting_spec es room Hw Hn) as [[-> _]|(k & e & He & Hv & Hfit & ->)]; cbn [mbind res_bind]; [done|].
  rewrite (reserve_regions_spec es room Hw Hn k e He Hv Hfit). cbn [mbind res_bind mret res_ret].
  intros [= _ <-]. cbn [meta_ptr pfa_meta_reserved_pages].
  destruct (meta_size_bounds es Hw Hn) as (_ & _ & Hal & Hpos).
  destruct (valid_frames e) as (_ & _ & _ & Hlow & Hfal & _); [|done|].
  { by eapply Forall_lookup_1 in Hw. }
  split_and!; [done | | done]. unfold aligned, PAGE_SIZE in *. Z.div_mod_to_equations. lia.
Qed.

(** ** Pages *)

(** What the link script and the boot loader give: the kernel starts on a page
    and ends inside of one, it is loaded above 1 MB as the module is, the two share
    no page, and there is no memory in the last 4 MB, where the page tables are
    mapped. *)
Record pages_wf (kernel_start kernel_end : Z) (mbi : multiboot_info) : Prop := {
  pw_kernel : aligned kernel_start /\ 0x100000 <= kernel_start /\ kernel_end mod 4096 <> 0 /\
    kernel_end < 0xffbff000;
  pw_memory : forall b, byte_type (mm_entries mbi) b MMAP_TYPE_AVAILABLE -> b < 0xffc00000;
  pw_module : has_mods mbi = true -> let s := mod_start (mbi_mod mbi) in let e := mod_end (mbi_mod mbi) in
    0x100000 <= s < e /\ e <= 0xffc00000 /\ (page_up e <= kernel_start \/ page_up kernel_end <= s);
}.

(** Two ranges without a common page, the second one not empty, are apart. *)
Lemma no_page_apart r1 r2 : 0 < r1.2 -> 0 < r2.2 -> (forall q, ~ (in_range r1 q /\ in_range r2 q)) -> ranges_apart r1 r2.
Proof.
  intros H1 H2 Hno. unfold ranges_apart, in_range in *.
  destruct (decide (r1.1 + r1.2 <= r2.1)); [by left|]. destruct (decide (r2.1 + r2.2 <= r1.1)); [by right|].
  exfalso. apply (Hno (Z.max r1.1 r2.1)). lia.
Qed.

Section Ranges.
Context (kernel_start kernel_end pmm_addr : Z) (mbi : multiboot_info) (pst : pmm_state) (st : pfa_state).
Context (es : list phys_mmap_entry).
Hypothesis kernel_pos : kernel_start < kernel_end.
Hypothesis pages : pages_wf kernel_start kernel_end mbi.
Hypothesis es_wf : Forall entry_wf es.
Hypothesis described : forall b t, byte_type es b t <->
  (taken kernel_start kernel_end mbi pmm_addr b /\ t = MMAP_TYPE_RESERVED) \/
  (~ taken kernel_start kernel_end mbi pmm_addr b /\ byte_type (mm_entries mbi) b t).
Hypothesis started : pfa_started es st.
Hypothesis meta_wf : aligned (meta_ptr st) /\ 0 < pfa_meta_reserved_pages st /\ 0x100000 <= meta_ptr st.
Hypothesis module_vars :
  if has_mods mbi then module_addr pst = mod_start (mbi_mod mbi) /\
    module_len pst = mod_end (mbi_mod mbi) - mod_start (mbi_mod mbi)
  else module_addr pst = 0 /\ module_len pst = 0.

(** The bytes the allocator owns are available and in nobody's hands. *)
Lemma owned_byte b : managed (the_meta st) b \/ meta_area st b ->
  byte_type (mm_entries mbi) b MMAP_TYPE_AVAILABLE /\ 0x100000 <= b /\ ~ taken kernel_start kernel_end mbi pmm_addr b.
Proof.
  destruct started as (_ & _ & Hfr & _). intros Hb. apply Hfr in Hb.
  destruct (in_frames_byte es b es_wf Hb) as [Hav Hlow]. apply described in Hav as [[_ ?]|[Hnt Hav]]; [done|].
  done.
Qed.

Lemma metadata_page q b : in_range (metadata_range st) q -> 4096 * q <= b < 4096 * q + 4096 -> meta_area st b.
Proof.
  destruct meta_wf as (Hal & _). unfold in_range, metadata_range, meta_area, aligned, PAGE_SIZE in *. cbn [fst snd].
  intros. Z.div_mod_to_equations. lia.
Qed.

(** Each page of the kernel holds a byte of the kernel; the same for the module. *)
Lemma kernel_page q : in_range (kernel_range kernel_start kernel_end) q ->
  exists b, 4096 * q <= b < 4096 * q + 4096 /\ kernel_start <= b < kernel_end.
Proof.
  destruct pages as [(Hal & Hlow & Hend & _) _ _]. unfold in_range, kernel_range, page_up, aligned, PAGE_SIZE in *.
  cbn [fst snd]. intros Hq. exists (Z.max kernel_start (4096 * q)). Z.div_mod_to_equations. lia.
Qed.

Lemma module_page q : in_range (module_range pst) q -> has_mods mbi = true /\
  exists b, 4096 * q <= b < 4096 * q + 4096 /\ mod_start (mbi_mod mbi) <= b < mod_end (mbi_mod mbi).
Proof.
  destruct pages as [_ _ Hmod]. unfold module_range, in_range. destruct (has_mods mbi).
  - destruct module_vars as [-> ->]. destruct (Hmod eq_refl) as (Hs & _). cbv zeta in *.
    case_match; cbn [fst snd]; [lia|]. intros Hq. split; [done|].
    exists (Z.max (mod_start (mbi_mod mbi)) (4096 * q)). Z.div_mod_to_equations. lia.
  - destruct module_vars as [_ ->]. cbn. lia.
Qed.

Lemma kernel_metadata_apart : ranges_apart (kernel_range kernel_start kernel_end) (metadata_range st).
Proof.
  apply no_page_apart.
  - unfold kernel_range, page_up. cbn [snd]. Z.div_mod_to_equations. lia.
  - apply meta_wf.
  - intros q [Hk Hm]. destruct (kernel_page q Hk) as (b & Hb & Hkb).
    destruct (owned_byte b) as (_ & _ & Hnt); [right; by apply (metadata_page q)|]. apply Hnt. by left.
Qed.

Lemma module_apart r : 0 < r.2 ->
  (forall q b, in_range r q -> has_mods mbi = true -> 4096 * q <= b < 4096 * q + 4096 ->
     ~ mod_start (mbi_mod mbi) <= b < mod_end (mbi_mod mbi)) ->
  0 <= r.1 -> ranges_apart r (module_range pst).
Proof.
  intros Hr Hno Hpos. destruct (decide (0 < (module_range pst).2)).
  - apply no_page_apart; [done..|]. intros q [Hq Hm]. destruct (module_page q Hm) as (Hmods & b & Hb & Hmb).
    by apply (Hno q b).
  - right. unfold module_range in *. destruct (module_len pst =? 0) eqn:E; [cbn; lia|].
    exfalso. apply n. cbn [snd]. destruct pages as [_ _ Hmod]. destruct (has_mods mbi).
    + destruct module_vars as [-> ->]. destruct (Hmod eq_refl) as (Hs & _). cbv zeta in *. Z.div_mod_to_equations. lia.
    + destruct module_vars as [_ Hl]. rewrite Hl in E. done.
Qed.

Lemma boot_ranges_apart : pairwise ranges_apart (boot_ranges kernel_start kernel_end st pst).
Proof.
  pose proof kernel_metadata_apart as Hkm. destruct pages as [(Hal & Hlow & Hend & Hhi) _ Hmod].
  assert (ranges_apart vram_range (kernel_range kernel_start kernel_end)) as Hvk.
  { left. unfold kernel_range, vram_range, aligned, PAGE_SIZE in *. cbn. Z.div_mod_to_equations. lia. }
  assert (ranges_apart vram_range (metadata_range st)) as Hvm.
  { left. unfold metadata_range, vram_range. cbn. destruct meta_wf as (_ & _ & H). Z.div_mod_to_equations. lia. }
  assert (ranges_apart (kernel_range kernel_start kernel_end) (module_range pst)) as Hkmod.
  { apply module_apart.
    - unfold kernel_range, page_up. cbn [snd]. Z.div_mod_to_equations. lia.
    - intros q b Hq Hm Hb Hmb. destruct (kernel_page q Hq) as (b' & Hb' & Hkb').
      destruct (Hmod Hm) as (_ & _ & Hap). unfold page_up, aligned, PAGE_SIZE in *. Z.div_mod_to_equations. lia.
    - unfold kernel_range. cbn. Z.div_mod_to_equations. lia. }
  assert (ranges_apart vram_range (module_range pst)) as Hvmod.
  { apply module_apart; unfold vram_range, in_range; cbn [fst snd]; [lia| |lia].
    intros q b Hq Hm Hb Hmb. destruct (Hmod Hm) as (Hs & _). cbv zeta in Hs. lia. }
  assert (ranges_apart (metadata_range st) (module_range pst)) as Hmmod.
  { apply module_apart; [apply meta_wf| |].
    - intros q b Hq Hm Hb Hmb. destruct (owned_byte b) as (_ & _ & Hnt); [right; by apply (metadata_page q)|].
      apply Hnt. right. right. done.
    - unfold metadata_range. cbn. destruct meta_wf as (_ & _ & H). Z.div_mod_to_equations. lia. }
  unfold boot_ranges. cbn [pairwise]. split_and!; try done; intros y Hy; rewrite ?elem_of_cons, ?elem_of_nil in Hy;
    destruct_or?; subst; try done.
Qed.

Lemma boot_ranges_ok : Forall range_ok (boot_ranges kernel_start kernel_end st pst).
Proof.
  destruct pages as [(Hal & Hlow & Hend & Hhi) Hmem Hmod].
  repeat (apply Forall_cons; split); [..|by apply Forall_nil]; unfold range_ok.
  - unfold kernel_range, page_up, aligned, PAGE_SIZE in *. cbn [fst snd]. Z.div_mod_to_equations. lia.
  - done.
  - destruct meta_wf as (Hma & Hn & Hml).
    destruct (owned_byte (meta_ptr st + pfa_meta_reserved_pages st * 4096 - 1)) as (Hav & _);
      [right; unfold meta_area; lia|]. apply Hmem in Hav.
    unfold metadata_range, aligned, PAGE_SIZE in *. cbn [fst snd]. Z.div_mod_to_equations. lia.
  - unfold module_range. destruct (Z.eqb_spec (module_len pst) 0) as [|Hlen]; cbn [fst snd]; [lia|].
    destruct (has_mods mbi).
    + destruct module_vars as [-> ->]. destruct (Hmod eq_refl) as (Hs & He & _). cbv zeta in *.
      Z.div_mod_to_equations. lia.
    + destruct module_vars as [_ Hl]. done.
Qed.

Lemma boot_setup_wf : setup_wf kernel_start kernel_end st pst.
Proof.
  pose proof boot_ranges_apart. pose proof boot_ranges_ok. destruct pages as [(Hal & Hlow & Hend & Hhi) _ Hmod].
  split; [split_and!; [done|lia..] | apply meta_wf | | done | done].
  destruct (has_mods mbi).
  - destruct module_vars as [-> ->]. destruct (Hmod eq_refl) as (Hs & He & _). cbv zeta in *. lia.
  - destruct module_vars as [-> ->]. lia.
Qed.

(** *** The pages of the fine-grained allocator *)

(** The bytes that are none of the allocator's. *)
Definition unmanaged (m : pfa_meta) (x : Z) : Prop := ~ managed m x.

(** The bytes of a block of the allocator. *)
Lemma region_bytes b n x : in_region (the_meta st) b n -> b <= x < b + 4096 * n -> managed (the_meta st) x.
Proof. intros (r & Hr & H1 & H2 & _) Hx. exists r. unfold PAGE_SIZE in *. split; [done|lia]. Qed.

Lemma boot_ram : RamLayout (the_meta st) (unmanaged (the_meta st)).
Proof.
  split.
  - intros b n Hn Hin. destruct (owned_byte (b + 4096 * n - 1)) as (Hav & _); [left; eapply region_bytes; [done|lia]|].
    apply (pw_memory _ _ _ pages) in Hav. lia.
  - intros b n x Hin Hx. destruct (decide (x < b)); [by left|]. destruct (decide (b + 4096 * n <= x)); [by right|].
    exfalso. apply Hx. eapply region_bytes; [done|lia].
Qed.

(** A frame of the allocator is in no range of the bootstrap. *)
Lemma frame_unmapped p : in_region (the_meta st) p 1 ->
  0 <= page_of p < 2 ^ 20 /\ page_of p / 1024 <> 1023 /\ identity_of (boot_ranges kernel_start kernel_end st pst) (page_of p) = None.
Proof.
  intros Hin. pose proof (ram_low (RamLayout := boot_ram) p 1 eq_refl Hin) as Hhi.
  assert (forall x, p <= x < p + 4096 -> managed (the_meta st) x) as Hman by (intros x Hx; eapply region_bytes; [done|lia]).
  assert (forall x, p <= x < p + 4096 -> 0x100000 <= x /\ ~ taken kernel_start kernel_end mbi pmm_addr x) as Hown
    by (intros x Hx; destruct (owned_byte x) as (_ & ? & ?); [left; by apply Hman|done]).
  pose proof (Hown p ltac:(lia)) as [Hlow _].
  assert (p = 4096 * page_of p) as Hp.
  { destruct Hin as (_ & _ & _ & _ & Hal). unfold aligned, PAGE_SIZE, page_of in *. Z.div_mod_to_equations. lia. }
  assert (0x100 <= page_of p < 0xffc00) as Hr by lia.
  split_and!; [lia|lia|Z.div_mod_to_equations; lia|]. unfold identity_of. rewrite decide_False; [done|].
  unfold boot_ranges. rewrite !Exists_cons, Exists_nil. intros [Hq|[Hq|[Hq|[Hq|[]]]]].
  - destruct (kernel_page _ Hq) as (b & Hb & Hk). apply (Hown b); [lia|by left].
  - unfold in_range, vram_range in Hq. cbn [fst snd] in Hq. lia.
  - destruct started as (_ & _ & _ & Hno & _). apply (Hno p). split; [apply Hman; lia|].
    apply (metadata_page (page_of p)); [done|lia].
  - destruct (module_page _ Hq) as (Hm & b & Hb & Hmb). apply (Hown b); [lia|]. right; by right.
Qed.

(** So [kmalloc] can start. *)
Lemma boot_pages s n : forall pd,
  boot_state (the_meta st) ∅ s pd n true (identity_of (boot_ranges kernel_start kernel_end st pst)) ->
  sys_page_state (m0 := the_meta st) s ∅ ∅.
Proof.
  intros pd [(T & A & Hs & Hrw & _ & Hg & Hled) Hon Hmap]. exists pd, T, A. split; try done.
  - apply Hled. split; intros *; rewrite lookup_empty; done.
  - apply map_empty_subseteq.
  - intros p Hp _. destruct (frame_unmapped p Hp) as (H1 & H2 & H3). by rewrite Hmap.
Qed.

End Ranges.

(** ** The theorem *)

(** What is there when [mem_init] returns: the pages are those of the bootstrap,
    and [n] frames are left at least. *)
Section Left.
Context (kernel_start kernel_end : Z) (mbi : multiboot_info).

Record mem_left (pst : pmm_state) (st : pfa_state) (s : sys) (n : nat) : Prop := {
  ml_ram : RamLayout (the_meta st) (unmanaged (the_meta st));
  ml_pages : sys_page_state (m0 := the_meta st) s ∅ ∅;
  ml_state : exists pd, boot_state (the_meta st) ∅ s pd n true (identity_of (boot_ranges kernel_start kernel_end st pst));
  ml_module : if has_mods mbi then module_addr pst = mod_start (mbi_mod mbi) /\
      module_len pst = mod_end (mbi_mod mbi) - mod_start (mbi_mod mbi)
    else module_addr pst = 0 /\ module_len pst = 0;
  ml_free : forall b, managed (the_meta st) b -> byte_type (mm_entries mbi) b MMAP_TYPE_AVAILABLE /\
    0x100000 <= b /\ ~ kernel_start <= b < kernel_end /\
    ~ (has_mods mbi = true /\ mod_start (mbi_mod mbi) <= b < mod_end (mbi_mod mbi));
}.

End Left.

(** *** The boot *)

(** The boot loader's information, the variables before the boot, and a map that
    the allocator can hold. *)
Record mem_start kernel_start kernel_end (ram : Z -> nat -> list phys_mmap_entry) mbi pst0 s : Prop := {
  ms_ram : forall a n, length (ram a n) = n;
  ms_map : Z.land (mbi_flags mbi) MULTIBOOT_INFO_MEM_MAP <> 0;
  ms_mods : 0 <= mods_count mbi <= 1;
  ms_boot : boot_wf kernel_start kernel_end (effective mbi);
  ms_pages : pages_wf kernel_start kernel_end (effective mbi);
  ms_vars : nb_reserved pst0 = 0 /\ module_addr pst0 = 0 /\ module_len pst0 = 0;
  ms_len : forall pst, phys_mem_map_init kernel_start kernel_end ram mbi pst0 = Ok (true, pst) ->
    pmm_len (phys_mem_map pst) < 2 ^ 11;
  ms_off : cr0_pg (cr0 (cpu s)) = false /\ paging_enabled s = false;
}.

(** Room for the tables of the bootstrap, and [n] frames more. *)
Definition room kernel_start kernel_end (pst : pmm_state) (st : pfa_state) s n : Prop :=
  enough (with_meta (the_meta st) s) ∅ (1 + (pages_of (boot_ranges kernel_start kernel_end st pst) + n)).

(** No valid region of the map can hold the metadata of the allocator. *)
Definition no_host (pmm : phys_mmap) : Prop := exists es free size, pmm = pmm_of es free /\
  pfa_meta_size pmm = Ok size /\ forall e, e ∈ es -> valid e -> pe_end e - frames_start e < size.

Lemma mem_init_spec kernel_start kernel_end ram mbi pst0 st0 s :
  mem_start kernel_start kernel_end ram mbi pst0 s ->
  let run := mem_init kernel_start kernel_end ram mbi pst0 st0 s in
  (phys_mem_map_init kernel_start kernel_end ram mbi pst0 = Ok (false, pst0) /\
     (forall x, ~ fits_at kernel_end (effective mbi) (boot_regions (effective mbi))
        (phys_mem_map_size (effective mbi)) x) /\
     run = Err (Panic "failed to initialize memory map")) \/
  (exists pst, phys_mem_map_init kernel_start kernel_end ram mbi pst0 = Ok (true, pst) /\
     pfa_init (phys_mem_map pst) st0 = Ok (false, phys_mem_map pst, st0) /\ no_host (phys_mem_map pst) /\
     run = Err (Panic "failed to init the page frame allocator")) \/
  exists pmm_addr pst pmm st,
    phys_mem_map_init kernel_start kernel_end ram mbi pst0 = Ok (true, pst) /\
    pfa_init (phys_mem_map pst) st0 = Ok (true, pmm, st) /\
    describes kernel_start kernel_end (effective mbi) pmm_addr pst /\
    (forall b, managed (the_meta st) b -> byte_type (mm_entries (effective mbi)) b MMAP_TYPE_AVAILABLE /\
       0x100000 <= b /\ ~ taken kernel_start kernel_end (effective mbi) pmm_addr b /\ ~ meta_area st b) /\
    forall n, room kernel_start kernel_end pst st s n ->
      exists s', run = Ok (with_map pmm pst, st, s') /\ mem_left kernel_start kernel_end (effective mbi) pst st s' n.
Proof.
  intros [Hram Hmm Hmods Hb Hpages (Hnr & Hma & Hml) Hlen [Hpg Hen]] run. unfold run, mem_init.
  rewrite (proj2 (Z.eqb_neq _ 0)) by done.
  destruct (init_spec kernel_start kernel_end ram mbi pst0 Hram Hmm Hmods Hb Hnr)
    as [[Hinit Hno]|(a & pst & Hinit & _ & Hdesc & Hmod & Hnomod)].
  { left. by rewrite Hinit. }
  right.
  specialize (Hlen pst Hinit). rewrite Hinit. cbn [mbind res_bind negb].
  destruct (Hdesc) as (es & (Hok & _ & room & Hmap & _) & Hbytes). rewrite Hmap in *. cbn [pmm_len pmm_of] in Hlen.
  destruct (pfa_init_spec es room st0 Hok Hlen) as [(Hpfa & size & Hsize & Hno)|(st & Hpfa & Hst)].
  { left. exists pst. rewrite Hmap, Hpfa. split_and!; [done|done|by exists es, room, size|done]. }
  right.
  pose proof (pfa_init_meta es room st0 _ st Hok Hlen Hpfa) as Hmeta. rewrite Hpfa. cbn [mbind res_bind negb].
  assert (if has_mods (effective mbi) then module_addr pst = mod_start (mbi_mod (effective mbi)) /\
      module_len pst = mod_end (mbi_mod (effective mbi)) - mod_start (mbi_mod (effective mbi))
    else module_addr pst = 0 /\ module_len pst = 0) as Hvars.
  { assert (mbi_mod (effective mbi) = mbi_mod mbi) as -> by (unfold effective; by case_match).
    destruct (has_mods (effective mbi)); [by apply Hmod|]. destruct (Hnomod eq_refl) as [E1 E2]. by rewrite E1, E2. }
  pose proof (bw_kernel _ _ _ Hb) as [[_ Hks] _].
  pose proof (boot_setup_wf kernel_start kernel_end a (effective mbi) pst st es Hks Hpages (proj1 Hok) Hbytes Hst
    Hmeta Hvars) as Hw.
  assert (forall c, managed (the_meta st) c -> byte_type (mm_entries (effective mbi)) c MMAP_TYPE_AVAILABLE /\
     0x100000 <= c /\ ~ taken kernel_start kernel_end (effective mbi) a c /\ ~ meta_area st c) as Hfr.
  { intros c Hc. destruct (owned_byte kernel_start kernel_end a (effective mbi) st es (proj1 Hok) Hbytes Hst c)
      as (H1 & H2 & H3); [by left|]. split_and!; [done..|]. intros Hm.
    destruct Hst as (_ & _ & _ & Hno & _). by apply (Hno c). }
  exists a, pst, (pmm_of (mark <$> es) room), st. split_and!; [done|by rewrite Hmap|done|done|].
  intros n Hn. pose proof Hst as ((ls & Hls) & Hfree & _).
  destruct (paging_setup_spec kernel_start kernel_end st (with_map (pmm_of (mark <$> es) room) pst)
    (with_meta (the_meta st) s) ∅ n) as (s' & pd & H & Hbs);
    [by destruct Hw|done|done|by apply (pfa_repr_init _ ls)|done|].
  rewrite H. cbn [mbind res_bind mret res_ret]. exists s'. split; [done|]. split.
  - eapply (boot_ram kernel_start kernel_end a (effective mbi) st es); [done|apply Hok|done..].
  - eapply (boot_pages kernel_start kernel_end a (effective mbi) pst st es); try done. apply Hok.
  - by exists pd.
  - done.
  - intros b Hman. destruct (Hfr b Hman) as (H1 & H2 & H3 & _). split_and!; [done..| |]; intros Hm; apply H3; [by left|right; by right].
Qed.


(** ** An instance: the machine of [demo_small], with a kernel of 255 KB *)

Lemma demo_small_wf' : boot_wf 0x100000 0x13fff0 demo_small.
Proof.
  destruct demo_small_wf as [H1 H2 H3 H4 _ H6 H7 H8 _ _]. split; try done.
  exists (mk_pmme 0x100000 0x100000 1). split; [apply list_elem_of_here|split_and!; by vm_compute].
Qed.

Lemma demo_small_pages : pages_wf 0x100000 0x13fff0 demo_small.
Proof.
  split; [split_and!; by vm_compute| |done].
  intros b (e & He & _ & Hb). unfold demo_small in He. vm_compute in He.
  repeat (apply elem_of_cons in He as [-> |He]; [unfold byte_in, pe_end in Hb; cbn in Hb; lia|]).
  by apply elem_of_nil in He.
Qed.

Definition demo_kernel_sys : sys := mk_sys (mk_machine ∅ 0x11 0 0 0 ∅) (mk_meta 0 []) 0 false.

Definition demo_mem_init : res (pmm_state * pfa_state * sys) :=
  mem_init 0x100000 0x13fff0 demo_ram demo_small demo_st demo_pfa_st demo_kernel_sys.

Lemma demo_mem_init_ok : okb demo_mem_init = true.
Proof. by vm_compute. Qed.

(** The frames above the kernel, the map and the metadata. *)
Definition demo_boot_meta : res pfa_state :=
  '(_, pst) ← phys_mem_map_init 0x100000 0x13fff0 demo_ram demo_small demo_st;
  '(_, _, st) ← pfa_init (phys_mem_map pst) demo_pfa_st;
  mret st.

Lemma demo_boot_meta_value : exists pm, demo_boot_meta =
  Ok (mk_pfa_state (mk_meta 1 [mk_region 0x142000 190 pm]) 0x141000 [0x141008] 1).
Proof. eexists. by vm_compute. Qed.

Lemma demo_boot_enough pm n : (n <= 190)%nat ->
  enough (with_meta (mk_meta 1 [mk_region 0x142000 190 pm]) demo_kernel_sys) ∅ n.
Proof.
  intros Hn. exists ((fun i => 0x142000 + 4096 * i) <$> seqZ 0 (Z.of_nat n)). split_and!.
  - apply NoDup_fmap_2; [intros i j; lia|apply NoDup_seqZ].
  - rewrite length_fmap, length_seqZ. lia.
  - intros b (i & -> & Hi%elem_of_seqZ)%list_elem_of_fmap. split.
    + eexists. split; [apply list_elem_of_here|]. unfold region_end, aligned, PAGE_SIZE. cbn.
      split_and!; [lia|lia|]. Z.div_mod_to_equations; lia.
    + intros j _ (a & k & H & _). by rewrite lookup_empty in H.
Qed.

Lemma demo_mem_start : mem_start 0x100000 0x13fff0 demo_ram demo_small demo_st demo_kernel_sys.
Proof.
  split; [by intros; apply length_replicate|done|done|exact demo_small_wf'|exact demo_small_pages|done| |done].
  intros pst H. vm_compute in H. injection H as <-. by vm_compute.
Qed.

