(* ===== verification/Kernel.v ===== *)
(** * The kernel as a whole (init.c, kernel.c)

    [kernel_main] and what it calls, in the order of the code, on the state of all
    the components together: the console, the memory with the heap and the symbols
    of [kern], the drivers, which work on the same hardware as the console, the
    variables of the memory's initialisation and the tables of the processor. *)
From S2P Require Import Prelude Page Pfa Pmm PfaInit Mmu Paging Kmalloc KmallocPages Libc Io World Irq Clock Isr Ps2driver Ps2ctrl Keyboard.
From S2P Require Import Descriptors Console Log Symbols Panic Boot.

Definition AHOS_VERSION_MAJOR : Z := 0.
Definition AHOS_VERSION_MINOR : Z := 2.
Definition MULTIBOOT_BOOTLOADER_MAGIC : Z := 0x2BADB002.

(** Where the linker puts the image of the kernel, its tables and its two list
    heads, and the stubs of the interrupts. *)
Class KernelImage := {
  kernel_start : Z; kernel_end : Z;
  gdt_addr : Z; idt_addr : Z; isr_stub : Z -> Z;
  aha_block_list : Z; aha_big_list : Z;
}.

(** What the run depends on beyond the state: the entries that are in the memory
    where the memory map is written, the uninitialised variable of
    [ps2ctrl_init], and at how many instruction boundaries pending interrupts are
    taken while a message is printed (by its format) or the symbols are loaded. *)
Class KernelRun := { map_area : Z -> nat -> list phys_mmap_entry; uninit : Z; boundaries : string -> nat }.

#[export] Instance kernel_heap `{KernelImage} : HeapOps (km sys) := kmalloc_heap aha_block_list aha_big_list.

(** ** The state *)

Record kernel (HW : Type) := mk_kernel {
  k_kern : kern HW (km sys);
  k_tick : Z;
  k_drivers : gmap Z ps2driver;
  k_ctrl : ps2ctrl;
  k_kbd : keyboard;
  k_pmm : pmm_state;
  k_pfa : pfa_state;
  k_gdtr : gdtr_reg;
  k_idt : list idt_entry;
  k_idtr : Z * Z;
}.
Arguments mk_kernel {HW}.
Arguments k_kern {HW}.
Arguments k_tick {HW}.
Arguments k_drivers {HW}.
Arguments k_ctrl {HW}.
Arguments k_kbd {HW}.
Arguments k_pmm {HW}.
Arguments k_pfa {HW}.
Arguments k_gdtr {HW}.
Arguments k_idt {HW}.
Arguments k_idtr {HW}.

Section Kernel.
Context {HW : Type} `{Hardware HW, Layout, KernelImage, KernelRun}.
Implicit Types k : kernel HW.
Notation M := (ST (kernel HW)).

Definition k_term k : terminal HW := con_term (k_con (k_kern k)).
Definition k_sys k : sys := pages (k_heap (k_kern k)).

(** The drivers' view of the state, and the state after the drivers have run. *)
Definition kworld k : world HW := mk_world (term_hw (k_term k)) (k_tick k) (k_drivers k) (k_ctrl k) (k_kbd k).

Definition set_kern (n : kern HW (km sys)) k : kernel HW :=
  mk_kernel n (k_tick k) (k_drivers k) (k_ctrl k) (k_kbd k) (k_pmm k) (k_pfa k) (k_gdtr k) (k_idt k) (k_idtr k).
Definition set_world (w : world HW) k : kernel HW :=
  let c := k_con (k_kern k) in
  mk_kernel (set_con (set_con_term (set_term_hw (hw w) (con_term c)) c) (k_kern k)) (clock_tick w) (driver_at w) (ctrl w) (kbd w)
    (k_pmm k) (k_pfa k) (k_gdtr k) (k_idt k) (k_idtr k).
Definition set_gdtr (r : gdtr_reg) k : kernel HW :=
  mk_kernel (k_kern k) (k_tick k) (k_drivers k) (k_ctrl k) (k_kbd k) (k_pmm k) (k_pfa k) r (k_idt k) (k_idtr k).
Definition set_idt (t : list idt_entry) (r : Z * Z) k : kernel HW :=
  mk_kernel (k_kern k) (k_tick k) (k_drivers k) (k_ctrl k) (k_kbd k) (k_pmm k) (k_pfa k) (k_gdtr k) t r.

(** The memory of the machine after its initialisation. *)
Definition set_heap (h : km sys) (n : kern HW (km sys)) : kern HW (km sys) :=
  mk_kern (k_con n) h (k_nb_syms n) (k_symbols n) (interrupt_flag n).
Definition set_mem (pst : pmm_state) (st : pfa_state) (s : sys) k : kernel HW :=
  mk_kernel (set_heap (with_pages s (k_heap (k_kern k))) (k_kern k)) (k_tick k) (k_drivers k) (k_ctrl k) (k_kbd k)
    pst st (k_gdtr k) (k_idt k) (k_idtr k).

Definition on_kern {A} (f : ST (kern HW (km sys)) A) : M A := fun k => '(a, n) ← f (k_kern k); mret (a, set_kern n k).
Definition on_world {A} (f : ST (world HW) A) : M A := fun k => '(a, w) ← f (kworld k); mret (a, set_world w k).

(** The interrupts taken in the meantime, once they are enabled. *)
Definition meanwhile (what : string) : M unit :=
  enabled ← gets (fun k => interrupt_flag (k_kern k));
  if enabled : bool then on_world (st_for (boundaries what) 0 (fun _ => interrupts)) else mret tt.

(** A message of log.h, and a [printf]. *)
Definition tell (sv : severity) (md fmt : string) (args : list Z) : M unit :=
  on_kern (on_con (log_at sv md fmt args));; meanwhile fmt.
Definition print (fmt : string) (args : list Z) : M unit := on_kern (on_con (say fmt args));; meanwhile fmt.

(** *** init.c *)

Definition ps2_init : M unit :=
  tell Info "init" "starting PS/2 subsystem initialization..." [];;
  on_world (ps2ctrl_init uninit);;
  on_world keyboard_init;;
  tell Dbg "init" "starting PS/2 device identification..." [];;
  found ← on_world ps2ctrl_identify_devices;
  if negb found then tell Error "init" "failed to identify PS/2 devices" []
  else
    tell Dbg "init" "PS/2 devices identification succeed" [];;
    tell Dbg "init" "starting PS/2 drivers..." [];;
    started ← on_world ps2ctrl_start_drivers;
    if negb started then tell Error "init" "failed to start PS/2 device drivers" []
    else
      tell Dbg "init" "PS/2 device drivers started" [];;
      tell Success "init" "PS/2 subsystem initialization complete" [].

(** [mem_init] with its two messages. *)
Definition init_memory (mbi : multiboot_info) : M unit :=
  tell Info "init" "initializing memory..." [];;
  (fun k => '(pst, st, s) ← mem_init kernel_start kernel_end map_area mbi (k_pmm k) (k_pfa k) (k_sys k);
            mret (tt, set_mem pst st s k));;
  tell Success "init" "memory initialization complete" [].

Definition early_init : M unit :=
  gdtr ← on_kern (on_con (on_term (kernel_early_init gdt_addr))); modify (set_gdtr gdtr).

Definition load_symbols : M bool :=
  pst ← gets k_pmm;
  ok ← on_kern (on_symbols (symbol_init (module_addr pst) (module_len pst)));
  meanwhile "symbol_init";;
  mret ok.

Definition kernel_init (mbi : multiboot_info) : M unit :=
  init_memory mbi;;
  (fun k => '(idt, idtr) ← setup_idt isr_stub idt_addr (k_idt k); mret (tt, set_idt idt idtr k));;
  tell Info "init" "IDT setup" [];;
  on_world (irq_init IRQ0_INT IRQ7_INT);;
  tell Info "init" "IRQ initialized" [];;
  on_world (clock_init CLOCK_FREQ);;
  tell Info "init" "clock initialized" [];;
  tell Info "init" "enabling interrupts now" [];;
  on_world enable_nmi;;
  on_kern enable_interrupts;;
  loaded ← load_symbols;
  (if negb loaded then tell Warn "init" "failed to load symbol from module" [] else mret tt);;
  ps2_init;;
  tell Success "init" "kernel initialization complete" [].

(** *** kernel.c *)

Definition print_banner : M unit :=
  print (nl +:+ nl) [];;
  print (tab +:+ "+===========================+" +:+ nl) [];;
  print (tab +:+ "|                           |" +:+ nl) [];;
  print (tab +:+ "| Welcome to Ah!OS (v%d.%.2d)! |" +:+ nl) [AHOS_VERSION_MAJOR; AHOS_VERSION_MINOR];;
  print (tab +:+ "|                           |" +:+ nl) [];;
  print (tab +:+ "+===========================+" +:+ nl) [];;
  print (nl +:+ nl) [].

(** The first [n] rounds of the loop, which has no end. *)
Definition kernel_main_loop (n : nat) : M unit :=
  tell Info "main" "starting kernel main loop" [];;
  on_world (st_for n 0 (fun _ => kernel_main_loop_round)).

Definition kernel_main (n : nat) (magic : Z) (mbi : multiboot_info) : M unit :=
  early_init;;
  if negb (magic =? MULTIBOOT_BOOTLOADER_MAGIC) then
    tell Error "main" "kernel NOT booted from a MULTIBOOT (v1) compliant boot loader" []
  else
    tell Success "main" "kernel booted from a MULTIBOOT (v1) compliant boot loader" [];;
    kernel_init mbi;;
    print_banner;;
    t ← on_world clock_gettick;
    tell Info "main" "kernel booted in %d tick(s)" [t];;
    kernel_main_loop n.

End Kernel.
