(* ===== verification/KernelSpec.v ===== *)
(** * The start of the kernel: what is reached *)
From S2P Require Import Prelude Page Pfa PfaSpec PfaRun Pmm PmmSpec PmmInit PfaInit PfaInitSpec Mmu Paging PagingSpec PagingBoot.
From S2P Require Import Kmalloc KmallocSpec KmallocPages KmallocThms Libc Printf PrintfSpec Format Io World Irq Clock Isr Ps2driver Ps2ctrl Keyboard.
From S2P Require Import IsrSpec Ps2Spec KeyboardSpec Ps2ctrlSpec IrqThms Ps2Start Descriptors Console ConsoleSpec Log Frames.
From S2P Require Import Ps2Boot Symbols SymbolSpec Panic PanicSpec Boot Kernel.

Definition panics (f : fault) : Prop := exists why, f = Panic why.

Lemma clock_panics f : clock_overflow f -> panics f.
Proof. intros [-> | ->]; by eexists. Qed.
Lemma ctrl_panics f : ctrl_fault f -> panics f.
Proof. intros [Hf| ->]; [by apply clock_panics|by eexists]. Qed.

(** The literals of init.c and kernel.c. *)

Definition kernel_literals : list string :=
  ["init"; "main";
   message_literal Error "kernel NOT booted from a MULTIBOOT (v1) compliant boot loader";
   message_literal Success "kernel booted from a MULTIBOOT (v1) compliant boot loader";
   message_literal Info "initializing memory..."; message_literal Success "memory initialization complete";
   message_literal Info "IDT setup"; message_literal Info "IRQ initialized"; message_literal Info "clock initialized";
   message_literal Info "enabling interrupts now"; message_literal Warn "failed to load symbol from module";
   message_literal Info "starting PS/2 subsystem initialization..."; message_literal Dbg "starting PS/2 device identification...";
   message_literal Error "failed to identify PS/2 devices"; message_literal Dbg "PS/2 devices identification succeed";
   message_literal Dbg "starting PS/2 drivers..."; message_literal Error "failed to start PS/2 device drivers";
   message_literal Dbg "PS/2 device drivers started"; message_literal Success "PS/2 subsystem initialization complete";
   message_literal Success "kernel initialization complete";
   nl +:+ nl; tab +:+ "+===========================+" +:+ nl; tab +:+ "|                           |" +:+ nl;
   tab +:+ "| Welcome to Ah!OS (v%d.%.2d)! |" +:+ nl;
   message_literal Info "kernel booted in %d tick(s)"; message_literal Info "starting kernel main loop"].

Section KernelSpec.
Context {HW : Type} `{SharedLaws HW, L : Layout, KI : KernelImage, KR : KernelRun}.
Implicit Types k : kernel HW.

(** ** Points of the boot *)

Definition kmemory k : bytes := memory (k_term k).

(** Everything but the console, the memory and the drivers. *)
Definition rest k := (k_heap (k_kern k), k_nb_syms (k_kern k), k_symbols (k_kern k), interrupt_flag (k_kern k),
  (k_pmm k, k_pfa k, k_gdtr k, k_idt k, k_idtr k)).

(** Messages can be printed. *)
Definition con_ok k : Prop :=
  (exists scr, shows_screen (k_con (k_kern k)) scr) /\ g_log_level (k_con (k_kern k)) = level_value LOG_INFO /\
  forall s, s ∈ kernel_literals -> literal (kmemory k) s.

(** From [k0] to [k] messages have been printed and the drivers have run; they are
    as [P] says. *)
Record at_point (P : world HW -> Prop) k0 k : Prop := {
  ap_con : con_ok k;
  ap_world : P (kworld k);
  ap_rest : rest k = rest k0;
  ap_memory : kept putchar_var printf_area (kmemory k0) (kmemory k);
}.

(** [P] survives messages, with interrupts enabled or not. *)
Definition survives (enabled : bool) (P : world HW -> Prop) : Prop :=
  (forall w h, P w -> same_pics (hw w) h -> P (set_hw h w)) /\
  (enabled = true -> forall w, P w -> wp clock_overflow interrupts (fun _ w' => P w') w).

Lemma restful_survives b P : restful P -> survives b P.
Proof. intros [? ?]. by split. Qed.

Lemma at_point_rest P k0 k1 k : at_point P k0 k -> rest k1 = rest k0 -> kmemory k1 = kmemory k0 -> at_point P k1 k.
Proof. intros [? ? Hr Hm] Er Em. split; try done; [by rewrite Er|by rewrite Em]. Qed.

(** *** The steps of the drivers *)

Lemma con_ok_hw k w : con_ok k -> same_console (term_hw (k_term k)) (hw w) -> con_ok (set_world w k).
Proof.
  intros ((scr & (Hk & Hcur & Hdl & Hc) & Hrest) & Hl & Hlit) [E1 E2]. split; [|done]. exists scr. split; [|done].
  unfold ConsoleSpec.ready, cursor_shown in *. split_and!; cbn; [by destruct Hk|by rewrite E1|by rewrite E2|done].
Qed.

Lemma world_step {A} {E' : fault -> Prop} E (f : ST (world HW) A) (P : world HW -> Prop) (Q : A -> world HW -> Prop) k0 k :
  at_point P k0 k -> pres off_console f -> (forall g, E g -> E' g) -> (forall w, P w -> wp E f Q w) ->
  wp E' (on_world f) (fun a k' => at_point (Q a) k0 k') k.
Proof.
  intros [Hc Hw Hr Hm] Hp HE Hf. specialize (Hf _ Hw). apply (wp_pres _ _ _ _ _ Hp) in Hf. unfold wp, on_world in *.
  destruct (f (kworld k)) as [[a w]|]; cbn; [|by apply HE]. destruct Hf as [HQ Hoff]. split; [by apply con_ok_hw| |done|done].
  by destruct w.
Qed.

(** *** The steps of the console *)

Definition con_devices (c c' : con HW) : Prop := on_devices (con_term c) (con_term c').

Lemma wp_console {A} E (f : ST (con HW) A) (Q : A -> kernel HW -> Prop) k :
  wp E f (fun a c => Q a (set_kern (set_con c (k_kern k)) k)) (k_con (k_kern k)) -> wp E (on_kern (on_con f)) Q k.
Proof. unfold wp, on_kern, on_con. by destruct (f _) as [[a c]|]. Qed.

Lemma frame_term {A} (f : ST (terminal HW) A) : pres on_devices f -> pres con_devices (on_term f).
Proof.
  intros Hf c a c'. unfold on_term. destruct (f (con_term c)) as [[b t]|] eqn:Ef; [|done]. intros [= _ <-]. by eapply Hf.
Qed.

#[local] Instance con_devices_preorder : PreOrder con_devices.
Proof. split; [by intros c; unfold con_devices|]. intros c1 c2 c3. unfold con_devices. by etrans. Qed.

Lemma frame_say fmt args : pres con_devices (say fmt args).
Proof.
  unfold say, printf_at. refine (pres_bind _ _ _ _ _); [apply frame_term, frame_kprintf|]. intros _. refine (pres_ret _ _).
Qed.

Lemma frame_log_at sv md fmt args : pres con_devices (log_at sv md fmt args).
Proof.
  destruct sv; cbn [log_at]; unfold dbg, info, success, warn, error, log_macro_def, terminal_reset_color, terminal_setcolor;
    repeat first [apply frame_say | refine (pres_bind _ _ _ _ _); [|intros ?] | by apply frame_term; pres_steps
      | refine (pres_gets _ _) | refine (pres_ret _ _) | case_match].
Qed.

Lemma console_step (f : ST (con HW) unit) P k0 k :
  at_point P k0 k -> (forall w h, P w -> same_pics (hw w) h -> P (set_hw h w)) -> pres con_devices f ->
  wp never f (fun _ c => g_log_level c = g_log_level (k_con (k_kern k)) /\ (exists scr, shows_screen c scr) /\
    kept putchar_var printf_area (kmemory k) (con_memory c)) (k_con (k_kern k)) ->
  wp panics (on_kern (on_con f)) (fun _ k' => at_point P k0 k') k.
Proof.
  intros [(Hs & Hl & Hlit) Hw Hr Hm] HP Hp Hf. apply wp_console. apply (wp_weaken never); [done|].
  apply (wp_pres _ _ _ _ _ Hp) in Hf. eapply wp_mono; [exact Hf|]. intros [] c [(Hg & Hscr & Hk) Hdev].
  split; [|by apply (HP (kworld k))|done|by etrans].
  split; [done|]. split; [by rewrite <- Hl|]. intros s Hin. by eapply literal_kept, Hlit.
Qed.

Lemma meanwhile_step what P k0 k : at_point P k0 k -> survives (interrupt_flag (k_kern k0)) P ->
  wp panics (meanwhile what) (fun _ k' => at_point P k0 k') k.
Proof.
  intros Hk [_ HP]. unfold meanwhile. apply wp_bind, wp_gets.
  assert (interrupt_flag (k_kern k) = interrupt_flag (k_kern k0)) as -> by (pose proof (ap_rest _ _ _ Hk) as [=]; congruence).
  destruct (interrupt_flag (k_kern k0)); [|by apply wp_ret].
  apply (world_step clock_overflow _ P (fun _ => P)); [done| |apply clock_panics|].
  - refine (pres_for _ _ _ _ _). intros _. apply (off_interrupts off_console).
  - specialize (HP eq_refl). generalize 0. induction (boundaries what) as [|n IH]; intros i w Hw; [by apply wp_ret|].
    cbn [st_for]. apply wp_bind. eapply wp_mono; [by apply HP|]. intros ? w' Hw'. by apply IH.
Qed.

(** A message whose text needs no argument, and one with arguments. *)
Definition is_literal (s : string) : bool := bool_decide (s ∈ kernel_literals).

Lemma tell_step sv md fmt ps P k0 k : at_point P k0 k -> survives (interrupt_flag (k_kern k0)) P ->
  is_literal md && is_literal (message_literal sv fmt) && no_nul md = true -> codes fmt = format_of ps ->
  (forall m, Forall (arg_ok m) ps) -> Z.of_nat (length (message_text md (severity_prefix sv) (text_of ps))) < 1024 ->
  wp panics (tell sv md fmt (args_of ps)) (fun _ k' => at_point P k0 k') k.
Proof.
  intros Hk HP [[Hmd%bool_decide_eq_true Hl%bool_decide_eq_true]%andb_true_iff Hn]%andb_true_iff Hf Hps Hlen. unfold tell. apply wp_bind.
  eapply wp_mono; [apply console_step; [exact Hk|apply HP|apply frame_log_at|]|].
  - destruct (ap_con _ _ _ Hk) as ([scr Hscr] & _ & Hlit).
    eapply wp_mono; [by apply (log_at_spec sv md fmt ps _ scr Hscr (Hlit _ Hmd) Hn (Hlit _ Hl) Hf (Hps _) Hlen)|].
    intros [] c (Hg & Hs & _ & Hkept). split; [done|]. split; [by eexists|done].
  - intros [] k1 Hk1. by apply meanwhile_step.
Qed.

Lemma tell_plain sv md fmt P k0 k : at_point P k0 k -> survives (interrupt_flag (k_kern k0)) P ->
  is_literal md && is_literal (message_literal sv fmt) && no_nul md && plain_text fmt &&
    (Z.of_nat (length (message_text md (severity_prefix sv) (codes fmt))) <? 1024) = true ->
  wp panics (tell sv md fmt []) (fun _ k' => at_point P k0 k') k.
Proof.
  intros Hk HP [[Hb Hpl]%andb_true_iff Hlen%Z.ltb_lt]%andb_true_iff. rewrite <- (args_lits fmt).
  apply tell_step; try done; [by rewrite format_lits|intros m; by apply lits_ok|by rewrite text_lits].
Qed.

Lemma print_step fmt ps P k0 k : at_point P k0 k -> survives (interrupt_flag (k_kern k0)) P ->
  is_literal fmt && (Z.of_nat (length (text_of ps)) <? 1024) = true -> codes fmt = format_of ps ->
  (forall m, Forall (arg_ok m) ps) ->
  wp panics (print fmt (args_of ps)) (fun _ k' => at_point P k0 k') k.
Proof.
  intros Hk HP [Hl%bool_decide_eq_true Hlen%Z.ltb_lt]%andb_true_iff Hf Hps. unfold print. apply wp_bind.
  eapply wp_mono; [apply console_step; [exact Hk|apply HP|apply frame_say|]|].
  - destruct (ap_con _ _ _ Hk) as ([scr Hscr] & _ & Hlit).
    eapply wp_mono; [by apply (say_spec fmt ps _ scr Hscr (Hlit _ Hl) Hf (Hps _) Hlen)|].
    intros [] c (Hg & Hs & _ & Hkept). split; [done|]. split; [by eexists|done].
  - intros [] k1 Hk1. by apply meanwhile_step.
Qed.

Lemma print_plain fmt P k0 k : at_point P k0 k -> survives (interrupt_flag (k_kern k0)) P ->
  is_literal fmt && plain_text fmt && (Z.of_nat (length (codes fmt)) <? 1024) = true ->
  wp panics (print fmt []) (fun _ k' => at_point P k0 k') k.
Proof.
  intros Hk HP [[Hl Hpl]%andb_true_iff Hlen]%andb_true_iff. rewrite <- (args_lits fmt).
  apply print_step; try done; [by rewrite text_lits, Hl|by rewrite format_lits|intros m; by apply lits_ok].
Qed.

End KernelSpec.

(** The steps of a sequence: a message, or a call of the drivers. *)
Ltac k_tell H :=
  apply wp_bind; eapply wp_mono; [apply tell_plain; [exact H| |vm_compute; reflexivity]|clear H; intros [] ? H; cbv beta in H].

(** ** The drivers *)

Section Drivers.
Context {HW : Type} `{SharedLaws HW, L : Layout, KI : KernelImage, KR : KernelRun}.
Implicit Types (k : kernel HW) (w : world HW).

(** The drivers as the kernel is loaded, and after [irq_init]. *)
Definition fresh w : Prop :=
  driver_at w !! keyboard_driver = Some keyboard_driver_boot /\ ctrl w = ctrl_boot /\ kbd w = kbd_boot.
Definition remapped w : Prop :=
  fresh w /\ master (hw w) = mk_pic 0xff 0 0 IRQ0_INT 4 1 /\ slave (hw w) = mk_pic 0xff 0 0 IRQ7_INT 2 1.

(** The keyboard's driver is not started yet. *)
Definition at_rest (c : ps2ctrl) w : Prop := waits c w w.

Lemma waits_rest c w w' : waits c w w' -> at_rest c w'.
Proof. intros [? ? ? ? _]. by split. Qed.

Lemma at_rest_survives b c : survives b (at_rest c).
Proof.
  split.
  - intros w h Hw Hs. eapply waits_rest. by apply (rest_hw _ (waits_restful c w)).
  - intros _ w Hw. eapply wp_mono; [by apply (rest_ints _ (waits_restful c w))|]. intros ? w' Hw'. eapply waits_rest, Hw'.
Qed.

Lemma fresh_survives : survives false fresh.
Proof. by split. Qed.

Lemma remapped_survives : survives false remapped.
Proof. split; [|done]. intros w h (Hf & Hm & Hs) (E1 & E2 & _). split_and!; cbn; [done|congruence|congruence]. Qed.

Lemma ready_survives b : survives b ready.
Proof. apply restful_survives, ready_restful. Qed.

Lemma fresh_irq_init w : fresh w -> wp never (irq_init IRQ0_INT IRQ7_INT) (fun _ => remapped) w.
Proof.
  intros Hf. eapply wp_mono; [by eapply (irq_init_spec never IRQ0_INT IRQ7_INT)|]. intros ? w' ([E _] & Hm & Hs).
  split; [|by split]. rewrite E. exact Hf.
Qed.

Lemma remapped_clock_init w : remapped w -> wp never (clock_init CLOCK_FREQ) (fun _ => at_rest ctrl_boot) w.
Proof.
  intros ((Hdr & Hc & Hk) & Hm & Hs). unfold clock_init. do 3 apply wp_bind, wp_outb. apply wp_bind, wp_modify.
  rewrite irq_clear_mask_change. set (w1 := set_tick _ _).
  assert (master (hw w1) = mk_pic 0xff 0 0 IRQ0_INT 4 1 /\ slave (hw w1) = mk_pic 0xff 0 0 IRQ7_INT 2 1) as [Hm1 Hs1].
  { subst w1. cbn [hw set_hw set_tick]. by rewrite !out_master, !out_slave. }
  eapply wp_mono; [apply change_mask_spec; [by vm_compute|unfold pics_ready; by rewrite Hm1, Hs1]|]. intros ? w2 (Hh & Hm2 & Hs2).
  rewrite Hm1 in Hm2. rewrite Hs1 in Hs2. destruct Hh as [E _]. split; try (rewrite E; done).
  split; [|by rewrite Hm2|by left|by rewrite E|by rewrite E; cbn; rewrite Hc]. unfold pics_ok. by rewrite Hm2, Hs2.
Qed.

Lemma at_rest_nmi c w : at_rest c w -> wp never enable_nmi (fun _ => at_rest c) w.
Proof.
  intros Hw. destruct (at_rest_survives true c) as [Hs _]. unfold enable_nmi. apply wp_bind, wp_inb, wp_outb.
  apply Hs; [apply Hs; [done|apply in_keeps]|]. by apply quiet_out.
Qed.

(** *** [ps2_init] *)

Lemma at_point_ex {B} (P : B -> world HW -> Prop) k0 k : at_point (fun w => exists b, P b w) k0 k -> exists b, at_point (P b) k0 k.
Proof. intros [Hc [b Hb] Hr Hm]. by exists b. Qed.

Lemma ready_idle c w : at_rest c w -> ready w.
Proof. intros Hw. right. by apply (waits_idle c w). Qed.

Lemma at_point_mono (P Q : world HW -> Prop) k0 k : (forall w, P w -> Q w) -> at_point P k0 k -> at_point Q k0 k.
Proof. intros HP [? ? ? ?]. split; auto. Qed.

Ltac rests := apply at_rest_survives.

Lemma ps2_init_step k0 k : at_point (at_rest ctrl_boot) k0 k -> wp panics ps2_init (fun _ k' => at_point ready k0 k') k.
Proof.
  intros Hk. unfold ps2_init. k_tell Hk; [rests|]. apply wp_bind.
  eapply wp_mono; [apply (world_step ctrl_fault _ _ (fun _ w => exists b, at_rest (ctrl_begun b) w) _ _ Hk);
    [apply (off_ps2ctrl_init off_console)|apply ctrl_panics|]|clear Hk; intros r k1 [there Hk]%at_point_ex].
  { intros w [? ? ? ? _]. eapply wp_mono; [by apply ctrl_init_spec|]. intros ? v [b Hv]. exists b. eapply waits_rest, Hv. }
  apply wp_bind. eapply wp_mono; [apply (world_step never _ _ (fun _ => at_rest (ctrl_after there)) _ _ Hk);
    [apply (off_register off_console)|done|]|clear Hk; intros ? k2 Hk; cbv beta in Hk].
  { intros w Hw. eapply wp_mono; [by apply (register_spec never there w)|]. intros ? v Hv. eapply waits_rest, Hv. }
  k_tell Hk; [rests|]. apply wp_bind.
  eapply wp_mono; [apply (world_step ctrl_fault _ _ (fun (r : bool) w => exists c, at_rest c w /\ (r = true -> c = ctrl_installed)) _ _ Hk);
    [apply (off_identify off_console)|apply ctrl_panics|]|clear Hk; intros found k3 [c Hk]%at_point_ex].
  { intros w Hw. eapply wp_mono; [by apply (identify_devices_spec there w)|]. intros [] v Hv; cbv beta in Hv.
    - exists ctrl_installed. split; [eapply waits_rest, Hv|done].
    - destruct Hv as [c Hv]. exists c. split; [eapply waits_rest, Hv|done]. }
  destruct found; cbn [negb].
  2:{ eapply wp_mono; [apply tell_plain; [eapply at_point_mono; [|exact Hk]; intros w [Hw _]; by eapply ready_idle|apply ready_survives|by vm_compute]|done]. }
  assert (at_point (at_rest ctrl_installed) k0 k3) as Hi by (eapply at_point_mono; [|exact Hk]; intros w [Hw E]; by rewrite <- E).
  clear Hk. k_tell Hi; [rests|]. k_tell Hi; [rests|]. apply wp_bind.
  eapply wp_mono; [apply (world_step clock_overflow _ _ (fun _ => ready) _ _ Hi); [apply (off_start_drivers off_console)|apply clock_panics|]|clear Hi; intros ok k4 Hi; cbv beta in Hi].
  { intros w Hw. eapply wp_mono; [by apply (start_drivers_spec w)|]. intros ? v [Hl _]. left. by apply live_task. }
  destruct ok; cbn [negb]; [|apply tell_plain; [done|apply ready_survives|by vm_compute]].
  k_tell Hi; [apply ready_survives|]. apply tell_plain; [done|apply ready_survives|by vm_compute].
Qed.

End Drivers.
