(* ===== verification/KernelThms.v ===== *)
(** * The boot of the kernel: theorems *)
From S2P Require Import Prelude Page Pfa PfaSpec PfaRun Pmm PmmSpec PmmInit PfaInit PfaInitSpec Mmu Paging PagingSpec PagingBoot.
From S2P Require Import Kmalloc KmallocSpec KmallocPages KmallocThms Libc Printf PrintfSpec Format Io World Irq Clock Isr Ps2driver Ps2ctrl Keyboard.
From S2P Require Import IsrSpec Ps2Spec KeyboardSpec Ps2ctrlSpec IrqThms Ps2Start Descriptors Console ConsoleSpec Log Frames.
From S2P Require Import Ps2Boot Symbols SymbolSpec Panic PanicSpec Boot Kernel KernelSpec.

(** ** The heap after the initialisation of the memory *)

#[export] Instance managed_dec m b : Decision (managed m b).
Proof.
  refine (cast_if (decide (Exists (fun r => first_page r <= b < region_end r) (region_ptrs m)))); unfold managed; by rewrite <- Exists_exists.
Defined.

Section Heap.
Context `{KernelImage}.

(** The fine-grained allocator runs on the pages of [m0], with the areas [A] in the
    hands of its callers. *)
Definition heap_ok (m0 : pfa_meta) (h : km sys) (A : gmap Z Z) : Prop :=
  exists (layout : RamLayout m0 (unmanaged m0)) G,
    km_state (laws := sys_page_laws (layout := layout)) (hb := aha_block_list) (hg := aha_big_list) h A G.

Lemma heap_start m0 s : RamLayout m0 (unmanaged m0) -> ListHeads (unmanaged m0) aha_block_list aha_big_list ->
  sys_page_state (m0 := m0) s ∅ ∅ -> heap_ok m0 (km_init (hb := aha_block_list) (hg := aha_big_list) s) ∅.
Proof. intros layout heads Hs. exists layout, []. by apply (km_init_state (laws := sys_page_laws (layout := layout))). Qed.

Lemma heap_paging m0 h A : heap_ok m0 h A -> paging_enabled (pages h) = true.
Proof. intros (layout & G & [(L & M & bl & Hc & _)]). destruct (c_pages Hc) as (pd & T & B & Hs). apply (sp_on _ _ _ _ _ _ Hs). Qed.

(** Areas are made of the bytes of the allocator. *)
Lemma heap_bytes m0 h A p sz x : heap_ok m0 h A -> A !! p = Some sz -> p <= x < p + sz -> managed m0 x.
Proof.
  intros (layout & G & Hk) Hp Hx. destruct (decide (managed m0 x)) as [|Hno]; [done|exfalso].
  destruct (ao_kernel _ _ _ (km_state_areas _ _ _ Hk) p sz x Hp Hno); lia.
Qed.

Lemma heap_alloc_spec m0 h A size : heap_ok m0 h A -> ListHeads (unmanaged m0) aha_block_list aha_big_list -> 0 < size <= 2 ^ 31 ->
  (exists why, heap_alloc size h = Err (Panic why)) \/
  (exists h', heap_alloc size h = Ok (0, h') /\ heap_ok m0 h' A) \/
  (exists p h', heap_alloc size h = Ok (p, h') /\ 0 < p /\ p + size <= 2 ^ 32 /\ A !! p = None /\
     heap_ok m0 h' (<[p := rounded size]> A) /\ forall x, p <= x < p + size -> managed m0 x).
Proof.
  intros (layout & G & Hk) heads Hs. destruct (rounded_spec size Hs) as (_ & Hr & _).
  destruct (kmalloc_spec (laws := sys_page_laws (layout := layout)) h A G size Hk Hs)
    as [(why & Hw & _)|[(h' & Hw & Hk' & _)|(p & h' & G' & Hw & Hp & HA & Hk')]].
  - left. by exists why.
  - right; left. exists h'. split; [done|]. by exists layout, G.
  - right; right. exists p, h'.
    assert (heap_ok m0 h' (<[p := rounded size]> A)) as Hok by (by exists layout, G').
    destruct (ao_area _ _ _ (km_state_areas _ _ _ Hk') p (rounded size) (lookup_insert_eq _ _ _)) as (_ & _ & Hend).
    split_and!; [done|done|lia|done|done|]. intros x Hx. eapply heap_bytes; [done|apply lookup_insert_eq|lia].
Qed.

End Heap.

(** ** The kernel as it is loaded *)

Section Boot.
Context {HW : Type} `{SharedLaws HW, L : Layout, KI : KernelImage, KR : KernelRun}.
Context (mbi : multiboot_info) (es : list entry).
Implicit Types k : kernel HW.

Let info := effective mbi.
Let file_start := mod_start (mbi_mod info).
Let file_end := mod_end (mbi_mod info).

Definition in_image (a n : Z) : Prop := kernel_start <= a /\ a + n <= kernel_end.

(** What the linker and the boot loader promise: the variables of the kernel and
    its literals are in its image, the variables of the drivers, of the memory and
    of the heap have their initial values, the boot loader's information is
    conforming and there is room for the tables; the module, when there is one, is
    a well-formed symbol map. *)
Record bootable k : Prop := {
  bo_screen : mapped (kmemory k) VGA_MEMORY 4000;
  bo_console : in_image putchar_var 1 /\ in_image printf_area 1024 /\ is_Some (kmemory k !! putchar_var) /\
    mapped (kmemory k) printf_area 1024 /\ (putchar_var < printf_area \/ printf_area + 1024 <= putchar_var);
  bo_literals : forall s, s ∈ kernel_literals -> literal (kmemory k) s /\ in_image (lit s) (Z.of_nat (length (codes s)) + 1);
  bo_level : g_log_level (k_con (k_kern k)) = level_value LOG_INFO;
  bo_idt : length (k_idt k) = 256%nat;
  bo_drivers : fresh (kworld k);
  bo_flag : interrupt_flag (k_kern k) = false;
  bo_heads : in_image aha_block_list 1 /\ in_image aha_big_list 1 /\ aha_block_list <> aha_big_list;
  bo_heap : k_heap (k_kern k) = km_init (hb := aha_block_list) (hg := aha_big_list) (k_sys k);
  bo_mem : mem_start kernel_start kernel_end map_area mbi (k_pmm k) (k_sys k);
  bo_room : forall pst pmm st, phys_mem_map_init kernel_start kernel_end map_area mbi (k_pmm k) = Ok (true, pst) ->
    pfa_init (phys_mem_map pst) (k_pfa k) = Ok (true, pmm, st) -> room kernel_start kernel_end pst st (k_sys k) 0;
  bo_ram : forall x, byte_type (mm_entries info) x MMAP_TYPE_AVAILABLE -> 0x100000 <= x -> is_Some (kmemory k !! x);
  bo_module : has_mods info = true -> es <> [] /\ Forall wf_entry es /\ has (kmemory k) file_start (file_of es) /\
    file_end = file_start + Z.of_nat (length (file_of es)) /\ 104 * Z.of_nat (length es) <= 2 ^ 31;
}.

(** *** What is established on the way *)

(** The memory is managed. *)
Record memory_up k : Prop := {
  mu_heap : exists A, heap_ok (the_meta (k_pfa k)) (k_heap (k_kern k)) A;
  mu_heads : ListHeads (unmanaged (the_meta (k_pfa k))) aha_block_list aha_big_list;
  mu_module : if has_mods info then module_addr (k_pmm k) = file_start /\ module_len (k_pmm k) = file_end - file_start
    else module_addr (k_pmm k) = 0 /\ module_len (k_pmm k) = 0;
  mu_free : forall b, managed (the_meta (k_pfa k)) b -> byte_type (mm_entries info) b MMAP_TYPE_AVAILABLE /\
    0x100000 <= b /\ ~ kernel_start <= b < kernel_end /\ ~ (has_mods info = true /\ file_start <= b < file_end);
}.

Lemma memory_up_same k k' : k_heap (k_kern k') = k_heap (k_kern k) -> k_pfa k' = k_pfa k -> k_pmm k' = k_pmm k ->
  memory_up k -> memory_up k'.
Proof. intros E1 E2 E3 [? ? ? ?]. split; by rewrite ?E1, ?E2, ?E3. Qed.

(** The symbols of the module are loaded, out of reach of the console. *)
Definition symbols_up k : Prop := has_mods info = true ->
  k_nb_syms (k_kern k) = Z.of_nat (length es) /\ table (kmemory k) (k_symbols (k_kern k)) es /\
  clear (k_symbols (k_kern k)) (104 * Z.of_nat (length es)).

Lemma symbols_up_kept k k' : rest k' = rest k -> kept putchar_var printf_area (kmemory k) (kmemory k') ->
  symbols_up k -> symbols_up k'.
Proof.
  intros [=] Hk Hs Hm. destruct (Hs Hm) as (Hn & Ht & Hc). unfold symbols_up in *.
  replace (k_symbols (k_kern k')) with (k_symbols (k_kern k)) by congruence. split_and!; [congruence| |done].
  eapply table_ext; [|exact Ht]. intros x Hx. by eapply clear_kept.
Qed.

(** *** Memory outside of the image *)

Section Bootable.
Context (kb : kernel HW) (Hb : bootable kb).

(** Neither the console nor the image is in the area. *)
Definition foreign (a n : Z) : Prop := forall x, a <= x < a + n -> 0x100000 <= x /\ ~ kernel_start <= x < kernel_end.

Lemma foreign_clear a n : foreign a n -> clear a n.
Proof.
  intros Hf x Hx. destruct (Hf x Hx) as [Hlow Hno]. destruct (bo_console _ Hb) as ([H1 H2] & [H3 H4] & _).
  unfold off_screen, VGA_MEMORY. split_and!; lia.
Qed.

Lemma image_low : 0x100000 <= kernel_start.
Proof. apply (pw_kernel _ _ _ (ms_pages _ _ _ _ _ _ (bo_mem _ Hb))). Qed.

(** The memory [m] in the place of the console's. *)
Lemma con_ok_area k n h nb sy m a sz : con_ok k -> foreign a sz -> same_outside (kmemory k) m a sz ->
  n = mk_kern (k_con (set_kmem m (k_kern k))) h nb sy (interrupt_flag (k_kern k)) -> con_ok (set_kern n k).
Proof.
  intros ([scr Hs] & Hl & Hlit) Hf Hm ->. split; [|split; [done|]].
  - exists scr. by apply (can_print_area (k_term k) scr m a sz Hs (foreign_clear _ _ Hf)).
  - intros s Hin. destruct (Hlit s Hin) as [Hh Hc]. split; [|done]. eapply has_ext; [|exact Hh]. intros x Hx. apply Hm.
    intros Hx2. destruct (Hf x Hx2) as [_ Hno]. destruct (bo_literals _ Hb s Hin) as [_ [H1 H2]].
    rewrite length_app in Hx. cbn [length] in Hx. lia.
Qed.

(** *** [kernel_early_init] *)

Lemma early_spec : wp never early_init (fun _ k => con_ok k /\ shows_screen (k_con (k_kern k)) boot_screen /\
  u_sent (uart_of (term_hw (k_term k))) = u_sent (uart_of (term_hw (k_term kb))) /\ fresh (kworld k) /\
  rest k = rest (set_gdtr (mk_gdtr 39 gdt_addr) kb) /\ kept putchar_var printf_area (kmemory kb) (kmemory k)) kb.
Proof.
  destruct (bo_console _ Hb) as ([Hv1 Hv2] & [Hp1 Hp2] & Hvar & Hbuf & Hapart). pose proof image_low as Hlow.
  assert (off_screen putchar_var) as Hoff by (unfold off_screen, VGA_MEMORY; lia).
  unfold early_init. apply wp_bind, wp_console, wp_on_term.
  eapply wp_mono; [by apply (kernel_early_init_spec gdt_addr putchar_var (k_term kb) (bo_screen _ Hb))|].
  intros r t (-> & Hr & _ & Hsent & Hs). apply wp_modify.
  assert (kept putchar_var printf_area (kmemory kb) (memory t)) as Hkept.
  { split; [intros x Hx _ _; by apply Hs|]. intros x Hx. destruct (decide (VGA_MEMORY <= x < VGA_MEMORY + 4000)) as [Hin|Hout].
    - destruct Hr as (Hr & _). replace x with (VGA_MEMORY + (x - VGA_MEMORY)) by lia.
      apply (displays_mapped (memory t) (cells boot_screen)); [by destruct Hr|lia].
    - by rewrite Hs. }
  assert (can_print putchar_var printf_area t boot_screen) as Hcan.
  { split; [done|]. split; [intros i Hi; apply Hkept, Hbuf; lia|]. split; [done|].
    intros j Hj. unfold off_screen, VGA_MEMORY. lia. }
  split_and!; [|exact Hcan|exact Hsent|apply (bo_drivers _ Hb)|done|exact Hkept].
  split; [by eexists|]. split; [apply (bo_level _ Hb)|]. intros s Hin. eapply literal_kept; [exact Hkept|apply (bo_literals _ Hb s Hin)].
Qed.

(** *** [mem_init] *)

Definition mem_step : ST (kernel HW) unit := fun k =>
  '(pst, st, s) ← mem_init kernel_start kernel_end map_area mbi (k_pmm k) (k_pfa k) (k_sys k); mret (tt, set_mem pst st s k).

Lemma mem_step_spec k : con_ok k -> fresh (kworld k) -> k_pmm k = k_pmm kb -> k_pfa k = k_pfa kb -> k_heap (k_kern k) = k_heap (k_kern kb) ->
  wp panics mem_step (fun _ k' => at_point fresh k' k' /\ kmemory k' = kmemory k /\ memory_up k' /\
    interrupt_flag (k_kern k') = interrupt_flag (k_kern k) /\ k_gdtr k' = k_gdtr k /\ k_idt k' = k_idt k) k.
Proof.
  intros Hc Hf E1 E2 E3. assert (k_sys k = k_sys kb) as E4 by (unfold k_sys; by rewrite E3).
  unfold wp, mem_step. rewrite E1, E2, E4. pose proof (bo_mem _ Hb) as Hmem.
  destruct (mem_init_spec _ _ _ _ _ (k_pfa kb) _ Hmem) 
    as [(_ & _ & ->)|[(p & _ & _ & _ & ->)|(a & pst & pmm & st & H1 & H2 & _ & _ & Hrun)]]; [by eexists..|].
  destruct (Hrun 0%nat (bo_room _ Hb _ _ _ H1 H2)) as (s & -> & [Hram Hpages _ Hmod Hfree]). cbn [mbind res_bind mret res_ret].
  assert (ListHeads (unmanaged (the_meta st)) aha_block_list aha_big_list) as Hheads.
  { destruct (bo_heads _ Hb) as ([Hb1 Hb2] & [Hg1 Hg2] & Hne).
    split; [intros Hm; apply Hfree in Hm; lia|intros Hm; apply Hfree in Hm; lia|done]. }
  split; [by split|]. split; [done|]. split_and!; [|done..]. split; [|done|exact Hmod|exact Hfree].
  exists ∅. cbn [set_mem k_pfa k_kern set_heap k_heap]. rewrite E3, (bo_heap _ Hb). by apply heap_start.
Qed.

(** *** [symbol_init] *)

Lemma wp_symbols {A} E (f : sym_state (km sys) -> res (A * sym_state (km sys))) (Q : A -> kernel HW -> Prop) k :
  let n := k_kern k in
  match f (mk_sym (kmemory k) (k_heap n) (k_nb_syms n) (k_symbols n)) with
  | Ok (a, s) => Q a (set_kern (mk_kern (k_con (set_kmem (mem s) n)) (heap s) (nb_syms s) (symbols s) (interrupt_flag n)) k)
  | Err g => E g
  end -> wp E (on_kern (on_symbols f)) Q k.
Proof. unfold wp, on_kern, on_symbols. change (kmem (k_kern k)) with (kmemory k). by destruct (f _) as [[a s]|]. Qed.

(** What the loading of the symbols leaves, before the interrupts of the meantime. *)
Definition loaded_from k k' : Prop :=
  con_ok k' /\ kworld k' = kworld k /\ memory_up k' /\ symbols_up k' /\
  interrupt_flag (k_kern k') = interrupt_flag (k_kern k) /\ k_gdtr k' = k_gdtr k /\ k_idt k' = k_idt k /\ k_idtr k' = k_idtr k.

Lemma symbols_step k : con_ok k -> memory_up k -> kept putchar_var printf_area (kmemory kb) (kmemory k) ->
  wp panics (on_kern (on_symbols (symbol_init (module_addr (k_pmm k)) (module_len (k_pmm k))))) (fun _ k' => loaded_from k k') k.
Proof.
  intros Hc Hm Hk. apply wp_symbols. cbv zeta. pose proof Hm as [(A & Hh) Hheads Hmod Hfree]. unfold loaded_from.
  destruct (has_mods info) eqn:Emods.
  2:{ destruct Hmod as [-> ->]. cbn [symbol_init Z.eqb orb mret res_ret mem heap nb_syms symbols].
      split_and!; try done; [|by apply (memory_up_same k)|intros Hno; by rewrite Emods in Hno].
      eapply (con_ok_area k _ _ _ _ (kmemory k) 0 0); [done|intros x Hx; lia|by intros x _|reflexivity]. }
  destruct Hmod as [-> ->]. destruct (bo_module _ Hb Emods) as (Hes & Hwf & Hfile & Hend & Hsize).
  pose proof (ms_pages _ _ _ _ _ _ (bo_mem _ Hb)) as [Hkern _ Hpm]. fold info in Hpm. specialize (Hpm Emods). cbv zeta in Hpm.
  fold file_start file_end in Hpm. destruct Hpm as (Hstart & Hhi & _).
  assert (has (kmemory k) file_start (file_of es)) as Hfile'.
  { eapply has_ext; [|exact Hfile]. intros x Hx. destruct (bo_console _ Hb) as ([? ?] & [? ?] & _).
    destruct (ms_pages _ _ _ _ _ _ (bo_mem _ Hb)) as [(_ & Hlow & _) _ Hpm]. specialize (Hpm Emods). cbv zeta in Hpm.
    fold info file_start file_end in Hpm. unfold page_up in Hpm.
    apply Hk; unfold off_screen, VGA_MEMORY; Z.div_mod_to_equations; lia. }
  replace (file_end - file_start) with (Z.of_nat (length (file_of es))) by lia.
  assert (0 < Z.of_nat (length es)) as Hn by (destruct es; [done|cbn; lia]).
  set (st := mk_sym (kmemory k) (k_heap (k_kern k)) (k_nb_syms (k_kern k)) (k_symbols (k_kern k))).
  pose proof (symbol_init_counts es file_start st Hes Hwf Hfile' ltac:(lia) ltac:(lia) ltac:(lia)) as Hcounts.
  destruct (heap_alloc_spec _ _ _ (104 * Z.of_nat (length es)) Hh Hheads ltac:(lia))
    as [[why Hw]|[(h' & Hw & _)|(p & h' & Hw & Hp & Hp32 & _ & Hok & Hbytes)]].
  - rewrite Hcounts. cbn [heap st]. rewrite Hw. by exists why.
  - rewrite Hcounts. cbn [heap st]. rewrite Hw. cbn [mbind res_bind]. by eexists.
  - assert (foreign p (104 * Z.of_nat (length es))) as Hfor by (intros x Hx; apply Hbytes, Hfree in Hx; tauto).
    destruct (symbol_init_spec es file_start st p h') as (m & -> & Ht & Hso & _).
    { split; try done; try lia.
      - intros i Hi. apply Hk, (bo_ram _ Hb); apply (Hfree (p + i)), Hbytes; lia.
      - unfold apart. destruct (decide (file_end <= p)); [left; lia|].
        destruct (decide (p + 104 * Z.of_nat (length es) <= file_start)); [by right|exfalso].
        destruct (Hfree (Z.max file_start p)) as (_ & _ & _ & Hno); [apply Hbytes; lia|]. apply Hno. split; [done|lia]. }
    cbn [mem heap nb_syms symbols]. split_and!; try done.
    + by eapply (con_ok_area k _ _ _ _ m).
    + split; [by eexists|done|apply (mu_module _ Hm)|apply (mu_free _ Hm)].
    + intros _. split_and!; [done|done|]. by apply (foreign_clear).
Qed.

Lemma load_symbols_spec k : con_ok k -> at_rest ctrl_boot (kworld k) -> memory_up k -> kept putchar_var printf_area (kmemory kb) (kmemory k) ->
  wp panics load_symbols (fun _ k' => at_point (at_rest ctrl_boot) k' k' /\ memory_up k' /\ symbols_up k' /\
    interrupt_flag (k_kern k') = interrupt_flag (k_kern k) /\ k_gdtr k' = k_gdtr k /\ k_idt k' = k_idt k /\ k_idtr k' = k_idtr k) k.
Proof.
  intros Hc Hw Hm Hk. unfold load_symbols. apply wp_bind, wp_gets, wp_bind. eapply wp_mono; [by apply symbols_step|].
  intros ok k1 (Hc1 & Hw1 & Hm1 & Hs1 & F1 & F2 & F3 & F4). apply wp_bind.
  eapply wp_mono; [apply (meanwhile_step "symbol_init" (at_rest ctrl_boot) k1 k1); [split; [done|by rewrite Hw1|done|done]|apply at_rest_survives]|].
  intros ? k2 [Hc2 Hw2 Hr2 Hk2]. apply wp_ret. pose proof Hr2 as [= R1 R2 R3 R4 R5 R6 R7 R8 R9].
  split_and!; [by split| | |congruence..]; [by eapply memory_up_same|by eapply symbols_up_kept].
Qed.

(** *** [kernel_init] *)

(** What holds from the end of [kernel_init] on. *)
Record arranged k : Prop := {
  ar_memory : memory_up k;
  ar_symbols : symbols_up k;
  ar_flag : interrupt_flag (k_kern k) = true;
  ar_gdtr : k_gdtr k = mk_gdtr 39 gdt_addr;
  ar_idt : setup_idt isr_stub idt_addr (k_idt kb) = Ok (k_idt k, k_idtr k);
}.

Lemma arranged_point P k k' : at_point P k k' -> arranged k -> arranged k'.
Proof.
  intros [_ _ Hr Hk] [Hm Hs ? ? ?]. pose proof Hr as [=].
  split; [by eapply memory_up_same|by eapply symbols_up_kept|congruence..].
Qed.

Lemma at_point_refl P k0 k : at_point P k0 k -> at_point P k k.
Proof. intros [? ? _ _]. by split. Qed.

Ltac k_drive H E Q off :=
  apply wp_bind; eapply wp_mono; [apply (world_step E _ _ Q _ _ H); [apply off|done|]|clear H; intros ? ? H; cbv beta in H].

(** Up to the timer. *)
Lemma tables_spec k0 k (Q : unit -> kernel HW -> Prop) (m : ST (kernel HW) unit) :
  at_point fresh k0 k -> interrupt_flag (k_kern k0) = false -> k_idt k0 = k_idt kb ->
  (forall k1 k2, at_point (at_rest ctrl_boot) k1 k2 -> k_heap (k_kern k1) = k_heap (k_kern k0) -> k_pfa k1 = k_pfa k0 ->
     k_pmm k1 = k_pmm k0 -> k_gdtr k1 = k_gdtr k0 -> kmemory k1 = kmemory k -> interrupt_flag (k_kern k1) = false ->
     setup_idt isr_stub idt_addr (k_idt kb) = Ok (k_idt k1, k_idtr k1) -> wp panics m Q k2) ->
  wp panics ((fun k => '(idt, idtr) ← setup_idt isr_stub idt_addr (k_idt k); mret (tt, set_idt idt idtr k));;
    tell Info "init" "IDT setup" [];; on_world (irq_init IRQ0_INT IRQ7_INT);; tell Info "init" "IRQ initialized" [];;
    on_world (clock_init CLOCK_FREQ);; tell Info "init" "clock initialized" [];;
    tell Info "init" "enabling interrupts now" [];; m) Q k.
Proof.
  intros Hk Hf Hidt Hm. apply wp_bind. destruct (setup_idt_spec isr_stub idt_addr (k_idt kb) (bo_idt _ Hb)) as (idt & Hi & _).
  pose proof (ap_rest _ _ _ Hk) as [= R1 R2 R3 R4 R5 R6 R7 R8 R9].
  unfold wp at 1. rewrite R8, Hidt, Hi. cbn [mbind res_bind mret res_ret]. set (k1 := set_idt _ _ k).
  assert (at_point fresh k1 k1) as H1 by (by destruct Hk).
  assert (interrupt_flag (k_kern k1) = false) as Hf1 by (cbn; congruence).
  k_tell H1; [rewrite Hf1; apply fresh_survives|].
  k_drive H1 never (fun _ : unit => remapped) (off_irq_init off_console); [by apply fresh_irq_init|].
  k_tell H1; [rewrite Hf1; apply remapped_survives|].
  k_drive H1 never (fun _ : unit => at_rest ctrl_boot) (off_clock_init off_console); [by apply remapped_clock_init|].
  k_tell H1; [apply at_rest_survives|]. k_tell H1; [apply at_rest_survives|].
  apply (Hm k1); try done; cbn; congruence.
Qed.

(** As the kernel leaves [kernel_early_init]. *)
Record started k : Prop := {
  st_con : con_ok k;
  st_drivers : fresh (kworld k);
  st_rest : rest k = rest (set_gdtr (mk_gdtr 39 gdt_addr) kb);
  st_memory : kept putchar_var printf_area (kmemory kb) (kmemory k);
}.

Lemma started_point k k' : started k -> at_point fresh k k' -> started k'.
Proof. intros [Hc Hw Hr Hk] [Hc' Hw' Hr' Hk']. split; [done|done|congruence|by etrans]. Qed.

Lemma init_memory_spec k : started k ->
  wp panics (init_memory mbi) (fun _ k' => at_point fresh k' k' /\ memory_up k' /\ interrupt_flag (k_kern k') = false /\
    k_gdtr k' = mk_gdtr 39 gdt_addr /\ k_idt k' = k_idt kb /\ kept putchar_var printf_area (kmemory kb) (kmemory k')) k.
Proof.
  intros Hs. assert (at_point fresh k k) as H1 by (by destruct Hs).
  assert (forall k', started k' -> interrupt_flag (k_kern k') = false) as Hoff.
  { intros k' [_ _ [=] _]. pose proof (bo_flag _ Hb). congruence. }
  unfold init_memory. k_tell H1; [rewrite (Hoff k Hs); apply fresh_survives|].
  apply wp_bind. fold mem_step. pose proof (started_point _ _ Hs H1) as Hs1. clear Hs H1.
  pose proof (Hoff _ Hs1) as Hf1. destruct Hs1 as [Hc Hw Hr Hk]. pose proof Hr as [= R1 R2 R3 R4 R5 R6 R7 R8 R9].
  eapply wp_mono; [by apply mem_step_spec|]. intros [] k2 (H2 & Hmem & Hup & F1 & F2 & F3).
  eapply wp_mono; [apply tell_plain; [exact H2|rewrite F1, Hf1; apply fresh_survives|by vm_compute]|].
  intros [] k3 [H3 Hw3 Hr3 Hk3]. pose proof Hr3 as [= S1 S2 S3 S4 S5 S6 S7 S8 S9].
  split; [by split|]. split; [by eapply memory_up_same|]. split_and!; [congruence..|]. etrans; [exact Hk|]. by rewrite <- Hmem.
Qed.

Lemma kernel_init_spec k : started k -> wp panics (kernel_init mbi) (fun _ k' => at_point ready k' k' /\ arranged k') k.
Proof.
  intros Hs. unfold kernel_init. apply wp_bind. eapply wp_mono; [by apply init_memory_spec|].
  intros [] k1 (H1 & Hup & F1 & F2 & F3 & Hk1). apply (tables_spec k1); [done..|].
  intros k2 k3 H3 E1 E2 E3 E4 E5 E6 Hidt.
  k_drive H3 never (fun _ : unit => at_rest ctrl_boot) (off_enable_nmi off_console); [by apply at_rest_nmi|].
  lazymatch goal with H : at_point _ _ ?x |- _ => rename x into k4 end.
  pose proof (ap_rest _ _ _ H3) as [= R1 R2 R3 R4 R5 R6 R7 R8 R9].
  apply wp_bind. unfold wp at 1, on_kern at 1, enable_interrupts, modify. cbn [mbind res_bind mret res_ret].
  set (k5 := set_kern _ k4). apply wp_bind. eapply wp_mono; [apply (load_symbols_spec k5)|].
  - apply (ap_con _ _ _ H3).
  - apply (ap_world _ _ _ H3).
  - apply (memory_up_same k1); [cbn; congruence..|done].
  - change (kmemory k5) with (kmemory k4). etrans; [exact Hk1|]. rewrite <- E5. apply (ap_memory _ _ _ H3).
  - intros ok k6 (H6 & Hup6 & Hs6 & G1 & G2 & G3 & G4). apply wp_bind.
    assert (arranged k6) as Ha6 by (split; try done; [by rewrite G2; cbn; congruence|rewrite Hidt, G3, G4; cbn [k5 set_kern k_idt k_idtr]; by rewrite R8, R9]).
    apply (wp_mono _ _ (fun _ k' => at_point (at_rest ctrl_boot) k6 k')).
    { destruct ok; cbn [negb]; [by apply wp_ret|]. apply tell_plain; [done|apply at_rest_survives|by vm_compute]. }
    intros [] k7 H7. apply wp_bind. eapply wp_mono; [by apply (ps2_init_step k6)|]. intros [] k8 H8.
    eapply wp_mono; [apply tell_plain; [exact H8|apply ready_survives|by vm_compute]|].
    intros [] k9 H9. split; [by eapply at_point_refl|by eapply arranged_point].
Qed.

(** *** kernel.c *)

Definition version_field : conv_field := mk_field [] [] (Some [50]) None.
Definition version_pieces : list piece :=
  lits (tab +:+ "| Welcome to Ah!OS (v") ++ Num no_field Dec AHOS_VERSION_MAJOR :: Lit 46 ::
  Num version_field Dec AHOS_VERSION_MINOR :: lits (")! |" +:+ nl).
Definition booted_pieces (t : Z) : list piece := lits "kernel booted in " ++ Num no_field Dec t :: lits " tick(s)".

Lemma dec_ok m f w : f = no_field \/ f = version_field -> arg_ok m (Num f Dec w).
Proof.
  intros [-> | ->]; (split; [|done]); split_and!; try done; repeat (constructor || split); unfold decimal_char; cbn; lia || done.
Qed.

Lemma version_pieces_ok m : Forall (arg_ok m) version_pieces.
Proof.
  apply Forall_app; split; [by apply lits_ok|]. apply Forall_cons; split; [apply dec_ok; tauto|].
  apply Forall_cons; split; [done|]. apply Forall_cons; split; [apply dec_ok; tauto|by apply lits_ok].
Qed.

Lemma booted_pieces_ok t m : Forall (arg_ok m) (booted_pieces t).
Proof. apply Forall_app; split; [by apply lits_ok|]. apply Forall_cons; split; [apply dec_ok; tauto|by apply lits_ok]. Qed.

Lemma dec_text_length w : (length (piece_text (Num no_field Dec w)) <= 11)%nat.
Proof.
  apply Nat2Z.inj_le. unfold piece_text. cbv zeta. rewrite number_text_length.
  change (Z.lor (field_flags no_field) (number_flags Dec)) with SIGN. change (number_base Dec) with 10.
  change (field_width no_field) with (-1). change (field_precision no_field) with (-1). change (number_prefix 10 SIGN) with (@nil Z).
  generalize (number_value no_field Dec w) as v. intros v. assert (length (number_sign v SIGN) <= 1)%nat as Hs.
  { unfold number_sign. repeat case_match; cbn; lia. }
  assert (length (number_digits v 10 SIGN) <= 10)%nat as Hdig; [|cbn [length]; lia].
  unfold number_digits, digit_text. destruct (Z.eqb_spec (magnitude v SIGN) 0); [cbn; lia|]. rewrite length_reverse, length_fmap.
  apply lsd_length; [lia|]. unfold magnitude. change (10 ^ Z.of_nat 10) with 10000000000. unfold u32. Z.div_mod_to_equations; lia.
Qed.

Lemma booted_length t : Z.of_nat (length (text_of (booted_pieces t))) <= 60.
Proof.
  unfold booted_pieces. rewrite text_app, text_lits.
  change (text_of (Num no_field Dec t :: ?l)) with (piece_text (Num no_field Dec t) ++ text_of l). rewrite text_lits, !length_app.
  change (length (codes "kernel booted in ")) with 17%nat. change (length (codes " tick(s)")) with 8%nat.
  pose proof (dec_text_length t). lia.
Qed.

Lemma banner_step k0 k : at_point ready k0 k -> wp panics print_banner (fun _ k' => at_point ready k0 k') k.
Proof.
  intros Hk. unfold print_banner.
  do 3 (apply wp_bind; eapply wp_mono; [apply print_plain; [exact Hk|apply ready_survives|by vm_compute]|clear Hk k; intros [] k Hk; cbv beta in Hk]).
  apply wp_bind. eapply wp_mono; [apply (print_step _ version_pieces); [exact Hk|apply ready_survives|by vm_compute|by vm_compute|apply version_pieces_ok]|].
  clear Hk k. intros [] k Hk. cbv beta in Hk.
  do 2 (apply wp_bind; eapply wp_mono; [apply print_plain; [exact Hk|apply ready_survives|by vm_compute]|clear Hk k; intros [] k Hk; cbv beta in Hk]).
  apply print_plain; [exact Hk|apply ready_survives|by vm_compute].
Qed.

(** The faults of [n] rounds of the main loop: the kernel panics, or a scan code
    outside of its table is looked up. *)
Definition kernel_stop (n : nat) (f : fault) : Prop := panics f \/ (f = Oob /\ (0 < n)%nat).

(** [n] quanta have passed, or the clock is about to overflow. *)
Definition ran (n : nat) (w : world HW) : Prop := 100 * Z.of_nat n <= clock_tick w \/ 2 ^ 31 <= clock_tick w + 100.

Lemma loop_step n k0 k : at_point ready k0 k ->
  wp (kernel_stop n) (kernel_main_loop n) (fun _ k' => at_point (fun w => ready w /\ ran n w) k0 k') k.
Proof.
  intros Hk. unfold kernel_main_loop. apply wp_bind.
  eapply wp_mono; [eapply wp_weaken; [by left|apply tell_plain; [exact Hk|apply ready_survives|by vm_compute]]|].
  clear Hk k. intros [] k Hk. cbv beta in Hk.
  apply (world_step (fun f => task_fault f /\ (0 < n)%nat) _ _ (fun _ w => ready w /\ ran n w) _ _ Hk).
  - refine (pres_for _ _ _ _ _). intros _. apply (off_round off_console).
  - intros f [[Hf| ->] Hn]; [left; by apply clock_panics|by right].
  - intros w Hw. destruct n as [|n].
    + apply wp_ret. split; [done|]. left. pose proof (proj1 ready_ticks w Hw) as Ht. change (tick w) with (clock_tick w) in Ht. lia.
    + eapply wp_mono; [eapply wp_weaken; [|by apply (rounds_spec (S n) 0 w)]|].
      * intros f Hf. split; [exact Hf|lia].
      * intros ? w' [Hr Hq]. split; [done|]. unfold ran. pose proof (proj1 ready_ticks w Hw) as Ht.
        unfold quanta in Hq. change (tick w) with (clock_tick w) in *. change (tick w') with (clock_tick w') in *. lia.
Qed.

Lemma started_spec : wp never early_init (fun _ k => started k /\ shows_screen (k_con (k_kern k)) boot_screen /\
  u_sent (uart_of (term_hw (k_term k))) = u_sent (uart_of (term_hw (k_term kb)))) kb.
Proof. eapply wp_mono; [apply early_spec|]. intros ? k (? & ? & ? & ? & ? & ?). by split_and!. Qed.

Lemma kernel_main_spec n :
  wp (kernel_stop n) (kernel_main n MULTIBOOT_BOOTLOADER_MAGIC mbi) (fun _ k => at_point (fun w => ready w /\ ran n w) k k /\ arranged k) kb.
Proof.
  unfold kernel_main. rewrite Z.eqb_refl. cbn [negb]. apply wp_bind.
  eapply wp_mono; [apply (wp_weaken never); [done|apply started_spec]|]. intros ? k (Hs & _ & _).
  assert (at_point fresh k k) as Hk by (by destruct Hs). apply wp_bind.
  eapply wp_mono; [eapply wp_weaken; [by left|apply tell_plain; [exact Hk| |by vm_compute]]|].
  { destruct Hs as [_ _ [=] _]. pose proof (bo_flag _ Hb). replace (interrupt_flag (k_kern k)) with false by congruence. apply fresh_survives. }
  intros [] k1 Hk1. pose proof (started_point _ _ Hs Hk1) as Hs1. apply wp_bind.
  eapply wp_mono; [eapply wp_weaken; [by left|by apply kernel_init_spec]|]. intros [] k2 [Hk2 Ha]. apply wp_bind.
  eapply wp_mono; [eapply wp_weaken; [by left|by apply (banner_step k2)]|]. clear Hk2. intros [] k3 Hk3. apply wp_bind.
  eapply wp_mono; [eapply wp_weaken; [by left|apply (world_step clock_overflow _ _ (fun _ => ready) _ _ Hk3)]|].
  - apply (off_gettick off_console).
  - apply clock_panics.
  - intros w Hw. eapply wp_mono; [apply (gettick_spec ready); [apply ready_ticks|done]|]. by intros ? w' (_ & ? & _).
  - intros t k4 Hk4. apply wp_bind.
    eapply wp_mono; [eapply wp_weaken; [by left|apply (tell_step Info "main" "kernel booted in %d tick(s)" (booted_pieces t) _ _ _ Hk4)]|].
    + apply ready_survives.
    + by vm_compute.
    + unfold booted_pieces. rewrite format_app, format_lits.
      change (format_of (Num no_field Dec t :: ?l)) with ([37; 100] ++ format_of l). by rewrite format_lits.
    + apply booted_pieces_ok.
    + unfold message_text. rewrite !length_app. pose proof (booted_length t).
      change (length (codes "[")) with 1%nat. change (length (codes "main")) with 4%nat. change (length (codes "] ")) with 2%nat.
      change (length (codes (severity_prefix Info))) with 0%nat. change (length (codes nl)) with 1%nat. lia.
    + intros [] k5 Hk5. eapply wp_mono; [by apply (loop_step n k2)|]. intros ? k6 Hk6. cbv beta in Hk6.
      split; [exact (at_point_refl _ _ _ Hk6)|exact (arranged_point _ _ _ Hk6 Ha)].

Qed.

(** Another boot loader: a message, and nothing else. *)
Lemma kernel_refuses n magic : magic <> MULTIBOOT_BOOTLOADER_MAGIC ->
  exists k, kernel_main n magic mbi kb = Ok (tt, k) /\ k_sys k = k_sys kb /\ interrupt_flag (k_kern k) = false /\
    u_sent (uart_of (term_hw (k_term k))) = u_sent (uart_of (term_hw (k_term kb))) ++
      message_text "main" "ERROR: " (codes "kernel NOT booted from a MULTIBOOT (v1) compliant boot loader").
Proof.
  intros Hm. destruct (wp_run _ _ _ started_spec) as (? & k & Hrun & Hs & Hscr & Hsent).
  unfold kernel_main. rewrite (proj2 (Z.eqb_neq _ _) Hm). cbn [negb]. unfold mbind at 1, ST_bind at 1. rewrite Hrun.
  destruct Hs as [(_ & Hl & Hlit) _ Hr _]. pose proof (bo_flag _ Hb) as Hf. pose proof Hr as [= R1 _ _ R4 _ _ _ _ _]. rewrite Hf in R4.
  set (fmt := "kernel NOT booted from a MULTIBOOT (v1) compliant boot loader").
  destruct (wp_run _ _ _ (log_at_spec Error "main" fmt (lits fmt) (k_con (k_kern k)) boot_screen Hscr
    (Hlit "main" ltac:(by apply (bool_decide_unpack _))) eq_refl (Hlit (message_literal Error fmt) ltac:(by apply (bool_decide_unpack _)))
    ltac:(by rewrite format_lits) ltac:(by apply lits_ok) ltac:(by vm_compute))) as ([] & c & Hc & _ & _ & Hsent' & _).
  rewrite Hl in Hsent'. exists (set_kern (set_con c (k_kern k)) k).
  split; [|split; [|split; [exact R4|]]].
  - unfold tell, mbind, ST_bind, on_kern, on_con. rewrite args_lits in Hc. rewrite Hc. cbn [mbind res_bind mret res_ret].
    unfold meanwhile, gets, mbind, ST_bind. cbn [k_kern set_kern set_con interrupt_flag]. by rewrite R4.
  - unfold k_sys. cbn [k_kern set_kern set_con k_heap]. by rewrite R1.
  - etrans; [exact Hsent'|]. by rewrite <- Hsent, text_lits.
Qed.

End Bootable.

(** C34. The boot as a whole.  A kernel that is loaded as the linker and a
    conforming boot loader promise, on hardware that satisfies the laws, whatever
    its devices answer: if the magic number is wrong, [kernel_main] returns after
    its message on the serial line, with the memory untouched and the interrupts
    disabled; otherwise it reaches the main loop and goes through any number of
    its rounds, each a quantum of 100 ticks (up to the end of the clock), unless
    it panics or, in a round, looks up a scan code outside of its table.  Then
    paging is on and [kmalloc] works on frames that nothing else uses, the
    descriptor and interrupt tables are loaded, the interrupts are enabled, the
    symbols of the module are in their table, the console can print and the
    keyboard's driver runs or waits for ever. *)
Theorem kernel_main_boots n k : bootable k ->
  (forall magic, magic <> MULTIBOOT_BOOTLOADER_MAGIC -> exists k',
     kernel_main n magic mbi k = Ok (tt, k') /\ k_sys k' = k_sys k /\ interrupt_flag (k_kern k') = false /\
     u_sent (uart_of (term_hw (k_term k'))) = u_sent (uart_of (term_hw (k_term k))) ++
       message_text "main" "ERROR: " (codes "kernel NOT booted from a MULTIBOOT (v1) compliant boot loader")) /\
  wp (kernel_stop n) (kernel_main n MULTIBOOT_BOOTLOADER_MAGIC mbi) (fun _ k' =>
    arranged k k' /\ paging_enabled (k_sys k') = true /\ con_ok k' /\ ready (kworld k') /\ ran n (kworld k')) k.
Proof.
  intros Hb. split; [intros magic Hm; by apply kernel_refuses|].
  eapply wp_mono; [by apply kernel_main_spec|]. intros [] k' [[Hc [Hr Hn] _ _] Ha]. split_and!; try done.
  destruct (ar_memory _ _ Ha) as [[A HA] _ _ _]. by apply (heap_paging (the_meta (k_pfa k')) _ A).
Qed.

End Boot.
