(* ===== verification/KernelDemo.v ===== *)
(** * A machine to boot

    The small PC of [Pc] with a video card and a serial controller, 96 KB of
    memory above the first megabyte, and a kernel of 16 KB with a module of two
    symbols. *)
From S2P Require Import Prelude Page Pfa PfaSpec PfaRun Pmm PmmSpec PmmInit PmmThms PfaInit PfaInitSpec PfaBoot Mmu Paging PagingSpec PagingBoot.
From S2P Require Import Kmalloc KmallocSpec KmallocPages KmallocThms Libc Printf PrintfSpec Format Io World Irq Clock Isr Ps2driver Ps2ctrl Keyboard.
From S2P Require Import IsrSpec Ps2Spec KeyboardSpec Ps2ctrlSpec Pc IrqThms Ps2Start Descriptors Console ConsoleSpec Log Frames.
From S2P Require Import Ps2Boot Symbols SymbolSpec Panic PanicSpec Boot Kernel KernelSpec KernelThms.

(** ** The hardware *)

Record board := mk_board { b_pc : pc; b_crtc : crtc; b_uart : uart }.

Definition board_in (p : Z) (h : board) : Z * board :=
  if p =? 0x3fb then (u_lcr (b_uart h), h)
  else let '(v, c) := pc_in p (b_pc h) in (v, mk_board c (b_crtc h) (b_uart h)).

#[export] Instance board_hardware : Hardware board := {
  in_port := board_in;
  out_port p v h := mk_board (pc_out p v (b_pc h)) (crtc_out p v (b_crtc h)) (uart_out p v (b_uart h));
  int_req h := let '(r, c) := pc_req (b_pc h) in (r, mk_board c (b_crtc h) (b_uart h));
  patience := PERIOD }.

#[export, refine] Instance board_laws : HardwareLaws board := {
  master h := p_master (b_pc h); slave h := p_slave (b_pc h); pit_wait h := pc_wait (b_pc h);
  data_read h := p_read (b_pc h) }.
Proof.
  - intros h. exact (pit_wait_bound (HW := pc) (b_pc h)).
  - intros p h. cbn. unfold board_in. destruct (p =? 0x3fb); [done|]. destruct (in_keeps (HW := pc) p (b_pc h)) as (H1 & H2 & H3). cbn in *.
    by destruct (pc_in p (b_pc h)).
  - done.
  - done.
  - intros p v h. exact (out_master (HW := pc) p v (b_pc h)).
  - intros p v h. exact (out_slave (HW := pc) p v (b_pc h)).
  - intros p v h. exact (out_wait (HW := pc) p v (b_pc h)).
  - intros h h'. cbn. destruct (pc_req (b_pc h)) as [[v|] c] eqn:E; [done|]. intros [= <-]. exact (req_none (HW := pc) (b_pc h) c E).
  - intros h v h'. cbn. destruct (pc_req (b_pc h)) as [[v'|] c] eqn:E; [|done]. intros [= <- <-]. exact (req_some (HW := pc) (b_pc h) v' c E).
  - intros p h. cbn. unfold board_in. destruct (Z.eqb_spec p 0x3fb) as [->|_]; [by rewrite app_nil_r|].
    pose proof (data_read_in (HW := pc) p (b_pc h)) as Hr. cbn in Hr. by destruct (pc_in p (b_pc h)).
  - intros p v h. exact (data_read_out (HW := pc) p v (b_pc h)).
  - intros h. cbn. pose proof (data_read_req (HW := pc) (b_pc h)) as Hr. cbn in Hr. by destruct (pc_req (b_pc h)).
Defined.

#[export, refine] Instance board_console : ConsoleLaws board := { crtc_of := b_crtc; uart_of := b_uart }.
Proof.
  - done.
  - done.
  - done.
  - intros p h [-> | ->]; done.
Defined.

#[export] Instance board_shared : SharedLaws board.
Proof.
  split.
  - intros p h _. cbn. unfold board_in. destruct (p =? 0x3fb); [done|]. by destruct (pc_in p (b_pc h)).
  - intros h. cbn. by destruct (pc_req (b_pc h)).
Defined.

(** ** The kernel, its image and its module *)

Definition board_info : multiboot_info :=
  mk_mbi 0x9500 0x48 1 0x9600 48 0x9000
    [mk_mme 20 0x100000 0x100000 1; mk_mme 20 0 0x9000 1] (mk_mod 0x105000 0x105011).

#[export] Instance board_image : KernelImage := {|
  kernel_start := 0x100000; kernel_end := 0x103ff0; gdt_addr := 0x103000; idt_addr := 0x103100;
  isr_stub v := 0x100000 + 16 * (v mod 16); aha_block_list := 0x103900; aha_big_list := 0x103908 |}.

(** The literals one after the other from 0x100200. *)
#[export] Instance board_layout : Layout := {|
  lit s := 0x100000 + placed kernel_literals s; putchar_var := 0x102000; printf_area := 0x102400 |}.

(** Three interrupts can come during a message. *)
#[export] Instance board_run : KernelRun := {| map_area := demo_ram; uninit := 0; boundaries _ := 3%nat |}.

Definition board_bytes : bytes :=
  area 0x100200 (kernel_literals ≫= (fun s => codes s ++ [0])) ∪ area 0x105000 (file_of demo_es).
Definition zeros (a n : Z) : bytes := list_to_map ([] ++ ((fun x => (x, 0)) <$> seqZ a n)).
Definition board_memory : bytes := board_bytes ∪ (zeros VGA_MEMORY 4000 ∪ zeros 0x100000 0x100000).

Definition board_cold : board := mk_board pc_cold (mk_crtc 0 ∅) (mk_uart 0 0 0 0 0 []).

Definition board_kernel : kernel board :=
  mk_kernel
    (mk_kern (mk_con (mk_term board_cold 0 0 0 0 0 board_memory) 2)
       (km_init (hb := aha_block_list) (hg := aha_big_list) demo_kernel_sys) 0 0 false)
    0 {[ keyboard_driver := keyboard_driver_boot ]} ctrl_boot kbd_boot demo_st demo_pfa_st (mk_gdtr 0 0)
    (replicate 256 empty_gate) (0, 0).

(** *** The information of the boot loader *)

Lemma board_boot_wf : boot_wf 0x100000 0x103ff0 board_info.
Proof.
  constructor.
  - constructor; cbn; [by repeat constructor|done|done|done].
  - repeat (apply Forall_cons; split); [..|by apply Forall_nil];
      constructor; unfold mm_low, MMAP_TYPE_AVAILABLE; cbn [mm_addr mm_len mm_type]; lia.
  - unfold board_info, mmap_buf. pairwise_concrete.
  - done.
  - by vm_compute.
  - unfold segs_low. repeat (apply Forall_cons; split); [..|by apply Forall_nil]; by vm_compute.
  - unfold boot_regions. change (has_mods board_info) with true.
    repeat (apply Forall_cons; split); [..|by apply Forall_nil]; unfold region_low; split_and!; by vm_compute.
  - let r := eval vm_compute in (boot_regions board_info) in change (boot_regions board_info) with r. pairwise_concrete.
  - exists (mk_pmme 0x100000 0x100000 1). split; [apply list_elem_of_here|split_and!; by vm_compute].
  - intros _. split; [|right; by vm_compute]. exists (mk_pmme 0x100000 0x100000 1).
    split; [apply list_elem_of_here|split_and!; by vm_compute].
Qed.

Lemma board_available b : byte_type (mm_entries board_info) b MMAP_TYPE_AVAILABLE ->
  0x100000 <= b < 0x200000 \/ 0 <= b < 0x9000.
Proof.
  intros (e & He & _ & Hb). unfold board_info in He. vm_compute in He.
  repeat (apply elem_of_cons in He as [-> |He]; [unfold byte_in, pe_end in Hb; cbn in Hb; lia|]). by apply elem_of_nil in He.
Qed.

Lemma board_pages : pages_wf 0x100000 0x103ff0 board_info.
Proof.
  split; [split_and!; by vm_compute| |].
  - intros b Hb. apply board_available in Hb. lia.
  - intros _. cbv zeta. split_and!; [by vm_compute..|right; by vm_compute].
Qed.

Lemma board_mem_start : mem_start 0x100000 0x103ff0 demo_ram board_info demo_st demo_kernel_sys.
Proof.
  split; [by intros; apply length_replicate|done|done|exact board_boot_wf|exact board_pages|done| |done].
  intros pst H. vm_compute in H. injection H as <-. by vm_compute.
Qed.

(** 249 frames are free, 103 are enough. *)
Lemma board_room pst pmm st : phys_mem_map_init 0x100000 0x103ff0 demo_ram board_info demo_st = Ok (true, pst) ->
  pfa_init (phys_mem_map pst) demo_pfa_st = Ok (true, pmm, st) -> room 0x100000 0x103ff0 pst st demo_kernel_sys 0.
Proof.
  intros H1 H2. vm_compute in H1. injection H1 as <-. vm_compute in H2. injection H2 as <- <-. unfold room.
  match goal with |- enough _ _ ?n => let v := eval vm_compute in n in change n with v end.
  exists ((fun i => 0x107000 + 4096 * i) <$> seqZ 0 103). split_and!.
  - apply NoDup_fmap_2; [intros i j; lia|apply NoDup_seqZ].
  - by rewrite length_fmap, length_seqZ.
  - intros b (i & -> & Hi%elem_of_seqZ)%list_elem_of_fmap. split.
    + eexists. split; [apply list_elem_of_here|]. unfold region_end, aligned, PAGE_SIZE. cbn.
      split_and!; [lia|lia|]. Z.div_mod_to_equations; lia.
    + intros j _ (a & k & H & _). by rewrite lookup_empty in H.
Qed.

(** *** The memory *)

Lemma board_mapped a n : 0x100000 <= a -> a + n <= 0x200000 -> mapped board_memory a n.
Proof.
  intros Ha Hn. do 2 (apply mapped_union; right). intros i Hi.
  pose proof (mapped_area [] 0x100000 0x100000 (a + i - 0x100000) ltac:(lia)) as Hm.
  by replace (0x100000 + (a + i - 0x100000)) with (a + i) in Hm by lia.
Qed.

Lemma board_screen : mapped board_memory VGA_MEMORY 4000.
Proof. apply mapped_union; right. apply mapped_union; left. apply (mapped_area []). Qed.

(** Away from the variables of the console, and in the image. *)
Definition literal_placed (s : string) : bool :=
  let a := lit s in let n := Z.of_nat (length (codes s)) + 1 in
  hasb board_bytes a (codes s ++ [0]) && (0x100000 <=? a) && (a + n <=? 0x102000).

Lemma board_literals s : s ∈ kernel_literals -> literal board_memory s /\ in_image (lit s) (Z.of_nat (length (codes s)) + 1).
Proof.
  assert (forallb literal_placed kernel_literals = true) as Hall by (by vm_compute).
  rewrite List.forallb_forall in Hall. intros Hs%list_elem_of_In%Hall. unfold literal_placed in Hs. cbv zeta in Hs.
  rewrite !andb_true_iff, !Z.leb_le in Hs. destruct Hs as [[Hh Ha] Hn]. split; [split|].
  - apply has_union_l. by apply hasb_has.
  - unfold clear, off_screen, VGA_MEMORY. cbn [putchar_var printf_area board_layout] in *. intros x Hx. lia.
  - unfold in_image. cbn [kernel_start kernel_end board_image]. lia.
Qed.

Lemma board_file : has board_memory 0x105000 (file_of demo_es).
Proof. apply has_union_l, hasb_has. by vm_compute. Qed.

Lemma board_bootable : bootable board_info demo_es board_kernel.
Proof.
  split.
  - exact board_screen.
  - unfold in_image. cbn [putchar_var printf_area board_layout kernel_start kernel_end board_image].
    split_and!; [lia..| |by apply board_mapped|left; lia].
    pose proof (board_mapped 0x102000 1 ltac:(lia) ltac:(lia) 0 ltac:(lia)) as Hm. by rewrite Z.add_0_r in Hm.
  - exact board_literals.
  - done.
  - done.
  - done.
  - done.
  - unfold in_image. cbn [aha_block_list aha_big_list kernel_start kernel_end board_image]. lia.
  - done.
  - exact board_mem_start.
  - exact board_room.
  - intros x Hx Hlow. apply board_available in Hx. pose proof (board_mapped x 1 Hlow ltac:(lia) 0 ltac:(lia)) as Hm.
    by rewrite Z.add_0_r in Hm.
  - intros _. split_and!; [done|apply demo_loaded|exact board_file|by vm_compute|by vm_compute].
Qed.

Lemma kernel_main_boots_witness :
  (exists k, kernel_main 3 0 board_info board_kernel = Ok (tt, k) /\ interrupt_flag (k_kern k) = false) /\
  wp (kernel_stop 3) (kernel_main 3 MULTIBOOT_BOOTLOADER_MAGIC board_info) (fun _ k =>
    k_nb_syms (k_kern k) = 2 /\ paging_enabled (k_sys k) = true /\ ready (kworld k) /\ ran 3 (kworld k)) board_kernel.
Proof.
  destruct (kernel_main_boots board_info demo_es 3 board_kernel board_bootable) as [Hno Hyes]. split.
  - destruct (Hno 0 ltac:(discriminate)) as (k & Hk & _ & Hf & _). exists k. exact (conj Hk Hf).
  - eapply wp_mono; [exact Hyes|]. intros u k (Ha & Hp & _ & Hr & Hn).
    destruct (ar_symbols _ _ _ _ Ha eq_refl) as [Hs _]. exact (conj Hs (conj Hp (conj Hr Hn))).
Defined.
